(* ===== verification/_CoqProject ===== *)
-Q . S2P
Prelude.v
PyDecimal.v
PyDecimalFacts.v
PyDecimalPlain.v
PyFloat.v
PyFloatFacts.v
PyFormat.v
PyFloatOrder.v
PyTime.v
PyTimeFacts.v
PyValue.v
PyCalendar.v
PyCalendarFacts.v
LegStateMachine.v
LegStateMachineFacts.v
CapitalReservations.v
CapitalReservationsFacts.v
SettlementLifecycle.v
SettlementLifecycleFacts.v
SafeMode.v
ExchangeFilters.v
ExchangeFiltersFacts.v
AccountReconciliation.v
AccountReconciliationFacts.v
Treasury.v
Cooldown.v
CooldownFacts.v
DomainUnits.v
Incidents.v
IncidentsFacts.v
FundingCalendar.v
FundingCalendarFacts.v
AccountTruth.v
AccountTruthFacts.v
FeedRecovery.v
FeedRecoveryFacts.v
EconomicLedger.v
EconomicLedgerFacts.v
EconomicProjectionFacts.v
EconomicBuilderFacts.v
PyJson.v
PyJsonFacts.v
ExchangeStatements.v
StatementStore.v
StatementStoreFacts.v
StatementStoreProps.v
ExchangeStatementsFacts.v
StatementLineage.v
CoreConfig.v
ConfigManager.v
IpcProtocol.v
IpcProtocolFacts.v
CommandOutbox.v
CommandOutboxFacts.v
ConfigManagerFacts.v
RotationPolicy.v
RotationPolicyFacts.v
HoldExitPolicy.v
HoldExitPolicyFacts.v
OpportunityKernel.v
OpportunityKernelFacts.v
FundingForecast.v
FundingForecastFacts.v
LiveApproval.v
LiveApprovalFacts.v
