(* ===== verification/Prelude.v ===== *)
(** * Bongus: verification library of the funding-arbitrage bot (root file)

    The bot holds delta-neutral pairs (a spot leg and a perpetual leg of one symbol)
    to collect funding payments.  A Python process decides, reserves capital, checks
    orders and keeps durable state; a Rust engine sends the orders and reports what
    the exchange did.  This library models the Python modules that carry the safety
    of money and positions and proves what makes them correct.

    ** How the modelled parts interact

    An entry is admitted by the reservation book, its orders pass the exchange
    filters, its two legs run through the execution cycle, which closes only on
    exchange-verified terminal legs, and the reservation is released only on terminal
    proof.  Cooldowns block further entries.  The fills and cash flows of the cycle
    become events of the economic ledger, which ingests each of them once and whose
    projection is reconciled with the balances of the exchange;
    the rows of the account statements are journalled with their cash flow and a cursor.  The funding calendar
    gives the settlements of a symbol; at each of them the settlement lifecycle decides
    which cycles were eligible and reconciles the cash.  Market data reach the strategies
    through feed cursors, which hand every message over once and stop at a gap until it
    is filled.  A signed account snapshot is normalized into the account truth, and the
    account reconciliation compares the exchange with the local projection and gates
    readiness; the treasury reads the free capital of the book and a reconciliation
    report.  Safe-mode flags and supervisor incidents survive restarts and gate the
    recovery.  A funding forecast prices each settlement of the calendar from observations
    of before the decision, the opportunity kernel turns such settlements and the costs
    into the edge of an opportunity, and the hold/exit and rotation policies decide what
    becomes of a pair that is held.  In live mode every entry needs a signed approval.

    ** Files

    Language models (no code of the repository; what the source uses of Python):
    - this file: results and exceptions ([result], the state-and-error monad [M]),
      ASCII strings with the [str] methods, ordered dictionaries [dict], stable sorts;
      the hint databases [py] and [py_rw], the tactics [res_inv], [bool_props] and
      [case_goal], and the lemmas on lists, dictionaries and strings that are shared;
    - [PyDecimal], [PyDecimalFacts], [PyDecimalPlain]: [decimal.Decimal] under the default
      context (28 digits, half-even, the traps), rounding bounds, exactness, parse/print,
      [normalize] and the plain format;
    - [PyFloat], [PyFloatFacts]: binary64 on the Standard Library's [SpecFloat], with its
      order and the half-unit bound of its quotients; [PyFloatOrder] has the rounded
      operations respect that order; [PyFormat] is the format [.2f];
    - [PyTime], [PyTimeFacts]: [timedelta], [fromtimestamp], seconds in floating point;
    - [PyValue]: untyped Python values, [str], truth, [json.dumps], SHA-256;
    - [PyJson], [PyJsonFacts]: [json.loads], [json.dumps] with [repr] of floats, and [==] of
      decoded values; a decoded value is serialized to a text that decodes to it;
    - [PyCalendar], [PyCalendarFacts]: the Gregorian calendar, [isoformat] and
      [fromisoformat], whose texts are ordered as the instants and read back.

    Components; the operations keep the names of the code:
    - [LegStateMachine]: src/bongus/engine/leg_state_machine.py.  State
      [HedgeCycleState]; [entry], [exit], [apply], [residual_repair], [observe_risk],
      [to_snapshot], [from_snapshot].
    - [CapitalReservations]: src/bongus/portfolio/capital_reservations.py.  State
      [book] (rows and event journal); [reserve], [mark_dispatched],
      [mark_delivery_unknown], [release], [projection], [active].
    - [SettlementLifecycle]: src/bongus/market_data/settlement_lifecycle.py.  State
      [lifecycle]; [add_window], [observe_rate], [evaluate].
    - [SafeMode]: src/bongus/engine/safe_mode.py (model and properties).
    - [ExchangeFilters]: src/bongus/engine/exchange_filters.py.  State [registry];
      [parse_binance_symbol_metadata], [replace_market], [validate_order].
    - [AccountReconciliation]: src/bongus/engine/account_reconciliation.py; the phases
      of [reconcile_account_snapshot] are definitions of their own, in its order.
    - [Treasury]: src/bongus/portfolio/treasury.py (model and properties); it calls
      [CapitalReservations.projection] and reads an [AccountReconciliation] report.
    - [Cooldown]: src/bongus/engine/cooldown_manager.py.  State [manager] with the
      table it mirrors; activation, queries, [new_manager] for a restart.
    - [DomainUnits]: src/bongus/domain/units.py (model and properties).
    - [Incidents]: src/bongus/supervisor/incidents.py with the enumerations of
      models.py and the two tables of store.py.  State [store]; [observe], [_claim],
      [_finish_attempt], [run_due], [acknowledge], the recovery at startup.
    - [FundingCalendar]: src/bongus/market_data/funding_calendar.py.  State
      [FundingCalendar]; the two response handlers, [next_settlement],
      [settlements_between], [clamp_rate].
    - [AccountTruth]: src/bongus/engine/account_truth.py.  The list of missing fields is
      the state of the readers; [_normalize_spot], [_normalize_futures],
      [normalize_binance_account_truth].
    - [FeedRecovery]: src/bongus/market_data/feed_recovery.py.  State [store] (cursors and
      events); [ingest], [apply_backfill], [record_gap], [record_readiness_proof],
      [classify_metadata]; the rate-limit [budget]; [classify]; the clock check.
    - [EconomicLedger]: src/bongus/engine/economic_ledger.py.  State [table];
      [build_fill_events], [build_cashflow_event], [ingest_economic_events],
      [read_economic_events], [project_economic_ledger], [reconcile_economic_ledger].
    - [ExchangeStatements], [StatementStore]:
      src/bongus/engine/exchange_statements.py with the statement writers of
      state_store.py and split_state_store.py.  State [stores]: one or two connections
      with their tables and the durable states of the current call, and, in the surroundings of a
      call, the clocks and what the database answers to the write of the cursor;
      [normalize_binance_futures_income], [normalize_binance_margin_interest],
      [_validate_normalized_statement], [ingest_exchange_statement], the writers, the
      reads, and the relation [reachable] of calls and killed processes.
    - [CoreConfig], [ConfigManager]: the constants of src/bongus/core/config.py and
      src/bongus/core/config_manager.py.  State [manager] (values, hash, modification
      time, file); [validate_live_config], [_try_load], [write_overrides],
      [canonical_snapshot].
    - [IpcProtocol]: src/bongus/ipc/protocol.py; [canonical_command_body],
      [canonical_command_bytes], [build_command_envelope], [validate_ack],
      [validate_terminal_order_event].
    - [CommandOutbox]: the command tables of state_store.py and src/bongus/ipc/execution.py.
      State [client]: the tables, what has been on the wire, and what the socket will do;
      [reserve_execution_command], [apply_execution_command_ack], [send_order_intent],
      [handle_ack], [replay_pending], and the relation [reachable] of calls, restarts and
      kills.
    - [RotationPolicy]: src/bongus/portfolio/rotation_policy.py and [HoldExitPolicy]:
      src/bongus/strategies/hold_exit_policy.py; [decide], with the reasons it collects,
      in the operations of binary64.
    - [OpportunityKernel]: src/bongus/strategies/opportunity_kernel.py;
      [evaluate_opportunity] and, as definitions of their own, the groups of its reasons
      and the scan of the settlements.
    - [FundingForecast]: src/bongus/market_data/settlement_model.py.  State
      [SettlementFundingModel] (histories and their keys); [observe], [observe_many],
      [history_snapshot], [forecast], [calibration_report].  The power and the error
      function of the C library are parameters.
    - [LiveApproval]: src/bongus/core/live_approval.py and the three methods of
      src/scripts/live_trader_v2.py that keep an approval.  State [trader];
      [sign_live_approval], [verify_live_approval],
      [_validate_live_config_for_startup], [_bind_live_approval_to_exchange_account],
      [_live_approval_entry_block_reason].  The file system of each call, [json.loads]
      and the resolution of a path are parameters.

    A file [<Component>Facts] holds the lemmas, theorems and concrete witnesses; those of
    the ledger are split into [EconomicLedgerFacts] (ingestion and reading),
    [EconomicProjectionFacts] (exact sums, reconciliation) and [EconomicBuilderFacts]
    (what the fill builder builds is accepted), those of the statements into
    [ExchangeStatementsFacts] (what the normalizers build), [StatementStoreFacts] (the
    cases of one call), [StatementStoreProps] (the guarantees of the store) and
    [StatementLineage] (replays).

    ** What the theorems show

    - Execution cycle: completion is sound (both legs verified and terminal, exact delta
      within tolerance, no breach), reachable states are well formed, fills are
      monotone, redelivery is idempotent, breaches are permanent, a raising call is
      atomic, snapshots round-trip, repairs close the gap.
    - Capital: dispatched capital is released only on proof; an admitted entry stays
      within the gross cap and leaves the protected reserves; requests are atomic and
      never claimed twice; the journal determines the table.
    - Orders: an accepted order satisfies every filter, its notional being that of its own
      price or, at the market, of the reference price; metadata is well formed and
      replaced atomically.
    - Settlement: half-open eligibility, only rates known at the instant, independence
      of the observation order, cash from the exchange statement only.  A range yields
      exactly its settlements although its first one is computed in floating point, and
      its loop ends.
    - Feeds: the receiver gets each message once and in order (refinement of an abstract
      receiver); a gap blocks until it is proven closed and its backfill closes it; no
      request is granted before the retry-after of the exchange.
    - Ledger: ingestion is atomic, append-only and idempotent; stored rows satisfy the
      rules of their type; reading by texts is reading by instants; the projection is the
      exact sum; a matched reconciliation is explained within its tolerance; the built
      fills are accepted.
    - Statements: in every durable state no cursor is without evidence and the journal and
      the ledger agree; a killed recording is completed by its retry; a call that raises
      moves no cursor, and changes nothing unless the database refuses to write the cursor
      in its own file; a row books exactly what the payload states and a replay books nothing,
      whatever accepted lineage it brings; reads never fail and return what was stored.
    - Configuration: the values keep the keys and types of the defaults; in live mode no
      history of files and writes passes a reviewed limit; a reload takes a whole validated
      file or nothing, and renews the hash.
    - Commands: the hashed bytes determine the command, and its hash does not depend on
      the envelope; an accepted exit never sells more than is held; only recorded commands
      are transmitted, an intent has one content, an acknowledged command never goes back,
      reservations are idempotent, and a replay sends exactly the pending commands in time.  The optional
      serializers [orjson] and [msgpack] are parameters: the theorems assume of the serializer in use only that the text
      of an object of texts, integers, booleans, nulls and finite floats decodes to that object, and of [msgpack] nothing, or that it encodes
      the messages at hand.
    - Policies: the exact condition of each action; unsound inputs never trade
      and stale ones only in an emergency, an entry lock never blocks an exit, a rotation takes at most the position and the
      capacity of the candidate.  A nan in an amount the code does not check gets through,
      which concrete evaluations show.
    - Opportunities: the exact conditions of a valid and of an eligible evaluation; a valid
      one has counted every settlement once, in order and inside its horizon.
    - Forecasts: the keys of a history are those of its observations; observations of after
      a decision leave its forecast alone while the history has room for them (and need not
      when it has not); a forecast pays each settlement of the calendar.
    - Live approval: a verified artifact is signed over what it grants and its digests are
      those of the files; after any history of starts and bindings an entry in live mode
      passes only under an artifact that one of those starts read and verified with its key.
    - Account: a complete account truth is the payload, field by field, and its two
      position projections agree; ready means that every open order and every readable
      position of the snapshot is accounted for; every exposure
      is classified once, only orders of the bot's namespace may be cancelled; treasury
      proposals take only the surplus and need a ready report.
    - Restarts: safe-mode flags, cooldowns and incident budgets are what they were;
      a cooldown is never released early; an incident is resolved only with proof.
    - Units: the matched bundle never fails its own check; reversing a direction
      negates the cash flow exactly.

    ** Conventions and bounds

    Every definition is executable; state-changing operations have type
    [M State A] and return the state they leave behind, also when they raise.  An
    SQLite table is the list of its rows and a rolled-back transaction the state
    before it.  Clocks, random identifiers and configuration values are arguments.
    Texts are ASCII; a time is its UTC instant in microseconds, or its ISO text where
    the code stores and compares texts.  Loops over data are structural; the fuel of
    the digit printer is the bit size of the number (enough, since a decimal digit
    takes more than three bits), that of the hash the number of blocks, that of the
    settlement loop its own safety limit (enough by a theorem).  Decimal
    results are exact or carry their rounding: the capital theorem, which needs exact
    sums, assumes amounts that are multiples of 10^-12 up to 10^10 and at most
    100,000 rows, where 28 digits suffice, and the ledger projection the same amounts
    and at most 80,000 rows.  That the code's mismatch of a cycle is the exact net delta
    assumes quantities that are multiples of 10^-8 up to 10^10 and a multiplier that is
    one of 10^-4 up to 1000.  The gross notional of a projection is not exact: it is
    stated as the running sum with its roundings.  The settlement theorems assume instants within 2^52
    microseconds (142 years) of the known settlement, where the rounded seconds decide
    as the exact ones.  No other theorem has such a bound.

    ** What is not modelled

    The trading loop of scripts/live_trader_v2.py (apart from its approval checks), the
    scoring of the decision engine, portfolio optimisation, exchange adapters, research,
    monitoring and storage maintenance are network, file or floating-point scoring code
    around the parts above; of the market data only the feed cursors, the funding calendar,
    the funding forecasts and the settlement lifecycle are modelled; the Rust engine is
    another implementation.  Locks and threads are left out: the operations of a
    component follow one another, which a class that holds a lock ensures for itself.  The
    reservation book holds none: its histories assume one operation at a time, and the
    example [CapitalReservationsFacts.release_races_dispatch] shows what a dispatch does
    between the two halves of a release.  Of the modelled files, formatting for display
    ([CooldownManager.snapshot], [IncidentCoordinator.events]) and one-time schema
    migration are left out.

    ** Plan

    The parts whose state decides over money and positions are modelled.  What could follow:
    the allocation of the portfolio over candidates, and a type class for what the
    reservation book and the reconciliation report promise to the treasury and to the
    trading loop, so that clients are proved against it. *)
From Stdlib Require Import ZArith Lia Ascii.
From Stdlib Require String.
From stdpp Require Import base list strings gmap sorting.

(** ** Results: a Python call returns a value or raises an exception *)

(** The exception classes raised by the modelled code.  [InvalidOperation],
    [DivisionByZero] and [Overflow] are the trapped signals of [decimal]. *)
Inductive exn_kind :=
  | ValueError
  | TypeError
  | KeyError
  | RuntimeError
  | OverflowError
  | OSError
  | AssertionError
  | AttributeError
  | IntegrityError
  | ExecutionInvariantError
  | ReservationError
  | IncompleteExchangeMetadata
  | IncidentTransitionError
  | LedgerValidationError
  | LedgerIdempotencyConflict
  | ExchangeStatementValidationError
  | ExchangeStatementIdempotencyConflict
  | ExecutionProtocolError
  | TelemetryProtocolError
  | TelemetryAcknowledgementError
  | LiveApprovalError
  | InvalidOperation
  | DivisionByZero
  | Overflow.

Record exn := Exn { exn_class : exn_kind; exn_message : string }.

Inductive result (A : Type) :=
  | Ok (a : A)
  | Err (e : exn).
Arguments Ok {A} a.
Arguments Err {A} e.

Definition res_bind {A B} (m : result A) (f : A -> result B) : result B :=
  match m with Ok a => f a | Err e => Err e end.

Definition res_map {A B} (f : A -> B) (m : result A) : result B :=
  res_bind m (fun a => Ok (f a)).

Definition raise {A} (k : exn_kind) (msg : string) : result A := Err (Exn k msg).

(** [try: m except (ks): raise k(msg)]: replaces the exceptions [catch] selects. *)
Definition res_catch {A} (m : result A) (catch : exn_kind -> bool) (h : result A) : result A :=
  match m with
  | Ok a => Ok a
  | Err e => if catch (exn_class e) then h else Err e
  end.

Definition is_ok {A} (m : result A) : bool :=
  match m with Ok _ => true | Err _ => false end.

Declare Scope py_scope.
Delimit Scope py_scope with py.
Notation "'let!' x := e1 'in' e2" := (res_bind e1 (fun x => e2))
  (at level 10, x name, e1 at level 100, e2 at level 200) : py_scope.
Notation "'let!' ' p := e1 'in' e2" := (res_bind e1 (fun x => match x with p => e2 end))
  (at level 10, p pattern, e1 at level 100, e2 at level 200) : py_scope.
Open Scope py_scope.

(** Left-to-right evaluation of a list of fallible computations. *)
Fixpoint res_map_list {A B} (f : A -> result B) (l : list A) : result (list B) :=
  match l with
  | [] => Ok []
  | x :: l' => let! y := f x in let! ys := res_map_list f l' in Ok (y :: ys)
  end.

(** A fallible left fold, as a [for] loop that updates an accumulator. *)
Fixpoint res_fold {A B} (f : B -> A -> result B) (acc : B) (l : list A) : result B :=
  match l with
  | [] => Ok acc
  | x :: l' => let! acc' := f acc x in res_fold f acc' l'
  end.

(** ** Mutating operations: the state after the call is kept on errors too *)

Definition M (S A : Type) : Type := S -> result A * S.

Definition m_ret {S A} (a : A) : M S A := fun s => (Ok a, s).
Definition m_raise {S A} (k : exn_kind) (msg : string) : M S A := fun s => (raise k msg, s).
Definition m_bind {S A B} (m : M S A) (f : A -> M S B) : M S B :=
  fun s => match m s with
           | (Ok a, s') => f a s'
           | (Err e, s') => (Err e, s')
           end.
(** A pure, possibly raising, expression that reads the state. *)
Definition m_lift {S A} (r : result A) : M S A := fun s => (r, s).
Definition m_get {S} : M S S := fun s => (Ok s, s).
Definition m_put {S} (s' : S) : M S unit := fun _ => (Ok tt, s').

Notation "'do!' x := e1 'in' e2" := (m_bind e1 (fun x => e2))
  (at level 10, x name, e1 at level 100, e2 at level 200) : py_scope.

(** ** Strings (ASCII), as the [str] methods the code uses *)

Definition ascii_code (c : ascii) : nat := nat_of_ascii c.

(** [str.isspace] on ASCII: TAB..CR, FS..US and the space. *)
Definition is_py_space (c : ascii) : bool :=
  let n := ascii_code c in
  (Nat.leb 9 n && Nat.leb n 13) || (Nat.leb 28 n && Nat.leb n 32).

Fixpoint lstrip (s : string) : string :=
  match s with
  | EmptyString => EmptyString
  | String c r => if is_py_space c then lstrip r else s
  end.

Fixpoint rstrip (s : string) : string :=
  match s with
  | EmptyString => EmptyString
  | String c r =>
      match rstrip r with
      | EmptyString => if is_py_space c then EmptyString else String c EmptyString
      | r' => String c r'
      end
  end.

(** [s.strip()] *)
Definition strip (s : string) : string := rstrip (lstrip s).

Definition upper_ascii (c : ascii) : ascii :=
  let n := ascii_code c in
  if Nat.leb 97 n && Nat.leb n 122 then ascii_of_nat (n - 32) else c.
Definition lower_ascii (c : ascii) : ascii :=
  let n := ascii_code c in
  if Nat.leb 65 n && Nat.leb n 90 then ascii_of_nat (n + 32) else c.

Fixpoint str_map (f : ascii -> ascii) (s : string) : string :=
  match s with
  | EmptyString => EmptyString
  | String c r => String (f c) (str_map f r)
  end.
(** [s.upper()] and [s.lower()] *)
Definition upper : string -> string := str_map upper_ascii.
Definition lower : string -> string := str_map lower_ascii.

(** Truth value of a string. *)
Definition nonempty (s : string) : bool :=
  match s with EmptyString => false | _ => true end.

(** [a or b] on strings *)
Definition str_or (a b : string) : string := if nonempty a then a else b.

Fixpoint startswith (p s : string) : bool :=
  match p, s with
  | EmptyString, _ => true
  | String a p', String b s' => Ascii.eqb a b && startswith p' s'
  | _, _ => false
  end.

Definition str_rev (s : string) : string := String.rev s.
Definition endswith (p s : string) : bool := startswith (str_rev p) (str_rev s).

(** [sub in s] *)
Fixpoint str_contains (sub s : string) : bool :=
  startswith sub s || match s with EmptyString => false | String _ r => str_contains sub r end.

Fixpoint str_forallb (f : ascii -> bool) (s : string) : bool :=
  match s with
  | EmptyString => true
  | String c r => f c && str_forallb f r
  end.

Fixpoint str_filter (f : ascii -> bool) (s : string) : string :=
  match s with
  | EmptyString => EmptyString
  | String c r => if f c then String c (str_filter f r) else str_filter f r
  end.

(** [s[:n]] *)
Fixpoint str_take (n : nat) (s : string) : string :=
  match n, s with
  | S n', String c r => String c (str_take n' r)
  | _, _ => EmptyString
  end.

(** [sep.join(l)] *)
Fixpoint str_join (sep : string) (l : list string) : string :=
  match l with
  | [] => EmptyString
  | [x] => x
  | x :: l' => String.append x (String.append sep (str_join sep l'))
  end.

(** ** Lists *)

Definition str_in (x : string) (l : list string) : bool := bool_decide (x ∈ l).

(** [tuple(dict.fromkeys(l))]: first occurrences, in order. *)
Fixpoint dedupe_from {A} `{EqDecision A} (seen l : list A) : list A :=
  match l with
  | [] => []
  | x :: l' =>
      if bool_decide (x ∈ seen) then dedupe_from seen l'
      else x :: dedupe_from (x :: seen) l'
  end.
Definition dedupe {A} `{EqDecision A} (l : list A) : list A := dedupe_from [] l.

(** [if b: reasons.append(r)] *)
Definition reason_if (b : bool) (r : string) : list string := if b then [r] else [].

(** [sorted(l, key=...)]: a stable sort for the boolean order [leb]. *)
Fixpoint insert_by {A} (leb : A -> A -> bool) (x : A) (l : list A) : list A :=
  match l with
  | [] => [x]
  | y :: l' => if leb x y then x :: l else y :: insert_by leb x l'
  end.
Fixpoint sort_by {A} (leb : A -> A -> bool) (l : list A) : list A :=
  match l with
  | [] => []
  | x :: l' => insert_by leb x (sort_by leb l')
  end.

(** [sorted] on strings (code-point order). *)
Definition sort_strings : list string -> list string := sort_by String.leb.

(** [list.extend(x for x in new if x not in l)]: the generator reads the list
    while it is being extended, so duplicates inside [new] are dropped too. *)
Fixpoint extend_absent (l new : list string) : list string :=
  match new with
  | [] => l
  | x :: new' => if str_in x l then extend_absent l new' else extend_absent (l ++ [x]) new'
  end.

(** ** Dictionaries with insertion order (association lists) *)

Definition dict (V : Type) : Type := list (string * V).

Fixpoint dict_get {V} (d : dict V) (k : string) : option V :=
  match d with
  | [] => None
  | (k', v) :: d' => if String.eqb k k' then Some v else dict_get d' k
  end.

(** [d[k] = v]: an existing key keeps its position. *)
Fixpoint dict_set {V} (d : dict V) (k : string) (v : V) : dict V :=
  match d with
  | [] => [(k, v)]
  | (k', v') :: d' => if String.eqb k k' then (k', v) :: d' else (k', v') :: dict_set d' k v
  end.

Definition dict_has {V} (d : dict V) (k : string) : bool :=
  match dict_get d k with Some _ => true | None => false end.

Definition dict_del {V} (d : dict V) (k : string) : dict V :=
  List.filter (fun kv => negb (String.eqb k (fst kv))) d.

(** [dict(pairs)]: later pairs win. *)
Definition dict_of {V} (l : list (string * V)) : dict V :=
  fold_left (fun d kv => dict_set d (fst kv) (snd kv)) l [].

Definition dict_keys {V} (d : dict V) : list string := map fst d.

(** [sorted(d.items())] for a dictionary: the keys are distinct. *)
Definition dict_sorted {V} (d : dict V) : dict V :=
  sort_by (fun a b => String.leb (fst a) (fst b)) d.

(** ** Proof automation *)

Create HintDb py discriminated.
Create Rewrite HintDb py_rw.

Lemma Ok_inj {A} (a b : A) : Ok a = Ok b -> a = b.
Proof. congruence. Qed.

Lemma res_bind_Ok {A B} (m : result A) (f : A -> result B) b :
  res_bind m f = Ok b <-> exists a, m = Ok a /\ f a = Ok b.
Proof. destruct m; simpl; naive_solver. Qed.

Lemma res_bind_Err {A B} (m : result A) (f : A -> result B) e :
  res_bind m f = Err e <-> m = Err e \/ exists a, m = Ok a /\ f a = Err e.
Proof. destruct m; simpl; naive_solver. Qed.

Lemma res_bind_assoc {A B C} (m : result A) (f : A -> result B) (g : B -> result C) :
  res_bind (res_bind m f) g = res_bind m (fun a => res_bind (f a) g).
Proof. by destruct m. Qed.

Lemma res_bind_ret {A} (m : result A) : res_bind m (@Ok A) = m.
Proof. by destruct m. Qed.

Lemma pair_snd {A B} (x : A * B) a : fst x = a -> x = (a, snd x).
Proof. by destruct x; simpl; intros ->. Qed.

Lemma is_ok_spec {A} (m : result A) : is_ok m = true <-> exists a, m = Ok a.
Proof. destruct m; naive_solver. Qed.

(** Breaks a hypothesis [H : m = Ok r] over the binds and tests of [m]. *)
Ltac res_inv1 H :=
  lazymatch type of H with
  | Ok _ = Ok _ => apply Ok_inj in H
  | Err _ = Ok _ => discriminate H
  | Ok _ = Err _ => discriminate H
  | raise _ _ = Ok _ => discriminate H
  | res_bind ?m _ = Ok _ =>
      let a := fresh "x" in let E := fresh "Hb" in
      apply res_bind_Ok in H; destruct H as (a & E & H)
  | (if ?b then _ else _) = Ok _ =>
      let E := fresh "Ht" in destruct b eqn:E
  | match ?m with _ => _ end = Ok _ =>
      let E := fresh "Hm" in destruct m eqn:E
  end.
Ltac res_inv H := repeat (res_inv1 H; try discriminate H); simplify_eq.

(** Boolean tests as propositions. *)
Ltac bool_props :=
  repeat match goal with
  | H : andb _ _ = true |- _ => apply andb_true_iff in H; destruct H
  | H : orb _ _ = false |- _ => apply orb_false_iff in H; destruct H
  | H : negb _ = true |- _ => apply negb_true_iff in H
  | H : negb _ = false |- _ => apply negb_false_iff in H
  | H : String.eqb _ _ = true |- _ => apply String.eqb_eq in H
  | H : String.eqb _ _ = false |- _ => apply String.eqb_neq in H
  | H : bool_decide _ = true |- _ => apply bool_decide_eq_true in H
  | H : bool_decide _ = false |- _ => apply bool_decide_eq_false in H
  | H : Z.leb _ _ = true |- _ => apply Z.leb_le in H
  | H : Z.leb _ _ = false |- _ => apply Z.leb_gt in H
  | H : Z.ltb _ _ = true |- _ => apply Z.ltb_lt in H
  | H : Z.ltb _ _ = false |- _ => apply Z.ltb_ge in H
  | H : Z.eqb _ _ = true |- _ => apply Z.eqb_eq in H
  | H : Z.eqb _ _ = false |- _ => apply Z.eqb_neq in H
  end.

(** Case analysis on the next test of the goal. *)
Ltac case_goal :=
  match goal with
  | |- context [if ?b then _ else _] => let E := fresh "Hc" in destruct b eqn:E
  | |- context [match ?m with _ => _ end] => let E := fresh "Hc" in destruct m eqn:E
  end.

(** ** Lemmas: lists *)

Lemma res_map_list_length {A B} (f : A -> result B) l ys :
  res_map_list f l = Ok ys -> length ys = length l.
Proof.
  revert ys; induction l as [|x l IH]; simpl; intros ys H; res_inv H; simpl; auto.
Qed.

Lemma res_map_list_total {A B} (f : A -> result B) l :
  (forall x, x ∈ l -> exists y, f x = Ok y) -> exists ys, res_map_list f l = Ok ys.
Proof.
  induction l as [|x l IH]; simpl; intros H; [by eexists|].
  destruct (H x) as [y ->]; [set_solver|]; simpl.
  destruct IH as [ys ->]; [set_solver|]; simpl; eauto.
Qed.

Lemma res_map_list_map {A B} (f : A -> result B) (g : A -> B) l :
  (forall x, x ∈ l -> f x = Ok (g x)) -> res_map_list f l = Ok (map g l).
Proof.
  induction l as [|x l IH]; simpl; intros H; [done|].
  rewrite H by set_solver; simpl. rewrite IH by set_solver. done.
Qed.

Lemma str_in_spec x l : str_in x l = true <-> x ∈ l.
Proof. apply bool_decide_eq_true. Qed.

Lemma reason_if_nil b r : reason_if b r = [] <-> b = false.
Proof. by destruct b. Qed.

Lemma flat_map_nil {A B} (f : A -> list B) l : flat_map f l = [] <-> forall x, x ∈ l -> f x = [].
Proof.
  induction l as [|x l IH]; simpl; [set_solver|]. rewrite app_nil, IH. set_solver.
Qed.

Lemma existsb_false {A} (f : A -> bool) l : existsb f l = false <-> forall x, x ∈ l -> f x = false.
Proof. induction l as [|x l IH]; simpl; [set_solver|]. rewrite orb_false_iff, IH. set_solver. Qed.

(** No reason is given for any item exactly when the test fails for all. *)
Lemma reasons_per_item {A} (f : A -> bool) (g : A -> string) l :
  flat_map (fun x => reason_if (f x) (g x)) l = [] <-> forall x, x ∈ l -> f x = false.
Proof. rewrite flat_map_nil. by setoid_rewrite reason_if_nil. Qed.

Lemma insert_by_perm {A} (leb : A -> A -> bool) x l : insert_by leb x l ≡ₚ x :: l.
Proof.
  induction l as [|y l IH]; simpl; [done|].
  destruct (leb x y); [done|]. rewrite IH. apply Permutation_swap.
Qed.

Lemma sort_by_perm {A} (leb : A -> A -> bool) l : sort_by leb l ≡ₚ l.
Proof. induction l as [|x l IH]; simpl; [done|]. by rewrite insert_by_perm, IH. Qed.

Lemma elem_of_sort_by {A} (leb : A -> A -> bool) x l : x ∈ sort_by leb l <-> x ∈ l.
Proof. by rewrite (sort_by_perm leb l). Qed.

Lemma sort_strings_perm l : sort_strings l ≡ₚ l.
Proof. apply sort_by_perm. Qed.

(** A sort is canonical: it depends on the elements only, not on their order,
    when the order is total and identifies no two of them. *)
Section SortCanonical.
Context {A : Type} (leb : A -> A -> bool).
Context (leb_total : forall x y, leb x y = false -> leb y x = true).
Context (leb_trans : forall x y z, leb x y = true -> leb y z = true -> leb x z = true).

Lemma insert_by_sorted x l :
  StronglySorted (fun a b => leb a b = true) l -> StronglySorted (fun a b => leb a b = true) (insert_by leb x l).
Proof.
  induction 1 as [|y l Hl IH Hy]; simpl; [repeat constructor|].
  destruct (leb x y) eqn:E; constructor; try done.
  - by constructor.
  - constructor; [done|]. eapply Forall_impl; [exact Hy|]. simpl. eauto.
  - rewrite insert_by_perm. constructor; [by apply leb_total|done].
Qed.

Lemma sort_by_sorted l : StronglySorted (fun a b => leb a b = true) (sort_by leb l).
Proof. induction l; simpl; [constructor|by apply insert_by_sorted]. Qed.

Lemma sort_by_perm_eq l1 l2 :
  (forall x y, x ∈ l1 -> y ∈ l1 -> leb x y = true -> leb y x = true -> x = y) ->
  l1 ≡ₚ l2 -> sort_by leb l1 = sort_by leb l2.
Proof.
  intros Hanti Hp. apply (StronglySorted_unique_strong (fun a b => leb a b = true)).
  - intros x y Hx Hy. apply Hanti; [by rewrite elem_of_sort_by in Hx|].
    rewrite elem_of_sort_by in Hy. by rewrite Hp.
  - apply sort_by_sorted.
  - apply sort_by_sorted.
  - by rewrite !sort_by_perm.
Qed.

End SortCanonical.

Lemma string_leb_total x y : String.leb x y = false -> String.leb y x = true.
Proof. unfold String.leb. rewrite (String.compare_antisym x y). by destruct (String.compare y x). Qed.

Lemma string_leb_refl x : String.leb x x = true.
Proof. destruct (String.leb x x) eqn:E; [done|]. by apply string_leb_total in E as E'; rewrite E' in E. Qed.

Lemma string_leb_antisym x y : String.leb x y = true -> String.leb y x = true -> x = y.
Proof.
  unfold String.leb. rewrite (String.compare_antisym y x).
  destruct (String.compare x y) eqn:E; simpl; try done. intros _ _. by apply String.compare_eq_iff.
Qed.

Lemma ascii_compare_N a b : Ascii.compare a b = N.compare (N_of_ascii a) (N_of_ascii b).
Proof. done. Qed.

Lemma string_leb_trans x y z : String.leb x y = true -> String.leb y z = true -> String.leb x z = true.
Proof.
  unfold String.leb. revert y z; induction x as [|a x IH]; intros [|b y] [|c z]; simpl; try done.
  specialize (IH y z). rewrite !ascii_compare_N.
  destruct (N.compare_spec (N_of_ascii a) (N_of_ascii b)) as [E1|E1|E1],
           (N.compare_spec (N_of_ascii b) (N_of_ascii c)) as [E2|E2|E2]; try done; intros H1 H2;
    destruct (N.compare_spec (N_of_ascii a) (N_of_ascii c)) as [E3|E3|E3]; try lia; auto.
Qed.

Lemma dedupe_from_spec {A} `{EqDecision A} (seen l : list A) x :
  x ∈ dedupe_from seen l <-> x ∈ l /\ x ∉ seen.
Proof.
  revert seen; induction l as [|y l IH]; simpl; intros seen; [set_solver|].
  case_bool_decide as E; [rewrite IH; set_solver|].
  rewrite elem_of_cons, IH. destruct (decide (x = y)) as [->|]; set_solver.
Qed.

Lemma elem_of_dedupe {A} `{EqDecision A} (l : list A) x : x ∈ dedupe l <-> x ∈ l.
Proof. unfold dedupe. rewrite dedupe_from_spec. set_solver. Qed.

Lemma dedupe_from_NoDup {A} `{EqDecision A} (seen l : list A) : NoDup (dedupe_from seen l).
Proof.
  revert seen; induction l as [|y l IH]; simpl; intros seen; [constructor|].
  case_bool_decide; [done|]. constructor; [rewrite dedupe_from_spec; set_solver|done].
Qed.

Lemma dedupe_NoDup {A} `{EqDecision A} (l : list A) : NoDup (dedupe l).
Proof. apply dedupe_from_NoDup. Qed.

Lemma dedupe_from_nil_iff {A} `{EqDecision A} (l : list A) : dedupe l = [] <-> l = [].
Proof. destruct l; simpl; [done|]. by split. Qed.

Lemma elem_of_extend_absent l new x : x ∈ extend_absent l new <-> x ∈ l \/ x ∈ new.
Proof.
  revert l; induction new as [|y new IH]; simpl; intros l; [set_solver|].
  unfold str_in. case_bool_decide; rewrite IH; set_solver.
Qed.

Lemma extend_absent_NoDup l new : NoDup l -> NoDup (extend_absent l new).
Proof.
  revert l; induction new as [|y new IH]; simpl; intros l Hl; [done|].
  unfold str_in. case_bool_decide; [auto|]. apply IH.
  apply NoDup_app; split; [done|]. split; [set_solver|]. apply NoDup_singleton.
Qed.

Lemma extend_absent_nil l new : extend_absent l new = [] <-> l = [] /\ new = [].
Proof.
  split; [|by intros [-> ->]]. intros E.
  assert (forall x, x ∉ extend_absent l new) as Hn by (rewrite E; set_solver).
  split; apply elem_of_nil_inv; intros x Hx; apply (Hn x), elem_of_extend_absent; auto.
Qed.

#[export] Hint Resolve extend_absent_NoDup dedupe_NoDup : py.
#[export] Hint Rewrite @elem_of_dedupe elem_of_extend_absent @elem_of_sort_by : py_rw.

(** ** Lemmas: dictionaries *)

Lemma dict_get_set {V} (d : dict V) k v k' :
  dict_get (dict_set d k v) k' = if String.eqb k' k then Some v else dict_get d k'.
Proof.
  induction d as [|[k0 v0] d IH]; simpl.
  - by destruct (String.eqb_spec k' k).
  - destruct (String.eqb_spec k k0) as [->|]; simpl.
    + by destruct (String.eqb_spec k' k0).
    + rewrite IH. destruct (String.eqb_spec k' k0), (String.eqb_spec k' k); congruence.
Qed.

Lemma dict_get_elem {V} (d : dict V) k v : dict_get d k = Some v -> (k, v) ∈ d.
Proof.
  induction d as [|[k0 v0] d IH]; simpl; [done|].
  destruct (String.eqb_spec k k0) as [->|]; set_solver.
Qed.

Lemma dict_get_In {V} (d : dict V) k v : NoDup (dict_keys d) -> (k, v) ∈ d -> dict_get d k = Some v.
Proof.
  induction d as [|[k0 v0] d IH]; simpl; intros Hn Hin; [set_solver|]. apply NoDup_cons in Hn as [Hk Hn].
  apply elem_of_cons in Hin as [[= -> ->]|Hin]; [by rewrite String.eqb_refl|].
  destruct (String.eqb_spec k k0) as [->|]; [|by apply IH].
  exfalso. apply Hk, list_elem_of_fmap. by exists (k0, v).
Qed.

Lemma dict_get_None {V} (d : dict V) k : dict_get d k = None <-> k ∉ dict_keys d.
Proof.
  induction d as [|[k0 v0] d IH]; simpl; [set_solver|].
  destruct (String.eqb_spec k k0) as [->|]; set_solver.
Qed.

Lemma dict_set_new {V} (d : dict V) k v : dict_has d k = false -> dict_set d k v = d ++ [(k, v)].
Proof.
  unfold dict_has. induction d as [|[k0 v0] d IH]; cbn; [done|].
  destruct (String.eqb k k0); [done|]. intros H. by rewrite IH.
Qed.

Lemma dict_keys_set {V} (d : dict V) k v x :
  x ∈ dict_keys (dict_set d k v) <-> x = k \/ x ∈ dict_keys d.
Proof.
  induction d as [|[k0 v0] d IH]; simpl; [set_solver|].
  destruct (String.eqb_spec k k0) as [->|]; simpl; set_solver.
Qed.

Lemma dict_set_NoDup {V} (d : dict V) k v :
  NoDup (dict_keys d) -> NoDup (dict_keys (dict_set d k v)).
Proof.
  induction d as [|[k0 v0] d IH]; simpl; intros H; [repeat constructor; set_solver|].
  inversion H; subst. destruct (String.eqb_spec k k0) as [->|]; simpl; [done|].
  constructor; [|auto]. rewrite dict_keys_set. set_solver.
Qed.

Lemma elem_of_dict_set {V} (d : dict V) k v k' v' :
  (k', v') ∈ dict_set d k v -> (k' = k /\ v' = v) \/ (k', v') ∈ d.
Proof.
  induction d as [|[k0 v0] d IH]; simpl; [set_solver|].
  destruct (String.eqb_spec k k0) as [->|]; set_solver.
Qed.

Lemma elem_of_filter_bool {A} (f : A -> bool) x l : x ∈ List.filter f l <-> x ∈ l /\ f x = true.
Proof. rewrite !list_elem_of_In. apply filter_In. Qed.

Lemma filter_perm {A} (f : A -> bool) (l1 l2 : list A) :
  l1 ≡ₚ l2 -> List.filter f l1 ≡ₚ List.filter f l2.
Proof.
  induction 1 as [|x l1 l2 _ IH|x y l|l1 l2 l3 _ IH1 _ IH2]; simpl; [done|..].
  - destruct (f x); by rewrite IH.
  - destruct (f x), (f y); try done. apply Permutation_swap.
  - by rewrite IH1.
Qed.

Lemma NoDup_filter_bool {A} (f : A -> bool) (l : list A) : NoDup l -> NoDup (List.filter f l).
Proof.
  induction 1 as [|x l Hx _ IH]; simpl; [constructor|]. destruct (f x); [|done].
  constructor; [|done]. rewrite elem_of_filter_bool. tauto.
Qed.

(** The values of a dictionary that files each one under its identifier. *)
Lemma NoDup_values {V} (d : dict V) (id : V -> string) :
  NoDup (map fst d) -> (forall k v, (k, v) ∈ d -> k = id v) -> NoDup (map snd d).
Proof.
  induction d as [|[k v] d IH]; simpl; [constructor|]. intros [Hk Hn]%NoDup_cons Hid. constructor.
  - intros ([k' v'] & E & Hin)%list_elem_of_fmap. simpl in E. subst v'. apply Hk.
    rewrite (Hid k v) by set_solver. apply list_elem_of_fmap. exists (k', v). split; [|done].
    simpl. symmetry. apply Hid. set_solver.
  - apply IH; [done|]. intros k' v' H. apply Hid. set_solver.
Qed.

Lemma last_sorted {A} (leb : A -> A -> bool) l x :
  (forall y, leb y y = true) ->
  StronglySorted (fun a b => leb a b = true) l -> last l = Some x ->
  x ∈ l /\ forall y, y ∈ l -> leb y x = true.
Proof.
  intros Hr. induction 1 as [|y l Hl IH Hy]; [done|]. destruct l as [|z l].
  - intros [= ->]. split; [set_solver|]. intros y Hy'. apply list_elem_of_singleton in Hy' as ->. apply Hr.
  - intros E. change (last (z :: l) = Some x) in E. destruct (IH E) as [Hx Hmax].
    split; [set_solver|]. intros w Hw. apply elem_of_cons in Hw as [->|Hw]; [|by apply Hmax].
    rewrite Forall_forall in Hy. by apply Hy.
Qed.

(** ** Lemmas: the state monad *)

Lemma m_bind_Ok {S A B} (m : M S A) (f : A -> M S B) s b s' :
  m_bind m f s = (Ok b, s') <-> exists a s1, m s = (Ok a, s1) /\ f a s1 = (Ok b, s').
Proof. unfold m_bind. destruct (m s) as [[a|e] s1]; naive_solver. Qed.

(** ** Lemmas: strings *)

Lemma nonempty_false s : nonempty s = false <-> s = "".
Proof. by destruct s. Qed.

Lemma lstrip_idem s : lstrip (lstrip s) = lstrip s.
Proof.
  induction s as [|c s IH]; simpl; [done|].
  destruct (is_py_space c) eqn:E; [done|]. simpl. by rewrite E.
Qed.

Lemma rstrip_cons c s :
  rstrip (String c s) =
  if nonempty (rstrip s) || negb (is_py_space c) then String c (rstrip s) else "".
Proof. simpl. destruct (rstrip s); simpl; [|done]. by destruct (is_py_space c). Qed.

Lemma rstrip_idem s : rstrip (rstrip s) = rstrip s.
Proof.
  induction s as [|c s IH]; [done|]. rewrite rstrip_cons.
  destruct (nonempty (rstrip s) || negb (is_py_space c)) eqn:E; [|done].
  rewrite rstrip_cons, IH, E. done.
Qed.

Lemma lstrip_rstrip s : lstrip (rstrip s) = rstrip (lstrip s).
Proof.
  induction s as [|c s IH]; [done|]. rewrite rstrip_cons. simpl (lstrip (String c s)).
  destruct (is_py_space c) eqn:E; simpl.
  - destruct (rstrip s) eqn:R; simpl; [|by rewrite E, <- R, <- IH, R].
    rewrite <- IH. done.
  - rewrite orb_true_r. simpl. rewrite E. destruct (rstrip s); simpl; by rewrite ?E.
Qed.

Lemma strip_idem s : strip (strip s) = strip s.
Proof. unfold strip. by rewrite lstrip_rstrip, lstrip_idem, rstrip_idem. Qed.

Lemma str_forallb_app f a b :
  str_forallb f (a +:+ b) = str_forallb f a && str_forallb f b.
Proof. induction a as [|c a IH]; simpl; [done|]. rewrite <- andb_assoc, <- IH. done. Qed.

Lemma str_length_app a b : String.length (a +:+ b) = (String.length a + String.length b)%nat.
Proof. induction a as [|c a IH]; simpl; [done|]. by rewrite <- IH. Qed.

Lemma startswith_app p s : startswith p (p +:+ s) = true.
Proof. induction p as [|c p IH]; simpl; [done|]. by rewrite Ascii.eqb_refl, IH. Qed.

Lemma rstrip_nospace s : str_forallb (fun c => negb (is_py_space c)) s = true -> rstrip s = s.
Proof.
  induction s as [|c s IH]; [done|]. simpl (str_forallb _ _). intros H. bool_props.
  rewrite rstrip_cons, IH by done. rewrite H. by rewrite orb_true_r.
Qed.

(** A string without white space is its own [strip]. *)
Lemma strip_nospace s : str_forallb (fun c => negb (is_py_space c)) s = true -> strip s = s.
Proof.
  intros H. unfold strip. assert (lstrip s = s) as ->; [|by apply rstrip_nospace].
  destruct s as [|c s]; [done|]. simpl in *. bool_props. by rewrite H.
Qed.

Lemma str_map_idem f s : (forall c, f (f c) = f c) -> str_map f (str_map f s) = str_map f s.
Proof. intros H. induction s as [|c s IH]; simpl; [done|]. by rewrite H, IH. Qed.

Lemma nonempty_map g s : nonempty (str_map g s) = nonempty s.
Proof. by destruct s. Qed.

Lemma str_length_map g s : String.length (str_map g s) = String.length s.
Proof. induction s as [|c s IH]; simpl; [done|]. by rewrite IH. Qed.

(** A transformation of characters that keeps the white space commutes with [strip]. *)
Section StripMap.
Context (g : ascii -> ascii) (Hspace : forall c, is_py_space (g c) = is_py_space c).

Lemma lstrip_map s : lstrip (str_map g s) = str_map g (lstrip s).
Proof. induction s as [|c s IH]; simpl; [done|]. rewrite Hspace. destruct (is_py_space c); [apply IH|done]. Qed.

Lemma rstrip_map s : rstrip (str_map g s) = str_map g (rstrip s).
Proof.
  induction s as [|c s IH]; [done|]. change (str_map g (String c s)) with (String (g c) (str_map g s)).
  rewrite !rstrip_cons, IH, nonempty_map, Hspace. by destruct (_ || _).
Qed.

Lemma strip_map s : strip (str_map g s) = str_map g (strip s).
Proof. unfold strip. by rewrite lstrip_map, rstrip_map. Qed.
End StripMap.

Lemma strip_upper s : strip (upper s) = upper (strip s).
Proof. apply strip_map. intros [[] [] [] [] [] [] [] []]; reflexivity. Qed.

Lemma strip_lower s : strip (lower s) = lower (strip s).
Proof. apply strip_map. intros [[] [] [] [] [] [] [] []]; reflexivity. Qed.

Lemma lower_idem s : lower (lower s) = lower s.
Proof. apply str_map_idem. intros [[] [] [] [] [] [] [] []]; reflexivity. Qed.

Lemma upper_idem s : upper (upper s) = upper s.
Proof. apply str_map_idem. intros [[] [] [] [] [] [] [] []]; reflexivity. Qed.

Lemma upper_nonempty s : nonempty (upper s) = nonempty s.
Proof. by destruct s. Qed.
