(* ===== verification/PyDecimal.v ===== *)
(** * Python's [decimal.Decimal] under the default context

    The program computes money and quantities with [decimal.Decimal] and never
    changes the context, so every operation rounds half-even to 28 digits with
    Emax = 999999, Emin = -999999 and the traps InvalidOperation,
    DivisionByZero and Overflow.  A finite number is a sign, a coefficient and
    an exponent, as in the General Decimal Arithmetic specification that both
    CPython implementations follow; negative zero is a value of its own. *)
From Stdlib Require Import ZArith Lia QArith Qpower Lqa Ascii.
From stdpp Require Import base list strings.
From S2P Require Import Prelude.
Open Scope Z_scope.

(** ** Digits *)

Fixpoint digits_fuel (fuel : nat) (n : N) (acc : list N) : list N :=
  match fuel with
  | O => acc
  | S f =>
      let acc' := (n mod 10)%N :: acc in
      if (n / 10 =? 0)%N then acc' else digits_fuel f (n / 10)%N acc'
  end.
(** The decimal digits, most significant first; [digits 0 = [0]]. *)
Definition digits (n : N) : list N := digits_fuel (S (N.size_nat n)) n [].

Definition of_digits (l : list N) : N := fold_left (fun a d => (a * 10 + d)%N) l 0%N.

(** [len(str(n))] *)
Definition ndigits (n : N) : Z := Z.of_nat (length (digits n)).

Definition pow10 (k : Z) : N := (10 ^ Z.to_N k)%N.

(** ** Numbers and the context *)

Record dec := Dec { dneg : bool; dcoeff : N; dexp : Z }.

#[export] Instance dec_eq_dec : EqDecision dec.
Proof. solve_decision. Defined.

Definition d0 : dec := Dec false 0 0.
Definition d1 : dec := Dec false 1 0.
Definition dm1 : dec := Dec true 1 0.

Definition prec : Z := 28.
Definition Emax : Z := 999999.
Definition Emin : Z := -999999.
Definition Etiny : Z := Emin - prec + 1.
Definition Etop : Z := Emax - prec + 1.

(** [c / p] rounded half-even. *)
Definition div_half_even (c p : N) : N :=
  let q := (c / p)%N in
  let r := (c mod p)%N in
  match (2 * r ?= p)%N with
  | Lt => q
  | Gt => (q + 1)%N
  | Eq => if N.even q then q else (q + 1)%N
  end.

Definition d_overflow : result dec := raise Overflow "above Emax".

(** [Decimal._fix]: the result of an operation whose exact value is
    [(-1)^s * c * 10^e], rounded to the context. *)
Definition dfix (s : bool) (c : N) (e : Z) : result dec :=
  if (c =? 0)%N then Ok (Dec s 0 (Z.min (Z.max e Etiny) Emax))
  else
    let top := ndigits c + e - prec in
    if Etop <? top then d_overflow
    else
      let exp_min := Z.max top Etiny in
      if e <? exp_min then
        let c' := div_half_even c (pow10 (exp_min - e)) in
        if prec <? ndigits c' then
          if Etop <? exp_min + 1 then d_overflow else Ok (Dec s (c' / 10)%N (exp_min + 1))
        else Ok (Dec s c' exp_min)
      else Ok (Dec s c e).

(** ** Comparison (exact, no rounding) *)

Definition zsigned (d : dec) : Z := if dneg d then - Z.of_N (dcoeff d) else Z.of_N (dcoeff d).

(** The integer [d / 10^m] for [m <= dexp d]. *)
Definition zscaled (d : dec) (m : Z) : Z := zsigned d * 10 ^ (dexp d - m).

Definition dcmp (a b : dec) : comparison :=
  let m := Z.min (dexp a) (dexp b) in (zscaled a m ?= zscaled b m).

Definition dlt (a b : dec) : bool := match dcmp a b with Lt => true | _ => false end.
Definition dle (a b : dec) : bool := match dcmp a b with Gt => false | _ => true end.
Definition deqb (a b : dec) : bool := match dcmp a b with Eq => true | _ => false end.
Definition dgt (a b : dec) : bool := dlt b a.
Definition dge (a b : dec) : bool := dle b a.

(** The builtins [max(a, b)] and [min(a, b)]: the first argument wins ties. *)
Definition dmax (a b : dec) : dec := if dgt b a then b else a.
Definition dmin (a b : dec) : dec := if dlt b a then b else a.

(** ** Arithmetic *)

Definition dadd (a b : dec) : result dec :=
  let m := Z.min (dexp a) (dexp b) in
  let z := zscaled a m + zscaled b m in
  let s := if z =? 0 then dneg a && dneg b else z <? 0 in
  dfix s (Z.abs_N z) m.

Definition copy_negate (d : dec) : dec := Dec (negb (dneg d)) (dcoeff d) (dexp d).

Definition dsub (a b : dec) : result dec := dadd a (copy_negate b).

(** Unary minus and [abs]: both round to the context; a zero becomes [+0]. *)
Definition dopp (d : dec) : result dec :=
  dfix (if (dcoeff d =? 0)%N then false else negb (dneg d)) (dcoeff d) (dexp d).
Definition dabs (d : dec) : result dec := dfix false (dcoeff d) (dexp d).

Definition dmul (a b : dec) : result dec :=
  dfix (xorb (dneg a) (dneg b)) (dcoeff a * dcoeff b)%N (dexp a + dexp b).

(** Drops trailing zeros of an exact quotient down to the ideal exponent. *)
Fixpoint strip_zeros (fuel : nat) (c : N) (e ideal : Z) : N * Z :=
  match fuel with
  | O => (c, e)
  | S f => if (e <? ideal) && (c mod 10 =? 0)%N then strip_zeros f (c / 10)%N (e + 1) ideal
           else (c, e)
  end.

Definition ddiv (a b : dec) : result dec :=
  if (dcoeff b =? 0)%N then
    if (dcoeff a =? 0)%N then raise InvalidOperation "0 / 0" else raise DivisionByZero "x / 0"
  else
    let s := xorb (dneg a) (dneg b) in
    let ideal := dexp a - dexp b in
    if (dcoeff a =? 0)%N then dfix s 0 ideal
    else
      let shift := ndigits (dcoeff b) - ndigits (dcoeff a) + prec + 1 in
      let e := ideal - shift in
      let num := if 0 <=? shift then (dcoeff a * pow10 shift)%N else dcoeff a in
      let den := if 0 <=? shift then dcoeff b else (dcoeff b * pow10 (- shift))%N in
      let q := (num / den)%N in
      if (num mod den =? 0)%N then
        let '(c, e') := strip_zeros (Z.to_nat (ideal - e)) q e ideal in dfix s c e'
      else dfix s (if (q mod 5 =? 0)%N then (q + 1)%N else q) e.

(** The exponent of the leading digit. *)
Definition adjusted (d : dec) : Z := dexp d + ndigits (dcoeff d) - 1.

(** [Decimal._rescale] to an exponent, for a rounding of the quotient. *)
Definition rescale (rnd : bool -> N -> N -> N) (d : dec) (e : Z) : dec :=
  if (dcoeff d =? 0)%N then Dec (dneg d) 0 e
  else if e <=? dexp d then Dec (dneg d) (dcoeff d * pow10 (dexp d - e))%N e
  else Dec (dneg d) (rnd (dneg d) (dcoeff d) (pow10 (e - dexp d))) e.

Definition rnd_half_even (_ : bool) (c p : N) : N := div_half_even c p.
Definition rnd_floor (neg : bool) (c p : N) : N :=
  if neg && negb (c mod p =? 0)%N then (c / p + 1)%N else (c / p)%N.
Definition rnd_ceiling (neg : bool) (c p : N) : N :=
  if negb neg && negb (c mod p =? 0)%N then (c / p + 1)%N else (c / p)%N.

(** [d.to_integral_value(rounding=...)] *)
Definition to_integral (rnd : bool -> N -> N -> N) (d : dec) : dec :=
  if 0 <=? dexp d then d else rescale rnd d 0.

(** [a % b]: the remainder of the truncated quotient, which must have at most
    28 digits. *)
Definition dmod (a b : dec) : result dec :=
  if (dcoeff b =? 0)%N then raise InvalidOperation "x % 0"
  else
    let ideal := Z.min (dexp a) (dexp b) in
    let expdiff := adjusted a - adjusted b in
    if (dcoeff a =? 0)%N || (expdiff <=? -2) then
      let r := rescale rnd_half_even a ideal in dfix (dneg r) (dcoeff r) (dexp r)
    else if expdiff <=? prec then
      let n := (dcoeff a * pow10 (dexp a - ideal))%N in
      let m := (dcoeff b * pow10 (dexp b - ideal))%N in
      if (n / m <? pow10 prec)%N then dfix (dneg a) (n mod m)%N ideal
      else raise InvalidOperation "quotient too large in //, % or divmod"
    else raise InvalidOperation "quotient too large in //, % or divmod".

(** ** [str(d)] and [Decimal(str)] *)

Definition digit_char (d : N) : ascii := ascii_of_N (48 + d)%N.
Definition digit_chars (n : N) : list ascii := map digit_char (digits n).
Definition zeros (k : Z) : list ascii := repeat "0"%char (Z.to_nat k).

(** ["%+d" % z] *)
Definition signed_chars (z : Z) : list ascii :=
  (if z <? 0 then "-"%char else "+"%char) :: digit_chars (Z.abs_N z).

Definition dec_chars (d : dec) : list ascii :=
  let int := digit_chars (dcoeff d) in
  let len := ndigits (dcoeff d) in
  let leftdigits := dexp d + len in
  let dotplace := if (dexp d <=? 0) && (-6 <? leftdigits) then leftdigits else 1 in
  let body :=
    if dotplace <=? 0 then ("0"%char :: "."%char :: zeros (- dotplace)) ++ int
    else if len <=? dotplace then int ++ zeros (dotplace - len)
    else firstn (Z.to_nat dotplace) int ++ "."%char :: skipn (Z.to_nat dotplace) int in
  (if dneg d then ["-"%char] else []) ++ body
  ++ (if leftdigits =? dotplace then [] else "E"%char :: signed_chars (leftdigits - dotplace)).

Definition dec_str (d : dec) : string := String.string_of_list_ascii (dec_chars d).

(** [str(int)] *)
Definition int_str (z : Z) : string :=
  String.string_of_list_ascii
    ((if z <? 0 then ["-"%char] else []) ++ digit_chars (Z.abs_N z)).

Inductive dnum := DFin (d : dec) | DInf (neg : bool) | DNaN.

Definition digit_of (c : ascii) : option N :=
  let n := N_of_ascii c in if (48 <=? n)%N && (n <=? 57)%N then Some (n - 48)%N else None.

Fixpoint span_digits (l : list ascii) : list N * list ascii :=
  match l with
  | [] => ([], [])
  | c :: l' =>
      match digit_of c with
      | Some d => let '(ds, r) := span_digits l' in (d :: ds, r)
      | None => ([], l)
      end
  end.

Definition span_sign (l : list ascii) : bool * list ascii :=
  match l with
  | "-"%char :: l' => (true, l')
  | "+"%char :: l' => (false, l')
  | _ => (false, l)
  end.

(** The exponent part: nothing, or [E], an optional sign and digits. *)
Definition parse_exp (l : list ascii) : option Z :=
  match l with
  | [] => Some 0
  | c :: l' =>
      if Ascii.eqb (upper_ascii c) "E"%char then
        let '(neg, l'') := span_sign l' in
        match span_digits l'' with
        | ((_ :: _) as ds, []) =>
            Some (if neg then - Z.of_N (of_digits ds) else Z.of_N (of_digits ds))
        | _ => None
        end
      else None
  end.

Definition parse_special (l : list ascii) : option dnum :=
  let '(neg, r) := span_sign l in
  let s := lower (String.string_of_list_ascii r) in
  if String.eqb s "inf" || String.eqb s "infinity" then Some (DInf neg)
  else
    let payload := if startswith "snan" s then Some (skipn 4 r)
                   else if startswith "nan" s then Some (skipn 3 r) else None in
    match payload with
    | Some p => match span_digits p with (_, []) => Some DNaN | _ => None end
    | None => None
    end.

(** Exponent limits of the number type itself (64-bit libmpdec). *)
Definition MAX_EMAX : Z := 999999999999999999.
Definition MIN_ETINY : Z := -1999999999999999997.
Definition dec_in_range (d : dec) : bool :=
  (adjusted d <=? MAX_EMAX) && (MIN_ETINY <=? dexp d) && (ndigits (dcoeff d) <=? MAX_EMAX).

Definition parse_finite (l : list ascii) : option dec :=
  let '(neg, r) := span_sign l in
  let '(ints, r1) := span_digits r in
  let '(fracs, r2) :=
    match r1 with "."%char :: r' => span_digits r' | _ => ([], r1) end in
  match ints ++ fracs with
  | [] => None
  | ds => match parse_exp r2 with
          | Some e => Some (Dec neg (of_digits ds) (e - Z.of_nat (length fracs)))
          | None => None
          end
  end.

(** [Decimal(s)]: white space around the number and underscores are ignored. *)
Definition Decimal_of_str (s : string) : result dnum :=
  let l := List.filter (fun c => negb (Ascii.eqb c "_"%char))
             (String.list_ascii_of_string (strip s)) in
  match parse_finite l with
  | Some d => if dec_in_range d then Ok (DFin d)
              else raise InvalidOperation "exponent out of range"
  | None => match parse_special l with
            | Some n => Ok n
            | None => raise InvalidOperation "ConversionSyntax"
            end
  end.

(** A decimal literal of the source, [Decimal("...")]; only used on valid ones. *)
Definition dlit (s : string) : dec :=
  match Decimal_of_str s with Ok (DFin d) => d | _ => d0 end.

(** ** The numeric value *)

Definition dval (d : dec) : Q := (inject_Z (zsigned d) * 10 ^ dexp d)%Q.

(** The numbers an operation of the context can return unchanged. *)
Definition fits (d : dec) : Prop :=
  ndigits (dcoeff d) <= prec /\ Etiny <= dexp d /\
  (if (dcoeff d =? 0)%N then dexp d <= Emax else adjusted d <= Emax).

(** [d] is the rounding of the exact value [x]: on the same side as [x] of
    every representable number. *)
Definition rounds (x : Q) (d : dec) : Prop :=
  fits d /\
  forall r, fits r -> (dval r <= x -> dval r <= dval d)%Q /\ (x <= dval r -> dval d <= dval r)%Q.
