(* ===== verification/PyDecimalFacts.v ===== *)
(** * Facts about [PyDecimal]: digits, rounding, exactness, comparison and the
    [str] / [Decimal] round trip. *)
From Stdlib Require Import ZArith Lia QArith Qpower Qabs Lqa Ascii Morphisms.
From stdpp Require Import base list strings.
From S2P Require Import Prelude PyDecimal.
Open Scope Z_scope.

(** ** Digits *)

Definition dig_step (a d : N) : N := (a * 10 + d)%N.

Lemma div10_fuel f (n : N) : (n < 2 ^ N.of_nat (S f))%N -> (n / 10 < 2 ^ N.of_nat f)%N.
Proof.
  intros H. apply N.Div0.div_lt_upper_bound.
  rewrite Nat2N.inj_succ, N.pow_succ_r' in H. lia.
Qed.

Lemma digits_fuel_fold f n acc :
  (n < 2 ^ N.of_nat f)%N -> f <> O ->
  fold_left dig_step (digits_fuel f n acc) 0%N = fold_left dig_step acc n.
Proof.
  revert n acc; induction f as [|f IH]; intros n acc Hn Hf; [done|]. simpl digits_fuel.
  pose proof (N.div_mod n 10 ltac:(lia)) as Hd.
  destruct (N.eqb_spec (n / 10) 0) as [E|E].
  - simpl. unfold dig_step at 2. f_equal. lia.
  - rewrite IH.
    + simpl. unfold dig_step at 2. f_equal. lia.
    + by apply div10_fuel.
    + intros ->. simpl in Hn. assert (n / 10 = 0)%N; [|done]. apply N.div_small. lia.
Qed.

Lemma size_nat_bound (n : N) : (n < 2 ^ N.of_nat (S (N.size_nat n)))%N.
Proof.
  replace (N.of_nat (S (N.size_nat n))) with (N.succ (N.size n)).
  - rewrite N.pow_succ_r'. pose proof (N.size_gt n). lia.
  - rewrite Nat2N.inj_succ. f_equal. destruct n as [|p]; [done|]. simpl.
    induction p as [p IH|p IH|]; simpl Pos.size; simpl Pos.size_nat; lia.
Qed.

Lemma of_digits_digits n : of_digits (digits n) = n.
Proof.
  unfold of_digits, digits. change (fun a d => (a * 10 + d)%N) with dig_step.
  rewrite digits_fuel_fold; [done| |done]. apply size_nat_bound.
Qed.

Lemma digits_fuel_small f n acc :
  Forall (fun d => (d < 10)%N) acc -> Forall (fun d => (d < 10)%N) (digits_fuel f n acc).
Proof.
  revert n acc; induction f as [|f IH]; intros n acc H; simpl; [done|].
  assert (Forall (fun d => (d < 10)%N) ((n mod 10)%N :: acc)).
  { constructor; [|done]. apply N.mod_lt. lia. }
  destruct (_ =? _)%N; auto.
Qed.

Lemma digits_small n : Forall (fun d => (d < 10)%N) (digits n).
Proof. apply digits_fuel_small. constructor. Qed.

Lemma digits_fuel_length f n acc :
  (n < 2 ^ N.of_nat f)%N -> f <> O ->
  exists L : nat, length (digits_fuel f n acc) = (length acc + S L)%nat /\
    (n < 10 ^ N.of_nat (S L))%N /\ (10 ^ N.of_nat L <= n \/ n = 0 /\ L = O)%N.
Proof.
  revert n acc; induction f as [|f IH]; intros n acc Hn Hf; [done|]. simpl digits_fuel.
  pose proof (N.div_mod n 10 ltac:(lia)) as Hd.
  pose proof (N.mod_lt n 10 ltac:(lia)) as Hm.
  destruct (N.eqb_spec (n / 10) 0) as [E|E].
  - exists O. simpl. split; [lia|]. split; [lia|]. lia.
  - assert (f <> O) as Hf'.
    { intros ->. simpl in Hn. apply E, N.div_small. lia. }
    destruct (IH (n / 10)%N ((n mod 10)%N :: acc)) as (L & HL & H1 & H2);
      [by apply div10_fuel|done|].
    exists (S L). rewrite HL. simpl length. split; [lia|].
    rewrite !Nat2N.inj_succ, !N.pow_succ_r' in *. split; [lia|]. left.
    destruct H2 as [H2|[H2 _]]; [|congruence].
    rewrite Hd. etrans; [|apply N.le_add_r]. by apply N.mul_le_mono_l.
Qed.

Lemma ndigits_pos n : 1 <= ndigits n.
Proof.
  unfold ndigits, digits.
  destruct (digits_fuel_length _ n [] (size_nat_bound n) ltac:(done)) as (L & -> & _). simpl. lia.
Qed.

Lemma ndigits_bounds n :
  Z.of_N n < 10 ^ ndigits n /\ (n <> 0%N -> 10 ^ (ndigits n - 1) <= Z.of_N n).
Proof.
  unfold ndigits, digits.
  destruct (digits_fuel_length _ n [] (size_nat_bound n) ltac:(done)) as (L & -> & H1 & H2).
  simpl length. rewrite Nat.add_0_l. split.
  - rewrite <- nat_N_Z. change 10 with (Z.of_N 10). rewrite <- N2Z.inj_pow. lia.
  - intros Hn. replace (Z.of_nat (S L) - 1) with (Z.of_N (N.of_nat L)) by lia.
    change 10 with (Z.of_N 10). rewrite <- N2Z.inj_pow. lia.
Qed.

Lemma ndigits_le n k : 1 <= k -> Z.of_N n < 10 ^ k -> ndigits n <= k.
Proof.
  intros Hk Hn. destruct (N.eq_dec n 0%N) as [->|Hz]; [done|].
  destruct (ndigits_bounds n) as [_ H]. specialize (H Hz).
  assert (ndigits n - 1 < k); [|lia].
  apply (Z.pow_lt_mono_r_iff 10); [lia|lia|]. lia.
Qed.

Lemma ndigits_ge n k : 0 <= k -> 10 ^ k <= Z.of_N n -> k < ndigits n.
Proof.
  intros Hk Hn. destruct (ndigits_bounds n) as [H _].
  apply (Z.pow_lt_mono_r_iff 10); [lia| |]; [|lia]. pose proof (ndigits_pos n). lia.
Qed.

Lemma pow10_Z k : 0 <= k -> Z.of_N (pow10 k) = 10 ^ k.
Proof. intros H. unfold pow10. rewrite N2Z.inj_pow, Z2N.id by done. done. Qed.

(** ** Values [z * 10^e] *)

Definition mkval (z e : Z) : Q := (inject_Z z * 10 ^ e)%Q.

Lemma ten_pos e : (0 < 10 ^ e)%Q.
Proof. apply Qpower_0_lt. reflexivity. Qed.

Lemma mkval_shift z e k : 0 <= k -> (mkval (z * 10 ^ k) e == mkval z (e + k))%Q.
Proof.
  intros H. unfold mkval. rewrite inject_Z_mult, Zpower_Qpower by done.
  change (inject_Z 10) with 10%Q.
  rewrite Qpower_plus by (intros E; discriminate E). ring.
Qed.

Lemma mkval_le a b e : (mkval a e <= mkval b e)%Q <-> a <= b.
Proof. unfold mkval. rewrite Qmult_le_r by apply ten_pos. by rewrite <- Zle_Qle. Qed.

Lemma mkval_lt a b e : (mkval a e < mkval b e)%Q <-> a < b.
Proof. unfold mkval. rewrite Qmult_lt_r by apply ten_pos. by rewrite <- Zlt_Qlt. Qed.

Lemma mkval_eq a b e : (mkval a e == mkval b e)%Q <-> a = b.
Proof.
  split; [|by intros ->]. intros H.
  apply Z.le_antisymm; apply (mkval_le _ _ e); rewrite H; apply Qle_refl.
Qed.

Lemma mkval_add a b e : (mkval a e + mkval b e == mkval (a + b) e)%Q.
Proof. unfold mkval. rewrite inject_Z_plus. ring. Qed.

Lemma mkval_opp a e : (- mkval a e == mkval (- a) e)%Q.
Proof. unfold mkval. rewrite inject_Z_opp. ring. Qed.

Lemma mkval_mul a b e f : (mkval a e * mkval b f == mkval (a * b) (e + f))%Q.
Proof.
  unfold mkval. rewrite inject_Z_mult, Qpower_plus by (intros E; discriminate E). ring.
Qed.

Lemma mkval_0 e : (mkval 0 e == 0)%Q.
Proof. unfold mkval. change (inject_Z 0) with 0%Q. ring. Qed.

Lemma mkval_nonneg a e : 0 <= a -> (0 <= mkval a e)%Q.
Proof. intros H. rewrite <- (mkval_0 e). by apply mkval_le. Qed.

Lemma mkval_lower a e : 0 <= a -> forall k, 0 <= k -> 10 ^ k <= a -> (mkval 1 (e + k) <= mkval a e)%Q.
Proof.
  intros Ha k Hk H. rewrite <- mkval_shift by done. rewrite Z.mul_1_l. by apply mkval_le.
Qed.

Lemma mkval_upper a e k : 0 <= k -> a < 10 ^ k -> (mkval a e < mkval 1 (e + k))%Q.
Proof. intros Hk H. rewrite <- mkval_shift by done. rewrite Z.mul_1_l. by apply mkval_lt. Qed.

Lemma mkval_one_mono e f : e <= f -> (mkval 1 e <= mkval 1 f)%Q.
Proof.
  intros H. replace f with (e + (f - e)) by lia. rewrite <- mkval_shift by lia.
  apply mkval_le. pose proof (Z.pow_pos_nonneg 10 (f - e)). lia.
Qed.

Lemma dval_mkval d : dval d = mkval (zsigned d) (dexp d).
Proof. done. Qed.

Lemma dval_scaled d m : m <= dexp d -> (dval d == mkval (zscaled d m) m)%Q.
Proof.
  intros H. unfold zscaled. rewrite mkval_shift by lia.
  by replace (m + (dexp d - m)) with (dexp d) by lia.
Qed.

(** ** Comparison *)

Lemma dcmp_spec a b : dcmp a b = (dval a ?= dval b)%Q.
Proof.
  unfold dcmp. set (m := Z.min (dexp a) (dexp b)).
  rewrite (dval_scaled a m), (dval_scaled b m) by lia.
  destruct (Z.compare_spec (zscaled a m) (zscaled b m)) as [E|E|E]; symmetry.
  - apply Qeq_alt, mkval_eq, E.
  - apply Qlt_alt, mkval_lt, E.
  - apply Qgt_alt, mkval_lt, E.
Qed.

Lemma dlt_spec a b : dlt a b = true <-> (dval a < dval b)%Q.
Proof.
  unfold dlt. rewrite dcmp_spec. destruct (Qcompare_spec (dval a) (dval b)); split; intros; try done; lra.
Qed.
Lemma dle_spec a b : dle a b = true <-> (dval a <= dval b)%Q.
Proof.
  unfold dle. rewrite dcmp_spec. destruct (Qcompare_spec (dval a) (dval b)); split; intros; try done; lra.
Qed.
Lemma deqb_spec a b : deqb a b = true <-> (dval a == dval b)%Q.
Proof.
  unfold deqb. rewrite dcmp_spec. destruct (Qcompare_spec (dval a) (dval b)); split; intros; try done; lra.
Qed.
Lemma dlt_false a b : dlt a b = false <-> (dval b <= dval a)%Q.
Proof. rewrite <- not_true_iff_false, dlt_spec. split; intros; lra. Qed.
Lemma dle_false a b : dle a b = false <-> (dval b < dval a)%Q.
Proof. rewrite <- not_true_iff_false, dle_spec. split; intros; lra. Qed.
Lemma deqb_false a b : deqb a b = false <-> ~ (dval a == dval b)%Q.
Proof. by rewrite <- not_true_iff_false, deqb_spec. Qed.

Lemma dval_0 : (dval d0 == 0)%Q.
Proof. apply mkval_0. Qed.

Lemma dmax_spec a b :
  (dval a <= dval (dmax a b))%Q /\ (dval b <= dval (dmax a b))%Q /\ (dmax a b = a \/ dmax a b = b).
Proof.
  unfold dmax, dgt. destruct (dlt a b) eqn:E.
  - apply dlt_spec in E. repeat split; [lra|lra|auto].
  - apply dlt_false in E. repeat split; [lra|lra|auto].
Qed.

Lemma dmin_spec a b :
  (dval (dmin a b) <= dval a)%Q /\ (dval (dmin a b) <= dval b)%Q /\ (dmin a b = a \/ dmin a b = b).
Proof.
  unfold dmin. destruct (dlt b a) eqn:E.
  - apply dlt_spec in E. repeat split; [lra|lra|auto].
  - apply dlt_false in E. repeat split; [lra|lra|auto].
Qed.

(** Turns every decimal test in the context into an inequality on values. *)
Ltac dec_props :=
  unfold dgt, dge in *;
  repeat match goal with
  | H : dlt _ _ = true |- _ => apply dlt_spec in H
  | H : dlt _ _ = false |- _ => apply dlt_false in H
  | H : dle _ _ = true |- _ => apply dle_spec in H
  | H : dle _ _ = false |- _ => apply dle_false in H
  | H : deqb _ _ = true |- _ => apply deqb_spec in H
  | H : deqb _ _ = false |- _ => apply deqb_false in H
  end;
  rewrite ?dval_0 in *.

(** ** Rounding *)

Lemma div_half_even_bounds c p : (0 < p)%N ->
  (forall n, (n * p <= c -> n <= div_half_even c p)%N) /\
  (1 < p -> forall n, c <= n * p -> div_half_even c p <= n)%N.
Proof.
  intros Hp. unfold div_half_even.
  pose proof (N.div_mod c p ltac:(lia)) as Hd. pose proof (N.mod_lt c p ltac:(lia)) as Hm.
  set (q := (c / p)%N) in *. set (r := (c mod p)%N) in *. clearbody q r.
  split; [intros n Hn|intros Hp1 n Hn].
  - assert (n <= q)%N by nia. destruct (_ ?= _)%N; [destruct (N.even q)|..]; lia.
  - assert (q <= n)%N by nia.
    destruct (N.compare_spec (2 * r) p); [destruct (N.even q)|..]; try lia; nia.
Qed.

Definition mag (d : dec) : Q := mkval (Z.of_N (dcoeff d)) (dexp d).

Lemma fits_digits r : fits r -> Z.of_N (dcoeff r) < 10 ^ prec.
Proof.
  intros (H & _). destruct (ndigits_bounds (dcoeff r)) as [Hb _].
  eapply Z.lt_le_trans; [exact Hb|]. apply Z.pow_le_mono_r; lia.
Qed.

Lemma Z_pow27 : 10 ^ (prec - 1) = Z.of_N (10 ^ 27).
Proof. vm_compute. reflexivity. Qed.
Lemma Z_pow28 : 10 ^ prec = Z.of_N (10 ^ 28).
Proof. vm_compute. reflexivity. Qed.
Lemma Z_pow27' : Z.of_N (10 ^ 27) = 10 ^ 27.
Proof. vm_compute. reflexivity. Qed.
Lemma Z_pow28' : Z.of_N (10 ^ 28) = 10 ^ 28.
Proof. vm_compute. reflexivity. Qed.
Lemma Z_pow28_split : Z.of_N (10 ^ 28) = 10 ^ 27 * 10 ^ 1.
Proof. vm_compute. reflexivity. Qed.

(** The rounded coefficient of [dfix], when digits are dropped. *)
Lemma round_mag c e exp_min c' r :
  (c <> 0)%N -> exp_min = Z.max (ndigits c + e - prec) Etiny -> e < exp_min ->
  c' = div_half_even c (pow10 (exp_min - e)) -> fits r ->
  ((mag r <= mkval (Z.of_N c) e -> mag r <= mkval (Z.of_N c') exp_min) /\
   (mkval (Z.of_N c) e <= mag r -> mkval (Z.of_N c') exp_min <= mag r))%Q.
Proof.
  intros Hc Hm He Hc' Hr. set (k := exp_min - e) in *.
  assert (Z.of_N (pow10 k) = 10 ^ k) as HP by (apply pow10_Z; lia).
  assert (10 ^ 1 <= 10 ^ k) as HP1 by (apply Z.pow_le_mono_r; lia).
  destruct (div_half_even_bounds c (pow10 k)) as [Hlo Hhi]; [lia|].
  specialize (Hhi ltac:(lia)). rewrite <- Hc' in Hlo, Hhi.
  destruct (Z_le_gt_dec exp_min (dexp r)) as [Hge|Hlt].
  - set (n := (dcoeff r * pow10 (dexp r - exp_min))%N).
    assert (mag r == mkval (Z.of_N n) exp_min)%Q as Hn.
    { unfold mag, n. rewrite N2Z.inj_mul, pow10_Z by lia. rewrite mkval_shift by lia.
      by replace (exp_min + (dexp r - exp_min)) with (dexp r) by lia. }
    assert (mkval (Z.of_N n) exp_min == mkval (Z.of_N (n * pow10 k)) e)%Q as Hn'.
    { rewrite N2Z.inj_mul, HP, mkval_shift by lia. by replace (e + k) with exp_min by lia. }
    rewrite Hn. split; intros Hx.
    + rewrite Hn' in Hx. apply mkval_le in Hx. apply mkval_le. specialize (Hlo n). lia.
    + rewrite Hn' in Hx. apply mkval_le in Hx. apply mkval_le. specialize (Hhi n). lia.
  - destruct Hr as (Hd & Hex & Had) eqn:EHr; clear EHr. pose proof (fits_digits r Hr) as Hcr.
    destruct (ndigits_bounds c) as [_ Hlow]. specialize (Hlow Hc).
    assert (exp_min = ndigits c + e - prec) as Htop by lia.
    assert (mag r < mkval 1 (exp_min + (prec - 1)))%Q as H1.
    { eapply Qlt_le_trans; [apply (mkval_upper _ _ prec); [done|exact Hcr]|].
      apply mkval_one_mono. lia. }
    assert (mkval 1 (exp_min + (prec - 1)) <= mkval (Z.of_N c) e)%Q as H2.
    { replace (exp_min + (prec - 1)) with (e + (ndigits c - 1)) by lia.
      apply mkval_lower; [lia| |done]. pose proof (ndigits_pos c). lia. }
    assert (mkval 1 (exp_min + (prec - 1)) <= mkval (Z.of_N c') exp_min)%Q as H3.
    { apply mkval_lower; [lia|done|]. rewrite Z_pow27.
      assert (10 ^ 27 <= c')%N; [|lia]. apply Hlo.
      assert (Z.of_N (10 ^ 27 * pow10 k) <= Z.of_N c); [|lia].
      rewrite N2Z.inj_mul, HP. rewrite Z_pow27'.
      rewrite <- Z.pow_add_r by lia.
      replace (27 + k) with (ndigits c - 1) by (unfold prec in *; lia). done. }
    split; intros; lra.
Qed.

Lemma round_coeff_le c e exp_min :
  exp_min = Z.max (ndigits c + e - prec) Etiny -> e < exp_min ->
  Z.of_N (div_half_even c (pow10 (exp_min - e))) <= 10 ^ prec.
Proof.
  intros Hm He. set (k := exp_min - e) in *.
  assert (Z.of_N (pow10 k) = 10 ^ k) as HP by (apply pow10_Z; lia).
  assert (10 ^ 1 <= 10 ^ k) as HP1 by (apply Z.pow_le_mono_r; lia).
  destruct (div_half_even_bounds c (pow10 k)) as [_ Hhi]; [lia|].
  specialize (Hhi ltac:(lia) (10 ^ 28)%N).
  rewrite Z_pow28. apply N2Z.inj_le, Hhi, N2Z.inj_le.
  rewrite N2Z.inj_mul, HP. rewrite Z_pow28'.
  rewrite <- Z.pow_add_r by lia. destruct (ndigits_bounds c) as [Hb _].
  assert (10 ^ ndigits c <= 10 ^ (28 + k)); [|lia].
  apply Z.pow_le_mono_r; [lia|]. unfold prec in *. lia.
Qed.

(** What [dfix] returns: the sign it was given, a representable number, and a
    magnitude on the same side as the exact one of every representable number. *)
Lemma dfix_mag s c e d : dfix s c e = Ok d ->
  dneg d = s /\ fits d /\
  forall r, fits r -> ((mag r <= mkval (Z.of_N c) e -> mag r <= mag d) /\
                       (mkval (Z.of_N c) e <= mag r -> mag d <= mag r))%Q.
Proof.
  unfold dfix. destruct (N.eqb_spec c 0) as [->|Hc].
  { intros [= <-]. split; [done|]. unfold mag, fits; simpl.
    split; [split; [done|]; unfold Etiny, Emax, Emin, prec; lia|].
    intros r _. change (Z.of_N 0) with 0. rewrite !mkval_0. done. }
  destruct (Z.ltb_spec Etop (ndigits c + e - prec)) as [|Htop]; [done|].
  set (exp_min := Z.max (ndigits c + e - prec) Etiny).
  pose proof (ndigits_pos c) as Hnp.
  destruct (Z.ltb_spec e exp_min) as [He|He].
  2:{ intros [= <-]. split; [done|]. split; [|by unfold mag].
      unfold fits, adjusted; simpl. apply N.eqb_neq in Hc. rewrite Hc.
      unfold exp_min, Etop, prec in *. lia. }
  set (c' := div_half_even c (pow10 (exp_min - e))).
  pose proof (round_coeff_le c e exp_min eq_refl He) as Hle. fold c' in Hle.
  assert (forall r, fits r -> _) as Hr by (intros r; apply (round_mag c e exp_min c' r); done).
  assert (Etiny <= exp_min <= Etop) as Hx by (unfold exp_min, Etop, Etiny, Emax, Emin, prec in *; lia).
  destruct (Z.ltb_spec prec (ndigits c')) as [Hnd|Hnd].
  - destruct (Z.ltb_spec Etop (exp_min + 1)); [done|]. intros [= <-]. split; [done|].
    assert (Z.of_N c' = 10 ^ prec) as Hc'.
    { apply Z.le_antisymm; [done|]. apply Z.nlt_ge. intros Hlt.
      apply ndigits_le in Hlt; [lia|done]. }
    assert (Z.of_N (c' / 10) = 10 ^ 27) as Hq.
    { rewrite N2Z.inj_div, Hc', Z_pow28, Z_pow28_split. vm_compute. reflexivity. }
    clearbody c'. generalize dependent (c' / 10)%N. intros c2 Hq.
    assert (ndigits c2 <= 28) as Hn2 by (apply ndigits_le; [lia|rewrite Hq; apply Z.pow_lt_mono_r; lia]).
    split.
    + unfold fits, adjusted; simpl. destruct (c2 =? 0)%N; unfold Etop, prec in *; lia.
    + assert (mag (Dec s c2 (exp_min + 1)) == mkval (Z.of_N c') exp_min)%Q as E.
      { unfold mag; simpl. rewrite Hq, Hc', Z_pow28, Z_pow28_split.
        symmetry. apply mkval_shift. lia. }
      intros r Hf. rewrite E. by apply Hr.
  - intros [= <-]. split; [done|]. split; [|exact Hr].
    unfold fits, adjusted; simpl. destruct (c' =? 0)%N; unfold Etop, prec in *; lia.
Qed.

Definition sgz (s : bool) (c : N) : Z := if s then - Z.of_N c else Z.of_N c.

Lemma dval_sign d : (dval d == if dneg d then - mag d else mag d)%Q.
Proof. unfold dval, mag, zsigned. destruct (dneg d); rewrite ?mkval_opp; reflexivity. Qed.

Lemma mag_nonneg d : (0 <= mag d)%Q.
Proof. apply mkval_nonneg. lia. Qed.

Lemma fits_0 : fits d0.
Proof. done. Qed.

Lemma dfix_rounds s c e d : dfix s c e = Ok d -> rounds (mkval (sgz s c) e) d.
Proof.
  intros H. destruct (dfix_mag _ _ _ _ H) as (Hs & Hf & Hm). split; [done|]. intros r Hr.
  destruct (Hm r Hr) as [H1 H2]. destruct (Hm d0 fits_0) as [_ H3].
  rewrite (dval_sign r), (dval_sign d), Hs.
  assert (mkval (sgz s c) e == if s then - mkval (Z.of_N c) e else mkval (Z.of_N c) e)%Q as ->.
  { destruct s; simpl; rewrite ?mkval_opp; reflexivity. }
  pose proof (mag_nonneg r). pose proof (mag_nonneg d).
  assert (0 <= mkval (Z.of_N c) e)%Q by (apply mkval_nonneg; lia).
  assert (mag d0 == 0)%Q as E0 by apply mkval_0. rewrite E0 in H3.
  destruct s, (dneg r); split; intros; try lra.
  all: assert (mkval (Z.of_N c) e <= 0)%Q as Hz by lra; specialize (H3 Hz); lra.
Qed.

#[export] Instance rounds_proper : Proper (Qeq ==> eq ==> iff) rounds.
Proof. intros x y E d ? <-. unfold rounds. by setoid_rewrite E. Qed.

Lemma rounds_fits x d : rounds x d -> fits d.
Proof. by intros []. Qed.

(** A representable exact value is returned exactly. *)
Lemma rounds_exact x d r : rounds x d -> fits r -> (x == dval r)%Q -> (dval d == x)%Q.
Proof. intros [_ H] Hr E. destruct (H r Hr). apply Qle_antisym; rewrite E; intuition lra. Qed.

Lemma rounds_nonneg x d : rounds x d -> (0 <= x -> 0 <= dval d)%Q.
Proof. intros [_ H] Hx. destruct (H d0 fits_0) as [Ha _]. rewrite dval_0 in Ha. auto. Qed.

Lemma rounds_nonpos x d : rounds x d -> (x <= 0 -> dval d <= 0)%Q.
Proof. intros [_ H] Hx. destruct (H d0 fits_0) as [_ Ha]. rewrite dval_0 in Ha. auto. Qed.

Lemma rounds_ge x d r : rounds x d -> fits r -> (dval r <= x -> dval r <= dval d)%Q.
Proof. intros [_ H] Hr. by apply H. Qed.

Lemma rounds_le x d r : rounds x d -> fits r -> (x <= dval r -> dval d <= dval r)%Q.
Proof. intros [_ H] Hr. by apply H. Qed.

(** ** The operations round their exact value *)

Lemma sgz_abs (z : Z) (s : bool) : (z = 0 \/ s = (z <? 0)) -> sgz s (Z.abs_N z) = z.
Proof.
  intros H. unfold sgz. rewrite N2Z.inj_abs_N. destruct H as [-> | ->]; [by destruct s|].
  destruct (Z.ltb_spec z 0); lia.
Qed.

Lemma dadd_rounds a b d : dadd a b = Ok d -> rounds (dval a + dval b) d.
Proof.
  unfold dadd. set (m := Z.min (dexp a) (dexp b)). set (z := zscaled a m + zscaled b m).
  intros H. apply dfix_rounds in H. rewrite sgz_abs in H.
  - rewrite (dval_scaled a m), (dval_scaled b m), mkval_add by lia. exact H.
  - destruct (Z.eqb_spec z 0); auto.
Qed.

Lemma dval_copy_negate d : (dval (copy_negate d) == - dval d)%Q.
Proof.
  unfold dval, copy_negate, zsigned; simpl.
  destruct (dneg d); simpl; rewrite ?inject_Z_opp; ring.
Qed.

Lemma dsub_rounds a b d : dsub a b = Ok d -> rounds (dval a - dval b) d.
Proof. intros H. apply dadd_rounds in H. by rewrite dval_copy_negate in H. Qed.

Lemma dmul_rounds a b d : dmul a b = Ok d -> rounds (dval a * dval b) d.
Proof.
  intros H. apply dfix_rounds in H. rewrite !dval_mkval, mkval_mul.
  assert (sgz (xorb (dneg a) (dneg b)) (dcoeff a * dcoeff b) = zsigned a * zsigned b) as <-; [|done].
  unfold sgz, zsigned. rewrite N2Z.inj_mul. destruct (dneg a), (dneg b); simpl; ring.
Qed.

Lemma dopp_rounds a d : dopp a = Ok d -> rounds (- dval a) d.
Proof.
  intros H. apply dfix_rounds in H. rewrite dval_mkval, mkval_opp.
  assert (sgz (if (dcoeff a =? 0)%N then false else negb (dneg a)) (dcoeff a) = - zsigned a) as <-; [|done].
  unfold sgz, zsigned. destruct (N.eqb_spec (dcoeff a) 0) as [->|]; [by destruct (dneg a)|].
  destruct (dneg a); simpl; lia.
Qed.

Lemma dabs_rounds a d : dabs a = Ok d -> rounds (Qabs (dval a)) d.
Proof.
  intros H. apply dfix_rounds in H.
  assert (Qabs (dval a) == mkval (sgz false (dcoeff a)) (dexp a))%Q as ->; [|done].
  rewrite dval_sign. pose proof (mag_nonneg a). unfold sgz. fold (mag a).
  destruct (dneg a); [rewrite Qabs_opp|]; by apply Qabs_pos.
Qed.

Lemma dabs_nonneg a d : dabs a = Ok d -> (0 <= dval d)%Q.
Proof. intros H. apply dabs_rounds in H. eapply rounds_nonneg; [exact H|]. apply Qabs_nonneg. Qed.

Lemma dfix_neg s c e d : dfix s c e = Ok d -> dneg d = s.
Proof. intros H. by apply dfix_mag in H as [? _]. Qed.

(** ** Operations that do not round *)

Lemma dfix_id s c e : fits (Dec s c e) -> dfix s c e = Ok (Dec s c e).
Proof.
  intros (H1 & H2 & H3). simpl in *. unfold dfix. destruct (N.eqb_spec c 0) as [->|Hc].
  { do 2 f_equal. lia. }
  unfold adjusted in H3; simpl in H3.
  destruct (Z.ltb_spec Etop (ndigits c + e - prec)); [unfold Etop, prec in *; lia|].
  destruct (Z.ltb_spec e (Z.max (ndigits c + e - prec) Etiny)); [|done]. lia.
Qed.

Lemma fits_opp d : fits d <-> fits (copy_negate d).
Proof. done. Qed.

Lemma fits_sign s s' c e : fits (Dec s c e) -> fits (Dec s' c e).
Proof. done. Qed.

Lemma dabs_fits d : fits d -> dabs d = Ok (Dec false (dcoeff d) (dexp d)).
Proof. intros H. apply dfix_id. by destruct d. Qed.

Lemma dopp_fits d : fits d -> exists d', dopp d = Ok d' /\ (dval d' == - dval d)%Q /\ dexp d' = dexp d /\ dcoeff d' = dcoeff d.
Proof.
  intros H. unfold dopp. rewrite dfix_id by (destruct d; exact H).
  eexists; split; [done|]. split; [|done]. unfold dval, zsigned; simpl.
  destruct (N.eqb_spec (dcoeff d) 0) as [->|]; destruct (dneg d); simpl;
    rewrite ?inject_Z_opp; ring.
Qed.

(** ** Sums of amounts on the grid of the exchanges

    Every amount the program handles is a multiple of 10^-12 below 10^14;
    sums and differences of such amounts are exact. *)
Definition grid_exp : Z := -12.

Definition on_grid (bound : Z) (d : dec) : Prop :=
  grid_exp <= dexp d <= 2 /\ Z.abs (zscaled d grid_exp) <= bound.

Lemma zscaled_split d m n : n <= m <= dexp d -> zscaled d n = zscaled d m * 10 ^ (m - n).
Proof.
  intros H. unfold zscaled. rewrite <- Z.mul_assoc, <- Z.pow_add_r by lia.
  do 2 f_equal. lia.
Qed.

(** Multiples of [10^lo]; the grid is one of these scales. *)
Definition scaled (lo hi bound : Z) (d : dec) : Prop := lo <= dexp d <= hi /\ Z.abs (zscaled d lo) <= bound.

Lemma scaled_coeff lo hi b d m : scaled lo hi b d -> lo <= m <= dexp d -> Z.abs (zscaled d m) <= b.
Proof.
  intros [H1 H2] Hm. rewrite (zscaled_split d m lo) in H2 by lia.
  rewrite Z.abs_mul in H2. pose proof (Z.pow_pos_nonneg 10 (m - lo)). nia.
Qed.

(** A number of at most 28 digits and a moderate exponent is not rounded. *)
Lemma short_fits s c e : Z.of_N c < 10 ^ 28 -> -1000 <= e <= 1000 -> fits (Dec s c e).
Proof.
  intros Hc%ndigits_le He; [|lia]. unfold fits, adjusted; simpl.
  destruct (_ =? _)%N; unfold prec, Etiny, Emin, Emax, prec in *; lia.
Qed.

Lemma dadd_scaled lo hi x y a b : -1000 <= lo -> hi <= 1000 ->
  scaled lo hi x a -> scaled lo hi y b -> x + y < 10 ^ 28 ->
  exists d, dadd a b = Ok d /\ scaled lo hi (x + y) d /\ (dval d == dval a + dval b)%Q.
Proof.
  intros Hlo Hhi Ha Hb Hxy. unfold dadd. set (m := Z.min (dexp a) (dexp b)).
  set (z := zscaled a m + zscaled b m).
  set (s := if z =? 0 then dneg a && dneg b else z <? 0).
  assert (lo <= m <= hi) as Hm by (destruct Ha, Hb; lia).
  pose proof (scaled_coeff lo hi x a m Ha ltac:(lia)) as H1.
  pose proof (scaled_coeff lo hi y b m Hb ltac:(lia)) as H2.
  assert (Z.of_N (Z.abs_N z) < 10 ^ 28) as Hz by (rewrite N2Z.inj_abs_N; lia).
  rewrite dfix_id by (apply short_fits; lia). eexists; split; [done|].
  assert (zsigned (Dec s (Z.abs_N z) m) = z) as Hsz.
  { unfold zsigned; simpl. change (sgz s (Z.abs_N z) = z). apply sgz_abs.
    unfold s. destruct (Z.eqb_spec z 0); auto. }
  split.
  - split; [done|]. unfold zscaled. rewrite Hsz. simpl. destruct Ha as [Ha Ha'], Hb as [Hb Hb'].
    rewrite (zscaled_split a m) in Ha' by lia. rewrite (zscaled_split b m) in Hb' by lia.
    unfold z. rewrite Z.mul_add_distr_r. lia.
  - rewrite (dval_scaled a m), (dval_scaled b m), mkval_add by lia. rewrite dval_mkval, Hsz. done.
Qed.

Lemma dmul_scaled lo hi lo' hi' x y a b : -1000 <= lo + lo' -> hi + hi' <= 1000 ->
  scaled lo hi x a -> scaled lo' hi' y b -> x * y < 10 ^ 28 ->
  exists d, dmul a b = Ok d /\ scaled (lo + lo') (hi + hi') (x * y) d /\ (dval d == dval a * dval b)%Q.
Proof.
  intros Hlo Hhi Ha Hb Hxy. pose proof (scaled_coeff _ _ _ _ (dexp a) Ha ltac:(destruct Ha; lia)) as H1.
  pose proof (scaled_coeff _ _ _ _ (dexp b) Hb ltac:(destruct Hb; lia)) as H2.
  assert (forall d, Z.abs (zscaled d (dexp d)) = Z.of_N (dcoeff d)) as Habs.
  { intros d. unfold zscaled, zsigned. rewrite Z.sub_diag, Z.mul_1_r. destruct (dneg d); lia. }
  rewrite Habs in H1, H2. unfold dmul.
  assert (fits (Dec (xorb (dneg a) (dneg b)) (dcoeff a * dcoeff b) (dexp a + dexp b))) as Hf.
  { apply short_fits; [nia|]. destruct Ha, Hb. lia. }
  rewrite dfix_id by done. eexists; split; [done|].
  assert (zsigned (Dec (xorb (dneg a) (dneg b)) (dcoeff a * dcoeff b) (dexp a + dexp b)) = zsigned a * zsigned b) as Hz.
  { unfold zsigned; simpl. rewrite N2Z.inj_mul. destruct (dneg a), (dneg b); simpl; ring. }
  split; [|rewrite !dval_mkval, mkval_mul, Hz; done].
  destruct Ha as [Ha Ha'], Hb as [Hb Hb']. split; [simpl; lia|].
  unfold zscaled in *. rewrite Hz. simpl dexp.
  replace (dexp a + dexp b - (lo + lo')) with ((dexp a - lo) + (dexp b - lo')) by lia. rewrite Z.pow_add_r by lia.
  replace (zsigned a * zsigned b * (10 ^ (dexp a - lo) * 10 ^ (dexp b - lo')))
    with ((zsigned a * 10 ^ (dexp a - lo)) * (zsigned b * 10 ^ (dexp b - lo'))) by ring.
  rewrite Z.abs_mul. apply Z.mul_le_mono_nonneg; lia.
Qed.

Lemma dadd_grid x y a b :
  on_grid x a -> on_grid y b -> x + y < 10 ^ 28 ->
  exists d, dadd a b = Ok d /\ on_grid (x + y) d /\ (dval d == dval a + dval b)%Q.
Proof. by apply (dadd_scaled grid_exp 2). Qed.

Lemma on_grid_negate b d : on_grid b d -> on_grid b (copy_negate d).
Proof.
  intros [H1 H2]. split; [done|]. unfold zscaled, copy_negate, zsigned in *; simpl in *.
  destruct (dneg d); simpl; lia.
Qed.

Lemma dsub_grid x y a b :
  on_grid x a -> on_grid y b -> x + y < 10 ^ 28 ->
  exists d, dsub a b = Ok d /\ on_grid (x + y) d /\ (dval d == dval a - dval b)%Q.
Proof.
  intros Ha Hb Hxy. destruct (dadd_grid x y a (copy_negate b)) as (d & H1 & H2 & H3);
    [done|by apply on_grid_negate|done|]. exists d. rewrite H3, dval_copy_negate. done.
Qed.

Lemma on_grid_mono x y d : on_grid x d -> x <= y -> on_grid y d.
Proof. intros [H1 H2] H. split; [done|lia]. Qed.

Lemma on_grid_0 : on_grid 0 d0.
Proof. done. Qed.

(** ** Division *)

Lemma strip_zeros_value fuel c e ideal :
  let '(c', e') := strip_zeros fuel c e ideal in (mkval (Z.of_N c') e' == mkval (Z.of_N c) e)%Q.
Proof.
  revert c e; induction fuel as [|f IH]; intros c e; simpl; [done|].
  destruct ((e <? ideal) && (c mod 10 =? 0)%N) eqn:E; [|done]. bool_props.
  specialize (IH (c / 10)%N (e + 1)). destruct (strip_zeros f _ _ _) as [c' e'].
  rewrite IH. apply N.eqb_eq in H0. pose proof (N.div_mod c 10 ltac:(done)) as Hd.
  rewrite H0, N.add_0_r in Hd. rewrite Hd at 2. rewrite N2Z.inj_mul, Z.mul_comm.
  symmetry. apply (mkval_shift _ _ 1). lia.
Qed.

(** The quotient of a division has at least 29 digits before rounding. *)
Lemma ddiv_quotient_large a b :
  a <> 0%N -> b <> 0%N ->
  let shift := ndigits b - ndigits a + prec + 1 in
  let num := if 0 <=? shift then (a * pow10 shift)%N else a in
  let den := if 0 <=? shift then b else (b * pow10 (- shift))%N in
  (0 < den)%N /\ (10 ^ 27 <= num / den)%N.
Proof.
  intros Ha Hb shift num den.
  destruct (ndigits_bounds a) as [_ HA], (ndigits_bounds b) as [HB _]. specialize (HA Ha).
  pose proof (ndigits_pos a). pose proof (ndigits_pos b).
  assert (Z.of_N den * 10 ^ 28 <= Z.of_N num /\ 0 < Z.of_N den) as [H1 H2].
  { unfold num, den. destruct (Z.leb_spec 0 shift) as [Hs|Hs].
    - rewrite N2Z.inj_mul, pow10_Z by done. split; [|lia].
      transitivity (10 ^ ndigits b * 10 ^ 28).
      { apply Z.mul_le_mono_nonneg_r; lia. }
      rewrite <- Z.pow_add_r by lia.
      replace (ndigits b + 28) with (ndigits a - 1 + shift) by (unfold shift, prec; lia).
      rewrite Z.pow_add_r by lia. apply Z.mul_le_mono_nonneg_r; lia.
    - rewrite N2Z.inj_mul, pow10_Z by lia.
      assert (0 < 10 ^ (- shift)) by (apply Z.pow_pos_nonneg; lia). split; [|nia].
      transitivity (10 ^ ndigits b * 10 ^ (- shift) * 10 ^ 28).
      { apply Z.mul_le_mono_nonneg_r; [lia|]. apply Z.mul_le_mono_nonneg_r; lia. }
      rewrite <- !Z.pow_add_r by lia.
      by replace (ndigits b + - shift + 28) with (ndigits a - 1) by (unfold shift, prec; lia). }
  split; [lia|]. apply N.div_le_lower_bound; [lia|]. apply N2Z.inj_le.
  rewrite N2Z.inj_mul, Z_pow27'. lia.
Qed.

(** A coefficient with a sticky last digit rounds as the exact quotient. *)
Lemma sticky_rounds s q q' e x d :
  (10 ^ 27 <= q)%N -> (q <= q' <= q + 1)%N ->
  (mkval (Z.of_N q) e < x)%Q -> (x < mkval (Z.of_N q + 1) e)%Q ->
  dfix s q' e = Ok d -> rounds (if s then - x else x) d.
Proof.
  intros Hq Hq' Hx1 Hx2 H. destruct (dfix_mag _ _ _ _ H) as (Hs & Hf & Hm).
  assert (0 < x)%Q as Hx0.
  { eapply Qle_lt_trans; [|exact Hx1]. apply mkval_nonneg. lia. }
  assert (forall r, fits r -> (mag r <= x -> mag r <= mag d) /\ (x <= mag r -> mag d <= mag r))%Q as HM.
  { intros r Hr. destruct (Hm r Hr) as [H1 H2].
    enough ((mag r <= x -> mag r <= mkval (Z.of_N q') e) /\
            (x <= mag r -> mkval (Z.of_N q') e <= mag r))%Q by intuition.
    destruct (Z_le_gt_dec e (dexp r)) as [He|He].
    - set (n := Z.of_N (dcoeff r) * 10 ^ (dexp r - e)).
      assert (mag r == mkval n e)%Q as ->.
      { unfold n. rewrite mkval_shift by lia. unfold mag.
        by replace (e + (dexp r - e)) with (dexp r) by lia. }
      split; intros Hr1; apply mkval_le.
      + assert (n < Z.of_N q + 1); [|lia]. apply (mkval_lt _ _ e). lra.
      + assert (Z.of_N q < n); [|lia]. apply (mkval_lt _ _ e). lra.
    - assert (mag r < mkval (Z.of_N q) e)%Q as Hlt.
      { eapply Qlt_le_trans; [apply (mkval_upper _ _ prec); [done|by apply fits_digits]|].
        apply (Qle_trans _ (mkval 1 (e + 27))); [apply mkval_one_mono; unfold prec; lia|].
        apply mkval_lower; [lia|done|]. rewrite <- Z_pow27'. lia. }
      assert (mkval (Z.of_N q) e <= mkval (Z.of_N q') e)%Q by (apply mkval_le; lia).
      split; intros; lra. }
  split; [done|]. intros r Hr. destruct (HM r Hr) as [H1 H2].
  rewrite (dval_sign r), (dval_sign d), Hs. pose proof (mag_nonneg r). pose proof (mag_nonneg d).
  destruct s, (dneg r); split; intros; lra.
Qed.

Lemma ddiv_rounds a b d : ddiv a b = Ok d -> ~ (dval b == 0)%Q /\ rounds (dval a / dval b) d.
Proof.
  unfold ddiv. destruct (N.eqb_spec (dcoeff b) 0) as [|Hb]; [by destruct (_ =? _)%N|].
  assert (~ (dval b == 0)%Q) as Hb0.
  { rewrite dval_mkval, <- (mkval_0 (dexp b)), mkval_eq. unfold zsigned. destruct (dneg b); lia. }
  intros H. split; [done|].
  destruct (N.eqb_spec (dcoeff a) 0) as [Ha|Ha].
  { apply dfix_rounds in H. assert (dval a == 0)%Q as ->.
    { rewrite dval_mkval, <- (mkval_0 (dexp a)), mkval_eq. unfold zsigned. rewrite Ha. by destruct (dneg a). }
    assert (sgz (xorb (dneg a) (dneg b)) 0 = 0) as E by (by destruct (xorb _ _)).
    rewrite E, mkval_0 in H. unfold Qdiv. by rewrite Qmult_0_l. }
  destruct (ddiv_quotient_large _ _ Ha Hb) as [Hden Hq].
  set (shift := ndigits (dcoeff b) - ndigits (dcoeff a) + prec + 1) in *.
  set (num := if 0 <=? shift then (dcoeff a * pow10 shift)%N else dcoeff a) in *.
  set (den := if 0 <=? shift then dcoeff b else (dcoeff b * pow10 (- shift))%N) in *.
  set (ideal := dexp a - dexp b) in *. set (s := xorb (dneg a) (dneg b)) in *.
  (* the exact quotient is num/den * 10^(ideal - shift), with sign s *)
  assert (0 < mag b)%Q as Hmb.
  { unfold mag. rewrite <- (mkval_0 (dexp b)). apply mkval_lt. lia. }
  set (x := (mag a / mag b)%Q).
  assert (dval a / dval b == if s then - x else x)%Q as ->.
  { unfold x, s. rewrite (dval_sign a), (dval_sign b).
    destruct (dneg a), (dneg b); simpl; field; lra. }
  assert (x * mkval (Z.of_N den) 0 == mkval (Z.of_N num) (ideal - shift))%Q as Hx.
  { assert (mkval (Z.of_N den) 0 * mag a == mkval (Z.of_N num) (ideal - shift) * mag b)%Q as E.
    { unfold mag. rewrite !mkval_mul. unfold num, den, ideal.
      destruct (Z.leb_spec 0 shift).
      - rewrite N2Z.inj_mul, pow10_Z by done.
        replace (Z.of_N (dcoeff a) * 10 ^ shift * Z.of_N (dcoeff b))
          with (Z.of_N (dcoeff b) * Z.of_N (dcoeff a) * 10 ^ shift) by ring.
        rewrite mkval_shift by done.
        by replace (dexp a - dexp b - shift + dexp b + shift) with (0 + dexp a) by lia.
      - rewrite N2Z.inj_mul, pow10_Z by lia.
        replace (Z.of_N (dcoeff b) * 10 ^ (- shift) * Z.of_N (dcoeff a))
          with (Z.of_N (dcoeff a) * Z.of_N (dcoeff b) * 10 ^ (- shift)) by ring.
        rewrite mkval_shift by lia.
        by replace (0 + dexp a + - shift) with (dexp a - dexp b - shift + dexp b) by lia. }
    unfold x. field_simplify; [|lra]. rewrite Qmult_comm in E. rewrite E. field. lra. }
  assert (0 < mkval (Z.of_N den) 0)%Q as Hd0 by (rewrite <- (mkval_0 0); apply mkval_lt; lia).
  pose proof (N.div_mod num den ltac:(lia)) as Hdm. pose proof (N.mod_lt num den ltac:(lia)) as Hmod.
  set (q := (num / den)%N) in *. set (e := ideal - shift) in *.
  assert (Z.of_N num = Z.of_N q * Z.of_N den + Z.of_N (num mod den)) as Hz.
  { rewrite Hdm at 1. rewrite N2Z.inj_add, N2Z.inj_mul. ring. }
  clearbody q. set (r := (num mod den)%N) in *. clearbody r.
  assert (forall z, mkval z e * mkval (Z.of_N den) 0 == mkval (z * Z.of_N den) e)%Q as Hmul.
  { intros z. rewrite mkval_mul. by rewrite Z.add_0_r. }
  destruct (N.eqb_spec r 0) as [Hr|Hr].
  - pose proof (strip_zeros_value (Z.to_nat (ideal - e)) q e ideal) as Hsz.
    destruct (strip_zeros _ _ _ _) as [c' e']. apply dfix_rounds in H.
    assert (x == mkval (Z.of_N c') e')%Q as Ex.
    { rewrite Hsz. apply (Qmult_inj_r _ _ (mkval (Z.of_N den) 0)); [lra|].
      rewrite Hx, Hmul, mkval_eq, Hz, Hr. ring. }
    clearbody s x. clear - H Ex. unfold sgz in H. destruct s; rewrite Ex; [|done]. by rewrite mkval_opp.
  - eapply (sticky_rounds s q _ e x d Hq); [| | |exact H].
    + destruct (q mod 5 =? 0)%N; lia.
    + apply (Qmult_lt_r _ _ (mkval (Z.of_N den) 0)); [done|].
      rewrite Hx, Hmul. apply mkval_lt. rewrite Hz. lia.
    + apply (Qmult_lt_r _ _ (mkval (Z.of_N den) 0)); [done|].
      rewrite Hx, Hmul. apply mkval_lt. rewrite Hz, Z.mul_add_distr_r. lia.
Qed.

(** ** Printing and parsing *)

Definition small (ds : list N) : Prop := Forall (fun d => (d < 10)%N) ds.

Lemma digit_of_char d : (d < 10)%N -> digit_of (digit_char d) = Some d.
Proof.
  intros H. assert (d = 0 \/ d = 1 \/ d = 2 \/ d = 3 \/ d = 4 \/ d = 5 \/ d = 6 \/ d = 7 \/ d = 8 \/ d = 9)%N as D by lia.
  by repeat destruct D as [-> | D]; [..|subst].
Qed.

Definition starts_nondigit (r : list ascii) : Prop :=
  match r with [] => True | c :: _ => digit_of c = None end.

Lemma span_digits_app ds r : small ds -> starts_nondigit r ->
  span_digits (map digit_char ds ++ r) = (ds, r).
Proof.
  intros Hs Hr. induction Hs as [|d ds Hd Hs IH]; simpl.
  - destruct r as [|c r]; simpl in *; [done|]. by rewrite Hr.
  - by rewrite digit_of_char, IH by done.
Qed.

Lemma span_sign_digit d l : (d < 10)%N -> span_sign (digit_char d :: l) = (false, digit_char d :: l).
Proof.
  intros H. assert (d = 0 \/ d = 1 \/ d = 2 \/ d = 3 \/ d = 4 \/ d = 5 \/ d = 6 \/ d = 7 \/ d = 8 \/ d = 9)%N as D by lia.
  by repeat destruct D as [-> | D]; [..|subst].
Qed.

Lemma digits_nonnil n : digits n <> [].
Proof. intros E. pose proof (ndigits_pos n). unfold ndigits in *. rewrite E in *. simpl in *. lia. Qed.

Lemma zeros_digits k : zeros k = map digit_char (repeat 0%N (Z.to_nat k)).
Proof. unfold zeros. generalize (Z.to_nat k). intros n. induction n as [|n IH]; [done|]. simpl. by rewrite IH. Qed.

Lemma small_zeros n : small (repeat 0%N n).
Proof. induction n; simpl; constructor; [lia|done]. Qed.

Lemma of_digits_zeros n ds : of_digits (repeat 0%N n ++ ds) = of_digits ds.
Proof. unfold of_digits. induction n; simpl; [done|]. exact IHn. Qed.

Definition exp_part (z : Z) : list ascii := if z =? 0 then [] else "E"%char :: signed_chars z.

Lemma exp_part_nondigit z : starts_nondigit (exp_part z).
Proof. unfold exp_part. by destruct (z =? 0). Qed.

Lemma parse_exp_part z : parse_exp (exp_part z) = Some z.
Proof.
  unfold exp_part. destruct (Z.eqb_spec z 0) as [->|Hz]; [done|].
  simpl. unfold digit_chars.
  assert (span_digits (map digit_char (digits (Z.abs_N z))) = (digits (Z.abs_N z), [])) as E.
  { rewrite <- (app_nil_r (map _ _)). apply span_digits_app; [apply digits_small|done]. }
  pose proof (digits_nonnil (Z.abs_N z)) as Hn. pose proof (of_digits_digits (Z.abs_N z)) as Ho.
  destruct (Z.ltb_spec z 0); simpl; rewrite E;
    destruct (digits (Z.abs_N z)) as [|x l]; try done; rewrite Ho, N2Z.inj_abs_N; f_equal; lia.
Qed.

(** [dec_chars] as a sign, integer digits, fraction digits and an exponent. *)
Definition print_parts (d : dec) (ints fracs : list N) (z : Z) : Prop :=
  dec_chars d = (if dneg d then ["-"%char] else [])
    ++ (map digit_char ints ++ match fracs with [] => [] | _ => "."%char :: map digit_char fracs end)
    ++ exp_part z
  /\ small ints /\ small fracs /\ ints <> []
  /\ of_digits (ints ++ fracs) = dcoeff d /\ z - Z.of_nat (length fracs) = dexp d.

Lemma exp_part_if a b : (if a =? b then [] else "E"%char :: signed_chars (a - b)) = exp_part (a - b).
Proof.
  unfold exp_part. destruct (Z.eqb_spec a b), (Z.eqb_spec (a - b) 0); try lia; done.
Qed.

Lemma print_parts_ex d : exists ints fracs z, print_parts d ints fracs z.
Proof.
  unfold print_parts, dec_chars. set (len := ndigits (dcoeff d)).
  set (left := dexp d + len).
  set (dot := if (dexp d <=? 0) && (-6 <? left) then left else 1).
  pose proof (ndigits_pos (dcoeff d)) as Hl. fold len in Hl.
  pose proof (digits_small (dcoeff d)) as Hsm. pose proof (of_digits_digits (dcoeff d)) as Hod.
  assert (Z.of_nat (length (digits (dcoeff d))) = len) as Hlen by done.
  rewrite exp_part_if. unfold digit_chars.
  destruct (Z.leb_spec dot 0) as [Hd|Hd]; [|destruct (Z.leb_spec len dot) as [Hd2|Hd2]].
  - exists [0%N], (repeat 0%N (Z.to_nat (- dot)) ++ digits (dcoeff d)), (left - dot).
    assert (left = dot) as Hld by (unfold dot in *; destruct (_ && _); lia).
    split.
    { destruct (repeat 0%N _ ++ digits _) eqn:E.
      - apply app_eq_nil in E as [_ E]. by apply digits_nonnil in E.
      - rewrite <- E, zeros_digits, map_app. done. }
    split; [repeat constructor|]. split; [apply Forall_app; split; [apply small_zeros|done]|].
    split; [done|]. split; [simpl; change (of_digits ([0%N] ++ repeat 0%N (Z.to_nat (- dot)) ++ digits (dcoeff d)) = dcoeff d)|].
    + change ([0%N] ++ ?x) with (repeat 0%N 1 ++ x). by rewrite !of_digits_zeros.
    + rewrite length_app, repeat_length. lia.
  - assert (dot = len /\ dexp d = left - dot) as [Hdl He].
    { unfold dot, left in *. destruct ((dexp d <=? 0) && (-6 <? dexp d + len)) eqn:E; bool_props; lia. }
    exists (digits (dcoeff d)), [], (left - dot). rewrite Hdl.
    replace (len - len) with 0 by lia. simpl. rewrite !app_nil_r.
    split; [done|]. repeat split; [done|constructor|apply digits_nonnil|done|lia].
  - set (n := Z.to_nat dot).
    assert (length (skipn n (digits (dcoeff d))) = Z.to_nat (len - dot)) as Hsk.
    { rewrite length_skipn. lia. }
    exists (firstn n (digits (dcoeff d))), (skipn n (digits (dcoeff d))), (left - dot). split.
    { rewrite firstn_map, skipn_map. destruct (skipn n (digits (dcoeff d))) eqn:E; [|done].
      simpl in Hsk. lia. }
    split; [by apply Forall_take|]. split; [by apply Forall_drop|].
    split; [intros E; apply (f_equal length) in E; rewrite length_firstn in E; simpl in E; lia|].
    split; [by rewrite firstn_skipn|]. rewrite Hsk. lia.
Qed.

Lemma parse_print_chars d : parse_finite (dec_chars d) = Some d.
Proof.
  destruct (print_parts_ex d) as (ints & fracs & z & -> & Hi & Hf & Hn & Ho & He).
  unfold parse_finite.
  destruct ints as [|i ints]; [done|]. inversion Hi as [|? ? Hi1 Hi2]; subst.
  set (rest := match fracs with [] => [] | _ => _ end).
  assert (span_sign ((if dneg d then ["-"%char] else []) ++ (map digit_char (i :: ints) ++ rest) ++ exp_part z)
          = (dneg d, map digit_char (i :: ints) ++ rest ++ exp_part z)) as ->.
  { rewrite <- app_assoc. destruct (dneg d); [done|]. simpl. by apply span_sign_digit. }
  rewrite span_digits_app; [|done|].
  2:{ unfold rest. destruct fracs; simpl; [apply exp_part_nondigit|done]. }
  assert ((match rest ++ exp_part z with
           | "."%char :: r' => span_digits r' | _ => ([], rest ++ exp_part z) end)
          = (fracs, exp_part z)) as ->.
  { unfold rest. destruct fracs as [|f fs].
    - unfold exp_part. by destruct (z =? 0).
    - apply (span_digits_app (f :: fs)); [done|apply exp_part_nondigit]. }
  simpl app. rewrite parse_exp_part. f_equal. destruct d as [s c e]. simpl in *. by rewrite Ho, He.
Qed.

(** Characters that [dec_chars] uses: no white space and no underscore. *)
Definition num_char (c : ascii) : Prop :=
  is_py_space c = false /\ Ascii.eqb c "_"%char = false.

Lemma num_char_digits ds : small ds -> Forall num_char (map digit_char ds).
Proof.
  intros H. induction H as [|d ds Hd H IH]; simpl; constructor; [|done].
  assert (d = 0 \/ d = 1 \/ d = 2 \/ d = 3 \/ d = 4 \/ d = 5 \/ d = 6 \/ d = 7 \/ d = 8 \/ d = 9)%N as D by lia.
  by repeat destruct D as [-> | D]; [..|subst].
Qed.

Lemma num_char_exp z : Forall num_char (exp_part z).
Proof.
  unfold exp_part. destruct (z =? 0); [constructor|]. constructor; [done|]. unfold signed_chars.
  constructor; [by destruct (z <? 0)|]. apply num_char_digits, digits_small.
Qed.

Lemma num_char_dec d : Forall num_char (dec_chars d).
Proof.
  destruct (print_parts_ex d) as (ints & fracs & z & -> & Hi & Hf & _).
  apply Forall_app; split; [destruct (dneg d); repeat constructor|].
  apply Forall_app; split; [|apply num_char_exp].
  apply Forall_app; split; [by apply num_char_digits|].
  destruct fracs; [constructor|]. constructor; [done|]. by apply num_char_digits.
Qed.

Lemma str_forallb_list f l :
  str_forallb f (String.string_of_list_ascii l) = forallb f l.
Proof. induction l as [|c l IH]; simpl; congruence. Qed.

Lemma strip_num_chars l : Forall num_char l ->
  strip (String.string_of_list_ascii l) = String.string_of_list_ascii l /\
  List.filter (fun c => negb (Ascii.eqb c "_"%char)) l = l.
Proof.
  intros H. split.
  - apply strip_nospace. rewrite str_forallb_list. induction H as [|c l [H1 _] _ IH]; simpl; [done|].
    by rewrite H1, IH.
  - induction H as [|c l [_ H1] _ IH]; simpl; [done|]. by rewrite H1, IH.
Qed.

(** [Decimal(str(d)) == d], representation included. *)
Lemma Decimal_of_dec_str d : dec_in_range d = true -> Decimal_of_str (dec_str d) = Ok (DFin d).
Proof.
  intros H. unfold Decimal_of_str, dec_str.
  destruct (strip_num_chars (dec_chars d) (num_char_dec d)) as [-> Hf].
  by rewrite String.list_ascii_of_string_of_list_ascii, Hf, parse_print_chars, H.
Qed.

Lemma dec_str_inj d e : dec_in_range d = true -> dec_in_range e = true -> dec_str d = dec_str e -> d = e.
Proof.
  intros Hd He E. apply (f_equal Decimal_of_str) in E.
  rewrite !Decimal_of_dec_str in E by done. congruence.
Qed.

(** What a parse accepts is in the range of the type. *)
Lemma Decimal_of_str_range s d : Decimal_of_str s = Ok (DFin d) -> dec_in_range d = true.
Proof.
  unfold Decimal_of_str. destruct (parse_finite _) as [e|]; [|destruct (parse_special _) as [x|] eqn:E].
  - destruct (dec_in_range e) eqn:E; [|done]. by intros [= <-].
  - intros [= ->]. unfold parse_special in E. destruct (span_sign _) as [n r].
    repeat case_match; simplify_eq.
  - done.
Qed.

Lemma fits_in_range d : fits d -> dec_in_range d = true.
Proof.
  intros (H1 & H2 & H3). unfold dec_in_range.
  assert (adjusted d <= MAX_EMAX /\ MIN_ETINY <= dexp d /\ ndigits (dcoeff d) <= MAX_EMAX) as (?&?&?).
  { unfold prec, Etiny, Emin, Emax, prec, MAX_EMAX, MIN_ETINY, adjusted in *.
    destruct (_ =? _)%N; lia. }
  rewrite !andb_true_iff, !Z.leb_le. done.
Qed.

#[export] Hint Resolve fits_in_range rounds_fits fits_0 dadd_rounds dsub_rounds dmul_rounds
  dopp_rounds dabs_rounds : py.

#[global] Arguments dadd : simpl never.
#[global] Arguments dsub : simpl never.
#[global] Arguments dmul : simpl never.
#[global] Arguments ddiv : simpl never.
#[global] Arguments dmod : simpl never.
#[global] Arguments dabs : simpl never.
#[global] Arguments dopp : simpl never.
#[global] Arguments dcmp : simpl never.
#[global] Arguments dlt : simpl never.
#[global] Arguments dle : simpl never.
#[global] Arguments deqb : simpl never.
#[global] Arguments dmax : simpl never.
#[global] Arguments dmin : simpl never.
#[global] Arguments dec_str : simpl never.
#[global] Arguments Decimal_of_str : simpl never.
