(* ===== verification/PyDecimalPlain.v ===== *)
(** * Canonical decimals: [normalize] and the plain format

    [Decimal.normalize] and [format(d, "f")], and what they give together: a text that
    depends on the value only and reads back as that value.  The operations depend on
    the values of their operands only, and succeed below the overflow threshold. *)
From Stdlib Require Import ZArith Lia QArith Qabs Lqa Ascii.
From stdpp Require Import base list strings.
From S2P Require Import Prelude PyDecimal PyDecimalFacts.
Open Scope Z_scope.

(** [d.normalize()]: rounded to the context, then without trailing zeros. *)
Definition dnormalize (d : dec) : result dec :=
  let! r := dfix (dneg d) (dcoeff d) (dexp d) in
  if (dcoeff r =? 0)%N then Ok (Dec (dneg r) 0 0)
  else let '(c, e) := strip_zeros (Z.to_nat (ndigits (dcoeff r))) (dcoeff r) (dexp r) Emax in Ok (Dec (dneg r) c e).

Definition plain_chars (d : dec) : list ascii :=
  let d := if (dcoeff d =? 0)%N && (0 <? dexp d) then Dec (dneg d) 0 0 else d in
  let int := digit_chars (dcoeff d) in
  let len := ndigits (dcoeff d) in
  let dot := dexp d + len in
  let body :=
    if dot <? 0 then ("0"%char :: "."%char :: zeros (- dot)) ++ int
    else if len <? dot then int ++ zeros (dot - len)
    else (match firstn (Z.to_nat dot) int with [] => ["0"%char] | l => l end)
         ++ match skipn (Z.to_nat dot) int with [] => [] | l => "."%char :: l end in
  (if dneg d then ["-"%char] else []) ++ body.

(** [format(d, "f")] *)
Definition dec_plain (d : dec) : string := String.string_of_list_ascii (plain_chars d).

Example plain_small : dec_plain (Dec true 15 (-8)) = "-0.00000015".
Proof. vm_compute. reflexivity. Qed.
Example plain_large : dec_plain (Dec false 12 3) = "12000".
Proof. vm_compute. reflexivity. Qed.
Example plain_mixed : dec_plain (Dec false 1234 (-2)) = "12.34".
Proof. vm_compute. reflexivity. Qed.
Example normalize_example : dnormalize (Dec false 1200 (-2)) = Ok (Dec false 12 0).
Proof. vm_compute. reflexivity. Qed.

(** ** Reading a plain text back *)

(** What [Decimal] makes of the plain text of a number. *)
Definition plain_value (d : dec) : dec :=
  Dec (dneg d) (dcoeff d * pow10 (Z.max 0 (dexp d))) (Z.min 0 (dexp d)).

Lemma of_digits_app a b : of_digits (a ++ b) = (of_digits a * 10 ^ N.of_nat (length b) + of_digits b)%N.
Proof.
  unfold of_digits. rewrite fold_left_app. generalize (fold_left (fun a d => (a * 10 + d)%N) a 0%N) as x.
  clear a. intros x. change (fun a d => (a * 10 + d)%N) with dig_step.
  enough (forall y, fold_left dig_step b (x + y) = x * 10 ^ N.of_nat (length b) + fold_left dig_step b y)%N as H
    by (specialize (H 0%N); by rewrite N.add_0_r in H).
  revert x; induction b as [|d b IH]; intros x y; [simpl; lia|]. cbn [fold_left length].
  replace (dig_step (x + y) d) with (x * 10 + dig_step y d)%N by (unfold dig_step; lia). rewrite IH.
  rewrite Nat2N.inj_succ, N.pow_succ_r'. lia.
Qed.

Lemma of_digits_repeat0 k : of_digits (repeat 0%N k) = 0%N.
Proof. rewrite <- (app_nil_r (repeat _ _)). by rewrite of_digits_zeros. Qed.

(** A sign, integer digits and fraction digits. *)
Definition fixed_point (s : bool) (ints fracs : list N) : list ascii :=
  (if s then ["-"%char] else [])
  ++ (map digit_char ints ++ match fracs with [] => [] | _ => "."%char :: map digit_char fracs end).

Lemma plain_parts d : exists ints fracs, plain_chars d = fixed_point (dneg d) ints fracs /\
  small ints /\ small fracs /\ ints <> [] /\
  of_digits (ints ++ fracs) = dcoeff (plain_value d) /\ - Z.of_nat (length fracs) = dexp (plain_value d).
Proof.
  unfold plain_chars, fixed_point, plain_value.
  destruct ((dcoeff d =? 0)%N && (0 <? dexp d)) eqn:Hz.
  { bool_props. exists [0%N], []. apply N.eqb_eq in H. rewrite H. simpl.
    repeat split; try done; [repeat constructor|constructor|lia]. }
  set (len := ndigits (dcoeff d)). set (dot := dexp d + len).
  pose proof (ndigits_pos (dcoeff d)) as Hl. fold len in Hl.
  pose proof (digits_small (dcoeff d)) as Hsm. pose proof (of_digits_digits (dcoeff d)) as Hod.
  assert (Z.of_nat (length (digits (dcoeff d))) = len) as Hlen by done.
  unfold digit_chars. destruct (Z.ltb_spec dot 0) as [Hd|Hd]; [|destruct (Z.ltb_spec len dot) as [Hd2|Hd2]].
  - exists [0%N], (repeat 0%N (Z.to_nat (- dot)) ++ digits (dcoeff d)). split.
    { destruct (repeat 0%N _ ++ digits _) eqn:E; [apply app_eq_nil in E as [_ E]; by apply digits_nonnil in E|].
      rewrite <- E, zeros_digits, map_app. done. }
    split; [repeat constructor|]. split; [apply Forall_app; split; [apply small_zeros|done]|]. split; [done|].
    split; [|simpl; rewrite length_app, repeat_length; lia]. simpl.
    change (of_digits (repeat 0%N 1 ++ repeat 0%N (Z.to_nat (- dot)) ++ digits (dcoeff d))
            = dcoeff d * pow10 (Z.max 0 (dexp d)))%N.
    rewrite !of_digits_zeros, Hod. replace (Z.max 0 (dexp d)) with 0 by lia. change (pow10 0) with 1%N. lia.
  - exists (digits (dcoeff d) ++ repeat 0%N (Z.to_nat (dot - len))), [].
    rewrite zeros_digits, <- map_app, !app_nil_r.
    split; [done|]. split; [apply Forall_app; split; [done|apply small_zeros]|]. split; [constructor|].
    split; [intros E; apply app_eq_nil in E as [E _]; by apply digits_nonnil in E|]. simpl. split; [|lia].
    rewrite of_digits_app, of_digits_repeat0, repeat_length, Hod, N.add_0_r. unfold pow10. do 2 f_equal. lia.
  - set (n := Z.to_nat dot).
    exists (match firstn n (digits (dcoeff d)) with [] => [0%N] | l => l end), (skipn n (digits (dcoeff d))).
    assert (length (skipn n (digits (dcoeff d))) = Z.to_nat (len - dot)) as Hsk by (rewrite length_skipn; lia).
    rewrite firstn_map, skipn_map. split; [by destruct (firstn n _), (skipn n _)|].
    split; [destruct (firstn n _) eqn:E; [repeat constructor|rewrite <- E; by apply Forall_take]|].
    split; [by apply Forall_drop|]. split; [by destruct (firstn n _)|]. simpl. split; [|lia].
    replace (Z.max 0 (dexp d)) with 0 by lia. change (pow10 0) with 1%N. rewrite N.mul_1_r.
    rewrite <- Hod at 3. rewrite <- (firstn_skipn n (digits (dcoeff d))) at 3.
    destruct (firstn n _); [|done]. by rewrite (of_digits_zeros 1).
Qed.

Lemma parse_fixed_point s ints fracs : small ints -> small fracs -> ints <> [] ->
  parse_finite (fixed_point s ints fracs) = Some (Dec s (of_digits (ints ++ fracs)) (- Z.of_nat (length fracs))).
Proof.
  intros Hi Hf Hn. unfold parse_finite, fixed_point.
  destruct ints as [|i ints]; [done|]. inversion Hi as [|? ? Hi1 Hi2]; subst.
  set (rest := match fracs with [] => [] | _ => _ end).
  assert (span_sign ((if s then ["-"%char] else []) ++ (map digit_char (i :: ints) ++ rest))
          = (s, map digit_char (i :: ints) ++ rest)) as ->.
  { destruct s; [done|]. simpl. by apply span_sign_digit. }
  rewrite span_digits_app; [|done|by unfold rest; destruct fracs].
  assert ((match rest with "."%char :: r' => span_digits r' | _ => ([], rest) end) = (fracs, [])) as ->.
  { unfold rest. destruct fracs as [|f fs]; [done|]. rewrite <- (app_nil_r (map _ _)). by apply span_digits_app. }
  done.
Qed.

(** [Decimal(format(d, "f"))] *)
Lemma Decimal_of_plain d : dec_in_range (plain_value d) = true -> Decimal_of_str (dec_plain d) = Ok (DFin (plain_value d)).
Proof.
  intros H. destruct (plain_parts d) as (ints & fracs & E & Hi & Hf & Hn & Ho & He).
  unfold Decimal_of_str, dec_plain. destruct (strip_num_chars (plain_chars d)) as [-> Hfl].
  { rewrite E. unfold fixed_point. apply Forall_app; split; [destruct (dneg d); repeat constructor|].
    apply Forall_app; split; [by apply num_char_digits|].
    destruct fracs; [constructor|]. constructor; [done|]. by apply num_char_digits. }
  rewrite String.list_ascii_of_string_of_list_ascii, Hfl, E, parse_fixed_point by done.
  rewrite Ho, He. change (Dec (dneg d) (dcoeff (plain_value d)) (dexp (plain_value d))) with (plain_value d). by rewrite H.
Qed.

Lemma dval_plain_value d : (dval (plain_value d) == dval d)%Q.
Proof.
  rewrite !dval_mkval. unfold plain_value, zsigned. simpl.
  replace (dexp d) with (Z.min 0 (dexp d) + Z.max 0 (dexp d)) at 4 by lia.
  rewrite <- mkval_shift by lia. rewrite N2Z.inj_mul, pow10_Z by lia.
  destruct (dneg d); rewrite ?Z.mul_opp_l; reflexivity.
Qed.

(** ** The normal form *)

(** Representable and without trailing zeros. *)
Definition normal (n : dec) : Prop :=
  fits n /\ (dcoeff n = 0%N -> dexp n = 0) /\ (dcoeff n <> 0 -> dcoeff n mod 10 <> 0)%N.

Lemma ndigits_mul_pow10 c k : c <> 0%N -> 0 <= k -> ndigits (c * pow10 k) = ndigits c + k.
Proof.
  intros Hc Hk. destruct (ndigits_bounds c) as [H1 H2]. specialize (H2 Hc). pose proof (ndigits_pos c).
  assert (0 < 10 ^ k) by (apply Z.pow_pos_nonneg; lia).
  apply Z.le_antisymm.
  - apply ndigits_le; [lia|]. rewrite N2Z.inj_mul, pow10_Z, Z.pow_add_r by lia. nia.
  - enough (ndigits c + k - 1 < ndigits (c * pow10 k)) by lia. apply ndigits_ge; [lia|].
    rewrite N2Z.inj_mul, pow10_Z by done. replace (ndigits c + k - 1) with (ndigits c - 1 + k) by lia.
    rewrite Z.pow_add_r by lia. nia.
Qed.

Lemma strip_zeros_full fuel c e lim : c <> 0%N -> Z.of_N c < 10 ^ Z.of_nat fuel -> e <= lim ->
  let '(c', e') := strip_zeros fuel c e lim in
  e <= e' <= lim /\ c = (c' * pow10 (e' - e))%N /\ c' <> 0%N /\ (e' < lim -> (c' mod 10 <> 0)%N).
Proof.
  revert c e; induction fuel as [|f IH]; intros c e Hc Hb He; cbn [strip_zeros].
  { simpl in Hb. lia. }
  destruct (Z.ltb_spec e lim) as [Hl|Hl]; cbn [andb].
  2:{ replace (e - e) with 0 by lia. change (pow10 0) with 1%N. repeat split; try done; lia. }
  destruct (N.eqb_spec (c mod 10) 0) as [Hm|Hm].
  2:{ replace (e - e) with 0 by lia. change (pow10 0) with 1%N. repeat split; try done; lia. }
  pose proof (N.div_mod c 10 ltac:(done)) as Hd. rewrite Hm, N.add_0_r in Hd.
  rewrite Nat2Z.inj_succ, Z.pow_succ_r in Hb by lia.
  specialize (IH (c / 10)%N (e + 1) ltac:(lia) ltac:(lia) ltac:(lia)).
  destruct (strip_zeros f (c / 10) (e + 1) lim) as [c' e']. destruct IH as (H1 & H2 & H3 & H4).
  split; [lia|]. split; [|done]. rewrite Hd, H2. replace (e' - e) with (1 + (e' - (e + 1))) by lia.
  unfold pow10. rewrite Z2N.inj_add, N.pow_add_r by lia. change (10 ^ Z.to_N 1)%N with 10%N. lia.
Qed.

Lemma fits_exp_le d : fits d -> dcoeff d <> 0%N -> dexp d <= Emax.
Proof.
  intros (_ & _ & H) Hc. destruct (N.eqb_spec (dcoeff d) 0); [done|]. unfold adjusted in H.
  pose proof (ndigits_pos (dcoeff d)). lia.
Qed.

Lemma dnormalize_spec d n : dnormalize d = Ok n ->
  normal n /\ dneg n = dneg d /\ rounds (dval d) n.
Proof.
  unfold dnormalize. intros H. apply res_bind_Ok in H as (r & Hr & H).
  pose proof (dfix_neg _ _ _ _ Hr) as Hs. pose proof (dfix_rounds _ _ _ _ Hr) as Hx.
  assert (dval d == mkval (sgz (dneg d) (dcoeff d)) (dexp d))%Q as Hv by (unfold dval, zsigned, sgz, mkval; by destruct (dneg d)).
  assert (forall m, fits m -> (dval m == dval r)%Q -> rounds (dval d) m) as Hround.
  { intros m Hm E. split; [done|]. intros t Ht. destruct Hx as [_ Hx]. destruct (Hx t Ht) as [A B].
    rewrite Hv, E. by split. }
  pose proof (rounds_fits _ _ Hx) as Hf. destruct (N.eqb_spec (dcoeff r) 0) as [E|E].
  - injection H as <-. assert (fits (Dec (dneg r) 0 0)) as Hf0 by done. split; [by split|]. split; [done|].
    apply Hround; [done|]. unfold dval, zsigned. rewrite E. simpl. destruct (dneg r); rewrite !Qmult_0_l; reflexivity.
  - pose proof (strip_zeros_full (Z.to_nat (ndigits (dcoeff r))) (dcoeff r) (dexp r) Emax E) as Hz.
    pose proof (ndigits_pos (dcoeff r)). rewrite Z2Nat.id in Hz by lia.
    specialize (Hz (proj1 (ndigits_bounds _)) (fits_exp_le _ Hf E)).
    destruct (strip_zeros _ _ _ _) as [c e]. injection H as <-. destruct Hz as (He & Hc & Hc0 & Hm).
    pose proof (ndigits_mul_pow10 c (e - dexp r) Hc0 ltac:(lia)) as Hnd. rewrite <- Hc in Hnd.
    pose proof Hf as (F1 & F2 & F3). destruct (N.eqb_spec (dcoeff r) 0); [done|]. unfold adjusted in F3.
    assert (fits (Dec (dneg r) c e)) as Hfn.
    { split; [simpl; lia|]. split; [simpl; lia|]. simpl. destruct (N.eqb_spec c 0); [done|]. unfold adjusted. simpl. lia. }
    split; [split; [done|]; split; [done|]|].
    + intros _. simpl. destruct (Z.ltb_spec e Emax) as [Hl|Hl]; [by apply Hm|]. intros Hc10.
      assert (1 < ndigits c) as Hnc; [|simpl in *; lia]. apply ndigits_ge; [lia|].
      pose proof (N.div_mod c 10 ltac:(done)). simpl. lia.
    + split; [done|]. apply Hround; [done|].
      rewrite !dval_mkval. unfold zsigned. simpl. rewrite Hc, N2Z.inj_mul, pow10_Z by lia.
      replace e with (dexp r + (e - dexp r)) at 1 by lia. rewrite <- mkval_shift by lia.
      destruct (dneg r); rewrite ?Z.mul_opp_l; reflexivity.
Qed.

Lemma zsigned_inj a b : dneg a = dneg b -> zsigned a = zsigned b -> dcoeff a = dcoeff b.
Proof. unfold zsigned. intros ->. destruct (dneg b); lia. Qed.

Lemma zsigned_0 d : zsigned d = 0 <-> dcoeff d = 0%N.
Proof. unfold zsigned. destruct (dneg d); lia. Qed.

Lemma dval_zero d : (dval d == 0)%Q <-> dcoeff d = 0%N.
Proof.
  rewrite dval_mkval, <- (mkval_0 (dexp d)), mkval_eq. apply zsigned_0.
Qed.

(** Equal values: one coefficient is the other times a power of ten. *)
Lemma dval_eq_scale a b : (dval a == dval b)%Q -> dexp a <= dexp b -> zsigned a = zsigned b * 10 ^ (dexp b - dexp a).
Proof.
  intros E H. rewrite !dval_mkval in E. replace (dexp b) with (dexp a + (dexp b - dexp a)) in E by lia.
  rewrite <- mkval_shift in E by lia. by apply mkval_eq in E.
Qed.

Lemma dval_eq_neg a b : (dval a == dval b)%Q -> dcoeff b <> 0%N -> dneg a = dneg b.
Proof.
  intros E Hb. destruct (Z.le_ge_cases (dexp a) (dexp b)) as [H|H].
  - pose proof (dval_eq_scale a b E H) as Hs. assert (0 < 10 ^ (dexp b - dexp a)) by (apply Z.pow_pos_nonneg; lia).
    unfold zsigned in Hs. destruct (dneg a), (dneg b); try done; nia.
  - symmetry in E. pose proof (dval_eq_scale b a E H) as Hs. assert (0 < 10 ^ (dexp a - dexp b)) by (apply Z.pow_pos_nonneg; lia).
    unfold zsigned in Hs. destruct (dneg a), (dneg b); try done; nia.
Qed.

Lemma normal_exp_le a b : normal b -> dcoeff b <> 0%N -> (dval a == dval b)%Q -> dexp a <= dexp b.
Proof.
  intros (_ & _ & Hb) Hc E. specialize (Hb Hc). destruct (Z.le_gt_cases (dexp a) (dexp b)) as [|H]; [done|].
  symmetry in E. pose proof (dval_eq_scale b a E ltac:(lia)) as Hs. exfalso. apply Hb.
  replace (dexp a - dexp b) with (1 + (dexp a - dexp b - 1)) in Hs by lia.
  rewrite Z.pow_add_r in Hs by lia. change (10 ^ 1) with 10 in Hs.
  assert (Z.of_N (dcoeff b) mod 10 = 0) as Hm; [|apply N2Z.inj; by rewrite N2Z.inj_mod].
  apply Z.mod_divide; [done|]. unfold zsigned in Hs.
  exists (zsigned a * 10 ^ (dexp a - dexp b - 1) * (if dneg b then -1 else 1)). unfold zsigned. destruct (dneg b); lia.
Qed.

(** A normal form is determined by its value (and the sign of a zero). *)
Lemma normal_unique a b : normal a -> normal b -> (dval a == dval b)%Q -> dneg a = dneg b -> a = b.
Proof.
  intros Ha Hb E Hs. destruct (N.eq_dec (dcoeff b) 0%N) as [Hz|Hz].
  - assert (dcoeff a = 0%N) as Hz' by (apply dval_zero; rewrite E; by apply dval_zero).
    destruct Ha as (_ & Ha & _), Hb as (_ & Hb & _). destruct a, b; simpl in *. rewrite Ha, Hb by done. by subst.
  - assert (dcoeff a <> 0%N) as Hz' by (intros H; apply Hz, dval_zero; rewrite <- E; by apply dval_zero).
    pose proof (normal_exp_le a b Hb Hz E). pose proof (normal_exp_le b a Ha Hz' ltac:(by symmetry)).
    assert (dexp a = dexp b) as He by lia. pose proof (dval_eq_scale a b E ltac:(lia)) as Hv.
    rewrite He, Z.sub_diag, Z.mul_1_r in Hv. pose proof (zsigned_inj a b Hs Hv).
    destruct a, b; simpl in *. by subst.
Qed.

Lemma div_half_even_exact c p : (0 < p)%N -> div_half_even (c * p) p = c.
Proof.
  intros H. unfold div_half_even. rewrite N.div_mul, N.Div0.mod_mul by lia. simpl.
  destruct p; [lia|done].
Qed.

Lemma pow10_pos k : (0 < pow10 k)%N.
Proof. unfold pow10. apply N.neq_0_lt_0, N.pow_nonzero. lia. Qed.

Lemma pow10_add j k : 0 <= j -> 0 <= k -> (pow10 (j + k) = pow10 j * pow10 k)%N.
Proof. intros. unfold pow10. by rewrite Z2N.inj_add, N.pow_add_r by done. Qed.

Lemma div_half_even_scale c p q : (0 < p)%N -> (0 < q)%N -> div_half_even (c * q) (p * q) = div_half_even c p.
Proof.
  intros Hp Hq. unfold div_half_even. rewrite N.Div0.div_mul_cancel_r, N.Div0.mul_mod_distr_r by lia.
  rewrite N.mul_assoc. set (r := (2 * (c mod p))%N). clearbody r.
  replace (r * q ?= p * q)%N with (r ?= p)%N; [done|].
  destruct (N.compare_spec r p); symmetry; [apply N.compare_eq_iff|apply N.compare_lt_iff|apply N.compare_gt_iff]; nia.
Qed.

(** The outcomes of two roundings: both fail, or both give the same value. *)
Definition same_outcome (x y : result dec) : Prop :=
  match x, y with
  | Ok a, Ok b => (dval a == dval b)%Q /\ dneg a = dneg b
  | Err e, Err e' => e = e'
  | _, _ => False
  end.

(** Rounding does not depend on the representation. *)
Lemma dfix_scale s c e k : c <> 0%N -> 0 <= k -> same_outcome (dfix s c e) (dfix s (c * pow10 k) (e - k)).
Proof.
  intros Hc Hk. pose proof (pow10_pos k) as Hp. unfold dfix.
  destruct (N.eqb_spec c 0); [done|]. destruct (N.eqb_spec (c * pow10 k) 0); [nia|].
  rewrite ndigits_mul_pow10 by done. replace (ndigits c + k + (e - k) - prec) with (ndigits c + e - prec) by lia.
  destruct (Z.ltb_spec Etop (ndigits c + e - prec)); [done|].
  set (em := Z.max (ndigits c + e - prec) Etiny).
  destruct (Z.ltb_spec e em) as [He|He].
  - destruct (Z.ltb_spec (e - k) em); [|lia]. replace (em - (e - k)) with (em - e + k) by lia.
    rewrite pow10_add, div_half_even_scale by (apply pow10_pos || lia).
    destruct (prec <? _); [|done]. by destruct (_ <? _).
  - assert (forall m, m <= e -> (dval (Dec s c e) == dval (Dec s (c * pow10 (e - m)) m))%Q) as Hv.
    { intros m Hm. rewrite !dval_mkval. unfold zsigned. simpl. rewrite N2Z.inj_mul, pow10_Z by lia.
      replace e with (m + (e - m)) at 1 by lia. rewrite <- mkval_shift by lia.
      destruct s; rewrite ?Z.mul_opp_l; reflexivity. }
    destruct (Z.ltb_spec (e - k) em) as [Hl|Hl].
    + assert (pow10 k = pow10 (e - em) * pow10 (em - (e - k)))%N as -> by (rewrite <- pow10_add by lia; f_equal; lia).
      rewrite N.mul_assoc, div_half_even_exact by apply pow10_pos.
      rewrite ndigits_mul_pow10 by (done || lia).
      destruct (Z.ltb_spec prec (ndigits c + (e - em))); [lia|]. split; [by apply Hv|done].
    + split; [|done]. rewrite (Hv (e - k)) by lia. by replace (e - (e - k)) with k by lia.
Qed.

(** Equal non-zero values round alike. *)
Lemma dfix_same a b : (dval a == dval b)%Q -> dcoeff a <> 0%N ->
  same_outcome (dfix (dneg a) (dcoeff a) (dexp a)) (dfix (dneg b) (dcoeff b) (dexp b)).
Proof.
  assert (forall a b, (dval a == dval b)%Q -> dcoeff b <> 0%N -> dexp a <= dexp b ->
    same_outcome (dfix (dneg b) (dcoeff b) (dexp b)) (dfix (dneg a) (dcoeff a) (dexp a))) as H.
  { clear. intros a b E Hb He. pose proof (dval_eq_neg a b E Hb) as Hs. pose proof (dval_eq_scale a b E He) as Hv.
    rewrite Hs. replace (dcoeff a) with (dcoeff b * pow10 (dexp b - dexp a))%N.
    2:{ apply N2Z.inj. rewrite N2Z.inj_mul, pow10_Z by lia. unfold zsigned in Hv. rewrite Hs in Hv. destruct (dneg b); lia. }
    replace (dexp a) with (dexp b - (dexp b - dexp a)) at 2 by lia. apply dfix_scale; [done|lia]. }
  intros E Ha. destruct (Z.le_ge_cases (dexp b) (dexp a)).
  - apply H; [by symmetry|done|done].
  - assert (dcoeff b <> 0%N) as Hb by (intros Hb; apply Ha, dval_zero; rewrite E; by apply dval_zero).
    specialize (H a b E Hb ltac:(done)). destruct (dfix (dneg a) _ _), (dfix (dneg b) _ _); simpl in *; try done.
    destruct H as [-> ->]. done.
Qed.

(** Rounding a number whose value is representable. *)
Lemma dfix_representable d n : fits n -> dcoeff n <> 0%N -> (dval d == dval n)%Q ->
  exists r, dfix (dneg d) (dcoeff d) (dexp d) = Ok r /\ (dval r == dval n)%Q.
Proof.
  intros Hn Hc E. pose proof (dfix_same n d ltac:(by symmetry) Hc) as H.
  rewrite (dfix_id (dneg n) (dcoeff n) (dexp n)) in H by (by destruct n).
  destruct (dfix (dneg d) _ _) as [r|]; [|done]. exists r. split; [done|]. destruct H as [H _]. rewrite <- H. by destruct n.
Qed.

(** [normalize] depends on the value only. *)
Lemma dnormalize_value d n : normal n -> dcoeff n <> 0%N -> (dval d == dval n)%Q -> dnormalize d = Ok n.
Proof.
  intros Hn Hc E. destruct (dfix_representable d n (proj1 Hn) Hc E) as (r & Hr & Hv).
  assert (exists n', dnormalize d = Ok n') as [n' Hn'].
  { unfold dnormalize. rewrite Hr. simpl. destruct (_ =? _)%N; [by eexists|]. destruct (strip_zeros _ _ _ _). by eexists. }
  rewrite Hn'. f_equal. pose proof (dnormalize_spec d n' Hn') as (H1 & H2 & H3).
  apply normal_unique; [done|done| |rewrite H2; by apply dval_eq_neg].
  rewrite <- E. eapply rounds_exact; [exact H3|apply Hn|done].
Qed.

(** [normalize] gives the same result, failures included, on equal non-zero values. *)
Lemma dnormalize_same a b : (dval a == dval b)%Q -> dcoeff a <> 0%N -> dnormalize a = dnormalize b.
Proof.
  intros E Ha. pose proof (dfix_same a b E Ha) as H.
  assert (forall d r, dfix (dneg d) (dcoeff d) (dexp d) = Ok r -> exists n, dnormalize d = Ok n /\ normal n /\
    (dval n == dval r)%Q /\ dneg n = dneg r) as Hn.
  { clear. intros d r Hr. assert (exists n, dnormalize d = Ok n) as [n Hn].
    { unfold dnormalize. rewrite Hr. simpl. destruct (_ =? _)%N; [by eexists|]. destruct (strip_zeros _ _ _ _). by eexists. }
    exists n. destruct (dnormalize_spec d n Hn) as (H1 & H2 & _). split; [done|]. split; [done|].
    split; [|by rewrite H2, (dfix_neg _ _ _ _ Hr)].
    unfold dnormalize in Hn. rewrite Hr in Hn. simpl in Hn.
    destruct (N.eqb_spec (dcoeff r) 0) as [Hz|Hz].
    - injection Hn as <-. rewrite (proj2 (dval_zero r)) by done. by apply dval_zero.
    - pose proof (rounds_fits _ _ (dfix_rounds _ _ _ _ Hr)) as Hf. pose proof (ndigits_pos (dcoeff r)).
      pose proof (strip_zeros_full (Z.to_nat (ndigits (dcoeff r))) (dcoeff r) (dexp r) Emax Hz) as Hs.
      rewrite Z2Nat.id in Hs by lia. specialize (Hs (proj1 (ndigits_bounds _)) (fits_exp_le _ Hf Hz)).
      destruct (strip_zeros _ _ _ _) as [c e]. injection Hn as <-. destruct Hs as (He & Hc & _).
      rewrite !dval_mkval. unfold zsigned. simpl. rewrite Hc, N2Z.inj_mul, pow10_Z by lia.
      replace e with (dexp r + (e - dexp r)) at 1 by lia. rewrite <- mkval_shift by lia.
      destruct (dneg r); rewrite ?Z.mul_opp_l; reflexivity. }
  destruct (dfix (dneg a) _ _) as [r|e] eqn:Ea, (dfix (dneg b) _ _) as [r'|e'] eqn:Eb; try done.
  - destruct H as [Hv Hs]. destruct (Hn a r Ea) as (n & -> & N1 & N2 & N3), (Hn b r' Eb) as (n' & -> & M1 & M2 & M3).
    f_equal. apply normal_unique; [done|done| |congruence]. by rewrite N2, M2.
  - simpl in H. unfold dnormalize. by rewrite Ea, Eb, H.
Qed.

Lemma dmul_same a b a' b' : (dval a == dval a')%Q -> (dval b == dval b')%Q -> dcoeff a <> 0%N -> dcoeff b <> 0%N ->
  same_outcome (dmul a b) (dmul a' b').
Proof.
  intros Ea Eb Ha Hb. assert (forall x y, (dval (Dec (xorb (dneg x) (dneg y)) (dcoeff x * dcoeff y) (dexp x + dexp y)) == dval x * dval y)%Q) as Hm.
  { intros x y. rewrite !dval_mkval, mkval_mul. unfold zsigned. simpl. rewrite N2Z.inj_mul.
    destruct (dneg x), (dneg y); simpl;
      rewrite ?Z.mul_opp_l, ?Z.mul_opp_r, ?Z.opp_involutive; reflexivity. }
  apply (dfix_same (Dec (xorb (dneg a) (dneg b)) (dcoeff a * dcoeff b) (dexp a + dexp b))
                   (Dec (xorb (dneg a') (dneg b')) (dcoeff a' * dcoeff b') (dexp a' + dexp b'))); [|simpl; nia].
  rewrite !Hm. by rewrite Ea, Eb.
Qed.

(** Negation of a representable value. *)
Lemma dopp_representable d n : fits n -> (dval d == dval n)%Q -> exists r, dopp d = Ok r /\ (dval r == - dval d)%Q /\ fits r.
Proof.
  intros Hn E. destruct (N.eq_dec (dcoeff d) 0%N) as [Hz|Hz].
  - unfold dopp. rewrite Hz. simpl. unfold dfix. simpl. eexists. split; [done|].
    rewrite (proj2 (dval_zero d)) by done. split; [by apply dval_zero|]. split; [done|]. simpl.
    unfold Etiny, Emin, Emax, prec. lia.
  - assert (dcoeff n <> 0%N) as Hn0 by (intros H; apply Hz, dval_zero; rewrite E; by apply dval_zero).
    destruct (dfix_representable (copy_negate d) (copy_negate n)) as (r & Hr & Hv); [done|done|by rewrite !dval_copy_negate, E|].
    exists r. unfold dopp. destruct (N.eqb_spec (dcoeff d) 0); [done|]. split; [done|].
    split; [by rewrite Hv, dval_copy_negate, E|]. exact (rounds_fits _ _ (dfix_rounds _ _ _ _ Hr)).
Qed.

Lemma plain_value_range n : fits n -> dec_in_range (plain_value n) = true.
Proof.
  intros (H1 & H2 & H3). unfold dec_in_range, adjusted, plain_value. simpl.
  assert (dcoeff n = 0%N \/ dcoeff n <> 0%N) as [->|Hc] by lia.
  { change (ndigits (0 * pow10 _)) with 1. rewrite !andb_true_iff, !Z.leb_le.
    unfold MAX_EMAX, MIN_ETINY, Etiny, Emin, prec in *. lia. }
  destruct (N.eqb_spec (dcoeff n) 0); [done|]. unfold adjusted in H3.
  rewrite ndigits_mul_pow10 by (done || lia). rewrite !andb_true_iff, !Z.leb_le.
  unfold MAX_EMAX, MIN_ETINY, Etiny, Emin, Emax, prec in *. lia.
Qed.

Lemma normal_plain_inj a b : normal a -> normal b -> dec_plain a = dec_plain b -> a = b.
Proof.
  intros Ha Hb E. apply (f_equal Decimal_of_str) in E.
  rewrite !Decimal_of_plain in E by apply plain_value_range, Ha || apply plain_value_range, Hb.
  injection E as Es Ec Ee. apply normal_unique; [done|done| |done].
  rewrite <- (dval_plain_value a), <- (dval_plain_value b). unfold plain_value. rewrite Es, Ec, Ee. reflexivity.
Qed.

(** ** No overflow below the threshold *)

Lemma dfix_total s c e : (c <> 0%N -> ndigits c + e <= Emax) -> exists d, dfix s c e = Ok d.
Proof.
  intros H. unfold dfix. destruct (N.eqb_spec c 0) as [|Hc]; [by eexists|]. specialize (H Hc).
  assert (ndigits c + e - prec < Etop) as Ht by (unfold Etop; lia).
  destruct (Z.ltb_spec Etop (ndigits c + e - prec)); [lia|].
  destruct (_ <? _); [|by eexists]. destruct (_ <? _); [|by eexists].
  destruct (Z.ltb_spec Etop (Z.max (ndigits c + e - prec) Etiny + 1)); [|by eexists].
  unfold Etop, Etiny, Emin, Emax, prec in *. lia.
Qed.

Lemma value_digits c e k : c <> 0%N -> (mkval (Z.of_N c) e < mkval 1 k)%Q -> ndigits c + e <= k.
Proof.
  intros Hc H. pose proof (ndigits_pos c). destruct (ndigits_bounds c) as [_ Hb]. specialize (Hb Hc).
  destruct (Z.le_gt_cases (ndigits c + e) k) as [|Hk]; [done|]. exfalso.
  pose proof (mkval_lower (Z.of_N c) e ltac:(lia) (ndigits c - 1) ltac:(lia) Hb) as Hl.
  pose proof (mkval_one_mono k (e + (ndigits c - 1)) ltac:(lia)). lra.
Qed.

Lemma dadd_total a b k : (Qabs (dval a) + Qabs (dval b) < mkval 1 k)%Q -> k <= Emax -> exists d, dadd a b = Ok d.
Proof.
  intros H Hk. unfold dadd. set (m := Z.min (dexp a) (dexp b)). set (z := zscaled a m + zscaled b m).
  apply dfix_total. intros Hz. etransitivity; [|exact Hk]. apply value_digits; [done|].
  rewrite N2Z.inj_abs_N. assert (mkval (Z.abs z) m == Qabs (dval a + dval b))%Q as ->.
  { assert (dval a + dval b == mkval z m)%Q as -> by
      (rewrite (dval_scaled a m), (dval_scaled b m) by lia; apply mkval_add).
    unfold mkval. rewrite Qabs_Qmult, (Qabs_pos (10 ^ m)) by apply Qlt_le_weak, ten_pos. reflexivity. }
  eapply Qle_lt_trans; [apply Qabs_triangle|exact H].
Qed.

Lemma Qabs_dval d : (Qabs (dval d) == mag d)%Q.
Proof.
  rewrite dval_sign. pose proof (mag_nonneg d). destruct (dneg d); [rewrite Qabs_opp|]; by apply Qabs_pos.
Qed.

Lemma dmul_total a b k : (Qabs (dval a) * Qabs (dval b) < mkval 1 k)%Q -> k <= Emax -> exists d, dmul a b = Ok d.
Proof.
  intros H Hk. unfold dmul. apply dfix_total. intros Hz. etransitivity; [|exact Hk]. apply value_digits; [done|].
  rewrite !Qabs_dval in H. unfold mag in H. by rewrite mkval_mul, <- N2Z.inj_mul in H.
Qed.

(** Rounding keeps a bound that is representable. *)
Lemma rounds_abs_le x d c e : rounds x d -> fits (Dec false c e) -> (Qabs x <= mkval (Z.of_N c) e)%Q -> (Qabs (dval d) <= mkval (Z.of_N c) e)%Q.
Proof.
  intros Hr Hf Hx. apply Qabs_Qle_condition in Hx as [H1 H2]. apply Qabs_Qle_condition. split.
  - assert (dval (Dec true c e) == - mkval (Z.of_N c) e)%Q as E by (rewrite dval_mkval; unfold zsigned; simpl; by rewrite mkval_opp).
    rewrite <- E. apply (rounds_ge x); [done|done|]. by rewrite E.
  - change (mkval (Z.of_N c) e) with (dval (Dec false c e)). by apply (rounds_le x).
Qed.

#[global] Arguments dnormalize : simpl never.
#[global] Arguments dec_plain : simpl never.
#[export] Hint Resolve plain_value_range : py.
