(* ===== verification/PyFloat.v ===== *)
(** * Python's [float]: IEEE 754 binary64

    A float is a [spec_float] of the Standard Library with 53 bits of precision
    and exponents up to 1024; the operations are the correctly rounded ones of
    [SpecFloat], which are total and executable.  [float_of_str] reads a literal
    with correct rounding, so values that enter the program as text (JSON numbers,
    [float(str)]) have the bits the interpreter gives them. *)
From Stdlib Require Import ZArith Lia Ascii SpecFloat.
From stdpp Require Import base list strings.
From S2P Require Import Prelude PyDecimal.
Open Scope Z_scope.

Notation float := spec_float.

Definition fzero : float := S754_zero false.
Definition finf : float := S754_infinity false.

Definition fadd : float -> float -> float := SFadd 53 1024.
Definition fsub : float -> float -> float := SFsub 53 1024.
Definition fmul : float -> float -> float := SFmul 53 1024.
Definition fdiv_ieee : float -> float -> float := SFdiv 53 1024.

(** [a < b], [a <= b] and [a == b]; false when an operand is a nan. *)
Definition flt : float -> float -> bool := SFltb.
Definition fle : float -> float -> bool := SFleb.
Definition feq : float -> float -> bool := SFeqb.

(** [math.isfinite] *)
Definition isfinite (x : float) : bool :=
  match x with S754_zero _ | S754_finite _ _ _ => true | _ => false end.

(** The builtins [max(a, b)] and [min(a, b)]: the first argument is kept unless
    the second compares strictly. *)
Definition fmax (a b : float) : float := if flt a b then b else a.
Definition fmin (a b : float) : float := if flt b a then b else a.

(** ** Conversions *)

(** The double nearest to [(-1)^neg * n / d], half-even. *)
Definition float_of_ratio (neg : bool) (n d : N) : float :=
  match n, d with
  | N0, _ | _, N0 => S754_zero neg
  | Npos n, Npos d =>
      let '(q, e, l) := SFdiv_core_binary 53 1024 (Zpos n) 0 (Zpos d) 0 in
      binary_round_aux 53 1024 neg q e l
  end.

(** The double nearest to a decimal number; the magnitude is tested first, so a
    huge exponent is never expanded. *)
Definition float_of_dec (x : dec) : float :=
  if (dcoeff x =? 0)%N then S754_zero (dneg x)
  else if 400 <? adjusted x then S754_infinity (dneg x)
  else if adjusted x <? -400 then S754_zero (dneg x)
  else if 0 <=? dexp x then float_of_ratio (dneg x) (dcoeff x * pow10 (dexp x))%N 1
  else float_of_ratio (dneg x) (dcoeff x) (pow10 (- dexp x)).

(** [float(n)] for an integer. *)
Definition float_of_Z (z : Z) : result float :=
  match float_of_ratio (z <? 0) (Z.abs_N z) 1 with
  | S754_infinity _ => raise OverflowError "int too large to convert to float"
  | f => Ok f
  end.

(** [float(s)]; the syntax is that of [Decimal] without nan payloads. *)
Definition float_of_str (s : string) : result float :=
  let l := List.filter (fun c => negb (Ascii.eqb c "_"%char))
             (String.list_ascii_of_string (strip s)) in
  match parse_finite l with
  | Some d => Ok (float_of_dec d)
  | None =>
      match parse_special l with
      | Some (DInf neg) => Ok (S754_infinity neg)
      | Some DNaN => Ok S754_nan
      | _ => raise ValueError "could not convert string to float"
      end
  end.

(** A float literal of the source; only used on valid ones. *)
Definition flit (s : string) : float := match float_of_str s with Ok f => f | Err _ => fzero end.

(** The exact decimal value of a finite float: a binary fraction has a finite
    decimal expansion. *)
Definition dec_of_float (x : float) : option dec :=
  match x with
  | S754_zero s => Some (Dec s 0 0)
  | S754_finite s m e =>
      Some (if 0 <=? e then Dec s (Npos m * 2 ^ Z.to_N e)%N 0
            else Dec s (Npos m * 5 ^ Z.to_N (- e))%N e)
  | _ => None
  end.

(** The 64 bits of a float, as [struct.pack(">d", x)]. *)
Definition float_bits (x : float) : Z :=
  let sign := fun s : bool => if s then 2 ^ 63 else 0 in
  match x with
  | S754_zero s => sign s
  | S754_infinity s => sign s + 2047 * 2 ^ 52
  | S754_nan => 2047 * 2 ^ 52 + 2 ^ 51
  | S754_finite s m e =>
      sign s + (if Zpos m <? 2 ^ 52 then Zpos m else (e + 1075) * 2 ^ 52 + (Zpos m - 2 ^ 52))
  end.

Example float_bits_examples :
  map (fun s => float_bits (flit s)) ["1"; "-2.5"; "0.1"; "5e-324"; "-0.0"]
  = [4607182418800017408; 13836183955189006336; 4591870180066957722; 1; 9223372036854775808].
Proof. vm_compute. reflexivity. Qed.

Example float_tenth : flit "0.1" = S754_finite false 7205759403792794 (-56).
Proof. vm_compute. reflexivity. Qed.

Example float_sum : fadd (flit "0.1") (flit "0.2") = flit "0.30000000000000004".
Proof. vm_compute. reflexivity. Qed.

Example float_tenth_exact :
  option_map (deqb (dlit "0.1000000000000000055511151231257827021181583404541015625"))
    (dec_of_float (flit "0.1")) = Some true.
Proof. vm_compute. reflexivity. Qed.

(** ** Lemmas: the order of the non-nan floats *)

Definition is_nan (x : float) : bool := match x with S754_nan => true | _ => false end.

Lemma finite_not_nan x : isfinite x = true -> is_nan x = false.
Proof. by destruct x. Qed.

Lemma pos_compare_antisym m n : Pos.compare_cont Eq n m = CompOpp (Pos.compare_cont Eq m n).
Proof. change (Pos.compare n m = CompOpp (Pos.compare m n)). apply Pos.compare_antisym. Qed.

Lemma SFcompare_antisym x y c : SFcompare x y = Some c -> SFcompare y x = Some (CompOpp c).
Proof.
  destruct x as [sx|sx| |sx mx ex], y as [sy|sy| |sy my ey]; simpl; intros H; simplify_eq; try done;
    try (by destruct sx); try (by destruct sy); try (by destruct sx, sy).
  f_equal. rewrite (Z.compare_antisym ex ey), (pos_compare_antisym mx my).
  destruct sx, sy, (ex ?= ey) eqn:E; simpl; try done; by rewrite ?CompOpp_involutive.
Qed.

Lemma flt_fle x y : is_nan x = false -> is_nan y = false -> flt x y = negb (fle y x).
Proof.
  intros Hx Hy. unfold flt, fle, SFltb, SFleb.
  assert (exists c, SFcompare x y = Some c) as (c & E) by (destruct x, y; simpl in *; eauto; done).
  rewrite E, (SFcompare_antisym _ _ _ E). by destruct c.
Qed.

Lemma fle_refl x : is_nan x = false -> fle x x = true.
Proof.
  intros H. unfold fle, SFleb. destruct x as [s|s| |s m e]; try done; [by destruct s|].
  simpl. rewrite Z.compare_refl. change (Pos.compare_cont Eq m m) with (Pos.compare m m).
  rewrite Pos.compare_refl. by destruct s.
Qed.

Lemma feq_refl x : is_nan x = false -> feq x x = true.
Proof.
  intros H. unfold feq, SFeqb. destruct x as [s|s| |s m e]; try done; [by destruct s|].
  simpl. rewrite Z.compare_refl. change (Pos.compare_cont Eq m m) with (Pos.compare m m).
  rewrite Pos.compare_refl. by destruct s.
Qed.

Lemma feq_sym x y : feq x y = feq y x.
Proof.
  unfold feq, SFeqb. destruct (SFcompare x y) as [c|] eqn:E.
  - rewrite (SFcompare_antisym _ _ _ E). by destruct c.
  - destruct (SFcompare y x) as [c|] eqn:E'; [|done]. apply SFcompare_antisym in E'. by rewrite E' in E.
Qed.

(** The order is lexicographic on sign, exponent and mantissa. *)
Definition fkey (x : float) : Z * Z * Z :=
  match x with
  | S754_zero _ | S754_nan => (0, 0, 0)
  | S754_infinity s => (if s then -2 else 2, 0, 0)
  | S754_finite s m e => if s then (-1, - e, Zneg m) else (1, e, Zpos m)
  end.

Definition key_lt (a b : Z * Z * Z) : Prop :=
  let '(s, e, m) := a in let '(s', e', m') := b in
  s < s' \/ (s = s' /\ (e < e' \/ (e = e' /\ m < m'))).

Lemma flt_key x y : is_nan x = false -> is_nan y = false -> flt x y = true <-> key_lt (fkey x) (fkey y).
Proof.
  intros Hx Hy. unfold flt, SFltb.
  destruct x as [sx|sx| |sx mx ex], y as [sy|sy| |sy my ey]; try done; simpl;
    try (destruct sx); try (destruct sy); simpl; try (split; [done|lia]); try (split; [lia|done]);
    change (Pos.compare_cont Eq mx my) with (Pos.compare mx my);
    destruct (Z.compare_spec ex ey), (Pos.compare_spec mx my); simpl; split; try done; lia.
Qed.

Lemma flt_trans x y z : is_nan x = false -> is_nan y = false -> is_nan z = false ->
  flt x y = true -> flt y z = true -> flt x z = true.
Proof.
  intros Hx Hy Hz. rewrite !flt_key by done.
  destruct (fkey x) as [[]], (fkey y) as [[]], (fkey z) as [[]]. simpl. lia.
Qed.

Lemma flt_irrefl x : flt x x = false.
Proof.
  destruct (is_nan x) eqn:E; [by destruct x|]. destruct (flt x x) eqn:H; [|done].
  apply flt_key in H; [|done..]. destruct (fkey x) as [[]]. simpl in H. lia.
Qed.

Lemma fle_key x y : is_nan x = false -> is_nan y = false -> fle x y = true <-> ~ key_lt (fkey y) (fkey x).
Proof.
  intros Hx Hy. rewrite <- flt_key by done. rewrite (flt_fle y x) by done. by destruct (fle x y).
Qed.

Lemma fle_trans x y z : is_nan x = false -> is_nan y = false -> is_nan z = false ->
  fle x y = true -> fle y z = true -> fle x z = true.
Proof.
  intros Hx Hy Hz. rewrite !fle_key by done.
  destruct (fkey x) as [[]], (fkey y) as [[]], (fkey z) as [[]]. simpl. lia.
Qed.

Lemma fle_lt_trans x y z : is_nan x = false -> is_nan y = false -> is_nan z = false ->
  fle x y = true -> flt y z = true -> flt x z = true.
Proof.
  intros Hx Hy Hz. rewrite fle_key, !flt_key by done.
  destruct (fkey x) as [[]], (fkey y) as [[]], (fkey z) as [[]]. simpl. lia.
Qed.

(** A comparison that holds has no nan operand. *)
Lemma flt_not_nan x y : flt x y = true -> is_nan x = false /\ is_nan y = false.
Proof. by destruct x, y. Qed.
Lemma fle_not_nan x y : fle x y = true -> is_nan x = false /\ is_nan y = false.
Proof. by destruct x, y. Qed.

#[export] Hint Resolve fle_refl flt_irrefl : py.
#[global] Arguments fadd : simpl never.
#[global] Arguments fsub : simpl never.
#[global] Arguments fmul : simpl never.
#[global] Arguments flt : simpl never.
#[global] Arguments fle : simpl never.
#[global] Arguments feq : simpl never.
#[global] Arguments flit : simpl never.
#[global] Arguments float_of_str : simpl never.
