(* ===== verification/PyFloatFacts.v ===== *)
(** * Rounding of the floating-point quotient

    The double that [SpecFloat] computes for a quotient is within half a unit of it:
    the digits and locations of the rounding steps, and [rounds_to], the form the
    clients use (53 bits, the half-unit bound, order towards the integers). *)
From Stdlib Require Import ZArith Lia SpecFloat.
From stdpp Require Import base list strings.
From S2P Require Import Prelude PyDecimal PyFloat.
Open Scope Z_scope.

(** ** Digits and locations *)

Lemma digits2_log2 p : Zpos (digits2_pos p) = Z.log2 (Zpos p) + 1.
Proof.
  induction p as [p IH|p IH|]; cbn [digits2_pos]; [| |done].
  - rewrite Pos2Z.inj_succ, IH, Pos2Z.inj_xI. rewrite Z.log2_succ_double by lia. lia.
  - rewrite Pos2Z.inj_succ, IH, (Pos2Z.inj_xO p). rewrite Z.log2_double by lia. lia.
Qed.

Lemma Zdigits2_log2 m : 0 < m -> Zdigits2 m = Z.log2 m + 1.
Proof. destruct m as [|p|p]; intros H; try lia. apply digits2_log2. Qed.

(** [P / Q] lies in [[m, m + 1)], at the place [l] says. *)
Definition located (P Q m : Z) (l : location) : Prop :=
  m * Q <= P /\
  match l with
  | loc_Exact => P = m * Q
  | loc_Inexact c => m * Q < P < (m + 1) * Q /\ (2 * (P - m * Q) ?= Q) = c
  end.

Lemma located_bounds P Q m l : 0 < Q -> located P Q m l -> m * Q <= P < (m + 1) * Q.
Proof. intros HQ (H1 & H2). destruct l; [nia|tauto]. Qed.

Lemma new_location_located q Q r : 0 < Q -> 0 <= r < Q -> located (q * Q + r) Q q (new_location Q r).
Proof.
  intros HQ Hr. split; [nia|]. unfold new_location, new_location_even, new_location_odd.
  destruct (Z.even Q) eqn:He; (destruct (Z.eqb_spec r 0) as [->|Hne]; [lia|]); (split; [lia|]);
    replace (q * Q + r - q * Q) with r by lia; [done|].
  assert (Z.odd Q = true) as Ho by (by rewrite <- Z.negb_even, He).
  apply Z.odd_spec in Ho as (h & ->).
  change (match r with 0 => 0 | Z.pos y' => Z.pos y'~0 | Z.neg y' => Z.neg y'~0 end) with (2 * r).
  destruct (Z.compare_spec (2 * r + 1) (2 * h + 1)); first [apply Z.compare_lt_iff; lia|apply Z.compare_gt_iff; lia].
Qed.

Lemma shr_1_located P Q r : 0 < Q -> 0 <= shr_m r -> located P Q (shr_m r) (loc_of_shr_record r) ->
  located P (2 * Q) (shr_m (shr_1 r)) (loc_of_shr_record (shr_1 r)) /\ shr_m (shr_1 r) = shr_m r / 2.
Proof.
  intros HQ Hm H. destruct r as [m b s]. cbn [shr_m] in *.
  assert (m = 2 * (m / 2) + m mod 2 /\ 0 <= m mod 2 < 2) as [E Hmod]
    by (split; [apply Z.div_mod; lia|apply Z.mod_pos_bound; lia]).
  set (h := m / 2) in *.
  assert (shr_1 (Build_shr_record m b s) = Build_shr_record h (negb (m mod 2 =? 0)) (b || s)) as ->.
  { destruct m as [|[p|p|]|p]; cbn; try lia; f_equal.
    - subst h. rewrite Pos2Z.inj_xI. lia.
    - rewrite Pos2Z.inj_xI. replace (2 * Z.pos p + 1) with (1 + Z.pos p * 2) by lia. by rewrite Z.mod_add.
    - subst h. rewrite Pos2Z.inj_xO. lia.
    - rewrite Pos2Z.inj_xO. replace (2 * Z.pos p) with (0 + Z.pos p * 2) by lia. by rewrite Z.mod_add. }
  split; [|done]. cbn [shr_m]. destruct H as (H1 & H2).
  assert (m mod 2 = 0 \/ m mod 2 = 1) as [Em|Em] by lia; rewrite Em in *; cbn [Z.eqb negb Pos.eqb];
    destruct b, s; cbn [loc_of_shr_record orb] in *; (split; [lia|]);
    repeat match goal with H : _ /\ _ |- _ => destruct H end; rewrite ?Z.compare_eq_iff, ?Z.compare_lt_iff, ?Z.compare_gt_iff in *;
    try (split; [lia|]); rewrite ?Z.compare_eq_iff, ?Z.compare_lt_iff, ?Z.compare_gt_iff; try nia.
Qed.

Lemma iter_shr_located P p : forall Q r, 0 < Q -> 0 <= shr_m r -> located P Q (shr_m r) (loc_of_shr_record r) ->
  let r' := SpecFloat.iter_pos shr_1 p r in
  located P (2 ^ Zpos p * Q) (shr_m r') (loc_of_shr_record r') /\ shr_m r' = shr_m r / 2 ^ Zpos p.
Proof.
  assert (forall p Q r, 0 < Q -> 0 <= shr_m r ->
    (forall Q r, 0 < Q -> 0 <= shr_m r -> located P Q (shr_m r) (loc_of_shr_record r) ->
       located P (2 ^ Zpos p * Q) (shr_m (SpecFloat.iter_pos shr_1 p r)) (loc_of_shr_record (SpecFloat.iter_pos shr_1 p r)) /\
       shr_m (SpecFloat.iter_pos shr_1 p r) = shr_m r / 2 ^ Zpos p) ->
    located P Q (shr_m r) (loc_of_shr_record r) ->
    let r' := SpecFloat.iter_pos shr_1 p (SpecFloat.iter_pos shr_1 p r) in
    located P (2 ^ Zpos (xO p) * Q) (shr_m r') (loc_of_shr_record r') /\ shr_m r' = shr_m r / 2 ^ Zpos (xO p)) as Twice.
  { intros q Q r HQ Hr IH H r'. destruct (IH Q r HQ Hr H) as (H1 & E1).
    assert (0 < 2 ^ Zpos q) by lia.
    destruct (IH (2 ^ Zpos q * Q) (SpecFloat.iter_pos shr_1 q r) ltac:(nia)
                ltac:(rewrite E1; apply Z.div_pos; lia) H1) as (H2 & E2).
    assert (2 ^ Zpos (xO q) = 2 ^ Zpos q * 2 ^ Zpos q) as -> by (rewrite <- Z.pow_add_r by lia; f_equal; lia).
    split; [by rewrite <- Z.mul_assoc|]. unfold r'. rewrite E2, E1, Z.div_div by lia. done. }
  induction p as [p IH|p IH|]; intros Q r HQ Hr H; cbn [SpecFloat.iter_pos]; cbn zeta.
  - destruct (shr_1_located P Q r HQ Hr H) as (H1 & E1).
    destruct (Twice p (2 * Q) (shr_1 r) ltac:(lia) ltac:(rewrite E1; apply Z.div_pos; lia) IH H1) as (H2 & E2).
    assert (2 ^ Zpos (xI p) = 2 ^ Zpos (xO p) * 2) as ->
      by (rewrite Pos2Z.inj_xI, (Pos2Z.inj_xO p), Z.pow_add_r by lia; lia).
    assert (0 < 2 ^ Zpos (xO p)) by lia.
    split; [by rewrite <- Z.mul_assoc|]. rewrite E2, E1, Z.div_div by lia. f_equal. lia.
  - exact (Twice p Q r HQ Hr IH H).
  - apply shr_1_located; done.
Qed.

Lemma loc_of_record_of_loc m l : loc_of_shr_record (shr_record_of_loc m l) = l.
Proof. by destruct l as [|[]]. Qed.

Lemma shr_m_of_loc m l : shr_m (shr_record_of_loc m l) = m.
Proof. by destruct l as [|[]]. Qed.

(** Half-even rounding is within half a unit. *)
Lemma round_nearest_even_near P Q m l : 0 < Q -> located P Q m l ->
  let M := round_nearest_even m l in m <= M <= m + 1 /\ Z.abs (2 * (M * Q - P)) <= Q.
Proof.
  intros HQ (H1 & H2). destruct l as [|[]]; cbn in *; [split; lia|..];
    destruct H2 as (H2 & H3); rewrite ?Z.compare_eq_iff, ?Z.compare_lt_iff, ?Z.compare_gt_iff in H3;
    try (destruct (Z.even m)); split; lia.
Qed.

(** A float of the normal range: 53 bits, or the next power of two. *)
Definition normal (s : bool) (M E : Z) : float :=
  if M =? 2 ^ 53 then S754_finite s (2 ^ 52) (E + 1) else S754_finite s (Z.to_pos M) E.

Lemma shr_nonpos r e n : n <= 0 -> shr r e n = (r, e).
Proof. by destruct n. Qed.

Lemma aux_round s P Q m e l : 0 < Q -> 2 ^ 52 <= m -> located P Q m l ->
  let k := Z.log2 m - 52 in
  -1074 <= e + k <= 900 ->
  exists M, 2 ^ 52 <= M <= 2 ^ 53 /\ Z.abs (2 * (M * (2 ^ k * Q) - P)) <= 2 ^ k * Q /\
    binary_round_aux 53 1024 s m e l = normal s M (e + k).
Proof.
  intros HQ Hm Hl k He. assert (52 <= Z.log2 m) by (apply Z.log2_le_pow2; lia).
  assert (2 ^ Z.log2 m <= m < 2 ^ Z.succ (Z.log2 m)) as Hlog by (apply Z.log2_spec; lia).
  set (r := shr_record_of_loc m l).
  assert (exists r', fst (shr r e k) = r' /\ snd (shr r e k) = e + k /\ shr_m r' = m / 2 ^ k /\
    located P (2 ^ k * Q) (shr_m r') (loc_of_shr_record r')) as (r' & E1 & E2 & Em & Hl').
  { destruct k as [|p|p] eqn:Ek; [|..|lia]; cbn [shr fst snd].
    - exists r. unfold r. rewrite shr_m_of_loc, loc_of_record_of_loc. rewrite Z.pow_0_r, Z.mul_1_l, Z.div_1_r, Z.add_0_r. done.
    - exists (SpecFloat.iter_pos shr_1 p r). destruct (iter_shr_located P p Q r) as (H1 & H2); unfold r in *;
        rewrite ?shr_m_of_loc, ?loc_of_record_of_loc in *; try done; try lia. }
  assert (2 ^ 52 <= m / 2 ^ k < 2 ^ 53) as Hr'.
  { assert (0 < 2 ^ k) by lia. split.
    - apply Z.div_le_lower_bound; [done|]. rewrite <- Z.pow_add_r by lia. replace (k + 52) with (Z.log2 m) by lia. lia.
    - apply Z.div_lt_upper_bound; [done|]. rewrite <- Z.pow_add_r by lia. replace (k + 53) with (Z.succ (Z.log2 m)) by lia. lia. }
  destruct (round_nearest_even_near P (2 ^ k * Q) (shr_m r') (loc_of_shr_record r') ltac:(assert (0 < 2 ^ k) by lia; nia) Hl') as (HM & Hnear).
  set (M := round_nearest_even (shr_m r') (loc_of_shr_record r')) in *.
  exists M. split; [lia|]. split; [exact Hnear|].
  unfold binary_round_aux, shr_fexp. rewrite Zdigits2_log2 by lia.
  replace (fexp 53 1024 (Z.log2 m + 1 + e) - e) with k by (unfold fexp, emin; lia).
  fold r. destruct (shr r e k) as [mrs' e'']. cbn [fst snd] in E1, E2. subst mrs' e''. fold M.
  rewrite Zdigits2_log2 by lia. unfold normal. destruct (Z.eqb_spec M (2 ^ 53)) as [EM|EM].
  - rewrite EM. replace (fexp 53 1024 (Z.log2 (2 ^ 53) + 1 + (e + k)) - (e + k)) with 1
      by (rewrite Z.log2_pow2 by lia; unfold fexp, emin; lia).
    cbn [shr]. replace (shr_m (SpecFloat.iter_pos shr_1 1 (shr_record_of_loc (2 ^ 53) loc_Exact))) with (2 ^ 52) by (by vm_compute).
    change (2 ^ 52) with (Z.pos (2 ^ 52)) at 1. cbv iota. destruct (Z.leb_spec (e + k + 1) (1024 - 53)); [done|lia].
  - assert (Z.log2 M = 52) as EL by (apply Z.log2_unique; lia).
    rewrite shr_nonpos by (rewrite EL; unfold fexp, emin; lia). rewrite shr_m_of_loc.
    destruct M as [|p|p]; try lia. destruct (Z.leb_spec (e + k) (1024 - 53)); [done|lia].
Qed.

(** ** The rounded quotient *)

(** [x] is the double nearest to [n / d]: [M / 2^j], of 53 bits, within half a unit. *)
Definition rounds_to (s : bool) (x : float) (n d : Z) : Prop :=
  exists M j, 0 <= j /\ 2 ^ 52 <= M <= 2 ^ 53 /\ Z.abs (2 * (M * d - n * 2 ^ j)) <= d /\ x = normal s M (- j).

Definition ratio_round (s : bool) (m1 m2 : positive) (e1 e2 : Z) : float :=
  let '(q, e, l) := SFdiv_core_binary 53 1024 (Zpos m1) e1 (Zpos m2) e2 in binary_round_aux 53 1024 s q e l.

Lemma div_core m1 m2 e1 e2 : 
  let v := Z.log2 (Zpos m1) - Z.log2 (Zpos m2) + e1 - e2 in
  -1000 <= v ->
  exists q e l, SFdiv_core_binary 53 1024 (Zpos m1) e1 (Zpos m2) e2 = (q, e, l) /\
    e <= e1 - e2 /\ 2 ^ 52 <= q /\ located (Zpos m1 * 2 ^ (e1 - e2 - e)) (Zpos m2) q l.
Proof.
  intros v Hv. unfold SFdiv_core_binary. rewrite !Zdigits2_log2 by lia.
  set (e := Z.min _ _). set (t := e1 - e2 - e).
  assert (0 <= t /\ e <= v - 53) as (Ht & He) by (unfold t, e, v, fexp, emin in *; lia).
  replace (match t with 0 => Z.pos m1 | Z.pos _ => Z.pos m1 ≪ t | Z.neg _ => 0 end) with (Z.pos m1 * 2 ^ t)
    by (clearbody t; destruct t as [|p|p]; [lia|by rewrite Z.shiftl_mul_pow2 by lia|lia]).
  destruct (Z.div_eucl (Z.pos m1 * 2 ^ t) (Z.pos m2)) as [q r] eqn:E.
  pose proof (Z_div_mod (Z.pos m1 * 2 ^ t) (Z.pos m2) ltac:(lia)) as HE. rewrite E in HE. destruct HE as (HE & Hr).
  exists q, e, (new_location (Z.pos m2) r). split; [done|]. split; [lia|]. split.
  - assert (2 ^ 52 * Z.pos m2 <= Z.pos m1 * 2 ^ t); [|nia].
    pose proof (Z.log2_spec (Z.pos m1) ltac:(lia)) as (L1 & _).
    pose proof (Z.log2_spec (Z.pos m2) ltac:(lia)) as (_ & L2).
    pose proof (Z.log2_nonneg (Z.pos m1)). pose proof (Z.log2_nonneg (Z.pos m2)).
    trans (2 ^ 52 * 2 ^ Z.succ (Z.log2 (Z.pos m2))); [nia|].
    trans (2 ^ Z.log2 (Z.pos m1) * 2 ^ t); [|nia].
    rewrite <- !Z.pow_add_r by lia. apply Z.pow_le_mono_r; [lia|]. unfold t, v in *. lia.
  - fold t. rewrite HE, (Z.mul_comm (Z.pos m2)). by apply new_location_located.
Qed.

Lemma pow_quotient_lt x y lx ly a b c : 0 <= lx -> 0 <= ly -> 0 <= a -> 0 <= b -> 0 <= c -> 
  2 ^ lx <= x -> y < 2 ^ ly -> x * 2 ^ a <= 2 ^ c * (y * 2 ^ b) -> lx + a < c + (ly + b).
Proof.
  intros Hlx Hly Ha Hb Hc Hx Hy H. apply (Z.pow_lt_mono_r_iff 2); [lia..|]. rewrite !Z.pow_add_r by lia.
  assert (0 < 2 ^ a /\ 0 < 2 ^ b /\ 0 < 2 ^ c) as (? & ? & ?) by lia.
  apply (Z.le_lt_trans _ (x * 2 ^ a)); [apply Z.mul_le_mono_nonneg_r; lia|].
  apply (Z.le_lt_trans _ (2 ^ c * (y * 2 ^ b))); [done|].
  apply Z.mul_lt_mono_pos_l; [lia|]. apply Z.mul_lt_mono_pos_r; lia.
Qed.

Lemma scale_abs F X Y d : 0 < F -> 0 < d -> X * F = d * Y -> Z.abs Y <= F -> Z.abs X <= d.
Proof. intros HF Hd E HY. apply Z.abs_le. apply Z.abs_le in HY. nia. Qed.

(** The quotient of two doubles [m1 2^e1] and [m2 2^e2] that equals [n / d]. *)
Lemma ratio_rounds s m1 m2 e1 e2 a b n d : 0 <= a -> 0 <= b -> b - a = e1 - e2 -> 0 < n -> 0 < d ->
  n * (Zpos m2 * 2 ^ a) = d * (Zpos m1 * 2 ^ b) ->
  n < 2 ^ 52 * d -> d < 2 ^ 900 * n ->
  rounds_to s (ratio_round s m1 m2 e1 e2) n d.
Proof.
  intros Ha Hb Hab Hn Hd E Hbig Hsmall. unfold ratio_round.
  set (v := Z.log2 (Zpos m1) - Z.log2 (Zpos m2) + e1 - e2).
  assert (0 < 2 ^ a /\ 0 < 2 ^ b) as (Pa & Pb) by lia.
  assert (Zpos m1 * 2 ^ b < 2 ^ 52 * (Zpos m2 * 2 ^ a)) as Hbig'
    by (apply (Z.mul_lt_mono_pos_l d); [done|]; rewrite <- E; apply (Z.lt_le_trans _ (2 ^ 52 * d * (Zpos m2 * 2 ^ a))); [apply Z.mul_lt_mono_pos_r; lia|lia]).
  assert (Zpos m2 * 2 ^ a < 2 ^ 900 * (Zpos m1 * 2 ^ b)) as Hsmall'
    by (apply (Z.mul_lt_mono_pos_l n); [done|]; rewrite E; apply (Z.lt_le_trans _ (2 ^ 900 * n * (Zpos m1 * 2 ^ b))); [apply Z.mul_lt_mono_pos_r; lia|lia]).
  pose proof (Z.log2_spec (Z.pos m1) ltac:(lia)) as (L1 & U1).
  pose proof (Z.log2_spec (Z.pos m2) ltac:(lia)) as (L2 & U2).
  pose proof (Z.log2_nonneg (Z.pos m1)). pose proof (Z.log2_nonneg (Z.pos m2)).
  assert (v <= 52 /\ -902 <= v) as (Hv & Hv').
  { split; [assert (Z.log2 (Zpos m1) + b < 52 + (Z.succ (Z.log2 (Zpos m2)) + a))
           |assert (Z.log2 (Zpos m2) + a < 900 + (Z.succ (Z.log2 (Zpos m1)) + b))]; try (unfold v; lia);
      eapply pow_quotient_lt; eauto with lia; lia. }
  destruct (div_core m1 m2 e1 e2 ltac:(fold v; lia)) as (q & e & l & -> & He & Hq & Hl).
  set (k := Z.log2 q - 52) in *. assert (52 <= Z.log2 q) by (apply Z.log2_le_pow2; lia).
  pose proof (Z.log2_spec q ltac:(lia)) as (Lq & Uq).
  pose proof (located_bounds _ (Z.pos m2) _ _ ltac:(lia) Hl) as (B1 & B2).
  set (t := e1 - e2 - e) in *.
  assert (0 <= t) by lia. assert (0 < 2 ^ t) by lia.
  assert (Z.log2 q + Z.log2 (Z.pos m2) + 0 < 0 + (Z.succ (Z.log2 (Z.pos m1)) + t)) as K1.
  { apply (pow_quotient_lt (q * Z.pos m2) (Z.pos m1)); try lia. rewrite Z.pow_add_r by lia. apply Z.mul_le_mono_nonneg; lia. }
  assert (Z.log2 (Z.pos m1) + t < 0 + (Z.succ (Z.log2 q) + Z.succ (Z.log2 (Z.pos m2)) + 0)) as K2.
  { apply (pow_quotient_lt (Z.pos m1) ((q + 1) * Z.pos m2)); try lia. rewrite Z.pow_add_r by lia.
    apply (Z.le_lt_trans _ (2 ^ Z.succ (Z.log2 q) * Z.pos m2)); [apply Z.mul_le_mono_nonneg_r; lia|apply Z.mul_lt_mono_pos_l; lia]. }
  destruct (aux_round s _ (Z.pos m2) q e l ltac:(lia) Hq Hl ltac:(fold k; unfold t, v in *; lia)) as (M & HM & Hnear & ->).
  fold k in Hnear |- *.
  assert (e + k <= 0) as Hj by (unfold t, v in *; lia).
  exists M, (- (e + k)). split; [lia|]. split; [done|]. split; [|by rewrite Z.opp_involutive].
  apply (scale_abs (2 ^ k * Z.pos m2) _ (2 * (M * (2 ^ k * Z.pos m2) - Z.pos m1 * 2 ^ t))); try lia.
  apply (Z.mul_reg_r _ _ (2 ^ a)); [lia|].
  assert (2 ^ (- (e + k)) * 2 ^ k * (n * (Z.pos m2 * 2 ^ a)) = d * (Z.pos m1 * 2 ^ t * 2 ^ a)) as Hk; [|nia].
  rewrite E, <- Z.pow_add_r by lia. replace (- (e + k) + k) with (- e) by lia.
  assert (2 ^ (- e) * 2 ^ b = 2 ^ t * 2 ^ a) as Hp by (rewrite <- !Z.pow_add_r by lia; f_equal; lia).
  transitivity (d * Z.pos m1 * (2 ^ (- e) * 2 ^ b)); [|rewrite Hp]; ring.
Qed.

Lemma rounds_to_rel s x n d : 0 < d -> 0 <= n -> rounds_to s x n d -> 
  exists M j, 0 <= j /\ 2 ^ 52 <= M <= 2 ^ 53 /\ x = normal s M (- j) /\
    M * d * (2 ^ 53 - 1) <= n * 2 ^ j * 2 ^ 53 <= M * d * (2 ^ 53 + 1) /\
    (forall N, N * d <= n -> N * 2 ^ j <= M) /\ (forall N, n <= N * d -> M <= N * 2 ^ j).
Proof.
  intros Hd Hn (M & j & Hj & HM & Hnear & ->). exists M, j. split_and!; try done; try lia.
  - nia.
  - nia.
  - intros N HN. assert (0 < 2 ^ j) by lia. assert (N * d * 2 ^ j <= n * 2 ^ j) by (apply Z.mul_le_mono_nonneg_r; lia). nia.
  - intros N HN. assert (0 < 2 ^ j) by lia. assert (n * 2 ^ j <= N * d * 2 ^ j) by (apply Z.mul_le_mono_nonneg_r; lia). nia.
Qed.

Lemma normal_finite s M j : 2 ^ 52 <= M <= 2 ^ 53 -> exists m e c, normal s M (- j) = S754_finite s m e /\
  0 <= c <= 1 /\ Zpos m * 2 ^ c = M /\ e = c - j.
Proof.
  intros HM. unfold normal. destruct (Z.eqb_spec M (2 ^ 53)) as [->|Hne].
  - exists (2 ^ 52)%positive, (1 - j), 1. split_and!; try done; try lia. f_equal. lia.
  - exists (Z.to_pos M), (- j), 0. split_and!; try done; lia.
Qed.

