(* ===== verification/PyFormat.v ===== *)
(** * The format [f"{x:.2f}"] of a float

    The exact value of the float is rounded half-even to hundredths, as the interpreter
    does; the sign of a number that rounds to zero is kept.  [valid_float] says that a
    float is one of the doubles. *)
From Stdlib Require Import ZArith Lia Ascii SpecFloat.
From stdpp Require Import base list strings.
From S2P Require Import Prelude PyDecimal PyFloat.
Open Scope Z_scope.

(** The number of hundredths nearest to [m * 2 ^ e]. *)
Definition hundredths (m : positive) (e : Z) : N :=
  let n := (100 * Npos m)%N in
  if 0 <=? e then (n * 2 ^ Z.to_N e)%N else div_half_even n (2 ^ Z.to_N (- e))%N.

Definition two_digits (n : N) : string :=
  String.string_of_list_ascii [digit_char (n / 10)%N; digit_char (n mod 10)%N].

Definition fixed_2 (neg : bool) (n : N) : string :=
  (if neg then "-" else "") +:+ int_str (Z.of_N (n / 100)) +:+ "." +:+ two_digits (n mod 100)%N.

(** [format(x, ".2f")] *)
Definition fmt_2f (x : float) : string :=
  match x with
  | S754_nan => "nan"
  | S754_infinity neg => if neg then "-inf" else "inf"
  | S754_zero neg => fixed_2 neg 0
  | S754_finite neg m e => fixed_2 neg (hundredths m e)
  end.

Definition valid_float (x : float) : bool := valid_binary 53 1024 x.

Example fmt_2f_examples :
  map (fun s => fmt_2f (flit s)) ["0"; "-0.001"; "2.675"; "0.125"; "1234.5"; "-inf"; "nan"]
  = ["0.00"; "-0.00"; "2.67"; "0.12"; "1234.50"; "-inf"; "nan"].
Proof. vm_compute. reflexivity. Qed.
