(* ===== verification/PyFloatOrder.v ===== *)
(** * Rounding respects the order of the doubles

    A product, sum or difference is rounded to a double that lies on the same side of
    every double as the exact value; so a product by a factor of at most one is no
    larger, a difference no larger and a sum no smaller than its first operand. *)
From Stdlib Require Import ZArith Lia SpecFloat.
From stdpp Require Import base list strings.
From S2P Require Import Prelude PyDecimal PyFloat PyFloatFacts PyFormat.
Open Scope Z_scope.

(** ** The order *)

Lemma flt_le x y : flt x y = true -> fle x y = true.
Proof. unfold flt, fle, SFltb, SFleb. by destruct (SFcompare x y) as [[]|]. Qed.

Lemma fle_not_gt x y : fle x y = true -> flt y x = false.
Proof. intros H. destruct (fle_not_nan _ _ H). rewrite flt_fle by done. by rewrite H. Qed.
Lemma flt_not_ge x y : flt x y = true -> fle y x = false.
Proof. intros H. destruct (flt_not_nan _ _ H). rewrite flt_fle in H by done. by apply negb_true_iff in H. Qed.

Lemma finite_order x y : isfinite x = true -> isfinite y = true -> flt x y = false <-> fle y x = true.
Proof.
  intros Hx Hy. rewrite flt_fle by (by apply finite_not_nan). by rewrite negb_false_iff.
Qed.

Lemma fmin_either x y : fmin x y = x \/ fmin x y = y.
Proof. unfold fmin. destruct (flt y x); tauto. Qed.
Lemma fmax_either x y : fmax x y = x \/ fmax x y = y.
Proof. unfold fmax. destruct (flt x y); tauto. Qed.

Lemma fmin_le x y : is_nan x = false -> is_nan y = false -> fle (fmin x y) x = true /\ fle (fmin x y) y = true.
Proof.
  intros Hx Hy. unfold fmin. destruct (flt y x) eqn:E; split; try (by apply fle_refl).
  - rewrite flt_key in E by done. rewrite fle_key by done.
    destruct (fkey x) as [[]], (fkey y) as [[]]. simpl in *. lia.
  - rewrite flt_fle in E by done. by apply negb_false_iff in E.
Qed.

Lemma fle_flt_trans_le x y z : fle x y = true -> flt y z = true -> fle x z = true.
Proof.
  intros H1 H2. destruct (fle_not_nan _ _ H1), (flt_not_nan _ _ H2). apply flt_le. by apply (fle_lt_trans _ y).
Qed.

Lemma flt_fle_trans x y z : flt x y = true -> fle y z = true -> flt x z = true.
Proof.
  intros H1 H2. destruct (flt_not_nan _ _ H1), (fle_not_nan _ _ H2).
  apply flt_key; [done..|]. apply flt_key in H1; [|done..]. apply fle_key in H2; [|done..].
  destruct (fkey x) as [[]], (fkey y) as [[]], (fkey z) as [[]]. simpl in *. lia.
Qed.

(** ** Rounding *)

(** The exponent of the doubles next to a number of [2^v <= x < 2^(v+1)]. *)
Definition unit_exp (v : Z) : Z := fexp 53 1024 (v + 1).

Definition packed (s : bool) (m : positive) (e : Z) : float :=
  if e <=? 971 then S754_finite s m e else S754_infinity s.

(** A significand of at most 53 bits, or the next power of two. *)
Definition rounded (s : bool) (M E : Z) : float :=
  if M =? 0 then S754_zero s
  else if M =? 2 ^ 53 then packed s (2 ^ 52) (E + 1)
  else packed s (Z.to_pos M) E.

Lemma nearest_between P Q m l N : 0 < Q -> located P Q m l ->
  (P <= N * Q -> round_nearest_even m l <= N) /\ (N * Q <= P -> N <= round_nearest_even m l).
Proof.
  intros HQ Hl. destruct (round_nearest_even_near P Q m l HQ Hl) as (_ & H).
  set (M := round_nearest_even m l) in *. apply Z.abs_le in H.
  split; intros HN; destruct (Z.le_gt_cases M N) as [|HMN], (Z.le_gt_cases N M) as [|HNM]; try done; nia.
Qed.

Lemma nearest_next m l : m <= round_nearest_even m l <= m + 1.
Proof. destruct l as [|[]]; cbn; try (destruct (Z.even m)); lia. Qed.

(** Some fraction lies at every place. *)
Lemma located_somewhere m l : exists P, located P 4 m l.
Proof.
  destruct l as [|[]]; [exists (4 * m)|exists (4 * m + 2)|exists (4 * m + 1)|exists (4 * m + 3)];
    (split; [lia|]); try lia; (split; [lia|]);
    rewrite ?Z.compare_eq_iff, ?Z.compare_lt_iff, ?Z.compare_gt_iff; lia.
Qed.

Lemma shr_spec m l e k : 0 <= m -> 0 <= k -> exists r,
  shr (shr_record_of_loc m l) e k = (r, e + k) /\ shr_m r = m / 2 ^ k /\
  forall P Q, 0 < Q -> located P Q m l -> located P (2 ^ k * Q) (shr_m r) (loc_of_shr_record r).
Proof.
  intros Hm Hk. destruct k as [|p|p]; [|..|lia]; cbn [shr].
  - exists (shr_record_of_loc m l). rewrite shr_m_of_loc, loc_of_record_of_loc, Z.pow_0_r, Z.div_1_r, Z.add_0_r.
    split_and!; try done. intros P Q _ H. by rewrite Z.mul_1_l.
  - exists (SpecFloat.iter_pos shr_1 p (shr_record_of_loc m l)). split; [done|].
    assert (forall P Q, 0 < Q -> located P Q m l ->
      located P (2 ^ Zpos p * Q) (shr_m (SpecFloat.iter_pos shr_1 p (shr_record_of_loc m l)))
        (loc_of_shr_record (SpecFloat.iter_pos shr_1 p (shr_record_of_loc m l))) /\
      shr_m (SpecFloat.iter_pos shr_1 p (shr_record_of_loc m l)) = (m / 2 ^ Zpos p)%Z) as H.
    { intros P Q HQ HL. destruct (iter_shr_located P p Q (shr_record_of_loc m l)) as (H1 & H2);
        rewrite ?shr_m_of_loc, ?loc_of_record_of_loc in *; done. }
    destruct (located_somewhere m l) as (P & HP). split; [by destruct (H P 4)|].
    intros P' Q' HQ' HP'. by destruct (H P' Q').
Qed.

(** Rounding [m * 2 ^ e], with what [l] says of the digits below, at its exponent. *)
Lemma round_form s m e l : 0 <= m -> let E := fexp 53 1024 (Zdigits2 m + e) in e <= E ->
  exists M, 0 <= M <= 2 ^ 53 /\ (E = -1074 \/ 2 ^ 52 <= M) /\ binary_round_aux 53 1024 s m e l = rounded s M E /\
    forall P Q N, 0 < Q -> located P Q m l ->
      (P <= N * (2 ^ (E - e) * Q) -> M <= N) /\ (N * (2 ^ (E - e) * Q) <= P -> N <= M).
Proof.
  intros Hm E HE. set (k := E - e) in *. assert (0 <= k) as Hk by lia.
  destruct (shr_spec m l e k Hm Hk) as (r & Er & Em & Hl). assert (0 < 2 ^ k) as Hpk by lia.
  assert (-1074 <= E) as Hmin by (unfold E, fexp, emin; lia).
  assert (0 <= m / 2 ^ k < 2 ^ 53 /\ (E = -1074 \/ 2 ^ 52 <= m / 2 ^ k)) as [Hr Hn].
  { destruct (Z.eq_dec m 0) as [->|Hne].
    { rewrite Z.div_0_l by lia. split; [lia|]. left. unfold E, fexp, emin in *. cbn [Zdigits2] in *. lia. }
    pose proof (Zdigits2_log2 m ltac:(lia)) as Hd. pose proof (Z.log2_spec m ltac:(lia)) as [L U]. split.
    - split; [apply Z.div_pos; lia|]. apply Z.div_lt_upper_bound; [done|]. rewrite <- Z.pow_add_r by lia.
      apply (Z.lt_le_trans _ _ _ U), Z.pow_le_mono_r; [lia|]. unfold k, E, fexp, emin in *. lia.
    - destruct (Z.eq_dec E (-1074)) as [|Hne']; [by left|right].
      apply Z.div_le_lower_bound; [done|]. rewrite <- Z.pow_add_r by lia. refine (Z.le_trans _ _ _ _ L).
      apply Z.pow_le_mono_r; [lia|]. unfold k, E, fexp, emin in *. lia. }
  set (M := round_nearest_even (shr_m r) (loc_of_shr_record r)).
  pose proof (nearest_next (shr_m r) (loc_of_shr_record r)) as HM. fold M in HM.
  exists M. split; [lia|]. split; [lia|]. split; [|intros P Q N HQ HP; apply nearest_between; [nia|by apply Hl]].
  unfold binary_round_aux, shr_fexp. fold E k. rewrite Er. fold M. replace (e + k) with E by lia.
  unfold rounded, packed. destruct (Z.eqb_spec M 0) as [E0|E0].
  { rewrite E0. cbn [Zdigits2]. rewrite shr_nonpos by (unfold fexp, emin; lia). done. }
  rewrite Zdigits2_log2 by lia. destruct (Z.eqb_spec M (2 ^ 53)) as [E3|E3].
  - rewrite E3. replace (fexp 53 1024 (Z.log2 (2 ^ 53) + 1 + E) - E) with 1
      by (rewrite Z.log2_pow2 by lia; unfold fexp, emin; lia).
    cbn [shr]. replace (shr_m (SpecFloat.iter_pos shr_1 1 (shr_record_of_loc (2 ^ 53) loc_Exact))) with (2 ^ 52) by (by vm_compute).
    change (2 ^ 52) with (Z.pos (2 ^ 52)) at 1. cbv iota. done.
  - assert (Z.log2 M < 53) as EL by (apply Z.log2_lt_pow2; lia).
    rewrite shr_nonpos by (unfold fexp, emin; lia). rewrite shr_m_of_loc.
    destruct M as [|p|p]; try lia. done.
Qed.

Lemma exact_rounds s m e : 0 < m -> let E := unit_exp (Z.log2 m + e) in e <= E ->
  exists M, 0 <= M <= 2 ^ 53 /\ binary_round_aux 53 1024 s m e loc_Exact = rounded s M E /\
    forall N, (m <= N * 2 ^ (E - e) -> M <= N) /\ (N * 2 ^ (E - e) <= m -> N <= M).
Proof.
  intros Hm E HE. assert (fexp 53 1024 (Zdigits2 m + e) = E) as EE
    by (rewrite Zdigits2_log2 by done; unfold E, unit_exp, fexp, emin; lia).
  destruct (round_form s m e loc_Exact ltac:(lia) ltac:(lia)) as (M & HM & _ & Ha & Hb). rewrite EE in Ha, Hb.
  exists M. split; [done|]. split; [done|]. intros N.
  specialize (Hb m 1 N ltac:(lia) ltac:(split; lia)). by rewrite Z.mul_1_r in Hb.
Qed.

Lemma rounded_valid s M E : 0 <= M <= 2 ^ 53 -> -1074 <= E -> E = -1074 \/ 2 ^ 52 <= M -> valid_float (rounded s M E) = true.
Proof.
  intros HM HE Hn. unfold rounded, packed. destruct (Z.eqb_spec M 0); [done|].
  assert (forall m e, e <= 971 -> e = fexp 53 1024 (Z.log2 (Zpos m) + 1 + e) -> valid_float (S754_finite s m e) = true) as V.
  { intros m e H1 H2. unfold valid_float, valid_binary, bounded, canonical_mantissa. rewrite digits2_log2.
    apply andb_true_iff; split; [apply Z.eqb_eq; lia|apply Z.leb_le; lia]. }
  destruct (Z.eqb_spec M (2 ^ 53)) as [->|E3].
  - destruct (Z.leb_spec (E + 1) 971); [|done]. apply V; [done|].
    change (Z.log2 (Zpos (2 ^ 52))) with 52. unfold fexp, emin. lia.
  - destruct (Z.leb_spec E 971); [|done]. apply V; [done|]. rewrite Z2Pos.id by lia.
    assert (Z.log2 M < 53) by (apply Z.log2_lt_pow2; lia). pose proof (Z.log2_nonneg M).
    destruct Hn as [->|Hn]; [unfold fexp, emin; lia|].
    assert (52 <= Z.log2 M) by (apply Z.log2_le_pow2; lia). unfold fexp, emin. lia.
Qed.

Lemma round_valid s m e l : 0 <= m -> e <= fexp 53 1024 (Zdigits2 m + e) ->
  valid_float (binary_round_aux 53 1024 s m e l) = true.
Proof.
  intros Hm HE. destruct (round_form s m e l Hm HE) as (M & HM & Hn & -> & _).
  apply rounded_valid; try done. unfold fexp, emin. lia.
Qed.

(** A quotient is a double. *)
Lemma div_core_valid s m1 e1 m2 e2 :
  (let '(q, e, l) := SFdiv_core_binary 53 1024 (Z.pos m1) e1 (Z.pos m2) e2 in
   valid_float (binary_round_aux 53 1024 s q e l)) = true.
Proof.
  unfold SFdiv_core_binary.
  set (v := Zdigits2 (Z.pos m1) + e1 - (Zdigits2 (Z.pos m2) + e2)).
  set (e := Z.min _ _). set (t := e1 - e2 - e).
  destruct (Z.div_eucl _ (Z.pos m2)) as [q r] eqn:E.
  assert (0 <= t) as Ht by (unfold t, e; lia).
  replace (match t with 0 => Z.pos m1 | Z.pos _ => Z.pos m1 ≪ t | Z.neg _ => 0 end) with (Z.pos m1 * 2 ^ t) in E
    by (clearbody t; destruct t as [|p|p]; [lia|by rewrite Z.shiftl_mul_pow2 by lia|lia]).
  pose proof (Z_div_mod (Z.pos m1 * 2 ^ t) (Z.pos m2) ltac:(lia)) as HE. rewrite E in HE. destruct HE as (HE & Hr).
  assert (0 < 2 ^ t) by lia. assert (0 <= q) as Hq by nia.
  apply round_valid; [done|].
  assert (v <= Zdigits2 q + e) as Hv; [|unfold e, fexp, emin in *; lia].
  unfold v. rewrite !Zdigits2_log2 by lia.
  pose proof (Z.log2_spec (Z.pos m1) ltac:(lia)) as (L1 & _).
  pose proof (Z.log2_spec (Z.pos m2) ltac:(lia)) as (_ & U2).
  pose proof (Z.log2_nonneg (Z.pos m1)). pose proof (Z.log2_nonneg (Z.pos m2)).
  assert (exists d, Zdigits2 q = d /\ 0 <= d /\ q < 2 ^ d) as (d & -> & Hd & Uq).
  { eexists. split; [done|]. destruct (Z.eq_dec q 0) as [->|]; [by split|].
    rewrite Zdigits2_log2 by lia. pose proof (Z.log2_spec q ltac:(lia)). pose proof (Z.log2_nonneg q).
    split; [lia|]. rewrite Z.add_1_r. tauto. }
  assert (Z.log2 (Z.pos m1) + t < d + Z.succ (Z.log2 (Z.pos m2))) as Hlt; [|unfold t in *; lia].
  apply (Z.pow_lt_mono_r_iff 2); [lia..|]. rewrite !Z.pow_add_r by lia.
  apply (Z.le_lt_trans _ (Z.pos m1 * 2 ^ t)); [apply Z.mul_le_mono_nonneg_r; lia|].
  rewrite HE. apply (Z.lt_le_trans _ (Z.pos m2 * (q + 1))); [lia|].
  rewrite (Z.mul_comm (2 ^ d)). apply Z.mul_le_mono_nonneg; lia.
Qed.

Lemma fdiv_valid x y : valid_float (fdiv_ieee x y) = true.
Proof.
  destruct x as [sx|sx| |sx m1 e1], y as [sy|sy| |sy m2 e2]; try done.
  pose proof (div_core_valid (xorb sx sy) m1 e1 m2 e2) as H. unfold fdiv_ieee, SFdiv.
  by destruct (SFdiv_core_binary _ _ _ _ _ _) as [[q e] l].
Qed.

Lemma float_of_ratio_valid s n d : valid_float (float_of_ratio s n d) = true.
Proof.
  destruct n as [|n], d as [|d]; try done. pose proof (div_core_valid s n 0 d 0) as H. unfold float_of_ratio.
  by destruct (SFdiv_core_binary _ _ _ _ _ _) as [[q e] l].
Qed.

(** So is the float of an integer. *)
Lemma float_of_Z_valid z x : float_of_Z z = Ok x -> valid_float x = true.
Proof.
  unfold float_of_Z. pose proof (float_of_ratio_valid (z <? 0) (Z.abs_N z) 1) as H.
  destruct (float_of_ratio _ _ _); intros E; try discriminate E; by injection E as <-.
Qed.

(** The doubles are the floats with canonical exponent. *)
Lemma valid_finite s m e : valid_float (S754_finite s m e) = true ->
  e = unit_exp (Z.log2 (Zpos m) + e) /\ e <= 971 /\ Zpos m < 2 ^ 53 /\ -1074 <= e /\ (-1074 < e -> 2 ^ 52 <= Zpos m).
Proof.
  unfold valid_float, valid_binary, bounded, canonical_mantissa. intros H. bool_props.
  rewrite digits2_log2 in *. pose proof (Z.log2_spec (Zpos m) ltac:(lia)) as (L & U).
  unfold unit_exp, fexp, emin in *. split_and!; try lia.
  - apply (Z.lt_le_trans _ _ _ U), Z.pow_le_mono_r; lia.
  - intros He. refine (Z.le_trans _ _ _ _ L). apply Z.pow_le_mono_r; lia.
Qed.

(** [m * 2 ^ e] in units below every double. *)
Definition scaled (m e : Z) : Z := m * 2 ^ (e + 3000).

Lemma scaled_shift m e k : -3000 <= e -> 0 <= k -> scaled m (e + k) = scaled (m * 2 ^ k) e.
Proof. intros He Hk. unfold scaled. replace (e + k + 3000) with (k + (e + 3000)) by lia. rewrite Z.pow_add_r by lia. lia. Qed.

Lemma scaled_le m n e : -3000 <= e -> scaled m e <= scaled n e <-> m <= n.
Proof. intros He. unfold scaled. assert (0 < 2 ^ (e + 3000)) by lia. split; nia. Qed.

Lemma scaled_log m1 e1 m2 e2 : -3000 <= e1 -> -3000 <= e2 -> 0 < m1 -> 0 < m2 ->
  scaled m1 e1 <= scaled m2 e2 -> Z.log2 m1 + e1 <= Z.log2 m2 + e2.
Proof.
  intros H1 H2 P1 P2 H. apply Z.log2_le_mono in H. unfold scaled in H.
  rewrite !Z.log2_mul_pow2 in H by lia. lia.
Qed.

Lemma unit_exp_mono v w : v <= w -> unit_exp v <= unit_exp w.
Proof. unfold unit_exp, fexp, emin. lia. Qed.

(** Rounding does not cross a double. *)
Lemma rounded_below s my ey m e : valid_float (S754_finite false my ey) = true -> 0 < m -> -3000 <= e ->
  e <= unit_exp (Z.log2 m + e) -> scaled m e <= scaled (Zpos my) ey ->
  exists x, binary_round_aux 53 1024 s m e loc_Exact = x /\ is_nan x = false /\
    fle (if s then SFopp x else x) (S754_finite false my ey) = true.
Proof.
  intros Hy Hm He HE Hle. destruct (valid_finite _ _ _ Hy) as (Ey & Hey & Hmy & Hmin & Hn).
  destruct (exact_rounds s m e Hm HE) as (M & HM & -> & Hbetween).
  set (E := unit_exp (Z.log2 m + e)) in *.
  assert (E <= ey) as HEy by (rewrite Ey; apply unit_exp_mono, scaled_log; lia).
  assert (M <= Zpos my * 2 ^ (ey - E)) as HMy.
  { apply Hbetween. apply (scaled_le _ _ e He). refine (Z.le_trans _ _ _ Hle _).
    replace ey with (e + (E - e) + (ey - E)) at 1 by lia. rewrite !scaled_shift by lia.
    apply (scaled_le _ _ e He). lia. }
  assert (forall x, is_nan x = false -> ~ key_lt (1, ey, Zpos my) (fkey x) ->
            fle x (S754_finite false my ey) = true) as Key.
  { intros x Hx Hk. by apply fle_key. }
  exists (rounded s M E). split; [done|]. unfold rounded, packed.
  assert (0 <= ey - E) by lia.
  destruct (Z.eqb_spec M 0) as [->|E0]; [by destruct s|].
  destruct (Z.eqb_spec M (2 ^ 53)) as [->|E3].
  - assert (E + 1 <= ey) as HE1.
    { destruct (Z.eq_dec E ey) as [<-|]; [|lia]. rewrite Z.sub_diag in HMy. lia. }
    destruct (Z.leb_spec (E + 1) 971); [|lia]. split; [done|].
    destruct s; apply Key; cbn; try done; intros [|[_ [|[Ee Hlt]]]]; try lia;
      subst ey; replace (E + 1 - E) with 1 in HMy by lia; lia.
  - destruct (Z.leb_spec E 971); [|lia]. split; [done|].
    destruct s; apply Key; cbn; try done; intros [|[_ [|[Ee Hlt]]]]; try lia;
      subst ey; rewrite Z.sub_diag in HMy; lia.
Qed.

Lemma rounded_above my ey m e : valid_float (S754_finite false my ey) = true -> 0 < m -> -3000 <= e ->
  e <= unit_exp (Z.log2 m + e) -> scaled (Zpos my) ey <= scaled m e ->
  fle (S754_finite false my ey) (binary_round_aux 53 1024 false m e loc_Exact) = true.
Proof.
  intros Hy Hm He HE Hle. destruct (valid_finite _ _ _ Hy) as (Ey & Hey & Hmy & Hmin & Hn).
  destruct (exact_rounds false m e Hm HE) as (M & HM & -> & Hbetween).
  set (E := unit_exp (Z.log2 m + e)) in *.
  assert (ey <= E) as HEy by (rewrite Ey; apply unit_exp_mono, scaled_log; lia).
  assert ((if ey =? E then Zpos my else 2 ^ 52) <= M) as HMy.
  { apply Hbetween. destruct (Z.eqb_spec ey E) as [->|Hne].
    - apply (scaled_le _ _ e He). rewrite <- scaled_shift by lia. by replace (e + (E - e)) with E by lia.
    - pose proof (Z.log2_spec m Hm) as [L _]. refine (Z.le_trans _ _ _ _ L).
      rewrite <- Z.pow_add_r by lia. apply Z.pow_le_mono_r; [lia|].
      unfold E, unit_exp, fexp, emin in *. lia. }
  unfold rounded, packed. destruct (Z.eqb_spec M 0) as [->|E0].
  { destruct (ey =? E); lia. }
  assert (forall x, is_nan x = false -> ~ key_lt (fkey x) (1, ey, Zpos my) ->
            fle (S754_finite false my ey) x = true) as Key.
  { intros x Hx Hk. by apply fle_key. }
  destruct (Z.eqb_spec M (2 ^ 53)) as [->|E3].
  - destruct (Z.leb_spec (E + 1) 971); apply Key; cbn; try done; lia.
  - destruct (Z.leb_spec E 971); apply Key; cbn; try done; [|lia].
    destruct (Z.eqb_spec ey E); rewrite Z2Pos.id by lia; lia.
Qed.

(** ** The operations *)

Lemma shl_align_scaled m e e' : e' <= e -> -3000 <= e' ->
  let '(m', e'') := shl_align m e e' in e'' = e' /\ scaled (Zpos m') e' = scaled (Zpos m) e.
Proof.
  intros He He'. unfold shl_align. destruct (e' - e) as [|d|d] eqn:Ed; [|lia|].
  - by replace e' with e by lia.
  - split; [done|]. replace e with (e' + Zpos d) by lia. rewrite scaled_shift by lia.
    f_equal. change (Zpos (Zpower.shift_pos d m) = Zpos m * 2 ^ Zpos d). rewrite Zpower.shift_pos_correct, Z.pow_pos_fold. lia.
Qed.

Lemma shl_align_keeps m e e' : e <= e' -> shl_align m e e' = (m, e).
Proof. intros He. unfold shl_align. destruct (e' - e) eqn:Ed; try lia; done. Qed.

Lemma binary_round_scaled s m e : -2500 <= e -> exists m' e',
  binary_round 53 1024 s m e = binary_round_aux 53 1024 s (Zpos m') e' loc_Exact /\
  -3000 <= e' /\ e' <= unit_exp (Z.log2 (Zpos m') + e') /\ scaled (Zpos m') e' = scaled (Zpos m) e.
Proof.
  intros He. unfold binary_round. rewrite digits2_log2.
  set (E := fexp 53 1024 (Z.log2 (Z.pos m) + 1 + e)).
  assert (E = unit_exp (Z.log2 (Z.pos m) + e)) as HE by (unfold E, unit_exp, fexp, emin; lia).
  assert (-1074 <= E) as Hmin by (unfold E, fexp, emin; lia).
  destruct (Z.le_gt_cases e E) as [H|H].
  - rewrite shl_align_keeps by done. exists m, e. split_and!; try done; lia.
  - pose proof (shl_align_scaled m e E ltac:(lia) ltac:(lia)) as Hs.
    destruct (shl_align m e E) as [m' e']. destruct Hs as [-> Hs]. exists m', E. split_and!; try done; [lia|].
    assert (Z.log2 (Zpos m') + E = Z.log2 (Zpos m) + e) as ->; [|lia].
    apply Z.le_antisymm; apply scaled_log; lia.
Qed.

(** A number that a computation may use: one of the doubles, neither negative nor
    infinite. *)
Definition amount (x : float) : Prop := valid_float x = true /\ isfinite x = true /\ flt x fzero = false.

Lemma amount_cases x : amount x ->
  (exists s, x = S754_zero s) \/ (exists m e, x = S754_finite false m e /\ valid_float x = true).
Proof. intros (Hv & Hf & Hn). destruct x as [s|s| |[] m e]; try done; eauto. Qed.

(** The product of two doubles has digits to spare. *)
Lemma product_exponent mx ex my ey :
  valid_float (S754_finite false mx ex) = true -> valid_float (S754_finite false my ey) = true ->
  ex + ey <= unit_exp (Z.log2 (Zpos (mx * my)) + (ex + ey)).
Proof.
  intros Vx Vy. destruct (valid_finite _ _ _ Vx) as (_ & Bx & Sx & Lx & Nx).
  destruct (valid_finite _ _ _ Vy) as (_ & By & Sy & Ly & Ny).
  assert (Z.log2 (Zpos mx) + Z.log2 (Zpos my) <= Z.log2 (Zpos (mx * my)))
    by (rewrite Pos2Z.inj_mul; apply Z.log2_mul_below; lia).
  pose proof (Z.log2_nonneg (Zpos my)). pose proof (Z.log2_nonneg (Zpos mx)).
  assert (ex = -1074 \/ 52 <= Z.log2 (Zpos mx)) as Hx
    by (destruct (Z.eq_dec ex (-1074)); [by left|right; apply Z.log2_le_pow2; lia]).
  assert (ey = -1074 \/ 52 <= Z.log2 (Zpos my)) as Hy
    by (destruct (Z.eq_dec ey (-1074)); [by left|right; apply Z.log2_le_pow2; lia]).
  unfold unit_exp, fexp, emin. lia.
Qed.

Lemma fmul_le x y : amount x -> amount y -> fle y (flit "1.0") = true -> fle (fmul x y) x = true.
Proof.
  intros Hx Hy H1.
  destruct (amount_cases _ Hx) as [[sx ->]|(mx & ex & -> & Vx)], (amount_cases _ Hy) as [[sy ->]|(my & ey & -> & Vy)];
    try done; try (by destruct sx); try (by destruct sy).
  destruct (valid_finite _ _ _ Vx) as (_ & Bx & Sx & Lx & Nx).
  destruct (valid_finite _ _ _ Vy) as (_ & By & Sy & Ly & Ny).
  assert (ey <= 0 /\ Zpos my <= 2 ^ (- ey)) as [Hey Hmy].
  { change (flit "1.0") with (S754_finite false (2 ^ 52) (-52)) in H1.
    apply fle_key in H1; [|done..]. cbn in H1.
    assert (ey < -52 \/ ey = -52 /\ Zpos my <= 2 ^ 52) as [H|[-> H]] by lia; [|by split].
    split; [lia|]. assert (2 ^ 53 <= 2 ^ (- ey)) by (apply Z.pow_le_mono_r; lia). lia. }
  unfold fmul, SFmul. cbn [xorb].
  destruct (rounded_below false mx ex (Zpos (mx * my)) (ex + ey) Vx) as (x & -> & _ & H); [lia..| | |done].
  - by apply product_exponent.
  - replace ex with (ex + ey + - ey) at 2 by lia. rewrite (scaled_shift _ (ex + ey) (- ey)) by lia.
    apply scaled_le; [lia|]. rewrite Pos2Z.inj_mul. nia.
Qed.

Lemma fsub_le x y : amount x -> amount y -> fle (fsub x y) x = true.
Proof.
  intros Hx Hy.
  destruct (amount_cases _ Hx) as [[sx ->]|(mx & ex & -> & Vx)], (amount_cases _ Hy) as [[sy ->]|(my & ey & -> & Vy)];
    try done; try (by destruct sx); try (by destruct sx, sy); [by apply fle_refl|].
  destruct (valid_finite _ _ _ Vx) as (_ & Bx & Sx & Lx & Nx).
  destruct (valid_finite _ _ _ Vy) as (_ & By & Sy & Ly & Ny).
  unfold fsub, SFsub. set (ez := Z.min ex ey).
  pose proof (shl_align_scaled mx ex ez ltac:(lia) ltac:(lia)) as Ax.
  pose proof (shl_align_scaled my ey ez ltac:(lia) ltac:(lia)) as Ay.
  destruct (shl_align mx ex ez) as [ax e1], (shl_align my ey ez) as [ay e2]. destruct Ax as [-> Ax], Ay as [-> Ay].
  cbn [cond_Zopp fst]. unfold binary_normalize. destruct (Z.pos ax - Z.pos ay) as [|p|p] eqn:Ed; [done|..].
  - destruct (binary_round_scaled false p ez ltac:(lia)) as (m' & e' & -> & He' & HE & Hs).
    destruct (rounded_below false mx ex (Zpos m') e' Vx) as (z & -> & _ & H); try done.
    rewrite Hs, <- Ax. apply scaled_le; lia.
  - destruct (binary_round_scaled true p ez ltac:(lia)) as (m' & e' & -> & He' & HE & Hs).
    destruct (exact_rounds true (Zpos m') e' ltac:(lia) HE) as (M & _ & -> & _).
    unfold rounded, packed. by repeat case_goal.
Qed.

Lemma fadd_ge x y : amount x -> amount y -> fle x (fadd x y) = true.
Proof.
  intros Hx Hy.
  destruct (amount_cases _ Hx) as [[sx ->]|(mx & ex & -> & Vx)], (amount_cases _ Hy) as [[sy ->]|(my & ey & -> & Vy)];
    try done; try (by destruct sx); try (by destruct sx, sy); [by apply fle_refl|].
  destruct (valid_finite _ _ _ Vx) as (_ & Bx & Sx & Lx & Nx).
  destruct (valid_finite _ _ _ Vy) as (_ & By & Sy & Ly & Ny).
  unfold fadd, SFadd. set (ez := Z.min ex ey).
  pose proof (shl_align_scaled mx ex ez ltac:(lia) ltac:(lia)) as Ax.
  pose proof (shl_align_scaled my ey ez ltac:(lia) ltac:(lia)) as Ay.
  destruct (shl_align mx ex ez) as [ax e1], (shl_align my ey ez) as [ay e2]. destruct Ax as [-> Ax], Ay as [-> Ay].
  cbn [cond_Zopp fst]. unfold binary_normalize. destruct (Z.pos ax + Z.pos ay) as [|p|p] eqn:Ed; [lia| |lia].
  destruct (binary_round_scaled false p ez ltac:(lia)) as (m' & e' & -> & He' & HE & Hs).
  apply rounded_above; try done. rewrite Hs, <- Ax. apply scaled_le; lia.
Qed.

Lemma fmul_nonneg x y : amount x -> amount y -> fle fzero (fmul x y) = true.
Proof.
  intros Hx Hy.
  destruct (amount_cases _ Hx) as [[sx ->]|(mx & ex & -> & Vx)], (amount_cases _ Hy) as [[sy ->]|(my & ey & -> & Vy)];
    try (by destruct sx, sy); try (by destruct sx); try (by destruct sy).
  unfold fmul, SFmul. cbn [xorb].
  destruct (exact_rounds false (Zpos (mx * my)) (ex + ey) ltac:(lia)) as (M & _ & -> & _).
  { by apply product_exponent. }
  unfold rounded, packed. by repeat case_goal.
Qed.
