(* ===== verification/PyTime.v ===== *)
(** * [datetime] arithmetic and SQLite integers

    A [datetime] is its UTC instant and a [timedelta] its length, both in microseconds;
    the conversions from and to seconds go through binary64 as in the interpreter. *)
From Stdlib Require Import ZArith Lia Ascii SpecFloat.
From stdpp Require Import base list strings.
From S2P Require Import Prelude PyDecimal PyFloat.
Open Scope Z_scope.

(** [datetime.timedelta(seconds=x)] in microseconds: the fraction is scaled in
    floating point and rounded half-even. *)
Definition trunc_float (x : float) : Z :=
  match x with
  | S754_finite s m e => let a := Z.shiftl (Zpos m) e in if s then - a else a
  | _ => 0
  end.

Definition frac_float (x : float) : float :=
  match x with
  | S754_finite s m e =>
      if 0 <=? e then S754_zero s
      else let a := Zpos m mod 2 ^ (- e) in binary_normalize 53 1024 (if s then - a else a) e s
  | _ => fzero
  end.

Definition round_float (x : float) : Z :=
  match x with
  | S754_finite s m e =>
      if 0 <=? e then trunc_float x
      else
        let q := Zpos m / 2 ^ (- e) in let r := Zpos m mod 2 ^ (- e) in
        let up := (2 ^ (- e) <? 2 * r) || ((2 ^ (- e) =? 2 * r) && Z.odd q) in
        let a := if up then q + 1 else q in if s then - a else a
  | _ => 0
  end.

Definition timedelta_seconds (x : float) : result Z :=
  match x with
  | S754_nan => raise ValueError "cannot convert float NaN to integer"
  | S754_infinity _ => raise OverflowError "cannot convert float infinity to integer"
  | _ =>
      let us := trunc_float x * 1000000 + round_float (fmul (frac_float x) (flit "1e6")) in
      if Z.abs (us / 86400000000) <=? 999999999 then Ok us
      else raise OverflowError "days; must have magnitude <= 999999999"
  end.

(** [now + timedelta]: the years of a [datetime] are 1 to 9999. *)
Definition plus_delta (now us : Z) : result Z :=
  let t := now + us in
  if (-62135596800000000 <=? t) && (t <=? 253402300799999999) then Ok t
  else raise OverflowError "date value out of range".

(** A [timedelta] of an integer count of microseconds: at most 999999999 days. *)
Definition timedelta_us (us : Z) : result Z :=
  if Z.abs (us / 86400000000) <=? 999999999 then Ok us
  else raise OverflowError "days; must have magnitude <= 999999999".

(** [delta.total_seconds()]: an exact quotient, correctly rounded. *)
Definition total_seconds (us : Z) : float := float_of_ratio (us <? 0) (Z.abs_N us) 1000000.

(** [math.floor(x)] *)
Definition math_floor (x : float) : result Z :=
  match x with
  | S754_finite s m e => Ok (Z.shiftl (if s then Zneg m else Zpos m) e)
  | S754_zero _ => Ok 0
  | S754_infinity _ => raise OverflowError "cannot convert float infinity to integer"
  | S754_nan => raise ValueError "cannot convert float NaN to integer"
  end.

(** The limits of [datetime.fromtimestamp(t, tz=UTC)] on whole seconds: those of
    [time_t], of the year of [struct tm] and of [datetime]. *)
Definition timestamp_limits (t : Z) : result unit :=
  if negb ((-(2 ^ 63) <=? t) && (t <? 2 ^ 63)) then raise OverflowError "timestamp out of range for platform time_t"
  else if negb ((-67768040609740800 <=? t) && (t <=? 67768036191676799)) then
    raise OSError "Value too large for defined data type"
  else if (-62135596800 <=? t) && (t <=? 253402300799) then Ok tt
  else raise ValueError "year is out of range".

(** [datetime.fromtimestamp] of an integer and of a float, whose fraction is rounded
    half-even to microseconds. *)
Definition fromtimestamp_int (t : Z) : result Z := let! _ := timestamp_limits t in Ok (t * 1000000).

Definition fromtimestamp (x : float) : result Z :=
  match x with
  | S754_nan => raise ValueError "Invalid value NaN (not a number)"
  | S754_infinity _ => raise OverflowError "timestamp out of range for platform time_t"
  | _ =>
      let us := trunc_float x * 1000000 + round_float (fmul (frac_float x) (flit "1e6")) in
      let! _ := timestamp_limits (us / 1000000) in Ok us
  end.

(** Binding an integer parameter of an SQLite statement: 64 bits. *)
Definition sql_int (z : Z) : result unit :=
  if (-(2 ^ 63) <=? z) && (z <? 2 ^ 63) then Ok tt
  else raise OverflowError "Python int too large to convert to SQLite INTEGER".

Lemma sql_int_Ok z : sql_int z = Ok tt <-> - 2 ^ 63 <= z < 2 ^ 63.
Proof.
  unfold sql_int. destruct (_ && _) eqn:E; bool_props; [by split|]. split; [done|]. intros H.
  apply andb_false_iff in E. rewrite Z.leb_gt, Z.ltb_ge in E. lia.
Qed.

Example timedelta_half : timedelta_seconds (flit "1.5") = Ok 1500000.
Proof. vm_compute. reflexivity. Qed.

Example total_seconds_half : total_seconds (-1500000) = flit "-1.5".
Proof. vm_compute. reflexivity. Qed.
