(* ===== verification/PyTimeFacts.v ===== *)
(** * Seconds in floating point

    [total_seconds] of a delta and the quotient of two deltas go through binary64; the
    floor of the quotient and the whole seconds are exact while the deltas stay below
    2^52 microseconds (142 years). *)
From Stdlib Require Import ZArith Lia SpecFloat.
From stdpp Require Import base list strings.
From S2P Require Import Prelude PyDecimal PyFloat PyFloatFacts PyTime.
Open Scope Z_scope.

Lemma floor_normal s M j : 0 <= j -> 2 ^ 52 <= M <= 2 ^ 53 ->
  math_floor (normal s M (- j)) = Ok ((if s then - M else M) / 2 ^ j).
Proof.
  intros Hj HM. destruct (normal_finite s M j HM) as (m & e & c & -> & Hc & Hm & ->). cbn [math_floor]. f_equal.
  assert ((if s then Z.neg m else Z.pos m) * 2 ^ c = (if s then - M else M)) as <- by (destruct s; lia).
  set (z := if s then Z.neg m else Z.pos m).
  destruct (Z.le_gt_cases j c) as [H|H].
  - rewrite Z.shiftl_mul_pow2 by lia. assert (0 < 2 ^ j) by lia.
    replace c with (j + (c - j)) at 2 by lia. rewrite Z.pow_add_r, (Z.mul_comm (2 ^ j)), Z.mul_assoc, Z.div_mul by lia. done.
  - replace (c - j) with (- (j - c)) by lia. rewrite Z.shiftl_opp_r, Z.shiftr_div_pow2 by lia.
    replace j with ((j - c) + c) at 2 by lia. rewrite Z.pow_add_r, Z.div_mul_cancel_r by lia. done.
Qed.

(** The seconds of a delta. *)
Lemma total_seconds_rounds A : A <> 0 -> Z.abs A < 2 ^ 70 -> rounds_to (A <? 0) (total_seconds A) (Z.abs A) 1000000.
Proof.
  intros HA Hb. unfold total_seconds, float_of_ratio. destruct (Z.abs_N A) as [|p] eqn:E; [lia|].
  replace (Z.abs A) with (Z.pos p) by lia.
  apply (ratio_rounds (A <? 0) p 1000000 0 0 0 0); lia.
Qed.

Lemma seconds_exact W : 0 < W < 2 ^ 40 -> exists M j, 0 <= j /\ 2 ^ 52 <= M <= 2 ^ 53 /\ M = W * 2 ^ j /\
  total_seconds (W * 1000000) = normal false M (- j).
Proof.
  intros HW. pose proof (total_seconds_rounds (W * 1000000) ltac:(lia) ltac:(lia)) as H.
  replace (W * 1000000 <? 0) with false in H by (symmetry; apply Z.ltb_ge; lia).
  apply rounds_to_rel in H as (M & j & Hj & HM & Ex & _ & Hlo & Hhi); [|lia..].
  exists M, j. split_and!; try done; try lia. specialize (Hlo W). specialize (Hhi W). lia.
Qed.

(** The quotient of a delta of [A] microseconds by an interval of [W] seconds. *)
Lemma quotient_rounds A W : A <> 0 -> 0 < W < 2 ^ 40 -> Z.abs A < 2 ^ 52 ->
  exists M1 j1, 0 <= j1 /\ 2 ^ 52 <= M1 <= 2 ^ 53 /\
    M1 * 1000000 * (2 ^ 53 - 1) <= Z.abs A * 2 ^ j1 * 2 ^ 53 <= M1 * 1000000 * (2 ^ 53 + 1) /\
    (forall N, N * 1000000 <= Z.abs A -> N * 2 ^ j1 <= M1) /\ (forall N, Z.abs A <= N * 1000000 -> M1 <= N * 2 ^ j1) /\
    rounds_to (A <? 0) (fdiv_ieee (total_seconds A) (total_seconds (W * 1000000))) M1 (W * 2 ^ j1).
Proof.
  intros HA HW Hb. pose proof (total_seconds_rounds A HA ltac:(lia)) as H.
  apply rounds_to_rel in H as (M1 & j1 & Hj1 & HM1 & -> & Hrel & Hlo & Hhi); [|lia..].
  destruct (seconds_exact W HW) as (M2 & j2 & Hj2 & HM2 & EM2 & ->).
  exists M1, j1. split_and!; try done; try lia.
  destruct (normal_finite (A <? 0) M1 j1 HM1) as (m1 & e1 & c1 & -> & Hc1 & Hm1 & ->).
  destruct (normal_finite false M2 j2 HM2) as (m2 & e2 & c2 & -> & Hc2 & Hm2 & ->).
  unfold fdiv_ieee, SFdiv. rewrite xorb_false_r. fold (ratio_round (A <? 0) m1 m2 (c1 - j1) (c2 - j2)).
  assert (0 < 2 ^ j1) by lia.
  apply (ratio_rounds _ m1 m2 _ _ (j1 + c2) (c1 + j2)); try lia.
  - rewrite !Z.pow_add_r by lia.
    transitivity (M1 * 2 ^ j1 * M2); [rewrite <- Hm2; ring|]. rewrite EM2, <- Hm1. ring.
  - specialize (Hhi (Z.abs A) ltac:(lia)). nia.
  - assert (2 ^ j1 <= M1 * 2000000) by nia. apply (Z.le_lt_trans _ (2 ^ 40 * (M1 * 2000000))); [nia|]. nia.
Qed.

(** Two roundings move a quotient by less than the distance to an integer. *)
Lemma two_roundings_below B I T p q M1 M3 W : 0 < p -> 0 < q -> 0 < W -> I = W * 1000000 -> B < T < 2 ^ 52 ->
  M1 * 1000000 * (2 ^ 53 - 1) <= B * p * 2 ^ 53 -> M3 * (W * p) * (2 ^ 53 - 1) <= M1 * q * 2 ^ 53 ->
  0 < T -> M3 * I < T * q.
Proof.
  intros Hp Hq HW -> HB H1 H2 HT.
  assert (M3 * W * 1000000 * (2 ^ 53 - 1) * (2 ^ 53 - 1) <= B * q * 2 ^ 106).
  { apply (Z.mul_le_mono_pos_r _ _ p); [done|].
    assert (M3 * (W * p) * (2 ^ 53 - 1) * (1000000 * (2 ^ 53 - 1)) <= M1 * q * 2 ^ 53 * (1000000 * (2 ^ 53 - 1)))
      by (apply Z.mul_le_mono_nonneg_r; lia).
    assert (M1 * 1000000 * (2 ^ 53 - 1) * (q * 2 ^ 53) <= B * p * 2 ^ 53 * (q * 2 ^ 53)) by (apply Z.mul_le_mono_nonneg_r; lia).
    lia. }
  destruct (Z.lt_ge_cases (M3 * (W * 1000000)) (T * q)) as [|Hge]; [done|exfalso].
  assert (T * ((2 ^ 53 - 1) * (2 ^ 53 - 1)) <= B * 2 ^ 106); [|lia].
  apply (Z.mul_le_mono_pos_r _ _ q); [done|].
  assert (T * q * ((2 ^ 53 - 1) * (2 ^ 53 - 1)) <= M3 * (W * 1000000) * ((2 ^ 53 - 1) * (2 ^ 53 - 1))) by (apply Z.mul_le_mono_nonneg_r; lia).
  lia.
Qed.

Lemma two_roundings_above B I T p q M1 M3 W : 0 < p -> 0 < q -> 0 < W -> I = W * 1000000 -> T < B < 2 ^ 52 - 1000000 ->
  B * p * 2 ^ 53 <= M1 * 1000000 * (2 ^ 53 + 1) -> M1 * q * 2 ^ 53 <= M3 * (W * p) * (2 ^ 53 + 1) ->
  0 <= T -> T * q < M3 * I.
Proof.
  intros Hp Hq HW -> HB H1 H2 HT.
  assert (B * q * 2 ^ 106 <= M3 * W * 1000000 * (2 ^ 53 + 1) * (2 ^ 53 + 1)).
  { apply (Z.mul_le_mono_pos_r _ _ p); [done|].
    assert (M1 * q * 2 ^ 53 * (1000000 * (2 ^ 53 + 1)) <= M3 * (W * p) * (2 ^ 53 + 1) * (1000000 * (2 ^ 53 + 1)))
      by (apply Z.mul_le_mono_nonneg_r; lia).
    assert (B * p * 2 ^ 53 * (q * 2 ^ 53) <= M1 * 1000000 * (2 ^ 53 + 1) * (q * 2 ^ 53)) by (apply Z.mul_le_mono_nonneg_r; lia).
    lia. }
  destruct (Z.lt_ge_cases (T * q) (M3 * (W * 1000000))) as [|Hge]; [done|exfalso].
  assert (B * 2 ^ 106 <= T * ((2 ^ 53 + 1) * (2 ^ 53 + 1))); [|lia].
  apply (Z.mul_le_mono_pos_r _ _ q); [done|].
  assert (M3 * (W * 1000000) * ((2 ^ 53 + 1) * (2 ^ 53 + 1)) <= T * q * ((2 ^ 53 + 1) * (2 ^ 53 + 1))) by (apply Z.mul_le_mono_nonneg_r; lia).
  lia.
Qed.

(** The floor of the rounded quotient is the exact one while the delta and the interval are below 2^52 microseconds. *)
Lemma floor_quotient A W : 0 < W < 2 ^ 40 -> Z.abs A + W * 1000000 < 2 ^ 52 ->
  math_floor (fdiv_ieee (total_seconds A) (total_seconds (W * 1000000))) = Ok (A / (W * 1000000)).
Proof.
  intros HW Hb. destruct (Z.eq_dec A 0) as [->|HA].
  { destruct (seconds_exact W HW) as (M2 & j2 & Hj2 & HM2 & _ & ->).
    destruct (normal_finite false M2 j2 HM2) as (m2 & e2 & c2 & -> & _). rewrite Z.div_0_l by lia. done. }
  destruct (quotient_rounds A W HA HW ltac:(lia)) as (M1 & j1 & Hj1 & HM1 & Hrel1 & Hlo1 & Hhi1 & H).
  assert (0 < 2 ^ j1) by lia.
  apply rounds_to_rel in H as (M3 & j3 & Hj3 & HM3 & -> & Hrel3 & Hlo3 & Hhi3); [|nia..].
  rewrite floor_normal by lia. f_equal. assert (0 < 2 ^ j3) by lia.
  assert (0 < W * 1000000) as HI by lia.
  pose proof (Z.div_mod A (W * 1000000) ltac:(lia)) as HD. pose proof (Z.mod_pos_bound A (W * 1000000) HI) as HR.
  set (N := A / (W * 1000000)) in *. set (R := A mod (W * 1000000)) in *.
  assert (N * 2 ^ j3 <= (if A <? 0 then - M3 else M3) < (N + 1) * 2 ^ j3).
  { destruct (Z.ltb_spec A 0) as [Hneg|Hpos]; rewrite ?Z.abs_neq, ?Z.abs_eq in * by lia.
    - assert (N <= - 1) by (assert (N < 0) by (unfold N; apply Z.div_lt_upper_bound; lia); lia).
      pose proof (two_roundings_above (- A) (W * 1000000) ((- N - 1) * (W * 1000000)) (2 ^ j1) (2 ^ j3) M1 M3 W
        ltac:(done) ltac:(done) ltac:(lia) eq_refl ltac:(lia) ltac:(lia) ltac:(lia) ltac:(apply Z.mul_nonneg_nonneg; lia)) as HA'.
      specialize (Hhi1 (- N * W) ltac:(lia)). specialize (Hhi3 (- N) ltac:(lia)).
      assert ((- N - 1) * 2 ^ j3 < M3); [|lia]. apply (Z.mul_lt_mono_pos_r (W * 1000000)); [done|]. lia.
    - assert (0 <= N) by (unfold N; apply Z.div_pos; lia).
      pose proof (two_roundings_below A (W * 1000000) ((N + 1) * (W * 1000000)) (2 ^ j1) (2 ^ j3) M1 M3 W
        ltac:(done) ltac:(done) ltac:(lia) eq_refl ltac:(lia) ltac:(lia) ltac:(lia) ltac:(apply Z.mul_pos_pos; lia)) as HA'.
      specialize (Hlo1 (N * W) ltac:(lia)). specialize (Hlo3 N ltac:(lia)).
      split; [lia|]. apply (Z.mul_lt_mono_pos_r (W * 1000000)); [done|]. lia. }
  symmetry. apply Z.div_unique_pos with (r := (if A <? 0 then - M3 else M3) - 2 ^ j3 * N); lia.
Qed.

Lemma trunc_seconds A : 0 <= A < 2 ^ 52 -> trunc_float (total_seconds A) = A / 1000000.
Proof.
  intros HA. destruct (Z.eq_dec A 0) as [->|Hne]; [done|].
  pose proof (total_seconds_rounds A Hne ltac:(lia)) as H. rewrite Z.abs_eq in H by lia.
  replace (A <? 0) with false in H by (symmetry; apply Z.ltb_ge; lia).
  apply rounds_to_rel in H as (M & j & Hj & HM & -> & Hrel & Hlo & Hhi); [|lia..].
  destruct (normal_finite false M j HM) as (m & e & c & En & Hc & Hm & He).
  assert (math_floor (normal false M (- j)) = Ok (trunc_float (normal false M (- j)))) as Hf by (by rewrite En).
  rewrite floor_normal in Hf by done. injection Hf as <-. symmetry.
  pose proof (Z.div_mod A 1000000 ltac:(lia)) as HD. pose proof (Z.mod_pos_bound A 1000000 ltac:(lia)) as HR.
  set (N := A / 1000000) in *. assert (0 < 2 ^ j) by lia.
  apply Z.div_unique_pos with (r := M - 2 ^ j * N); [|lia]. specialize (Hlo N ltac:(lia)). split; [lia|].
  assert (M < (N + 1) * 2 ^ j); [|lia].
  destruct (Z.lt_ge_cases M ((N + 1) * 2 ^ j)) as [|Hge]; [done|exfalso].
  assert ((N + 1) * 1000000 * (2 ^ 53 - 1) <= A * 2 ^ 53); [|lia].
  apply (Z.mul_le_mono_pos_r _ _ (2 ^ j)); [done|]. nia.
Qed.

(** ** Comparisons of deltas *)

Lemma normal_le M1 j1 M2 j2 : 2 ^ 52 <= M1 <= 2 ^ 53 -> 2 ^ 52 <= M2 <= 2 ^ 53 -> 0 <= j1 -> 0 <= j2 ->
  flt (normal false M2 (- j2)) (normal false M1 (- j1)) = false -> M1 * 2 ^ j2 <= M2 * 2 ^ j1.
Proof.
  intros H1 H2 P1 P2. assert (0 < 2 ^ j1 /\ 0 < 2 ^ j2) as [Q1 Q2] by lia.
  assert (forall a b, 0 <= a -> a < b -> 2 * 2 ^ a <= 2 ^ b) as Hpow.
  { intros a b Ha Hab. replace (2 * 2 ^ a) with (2 ^ Z.succ a) by (rewrite Z.pow_succ_r by lia; lia). apply Z.pow_le_mono_r; lia. }
  intros H. destruct (Z.le_gt_cases (M1 * 2 ^ j2) (M2 * 2 ^ j1)) as [|Hgt]; [done|exfalso].
  apply not_true_iff_false in H. apply H. unfold normal in *.
  destruct (Z.eqb_spec M1 (2 ^ 53)) as [->|N1], (Z.eqb_spec M2 (2 ^ 53)) as [->|N2]; (apply flt_key; [done..|]); cbn -[Z.pow];
    right; (split; [done|]); destruct (Z.lt_trichotomy j1 j2) as [Hj|[->|Hj]]; try lia;
    try (specialize (Hpow _ _ P1 Hj)); try (specialize (Hpow _ _ P2 Hj)); try lia; try nia.
  assert (j2 = j1 + 1 \/ j1 + 1 < j2) as [->|] by lia; [right|left; lia]. split; [lia|].
  rewrite Z.pow_add_r in Hgt by lia. nia.
Qed.

(** A delta that is more than [W] seconds is more than that as a float. *)
Lemma seconds_not_more W d : 0 < W < 2 ^ 32 -> 0 < d < 2 ^ 70 ->
  flt (total_seconds (W * 1000000)) (total_seconds d) = false -> d <= W * 1000000.
Proof.
  intros HW Hd. pose proof (total_seconds_rounds d ltac:(lia) ltac:(lia)) as H.
  replace (d <? 0) with false in H by (symmetry; apply Z.ltb_ge; lia). rewrite Z.abs_eq in H by lia.
  destruct H as (M & j & Hj & HM & Hnear & ->).
  destruct (seconds_exact W ltac:(lia)) as (M2 & j2 & Hj2 & HM2 & EM2 & ->).
  intros H. apply normal_le in H; try lia. apply Z.abs_le in Hnear.
  rewrite EM2 in H. assert (0 < 2 ^ j /\ 0 < 2 ^ j2) as [Q1 Q2] by lia.
  assert (M <= W * 2 ^ j) as HMW by (apply (Z.mul_le_mono_pos_r _ _ (2 ^ j2)); lia).
  destruct (Z.le_gt_cases d (W * 1000000)) as [|Hgt]; [done|exfalso].
  assert ((W * 1000000 + 1) * 2 ^ j <= d * 2 ^ j) by (apply Z.mul_le_mono_nonneg_r; lia).
  assert (W * 2 ^ j <= 2 ^ 32 * 2 ^ j) by (apply Z.mul_le_mono_nonneg_r; lia). lia.
Qed.
