(* ===== verification/PyValue.v ===== *)
(** * Python values, [str], truth, [json.dumps] and SHA-256

    Snapshots, exchange rows and event payloads are untyped Python values.
    [pyval] has a constructor per type the code meets.  A float is identified
    by its [repr], which determines it; the code that computes with floats
    uses [PyFloat] instead.  Strings are ASCII. *)
From Stdlib Require Import ZArith Lia Ascii SpecFloat.
From stdpp Require Import base list strings.
From S2P Require Import Prelude PyDecimal PyDecimalFacts PyFloat.
Open Scope Z_scope.

Inductive pyval :=
  | VNone
  | VBool (b : bool)
  | VInt (z : Z)
  | VFloat (repr : string)
  | VStr (s : string)
  | VDec (d : dec)
  | VList (l : list pyval)
  | VDict (d : list (string * pyval)).

(** ** [repr], [str] and truth *)

Definition hex_char (n : N) : ascii :=
  if (n <? 10)%N then ascii_of_N (48 + n)%N else ascii_of_N (87 + n)%N.

Definition hex2 (n : N) : string :=
  String (hex_char (n / 16 mod 16)%N) (String (hex_char (n mod 16)%N) EmptyString).

Definition char_eq (c : ascii) (n : N) : bool := (N_of_ascii c =? n)%N.

Fixpoint str_has (n : N) (s : string) : bool :=
  match s with EmptyString => false | String c r => char_eq c n || str_has n r end.

(** [repr] of one character inside quotes of code [q]. *)
Definition repr_char (q : N) (c : ascii) : string :=
  let n := N_of_ascii c in
  if (n =? 92)%N || (n =? q)%N then String "\"%char (String c EmptyString)
  else if (n =? 10)%N then "\n" else if (n =? 13)%N then "\r" else if (n =? 9)%N then "\t"
  else if (n <? 32)%N || (126 <? n)%N then "\x" +:+ hex2 n
  else String c EmptyString.

Fixpoint str_flat_map (f : ascii -> string) (s : string) : string :=
  match s with EmptyString => EmptyString | String c r => f c +:+ str_flat_map f r end.

Definition chr (n : N) : string := String (ascii_of_N n) EmptyString.

(** Double quotes only when the text holds a single and no double quote. *)
Definition repr_str (s : string) : string :=
  let q := if str_has 39 s && negb (str_has 34 s) then 34%N else 39%N in
  chr q +:+ str_flat_map (repr_char q) s +:+ chr q.

Fixpoint py_repr (v : pyval) : string :=
  match v with
  | VNone => "None"
  | VBool b => if b then "True" else "False"
  | VInt z => int_str z
  | VFloat r => r
  | VStr s => repr_str s
  | VDec d => "Decimal('" +:+ dec_str d +:+ "')"
  | VList l => "[" +:+ str_join ", " (map py_repr l) +:+ "]"
  | VDict d =>
      "{" +:+ str_join ", " (map (fun kv => repr_str (fst kv) +:+ ": " +:+ py_repr (snd kv)) d) +:+ "}"
  end.

Definition py_str (v : pyval) : string :=
  match v with VStr s => s | VDec d => dec_str d | _ => py_repr v end.

(** Truth value; the float zeros are ["0.0"] and ["-0.0"]. *)
Definition truthy (v : pyval) : bool :=
  match v with
  | VNone => false
  | VBool b => b
  | VInt z => negb (z =? 0)
  | VFloat r => negb (String.eqb r "0.0" || String.eqb r "-0.0")
  | VStr s => nonempty s
  | VDec d => negb (dcoeff d =? 0)%N
  | VList l => match l with [] => false | _ => true end
  | VDict d => match d with [] => false | _ => true end
  end.

(** [a or b] *)
Definition py_or (a b : pyval) : pyval := if truthy a then a else b.

(** [d.get(k)] and [d.get(k, default)]; a missing key gives [None] or the default. *)
Definition get_or (d : dict pyval) (k : string) (dflt : pyval) : pyval :=
  match dict_get d k with Some v => v | None => dflt end.
Definition get (d : dict pyval) (k : string) : pyval := get_or d k VNone.

(** [isinstance(v, Mapping)] *)
Definition as_dict (v : pyval) : option (dict pyval) :=
  match v with VDict d => Some d | _ => None end.
(** [isinstance(v, list)]; also a [Sequence] that is neither [str] nor [bytes]. *)
Definition as_list (v : pyval) : option (list pyval) :=
  match v with VList l => Some l | _ => None end.

(** [iter(v)] for the values that are iterable. *)
Definition py_iter (v : pyval) : result (list pyval) :=
  match v with
  | VList l => Ok l
  | VStr s => Ok (map (fun c => VStr (String c EmptyString)) (String.list_ascii_of_string s))
  | VDict d => Ok (map VStr (dict_keys d))
  | _ => raise TypeError "object is not iterable"
  end.

(** [dict(v)] for a mapping or a list of pairs with string keys. *)
Definition py_dict (v : pyval) : result (dict pyval) :=
  match v with
  | VDict d => Ok d
  | VList l =>
      let! pairs := res_map_list (fun p => match p with
        | VList [VStr k; x] => Ok (k, x)
        | _ => raise TypeError "cannot convert dictionary update sequence element" end) l in
      Ok (dict_of pairs)
  | _ => raise TypeError "object is not iterable"
  end.

(** An integer of more than 53 bits as the nearest double. *)
Definition round53 (z : Z) : Z :=
  if Z.abs z <? 2 ^ 53 then z
  else let k := Z.log2 (Z.abs z) - 52 in
       Z.sgn z * Z.of_N (div_half_even (Z.abs_N z) (2 ^ Z.to_N k)%N) * 2 ^ k.

Definition parse_int (s : string) : option Z :=
  let l := List.filter (fun c => negb (Ascii.eqb c "_"%char)) (String.list_ascii_of_string (strip s)) in
  let '(neg, r) := span_sign l in
  match span_digits r with
  | ((_ :: _) as ds, []) => Some (if neg then - Z.of_N (of_digits ds) else Z.of_N (of_digits ds))
  | _ => None
  end.

(** Truncation towards zero. *)
Definition dec_trunc (d : dec) : Z :=
  zsigned (to_integral (fun _ c p => (c / p)%N) d) * 10 ^ (Z.max 0 (dexp d)).

(** [int(v)] *)
Definition py_int (v : pyval) : result Z :=
  match v with
  | VInt z => Ok z
  | VBool b => Ok (if b then 1 else 0)
  | VDec d => Ok (dec_trunc d)
  | VStr s => match parse_int s with Some z => Ok z | None => raise ValueError "invalid literal for int()" end
  | VFloat r =>
      match Decimal_of_str r with
      | Ok (DFin d) => Ok (round53 (dec_trunc d))
      | Ok (DInf _) => raise OverflowError "cannot convert float infinity to integer"
      | _ => raise ValueError "cannot convert float NaN to integer"
      end
  | _ => raise TypeError "int() argument must be a string or a number"
  end.

(** [float(v)] *)
Definition py_float (v : pyval) : result float :=
  match v with
  | VFloat r | VStr r => float_of_str r
  | VInt z => float_of_Z z
  | VBool b => float_of_Z (if b then 1 else 0)
  | VDec d => Ok (float_of_dec d)
  | _ => raise TypeError "float() argument must be a string or a real number"
  end.

(** [Decimal(str(value))] *)
Definition Decimal_of (v : pyval) : result dnum := Decimal_of_str (py_str v).

(** [a == b] on the scalars: strings compare as text, numbers by their exact
    value whatever their type; a nan differs from everything. *)
Definition exact_number (v : pyval) : option dnum :=
  match v with
  | VBool b => Some (DFin (Dec false (if b then 1 else 0) 0))
  | VInt z => Some (DFin (Dec (z <? 0) (Z.abs_N z) 0))
  | VDec d => Some (DFin d)
  | VFloat r => match float_of_str r with
                | Ok (S754_infinity s) => Some (DInf s)
                | Ok S754_nan => Some DNaN
                | Ok f => option_map DFin (dec_of_float f)
                | Err _ => None
                end
  | _ => None
  end.

Definition scalar_eq (a b : pyval) : bool :=
  match a, b with
  | VNone, VNone => true
  | VStr s, VStr t => String.eqb s t
  | _, _ =>
      match exact_number a, exact_number b with
      | Some (DFin x), Some (DFin y) => deqb x y
      | Some (DInf s), Some (DInf t) => Bool.eqb s t
      | _, _ => false
      end
  end.

(** [except (InvalidOperation, TypeError, ValueError)] *)
Definition numeric_errors (k : exn_kind) : bool :=
  match k with InvalidOperation | TypeError | ValueError => true | _ => false end.

(** The [_decimal(value, name)] helper of the money modules: [value] as a finite
    decimal, or an exception of class [k]; [reject_bool] is the guard on booleans. *)
Definition finite_decimal (k : exn_kind) (reject_bool : bool) (value : pyval) (name : string) : result dec :=
  match value, reject_bool with
  | VBool _, true => raise k (name +:+ " must be numeric")
  | _, _ =>
      let! n := res_catch (Decimal_of value) numeric_errors
                  (raise k (name +:+ " must be a finite decimal")) in
      match n with
      | DFin d => Ok d
      | _ => raise k (name +:+ " must be a finite decimal")
      end
  end.

(** ** [json.dumps(v, sort_keys=True, ...)] *)

Definition json_char (c : ascii) : string :=
  let n := N_of_ascii c in
  if (n =? 34)%N || (n =? 92)%N then String "\"%char (String c EmptyString)
  else if (n =? 10)%N then "\n" else if (n =? 13)%N then "\r" else if (n =? 9)%N then "\t"
  else if (n =? 12)%N then "\f" else if (n =? 8)%N then "\b"
  else if (n <? 32)%N || (126 <? n)%N then "\u00" +:+ hex2 n
  else String c EmptyString.

(** With [ensure_ascii=False] the code 127 is written as it is. *)
Definition json_char_raw (c : ascii) : string :=
  if char_eq c 127 then String c EmptyString else json_char c.

Definition json_quote (enc : ascii -> string) (s : string) : string := chr 34 +:+ str_flat_map enc s +:+ chr 34.
Definition json_str : string -> string := json_quote json_char.

Definition json_float (r : string) : string :=
  if String.eqb r "nan" then "NaN" else if String.eqb r "inf" then "Infinity"
  else if String.eqb r "-inf" then "-Infinity" else r.

Definition key_leb {V} (a b : string * V) : bool := String.leb (fst a) (fst b).

Section Json.
(** The encoding of characters, whether non-finite floats are allowed, the separators,
    and whether [default=str] is given: without it a [Decimal] is not serializable. *)
Context (enc : ascii -> string) (allow_nan : bool) (item_sep key_sep : string) (default_str : bool).

(** The members are rendered first and then sorted by key. *)
Fixpoint json_dumps_with (v : pyval) : result string :=
  match v with
  | VNone => Ok "null"
  | VBool b => Ok (if b then "true" else "false")
  | VInt z => Ok (int_str z)
  | VFloat r => if negb allow_nan && str_in r ["nan"; "inf"; "-inf"]
                then raise ValueError "Out of range float values are not JSON compliant" else Ok (json_float r)
  | VStr s => Ok (json_quote enc s)
  | VDec d => if default_str then Ok (json_quote enc (dec_str d))
              else raise TypeError "Object of type Decimal is not JSON serializable"
  | VList l =>
      let! parts := res_map_list (fun r => r) (map json_dumps_with l) in
      Ok ("[" +:+ str_join item_sep parts +:+ "]")
  | VDict d =>
      let! parts :=
        res_map_list (fun kv => let! s := snd kv in Ok (json_quote enc (fst kv) +:+ key_sep +:+ s))
          (sort_by key_leb (map (fun kv => (fst kv, json_dumps_with (snd kv))) d)) in
      Ok ("{" +:+ str_join item_sep parts +:+ "}")
  end.

End Json.

(** [separators=(",", ":")] *)
Definition json_dumps : bool -> pyval -> result string := json_dumps_with json_char true "," ":".
(** The default separators. *)
Definition json_dumps_spaced : pyval -> result string := json_dumps_with json_char true ", " ": " false.
(** [separators=(",", ":"), ensure_ascii=False, allow_nan=False, default=str] *)
Definition json_dumps_strict : pyval -> result string := json_dumps_with json_char_raw false "," ":" true.

(** ** SHA-256 (FIPS 180-4), as [hashlib.sha256(b).hexdigest()] *)

Module Sha256.

Definition w32 (n : N) : N := N.land n 4294967295.
Definition rotr (k n : N) : N := N.lor (N.shiftr n k) (w32 (N.shiftl n (32 - k))).
Definition add32 (a b : N) : N := w32 (a + b).

(** The constants are the first 32 bits of the fractional parts of the cube roots
    (and, for the initial state, of the square roots) of the first primes. *)
Definition prime (n : N) : bool :=
  forallb (fun d => negb (n mod d =? 0)%N) (map N.of_nat (seq 2 (N.to_nat n - 2))).

Definition primes : list N := List.filter prime (map N.of_nat (seq 2 310)).

(** The integer cube root, bit by bit. *)
Fixpoint cube_root (bits : nat) (n r : N) : N :=
  match bits with
  | O => r
  | S k => let r' := (r + 2 ^ N.of_nat k)%N in cube_root k n (if (r' ^ 3 <=? n)%N then r' else r)
  end.

Definition K : list N := Eval vm_compute in map (fun p => w32 (cube_root 36 (p * 2 ^ 96) 0)) primes.

Definition H0 : list N := Eval vm_compute in map (fun p => w32 (N.sqrt (p * 2 ^ 64))) (firstn 8 primes).

(** The 64-word message schedule; [win] holds the last 16 words. *)
Fixpoint schedule (n : nat) (win : list N) : list N :=
  match n with
  | O => []
  | S n' =>
      match win with
      | [] => []
      | w0 :: tl =>
          let x := nth 1 win 0%N in
          let y := nth 14 win 0%N in
          let s0 := N.lxor (N.lxor (rotr 7 x) (rotr 18 x)) (N.shiftr x 3) in
          let s1 := N.lxor (N.lxor (rotr 17 y) (rotr 19 y)) (N.shiftr y 10) in
          let w := w32 (w0 + s0 + nth 9 win 0%N + s1) in
          w0 :: schedule n' (tl ++ [w])
      end
  end.

Definition round (st : list N) (kw : N * N) : list N :=
  match st with
  | [a; b; c; d; e; f; g; h] =>
      let S1 := N.lxor (N.lxor (rotr 6 e) (rotr 11 e)) (rotr 25 e) in
      let ch := N.lxor (N.land e f) (N.land (N.lxor e 4294967295) g) in
      let t1 := w32 (h + S1 + ch + fst kw + snd kw) in
      let S0 := N.lxor (N.lxor (rotr 2 a) (rotr 13 a)) (rotr 22 a) in
      let mj := N.lxor (N.lxor (N.land a b) (N.land a c)) (N.land b c) in
      [w32 (t1 + S0 + mj)%N; a; b; c; add32 d t1; e; f; g]
  | _ => st
  end.

Definition compress (st block : list N) : list N :=
  zip_with add32 st (fold_left round (combine K (schedule 64 block)) st).

Fixpoint words (fuel : nat) (l : list N) : list N :=
  match fuel, l with
  | S f, a :: b :: c :: d :: r => (((a * 256 + b) * 256 + c) * 256 + d)%N :: words f r
  | _, _ => []
  end.

Definition pad (l : list N) : list N :=
  let n := length l in
  let k := ((119 - n mod 64) mod 64)%nat in
  let bits := (8 * N.of_nat n)%N in
  l ++ [128%N] ++ repeat 0%N k
    ++ map (fun i => (N.shiftr bits (8 * i) mod 256)%N) [7; 6; 5; 4; 3; 2; 1; 0]%N.

Fixpoint blocks (fuel : nat) (st ws : list N) : list N :=
  match fuel, ws with
  | S f, _ :: _ => blocks f (compress st (firstn 16 ws)) (skipn 16 ws)
  | _, _ => st
  end.

Definition hex_word (w : N) : string :=
  fold_right (fun i acc => String (hex_char (N.shiftr w (4 * i) mod 16)%N) acc) EmptyString
    [7; 6; 5; 4; 3; 2; 1; 0]%N.

Definition digest (l : list N) : list N :=
  let p := pad l in
  let ws := words (length p) p in
  blocks (length ws) H0 ws.

End Sha256.

(** [hashlib.sha256(s.encode()).hexdigest()]: 64 hexadecimal digits. *)
Definition sha256_hex (s : string) : string :=
  str_take 64 (fold_right (fun w acc => Sha256.hex_word w +:+ acc) EmptyString
    (Sha256.digest (map N_of_ascii (String.list_ascii_of_string s)))).

(** The hash of the canonical JSON of a value. *)
Definition json_sha256 (default_str : bool) (v : pyval) : result string :=
  let! s := json_dumps default_str v in Ok (sha256_hex s).

Example sha256_abc :
  sha256_hex "abc" = "ba7816bf8f01cfea414140de5dae2223b00361a396177a9cb410ff61f20015ad".
Proof. vm_compute. reflexivity. Qed.

Example sha256_two_blocks :
  sha256_hex "abcdbcdecdefdefgefghfghighijhijkijkljklmklmnlmnomnopnopq"
  = "248d6a61d20638b8e5c026930c3e6039a33ce45964ff2167f6ecedd419db06c1".
Proof. vm_compute. reflexivity. Qed.

Example json_example :
  json_dumps false (VDict [("b", VInt (-12)); ("a", VList [VStr "x\"; VNone; VBool true])])
  = Ok ("{" +:+ json_str "a" +:+ ":[" +:+ json_str "x\" +:+ ",null,true]," +:+ json_str "b" +:+ ":-12}").
Proof. vm_compute. reflexivity. Qed.

(** ** Lemmas *)

Lemma Decimal_of_VDec d : dec_in_range d = true -> Decimal_of (VDec d) = Ok (DFin d).
Proof. apply Decimal_of_dec_str. Qed.

Lemma finite_decimal_VDec k b d name : dec_in_range d = true -> finite_decimal k b (VDec d) name = Ok d.
Proof. intros H. unfold finite_decimal. destruct b; by rewrite Decimal_of_VDec. Qed.

Lemma finite_decimal_VStr k b d name :
  dec_in_range d = true -> finite_decimal k b (VStr (dec_str d)) name = Ok d.
Proof. intros H. unfold finite_decimal, Decimal_of; simpl. destruct b; by rewrite Decimal_of_dec_str. Qed.

Lemma finite_decimal_range k b v name d : finite_decimal k b v name = Ok d -> dec_in_range d = true.
Proof.
  unfold finite_decimal. intros H.
  assert (res_bind (res_catch (Decimal_of v) numeric_errors (raise k (name +:+ " must be a finite decimal")))
    (fun n => match n with DFin d => Ok d | _ => raise k (name +:+ " must be a finite decimal") end) = Ok d) as H'
    by (destruct v, b; done).
  apply res_bind_Ok in H' as (n & Hn & H'). destruct n; simplify_eq.
  unfold Decimal_of in Hn. destruct (Decimal_of_str _) eqn:E; simpl in Hn; simplify_eq.
  - by eapply Decimal_of_str_range.
  - by destruct (numeric_errors _).
Qed.

#[export] Hint Resolve finite_decimal_range : py.

Lemma sha256_nibble w i : exists n, (n < 16)%N /\ hex_char (N.shiftr w (4 * i) mod 16) = hex_char n.
Proof. eexists. split; [|done]. apply N.mod_lt. done. Qed.

Definition is_hex (c : ascii) : bool :=
  let n := ascii_code c in (Nat.leb 48 n && Nat.leb n 57) || (Nat.leb 97 n && Nat.leb n 102).

Lemma hex_char_hex n : (n < 16)%N -> is_hex (hex_char n) = true.
Proof.
  intros H. replace n with (N.of_nat (N.to_nat n)) by lia.
  assert (N.to_nat n < 16)%nat as Hn by lia. revert Hn. generalize (N.to_nat n) as k. intros k Hk.
  do 16 (destruct k as [|k]; [reflexivity|]). lia.
Qed.

Lemma hex_word_hex w : str_forallb is_hex (Sha256.hex_word w) = true.
Proof.
  unfold Sha256.hex_word. induction ([7; 6; 5; 4; 3; 2; 1; 0]%N) as [|i l IH]; [done|].
  cbn [fold_right str_forallb]. rewrite IH, hex_char_hex; [done|]. by apply N.mod_lt.
Qed.

Lemma str_take_forallb f n s : str_forallb f s = true -> str_forallb f (str_take n s) = true.
Proof.
  revert s; induction n as [|n IH]; intros [|c s]; simpl; try done.
  intros H. bool_props. rewrite H. simpl. auto.
Qed.

(** A digest is made of lowercase hexadecimal digits. *)
Lemma sha256_hex_chars s : str_forallb is_hex (sha256_hex s) = true.
Proof.
  unfold sha256_hex. apply str_take_forallb.
  induction (Sha256.digest _) as [|w l IH]; [done|]. cbn [fold_right].
  by rewrite str_forallb_app, hex_word_hex, IH.
Qed.

Lemma str_take_length n s : (String.length (str_take n s) <= n)%nat.
Proof. revert s; induction n; intros [|c s]; simpl; try lia. specialize (IHn s). lia. Qed.

#[export] Hint Resolve sha256_hex_chars : py.

#[global] Arguments json_dumps_with : simpl never.
#[global] Arguments json_dumps : simpl never.
#[global] Arguments json_dumps_spaced : simpl never.
#[global] Arguments json_dumps_strict : simpl never.
#[global] Arguments json_sha256 : simpl never.
#[global] Arguments sha256_hex : simpl never.
#[global] Arguments finite_decimal : simpl never.
#[global] Arguments Decimal_of : simpl never.
