(* ===== verification/PyCalendar.v ===== *)
(** * The calendar of the standard library: [isoformat] and [fromisoformat]

    The proleptic Gregorian calendar of [datetime], and the ISO 8601 texts the code
    stores and compares.  An instant is in microseconds since 1970; its years are 1 to
    9999.  [fromisoformat] accepts the forms documented for Python 3.11: calendar and
    week dates, basic and extended, any separator, a fraction of any length cut to
    microseconds, and a UTC offset. *)
From Stdlib Require Import ZArith Lia Ascii.
From stdpp Require Import base list strings.
From S2P Require Import Prelude PyDecimal PyTime PyValue.
Open Scope Z_scope.

(** ** Dates *)

Definition leap (y : Z) : bool := (y mod 4 =? 0) && (negb (y mod 100 =? 0) || (y mod 400 =? 0)).

Definition days_before_year (y : Z) : Z :=
  let y := y - 1 in y * 365 + y / 4 - y / 100 + y / 400.

Definition days_in_month (l : bool) (m : Z) : Z :=
  if m =? 2 then (if l then 29 else 28) else if (m =? 4) || (m =? 6) || (m =? 9) || (m =? 11) then 30 else 31.

Fixpoint days_before (l : bool) (m : nat) : Z :=
  match m with O => 0 | S m' => days_before l m' + days_in_month l (Z.of_nat m) end.

(** The days of a year before its month [m]. *)
Definition days_before_month (l : bool) (m : Z) : Z := days_before l (Z.to_nat (m - 1)).

(** The day number; January 1 of year 1 is day 1. *)
Definition ymd2ord (y m d : Z) : Z := days_before_year y + days_before_month (leap y) m + d.

(** The month of the zero-based day [n] of a year. *)
Fixpoint month_of (l : bool) (fuel : nat) (m n : Z) : Z * Z :=
  match fuel with
  | O => (m, n)
  | S f => if n <? days_in_month l m then (m, n) else month_of l f (m + 1) (n - days_in_month l m)
  end.

Definition ord2ymd (n : Z) : Z * Z * Z :=
  let n := n - 1 in
  let n400 := n / 146097 in let n := n mod 146097 in
  let n100 := n / 36524 in let r := n mod 36524 in
  let n4 := r / 1461 in let r4 := r mod 1461 in
  let n1 := r4 / 365 in let r1 := r4 mod 365 in
  let y := n400 * 400 + n100 * 100 + n4 * 4 + n1 + 1 in
  if (n1 =? 4) || (n100 =? 4) then (y - 1, 12, 31)
  else let '(m, d) := month_of (leap y) 11 1 r1 in (y, m, d + 1).

Definition valid_date (y m d : Z) : bool :=
  (1 <=? y) && (y <=? 9999) && (1 <=? m) && (m <=? 12) && (1 <=? d) && (d <=? days_in_month (leap y) m).

(** The day number of 1970-01-01. *)
Definition epoch_ord : Z := 719163.

Definition day_us : Z := 86400000000.

Definition instant_min : Z := -62135596800000000.
Definition instant_max : Z := 253402300799999999.
Definition in_range (t : Z) : bool := (instant_min <=? t) && (t <=? instant_max).

(** ** Texts *)

(** The last [k] decimal digits. *)
Fixpoint fixed (k : nat) (n : Z) : string :=
  match k with
  | O => EmptyString
  | S k' => String (digit_char (Z.to_N (n / 10 ^ Z.of_nat k' mod 10))) (fixed k' n)
  end.

Definition iso_date (y m d : Z) : string := fixed 4 y +:+ "-" +:+ fixed 2 m +:+ "-" +:+ fixed 2 d.

(** [datetime.isoformat()] in UTC. *)
Definition isoformat (t : Z) : string :=
  let '(y, m, d) := ord2ymd (t / day_us + epoch_ord) in
  let us := t mod day_us in
  let s := us / 1000000 in
  iso_date y m d +:+ "T" +:+ fixed 2 (s / 3600) +:+ ":" +:+ fixed 2 (s / 60 mod 60) +:+ ":" +:+ fixed 2 (s mod 60)
  +:+ (if us mod 1000000 =? 0 then "" else "." +:+ fixed 6 (us mod 1000000)) +:+ "+00:00".

(** ** Parsing *)

Definition opt_bind {A B} (m : option A) (f : A -> option B) : option B :=
  match m with Some a => f a | None => None end.

(** The value of the [k] digits at the head of a text, and the rest. *)
Fixpoint parse_digits (k : nat) (acc : Z) (l : list ascii) : option (Z * list ascii) :=
  match k, l with
  | O, _ => Some (acc, l)
  | S k', c :: l' => match digit_of c with Some d => parse_digits k' (acc * 10 + Z.of_N d) l' | None => None end
  | _, [] => None
  end.

Definition is_digit (c : ascii) : bool := bool_decide (is_Some (digit_of c)).

Definition char_at (l : list ascii) (k : nat) : option ascii := nth_error l k.
Definition is_char (c : ascii) (o : option ascii) : bool :=
  match o with Some x => Ascii.eqb x c | None => false end.

(** The digits after a decimal mark, as microseconds. *)
Definition parse_fraction (l : list ascii) : option Z :=
  let k := Nat.min 6 (length l) in
  match k with
  | O => None
  | _ => match parse_digits k 0 l with
         | Some (v, rest) => if forallb is_digit rest then Some (v * 10 ^ Z.of_nat (6 - k)) else None
         | None => None
         end
  end.

(** [HH[:?MM[:?SS[.,f+]]]] as hours, minutes, seconds and microseconds. *)
Definition parse_clock (l : list ascii) : option (Z * Z * Z * Z) :=
  opt_bind (parse_digits 2 0 l) (fun hr =>
  match snd hr with
  | [] => Some (fst hr, 0, 0, 0)
  | c :: r =>
      let sep := Ascii.eqb c ":"%char in
      opt_bind (parse_digits 2 0 (if sep then r else c :: r)) (fun mr =>
      match snd mr with
      | [] => Some (fst hr, fst mr, 0, 0)
      | c :: r =>
          if sep && negb (Ascii.eqb c ":"%char) then None
          else
            opt_bind (parse_digits 2 0 (if sep then r else c :: r)) (fun sr =>
            match snd sr with
            | [] => Some (fst hr, fst mr, fst sr, 0)
            | c :: r =>
                if Ascii.eqb c "."%char || Ascii.eqb c ","%char then
                  opt_bind (parse_fraction r) (fun us => Some (fst hr, fst mr, fst sr, us))
                else None
            end)
      end)
  end).

Definition tz_mark (c : ascii) : bool := Ascii.eqb c "+"%char || Ascii.eqb c "-"%char || Ascii.eqb c "Z"%char.

(** Up to the first time-zone mark, and from it on. *)
Fixpoint split_tz (l : list ascii) : list ascii * list ascii :=
  match l with
  | [] => ([], [])
  | c :: l' => if tz_mark c then ([], l) else let '(a, b) := split_tz l' in (c :: a, b)
  end.

(** A UTC offset in microseconds, less than a day either way. *)
Definition parse_offset (l : list ascii) : option (option Z) :=
  match l with
  | [] => Some None
  | c :: r =>
      if Ascii.eqb c "Z"%char then match r with [] => Some (Some 0) | _ => None end
      else if bool_decide (length r ∈ [0; 1; 3]%nat) then None
      else
        opt_bind (parse_clock r) (fun '(h, m, s, us) =>
        let off := ((h * 60 + m) * 60 + s) * 1000000 + us in
        if off <? day_us then Some (Some (if Ascii.eqb c "-"%char then - off else off)) else None)
  end.

Definition parse_time (l : list ascii) : option (Z * option Z) :=
  let '(clock, tz) := split_tz l in
  opt_bind (parse_clock clock) (fun '(h, m, s, us) =>
  opt_bind (parse_offset tz) (fun off =>
  if (h <? 24) && (m <? 60) && (s <? 60) then Some (((h * 60 + m) * 60 + s) * 1000000 + us, off) else None)).

(** The Monday of the first ISO week of a year, and the day of a week date. *)
Definition week1_monday (y : Z) : Z :=
  let first := ymd2ord y 1 1 in
  let weekday := (first + 6) mod 7 in
  first - weekday + (if 3 <? weekday then 7 else 0).

Definition week_date (y w d : Z) : option Z :=
  let jan1 := ymd2ord y 1 1 mod 7 in
  let weeks := if (jan1 =? 4) || ((jan1 =? 3) && leap y) then 53 else 52 in
  if (1 <=? y) && (y <=? 9999) && (1 <=? w) && (w <=? weeks) && (1 <=? d) && (d <=? 7) then
    let n := week1_monday y + (w - 1) * 7 + (d - 1) in
    let '(y', m', d') := ord2ymd n in if valid_date y' m' d' then Some n else None
  else None.

Definition strip_dash (sep : bool) (l : list ascii) : option (list ascii) :=
  if Bool.eqb (is_char "-"%char (char_at l 0)) sep then Some (if sep then tail l else l) else None.

(** The day number of a date text. *)
Definition parse_date (l : list ascii) : option Z :=
  opt_bind (parse_digits 4 0 l) (fun yr =>
  let sep := is_char "-"%char (char_at (snd yr) 0) in
  let r := if sep then tail (snd yr) else snd yr in
  if is_char "W"%char (char_at r 0) then
    opt_bind (parse_digits 2 0 (tail r)) (fun wr =>
    match snd wr with
    | [] => week_date (fst yr) (fst wr) 1
    | rest =>
        opt_bind (strip_dash sep rest) (fun r2 =>
        opt_bind (parse_digits 1 0 r2) (fun dr =>
        match snd dr with [] => week_date (fst yr) (fst wr) (fst dr) | _ => None end))
    end)
  else
    opt_bind (parse_digits 2 0 r) (fun mr =>
    opt_bind (strip_dash sep (snd mr)) (fun r2 =>
    opt_bind (parse_digits 2 0 r2) (fun dr =>
    match snd dr with
    | [] => if valid_date (fst yr) (fst mr) (fst dr) then Some (ymd2ord (fst yr) (fst mr) (fst dr)) else None
    | _ => None
    end)))).

Fixpoint span_len (l : list ascii) : nat :=
  match l with c :: l' => if is_digit c then S (span_len l') else O | [] => O end.

(** Where the date ends. *)
Definition date_end (l : list ascii) : nat :=
  let n := length l in
  if (n =? 7)%nat then 7
  else if is_char "-"%char (char_at l 4) then
    if is_char "W"%char (char_at l 5) then
      if is_char "-"%char (char_at l 8) then
        match char_at l 10 with Some c => if is_digit c then 8%nat else 10%nat | None => 10%nat end
      else 8%nat
    else 10%nat
  else if is_char "W"%char (char_at l 4) then
    let idx := (7 + span_len (skipn 7 l))%nat in
    if (idx <? 9)%nat then idx else if Nat.even idx then 7%nat else 8%nat
  else 8%nat.

(** [datetime.fromisoformat(s)]: the wall-clock time, and the UTC offset of an aware value. *)
Definition fromisoformat (s : string) : result (Z * option Z) :=
  let l := String.list_ascii_of_string s in
  let bad := raise ValueError "Invalid isoformat string" in
  if (length l <? 7)%nat then bad
  else
    let k := date_end l in
    match parse_date (firstn k l), skipn (S k) l with
    | Some n, [] => Ok ((n - epoch_ord) * day_us, None)
    | Some n, rest => match parse_time rest with
                      | Some (us, off) => Ok ((n - epoch_ord) * day_us + us, off)
                      | None => bad
                      end
    | None, _ => bad
    end.

(** [astimezone(timezone.utc)]; a naive value counts as UTC. *)
Definition to_utc (x : Z * option Z) : result Z :=
  plus_delta (fst x) (match snd x with Some off => - off | None => 0 end).

(** [s.replace("Z", "+00:00")] *)
Definition replace_z (s : string) : string :=
  str_flat_map (fun c => if Ascii.eqb c "Z"%char then "+00:00" else String c EmptyString) s.

Example iso_epoch : isoformat 0 = "1970-01-01T00:00:00+00:00".
Proof. vm_compute. reflexivity. Qed.

Example iso_leap : isoformat 951782400000001 = "2000-02-29T00:00:00.000001+00:00".
Proof. vm_compute. reflexivity. Qed.

Example iso_last : isoformat instant_max = "9999-12-31T23:59:59.999999+00:00".
Proof. vm_compute. reflexivity. Qed.

Example from_basic : fromisoformat "20240229T235959,5-0130" = Ok (1709251199500000, Some (-5400000000)).
Proof. vm_compute. reflexivity. Qed.

Example from_week : fromisoformat "2020-W53-5" = fromisoformat "2021-01-01".
Proof. vm_compute. reflexivity. Qed.

Example from_bad : is_ok (fromisoformat "2023-02-29T00:00:00") = false.
Proof. vm_compute. reflexivity. Qed.

#[global] Arguments isoformat : simpl never.
#[global] Arguments fromisoformat : simpl never.
#[global] Arguments ord2ymd : simpl never.
#[global] Arguments ymd2ord : simpl never.
