(* ===== verification/PyCalendarFacts.v ===== *)
(** * Facts on the calendar and its texts

    The calendar round-trips with day numbers, the texts of [isoformat] order as the
    instants they stand for, and [fromisoformat] reads them back. *)
From Stdlib Require Import ZArith Lia Ascii.
From stdpp Require Import base list strings.
From S2P Require Import Prelude PyDecimal PyDecimalFacts PyTime PyValue PyCalendar.
Open Scope Z_scope.

(** ** Dates *)

Lemma leap_step y : days_before_year (y + 1) = days_before_year y + (if leap y then 366 else 365).
Proof.
  unfold days_before_year, leap.
  destruct (Z.eqb_spec (y mod 4) 0), (Z.eqb_spec (y mod 100) 0), (Z.eqb_spec (y mod 400) 0); simpl;
    Z.to_euclidean_division_equations; lia.
Qed.

Lemma days_before_year_mono y z : y <= z -> days_before_year y <= days_before_year z.
Proof. intros H. unfold days_before_year. Z.to_euclidean_division_equations. lia. Qed.

Lemma days_in_month_bounds l m : 28 <= days_in_month l m <= 31.
Proof. unfold days_in_month. destruct l; repeat case_match; lia. Qed.

Lemma days_before_mono l j k : (j <= k)%nat -> days_before l j <= days_before l k.
Proof.
  induction 1 as [|k _ IH]; [done|]. cbn [days_before]. pose proof (days_in_month_bounds l (Z.of_nat (S k))). lia.
Qed.

Lemma days_before_month_lt l m m' : 1 <= m < m' -> days_before_month l m + days_in_month l m <= days_before_month l m'.
Proof.
  intros H. unfold days_before_month.
  pose proof (days_before_mono l (S (Z.to_nat (m - 1))) (Z.to_nat (m' - 1)) ltac:(lia)) as Hm.
  cbn [days_before] in Hm. replace (Z.of_nat (S (Z.to_nat (m - 1)))) with m in Hm by lia. lia.
Qed.

Lemma month_end l m : 1 <= m <= 12 -> days_before_month l m + days_in_month l m <= (if l then 366 else 365).
Proof.
  intros H. pose proof (days_before_month_lt l m 13 ltac:(lia)) as Hm.
  replace (days_before_month l 13) with (if l then 366 else 365) in Hm by (by destruct l). lia.
Qed.

Lemma days_before_month_nonneg l m : 0 <= days_before_month l m.
Proof. apply (days_before_mono l 0). lia. Qed.

Lemma month_of_spec l f m n : 1 <= m -> 0 <= n ->
  days_before_month l m + n < days_before_month l (m + Z.of_nat f + 1) ->
  let '(m', d) := month_of l f m n in
  m <= m' <= m + Z.of_nat f /\ 0 <= d < days_in_month l m' /\ days_before_month l m' + d = days_before_month l m + n.
Proof.
  assert (forall m, 1 <= m -> days_before_month l (m + 1) = days_before_month l m + days_in_month l m) as Hs.
  { clear. intros m H. unfold days_before_month. replace (Z.to_nat (m + 1 - 1)) with (S (Z.to_nat (m - 1))) by lia.
    cbn [days_before]. by replace (Z.of_nat (S (Z.to_nat (m - 1)))) with m by lia. }
  revert m n; induction f as [|f IH]; intros m n Hm Hn H; simpl.
  - rewrite Z.add_0_r, Hs in H by lia. lia.
  - destruct (Z.ltb_spec n (days_in_month l m)); [lia|].
    specialize (IH (m + 1) (n - days_in_month l m) ltac:(lia) ltac:(lia)). rewrite Hs in IH by lia.
    replace (m + 1 + Z.of_nat f + 1) with (m + Z.of_nat (S f) + 1) in IH by lia. specialize (IH ltac:(lia)).
    destruct (month_of l f (m + 1) _) as [m' d]. lia.
Qed.

Definition date_ok (y m d : Z) : Prop := 1 <= m <= 12 /\ 1 <= d <= days_in_month (leap y) m.

Lemma ymd2ord_bounds y m d : date_ok y m d -> days_before_year y < ymd2ord y m d <= days_before_year (y + 1).
Proof.
  intros [Hm Hd]. unfold ymd2ord. rewrite leap_step.
  pose proof (month_end (leap y) m Hm). pose proof (days_before_month_nonneg (leap y) m). lia.
Qed.

(** The day number orders dates. *)
Lemma ymd2ord_lt y m d y' m' d' : date_ok y m d -> date_ok y' m' d' ->
  y < y' \/ y = y' /\ (m < m' \/ m = m' /\ d < d') -> ymd2ord y m d < ymd2ord y' m' d'.
Proof.
  intros H H' [Hy|[<- [Hm|[<- Hd]]]].
  - pose proof (ymd2ord_bounds _ _ _ H). pose proof (ymd2ord_bounds _ _ _ H').
    pose proof (days_before_year_mono (y + 1) y' ltac:(lia)). lia.
  - unfold ymd2ord. destruct H as [? ?], H' as [? ?].
    pose proof (days_before_month_lt (leap y) m m' ltac:(lia)). lia.
  - unfold ymd2ord. lia.
Qed.

(** The year, and the day within it, of a day number. *)
Lemma ord2ymd_ok n : 1 <= n ->
  let '(y, m, d) := ord2ymd n in date_ok y m d /\ 1 <= y /\ ymd2ord y m d = n.
Proof.
  intros Hn. unfold ord2ymd.
  set (a := (n - 1) / 146097). set (n1 := (n - 1) mod 146097).
  set (b := n1 / 36524). set (r := n1 mod 36524). set (c := r / 1461). set (r4 := r mod 1461).
  set (e := r4 / 365). set (r1 := r4 mod 365). set (y := a * 400 + b * 100 + c * 4 + e + 1).
  assert (n - 1 = a * 146097 + n1 /\ 0 <= n1 < 146097 /\ 0 <= a) as (E1 & B1 & Ba) by
    (unfold a, n1; Z.to_euclidean_division_equations; lia).
  assert (n1 = b * 36524 + r /\ 0 <= r < 36524 /\ 0 <= b <= 4) as (E2 & B2 & Bb) by
    (unfold b, r; Z.to_euclidean_division_equations; lia).
  assert (r = c * 1461 + r4 /\ 0 <= r4 < 1461 /\ 0 <= c <= 24) as (E3 & B3 & Bc) by
    (unfold c, r4; Z.to_euclidean_division_equations; lia).
  assert (r4 = e * 365 + r1 /\ 0 <= r1 < 365 /\ 0 <= e <= 4) as (E4 & B4 & Be) by
    (unfold e, r1; Z.to_euclidean_division_equations; lia).
  clearbody a n1 b r c r4 e r1.
  destruct ((e =? 4) || (b =? 4)) eqn:Hs.
  - assert (leap (y - 1) = true) as Hl.
    { unfold leap, y. apply orb_true_iff in Hs. rewrite !Z.eqb_eq in Hs.
      destruct (Z.eqb_spec ((a * 400 + b * 100 + c * 4 + e + 1 - 1) mod 4) 0),
        (Z.eqb_spec ((a * 400 + b * 100 + c * 4 + e + 1 - 1) mod 100) 0),
        (Z.eqb_spec ((a * 400 + b * 100 + c * 4 + e + 1 - 1) mod 400) 0); simpl; try done;
        exfalso; Z.to_euclidean_division_equations; lia. }
    unfold date_ok, ymd2ord. rewrite Hl. change (days_in_month true 12) with 31.
    change (days_before_month true 12) with 335.
    apply orb_true_iff in Hs. rewrite !Z.eqb_eq in Hs. unfold days_before_year, y.
    repeat split; try lia; Z.to_euclidean_division_equations; lia.
  - apply orb_false_iff in Hs as [He Hb]. apply Z.eqb_neq in He, Hb.
    assert (days_before_year y = a * 146097 + b * 36524 + c * 1461 + e * 365) as Hy.
    { unfold days_before_year, y. Z.to_euclidean_division_equations. lia. }
    pose proof (month_of_spec (leap y) 11 1 r1 ltac:(lia) ltac:(lia)) as Hm.
    assert (days_before_month (leap y) (1 + Z.of_nat 11 + 1) = if leap y then 366 else 365) as Hc by (by destruct (leap y)).
    rewrite Hc in Hm. change (days_before_month (leap y) 1) with 0 in Hm.
    specialize (Hm ltac:(destruct (leap y); lia)). destruct (month_of _ _ _ _) as [m d].
    unfold date_ok, ymd2ord. lia.
Qed.

Lemma in_range_spec t : in_range t = true <-> instant_min <= t <= instant_max.
Proof. unfold in_range. rewrite andb_true_iff, !Z.leb_le. done. Qed.

Lemma ord_range t : in_range t = true -> 1 <= t / day_us + epoch_ord <= 3652059.
Proof. rewrite in_range_spec. unfold instant_min, instant_max, day_us, epoch_ord. intros. Z.to_euclidean_division_equations. lia. Qed.

Lemma ord2ymd_year n : 1 <= n <= 3652059 -> let '(y, m, d) := ord2ymd n in 1 <= y <= 9999.
Proof.
  intros H. pose proof (ord2ymd_ok n ltac:(lia)) as Ho. destruct (ord2ymd n) as [[y m] d].
  destruct Ho as (Hd & Hy & E). split; [done|]. pose proof (ymd2ord_bounds _ _ _ Hd).
  destruct (Z.leb_spec y 9999); [done|]. pose proof (days_before_year_mono 10000 y ltac:(lia)) as Hm.
  change (days_before_year 10000) with 3652059 in Hm. lia.
Qed.

(** ** Order of the texts *)

(** Lexicographic composition of comparisons. *)
Definition cmp_then (a b : comparison) : comparison := match a with Eq => b | Lt => Lt | Gt => Gt end.

Lemma cmp_then_assoc a b c : cmp_then (cmp_then a b) c = cmp_then a (cmp_then b c).
Proof. by destruct a. Qed.

Lemma cmp_divmod k a b : 0 < k -> (a ?= b) = cmp_then (a / k ?= b / k) (a mod k ?= b mod k).
Proof.
  intros Hk. pose proof (Z.div_mod a k ltac:(lia)). pose proof (Z.div_mod b k ltac:(lia)).
  pose proof (Z.mod_pos_bound a k Hk). pose proof (Z.mod_pos_bound b k Hk).
  destruct (Z.compare_spec (a / k) (b / k)) as [E|E|E]; simpl.
  - destruct (Z.compare_spec (a mod k) (b mod k)) as [E'|E'|E']; [apply Z.compare_eq_iff|apply Z.compare_lt_iff|apply Z.compare_gt_iff]; nia.
  - apply Z.compare_lt_iff. nia.
  - apply Z.compare_gt_iff. nia.
Qed.

Lemma digit_char_compare a b : (a < 10)%N -> (b < 10)%N -> Ascii.compare (digit_char a) (digit_char b) = N.compare a b.
Proof.
  intros Ha Hb. rewrite ascii_compare_N. unfold digit_char. rewrite !N_ascii_embedding by lia.
  destruct (N.compare_spec a b); [apply N.compare_eq_iff|apply N.compare_lt_iff|apply N.compare_gt_iff]; lia.
Qed.

Lemma fixed_mod k n : fixed k (n mod 10 ^ Z.of_nat k) = fixed k n.
Proof.
  assert (forall j m, (j <= k)%nat -> m mod 10 ^ Z.of_nat k = n mod 10 ^ Z.of_nat k -> fixed j m = fixed j n) as H.
  { induction j as [|j IH]; intros m Hj E; [done|]. cbn [fixed]. rewrite (IH m) by (done || lia). do 3 f_equal.
    replace (Z.of_nat k) with (Z.of_nat j + (1 + Z.of_nat (k - S j))) in E by lia.
    rewrite Z.pow_add_r, Z.pow_add_r in E by lia.
    set (p := 10 ^ Z.of_nat j) in *. set (q := 10 ^ Z.of_nat (k - S j)) in *. change (10 ^ 1) with 10 in E.
    assert (0 < p /\ 0 < q) as [Hp Hq] by (split; apply Z.pow_pos_nonneg; lia).
    rewrite !(Z.rem_mul_r _ p (10 * q)) in E by lia.
    assert (m / p mod (10 * q) = n / p mod (10 * q)) as E2.
    { pose proof (Z.mod_pos_bound m p Hp). pose proof (Z.mod_pos_bound n p Hp).
      set (x := m / p mod (10 * q)) in *. set (y := n / p mod (10 * q)) in *. nia. }
    rewrite !(Z.rem_mul_r _ 10 q) in E2 by lia.
    pose proof (Z.mod_pos_bound (m / p) 10 ltac:(lia)). pose proof (Z.mod_pos_bound (n / p) 10 ltac:(lia)). lia. }
  apply H; [done|]. by rewrite Z.mod_mod by (apply Z.pow_nonzero; lia).
Qed.

Lemma fixed_compare k a b x y : 0 <= a < 10 ^ Z.of_nat k -> 0 <= b < 10 ^ Z.of_nat k ->
  String.compare (fixed k a +:+ x) (fixed k b +:+ y) = cmp_then (a ?= b) (String.compare x y).
Proof.
  revert a b; induction k as [|k IH]; intros a b Ha Hb.
  { simpl in *. replace a with 0 by lia. by replace b with 0 by lia. }
  assert (0 < 10 ^ Z.of_nat k) as Hp by (apply Z.pow_pos_nonneg; lia).
  rewrite Nat2Z.inj_succ, Z.pow_succ_r in Ha, Hb by lia. set (p := 10 ^ Z.of_nat k) in *.
  assert (forall z, 0 <= z < 10 * p -> 0 <= z / p < 10) as Hd by (intros; Z.to_euclidean_division_equations; nia).
  pose proof (Hd a Ha). pose proof (Hd b Hb).
  rewrite (cmp_divmod p a b) by done. rewrite cmp_then_assoc.
  rewrite <- (IH (a mod p) (b mod p)) by (apply Z.mod_pos_bound; done).
  unfold p. rewrite !fixed_mod. fold p. cbn [fixed]. fold p. rewrite !(Z.mod_small _ 10) by done.
  change (String.compare (String ?c ?s +:+ x) (String ?d ?t +:+ y)) with
    (cmp_then (Ascii.compare c d) (String.compare (s +:+ x) (t +:+ y))).
  rewrite digit_char_compare by lia. f_equal. by rewrite <- Z2N.inj_compare by lia.
Qed.

Lemma same_prefix_compare p x y : String.compare (p +:+ x) (p +:+ y) = String.compare x y.
Proof.
  induction p as [|c p IH]; [done|]. change (String.compare (String c ?s +:+ x) (String c ?t +:+ y)) with
    (cmp_then (Ascii.compare c c) (String.compare (s +:+ x) (t +:+ y))).
  rewrite ascii_compare_N, N.compare_refl. apply IH.
Qed.

Lemma string_app_assoc (a b c : string) : (a +:+ b) +:+ c = a +:+ (b +:+ c).
Proof. induction a as [|ch a IH]; [done|]. exact (f_equal (String ch) IH). Qed.

(** Dates compare as their day numbers. *)
Lemma ord_compare n n' : 1 <= n -> 1 <= n' ->
  let '(y, m, d) := ord2ymd n in let '(y', m', d') := ord2ymd n' in
  (n ?= n') = cmp_then (y ?= y') (cmp_then (m ?= m') (d ?= d')).
Proof.
  intros H H'. pose proof (ord2ymd_ok n H) as Ho. pose proof (ord2ymd_ok n' H') as Ho'.
  destruct (ord2ymd n) as [[y m] d], (ord2ymd n') as [[y' m'] d'].
  destruct Ho as (Hd & _ & <-), Ho' as (Hd' & _ & <-).
  destruct (Z.compare_spec y y') as [->|Hy|Hy]; simpl.
  - destruct (Z.compare_spec m m') as [->|Hm|Hm]; simpl.
    + destruct (Z.compare_spec d d') as [->|Hc|Hc]; [apply Z.compare_refl|apply Z.compare_lt_iff|apply Z.compare_gt_iff];
        apply ymd2ord_lt; auto.
    + apply Z.compare_lt_iff, ymd2ord_lt; auto.
    + apply Z.compare_gt_iff, ymd2ord_lt; auto.
  - apply Z.compare_lt_iff, ymd2ord_lt; auto.
  - apply Z.compare_gt_iff, ymd2ord_lt; auto.
Qed.

Lemma micros_compare u v : 0 <= u < 1000000 -> 0 <= v < 1000000 ->
  String.compare ((if u =? 0 then "" else "." +:+ fixed 6 u) +:+ "+00:00")
                 ((if v =? 0 then "" else "." +:+ fixed 6 v) +:+ "+00:00") = (u ?= v).
Proof.
  intros Hu Hv. destruct (Z.eqb_spec u 0) as [->|Hu0], (Z.eqb_spec v 0) as [->|Hv0]; [done|..].
  - symmetry. rewrite (proj2 (Z.compare_lt_iff 0 v)) by lia. reflexivity.
  - symmetry. rewrite (proj2 (Z.compare_gt_iff u 0)) by lia. reflexivity.
  - rewrite !string_app_assoc, same_prefix_compare. by rewrite fixed_compare; [destruct (u ?= v)|..].
Qed.

(** The text of an instant orders as the instant itself. *)
Lemma isoformat_compare a b : in_range a = true -> in_range b = true ->
  String.compare (isoformat a) (isoformat b) = (a ?= b).
Proof.
  intros Ha Hb. pose proof (ord_range a Ha) as Ra. pose proof (ord_range b Hb) as Rb.
  unfold isoformat, iso_date.
  rewrite (cmp_divmod day_us a b) by done. set (u := a mod day_us). set (v := b mod day_us).
  assert (0 <= u < day_us /\ 0 <= v < day_us) as [Hu Hv] by (split; apply Z.mod_pos_bound; done).
  replace (a / day_us ?= b / day_us) with (a / day_us + epoch_ord ?= b / day_us + epoch_ord)
    by (destruct (Z.compare_spec (a / day_us) (b / day_us)); [apply Z.compare_eq_iff|apply Z.compare_lt_iff|apply Z.compare_gt_iff]; lia).
  set (n := a / day_us + epoch_ord) in *. set (n' := b / day_us + epoch_ord) in *.
  pose proof (ord_compare n n' ltac:(lia) ltac:(lia)) as Ho.
  pose proof (ord2ymd_year n Ra). pose proof (ord2ymd_year n' Rb).
  pose proof (ord2ymd_ok n ltac:(lia)) as Hn. pose proof (ord2ymd_ok n' ltac:(lia)) as Hn'.
  destruct (ord2ymd n) as [[y m] d], (ord2ymd n') as [[y' m'] d']. rewrite Ho.
  destruct Hn as ([Hm Hd] & _), Hn' as ([Hm' Hd'] & _).
  pose proof (days_in_month_bounds (leap y) m). pose proof (days_in_month_bounds (leap y') m').
  rewrite (cmp_divmod 1000000 u v), (cmp_divmod 60 (u / 1000000)), (cmp_divmod 60 (u / 1000000 / 60)) by done.
  set (s := u / 1000000). set (t := v / 1000000).
  assert (0 <= s < 86400 /\ 0 <= t < 86400) as [Hs Ht] by
    (unfold s, t, day_us in *; Z.to_euclidean_division_equations; lia).
  rewrite !(Z.div_div _ 60 60) by lia. change (60 * 60) with 3600.
  rewrite !string_app_assoc. rewrite fixed_compare by (simpl; lia). rewrite !cmp_then_assoc. f_equal.
  rewrite same_prefix_compare, fixed_compare by (simpl; lia). f_equal.
  rewrite same_prefix_compare, fixed_compare by (simpl; lia). f_equal.
  rewrite same_prefix_compare, fixed_compare by (simpl; Z.to_euclidean_division_equations; lia). f_equal.
  rewrite same_prefix_compare, fixed_compare by (simpl; Z.to_euclidean_division_equations; lia). f_equal.
  rewrite same_prefix_compare, fixed_compare by (simpl; Z.to_euclidean_division_equations; lia). f_equal.
  apply micros_compare; apply Z.mod_pos_bound; done.
Qed.

Lemma isoformat_leb a b : in_range a = true -> in_range b = true -> String.leb (isoformat a) (isoformat b) = (a <=? b).
Proof. intros Ha Hb. unfold String.leb. rewrite isoformat_compare by done. unfold Z.leb. by destruct (a ?= b). Qed.

Lemma isoformat_inj a b : in_range a = true -> in_range b = true -> isoformat a = isoformat b -> a = b.
Proof.
  intros Ha Hb E. apply Z.le_antisymm; apply Z.leb_le;
    (rewrite <- isoformat_leb by done); rewrite E; apply string_leb_refl.
Qed.

(** ** Reading a text back *)

Definition chars : string -> list ascii := String.list_ascii_of_string.

Lemma chars_app a b : chars (a +:+ b) = chars a ++ chars b.
Proof. induction a as [|c a IH]; [done|]. exact (f_equal (cons c) IH). Qed.

Lemma chars_length s : length (chars s) = String.length s.
Proof. induction s as [|c s IH]; simpl; [done|]. by f_equal. Qed.

Lemma fixed_length k n : length (chars (fixed k n)) = k.
Proof. induction k as [|k IH]; simpl; [done|]. by f_equal. Qed.

Lemma to_digit n : (Z.to_N (n mod 10) < 10)%N.
Proof. pose proof (Z.mod_pos_bound n 10 ltac:(lia)). lia. Qed.

Lemma fixed_digits k n : Forall (fun c => exists d, (d < 10)%N /\ c = digit_char d) (chars (fixed k n)).
Proof. induction k as [|k IH]; simpl; constructor; [|done]. eexists. split; [apply to_digit|done]. Qed.

Lemma parse_fixed k n acc r : 0 <= n < 10 ^ Z.of_nat k ->
  parse_digits k acc (chars (fixed k n) ++ r) = Some (acc * 10 ^ Z.of_nat k + n, r).
Proof.
  revert acc n; induction k as [|k IH]; intros acc n H; cbn [parse_digits fixed chars String.list_ascii_of_string app].
  { simpl in *. do 2 f_equal. lia. }
  rewrite digit_of_char by apply to_digit. fold (chars (fixed k n)).
  rewrite Nat2Z.inj_succ, Z.pow_succ_r in * by lia. set (p := 10 ^ Z.of_nat k) in *.
  assert (0 < p) as Hp by (apply Z.pow_pos_nonneg; lia).
  rewrite <- (fixed_mod k n). rewrite IH by (apply Z.mod_pos_bound; done). fold p. do 2 f_equal.
  pose proof (Z.div_mod n p ltac:(lia)). assert (0 <= n / p < 10) by (Z.to_euclidean_division_equations; nia).
  rewrite Z2N.id, (Z.mod_small _ 10) by (apply Z.mod_pos_bound || done; lia). lia.
Qed.

Lemma digit_not d c : (d < 10)%N -> digit_of c = None -> Ascii.eqb (digit_char d) c = false.
Proof.
  intros Hd Hc. destruct (Ascii.eqb_spec (digit_char d) c) as [<-|]; [|done]. by rewrite digit_of_char in Hc.
Qed.

(** The first character of a block of digits is none of the marks. *)
Lemma fixed_head k n r c : digit_of c = None -> is_char c (char_at (chars (fixed (S k) n) ++ r) 0) = false.
Proof. intros H. apply digit_not; [apply to_digit|done]. Qed.

Lemma skip_fixed k n r j : char_at (chars (fixed k n) ++ r) (k + j) = char_at r j.
Proof. unfold char_at. rewrite nth_error_app2 by (rewrite fixed_length; lia). rewrite fixed_length. f_equal. lia. Qed.

Lemma split_tz_digits l r : Forall (fun c => tz_mark c = false) l ->
  split_tz (l ++ r) = (l ++ fst (split_tz r), snd (split_tz r)).
Proof.
  induction 1 as [|c l Hc _ IH]; simpl; [by destruct (split_tz r)|]. by rewrite Hc, IH.
Qed.

Lemma fixed_no_tz k n : Forall (fun c => tz_mark c = false) (chars (fixed k n)).
Proof.
  eapply Forall_impl; [apply fixed_digits|]. intros c (d & Hd & ->). unfold tz_mark. by rewrite !digit_not.
Qed.

Lemma parse_iso_date y m d : valid_date y m d = true -> parse_date (chars (iso_date y m d)) = Some (ymd2ord y m d).
Proof.
  intros Hv. pose proof Hv as Hb. unfold valid_date in Hb. bool_props.
  pose proof (days_in_month_bounds (leap y) m).
  unfold iso_date, parse_date. rewrite !chars_app. rewrite parse_fixed by (simpl; lia). cbn [opt_bind fst snd].
  change (is_char "-"%char (char_at (chars "-" ++ ?r) 0)) with true. cbv iota. cbn [chars String.list_ascii_of_string app tail].
  rewrite (fixed_head 1) by done. rewrite parse_fixed by (simpl; lia). cbn [opt_bind fst snd].
  change (strip_dash true (["-"%char] ++ ?r)) with (Some r). cbn [opt_bind fst snd app].
  unfold strip_dash. change (is_char "-"%char (char_at ("-"%char :: ?r) 0)) with true. cbn [Bool.eqb opt_bind tail].
  rewrite <- (app_nil_r (chars (fixed 2 d))), parse_fixed by (simpl; lia). cbn [opt_bind fst snd].
  by rewrite !Z.add_0_l, Hv.
Qed.

Lemma is_digit_fixed k n : forallb is_digit (chars (fixed k n)) = true.
Proof.
  induction k as [|k IH]; [done|]. simpl. rewrite IH, andb_true_r. unfold is_digit.
  rewrite digit_of_char by apply to_digit. done.
Qed.

(** The micros of a clock text. *)
Definition micros (u : Z) : string := if u =? 0 then "" else "." +:+ fixed 6 u.

Lemma parse_iso_clock h m s u : 0 <= h < 100 -> 0 <= m < 100 -> 0 <= s < 100 -> 0 <= u < 1000000 ->
  parse_clock (chars (fixed 2 h +:+ ":" +:+ fixed 2 m +:+ ":" +:+ fixed 2 s +:+ micros u)) = Some (h, m, s, u).
Proof.
  intros Hh Hm Hs Hu. unfold parse_clock. rewrite !chars_app.
  rewrite parse_fixed by (simpl; lia). cbn [opt_bind fst snd chars String.list_ascii_of_string app].
  change (Ascii.eqb ":"%char ":"%char) with true. cbv iota.
  rewrite parse_fixed by (simpl; lia). cbn [opt_bind fst snd app andb negb].
  rewrite parse_fixed by (simpl; lia). cbn [opt_bind fst snd].
  unfold micros. destruct (Z.eqb_spec u 0) as [->|H0]; [cbn; do 4 f_equal; lia|].
  rewrite chars_app. cbn [chars String.list_ascii_of_string app].
  change (Ascii.eqb "."%char "."%char) with true. cbn [orb].
  unfold parse_fraction. fold chars. rewrite fixed_length. cbn [Nat.min].
  rewrite <- (app_nil_r (chars (fixed 6 u))), parse_fixed by (simpl; lia). cbn [forallb opt_bind].
  by rewrite !Z.mul_0_l, !Z.add_0_l, Z.mul_1_r.
Qed.

Lemma iso_clock_no_tz h m s u :
  Forall (fun c => tz_mark c = false)
    (chars (fixed 2 h +:+ ":" +:+ fixed 2 m +:+ ":" +:+ fixed 2 s +:+ micros u)).
Proof.
  unfold micros. rewrite !chars_app.
  repeat (apply Forall_app; split); try apply fixed_no_tz; try (repeat constructor; done).
  destruct (u =? 0); [constructor|]. rewrite chars_app. apply Forall_app. split; [by repeat constructor|apply fixed_no_tz].
Qed.

Lemma parse_utc_time h m s u : 0 <= h < 24 -> 0 <= m < 60 -> 0 <= s < 60 -> 0 <= u < 1000000 ->
  parse_time (chars ((fixed 2 h +:+ ":" +:+ fixed 2 m +:+ ":" +:+ fixed 2 s +:+ micros u) +:+ "+00:00"))
  = Some (((h * 60 + m) * 60 + s) * 1000000 + u, Some 0).
Proof.
  intros Hh Hm Hs Hu. unfold parse_time. rewrite chars_app.
  rewrite split_tz_digits by apply iso_clock_no_tz. change (split_tz (chars "+00:00")) with ([] : list ascii, chars "+00:00").
  cbn [fst snd]. rewrite app_nil_r, parse_iso_clock by lia. cbn [opt_bind].
  change (parse_offset (chars "+00:00")) with (Some (Some 0)). cbn [opt_bind].
  rewrite !(proj2 (Z.ltb_lt _ _)) by lia. done.
Qed.

(** [fromisoformat] is a left inverse of [isoformat]. *)
Lemma fromisoformat_isoformat t : in_range t = true -> fromisoformat (isoformat t) = Ok (t, Some 0).
Proof.
  intros Ht. pose proof (ord_range t Ht) as Hr. unfold isoformat.
  set (n := t / day_us + epoch_ord) in *. set (u := t mod day_us).
  pose proof (ord2ymd_ok n ltac:(lia)) as Ho. pose proof (ord2ymd_year n Hr) as Hy.
  destruct (ord2ymd n) as [[y m] d]. destruct Ho as ((Hm & Hd) & _ & Hn).
  assert (0 <= u < day_us) as Hu by (by apply Z.mod_pos_bound).
  set (s := u / 1000000). assert (0 <= s < 86400) as Hs by (unfold s, day_us in *; Z.to_euclidean_division_equations; lia).
  change (if u mod 1000000 =? 0 then "" else "." +:+ fixed 6 (u mod 1000000)) with (micros (u mod 1000000)).
  set (rest := (fixed 2 (s / 3600) +:+ ":" +:+ fixed 2 (s / 60 mod 60) +:+ ":" +:+ fixed 2 (s mod 60)
                +:+ micros (u mod 1000000)) +:+ "+00:00").
  assert (fixed 2 (s / 3600) +:+ ":" +:+ fixed 2 (s / 60 mod 60) +:+ ":" +:+ fixed 2 (s mod 60)
          +:+ micros (u mod 1000000) +:+ "+00:00" = rest) as -> by (unfold rest; by rewrite !string_app_assoc).
  unfold fromisoformat. fold chars. rewrite !chars_app.
  set (dt := chars (iso_date y m d)). assert (length dt = 10%nat) as Hl.
  { unfold dt, iso_date. by rewrite !chars_app, !length_app, !fixed_length. }
  rewrite length_app, Hl. cbn [Nat.add Nat.ltb Nat.leb].
  assert (date_end (dt ++ chars "T" ++ chars rest) = 10%nat) as ->.
  { unfold date_end. rewrite length_app, Hl. cbn [Nat.add Nat.eqb].
    unfold dt, iso_date. rewrite !chars_app, <- !app_assoc.
    rewrite (skip_fixed 4 y _ 0), (skip_fixed 4 y _ 1). cbn [chars String.list_ascii_of_string app].
    change (is_char "-"%char (char_at ("-"%char :: ?r) 0)) with true. cbv iota.
    change (char_at ("-"%char :: ?r) 1) with (char_at r 0). by rewrite (fixed_head 1). }
  rewrite <- Hl at 1. rewrite take_app_length. unfold dt at 1.
  rewrite parse_iso_date by (unfold valid_date; rewrite !(proj2 (Z.leb_le _ _)) by lia; done).
  replace 11%nat with (length dt + 1)%nat by lia.
  cbn [chars String.list_ascii_of_string app]. rewrite skipn_app, skipn_all2, Nat.add_comm by lia.
  cbn [Nat.add app]. replace (S (length dt) - length dt)%nat with 1%nat by lia. cbn [skipn].
  assert ((n - epoch_ord) * day_us + (((s / 3600 * 60 + s / 60 mod 60) * 60 + s mod 60) * 1000000 + u mod 1000000) = t) as E.
  { unfold n, s, u. pose proof (Z.div_mod t day_us ltac:(done)) as D1. fold u in D1 |- *.
    pose proof (Z.div_mod u 1000000 ltac:(done)) as D2. fold s in D2 |- *.
    change 3600 with (60 * 60). rewrite <- (Z.div_div s 60 60) by lia. pose proof (Z.div_mod s 60 ltac:(done)).
    pose proof (Z.div_mod (s / 60) 60 ltac:(done)). lia. }
  assert (parse_time (chars rest) = Some (((s / 3600 * 60 + s / 60 mod 60) * 60 + s mod 60) * 1000000 + u mod 1000000, Some 0))
    as Hp by (unfold rest; apply parse_utc_time; Z.to_euclidean_division_equations; lia).
  rewrite Hn. destruct (chars rest); [done|]. rewrite drop_0, Hp. by rewrite E.
Qed.

Lemma to_utc_range x t : to_utc x = Ok t -> in_range t = true.
Proof.
  unfold to_utc, plus_delta. intros H. unfold in_range, instant_min, instant_max.
  destruct (_ && _) eqn:E in H; [|done]. by injection H as <-.
Qed.

Lemma to_utc_utc t : in_range t = true -> to_utc (t, Some 0) = Ok t.
Proof.
  intros H. unfold to_utc, plus_delta. cbn [fst snd Z.opp]. rewrite Z.add_0_r.
  change ((-62135596800000000 <=? t) && (t <=? 253402300799999999)) with (in_range t). by rewrite H.
Qed.

(** A UTC text holds no [Z]. *)
Lemma replace_z_isoformat t : replace_z (isoformat t) = isoformat t.
Proof.
  assert (forall s, Forall (fun c => Ascii.eqb c "Z"%char = false) (chars s) -> replace_z s = s) as H.
  { induction s as [|c s IH]; [done|]. intros [Hc Hs]%Forall_cons. unfold replace_z. simpl. rewrite Hc.
    simpl. f_equal. by apply IH. }
  apply H. assert (forall k n, Forall (fun c => Ascii.eqb c "Z"%char = false) (chars (fixed k n))) as Hf.
  { intros k n. eapply Forall_impl; [apply fixed_digits|]. intros c (d & Hd & ->). by apply digit_not. }
  unfold isoformat, iso_date. destruct (ord2ymd _) as [[y m] d]. rewrite !chars_app.
  repeat (apply Forall_app; split); try apply Hf; try (repeat constructor; done).
  destruct (_ =? 0); [constructor|]. rewrite chars_app. apply Forall_app. split; [by repeat constructor|apply Hf].
Qed.
