(* ===== verification/LegStateMachine.v ===== *)
(** * The two-leg hedge execution cycle

    Model of [src/bongus/engine/leg_state_machine.py]: the serializable oracle
    of one hedge cycle (a spot leg and a perpetual leg), its exchange updates,
    residual repair, risk integral and snapshots.  Quantities are [Decimal]s;
    an update is applied by [apply], which keeps the state it leaves behind
    when it raises. *)
From Stdlib Require Import ZArith Lia Ascii.
From stdpp Require Import base list strings gmap.
From S2P Require Import Prelude PyDecimal PyDecimalFacts PyValue.
Open Scope Z_scope.

(** ** Data *)

Inductive Leg := SPOT | PERP.

Inductive LegStatus :=
  | CREATED | WORKING | PARTIAL | CANCEL_PENDING | FILLED | CANCELLED | EXPIRED | REJECTED | UNKNOWN.

#[export] Instance Leg_eq_dec : EqDecision Leg.
Proof. solve_decision. Defined.
#[export] Instance LegStatus_eq_dec : EqDecision LegStatus.
Proof. solve_decision. Defined.

Definition Leg_value (l : Leg) : string := match l with SPOT => "spot" | PERP => "perp" end.

Definition LegStatus_value (s : LegStatus) : string :=
  match s with
  | CREATED => "created" | WORKING => "working" | PARTIAL => "partial"
  | CANCEL_PENDING => "cancel_pending" | FILLED => "filled" | CANCELLED => "cancelled"
  | EXPIRED => "expired" | REJECTED => "rejected" | UNKNOWN => "unknown"
  end.

Definition all_legs : list Leg := [SPOT; PERP].
Definition all_statuses : list LegStatus :=
  [CREATED; WORKING; PARTIAL; CANCEL_PENDING; FILLED; CANCELLED; EXPIRED; REJECTED; UNKNOWN].

(** [LegStatus.terminal] *)
Definition terminal (s : LegStatus) : bool :=
  match s with FILLED | CANCELLED | EXPIRED | REJECTED => true | _ => false end.

Definition _STATUS_ALIASES : dict LegStatus :=
  [("CREATED", CREATED); ("PENDING_NEW", WORKING); ("NEW", WORKING); ("OPEN", WORKING);
   ("WORKING", WORKING); ("PARTIAL", PARTIAL); ("PARTIALLY_FILLED", PARTIAL);
   ("PENDING_CANCEL", CANCEL_PENDING); ("CANCEL_PENDING", CANCEL_PENDING); ("FILLED", FILLED);
   ("CANCELED", CANCELLED); ("CANCELLED", CANCELLED); ("EXPIRED", EXPIRED);
   ("EXPIRED_IN_MATCH", EXPIRED); ("REJECTED", REJECTED)].

Definition invariant_error {A} (msg : string) : result A := raise ExecutionInvariantError msg.

Definition _decimal (value : pyval) (name : string) : result dec :=
  finite_decimal ExecutionInvariantError true value name.

(** A status is given as a [LegStatus] or as a string. *)
Definition _status (value : LegStatus + string) : LegStatus :=
  match value with
  | inl s => s
  | inr s => match dict_get _STATUS_ALIASES (upper (strip s)) with Some x => x | None => UNKNOWN end
  end.

Definition _sign (value : dec) : dec := if dge value d0 then d1 else dm1.

Record LegUpdate := {
  u_event_id : string;
  u_leg : Leg;
  u_status : LegStatus + string;
  u_cumulative_quantity : pyval;
  u_event_time_ms : Z;
  u_order_id : string;
  u_client_order_id : string;
  u_sequence : option Z;
  u_exchange_verified : bool;
  u_source : string
}.

Definition opt_int (o : option Z) : pyval := match o with Some z => VInt z | None => VNone end.

Definition fingerprint (u : LegUpdate) : result string :=
  let! q := _decimal (u_cumulative_quantity u) "cumulative_quantity" in
  json_sha256 false (VDict [
    ("client_order_id", VStr (u_client_order_id u));
    ("cumulative_quantity", VStr (dec_str q));
    ("event_time_ms", VInt (u_event_time_ms u));
    ("exchange_verified", VBool (u_exchange_verified u));
    ("leg", VStr (Leg_value (u_leg u)));
    ("order_id", VStr (u_order_id u));
    ("sequence", opt_int (u_sequence u));
    ("source", VStr (u_source u));
    ("status", VStr (LegStatus_value (_status (u_status u))))]).

Record Transition := {
  t_applied : bool;
  t_duplicate : bool;
  t_stale : bool;
  t_fill_delta : dec;
  t_previous_status : LegStatus;
  t_current_status : LegStatus;
  t_mismatch_quantity : dec;
  t_breaches : list string
}.

Record RepairIntent := {
  r_leg : Leg;
  r_side : string;
  r_quantity : dec;
  r_reduce_only : bool;
  r_reason : string
}.

Record LegExecutionState := mkLeg {
  leg : Leg;
  target_signed_quantity : dec;
  cumulative_quantity : dec;
  status : LegStatus;
  order_id : string;
  client_order_id : string;
  last_sequence : option Z;
  last_event_time_ms : Z;
  exchange_verified : bool;
  leg_breaches : list string
}.

(** [LegExecutionState(leg, target)] *)
Definition new_leg (l : Leg) (target : dec) : LegExecutionState :=
  mkLeg l target d0 CREATED "" "" None 0 false [].

Definition target_quantity (s : LegExecutionState) : result dec := dabs (target_signed_quantity s).

Definition signed_filled_quantity (s : LegExecutionState) : result dec :=
  dmul (_sign (target_signed_quantity s)) (cumulative_quantity s).

Definition remaining_quantity (s : LegExecutionState) : result dec :=
  let! t := target_quantity s in
  let! r := dsub t (cumulative_quantity s) in Ok (dmax d0 r).

Definition leg_verified_terminal (s : LegExecutionState) : bool :=
  exchange_verified s && terminal (status s).

Record HedgeCycleState := mkCycle {
  cycle_id : string;
  spot : LegExecutionState;
  perp : LegExecutionState;
  initial_spot_quantity : dec;
  initial_perp_quantity : dec;
  perp_delta_multiplier : dec;
  quantity_tolerance : dec;
  seen_events : gmap string string;
  breaches : list string;
  risk_notional_ms : dec;
  risk_observed_at_ms : option Z;
  risk_notional : dec
}.

(** ** Derived quantities *)

Definition target_end_delta (c : HedgeCycleState) : result dec :=
  let! a := dadd (initial_spot_quantity c) (target_signed_quantity (spot c)) in
  let! b := dadd (initial_perp_quantity c) (target_signed_quantity (perp c)) in
  let! p := dmul b (perp_delta_multiplier c) in
  dadd a p.

Definition current_spot_quantity (c : HedgeCycleState) : result dec :=
  let! f := signed_filled_quantity (spot c) in dadd (initial_spot_quantity c) f.

Definition current_perp_quantity (c : HedgeCycleState) : result dec :=
  let! f := signed_filled_quantity (perp c) in dadd (initial_perp_quantity c) f.

Definition mismatch_quantity (c : HedgeCycleState) : result dec :=
  let! s := current_spot_quantity c in
  let! p := current_perp_quantity c in
  let! m := dmul p (perp_delta_multiplier c) in
  dadd s m.

Definition hedged (c : HedgeCycleState) : result bool :=
  let! m := mismatch_quantity c in
  let! a := dabs m in Ok (dle a (quantity_tolerance c)).

Definition verified_terminal (c : HedgeCycleState) : result bool :=
  if leg_verified_terminal (spot c) && leg_verified_terminal (perp c) then hedged c else Ok false.

Definition no_breaches (l : list string) : bool := match l with [] => true | _ => false end.

Definition safe_to_project_complete (c : HedgeCycleState) : result bool :=
  let! v := verified_terminal c in
  Ok (v && no_breaches (breaches c) && no_breaches (leg_breaches (spot c))
        && no_breaches (leg_breaches (perp c))).

(** ** Construction *)

(** [HedgeCycleState(...)]: the dataclass fields followed by [__post_init__]. *)
Definition new_cycle (id : string) (sp pp : LegExecutionState)
    (isq ipq mult tol : pyval) (seen : gmap string string) (brs : list string) (risk : dec)
    : result HedgeCycleState :=
  let! isq := _decimal isq "initial_spot_quantity" in
  let! ipq := _decimal ipq "initial_perp_quantity" in
  let! mult := _decimal mult "perp_delta_multiplier" in
  let! tol := _decimal tol "quantity_tolerance" in
  let c := mkCycle id sp pp isq ipq mult tol seen brs risk None d0 in
  if negb (nonempty (strip id)) then invariant_error "cycle_id is required"
  else if dle mult d0 then invariant_error "perp_delta_multiplier must be positive"
  else if dlt tol d0 then invariant_error "quantity_tolerance must be non-negative"
  else if negb (bool_decide (leg sp = SPOT)) || negb (bool_decide (leg pp = PERP))
  then invariant_error "cycle must contain one spot and one perp leg"
  else
    let! delta := target_end_delta c in
    let! a := dabs delta in
    if dgt a tol then invariant_error "target transactions do not finish delta neutral"
    else Ok c.

Definition entry (id : string) (quantity : pyval) (direction : string) (multiplier tolerance : pyval)
    : result HedgeCycleState :=
  let! qty := _decimal quantity "quantity" in
  let! mult := _decimal multiplier "perp_delta_multiplier" in
  if dle qty d0 || dle mult d0 then invariant_error "quantity and multiplier must be positive"
  else
    let normalized := lower (strip direction) in
    let! spot_target :=
      if String.eqb normalized "long_spot_short_perp" then Ok qty
      else if String.eqb normalized "short_spot_long_perp" then dopp qty
      else invariant_error "unsupported hedge direction" in
    let! q := ddiv spot_target mult in
    let! perp_target := dopp q in
    let! tol := _decimal tolerance "quantity_tolerance" in
    new_cycle id (new_leg SPOT spot_target) (new_leg PERP perp_target)
      (VDec d0) (VDec d0) (VDec mult) (VDec tol) ∅ [] d0.

Definition exit (id : string) (spot_quantity perp_quantity multiplier tolerance : pyval)
    : result HedgeCycleState :=
  let! sp := _decimal spot_quantity "spot_quantity" in
  let! pp := _decimal perp_quantity "perp_quantity" in
  let! mult := _decimal multiplier "perp_delta_multiplier" in
  let! tol := _decimal tolerance "quantity_tolerance" in
  let! pm := dmul pp mult in
  let! sum := dadd sp pm in
  let! a := dabs sum in
  if dgt a tol then invariant_error "starting position is not delta neutral"
  else
    let! ns := dopp sp in
    let! np := dopp pp in
    new_cycle id (new_leg SPOT ns) (new_leg PERP np)
      (VDec sp) (VDec pp) (VDec mult) (VDec tol) ∅ [] d0.

(** ** Applying an exchange update *)

Definition _leg (c : HedgeCycleState) (l : Leg) : LegExecutionState :=
  match l with SPOT => spot c | PERP => perp c end.

Definition set_leg (c : HedgeCycleState) (l : Leg) (s : LegExecutionState) : HedgeCycleState :=
  mkCycle (cycle_id c) (match l with SPOT => s | PERP => spot c end)
    (match l with SPOT => perp c | PERP => s end)
    (initial_spot_quantity c) (initial_perp_quantity c) (perp_delta_multiplier c)
    (quantity_tolerance c) (seen_events c) (breaches c) (risk_notional_ms c)
    (risk_observed_at_ms c) (risk_notional c).

Definition set_breaches (c : HedgeCycleState) (b : list string) : HedgeCycleState :=
  mkCycle (cycle_id c) (spot c) (perp c) (initial_spot_quantity c) (initial_perp_quantity c)
    (perp_delta_multiplier c) (quantity_tolerance c) (seen_events c) b (risk_notional_ms c)
    (risk_observed_at_ms c) (risk_notional c).

(** [self.seen_events[event_id] = fingerprint] *)
Definition record_event (c : HedgeCycleState) (id fp : string) : HedgeCycleState :=
  mkCycle (cycle_id c) (spot c) (perp c) (initial_spot_quantity c) (initial_perp_quantity c)
    (perp_delta_multiplier c) (quantity_tolerance c) (<[id := fp]> (seen_events c)) (breaches c)
    (risk_notional_ms c) (risk_observed_at_ms c) (risk_notional c).

Definition set_risk (c : HedgeCycleState) (r : dec) (at_ms : option Z) (n : dec) : HedgeCycleState :=
  mkCycle (cycle_id c) (spot c) (perp c) (initial_spot_quantity c) (initial_perp_quantity c)
    (perp_delta_multiplier c) (quantity_tolerance c) (seen_events c) (breaches c) r at_ms n.

(** A [Transition] that reports the mismatch of the current state. *)
Definition report (applied duplicate stale : bool) (delta : dec) (prev cur : LegStatus)
    (brs : list string) : M HedgeCycleState Transition :=
  fun c => (let! m := mismatch_quantity c in
            Ok (Build_Transition applied duplicate stale delta prev cur m brs), c).

Definition stale_sequence (u : LegUpdate) (s : LegExecutionState) : bool :=
  match u_sequence u, last_sequence s with
  | Some a, Some b => a <? b
  | _, _ => false
  end.

(** The breaches an update brings and the status it leaves: a quantity at the
    target outweighs a delayed status label. *)
Definition classify_update (c : HedgeCycleState) (s : LegExecutionState)
    (cumulative fill_delta : dec) (incoming : LegStatus) : result (list string * LegStatus) :=
  let unknown := if bool_decide (incoming = UNKNOWN) then ["unknown_exchange_status"] else [] in
  let! t := target_quantity s in
  let! hi := dadd t (quantity_tolerance c) in
  let overfill := if dgt cumulative hi then ["overfill"] else [] in
  let late := if dgt fill_delta d0 && terminal (status s) then ["late_fill_after_terminal"] else [] in
  if bool_decide (incoming = FILLED) then
    let! sum := dadd cumulative (quantity_tolerance c) in
    let below := if dlt sum t then ["filled_status_below_target"] else [] in
    Ok (unknown ++ overfill ++ late ++ below, incoming)
  else
    let! lo := dsub t (quantity_tolerance c) in
    if dge cumulative lo then
      Ok (unknown ++ overfill ++ late ++ ["target_filled_with_nonfilled_status"], FILLED)
    else Ok (unknown ++ overfill ++ late, incoming).

Definition identity_conflict (prior incoming : string) : bool :=
  nonempty prior && nonempty incoming && negb (String.eqb prior incoming).

(** The leg after an accepted update. *)
Definition advance_leg (s : LegExecutionState) (u : LegUpdate) (cumulative : dec)
    (st : LegStatus) (brs : list string) : LegExecutionState :=
  mkLeg (leg s) (target_signed_quantity s) cumulative st
    (str_or (order_id s) (u_order_id u))
    (str_or (client_order_id s) (u_client_order_id u))
    (match u_sequence u with
     | None => last_sequence s
     | Some q => Some (Z.max (match last_sequence s with
                              | Some l => if l =? 0 then q else l
                              | None => q end) q)
     end)
    (Z.max (last_event_time_ms s) (u_event_time_ms u))
    (u_exchange_verified u)
    (extend_absent (leg_breaches s) brs).

Definition prefixed (l : Leg) (item : string) : string := Leg_value l +:+ ":" +:+ item.

Definition apply (u : LegUpdate) : M HedgeCycleState Transition := fun c =>
  if negb (nonempty (strip (u_event_id u))) then (invariant_error "event_id is required", c)
  else match fingerprint u with
  | Err e => (Err e, c)
  | Ok fp =>
  let s := _leg c (u_leg u) in
  match seen_events c !! u_event_id u with
  | Some prior =>
      if negb (String.eqb prior fp)
      then (invariant_error ("event_id collision: " +:+ u_event_id u), c)
      else report false true false d0 (status s) (status s) [] c
  | None =>
  match _decimal (u_cumulative_quantity u) "cumulative_quantity" with
  | Err e => (Err e, c)
  | Ok cumulative =>
  if dlt cumulative d0 then (invariant_error "cumulative_quantity must be non-negative", c)
  else
  let incoming := _status (u_status u) in
  let stale_seq := stale_sequence u s in
  let stale_time := u_event_time_ms u <? last_event_time_ms s in
  let c_seen := record_event c (u_event_id u) fp in
  if dlt cumulative (cumulative_quantity s) then
    if stale_seq || stale_time
    then report false false true d0 (status s) (status s) [] c_seen
    else (invariant_error "newer cumulative quantity regressed", c)
  else
  match (let! delta := dsub cumulative (cumulative_quantity s) in
         let! '(brs, st) := classify_update c s cumulative delta incoming in
         Ok (delta, brs, st)) with
  | Err e => (Err e, c)
  | Ok (delta, brs, st) =>
  if stale_seq && deqb delta d0
  then report false false true d0 (status s) (status s) [] c_seen
  else if identity_conflict (order_id s) (u_order_id u)
  then (invariant_error "order_id changed within a leg", c)
  else if identity_conflict (client_order_id s) (u_client_order_id u)
  then (invariant_error "client_order_id changed within a leg", c)
  else
  let c1 := set_leg c (u_leg u) (advance_leg s u cumulative st brs) in
  let c2 := set_breaches c1 (extend_absent (breaches c) (map (prefixed (u_leg u)) brs)) in
  report true false false delta (status s) st brs (record_event c2 (u_event_id u) fp)
  end end end end.

(** ** Residual repair and the risk integral *)

Definition residual_repair (c : HedgeCycleState) (prefer_leg : Leg) (emergency_reduce : bool)
    : result (option RepairIntent) :=
  let! mismatch := mismatch_quantity c in
  let! a := dabs mismatch in
  if dle a (quantity_tolerance c) then Ok None
  else
    let side := if dgt mismatch d0 then "SELL" else "BUY" in
    let! quantity :=
      (if bool_decide (prefer_leg = PERP) then ddiv a (perp_delta_multiplier c) else Ok a) in
    Ok (Some (Build_RepairIntent prefer_leg side quantity
      (emergency_reduce && bool_decide (prefer_leg = PERP))
      (if emergency_reduce then "emergency_delta_reduction" else "residual_hedge"))).

(** [Decimal(n)] for an integer. *)
Definition dec_of_Z (z : Z) : dec := Dec (z <? 0) (Z.abs_N z) 0.

Definition observe_risk (now_ms : Z) (mark_price : pyval) : M HedgeCycleState dec := fun c =>
  match _decimal mark_price "mark_price" with
  | Err e => (Err e, c)
  | Ok price =>
  if dle price d0 then (invariant_error "mark_price must be positive", c)
  else
  let accrued :=
    match risk_observed_at_ms c with
    | None => Ok (risk_notional_ms c)
    | Some at_ms =>
        if now_ms <? at_ms then invariant_error "risk observation time regressed"
        else let! inc := dmul (risk_notional c) (dec_of_Z (now_ms - at_ms)) in
             dadd (risk_notional_ms c) inc
    end in
  match accrued with
  | Err e => (Err e, c)
  | Ok total =>
      let c1 := set_risk c total (Some now_ms) (risk_notional c) in
      match (let! m := mismatch_quantity c1 in let! a := dabs m in dmul a price) with
      | Err e => (Err e, c1)
      | Ok n => (Ok total, set_risk c1 total (Some now_ms) n)
      end
  end end.

(** ** Snapshots *)

Definition leg_payload (s : LegExecutionState) : pyval :=
  VDict [
    ("leg", VStr (Leg_value (leg s)));
    ("target_signed_quantity", VStr (dec_str (target_signed_quantity s)));
    ("cumulative_quantity", VStr (dec_str (cumulative_quantity s)));
    ("status", VStr (LegStatus_value (status s)));
    ("order_id", VStr (order_id s));
    ("client_order_id", VStr (client_order_id s));
    ("last_sequence", opt_int (last_sequence s));
    ("last_event_time_ms", VInt (last_event_time_ms s));
    ("exchange_verified", VBool (exchange_verified s));
    ("breaches", VList (map VStr (leg_breaches s)))].

Definition to_snapshot (c : HedgeCycleState) : dict pyval :=
  [("schema_version", VInt 1);
   ("cycle_id", VStr (cycle_id c));
   ("spot", leg_payload (spot c));
   ("perp", leg_payload (perp c));
   ("initial_spot_quantity", VStr (dec_str (initial_spot_quantity c)));
   ("initial_perp_quantity", VStr (dec_str (initial_perp_quantity c)));
   ("perp_delta_multiplier", VStr (dec_str (perp_delta_multiplier c)));
   ("quantity_tolerance", VStr (dec_str (quantity_tolerance c)));
   ("seen_events", VDict (map (fun kv => (fst kv, VStr (snd kv)))
                            (dict_sorted (map_to_list (seen_events c)))));
   ("breaches", VList (map VStr (breaches c)));
   ("risk_notional_ms", VStr (dec_str (risk_notional_ms c)));
   ("risk_observed_at_ms", opt_int (risk_observed_at_ms c));
   ("risk_notional", VStr (dec_str (risk_notional c)))].

(** [Leg(value)] and [LegStatus(value)] *)
Definition Leg_of (v : string) : result Leg :=
  match List.find (fun l => String.eqb (Leg_value l) v) all_legs with
  | Some l => Ok l | None => raise ValueError "is not a valid Leg" end.
Definition LegStatus_of (v : string) : result LegStatus :=
  match List.find (fun s => String.eqb (LegStatus_value s) v) all_statuses with
  | Some s => Ok s | None => raise ValueError "is not a valid LegStatus" end.

(** An [int | None] field of a snapshot; other types are outside its schema. *)
Definition as_opt_int (v : pyval) : result (option Z) :=
  match v with
  | VNone => Ok None
  | VInt z => Ok (Some z)
  | _ => raise TypeError "expected int or None"
  end.

Definition str_items (v : pyval) : result (list string) :=
  let! l := py_iter v in Ok (map py_str l).

Definition leg_state (raw : dict pyval) (expected : Leg) : result LegExecutionState :=
  let! l := Leg_of (py_str (get raw "leg")) in
  if negb (bool_decide (l = expected)) then invariant_error "snapshot leg identity mismatch"
  else
    let! target := _decimal (get raw "target_signed_quantity") "target_signed_quantity" in
    let! cum := _decimal (get_or raw "cumulative_quantity" (VStr "0")) "cumulative_quantity" in
    let! st := LegStatus_of (py_str (get_or raw "status" (VStr (LegStatus_value UNKNOWN)))) in
    let! seq := as_opt_int (get raw "last_sequence") in
    let! time := py_int (get_or raw "last_event_time_ms" (VInt 0)) in
    let! brs := str_items (get_or raw "breaches" (VList [])) in
    Ok (mkLeg expected target cum st (py_str (get_or raw "order_id" (VStr "")))
          (py_str (get_or raw "client_order_id" (VStr ""))) seq time
          (truthy (get_or raw "exchange_verified" (VBool false))) brs).

Definition from_snapshot (payload : dict pyval) : result HedgeCycleState :=
  let! v := py_int (get_or payload "schema_version" (VInt 0)) in
  if negb (v =? 1) then invariant_error "unsupported hedge-cycle snapshot schema"
  else
    let! sd := py_dict (get_or payload "spot" (VDict [])) in
    let! sp := leg_state sd SPOT in
    let! pd := py_dict (get_or payload "perp" (VDict [])) in
    let! pp := leg_state pd PERP in
    let! isq := _decimal (get_or payload "initial_spot_quantity" (VStr "0")) "initial_spot_quantity" in
    let! ipq := _decimal (get_or payload "initial_perp_quantity" (VStr "0")) "initial_perp_quantity" in
    let! mult := _decimal (get_or payload "perp_delta_multiplier" (VStr "1")) "perp_delta_multiplier" in
    let! tol := _decimal (get_or payload "quantity_tolerance" (VStr "0.00000001")) "quantity_tolerance" in
    let! seen := py_dict (get_or payload "seen_events" (VDict [])) in
    let! brs := str_items (get_or payload "breaches" (VList [])) in
    let! risk := _decimal (get_or payload "risk_notional_ms" (VStr "0")) "risk_notional_ms" in
    let! c := new_cycle (py_str (get_or payload "cycle_id" (VStr ""))) sp pp
                (VDec isq) (VDec ipq) (VDec mult) (VDec tol)
                (list_to_map (rev (map (fun kv => (fst kv, py_str (snd kv))) seen))) brs risk in
    let! observed := (match get payload "risk_observed_at_ms" with
                      | VNone => Ok None
                      | v => let! z := py_int v in Ok (Some z)
                      end) in
    let! n := _decimal (get_or payload "risk_notional" (VStr "0")) "risk_notional" in
    Ok (set_risk c (risk_notional_ms c) observed n).

(** ** Runs of a cycle *)

(** One call on the live object: an exchange update or a risk observation. *)
Inductive call := CallApply (u : LegUpdate) | CallObserve (now_ms : Z) (mark_price : pyval).

Definition after_call (k : call) (c : HedgeCycleState) : HedgeCycleState :=
  match k with
  | CallApply u => snd (apply u c)
  | CallObserve t p => snd (observe_risk t p c)
  end.

Inductive reachable (c0 : HedgeCycleState) : HedgeCycleState -> Prop :=
  | reach_init : reachable c0 c0
  | reach_step c k : reachable c0 c -> reachable c0 (after_call k c).

(** The well-formedness of a cycle: what [__post_init__] checks, and what every
    call keeps. *)
Record leg_wf (s : LegExecutionState) : Prop := {
  wf_target : dec_in_range (target_signed_quantity s) = true;
  wf_cum_range : dec_in_range (cumulative_quantity s) = true;
  wf_cum_nonneg : dle d0 (cumulative_quantity s) = true;
  wf_leg_nodup : NoDup (leg_breaches s)
}.

Record cycle_wf (c : HedgeCycleState) : Prop := {
  wf_id : nonempty (strip (cycle_id c)) = true;
  wf_spot : leg (spot c) = SPOT;
  wf_perp : leg (perp c) = PERP;
  wf_spot_leg : leg_wf (spot c);
  wf_perp_leg : leg_wf (perp c);
  wf_isq : dec_in_range (initial_spot_quantity c) = true;
  wf_ipq : dec_in_range (initial_perp_quantity c) = true;
  wf_mult_range : dec_in_range (perp_delta_multiplier c) = true;
  wf_tol_range : dec_in_range (quantity_tolerance c) = true;
  wf_mult : dle (perp_delta_multiplier c) d0 = false;
  wf_tol : dlt (quantity_tolerance c) d0 = false;
  wf_neutral : exists delta a, target_end_delta c = Ok delta /\ dabs delta = Ok a
                               /\ dgt a (quantity_tolerance c) = false;
  wf_risk : dec_in_range (risk_notional_ms c) = true /\ dec_in_range (risk_notional c) = true;
  wf_breaches_nodup : NoDup (breaches c);
  wf_breaches : forall l b, b ∈ leg_breaches (_leg c l) -> prefixed l b ∈ breaches c
}.
