(* ===== verification/LegStateMachineFacts.v ===== *)
(** * Correctness of the hedge cycle

    The invariant of a cycle and its preservation by every call, idempotence of
    updates, monotone fills, permanence of breaches, the snapshot round trip,
    delta-neutral construction, and the repair and risk computations. *)
From Stdlib Require Import ZArith Lia QArith Qabs Lqa Ascii.
From stdpp Require Import base list strings gmap.
From S2P Require Import Prelude PyDecimal PyDecimalFacts PyValue LegStateMachine.
Open Scope Z_scope.

(** ** Reading decimals *)

Lemma _decimal_VDec d name : dec_in_range d = true -> _decimal (VDec d) name = Ok d.
Proof. apply finite_decimal_VDec. Qed.

Lemma _decimal_VStr d name : dec_in_range d = true -> _decimal (VStr (dec_str d)) name = Ok d.
Proof. apply finite_decimal_VStr. Qed.

Lemma _decimal_range v name d : _decimal v name = Ok d -> dec_in_range d = true.
Proof. apply finite_decimal_range. Qed.

Lemma dfix_range s c e d : dfix s c e = Ok d -> dec_in_range d = true.
Proof. intros H. apply fits_in_range. by apply dfix_mag in H as (_ & ? & _). Qed.

(** ** The outcomes of [apply] *)

Definition accepted (u : LegUpdate) (c : HedgeCycleState) (cum : dec) (st : LegStatus)
    (brs : list string) (fp : string) : HedgeCycleState :=
  record_event
    (set_breaches (set_leg c (u_leg u) (advance_leg (_leg c (u_leg u)) u cum st brs))
       (extend_absent (breaches c) (map (prefixed (u_leg u)) brs)))
    (u_event_id u) fp.

Inductive apply_outcome (u : LegUpdate) (c : HedgeCycleState) : result Transition * HedgeCycleState -> Prop :=
  | ao_error e : apply_outcome u c (Err e, c)
  | ao_duplicate fp s :
      fingerprint u = Ok fp -> seen_events c !! u_event_id u = Some fp -> s = _leg c (u_leg u) ->
      nonempty (strip (u_event_id u)) = true ->
      apply_outcome u c (report false true false d0 (status s) (status s) [] c)
  | ao_stale fp cum s :
      fingerprint u = Ok fp -> seen_events c !! u_event_id u = None -> s = _leg c (u_leg u) ->
      nonempty (strip (u_event_id u)) = true ->
      _decimal (u_cumulative_quantity u) "cumulative_quantity" = Ok cum ->
      stale_sequence u s || (u_event_time_ms u <? last_event_time_ms s) = true ->
      apply_outcome u c
        (report false false true d0 (status s) (status s) [] (record_event c (u_event_id u) fp))
  | ao_accept fp cum delta st brs s :
      fingerprint u = Ok fp -> seen_events c !! u_event_id u = None -> s = _leg c (u_leg u) ->
      nonempty (strip (u_event_id u)) = true ->
      _decimal (u_cumulative_quantity u) "cumulative_quantity" = Ok cum ->
      dlt cum d0 = false -> dlt cum (cumulative_quantity s) = false ->
      dsub cum (cumulative_quantity s) = Ok delta ->
      classify_update c s cum delta (_status (u_status u)) = Ok (brs, st) ->
      apply_outcome u c (report true false false delta (status s) st brs (accepted u c cum st brs fp)).

Lemma apply_outcomes u c : apply_outcome u c (apply u c).
Proof.
  unfold apply.
  destruct (nonempty (strip (u_event_id u))) eqn:Hid; simpl; [|constructor].
  destruct (fingerprint u) as [fp|] eqn:Hfp; [|constructor].
  destruct (seen_events c !! u_event_id u) as [prior|] eqn:Hseen.
  { destruct (String.eqb_spec prior fp) as [->|]; simpl; [|constructor]. by eapply ao_duplicate. }
  destruct (_decimal _ _) as [cum|] eqn:Hcum; [|constructor].
  destruct (dlt cum d0) eqn:Hneg; [constructor|].
  destruct (dlt cum (cumulative_quantity _)) eqn:Hlt.
  { destruct (_ || _) eqn:Hst; [by eapply ao_stale|constructor]. }
  destruct (dsub cum _) as [delta|] eqn:Hd; simpl; [|constructor].
  destruct (classify_update _ _ _ _ _) as [[brs st]|] eqn:Hcl; simpl; [|constructor].
  destruct (stale_sequence _ _ && deqb _ _) eqn:Hst.
  { apply andb_true_iff in Hst as [Hst _]. eapply ao_stale; try done. by rewrite Hst. }
  destruct (identity_conflict (order_id _) _); [constructor|].
  destruct (identity_conflict (client_order_id _) _); [constructor|].
  by eapply ao_accept.
Qed.

Lemma report_state a d s q p r b c : snd (report a d s q p r b c) = c.
Proof. done. Qed.

Lemma report_Ok a d s q p r b c t :
  fst (report a d s q p r b c) = Ok t ->
  exists m, mismatch_quantity c = Ok m /\ t = Build_Transition a d s q p r m b.
Proof. simpl. intros H. res_inv H. eauto. Qed.

(** The state after [apply]: unchanged, the event recorded, or the leg advanced. *)
Lemma apply_state u c :
  snd (apply u c) = c \/
  (exists fp, snd (apply u c) = record_event c (u_event_id u) fp) \/
  (exists fp cum delta st brs,
     snd (apply u c) = accepted u c cum st brs fp /\ dlt cum d0 = false /\
     dlt cum (cumulative_quantity (_leg c (u_leg u))) = false /\ dec_in_range cum = true /\
     classify_update c (_leg c (u_leg u)) cum delta (_status (u_status u)) = Ok (brs, st)).
Proof.
  pose proof (apply_outcomes u c) as H.
  inversion H as [e He|fp s H1 H2 H3 H4 He|fp cum s H1 H2 H3 H4 H5 H6 He
                 |fp cum delta st brs s H1 H2 H3 H4 H5 H6 H7 H8 H9 He].
  - by left.
  - left. by rewrite report_state.
  - right; left. eexists. by rewrite report_state.
  - right; right. subst s. exists fp, cum, delta, st, brs. rewrite report_state.
    eauto 8 using _decimal_range.
Qed.

(** ** Preservation of the invariant *)

Lemma wf_record c id fp : cycle_wf c -> cycle_wf (record_event c id fp).
Proof. intros []. by constructor. Qed.

Lemma wf_set_risk c r t n : cycle_wf c -> dec_in_range r = true -> dec_in_range n = true ->
  cycle_wf (set_risk c r t n).
Proof. intros [] ??. by constructor. Qed.

Lemma leg_wf_of c l : cycle_wf c -> leg_wf (_leg c l).
Proof. intros []. by destruct l. Qed.

Lemma wf_advance s u cum st brs :
  leg_wf s -> dec_in_range cum = true -> dlt cum d0 = false -> leg_wf (advance_leg s u cum st brs).
Proof.
  intros [] Hr Hn. constructor; simpl; [done|done| |auto with py].
  dec_props. apply dle_spec. rewrite dval_0. lra.
Qed.

Lemma prefixed_inj l1 l2 a b : prefixed l1 a = prefixed l2 b -> l1 = l2 /\ a = b.
Proof. destruct l1, l2; intros [= H]; auto. Qed.

Lemma wf_accepted u c cum st brs fp :
  cycle_wf c -> dec_in_range cum = true -> dlt cum d0 = false ->
  cycle_wf (accepted u c cum st brs fp).
Proof.
  intros Hwf Hr Hn. pose proof (wf_advance _ u cum st brs (leg_wf_of c (u_leg u) Hwf) Hr Hn) as Hadv.
  apply wf_record. destruct Hwf.
  constructor; simpl; try done; try (by destruct (u_leg u)).
  - auto with py.
  - intros l b Hb. apply elem_of_extend_absent.
    assert (_leg (set_leg c (u_leg u) (advance_leg (_leg c (u_leg u)) u cum st brs)) l
            = if bool_decide (l = u_leg u) then advance_leg (_leg c (u_leg u)) u cum st brs else _leg c l) as E
      by (by destruct l, (u_leg u)).
    unfold _leg in Hb, E. simpl in Hb. simpl in E. rewrite E in Hb. case_bool_decide as Hl; [|left; by apply wf_breaches].
    subst l. apply elem_of_extend_absent in Hb as [Hb|Hb]; [left; by apply wf_breaches|right].
    by apply (list_elem_of_fmap_2 (prefixed (u_leg u))).
Qed.

Lemma wf_apply u c : cycle_wf c -> cycle_wf (snd (apply u c)).
Proof.
  intros H. destruct (apply_state u c) as [->|[(fp & ->)|(fp & cum & delta & st & brs & -> & H1 & _ & H2 & _)]];
    auto using wf_record, wf_accepted.
Qed.

Lemma dadd_range a b d : dadd a b = Ok d -> dec_in_range d = true.
Proof. intros H. apply dadd_rounds, rounds_fits in H. auto with py. Qed.
Lemma dmul_range a b d : dmul a b = Ok d -> dec_in_range d = true.
Proof. intros H. apply dmul_rounds, rounds_fits in H. auto with py. Qed.

(** The state after [observe_risk]. *)
Lemma observe_state t p c :
  snd (observe_risk t p c) = c \/
  exists total n, snd (observe_risk t p c) = set_risk c total (Some t) n /\
    (total = risk_notional_ms c \/ exists inc, dadd (risk_notional_ms c) inc = Ok total) /\
    (n = risk_notional c \/ exists a price, dmul a price = Ok n).
Proof.
  unfold observe_risk.
  destruct (_decimal _ _) as [price|]; [|by left].
  destruct (dle price d0); [by left|].
  match goal with |- context [match ?m with Ok _ => _ | Err _ => (Err _, c) end] => destruct m as [total|] eqn:Ht end;
    [|by left].
  assert (total = risk_notional_ms c \/ exists inc, dadd (risk_notional_ms c) inc = Ok total) as HT.
  { destruct (risk_observed_at_ms c) as [at_ms|]; [|by simplify_eq; left].
    destruct (t <? at_ms); [done|]. apply res_bind_Ok in Ht as (inc & _ & Ht). eauto. }
  right. destruct (mismatch_quantity _) as [m|]; simpl.
  2:{ exists total, (risk_notional c). auto. }
  destruct (dabs m) as [a|]; simpl; [|by exists total, (risk_notional c); auto].
  destruct (dmul a price) as [n|] eqn:En; simpl.
  - exists total, n. eauto 6.
  - exists total, (risk_notional c). auto.
Qed.

Lemma wf_observe t p c : cycle_wf c -> cycle_wf (snd (observe_risk t p c)).
Proof.
  intros H. destruct (observe_state t p c) as [->|(total & n & -> & HT & HN)]; [done|].
  destruct (wf_risk c H) as [R1 R2]. apply wf_set_risk; [done| |].
  - destruct HT as [->|(inc & HT)]; [done|]. by eapply dadd_range.
  - destruct HN as [->|(a & q & HN)]; [done|]. by eapply dmul_range.
Qed.

Lemma wf_call k c : cycle_wf c -> cycle_wf (after_call k c).
Proof. destruct k; [apply wf_apply|apply wf_observe]. Qed.

#[export] Hint Resolve wf_apply wf_observe wf_call wf_record : py.

Lemma wf_reachable c0 c : cycle_wf c0 -> reachable c0 c -> cycle_wf c.
Proof. intros H0. induction 1; auto with py. Qed.

(** ** Monotonicity along runs *)

(** What a call can only extend. *)
Record extends (a b : HedgeCycleState) : Prop := {
  ext_cum : forall l, (dval (cumulative_quantity (_leg a l)) <= dval (cumulative_quantity (_leg b l)))%Q;
  ext_breaches : forall x, x ∈ breaches a -> x ∈ breaches b;
  ext_leg_breaches : forall l x, x ∈ leg_breaches (_leg a l) -> x ∈ leg_breaches (_leg b l);
  ext_seen : forall id, is_Some (seen_events a !! id) -> seen_events b !! id = seen_events a !! id;
  ext_target : forall l, target_signed_quantity (_leg b l) = target_signed_quantity (_leg a l)
}.

Lemma extends_refl a : extends a a.
Proof. constructor; auto. intros. apply Qle_refl. Qed.

Lemma extends_trans a b c : extends a b -> extends b c -> extends a c.
Proof.
  intros [A1 A2 A3 A4 A5] [B1 B2 B3 B4 B5]. constructor; auto.
  - intros l. eapply Qle_trans; eauto.
  - intros id H. rewrite B4; [by apply A4|]. by rewrite A4.
  - intros l. by rewrite B5.
Qed.

Lemma extends_set_risk c r t n : extends c (set_risk c r t n).
Proof. constructor; try done; intros l; destruct l; apply Qle_refl. Qed.

Lemma record_seen c id fp : seen_events c !! id = None ->
  forall i, is_Some (seen_events c !! i) -> seen_events (record_event c id fp) !! i = seen_events c !! i.
Proof.
  intros Hn i [v Hv]. simpl. apply lookup_insert_ne. intros ->. congruence.
Qed.

Lemma extends_record c id fp : seen_events c !! id = None -> extends c (record_event c id fp).
Proof.
  intros Hn. constructor; try done; [|by apply record_seen].
  intros l; destruct l; apply Qle_refl.
Qed.

Lemma _leg_accepted u c cum st brs fp l :
  _leg (accepted u c cum st brs fp) l =
  if bool_decide (l = u_leg u) then advance_leg (_leg c (u_leg u)) u cum st brs else _leg c l.
Proof. unfold accepted. by destruct l, (u_leg u). Qed.

Lemma extends_accepted u c cum st brs fp :
  seen_events c !! u_event_id u = None ->
  dlt cum (cumulative_quantity (_leg c (u_leg u))) = false ->
  extends c (accepted u c cum st brs fp).
Proof.
  intros Hn Hc. dec_props. constructor.
  - intros l. rewrite _leg_accepted. case_bool_decide; subst; [done|apply Qle_refl].
  - intros x Hx. simpl. apply elem_of_extend_absent. auto.
  - intros l x Hx. rewrite _leg_accepted. case_bool_decide; subst; [|done].
    simpl. apply elem_of_extend_absent. auto.
  - by apply (record_seen c).
  - intros l. rewrite _leg_accepted. by case_bool_decide; subst.
Qed.

Lemma extends_apply u c : extends c (snd (apply u c)).
Proof.
  pose proof (apply_outcomes u c) as H. inversion H; subst; rewrite ?report_state; simpl;
    auto using extends_refl, extends_record, extends_accepted.
Qed.

Lemma extends_call k c : extends c (after_call k c).
Proof.
  destruct k as [u|t p]; simpl; [apply extends_apply|].
  destruct (observe_state t p c) as [->|(? & ? & -> & _)];
    auto using extends_refl, extends_set_risk.
Qed.

Lemma extends_reachable a b : reachable a b -> extends a b.
Proof.
  induction 1; [apply extends_refl|]. eapply extends_trans; [done|apply extends_call].
Qed.

(** ** Hedging *)

Lemma mismatch_fits c m : mismatch_quantity c = Ok m -> fits m.
Proof.
  unfold mismatch_quantity. intros H. apply res_bind_Ok in H as (s & _ & H).
  apply res_bind_Ok in H as (p & _ & H). apply res_bind_Ok in H as (q & _ & H).
  apply dadd_rounds in H. eauto with py.
Qed.

Lemma dabs_exact m a : fits m -> dabs m = Ok a -> (dval a == Qabs (dval m))%Q /\ fits a.
Proof.
  intros Hf H. rewrite dabs_fits in H by done. injection H as <-. split; [|by destruct m].
  rewrite (dval_sign m). unfold dval, mag, zsigned; simpl. fold (mag m). pose proof (mag_nonneg m).
  destruct (dneg m); [rewrite Qabs_opp|]; rewrite Qabs_pos by done; apply Qeq_refl.
Qed.

Lemma hedged_spec c :
  hedged c = Ok true <->
  exists m, mismatch_quantity c = Ok m /\ (Qabs (dval m) <= dval (quantity_tolerance c))%Q.
Proof.
  unfold hedged. split.
  - intros H. apply res_bind_Ok in H as (m & Hm & H). apply res_bind_Ok in H as (a & Ha & H).
    injection H as H. apply dle_spec in H. exists m. split; [done|].
    destruct (dabs_exact m a (mismatch_fits c m Hm) Ha) as [E _]. by rewrite <- E.
  - intros (m & Hm & H). rewrite Hm. simpl. pose proof (mismatch_fits c m Hm) as Hf.
    rewrite dabs_fits by done. simpl. f_equal. apply dle_spec.
    destruct (dabs_exact m _ Hf (dabs_fits m Hf)) as [-> _]. done.
Qed.

Lemma safe_spec c :
  safe_to_project_complete c = Ok true <->
  (forall l, leg_verified_terminal (_leg c l) = true /\ leg_breaches (_leg c l) = []) /\
  breaches c = [] /\ hedged c = Ok true.
Proof.
  unfold safe_to_project_complete, verified_terminal, no_breaches. split.
  - intros H. apply res_bind_Ok in H as (v & Hv & H). injection H as H. bool_props. subst v.
    destruct (leg_verified_terminal (spot c) && leg_verified_terminal (perp c)) eqn:E; [|done].
    bool_props. destruct (breaches c), (leg_breaches (spot c)) eqn:?, (leg_breaches (perp c)) eqn:?; try done.
    split; [|done]. by intros [].
  - intros (Hl & Hb & Hh). destruct (Hl SPOT) as [H1 H2], (Hl PERP) as [H3 H4]. simpl in *.
    rewrite H1, H3, Hb, H2, H4, Hh. done.
Qed.

(** ** The classification of an update *)

Definition if_list (b : bool) (x : string) : list string := if b then [x] else [].

Lemma elem_of_if_list b x y : y ∈ if_list b x <-> b = true /\ y = x.
Proof. destruct b; simpl; set_solver. Qed.

(** Membership of a literal among conditional singletons. *)
Ltac solve_member :=
  intros;
  repeat match goal with
  | H : _ \/ _ |- _ => destruct H
  | H : _ /\ _ |- _ => destruct H
  | H : String _ _ = String _ _ |- _ => discriminate H
  end; tauto.

Lemma classify_shape c s cum delta inc brs st :
  classify_update c s cum delta inc = Ok (brs, st) ->
  exists t hi last, dabs (target_signed_quantity s) = Ok t /\ dadd t (quantity_tolerance c) = Ok hi /\
    brs = if_list (bool_decide (inc = UNKNOWN)) "unknown_exchange_status"
          ++ if_list (dgt cum hi) "overfill"
          ++ if_list (dgt delta d0 && terminal (status s)) "late_fill_after_terminal" ++ last /\
    ((inc = FILLED /\ st = FILLED /\ exists b, last = if_list b "filled_status_below_target") \/
     (inc <> FILLED /\ exists lo, dsub t (quantity_tolerance c) = Ok lo /\
        last = if_list (dge cum lo) "target_filled_with_nonfilled_status" /\
        st = if dge cum lo then FILLED else inc)).
Proof.
  unfold classify_update, target_quantity. intros H.
  apply res_bind_Ok in H as (t & Ht & H). apply res_bind_Ok in H as (hi & Hhi & H).
  exists t, hi. destruct (bool_decide (inc = FILLED)) eqn:Ei.
  - apply bool_decide_eq_true in Ei. apply res_bind_Ok in H as (sum & _ & H). injection H as <- <-.
    eexists. repeat split; eauto.
  - apply bool_decide_eq_false in Ei. apply res_bind_Ok in H as (lo & Hlo & H).
    exists (if_list (dge cum lo) "target_filled_with_nonfilled_status").
    repeat split; try done; destruct (dge cum lo) eqn:E; injection H as <- <-; try done.
    + simpl. by rewrite app_nil_r.
    + right. split; [done|]. exists lo. by rewrite E.
    + right. split; [done|]. exists lo. by rewrite E.
Qed.

Lemma classify_overfill c s cum delta inc brs st t hi :
  classify_update c s cum delta inc = Ok (brs, st) ->
  dabs (target_signed_quantity s) = Ok t -> dadd t (quantity_tolerance c) = Ok hi ->
  "overfill" ∈ brs <-> (dval hi < dval cum)%Q.
Proof.
  intros H Ht Hhi. apply classify_shape in H as (t' & hi' & last & Ht' & Hhi' & -> & Hl).
  assert (t' = t) as -> by congruence. assert (hi' = hi) as -> by congruence.
  rewrite !elem_of_app, !elem_of_if_list. unfold dgt. rewrite !dlt_spec.
  destruct Hl as [(_ & _ & b & ->)|(_ & lo & _ & -> & _)]; rewrite elem_of_if_list;
    split; solve_member.
Qed.

Lemma classify_late c s cum delta inc brs st :
  classify_update c s cum delta inc = Ok (brs, st) ->
  "late_fill_after_terminal" ∈ brs <-> (0 < dval delta)%Q /\ terminal (status s) = true.
Proof.
  intros H. apply classify_shape in H as (t & hi & last & _ & _ & -> & Hl).
  rewrite !elem_of_app, !elem_of_if_list, andb_true_iff. unfold dgt at 2. rewrite dlt_spec, dval_0.
  destruct Hl as [(_ & _ & b & ->)|(_ & lo & _ & -> & _)]; rewrite elem_of_if_list;
    split; solve_member.
Qed.

(** ** Properties *)

(** An update that [apply] accepted (or recorded as stale or
    duplicate) is idempotent: delivering the identical update again succeeds, is
    reported as a duplicate that fills nothing, and leaves the cycle unchanged. *)
Theorem apply_idempotent u c t c' :
  apply u c = (Ok t, c') ->
  exists t', apply u c' = (Ok t', c') /\ t_duplicate t' = true /\ t_applied t' = false /\
             t_fill_delta t' = d0 /\ t_mismatch_quantity t' = t_mismatch_quantity t.
Proof.
  intros H.
  assert (exists fp, fingerprint u = Ok fp /\ seen_events c' !! u_event_id u = Some fp /\
            nonempty (strip (u_event_id u)) = true /\ mismatch_quantity c' = Ok (t_mismatch_quantity t))
    as (fp & Hfp & Hseen & Hid & Hm).
  { pose proof (apply_outcomes u c) as O. rewrite H in O. inversion O; subst; exists fp;
      (match goal with R : res_bind _ _ = Ok t |- _ =>
         apply res_bind_Ok in R as (m & Hm & R); injection R as <- end);
      simpl; rewrite ?lookup_insert_eq; eauto. }
  unfold apply, report. rewrite Hid, Hfp, Hseen, String.eqb_refl, Hm. simpl. eexists. by split.
Qed.

(** An event id that was recorded with a different
    content is rejected with [ExecutionInvariantError] and nothing changes. *)
Theorem event_collision_rejected u c prior fp :
  seen_events c !! u_event_id u = Some prior -> fingerprint u = Ok fp -> prior <> fp ->
  exists msg, apply u c = (invariant_error msg, c).
Proof.
  intros H1 H2 H3. unfold apply. rewrite H2, H1.
  destruct (nonempty _); simpl; [|by eexists].
  destruct (String.eqb_spec prior fp); [done|]. by eexists.
Qed.

(** When [apply] raises, the cycle is unchanged, except when
    the only failure is computing the mismatch that the transition reports
    (a decimal overflow after the event has been recorded). *)
Theorem apply_error_atomic u c e c' :
  apply u c = (Err e, c') ->
  c' = c \/ (mismatch_quantity c' = Err e /\ exists fp, seen_events c' !! u_event_id u = Some fp).
Proof.
  intros H. pose proof (apply_outcomes u c) as O. rewrite H in O. inversion O; subst; auto; right;
    (match goal with R : res_bind _ _ = Err e |- _ =>
       apply res_bind_Err in R as [R|(m & _ & R)]; [|discriminate R] end);
    (split; [done|]); simpl; rewrite ?lookup_insert_eq; eauto.
Qed.

(** C28: every state a well-formed cycle reaches through updates
    and risk observations, successful or not, is well formed: the legs keep
    their identity, filled quantities are non-negative, the target stays
    delta-neutral within tolerance, breach lists hold no duplicates and every
    leg breach is also a cycle breach. *)
Theorem reachable_invariant c0 c : cycle_wf c0 -> reachable c0 c -> cycle_wf c.
Proof. apply wf_reachable. Qed.

(** Along any run the filled quantity of each leg never
    decreases, targets never change, and recorded events and breaches are never
    forgotten. *)
Theorem fills_monotone c0 c l :
  reachable c0 c ->
  dle (cumulative_quantity (_leg c0 l)) (cumulative_quantity (_leg c l)) = true /\
  target_signed_quantity (_leg c l) = target_signed_quantity (_leg c0 l) /\
  (forall id fp, seen_events c0 !! id = Some fp -> seen_events c !! id = Some fp) /\
  (forall b, b ∈ breaches c0 -> b ∈ breaches c).
Proof.
  intros H. destruct (extends_reachable _ _ H) as [H1 H2 H3 H4 H5].
  split; [apply dle_spec, H1|]. split; [apply H5|]. split; [|done].
  intros id fp E. rewrite H4; [done|by eexists].
Qed.

(** Once a breach is recorded, no later run of the
    cycle is ever reported as safe to project complete. *)
Theorem breach_blocks_completion c0 c :
  breaches c0 <> [] -> reachable c0 c -> safe_to_project_complete c <> Ok true.
Proof.
  intros Hb H Hs. apply safe_spec in Hs as (_ & E & _).
  destruct (breaches c0) as [|b l] eqn:Eb; [done|].
  pose proof (ext_breaches _ _ (extends_reachable _ _ H) b) as Hin.
  rewrite Eb, E in Hin. set_solver.
Qed.

(** The exact net delta of a cycle: the fills have the sign of their target. *)
Definition filled (s : LegExecutionState) : Q :=
  if Qle_bool 0 (dval (target_signed_quantity s)) then dval (cumulative_quantity s) else - dval (cumulative_quantity s).

Definition net_delta (c : HedgeCycleState) : Q :=
  dval (initial_spot_quantity c) + filled (spot c)
  + (dval (initial_perp_quantity c) + filled (perp c)) * dval (perp_delta_multiplier c).

(** Quantities of the exchanges: multiples of 10^-8 up to 10^10, and multipliers that are
    multiples of 10^-4 up to 1000. *)
Definition exchange_quantity (d : dec) : Prop := scaled (-8) 1 (10 ^ 18) d.

Record exchange_amounts (c : HedgeCycleState) : Prop := {
  ea_spot : exchange_quantity (initial_spot_quantity c);
  ea_perp : exchange_quantity (initial_perp_quantity c);
  ea_filled : forall l, exchange_quantity (cumulative_quantity (_leg c l));
  ea_multiplier : scaled (-4) 1 (10 ^ 7) (perp_delta_multiplier c)
}.

Lemma signed_filled_exact s : exchange_quantity (cumulative_quantity s) ->
  exists d, signed_filled_quantity s = Ok d /\ exchange_quantity d /\ (dval d == filled s)%Q.
Proof.
  intros Hq. unfold signed_filled_quantity, filled.
  assert (scaled 0 0 1 (_sign (target_signed_quantity s))) as Hs by (unfold _sign; by destruct (dge _ _)).
  destruct (dmul_scaled 0 0 (-8) 1 1 (10 ^ 18) _ _ ltac:(lia) ltac:(lia) Hs Hq ltac:(lia)) as (d & H1 & H2 & H3).
  exists d. split; [done|]. split; [exact H2|]. rewrite H3. unfold _sign, dge.
  destruct (dle d0 (target_signed_quantity s)) eqn:E.
  - apply dle_spec in E. rewrite dval_0 in E. rewrite (proj2 (Qle_bool_iff _ _) E). assert (dval d1 == 1)%Q as -> by reflexivity. ring.
  - apply dle_false in E. rewrite dval_0 in E. destruct (Qle_bool 0 _) eqn:E'; [apply Qle_bool_iff in E'; lra|].
    assert (dval dm1 == -1)%Q as -> by reflexivity. ring.
Qed.

(** On such amounts the code's mismatch is the exact net delta. *)
Lemma mismatch_exact c : exchange_amounts c -> exists m, mismatch_quantity c = Ok m /\ (dval m == net_delta c)%Q.
Proof.
  intros [Hs Hp Hf Hm]. unfold mismatch_quantity, current_spot_quantity, current_perp_quantity, net_delta.
  destruct (signed_filled_exact _ (Hf SPOT)) as (a & Ea & Ga & Va). destruct (signed_filled_exact _ (Hf PERP)) as (b & Eb & Gb & Vb).
  simpl in *. rewrite Ea, Eb. cbn [res_bind].
  destruct (dadd_scaled (-8) 1 _ _ _ _ ltac:(lia) ltac:(lia) Hs Ga ltac:(lia)) as (x & -> & Gx & Vx).
  destruct (dadd_scaled (-8) 1 _ _ _ _ ltac:(lia) ltac:(lia) Hp Gb ltac:(lia)) as (y & -> & Gy & Vy). cbn [res_bind].
  destruct (dmul_scaled (-8) 1 (-4) 1 _ _ _ _ ltac:(lia) ltac:(lia) Gy Hm ltac:(lia)) as (z & -> & Gz & Vz). cbn [res_bind].
  assert (scaled (-12) 2 (2 * 10 ^ 22) x) as Gx'.
  { destruct Gx as [H1 H2]. split; [lia|]. rewrite (zscaled_split x (-8) (-12)) by lia. rewrite Z.abs_mul. lia. }
  destruct (dadd_scaled (-12) 2 _ _ _ _ ltac:(lia) ltac:(lia) Gx' Gz ltac:(lia)) as (m & -> & _ & Vd).
  exists m. split; [done|]. by rewrite Vd, Vx, Vz, Vy, Va, Vb.
Qed.

(** C1: a cycle is safe to project complete exactly when both legs are exchange-verified in
    a terminal status, no breach is recorded on the cycle or on a leg, and the mismatch the
    code computes in 28 digits is within the tolerance.  For quantities that are multiples
    of 10^-8 up to 10^10 and a multiplier that is one of 10^-4 up to 1000 nothing is
    rounded: the last condition is that the exact net delta is within the tolerance. *)
Theorem completion_sound c :
  let verified := forall l, exchange_verified (_leg c l) = true /\ terminal (status (_leg c l)) = true
                            /\ leg_breaches (_leg c l) = [] in
  (safe_to_project_complete c = Ok true <->
     verified /\ breaches c = [] /\
     exists m, mismatch_quantity c = Ok m /\ (Qabs (dval m) <= dval (quantity_tolerance c))%Q) /\
  (exchange_amounts c ->
     (safe_to_project_complete c = Ok true <->
        verified /\ breaches c = [] /\ (Qabs (net_delta c) <= dval (quantity_tolerance c))%Q)).
Proof.
  intros verified. assert (safe_to_project_complete c = Ok true <-> verified /\ breaches c = [] /\
    exists m, mismatch_quantity c = Ok m /\ (Qabs (dval m) <= dval (quantity_tolerance c))%Q) as Hiff.
  { rewrite safe_spec, hedged_spec. unfold leg_verified_terminal.
    assert ((forall l, (exchange_verified (_leg c l) && terminal (status (_leg c l))) = true /\
               leg_breaches (_leg c l) = []) <-> verified) as ->; [|done].
    split; intros H l; specialize (H l); rewrite andb_true_iff in *; tauto. }
  split; [done|]. intros (m & Hm & Hv)%mismatch_exact. rewrite Hiff, Hm, <- Hv. naive_solver.
Qed.

(** What an accepted update does to its leg: the leg's
    quantity becomes the reported one; an overfill is flagged exactly when the
    quantity exceeds target plus tolerance, a late fill exactly when quantity
    grew after a terminal status; and unless the label is FILLED already, the
    status becomes FILLED exactly when the quantity is within tolerance of the
    target.  Every flag is recorded on the cycle, the verification is that of the
    update itself, and the other leg is untouched. *)
Theorem accepted_update_effect u c t c' :
  apply u c = (Ok t, c') -> t_applied t = true ->
  let s := _leg c (u_leg u) in
  exists cum target hi,
    _decimal (u_cumulative_quantity u) "cumulative_quantity" = Ok cum /\
    target_quantity s = Ok target /\ dadd target (quantity_tolerance c) = Ok hi /\
    cumulative_quantity (_leg c' (u_leg u)) = cum /\
    status (_leg c' (u_leg u)) = t_current_status t /\
    ("overfill" ∈ t_breaches t <-> dlt hi cum = true) /\
    ("late_fill_after_terminal" ∈ t_breaches t <->
       dlt d0 (t_fill_delta t) = true /\ terminal (status s) = true) /\
    (_status (u_status u) <> FILLED -> exists lo, dsub target (quantity_tolerance c) = Ok lo /\
       t_current_status t = if dle lo cum then FILLED else _status (u_status u)) /\
    (forall b, b ∈ t_breaches t -> prefixed (u_leg u) b ∈ breaches c') /\
    exchange_verified (_leg c' (u_leg u)) = u_exchange_verified u /\
    (forall l, l <> u_leg u -> _leg c' l = _leg c l).
Proof.
  intros H Happ s. pose proof (apply_outcomes u c) as O. rewrite H in O.
  inversion O as [e He|fp' s' H1 H2 H3 H4 [He1 He2]|fp' cum' s' H1 H2 H3 H4 H5 H6 [He1 He2]
                 |fp cum delta st brs s' Hfp Hseen Hs Hid Hcum Hneg Hlt Hd Hcl [He1 He2]].
  1,2: apply res_bind_Ok in He1 as (m & Hm & He1); injection He1 as <-; discriminate Happ.
  apply res_bind_Ok in He1 as (m & Hm & He1). injection He1 as <-. subst s'. simpl.
  pose proof (classify_shape _ _ _ _ _ _ _ Hcl) as (target & hi & last & Ht & Hhi & Hbrs & Hst).
  exists cum, target, hi. split; [done|]. split; [done|]. split; [done|].
  rewrite _leg_accepted, bool_decide_eq_true_2 by done. split; [done|]. split; [done|].
  split; [rewrite dlt_spec; by eapply classify_overfill|].
  split; [rewrite dlt_spec, dval_0; by eapply classify_late|]. repeat split.
  - intros Hnf. destruct Hst as [(? & _)|(_ & lo & Hlo & _ & ->)]; [done|]. by exists lo.
  - intros b Hb. apply elem_of_extend_absent. right. by apply (list_elem_of_fmap_2 (prefixed (u_leg u))).
  - intros l Hl. rewrite _leg_accepted. by rewrite bool_decide_eq_false_2.
Qed.

(** ** Construction *)

Lemma leg_wf_new l target : dec_in_range target = true -> leg_wf (new_leg l target).
Proof. intros H. constructor; simpl; [done|done|done|constructor]. Qed.

(** What [__post_init__] establishes. *)
Lemma new_cycle_Ok id sp pp isq ipq mult tol seen brs risk c :
  new_cycle id sp pp (VDec isq) (VDec ipq) (VDec mult) (VDec tol) seen brs risk = Ok c ->
  dec_in_range isq = true -> dec_in_range ipq = true -> dec_in_range mult = true ->
  dec_in_range tol = true ->
  c = mkCycle id sp pp isq ipq mult tol seen brs risk None d0 /\
  nonempty (strip id) = true /\ dle mult d0 = false /\ dlt tol d0 = false /\
  leg sp = SPOT /\ leg pp = PERP /\
  exists delta a, target_end_delta c = Ok delta /\ dabs delta = Ok a /\ dgt a tol = false.
Proof.
  unfold new_cycle. intros H R1 R2 R3 R4. rewrite !_decimal_VDec in H by done. simpl in H.
  destruct (nonempty (strip id)) eqn:E1; [|done]. simpl in H.
  destruct (dle mult d0) eqn:E2; [done|]. destruct (dlt tol d0) eqn:E3; [done|].
  destruct (bool_decide (leg sp = SPOT)) eqn:E4; [|done].
  destruct (bool_decide (leg pp = PERP)) eqn:E5; [|done]. simpl in H.
  apply res_bind_Ok in H as (delta & Hd & H). apply res_bind_Ok in H as (a & Ha & H).
  destruct (dgt a tol) eqn:E6; [done|]. injection H as <-. bool_props.
  repeat split; try done. by exists delta, a.
Qed.

Lemma new_cycle_wf id sp pp isq ipq mult tol c :
  new_cycle id sp pp (VDec isq) (VDec ipq) (VDec mult) (VDec tol) ∅ [] d0 = Ok c ->
  dec_in_range isq = true -> dec_in_range ipq = true -> dec_in_range mult = true ->
  dec_in_range tol = true -> leg_wf sp -> leg_wf pp -> leg_breaches sp = [] -> leg_breaches pp = [] ->
  cycle_wf c.
Proof.
  intros H R1 R2 R3 R4 W1 W2 B1 B2.
  apply new_cycle_Ok in H as (-> & H1 & H2 & H3 & H4 & H5 & H6); try done.
  constructor; simpl; try done; [constructor|].
  intros l b Hb. destruct l; simpl in Hb; rewrite ?B1, ?B2 in Hb; set_solver.
Qed.

Lemma entry_inv id q dir m tol c :
  entry id q dir m tol = Ok c ->
  exists qty mult quot st pt t,
    _decimal q "quantity" = Ok qty /\ _decimal m "perp_delta_multiplier" = Ok mult /\
    _decimal tol "quantity_tolerance" = Ok t /\ dle qty d0 = false /\ dle mult d0 = false /\
    ((lower (strip dir) = "long_spot_short_perp" /\ st = qty) \/
     (lower (strip dir) = "short_spot_long_perp" /\ dopp qty = Ok st)) /\
    ddiv st mult = Ok quot /\ dopp quot = Ok pt /\
    new_cycle id (new_leg SPOT st) (new_leg PERP pt) (VDec d0) (VDec d0) (VDec mult) (VDec t) ∅ [] d0 = Ok c.
Proof.
  unfold entry. intros H. apply res_bind_Ok in H as (qty & Hq & H).
  apply res_bind_Ok in H as (mult & Hm & H).
  destruct (dle qty d0) eqn:E1; [done|]. destruct (dle mult d0) eqn:E2; [done|].
  apply res_bind_Ok in H as (st & Hst & H). apply res_bind_Ok in H as (quot & Hd & H).
  apply res_bind_Ok in H as (pt & Hpt & H). apply res_bind_Ok in H as (t & Ht & H).
  exists qty, mult, quot, st, pt, t. do 5 (split; [done|]). split; [|done].
  destruct (String.eqb_spec (lower (strip dir)) "long_spot_short_perp"); [left; by injection Hst as ->|].
  destruct (String.eqb_spec (lower (strip dir)) "short_spot_long_perp"); [by right|done].
Qed.

Lemma dopp_range a d : dopp a = Ok d -> dec_in_range d = true.
Proof. intros H. apply dopp_rounds, rounds_fits in H. auto with py. Qed.

Lemma entry_wf id q dir m tol c : entry id q dir m tol = Ok c -> cycle_wf c.
Proof.
  intros H. apply entry_inv in H as (qty & mult & quot & st & pt & t & Hq & Hm & Ht & _ & _ & Hdir & _ & Hpt & H).
  assert (dec_in_range st = true) as Hst.
  { destruct Hdir as [[_ ->]|[_ Hdir]]; [by eapply _decimal_range|by eapply dopp_range]. }
  eapply new_cycle_wf; try exact H; try done; eauto using _decimal_range, leg_wf_new, dopp_range.
Qed.

Lemma exit_wf id sq pq m tol c : exit id sq pq m tol = Ok c -> cycle_wf c.
Proof.
  unfold exit. intros H. apply res_bind_Ok in H as (sp & Hs & H). apply res_bind_Ok in H as (pp & Hp & H).
  apply res_bind_Ok in H as (mult & Hm & H). apply res_bind_Ok in H as (t & Ht & H).
  apply res_bind_Ok in H as (pm & _ & H). apply res_bind_Ok in H as (sum & _ & H).
  apply res_bind_Ok in H as (a & _ & H). destruct (dgt a t); [done|].
  apply res_bind_Ok in H as (ns & Hns & H). apply res_bind_Ok in H as (np & Hnp & H).
  eapply new_cycle_wf; try exact H; eauto using _decimal_range, leg_wf_new, dopp_range.
Qed.

(** Division by one, when the numerator needs no rounding. *)
Lemma strip_zeros_exact f c e : strip_zeros f (c * 10 ^ N.of_nat f)%N e (e + Z.of_nat f) = (c, e + Z.of_nat f).
Proof.
  revert e; induction f as [|f IH]; intros e; simpl strip_zeros.
  - rewrite N.mul_1_r. f_equal. lia.
  - rewrite (proj2 (Z.ltb_lt e (e + Z.of_nat (S f)))) by lia.
    rewrite Nat2N.inj_succ, N.pow_succ_r', (N.mul_comm 10), N.mul_assoc.
    rewrite N.Div0.mod_mul, N.div_mul by done. simpl.
    replace (e + Z.of_nat (S f)) with (e + 1 + Z.of_nat f) by lia. apply IH.
Qed.

Lemma ddiv_one a : fits a -> (dcoeff a <> 0)%N -> ddiv a d1 = Ok a.
Proof.
  intros Hf Hc. unfold ddiv. simpl (dcoeff d1). simpl (dneg d1). simpl (dexp d1).
  change (1 =? 0)%N with false. apply N.eqb_neq in Hc as Hc'. rewrite Hc'. cbv iota.
  rewrite xorb_false_r, Z.sub_0_r. change (ndigits 1) with 1.
  pose proof (proj1 Hf) as Hnd. unfold prec in *. pose proof (ndigits_pos (dcoeff a)).
  set (shift := 1 - ndigits (dcoeff a) + 28 + 1).
  assert (0 <= shift) as Hs by lia. apply Z.leb_le in Hs as Hs'. rewrite Hs'.
  rewrite N.mod_1_r, N.div_1_r. change (0 =? 0)%N with true. cbv iota.
  replace (Z.to_nat (dexp a - (dexp a - shift))) with (Z.to_nat shift) by lia.
  pose proof (strip_zeros_exact (Z.to_nat shift) (dcoeff a) (dexp a - shift)) as E.
  rewrite Z2Nat.id in E by done. replace (dexp a - shift + shift) with (dexp a) in E by lia.
  replace (N.of_nat (Z.to_nat shift)) with (Z.to_N shift) in E by lia.
  unfold pow10. rewrite E. destruct a as [s c e]. by apply dfix_id.
Qed.

Lemma dadd_0_l a : fits a -> (dexp a <= 0) -> exists d, dadd d0 a = Ok d /\ (dval d == dval a)%Q /\ fits d /\ dexp d = dexp a /\ dcoeff d = dcoeff a.
Proof.
  intros Hf He. unfold dadd. simpl (dexp d0). replace (Z.min 0 (dexp a)) with (dexp a) by lia.
  assert (zscaled d0 (dexp a) = 0) as -> by done.
  assert (zscaled a (dexp a) = zsigned a) as -> by (unfold zscaled; rewrite Z.sub_diag; apply Z.mul_1_r).
  rewrite Z.add_0_l. set (s := if zsigned a =? 0 then _ else _).
  assert (sgz s (Z.abs_N (zsigned a)) = zsigned a) as Hs.
  { apply sgz_abs. unfold s. destruct (Z.eqb_spec (zsigned a) 0); auto. }
  assert (Z.abs_N (zsigned a) = dcoeff a) as E.
  { unfold zsigned. destruct (dneg a); lia. }
  rewrite E in *. rewrite dfix_id by (destruct a; exact Hf). eexists. split; [done|].
  split; [|split; [by destruct a|done]].
  unfold dval. simpl. change (zsigned (Dec s (dcoeff a) (dexp a))) with (sgz s (dcoeff a)).
  rewrite Hs. apply Qeq_refl.
Qed.

(** A cycle built by [entry] is well formed, starts with
    nothing filled, no events and no breaches, buys the spot quantity and sells
    the perpetual for the long direction and the reverse for the short one, and
    its target delta is within the tolerance. *)
Theorem entry_creates_neutral_cycle id q dir m tol c :
  entry id q dir m tol = Ok c ->
  cycle_wf c /\ seen_events c = ∅ /\ breaches c = [] /\
  (forall l, cumulative_quantity (_leg c l) = d0 /\ status (_leg c l) = CREATED) /\
  (lower (strip dir) = "long_spot_short_perp" ->
     (0 < dval (target_signed_quantity (spot c)) /\ dval (target_signed_quantity (perp c)) <= 0)%Q) /\
  (lower (strip dir) = "short_spot_long_perp" ->
     (dval (target_signed_quantity (spot c)) <= 0 /\ 0 <= dval (target_signed_quantity (perp c)))%Q) /\
  exists delta, target_end_delta c = Ok delta /\ (Qabs (dval delta) <= dval (quantity_tolerance c))%Q.
Proof.
  intros H. pose proof (entry_wf _ _ _ _ _ _ H) as Hwf.
  apply entry_inv in H as (qty & mult & quot & st & pt & t & Hq & Hm & Ht & E1 & E2 & Hdir & Hdiv & Hpt & H).
  apply new_cycle_Ok in H as (-> & _ & _ & _ & _ & _ & delta & a & H1 & H2 & H3);
    try done; try (by eapply _decimal_range).
  simpl in *. dec_props. apply ddiv_rounds in Hdiv as [_ Hdiv]. apply dopp_rounds in Hpt.
  assert (0 < / dval mult)%Q as Hinv by (by apply Qinv_lt_0_compat).
  split; [done|]. split; [done|]. split; [done|]. split; [by intros []|].
  split; [|split].
  - intros Hl. destruct Hdir as [[_ ->]|[Hl' _]]; [|congruence]. split; [done|].
    apply (rounds_nonpos _ _ Hpt). pose proof (rounds_nonneg _ _ Hdiv) as Hn.
    assert (0 <= dval qty / dval mult)%Q by (apply Qle_shift_div_l; lra). lra.
  - intros Hl. destruct Hdir as [[Hl' _]|[_ Hop]]; [congruence|]. apply dopp_rounds in Hop.
    pose proof (rounds_nonpos _ _ Hop) as Hs. split; [lra|].
    apply (rounds_nonneg _ _ Hpt). pose proof (rounds_nonpos _ _ Hdiv) as Hn.
    assert (dval st / dval mult <= 0)%Q by (apply Qle_shift_div_r; lra). lra.
  - exists delta. split; [done|].
    assert (fits delta) as Hf.
    { unfold target_end_delta in H1. simpl in H1. apply res_bind_Ok in H1 as (x & _ & H1).
      apply res_bind_Ok in H1 as (y & _ & H1). apply res_bind_Ok in H1 as (z & _ & H1).
      apply dadd_rounds in H1. eauto with py. }
    destruct (dabs_exact _ _ Hf H2) as [<- _]. done.
Qed.

(** [residual_repair] proposes nothing exactly when the cycle
    is hedged; otherwise it sells a long delta and buys a short one, the spot
    repair quantity is exactly the net delta and the perpetual one is the net
    delta divided by the multiplier, rounded once, and only a perpetual repair
    is reduce-only. *)
Theorem repair_closes_gap c prefer emergency r :
  residual_repair c prefer emergency = Ok r ->
  exists m, mismatch_quantity c = Ok m /\
  match r with
  | None => hedged c = Ok true
  | Some i =>
      hedged c = Ok false /\ r_leg i = prefer /\
      ((r_side i = "SELL" /\ 0 < dval m) \/ (r_side i = "BUY" /\ dval m <= 0))%Q /\
      match prefer with
      | SPOT => (dval (r_quantity i) == Qabs (dval m))%Q
      | PERP => rounds (Qabs (dval m) / dval (perp_delta_multiplier c)) (r_quantity i)
      end /\
      (r_reduce_only i = true -> prefer = PERP /\ emergency = true)
  end.
Proof.
  unfold residual_repair, hedged. intros H. apply res_bind_Ok in H as (m & Hm & H).
  apply res_bind_Ok in H as (a & Ha & H). exists m. split; [done|]. rewrite Hm; simpl. rewrite Ha; simpl.
  destruct (dabs_exact m a (mismatch_fits c m Hm) Ha) as [Ea _].
  destruct (dle a (quantity_tolerance c)) eqn:Et; [by injection H as <-|].
  apply res_bind_Ok in H as (q & Hq & H). injection H as <-. simpl.
  split; [done|]. split; [done|]. split.
  { destruct (dgt m d0) eqn:E; dec_props; auto. }
  split.
  - destruct prefer; simpl in Hq.
    + injection Hq as <-. done.
    + apply ddiv_rounds in Hq as [_ Hq]. by rewrite Ea in Hq.
  - intros Hr. bool_props. done.
Qed.

(** ** The risk integral *)

Record risk_ok (c : HedgeCycleState) : Prop := {
  risk_fits : fits (risk_notional_ms c);
  risk_ms_nonneg : (0 <= dval (risk_notional_ms c))%Q;
  risk_notional_nonneg : (0 <= dval (risk_notional c))%Q
}.

Lemma dec_of_Z_val z : (dval (dec_of_Z z) == inject_Z z)%Q.
Proof.
  unfold dval, dec_of_Z. change (zsigned _) with (sgz (z <? 0) (Z.abs_N z)). simpl (dexp _).
  rewrite sgz_abs by auto. simpl (10 ^ 0)%Q. ring.
Qed.

Lemma observe_risk_ok t p c : risk_ok c ->
  let c' := snd (observe_risk t p c) in
  risk_ok c' /\ (dval (risk_notional_ms c) <= dval (risk_notional_ms c'))%Q /\
  (c' = c \/ risk_observed_at_ms c' = Some t /\ (forall a, risk_observed_at_ms c = Some a -> a <= t)).
Proof.
  intros [F R N]. unfold observe_risk.
  assert (risk_ok c /\ (dval (risk_notional_ms c) <= dval (risk_notional_ms c))%Q /\
    (c = c \/ risk_observed_at_ms c = Some t /\ (forall a, risk_observed_at_ms c = Some a -> a <= t))) as Hc
    by (split; [done|split; [apply Qle_refl|auto]]).
  destruct (_decimal _ _) as [price|]; [|done]. destruct (dle price d0) eqn:Ep; [done|].
  match goal with |- context [match ?m with Ok _ => _ | Err _ => (Err _, c) end] => destruct m as [total|] eqn:Ht end;
    [|done].
  assert (fits total /\ (dval (risk_notional_ms c) <= dval total)%Q /\
          (forall a, risk_observed_at_ms c = Some a -> a <= t)) as (Ft & Hle & Hat).
  { destruct (risk_observed_at_ms c) as [at_ms|]; [|injection Ht as <-; split; [done|split; [apply Qle_refl|done]]].
    destruct (Z.ltb_spec t at_ms) as [|Htime]; [done|]. apply res_bind_Ok in Ht as (inc & Hi & Ht).
    apply dadd_rounds in Ht. split; [eauto with py|]. split; [|by intros a [= ->]].
    apply (rounds_ge _ _ _ Ht F). apply dmul_rounds in Hi.
    pose proof (rounds_nonneg _ _ Hi) as Hn. rewrite dec_of_Z_val in Hn.
    assert (0 <= inject_Z (t - at_ms))%Q by (change 0%Q with (inject_Z 0); rewrite <- Zle_Qle; lia).
    assert (0 <= dval (risk_notional c) * inject_Z (t - at_ms))%Q by (by apply Qmult_le_0_compat).
    lra. }
  assert (0 <= dval total)%Q as Ht0 by lra.
  assert (forall n, (0 <= dval n)%Q -> risk_ok (set_risk c total (Some t) n)) as Hok by (intros; by constructor).
  destruct (mismatch_quantity _) as [m|]; simpl; [|by auto].
  destruct (dabs m) as [a|] eqn:Ea; simpl; [|by auto].
  destruct (dmul a price) as [n|] eqn:En; simpl; [|by auto].
  split; [|by auto]. apply Hok. apply dmul_rounds in En. apply (rounds_nonneg _ _ En).
  apply dabs_nonneg in Ea. dec_props. apply Qmult_le_0_compat; lra.
Qed.

Lemma apply_risk u c :
  risk_notional_ms (snd (apply u c)) = risk_notional_ms c /\
  risk_notional (snd (apply u c)) = risk_notional c /\
  risk_observed_at_ms (snd (apply u c)) = risk_observed_at_ms c.
Proof.
  by destruct (apply_state u c) as [->|[(fp & ->)|(fp & cum & delta & st & brs & -> & _)]].
Qed.

Lemma risk_reachable c0 c : risk_ok c0 -> reachable c0 c ->
  risk_ok c /\ (dval (risk_notional_ms c0) <= dval (risk_notional_ms c))%Q /\
  (forall a, risk_observed_at_ms c0 = Some a -> exists b, risk_observed_at_ms c = Some b /\ a <= b).
Proof.
  intros H0. induction 1 as [|c k _ (IH1 & IH2 & IH3)].
  - split; [done|]. split; [apply Qle_refl|]. intros a ->. exists a. split; [done|lia].
  - destruct k as [u|t p]; simpl.
    + destruct (apply_risk u c) as (E1 & E2 & E3). rewrite E1, E3. split; [|done].
      destruct IH1. by constructor; rewrite ?E1, ?E2.
    + destruct (observe_risk_ok t p c IH1) as (H1 & H2 & H3). split; [done|]. split; [lra|].
      destruct H3 as [->|[-> H3]]; [done|]. intros a Ha. exists t. split; [done|].
      destruct (IH3 a Ha) as (b & Hb & Hab). specialize (H3 b Hb). lia.
Qed.

(** Along any run the accumulated risk (notional times
    milliseconds) stays non-negative and never decreases, and the observation
    clock never goes backwards. *)
Theorem risk_integral_monotone c0 c :
  risk_ok c0 -> reachable c0 c ->
  risk_ok c /\ (dval (risk_notional_ms c0) <= dval (risk_notional_ms c))%Q /\
  (forall a, risk_observed_at_ms c0 = Some a -> exists b, risk_observed_at_ms c = Some b /\ a <= b).
Proof. apply risk_reachable. Qed.

(** ** Snapshots *)

Lemma Leg_of_value l : Leg_of (Leg_value l) = Ok l.
Proof. by destruct l. Qed.

Lemma LegStatus_of_value s : LegStatus_of (LegStatus_value s) = Ok s.
Proof. by destruct s. Qed.

Lemma as_opt_int_opt o : as_opt_int (opt_int o) = Ok o.
Proof. by destruct o. Qed.

Lemma str_items_VStr l : str_items (VList (map VStr l)) = Ok l.
Proof. unfold str_items. simpl. rewrite map_map. simpl. by rewrite map_id. Qed.

Lemma leg_state_payload s l : leg s = l -> leg_wf s ->
  leg_state [("leg", VStr (Leg_value (leg s)));
    ("target_signed_quantity", VStr (dec_str (target_signed_quantity s)));
    ("cumulative_quantity", VStr (dec_str (cumulative_quantity s)));
    ("status", VStr (LegStatus_value (status s)));
    ("order_id", VStr (order_id s));
    ("client_order_id", VStr (client_order_id s));
    ("last_sequence", opt_int (last_sequence s));
    ("last_event_time_ms", VInt (last_event_time_ms s));
    ("exchange_verified", VBool (exchange_verified s));
    ("breaches", VList (map VStr (leg_breaches s)))] l = Ok s.
Proof.
  intros <- [R1 R2 _ _]. unfold leg_state, get, get_or.
  cbn [dict_get String.eqb Ascii.eqb Bool.eqb py_str].
  rewrite Leg_of_value; cbn [res_bind]. rewrite bool_decide_eq_true_2 by done. cbn [negb].
  rewrite _decimal_VStr by done; cbn [res_bind]. rewrite _decimal_VStr by done; cbn [res_bind].
  rewrite LegStatus_of_value; cbn [res_bind]. rewrite as_opt_int_opt; cbn [res_bind py_int].
  rewrite str_items_VStr; cbn [res_bind truthy]. by destruct s.
Qed.

Lemma seen_roundtrip (m : gmap string string) :
  list_to_map (rev (map (fun kv => (fst kv, py_str (snd kv)))
    (map (fun kv => (fst kv, VStr (snd kv))) (dict_sorted (map_to_list m))))) = m.
Proof.
  rewrite map_map. simpl.
  rewrite (map_ext _ id) by (by intros []). rewrite map_id.
  assert (rev (dict_sorted (map_to_list m)) ≡ₚ map_to_list m) as HP.
  { rewrite <- Permutation_rev. apply sort_by_perm. }
  rewrite <- (list_to_map_to_list m) at 2. apply list_to_map_proper; [|done].
  apply (NoDup_Permutation_proper _ _ (fmap_Permutation fst _ _ HP)), NoDup_fst_map_to_list.
Qed.

(** For every well-formed cycle, in particular every state
    a run reaches, restoring its snapshot gives back exactly that cycle. *)
Theorem snapshot_roundtrip c : cycle_wf c -> from_snapshot (to_snapshot c) = Ok c.
Proof.
  intros [W1 W2 W3 W4 W5 R1 R2 R3 R4 W6 W7 (delta & a & D1 & D2 & D3) [R5 R6] _ _].
  unfold from_snapshot, to_snapshot, get, get_or, leg_payload.
  cbn [dict_get String.eqb Ascii.eqb Bool.eqb py_int res_bind Z.eqb negb py_dict Pos.eqb].
  rewrite (leg_state_payload (spot c) SPOT) by done; cbn [res_bind].
  rewrite (leg_state_payload (perp c) PERP) by done; cbn [res_bind].
  rewrite !_decimal_VStr by done; cbn [res_bind]. rewrite str_items_VStr; cbn [res_bind py_str].
  rewrite seen_roundtrip. unfold new_cycle. rewrite !_decimal_VDec by done; cbn [res_bind].
  rewrite W1, W6, W7, W2, W3. cbn [negb orb].
  rewrite !bool_decide_eq_true_2 by done. cbn [negb orb].
  match goal with |- context [target_end_delta ?x] =>
    assert (target_end_delta x = Ok delta) as -> by exact D1 end.
  cbn [res_bind]. rewrite D2; cbn [res_bind]. rewrite D3; cbn [res_bind].
  destruct (risk_observed_at_ms c) eqn:E; cbn [opt_int py_int res_bind];
    destruct c; simpl in *; by subst.
Qed.

(** ** Concrete runs

    A cycle of 1.5 units, its spot fill, a late conflicting redelivery and an
    overfill; each theorem above is applied to one of them. *)
Definition ex_cycle : HedgeCycleState :=
  mkCycle "cycle-1" (new_leg SPOT (dlit "1.5")) (new_leg PERP (dlit "-1.5")) d0 d0 d1
    (dlit "0.00000001") ∅ [] d0 None d0.

Definition ex_fill : LegUpdate :=
  Build_LegUpdate "evt-1" SPOT (inr "FILLED") (VStr "1.5") 1000 "order-1" "client-1" (Some 1) true "stream".
Definition ex_regressed : LegUpdate :=
  Build_LegUpdate "evt-2" SPOT (inr "PARTIAL") (VStr "0.5") 2000 "order-1" "client-1" (Some 2) true "stream".
Definition ex_collision : LegUpdate :=
  Build_LegUpdate "evt-1" SPOT (inr "FILLED") (VStr "1.4") 1000 "order-1" "client-1" (Some 1) true "stream".
Definition ex_overfill : LegUpdate :=
  Build_LegUpdate "evt-3" PERP (inr "CANCELED") (VStr "1.6") 3000 "" "" None true "stream".

Definition ex_filled : HedgeCycleState := after_call (CallApply ex_fill) ex_cycle.
Definition ex_overfilled : HedgeCycleState := after_call (CallApply ex_overfill) ex_filled.
Definition ex_transition : Transition :=
  Build_Transition true false false (dlit "1.5") CREATED FILLED (dlit "1.5") [].

Lemma ex_entry : entry "cycle-1" (VStr "1.5") "Long_Spot_Short_Perp" (VInt 1) (VStr "0.00000001") = Ok ex_cycle.
Proof. vm_cast_no_check (eq_refl (Ok ex_cycle)). Qed.

Lemma ex_filled_reachable : reachable ex_cycle ex_filled.
Proof. exact (reach_step ex_cycle ex_cycle (CallApply ex_fill) (reach_init ex_cycle)). Qed.

Lemma ex_overfilled_reachable : reachable ex_cycle ex_overfilled.
Proof. exact (reach_step ex_cycle ex_filled (CallApply ex_overfill) ex_filled_reachable). Qed.

(** Both legs of a cycle of exchange amounts, filled alike. *)
Definition ex_complete : HedgeCycleState :=
  mkCycle "cycle-1" (mkLeg SPOT (Dec false 15 (-1)) (Dec false 15 (-1)) FILLED "1" "b_s" (Some 1) 10 true [])
    (mkLeg PERP (Dec true 15 (-1)) (Dec false 15 (-1)) FILLED "2" "b_p" (Some 1) 10 true []) d0 d0 d1 (Dec false 1 (-8)) ∅ [] d0 None d0.

Lemma ex_complete_amounts : exchange_amounts ex_complete.
Proof. split; try (intros []); vm_compute; repeat split; discriminate. Qed.

Lemma completion_sound_witness : safe_to_project_complete ex_complete = Ok true /\
  (Qabs (net_delta ex_complete) <= dval (quantity_tolerance ex_complete))%Q.
Proof.
  assert (safe_to_project_complete ex_complete = Ok true) as H by (vm_compute; reflexivity).
  split; [exact H|]. exact (proj2 (proj2 (proj1 (proj2 (completion_sound ex_complete) ex_complete_amounts) H))).
Defined.

Lemma apply_idempotent_witness :
  exists t', apply ex_fill ex_filled = (Ok t', ex_filled) /\ t_duplicate t' = true /\ t_applied t' = false /\
             t_fill_delta t' = d0 /\ t_mismatch_quantity t' = t_mismatch_quantity ex_transition.
Proof. apply (apply_idempotent ex_fill ex_cycle ex_transition ex_filled), pair_snd. vm_compute. reflexivity. Defined.

Lemma event_collision_rejected_witness :
  exists msg, apply ex_collision ex_filled = (invariant_error msg, ex_filled).
Proof.
  apply (event_collision_rejected ex_collision ex_filled
           (match fingerprint ex_fill with Ok s => s | _ => EmptyString end)
           (match fingerprint ex_collision with Ok s => s | _ => EmptyString end)).
  - vm_compute. reflexivity.
  - vm_compute. reflexivity.
  - vm_compute. discriminate.
Defined.

Lemma apply_error_atomic_witness :
  ex_filled = ex_filled \/
  (mismatch_quantity ex_filled = Err (Exn ExecutionInvariantError "newer cumulative quantity regressed") /\
   exists fp, seen_events ex_filled !! "evt-2" = Some fp).
Proof.
  apply (apply_error_atomic ex_regressed ex_filled
           (Exn ExecutionInvariantError "newer cumulative quantity regressed") ex_filled).
  vm_compute. reflexivity.
Defined.

Lemma reachable_invariant_witness : cycle_wf ex_overfilled.
Proof.
  apply (reachable_invariant ex_cycle); [|apply ex_overfilled_reachable].
  eapply entry_wf, ex_entry.
Defined.

Lemma fills_monotone_witness :
  dle (cumulative_quantity (_leg ex_cycle PERP)) (cumulative_quantity (_leg ex_overfilled PERP)) = true /\
  target_signed_quantity (_leg ex_overfilled PERP) = target_signed_quantity (_leg ex_cycle PERP) /\
  (forall id fp, seen_events ex_cycle !! id = Some fp -> seen_events ex_overfilled !! id = Some fp) /\
  (forall b, b ∈ breaches ex_cycle -> b ∈ breaches ex_overfilled).
Proof. apply (fills_monotone ex_cycle ex_overfilled PERP), ex_overfilled_reachable. Defined.

Lemma breach_blocks_completion_witness :
  breaches ex_overfilled = ["perp:overfill"; "perp:target_filled_with_nonfilled_status"] /\
  safe_to_project_complete ex_overfilled <> Ok true.
Proof.
  split; [vm_compute; reflexivity|].
  apply (breach_blocks_completion ex_overfilled ex_overfilled); [vm_compute; discriminate|apply reach_init].
Defined.

Lemma accepted_update_effect_witness :
  exists cum target hi,
    _decimal (VStr "1.5") "cumulative_quantity" = Ok cum /\
    target_quantity (spot ex_cycle) = Ok target /\ dadd target (quantity_tolerance ex_cycle) = Ok hi /\
    cumulative_quantity (_leg ex_filled SPOT) = cum /\
    status (_leg ex_filled SPOT) = FILLED.
Proof.
  destruct (accepted_update_effect ex_fill ex_cycle ex_transition ex_filled)
    as (cum & target & hi & H1 & H2 & H3 & H4 & H5 & _); [apply pair_snd; vm_compute; reflexivity|reflexivity|].
  exists cum, target, hi. auto.
Defined.

Lemma entry_creates_neutral_cycle_witness :
  cycle_wf ex_cycle /\ seen_events ex_cycle = ∅ /\
  (0 < dval (target_signed_quantity (spot ex_cycle)) /\ dval (target_signed_quantity (perp ex_cycle)) <= 0)%Q.
Proof.
  destruct (entry_creates_neutral_cycle _ _ _ _ _ _ ex_entry) as (H1 & H2 & _ & _ & H3 & _).
  split; [exact H1|]. split; [exact H2|]. apply H3. vm_compute. reflexivity.
Defined.

Lemma repair_closes_gap_witness :
  exists m, mismatch_quantity ex_filled = Ok m /\ hedged ex_filled = Ok false /\
            rounds (Qabs (dval m) / dval d1) (dlit "1.5").
Proof.
  destruct (repair_closes_gap ex_filled PERP true
              (Some (Build_RepairIntent PERP "SELL" (dlit "1.5") true "emergency_delta_reduction")))
    as (m & H1 & H2 & _ & _ & H3 & _); [vm_compute; reflexivity|].
  exists m. auto.
Defined.

Lemma risk_integral_monotone_witness :
  risk_ok ex_overfilled /\ (dval (risk_notional_ms ex_cycle) <= dval (risk_notional_ms ex_overfilled))%Q /\
  (forall a, risk_observed_at_ms ex_cycle = Some a -> exists b, risk_observed_at_ms ex_overfilled = Some b /\ a <= b).
Proof.
  apply (risk_integral_monotone ex_cycle ex_overfilled); [|apply ex_overfilled_reachable].
  split; [|vm_compute; discriminate..]. vm_compute. repeat split; discriminate.
Defined.

Lemma snapshot_roundtrip_witness : from_snapshot (to_snapshot ex_cycle) = Ok ex_cycle.
Proof. apply (snapshot_roundtrip ex_cycle). eapply entry_wf, ex_entry. Defined.
