(* ===== verification/CapitalReservations.v ===== *)
(** * The capital reservation book

    Model of [src/bongus/portfolio/capital_reservations.py].  The SQLite table
    [capital_reservations] is the list of its rows in insertion order (the
    order a scan returns them) and [capital_reservation_events] the list of its
    events; an operation that rolls back returns the book it started from.
    Amounts are stored as text and parsed when read, as in the code.  Instants
    are their UTC [isoformat] texts: [now] is the caller's, [clock] the reading
    of [_now_iso]. *)
From Stdlib Require Import ZArith Lia Ascii.
From stdpp Require Import base list strings.
From S2P Require Import Prelude PyDecimal PyDecimalFacts PyValue.
Open Scope Z_scope.

(** ** Data *)

Inductive ReservationPurpose := ENTRY | ROTATION_ENTRY | HEDGE_REPAIR | EXIT | TREASURY.
Inductive ReservationState := RESERVED | DISPATCHED | UNKNOWN | RELEASED.

#[export] Instance ReservationPurpose_eq_dec : EqDecision ReservationPurpose.
Proof. solve_decision. Defined.
#[export] Instance ReservationState_eq_dec : EqDecision ReservationState.
Proof. solve_decision. Defined.

Definition purpose_value (p : ReservationPurpose) : string :=
  match p with
  | ENTRY => "ENTRY" | ROTATION_ENTRY => "ROTATION_ENTRY" | HEDGE_REPAIR => "HEDGE_REPAIR"
  | EXIT => "EXIT" | TREASURY => "TREASURY"
  end.

Definition state_value (s : ReservationState) : string :=
  match s with
  | RESERVED => "RESERVED" | DISPATCHED => "DISPATCHED" | UNKNOWN => "UNKNOWN" | RELEASED => "RELEASED"
  end.

(** [ReservationState.consumes_capital] *)
Definition consumes_capital (s : ReservationState) : bool :=
  negb (bool_decide (s = RELEASED)).

Definition reservation_error {A} (msg : string) : result A := raise ReservationError msg.

(** [ReservationState(value)] *)
Definition ReservationState_of (v : string) : result ReservationState :=
  match List.find (fun s => String.eqb (state_value s) v) [RESERVED; DISPATCHED; UNKNOWN; RELEASED] with
  | Some s => Ok s
  | None => raise ValueError "is not a valid ReservationState"
  end.

Definition _decimal (value : pyval) (name : string) : result dec :=
  finite_decimal ReservationError true value name.

Record CapitalState := {
  equity_usd : pyval;
  spot_cash_available_usd : pyval;
  futures_margin_available_usd : pyval;
  current_pair_gross_usd : pyval;
  max_pair_gross_usd : pyval;
  current_initial_margin_usd : pyval;
  current_maintenance_margin_usd : pyval;
  spot_borrow_available_usd : pyval
}.

Record ReservationPolicy := {
  repair_reserve_usd : pyval;
  exit_reserve_usd : pyval;
  minimum_liquidation_buffer_usd : pyval;
  max_margin_utilization : pyval
}.

Record ReservationRequest := {
  q_reservation_id : string;
  q_purpose : ReservationPurpose;
  q_symbol : string;
  q_cycle_id : string;
  q_spot_cash_usd : pyval;
  q_futures_margin_usd : pyval;
  q_fees_usd : pyval;
  q_pair_gross_increment_usd : pyval;
  q_config_version : string;
  q_expires_at : option string;
  q_metadata : option (dict pyval);
  q_spot_borrow_usd : pyval
}.

(** The dictionary [ReservationRequest.normalized] returns. *)
Record Normalized := {
  n_reservation_id : string;
  n_purpose : ReservationPurpose;
  n_symbol : string;
  n_cycle_id : string;
  n_spot_cash_usd : string;
  n_spot_borrow_usd : string;
  n_futures_margin_usd : string;
  n_fees_usd : string;
  n_pair_gross_increment_usd : string;
  n_config_version : string;
  n_expires_at : option string;
  n_metadata : dict pyval
}.

Definition entry_purpose (p : ReservationPurpose) : bool :=
  match p with ENTRY | ROTATION_ENTRY => true | _ => false end.

Definition normalized (q : ReservationRequest) : result Normalized :=
  if negb (nonempty (strip (q_reservation_id q))) || negb (nonempty (strip (q_symbol q)))
     || negb (nonempty (strip (q_config_version q)))
  then reservation_error "reservation_id, symbol and config_version are required"
  else
    let! cash := _decimal (q_spot_cash_usd q) "spot_cash_usd" in
    let! borrow := _decimal (q_spot_borrow_usd q) "spot_borrow_usd" in
    let! margin := _decimal (q_futures_margin_usd q) "futures_margin_usd" in
    let! fees := _decimal (q_fees_usd q) "fees_usd" in
    let! gross := _decimal (q_pair_gross_increment_usd q) "pair_gross_increment_usd" in
    if existsb (fun v => dlt v d0) [cash; borrow; margin; fees; gross]
    then reservation_error "reservation requirements must be non-negative"
    else if entry_purpose (q_purpose q)
            && (negb (nonempty (strip (q_cycle_id q))) || dle gross d0)
    then reservation_error "entry reservations require cycle_id and positive pair gross"
    else Ok {|
      n_reservation_id := strip (q_reservation_id q);
      n_purpose := q_purpose q;
      n_symbol := upper (strip (q_symbol q));
      n_cycle_id := strip (q_cycle_id q);
      n_spot_cash_usd := dec_str cash;
      n_spot_borrow_usd := dec_str borrow;
      n_futures_margin_usd := dec_str margin;
      n_fees_usd := dec_str fees;
      n_pair_gross_increment_usd := dec_str gross;
      n_config_version := strip (q_config_version q);
      n_expires_at := q_expires_at q;
      n_metadata := match q_metadata q with Some m => m | None => [] end
    |}.

Definition opt_str (o : option string) : pyval := match o with Some s => VStr s | None => VNone end.

Definition normalized_payload (n : Normalized) : pyval :=
  VDict [
    ("reservation_id", VStr (n_reservation_id n));
    ("purpose", VStr (purpose_value (n_purpose n)));
    ("symbol", VStr (n_symbol n));
    ("cycle_id", VStr (n_cycle_id n));
    ("spot_cash_usd", VStr (n_spot_cash_usd n));
    ("spot_borrow_usd", VStr (n_spot_borrow_usd n));
    ("futures_margin_usd", VStr (n_futures_margin_usd n));
    ("fees_usd", VStr (n_fees_usd n));
    ("pair_gross_increment_usd", VStr (n_pair_gross_increment_usd n));
    ("config_version", VStr (n_config_version n));
    ("expires_at", opt_str (n_expires_at n));
    ("metadata", VDict (n_metadata n))].

Record CapitalProjection := {
  reserved_spot_cash_usd : dec;
  reserved_spot_borrow_usd : dec;
  reserved_futures_margin_usd : dec;
  reserved_fees_usd : dec;
  reserved_pair_gross_usd : dec;
  entry_spot_cash_remaining_usd : dec;
  entry_spot_borrow_remaining_usd : dec;
  entry_futures_margin_remaining_usd : dec;
  pair_gross_remaining_usd : dec;
  liquidation_buffer_after_reservations_usd : dec
}.

Record ReservationDecision := {
  d_allowed : bool;
  d_duplicate : bool;
  d_reservation_id : string;
  d_reasons : list string;
  d_projection : CapitalProjection
}.

(** ** The tables *)

Record row := Row {
  w_reservation_id : string;
  w_request_hash : string;
  w_purpose : string;
  w_symbol : string;
  w_cycle_id : string;
  w_spot_cash_usd : string;
  w_spot_borrow_usd : string;
  w_futures_margin_usd : string;
  w_fees_usd : string;
  w_pair_gross_increment_usd : string;
  w_config_version : string;
  w_state : string;
  w_expires_at : option string;
  w_exchange_terminal_proven : Z;
  w_metadata_json : string;
  w_created_at : string;
  w_updated_at : string;
  w_released_at : option string;
  w_release_reason : string
}.

Record event := Event {
  e_reservation_id : string;
  e_event_time : string;
  e_prior_state : string;
  e_next_state : string;
  e_reason : string;
  e_evidence_json : string
}.

Record book := Book { rows : list row; events : list event }.

Definition empty_book : book := Book [] [].

Definition is_released (r : row) : bool := String.eqb (w_state r) "RELEASED".

(** [SELECT ... WHERE reservation_id = ?] *)
Definition find_row (b : book) (id : string) : option row :=
  List.find (fun r => String.eqb (w_reservation_id r) id) (rows b).

(** [UPDATE ... WHERE reservation_id = ?] *)
Definition update_row (f : row -> row) (id : string) (b : book) : book :=
  Book (map (fun r => if String.eqb (w_reservation_id r) id then f r else r) (rows b)) (events b).

Definition _event (b : book) (id clock prior next reason evidence_json : string) : book :=
  Book (rows b) (events b ++ [Event id clock prior next reason evidence_json]).

Definition set_released (now reason : string) (r : row) : row :=
  Row (w_reservation_id r) (w_request_hash r) (w_purpose r) (w_symbol r) (w_cycle_id r)
    (w_spot_cash_usd r) (w_spot_borrow_usd r) (w_futures_margin_usd r) (w_fees_usd r)
    (w_pair_gross_increment_usd r) (w_config_version r) "RELEASED" (w_expires_at r)
    (w_exchange_terminal_proven r) (w_metadata_json r) (w_created_at r) now (Some now) reason.

Definition set_transition (next : ReservationState) (clock reason : string) (proven : Z) (r : row) : row :=
  let released := bool_decide (next = RELEASED) in
  Row (w_reservation_id r) (w_request_hash r) (w_purpose r) (w_symbol r) (w_cycle_id r)
    (w_spot_cash_usd r) (w_spot_borrow_usd r) (w_futures_margin_usd r) (w_fees_usd r)
    (w_pair_gross_increment_usd r) (w_config_version r) (state_value next) (w_expires_at r)
    (Z.max (w_exchange_terminal_proven r) proven) (w_metadata_json r) (w_created_at r) clock
    (if released then Some clock else w_released_at r)
    (if released then reason else w_release_reason r).

(** ** Projection and admission *)

Definition active_rows (b : book) : list row := List.filter (fun r => negb (is_released r)) (rows b).

(** [sum((_decimal(row[...]) for row in rows), Decimal("0"))] *)
Definition sum_field (field : row -> string) (name : string) (l : list row) : result dec :=
  res_fold (fun acc r => let! d := _decimal (VStr (field r)) name in dadd acc d) d0 l.

Definition _projection (b : book) (capital : CapitalState) (policy : ReservationPolicy)
    (borrow_symbol : option string) : result CapitalProjection :=
  let rs := active_rows b in
  let! r_spot := sum_field w_spot_cash_usd "spot_cash_usd" rs in
  let! r_borrow := sum_field w_spot_borrow_usd "spot_borrow_usd"
    (List.filter (fun r => match borrow_symbol with
                           | None => true
                           | Some s => String.eqb (upper (w_symbol r)) (upper s)
                           end) rs) in
  let! r_margin := sum_field w_futures_margin_usd "futures_margin_usd" rs in
  let! r_fees := sum_field w_fees_usd "fees_usd" rs in
  let! r_gross := sum_field w_pair_gross_increment_usd "pair_gross_increment_usd" rs in
  let! spot_available := _decimal (spot_cash_available_usd capital) "spot_cash_available_usd" in
  let! borrow_available := _decimal (spot_borrow_available_usd capital) "spot_borrow_available_usd" in
  let! futures_available := _decimal (futures_margin_available_usd capital) "futures_margin_available_usd" in
  let! repair := _decimal (repair_reserve_usd policy) "repair_reserve_usd" in
  let! exit_reserve := _decimal (exit_reserve_usd policy) "exit_reserve_usd" in
  let! liquidation := _decimal (minimum_liquidation_buffer_usd policy) "minimum_liquidation_buffer_usd" in
  let! current_gross := _decimal (current_pair_gross_usd capital) "current_pair_gross_usd" in
  let! gross_cap := _decimal (max_pair_gross_usd capital) "max_pair_gross_usd" in
  let! s1 := dsub spot_available r_spot in
  let! s2 := dsub s1 r_fees in
  let! s3 := dsub s2 repair in
  let! s4 := dsub s3 exit_reserve in
  let! bo := dsub borrow_available r_borrow in
  let! m1 := dsub futures_available r_margin in
  let! m2 := dsub m1 repair in
  let! m3 := dsub m2 exit_reserve in
  let! m4 := dsub m3 liquidation in
  let! g1 := dsub gross_cap current_gross in
  let! g2 := dsub g1 r_gross in
  let! l1 := dsub futures_available r_margin in
  Ok {|
    reserved_spot_cash_usd := r_spot;
    reserved_spot_borrow_usd := r_borrow;
    reserved_futures_margin_usd := r_margin;
    reserved_fees_usd := r_fees;
    reserved_pair_gross_usd := r_gross;
    entry_spot_cash_remaining_usd := dmax d0 s4;
    entry_spot_borrow_remaining_usd := dmax d0 bo;
    entry_futures_margin_remaining_usd := dmax d0 m4;
    pair_gross_remaining_usd := dmax d0 g2;
    liquidation_buffer_after_reservations_usd := l1
  |}.

Definition projection (b : book) (capital : CapitalState) (policy : ReservationPolicy) : result CapitalProjection :=
  _projection b capital policy None.

Definition entry_like (p : ReservationPurpose) : bool :=
  match p with ENTRY | ROTATION_ENTRY | TREASURY => true | _ => false end.

Definition _admission_reasons (n : Normalized) (capital : CapitalState) (policy : ReservationPolicy)
    (p : CapitalProjection) : result (list string) :=
  let! cash := _decimal (VStr (n_spot_cash_usd n)) "spot_cash_usd" in
  let! fees := _decimal (VStr (n_fees_usd n)) "fees_usd" in
  let! required_spot := dadd cash fees in
  let! required_borrow := _decimal (VStr (n_spot_borrow_usd n)) "spot_borrow_usd" in
  let! required_margin := _decimal (VStr (n_futures_margin_usd n)) "futures_margin_usd" in
  let! required_gross := _decimal (VStr (n_pair_gross_increment_usd n)) "pair_gross_increment_usd" in
  let entry := entry_like (n_purpose n) in
  let! reasons :=
    (if entry then
      Ok (reason_if (dgt required_spot (entry_spot_cash_remaining_usd p)) "spot_cash_after_repair_exit_reserves"
        ++ reason_if (dgt required_borrow (entry_spot_borrow_remaining_usd p)) "spot_borrow_availability"
        ++ reason_if (dgt required_margin (entry_futures_margin_remaining_usd p))
             "futures_margin_after_repair_exit_liquidation_reserves"
        ++ reason_if (dgt required_gross (pair_gross_remaining_usd p)) "pair_gross_cap")
    else
      let! raw_spot := _decimal (spot_cash_available_usd capital) "spot_cash_available_usd" in
      let! raw_borrow := _decimal (spot_borrow_available_usd capital) "spot_borrow_available_usd" in
      let! raw_margin := _decimal (futures_margin_available_usd capital) "futures_margin_available_usd" in
      let! minimum_buffer := _decimal (minimum_liquidation_buffer_usd policy) "minimum_liquidation_buffer_usd" in
      let! s1 := dsub raw_spot (reserved_spot_cash_usd p) in
      let! s2 := dsub s1 (reserved_fees_usd p) in
      let! b1 := dsub raw_borrow (reserved_spot_borrow_usd p) in
      let! m1 := dsub raw_margin (reserved_futures_margin_usd p) in
      let! m2 := dsub m1 minimum_buffer in
      Ok (reason_if (dgt required_spot s2) "insufficient_raw_spot_cash_for_repair_or_exit"
        ++ reason_if (dgt required_borrow b1) "insufficient_raw_spot_borrow_for_repair_or_exit"
        ++ reason_if (dgt required_margin m2) "insufficient_raw_margin_for_repair_or_exit")) in
  let! equity := _decimal (equity_usd capital) "equity_usd" in
  let! max_utilization := _decimal (max_margin_utilization policy) "max_margin_utilization" in
  let! current_initial := _decimal (current_initial_margin_usd capital) "current_initial_margin_usd" in
  if entry && dgt equity d0 then
    let! u1 := dadd current_initial (reserved_futures_margin_usd p) in
    let! u2 := dadd u1 required_margin in
    let! limit := dmul equity max_utilization in
    Ok (reasons ++ reason_if (dgt u2 limit) "initial_margin_utilization_cap")
  else Ok reasons.

(** ** Operations *)

Definition expirable (now : string) (r : row) : bool :=
  String.eqb (w_state r) "RESERVED"
  && match w_expires_at r with Some e => String.leb e now | None => false end.

(** One iteration of the loop of [_expire_safe_unsent]. *)
Definition expire_one (now clock : string) (b : book) (id : string) : book :=
  _event (update_row (set_released now "expired_before_dispatch") id b) id clock
    "RESERVED" "RELEASED" "expired_before_dispatch" "{}".

Definition _expire_safe_unsent (now clock : string) (b : book) : book :=
  fold_left (expire_one now clock) (map w_reservation_id (List.filter (expirable now) (rows b))) b.

Definition new_row (n : Normalized) (hash now metadata_json : string) : row :=
  Row (n_reservation_id n) hash (purpose_value (n_purpose n)) (n_symbol n) (n_cycle_id n)
    (n_spot_cash_usd n) (n_spot_borrow_usd n) (n_futures_margin_usd n) (n_fees_usd n)
    (n_pair_gross_increment_usd n) (n_config_version n) "RESERVED" (n_expires_at n) 0
    metadata_json now now None "".

(** The body of the transaction of [reserve]: the decision and whether it is
    committed with the returned book or rolled back. *)
Definition reserve_body (n : Normalized) (hash now clock : string) (capital : CapitalState)
    (policy : ReservationPolicy) (b0 : book) : result (ReservationDecision * option book) :=
  let b := _expire_safe_unsent now clock b0 in
  let id := n_reservation_id n in
  match find_row b id with
  | Some existing =>
      if negb (String.eqb (w_request_hash existing) hash)
      then reservation_error "reservation_id content collision"
      else
        let! p := _projection b capital policy (Some (n_symbol n)) in
        Ok (Build_ReservationDecision (negb (is_released existing)) true id [] p, Some b)
  | None =>
      let! p := _projection b capital policy (Some (n_symbol n)) in
      let! reasons := _admission_reasons n capital policy p in
      match reasons with
      | _ :: _ => Ok (Build_ReservationDecision false false id reasons p, None)
      | [] =>
          let! metadata_json := json_dumps false (VDict (n_metadata n)) in
          let b1 := Book (rows b ++ [new_row n hash now metadata_json]) (events b) in
          let b2 := _event b1 id clock "" "RESERVED" "admitted" "{}" in
          let! p2 := _projection b2 capital policy (Some (n_symbol n)) in
          Ok (Build_ReservationDecision true false id [] p2, Some b2)
      end
  end.

Definition reserve (q : ReservationRequest) (capital : CapitalState) (policy : ReservationPolicy)
    (now clock : string) : M book ReservationDecision := fun b =>
  match (let! n := normalized q in
         let! hash := json_sha256 false (normalized_payload n) in Ok (n, hash)) with
  | Err e => (Err e, b)
  | Ok (n, hash) =>
      match reserve_body n hash now clock capital policy b with
      | Err e => (Err e, b)
      | Ok (d, Some b') => (Ok d, b')
      | Ok (d, None) => (Ok d, b)
      end
  end.

Definition _transition (id : string) (allowed_from : list ReservationState) (next : ReservationState)
    (reason : string) (evidence : dict pyval) (proven : bool) (clock : string) : M book unit := fun b =>
  match find_row b id with
  | None => (reservation_error "unknown reservation", b)
  | Some r =>
      match ReservationState_of (w_state r) with
      | Err e => (Err e, b)
      | Ok prior =>
          if bool_decide (prior = next) then (Ok tt, b)
          else if negb (bool_decide (prior ∈ allowed_from))
          then (reservation_error ("invalid reservation transition " +:+ state_value prior
                  +:+ " -> " +:+ state_value next), b)
          else
            let b1 := update_row (set_transition next clock reason (if proven then 1 else 0)) id b in
            match json_dumps_spaced (VDict evidence) with
            | Err e => (Err e, b)
            | Ok evidence_json =>
                (Ok tt, _event b1 id clock (state_value prior) (state_value next) reason evidence_json)
            end
      end
  end.

Definition mark_dispatched (id : string) (evidence : dict pyval) (clock : string) : M book unit :=
  _transition id [RESERVED] DISPATCHED "order_may_have_reached_exchange" evidence false clock.

Definition mark_delivery_unknown (id : string) (evidence : dict pyval) (clock : string) : M book unit :=
  _transition id [RESERVED; DISPATCHED; UNKNOWN] UNKNOWN "exchange_effect_unknown" evidence false clock.

(** The SELECT of [release], which is not part of the transaction that follows. *)
Definition release_check (id : string) (exchange_terminal_proven : bool) : M book unit := fun b =>
  match find_row b id with
  | None => (reservation_error "unknown reservation", b)
  | Some r =>
      match ReservationState_of (w_state r) with
      | Err e => (Err e, b)
      | Ok st =>
          if bool_decide (st ∈ [DISPATCHED; UNKNOWN]) && negb exchange_terminal_proven
          then (reservation_error "exchange terminal proof is required before releasing dispatched capital", b)
          else (Ok tt, b)
      end
  end.

(** Its transaction, which reads the state again but not the proof. *)
Definition release_commit (id reason : string) (exchange_terminal_proven : bool) (evidence : dict pyval)
    (clock : string) : M book unit :=
  _transition id [RESERVED; DISPATCHED; UNKNOWN] RELEASED reason evidence exchange_terminal_proven clock.

Definition release (id reason : string) (exchange_terminal_proven : bool) (evidence : dict pyval)
    (clock : string) : M book unit :=
  do! _ := release_check id exchange_terminal_proven in
  release_commit id reason exchange_terminal_proven evidence clock.

(** [active()]: the rows that still claim capital, oldest first. *)
Definition active (b : book) : list row :=
  sort_by (fun r s => if String.eqb (w_created_at r) (w_created_at s)
                      then String.leb (w_reservation_id r) (w_reservation_id s)
                      else String.leb (w_created_at r) (w_created_at s)) (active_rows b).

(** ** Histories

    One operation at a time: the trader has one book and calls it from one loop.  The code takes
    no lock; what another writer between the two halves of [release] can do is shown in
    [CapitalReservationsFacts.release_races_dispatch]. *)

Inductive op :=
  | OpReserve (q : ReservationRequest) (capital : CapitalState) (policy : ReservationPolicy) (now clock : string)
  | OpDispatched (id : string) (evidence : dict pyval) (clock : string)
  | OpUnknown (id : string) (evidence : dict pyval) (clock : string)
  | OpRelease (id reason : string) (proven : bool) (evidence : dict pyval) (clock : string).

Definition run_op (o : op) (b : book) : book :=
  match o with
  | OpReserve q capital policy now clock => snd (reserve q capital policy now clock b)
  | OpDispatched id ev clock => snd (mark_dispatched id ev clock b)
  | OpUnknown id ev clock => snd (mark_delivery_unknown id ev clock b)
  | OpRelease id reason proven ev clock => snd (release id reason proven ev clock b)
  end.

Inductive history : book -> Prop :=
  | hist_empty : history empty_book
  | hist_step b o : history b -> history (run_op o b).

(** The state an id has according to the event log alone. *)
Definition replay (evs : list event) (id : string) : option string :=
  fold_left (fun st e => if String.eqb (e_reservation_id e) id then Some (e_next_state e) else st) evs None.

(** The order for [id] might have reached the exchange. *)
Definition exposed (b : book) (id : string) : Prop :=
  exists e, e ∈ events b /\ e_reservation_id e = id /\
            (e_next_state e = "DISPATCHED" \/ e_next_state e = "UNKNOWN").
