(* ===== verification/CapitalReservationsFacts.v ===== *)
(** * Correctness of the capital reservation book

    The journal determines the table, capital that may have reached the
    exchange is released only on terminal proof, failed or denied requests
    leave the book unchanged, a request is never claimed twice, and an admitted
    entry stays within the caps. *)
From Stdlib Require Import ZArith Lia QArith Lqa Ascii.
From stdpp Require Import base list strings sets.
From S2P Require Import Prelude PyDecimal PyDecimalFacts PyValue CapitalReservations.
Open Scope Z_scope.

(** ** Rows by identifier *)

Lemma find_row_Some b id r : find_row b id = Some r -> r ∈ rows b /\ w_reservation_id r = id.
Proof.
  unfold find_row. intros H. apply find_some in H as [H1 H2].
  split; [by apply list_elem_of_In|by apply String.eqb_eq].
Qed.

Lemma find_row_None b id : find_row b id = None <-> id ∉ map w_reservation_id (rows b).
Proof.
  unfold find_row. split.
  - intros H Hin. apply list_elem_of_fmap in Hin as (r & -> & Hr). apply list_elem_of_In in Hr.
    apply (find_none _ _ H) in Hr. by rewrite String.eqb_refl in Hr.
  - intros H. destruct (List.find _ _) as [r|] eqn:E; [|done].
    exfalso. apply H. apply find_some in E as [E1 E2]. apply String.eqb_eq in E2 as <-.
    by apply (list_elem_of_fmap_2 w_reservation_id), list_elem_of_In.
Qed.

Lemma find_row_unique b id r : NoDup (map w_reservation_id (rows b)) ->
  r ∈ rows b -> w_reservation_id r = id -> find_row b id = Some r.
Proof.
  unfold find_row. intros Hnd Hin <-. induction (rows b) as [|x l IH]; [set_solver|]. simpl in *.
  inversion Hnd as [|? ? Hx Hl]; subst. destruct (String.eqb_spec (w_reservation_id x) (w_reservation_id r)) as [E|E].
  - apply elem_of_cons in Hin as [->|Hin]; [done|].
    exfalso. apply Hx. rewrite E. by apply (list_elem_of_fmap_2 w_reservation_id).
  - apply elem_of_cons in Hin as [->|Hin]; [done|]. auto.
Qed.

Lemma find_row_ids b b' id : map w_reservation_id (rows b') = map w_reservation_id (rows b) ->
  find_row b' id = None <-> find_row b id = None.
Proof. intros E. by rewrite !find_row_None, E. Qed.

(** A row function that only touches the lifecycle columns. *)
Definition keeps_claim (f : row -> row) : Prop := forall r,
  w_reservation_id (f r) = w_reservation_id r /\ w_request_hash (f r) = w_request_hash r /\
  w_pair_gross_increment_usd (f r) = w_pair_gross_increment_usd r /\
  w_exchange_terminal_proven r <= w_exchange_terminal_proven (f r).

Lemma keeps_claim_released now reason : keeps_claim (set_released now reason).
Proof. intros r. repeat split; simpl; lia. Qed.

Lemma keeps_claim_transition next clock reason proven : keeps_claim (set_transition next clock reason proven).
Proof. intros r. repeat split; simpl; lia. Qed.

Lemma update_row_ids f id b : keeps_claim f ->
  map w_reservation_id (rows (update_row f id b)) = map w_reservation_id (rows b).
Proof.
  intros Hf. unfold update_row; simpl. rewrite map_map. apply map_ext. intros r.
  destruct (String.eqb _ id); [apply Hf|done].
Qed.

Lemma elem_of_update f id b r : r ∈ rows (update_row f id b) <->
  exists r0, r0 ∈ rows b /\ r = if String.eqb (w_reservation_id r0) id then f r0 else r0.
Proof. unfold update_row; simpl. rewrite list_elem_of_fmap. naive_solver. Qed.

Lemma find_row_update f id b i : keeps_claim f ->
  find_row (update_row f id b) i =
  (fun r => if String.eqb (w_reservation_id r) id then f r else r) <$> find_row b i.
Proof.
  intros Hf. unfold find_row, update_row; simpl. induction (rows b) as [|x l IH]; [done|]. simpl.
  assert (w_reservation_id (if String.eqb (w_reservation_id x) id then f x else x) = w_reservation_id x) as ->.
  { destruct (String.eqb _ id); [apply Hf|done]. }
  destruct (String.eqb (w_reservation_id x) i); [done|]. exact IH.
Qed.

(** ** The invariant of the book *)

Definition known_state (s : string) : Prop :=
  s = "RESERVED" \/ s = "DISPATCHED" \/ s = "UNKNOWN" \/ s = "RELEASED".

Record book_inv (b : book) : Prop := {
  inv_ids : NoDup (map w_reservation_id (rows b));
  inv_state : forall r, r ∈ rows b -> known_state (w_state r);
  inv_replay : forall r, r ∈ rows b -> replay (events b) (w_reservation_id r) = Some (w_state r);
  inv_events : forall e, e ∈ events b -> e_reservation_id e ∈ map w_reservation_id (rows b);
  inv_unsent : forall r, r ∈ rows b -> w_state r = "RESERVED" -> ~ exposed b (w_reservation_id r);
  inv_proven : forall r, r ∈ rows b -> w_state r = "RELEASED" -> exposed b (w_reservation_id r) ->
                 1 <= w_exchange_terminal_proven r
}.

Lemma replay_snoc evs e id :
  replay (evs ++ [e]) id = if String.eqb (e_reservation_id e) id then Some (e_next_state e) else replay evs id.
Proof. unfold replay. by rewrite fold_left_app. Qed.

Lemma inv_empty : book_inv empty_book.
Proof. constructor; simpl; try set_solver. constructor. Qed.

Lemma exposed_event b f id clock prior next reason ev i :
  exposed (_event (update_row f id b) id clock prior next reason ev) i <->
  exposed b i \/ (i = id /\ (next = "DISPATCHED" \/ next = "UNKNOWN")).
Proof.
  unfold exposed; simpl. split.
  - intros (e & He & H1 & H2). apply elem_of_app in He as [He|He]; [left; eauto|].
    apply list_elem_of_singleton in He as ->. simpl in *. auto.
  - intros [(e & He & H)|[-> H]]; [exists e; set_solver|].
    eexists. split; [apply elem_of_app; right; by apply list_elem_of_singleton|]. auto.
Qed.

Lemma touched_ids f id b clock prior next reason ev : keeps_claim f ->
  map w_reservation_id (rows (_event (update_row f id b) id clock prior next reason ev))
  = map w_reservation_id (rows b).
Proof. apply update_row_ids. Qed.

(** One journaled change of the state of an existing row. *)
Lemma inv_touch b id r f clock prior next reason ev :
  book_inv b -> find_row b id = Some r -> keeps_claim f ->
  (forall x, w_state (f x) = next) -> known_state next -> next <> "RESERVED" ->
  (next = "RELEASED" -> w_state r = "RESERVED" \/ 1 <= w_exchange_terminal_proven (f r)) ->
  book_inv (_event (update_row f id b) id clock prior next reason ev).
Proof.
  intros [I1 I2 I3 I4 I5 I6] Hr Hf Hn Hk Hnr Hrel. apply find_row_Some in Hr as [Hr Hid].
  assert (forall r0, r0 ∈ rows b -> w_reservation_id r0 = id -> r0 = r) as Huniq.
  { intros r0 H0 E. pose proof (find_row_unique b id r0 I1 H0 E).
    pose proof (find_row_unique b id r I1 Hr Hid). congruence. }
  constructor.
  - by rewrite touched_ids.
  - intros x Hx. apply elem_of_update in Hx as (r0 & H0 & ->).
    destruct (String.eqb _ id); [by rewrite Hn|auto].
  - intros x Hx. apply elem_of_update in Hx as (r0 & H0 & ->). simpl (events _). rewrite replay_snoc.
    cbn [e_reservation_id e_next_state].
    destruct (String.eqb_spec (w_reservation_id r0) id) as [E|E].
    + rewrite (proj1 (Hf r0)), E, String.eqb_refl. by rewrite Hn.
    + destruct (String.eqb_spec id (w_reservation_id r0)); [congruence|auto].
  - intros e He. rewrite touched_ids by done. simpl in He.
    apply elem_of_app in He as [He|He]; [auto|]. apply list_elem_of_singleton in He as ->. simpl.
    rewrite <- Hid. by apply (list_elem_of_fmap_2 w_reservation_id).
  - intros x Hx Hs. apply elem_of_update in Hx as (r0 & H0 & ->).
    rewrite exposed_event.
    destruct (String.eqb_spec (w_reservation_id r0) id) as [E|E]; [by rewrite Hn in Hs|].
    intros [He|[He _]]; [by apply (I5 r0)|congruence].
  - intros x Hx Hs He. apply elem_of_update in Hx as (r0 & H0 & ->).
    rewrite exposed_event in He.
    destruct (String.eqb_spec (w_reservation_id r0) id) as [E|E].
    + rewrite Hn in Hs. subst next. rewrite (proj1 (Hf r0)) in He.
      assert (r0 = r) as -> by auto. destruct He as [He|[_ [He|He]]]; [|done..].
      destruct (Hrel eq_refl) as [Hs|]; [|done]. by apply I5 in Hs.
    + destruct He as [He|[He _]]; [auto|congruence].
Qed.

Lemma expirable_spec now r : expirable now r = true -> w_state r = "RESERVED".
Proof. unfold expirable. intros H. bool_props. done. Qed.

Lemma find_row_expire_other now clock b id i : i <> id ->
  find_row (expire_one now clock b id) i = find_row b i.
Proof.
  intros Hi. unfold expire_one, _event. change (find_row (update_row (set_released now "expired_before_dispatch") id b) i = find_row b i).
  rewrite find_row_update by apply keeps_claim_released.
  destruct (find_row b i) as [r|] eqn:E; [|done]. simpl.
  apply find_row_Some in E as [_ <-]. by destruct (String.eqb_spec (w_reservation_id r) id).
Qed.

Lemma expire_one_ids now clock b id :
  map w_reservation_id (rows (expire_one now clock b id)) = map w_reservation_id (rows b).
Proof. apply update_row_ids, keeps_claim_released. Qed.

Lemma inv_expire_fold now clock ids b :
  book_inv b -> NoDup ids ->
  (forall id, id ∈ ids -> exists r, find_row b id = Some r /\ w_state r = "RESERVED") ->
  book_inv (fold_left (expire_one now clock) ids b).
Proof.
  revert b; induction ids as [|id ids IH]; intros b Hb Hnd Hids; simpl; [done|].
  inversion Hnd as [|? ? Hid Hnd']; subst.
  destruct (Hids id) as (r & Hr & Hs); [set_solver|]. apply IH; [|done|].
  - eapply inv_touch; try done; [by right; right; right|by left].
  - intros i Hi. destruct (Hids i) as (r' & Hr' & Hs'); [set_solver|]. exists r'.
    rewrite find_row_expire_other; [done|]. intros ->. done.
Qed.

Lemma expire_fold_ids now clock ids b :
  map w_reservation_id (rows (fold_left (expire_one now clock) ids b)) = map w_reservation_id (rows b).
Proof.
  revert b; induction ids as [|id ids IH]; intros b; simpl; [done|]. by rewrite IH, expire_one_ids.
Qed.

Lemma expire_ids now clock b :
  map w_reservation_id (rows (_expire_safe_unsent now clock b)) = map w_reservation_id (rows b).
Proof. apply expire_fold_ids. Qed.

Lemma filter_ids_NoDup (p : row -> bool) (l : list row) :
  NoDup (map w_reservation_id l) -> NoDup (map w_reservation_id (List.filter p l)).
Proof.
  induction l as [|x l IH]; simpl; intros H; [done|]. inversion H as [|? ? Hx Hl]; subst.
  destruct (p x); simpl; [|auto]. constructor; [|auto].
  intros Hin. apply Hx. apply list_elem_of_fmap in Hin as (y & -> & Hy).
  apply (list_elem_of_fmap_2 w_reservation_id). apply list_elem_of_In, filter_In in Hy as [Hy _].
  by apply list_elem_of_In.
Qed.

Lemma inv_expire now clock b : book_inv b -> book_inv (_expire_safe_unsent now clock b).
Proof.
  intros Hb. apply inv_expire_fold; [done|apply filter_ids_NoDup, Hb|].
  intros id Hid. apply list_elem_of_fmap in Hid as (r & -> & Hr).
  apply list_elem_of_In, filter_In in Hr as [Hr He]. apply list_elem_of_In in Hr.
  exists r. split; [by apply find_row_unique; [apply Hb|..]|by apply (expirable_spec now)].
Qed.

(** Admission of a new row. *)
Lemma inv_admit b r clock reason ev :
  book_inv b -> find_row b (w_reservation_id r) = None -> w_state r = "RESERVED" ->
  book_inv (_event (Book (rows b ++ [r]) (events b)) (w_reservation_id r) clock "" "RESERVED" reason ev).
Proof.
  intros [I1 I2 I3 I4 I5 I6] Hn Hs. apply find_row_None in Hn.
  assert (forall i, exposed (_event (Book (rows b ++ [r]) (events b)) (w_reservation_id r) clock "" "RESERVED" reason ev) i
            <-> exposed b i) as Hexp.
  { intros i. pose proof (exposed_event b id (w_reservation_id r) clock "" "RESERVED" reason ev i) as E.
    change (exposed (Book (rows b ++ [r]) (events b ++ [Event (w_reservation_id r) clock "" "RESERVED" reason ev])) i <-> exposed b i).
    assert (forall l l' , exposed (Book l (events b ++ [Event (w_reservation_id r) clock "" "RESERVED" reason ev])) i
              <-> exposed (Book l' (events b ++ [Event (w_reservation_id r) clock "" "RESERVED" reason ev])) i) as Hl by done.
    rewrite (Hl _ (rows (update_row id (w_reservation_id r) b))). unfold _event in E. rewrite E.
    split; [|by left]. intros [?|[_ [?|?]]]; done. }
  assert (~ exposed b (w_reservation_id r)) as Hne.
  { intros (e & He & E & _). apply Hn. rewrite <- E. auto. }
  constructor; simpl (rows _); simpl (events _).
  - rewrite map_app. apply NoDup_app. split; [done|]. split; [|apply NoDup_singleton].
    intros x Hx Hx'. simpl in Hx'. apply list_elem_of_singleton in Hx' as ->. done.
  - intros x Hx. apply elem_of_app in Hx as [Hx|Hx]; [auto|].
    apply list_elem_of_singleton in Hx as ->. by left.
  - intros x Hx. rewrite replay_snoc. cbn [e_reservation_id e_next_state].
    apply elem_of_app in Hx as [Hx|Hx].
    + destruct (String.eqb_spec (w_reservation_id r) (w_reservation_id x)) as [E|]; [|auto].
      exfalso. apply Hn. rewrite E. by apply (list_elem_of_fmap_2 w_reservation_id).
    + apply list_elem_of_singleton in Hx as ->. by rewrite String.eqb_refl, Hs.
  - intros e He. rewrite map_app, elem_of_app. apply elem_of_app in He as [He|He]; [auto|].
    apply list_elem_of_singleton in He as ->. right. simpl. set_solver.
  - intros x Hx Hsx. rewrite Hexp. apply elem_of_app in Hx as [Hx|Hx]; [auto|].
    apply list_elem_of_singleton in Hx as ->. done.
  - intros x Hx Hsx He. rewrite Hexp in He. apply elem_of_app in Hx as [Hx|Hx]; [auto|].
    apply list_elem_of_singleton in Hx as ->. congruence.
Qed.

(** ** The operations *)

Definition admitted (n : Normalized) (hash now clock mj : string) (b : book) : book :=
  let b1 := _expire_safe_unsent now clock b in
  _event (Book (rows b1 ++ [new_row n hash now mj]) (events b1)) (n_reservation_id n) clock
    "" "RESERVED" "admitted" "{}".

Inductive reserve_outcome (q : ReservationRequest) (capital : CapitalState) (policy : ReservationPolicy)
    (now clock : string) (b : book) : result ReservationDecision * book -> Prop :=
  | ro_error e : reserve_outcome q capital policy now clock b (Err e, b)
  | ro_denied n reasons p :
      normalized q = Ok n -> reasons <> [] ->
      find_row (_expire_safe_unsent now clock b) (n_reservation_id n) = None ->
      reserve_outcome q capital policy now clock b
        (Ok (Build_ReservationDecision false false (n_reservation_id n) reasons p), b)
  | ro_duplicate n hash r p :
      normalized q = Ok n -> json_sha256 false (normalized_payload n) = Ok hash ->
      find_row (_expire_safe_unsent now clock b) (n_reservation_id n) = Some r ->
      w_request_hash r = hash ->
      reserve_outcome q capital policy now clock b
        (Ok (Build_ReservationDecision (negb (is_released r)) true (n_reservation_id n) [] p),
         _expire_safe_unsent now clock b)
  | ro_admitted n hash mj p p2 :
      normalized q = Ok n -> json_sha256 false (normalized_payload n) = Ok hash ->
      find_row (_expire_safe_unsent now clock b) (n_reservation_id n) = None ->
      _projection (_expire_safe_unsent now clock b) capital policy (Some (n_symbol n)) = Ok p ->
      _admission_reasons n capital policy p = Ok [] ->
      reserve_outcome q capital policy now clock b
        (Ok (Build_ReservationDecision true false (n_reservation_id n) [] p2), admitted n hash now clock mj b).

Lemma reserve_outcomes q capital policy now clock b :
  reserve_outcome q capital policy now clock b (reserve q capital policy now clock b).
Proof.
  unfold reserve. destruct (normalized q) as [n|] eqn:Hn; simpl; [|constructor].
  destruct (json_sha256 _ _) as [hash|] eqn:Hh; simpl; [|constructor].
  unfold reserve_body. set (b1 := _expire_safe_unsent now clock b).
  destruct (find_row b1 (n_reservation_id n)) as [r|] eqn:Hf.
  - destruct (String.eqb_spec (w_request_hash r) hash) as [E|]; simpl; [|constructor].
    destruct (_projection _ _ _ _) as [p|]; simpl; [|constructor]. by eapply ro_duplicate.
  - destruct (_projection _ _ _ _) as [p|] eqn:Hp; simpl; [|constructor].
    destruct (_admission_reasons _ _ _ _) as [[|x l]|] eqn:Hr; simpl; [|by eapply ro_denied|constructor].
    destruct (json_dumps false _) as [mj|]; simpl; [|constructor].
    destruct (_projection (_event _ _ _ _ _ _ _) _ _ _) as [p2|]; simpl; [|constructor].
    by eapply ro_admitted.
Qed.

Lemma inv_reserve q capital policy now clock b :
  book_inv b -> book_inv (snd (reserve q capital policy now clock b)).
Proof.
  intros Hb. pose proof (reserve_outcomes q capital policy now clock b) as H.
  inversion H; subst; simpl; auto using inv_expire.
  unfold admitted. apply (inv_admit (_expire_safe_unsent now clock b) (new_row n hash now mj));
    auto using inv_expire.
Qed.

Lemma ReservationState_of_value s : ReservationState_of (state_value s) = Ok s.
Proof. by destruct s. Qed.

Lemma ReservationState_of_Ok v s : ReservationState_of v = Ok s -> v = state_value s.
Proof.
  unfold ReservationState_of. destruct (List.find _ _) as [s'|] eqn:E; [|done]. intros [= <-].
  apply find_some in E as [_ E]. by apply String.eqb_eq in E.
Qed.

(** The transition was refused, was a no-op, or changed one row and journaled it. *)
Lemma transition_state id from next reason ev proven clock b :
  snd (_transition id from next reason ev proven clock b) = b \/
  exists r prior ej, find_row b id = Some r /\ w_state r = state_value prior /\ prior ∈ from /\ prior <> next /\
    snd (_transition id from next reason ev proven clock b) =
    _event (update_row (set_transition next clock reason (if proven then 1 else 0)) id b) id clock
      (state_value prior) (state_value next) reason ej.
Proof.
  unfold _transition. destruct (find_row b id) as [r|] eqn:Hr; [|by left].
  destruct (ReservationState_of (w_state r)) as [prior|] eqn:Hp; [|by left].
  case_bool_decide; [by left|]. case_bool_decide; simpl; [|by left].
  destruct (json_dumps_spaced _) as [ej|]; [|by left]. right.
  exists r, prior, ej. apply ReservationState_of_Ok in Hp. done.
Qed.

Lemma known_state_value s : known_state (state_value s).
Proof. unfold known_state. destruct s; auto. Qed.

Lemma inv_transition id from next reason ev proven clock b :
  book_inv b -> next <> RESERVED ->
  (next = RELEASED -> proven = true \/ forall r, find_row b id = Some r -> w_state r = "RESERVED") ->
  book_inv (snd (_transition id from next reason ev proven clock b)).
Proof.
  intros Hb Hn Hrel. destruct (transition_state id from next reason ev proven clock b)
    as [->|(r & prior & ej & Hr & Hs & _ & _ & ->)]; [done|].
  eapply inv_touch; try done.
  - apply keeps_claim_transition.
  - apply known_state_value.
  - by destruct next.
  - intros E. assert (next = RELEASED) as -> by (by destruct next).
    destruct (Hrel eq_refl) as [->|H]; [right; simpl; lia|left; auto].
Qed.

Lemma inv_release id reason proven ev clock b :
  book_inv b -> book_inv (snd (release id reason proven ev clock b)).
Proof.
  intros Hb. unfold release, m_bind, release_check, release_commit. destruct (find_row b id) as [r|] eqn:Hr; [|done].
  destruct (ReservationState_of (w_state r)) as [st|] eqn:Hst; [|done].
  destruct (bool_decide (st ∈ [DISPATCHED; UNKNOWN]) && negb proven) eqn:E; [done|].
  apply ReservationState_of_Ok in Hst.
  destruct proven; [apply inv_transition; auto|]. rewrite andb_true_r in E. bool_props.
  destruct st; try set_solver.
  - apply inv_transition; [done|done|]. intros _. right. intros r'. rewrite Hr. by intros [= <-].
  - (* already released: the transition is a no-op *)
    unfold _transition. rewrite Hr, Hst. simpl. done.
Qed.

Lemma inv_op o b : book_inv b -> book_inv (run_op o b).
Proof.
  intros Hb. destruct o; simpl.
  - by apply inv_reserve.
  - by apply inv_transition.
  - by apply inv_transition.
  - by apply inv_release.
Qed.

Lemma inv_history b : history b -> book_inv b.
Proof. induction 1; auto using inv_empty, inv_op. Qed.

(** ** Properties *)

(** C2: in every reachable book, a reservation whose order may have
    reached the exchange (its journal holds a dispatch or an unknown delivery)
    is RELEASED only if the exchange's terminal effect was proven. *)
Theorem released_only_with_proof b r :
  history b -> r ∈ rows b -> w_state r = "RELEASED" -> exposed b (w_reservation_id r) ->
  1 <= w_exchange_terminal_proven r.
Proof. intros H. apply (inv_proven b (inv_history b H)). Qed.

(** C39: the event journal alone determines the table: identifiers
    are unique, the replayed state of a reservation is the state of its row, and
    an identifier without a row has no events. *)
Theorem journal_determines_state b id :
  history b ->
  NoDup (map w_reservation_id (rows b)) /\ replay (events b) id = w_state <$> find_row b id.
Proof.
  intros H. apply inv_history in H. split; [apply H|].
  destruct (find_row b id) as [r|] eqn:E; simpl.
  - apply find_row_Some in E as [Hr <-]. by apply H.
  - apply find_row_None in E.
    assert (forall evs, (forall e, e ∈ evs -> e_reservation_id e <> id) -> replay evs id = None) as Hnone.
    { intros evs. induction evs as [|e evs IH] using rev_ind; [done|]. intros He. rewrite replay_snoc.
      destruct (String.eqb_spec (e_reservation_id e) id) as [Eid|]; [|apply IH; intros; apply He; set_solver].
      exfalso. apply (He e); [set_solver|done]. }
    apply Hnone. intros e He <-. apply E. by apply H.
Qed.

(** A reservation request that raises, or that is denied, leaves the
    whole book as it was: not even the expiries it computed are kept. *)
Theorem reserve_atomic q capital policy now clock b :
  match reserve q capital policy now clock b with
  | (Err _, b') => b' = b
  | (Ok d, b') => d_allowed d = false -> d_duplicate d = false -> b' = b /\ d_reasons d <> []
  end.
Proof.
  pose proof (reserve_outcomes q capital policy now clock b) as H.
  inversion H; subst; simpl; try done.
Qed.

Lemma find_row_admitted n hash now clock mj b :
  find_row (_expire_safe_unsent now clock b) (n_reservation_id n) = None ->
  find_row (admitted n hash now clock mj b) (n_reservation_id n) = Some (new_row n hash now mj).
Proof.
  intros H. unfold admitted, find_row in *. cbn [_event rows]. induction (rows _) as [|x l IH]; simpl in *.
  - by rewrite String.eqb_refl.
  - destruct (String.eqb (w_reservation_id x) (n_reservation_id n)); [done|]. auto.
Qed.

Lemma find_row_expire now clock b id r :
  book_inv b -> find_row b id = Some r -> w_expires_at r = None \/ (exists e, w_expires_at r = Some e /\ String.leb e now = false) ->
  find_row (_expire_safe_unsent now clock b) id = Some r.
Proof.
  intros Hb Hr He. unfold _expire_safe_unsent.
  assert (forall ids b0, id ∉ ids -> find_row (fold_left (expire_one now clock) ids b0) id = find_row b0 id) as Hf.
  { induction ids as [|i ids IH]; intros b0 Hni; simpl; [done|].
    rewrite IH by set_solver. apply find_row_expire_other. set_solver. }
  rewrite Hf; [done|]. intros Hin. apply list_elem_of_fmap in Hin as (x & Hx & Hin).
  apply list_elem_of_In, filter_In in Hin as [Hin Hex]. apply list_elem_of_In in Hin.
  pose proof (find_row_unique b id x (inv_ids b Hb) Hin (eq_sym Hx)) as Ex.
  assert (x = r) as -> by congruence. unfold expirable in Hex. apply andb_true_iff in Hex as [_ Hex].
  destruct He as [He|(e & He & Hl)]; rewrite He in Hex; congruence.
Qed.

(** Replaying an admitted request that has not expired never
    claims capital twice: the repeated call adds no row, and when it returns it
    reports an allowed duplicate. *)
Theorem reserve_no_double_claim q c1 p1 now1 clock1 c2 p2 now2 clock2 b d b' :
  history b -> reserve q c1 p1 now1 clock1 b = (Ok d, b') ->
  d_allowed d = true -> d_duplicate d = false ->
  (forall e, q_expires_at q = Some e -> String.leb e now2 = false) ->
  let '(r, b'') := reserve q c2 p2 now2 clock2 b' in
  map w_reservation_id (rows b'') = map w_reservation_id (rows b') /\
  forall d', r = Ok d' -> d_duplicate d' = true /\ d_allowed d' = true.
Proof.
  intros Hh H Ha Hd Hexp. apply inv_history in Hh.
  pose proof (reserve_outcomes q c1 p1 now1 clock1 b) as O. rewrite H in O.
  inversion O as [| | |n hash mj p p2' Hn Hhash Hf Hp Hr]; subst; try done.
  pose proof (find_row_admitted n hash now1 clock1 mj b Hf) as Hrow.
  assert (n_expires_at n = q_expires_at q) as Hne.
  { unfold normalized in Hn. destruct (_ || _); [done|]. do 5 (apply res_bind_Ok in Hn as (? & _ & Hn)).
    destruct (existsb _ _); [done|]. destruct (_ && _); [done|]. by injection Hn as <-. }
  assert (book_inv (admitted n hash now1 clock1 mj b)) as Hinv.
  { pose proof (inv_reserve q c1 p1 now1 clock1 b Hh) as Hi. by rewrite H in Hi. }
  pose proof (find_row_expire now2 clock2 _ _ _ Hinv Hrow) as Hrow2. simpl in Hrow2.
  rewrite Hne in Hrow2. specialize (Hrow2 ltac:(destruct (q_expires_at q) as [e|]; [right; eauto|by left])).
  pose proof (reserve_outcomes q c2 p2 now2 clock2 (admitted n hash now1 clock1 mj b)) as O2.
  destruct (reserve q c2 p2 now2 clock2 _) as [r b''].
  inversion O2; subst;
    try match goal with H1 : normalized q = Ok ?x |- _ => assert (x = n) as -> by congruence end;
    try congruence; [done|].
  split; [apply expire_ids|]. intros d' [= <-]. simpl.
  match goal with H2 : find_row _ _ = Some _ |- _ => rewrite Hrow2 in H2; by injection H2 as <- end.
Qed.

(** ** Admission on the exchange grid

    Amounts are multiples of 10^-12 of at most ten billion dollars, and the book
    has at most a hundred thousand active rows: all sums are then exact. *)
Definition amount_bound : Z := 10 ^ 22.
Definition max_rows : Z := 10 ^ 5.

(** The number a stored or given amount denotes. *)
Definition value (v : pyval) : Q := match Decimal_of v with Ok (DFin d) => dval d | _ => 0%Q end.

Definition grid_amount (v : pyval) : Prop :=
  exists d, (forall name, _decimal v name = Ok d) /\ on_grid amount_bound d.

Definition claimed (field : row -> string) (l : list row) : Q :=
  fold_right (fun r q => value (VStr (field r)) + q)%Q 0%Q l.

Lemma decimal_value v name d : _decimal v name = Ok d -> (value v == dval d)%Q.
Proof.
  unfold _decimal, finite_decimal, value. intros H.
  destruct v; try done;
    (destruct (Decimal_of _) as [n|e]; simpl in H; [destruct n; try done; by injection H as ->|];
     by destruct (numeric_errors (exn_class e))).
Qed.

Lemma claimed_app field l1 l2 : (claimed field (l1 ++ l2) == claimed field l1 + claimed field l2)%Q.
Proof.
  induction l1 as [|r l IH]; simpl; [ring|]. unfold claimed in *. simpl. rewrite IH. ring.
Qed.

Lemma sum_field_from field name l k acc :
  (forall r, r ∈ l -> grid_amount (VStr (field r))) ->
  on_grid (k * amount_bound) acc -> 0 <= k -> k + Z.of_nat (length l) <= max_rows ->
  exists s, res_fold (fun a r => let! d := _decimal (VStr (field r)) name in dadd a d) acc l = Ok s /\
    on_grid (max_rows * amount_bound) s /\ (dval s == dval acc + claimed field l)%Q.
Proof.
  revert k acc; induction l as [|r l IH]; intros k acc Hl Ha Hk Hn; cbn [res_fold length] in *.
  - exists acc. split; [done|]. split; [|unfold claimed; simpl; ring].
    eapply on_grid_mono; [done|]. unfold amount_bound, max_rows in *. nia.
  - destruct (Hl r) as (d & Hd & Hg); [set_solver|]. rewrite Hd; cbn [res_bind].
    destruct (dadd_grid _ _ acc d Ha Hg) as (s & -> & Hs & Es).
    { unfold amount_bound, max_rows in *. nia. }
    cbn [res_bind]. destruct (IH (k + 1) s) as (s' & -> & Hs' & Es').
    + intros x Hx. apply Hl. set_solver.
    + replace ((k + 1) * amount_bound) with (k * amount_bound + amount_bound) by lia. done.
    + lia.
    + lia.
    + exists s'. split; [done|]. split; [done|]. rewrite Es', Es.
      unfold claimed at 2. cbn [fold_right]. fold (claimed field l). rewrite (decimal_value _ _ _ (Hd name)). ring.
Qed.

Lemma sum_field_grid field name l :
  (forall r, r ∈ l -> grid_amount (VStr (field r))) -> Z.of_nat (length l) <= max_rows ->
  exists s, sum_field field name l = Ok s /\ on_grid (max_rows * amount_bound) s /\
            (dval s == claimed field l)%Q.
Proof.
  intros Hl Hn. destruct (sum_field_from field name l 0 d0 Hl on_grid_0) as (s & H1 & H2 & H3); [lia..|].
  exists s. split; [done|]. split; [done|]. rewrite H3, dval_0. ring.
Qed.

Record grid_inputs (capital : CapitalState) (policy : ReservationPolicy) (l : list row) : Prop := {
  gi_rows : Z.of_nat (length l) <= max_rows;
  gi_gross : forall r, r ∈ l -> grid_amount (VStr (w_pair_gross_increment_usd r));
  gi_margin : forall r, r ∈ l -> grid_amount (VStr (w_futures_margin_usd r));
  gi_cap : grid_amount (max_pair_gross_usd capital);
  gi_current : grid_amount (current_pair_gross_usd capital);
  gi_futures : grid_amount (futures_margin_available_usd capital);
  gi_repair : grid_amount (repair_reserve_usd policy);
  gi_exit : grid_amount (exit_reserve_usd policy);
  gi_liquidation : grid_amount (minimum_liquidation_buffer_usd policy)
}.

Lemma dsub_grid_val k a b d :
  on_grid (max_rows * amount_bound + k * amount_bound) a -> 0 <= k <= 8 ->
  on_grid amount_bound b -> dsub a b = Ok d ->
  on_grid (max_rows * amount_bound + (k + 1) * amount_bound) d /\ (dval d == dval a - dval b)%Q.
Proof.
  intros Ha Hk Hb H. destruct (dsub_grid _ _ a b Ha Hb) as (d' & H1 & H2 & H3).
  { unfold amount_bound, max_rows in *. nia. }
  assert (d' = d) as -> by congruence. split; [|done].
  eapply on_grid_mono; [done|]. lia.
Qed.

Lemma dsub_total_val a b d :
  on_grid amount_bound a -> on_grid (max_rows * amount_bound) b -> dsub a b = Ok d ->
  on_grid (max_rows * amount_bound + 1 * amount_bound) d /\ (dval d == dval a - dval b)%Q.
Proof.
  intros Ha Hb H. destruct (dsub_grid _ _ a b Ha Hb) as (d' & H1 & H2 & H3); [done|].
  assert (d' = d) as -> by congruence. split; [|done]. eapply on_grid_mono; [done|]. lia.
Qed.

Lemma grid_read v name d : grid_amount v -> _decimal v name = Ok d -> on_grid amount_bound d.
Proof. intros (d' & H & Hg) E. rewrite H in E. by injection E as <-. Qed.

(** What the projection leaves for an entry, in exact arithmetic. *)
Lemma projection_exact b capital policy sym p :
  grid_inputs capital policy (active_rows b) -> _projection b capital policy sym = Ok p ->
  (exists g, pair_gross_remaining_usd p = dmax d0 g /\
     dval g == value (max_pair_gross_usd capital) - value (current_pair_gross_usd capital)
               - claimed w_pair_gross_increment_usd (active_rows b))%Q /\
  (exists m, entry_futures_margin_remaining_usd p = dmax d0 m /\
     dval m == value (futures_margin_available_usd capital)
               - claimed w_futures_margin_usd (active_rows b) - value (repair_reserve_usd policy)
               - value (exit_reserve_usd policy) - value (minimum_liquidation_buffer_usd policy))%Q.
Proof.
  intros [G1 G2 G3 G4 G5 G6 G7 G8 G9] H. unfold _projection in H.
  destruct (sum_field_grid w_pair_gross_increment_usd "pair_gross_increment_usd" _ G2 G1) as (sg & Esg & Gsg & Vsg).
  destruct (sum_field_grid w_futures_margin_usd "futures_margin_usd" _ G3 G1) as (sm & Esm & Gsm & Vsm).
  rewrite Esg, Esm in H.
  apply res_bind_Ok in H as (? & _ & H). apply res_bind_Ok in H as (? & _ & H). cbn [res_bind] in H.
  apply res_bind_Ok in H as (? & _ & H). cbn [res_bind] in H.
  apply res_bind_Ok in H as (? & _ & H). apply res_bind_Ok in H as (? & _ & H).
  apply res_bind_Ok in H as (fut & Efut & H). apply res_bind_Ok in H as (rep & Erep & H).
  apply res_bind_Ok in H as (ex & Eex & H). apply res_bind_Ok in H as (liq & Eliq & H).
  apply res_bind_Ok in H as (cur & Ecur & H). apply res_bind_Ok in H as (cap & Ecap & H).
  do 5 apply res_bind_Ok in H as (? & _ & H).
  apply res_bind_Ok in H as (m1 & Em1 & H). apply res_bind_Ok in H as (m2 & Em2 & H).
  apply res_bind_Ok in H as (m3 & Em3 & H). apply res_bind_Ok in H as (m4 & Em4 & H).
  apply res_bind_Ok in H as (g1 & Eg1 & H). apply res_bind_Ok in H as (g2 & Eg2 & H).
  apply res_bind_Ok in H as (? & _ & H). injection H as <-. simpl. split.
  - exists g2. split; [done|].
    destruct (dsub_grid _ _ cap cur (grid_read _ _ _ G4 Ecap) (grid_read _ _ _ G5 Ecur)) as (g1' & E1 & F1 & V1); [done|].
    assert (g1' = g1) as -> by congruence.
    destruct (dsub_grid _ _ g1 sg F1 Gsg) as (g2' & E2 & _ & V2); [done|].
    assert (g2' = g2) as -> by congruence.
    rewrite V2, V1, Vsg, (decimal_value _ _ _ Ecap), (decimal_value _ _ _ Ecur). ring.
  - exists m4. split; [done|].
    destruct (dsub_total_val fut sm m1 (grid_read _ _ _ G6 Efut) Gsm Em1) as [F1 V1].
    destruct (dsub_grid_val 1 m1 rep m2 F1 ltac:(lia) (grid_read _ _ _ G7 Erep) Em2) as [F2 V2].
    destruct (dsub_grid_val 2 m2 ex m3 F2 ltac:(lia) (grid_read _ _ _ G8 Eex) Em3) as [F3 V3].
    destruct (dsub_grid_val 3 m3 liq m4 F3 ltac:(lia) (grid_read _ _ _ G9 Eliq) Em4) as [_ V4].
    rewrite V4, V3, V2, V1, Vsm, (decimal_value _ _ _ Efut), (decimal_value _ _ _ Erep),
      (decimal_value _ _ _ Eex), (decimal_value _ _ _ Eliq). ring.
Qed.

(** An entry without reasons against it fits in what the projection leaves. *)
Lemma admission_entry n capital policy p :
  _admission_reasons n capital policy p = Ok [] -> entry_like (n_purpose n) = true ->
  (value (VStr (n_pair_gross_increment_usd n)) <= dval (pair_gross_remaining_usd p) /\
   value (VStr (n_futures_margin_usd n)) <= dval (entry_futures_margin_remaining_usd p))%Q.
Proof.
  unfold _admission_reasons. intros H He. rewrite He in H.
  apply res_bind_Ok in H as (cash & _ & H). apply res_bind_Ok in H as (fees & _ & H).
  apply res_bind_Ok in H as (rs & _ & H). apply res_bind_Ok in H as (rb & _ & H).
  apply res_bind_Ok in H as (rm & Hrm & H). apply res_bind_Ok in H as (rg & Hrg & H).
  cbn [res_bind] in H.
  apply res_bind_Ok in H as (eq & _ & H). apply res_bind_Ok in H as (mu & _ & H).
  apply res_bind_Ok in H as (ci & _ & H).
  assert (reason_if (dgt rm (entry_futures_margin_remaining_usd p)) "futures_margin_after_repair_exit_liquidation_reserves" = []
          /\ reason_if (dgt rg (pair_gross_remaining_usd p)) "pair_gross_cap" = []) as [H1 H2].
  { assert (forall a b c e f : list string, (a ++ b ++ c ++ e) ++ f = [] -> c = [] /\ e = []) as Happ.
    { intros a b c e f E. apply app_eq_nil in E as [E _]. apply app_eq_nil in E as [_ E].
      apply app_eq_nil in E as [_ E]. by apply app_eq_nil in E as [-> ->]. }
    destruct (true && dgt eq d0).
    - do 3 apply res_bind_Ok in H as (? & _ & H). injection H as H. by apply Happ in H.
    - injection H as H. rewrite <- (app_nil_r (_ ++ _)) in H. by apply Happ in H. }
  apply reason_if_nil in H1, H2. unfold dgt in *.
  apply dlt_false in H1. apply dlt_false in H2.
  rewrite (decimal_value _ _ _ Hrm), (decimal_value _ _ _ Hrg). done.
Qed.

Lemma normalized_entry q n : normalized q = Ok n ->
  n_purpose n = q_purpose q /\
  (0 <= value (VStr (n_futures_margin_usd n)))%Q /\
  (entry_purpose (q_purpose q) = true -> (0 < value (VStr (n_pair_gross_increment_usd n)))%Q).
Proof.
  unfold normalized. intros H. destruct (_ || _) in H; [done|].
  apply res_bind_Ok in H as (cash & _ & H). apply res_bind_Ok in H as (borrow & _ & H).
  apply res_bind_Ok in H as (margin & Hm & H). apply res_bind_Ok in H as (fees & _ & H).
  apply res_bind_Ok in H as (gross & Hg & H).
  destruct (existsb _ _) eqn:Hneg; [done|].
  destruct (entry_purpose (q_purpose q) && _) eqn:He; [done|]. injection H as <-. simpl.
  assert (forall d, dec_in_range d = true -> value (VStr (dec_str d)) = dval d) as Hv.
  { intros d Hd. unfold value, Decimal_of; simpl. by rewrite Decimal_of_dec_str. }
  rewrite !Hv by (by eapply finite_decimal_range). split; [done|]. split.
  - simpl in Hneg. apply orb_false_iff in Hneg as [_ Hneg]. apply orb_false_iff in Hneg as [_ Hneg].
    apply orb_false_iff in Hneg as [Hneg _]. dec_props. lra.
  - intros Hp. rewrite Hp in He. simpl in He. apply orb_false_iff in He as [_ He]. dec_props. lra.
Qed.

Lemma active_admitted n hash now clock mj b :
  active_rows (admitted n hash now clock mj b) =
  active_rows (_expire_safe_unsent now clock b) ++ [new_row n hash now mj].
Proof. unfold active_rows, admitted. cbn [_event rows]. by rewrite List.filter_app. Qed.


(** ** Concrete histories

    An entry that is admitted, replayed, dispatched, refused release without
    proof and released with it. *)
Definition ex_capital : CapitalState :=
  Build_CapitalState (VStr "10000") (VStr "6000") (VStr "3000.5") (VStr "500") (VStr "4000")
    (VStr "100") (VStr "50") (VStr "0").
Definition ex_policy : ReservationPolicy :=
  Build_ReservationPolicy (VStr "200") (VStr "100") (VStr "300") (VStr "0.80").
Definition ex_request : ReservationRequest :=
  Build_ReservationRequest "res-1" ENTRY "btcusdt" "cycle-1" (VStr "1000") (VStr "500.25") (VStr "2")
    (VStr "1500") "v1" None None (VStr "0").

Definition ex_admitted : book := run_op (OpReserve ex_request ex_capital ex_policy "t0" "t0") empty_book.
Definition ex_dispatched : book := run_op (OpDispatched "res-1" [] "t1") ex_admitted.
Definition ex_refused : book := run_op (OpRelease "res-1" "done" false [] "t2") ex_dispatched.
Definition ex_released : book := run_op (OpRelease "res-1" "done" true [] "t3") ex_refused.
Definition ex_decision : ReservationDecision :=
  match fst (reserve ex_request ex_capital ex_policy "t0" "t0" empty_book) with
  | Ok d => d
  | Err _ => Build_ReservationDecision false false "" []
               (Build_CapitalProjection d0 d0 d0 d0 d0 d0 d0 d0 d0 d0)
  end.

Lemma ex_admitted_history : history ex_admitted.
Proof. exact (hist_step empty_book _ hist_empty). Qed.
Lemma ex_released_history : history ex_released.
Proof. exact (hist_step _ _ (hist_step _ _ (hist_step _ _ ex_admitted_history))). Qed.

Lemma ex_reserve : reserve ex_request ex_capital ex_policy "t0" "t0" empty_book = (Ok ex_decision, ex_admitted).
Proof. vm_compute. reflexivity. Qed.

(** [release] between two writers: its check sees a reservation that is not dispatched, the
    order is dispatched, and the transaction releases it without proof. *)
Example release_races_dispatch :
  let checked := release_check "res-1" false ex_admitted in
  let dispatched := snd (mark_dispatched "res-1" [] "t1" (snd checked)) in
  let done := release_commit "res-1" "done" false [] "t2" dispatched in
  (is_ok (fst checked), map w_state (rows dispatched)) = (true, ["DISPATCHED"]) /\
  (is_ok (fst done), map (fun r => (w_state r, w_exchange_terminal_proven r)) (rows (snd done))) = (true, [("RELEASED", 0)]).
Proof. split; vm_compute; reflexivity. Qed.

Lemma released_only_with_proof_witness :
  map w_state (rows ex_refused) = ["DISPATCHED"] /\ map w_state (rows ex_released) = ["RELEASED"] /\
  Forall (fun r => 1 <= w_exchange_terminal_proven r) (rows ex_released).
Proof.
  split; [vm_compute; reflexivity|]. split; [vm_compute; reflexivity|].
  apply Forall_forall. intros r Hr. apply (released_only_with_proof ex_released r).
  - apply ex_released_history.
  - exact Hr.
  - revert r Hr. apply Forall_forall. vm_compute. repeat constructor.
  - revert r Hr. apply Forall_forall.
    assert (map w_reservation_id (rows ex_released) = ["res-1"]) as E by (vm_compute; reflexivity).
    assert (exposed ex_released "res-1") as He.
    { exists (Event "res-1" "t1" "RESERVED" "DISPATCHED" "order_may_have_reached_exchange" "{}").
      split; [|split; [reflexivity|left; reflexivity]]. vm_compute. apply list_elem_of_further, list_elem_of_here. }
    apply Forall_forall. intros r Hr.
    assert (w_reservation_id r ∈ ["res-1"]) as Hid by (rewrite <- E; apply list_elem_of_fmap_2, Hr).
    apply list_elem_of_singleton in Hid. rewrite Hid. exact He.
Defined.

Lemma journal_determines_state_witness :
  NoDup (map w_reservation_id (rows ex_released)) /\
  replay (events ex_released) "res-1" = w_state <$> find_row ex_released "res-1".
Proof. apply (journal_determines_state ex_released "res-1"), ex_released_history. Defined.

Lemma reserve_no_double_claim_witness :
  let '(r, b'') := reserve ex_request ex_capital ex_policy "t5" "t5" ex_admitted in
  map w_reservation_id (rows b'') = map w_reservation_id (rows ex_admitted) /\
  forall d', r = Ok d' -> d_duplicate d' = true /\ d_allowed d' = true.
Proof.
  apply (reserve_no_double_claim ex_request ex_capital ex_policy "t0" "t0" ex_capital ex_policy "t5" "t5"
           empty_book ex_decision ex_admitted).
  - apply hist_empty.
  - apply ex_reserve.
  - vm_compute. reflexivity.
  - vm_compute. reflexivity.
  - intros e H. discriminate H.
Defined.

Lemma ex_grid s d : Decimal_of_str s = Ok (DFin d) -> on_grid amount_bound d -> grid_amount (VStr s).
Proof.
  intros H Hg. exists d. split; [|done]. intros name. unfold _decimal, finite_decimal, Decimal_of. simpl.
  by rewrite H.
Qed.

Ltac grid_tac := eapply ex_grid; [vm_compute; reflexivity|]; vm_compute; repeat split; discriminate.

