(* ===== verification/SettlementLifecycle.v ===== *)
(** * Funding-settlement eligibility and reconciliation

    Model of [src/bongus/market_data/settlement_lifecycle.py]: which hedges were
    open at an exchange settlement, the rate that was known at that instant, the
    expected cash and its reconciliation with the exchange statement. *)
From Stdlib Require Import ZArith Lia Ascii.
From stdpp Require Import base list strings sorting.
From S2P Require Import Prelude PyDecimal PyDecimalFacts PyFloat PyValue.
Open Scope Z_scope.

(** ** Data *)

(** A [datetime]: an aware one is its UTC instant in microseconds, a naive one
    its wall clock; the two kinds never compare equal. *)
Record datetime := Datetime { dt_aware : bool; dt_us : Z }.

#[export] Instance datetime_eq_dec : EqDecision datetime.
Proof. solve_decision. Defined.

(** A naive time is taken as UTC. *)
Definition _utc (v : datetime) : datetime := Datetime true (dt_us v).

Definition _decimal (value : pyval) (name : string) : result dec :=
  finite_decimal ValueError false value name.

Record PositionEligibilityWindow := Window {
  w_cycle_id : string;
  w_symbol : string;
  w_direction : string;
  w_funding_notional_usd : pyval;
  w_opened_at : datetime;
  w_closed_at : option datetime
}.

(** [__post_init__]: the checks on a window that is constructed. *)
Definition check_window (w : PositionEligibilityWindow) : result unit :=
  if negb (nonempty (strip (w_cycle_id w))) || negb (nonempty (strip (w_symbol w)))
  then raise ValueError "cycle_id and symbol are required"
  else if negb (str_in (w_direction w) ["long_spot_short_perp"; "short_spot_long_perp"])
  then raise ValueError "unsupported funding direction"
  else
    let! n := _decimal (w_funding_notional_usd w) "funding_notional_usd" in
    if dle n d0 then raise ValueError "funding_notional_usd must be positive"
    else match w_closed_at w with
         | Some c => if dt_us (_utc c) <? dt_us (_utc (w_opened_at w))
                     then raise ValueError "closed_at precedes opened_at" else Ok tt
         | None => Ok tt
         end.

Definition eligible_at (w : PositionEligibilityWindow) (settlement_time : datetime) : bool :=
  let settlement := dt_us (_utc settlement_time) in
  (dt_us (_utc (w_opened_at w)) <? settlement)
  && match w_closed_at w with None => true | Some c => settlement <=? dt_us (_utc c) end.

Record SettlementRateUpdate := RateUpdate {
  s_symbol : string;
  s_settlement_time : datetime;
  s_available_at : datetime;
  s_raw_rate : pyval;
  s_source_event_id : string
}.

Definition check_rate (u : SettlementRateUpdate) : result unit :=
  if negb (nonempty (strip (s_symbol u))) || negb (nonempty (strip (s_source_event_id u)))
  then raise ValueError "symbol and source_event_id are required"
  else let! _ := _decimal (s_raw_rate u) "raw_rate" in Ok tt.

(** The equality the dataclasses generate. *)
Definition window_eq (a b : PositionEligibilityWindow) : bool :=
  String.eqb (w_cycle_id a) (w_cycle_id b) && String.eqb (w_symbol a) (w_symbol b)
  && String.eqb (w_direction a) (w_direction b)
  && scalar_eq (w_funding_notional_usd a) (w_funding_notional_usd b)
  && bool_decide (w_opened_at a = w_opened_at b) && bool_decide (w_closed_at a = w_closed_at b).

Definition rate_eq (a b : SettlementRateUpdate) : bool :=
  String.eqb (s_symbol a) (s_symbol b) && bool_decide (s_settlement_time a = s_settlement_time b)
  && bool_decide (s_available_at a = s_available_at b)
  && scalar_eq (s_raw_rate a) (s_raw_rate b) && String.eqb (s_source_event_id a) (s_source_event_id b).

Record SettlementLifecycleResult := {
  r_symbol : string;
  r_settlement_time : datetime;
  r_eligible_cycle_ids : list string;
  r_eligible_notional_usd : dec;
  r_applied_rate : option dec;
  r_rate_available_at : option datetime;
  r_expected_cash_usd : dec;
  r_credited_cash_usd : dec;
  r_exchange_event_id : string;
  r_reconciled : bool;
  r_reason_codes : list string
}.

Definition eligible (r : SettlementLifecycleResult) : bool :=
  match r_eligible_cycle_ids r with [] => false | _ => true end.

(** [FundingSettlementLifecycle]: its two dictionaries. *)
Record lifecycle := Lifecycle {
  _windows : dict PositionEligibilityWindow;
  _rates : dict SettlementRateUpdate
}.

Definition new_lifecycle : lifecycle := Lifecycle [] [].

(** ** Operations *)

Definition add_window (w : PositionEligibilityWindow) : M lifecycle unit := fun st =>
  let store := Lifecycle (dict_set (_windows st) (w_cycle_id w) w) (_rates st) in
  match dict_get (_windows st) (w_cycle_id w) with
  | Some prior =>
      if negb (window_eq prior w)
      then (raise ValueError ("cycle window identity collision: " +:+ w_cycle_id w), st)
      else (Ok tt, store)
  | None => (Ok tt, store)
  end.

Definition observe_rate (u : SettlementRateUpdate) : M lifecycle unit := fun st =>
  let store := Lifecycle (_windows st) (dict_set (_rates st) (s_source_event_id u) u) in
  match dict_get (_rates st) (s_source_event_id u) with
  | Some prior =>
      if negb (rate_eq prior u)
      then (raise ValueError ("settlement-rate identity collision: " +:+ s_source_event_id u), st)
      else (Ok tt, store)
  | None => (Ok tt, store)
  end.

Definition window_leb (a b : PositionEligibilityWindow) : bool := String.leb (w_cycle_id a) (w_cycle_id b).

(** The key [(available_at, source_event_id)]. *)
Definition update_leb (a b : SettlementRateUpdate) : bool :=
  match dt_us (_utc (s_available_at a)) ?= dt_us (_utc (s_available_at b)) with
  | Lt => true
  | Gt => false
  | Eq => String.leb (s_source_event_id a) (s_source_event_id b)
  end.

Definition eligible_windows (st : lifecycle) (symbol : string) (settlement : datetime)
    : list PositionEligibilityWindow :=
  sort_by window_leb
    (List.filter (fun w => String.eqb (upper (w_symbol w)) symbol && eligible_at w settlement)
       (map snd (_windows st))).

Definition known_updates (st : lifecycle) (symbol : string) (settlement : datetime)
    : list SettlementRateUpdate :=
  sort_by update_leb
    (List.filter (fun u => String.eqb (upper (s_symbol u)) symbol
                           && (dt_us (_utc (s_settlement_time u)) =? dt_us settlement)
                           && (dt_us (_utc (s_available_at u)) <=? dt_us settlement))
       (map snd (_rates st))).

(** The loop that accumulates the eligible notional and the expected cash. *)
Definition accrue (rate : dec) (acc : dec * dec) (w : PositionEligibilityWindow) : result (dec * dec) :=
  let! notional := _decimal (w_funding_notional_usd w) "funding_notional_usd" in
  let! total := dadd (fst acc) notional in
  let direction_sign := if String.eqb (w_direction w) "long_spot_short_perp" then d1 else dm1 in
  let! signed := dmul direction_sign rate in
  let! cash := dmul signed notional in
  let! expected := dadd (snd acc) cash in
  Ok (total, expected).

Definition is_empty {A} (l : list A) : bool := match l with [] => true | _ => false end.

(** [updates[0]] and [updates[-1]] of different sign. *)
Definition rate_reversed (updates : list SettlementRateUpdate) : result bool :=
  match updates with
  | first :: (_ :: _) =>
      let! a := _decimal (s_raw_rate first) "raw_rate" in
      let! b := _decimal (match last updates with Some u => s_raw_rate u | None => VNone end) "raw_rate" in
      let! p := dmul a b in Ok (dlt p d0)
  | _ => Ok false
  end.

(** Whether the statement agrees, and the reasons when it does not. *)
Definition reconcile (has_windows has_rate statement_present : bool) (credited expected tolerance : dec)
    : result (bool * list string) :=
  if has_windows && has_rate then
    if negb statement_present then Ok (false, ["missing_exchange_funding_statement"])
    else
      let! gap := dsub credited expected in
      let! a := dabs gap in
      Ok (if dgt a tolerance then (false, ["exchange_amount_mismatch"]) else (true, []))
  else if statement_present then
    let! a := dabs credited in
    Ok (if dgt a tolerance then (false, ["unexpected_exchange_funding_statement"]) else (true, []))
  else Ok (true, []).

Definition evaluate (st : lifecycle) (symbol : string) (settlement_time : datetime)
    (exchange_amount_usd : option pyval) (exchange_event_id : string) (cash_tolerance_usd : pyval)
    : result SettlementLifecycleResult :=
  let normalized_symbol := upper (strip symbol) in
  if negb (nonempty normalized_symbol) then raise ValueError "symbol is required"
  else
  let settlement := _utc settlement_time in
  let! tolerance := _decimal cash_tolerance_usd "cash_tolerance_usd" in
  if dlt tolerance d0 then raise ValueError "cash_tolerance_usd must be non-negative"
  else
  let windows := eligible_windows st normalized_symbol settlement in
  let updates := known_updates st normalized_symbol settlement in
  let! applied_rate := (match last updates with
                        | Some u => let! r := _decimal (s_raw_rate u) "raw_rate" in Ok (Some r)
                        | None => Ok None
                        end) in
  let rate_available_at := (fun u => _utc (s_available_at u)) <$> last updates in
  let! reversed := rate_reversed updates in
  let! '(eligible_notional, expected) :=
    match applied_rate with
    | Some rate => res_fold (accrue rate) (d0, d0) windows
    | None => Ok (d0, d0)
    end in
  let amount_given := match exchange_amount_usd with Some _ => true | None => false end in
  let statement_present := amount_given || nonempty (strip exchange_event_id) in
  if statement_present && (negb amount_given || negb (nonempty (strip exchange_event_id)))
  then raise ValueError "exchange amount and stable exchange_event_id must be supplied together"
  else
  let! credited := (match exchange_amount_usd with
                    | Some v => _decimal v "exchange_amount_usd"
                    | None => Ok d0
                    end) in
  let has_rate := match applied_rate with Some _ => true | None => false end in
  let! '(reconciled, why) :=
    reconcile (negb (is_empty windows)) has_rate statement_present credited expected tolerance in
  Ok {|
    r_symbol := normalized_symbol;
    r_settlement_time := settlement;
    r_eligible_cycle_ids := map w_cycle_id windows;
    r_eligible_notional_usd := eligible_notional;
    r_applied_rate := applied_rate;
    r_rate_available_at := rate_available_at;
    r_expected_cash_usd := expected;
    r_credited_cash_usd := credited;
    r_exchange_event_id := strip exchange_event_id;
    r_reconciled := reconciled;
    r_reason_codes := dedupe
      (reason_if (is_empty windows) "ineligible_at_settlement"
       ++ reason_if (is_empty updates) "missing_point_in_time_rate"
       ++ reason_if reversed "rate_reversed_before_settlement" ++ why)
  |}.

(** ** Histories *)

Inductive observation :=
  | ObsWindow (w : PositionEligibilityWindow)
  | ObsRate (u : SettlementRateUpdate).

(** Constructing the dataclass and adding it; nothing happens when either raises. *)
Definition observe (o : observation) (st : lifecycle) : lifecycle :=
  match o with
  | ObsWindow w => if is_ok (check_window w) then snd (add_window w st) else st
  | ObsRate u => if is_ok (check_rate u) then snd (observe_rate u st) else st
  end.

Definition observed (l : list observation) : lifecycle := fold_left (fun st o => observe o st) l new_lifecycle.
