(* ===== verification/SettlementLifecycleFacts.v ===== *)
(** * Properties of the settlement lifecycle

    The observation order never matters, only what was known at the settlement
    instant is applied, and cash is reconciled against the statement alone. *)
From Stdlib Require Import ZArith Lia QArith Lqa Ascii.
From stdpp Require Import base list strings sets sorting.
From S2P Require Import Prelude PyDecimal PyDecimalFacts PyFloat PyValue SettlementLifecycle.
Open Scope Z_scope.

(** ** The dictionaries *)

(** The dictionaries hold each constructed record under its own identifier. *)
Record lifecycle_wf (st : lifecycle) : Prop := {
  wf_windows_keys : NoDup (map fst (_windows st));
  wf_rates_keys : NoDup (map fst (_rates st));
  wf_windows : forall k w, (k, w) ∈ _windows st -> k = w_cycle_id w /\ check_window w = Ok tt;
  wf_rates : forall k u, (k, u) ∈ _rates st -> k = s_source_event_id u /\ check_rate u = Ok tt
}.

Lemma is_ok_unit (r : result unit) : is_ok r = true -> r = Ok tt.
Proof. by destruct r as [[]|]. Qed.

Lemma add_window_store w st : snd (add_window w st) = st \/
  snd (add_window w st) = Lifecycle (dict_set (_windows st) (w_cycle_id w) w) (_rates st).
Proof. unfold add_window. destruct (dict_get _ _); [|by right]. destruct (window_eq _ _); simpl; auto. Qed.

Lemma observe_rate_store u st : snd (observe_rate u st) = st \/
  snd (observe_rate u st) = Lifecycle (_windows st) (dict_set (_rates st) (s_source_event_id u) u).
Proof. unfold observe_rate. destruct (dict_get _ _); [|by right]. destruct (rate_eq _ _); simpl; auto. Qed.

Lemma observe_wf o st : lifecycle_wf st -> lifecycle_wf (observe o st).
Proof.
  intros H. destruct o as [w|u]; simpl.
  - destruct (is_ok (check_window w)) eqn:E; [|done]. apply is_ok_unit in E.
    destruct (add_window_store w st) as [->| ->]; [done|]. destruct H as [H1 H2 H3 H4]. split; simpl; try done.
    + by apply dict_set_NoDup.
    + intros k v [[-> ->]|Hin]%elem_of_dict_set; [done|by apply H3].
  - destruct (is_ok (check_rate u)) eqn:E; [|done]. apply is_ok_unit in E.
    destruct (observe_rate_store u st) as [->| ->]; [done|]. destruct H as [H1 H2 H3 H4]. split; simpl; try done.
    + by apply dict_set_NoDup.
    + intros k v [[-> ->]|Hin]%elem_of_dict_set; [done|by apply H4].
Qed.

Lemma observed_wf l : lifecycle_wf (observed l).
Proof.
  unfold observed. assert (lifecycle_wf new_lifecycle) as H by (split; simpl; try constructor; set_solver).
  revert H. generalize new_lifecycle. induction l as [|o l IH]; simpl; intros st H; [done|].
  by apply IH, observe_wf.
Qed.

(** ** The sorted views *)

Lemma window_leb_total a b : window_leb a b = false -> window_leb b a = true.
Proof. apply string_leb_total. Qed.
Lemma window_leb_trans a b c : window_leb a b = true -> window_leb b c = true -> window_leb a c = true.
Proof. apply string_leb_trans. Qed.

Lemma update_leb_total a b : update_leb a b = false -> update_leb b a = true.
Proof.
  unfold update_leb. rewrite (Z.compare_antisym (dt_us (_utc (s_available_at a)))).
  destruct (_ ?= _); simpl; try done. apply string_leb_total.
Qed.

Lemma update_leb_spec a b : update_leb a b = true <->
  dt_us (s_available_at a) < dt_us (s_available_at b) \/
  dt_us (s_available_at a) = dt_us (s_available_at b) /\
  String.leb (s_source_event_id a) (s_source_event_id b) = true.
Proof. unfold update_leb. simpl. destruct (Z.compare_spec (dt_us (s_available_at a)) (dt_us (s_available_at b))); naive_solver lia. Qed.

Lemma update_leb_trans a b c : update_leb a b = true -> update_leb b c = true -> update_leb a c = true.
Proof.
  rewrite !update_leb_spec. intros [H1|[H1 S1]] [H2|[H2 S2]]; try (left; lia).
  right. split; [lia|]. by eapply string_leb_trans.
Qed.

Lemma elem_of_snd {V} (d : dict V) v : v ∈ map snd d <-> exists k, (k, v) ∈ d.
Proof.
  rewrite list_elem_of_fmap. split.
  - intros ([k v'] & -> & H). eauto.
  - intros (k & H). by exists (k, v).
Qed.

Lemma dict_values_inj {V} (d : dict V) (id : V -> string) x y :
  NoDup (map fst d) -> (forall k v, (k, v) ∈ d -> k = id v) ->
  x ∈ map snd d -> y ∈ map snd d -> id x = id y -> x = y.
Proof.
  intros Hn Hid [k1 H1]%elem_of_snd [k2 H2]%elem_of_snd E.
  pose proof (Hid _ _ H1) as E1. pose proof (Hid _ _ H2) as E2.
  assert (k1 = k2) as -> by congruence. clear E1 E2 E Hid.
  induction d as [|[k v] d IH]; simpl in *; [set_solver|].
  apply NoDup_cons in Hn as [Hk Hn].
  assert (forall z, (k2, z) ∈ d -> k2 ∈ map fst d) as Hin
    by (intros z Hz; apply list_elem_of_fmap; by exists (k2, z)).
  apply elem_of_cons in H1. apply elem_of_cons in H2. destruct H1 as [E1|H1], H2 as [E2|H2]; simplify_eq; [done| | |auto].
  - by apply Hin in H2.
  - by apply Hin in H1.
Qed.

Lemma eligible_windows_elem st sym t w : w ∈ eligible_windows st sym t <->
  (exists k, (k, w) ∈ _windows st) /\ upper (w_symbol w) = sym /\ eligible_at w t = true.
Proof.
  unfold eligible_windows. rewrite elem_of_sort_by, elem_of_filter_bool, elem_of_snd, andb_true_iff, String.eqb_eq.
  tauto.
Qed.

Lemma known_updates_elem st sym t u : u ∈ known_updates st sym t <->
  (exists k, (k, u) ∈ _rates st) /\ upper (s_symbol u) = sym /\
  dt_us (s_settlement_time u) = dt_us t /\ dt_us (s_available_at u) <= dt_us t.
Proof.
  unfold known_updates. rewrite elem_of_sort_by, elem_of_filter_bool, elem_of_snd, !andb_true_iff, String.eqb_eq.
  rewrite Z.eqb_eq, Z.leb_le. simpl. tauto.
Qed.

Lemma eligible_windows_perm st1 st2 sym t :
  lifecycle_wf st1 -> _windows st1 ≡ₚ _windows st2 -> eligible_windows st1 sym t = eligible_windows st2 sym t.
Proof.
  intros H Hp. apply sort_by_perm_eq.
  - apply window_leb_total.
  - apply window_leb_trans.
  - intros x y Hx Hy H1 H2. rewrite elem_of_filter_bool in Hx, Hy. destruct Hx as [Hx _], Hy as [Hy _].
    apply (dict_values_inj (_windows st1) w_cycle_id); try done.
    + apply H.
    + intros k v Hv. by apply (wf_windows st1 H).
    + exact (string_leb_antisym _ _ H1 H2).
  - apply filter_perm. by rewrite Hp.
Qed.

Lemma known_updates_perm st1 st2 sym t :
  lifecycle_wf st1 -> _rates st1 ≡ₚ _rates st2 -> known_updates st1 sym t = known_updates st2 sym t.
Proof.
  intros H Hp. apply sort_by_perm_eq.
  - apply update_leb_total.
  - apply update_leb_trans.
  - intros x y Hx Hy H1 H2. rewrite elem_of_filter_bool in Hx, Hy. destruct Hx as [Hx _], Hy as [Hy _].
    rewrite update_leb_spec in H1, H2.
    apply (dict_values_inj (_rates st1) s_source_event_id); try done.
    + apply H.
    + intros k v Hv. by apply (wf_rates st1 H).
    + destruct H1 as [|[E1 H1]], H2 as [|[E2 H2]]; try lia. exact (string_leb_antisym _ _ H1 H2).
  - apply filter_perm. by rewrite Hp.
Qed.

(** What a successful evaluation went through. *)
Lemma evaluate_inv st sym t amount id tol r :
  evaluate st sym t amount id tol = Ok r ->
  let ws := eligible_windows st (upper (strip sym)) (_utc t) in
  let us := known_updates st (upper (strip sym)) (_utc t) in
  let present := match amount with Some _ => true | None => false end in
  r_symbol r = upper (strip sym) /\ r_settlement_time r = _utc t /\
  r_eligible_cycle_ids r = map w_cycle_id ws /\
  r_rate_available_at r = (fun u => _utc (s_available_at u)) <$> last us /\
  match last us with
  | Some u => exists rate, _decimal (s_raw_rate u) "raw_rate" = Ok rate /\ r_applied_rate r = Some rate /\
                res_fold (accrue rate) (d0, d0) ws = Ok (r_eligible_notional_usd r, r_expected_cash_usd r)
  | None => r_applied_rate r = None /\ r_expected_cash_usd r = d0
  end /\
  present = nonempty (strip id) /\ r_exchange_event_id r = strip id /\
  match amount with
  | Some v => _decimal v "exchange_amount_usd" = Ok (r_credited_cash_usd r)
  | None => r_credited_cash_usd r = d0
  end /\
  exists tolerance why, _decimal tol "cash_tolerance_usd" = Ok tolerance /\
    reconcile (negb (is_empty ws)) (match r_applied_rate r with Some _ => true | None => false end)
      present (r_credited_cash_usd r) (r_expected_cash_usd r) tolerance = Ok (r_reconciled r, why).
Proof.
  unfold evaluate. intros H. destruct (negb (nonempty _)); [done|].
  apply res_bind_Ok in H as (tolerance & Et & H). destruct (dlt tolerance d0); [done|].
  apply res_bind_Ok in H as (rate & Er & H). apply res_bind_Ok in H as (rv & _ & H).
  apply res_bind_Ok in H as ([n e] & Ee & H).
  destruct (_ && (_ || _)) eqn:Ep; [done|]. apply res_bind_Ok in H as (credited & Ec & H).
  apply res_bind_Ok in H as ([rec why] & Erec & H). injection H as <-. simpl.
  assert (match amount with Some _ => true | None => false end = nonempty (strip id)) as Hpres
    by (destruct amount, (nonempty (strip id)); done).
  split; [done|]. split; [done|]. split; [done|]. split; [done|]. split.
  { destruct (last _) as [u|]; [|by simplify_eq].
    apply res_bind_Ok in Er as (x & Ex & Er). injection Er as <-. exists x. auto. }
  split; [done|]. split; [done|]. split; [destruct amount; [done|by injection Ec]|].
  exists tolerance, why. split; [done|]. rewrite <- Erec. f_equal. by rewrite <- Hpres, orb_diag.
Qed.

(** ** Properties *)

(** The order in which windows and rates were observed
    never matters: two histories that leave the same records evaluate to the same
    result, errors included. *)
Theorem evaluate_order_independent l1 l2 symbol t amount id tol :
  _windows (observed l1) ≡ₚ _windows (observed l2) -> _rates (observed l1) ≡ₚ _rates (observed l2) ->
  evaluate (observed l1) symbol t amount id tol = evaluate (observed l2) symbol t amount id tol.
Proof.
  intros Hw Hr. unfold evaluate.
  by rewrite (eligible_windows_perm _ _ _ _ (observed_wf l1) Hw), (known_updates_perm _ _ _ _ (observed_wf l1) Hr).
Qed.

(** The cycles credited with a settlement are exactly those
    opened strictly before it and not closed before it, each listed once, and the
    rate applied is the last one published for that settlement no later than the
    settlement itself; no rate is applied only when none was known by then. *)
Theorem settlement_point_in_time l symbol t amount id tol r :
  evaluate (observed l) symbol t amount id tol = Ok r ->
  NoDup (r_eligible_cycle_ids r) /\
  (forall c, c ∈ r_eligible_cycle_ids r <-> exists k w, (k, w) ∈ _windows (observed l) /\
     w_cycle_id w = c /\ upper (w_symbol w) = r_symbol r /\
     dt_us (w_opened_at w) < dt_us t /\ (forall e, w_closed_at w = Some e -> dt_us t <= dt_us e)) /\
  let known u := (exists k, (k, u) ∈ _rates (observed l)) /\ upper (s_symbol u) = r_symbol r /\
                 dt_us (s_settlement_time u) = dt_us t /\ dt_us (s_available_at u) <= dt_us t in
  match r_applied_rate r with
  | Some rate => exists u, known u /\ _decimal (s_raw_rate u) "raw_rate" = Ok rate /\
                   r_rate_available_at r = Some (_utc (s_available_at u)) /\
                   forall u', known u' -> dt_us (s_available_at u') <= dt_us (s_available_at u)
  | None => forall u, ~ known u
  end.
Proof.
  intros H. apply evaluate_inv in H as (Hs & _ & Hids & Hav & Hrate & _).
  pose proof (observed_wf l) as Hwf. rewrite Hs, Hids. split; [|split].
  - apply NoDup_fmap_2_strong; [|].
    + intros x y (Hx & _)%eligible_windows_elem (Hy & _)%eligible_windows_elem E.
      apply (dict_values_inj (_windows (observed l)) w_cycle_id); try done; try by apply elem_of_snd.
      * apply Hwf.
      * intros k v Hv. by apply (wf_windows _ Hwf).
    + unfold eligible_windows. rewrite sort_by_perm. apply NoDup_filter_bool, (NoDup_values _ w_cycle_id); [apply Hwf|].
      intros k v Hv. by apply (wf_windows _ Hwf).
  - intros c. rewrite list_elem_of_fmap. setoid_rewrite eligible_windows_elem.
    unfold eligible_at. simpl. split.
    + intros (w & -> & (k & Hk) & Hsym & He). bool_props. exists k, w. repeat split; try done.
      intros e Ee. rewrite Ee in *. by apply Z.leb_le.
    + intros (k & w & Hk & <- & Hsym & Ho & Hc). exists w. repeat split; [by exists k|done|].
      apply andb_true_iff. split; [by apply Z.ltb_lt|]. destruct (w_closed_at w); [|done].
      by apply Z.leb_le, Hc.
  - cbv zeta. rewrite Hav. destruct (last _) as [u|] eqn:El.
    + destruct Hrate as (rate & Hd & -> & _). exists u.
      apply (last_sorted update_leb) in El as [Hu Hmax];
        [|intros y; apply update_leb_spec; right; split; [done|by apply string_leb_refl]
         |apply sort_by_sorted; [apply update_leb_total|apply update_leb_trans]].
      split; [by apply known_updates_elem in Hu|]. split; [done|]. split; [done|].
      intros u' Hu'. apply known_updates_elem, Hmax, update_leb_spec in Hu'. lia.
    + destruct Hrate as [-> _]. intros u Hu. apply last_None in El.
      apply (known_updates_elem _ _ (_utc t)) in Hu. rewrite El in Hu. set_solver.
Qed.

(** Realized cash is the amount of the exchange statement and
    zero without one, whatever was expected; and a settlement is reconciled exactly
    when, for an eligible hedge with a known rate, a statement is present and within
    tolerance of the expectation, and otherwise any statement is within tolerance of
    zero. *)
Theorem cash_only_from_statement st symbol t amount id tol r :
  evaluate st symbol t amount id tol = Ok r ->
  match amount with
  | Some v => _decimal v "exchange_amount_usd" = Ok (r_credited_cash_usd r) /\ nonempty (r_exchange_event_id r) = true
  | None => r_credited_cash_usd r = d0 /\ nonempty (r_exchange_event_id r) = false
  end /\
  exists tolerance, _decimal tol "cash_tolerance_usd" = Ok tolerance /\
  (r_reconciled r = true <->
   if eligible r && match r_applied_rate r with Some _ => true | None => false end
   then exists v gap a, amount = Some v /\ dsub (r_credited_cash_usd r) (r_expected_cash_usd r) = Ok gap /\
          dabs gap = Ok a /\ (dval a <= dval tolerance)%Q
   else forall v, amount = Some v -> exists a, dabs (r_credited_cash_usd r) = Ok a /\ (dval a <= dval tolerance)%Q).
Proof.
  intros H. apply evaluate_inv in H as (_ & _ & Hids & _ & _ & Hp & Hid & Hc & tolerance & why & Et & Hr).
  split; [rewrite Hid, <- Hp; destruct amount; auto|]. exists tolerance. split; [done|].
  unfold eligible. rewrite Hids.
  replace (match map w_cycle_id _ with [] => false | _ => true end)
    with (negb (is_empty (eligible_windows st (upper (strip symbol)) (_utc t))))
    by (by destruct (eligible_windows _ _ _)).
  unfold reconcile in Hr. destruct (_ && _) in Hr |- *; destruct amount as [v|]; simpl in Hr.
  - apply res_bind_Ok in Hr as (gap & Hg & Hr). apply res_bind_Ok in Hr as (a & Ha & Hr).
    destruct (dgt a tolerance) eqn:Eg; unfold dgt in Eg; injection Hr as Hrec _; rewrite <- Hrec; split; try done.
    + intros (v' & gap' & a' & _ & E1 & E2 & Hle). assert (gap' = gap) as -> by congruence.
      assert (a' = a) as -> by congruence. dec_props. exfalso. lra.
    + intros _. exists v, gap, a. dec_props. auto.
  - injection Hr as Hrec _. rewrite <- Hrec. split; [done|]. by intros (v & _ & _ & [=] & _).
  - apply res_bind_Ok in Hr as (a & Ha & Hr).
    destruct (dgt a tolerance) eqn:Eg; unfold dgt in Eg; injection Hr as Hrec _; rewrite <- Hrec; split; try done.
    + intros Hall. destruct (Hall v eq_refl) as (a' & E & Hle). assert (a' = a) as -> by congruence.
      dec_props. exfalso. lra.
    + intros _ v' _. exists a. dec_props. auto.
  - injection Hr as Hrec _. rewrite <- Hrec. by split.
Qed.

(** ** A concrete settlement

    Two hedges, one closed before the settlement, and three published rates, the
    last of them after the settlement. *)
Definition ex_at (us : Z) : datetime := Datetime true us.
Definition ex_open : PositionEligibilityWindow :=
  Window "cycle-1" "btcusdt" "long_spot_short_perp" (VStr "1000") (ex_at 10) None.
Definition ex_closed : PositionEligibilityWindow :=
  Window "cycle-0" "BTCUSDT" "short_spot_long_perp" (VStr "500") (ex_at 5) (Some (ex_at 99)).
Definition ex_early : SettlementRateUpdate := RateUpdate "BTCUSDT" (ex_at 100) (ex_at 20) (VStr "-0.0002") "r1".
Definition ex_last : SettlementRateUpdate := RateUpdate "BTCUSDT" (ex_at 100) (ex_at 90) (VStr "0.0001") "r2".
Definition ex_after : SettlementRateUpdate := RateUpdate "BTCUSDT" (ex_at 100) (ex_at 101) (VStr "0.5") "r3".

Definition ex_history : list observation :=
  [ObsWindow ex_open; ObsRate ex_early; ObsRate ex_after; ObsWindow ex_closed; ObsRate ex_last].
Definition ex_shuffled : list observation :=
  [ObsRate ex_after; ObsWindow ex_closed; ObsRate ex_last; ObsWindow ex_open; ObsRate ex_early].

Definition ex_result : SettlementLifecycleResult :=
  Build_SettlementLifecycleResult "BTCUSDT" (ex_at 100) ["cycle-1"] (dlit "1000") (Some (dlit "0.0001"))
    (Some (ex_at 90)) (dlit "0.1000") (dlit "0.1") "stmt-1" true ["rate_reversed_before_settlement"].

Lemma evaluate_order_independent_witness :
  evaluate (observed ex_shuffled) "BTCUSDT" (ex_at 100) (Some (VStr "0.1")) "stmt-1" (VStr "0.01")
  = evaluate (observed ex_history) "BTCUSDT" (ex_at 100) (Some (VStr "0.1")) "stmt-1" (VStr "0.01").
Proof.
  apply (evaluate_order_independent ex_shuffled ex_history); vm_compute.
  - apply Permutation_swap.
  - apply (Permutation_app_comm [_; _] [_]).
Defined.

Lemma settlement_point_in_time_witness :
  NoDup (r_eligible_cycle_ids ex_result) /\ ("cycle-0" ∈ r_eligible_cycle_ids ex_result <-> False).
Proof.
  destruct (settlement_point_in_time ex_history "btcusdt" (ex_at 100) (Some (VStr "0.1")) "stmt-1" (VStr "0.01")
              ex_result) as (H1 & H2 & _); [vm_compute; reflexivity|].
  split; [exact H1|]. split; [|intros []]. intros H.
  apply H2 in H as (k & w & Hw & Hid & _ & _ & Hc).
  assert (_windows (observed ex_history) = [("cycle-1", ex_open); ("cycle-0", ex_closed)]) as E by (vm_compute; reflexivity).
  rewrite E in Hw. apply elem_of_cons in Hw. destruct Hw as [Hw|Hw].
  - injection Hw as -> ->. discriminate Hid.
  - apply list_elem_of_singleton in Hw. injection Hw as -> ->. specialize (Hc _ eq_refl).
    exact (Hc eq_refl).
Defined.

Lemma cash_only_from_statement_witness :
  _decimal (VStr "0.1") "exchange_amount_usd" = Ok (r_credited_cash_usd ex_result) /\
  nonempty (r_exchange_event_id ex_result) = true.
Proof.
  apply (cash_only_from_statement (observed ex_history) "btcusdt" (ex_at 100) (Some (VStr "0.1")) "stmt-1"
           (VStr "0.01") ex_result).
  vm_compute. reflexivity.
Defined.
