(* ===== verification/SafeMode.v ===== *)
(** * Safe-mode descriptors

    Model of [src/bongus/engine/safe_mode.py]: the catalog of safe-mode codes, the
    descriptors of the active flags and the restoration of the flags from the last
    durable snapshot. *)
From Stdlib Require Import ZArith Lia Ascii.
From stdpp Require Import base list strings gmap sorting.
From S2P Require Import Prelude PyDecimal PyValue.

Record SafeModeCode := {
  code : string;
  scope : string;
  recoverable : bool;
  next_action : string;
  description : string
}.

#[export] Instance SafeModeCode_eq_dec : EqDecision SafeModeCode.
Proof. solve_decision. Defined.

(** [asdict] *)
Definition to_dict (c : SafeModeCode) : dict pyval :=
  [("code", VStr (code c)); ("scope", VStr (scope c)); ("recoverable", VBool (recoverable c));
   ("next_action", VStr (next_action c)); ("description", VStr (description c))].

(** The first half of the literal, up to [late_entry_fill]. *)
Definition _CATALOG_head : dict SafeModeCode :=
  [
   ("account_reconciliation", {|
      code := "account_reconciliation"; scope := "global"; recoverable := false;
      next_action := "classify_or_repair_account_state";
      description := "An account order, position, hedge, liability, or required endpoint is unexplained." |});
   ("audit_unavailable", {|
      code := "audit_unavailable"; scope := "global"; recoverable := true;
      next_action := "retry_exchange_audit";
      description := "Exchange reconciliation failed too many times to trust new risk." |});
   ("capital_reservation", {|
      code := "capital_reservation"; scope := "global"; recoverable := true;
      next_action := "reconcile_capital_reservations";
      description := "Capital reservation state could not be proven safe for new exposure." |});
   ("divergence_exit_blocked", {|
      code := "divergence_exit_blocked"; scope := "global"; recoverable := false;
      next_action := "operator_review";
      description := "A symbol with position divergence refused automated exit dispatch." |});
   ("execution_bridge", {|
      code := "execution_bridge"; scope := "global"; recoverable := true;
      next_action := "restore_rust_ipc";
      description := "Python cannot safely send intents to the Rust execution bridge." |});
   ("economic_ledger_lineage", {|
      code := "economic_ledger_lineage"; scope := "global"; recoverable := false;
      next_action := "reconcile_execution_lineage";
      description := "An execution effect cannot be linked to its durable economic lineage." |});
   ("economic_ledger_reconciliation", {|
      code := "economic_ledger_reconciliation"; scope := "global"; recoverable := false;
      next_action := "reconcile_economic_ledger";
      description := "Economic ledger totals do not reconcile to authoritative exchange statements." |});
   ("exchange_statement_ingestion", {|
      code := "exchange_statement_ingestion"; scope := "global"; recoverable := true;
      next_action := "replay_exchange_statements";
      description := "Authoritative exchange statement ingestion is incomplete or contains unmapped rows." |});
   ("execution_reconciliation", {|
      code := "execution_reconciliation"; scope := "global"; recoverable := true;
      next_action := "reconcile_execution_state";
      description := "Execution state has an ambiguous or unverified exchange effect." |});
   ("heartbeat_bridge", {|
      code := "heartbeat_bridge"; scope := "global"; recoverable := true;
      next_action := "restore_heartbeat_ack";
      description := "Rust heartbeat acknowledgements are missing or stale." |});
   ("funding_stale", {|
      code := "funding_stale"; scope := "global"; recoverable := true;
      next_action := "refresh_funding_data";
      description := "Funding observations required for entry decisions are stale." |});
   ("health_monitor", {|
      code := "health_monitor"; scope := "global"; recoverable := true;
      next_action := "restore_health_monitor";
      description := "The runtime health monitor cannot prove that entry dependencies are healthy." |});
   ("private_stream_recovery", {|
      code := "private_stream_recovery"; scope := "global"; recoverable := true;
      next_action := "replay_private_order_and_trade_history";
      description := "Spot or futures private-stream history has not been backfilled through a proven cursor." |});
   ("late_entry_fill", {|
      code := "late_entry_fill"; scope := "global"; recoverable := false;
      next_action := "operator_review";
      description := "An entry filled after Python considered the intent stale." |})].

(** The rest of it, from [kill_episode]. *)
Definition _CATALOG_tail : dict SafeModeCode :=
  [
   ("kill_episode", {|
      code := "kill_episode"; scope := "global"; recoverable := false;
      next_action := "reconcile_account_and_request_operator_recovery";
      description := "A durable kill episode requires proven flat account state and a fresh operator recovery request." |});
   ("risk_limits", {|
      code := "risk_limits"; scope := "global"; recoverable := true;
      next_action := "wait_or_derisk";
      description := "Portfolio risk limits require blocking new risk or derisking." |});
   ("rust_execution_readiness", {|
      code := "rust_execution_readiness"; scope := "global"; recoverable := true;
      next_action := "reconcile_spot_and_futures_execution_state";
      description := "Rust has not completed authoritative two-venue execution reconciliation." |});
   ("rust_subscriber", {|
      code := "rust_subscriber"; scope := "global"; recoverable := true;
      next_action := "restore_rust_telemetry";
      description := "The Rust telemetry subscriber is unavailable or has not recovered continuity." |});
   ("spot_universe_unavailable", {|
      code := "spot_universe_unavailable"; scope := "global"; recoverable := true;
      next_action := "retry_symbol_universe";
      description := "The spot hedge universe is unavailable, so new entries cannot be validated." |});
   ("startup_mismatch", {|
      code := "startup_mismatch"; scope := "global"; recoverable := false;
      next_action := "operator_review";
      description := "Startup exchange state does not match local managed state." |});
   ("startup_reconciliation_failed", {|
      code := "startup_reconciliation_failed"; scope := "global"; recoverable := true;
      next_action := "retry_startup_reconciliation";
      description := "Startup reconciliation failed before a safe runtime state was reached." |});
   ("state_store_write", {|
      code := "state_store_write"; scope := "global"; recoverable := true;
      next_action := "restore_state_store";
      description := "SQLite state writes failed, so the bot cannot maintain an audit trail." |});
   ("exit_failure", {|
      code := "exit_failure"; scope := "symbol"; recoverable := true;
      next_action := "retry_or_operator_review";
      description := "A symbol exit failed and needs retry tracking or review." |});
   ("hedge_gap", {|
      code := "hedge_gap"; scope := "symbol"; recoverable := true;
      next_action := "reconcile_or_exit_symbol";
      description := "Spot and perp legs are not sufficiently hedged for one or more symbols." |});
   ("naked_leg_unwind_stuck", {|
      code := "naked_leg_unwind_stuck"; scope := "symbol"; recoverable := false;
      next_action := "operator_review";
      description := "A startup single-leg unwind could not complete automatically." |});
   ("partial_rotation_reconciliation", {|
      code := "partial_rotation_reconciliation"; scope := "symbol"; recoverable := true;
      next_action := "reconcile_intent_terminal_state";
      description := "A partial rotation has an unresolved terminal quantity; new risk stays blocked until the durable Rust result and exchange residual agree." |});
   ("stale_pending_intent", {|
      code := "stale_pending_intent"; scope := "symbol"; recoverable := true;
      next_action := "reconcile_intent_terminal_state";
      description := "A pending enter or exit intent exceeded its allowed age." |});
   ("startup_exit_candidate", {|
      code := "startup_exit_candidate"; scope := "symbol"; recoverable := true;
      next_action := "allow_recovery_exit";
      description := "Startup found a position eligible for controlled recovery exit." |});
   ("startup_manual_review", {|
      code := "startup_manual_review"; scope := "symbol"; recoverable := false;
      next_action := "operator_acknowledge_or_flatten";
      description := "Startup found an orphan or mismatch that requires explicit operator review." |})].

Definition _CATALOG : dict SafeModeCode := _CATALOG_head ++ _CATALOG_tail.

(** The descriptor of a flag that is not in the catalog: it fails to the operator. *)
Definition uncatalogued (raw_flag : string) : SafeModeCode := {|
  code := raw_flag; scope := "global"; recoverable := false; next_action := "operator_review";
  description := "Uncatalogued safe-mode flag." |}.

(** [sorted({flag.strip() for flag in flags if flag.strip()})] *)
Definition active_flags (flags : list string) : list string :=
  sort_strings (dedupe (List.filter nonempty (map strip flags))).

Definition descriptor (raw_flag : string) : SafeModeCode :=
  match dict_get _CATALOG raw_flag with Some c => c | None => uncatalogued raw_flag end.

Definition describe_safe_mode_flags (flags : list string) : list (dict pyval) :=
  map (fun f => to_dict (descriptor f)) (active_flags flags).

Definition safe_mode_catalog : list (dict pyval) :=
  map to_dict (sort_by (fun a b => String.leb (code a) (code b)) (map snd _CATALOG)).

(** [s.split(sep)] for a one-character separator. *)
Fixpoint split_on (sep : ascii) (s : string) : list string :=
  match s with
  | EmptyString => [EmptyString]
  | String c r =>
      if Ascii.eqb c sep then EmptyString :: split_on sep r
      else match split_on sep r with
           | w :: ws => String c w :: ws
           | [] => [String c EmptyString]
           end
  end.

(** The code an element of [safe_mode_codes] stands for. *)
Definition restored_code (raw : pyval) : string :=
  let v := match as_dict raw with Some d => get d "code" | None => raw end in
  strip (py_str (py_or v (VStr ""))).

Definition stripped_set (l : list string) : gset string := list_to_set (List.filter nonempty l).

(** The structured codes are authoritative when there are any; the display text is
    the fallback. *)
Definition restore_safe_mode_flags (snapshot : dict pyval) : gset string :=
  let restored := match as_list (get snapshot "safe_mode_codes") with
                  | Some raw_codes => stripped_set (map restored_code raw_codes)
                  | None => empty
                  end in
  if bool_decide (restored = empty) then
    let raw_reason := py_str (py_or (get snapshot "safe_mode_reason") (VStr "")) in
    stripped_set (map strip (split_on ","%char raw_reason))
  else restored.

(** ** Properties *)

Lemma elem_of_active_flags flags f :
  f ∈ active_flags flags <-> nonempty f = true /\ exists raw, raw ∈ flags /\ strip raw = f.
Proof.
  unfold active_flags, sort_strings. rewrite elem_of_sort_by, elem_of_dedupe, elem_of_filter_bool, list_elem_of_fmap.
  naive_solver.
Qed.

Lemma catalog_codes : Forall (fun kv => fst kv = code (snd kv)) _CATALOG.
Proof. repeat constructor. Qed.

Lemma descriptor_code f : code (descriptor f) = f.
Proof.
  unfold descriptor. destruct (dict_get _CATALOG f) as [c|] eqn:E; [|done].
  apply dict_get_elem in E. pose proof catalog_codes as H. rewrite Forall_forall in H. by apply H in E.
Qed.

Lemma strip_active flags f : f ∈ active_flags flags -> strip f = f /\ nonempty f = true.
Proof. intros (Hn & raw & _ & <-)%elem_of_active_flags. split; [apply strip_idem|done]. Qed.

(** The descriptors name every active flag exactly once, in order;
    a flag outside the catalog is never shown as recoverable, it goes to the operator
    and blocks globally; a catalogued flag has its catalog entry. *)
Theorem descriptors_fail_closed flags :
  exists l, describe_safe_mode_flags flags = map (fun f => to_dict (descriptor f)) l /\
  StronglySorted (fun a b => String.leb a b = true) l /\ NoDup l /\
  (forall f, f ∈ l <-> nonempty f = true /\ exists raw, raw ∈ flags /\ strip raw = f) /\
  (forall f, code (descriptor f) = f) /\
  (forall f, dict_get _CATALOG f = None ->
     recoverable (descriptor f) = false /\ next_action (descriptor f) = "operator_review" /\
     scope (descriptor f) = "global") /\
  (forall f c, dict_get _CATALOG f = Some c -> descriptor f = c).
Proof.
  exists (active_flags flags). split; [done|]. split.
  { apply sort_by_sorted; [apply string_leb_total|apply string_leb_trans]. }
  split. { unfold active_flags. rewrite sort_strings_perm. apply dedupe_NoDup. }
  split; [apply elem_of_active_flags|]. split; [apply descriptor_code|].
  unfold descriptor. split; [by intros f -> | by intros f c ->].
Qed.

Lemma restored_described f : nonempty f = true -> strip f = f -> restored_code (VDict (to_dict (descriptor f))) = f.
Proof.
  intros Hn Hs. unfold restored_code, as_dict, get, get_or, to_dict.
  cbn [dict_get fst]. rewrite String.eqb_refl, descriptor_code. unfold py_or, truthy. by rewrite Hn.
Qed.

Lemma map_restored l :
  (forall f, f ∈ l -> strip f = f /\ nonempty f = true) ->
  map restored_code (map (fun f => VDict (to_dict (descriptor f))) l) = l.
Proof.
  induction l as [|f l IH]; intros H; [done|]. cbn [map].
  destruct (H f) as [Hs Hn]; [set_solver|]. rewrite restored_described by done. f_equal. apply IH. set_solver.
Qed.

Lemma filter_nonempty_id l : (forall f, f ∈ l -> nonempty f = true) -> List.filter nonempty l = l.
Proof.
  induction l as [|f l IH]; intros H; [done|]. cbn [List.filter].
  rewrite H by set_solver. f_equal. apply IH. set_solver.
Qed.

Lemma restored_set flags :
  stripped_set (map restored_code (map VDict (describe_safe_mode_flags flags)))
  = list_to_set (List.filter nonempty (map strip flags)).
Proof.
  unfold describe_safe_mode_flags, stripped_set. rewrite (map_map _ VDict), map_restored by apply strip_active.
  rewrite filter_nonempty_id by (intros f Hin; by eapply strip_active).
  apply set_eq. intros x. rewrite !elem_of_list_to_set, elem_of_active_flags, elem_of_filter_bool, list_elem_of_fmap.
  naive_solver.
Qed.

Lemma active_flags_nil flags :
  active_flags flags = [] <-> (list_to_set (List.filter nonempty (map strip flags)) : gset string) = empty.
Proof.
  split; intros H.
  - apply set_eq. intros x. split; [|set_solver].
    rewrite elem_of_list_to_set, elem_of_filter_bool, list_elem_of_fmap. intros [(raw & -> & Hr) Hn].
    assert (strip raw ∈ active_flags flags) as Hin by (apply elem_of_active_flags; eauto).
    rewrite H in Hin. set_solver.
  - apply elem_of_nil_inv. intros x Hx. apply elem_of_active_flags in Hx as (Hn & raw & Hr & <-).
    assert (strip raw ∈ (list_to_set (List.filter nonempty (map strip flags)) : gset string)) as Hin.
    { apply elem_of_list_to_set, elem_of_filter_bool. split; [|done]. apply list_elem_of_fmap. eauto. }
    rewrite H in Hin. set_solver.
Qed.

Lemma reason_text reason : py_str (py_or (VStr reason) (VStr "")) = reason.
Proof. unfold py_or. simpl. by destruct reason. Qed.

(** The flags restored from a snapshot that stored the descriptors
    of the active flags are exactly those flags, unknown ones included; only when there
    was none does the display text count. *)
Theorem restore_describe_roundtrip flags reason :
  restore_safe_mode_flags
    [("safe_mode_codes", VList (map VDict (describe_safe_mode_flags flags))); ("safe_mode_reason", VStr reason)]
  = if bool_decide (active_flags flags = [])
    then stripped_set (map strip (split_on ","%char reason))
    else list_to_set (List.filter nonempty (map strip flags)).
Proof.
  unfold restore_safe_mode_flags.
  change (as_list (get _ "safe_mode_codes")) with (Some (map VDict (describe_safe_mode_flags flags))).
  change (get _ "safe_mode_reason") with (VStr reason). cbv iota beta zeta.
  rewrite restored_set, reason_text.
  rewrite (bool_decide_ext _ _ (active_flags_nil flags)). done.
Qed.

Definition no_comma (s : string) : bool := str_forallb (fun c => negb (Ascii.eqb c ","%char)) s.

Lemma split_on_plain s : no_comma s = true -> split_on ","%char s = [s].
Proof.
  induction s as [|c s IH]; [done|]. unfold no_comma. simpl. intros H. apply andb_true_iff in H as [Hc H].
  destruct (Ascii.eqb c ","%char); [done|]. by rewrite IH.
Qed.

Lemma split_on_app s r : no_comma s = true -> split_on ","%char (s +:+ "," +:+ r) = s :: split_on ","%char r.
Proof.
  induction s as [|c s IH]; [done|]. unfold no_comma. simpl. intros H. apply andb_true_iff in H as [Hc H].
  destruct (Ascii.eqb c ","%char); [done|]. by rewrite IH.
Qed.

Lemma split_on_join l : l <> [] -> Forall (fun s => no_comma s = true) l -> split_on ","%char (str_join "," l) = l.
Proof.
  induction l as [|s l IH]; [done|]. intros _ H. inversion H; subst. destruct l as [|s' l]; [by apply split_on_plain|].
  change (split_on ","%char (s +:+ "," +:+ str_join "," (s' :: l)) = s :: s' :: l).
  rewrite split_on_app by done. f_equal. by apply IH.
Qed.

(** A database that stored only the comma-separated reason restores
    the same flags, provided that no flag holds a comma. *)
Theorem legacy_reason_roundtrip flags :
  Forall (fun s => no_comma s = true) flags ->
  restore_safe_mode_flags [("safe_mode_reason", VStr (str_join "," flags))]
  = list_to_set (List.filter nonempty (map strip flags)).
Proof.
  intros H. unfold restore_safe_mode_flags.
  change (as_list (get _ "safe_mode_codes")) with (@None (list pyval)).
  change (get _ "safe_mode_reason") with (VStr (str_join "," flags)). cbv iota beta zeta.
  rewrite bool_decide_eq_true_2 by done. rewrite reason_text. unfold stripped_set.
  destruct flags as [|f flags]; [done|]. by rewrite split_on_join.
Qed.

Lemma legacy_reason_roundtrip_witness :
  restore_safe_mode_flags [("safe_mode_reason", VStr "risk_limits, made_up,")]
  = list_to_set (List.filter nonempty (map strip ["risk_limits"; " made_up"; ""])).
Proof. apply (legacy_reason_roundtrip ["risk_limits"; " made_up"; ""]). repeat constructor. Defined.
