(* ===== verification/ExchangeFilters.v ===== *)
(** * Exchange metadata and order filters

    Model of [src/bongus/engine/exchange_filters.py]: parsing one symbol of an
    exchange-info snapshot, replacing the metadata of a market atomically and
    validating an order against the filters that are stored. *)
From Stdlib Require Import ZArith Lia Ascii SpecFloat.
From stdpp Require Import base list strings gmap.
From S2P Require Import Prelude PyDecimal PyDecimalFacts PyFloat PyValue.
Open Scope Z_scope.

(** ** Decimals and flags of the payload *)

Definition incomplete {A} (msg : string) : result A := raise IncompleteExchangeMetadata msg.

Definition _decimal (value : pyval) (field_name : string) (allow_zero : bool) : result dec :=
  let! parsed := res_catch (Decimal_of value) numeric_errors (incomplete (field_name +:+ ":invalid_decimal")) in
  match parsed with
  | DFin d =>
      if dlt d d0 || (deqb d d0 && negb allow_zero) then incomplete (field_name +:+ ":not_positive") else Ok d
  | _ => incomplete (field_name +:+ ":non_finite")
  end.

Definition _optional_decimal (value : pyval) (field_name : string) : result (option dec) :=
  match value with
  | VNone | VStr EmptyString => Ok None
  | _ => let! parsed := _decimal value field_name true in Ok (if deqb parsed d0 then None else Some parsed)
  end.

Definition _bool (value : pyval) (dflt : bool) : bool :=
  match value with
  | VNone => dflt
  | VBool b => b
  | VStr s =>
      let normalized := lower (strip s) in
      if str_in normalized ["true"; "1"; "yes"] then true
      else if str_in normalized ["false"; "0"; "no"] then false
      else truthy value
  | _ => truthy value
  end.

(** ** Grids and metadata *)

Record DecimalGrid := mkGrid { minimum : dec; maximum : dec; step : dec }.

(** The constructor with [__post_init__]. *)
Definition new_grid (lo hi st : dec) : result DecimalGrid :=
  if dlt lo d0 then incomplete "grid:negative_minimum"
  else if dle hi d0 || dlt hi lo then incomplete "grid:invalid_maximum"
  else if dle st d0 then incomplete "grid:invalid_step"
  else Ok (mkGrid lo hi st).

Definition aligned (g : DecimalGrid) (value : dec) : result bool :=
  if dge value d0 then let! r := dmod value (step g) in Ok (deqb r d0) else Ok false.

Definition floor (g : DecimalGrid) (value : dec) : result dec :=
  let! q := ddiv value (step g) in dmul (to_integral rnd_floor q) (step g).

Definition ceil (g : DecimalGrid) (value : dec) : result dec :=
  let! q := ddiv value (step g) in dmul (to_integral rnd_ceiling q) (step g).

Record NotionalFilter := mkNotional {
  n_minimum : dec;
  n_maximum : option dec;
  apply_min_to_market : bool;
  apply_max_to_market : bool
}.

Definition new_notional (lo : dec) (hi : option dec) (amin amax : bool) : result NotionalFilter :=
  if dle lo d0 then incomplete "notional:invalid_minimum"
  else if match hi with Some h => dlt h lo | None => false end
  then incomplete "notional:maximum_below_minimum"
  else Ok (mkNotional lo hi amin amax).

Record SymbolOrderMetadata := mkMetadata {
  m_symbol : string;
  m_market : string;
  m_status : string;
  m_price : DecimalGrid;
  m_lot : DecimalGrid;
  m_market_lot : option DecimalGrid;
  m_notional : NotionalFilter;
  m_received_at : float;
  m_source_hash : string
}.

Definition TRADING_STATUS : string := "TRADING".

Definition tradable (m : SymbolOrderMetadata) : bool := String.eqb (m_status m) TRADING_STATUS.

Record MetadataUpdateResult := {
  up_market : string;
  up_accepted_symbols : list string;
  up_rejected_symbols : list (string * list string);
  up_changed_symbols : list string;
  up_removed_symbols : list string;
  up_source_hash : string
}.

Record OrderFilterResult := {
  accepted : bool;
  o_symbol : string;
  o_market : string;
  o_side : string;
  o_order_type : string;
  o_quantity : option dec;
  o_price : option dec;
  o_notional : option dec;
  o_metadata_age_seconds : float;
  o_reasons : list string;
  o_normalized : bool
}.

Definition _canonical_hash (value : dict pyval) : result string := json_sha256 true (VDict value).

(** ** Parsing one symbol *)

(** The filters of a payload by type; a later one replaces an earlier one. *)
Definition filters_by_type (raw_filters : list pyval) : dict (dict pyval) :=
  fold_left (fun acc item =>
    match as_dict item with
    | None => acc
    | Some d =>
        let filter_type := upper (py_str (get_or d "filterType" (VStr ""))) in
        if nonempty filter_type then dict_set acc filter_type d else acc
    end) raw_filters [].

Definition parse_grid (f : dict pyval) (name lo hi st : string) : result DecimalGrid :=
  let! a := _decimal (get f lo) (name +:+ "." +:+ lo) true in
  let! b := _decimal (get f hi) (name +:+ "." +:+ hi) false in
  let! c := _decimal (get f st) (name +:+ "." +:+ st) false in
  new_grid a b c.

Definition parse_market_lot (filters : dict (dict pyval)) (lot : DecimalGrid) : result (option DecimalGrid) :=
  match dict_get filters "MARKET_LOT_SIZE" with
  | None => Ok None
  | Some f =>
      let! market_step := _decimal (get f "stepSize") "MARKET_LOT_SIZE.stepSize" true in
      let! lo := _decimal (get f "minQty") "MARKET_LOT_SIZE.minQty" true in
      let! hi := _decimal (get f "maxQty") "MARKET_LOT_SIZE.maxQty" false in
      let! g := new_grid lo hi (if deqb market_step d0 then step lot else market_step) in
      Ok (Some g)
  end.

Definition parse_notional (filters : dict (dict pyval)) : result NotionalFilter :=
  match dict_get filters "NOTIONAL" with
  | Some f =>
      let! lo := _decimal (get f "minNotional") "NOTIONAL.minNotional" false in
      let! hi := _optional_decimal (get f "maxNotional") "NOTIONAL.maxNotional" in
      new_notional lo hi (_bool (get f "applyMinToMarket") true) (_bool (get f "applyMaxToMarket") true)
  | None =>
      match dict_get filters "MIN_NOTIONAL" with
      | None => incomplete "MIN_NOTIONAL/NOTIONAL:missing"
      | Some f =>
          let! lo := _decimal (get_or f "minNotional" (get f "notional")) "MIN_NOTIONAL.minNotional" false in
          new_notional lo None (_bool (get f "applyToMarket") true) false
      end
  end.

Definition parse_binance_symbol_metadata (payload : dict pyval) (market : string) (received_at : float)
    (source_hash : option string) : result SymbolOrderMetadata :=
  let symbol := upper (strip (py_str (get_or payload "symbol" (VStr "")))) in
  let status := upper (strip (py_str (get_or payload "status" (VStr "")))) in
  if negb (isfinite received_at) then incomplete "received_at:non_finite"
  else if negb (nonempty symbol) then incomplete "symbol:missing"
  else if negb (nonempty status) then incomplete "status:missing"
  else if negb (str_in market ["spot"; "perp"]) then incomplete "market:unsupported"
  else match as_list (get payload "filters") with
  | None => incomplete "filters:missing"
  | Some raw_filters =>
      let filters := filters_by_type raw_filters in
      match dict_get filters "PRICE_FILTER", dict_get filters "LOT_SIZE" with
      | None, _ => incomplete "PRICE_FILTER:missing"
      | Some _, None => incomplete "LOT_SIZE:missing"
      | Some price_filter, Some lot_filter =>
          let! price_grid := parse_grid price_filter "PRICE_FILTER" "minPrice" "maxPrice" "tickSize" in
          let! lot_grid := parse_grid lot_filter "LOT_SIZE" "minQty" "maxQty" "stepSize" in
          let! market_lot_grid := parse_market_lot filters lot_grid in
          let! notional := parse_notional filters in
          let! hash := (match source_hash with
                        | Some (String c r) => Ok (String c r)
                        | _ => _canonical_hash payload
                        end) in
          Ok (mkMetadata symbol market status price_grid lot_grid market_lot_grid notional received_at hash)
      end
  end.

(** ** The registry *)

Notation key := (string * string)%type.

Record registry := mkRegistry {
  _metadata_ttl_seconds : float;
  _metadata : gmap key SymbolOrderMetadata;
  _invalid : gmap key (list string)
}.

Definition new_registry (metadata_ttl_seconds : float) : result registry :=
  if negb (isfinite metadata_ttl_seconds) || fle metadata_ttl_seconds fzero
  then raise ValueError "metadata_ttl_seconds must be positive and finite"
  else Ok (mkRegistry metadata_ttl_seconds ∅ ∅).

(** The temporary maps of one snapshot and the symbols already seen. *)
Record snapshot := mkSnapshot {
  next_metadata : gmap key SymbolOrderMetadata;
  next_invalid : gmap key (list string);
  seen_symbols : list string
}.

Definition raw_symbol_name (raw : dict pyval) : string :=
  str_or (upper (strip (py_str (get_or raw "symbol" (VStr ""))))) "<UNKNOWN>".

(** One iteration of the loop over [raw_symbols]. *)
Definition scan_symbol (market : string) (timestamp : float) (acc : snapshot) (raw_symbol : pyval)
    : result snapshot :=
  match as_dict raw_symbol with
  | None => Ok acc
  | Some raw =>
      let symbol := raw_symbol_name raw in
      let k := (market, symbol) in
      if str_in symbol (seen_symbols acc)
      then Ok (mkSnapshot (delete k (next_metadata acc))
                 (<[k := ["symbol:duplicate"]]> (next_invalid acc)) (seen_symbols acc))
      else
        let seen := symbol :: seen_symbols acc in
        match (let! hash := _canonical_hash raw in
               parse_binance_symbol_metadata raw market timestamp (Some hash)) with
        | Ok parsed =>
            Ok (mkSnapshot (<[(market, m_symbol parsed) := parsed]> (next_metadata acc)) (next_invalid acc) seen)
        | Err (Exn IncompleteExchangeMetadata msg) =>
            Ok (mkSnapshot (next_metadata acc) (<[k := [msg]]> (next_invalid acc)) seen)
        | Err e => Err e
        end
  end.

Inductive fingerprint := FValid (source_hash : string) | FInvalid (reasons : list string).

#[export] Instance fingerprint_eq_dec : EqDecision fingerprint.
Proof. solve_decision. Defined.

(** [{key: ("valid", hash)}] updated with [{key: ("invalid", reasons)}]. *)
Definition fingerprints (valid : gmap key SymbolOrderMetadata) (invalid : gmap key (list string))
    : gmap key fingerprint :=
  (FInvalid <$> invalid) ∪ ((fun m => FValid (m_source_hash m)) <$> valid).

Definition of_market {V} (market : string) (m : gmap key V) : gmap key V :=
  filter (fun kv => fst (fst kv) = market) m.
Definition not_of_market {V} (market : string) (m : gmap key V) : gmap key V :=
  filter (fun kv => fst (fst kv) <> market) m.

Definition symbols_of {V} (m : gmap key V) : list string :=
  sort_strings (map (fun kv => snd (fst kv)) (map_to_list m)).

Definition changed_symbols (previous next : gmap key fingerprint) : list string :=
  symbols_of (filter (fun kv => previous !! fst kv <> Some (snd kv)) next).
Definition removed_symbols (previous next : gmap key fingerprint) : list string :=
  symbols_of (filter (fun kv => next !! fst kv = None) previous).

Definition scan_market (market : string) (timestamp : float) (raw_symbols : list pyval) : result snapshot :=
  res_fold (scan_symbol market timestamp) (mkSnapshot ∅ ∅ []) raw_symbols.

Definition replace_market (market : string) (exchange_info : dict pyval) (received_at : option float)
    (clock : float) : M registry MetadataUpdateResult := fun reg =>
  if negb (str_in market ["spot"; "perp"]) then (raise ValueError ("unsupported market: " +:+ market), reg)
  else
  let timestamp := match received_at with Some t => t | None => clock end in
  if negb (isfinite timestamp) then (raise ValueError "received_at must be finite", reg)
  else match _canonical_hash exchange_info with
  | Err e => (Err e, reg)
  | Ok source_hash =>
  match as_list (get exchange_info "symbols") with
  | None => (incomplete "exchange_info.symbols:missing", reg)
  | Some raw_symbols =>
  match scan_market market timestamp raw_symbols with
  | Err e => (Err e, reg)
  | Ok next =>
      if bool_decide (next_metadata next = ∅) && bool_decide (next_invalid next = ∅)
      then (incomplete "exchange_info.symbols:empty", reg)
      else
        let previous := fingerprints (of_market market (_metadata reg)) (of_market market (_invalid reg)) in
        let now := fingerprints (next_metadata next) (next_invalid next) in
        (Ok {|
           up_market := market;
           up_accepted_symbols := symbols_of (next_metadata next);
           up_rejected_symbols :=
             sort_by (fun a b => String.leb (fst a) (fst b))
               (map (fun kv => (snd (fst kv), snd kv)) (map_to_list (next_invalid next)));
           up_changed_symbols := changed_symbols previous now;
           up_removed_symbols := removed_symbols previous now;
           up_source_hash := source_hash |},
         mkRegistry (_metadata_ttl_seconds reg)
           (next_metadata next ∪ not_of_market market (_metadata reg))
           (next_invalid next ∪ not_of_market market (_invalid reg)))
  end end end.

Definition get_metadata (reg : registry) (symbol market : string) : option SymbolOrderMetadata :=
  _metadata reg !! (market, upper symbol).

(** ** Validating an order *)

Definition _parse_order_decimal (value : pyval) (field_name : string) : option dec * list string :=
  match Decimal_of value with
  | Ok (DFin d) => if dle d d0 then (None, [field_name +:+ "_invalid"]) else (Some d, [])
  | _ => (None, [field_name +:+ "_invalid"])
  end.

(** [self._parse_order_decimal(value, ...) if value is not None else None] *)
Definition parse_optional (value : pyval) (field_name : string) : option dec * list string :=
  match value with VNone => (None, []) | v => _parse_order_decimal v field_name end.

(** The reasons a number has against a grid. *)
Definition grid_reasons (g : DecimalGrid) (v : dec) (below above off : string) : result (list string) :=
  let! ok := aligned g v in
  Ok (reason_if (dlt v (minimum g)) below ++ reason_if (dgt v (maximum g)) above ++ reason_if (negb ok) off).

Definition check_quantity (g : DecimalGrid) (normalize : bool) (q : option dec)
    : result (option dec * list string) :=
  match q with
  | None => Ok (None, [])
  | Some v =>
      let! v' := (if normalize then floor g v else Ok v) in
      let! rs := grid_reasons g v' "quantity_below_minimum" "quantity_above_maximum" "quantity_off_step" in
      Ok (Some v', rs)
  end.

Definition check_price (m : SymbolOrderMetadata) (side order_type : string) (normalize : bool) (p : option dec)
    : result (option dec * list string) :=
  if negb (String.eqb order_type "LIMIT") then Ok (p, [])
  else match p with
  | None => Ok (None, ["limit_price_missing"])
  | Some v =>
      let! v' := (if normalize then (if String.eqb side "BUY" then floor (m_price m) v else ceil (m_price m) v)
                  else Ok v) in
      let! rs := grid_reasons (m_price m) v' "price_below_minimum" "price_above_maximum" "price_off_tick" in
      Ok (Some v', rs)
  end.

Definition check_notional (n : NotionalFilter) (order_type : string) (quantity notional_price : option dec)
    : result (option dec * list string) :=
  let is_market := String.eqb order_type "MARKET" in
  let minimum_applies := negb is_market || apply_min_to_market n in
  let maximum_applies := negb is_market || apply_max_to_market n in
  match quantity, notional_price with
  | Some q, Some p =>
      let! v := dmul q p in
      Ok (Some v,
          reason_if (minimum_applies && dlt v (n_minimum n)) "notional_below_minimum"
          ++ match n_maximum n with
             | Some hi => reason_if (maximum_applies && dgt v hi) "notional_above_maximum"
             | None => []
             end)
  | _, _ =>
      let has_max := match n_maximum n with Some _ => true | None => false end in
      Ok (None, reason_if (minimum_applies || (maximum_applies && has_max)) "notional_price_missing")
  end.

(** [max(0.0, checked_at - received_at)] *)
Definition metadata_age (m : SymbolOrderMetadata) (checked_at : float) : float :=
  fmax fzero (fsub checked_at (m_received_at m)).

Definition freshness_reasons (ttl : float) (m : SymbolOrderMetadata) (checked_at : float) : list string :=
  if negb (isfinite checked_at) || flt checked_at (m_received_at m) then ["metadata_clock_invalid"]
  else reason_if (flt ttl (metadata_age m checked_at)) "metadata_stale".

Definition quantity_grid (m : SymbolOrderMetadata) (order_type : string) : DecimalGrid :=
  match m_market_lot m with
  | Some g => if String.eqb order_type "MARKET" then g else m_lot m
  | None => m_lot m
  end.

Definition validate_order (reg : registry) (symbol market side order_type : string)
    (quantity price reference_price : pyval) (now : option float) (clock : float)
    (normalize : bool) : result OrderFilterResult :=
  let normalized_symbol := upper symbol in
  let normalized_side := upper side in
  let normalized_type := upper order_type in
  let checked_at := match now with Some t => t | None => clock end in
  match _metadata reg !! (market, normalized_symbol) with
  | None =>
      let reasons := match _invalid reg !! (market, normalized_symbol) with
                     | Some (r :: rs) => r :: rs
                     | _ => ["metadata_missing"]
                     end in
      Ok (Build_OrderFilterResult false normalized_symbol market normalized_side normalized_type
            None None None finf reasons normalize)
  | Some m =>
      let fresh := freshness_reasons (_metadata_ttl_seconds reg) m checked_at in
      let status := reason_if (negb (tradable m)) ("symbol_status:" +:+ m_status m) in
      let sides := reason_if (negb (str_in normalized_side ["BUY"; "SELL"])) "side_unsupported" in
      let types := reason_if (negb (str_in normalized_type ["LIMIT"; "MARKET"])) "order_type_unsupported" in
      let '(q0, rq0) := _parse_order_decimal quantity "quantity" in
      let '(p0, rp0) := parse_optional price "price" in
      let '(ref, rref) := parse_optional reference_price "reference_price" in
      let! '(q, rq) := check_quantity (quantity_grid m normalized_type) normalize q0 in
      let! '(p, rp) := check_price m normalized_side normalized_type normalize p0 in
      let notional_price := if String.eqb normalized_type "LIMIT" then p else ref in
      let! '(notional, rn) := check_notional (m_notional m) normalized_type q notional_price in
      let reasons := fresh ++ status ++ sides ++ types ++ rq0 ++ rp0 ++ rref ++ rq ++ rp ++ rn in
      Ok {|
        accepted := match reasons with [] => true | _ => false end;
        o_symbol := normalized_symbol;
        o_market := market;
        o_side := normalized_side;
        o_order_type := normalized_type;
        o_quantity := q;
        o_price := p;
        o_notional := notional;
        o_metadata_age_seconds := metadata_age m checked_at;
        o_reasons := dedupe reasons;
        o_normalized := normalize |}
  end.

(** ** Histories of the registry *)

Record feed := mkFeed { f_market : string; f_info : dict pyval; f_received_at : option float; f_clock : float }.

Definition ingest (reg : registry) (f : feed) : registry :=
  snd (replace_market (f_market f) (f_info f) (f_received_at f) (f_clock f) reg).

Definition ingested (ttl : float) (l : list feed) : registry :=
  fold_left ingest l (mkRegistry ttl ∅ ∅).
