(* ===== verification/ExchangeFiltersFacts.v ===== *)
(** * Properties of the exchange filters

    An accepted order satisfies every stored filter, its notional at the price its type
    names; metadata is well formed
    because parsing fails closed; replacing a market is atomic, touches no other
    market and is stable under re-reading the same snapshot. *)
From Stdlib Require Import ZArith Lia QArith Lqa Ascii SpecFloat.
From stdpp Require Import base list strings gmap sets.
From S2P Require Import Prelude PyDecimal PyDecimalFacts PyFloat PyValue ExchangeFilters.
Open Scope Z_scope.

(** ** Remainders *)

Lemma dfix_zero s c e d : dfix s c e = Ok d -> Etiny <= e -> (dval d == 0)%Q -> c = 0%N.
Proof.
  intros H He Hz. destruct (N.eq_dec c 0%N) as [|Hc]; [done|exfalso].
  apply dfix_mag in H as (_ & _ & Hm).
  destruct (Hm (Dec false 1 (Z.min e Emax))) as [Hle _].
  { unfold fits, adjusted. cbn [dcoeff dexp]. change (ndigits 1) with 1. unfold prec, Etiny, Emin, Emax, prec in *.
    cbn [N.eqb]. lia. }
  assert (mag (Dec false 1 (Z.min e Emax)) <= mag d)%Q as Hmd.
  { apply Hle. unfold mag; simpl. eapply Qle_trans; [apply (mkval_one_mono _ e); lia|]. apply mkval_le. lia. }
  assert (0 < mag (Dec false 1 (Z.min e Emax)))%Q as Hpos
    by (unfold mag, mkval; simpl; rewrite Qmult_1_l; apply ten_pos).
  rewrite dval_sign in Hz. destruct (dneg d); lra.
Qed.

(** A zero remainder: the value is an integer number of steps. *)
Lemma dmod_multiple a b r : dmod a b = Ok r -> (dval r == 0)%Q -> Etiny <= dexp a -> Etiny <= dexp b ->
  exists k : Z, (dval a == inject_Z k * dval b)%Q.
Proof.
  unfold dmod. set (m := Z.min (dexp a) (dexp b)). intros H Hr Ha Hb.
  destruct (dcoeff b =? 0)%N eqn:Eb; [done|].
  assert (m <= dexp a /\ m <= dexp b /\ Etiny <= m) as (Hma & Hmb & Hm) by (subst m; lia). clearbody m.
  assert (forall k : Z, zscaled a m = k * zscaled b m -> (dval a == inject_Z k * dval b)%Q) as Hk.
  { intros k E. rewrite (dval_scaled a m), (dval_scaled b m), E by lia. unfold mkval. rewrite inject_Z_mult. ring. }
  destruct ((dcoeff a =? 0)%N || _) eqn:Ec.
  - exists 0. apply Hk. unfold zscaled, zsigned. apply dfix_zero in H; [|unfold rescale|done].
    + unfold rescale in H. destruct (N.eqb_spec (dcoeff a) 0%N) as [->|Hn]; [by destruct (dneg a)|].
      rewrite (proj2 (Z.leb_le m (dexp a))) in H by lia. simpl in H.
      pose proof (pow10_Z (dexp a - m) ltac:(lia)). pose proof (Z.pow_pos_nonneg 10 (dexp a - m)). nia.
    + destruct (dcoeff a =? 0)%N; [|destruct (m <=? dexp a)]; cbn [dexp]; lia.
  - destruct (_ <=? prec); [|done]. destruct (_ <? _)%N; [|done].
    apply dfix_zero in H; [|lia|done].
    set (n := (dcoeff a * pow10 (dexp a - m))%N) in *. set (p := (dcoeff b * pow10 (dexp b - m))%N) in *.
    assert (Z.of_N p <> 0) as Hp.
    { apply N.eqb_neq in Eb. subst p. pose proof (pow10_Z (dexp b - m) ltac:(lia)).
      pose proof (Z.pow_pos_nonneg 10 (dexp b - m)). nia. }
    assert (n = p * (n / p))%N as En by (apply N.Div0.div_exact; lia).
    exists (if xorb (dneg a) (dneg b) then - Z.of_N (n / p) else Z.of_N (n / p)). apply Hk.
    unfold zscaled, zsigned. rewrite <- !(pow10_Z) by lia.
    apply (f_equal Z.of_N) in En. rewrite N2Z.inj_mul in En. subst n p.
    rewrite N2Z.inj_mul in En at 1. rewrite (N2Z.inj_mul (dcoeff b)) in En.
    destruct (dneg a), (dneg b); simpl; nia.
Qed.

(** ** Parsing fails closed *)

Definition grid_wf (g : DecimalGrid) : Prop :=
  (0 <= dval (minimum g) /\ dval (minimum g) <= dval (maximum g) /\ 0 < dval (maximum g) /\ 0 < dval (step g))%Q.

Definition notional_wf (n : NotionalFilter) : Prop :=
  (0 < dval (n_minimum n))%Q /\
  (forall hi, n_maximum n = Some hi -> dval (n_minimum n) <= dval hi)%Q.

Record metadata_wf (m : SymbolOrderMetadata) : Prop := {
  wf_symbol : nonempty (m_symbol m) = true;
  wf_status : nonempty (m_status m) = true;
  wf_market : m_market m ∈ ["spot"; "perp"];
  wf_price : grid_wf (m_price m);
  wf_lot : grid_wf (m_lot m);
  wf_market_lot : forall g, m_market_lot m = Some g -> grid_wf g;
  wf_notional : notional_wf (m_notional m);
  wf_received : isfinite (m_received_at m) = true
}.

Lemma new_grid_wf a b c g : new_grid a b c = Ok g -> grid_wf g.
Proof.
  unfold new_grid, grid_wf. intros H. destruct (dlt a d0) eqn:E1; [done|].
  destruct (dle b d0 || dlt b a) eqn:E2; [done|]. destruct (dle c d0) eqn:E3; [done|].
  injection H as <-. simpl. bool_props. dec_props. repeat split; lra.
Qed.

Lemma new_notional_wf a b c d n : new_notional a b c d = Ok n -> notional_wf n.
Proof.
  unfold new_notional, notional_wf. intros H. destruct (dle a d0) eqn:E1; [done|].
  destruct (match b with Some h => dlt h a | None => false end) eqn:E2; [done|].
  injection H as <-. simpl. dec_props. split; [lra|]. intros hi ->. by dec_props.
Qed.

Lemma parse_grid_wf f a b c d g : parse_grid f a b c d = Ok g -> grid_wf g.
Proof.
  unfold parse_grid. intros H. do 3 apply res_bind_Ok in H as (? & _ & H). by eapply new_grid_wf.
Qed.

Lemma parse_inv raw market t h m : parse_binance_symbol_metadata raw market t h = Ok m ->
  metadata_wf m /\ m_symbol m = upper (strip (py_str (get_or raw "symbol" (VStr "")))) /\
  m_market m = market /\ m_received_at m = t.
Proof.
  unfold parse_binance_symbol_metadata. intros H.
  destruct (isfinite t) eqn:Et; [|done]. destruct (nonempty (upper _)) eqn:Es; [|done]. simpl in H.
  destruct (nonempty _) eqn:Est in H; [|done]. destruct (str_in market _) eqn:Em; [|done]. simpl in H.
  destruct (as_list _) as [l|]; [|done]. destruct (dict_get _ "PRICE_FILTER") as [pf|]; [|done].
  destruct (dict_get _ "LOT_SIZE") as [lf|]; [|done].
  apply res_bind_Ok in H as (pg & Hp & H). apply res_bind_Ok in H as (lg & Hl & H).
  apply res_bind_Ok in H as (ml & Hml & H). apply res_bind_Ok in H as (n & Hn & H).
  apply res_bind_Ok in H as (hash & _ & H). injection H as <-. split; [|done]. split; simpl; try done.
  - by apply str_in_spec.
  - by eapply parse_grid_wf.
  - by eapply parse_grid_wf.
  - unfold parse_market_lot in Hml. destruct (dict_get _ _) in Hml; [|by simplify_eq].
    do 4 apply res_bind_Ok in Hml as (? & ? & Hml). intros g' E. simplify_eq. by eapply new_grid_wf.
  - unfold parse_notional in Hn. destruct (dict_get _ "NOTIONAL") in Hn.
    + do 2 apply res_bind_Ok in Hn as (? & _ & Hn). by eapply new_notional_wf.
    + destruct (dict_get _ _) in Hn; [|done]. apply res_bind_Ok in Hn as (? & _ & Hn). by eapply new_notional_wf.
Qed.

(** ** Scanning a snapshot *)

Definition count_name (s : string) (l : list pyval) : nat :=
  length (List.filter (fun raw => match as_dict raw with
                                  | Some d => String.eqb (raw_symbol_name d) s
                                  | None => false
                                  end) l).

(** The state of the scan when [c] counts the raw symbols of each name. *)
Record scan_ok (market : string) (t : float) (c : string -> nat) (s : snapshot) : Prop := {
  so_key : forall k m, next_metadata s !! k = Some m ->
    k = (market, m_symbol m) /\ metadata_wf m /\ m_market m = market /\ m_received_at m = t /\
    c (m_symbol m) = 1%nat;
  so_invalid : forall k r, next_invalid s !! k = Some r ->
    fst k = market /\ c (snd k) <> 0%nat /\ next_metadata s !! k = None;
  so_seen : forall n, n ∈ seen_symbols s <-> c n <> 0%nat
}.

(** One more raw symbol of name [x]. *)
Definition bump (c : string -> nat) (x : string) : string -> nat :=
  fun n => if String.eqb x n then S (c n) else c n.

Lemma bump_eq c x : bump c x x = S (c x).
Proof. unfold bump. by rewrite String.eqb_refl. Qed.
Lemma bump_ne c x n : x <> n -> bump c x n = c n.
Proof. unfold bump. by intros ->%String.eqb_neq. Qed.
Lemma bump_nonzero c x n : bump c x n <> 0%nat <-> n = x \/ c n <> 0%nat.
Proof. unfold bump. destruct (String.eqb_spec x n) as [->|]; naive_solver. Qed.

Lemma count_name_app n l1 l2 : count_name n (l1 ++ l2) = (count_name n l1 + count_name n l2)%nat.
Proof. unfold count_name. by rewrite List.filter_app, length_app. Qed.

Lemma count_name_one n raw : count_name n [raw] =
  match as_dict raw with Some d => if String.eqb (raw_symbol_name d) n then 1%nat else 0%nat | None => 0%nat end.
Proof. unfold count_name. simpl. destruct (as_dict raw) as [d|]; [|done]. by destruct (String.eqb _ _). Qed.

(** The outcomes of one iteration. *)
Inductive scanned (market : string) (t : float) (s : snapshot) (raw : pyval) : snapshot -> Prop :=
  | scan_skip : as_dict raw = None -> scanned market t s raw s
  | scan_duplicate d : as_dict raw = Some d -> raw_symbol_name d ∈ seen_symbols s ->
      scanned market t s raw
        (mkSnapshot (delete (market, raw_symbol_name d) (next_metadata s))
           (<[(market, raw_symbol_name d) := ["symbol:duplicate"]]> (next_invalid s)) (seen_symbols s))
  | scan_valid d m : as_dict raw = Some d -> raw_symbol_name d ∉ seen_symbols s ->
      m_symbol m = raw_symbol_name d -> metadata_wf m -> m_market m = market -> m_received_at m = t ->
      scanned market t s raw
        (mkSnapshot (<[(market, raw_symbol_name d) := m]> (next_metadata s)) (next_invalid s)
           (raw_symbol_name d :: seen_symbols s))
  | scan_invalid d msg : as_dict raw = Some d -> raw_symbol_name d ∉ seen_symbols s ->
      scanned market t s raw
        (mkSnapshot (next_metadata s) (<[(market, raw_symbol_name d) := [msg]]> (next_invalid s))
           (raw_symbol_name d :: seen_symbols s)).

Lemma scan_symbol_outcome market t s raw s' :
  scan_symbol market t s raw = Ok s' -> scanned market t s raw s'.
Proof.
  unfold scan_symbol. destruct (as_dict raw) as [d|] eqn:Ed; [|intros H; injection H as <-; by constructor].
  destruct (str_in _ _) eqn:Es; intros H.
  - injection H as <-. apply str_in_spec in Es. by constructor.
  - assert (raw_symbol_name d ∉ seen_symbols s) as Hn by (rewrite <- str_in_spec, Es; done).
    match type of H with match ?e with _ => _ end = _ => destruct e as [m|[k msg]] eqn:Ep end.
    + injection H as <-. apply res_bind_Ok in Ep as (h & _ & Ep). apply parse_inv in Ep as (Hw & Hs & Hm & Ht).
      assert (m_symbol m = raw_symbol_name d) as Hname.
      { rewrite Hs. unfold raw_symbol_name, str_or. rewrite <- Hs, (wf_symbol m Hw). done. }
      rewrite Hname. by econstructor.
    + destruct k; try done. injection H as <-. by econstructor.
Qed.

Lemma scan_ok_seen market t c s x (seen : list string) :
  scan_ok market t c s -> (forall n, n ∈ seen <-> n = x \/ n ∈ seen_symbols s) ->
  forall n, n ∈ seen <-> bump c x n <> 0%nat.
Proof. intros H Hs n. rewrite Hs, bump_nonzero, (so_seen _ _ _ _ H). done. Qed.

Lemma duplicate_ok market t c s x :
  scan_ok market t c s -> x ∈ seen_symbols s ->
  scan_ok market t (bump c x)
    (mkSnapshot (delete (market, x) (next_metadata s)) (<[(market, x) := ["symbol:duplicate"]]> (next_invalid s))
       (seen_symbols s)).
Proof.
  intros H Hin. split; simpl.
  - intros k m Hk. apply lookup_delete_Some in Hk as [Hne Hk].
    destruct (so_key _ _ _ _ H _ _ Hk) as (-> & Hr). split; [done|]. rewrite bump_ne by congruence. done.
  - intros k r Hk. apply lookup_insert_Some in Hk as [[<- _]|[Hne Hk]]; simpl.
    + rewrite bump_eq. split; [done|]. split; [lia|]. apply lookup_delete_eq.
    + destruct (so_invalid _ _ _ _ H _ _ Hk) as (H1 & H2 & H3). split; [done|].
      split; [apply bump_nonzero; auto|]. by rewrite lookup_delete_ne.
  - eapply scan_ok_seen; [done|]. set_solver.
Qed.

Lemma valid_ok market t c s m :
  scan_ok market t c s -> m_symbol m ∉ seen_symbols s -> metadata_wf m -> m_market m = market ->
  m_received_at m = t ->
  scan_ok market t (bump c (m_symbol m))
    (mkSnapshot (<[(market, m_symbol m) := m]> (next_metadata s)) (next_invalid s) (m_symbol m :: seen_symbols s)).
Proof.
  intros H Hin Hw Hm Ht. assert (c (m_symbol m) = 0%nat) as H0.
  { destruct (c (m_symbol m)) eqn:E; [done|]. exfalso. apply Hin, (so_seen _ _ _ _ H). lia. }
  split; simpl.
  - intros k m' Hk. apply lookup_insert_Some in Hk as [[<- <-]|[Hne Hk]].
    + rewrite bump_eq, H0. done.
    + destruct (so_key _ _ _ _ H _ _ Hk) as (-> & Hr). split; [done|]. rewrite bump_ne by congruence. done.
  - intros k r Hk. destruct (so_invalid _ _ _ _ H _ _ Hk) as (H1 & H2 & H3). split; [done|].
    split; [apply bump_nonzero; auto|]. rewrite lookup_insert_ne; [done|]. intros <-. done.
  - eapply scan_ok_seen; [done|]. set_solver.
Qed.

Lemma invalid_ok market t c s x msg :
  scan_ok market t c s -> x ∉ seen_symbols s ->
  scan_ok market t (bump c x)
    (mkSnapshot (next_metadata s) (<[(market, x) := [msg]]> (next_invalid s)) (x :: seen_symbols s)).
Proof.
  intros H Hin. assert (c x = 0%nat) as H0.
  { destruct (c x) eqn:E; [done|]. exfalso. apply Hin, (so_seen _ _ _ _ H). lia. }
  assert (next_metadata s !! (market, x) = None) as Hnone.
  { destruct (next_metadata s !! _) as [m|] eqn:E; [|done].
    destruct (so_key _ _ _ _ H _ _ E) as ([= ->] & _ & _ & _ & Hr). lia. }
  split; simpl.
  - intros k m Hk. destruct (so_key _ _ _ _ H _ _ Hk) as (-> & Hr). split; [done|].
    rewrite bump_ne; [done|]. intros ->. congruence.
  - intros k r Hk. apply lookup_insert_Some in Hk as [[<- _]|[Hne Hk]]; simpl.
    + rewrite bump_eq. split; [done|]. split; [lia|done].
    + destruct (so_invalid _ _ _ _ H _ _ Hk) as (H1 & H2 & H3). split; [done|].
      split; [apply bump_nonzero; auto|done].
  - eapply scan_ok_seen; [done|]. set_solver.
Qed.

Lemma scan_ok_ext market t c c' s : (forall n, c n = c' n) -> scan_ok market t c s -> scan_ok market t c' s.
Proof.
  intros E [K I S]. split.
  - intros k m Hk. rewrite <- E. auto.
  - intros k r Hk. rewrite <- E. eauto.
  - intros n. rewrite <- E. auto.
Qed.

Lemma scanned_ok market t l s raw s' :
  scan_ok market t (fun n => count_name n l) s -> scanned market t s raw s' ->
  scan_ok market t (fun n => count_name n (l ++ [raw])) s'.
Proof.
  intros H Hs. destruct Hs as [Hd|d Hd Hin|d m Hd Hin Hname Hw Hm Ht|d msg Hd Hin].
  - eapply scan_ok_ext; [|exact H]. intros n. rewrite count_name_app, count_name_one, Hd. lia.
  - eapply scan_ok_ext; [|by apply duplicate_ok]. intros n. rewrite count_name_app, count_name_one, Hd.
    unfold bump. destruct (String.eqb _ _); lia.
  - rewrite <- Hname in *. eapply scan_ok_ext; [|by apply valid_ok]. intros n.
    rewrite count_name_app, count_name_one, Hd, <- Hname. unfold bump. destruct (String.eqb _ _); lia.
  - eapply scan_ok_ext; [|by apply invalid_ok]. intros n. rewrite count_name_app, count_name_one, Hd.
    unfold bump. destruct (String.eqb _ _); lia.
Qed.

Lemma scan_market_ok market t l s :
  scan_market market t l = Ok s -> scan_ok market t (fun n => count_name n l) s.
Proof.
  unfold scan_market.
  assert (scan_ok market t (fun n => count_name n []) (mkSnapshot ∅ ∅ [])) as H0.
  { split; simpl; [intros k m Hk|intros k r Hk|intros n]; try by rewrite lookup_empty in Hk.
    split; [set_solver|]. unfold count_name. simpl. lia. }
  revert H0. change l with ([] ++ l) at 2. generalize (mkSnapshot ∅ ∅ []) (@nil pyval).
  induction l as [|raw l IH]; intros s0 pre H0 H.
  - injection H as <-. by rewrite app_nil_r.
  - simpl in H. apply res_bind_Ok in H as (s1 & H1 & H). apply scan_symbol_outcome in H1.
    change (raw :: l) with ([raw] ++ l). rewrite app_assoc.
    eapply IH; [by eapply scanned_ok|done].
Qed.

(** ** The registry *)

Record registry_wf (reg : registry) : Prop := {
  rw_key : forall k m, _metadata reg !! k = Some m -> k = (m_market m, m_symbol m) /\ metadata_wf m;
  rw_disjoint : forall k r, _invalid reg !! k = Some r -> _metadata reg !! k = None
}.

Lemma lookup_not_of_market {V} (market : string) (m : gmap key V) k v :
  not_of_market market m !! k = Some v <-> m !! k = Some v /\ fst k <> market.
Proof. unfold not_of_market. by rewrite map_lookup_filter_Some. Qed.

Lemma lookup_of_market {V} (market : string) (m : gmap key V) k v :
  of_market market m !! k = Some v <-> m !! k = Some v /\ fst k = market.
Proof. unfold of_market. by rewrite map_lookup_filter_Some. Qed.

(** What a successful replacement does. *)
Lemma replace_inv market info at_ clock reg u reg' :
  replace_market market info at_ clock reg = (Ok u, reg') ->
  let t := match at_ with Some t => t | None => clock end in
  market ∈ ["spot"; "perp"] /\ isfinite t = true /\
  exists raw_symbols next, as_list (get info "symbols") = Some raw_symbols /\
    scan_market market t raw_symbols = Ok next /\
    ~ (next_metadata next = ∅ /\ next_invalid next = ∅) /\
    reg' = mkRegistry (_metadata_ttl_seconds reg)
             (next_metadata next ∪ not_of_market market (_metadata reg))
             (next_invalid next ∪ not_of_market market (_invalid reg)) /\
    let previous := fingerprints (of_market market (_metadata reg)) (of_market market (_invalid reg)) in
    let now := fingerprints (next_metadata next) (next_invalid next) in
    up_accepted_symbols u = symbols_of (next_metadata next) /\
    up_changed_symbols u = changed_symbols previous now /\ up_removed_symbols u = removed_symbols previous now.
Proof.
  unfold replace_market. destruct (str_in market _) eqn:Em; [|done]. apply str_in_spec in Em. simpl.
  destruct (isfinite _) eqn:Et; [|done]. simpl. destruct (_canonical_hash info); [|done].
  destruct (as_list _) as [raws|]; [|done]. destruct (scan_market _ _ _) as [next|] eqn:Es; [|done].
  destruct (_ && _) eqn:Ee; [done|]. intros H. injection H as <- <-. split; [done|]. split; [done|].
  exists raws, next. split; [done|]. split; [done|]. split; [|done].
  intros [H1 H2]. by rewrite !bool_decide_eq_true_2 in Ee by done.
Qed.

Lemma replace_error_state market info at_ clock reg e reg' :
  replace_market market info at_ clock reg = (Err e, reg') -> reg' = reg.
Proof.
  unfold replace_market. intros H. destruct (negb (str_in _ _)); [by simplify_eq|].
  destruct (negb (isfinite _)); [by simplify_eq|]. destruct (_canonical_hash info); [|by simplify_eq].
  destruct (as_list _); [|by simplify_eq]. destruct (scan_market _ _ _); [|by simplify_eq].
  destruct (_ && _); by simplify_eq.
Qed.

Lemma scan_not_of_market market t c s k :
  scan_ok market t c s -> fst k <> market ->
  next_metadata s !! k = None /\ next_invalid s !! k = None.
Proof.
  intros H Hk. split.
  - destruct (next_metadata s !! k) as [m|] eqn:E; [|done]. by destruct (so_key _ _ _ _ H _ _ E) as (-> & _).
  - destruct (next_invalid s !! k) as [r|] eqn:E; [|done]. by destruct (so_invalid _ _ _ _ H _ _ E) as (E' & _).
Qed.

Lemma ingest_wf reg f : registry_wf reg -> registry_wf (ingest reg f).
Proof.
  intros H. unfold ingest. destruct (replace_market _ _ _ _ reg) as [[u|e] reg'] eqn:E; simpl;
    [|by apply replace_error_state in E as ->].
  apply replace_inv in E as (_ & _ & raws & next & _ & Es & _ & -> & _). apply scan_market_ok in Es. split; simpl.
  - intros k m Hk. apply lookup_union_Some_raw in Hk as [Hk|[_ Hk]].
    + destruct (so_key _ _ _ _ Es _ _ Hk) as (-> & Hw & <- & _). done.
    + apply lookup_not_of_market in Hk as [Hk _]. by apply (rw_key reg H).
  - intros k r Hk. apply lookup_union_None. apply lookup_union_Some_raw in Hk as [Hk|[Hn Hk]].
    + destruct (so_invalid _ _ _ _ Es _ _ Hk) as (Hm & _ & Hnone). split; [done|].
      apply eq_None_not_Some. intros [m Hl]. by apply lookup_not_of_market in Hl as [_ Hl].
    + apply lookup_not_of_market in Hk as [Hk Hne].
      split; [by eapply scan_not_of_market|].
      apply eq_None_not_Some. intros [m Hl]. apply lookup_not_of_market in Hl as [Hl _].
      pose proof (rw_disjoint reg H _ _ Hk). congruence.
Qed.

(** ** Reading the same snapshot at another time *)

Definition stamp (t : float) (m : SymbolOrderMetadata) : SymbolOrderMetadata :=
  mkMetadata (m_symbol m) (m_market m) (m_status m) (m_price m) (m_lot m) (m_market_lot m) (m_notional m) t
    (m_source_hash m).

Definition stamp_snapshot (t : float) (s : snapshot) : snapshot :=
  mkSnapshot (stamp t <$> next_metadata s) (next_invalid s) (seen_symbols s).

Lemma res_map_bind {A B C} (r : result A) (f : A -> result B) (g : B -> C) :
  res_map g (res_bind r f) = res_bind r (fun a => res_map g (f a)).
Proof. by destruct r. Qed.

Lemma parse_stamp raw market t h : isfinite t = true ->
  parse_binance_symbol_metadata raw market t h
  = res_map (stamp t) (parse_binance_symbol_metadata raw market fzero h).
Proof.
  intros Ht. unfold parse_binance_symbol_metadata. rewrite Ht. cbn [isfinite fzero negb].
  destruct (negb (nonempty _)); [done|]. destruct (negb (nonempty _)); [done|].
  destruct (negb (str_in _ _)); [done|]. destruct (as_list _); [|done].
  destruct (dict_get _ "PRICE_FILTER"); [|done]. destruct (dict_get _ "LOT_SIZE"); [|done].
  destruct (parse_grid _ _ _ _ _); [|done]. cbn [res_bind]. destruct (parse_grid _ _ _ _ _); [|done]. cbn [res_bind].
  destruct (parse_market_lot _ _); [|done]. cbn [res_bind]. destruct (parse_notional _); [|done]. cbn [res_bind].
  by destruct (match h with Some (String c r) => Ok (String c r) | _ => _ end).
Qed.

Lemma scan_symbol_stamp market t s raw : isfinite t = true ->
  scan_symbol market t (stamp_snapshot t s) raw = res_map (stamp_snapshot t) (scan_symbol market fzero s raw).
Proof.
  intros Ht. unfold scan_symbol. destruct (as_dict raw) as [d|]; [|done]. cbn [stamp_snapshot seen_symbols next_metadata next_invalid].
  destruct (str_in _ _).
  { unfold res_map. cbn [res_bind]. unfold stamp_snapshot; simpl. by rewrite fmap_delete. }
  destruct (_canonical_hash d) as [h|[[]]]; try done. cbn [res_bind]. rewrite parse_stamp by done.
  destruct (parse_binance_symbol_metadata _ _ _ _) as [m|[[] msg]]; try done.
  unfold res_map, stamp_snapshot; simpl. by rewrite fmap_insert.
Qed.

Lemma scan_fold_stamp market t l s : isfinite t = true ->
  res_fold (scan_symbol market t) (stamp_snapshot t s) l
  = res_map (stamp_snapshot t) (res_fold (scan_symbol market fzero) s l).
Proof.
  intros Ht. revert s. induction l as [|raw l IH]; intros s; [done|]. simpl.
  rewrite scan_symbol_stamp by done. destruct (scan_symbol market fzero s raw) as [s'|]; [|done]. simpl. apply IH.
Qed.

Lemma scan_market_stamp market t l : isfinite t = true ->
  scan_market market t l = res_map (stamp_snapshot t) (scan_market market fzero l).
Proof.
  intros Ht. unfold scan_market. rewrite <- scan_fold_stamp by done.
  unfold stamp_snapshot; simpl. by rewrite fmap_empty.
Qed.

Lemma fingerprints_stamp (t : float) valid invalid : fingerprints (stamp t <$> valid) invalid = fingerprints valid invalid.
Proof. unfold fingerprints. by rewrite <- map_fmap_compose. Qed.

Lemma symbols_of_stamp (t : float) (m : gmap key SymbolOrderMetadata) : symbols_of (stamp t <$> m) = symbols_of m.
Proof.
  unfold symbols_of. f_equal. rewrite map_to_list_fmap. unfold fmap. rewrite map_map. done.
Qed.

Lemma of_market_replaced {V} (market : string) (new old : gmap key V) :
  (forall k v, new !! k = Some v -> fst k = market) ->
  of_market market (new ∪ not_of_market market old) = new.
Proof.
  intros Hn. apply map_eq. intros k. apply option_eq. intros v.
  rewrite lookup_of_market, lookup_union_Some_raw, lookup_not_of_market. naive_solver.
Qed.

Lemma changed_symbols_same fp : changed_symbols fp fp = [].
Proof.
  unfold changed_symbols, symbols_of. rewrite map_empty_filter_2; [done|].
  intros k v Hk. simpl. naive_solver.
Qed.

Lemma removed_symbols_same fp : removed_symbols fp fp = [].
Proof.
  unfold removed_symbols, symbols_of. rewrite map_empty_filter_2; [done|].
  intros k v Hk. simpl. congruence.
Qed.

(** ** Orders *)

(** [v] is between the bounds of the grid, and a whole number of steps. *)
Definition within (g : DecimalGrid) (v : dec) : Prop :=
  (dval (minimum g) <= dval v /\ dval v <= dval (maximum g))%Q /\
  (Etiny <= dexp v -> Etiny <= dexp (step g) -> exists k : Z, (dval v == inject_Z k * dval (step g))%Q).

Lemma grid_reasons_nil g v a b c : grid_reasons g v a b c = Ok [] -> within g v.
Proof.
  unfold grid_reasons. intros H. apply res_bind_Ok in H as (ok & Hok & H). injection H as H.
  apply app_eq_nil in H as [H1 H]. apply app_eq_nil in H as [H2 H3].
  apply reason_if_nil in H1, H2, H3. apply negb_false_iff in H3. subst ok.
  split; [dec_props; lra|]. unfold aligned in Hok. destruct (dge v d0); [|done].
  apply res_bind_Ok in Hok as (r & Hr & Hok). injection Hok as Hok. dec_props.
  by eapply dmod_multiple.
Qed.

Lemma check_quantity_nil g norm q q' : check_quantity g norm q = Ok (q', []) ->
  q = None /\ q' = None \/ exists v, q' = Some v /\ within g v.
Proof.
  unfold check_quantity. destruct q as [v|]; intros H; [right|left; by simplify_eq].
  apply res_bind_Ok in H as (v' & _ & H). apply res_bind_Ok in H as (rs & Hrs & H). simplify_eq.
  exists v'. split; [done|]. by eapply grid_reasons_nil.
Qed.

Lemma check_price_nil m side norm p p' : check_price m side "LIMIT" norm p = Ok (p', []) ->
  exists v, p' = Some v /\ within (m_price m) v.
Proof.
  unfold check_price. simpl. destruct p as [v|]; intros H; [|done].
  apply res_bind_Ok in H as (v' & _ & H). apply res_bind_Ok in H as (rs & Hrs & H). simplify_eq.
  exists v'. split; [done|]. by eapply grid_reasons_nil.
Qed.

Lemma check_notional_nil n ty q p v : check_notional n ty q p = Ok (v, []) ->
  let applies flag := negb (String.eqb ty "MARKET") || flag in
  (applies (apply_min_to_market n) = true ->
     exists x, v = Some x /\ (dval (n_minimum n) <= dval x)%Q) /\
  (forall hi, n_maximum n = Some hi -> applies (apply_max_to_market n) = true ->
     exists x, v = Some x /\ (dval x <= dval hi)%Q) /\
  (forall x, v = Some x -> exists a b, q = Some a /\ p = Some b /\ dmul a b = Ok x).
Proof.
  unfold check_notional. destruct q as [a|]; [destruct p as [b|]|]; intros H; cbv zeta.
  - apply res_bind_Ok in H as (x & Hx & H). injection H as <- H. apply app_eq_nil in H as [H1 H2].
    apply reason_if_nil in H1. split; [|split].
    + intros E. rewrite E in H1. simpl in H1. dec_props. eauto.
    + intros hi Ehi E. rewrite Ehi in H2. apply reason_if_nil in H2. rewrite E in H2. simpl in H2. dec_props. eauto.
    + intros y [= <-]. eauto.
  - injection H as <- H. apply reason_if_nil, orb_false_iff in H as [H1 H2]. split; [by rewrite H1|].
    split; [|done]. intros hi Ehi E. by rewrite Ehi, E in H2.
  - injection H as <- H. apply reason_if_nil, orb_false_iff in H as [H1 H2]. split; [by rewrite H1|].
    split; [|done]. intros hi Ehi E. by rewrite Ehi, E in H2.
Qed.

Lemma app_nil_split {A} (a b : list A) : a ++ b = [] -> a = [] /\ b = [].
Proof. apply app_eq_nil. Qed.

(** ** Properties *)

Lemma parse_optional_some v name p rs : parse_optional v name = (Some p, rs) -> Decimal_of v = Ok (DFin p) /\ (0 < dval p)%Q.
Proof.
  intros H. assert (_parse_order_decimal v name = (Some p, rs)) as H' by (unfold parse_optional in H; destruct v; try exact H; discriminate H).
  unfold _parse_order_decimal in H'. destruct (Decimal_of v) as [[d| |]|]; try discriminate H'.
  destruct (dle d d0) eqn:E; [discriminate H'|]. injection H' as -> _. split; [done|]. dec_props. lra.
Qed.

(** C29: an order is accepted only with complete, fresh and
    tradable metadata for its symbol and market, a supported side and type, a
    quantity (and, for a limit order, a price) inside its grid and on its step, and
    a notional within the limits that apply to its type. That notional is the accepted
    quantity times, for a limit order, the accepted price and, for a market order, the
    positive reference price of the request. *)
Theorem accepted_order_satisfies_filters reg symbol market side ty quantity price ref now clock norm r :
  validate_order reg symbol market side ty quantity price ref now clock norm = Ok r -> accepted r = true ->
  exists m q, _metadata reg !! (market, upper symbol) = Some m /\ tradable m = true /\
  (let t := match now with Some t => t | None => clock end in
   isfinite t = true /\ flt t (m_received_at m) = false /\ flt (_metadata_ttl_seconds reg) (metadata_age m t) = false) /\
  o_side r ∈ ["BUY"; "SELL"] /\ o_order_type r ∈ ["LIMIT"; "MARKET"] /\
  o_quantity r = Some q /\ within (quantity_grid m (o_order_type r)) q /\
  (o_order_type r = "LIMIT" -> exists p, o_price r = Some p /\ within (m_price m) p) /\
  let applies flag := negb (String.eqb (o_order_type r) "MARKET") || flag in
  (applies (apply_min_to_market (m_notional m)) = true ->
     exists x, o_notional r = Some x /\ (dval (n_minimum (m_notional m)) <= dval x)%Q) /\
  (forall hi, n_maximum (m_notional m) = Some hi -> applies (apply_max_to_market (m_notional m)) = true ->
     exists x, o_notional r = Some x /\ (dval x <= dval hi)%Q) /\
  (forall x, o_notional r = Some x -> exists p, dmul q p = Ok x /\
     if String.eqb (o_order_type r) "LIMIT" then o_price r = Some p
     else Decimal_of ref = Ok (DFin p) /\ (0 < dval p)%Q).
Proof.
  unfold validate_order. destruct (_metadata reg !! _) as [m|]; [|intros H; by simplify_eq].
  destruct (_parse_order_decimal quantity "quantity") as [q0 rq0] eqn:Eq.
  destruct (parse_optional price "price") as [p0 rp0]. destruct (parse_optional ref _) as [r0 rref] eqn:Er.
  intros H. apply res_bind_Ok in H as ([q rq] & Hq & H). apply res_bind_Ok in H as ([p rp] & Hp & H).
  apply res_bind_Ok in H as ([n rn] & Hn & H). injection H as <-. simpl. intros Hacc.
  destruct (_ ++ _) eqn:E in Hacc; [|done]. clear Hacc.
  apply app_nil_split in E as [E1 E]. apply app_nil_split in E as [E2 E]. apply app_nil_split in E as [E3 E].
  apply app_nil_split in E as [E4 E]. apply app_nil_split in E as [-> E]. apply app_nil_split in E as [_ E].
  apply app_nil_split in E as [_ E]. apply app_nil_split in E as [-> E]. apply app_nil_split in E as [-> ->].
  apply reason_if_nil, negb_false_iff in E2, E3, E4. apply str_in_spec in E3, E4.
  apply check_quantity_nil in Hq as [[-> _]|(v & -> & Hq)].
  { unfold _parse_order_decimal in Eq. destruct (Decimal_of quantity) as [[d| |]|]; try done. by destruct (dle d d0). }
  apply check_notional_nil in Hn as (Hmin & Hmax & Hval).
  exists m, v. split; [done|]. split; [done|]. split.
  { unfold freshness_reasons in E1. destruct (negb (isfinite _) || _) eqn:Ef; [done|].
    apply orb_false_iff in Ef as [Ef1 Ef2]. apply negb_false_iff in Ef1. by apply reason_if_nil in E1. }
  split; [done|]. split; [done|]. split; [done|]. split; [done|]. split.
  { intros Hl. rewrite Hl in Hp. by eapply check_price_nil. }
  split; [done|]. split; [done|]. intros x Hx. destruct (Hval x Hx) as (a & b & [= <-] & Hb & Hm).
  exists b. split; [done|]. destruct (String.eqb _ "LIMIT"); [done|]. subst r0. by eapply parse_optional_some.
Qed.

(** Whatever snapshots were ingested, accepted or rejected, every
    stored symbol has well-formed filters (positive steps and notional, ordered
    bounds), is filed under its own market and name, and no symbol is at once
    valid and invalid. *)
Theorem registry_invariant ttl l : registry_wf (ingested ttl l).
Proof.
  unfold ingested. assert (registry_wf (mkRegistry ttl ∅ ∅)) as H
    by (split; simpl; [intros k m Hk|intros k r Hk]; by rewrite lookup_empty in Hk).
  revert H. generalize (mkRegistry ttl ∅ ∅). induction l as [|f l IH]; intros reg H; [done|]. simpl.
  by apply IH, ingest_wf.
Qed.

(** A snapshot that cannot be read changes nothing; one that can
    touches no other market and leaves no earlier entry of its own market: each
    symbol that stays valid comes from this snapshot, where its name occurs once. *)
Theorem replace_market_atomic market info at_ clock reg :
  match replace_market market info at_ clock reg with
  | (Err _, reg') => reg' = reg
  | (Ok _, reg') =>
      _metadata_ttl_seconds reg' = _metadata_ttl_seconds reg /\
      (forall k, fst k <> market -> _metadata reg' !! k = _metadata reg !! k /\ _invalid reg' !! k = _invalid reg !! k) /\
      exists raw_symbols, as_list (get info "symbols") = Some raw_symbols /\
      forall s m, _metadata reg' !! (market, s) = Some m ->
        m_symbol m = s /\ count_name s raw_symbols = 1%nat /\
        m_received_at m = match at_ with Some t => t | None => clock end
  end.
Proof.
  destruct (replace_market market info at_ clock reg) as [[u|e] reg'] eqn:E; [|by eapply replace_error_state].
  apply replace_inv in E as (_ & _ & raws & next & Hraw & Es & _ & -> & _). apply scan_market_ok in Es. simpl.
  split; [done|]. split.
  - intros k Hk. destruct (scan_not_of_market _ _ _ _ k Es Hk) as [H1 H2].
    split; apply option_eq; intros v; rewrite lookup_union_Some_raw, lookup_not_of_market, ?H1, ?H2; naive_solver.
  - exists raws. split; [done|]. intros s m Hm. apply lookup_union_Some_raw in Hm as [Hm|[_ Hm]].
    + destruct (so_key _ _ _ _ Es _ _ Hm) as ([= ->] & _ & _ & Ht & Hc). done.
    + by apply lookup_not_of_market in Hm as [_ Hm].
Qed.

(** Reading the same snapshot again, at whatever time, succeeds,
    accepts the same symbols and reports that nothing changed and nothing was
    removed. *)
Theorem reread_is_stable market info t1 t2 clock1 clock2 reg u1 reg1 :
  replace_market market info (Some t1) clock1 reg = (Ok u1, reg1) -> isfinite t2 = true ->
  exists u2 reg2, replace_market market info (Some t2) clock2 reg1 = (Ok u2, reg2) /\
    up_accepted_symbols u2 = up_accepted_symbols u1 /\ up_changed_symbols u2 = [] /\ up_removed_symbols u2 = [].
Proof.
  intros H Ht2. pose proof H as H'. apply replace_inv in H as (Hm & Ht1 & raws & next & Hraw & Es & Hne & -> & Hacc & _).
  pose proof (scan_market_ok _ _ _ _ Es) as Hok. rewrite scan_market_stamp in Es by done.
  destruct (scan_market market fzero raws) as [s0|] eqn:E0; [|done]. unfold res_map in Es. injection Es as <-.
  unfold replace_market. rewrite (proj2 (str_in_spec _ _) Hm). simpl. rewrite Ht2. simpl.
  unfold replace_market in H'. destruct (_canonical_hash info) as [h|];
    [|unfold raise in H'; destruct (negb _) in H'; [done|]; by destruct (negb _) in H'].
  rewrite Hraw, scan_market_stamp, E0 by done. cbn [res_map res_bind].
  destruct (bool_decide _ && bool_decide _) eqn:Ee.
  { exfalso. apply andb_true_iff in Ee as [H1 H2]. apply bool_decide_eq_true in H1, H2. apply Hne.
    simpl in *. apply fmap_empty_inv in H1. by rewrite H1, fmap_empty. }
  eexists _, _. split; [done|]. rewrite Hacc. simpl. rewrite !symbols_of_stamp, !fingerprints_stamp.
  rewrite !of_market_replaced, fingerprints_stamp, changed_symbols_same, removed_symbols_same; [done| |].
  - intros k r Hk. apply (so_invalid _ _ _ _ Hok _ _ Hk).
  - intros k m Hk. by destruct (so_key _ _ _ _ Hok _ _ Hk) as (-> & _).
Qed.

(** ** A concrete market *)

Definition ex_symbol : dict pyval :=
  [("symbol", VStr "BTCUSDT"); ("status", VStr "TRADING");
   ("filters", VList [
      VDict [("filterType", VStr "PRICE_FILTER"); ("minPrice", VStr "0.01"); ("maxPrice", VStr "1000000"); ("tickSize", VStr "0.01")];
      VDict [("filterType", VStr "LOT_SIZE"); ("minQty", VStr "0.001"); ("maxQty", VStr "9000"); ("stepSize", VStr "0.001")];
      VDict [("filterType", VStr "NOTIONAL"); ("minNotional", VStr "5"); ("maxNotional", VStr "9000000")]])].
Definition ex_info : dict pyval := [("symbols", VList [VDict ex_symbol; VStr "noise"])].
Definition ex_reg : registry :=
  snd (replace_market "spot" ex_info (Some (flit "1000.0")) fzero (mkRegistry (flit "3600.0") ∅ ∅)).

Definition ex_order (quantity : string) : result OrderFilterResult :=
  validate_order ex_reg "btcusdt" "spot" "buy" "limit" (VStr quantity) (VStr "25000.019") VNone
    (Some (flit "1010.5")) fzero true.

Definition ex_accepted : OrderFilterResult :=
  Build_OrderFilterResult true "BTCUSDT" "spot" "BUY" "LIMIT" (Some (dlit "0.012")) (Some (dlit "25000.01"))
    (Some (dlit "300.00012")) (flit "10.5") [] true.

Lemma accepted_order_satisfies_filters_witness :
  exists m q, _metadata ex_reg !! ("spot", "BTCUSDT") = Some m /\ tradable m = true /\
    Some (dlit "0.012") = Some q /\ within (quantity_grid m "LIMIT") q.
Proof.
  destruct (accepted_order_satisfies_filters ex_reg "btcusdt" "spot" "buy" "limit" (VStr "0.0129")
              (VStr "25000.019") VNone (Some (flit "1010.5")) fzero true ex_accepted)
    as (m & q & H1 & H2 & _ & _ & _ & H3 & H4 & _); [vm_compute; reflexivity|reflexivity|].
  exists m, q. split; [exact H1|]. split; [exact H2|]. split; [exact H3|exact H4].
Defined.

Definition ex_update : MetadataUpdateResult :=
  match fst (replace_market "spot" ex_info (Some (flit "1000.0")) fzero (mkRegistry (flit "3600.0") ∅ ∅)) with
  | Ok u => u
  | Err _ => Build_MetadataUpdateResult "" [] [] [] [] ""
  end.

Lemma ex_replace :
  replace_market "spot" ex_info (Some (flit "1000.0")) fzero (mkRegistry (flit "3600.0") ∅ ∅) = (Ok ex_update, ex_reg).
Proof. unfold ex_reg. apply pair_snd. vm_compute. reflexivity. Qed.

Lemma reread_is_stable_witness :
  exists u2 reg2, replace_market "spot" ex_info (Some (flit "2000.25")) fzero ex_reg = (Ok u2, reg2) /\
    up_accepted_symbols u2 = up_accepted_symbols ex_update /\ up_changed_symbols u2 = [] /\ up_removed_symbols u2 = [].
Proof.
  apply (reread_is_stable "spot" ex_info (flit "1000.0") (flit "2000.25") fzero fzero
           (mkRegistry (flit "3600.0") ∅ ∅) ex_update ex_reg); [apply ex_replace|].
  vm_compute. reflexivity.
Defined.

(** A quantity of more than 28 digits of steps is not rejected with a reason: the
    remainder of the alignment test raises. *)
Lemma huge_quantity_raises :
  validate_order ex_reg "BTCUSDT" "spot" "BUY" "LIMIT" (VStr "1e40") (VStr "25000.01") VNone
    (Some (flit "1010.5")) fzero false
  = raise InvalidOperation "quotient too large in //, % or divmod".
Proof. vm_compute. reflexivity. Qed.
