(* ===== verification/AccountReconciliation.v ===== *)
(** * Account ownership and exposure reconciliation

    Model of [src/bongus/engine/account_reconciliation.py]: the raw account
    snapshot of the exchange and the durable local projection go in, and a report
    that classifies every order, position, hedge and liability comes out.  The
    phases of [reconcile_account_snapshot] are definitions of their own, run in the
    order of the code; every issue the module raises is blocking. *)
From Stdlib Require Import ZArith Lia Ascii.
From stdpp Require Import base list strings sorting.
From S2P Require Import Prelude PyDecimal PyDecimalFacts PyFloat PyValue.
Open Scope Z_scope.

Definition BOT_CLIENT_ORDER_PREFIX : string := "bngs_".
Definition BOT_CLIENT_ORDER_ID_MAX_LENGTH : nat := 36.
Definition _DEFAULT_QUOTE_ASSETS : list string := ["USDT"; "USDC"; "FDUSD"; "BUSD"; "USDS"].
Definition _DEFAULT_TREASURY_ASSETS : list string := _DEFAULT_QUOTE_ASSETS ++ ["BNB"].
Definition _QUOTE_SUFFIXES : list string :=
  ["FDUSD"; "USDT"; "USDC"; "BUSD"; "USDS"; "BTC"; "ETH"; "BNB"; "EUR"; "TRY"].

(** ** Data *)

Inductive OrderOwnership := BOT | BOT_ORPHAN | EXTERNAL | UNKNOWN.

#[export] Instance OrderOwnership_eq_dec : EqDecision OrderOwnership.
Proof. solve_decision. Defined.

Definition ownership_value (o : OrderOwnership) : string :=
  match o with
  | BOT => "bot_owned" | BOT_ORPHAN => "bot_owned_orphan" | EXTERNAL => "external" | UNKNOWN => "unknown"
  end.

Record ReconciliationIssue := Issue {
  i_code : string;
  i_scope : string;
  i_message : string;
  i_venue : string;
  i_symbol : string;
  i_asset : string;
  i_client_order_id : string;
  i_blocking : bool
}.

Definition incident_id (i : ReconciliationIssue) : string :=
  "recon_" +:+ str_take 16 (sha256_hex (str_join "|"
    [i_code i; i_scope i; i_venue i; i_symbol i; i_asset i; i_client_order_id i])).

Definition issue_to_dict (i : ReconciliationIssue) : dict pyval :=
  [("code", VStr (i_code i)); ("scope", VStr (i_scope i)); ("message", VStr (i_message i));
   ("venue", VStr (i_venue i)); ("symbol", VStr (i_symbol i)); ("asset", VStr (i_asset i));
   ("client_order_id", VStr (i_client_order_id i)); ("blocking", VBool (i_blocking i));
   ("incident_id", VStr (incident_id i))].

Record ClassifiedOrder := {
  o_venue : string;
  o_symbol : string;
  o_client_order_id : string;
  o_exchange_order_id : string;
  o_status : string;
  o_ownership : OrderOwnership;
  o_linked_intent_ids : list string
}.

Definition cancellable_by_bot (o : ClassifiedOrder) : bool :=
  bool_decide (o_ownership o ∈ [BOT; BOT_ORPHAN]).

Definition order_to_dict (o : ClassifiedOrder) : dict pyval :=
  [("venue", VStr (o_venue o)); ("symbol", VStr (o_symbol o)); ("client_order_id", VStr (o_client_order_id o));
   ("exchange_order_id", VStr (o_exchange_order_id o)); ("status", VStr (o_status o));
   ("ownership", VStr (ownership_value (o_ownership o)));
   ("linked_intent_ids", VList (map VStr (o_linked_intent_ids o)));
   ("cancellable_by_bot", VBool (cancellable_by_bot o))].

Record ClassifiedPosition := {
  p_symbol : string;
  p_direction : string;
  p_exchange_quantity : string;
  p_local_quantity : string;
  p_classification : string;
  p_hedge_asset : string;
  p_hedge_quantity : string;
  p_liability_quantity : string
}.

Definition position_to_dict (p : ClassifiedPosition) : dict pyval :=
  [("symbol", VStr (p_symbol p)); ("direction", VStr (p_direction p));
   ("exchange_quantity", VStr (p_exchange_quantity p)); ("local_quantity", VStr (p_local_quantity p));
   ("classification", VStr (p_classification p)); ("hedge_asset", VStr (p_hedge_asset p));
   ("hedge_quantity", VStr (p_hedge_quantity p)); ("liability_quantity", VStr (p_liability_quantity p))].

Record ClassifiedLiability := {
  l_asset : string;
  l_quantity : string;
  l_allocated_quantity : string;
  l_residual_quantity : string;
  l_classification : string
}.

Definition liability_to_dict (l : ClassifiedLiability) : dict pyval :=
  [("asset", VStr (l_asset l)); ("quantity", VStr (l_quantity l));
   ("allocated_quantity", VStr (l_allocated_quantity l)); ("residual_quantity", VStr (l_residual_quantity l));
   ("classification", VStr (l_classification l))].

Record AccountReconciliationReport := {
  generated_at : string;
  ready : bool;
  snapshot_complete : bool;
  orders : list ClassifiedOrder;
  positions : list ClassifiedPosition;
  liabilities : list ClassifiedLiability;
  issues : list ReconciliationIssue;
  exchange_only_symbols : list string;
  local_only_symbols : list string;
  mismatched_symbols : list string;
  metadata : dict pyval
}.

Definition blocking_issues (r : AccountReconciliationReport) : list ReconciliationIssue :=
  List.filter i_blocking (issues r).
Definition report_bot_owned_orders (r : AccountReconciliationReport) : list ClassifiedOrder :=
  List.filter cancellable_by_bot (orders r).
Definition report_unrelated_orders (r : AccountReconciliationReport) : list ClassifiedOrder :=
  List.filter (fun o => negb (cancellable_by_bot o)) (orders r).

Definition len {A} (l : list A) : pyval := VInt (Z.of_nat (length l)).
Definition dicts {A} (f : A -> dict pyval) (l : list A) : pyval := VList (map (fun x => VDict (f x)) l).
Definition strs (l : list string) : pyval := VList (map VStr l).

(** [to_dict(include_generated_at=False, include_fingerprint=False)] *)
Definition report_payload (r : AccountReconciliationReport) : dict pyval :=
  [("ready", VBool (ready r)); ("snapshot_complete", VBool (snapshot_complete r));
   ("orders", dicts order_to_dict (orders r)); ("positions", dicts position_to_dict (positions r));
   ("liabilities", dicts liability_to_dict (liabilities r)); ("issues", dicts issue_to_dict (issues r));
   ("blocking_issue_count", len (blocking_issues r));
   ("exchange_only_symbols", strs (exchange_only_symbols r));
   ("local_only_symbols", strs (local_only_symbols r)); ("mismatched_symbols", strs (mismatched_symbols r));
   ("bot_owned_open_order_count", len (report_bot_owned_orders r));
   ("unrelated_open_order_count", len (report_unrelated_orders r));
   ("metadata", VDict (metadata r))].

Definition report_fingerprint (r : AccountReconciliationReport) : result string :=
  json_sha256 true (VDict (report_payload r)).

(** [to_dict()] *)
Definition report_to_dict (r : AccountReconciliationReport) : result (dict pyval) :=
  let! fp := report_fingerprint r in
  Ok (report_payload r ++ [("generated_at", VStr (generated_at r)); ("fingerprint", VStr fp)]).

Definition risk_snapshot (r : AccountReconciliationReport) (prefix : string) : result (dict pyval) :=
  let! fp := report_fingerprint r in
  Ok [(prefix +:+ "_status", VStr (if ready r then "ready" else "blocked"));
      (prefix +:+ "_ready", VBool (ready r));
      (prefix +:+ "_snapshot_complete", VBool (snapshot_complete r));
      (prefix +:+ "_time", VStr (generated_at r));
      (prefix +:+ "_fingerprint", VStr fp);
      (prefix +:+ "_blocking_issue_count", len (blocking_issues r));
      (prefix +:+ "_issues", dicts issue_to_dict (issues r));
      (prefix +:+ "_orders", dicts order_to_dict (orders r));
      (prefix +:+ "_positions", dicts position_to_dict (positions r));
      (prefix +:+ "_liabilities", dicts liability_to_dict (liabilities r));
      (prefix +:+ "_exchange_only_symbols", strs (exchange_only_symbols r));
      (prefix +:+ "_local_only_symbols", strs (local_only_symbols r));
      (prefix +:+ "_mismatched_symbols", strs (mismatched_symbols r));
      (prefix +:+ "_bot_owned_open_order_count", len (report_bot_owned_orders r));
      (prefix +:+ "_unrelated_open_order_count", len (report_unrelated_orders r))].

(** ** The client-order namespace *)

Definition alnum (c : ascii) : bool :=
  let n := ascii_code c in
  (Nat.leb 48 n && Nat.leb n 57) || (Nat.leb 65 n && Nat.leb n 90) || (Nat.leb 97 n && Nat.leb n 122).

Definition client_order_char (c : ascii) : bool :=
  alnum c || existsb (Ascii.eqb c) ["_"%char; "."%char; ":"%char; "/"%char; "-"%char].

(** [_CLIENT_ORDER_ID_RE.fullmatch(value)] *)
Definition client_order_id_re (value : string) : bool :=
  Nat.leb 1 (String.length value) && Nat.leb (String.length value) 36 && str_forallb client_order_char value.

(** [str(v or "")] *)
Definition str_of (v : pyval) : string := py_str (py_or v (VStr "")).

Definition is_bot_client_order_id (client_order_id : pyval) (prefix : string) : bool :=
  let value := strip (str_of client_order_id) in
  nonempty value && startswith prefix value && client_order_id_re value.

Definition lower_alnum (c : ascii) : bool :=
  let n := ascii_code c in (Nat.leb 97 n && Nat.leb n 122) || (Nat.leb 48 n && Nat.leb n 57).

Definition make_bot_client_order_id (leg intent_id nonce prefix : string) : result string :=
  let normalized_leg := str_or (str_take 4 (str_filter lower_alnum (lower leg))) "leg" in
  let digest := sha256_hex (intent_id +:+ "|" +:+ nonce +:+ "|" +:+ normalized_leg) in
  let value := prefix +:+ normalized_leg +:+ "_" +:+ str_take 20 digest in
  if Nat.ltb BOT_CLIENT_ORDER_ID_MAX_LENGTH (String.length value) || negb (client_order_id_re value)
  then raise ValueError "bot client-order namespace cannot produce a valid exchange ID"
  else Ok value.

Fixpoint first_nonempty (l : list string) : string :=
  match l with [] => EmptyString | s :: l' => if nonempty s then s else first_nonempty l' end.

Definition order_client_id (order : dict pyval) : string :=
  first_nonempty (map (fun k => strip (str_of (get order k)))
                    ["clientOrderId"; "client_order_id"; "origClientOrderId"]).

Definition bot_owned_orders (l : list (dict pyval)) (prefix : string) : list (dict pyval) :=
  List.filter (fun o => is_bot_client_order_id (VStr (order_client_id o)) prefix) l.
Definition unrelated_orders (l : list (dict pyval)) (prefix : string) : list (dict pyval) :=
  List.filter (fun o => negb (is_bot_client_order_id (VStr (order_client_id o)) prefix)) l.

(** ** Reading the payloads *)

(** Anything that is not a finite number reads as zero. *)
Definition _decimal (value : pyval) : dec :=
  match value with
  | VNone | VStr EmptyString => d0
  | _ => match Decimal_of value with Ok (DFin d) => d | _ => d0 end
  end.

(** [s[:-n]] *)
Definition str_drop_last (n : nat) (s : string) : string := str_take (String.length s - n) s.

Fixpoint strip_suffix (l : list string) (value : string) : string :=
  match l with
  | [] => value
  | suffix :: l' =>
      if endswith suffix value && Nat.ltb (String.length suffix) (String.length value)
      then str_drop_last (String.length suffix) value
      else strip_suffix l' value
  end.

Definition _base_asset (symbol : string) : string := strip_suffix _QUOTE_SUFFIXES (upper symbol).

Definition _direction (position_amount : dec) (position_side : pyval) : string :=
  let side := upper (py_str (py_or position_side (VStr "BOTH"))) in
  if String.eqb side "SHORT" then "long"
  else if String.eqb side "LONG" then "short"
  else if dlt position_amount d0 then "long" else "short".

(** One row of [_position_map]. *)
Definition add_position (tolerance : dec) (acc : dict (dict pyval) * list string) (raw : pyval)
    : result (dict (dict pyval) * list string) :=
  let '(res, duplicates) := acc in
  match as_dict raw with
  | None => Ok acc
  | Some row =>
      let symbol := upper (str_of (get row "symbol")) in
      if negb (nonempty symbol) then Ok acc
      else
        let! a := dabs (_decimal (get row "positionAmt")) in
        if dle a tolerance then Ok acc
        else if dict_has res symbol then Ok (res, duplicates ++ [symbol])
        else Ok (dict_set res symbol row, duplicates)
  end.

Definition _position_map (rows : pyval) (tolerance : dec) : result (dict (dict pyval) * list string) :=
  match as_list rows with
  | None => Ok ([], [])
  | Some l => res_fold (add_position tolerance) ([], []) l
  end.

Definition _local_position_map (rows : list (dict pyval)) : dict (dict pyval) :=
  dict_of (map (fun row => (upper (str_of (get row "symbol")), row))
    (List.filter (fun row =>
       nonempty (strip (str_of (get row "symbol")))
       && negb (String.eqb (upper (py_str (py_or (get row "status") (VStr "OPEN")))) "CLOSED")) rows)).

Definition dec_or0 (d : dict dec) (k : string) : dec := match dict_get d k with Some x => x | None => d0 end.

Definition add_balance (tolerance : dec) (balances : dict dec) (raw : pyval) : result (dict dec) :=
  match as_dict raw with
  | None => Ok balances
  | Some row =>
      let asset := upper (str_of (get row "asset")) in
      let! quantity := dadd (_decimal (get row "free")) (_decimal (get row "locked")) in
      if nonempty asset && dgt quantity tolerance then
        let! total := dadd (dec_or0 balances asset) quantity in Ok (dict_set balances asset total)
      else Ok balances
  end.

Definition _spot_balance_map (account : pyval) (tolerance : dec) : result (dict dec) :=
  match as_dict account with
  | None => Ok []
  | Some a => match as_list (get a "balances") with
              | None => Ok []
              | Some l => res_fold (add_balance tolerance) [] l
              end
  end.

Definition _margin_assets (account : pyval) : dict (dict pyval) :=
  match as_dict account with
  | None => []
  | Some a =>
      match as_list (get a "userAssets") with
      | None => []
      | Some l =>
          dict_of (omap (fun raw => match as_dict raw with
                                    | Some row => if nonempty (strip (str_of (get row "asset")))
                                                  then Some (upper (str_of (get row "asset")), row) else None
                                    | None => None
                                    end) l)
      end
  end.

Definition _asset_value_usd (asset : string) (quantity : dec) (prices : dict dec) (quote_assets : list string)
    : result (option dec) :=
  if str_in asset quote_assets then let! a := dabs quantity in Ok (Some a)
  else match dict_get prices asset with
  | None => Ok None
  | Some price =>
      if dle price d0 then Ok None
      else let! v := dmul quantity price in let! a := dabs v in Ok (Some a)
  end.

(** ** Open orders *)

(** [d.setdefault(k, []).append(v)] *)
Definition append_to {V} (d : dict (list V)) (k : string) (v : V) : dict (list V) :=
  dict_set d k (match dict_get d k with Some l => l ++ [v] | None => [v] end).

Definition list_or_nil {V} (d : dict (list V)) (k : string) : list V :=
  match dict_get d k with Some l => l | None => [] end.

(** The pending intents by symbol and by client id. *)
Definition index_intents (pending : list (dict pyval))
    : dict (list (dict pyval)) * dict (list (dict pyval)) :=
  fold_left (fun '(by_symbol, by_client) intent =>
    let symbol := upper (str_of (get intent "symbol")) in
    let client_id := strip (str_of (get intent "client_order_id")) in
    (if nonempty symbol then append_to by_symbol symbol intent else by_symbol,
     if nonempty client_id then append_to by_client client_id intent else by_client)) pending ([], []).

Definition issue (code scope venue symbol asset client_order_id message : string) : ReconciliationIssue :=
  Issue code scope message venue symbol asset client_order_id true.

(** The body of the loop over the raw orders of one venue. *)
Definition classify_order (local_positions : dict (dict pyval))
    (pending_by_symbol pending_by_client_id : dict (list (dict pyval))) (prefix venue : string)
    (raw : dict pyval) : ClassifiedOrder * list ReconciliationIssue :=
  let symbol := upper (str_of (get raw "symbol")) in
  let client_id := order_client_id raw in
  let exchange_order_id := py_str (py_or (py_or (get raw "orderId") (get raw "order_id")) (VStr "")) in
  let st := upper (py_str (py_or (get raw "status") (VStr "UNKNOWN"))) in
  let linked := match list_or_nil pending_by_client_id client_id with
                | [] => list_or_nil pending_by_symbol symbol
                | l => l
                end in
  let linked_ids := sort_strings (map (fun row => str_of (get row "intent_id"))
                      (List.filter (fun row => truthy (get row "intent_id")) linked)) in
  let is_linked := match linked with [] => false | _ => true end in
  let '(ownership, raised) :=
    if is_bot_client_order_id (VStr client_id) prefix then
      if is_linked || dict_has local_positions symbol then (BOT, [])
      else (BOT_ORPHAN, [issue "orphan_bot_order" "order" venue symbol "" client_id
              "Bot-namespaced open order has no durable intent or managed position."])
    else if nonempty client_id then
      (EXTERNAL, [issue "unrelated_open_order" "order" venue symbol "" client_id
              "Open order is outside the bot namespace and must not be cancelled."])
    else
      (UNKNOWN, [issue "order_ownership_unknown" "order" venue symbol "" ""
              "Open order has no usable client-order identity."]) in
  (Build_ClassifiedOrder venue symbol client_id exchange_order_id st ownership linked_ids, raised).

Definition order_venues : list (string * string) :=
  [("usdt_futures", "futures_open_orders"); ("spot", "spot_open_orders"); ("cross_margin", "margin_open_orders")].

(** The raw orders of the snapshot with their venue, in order. *)
Definition raw_orders (snapshot : dict pyval) : list (string * dict pyval) :=
  flat_map (fun '(venue, k) =>
    match as_list (get snapshot k) with
    | Some l => omap (fun raw => (fun row => (venue, row)) <$> as_dict raw) l
    | None => []
    end) order_venues.

Definition _classify_orders (snapshot : dict pyval) (local_positions : dict (dict pyval))
    (pending_intents : list (dict pyval)) (prefix : string)
    : list ClassifiedOrder * list ReconciliationIssue :=
  let '(pending_by_symbol, pending_by_client_id) := index_intents pending_intents in
  let results := map (fun '(venue, raw) =>
    classify_order local_positions pending_by_symbol pending_by_client_id prefix venue raw) (raw_orders snapshot) in
  (map fst results, flat_map snd results).

(** ** The phases of [reconcile_account_snapshot] *)

Definition issue_if (b : bool) (i : ReconciliationIssue) : list ReconciliationIssue := if b then [i] else [].

Definition observed_uid (snapshot : dict pyval) : string :=
  match as_dict (get snapshot "spot_account") with Some a => strip (str_of (get a "uid")) | None => "" end.

Definition identity_issues (expected_uid observed : string) (require_account_uid : bool) : list ReconciliationIssue :=
  if require_account_uid && negb (nonempty expected_uid) then
    [issue "dedicated_account_identity_unconfigured" "account" "binance" "" "" ""
       "BONGUS_EXPECTED_ACCOUNT_UID must identify the dedicated bot account."]
  else issue_if (nonempty expected_uid && negb (String.eqb observed expected_uid))
    (issue "dedicated_account_identity_mismatch" "account" "binance" "" "" ""
       "Observed account UID does not match the configured dedicated bot account.").

Definition required_snapshot_fields : list string :=
  ["futures_account"; "position_risk"; "futures_open_orders"; "spot_account"; "spot_open_orders"].

Definition is_none (v : pyval) : bool := match v with VNone => true | _ => false end.

(** The [futures_account] mapping that carries a [positions] key. *)
Definition positions_projection (snapshot : dict pyval) : option (dict pyval) :=
  match as_dict (get snapshot "futures_account") with
  | Some a => if dict_has a "positions" then Some a else None
  | None => None
  end.

Definition endpoint_issues (snapshot : dict pyval) : list ReconciliationIssue :=
  flat_map (fun k => issue_if (is_none (get snapshot k))
    (issue "account_endpoint_incomplete" "account" "binance" "" "" ""
       ("Required account snapshot field " +:+ repr_str k +:+ " is unavailable."))) required_snapshot_fields
  ++ match as_dict (get snapshot "futures_account") with
     | Some a => issue_if (negb (dict_has a "positions"))
         (issue "account_endpoint_incomplete" "account" "usdt_futures" "" "" ""
            "Futures account response omitted its positions projection.")
     | None => []
     end.

Definition status_of (snapshot : dict pyval) (k : string) : string :=
  lower (py_str (py_or (get snapshot k) (VStr "unknown"))).

Definition margin_issues (margin_status margin_orders_status : string) : list ReconciliationIssue :=
  issue_if (negb (str_in margin_status ["available"; "disabled"]))
    (issue "margin_liability_endpoint_unverified" "account" "cross_margin" "" "" ""
       "Cross-margin liabilities could not be proven absent or enumerated.")
  ++ issue_if (negb (str_in margin_orders_status ["available"; "disabled"]))
    (issue "margin_order_endpoint_unverified" "account" "cross_margin" "" "" ""
       "Cross-margin open orders could not be proven absent or enumerated.").

Definition snapshot_error_issues (snapshot : dict pyval) : result (list ReconciliationIssue) :=
  match as_dict (py_or (get snapshot "snapshot_errors") (VDict [])) with
  | None => raise AttributeError "object has no attribute 'items'"
  | Some errors =>
      Ok (map (fun '(endpoint, detail) =>
                 issue "account_snapshot_error" "account" endpoint "" "" ""
                   ("Account snapshot error: " +:+ str_take 240 (py_str detail)))
            (List.filter (fun kv => negb (String.eqb (fst kv) "funding_income")) (dict_sorted errors)))
  end.

Definition duplicate_issues (duplicates : list string) : list ReconciliationIssue :=
  map (fun symbol => issue "duplicate_or_hedge_mode_position" "position" "usdt_futures" symbol "" ""
         "Multiple open futures rows for one symbol are unsupported and ambiguous.")
    (sort_strings (dedupe duplicates)).

(** The two futures endpoints compared for one symbol. *)
Definition endpoint_mismatch (risk_map account_map : dict (dict pyval)) (tolerance : dec) (symbol : string)
    : result (list ReconciliationIssue) :=
  let mismatch := issue "futures_position_endpoint_mismatch" "position" "usdt_futures" symbol "" "" in
  match dict_get risk_map symbol, dict_get account_map symbol with
  | Some risk_row, Some account_row =>
      let! gap := dsub (_decimal (get risk_row "positionAmt")) (_decimal (get account_row "positionAmt")) in
      let! a := dabs gap in
      Ok (issue_if (dgt a tolerance) (mismatch "Futures account and position-risk quantities disagree."))
  | _, _ => Ok [mismatch "Futures account and position-risk endpoints disagree on open exposure."]
  end.

Definition endpoint_mismatch_issues (snapshot : dict pyval) (risk_map account_map : dict (dict pyval))
    (tolerance : dec) : result (list ReconciliationIssue) :=
  match positions_projection snapshot with
  | None => Ok []
  | Some _ =>
      let! l := res_map_list (endpoint_mismatch risk_map account_map tolerance)
                  (sort_strings (dedupe (dict_keys risk_map ++ dict_keys account_map))) in
      Ok (concat l)
  end.

(** [dict(a).update(b)] *)
Definition dict_update {V} (a b : dict V) : dict V := fold_left (fun d kv => dict_set d (fst kv) (snd kv)) b a.

(** What the loop over the exchange positions accumulates. *)
Record position_state := {
  ps_required_spot : dict dec;
  ps_required_liability : dict dec;
  ps_positions : list ClassifiedPosition;
  ps_exchange_only : list string;
  ps_mismatched : list string;
  ps_issues : list ReconciliationIssue
}.

Definition no_positions : position_state := Build_position_state [] [] [] [] [] [].

Definition local_direction (local : dict pyval) : string := lower (py_str (py_or (get local "direction") (VStr "long"))).

(** The classification of an exchange position and the issue it raises. *)
Definition classify_position (local : option (dict pyval)) (symbol direction : string) (exchange_qty tolerance : dec)
    : result (string * list ReconciliationIssue) :=
  let raised code message := [issue code "position" "usdt_futures" symbol "" "" message] in
  match local with
  | None => Ok ("exchange_only", raised "exchange_only_position"
              "Exchange exposure has no durable local ownership lineage; adopt for manual review only.")
  | Some row =>
      let! differs := (if negb (String.eqb (local_direction row) direction) then Ok true
                       else let! gap := dsub (_decimal (get row "qty")) exchange_qty in
                            let! a := dabs gap in Ok (dgt a tolerance)) in
      if differs : bool then
        Ok ("mismatched", raised "managed_position_mismatch"
              "Exchange direction or quantity differs from the local managed projection.")
      else if String.eqb (lower (strip (str_of (get row "recovery_state")))) "manual_review" then
        Ok ("manual_review", raised "managed_position_manual_review"
              "Managed exposure remains in manual review and cannot establish readiness.")
      else Ok ("matched", [])
  end.

Definition add_required (d : dict dec) (asset : string) (quantity : dec) : result (dict dec) :=
  let! total := dadd (dec_or0 d asset) quantity in Ok (dict_set d asset total).

Definition only_if (b : bool) (s : string) : list string := if b then [s] else [].

Definition reconcile_position (local_map : dict (dict pyval)) (spot_balances : dict dec) (tolerance : dec)
    (acc : position_state) (entry : string * dict pyval) : result position_state :=
  let '(symbol, row) := entry in
  let amount := _decimal (get row "positionAmt") in
  let! exchange_qty := dabs amount in
  let direction := _direction amount (get row "positionSide") in
  let asset := _base_asset symbol in
  let local := dict_get local_map symbol in
  let local_qty := match local with Some l => _decimal (get l "qty") | None => d0 end in
  let! '(classification, raised) := classify_position local symbol direction exchange_qty tolerance in
  let! spot' := (if String.eqb direction "long" then add_required (ps_required_spot acc) asset exchange_qty
                 else Ok (ps_required_spot acc)) in
  let! liability' := (if String.eqb direction "long" then Ok (ps_required_liability acc)
                      else add_required (ps_required_liability acc) asset exchange_qty) in
  Ok {|
    ps_required_spot := spot';
    ps_required_liability := liability';
    ps_positions := ps_positions acc ++
      [Build_ClassifiedPosition symbol direction (dec_str exchange_qty) (dec_str local_qty) classification asset
         (dec_str (dec_or0 spot_balances asset)) "0"];
    ps_exchange_only := ps_exchange_only acc ++ only_if (String.eqb classification "exchange_only") symbol;
    ps_mismatched := ps_mismatched acc ++ only_if (String.eqb classification "mismatched") symbol;
    ps_issues := ps_issues acc ++ raised |}.

Definition local_only_issue (symbol : string) : ReconciliationIssue :=
  issue "local_only_position" "position" "local_state" symbol "" ""
    "Local managed position is absent from both futures account endpoints.".

Definition local_only_position (local_map : dict (dict pyval)) (spot_balances : dict dec) (symbol : string)
    : ClassifiedPosition :=
  let local := match dict_get local_map symbol with Some l => l | None => [] end in
  Build_ClassifiedPosition symbol (local_direction local) "0" (dec_str (_decimal (get local "qty"))) "local_only"
    (_base_asset symbol) (dec_str (dec_or0 spot_balances (_base_asset symbol))) "0".

Definition hedge_shortfall (spot_balances : dict dec) (tolerance minimum_hedge_factor : dec) (entry : string * dec)
    : result (list ReconciliationIssue) :=
  let '(asset, required) := entry in
  let actual := dec_or0 spot_balances asset in
  let! have := dadd actual tolerance in
  let! need := dmul required minimum_hedge_factor in
  Ok (issue_if (dlt have need)
    (issue "spot_hedge_shortfall" "position" "spot" "" asset ""
       ("Spot inventory " +:+ dec_str actual +:+ " does not cover required hedge " +:+ dec_str required +:+ "."))).

Definition residual_inventory (required_spot prices : dict dec) (quote_assets treasury_assets : list string)
    (qty_tolerance cash_tolerance : dec) (entry : string * dec) : result (list ReconciliationIssue) :=
  let '(asset, actual) := entry in
  if str_in asset treasury_assets then Ok []
  else
    let! excess := dsub actual (dec_or0 required_spot asset) in
    let residual := dmax d0 excess in
    if dle residual qty_tolerance then Ok []
    else
      let! usd := _asset_value_usd asset residual prices quote_assets in
      match usd with
      | None => Ok [issue "unvalued_spot_inventory" "balance" "spot" "" asset ""
                  ("Residual spot inventory " +:+ dec_str residual +:+ " cannot be valued or assigned.")]
      | Some v => Ok (issue_if (dgt v cash_tolerance)
                  (issue "unassigned_spot_inventory" "balance" "spot" "" asset ""
                     ("Residual spot inventory " +:+ dec_str residual +:+ " ($" +:+ dec_str v
                        +:+ ") is outside managed hedges.")))
      end.

(** One asset of the liability loop: its record, when it is worth one, and issues. *)
Definition reconcile_liability (margin_assets : dict (dict pyval)) (required_liability prices : dict dec)
    (quote_assets : list string) (qty_tolerance cash_tolerance minimum_hedge_factor : dec) (asset : string)
    : result (list ClassifiedLiability * list ReconciliationIssue) :=
  let row := match dict_get margin_assets asset with Some r => r | None => [] end in
  let! liability := dadd (_decimal (get row "borrowed")) (_decimal (get row "interest")) in
  let required := dec_or0 required_liability asset in
  let allocated := dmin liability required in
  let! excess := dsub liability required in
  let residual := dmax d0 excess in
  let! short := (if dgt required d0 then
                   let! have := dadd liability qty_tolerance in
                   let! need := dmul required minimum_hedge_factor in Ok (dlt have need)
                 else Ok false) in
  let! unassigned := (if dgt residual qty_tolerance then
                        let! v := _asset_value_usd asset residual prices quote_assets in
                        Ok (match v with None => true | Some x => dgt x cash_tolerance end)
                      else Ok false) in
  let classification := if unassigned : bool then "unassigned" else if short : bool then "shortfall" else "matched" in
  Ok (if dgt liability qty_tolerance || dgt required qty_tolerance
      then [Build_ClassifiedLiability asset (dec_str liability) (dec_str allocated) (dec_str residual) classification]
      else [],
      issue_if short (issue "margin_liability_shortfall" "liability" "cross_margin" "" asset ""
        ("Inverse hedge requires liability " +:+ dec_str required +:+ ", but exchange reports "
           +:+ dec_str liability +:+ "."))
      ++ issue_if unassigned (issue "unassigned_margin_liability" "liability" "cross_margin" "" asset ""
        ("Margin liability " +:+ dec_str liability +:+ " has unassigned residual " +:+ dec_str residual +:+ "."))).

Definition incomplete_codes : list string :=
  ["account_endpoint_incomplete"; "account_snapshot_error"; "margin_liability_endpoint_unverified";
   "margin_order_endpoint_unverified"].

(** The sort key of the issues, compared as a tuple. *)
Definition issue_key (i : ReconciliationIssue) : list string :=
  [i_code i; i_scope i; i_venue i; i_symbol i; i_asset i; i_client_order_id i].

Fixpoint tuple_leb (a b : list string) : bool :=
  match a, b with
  | [], _ => true
  | _, [] => false
  | x :: a', y :: b' => if String.eqb x y then tuple_leb a' b' else String.leb x y
  end.

(** The keyword arguments of [reconcile_account_snapshot]. *)
Record options := {
  bot_prefix : string;
  quantity_tolerance : pyval;
  cash_tolerance_usd : pyval;
  hedge_shortfall_tolerance : pyval;
  quote_assets : list string;
  treasury_assets : list string;
  expected_account_uid : pyval;
  require_account_uid : bool;
  given_generated_at : string
}.

Definition default_options : options := {|
  bot_prefix := BOT_CLIENT_ORDER_PREFIX;
  quantity_tolerance := VStr "1E-9";
  cash_tolerance_usd := VStr "0.01";
  hedge_shortfall_tolerance := VStr "0.0025";
  quote_assets := _DEFAULT_QUOTE_ASSETS;
  treasury_assets := _DEFAULT_TREASURY_ASSETS;
  expected_account_uid := VNone;
  require_account_uid := false;
  given_generated_at := "" |}.

Definition price_map (asset_prices_usd : dict pyval) : dict dec :=
  dict_of (map (fun kv => (upper (fst kv), _decimal (snd kv)))
    (List.filter (fun kv => dgt (_decimal (snd kv)) d0) asset_prices_usd)).

(** The rows of the [positions] list of the futures account. *)
Definition account_positions (snapshot : dict pyval) : pyval :=
  match as_dict (get snapshot "futures_account") with Some a => get a "positions" | None => VNone end.

Definition report_metadata (o : options) (qty_tolerance cash_tolerance : dec)
    (margin_status margin_orders_status expected_uid observed : string) : dict pyval :=
  [("bot_client_order_prefix", VStr (bot_prefix o));
   ("cash_tolerance_usd", VStr (dec_str cash_tolerance));
   ("quantity_tolerance", VStr (dec_str qty_tolerance));
   ("margin_account_status", VStr margin_status);
   ("margin_open_orders_status", VStr margin_orders_status);
   ("dedicated_account_identity_configured", VBool (nonempty expected_uid));
   ("dedicated_account_identity_matched", VBool (nonempty expected_uid && String.eqb observed expected_uid))].

(** The end of the function: completeness, the sorted issues and the verdict. *)
Definition assemble_report (o : options) (clock : string) (raised : list ReconciliationIssue)
    (classified_orders : list ClassifiedOrder) (classified_positions : list ClassifiedPosition)
    (classified_liabilities : list ClassifiedLiability) (exchange_only local_only mismatched : list string)
    (meta : dict pyval) : AccountReconciliationReport :=
  let complete := negb (existsb (fun i => str_in (i_code i) incomplete_codes) raised) in
  let sorted := sort_by (fun a b => tuple_leb (issue_key a) (issue_key b)) raised in
  let blocking := existsb i_blocking sorted in
  {|
    generated_at := str_or (given_generated_at o) clock;
    ready := complete && negb blocking;
    snapshot_complete := complete;
    orders := classified_orders;
    positions := classified_positions;
    liabilities := classified_liabilities;
    issues := sorted;
    exchange_only_symbols := sort_strings exchange_only;
    local_only_symbols := local_only;
    mismatched_symbols := sort_strings mismatched;
    metadata := meta
  |}.

Definition reconcile_account_snapshot (snapshot : dict pyval) (local_positions pending_intents : list (dict pyval))
    (asset_prices_usd : dict pyval) (o : options) (clock : string) : result AccountReconciliationReport :=
  let qty_tolerance := _decimal (quantity_tolerance o) in
  let cash_tolerance := _decimal (cash_tolerance_usd o) in
  let hedge_tolerance := _decimal (hedge_shortfall_tolerance o) in
  let prices := price_map asset_prices_usd in
  let local_map := _local_position_map local_positions in
  let expected_uid := strip (str_of (expected_account_uid o)) in
  let observed := observed_uid snapshot in
  let margin_status := status_of snapshot "margin_account_status" in
  let margin_orders_status := status_of snapshot "margin_open_orders_status" in
  let! snapshot_errors := snapshot_error_issues snapshot in
  let! '(risk_map, risk_duplicates) := _position_map (get snapshot "position_risk") qty_tolerance in
  let! '(account_map, account_duplicates) := _position_map (account_positions snapshot) qty_tolerance in
  let! mismatches := endpoint_mismatch_issues snapshot risk_map account_map qty_tolerance in
  let exchange_map := dict_update account_map risk_map in
  let! spot_balances := _spot_balance_map (get snapshot "spot_account") qty_tolerance in
  let! ps := res_fold (reconcile_position local_map spot_balances qty_tolerance) no_positions
               (dict_sorted exchange_map) in
  let local_only := sort_strings (List.filter (fun s => negb (dict_has exchange_map s)) (dict_keys local_map)) in
  let! minimum_hedge_factor := dsub d1 hedge_tolerance in
  let! shortfalls := res_map_list (hedge_shortfall spot_balances qty_tolerance minimum_hedge_factor)
                       (dict_sorted (ps_required_spot ps)) in
  let! residuals := res_map_list (residual_inventory (ps_required_spot ps) prices (quote_assets o)
                       (treasury_assets o) qty_tolerance cash_tolerance) (dict_sorted spot_balances) in
  let margin_assets := _margin_assets (get snapshot "margin_account") in
  let! liability_results :=
    res_map_list (reconcile_liability margin_assets (ps_required_liability ps) prices (quote_assets o)
                    qty_tolerance cash_tolerance minimum_hedge_factor)
      (sort_strings (dedupe (dict_keys margin_assets ++ dict_keys (ps_required_liability ps)))) in
  let '(classified_orders, order_issues) :=
    _classify_orders snapshot local_map pending_intents (bot_prefix o) in
  let raised :=
    identity_issues expected_uid observed (require_account_uid o)
    ++ endpoint_issues snapshot ++ margin_issues margin_status margin_orders_status ++ snapshot_errors
    ++ duplicate_issues (risk_duplicates ++ account_duplicates) ++ mismatches ++ ps_issues ps
    ++ map local_only_issue local_only ++ concat shortfalls ++ concat residuals
    ++ concat (map snd liability_results) ++ order_issues in
  Ok (assemble_report o clock raised classified_orders
        (ps_positions ps ++ map (local_only_position local_map spot_balances) local_only)
        (concat (map fst liability_results)) (ps_exchange_only ps) local_only (ps_mismatched ps)
        (report_metadata o qty_tolerance cash_tolerance margin_status margin_orders_status expected_uid observed)).
