(* ===== verification/AccountReconciliationFacts.v ===== *)
(** * Properties of the account reconciliation

    Cancellation ownership is the client-order namespace alone; the report is ready
    exactly when nothing was found, and then every open order and every position of the
    snapshot is accounted for; every visible order and exposure is classified. *)
From Stdlib Require Import ZArith Lia Ascii.
From stdpp Require Import base list strings sorting sets.
From S2P Require Import Prelude PyDecimal PyDecimalFacts PyFloat PyValue AccountReconciliation.
Open Scope Z_scope.

(** ** The namespace *)

Lemma client_order_char_not_space c : client_order_char c = true -> is_py_space c = false.
Proof. destruct c as [[] [] [] [] [] [] [] []]; done. Qed.

Lemma str_forallb_impl f g s : (forall c, f c = true -> g c = true) -> str_forallb f s = true -> str_forallb g s = true.
Proof.
  intros H. induction s as [|c s IH]; simpl; [done|]. intros E. apply andb_true_iff in E as [E1 E2].
  by rewrite H, IH.
Qed.

Lemma strip_clean s : str_forallb client_order_char s = true -> strip s = s.
Proof.
  intros H. apply strip_nospace. revert H. apply str_forallb_impl. intros c H.
  by rewrite client_order_char_not_space.
Qed.

Lemma make_id_inv leg intent nonce prefix v :
  make_bot_client_order_id leg intent nonce prefix = Ok v ->
  startswith prefix v = true /\ client_order_id_re v = true.
Proof.
  unfold make_bot_client_order_id. intros H. destruct (_ || _) eqn:E in H; [done|].
  apply orb_false_iff in E as [_ E]. apply negb_false_iff in E. injection H as <-.
  split; [apply startswith_app|done].
Qed.

Lemma re_is_bot v prefix : startswith prefix v = true -> client_order_id_re v = true ->
  is_bot_client_order_id (VStr v) prefix = true.
Proof.
  unfold is_bot_client_order_id, str_of. intros Hp Hr.
  assert (py_str (py_or (VStr v) (VStr "")) = v) as -> by (unfold py_or; simpl; by destruct v).
  pose proof Hr as Hr'. unfold client_order_id_re in Hr'. bool_props.
  rewrite strip_clean by done. rewrite Hp, Hr. destruct v; [|done]. simpl in *. done.
Qed.

Lemma lower_alnum_ok c : lower_alnum c = true -> client_order_char c = true.
Proof. destruct c as [[] [] [] [] [] [] [] []]; done. Qed.

Lemma is_hex_ok c : is_hex c = true -> client_order_char c = true.
Proof. destruct c as [[] [] [] [] [] [] [] []]; done. Qed.

Lemma str_filter_forallb f s : str_forallb f (str_filter f s) = true.
Proof. induction s as [|c s IH]; [done|]. simpl. destruct (f c) eqn:E; simpl; [by rewrite E|done]. Qed.

(** The normalized leg: one to four lowercase alphanumerics. *)
Lemma normalized_leg_ok leg :
  let n := str_or (str_take 4 (str_filter lower_alnum (lower leg))) "leg" in
  str_forallb client_order_char n = true /\ (1 <= String.length n <= 4)%nat.
Proof.
  cbv zeta. set (t := str_take 4 _). unfold str_or.
  assert (str_forallb client_order_char t = true) as Ht.
  { eapply str_forallb_impl; [apply lower_alnum_ok|]. apply str_take_forallb, str_filter_forallb. }
  assert (String.length t <= 4)%nat by apply str_take_length.
  destruct (nonempty t) eqn:E; [|split; [done|simpl; lia]]. split; [done|].
  destruct t; [done|]. simpl in *. lia.
Qed.

Lemma make_default_ok leg intent nonce :
  exists v, make_bot_client_order_id leg intent nonce BOT_CLIENT_ORDER_PREFIX = Ok v.
Proof.
  unfold make_bot_client_order_id. cbv zeta. destruct (normalized_leg_ok leg) as [Hc Hl].
  set (n := str_or _ _) in *. set (d := sha256_hex _).
  assert (str_forallb client_order_char (str_take 20 d) = true) as Hd.
  { eapply str_forallb_impl; [apply is_hex_ok|]. apply str_take_forallb, sha256_hex_chars. }
  pose proof (str_take_length 20 d) as Hdl.
  set (v := BOT_CLIENT_ORDER_PREFIX +:+ _).
  assert (String.length v = (6 + String.length n + String.length (str_take 20 d))%nat) as Hv
    by (subst v; rewrite !str_length_app; simpl; lia).
  assert (client_order_id_re v = true) as ->.
  { unfold client_order_id_re. rewrite !andb_true_iff, !Nat.leb_le. split; [rewrite Hv; lia|].
    subst v. by rewrite !str_forallb_app, Hc, Hd. }
  assert (Nat.ltb BOT_CLIENT_ORDER_ID_MAX_LENGTH (String.length v) = false) as ->
    by (apply Nat.ltb_ge; unfold BOT_CLIENT_ORDER_ID_MAX_LENGTH; lia).
  by eexists.
Qed.

(** ** The issues of each phase are blocking *)

Definition all_blocking (l : list ReconciliationIssue) : Prop := Forall (fun i => i_blocking i = true) l.

Lemma blocking_issue_if b i : i_blocking i = true -> all_blocking (issue_if b i).
Proof. intros H. destruct b; repeat constructor; done. Qed.

Lemma blocking_app a b : all_blocking a -> all_blocking b -> all_blocking (a ++ b).
Proof. apply Forall_app_2. Qed.

Lemma blocking_concat ls : Forall all_blocking ls -> all_blocking (concat ls).
Proof. induction 1; simpl; [constructor|by apply blocking_app]. Qed.

Lemma blocking_map {A} (f : A -> ReconciliationIssue) l : (forall x, i_blocking (f x) = true) -> all_blocking (map f l).
Proof. intros H. induction l; constructor; auto. Qed.

Lemma blocking_flat_map {A} (f : A -> list ReconciliationIssue) l :
  (forall x, all_blocking (f x)) -> all_blocking (flat_map f l).
Proof. intros H. induction l; simpl; [constructor|by apply blocking_app]. Qed.

Lemma res_map_list_Forall {A B} (f : A -> result B) (P : B -> Prop) l ys :
  (forall x y, f x = Ok y -> P y) -> res_map_list f l = Ok ys -> Forall P ys.
Proof.
  intros HP. revert ys; induction l as [|x l IH]; simpl; intros ys H; [injection H as <-; constructor|].
  apply res_bind_Ok in H as (y & Hy & H). apply res_bind_Ok in H as (ys' & Hys & H). injection H as <-.
  constructor; eauto.
Qed.

Lemma blocking_nil : all_blocking [].
Proof. constructor. Qed.

#[local] Hint Resolve blocking_nil blocking_issue_if blocking_app blocking_map blocking_flat_map : blocking.

Lemma blocking_identity a b c : all_blocking (identity_issues a b c).
Proof. unfold identity_issues. destruct (c && _); [repeat constructor|auto with blocking]. Qed.

Lemma blocking_endpoint s : all_blocking (endpoint_issues s).
Proof. unfold endpoint_issues. destruct (as_dict _); auto with blocking. Qed.

Lemma blocking_margin a b : all_blocking (margin_issues a b).
Proof. unfold margin_issues. auto with blocking. Qed.

Lemma blocking_snapshot_errors s l : snapshot_error_issues s = Ok l -> all_blocking l.
Proof.
  unfold snapshot_error_issues. destruct (as_dict _); [|done]. intros H. injection H as <-.
  apply blocking_map. by intros [].
Qed.

Lemma blocking_mismatches s a b t l : endpoint_mismatch_issues s a b t = Ok l -> all_blocking l.
Proof.
  unfold endpoint_mismatch_issues. destruct (positions_projection s); [|intros H; injection H as <-; constructor].
  intros H. apply res_bind_Ok in H as (ls & Hls & H). injection H as <-. apply blocking_concat.
  eapply res_map_list_Forall; [|exact Hls]. intros x y Hy. unfold endpoint_mismatch in Hy.
  destruct (dict_get a x), (dict_get b x); try (injection Hy as <-; repeat constructor; done).
  do 2 apply res_bind_Ok in Hy as (? & _ & Hy). injection Hy as <-. auto with blocking.
Qed.

Lemma blocking_classify local s d q t c l : classify_position local s d q t = Ok (c, l) -> all_blocking l.
Proof.
  unfold classify_position. destruct local as [row|]; [|intros H; injection H as _ <-; repeat constructor].
  intros H. apply res_bind_Ok in H as ([] & _ & H); [injection H as _ <-; repeat constructor|].
  destruct (String.eqb _ _) in H; injection H as _ <-; repeat constructor.
Qed.

(** ** The loop over the exchange positions *)

(** A position the local projection explains. *)
Definition agrees (local_map : dict (dict pyval)) (tolerance : dec) (p : ClassifiedPosition) : Prop :=
  p_classification p = "matched" /\
  exists row qty gap a, dict_get local_map (p_symbol p) = Some row /\
    local_direction row = p_direction p /\ p_exchange_quantity p = dec_str qty /\
    dsub (_decimal (get row "qty")) qty = Ok gap /\ dabs gap = Ok a /\ dle a tolerance = true.

Lemma classify_clean local s d q t c : classify_position local s d q t = Ok (c, []) ->
  c = "matched" /\ exists row gap a, local = Some row /\ local_direction row = d /\
    dsub (_decimal (get row "qty")) q = Ok gap /\ dabs gap = Ok a /\ dle a t = true.
Proof.
  unfold classify_position. destruct local as [row|]; [|done]. intros H.
  apply res_bind_Ok in H as (differs & Hd & H). destruct differs; [done|].
  destruct (String.eqb _ "manual_review") in H; [done|]. injection H as <-. split; [done|].
  destruct (negb _) eqn:E in Hd; [done|]. apply negb_false_iff, String.eqb_eq in E.
  apply res_bind_Ok in Hd as (gap & Hg & Hd). apply res_bind_Ok in Hd as (a & Ha & Hd). injection Hd as Hd.
  exists row, gap, a. repeat split; try done. apply dle_spec. unfold dgt in Hd. by apply dlt_false in Hd.
Qed.

Lemma classify_marks local s d q t c l : classify_position local s d q t = Ok (c, l) ->
  l = [] -> String.eqb c "exchange_only" = false /\ String.eqb c "mismatched" = false.
Proof. intros H ->. apply classify_clean in H as [-> _]. done. Qed.

Lemma reconcile_position_inv local_map bal t acc e acc' :
  reconcile_position local_map bal t acc e = Ok acc' ->
  exists p raised eo mm, ps_positions acc' = ps_positions acc ++ [p] /\ p_symbol p = fst e /\
    ps_issues acc' = ps_issues acc ++ raised /\ all_blocking raised /\
    ps_exchange_only acc' = ps_exchange_only acc ++ eo /\ ps_mismatched acc' = ps_mismatched acc ++ mm /\
    (raised = [] -> agrees local_map t p /\ eo = [] /\ mm = []).
Proof.
  unfold reconcile_position. destruct e as [s row]. intros H.
  apply res_bind_Ok in H as (q & Hq & H). apply res_bind_Ok in H as ([c raised] & Hc & H).
  apply res_bind_Ok in H as (sp & _ & H). apply res_bind_Ok in H as (li & _ & H). injection H as <-.
  eexists _, raised, _, _. do 2 (split; [done|]). split; [done|]. split; [by eapply blocking_classify|].
  do 2 (split; [done|]). intros ->. destruct (classify_marks _ _ _ _ _ _ _ Hc eq_refl) as [-> ->].
  split; [|done]. apply classify_clean in Hc as (-> & lrow & gap & a & H1 & H2 & H3 & H4 & H5).
  split; [done|]. exists lrow, q, gap, a. done.
Qed.

Record position_run (local_map : dict (dict pyval)) (t : dec) (names : list string) (ps : position_state) : Prop := {
  pr_names : map p_symbol (ps_positions ps) = names;
  pr_blocking : all_blocking (ps_issues ps);
  pr_clean : ps_issues ps = [] ->
    Forall (agrees local_map t) (ps_positions ps) /\ ps_exchange_only ps = [] /\ ps_mismatched ps = []
}.

Lemma position_step local_map bal t names acc e acc' :
  position_run local_map t names acc -> reconcile_position local_map bal t acc e = Ok acc' ->
  position_run local_map t (names ++ [fst e]) acc'.
Proof.
  intros [N B C] H. apply reconcile_position_inv in H as (p & raised & eo & mm & Hp & <- & Hi & Hb & He & Hm & Hc).
  split; rewrite ?Hp, ?Hi, ?He, ?Hm.
  - by rewrite map_app, N.
  - by apply blocking_app.
  - intros [E1 E2]%app_eq_nil. destruct (C E1) as (C1 & C2 & C3).
    destruct (Hc E2) as (D1 & -> & ->). rewrite C2, C3. split; [|done]. apply Forall_app. split; [done|by apply Forall_singleton].
Qed.

Lemma position_fold local_map bal t l names acc ps :
  position_run local_map t names acc -> res_fold (reconcile_position local_map bal t) acc l = Ok ps ->
  position_run local_map t (names ++ map fst l) ps.
Proof.
  revert names acc; induction l as [|e l IH]; intros names acc Ha H; simpl in *.
  - injection H as <-. by rewrite app_nil_r.
  - apply res_bind_Ok in H as (acc' & He & H).
    change (fst e :: map fst l) with ([fst e] ++ map fst l). rewrite app_assoc.
    eapply IH; [by eapply position_step|done].
Qed.

Lemma no_positions_run local_map t : position_run local_map t [] no_positions.
Proof. split; simpl; [done|constructor|]. intros _. split; [constructor|done]. Qed.

(** Two quantities that differ by no more than the tolerance. *)
Definition close (a b tolerance : dec) : Prop := exists gap m, dsub a b = Ok gap /\ dabs gap = Ok m /\ dle m tolerance = true.

(** The local row with the direction and the quantity of an exchange row. *)
Definition covers (local_map : dict (dict pyval)) (t : dec) (e : string * dict pyval) : Prop :=
  exists q local, dabs (_decimal (get (snd e) "positionAmt")) = Ok q /\ dict_get local_map (fst e) = Some local /\
    local_direction local = _direction (_decimal (get (snd e) "positionAmt")) (get (snd e) "positionSide") /\
    close (_decimal (get local "qty")) q t.

Lemma reconcile_position_covers local_map bal t acc e acc' : reconcile_position local_map bal t acc e = Ok acc' ->
  exists raised, ps_issues acc' = ps_issues acc ++ raised /\ (raised = [] -> covers local_map t e).
Proof.
  unfold reconcile_position. destruct e as [s row]. intros H.
  apply res_bind_Ok in H as (q & Hq & H). apply res_bind_Ok in H as ([c raised] & Hc & H).
  apply res_bind_Ok in H as (sp & _ & H). apply res_bind_Ok in H as (li & _ & H). injection H as <-.
  exists raised. split; [done|]. intros ->. apply classify_clean in Hc as (_ & local & gap & a & Hl & Hd & Hg & Ha & Hle).
  exists q, local. split; [done|]. split; [done|]. split; [done|]. by exists gap, a.
Qed.

Lemma position_fold_covers local_map bal t l acc ps : res_fold (reconcile_position local_map bal t) acc l = Ok ps ->
  exists raised, ps_issues ps = ps_issues acc ++ raised /\ (raised = [] -> Forall (covers local_map t) l).
Proof.
  revert acc; induction l as [|e l IH]; intros acc H; simpl in H.
  - injection H as <-. exists []. split; [by rewrite app_nil_r|constructor].
  - apply res_bind_Ok in H as (acc' & He & H). apply reconcile_position_covers in He as (r1 & E1 & C1).
    destruct (IH _ H) as (r2 & E2 & C2). exists (r1 ++ r2). split; [by rewrite E2, E1, app_assoc|].
    intros [-> ->]%app_eq_nil. constructor; auto.
Qed.

(** ** What a reconciliation went through *)

Record reconciled (snapshot : dict pyval) (local_positions pending : list (dict pyval)) (o : options)
    (r : AccountReconciliationReport) (raised : list ReconciliationIssue) : Prop := {
  rc_issues : issues r = sort_by (fun a b => tuple_leb (issue_key a) (issue_key b)) raised;
  rc_blocking : all_blocking raised;
  rc_complete : snapshot_complete r = negb (existsb (fun i => str_in (i_code i) incomplete_codes) raised);
  rc_ready : ready r = snapshot_complete r && negb (existsb i_blocking (issues r));
  rc_orders : orders r = fst (_classify_orders snapshot (_local_position_map local_positions) pending (bot_prefix o));
  rc_raised : raised = [] ->
    identity_issues (strip (str_of (expected_account_uid o))) (observed_uid snapshot) (require_account_uid o) = [] /\
    endpoint_issues snapshot = [] /\
    margin_issues (status_of snapshot "margin_account_status") (status_of snapshot "margin_open_orders_status") = [] /\
    snapshot_error_issues snapshot = Ok [] /\
    snd (_classify_orders snapshot (_local_position_map local_positions) pending (bot_prefix o)) = [];
  rc_positions : exists risk_map account_map d1 d2 extra,
    let t := _decimal (quantity_tolerance o) in
    let local_map := _local_position_map local_positions in
    _position_map (get snapshot "position_risk") t = Ok (risk_map, d1) /\
    _position_map (account_positions snapshot) t = Ok (account_map, d2) /\
    let exchange_map := dict_update account_map risk_map in
    let local_only := sort_strings (List.filter (fun s => negb (dict_has exchange_map s)) (dict_keys local_map)) in
    map p_symbol (positions r) = map fst (dict_sorted exchange_map) ++ local_only /\
    local_only_symbols r = local_only /\
    (raised = [] -> local_only = [] /\ Forall (agrees local_map t) (positions r) /\
       Forall (covers local_map t) (dict_sorted exchange_map) /\ exchange_only_symbols r = [] /\ mismatched_symbols r = [] /\ d1 = [] /\ d2 = [] /\
       endpoint_mismatch_issues snapshot risk_map account_map t = Ok extra /\ extra = [])
}.

Lemma blocking_liability ma rl pr qa a b c s x y : reconcile_liability ma rl pr qa a b c s = Ok (x, y) -> all_blocking y.
Proof.
  unfold reconcile_liability. intros H. apply res_bind_Ok in H as (? & _ & H). apply res_bind_Ok in H as (? & _ & H).
  apply res_bind_Ok in H as (? & _ & H). apply res_bind_Ok in H as (? & _ & H). injection H as _ <-.
  auto with blocking.
Qed.

(** ** Orders *)

Lemma classify_order_spec lm bs bc prefix venue raw :
  let '(o, raised) := classify_order lm bs bc prefix venue raw in
  o_venue o = venue /\ o_client_order_id o = order_client_id raw /\
  cancellable_by_bot o = is_bot_client_order_id (VStr (order_client_id raw)) prefix /\
  all_blocking raised /\ (raised = [] <-> o_ownership o = BOT).
Proof.
  unfold classify_order, cancellable_by_bot. destruct (is_bot_client_order_id _ _) eqn:E.
  - destruct (_ || _); simpl; repeat split; try done; repeat constructor.
  - destruct (nonempty _); simpl; repeat split; try done; repeat constructor.
Qed.

Definition order_matches (prefix : string) (vr : string * dict pyval) (o : ClassifiedOrder) : Prop :=
  o_venue o = fst vr /\ o_client_order_id o = order_client_id (snd vr) /\
  cancellable_by_bot o = is_bot_client_order_id (VStr (order_client_id (snd vr))) prefix.

Lemma classify_orders_spec s lm p prefix :
  let '(os, raised) := _classify_orders s lm p prefix in
  Forall2 (order_matches prefix) (raw_orders s) os /\ all_blocking raised /\
  (raised = [] -> Forall (fun o => o_ownership o = BOT) os).
Proof.
  unfold _classify_orders. destruct (index_intents p) as [bs bc].
  induction (raw_orders s) as [|[venue raw] l IH]; [repeat constructor|]. cbn [map flat_map].
  destruct IH as (I1 & I2 & I3). pose proof (classify_order_spec lm bs bc prefix venue raw) as H.
  destruct (classify_order _ _ _ _ _ _) as [o raised]. destruct H as (H1 & H2 & H3 & H4 & H5). simpl.
  split; [by constructor|]. split; [by apply blocking_app|].
  intros [E1 E2]%app_eq_nil. constructor; [by apply H5|auto].
Qed.

Lemma classify_orders_fst s lm p prefix :
  Forall2 (order_matches prefix) (raw_orders s) (fst (_classify_orders s lm p prefix)).
Proof. pose proof (classify_orders_spec s lm p prefix) as H. destruct (_classify_orders _ _ _ _). apply H. Qed.

Lemma classify_orders_blocking s lm p prefix : all_blocking (snd (_classify_orders s lm p prefix)).
Proof. pose proof (classify_orders_spec s lm p prefix) as H. destruct (_classify_orders _ _ _ _). apply H. Qed.

Lemma classify_orders_clean s lm p prefix : snd (_classify_orders s lm p prefix) = [] ->
  Forall (fun o => o_ownership o = BOT) (fst (_classify_orders s lm p prefix)).
Proof. pose proof (classify_orders_spec s lm p prefix) as H. destruct (_classify_orders _ _ _ _). apply H. Qed.

(** ** The whole run *)

Lemma blocking_shortfall b t f e l : hedge_shortfall b t f e = Ok l -> all_blocking l.
Proof.
  unfold hedge_shortfall. destruct e. intros H. do 2 apply res_bind_Ok in H as (? & _ & H).
  injection H as <-. auto with blocking.
Qed.

Lemma blocking_residual a b c d e f x l : residual_inventory a b c d e f x = Ok l -> all_blocking l.
Proof.
  unfold residual_inventory. destruct x. destruct (str_in _ _); [intros H; injection H as <-; constructor|].
  intros H. apply res_bind_Ok in H as (? & _ & H). destruct (dle _ e); [injection H as <-; constructor|].
  apply res_bind_Ok in H as (u & _ & H). destruct u; injection H as <-; auto with blocking.
  repeat constructor.
Qed.

Lemma blocking_duplicates l : all_blocking (duplicate_issues l).
Proof. unfold duplicate_issues. auto with blocking. Qed.

Lemma blocking_snd (l : list (list ClassifiedLiability * list ReconciliationIssue)) :
  Forall (fun p => all_blocking (snd p)) l -> all_blocking (concat (map snd l)).
Proof. intros H. apply blocking_concat. by rewrite Forall_map. Qed.

Lemma sort_strings_nil l : sort_strings l = [] <-> l = [].
Proof.
  split; [|by intros ->]. intros E. apply Permutation_nil_r. rewrite <- E. symmetry. apply sort_strings_perm.
Qed.

Lemma duplicate_issues_nil l : duplicate_issues l = [] -> l = [].
Proof. unfold duplicate_issues. intros E. apply map_eq_nil in E. by apply dedupe_from_nil_iff, sort_strings_nil. Qed.

Lemma reconcile_inv snapshot lp pending prices o clock r :
  reconcile_account_snapshot snapshot lp pending prices o clock = Ok r ->
  exists raised, reconciled snapshot lp pending o r raised.
Proof.
  unfold reconcile_account_snapshot. intros H.
  apply res_bind_Ok in H as (errs & He & H). apply res_bind_Ok in H as ([risk d1] & Hr & H).
  apply res_bind_Ok in H as ([acct d2] & Ha & H). apply res_bind_Ok in H as (mism & Hm & H).
  apply res_bind_Ok in H as (bal & Hb & H). apply res_bind_Ok in H as (ps & Hps & H).
  apply res_bind_Ok in H as (fac & _ & H). apply res_bind_Ok in H as (sh & Hsh & H).
  apply res_bind_Ok in H as (res & Hres & H). apply res_bind_Ok in H as (li & Hli & H).
  destruct (_classify_orders _ _ _ _) as [os oi] eqn:Eo. injection H as <-.
  destruct (position_fold_covers _ _ _ _ _ _ Hps) as (pr & Hpr & Hcov). simpl in Hpr.
  apply (position_fold _ _ _ _ [] _ _ (no_positions_run _ _)) in Hps as [Pn Pb Pc].
  pose proof (classify_orders_blocking snapshot (_local_position_map lp) pending (bot_prefix o)) as Ob.
  eexists. split; simpl; try (by rewrite Eo); try done.
  - rewrite Eo in Ob. apply blocking_app; [apply blocking_identity|]. apply blocking_app; [apply blocking_endpoint|].
    apply blocking_app; [apply blocking_margin|]. apply blocking_app; [by eapply blocking_snapshot_errors|].
    apply blocking_app; [apply blocking_duplicates|]. apply blocking_app; [by eapply blocking_mismatches|].
    apply blocking_app; [done|]. apply blocking_app; [by apply blocking_map|].
    apply blocking_app; [|apply blocking_app; [|apply blocking_app; [|done]]].
    + apply blocking_concat. eapply res_map_list_Forall; [|exact Hsh]. intros x y. apply blocking_shortfall.
    + apply blocking_concat. eapply res_map_list_Forall; [|exact Hres]. intros x y. apply blocking_residual.
    + apply blocking_snd. eapply res_map_list_Forall; [|exact Hli]. intros x [y z]. apply blocking_liability.
  - intros E. rewrite Eo. repeat apply app_eq_nil in E as [? E]. subst. auto.
  - exists risk, acct, d1, d2, mism. split; [done|]. split; [done|].
    split. { rewrite map_app, Pn, map_map. f_equal. rewrite <- (map_id (sort_strings _)) at 2. done. }
    split; [done|]. intros E. repeat apply app_eq_nil in E as [? E].
    match goal with H : map local_only_issue _ = [] |- _ => apply map_eq_nil in H as Hlo end.
    match goal with H : duplicate_issues _ = [] |- _ => apply duplicate_issues_nil, app_eq_nil in H as [-> ->] end.
    match goal with H : ps_issues _ = [] |- _ => destruct (Pc H) as (C1 & C2 & C3); rewrite H in Hpr; specialize (Hcov (eq_sym Hpr)) end.
    rewrite Hlo, C2, C3. simpl. rewrite app_nil_r. done.
Qed.

(** ** The symbols with exposure *)

(** A row of an endpoint that reports more than dust for [s]. *)
Definition open_exposure (rows : pyval) (tolerance : dec) (s : string) : Prop :=
  exists l raw row a, as_list rows = Some l /\ raw ∈ l /\ as_dict raw = Some row /\
    upper (str_of (get row "symbol")) = s /\ nonempty s = true /\
    dabs (_decimal (get row "positionAmt")) = Ok a /\ dle a tolerance = false.

Lemma add_position_keys t acc raw acc' : add_position t acc raw = Ok acc' ->
  NoDup (dict_keys (fst acc)) ->
  NoDup (dict_keys (fst acc')) /\
  forall s, s ∈ dict_keys (fst acc') <-> s ∈ dict_keys (fst acc) \/
    exists row a, as_dict raw = Some row /\ upper (str_of (get row "symbol")) = s /\ nonempty s = true /\
      dabs (_decimal (get row "positionAmt")) = Ok a /\ dle a t = false.
Proof.
  unfold add_position. destruct acc as [res dup]. intros H Hn.
  destruct (as_dict raw) as [row|] eqn:Ed; [|injection H as <-; split; [done|]; intros s; split; [auto|]; by intros [|(? & ? & [=] & _)]].
  destruct (nonempty _) eqn:Es; simpl in H;
    [|injection H as <-; split; [done|]; intros s; split; [auto|]; intros [|(? & ? & [= <-] & <- & Hs & _)]; congruence].
  apply res_bind_Ok in H as (a & Ha & H). destruct (dle a t) eqn:Ea.
  { injection H as <-. split; [done|]. intros s. split; [auto|]. intros [|(row' & a' & [= <-] & _ & _ & Ha' & Hd)]; [done|].
    congruence. }
  destruct (dict_has res _) eqn:Eh; injection H as <-; simpl.
  - split; [done|]. intros s. split; [auto|]. intros [|(row' & a' & [= <-] & <- & _)]; [done|].
    unfold dict_has in Eh. destruct (dict_get _ _) eqn:Eg; [|done]. apply dict_get_elem in Eg.
    apply list_elem_of_fmap. by eexists (_, _).
  - split; [by apply dict_set_NoDup|]. intros s. rewrite dict_keys_set. naive_solver.
Qed.

Lemma position_fold_keys t l acc acc' : res_fold (add_position t) acc l = Ok acc' ->
  NoDup (dict_keys (fst acc)) ->
  NoDup (dict_keys (fst acc')) /\
  forall s, s ∈ dict_keys (fst acc') <-> s ∈ dict_keys (fst acc) \/
    exists raw row a, raw ∈ l /\ as_dict raw = Some row /\ upper (str_of (get row "symbol")) = s /\ nonempty s = true /\
      dabs (_decimal (get row "positionAmt")) = Ok a /\ dle a t = false.
Proof.
  revert acc; induction l as [|raw l IH]; simpl; intros acc H Hn.
  - injection H as <-. split; [done|]. intros s. split; [auto|]. intros [|(raw & _ & _ & Hin & _)]; [done|set_solver].
  - apply res_bind_Ok in H as (acc1 & H1 & H). apply add_position_keys in H1 as [Hn1 K1]; [|done].
    apply IH in H as [Hn2 K2]; [|done]. split; [done|]. intros s. rewrite K2, K1.
    setoid_rewrite elem_of_cons. naive_solver.
Qed.

Lemma position_map_keys rows t d dup : _position_map rows t = Ok (d, dup) ->
  NoDup (dict_keys d) /\ forall s, s ∈ dict_keys d <-> open_exposure rows t s.
Proof.
  unfold _position_map, open_exposure. destruct (as_list rows) as [l|].
  - intros H. apply position_fold_keys in H as [Hn K]; [|constructor]. split; [done|]. intros s. rewrite K. simpl.
    split; [intros [|]; [set_solver|naive_solver]|naive_solver].
  - intros H. injection H as <- <-. split; [constructor|]. intros s. simpl. split; [set_solver|naive_solver].
Qed.

Lemma dict_update_keys {V} (a b : dict V) : NoDup (dict_keys a) ->
  NoDup (dict_keys (dict_update a b)) /\
  forall s, s ∈ dict_keys (dict_update a b) <-> s ∈ dict_keys a \/ s ∈ dict_keys b.
Proof.
  unfold dict_update. revert a; induction b as [|[k v] b IH]; simpl; intros a Hn.
  - split; [done|]. intros s. set_solver.
  - destruct (IH (dict_set a k v)) as [H1 H2]; [by apply dict_set_NoDup|]. split; [done|].
    intros s. rewrite H2, dict_keys_set. set_solver.
Qed.

Lemma dict_sorted_keys {V} (d : dict V) : map fst (dict_sorted d) ≡ₚ dict_keys d.
Proof. unfold dict_sorted, dict_keys. by rewrite sort_by_perm. Qed.

Lemma dict_has_keys {V} (d : dict V) k : dict_has d k = true <-> k ∈ dict_keys d.
Proof.
  unfold dict_has. destruct (dict_get d k) eqn:E; split; try done.
  - intros _. apply dict_get_elem in E. apply list_elem_of_fmap. by eexists (_, _).
  - by apply dict_get_None in E.
Qed.

Lemma local_map_NoDup lp : NoDup (dict_keys (_local_position_map lp)).
Proof.
  unfold _local_position_map, dict_of.
  apply (dict_update_keys [] (map _ _)). constructor.
Qed.

Lemma get_none_iff d k : is_none (get d k) = true <-> get d k = VNone.
Proof. by destruct (get d k). Qed.

Lemma issue_if_nil b i : issue_if b i = [] <-> b = false.
Proof. by destruct b. Qed.

Lemma ready_clean snapshot lp pending o r raised : reconciled snapshot lp pending o r raised ->
  (ready r = true <-> raised = []) /\ (issues r = [] <-> raised = []).
Proof.
  intros H. pose proof (rc_issues _ _ _ _ _ _ H) as Ei. pose proof (sort_by_perm (fun a b => tuple_leb (issue_key a) (issue_key b)) raised) as Hp.
  assert (issues r = [] <-> raised = []) as Hi.
  { rewrite Ei. split; [|by intros ->]. intros E. rewrite E in Hp. by apply Permutation_nil_l in Hp. }
  split; [|done]. rewrite (rc_ready _ _ _ _ _ _ H), (rc_complete _ _ _ _ _ _ H). split.
  - intros E. apply andb_true_iff in E as [_ E]. apply negb_true_iff in E. apply Hi.
    destruct (issues r) as [|i l] eqn:El; [done|]. exfalso.
    assert (i ∈ raised) as Hin by (rewrite <- Hp, <- Ei; set_solver).
    pose proof (rc_blocking _ _ _ _ _ _ H) as Hb. unfold all_blocking in Hb. rewrite Forall_forall in Hb.
    simpl in E. by rewrite (Hb i Hin) in E.
  - intros ->. rewrite (proj2 Hi) by done. done.
Qed.

(** ** What the snapshot holds

    The open orders and the reported positions, named as the exchange names them. *)

(** An open order of one of the three venues. *)
Definition open_order (snapshot : dict pyval) (venue : string) (row : dict pyval) : Prop :=
  exists l raw, raw ∈ l /\ as_dict raw = Some row /\
    (venue = "usdt_futures" /\ as_list (get snapshot "futures_open_orders") = Some l \/
     venue = "spot" /\ as_list (get snapshot "spot_open_orders") = Some l \/
     venue = "cross_margin" /\ as_list (get snapshot "margin_open_orders") = Some l).

(** A local position that is not closed. *)
Definition managed (lp : list (dict pyval)) (s : string) (local : dict pyval) : Prop :=
  local ∈ lp /\ upper (str_of (get local "symbol")) = s /\ nonempty (strip (str_of (get local "symbol"))) = true /\
  upper (py_str (py_or (get local "status") (VStr "OPEN"))) <> "CLOSED".

(** An order of the bot that a pending intent or a local position accounts for. *)
Definition accounted (lp pending : list (dict pyval)) (prefix : string) (row : dict pyval) : Prop :=
  let s := upper (str_of (get row "symbol")) in
  is_bot_client_order_id (VStr (order_client_id row)) prefix = true /\
  ((exists intent, intent ∈ pending /\ strip (str_of (get intent "client_order_id")) = order_client_id row) \/
   (exists intent, intent ∈ pending /\ upper (str_of (get intent "symbol")) = s) \/
   exists local, managed lp s local).

(** An endpoint reports the quantity [q], more than the tolerance, in the row of a symbol. *)
Definition reports (rows : pyval) (t : dec) (row : dict pyval) (s : string) (q : dec) : Prop :=
  exists l raw, as_list rows = Some l /\ raw ∈ l /\ as_dict raw = Some row /\
    upper (str_of (get row "symbol")) = s /\ nonempty s = true /\
    dabs (_decimal (get row "positionAmt")) = Ok q /\ dle q t = false.

(** A local position in the direction and quantity of an exchange row. *)
Definition explained (lp : list (dict pyval)) (t : dec) (s : string) (row : dict pyval) (q : dec) : Prop :=
  exists local, managed lp s local /\
    local_direction local = _direction (_decimal (get row "positionAmt")) (get row "positionSide") /\
    close (_decimal (get local "qty")) q t.

Lemma open_order_raw snapshot venue row : open_order snapshot venue row -> (venue, row) ∈ raw_orders snapshot.
Proof.
  intros (l & raw & Hin & Hd & H). unfold raw_orders. apply list_elem_of_In, in_flat_map.
  assert (forall v : string, (v, row) ∈ omap (fun raw => (fun row => (v, row)) <$> as_dict raw) l) as Hm.
  { intros v. apply list_elem_of_omap. exists raw. split; [done|]. by rewrite Hd. }
  unfold order_venues. destruct H as [[-> H]|[[-> H]|[-> H]]];
    [exists ("usdt_futures", "futures_open_orders")|exists ("spot", "spot_open_orders")|exists ("cross_margin", "margin_open_orders")];
    (split; [simpl; auto|cbv iota; rewrite H; apply list_elem_of_In, Hm]).
Qed.

(** An index of rows under a key. *)
Definition indexed (f : dict pyval -> string) (d : dict (list (dict pyval))) (l : list (dict pyval)) : Prop :=
  forall k i, i ∈ list_or_nil d k -> i ∈ l /\ f i = k.

Lemma indexed_grow f d l i : indexed f d l -> indexed f d (l ++ [i]).
Proof. intros H k j Hj. destruct (H k j Hj) as [H1 H2]. set_solver. Qed.

Lemma indexed_append f d l i : indexed f d l -> indexed f (append_to d (f i) i) (l ++ [i]).
Proof.
  intros H k j. unfold list_or_nil, append_to. rewrite dict_get_set. destruct (String.eqb_spec k (f i)) as [->|].
  - destruct (dict_get d (f i)) as [x|] eqn:E.
    + intros [Hj|Hj]%elem_of_app; [|set_solver]. destruct (H (f i) j) as [H1 H2]; [by unfold list_or_nil; rewrite E|]. set_solver.
    + intros ->%list_elem_of_singleton. set_solver.
  - intros Hj. by apply (indexed_grow f d l i H).
Qed.

Lemma index_intents_spec pending :
  indexed (fun i => upper (str_of (get i "symbol"))) (fst (index_intents pending)) pending /\
  indexed (fun i => strip (str_of (get i "client_order_id"))) (snd (index_intents pending)) pending.
Proof.
  induction pending as [|i l IH] using rev_ind; [by split; intros k j Hj; apply elem_of_nil in Hj|].
  unfold index_intents in *. rewrite fold_left_app. destruct (fold_left _ l _) as [bs bc]. simpl in *. destruct IH as [I1 I2].
  split; [destruct (nonempty (upper _))|destruct (nonempty (strip _))];
    (by apply indexed_grow) || (by apply (indexed_append (fun i => upper (str_of (get i "symbol"))))) ||
    (by apply (indexed_append (fun i => strip (str_of (get i "client_order_id"))))).
Qed.

Lemma elem_of_dict_of {V} (l : list (string * V)) kv : kv ∈ dict_of l -> kv ∈ l.
Proof.
  unfold dict_of. assert (forall d, kv ∈ fold_left (fun d kv => dict_set d (fst kv) (snd kv)) l d -> kv ∈ d \/ kv ∈ l) as H.
  { induction l as [|[k v] l IH]; simpl; intros d Hd; [by left|]. destruct (IH _ Hd) as [H|H]; [|set_solver].
    destruct kv as [k' v']. apply elem_of_dict_set in H as [[-> ->]|H]; set_solver. }
  intros [Hd|Hd]%H; [by apply elem_of_nil in Hd|done].
Qed.

Lemma local_map_managed lp s local : dict_get (_local_position_map lp) s = Some local -> managed lp s local.
Proof.
  intros H%dict_get_elem%elem_of_dict_of. apply list_elem_of_fmap in H as (row & [= -> ->] & H).
  apply elem_of_filter_bool in H as [Hin H]. apply andb_true_iff in H as [H1 H2]. apply negb_true_iff, String.eqb_neq in H2. done.
Qed.

Lemma dict_of_keys {V} (l : list (string * V)) : forall k v, (k, v) ∈ l -> k ∈ dict_keys (dict_of l).
Proof.
  intros k v Hin. unfold dict_of. assert (NoDup (dict_keys (@nil (string * V)))) as Hn by constructor.
  apply (dict_update_keys [] l Hn). right. apply list_elem_of_fmap. by exists (k, v).
Qed.

Lemma managed_local_map lp s local : managed lp s local -> s ∈ dict_keys (_local_position_map lp).
Proof.
  intros (Hin & <- & Hn & Hc). apply (dict_of_keys _ _ local), list_elem_of_fmap. exists local. split; [done|].
  apply elem_of_filter_bool. split; [done|]. apply andb_true_iff. split; [done|]. by apply negb_true_iff, String.eqb_neq.
Qed.

Lemma classify_order_accounted lp pending bs bc prefix venue raw : index_intents pending = (bs, bc) ->
  snd (classify_order (_local_position_map lp) bs bc prefix venue raw) = [] -> accounted lp pending prefix raw.
Proof.
  intros E. destruct (index_intents_spec pending) as [I1 I2]. rewrite E in I1, I2. simpl in I1, I2.
  unfold classify_order, accounted. destruct (is_bot_client_order_id _ _); [|by destruct (nonempty _)]. intros H. split; [done|].
  destruct (list_or_nil bc (order_client_id raw)) as [|i l] eqn:Ec.
  2:{ left. exists i. apply (I2 (order_client_id raw)). rewrite Ec. set_solver. }
  right. destruct (list_or_nil bs (upper (str_of (get raw "symbol")))) as [|i l] eqn:Es.
  2:{ left. exists i. apply (I1 (upper (str_of (get raw "symbol")))). rewrite Es. set_solver. }
  right. simpl in H. unfold dict_has in H. destruct (dict_get _ _) as [local|] eqn:El; [|done]. exists local. by apply local_map_managed.
Qed.

Lemma classify_orders_accounted snapshot lp pending prefix venue row :
  snd (_classify_orders snapshot (_local_position_map lp) pending prefix) = [] -> open_order snapshot venue row ->
  accounted lp pending prefix row.
Proof.
  unfold _classify_orders. destruct (index_intents pending) as [bs bc] eqn:E. cbn [snd]. intros H Hin%open_order_raw.
  apply (classify_order_accounted lp pending bs bc prefix venue row E). rewrite flat_map_concat_map, map_map in H.
  destruct (snd (classify_order _ _ _ _ _ _)) as [|i l] eqn:Ei; [done|exfalso].
  assert (i ∈ concat (map (fun x => snd (let '(venue, raw) := x in classify_order (_local_position_map lp) bs bc prefix venue raw)) (raw_orders snapshot))) as Hi.
  { apply list_elem_of_In, in_concat. exists (i :: l). split; [|by left]. rewrite <- Ei. apply in_map_iff. exists (venue, row). split; [done|by apply list_elem_of_In]. }
  rewrite H in Hi. by apply elem_of_nil in Hi.
Qed.

Lemma listed_order snapshot prefix venue row os : Forall2 (order_matches prefix) (raw_orders snapshot) os -> open_order snapshot venue row ->
  exists x, x ∈ os /\ o_venue x = venue /\ o_client_order_id x = order_client_id row.
Proof.
  intros H Hin%open_order_raw. apply list_elem_of_lookup in Hin as (n & Hn).
  destruct (Forall2_lookup_l _ _ _ _ _ H Hn) as (x & Hx & (H1 & H2 & _)). exists x. split; [by eapply list_elem_of_lookup_2|done].
Qed.

(** Without duplicates, the map of an endpoint holds every row it reports. *)
Lemma position_fold_reports t l acc d : res_fold (add_position t) acc l = Ok (d, []) ->
  snd acc = [] /\ (forall s r, dict_get (fst acc) s = Some r -> dict_get d s = Some r) /\
  forall raw row q, raw ∈ l -> as_dict raw = Some row -> nonempty (upper (str_of (get row "symbol"))) = true ->
    dabs (_decimal (get row "positionAmt")) = Ok q -> dle q t = false -> dict_get d (upper (str_of (get row "symbol"))) = Some row.
Proof.
  revert acc. induction l as [|raw l IH]; simpl; intros [res dup] H.
  - injection H as -> ->. split; [done|]. split; [done|]. intros raw row q Hin. by apply elem_of_nil in Hin.
  - apply res_bind_Ok in H as ([res1 dup1] & H1 & H). destruct (IH _ H) as (E & K & R). simpl in E, K. subst dup1. clear IH H.
    unfold add_position in H1. destruct (as_dict raw) as [row0|] eqn:Ed.
    2:{ injection H1 as -> ->. split; [done|]. split; [done|]. intros raw' row q [->|Hin]%elem_of_cons; [congruence|by apply R]. }
    destruct (nonempty _) eqn:Es; simpl in H1.
    2:{ injection H1 as -> ->. split; [done|]. split; [done|]. intros raw' row q [->|Hin]%elem_of_cons; [congruence|by apply R]. }
    apply res_bind_Ok in H1 as (a & Ha & H1). destruct (dle a t) eqn:Ea.
    { injection H1 as -> ->. split; [done|]. split; [done|]. intros raw' row q [->|Hin]%elem_of_cons; [congruence|by apply R]. }
    destruct (dict_has res _) eqn:Eh; injection H1 as E1 E2; [by destruct dup|]. subst res1. split; [done|]. split.
    + intros s r Hs. apply K. rewrite dict_get_set. destruct (String.eqb_spec s (upper (str_of (get row0 "symbol")))) as [->|]; [|done].
      simpl in Hs. unfold dict_has in Eh. by rewrite Hs in Eh.
    + intros raw' row q [->|Hin]%elem_of_cons; [|by apply R]. rewrite Ed. intros [= <-] _ _ _. apply K. by rewrite dict_get_set, String.eqb_refl.
Qed.

Lemma position_map_reports rows t d row s q : _position_map rows t = Ok (d, []) -> reports rows t row s q -> dict_get d s = Some row.
Proof.
  unfold _position_map. intros H (l & raw & Hl & Hin & Hd & <- & Hn & Hq & Ht). rewrite Hl in H.
  apply position_fold_reports in H as (_ & _ & R). by eapply R.
Qed.

Lemma position_map_row rows t d dup s : _position_map rows t = Ok (d, dup) -> s ∈ dict_keys d -> exists row q, reports rows t row s q.
Proof. intros H Hs. apply position_map_keys in H as [_ K]. apply K in Hs as (l & raw & row & a & H). by exists row, a, l, raw. Qed.

Lemma dict_update_get {V} (a b : dict V) s v : dict_get b s = Some v -> NoDup (dict_keys b) -> dict_get (dict_update a b) s = Some v.
Proof.
  unfold dict_update. revert a. induction b as [|[k w] b IH]; [done|]. intros a. simpl. intros H [Hk Hn]%NoDup_cons.
  destruct (String.eqb_spec s k) as [->|]; [|by apply IH]. injection H as ->.
  assert (forall d, dict_get d k = Some v -> dict_get (fold_left (fun d kv => dict_set d (fst kv) (snd kv)) b d) k = Some v) as Hkeep.
  { clear IH Hn. induction b as [|[k' w'] b IH]; [done|]. intros d Hd. simpl in Hk |- *. apply not_elem_of_cons in Hk as [Hk1 Hk2].
    apply (IH Hk2). rewrite dict_get_set. by destruct (String.eqb_spec k k'). }
  apply Hkeep. by rewrite dict_get_set, String.eqb_refl.
Qed.

Lemma res_map_list_apply {A B} (f : A -> result B) l ys x : res_map_list f l = Ok ys -> x ∈ l -> exists y, f x = Ok y /\ y ∈ ys.
Proof.
  revert ys; induction l as [|z l IH]; simpl; intros ys H Hx; [by apply elem_of_nil in Hx|].
  apply res_bind_Ok in H as (y & Hy & H). apply res_bind_Ok in H as (ys' & Hys & H). injection H as <-.
  apply elem_of_cons in Hx as [->|Hx]; [exists y; set_solver|]. destruct (IH _ Hys Hx) as (y' & H1 & H2). exists y'. set_solver.
Qed.

(** The two futures endpoints agree on every symbol that either reports. *)
Lemma endpoints_agree snapshot a rm am t s : as_dict (get snapshot "futures_account") = Some a -> dict_has a "positions" = true ->
  endpoint_mismatch_issues snapshot rm am t = Ok [] -> s ∈ dict_keys rm \/ s ∈ dict_keys am ->
  exists risk account, dict_get rm s = Some risk /\ dict_get am s = Some account /\
    close (_decimal (get risk "positionAmt")) (_decimal (get account "positionAmt")) t.
Proof.
  intros Ha Hh H Hs. unfold endpoint_mismatch_issues, positions_projection in H. rewrite Ha, Hh in H.
  apply res_bind_Ok in H as (ys & Hys & H). injection H as Hc.
  destruct (res_map_list_apply _ _ _ s Hys) as (y & Hy & Hin).
  { rewrite sort_strings_perm. apply elem_of_dedupe. by apply elem_of_app. }
  assert (y = []) as ->.
  { destruct y as [|i y]; [done|exfalso]. assert (i ∈ concat ys) as Hi; [|rewrite Hc in Hi; by apply elem_of_nil in Hi].
    apply list_elem_of_In, in_concat. exists (i :: y). split; [by apply list_elem_of_In|by left]. }
  unfold endpoint_mismatch in Hy. destruct (dict_get rm s) as [risk|]; [|done]. destruct (dict_get am s) as [account|]; [|done].
  apply res_bind_Ok in Hy as (gap & Hg & Hy). apply res_bind_Ok in Hy as (m & Hm & Hy). injection Hy as Hy.
  apply issue_if_nil in Hy. unfold dgt in Hy. exists risk, account. do 2 (split; [done|]). exists gap, m. split; [done|]. split; [done|].
  apply dle_spec. by apply dlt_false in Hy.
Qed.

(** What a ready report says of the positions of the snapshot. *)
Record positions_explained (snapshot : dict pyval) (lp : list (dict pyval)) (t : dec) : Prop := {
  pe_risk : forall row s q, reports (get snapshot "position_risk") t row s q -> explained lp t s row q;
  pe_account : forall a row s q, as_dict (get snapshot "futures_account") = Some a -> reports (get a "positions") t row s q ->
    exists risk q', reports (get snapshot "position_risk") t risk s q' /\ explained lp t s risk q' /\
      close (_decimal (get risk "positionAmt")) (_decimal (get row "positionAmt")) t;
  pe_local : forall s local, managed lp s local -> exists row q, reports (get snapshot "position_risk") t row s q
}.

(** ** Properties *)

(** The report lists exactly the orders of the snapshot, in
    order, and the bot may cancel one exactly when its client id is in the bot
    namespace, whatever its symbol, side or quantity. *)
Theorem cancellation_ownership snapshot lp pending prices o clock r :
  reconcile_account_snapshot snapshot lp pending prices o clock = Ok r ->
  Forall2 (order_matches (bot_prefix o)) (raw_orders snapshot) (orders r) /\
  map o_client_order_id (report_bot_owned_orders r) =
    List.filter (fun id => is_bot_client_order_id (VStr id) (bot_prefix o))
      (map (fun vr => order_client_id (snd vr)) (raw_orders snapshot)).
Proof.
  intros H. apply reconcile_inv in H as [raised H]. unfold report_bot_owned_orders.
  rewrite (rc_orders _ _ _ _ _ _ H). pose proof (classify_orders_fst snapshot (_local_position_map lp) pending (bot_prefix o)) as F.
  split; [exact F|]. induction F as [|vr x l l' (H1 & H2 & H3) F IH]; [done|]. cbn [map List.filter].
  rewrite H3. destruct (is_bot_client_order_id _ _); cbn [map]; by rewrite ?H2, IH.
Qed.

(** An identifier the bot makes is always recognised as its own, and in
    the default namespace one can always be made, for any leg, intent and nonce. *)
Theorem made_ids_are_owned leg intent nonce :
  (forall prefix v, make_bot_client_order_id leg intent nonce prefix = Ok v ->
     is_bot_client_order_id (VStr v) prefix = true /\ (String.length v <= BOT_CLIENT_ORDER_ID_MAX_LENGTH)%nat) /\
  exists v, make_bot_client_order_id leg intent nonce BOT_CLIENT_ORDER_PREFIX = Ok v.
Proof.
  split; [|apply make_default_ok]. intros prefix v H. apply make_id_inv in H as [H1 H2].
  split; [by apply re_is_bot|]. unfold client_order_id_re in H2. bool_props. by apply Nat.leb_le.
Qed.

Lemma ready_positions snapshot lp pending o r : reconciled snapshot lp pending o r [] ->
  positions_explained snapshot lp (_decimal (quantity_tolerance o)).
Proof.
  intros H. set (t := _decimal (quantity_tolerance o)).
  destruct (rc_positions _ _ _ _ _ _ H) as (rm & am & d1 & d2 & ex & Hrm & Ham & _ & Hlo & Hc). fold t in Hrm, Ham, Hc.
  destruct (Hc eq_refl) as (Hlo' & _ & Hcov & _ & _ & -> & -> & Hmm & ->). clear Hc.
  destruct (position_map_keys _ _ _ _ Hrm) as [Nr Kr]. destruct (position_map_keys _ _ _ _ Ham) as [Na _].
  destruct (rc_raised _ _ _ _ _ _ H eq_refl) as (_ & Hend & _).
  assert (forall row s q, reports (get snapshot "position_risk") t row s q -> explained lp t s row q) as Hrisk.
  { intros row s q Hrep. pose proof (position_map_reports _ _ _ _ _ _ Hrm Hrep) as Hg.
    pose proof (dict_update_get am rm s row Hg Nr) as Hu%dict_get_elem. rewrite Forall_forall in Hcov.
    destruct (Hcov (s, row)) as (q' & local & Hq & Hl & Hd & Hcl); [by apply elem_of_sort_by|]. cbn [fst snd] in *.
    destruct Hrep as (_ & _ & _ & _ & _ & _ & _ & Hq' & _). assert (q' = q) as -> by congruence.
    exists local. split; [by apply local_map_managed|done]. }
  assert (forall s, s ∈ dict_keys am -> exists risk account, dict_get rm s = Some risk /\ dict_get am s = Some account /\
    close (_decimal (get risk "positionAmt")) (_decimal (get account "positionAmt")) t) as Hboth.
  { intros s Hs. pose proof (proj1 (proj2 (position_map_keys _ _ _ _ Ham) s) Hs) as (l & raw & row & a & Hl & _).
    unfold account_positions in Hl. destruct (as_dict (get snapshot "futures_account")) as [f|] eqn:Ef; [|done].
    apply (endpoints_agree snapshot f rm am t s Ef); [|done|by right]. unfold dict_has. unfold get, get_or in Hl. by destruct (dict_get f "positions"). }
  constructor; [done| |].
  - intros a row s q Ha Hrep. assert (account_positions snapshot = get a "positions") as Eap by (unfold account_positions; by rewrite Ha).
    rewrite <- Eap in Hrep. pose proof (position_map_reports _ _ _ _ _ _ Ham Hrep) as Hg.
    destruct (Hboth s) as (risk & account & H1 & H2 & H3); [apply dict_get_elem in Hg; apply list_elem_of_fmap; by exists (s, row)|].
    assert (account = row) as -> by congruence.
    destruct (position_map_row _ _ _ _ s Hrm) as (risk' & q' & Hrep'); [apply dict_get_elem in H1; apply list_elem_of_fmap; by exists (s, risk)|].
    pose proof (position_map_reports _ _ _ _ _ _ Hrm Hrep') as Hg'. assert (risk' = risk) as -> by congruence. exists risk, q'. auto.
  - intros s local Hm%managed_local_map. apply (position_map_row _ _ _ _ s Hrm).
    assert (s ∈ dict_keys (dict_update am rm)) as Hin.
    { apply dict_has_keys. destruct (dict_has (dict_update am rm) s) eqn:Eh; [done|exfalso].
      assert (s ∈ sort_strings (List.filter (fun s => negb (dict_has (dict_update am rm) s)) (dict_keys (_local_position_map lp)))) as Hs.
      { rewrite sort_strings_perm. apply elem_of_filter_bool. by rewrite Eh. }
      rewrite Hlo' in Hs. by apply elem_of_nil in Hs. }
    apply (dict_update_keys am rm Na) in Hin as [Hin|Hin]; [|done]. destruct (Hboth s Hin) as (risk & _ & Hr & _).
    apply dict_get_elem in Hr. apply list_elem_of_fmap. by exists (s, risk).
Qed.

(** C30: the account is ready exactly when no issue was found. Then every
    required endpoint answered, margin is available or disabled and no endpoint failed
    (funding income apart). Every open order of the futures, spot and margin lists of the snapshot is in the
    report, carries a client id of the bot and belongs to a pending intent or a local position.
    Every position of the snapshot whose amount, as the code reads it, exceeds the tolerance has a local
    position that is not closed, in its direction and of its quantity within the tolerance; the two futures
    endpoints agree on it; and every such local position is reported by the exchange. An
    amount that is not a finite number is read as zero. *)
Theorem ready_means_proven snapshot lp pending prices o clock r :
  reconcile_account_snapshot snapshot lp pending prices o clock = Ok r ->
  (ready r = true <-> issues r = []) /\
  (ready r = true ->
     (forall k, k ∈ ["futures_account"; "position_risk"; "futures_open_orders"; "spot_account"; "spot_open_orders"] ->
        get snapshot k <> VNone) /\
     status_of snapshot "margin_account_status" ∈ ["available"; "disabled"] /\
     status_of snapshot "margin_open_orders_status" ∈ ["available"; "disabled"] /\
     snapshot_error_issues snapshot = Ok [] /\
     (forall venue row, open_order snapshot venue row -> accounted lp pending (bot_prefix o) row /\
        exists x, x ∈ orders r /\ o_venue x = venue /\ o_client_order_id x = order_client_id row) /\
     Forall (fun x => o_ownership x = BOT) (orders r) /\
     local_only_symbols r = [] /\ exchange_only_symbols r = [] /\ mismatched_symbols r = [] /\
     positions_explained snapshot lp (_decimal (quantity_tolerance o)) /\
     Forall (agrees (_local_position_map lp) (_decimal (quantity_tolerance o))) (positions r)).
Proof.
  intros H. apply reconcile_inv in H as [raised H]. destruct (ready_clean _ _ _ _ _ _ H) as [Hr Hi].
  split; [by rewrite Hr, Hi|]. intros E. apply Hr in E. subst raised.
  destruct (rc_raised _ _ _ _ _ _ H eq_refl) as (_ & Hend & Hmar & Herr & Hord).
  pose proof (ready_positions _ _ _ _ _ H) as Hpos.
  destruct (rc_positions _ _ _ _ _ _ H) as (rm & am & d1 & d2 & ex & _ & _ & _ & Hlo & Hc).
  destruct (Hc eq_refl) as (Hlo' & Hag & _ & Heo & Hmm & _).
  apply app_eq_nil in Hend as [Hend _]. rewrite flat_map_nil in Hend.
  apply app_eq_nil in Hmar as [M1 M2]. apply issue_if_nil, negb_false_iff, str_in_spec in M1, M2.
  split.
  { intros k Hk En. apply Hend, issue_if_nil in Hk. by rewrite (proj2 (get_none_iff _ _) En) in Hk. }
  do 2 (split; [done|]). split; [done|]. split.
  { intros venue row Ho. split; [by eapply classify_orders_accounted|]. rewrite (rc_orders _ _ _ _ _ _ H).
    eapply listed_order; [apply classify_orders_fst|done]. }
  split; [|by rewrite Hlo, Hlo']. rewrite (rc_orders _ _ _ _ _ _ H). by apply classify_orders_clean.
Qed.

(** The classified positions are exactly the symbols with an open
    exposure on either futures endpoint and those of the durable local projection,
    each once. *)
Theorem every_exposure_classified snapshot lp pending prices o clock r :
  reconcile_account_snapshot snapshot lp pending prices o clock = Ok r ->
  NoDup (map p_symbol (positions r)) /\
  let t := _decimal (quantity_tolerance o) in
  forall s, s ∈ map p_symbol (positions r) <->
    open_exposure (get snapshot "position_risk") t s \/ open_exposure (account_positions snapshot) t s \/
    s ∈ dict_keys (_local_position_map lp).
Proof.
  intros H. apply reconcile_inv in H as [raised H].
  destruct (rc_positions _ _ _ _ _ _ H) as (rm & am & d1 & d2 & ex & Hrm & Ham & Hp & _ & _).
  apply position_map_keys in Hrm as [Nr Kr], Ham as [Na Ka].
  destruct (dict_update_keys am rm Na) as [Nu Ku]. pose proof (local_map_NoDup lp) as Nl.
  rewrite Hp. split.
  - apply NoDup_app. split; [by rewrite dict_sorted_keys|]. split.
    + intros s. rewrite dict_sorted_keys, sort_strings_perm, elem_of_filter_bool, negb_true_iff, <- not_true_iff_false, dict_has_keys.
      naive_solver.
    + rewrite sort_strings_perm. by apply NoDup_filter_bool.
  - intros t s. rewrite elem_of_app, dict_sorted_keys, sort_strings_perm, elem_of_filter_bool, negb_true_iff,
      <- not_true_iff_false, dict_has_keys, Ku, Kr, Ka. fold t. destruct (decide (s ∈ dict_keys am)), (decide (s ∈ dict_keys rm)).
    all: rewrite Ka in *; rewrite Kr in *; tauto.
Qed.

(** ** A concrete account

    A hedged position with a bot order linked to it, all endpoints answering. *)
Definition ex_row (symbol amount : string) : pyval :=
  VDict [("symbol", VStr symbol); ("positionAmt", VStr amount); ("positionSide", VStr "BOTH")].
Definition ex_snapshot (amount : string) (futures_orders : list pyval) (spot : list pyval) : dict pyval :=
  [("futures_account", VDict [("positions", VList [ex_row "BTCUSDT" amount])]);
   ("position_risk", VList [ex_row "BTCUSDT" amount; ex_row "ETHUSDT" "0"]);
   ("futures_open_orders", VList futures_orders);
   ("spot_account", VDict [("uid", VInt 7); ("balances", VList spot)]);
   ("spot_open_orders", VList []);
   ("margin_account_status", VStr "disabled");
   ("margin_open_orders_status", VStr "DISABLED")].
Definition ex_bot_order : pyval :=
  VDict [("symbol", VStr "BTCUSDT"); ("clientOrderId", VStr "bngs_perp_00"); ("orderId", VInt 12); ("status", VStr "NEW")].
Definition ex_foreign_order : pyval :=
  VDict [("symbol", VStr "BTCUSDT"); ("clientOrderId", VStr "web_00"); ("orderId", VInt 13); ("status", VStr "NEW")].
Definition ex_btc : pyval := VDict [("asset", VStr "BTC"); ("free", VStr "0.6"); ("locked", VStr "0.4")].
Definition ex_local : dict pyval :=
  [("symbol", VStr "btcusdt"); ("qty", VStr "1.0"); ("direction", VStr "long"); ("status", VStr "OPEN")].

Definition ex_run (amount : string) (futures_orders spot : list pyval) (local : list (dict pyval))
    : result AccountReconciliationReport :=
  reconcile_account_snapshot (ex_snapshot amount futures_orders spot) local [] [] default_options "t0".

Definition the_report (x : result AccountReconciliationReport) : AccountReconciliationReport :=
  match x with
  | Ok r => r
  | Err _ => Build_AccountReconciliationReport "" false false [] [] [] [] [] [] [] []
  end.

Definition ex_good : AccountReconciliationReport := the_report (ex_run "-1.0" [ex_bot_order] [ex_btc] [ex_local]).
Definition ex_shared : AccountReconciliationReport :=
  the_report (ex_run "-1.0" [ex_bot_order; ex_foreign_order] [ex_btc] [ex_local]).

Lemma ex_good_run :
  reconcile_account_snapshot (ex_snapshot "-1.0" [ex_bot_order] [ex_btc]) [ex_local] [] [] default_options "t0" = Ok ex_good.
Proof. vm_compute. reflexivity. Qed.
Lemma ex_shared_run :
  reconcile_account_snapshot (ex_snapshot "-1.0" [ex_bot_order; ex_foreign_order] [ex_btc]) [ex_local] [] []
    default_options "t0" = Ok ex_shared.
Proof. vm_compute. reflexivity. Qed.

Lemma cancellation_ownership_witness :
  map o_client_order_id (report_bot_owned_orders ex_shared) = ["bngs_perp_00"].
Proof.
  destruct (cancellation_ownership _ _ _ _ _ _ _ ex_shared_run) as [_ H]. rewrite H. vm_compute. reflexivity.
Defined.

Lemma ready_means_proven_witness :
  ready ex_good = true /\ issues ex_good = [] /\ map i_code (issues ex_shared) = ["unrelated_open_order"] /\
  positions_explained (ex_snapshot "-1.0" [ex_bot_order] [ex_btc]) [ex_local] (dlit "1E-9") /\
  Forall (agrees (_local_position_map [ex_local]) (dlit "1E-9")) (positions ex_good).
Proof.
  assert (ready ex_good = true) as Hr by (vm_compute; reflexivity).
  destruct (ready_means_proven _ _ _ _ _ _ _ ex_good_run) as [H1 H2].
  split; [exact Hr|]. split; [apply H1, Hr|]. split; [vm_compute; reflexivity|].
  destruct (H2 Hr) as (_ & _ & _ & _ & _ & _ & _ & _ & _ & H). exact H.
Defined.

Lemma every_exposure_classified_witness : NoDup (map p_symbol (positions ex_good)).
Proof. apply (every_exposure_classified _ _ _ _ _ _ _ ex_good_run). Defined.

(** An amount the reader cannot parse counts as zero on both endpoints: the position
    is then invisible and the account is declared ready. *)
Lemma unreadable_amount_is_ready :
  exists r, ex_run "n/a" [] [] [] = Ok r /\ ready r = true /\ positions r = [].
Proof. eexists. split; [vm_compute; reflexivity|]. split; reflexivity. Qed.

(** A spot account body without balances is not an incomplete endpoint. *)
Lemma missing_balances_is_complete :
  let s := dict_set (ex_snapshot "0" [] []) "spot_account" (VDict [("code", VInt (-1003))]) in
  exists r, reconcile_account_snapshot s [] [] [] default_options "t0" = Ok r /\ ready r = true.
Proof. eexists. split; [vm_compute; reflexivity|]. reflexivity. Qed.
