(* ===== verification/Treasury.v ===== *)
(** * Reservation-aware treasury proposals

    Model of [src/bongus/portfolio/treasury.py]: a proposal to move collateral
    between the spot and the futures wallet, computed from the capital that is free
    after all reservations.  It calls [CapitalReservations.projection] for that
    capital and reads an [AccountReconciliation] report for the proof of ownership.
    The instant of the call is its ISO text. *)
From Stdlib Require Import ZArith Lia QArith Lqa Ascii.
From stdpp Require Import base list strings sets.
From S2P Require Import Prelude PyDecimal PyDecimalFacts PyFloat PyValue CapitalReservations AccountReconciliation.
Open Scope Z_scope.

Definition _decimal (value : pyval) (name : string) : result dec :=
  let! n := res_catch (Decimal_of value) numeric_errors (raise ValueError (name +:+ " must be a finite decimal")) in
  match n with
  | DFin d => if dlt d d0 then raise ValueError (name +:+ " must be a finite non-negative decimal") else Ok d
  | _ => raise ValueError (name +:+ " must be a finite non-negative decimal")
  end.

Record TreasuryPolicy := {
  target_spot_buffer_usd : pyval;
  target_futures_buffer_usd : pyval;
  minimum_transfer_usd : pyval;
  maximum_transfer_usd : pyval;
  proposal_only : bool
}.

Record TreasuryProposal := {
  proposal_id : string;
  direction : string;
  amount_usd : dec;
  created_at : string;
  executable : bool;
  reason_codes : list string;
  evidence : dict pyval
}.

(** The direction and the amount of a transfer, before the minimum. *)
Definition plan_transfer (spot_free futures_free target_spot target_futures maximum : dec)
    : result (string * dec * list string) :=
  let! s := dsub target_spot spot_free in
  let! f := dsub target_futures futures_free in
  let spot_shortfall := dmax d0 s in
  let futures_shortfall := dmax d0 f in
  if dgt futures_shortfall spot_shortfall && dgt spot_free target_spot then
    let! surplus := dsub spot_free target_spot in
    Ok ("spot_to_futures", dmin (dmin maximum futures_shortfall) surplus, [])
  else if dgt spot_shortfall futures_shortfall && dgt futures_free target_futures then
    let! surplus := dsub futures_free target_futures in
    Ok ("futures_to_spot", dmin (dmin maximum spot_shortfall) surplus, [])
  else Ok ("none", d0, ["buffers_balanced_or_no_unreserved_surplus"]).

Definition plan (blocked : bool) (spot_free futures_free target_spot target_futures minimum maximum : dec)
    : result (string * dec * list string) :=
  if blocked then Ok ("none", d0, [])
  else
    let! '(dir, amount, reasons) := plan_transfer spot_free futures_free target_spot target_futures maximum in
    if dlt amount minimum then Ok ("none", d0, reasons ++ ["transfer_below_minimum"])
    else Ok (dir, amount, reasons).

Definition proposal_evidence (p : CapitalProjection) (policy : ReservationPolicy) : dict pyval :=
  [("spot_free_after_all_reservations_usd", VStr (dec_str (entry_spot_cash_remaining_usd p)));
   ("futures_free_after_all_reservations_usd", VStr (dec_str (entry_futures_margin_remaining_usd p)));
   ("reserved_spot_cash_usd", VStr (dec_str (reserved_spot_cash_usd p)));
   ("reserved_futures_margin_usd", VStr (dec_str (reserved_futures_margin_usd p)));
   ("repair_reserve_usd", VStr (py_str (repair_reserve_usd policy)));
   ("exit_reserve_usd", VStr (py_str (exit_reserve_usd policy)));
   ("liquidation_buffer_usd", VStr (py_str (minimum_liquidation_buffer_usd policy)))].

Definition proposal_hash (dir : string) (amount : dec) (now_iso : string) (ev : dict pyval) : result string :=
  let! digest := json_sha256 false (VDict [
    ("direction", VStr dir); ("amount_usd", VStr (dec_str amount)); ("created_at", VStr now_iso);
    ("evidence", VDict ev)]) in
  Ok ("treasury-" +:+ str_take 20 digest).

Definition propose (book : book) (capital : CapitalState) (reservation_policy : ReservationPolicy)
    (policy : TreasuryPolicy) (reconciliation_matched critical_incident_active : bool) (now_iso : string)
    : result TreasuryProposal :=
  let! p := projection book capital reservation_policy in
  let! target_spot := _decimal (target_spot_buffer_usd policy) "target_spot_buffer_usd" in
  let! target_futures := _decimal (target_futures_buffer_usd policy) "target_futures_buffer_usd" in
  let! minimum := _decimal (minimum_transfer_usd policy) "minimum_transfer_usd" in
  let! maximum := _decimal (maximum_transfer_usd policy) "maximum_transfer_usd" in
  if dlt maximum minimum then raise ValueError "maximum transfer must not be below minimum transfer"
  else
    let blockers := reason_if (negb reconciliation_matched) "account_reconciliation_not_proven"
                    ++ reason_if critical_incident_active "critical_incident_active" in
    let! '(dir, amount, reasons) :=
      plan (match blockers with [] => false | _ => true end)
        (entry_spot_cash_remaining_usd p) (entry_futures_margin_remaining_usd p)
        target_spot target_futures minimum maximum in
    let ev := proposal_evidence p reservation_policy in
    let! id := proposal_hash dir amount now_iso ev in
    Ok {|
      proposal_id := id;
      direction := dir;
      amount_usd := amount;
      created_at := now_iso;
      executable := false;
      reason_codes := dedupe (blockers ++ reasons ++ reason_if (proposal_only policy) "proposal_only_policy");
      evidence := ev |}.

(** [str(b).lower()] *)
Definition bool_str (b : bool) : pyval := VStr (if b then "true" else "false").

Definition propose_from_reconciliation (book : book) (capital : CapitalState)
    (reservation_policy : ReservationPolicy) (policy : TreasuryPolicy)
    (reconciliation : AccountReconciliationReport) (critical_incident_active : bool) (now_iso : string)
    : result TreasuryProposal :=
  let! p := propose book capital reservation_policy policy
              (ready reconciliation && snapshot_complete reconciliation) critical_incident_active now_iso in
  let! fp := report_fingerprint reconciliation in
  let update := [
    ("reconciliation_fingerprint", VStr fp);
    ("reconciliation_ready", bool_str (ready reconciliation));
    ("reconciliation_snapshot_complete", bool_str (snapshot_complete reconciliation));
    ("bot_owned_open_order_count", VStr (int_str (Z.of_nat (length (report_bot_owned_orders reconciliation)))));
    ("unrelated_open_order_count", VStr (int_str (Z.of_nat (length (report_unrelated_orders reconciliation)))));
    ("blocking_issue_codes",
       VStr (str_join "," (sort_strings (dedupe (map i_code (blocking_issues reconciliation))))))] in
  Ok {|
    proposal_id := proposal_id p; direction := direction p; amount_usd := amount_usd p; created_at := created_at p;
    executable := executable p; reason_codes := reason_codes p; evidence := dict_update (evidence p) update |}.

Definition execute (_ : TreasuryProposal) : result unit :=
  raise RuntimeError
    "treasury execution is intentionally unavailable; proposals require a separately reviewed adapter".

(** ** Lemmas *)

Lemma _decimal_nonneg v name d : _decimal v name = Ok d -> (0 <= dval d)%Q.
Proof.
  unfold _decimal. intros H. apply res_bind_Ok in H as (n & _ & H). destruct n as [x| |]; try done.
  destruct (dlt x d0) eqn:E; [done|]. injection H as <-. dec_props. lra.
Qed.

(** What a planned transfer takes and where it goes. *)
Definition covered (source_free source_target dest_free dest_target maximum amount : dec) : Prop :=
  exists surplus shortfall, dsub source_free source_target = Ok surplus /\ dsub dest_target dest_free = Ok shortfall /\
    (dval source_target < dval source_free /\ dval amount <= dval surplus /\ dval amount <= dval shortfall /\
     dval amount <= dval maximum)%Q.

Lemma plan_transfer_spec sf ff ts tf mx dir amount rs :
  (0 <= dval mx)%Q -> plan_transfer sf ff ts tf mx = Ok (dir, amount, rs) ->
  (0 <= dval amount)%Q /\
  (dir = "none" /\ amount = d0 \/
   dir = "spot_to_futures" /\ covered sf ts ff tf mx amount \/
   dir = "futures_to_spot" /\ covered ff tf sf ts mx amount).
Proof.
  intros Hmx H. unfold plan_transfer in H. apply res_bind_Ok in H as (s & Hs & H). apply res_bind_Ok in H as (f & Hf & H).
  pose proof (dmax_spec d0 s) as (Ms & _ & Es). pose proof (dmax_spec d0 f) as (Mf & _ & Ef). rewrite dval_0 in Ms, Mf.
  destruct (dgt (dmax d0 f) (dmax d0 s) && dgt sf ts) eqn:E1.
  - bool_props. apply res_bind_Ok in H as (su & Hsu & H). injection H as <- <- _.
    pose proof (dmin_spec mx (dmax d0 f)) as (A1 & A2 & A3). pose proof (dmin_spec (dmin mx (dmax d0 f)) su) as (B1 & B2 & B3).
    dec_props. assert (dmax d0 f = f) as Ef' by (destruct Ef as [Ef|Ef]; [rewrite Ef, dval_0 in *; lra|done]).
    pose proof (rounds_nonneg _ _ (dsub_rounds _ _ _ Hsu)). rewrite Ef' in *. split.
    { destruct B3 as [-> | ->]; [destruct A3 as [-> | ->]; lra|]. lra. }
    right. left. split; [done|]. exists su, f. repeat split; try done; lra.
  - destruct (dgt (dmax d0 s) (dmax d0 f) && dgt ff tf) eqn:E2.
    + bool_props. apply res_bind_Ok in H as (su & Hsu & H). injection H as <- <- _.
      pose proof (dmin_spec mx (dmax d0 s)) as (A1 & A2 & A3). pose proof (dmin_spec (dmin mx (dmax d0 s)) su) as (B1 & B2 & B3).
      dec_props. assert (dmax d0 s = s) as Es' by (destruct Es as [Es|Es]; [rewrite Es, dval_0 in *; lra|done]).
      pose proof (rounds_nonneg _ _ (dsub_rounds _ _ _ Hsu)). rewrite Es' in *. split.
      { destruct B3 as [-> | ->]; [destruct A3 as [-> | ->]; lra|]. lra. }
      right. right. split; [done|]. exists su, s. repeat split; try done; lra.
    + injection H as <- <- _. rewrite dval_0. split; [lra|]. by left.
Qed.

Lemma propose_inv b capital rp policy matched incident now p :
  propose b capital rp policy matched incident now = Ok p ->
  exists pr ts tf mn mx rs, projection b capital rp = Ok pr /\
    _decimal (target_spot_buffer_usd policy) "target_spot_buffer_usd" = Ok ts /\
    _decimal (target_futures_buffer_usd policy) "target_futures_buffer_usd" = Ok tf /\
    _decimal (minimum_transfer_usd policy) "minimum_transfer_usd" = Ok mn /\
    _decimal (maximum_transfer_usd policy) "maximum_transfer_usd" = Ok mx /\
    plan (negb matched || incident) (entry_spot_cash_remaining_usd pr) (entry_futures_margin_remaining_usd pr)
      ts tf mn mx = Ok (direction p, amount_usd p, rs) /\ executable p = false /\
    (forall x, x ∈ reason_if (negb matched) "account_reconciliation_not_proven"
                   ++ reason_if incident "critical_incident_active" -> x ∈ reason_codes p).
Proof.
  unfold propose. intros H. apply res_bind_Ok in H as (pr & Hp & H). apply res_bind_Ok in H as (ts & Hts & H).
  apply res_bind_Ok in H as (tf & Htf & H). apply res_bind_Ok in H as (mn & Hmn & H).
  apply res_bind_Ok in H as (mx & Hmx & H). destruct (dlt mx mn); [done|].
  apply res_bind_Ok in H as ([[dir amount] rs] & Hpl & H). apply res_bind_Ok in H as (id & _ & H). injection H as <-.
  exists pr, ts, tf, mn, mx, rs. simpl. repeat (split; [done|]). split; [|split; [done|]].
  - rewrite <- Hpl. f_equal. by destruct matched, incident.
  - intros x Hx. rewrite elem_of_dedupe, elem_of_app. by left.
Qed.

Lemma executable_from b capital rp policy rec incident now p :
  propose_from_reconciliation b capital rp policy rec incident now = Ok p ->
  exists q, propose b capital rp policy (ready rec && snapshot_complete rec) incident now = Ok q /\
    direction p = direction q /\ amount_usd p = amount_usd q /\ executable p = executable q /\
    reason_codes p = reason_codes q.
Proof.
  unfold propose_from_reconciliation. intros H. apply res_bind_Ok in H as (q & Hq & H).
  apply res_bind_Ok in H as (fp & _ & H). injection H as <-. exists q. done.
Qed.

(** ** Properties *)

(** C40: a proposal is never executable by itself; a transfer it proposes
    is between the minimum and the maximum, and takes only what the source wallet has
    beyond its target after every reservation, and no more than the destination lacks. *)
Theorem transfer_within_surplus b capital rp policy matched incident now p :
  propose b capital rp policy matched incident now = Ok p ->
  executable p = false /\ (0 <= dval (amount_usd p))%Q /\
  (direction p = "none" /\ amount_usd p = d0 \/
   exists pr ts tf mn mx, projection b capital rp = Ok pr /\
     _decimal (target_spot_buffer_usd policy) "target_spot_buffer_usd" = Ok ts /\
     _decimal (target_futures_buffer_usd policy) "target_futures_buffer_usd" = Ok tf /\
     _decimal (minimum_transfer_usd policy) "minimum_transfer_usd" = Ok mn /\
     _decimal (maximum_transfer_usd policy) "maximum_transfer_usd" = Ok mx /\
     (dval mn <= dval (amount_usd p))%Q /\ matched = true /\ incident = false /\
     let spot := entry_spot_cash_remaining_usd pr in
     let futures := entry_futures_margin_remaining_usd pr in
     (direction p = "spot_to_futures" /\ covered spot ts futures tf mx (amount_usd p) \/
      direction p = "futures_to_spot" /\ covered futures tf spot ts mx (amount_usd p))).
Proof.
  intros H. apply propose_inv in H as (pr & ts & tf & mn & mx & rs & Hp & Hts & Htf & Hmn & Hmx & Hpl & -> & _).
  split; [done|]. unfold plan in Hpl. destruct (negb matched || incident) eqn:Eb.
  { injection Hpl as <- <- _. rewrite dval_0. split; [lra|]. by left. }
  apply orb_false_iff in Eb as [Em ->]. apply negb_false_iff in Em as ->.
  apply res_bind_Ok in Hpl as ([[dir amount] rs'] & Ht & Hpl).
  apply plan_transfer_spec in Ht as [Hn Ht]; [|by eapply _decimal_nonneg].
  destruct (dlt amount mn) eqn:El; injection Hpl as <- <- _; [rewrite dval_0; split; [lra|by left]|].
  split; [done|]. destruct Ht as [[-> ->]|Ht]; [by left|]. right.
  exists pr, ts, tf, mn, mx. dec_props. repeat (split; [done|]). exact Ht.
Qed.

(** When the account reconciliation is not ready or not complete, or
    a critical incident is active, the proposal moves nothing and says why. *)
Theorem no_transfer_without_proof b capital rp policy rec incident now p :
  propose_from_reconciliation b capital rp policy rec incident now = Ok p ->
  ready rec && snapshot_complete rec && negb incident = false ->
  direction p = "none" /\ amount_usd p = d0 /\ executable p = false /\
  ("account_reconciliation_not_proven" ∈ reason_codes p \/ "critical_incident_active" ∈ reason_codes p).
Proof.
  intros H Hb. apply executable_from in H as (q & H & -> & -> & -> & ->).
  apply propose_inv in H as (pr & ts & tf & mn & mx & rs & _ & _ & _ & _ & _ & Hpl & -> & Hr).
  destruct (ready rec && snapshot_complete rec), incident; try done; simpl in Hpl; injection Hpl as <- <- _;
    repeat (split; [done|]); (left; apply Hr; simpl; set_solver) || (right; apply Hr; simpl; set_solver).
Qed.

(** ** A concrete proposal *)

Definition ex_capital : CapitalState :=
  Build_CapitalState (VStr "10000") (VStr "2500") (VStr "600") (VStr "500") (VStr "4000") (VStr "0") (VStr "0") (VStr "0").
Definition ex_reserves : ReservationPolicy :=
  Build_ReservationPolicy (VStr "100") (VStr "50") (VStr "150") (VStr "0.80").
Definition ex_policy : TreasuryPolicy :=
  Build_TreasuryPolicy (VStr "2000") (VStr "900") (VStr "25") (VStr "500") true.
Definition ex_blocked_report : AccountReconciliationReport :=
  Build_AccountReconciliationReport "t0" false true [] [] [] [issue "unrelated_open_order" "order" "spot" "" "" "" ""]
    [] [] [] [].

Definition the_proposal (x : result TreasuryProposal) : TreasuryProposal :=
  match x with Ok p => p | Err _ => Build_TreasuryProposal "" "" d0 "" true [] [] end.

Definition ex_transfer : TreasuryProposal :=
  the_proposal (propose empty_book ex_capital ex_reserves ex_policy true false "t0").
Definition ex_blocked : TreasuryProposal :=
  the_proposal (propose_from_reconciliation empty_book ex_capital ex_reserves ex_policy ex_blocked_report false "t0").

Lemma transfer_within_surplus_witness :
  direction ex_transfer = "spot_to_futures" /\ amount_usd ex_transfer = dlit "350" /\ executable ex_transfer = false.
Proof.
  split; [vm_compute; reflexivity|]. split; [vm_compute; reflexivity|].
  apply (transfer_within_surplus empty_book ex_capital ex_reserves ex_policy true false "t0").
  vm_compute. reflexivity.
Defined.

Lemma no_transfer_without_proof_witness :
  direction ex_blocked = "none" /\ amount_usd ex_blocked = d0.
Proof.
  destruct (no_transfer_without_proof empty_book ex_capital ex_reserves ex_policy ex_blocked_report false "t0" ex_blocked)
    as (H1 & H2 & _); [vm_compute; reflexivity|reflexivity|]. split; [exact H1|exact H2].
Defined.
