(* ===== verification/Cooldown.v ===== *)
(** * Entry cooldowns

    Model of [src/bongus/engine/cooldown_manager.py]: a global and per-symbol
    cooldowns with absolute expiries, mirrored row by row in a table that a restarted
    process reads back.  [now] is the instant of the call and [enabled] the value of
    the configuration switch; a manager without a connection has no table. *)
From Stdlib Require Import ZArith Lia Ascii SpecFloat.
From stdpp Require Import base list strings sets.
From S2P Require Import Prelude PyDecimal PyFloat.
Open Scope Z_scope.

Record _CooldownEntry := Entry { until_ts : float; reason : string }.

(** A row of [cooldown_entries]; the primary key is (scope, symbol). *)
Record row := Row { r_scope : string; r_symbol : string; r_until_ts : float; r_reason : string }.

Record manager := Manager {
  _global : option _CooldownEntry;
  _symbols : dict _CooldownEntry;
  _conn : option (list row)
}.

(** ** The table *)

Definition has_key (scope symbol : string) (r : row) : bool :=
  String.eqb (r_scope r) scope && String.eqb (r_symbol r) symbol.

(** [INSERT ... ON CONFLICT(scope, symbol) DO UPDATE] *)
Fixpoint upsert (x : row) (rows : list row) : list row :=
  match rows with
  | [] => [x]
  | r :: rows' => if has_key (r_scope x) (r_symbol x) r then x :: rows' else r :: upsert x rows'
  end.

Definition delete_key (scope symbol : string) (rows : list row) : list row :=
  List.filter (fun r => negb (has_key scope symbol r)) rows.

(** [until_ts] is declared NOT NULL and a nan is stored as NULL. *)
Definition _persist_entry (scope symbol : string) (e : _CooldownEntry) : M manager unit := fun m =>
  match _conn m with
  | None => (Ok tt, m)
  | Some rows =>
      if is_nan (until_ts e) then (raise IntegrityError "NOT NULL constraint failed: cooldown_entries.until_ts", m)
      else (Ok tt, Manager (_global m) (_symbols m) (Some (upsert (Row scope symbol (until_ts e) (reason e)) rows)))
  end.

Definition _persist_expiries (global_expired : bool) (symbols : list string) (m : manager) : manager :=
  match _conn m with
  | None => m
  | Some rows =>
      let rows := if global_expired then delete_key "GLOBAL" "" rows else rows in
      let rows := fold_left (fun rs s => delete_key "SYMBOL" s rs) symbols rows in
      Manager (_global m) (_symbols m) (Some rows)
  end.

(** ** Operations *)

Definition expired_at (now_ts : float) (e : _CooldownEntry) : bool := fle (until_ts e) now_ts.

Definition _prune (now_ts : float) (m : manager) : manager :=
  let global_expired := match _global m with Some e => expired_at now_ts e | None => false end in
  let expired := map fst (List.filter (fun kv => expired_at now_ts (snd kv)) (_symbols m)) in
  let m' := Manager (if global_expired then None else _global m)
              (fold_left (fun d s => dict_del d s) expired (_symbols m)) (_conn m) in
  _persist_expiries global_expired expired m'.

(** The row read back by [_restore]. *)
Definition load_row (m : manager) (r : row) : manager :=
  let e := Entry (r_until_ts r) (r_reason r) in
  if String.eqb (r_scope r) "GLOBAL" then Manager (Some e) (_symbols m) (_conn m)
  else if String.eqb (r_scope r) "SYMBOL" && nonempty (r_symbol r)
  then Manager (_global m) (dict_set (_symbols m) (upper (r_symbol r)) e) (_conn m)
  else m.

Definition _restore (now_ts : float) (m : manager) : manager :=
  match _conn m with
  | None => m
  | Some rows => _prune now_ts (fold_left load_row rows m)
  end.

(** [CooldownManager(connection=...)] at instant [now_ts]. *)
Definition new_manager (conn : option (list row)) (now_ts : float) : manager :=
  _restore now_ts (Manager None [] conn).

Definition longer (until : float) (e : option _CooldownEntry) : bool :=
  match e with None => true | Some x => flt (until_ts x) until end.

Definition activate_global (enabled : bool) (duration_s : float) (why : string) (now_ts : float)
    : M manager unit := fun m =>
  if negb enabled || fle duration_s fzero then (Ok tt, m)
  else
    let m := _prune now_ts m in
    let e := Entry (fadd now_ts duration_s) why in
    if longer (until_ts e) (_global m)
    then _persist_entry "GLOBAL" "" e (Manager (Some e) (_symbols m) (_conn m))
    else (Ok tt, m).

Definition activate_symbol (enabled : bool) (symbol : string) (duration_s : float) (why : string) (now_ts : float)
    : M manager unit := fun m =>
  if negb enabled || fle duration_s fzero then (Ok tt, m)
  else
    let s := upper symbol in
    if negb (nonempty s) then (Ok tt, m)
    else
      let m := _prune now_ts m in
      let e := Entry (fadd now_ts duration_s) why in
      if longer (until_ts e) (dict_get (_symbols m) s)
      then _persist_entry "SYMBOL" s e (Manager (_global m) (dict_set (_symbols m) s e) (_conn m))
      else (Ok tt, m).

Definition is_global_active (now_ts : float) (m : manager) : bool * manager :=
  let m := _prune now_ts m in (match _global m with Some _ => true | None => false end, m).

Definition is_symbol_active (symbol : string) (now_ts : float) (m : manager) : bool * manager :=
  let m := _prune now_ts m in (dict_has (_symbols m) (upper symbol), m).

Definition allow_symbol (symbol : string) (now_ts : float) (m : manager) : (bool * string) * manager :=
  let m := _prune now_ts m in
  match _global m with
  | Some e => ((false, reason e), m)
  | None => match dict_get (_symbols m) (upper symbol) with
            | Some e => ((false, reason e), m)
            | None => ((true, ""), m)
            end
  end.

Definition blocked_symbols (symbols : list string) (now_ts : float) (m : manager) : dict string * manager :=
  fold_left (fun '(blocked, m) s =>
    let '((allowed, why), m) := allow_symbol s now_ts m in
    (if allowed : bool then blocked else dict_set blocked s why, m)) symbols ([], _prune now_ts m).

(** ** Histories *)

Inductive op :=
  | OpGlobal (enabled : bool) (duration_s : float) (why : string) (now_ts : float)
  | OpSymbol (enabled : bool) (symbol : string) (duration_s : float) (why : string) (now_ts : float)
  | OpQuery (symbol : string) (now_ts : float)
  | OpRestart (now_ts : float).

(** The instants and durations of an operation are numbers. *)
Definition op_numbers (o : op) : Prop :=
  match o with
  | OpGlobal _ d _ t | OpSymbol _ _ d _ t => isfinite t = true /\ is_nan (fadd t d) = false
  | OpQuery _ t | OpRestart t => isfinite t = true
  end.

Definition run_op (o : op) (m : manager) : manager :=
  match o with
  | OpGlobal en d w t => snd (activate_global en d w t m)
  | OpSymbol en s d w t => snd (activate_symbol en s d w t m)
  | OpQuery s t => snd (allow_symbol s t m)
  | OpRestart t => match _conn m with None => m | Some _ => new_manager (_conn m) t end
  end.

Inductive reachable : manager -> Prop :=
  | reach_new t : isfinite t = true -> reachable (new_manager (Some []) t)
  | reach_op o m : reachable m -> op_numbers o -> reachable (run_op o m).
