(* ===== verification/CooldownFacts.v ===== *)
(** * Properties of the cooldowns

    The table mirrors the memory, so a restart decides as the live process does; no
    call and no restart ends a cooldown early; an activation blocks until its expiry. *)
From Stdlib Require Import ZArith Lia Ascii SpecFloat.
From stdpp Require Import base list strings sets.
From S2P Require Import Prelude PyDecimal PyFloat Cooldown.
Open Scope Z_scope.

(** ** Rows *)

Definition row_of (rows : list row) (scope symbol : string) : option row := List.find (has_key scope symbol) rows.
Definition entry_of (r : row) : _CooldownEntry := Entry (r_until_ts r) (r_reason r).
Definition to_row (scope symbol : string) (e : _CooldownEntry) : row := Row scope symbol (until_ts e) (reason e).

Lemma has_key_spec s k r : has_key s k r = true <-> r_scope r = s /\ r_symbol r = k.
Proof. unfold has_key. by rewrite andb_true_iff, !String.eqb_eq. Qed.

Lemma row_of_upsert rows x s k :
  row_of (upsert x rows) s k = if has_key s k x then Some x else row_of rows s k.
Proof.
  unfold row_of. induction rows as [|r rows IH]; simpl; [by destruct (has_key s k x)|].
  destruct (has_key (r_scope x) (r_symbol x) r) eqn:E; simpl.
  - destruct (has_key s k x) eqn:Ex; [done|]. destruct (has_key s k r) eqn:Er; [|done].
    apply has_key_spec in E as [E1 E2], Er as [<- <-]. rewrite <- not_true_iff_false, has_key_spec in Ex. naive_solver.
  - destruct (has_key s k r) eqn:Er; [|done]. destruct (has_key s k x) eqn:Ex; [|done].
    apply has_key_spec in Ex as [<- <-]. by rewrite Er in E.
Qed.

Lemma row_of_delete rows s0 k0 s k :
  row_of (delete_key s0 k0 rows) s k = if String.eqb s s0 && String.eqb k k0 then None else row_of rows s k.
Proof.
  unfold row_of, delete_key. induction rows as [|r rows IH]; simpl; [by destruct (_ && _)|].
  destruct (has_key s0 k0 r) eqn:E0; simpl; rewrite IH.
  - apply has_key_spec in E0 as [<- <-]. destruct (has_key s k r) eqn:E; [|done].
    apply has_key_spec in E as [-> ->]. by rewrite !String.eqb_refl.
  - destruct (has_key s k r) eqn:E; [|done]. apply has_key_spec in E as [<- <-].
    rewrite <- not_true_iff_false, has_key_spec in E0.
    destruct (String.eqb_spec (r_scope r) s0), (String.eqb_spec (r_symbol r) k0); naive_solver.
Qed.

Lemma row_of_delete_list rows l s k :
  row_of (fold_left (fun rs x => delete_key "SYMBOL" x rs) l rows) s k
  = if String.eqb s "SYMBOL" && str_in k l then None else row_of rows s k.
Proof.
  revert rows; induction l as [|x l IH]; intros rows; simpl.
  - by rewrite andb_false_r.
  - rewrite IH, row_of_delete. destruct (String.eqb s "SYMBOL"); simpl; [|done].
    unfold str_in. destruct (String.eqb_spec k x) as [->|]; repeat case_bool_decide; set_solver.
Qed.

Definition row_key (r : row) : string * string := (r_scope r, r_symbol r).

Lemma elem_of_upsert x rows r : r ∈ upsert x rows -> r = x \/ r ∈ rows.
Proof. induction rows as [|y rows IH]; simpl; [set_solver|]. destruct (has_key _ _ y); set_solver. Qed.

Lemma upsert_NoDup x rows : NoDup (map row_key rows) -> NoDup (map row_key (upsert x rows)).
Proof.
  induction rows as [|y rows IH]; simpl; intros H; [repeat constructor; set_solver|].
  apply NoDup_cons in H as [Hy H]. destruct (has_key _ _ y) eqn:E; simpl.
  - apply has_key_spec in E as [E1 E2]. constructor; [|done]. unfold row_key at 1. by rewrite <- E1, <- E2.
  - constructor; [|auto]. intros (r & Er & Hr)%list_elem_of_fmap. apply elem_of_upsert in Hr as [->|Hr].
    + rewrite <- not_true_iff_false, has_key_spec in E. unfold row_key in Er. naive_solver.
    + apply Hy. apply list_elem_of_fmap. eauto.
Qed.

Lemma filter_map_NoDup {A B} (g : A -> B) (f : A -> bool) l : NoDup (map g l) -> NoDup (map g (List.filter f l)).
Proof.
  induction l as [|x l IH]; simpl; [done|]. intros [Hx H]%NoDup_cons. destruct (f x); simpl; [|auto].
  constructor; [|auto]. intros (y & E & Hy)%list_elem_of_fmap. apply elem_of_filter_bool in Hy as [Hy _].
  apply Hx, list_elem_of_fmap. eauto.
Qed.

(** ** The live entries *)

Definition live (t : float) (e : option _CooldownEntry) : option _CooldownEntry :=
  match e with Some x => if expired_at t x then None else Some x | None => None end.

Definition live_global (t : float) (m : manager) : option _CooldownEntry := live t (_global m).
Definition live_symbol (t : float) (m : manager) (k : string) : option _CooldownEntry := live t (dict_get (_symbols m) k).

Lemma live_later t t' e : fle t t' = true -> live t' (live t e) = live t' e.
Proof.
  intros Ht. destruct e as [x|]; [|done]. simpl. unfold expired_at. destruct (fle (until_ts x) t) eqn:E; [|done].
  simpl. destruct (fle_not_nan _ _ Ht), (fle_not_nan _ _ E). unfold expired_at.
  by rewrite (fle_trans (until_ts x) t t').
Qed.

Lemma dict_get_del {V} (d : dict V) k k' : dict_get (dict_del d k) k' = if String.eqb k' k then None else dict_get d k'.
Proof.
  unfold dict_del. induction d as [|[k0 v] d IH]; simpl; [by destruct (String.eqb k' k)|].
  destruct (String.eqb_spec k k0) as [E0|Hne]; simpl; rewrite IH;
    destruct (String.eqb_spec k' k0) as [E1|]; destruct (String.eqb_spec k' k) as [E2|]; congruence.
Qed.

Lemma dict_get_del_list {V} (d : dict V) l k :
  dict_get (fold_left (fun d s => dict_del d s) l d) k = if str_in k l then None else dict_get d k.
Proof.
  revert d; induction l as [|x l IH]; intros d; [done|]. simpl. rewrite IH, dict_get_del.
  unfold str_in. destruct (String.eqb_spec k x) as [->|]; repeat case_bool_decide; set_solver.
Qed.

Lemma dict_del_list_NoDup {V} (d : dict V) l :
  NoDup (dict_keys d) -> NoDup (dict_keys (fold_left (fun d s => dict_del d s) l d)).
Proof. revert d; induction l as [|x l IH]; intros d H; [done|]. simpl. apply IH. by apply filter_map_NoDup. Qed.

Definition expired_symbols (t : float) (m : manager) : list string :=
  map fst (List.filter (fun kv => expired_at t (snd kv)) (_symbols m)).

Lemma expired_symbols_spec t m k : NoDup (dict_keys (_symbols m)) ->
  k ∈ expired_symbols t m <-> exists e, dict_get (_symbols m) k = Some e /\ expired_at t e = true.
Proof.
  intros Hn. unfold expired_symbols. rewrite list_elem_of_fmap. setoid_rewrite elem_of_filter_bool. split.
  - intros ([k' e] & -> & Hin & He). exists e. split; [by apply dict_get_In|done].
  - intros (e & Hg & He). exists (k, e). split; [done|]. split; [by apply dict_get_elem|done].
Qed.

Lemma prune_global t m : _global (_prune t m) = live_global t m.
Proof.
  unfold _prune, _persist_expiries, live_global, live.
  destruct (_conn m), (_global m) as [e|]; simpl; try done; by destruct (expired_at t e).
Qed.

Lemma prune_symbol t m k : NoDup (dict_keys (_symbols m)) -> dict_get (_symbols (_prune t m)) k = live_symbol t m k.
Proof.
  intros Hn. assert (_symbols (_prune t m) = fold_left (fun d s => dict_del d s) (expired_symbols t m) (_symbols m)) as ->
    by (unfold _prune, _persist_expiries; by destruct (_conn m)).
  rewrite dict_get_del_list. unfold str_in, live_symbol, live. case_bool_decide as E.
  - apply expired_symbols_spec in E as (e & -> & He); [|done]. by rewrite He.
  - destruct (dict_get (_symbols m) k) as [e|] eqn:Eg; [|done]. destruct (expired_at t e) eqn:Ee; [|done].
    exfalso. apply E, expired_symbols_spec; eauto.
Qed.

Lemma prune_NoDup t m : NoDup (dict_keys (_symbols m)) -> NoDup (dict_keys (_symbols (_prune t m))).
Proof.
  intros Hn. unfold _prune, _persist_expiries. destruct (_conn m); simpl; by apply dict_del_list_NoDup.
Qed.

(** ** The mirror *)

Record mirror (m : manager) (rows : list row) : Prop := {
  mi_conn : _conn m = Some rows;
  mi_keys : NoDup (dict_keys (_symbols m));
  mi_rows : NoDup (map row_key rows);
  mi_global : row_of rows "GLOBAL" "" = to_row "GLOBAL" "" <$> _global m;
  mi_symbol : forall k, row_of rows "SYMBOL" k = to_row "SYMBOL" k <$> dict_get (_symbols m) k;
  mi_shape : forall r, r ∈ rows -> r_scope r = "GLOBAL" /\ r_symbol r = "" \/
               r_scope r = "SYMBOL" /\ nonempty (r_symbol r) = true /\ upper (r_symbol r) = r_symbol r
}.

Lemma prune_rows t m rows : _conn m = Some rows ->
  _conn (_prune t m) = Some (fold_left (fun rs x => delete_key "SYMBOL" x rs) (expired_symbols t m)
    (if match _global m with Some e => expired_at t e | None => false end then delete_key "GLOBAL" "" rows else rows)).
Proof. intros H. unfold _prune, _persist_expiries. by rewrite H. Qed.

Lemma delete_list_sub l rows r : r ∈ fold_left (fun rs x => delete_key "SYMBOL" x rs) l rows -> r ∈ rows.
Proof.
  revert rows; induction l as [|x l IH]; intros rows H; [done|]. simpl in H. apply IH in H.
  by apply elem_of_filter_bool in H as [H _].
Qed.

Lemma delete_list_NoDup l rows : NoDup (map row_key rows) ->
  NoDup (map row_key (fold_left (fun rs x => delete_key "SYMBOL" x rs) l rows)).
Proof. revert rows; induction l as [|x l IH]; intros rows H; [done|]. simpl. apply IH. by apply filter_map_NoDup. Qed.

Lemma prune_mirror t m rows : mirror m rows -> exists rows', mirror (_prune t m) rows'.
Proof.
  intros [C K R G S P]. eexists. split; [by apply prune_rows|by apply prune_NoDup|..].
  - apply delete_list_NoDup. destruct (_global m) as [e|]; [destruct (expired_at t e)|]; try done. by apply filter_map_NoDup.
  - rewrite row_of_delete_list, prune_global. simpl. unfold live_global, live.
    destruct (_global m) as [e|]; [|by rewrite G]. destruct (expired_at t e); [by rewrite row_of_delete|by rewrite G].
  - intros k. rewrite row_of_delete_list, prune_symbol by done. simpl. unfold live_symbol, live, str_in.
    assert (row_of (if match _global m with Some e => expired_at t e | None => false end
                    then delete_key "GLOBAL" "" rows else rows) "SYMBOL" k = row_of rows "SYMBOL" k) as ->
      by (destruct (_global m) as [e|]; [destruct (expired_at t e)|]; try done; by rewrite row_of_delete).
    rewrite S. case_bool_decide as E.
    + apply expired_symbols_spec in E as (e & -> & He); [|done]. by rewrite He.
    + destruct (dict_get (_symbols m) k) as [e|] eqn:Eg; [|done]. destruct (expired_at t e) eqn:Ee; [|done].
      exfalso. apply E, expired_symbols_spec; eauto.
  - intros r Hr. apply delete_list_sub in Hr. apply P.
    destruct (_global m) as [e|]; [destruct (expired_at t e)|]; try done. by apply elem_of_filter_bool in Hr as [Hr _].
Qed.

Lemma mirror_set_global m rows e : mirror m rows ->
  mirror (Manager (Some e) (_symbols m) (Some (upsert (to_row "GLOBAL" "" e) rows))) (upsert (to_row "GLOBAL" "" e) rows).
Proof.
  intros [C K R G S P]. split; simpl; [done|done|by apply upsert_NoDup|..].
  - by rewrite row_of_upsert.
  - intros k. rewrite row_of_upsert. apply S.
  - intros r [->|Hr]%elem_of_upsert; [by left|auto].
Qed.

Lemma mirror_set_symbol m rows k e : mirror m rows -> nonempty k = true -> upper k = k ->
  mirror (Manager (_global m) (dict_set (_symbols m) k e) (Some (upsert (to_row "SYMBOL" k e) rows)))
    (upsert (to_row "SYMBOL" k e) rows).
Proof.
  intros [C K R G S P] Hn Hu. split; simpl; [done|by apply dict_set_NoDup|by apply upsert_NoDup|..].
  - by rewrite row_of_upsert.
  - intros k'. rewrite row_of_upsert, dict_get_set. unfold has_key. simpl. rewrite (String.eqb_sym k k').
    destruct (String.eqb_spec k' k) as [->|]; [done|apply S].
  - intros r [->|Hr]%elem_of_upsert; [by right|auto].
Qed.

Lemma activate_global_mirror en d w t m rows : mirror m rows -> is_nan (fadd t d) = false ->
  exists rows', mirror (snd (activate_global en d w t m)) rows'.
Proof.
  intros H Hn. unfold activate_global. destruct (negb en || fle d fzero); [eauto|].
  destruct (prune_mirror t m rows H) as [rows' H'].
  destruct (longer _ _); [|eauto]. unfold _persist_entry. simpl. rewrite (mi_conn _ _ H'), Hn. simpl.
  eexists. by apply (mirror_set_global (_prune t m) rows' (Entry (fadd t d) w)).
Qed.

Lemma activate_symbol_mirror en s d w t m rows : mirror m rows -> is_nan (fadd t d) = false ->
  exists rows', mirror (snd (activate_symbol en s d w t m)) rows'.
Proof.
  intros H Hn. unfold activate_symbol. destruct (negb en || fle d fzero); [eauto|].
  destruct (nonempty (upper s)) eqn:Es; simpl; [|eauto]. destruct (prune_mirror t m rows H) as [rows' H'].
  destruct (longer _ _); [|eauto]. unfold _persist_entry. simpl. rewrite (mi_conn _ _ H'), Hn. simpl.
  eexists. apply (mirror_set_symbol (_prune t m) rows' (upper s) (Entry (fadd t d) w)); [done..|apply upper_idem].
Qed.

(** ** Restoration *)

Definition restored (rows : list row) (m : manager) : manager := fold_left load_row rows m.

Lemma load_conn rows m : _conn (restored rows m) = _conn m.
Proof.
  unfold restored. revert m; induction rows as [|r rows IH]; intros m; simpl; [done|]. rewrite IH.
  unfold load_row. repeat case_goal; done.
Qed.

Lemma load_keys rows m : NoDup (dict_keys (_symbols m)) -> NoDup (dict_keys (_symbols (restored rows m))).
Proof.
  unfold restored. revert m; induction rows as [|r rows IH]; intros m Hn; simpl; [done|]. apply IH.
  unfold load_row. repeat case_goal; simpl; try done. by apply dict_set_NoDup.
Qed.

Definition well_shaped (rows : list row) : Prop :=
  forall r, r ∈ rows -> r_scope r = "GLOBAL" /\ r_symbol r = "" \/
    r_scope r = "SYMBOL" /\ nonempty (r_symbol r) = true /\ upper (r_symbol r) = r_symbol r.

Lemma row_of_None rows s k : (s, k) ∉ map row_key rows -> row_of rows s k = None.
Proof.
  intros H. destruct (row_of rows s k) as [r|] eqn:E; [|done]. apply find_some in E as [Hin Hk].
  apply has_key_spec in Hk as [<- <-]. exfalso. apply H, list_elem_of_fmap. exists r. by rewrite list_elem_of_In.
Qed.

Lemma load_global rows m : NoDup (map row_key rows) -> well_shaped rows ->
  _global (restored rows m) = match row_of rows "GLOBAL" "" with Some r => Some (entry_of r) | None => _global m end.
Proof.
  unfold restored. revert m; induction rows as [|r rows IH]; intros m Hn Hs; [done|].
  apply NoDup_cons in Hn as [Hk Hn]. simpl fold_left.
  rewrite IH by (done || (intros x Hx; apply Hs; set_solver)). unfold row_of at 2. simpl. fold (row_of rows).
  destruct (Hs r) as [(E1 & E2)|(E1 & E2 & _)]; [set_solver|..]; unfold has_key, load_row; rewrite E1; simpl.
  - rewrite E2; simpl. rewrite row_of_None; [done|]. unfold row_key in Hk at 1. by rewrite E1, E2 in Hk.
  - by rewrite E2.
Qed.

Lemma load_symbol rows m k : NoDup (map row_key rows) -> well_shaped rows ->
  dict_get (_symbols (restored rows m)) k =
  match row_of rows "SYMBOL" k with Some r => Some (entry_of r) | None => dict_get (_symbols m) k end.
Proof.
  unfold restored. revert m; induction rows as [|r rows IH]; intros m Hn Hs; [done|].
  apply NoDup_cons in Hn as [Hk Hn]. simpl fold_left.
  rewrite IH by (done || (intros x Hx; apply Hs; set_solver)). unfold row_of at 2. simpl. fold (row_of rows).
  destruct (Hs r) as [(E1 & E2)|(E1 & E2 & E3)]; [set_solver|..]; unfold has_key, load_row; rewrite E1; simpl; [done|].
  rewrite E2, E3; simpl. rewrite dict_get_set, (String.eqb_sym (r_symbol r) k).
  destruct (String.eqb_spec k (r_symbol r)) as [->|]; [|done].
  rewrite row_of_None; [done|]. unfold row_key in Hk at 1. by rewrite E1 in Hk.
Qed.

Lemma restored_agrees m rows : mirror m rows ->
  _global (restored rows (Manager None [] (Some rows))) = _global m /\
  forall k, dict_get (_symbols (restored rows (Manager None [] (Some rows)))) k = dict_get (_symbols m) k.
Proof.
  intros [C K R G S P]. split; [rewrite load_global, G by done|intros k; rewrite load_symbol, S by done].
  - by destruct (_global m) as [[]|].
  - by destruct (dict_get (_symbols m) k) as [[]|].
Qed.

Lemma new_manager_restored rows t :
  new_manager (Some rows) t = _prune t (restored rows (Manager None [] (Some rows))).
Proof. done. Qed.

Lemma restored_mirror m rows : mirror m rows -> mirror (restored rows (Manager None [] (Some rows))) rows.
Proof.
  intros H. destruct (restored_agrees m rows H) as [Eg Es]. destruct H as [C K R G S P]. split; try done.
  - apply load_conn.
  - apply load_keys. constructor.
  - by rewrite Eg.
  - intros k. by rewrite Es.
Qed.

Lemma op_mirror o m rows : mirror m rows -> op_numbers o -> exists rows', mirror (run_op o m) rows'.
Proof.
  intros H Ho. destruct o as [en d w t|en s d w t|s t|t]; simpl in *.
  - eapply activate_global_mirror; [done|tauto].
  - eapply activate_symbol_mirror; [done|tauto].
  - assert (snd (allow_symbol s t m) = _prune t m) as ->; [|by eapply prune_mirror].
    unfold allow_symbol. destruct (_global _); [done|]. by destruct (dict_get (_symbols (_prune t m)) (upper s)).
  - rewrite (mi_conn _ _ H), new_manager_restored. eapply prune_mirror, restored_mirror, H.
Qed.

Lemma reachable_mirror m : reachable m -> exists rows, mirror m rows.
Proof.
  induction 1 as [t Ht|o m Hr [rows IH] Ho].
  - exists []. split; simpl; try done; try constructor. all: set_solver.
  - by eapply op_mirror.
Qed.

Lemma run_mirror l m : reachable m -> Forall op_numbers l -> exists rows, mirror (fold_left (fun m o => run_op o m) l m) rows.
Proof.
  intros Hm Hl. apply reachable_mirror. revert m Hm. induction Hl as [|o l Ho Hl IH]; intros m Hm; [done|].
  simpl. apply IH. by constructor.
Qed.

(** ** What blocks an entry *)

(** The entry in force for a symbol at an instant: the global one first. *)
Definition in_force (s : string) (t : float) (m : manager) : option _CooldownEntry :=
  match live_global t m with Some e => Some e | None => live_symbol t m (upper s) end.

Lemma allow_symbol_spec s t m : NoDup (dict_keys (_symbols m)) ->
  fst (allow_symbol s t m) = match in_force s t m with Some e => (false, reason e) | None => (true, "") end.
Proof.
  intros Hn. unfold allow_symbol, in_force. rewrite prune_global, prune_symbol by done.
  destruct (live_global t m); [done|]. by destruct (live_symbol t m (upper s)).
Qed.

Lemma live_prune t t' m : NoDup (dict_keys (_symbols m)) -> fle t t' = true ->
  live_global t' (_prune t m) = live_global t' m /\ forall k, live_symbol t' (_prune t m) k = live_symbol t' m k.
Proof.
  intros Hn Ht. split; [|intros k].
  - unfold live_global at 1. rewrite prune_global. by apply live_later.
  - unfold live_symbol at 1. rewrite prune_symbol by done. by apply live_later.
Qed.

Definition some {A} (o : option A) : bool := match o with Some _ => true | None => false end.

(** An entry replaced by a longer one is still in force. *)
Lemma live_longer t' u e w : is_nan t' = false -> some (live t' e) = true -> longer u e = true ->
  some (live t' (Some (Entry u w))) = true.
Proof.
  intros Ht He Hl. destruct e as [x|]; [|done]. simpl in *. unfold expired_at in *.
  destruct (fle (until_ts x) t') eqn:Ex; [done|]. simpl. destruct (flt_not_nan _ _ Hl) as [Nx Nu].
  assert (flt t' u = true) as Hu by (apply (flt_trans t' (until_ts x) u); try done; by rewrite flt_fle, Ex).
  rewrite flt_fle in Hu by done. by apply negb_true_iff in Hu as ->.
Qed.

Definition op_now (o : op) : float :=
  match o with OpGlobal _ _ _ t | OpSymbol _ _ _ _ t | OpQuery _ t | OpRestart t => t end.

Definition covered (t' : float) (m m' : manager) : Prop :=
  (some (live_global t' m) = true -> some (live_global t' m') = true) /\
  (forall k, some (live_symbol t' m k) = true -> some (live_symbol t' m' k) = true).

Lemma prune_covered t t' m : NoDup (dict_keys (_symbols m)) -> fle t t' = true -> covered t' m (_prune t m).
Proof. intros Hn Ht. destruct (live_prune t t' m Hn Ht) as [Eg Es]. split; [by rewrite Eg|intros k; by rewrite Es]. Qed.

Lemma covered_trans t' m1 m2 m3 : covered t' m1 m2 -> covered t' m2 m3 -> covered t' m1 m3.
Proof. intros [G1 S1] [G2 S2]. split; [|intros k]; auto. Qed.

(** Only memory matters for what blocks; the row written with it does not. *)
Lemma persist_covered t' s k e m m' : covered t' m' m -> covered t' m' (snd (_persist_entry s k e m)).
Proof. unfold _persist_entry. destruct (_conn m); simpl; [|done]. by destruct (is_nan (until_ts e)). Qed.

Lemma set_global_covered t' m u w : is_nan t' = false -> longer u (_global m) = true ->
  covered t' m (Manager (Some (Entry u w)) (_symbols m) (_conn m)).
Proof. intros Ht Hl. split; [|done]. intros H. by eapply live_longer. Qed.

Lemma set_symbol_covered t' m s u w : is_nan t' = false -> longer u (dict_get (_symbols m) s) = true ->
  covered t' m (Manager (_global m) (dict_set (_symbols m) s (Entry u w)) (_conn m)).
Proof.
  intros Ht Hl. split; [done|]. intros k H. unfold live_symbol in *. simpl. rewrite dict_get_set.
  destruct (String.eqb_spec k s) as [->|]; [|done]. by eapply live_longer.
Qed.

Lemma op_covered o t' m rows : mirror m rows -> fle (op_now o) t' = true -> covered t' m (run_op o m).
Proof.
  intros H Ht. destruct (fle_not_nan _ _ Ht) as [_ Nt]. pose proof (mi_keys _ _ H) as Hn.
  pose proof (prune_covered _ t' m Hn Ht) as Hp.
  destruct o as [en d w t|en s d w t|s t|t]; simpl in *.
  - unfold activate_global. destruct (negb en || fle d fzero); [done|]. simpl.
    destruct (longer _ _) eqn:El; [|done]. apply persist_covered. eapply covered_trans; [exact Hp|].
    by apply set_global_covered.
  - unfold activate_symbol. destruct (negb en || fle d fzero); [done|].
    destruct (negb (nonempty (upper s))); [done|]. simpl.
    destruct (longer _ _) eqn:El; [|done]. apply persist_covered. eapply covered_trans; [exact Hp|].
    by apply set_symbol_covered.
  - assert (snd (allow_symbol s t m) = _prune t m) as ->; [|done].
    unfold allow_symbol. destruct (_global _); [done|]. by destruct (dict_get (_symbols (_prune t m)) (upper s)).
  - rewrite (mi_conn _ _ H), new_manager_restored.
    destruct (restored_agrees m rows H) as [Eg Es]. pose proof (restored_mirror m rows H) as Hr.
    eapply covered_trans; [|by apply prune_covered; [apply Hr|]].
    split; [|intros k]; unfold live_global, live_symbol; by rewrite ?Eg, ?Es.
Qed.

Definition run (l : list op) (m : manager) : manager := fold_left (fun m o => run_op o m) l m.

Lemma run_covered l t' m : reachable m -> Forall (fun o => op_numbers o /\ fle (op_now o) t' = true) l ->
  reachable (run l m) /\ covered t' m (run l m).
Proof.
  intros Hm Hl. revert m Hm. induction Hl as [|o l [Ho Ht] Hl IH]; intros m Hm; [by repeat split|].
  destruct (reachable_mirror m Hm) as [rows Hr]. destruct (IH (run_op o m)) as [Hm' Hc]; [by constructor|].
  split; [done|]. eapply covered_trans; [|done]. by eapply op_covered.
Qed.

Definition blocked (s : string) (t : float) (m : manager) : bool := negb (fst (fst (allow_symbol s t m))).

Lemma blocked_spec s t m : NoDup (dict_keys (_symbols m)) ->
  blocked s t m = some (live_global t m) || some (live_symbol t m (upper s)).
Proof.
  intros Hn. unfold blocked. rewrite allow_symbol_spec by done. unfold in_force.
  destruct (live_global t m); [done|]. by destruct (live_symbol t m (upper s)).
Qed.

Lemma reachable_keys m : reachable m -> NoDup (dict_keys (_symbols m)).
Proof. intros [rows H]%reachable_mirror. apply H. Qed.

Lemma covered_blocked s t' m m' : reachable m -> reachable m' -> covered t' m m' ->
  blocked s t' m = true -> blocked s t' m' = true.
Proof.
  intros R R' [G S]. rewrite !blocked_spec by (by apply reachable_keys). rewrite !orb_true_iff.
  intros [H|H]; [left|right]; auto.
Qed.

(** ** Theorems *)

(** A process that restarts reads back the same cooldowns: at every
    later instant it gives the same answer, with the same reason, as the process that never stopped. *)
Theorem restart_decides_alike m t t' s :
  reachable m -> fle t t' = true ->
  fst (allow_symbol s t' (new_manager (_conn m) t)) = fst (allow_symbol s t' m).
Proof.
  intros Hm Ht. destruct (reachable_mirror m Hm) as [rows H]. rewrite (mi_conn _ _ H), new_manager_restored.
  destruct (restored_agrees m rows H) as [Eg Es]. pose proof (mi_keys _ _ (restored_mirror m rows H)) as Hk.
  rewrite !allow_symbol_spec by (by apply prune_NoDup || apply H). unfold in_force.
  destruct (live_prune t t' _ Hk Ht) as [-> Hs]. rewrite Hs. unfold live_global, live_symbol. by rewrite Eg, Es.
Qed.

(** C38: an entry that is blocked at an instant stays blocked at that instant
    whatever happens before it: shorter activations, queries, expiries of other entries and restarts. *)
Theorem no_early_release m l s t' :
  reachable m -> Forall (fun o => op_numbers o /\ fle (op_now o) t' = true) l ->
  blocked s t' m = true -> blocked s t' (run l m) = true.
Proof.
  intros Hm Hl Hb. destruct (run_covered l t' m Hm Hl) as [Hm' Hc]. exact (covered_blocked s t' _ _ Hm Hm' Hc Hb).
Qed.

Lemma longer_false_live t' u e : flt t' u = true -> longer u e = false -> some (live t' e) = true.
Proof.
  intros Hu Hl. destruct e as [x|]; [|done]. simpl in *. unfold expired_at. destruct (fle (until_ts x) t') eqn:E; [|done].
  destruct (flt_not_nan _ _ Hu), (fle_not_nan _ _ E).
  by rewrite (fle_lt_trans (until_ts x) t' u) in Hl.
Qed.

Lemma longer_true_live t' u w : flt t' u = true -> some (live t' (Some (Entry u w))) = true.
Proof.
  intros Hu. destruct (flt_not_nan _ _ Hu) as [N1 N2]. rewrite flt_fle in Hu by done.
  apply negb_true_iff in Hu. simpl. unfold expired_at. simpl. by rewrite Hu.
Qed.

Lemma activated_live s d w t t' m : nonempty s = true -> fle d fzero = false -> flt t' (fadd t d) = true ->
  some (live_symbol t' (snd (activate_symbol true s d w t m)) (upper s)) = true.
Proof.
  intros Hs Hd Hu. unfold activate_symbol. rewrite Hd, upper_nonempty, Hs. simpl.
  destruct (longer _ _) eqn:El; [|exact (longer_false_live _ _ _ Hu El)].
  unfold _persist_entry. simpl. destruct (_conn (_prune t m)); simpl.
  - destruct (is_nan (fadd t d)); unfold live_symbol; simpl;
      rewrite dict_get_set, String.eqb_refl; by apply longer_true_live.
  - unfold live_symbol; simpl. rewrite dict_get_set, String.eqb_refl. by apply longer_true_live.
Qed.

(** Activating a symbol's cooldown for a positive duration blocks its
    entries at every instant before the end of the duration, restarts and all later calls included. *)
Theorem activation_blocks m s d w t t' l :
  reachable m -> op_numbers (OpSymbol true s d w t) -> nonempty s = true -> fle d fzero = false ->
  flt t' (fadd t d) = true -> Forall (fun o => op_numbers o /\ fle (op_now o) t' = true) l ->
  blocked s t' (run l (run_op (OpSymbol true s d w t) m)) = true.
Proof.
  intros Hm Ho Hs Hd Hu Hl. set (m1 := run_op (OpSymbol true s d w t) m).
  assert (reachable m1) as Hm1 by (by constructor). destruct (run_covered l t' m1 Hm1 Hl) as [Hm' Hc].
  apply (covered_blocked s t' m1 _ Hm1 Hm' Hc). rewrite blocked_spec by (by apply reachable_keys).
  apply orb_true_iff. right. by apply activated_live.
Qed.

(** ** Concrete histories *)

Definition at_s (n : Z) : float := match float_of_Z n with Ok f => f | Err _ => fzero end.
Definition ex_ops : list op := [OpGlobal true (at_s 20) "ws stress" (at_s 100); OpRestart (at_s 105)].
Definition ex_m : manager :=
  run [OpSymbol true "btcusdt" (at_s 300) "rejected" (at_s 90)] (new_manager (Some []) (at_s 80)).

Lemma ex_m_reachable : reachable ex_m.
Proof.
  refine (reach_op (OpSymbol true "btcusdt" (at_s 300) "rejected" (at_s 90)) _ (reach_new (at_s 80) eq_refl) _).
  split; vm_compute; reflexivity.
Qed.

Lemma ex_ops_numbers : Forall (fun o => op_numbers o /\ fle (op_now o) (at_s 200) = true) ex_ops.
Proof. repeat constructor; vm_compute; reflexivity. Qed.

Lemma restart_decides_alike_witness :
  fst (allow_symbol "BTCUSDT" (at_s 200) (new_manager (_conn ex_m) (at_s 150))) = fst (allow_symbol "BTCUSDT" (at_s 200) ex_m)
  /\ fst (allow_symbol "BTCUSDT" (at_s 200) ex_m) = (false, "rejected").
Proof.
  split; [|vm_compute; reflexivity].
  exact (restart_decides_alike ex_m (at_s 150) (at_s 200) "BTCUSDT" ex_m_reachable eq_refl).
Defined.

Lemma no_early_release_witness : blocked "BTCUSDT" (at_s 200) (run ex_ops ex_m) = true.
Proof.
  apply (no_early_release ex_m ex_ops "BTCUSDT" (at_s 200) ex_m_reachable ex_ops_numbers). vm_compute. reflexivity.
Defined.

Lemma activation_blocks_witness :
  blocked "ethusdt" (at_s 200) (run ex_ops (run_op (OpSymbol true "ethusdt" (at_s 130) "timeout" (at_s 95)) ex_m)) = true
  /\ blocked "ethusdt" (at_s 226) (run ex_ops (run_op (OpSymbol true "ethusdt" (at_s 130) "timeout" (at_s 95)) ex_m)) = false.
Proof.
  split; [|vm_compute; reflexivity].
  apply (activation_blocks ex_m "ethusdt" (at_s 130) "timeout" (at_s 95) (at_s 200) ex_ops ex_m_reachable);
    try exact ex_ops_numbers; try (split; vm_compute); vm_compute; reflexivity.
Defined.
