(* ===== verification/DomainUnits.v ===== *)
(** * Economic units

    Model of [src/bongus/domain/units.py]: checked wrappers of binary64 amounts, the
    fixed reporting convention (raw settlement rate times 1095), the cash flow of one
    settlement and the unit bundle of a matched spot/perpetual position.  Arguments
    are floats; an argument that may also be a wrapper is a sum type. *)
From Stdlib Require Import ZArith Lia Ascii SpecFloat.
From stdpp Require Import base list strings.
From S2P Require Import Prelude PyDecimal PyFloat.
Open Scope Z_scope.

Definition FUNDING_REPORTING_PERIODS_PER_YEAR : float := flit "1095".

Definition fabs : float -> float := SFabs.
Definition fneg : float -> float := SFopp.

Definition _finite (value : float) (name : string) : result float :=
  if isfinite value then Ok value else raise ValueError (name +:+ " must be finite").

Definition _nonnegative (value : float) (name : string) : result float :=
  let! numeric := _finite value name in
  if flt numeric fzero then raise ValueError (name +:+ " must be non-negative") else Ok numeric.

(** ** The wrappers *)

Record LegNotionalUsd := Leg { leg_value : float }.
Record PairGrossNotionalUsd := PairGross { pair_value : float }.
Record CollateralUsd := Collateral { collateral_value : float }.
Record MarginExposureUsd := MarginExposure { margin_value : float }.
Record RawSettlementRate := Raw { raw_value : float }.
Record AnnualizedReportingRate := Annualized { annualized_value : float }.

Definition new_leg (v : float) : result LegNotionalUsd := res_map Leg (_nonnegative v "leg notional").
Definition new_pair_gross (v : float) : result PairGrossNotionalUsd :=
  res_map PairGross (_nonnegative v "pair gross notional").
Definition new_collateral (v : float) : result CollateralUsd := res_map Collateral (_nonnegative v "collateral").
Definition new_margin_exposure (v : float) : result MarginExposureUsd :=
  res_map MarginExposure (_nonnegative v "margin exposure").
Definition new_raw (v : float) : result RawSettlementRate := res_map Raw (_finite v "raw settlement rate").
Definition new_annualized (v : float) : result AnnualizedReportingRate :=
  res_map Annualized (_finite v "annualized reporting rate").

Inductive leg_arg := LegOf (leg : LegNotionalUsd) | LegFloat (v : float).
Inductive raw_arg := RawOf (rate : RawSettlementRate) | RawFloat (v : float).
Inductive reporting_arg := ReportingOf (rate : AnnualizedReportingRate) | ReportingFloat (v : float).

(** ** Rates *)

Definition reporting_annualized (r : RawSettlementRate) : result AnnualizedReportingRate :=
  new_annualized (fmul (raw_value r) FUNDING_REPORTING_PERIODS_PER_YEAR).

Definition from_raw (raw_rate : raw_arg) : result AnnualizedReportingRate :=
  let raw := match raw_rate with RawOf r => raw_value r | RawFloat v => v end in
  let! raw := _finite raw "raw settlement rate" in
  new_annualized (fmul raw FUNDING_REPORTING_PERIODS_PER_YEAR).

Definition raw_settlement (r : AnnualizedReportingRate) : result RawSettlementRate :=
  new_raw (fdiv_ieee (annualized_value r) FUNDING_REPORTING_PERIODS_PER_YEAR).

Definition cashflow_usd (r : RawSettlementRate) (liable_leg : leg_arg) (direction_sign eligibility_probability : float)
    : result float :=
  let! notional := match liable_leg with
                   | LegOf l => Ok (leg_value l)
                   | LegFloat v => _nonnegative v "liable leg notional"
                   end in
  let! sign := _finite direction_sign "direction sign" in
  let! probability := _finite eligibility_probability "eligibility probability" in
  if negb (fle fzero probability && fle probability (flit "1.0"))
  then raise ValueError "eligibility probability must be between zero and one"
  else Ok (fmul (fmul (fmul (raw_value r) sign) probability) notional).

Definition annualized_reporting_rate (raw_rate : raw_arg) : result float := res_map annualized_value (from_raw raw_rate).

Definition raw_settlement_rate (reporting_rate : reporting_arg) : result float :=
  let! annualized := match reporting_rate with
                     | ReportingOf r => Ok (annualized_value r)
                     | ReportingFloat v => _finite v "annualized reporting rate"
                     end in
  Ok (fdiv_ieee annualized FUNDING_REPORTING_PERIODS_PER_YEAR).

(** ** The pair *)

Definition from_legs (legs : list leg_arg) : result PairGrossNotionalUsd :=
  let! total := res_fold (fun total leg =>
    let value := match leg with LegOf l => leg_value l | LegFloat v => v end in
    let! value := _finite value "leg notional" in
    Ok (fadd total (fabs value))) fzero legs in
  new_pair_gross total.

Definition from_matched_legs (spot_leg perp_leg : leg_arg) : result PairGrossNotionalUsd :=
  from_legs [spot_leg; perp_leg].

(** [math.isclose] for non-negative tolerances *)
Definition isclose (rel_tol abs_tol a b : float) : bool :=
  if feq a b then true
  else if (match a with S754_infinity _ => true | _ => false end) || (match b with S754_infinity _ => true | _ => false end)
  then false
  else
    let diff := fabs (fsub b a) in
    fle diff (fabs (fmul rel_tol b)) || fle diff (fabs (fmul rel_tol a)) || fle diff abs_tol.

Record EconomicUnitSnapshot := Snapshot {
  spot_leg : LegNotionalUsd;
  perp_leg : LegNotionalUsd;
  pair_gross : PairGrossNotionalUsd;
  collateral : CollateralUsd;
  margin_exposure : MarginExposureUsd
}.

Definition new_snapshot (s : EconomicUnitSnapshot) : result EconomicUnitSnapshot :=
  let exact_pair_gross := fadd (leg_value (spot_leg s)) (leg_value (perp_leg s)) in
  if negb (isclose (flit "1e-12") (flit "1e-9") (pair_value (pair_gross s)) exact_pair_gross)
  then raise ValueError "pair gross must equal both absolute leg notionals"
  else Ok s.

Definition matched (leg_notional_usd collateral_usd margin_exposure_usd : float) : result EconomicUnitSnapshot :=
  let! spot := new_leg leg_notional_usd in
  let! perp := new_leg leg_notional_usd in
  let! gross := from_matched_legs (LegOf spot) (LegOf perp) in
  let! coll := new_collateral collateral_usd in
  let! margin := new_margin_exposure margin_exposure_usd in
  new_snapshot (Snapshot spot perp gross coll margin).

Example matched_ok :
  option_map (fun s => feq (pair_value (pair_gross s)) (flit "2000"))
    (match matched (flit "1000") (flit "400") (flit "1000") with Ok s => Some s | Err _ => None end) = Some true.
Proof. vm_compute. reflexivity. Qed.

(** ** Lemmas: the sign of the operations *)

Definition nonneg (x : float) : bool := negb (flt x fzero).

Definition sign_is (s : bool) (x : float) : Prop :=
  match x with S754_zero s' | S754_infinity s' | S754_finite s' _ _ => s' = s | S754_nan => True end.

Lemma round_aux_sign s m e l : sign_is s (binary_round_aux 53 1024 s m e l).
Proof.
  unfold binary_round_aux. destruct (shr_fexp _ _ m e l) as [r e']. destruct (shr_fexp _ _ _ _ _) as [r2 e2].
  destruct (shr_m r2); [done| |done]. by destruct (Z.leb _ _).
Qed.

Lemma positive_nonneg x : sign_is false x -> nonneg x = true.
Proof. unfold nonneg. destruct x; simpl; intros H; subst; done. Qed.

Lemma fadd_nonneg x y : sign_is false x -> sign_is false y -> isfinite x = true -> isfinite y = true ->
  sign_is false (fadd x y).
Proof.
  destruct x as [sx|sx| |sx mx ex], y as [sy|sy| |sy my ey]; simpl; intros Hx Hy Fx Fy; subst; try done.
  unfold fadd, SFadd, binary_normalize, cond_Zopp. simpl. unfold binary_round.
  destruct (shl_align _ _ _). apply round_aux_sign.
Qed.

Lemma fabs_sign x : sign_is false (fabs x).
Proof. by destruct x. Qed.

Lemma fabs_finite x : isfinite (fabs x) = isfinite x.
Proof. by destruct x. Qed.

Lemma fadd_zero_l x : sign_is false x -> fadd fzero x = x.
Proof. by destruct x as [[]|[]| |[] m e]. Qed.

Lemma round_aux_neg s m e l : binary_round_aux 53 1024 (negb s) m e l = fneg (binary_round_aux 53 1024 s m e l).
Proof.
  unfold binary_round_aux. destruct (shr_fexp _ _ m e l) as [r e']. destruct (shr_fexp _ _ _ _ _) as [r2 e2].
  destruct (shr_m r2); [done| |done]. by destruct (Z.leb _ _).
Qed.

Lemma fmul_neg_r x y : fmul x (fneg y) = fneg (fmul x y).
Proof.
  destruct x as [sx|sx| |sx mx ex], y as [sy|sy| |sy my ey]; simpl; try done; try (by destruct sx, sy).
  unfold fmul; simpl. rewrite <- round_aux_neg. f_equal. by destruct sx, sy.
Qed.

Lemma fmul_neg_l x y : fmul (fneg x) y = fneg (fmul x y).
Proof.
  destruct x as [sx|sx| |sx mx ex], y as [sy|sy| |sy my ey]; simpl; try done; try (by destruct sx, sy).
  unfold fmul; simpl. rewrite <- round_aux_neg. f_equal. by destruct sx, sy.
Qed.

Lemma fneg_finite x : isfinite (fneg x) = isfinite x.
Proof. by destruct x. Qed.

Lemma nonneg_cases x : isfinite x = true -> nonneg x = true -> fabs x = x \/ x = S754_zero true.
Proof. destruct x as [[]|[]| |[] m e]; simpl; auto; done. Qed.

(** ** Lemmas: the constructors *)

Lemma _nonnegative_ok v name : _nonnegative v name = Ok v <-> isfinite v = true /\ nonneg v = true.
Proof.
  unfold _nonnegative, _finite, nonneg. destruct (isfinite v); simpl; [|naive_solver].
  destruct (flt v fzero); simpl; naive_solver.
Qed.

Lemma _nonnegative_cases v name :
  (_nonnegative v name = Ok v /\ isfinite v = true /\ nonneg v = true) \/
  ((exists why, _nonnegative v name = raise ValueError (name +:+ why)) /\ (isfinite v && nonneg v) = false).
Proof.
  unfold _nonnegative, _finite, nonneg. destruct (isfinite v); simpl; [|right; eauto].
  destruct (flt v fzero); simpl; [right|left]; eauto.
Qed.

(** The gross of two equal legs is built exactly when the sum does not overflow. *)
Lemma gross_of_matched v : isfinite v = true ->
  from_matched_legs (LegOf (Leg v)) (LegOf (Leg v)) =
  if isfinite (fadd (fabs v) (fabs v)) then Ok (PairGross (fadd (fabs v) (fabs v)))
  else raise ValueError "pair gross notional must be finite".
Proof.
  intros Hv. unfold from_matched_legs, from_legs, new_pair_gross, _nonnegative, _finite. simpl. rewrite Hv. simpl.
  rewrite (fadd_zero_l (fabs v)) by apply fabs_sign.
  destruct (isfinite (fadd (fabs v) (fabs v))) eqn:E; simpl; [|done].
  assert (nonneg (fadd (fabs v) (fabs v)) = true) as Hn
    by (apply positive_nonneg, fadd_nonneg; rewrite ?fabs_finite; auto using fabs_sign).
  apply negb_true_iff in Hn. by rewrite Hn.
Qed.

Lemma gross_is_exact v : isfinite v = true -> nonneg v = true -> isfinite (fadd (fabs v) (fabs v)) = true ->
  isclose (flit "1e-12") (flit "1e-9") (fadd (fabs v) (fabs v)) (fadd v v) = true.
Proof.
  intros Hf Hn Hs. unfold isclose. destruct (nonneg_cases v Hf Hn) as [E|E].
  - rewrite E in *. by rewrite feq_refl by (by apply finite_not_nan).
  - subst v. reflexivity.
Qed.

(** ** Theorems *)

Definition usd_ok (v : float) : bool := isfinite v && nonneg v.

(** [matched] builds a bundle exactly when its three amounts are finite and
    non-negative and twice the leg notional is representable; the bundle carries the amounts as
    given with the doubled leg as gross, so the consistency check of the bundle never rejects it. *)
Theorem matched_total l c m :
  matched l c m <> raise ValueError "pair gross must equal both absolute leg notionals" /\
  match matched l c m with
  | Ok s => usd_ok l && isfinite (fadd (fabs l) (fabs l)) && usd_ok c && usd_ok m = true /\
            s = Snapshot (Leg l) (Leg l) (PairGross (fadd (fabs l) (fabs l))) (Collateral c) (MarginExposure m)
  | Err e => usd_ok l && isfinite (fadd (fabs l) (fabs l)) && usd_ok c && usd_ok m = false /\ exn_class e = ValueError
  end.
Proof.
  unfold matched, new_leg, new_collateral, new_margin_exposure, usd_ok.
  destruct (_nonnegative_cases l "leg notional") as [(-> & Fl & Nl)|[[why ->] ->]]; [|by repeat split].
  simpl. rewrite gross_of_matched, Fl, Nl by done. simpl.
  destruct (isfinite (fadd (fabs l) (fabs l))) eqn:Es; simpl; [|by repeat split].
  destruct (_nonnegative_cases c "collateral") as [(-> & -> & ->)|[[why ->] ->]]; [|by repeat split]. simpl.
  destruct (_nonnegative_cases m "margin exposure") as [(-> & -> & ->)|[[why ->] ->]]; [|by repeat split]. simpl.
  unfold new_snapshot. simpl. by rewrite gross_is_exact.
Qed.

(** Taking the opposite direction negates the cash flow of a settlement bit
    for bit, with the same errors; rounding favours neither side. *)
Theorem cashflow_reversal r leg sign p :
  cashflow_usd r leg (fneg sign) p = res_map fneg (cashflow_usd r leg sign p).
Proof.
  unfold cashflow_usd. destruct (match leg with LegOf l => Ok (leg_value l) | LegFloat v => _ end) as [n|e]; [|done].
  simpl. unfold _finite. rewrite fneg_finite. destruct (isfinite sign); simpl; [|done].
  destruct (isfinite p); simpl; [|done]. destruct (negb _); [done|]. simpl. by rewrite fmul_neg_r, !fmul_neg_l.
Qed.
