(* ===== verification/Incidents.v ===== *)
(** * Supervisor incidents

    Model of [src/bongus/supervisor/incidents.py]: the incident table and its audit
    trail, the operations of the coordinator and the loop over the due incidents.
    The two tables are the state; a transaction that raises leaves them as they were.
    A time is its UTC instant in microseconds (its ISO text sorts the same way), [now]
    is an argument, and a [uuid4] is an argument too.  A recovery handler is a
    function of the claimed incident; a call it makes to the coordinator itself is a
    further operation of the history.  Evidence is kept as the value read back from
    its JSON column. *)
From Stdlib Require Import ZArith Lia Ascii SpecFloat.
From stdpp Require Import base list strings sets.
From S2P Require Import Prelude PyDecimal PyFloat PyTime PyValue.
Open Scope Z_scope.

(** ** Data *)

Inductive IncidentSeverity := INFO | WARNING | CRITICAL.
Inductive IncidentScope := SYMBOL | SERVICE | VENUE | GLOBAL.
Inductive IncidentState := OPEN | RECOVERING | WAITING | ACK_REQUIRED | EXHAUSTED | RESOLVED.

#[export] Instance IncidentSeverity_eq_dec : EqDecision IncidentSeverity.
Proof. solve_decision. Defined.
#[export] Instance IncidentScope_eq_dec : EqDecision IncidentScope.
Proof. solve_decision. Defined.
#[export] Instance IncidentState_eq_dec : EqDecision IncidentState.
Proof. solve_decision. Defined.

Definition incident_state_value (s : IncidentState) : string :=
  match s with
  | OPEN => "OPEN" | RECOVERING => "RECOVERING" | WAITING => "WAITING"
  | ACK_REQUIRED => "ACK_REQUIRED" | EXHAUSTED => "EXHAUSTED" | RESOLVED => "RESOLVED"
  end.

Definition _SEVERITY_ORDER (s : IncidentSeverity) : Z :=
  match s with INFO => 0 | WARNING => 1 | CRITICAL => 2 end.

Record IncidentObservation := Observation {
  o_incident_key : string;
  o_category : string;
  o_scope_type : IncidentScope;
  o_scope_value : string;
  o_severity : IncidentSeverity;
  o_owner : string;
  o_recipe_id : string;
  o_max_attempts : Z;
  o_requires_ack : bool;
  o_evidence : dict pyval
}.

Record RecoveryResult := Recovery {
  success : bool;
  invariants_proven : bool;
  r_note : string;
  r_evidence : dict pyval
}.

(** A row of [supervisor_incidents]. *)
Record incident := Incident {
  incident_id : string;
  incident_key : string;
  category : string;
  scope_type : IncidentScope;
  scope_value : string;
  severity : IncidentSeverity;
  owner : string;
  i_recipe_id : string;
  state : IncidentState;
  occurrences : Z;
  attempt_count : Z;
  max_attempts : Z;
  next_attempt_at : option Z;
  requires_ack : bool;
  last_error : string;
  i_evidence : dict pyval;
  opened_at : Z;
  updated_at : Z;
  resolved_at : option Z;
  acknowledged_at : option Z;
  acknowledged_by : string;
  version : Z
}.

(** A row of [supervisor_incident_events], without its random key. *)
Record event := Event {
  e_incident_id : string;
  e_time : Z;
  e_type : string;
  e_actor : string;
  e_prior_state : string;
  e_next_state : string;
  e_note : string;
  e_details : dict pyval
}.

Record store := Store { incidents : list incident; events : list event }.

(** [RecoveryRecipe]; [Err] stands for an exception of the handler. *)
Record RecoveryRecipe := Recipe {
  recipe_id : string;
  handler : incident -> result RecoveryResult;
  base_backoff_seconds : float;
  max_backoff_seconds : float;
  auto_resolve_allowed : bool
}.

Definition transition_error {A} (msg : string) : result A := raise IncidentTransitionError msg.

(** ** JSON columns *)

(** What [json.loads] reads back from [json.dumps(v, sort_keys=True)]. *)
Fixpoint reread (v : pyval) : pyval :=
  match v with
  | VList l => VList (map reread l)
  | VDict d => VDict (sort_by key_leb (map (fun kv => (fst kv, reread (snd kv))) d))
  | _ => v
  end.

Definition stored_json (d : dict pyval) : result (dict pyval) :=
  let! _ := json_dumps false (VDict d) in
  Ok (sort_by key_leb (map (fun kv => (fst kv, reread (snd kv))) d)).

(** [a.update(b)] *)
Definition merged (a b : dict pyval) : dict pyval := fold_left (fun d kv => dict_set d (fst kv) (snd kv)) b a.

(** ** The tables *)

(** [BEGIN IMMEDIATE ... commit()], rolled back on an exception. *)
Definition transaction {A} (body : M store A) : M store A := fun s =>
  match body s with
  | (Ok a, s') => (Ok a, s')
  | (Err e, _) => (Err e, s)
  end.

Definition get_incident (id : string) (s : store) : option incident :=
  List.find (fun r => String.eqb (incident_id r) id) (incidents s).

(** [UPDATE supervisor_incidents SET ... WHERE incident_id = ?] *)
Definition update_incident (id : string) (f : incident -> incident) : M store unit := fun s =>
  (Ok tt, Store (map (fun r => if String.eqb (incident_id r) id then f r else r) (incidents s)) (events s)).

Definition is_active (r : incident) : bool := negb (bool_decide (state r = RESOLVED)).

(** [INSERT], with the primary key and the unique index on the active keys. *)
Definition insert_incident (r : incident) : M store unit := fun s =>
  if existsb (fun x => String.eqb (incident_id x) (incident_id r)) (incidents s)
  then (raise IntegrityError "UNIQUE constraint failed: supervisor_incidents.incident_id", s)
  else if is_active r && existsb (fun x => is_active x && String.eqb (incident_key x) (incident_key r)) (incidents s)
  then (raise IntegrityError "UNIQUE constraint failed: supervisor_incidents.incident_key", s)
  else (Ok tt, Store (incidents s ++ [r]) (events s)).

Definition _append_event (id : string) (time : Z) (type actor prior next note : string) (details : dict pyval)
    : M store unit := fun s =>
  match stored_json details with
  | Err e => (Err e, s)
  | Ok d => (Ok tt, Store (incidents s) (events s ++ [Event id time type actor prior next note d]))
  end.

(** ** Startup *)

Definition interrupted_state (r : incident) : IncidentState :=
  if max_attempts r <=? attempt_count r then EXHAUSTED else WAITING.

Definition set_interrupted (now : Z) (r : incident) : incident :=
  if bool_decide (state r = RECOVERING) then
    Incident (incident_id r) (incident_key r) (category r) (scope_type r) (scope_value r) (severity r) (owner r)
      (i_recipe_id r) (interrupted_state r) (occurrences r) (attempt_count r) (max_attempts r)
      (if max_attempts r <=? attempt_count r then None else Some now) (requires_ack r)
      "recovery interrupted by supervisor restart" (i_evidence r) (opened_at r) now (resolved_at r)
      (acknowledged_at r) (acknowledged_by r) (version r + 1)
  else r.

Fixpoint interrupt_rows (now : Z) (rows : list incident) : M store unit :=
  match rows with
  | [] => m_ret tt
  | r :: rows' =>
      do! _ := update_incident (incident_id r) (set_interrupted now) in
      do! _ := _append_event (incident_id r) now "ATTEMPT_INTERRUPTED" "coordinator_startup"
                 (incident_state_value RECOVERING) (incident_state_value (interrupted_state r))
                 "claimed recovery was interrupted by supervisor restart"
                 [("attempt", VInt (attempt_count r)); ("max_attempts", VInt (max_attempts r))] in
      interrupt_rows now rows'
  end.

Definition _recover_interrupted_attempts (now : Z) : M store unit :=
  transaction (fun s =>
    interrupt_rows now (List.filter (fun r => bool_decide (state r = RECOVERING)) (incidents s)) s).

Definition register_recipe (recipe : RecoveryRecipe) (recipes : dict RecoveryRecipe) : result (dict RecoveryRecipe) :=
  if negb (nonempty (strip (recipe_id recipe))) then raise ValueError "recipe_id is required"
  else if flt (base_backoff_seconds recipe) fzero || flt (max_backoff_seconds recipe) (base_backoff_seconds recipe)
  then raise ValueError "invalid recipe backoff"
  else Ok (dict_set recipes (recipe_id recipe) recipe).

(** ** Observation *)

Definition _validate_observation (o : IncidentObservation) : result unit :=
  if negb (nonempty (strip (o_incident_key o))) then raise ValueError "incident_key is required"
  else if negb (nonempty (strip (o_category o))) then raise ValueError "category is required"
  else if negb (nonempty (strip (o_owner o))) then raise ValueError "owner is required"
  else if negb (nonempty (strip (o_recipe_id o))) then raise ValueError "recipe_id is required"
  else if o_max_attempts o <? 1 then raise ValueError "max_attempts must be positive"
  else if bool_decide (o_scope_type o = GLOBAL) then
    if nonempty (strip (o_scope_value o)) then raise ValueError "global incidents must not carry a scope value"
    else Ok tt
  else if negb (nonempty (strip (o_scope_value o))) then raise ValueError "non-global incidents require a scope value"
  else Ok tt.

Definition opened (id : string) (o : IncidentObservation) (evidence : dict pyval) (t : Z) : incident :=
  Incident id (o_incident_key o) (o_category o) (o_scope_type o) (o_scope_value o) (o_severity o) (o_owner o)
    (o_recipe_id o) OPEN 1 0 (o_max_attempts o) (Some t) (o_requires_ack o) "" evidence t t None None "" 1.

Definition max_severity (a b : IncidentSeverity) : IncidentSeverity :=
  if _SEVERITY_ORDER a <? _SEVERITY_ORDER b then b else a.

Definition set_reobserved (o : IncidentObservation) (evidence : dict pyval) (t : Z) (r : incident) : incident :=
  Incident (incident_id r) (incident_key r) (category r) (scope_type r) (scope_value r)
    (max_severity (severity r) (o_severity o)) (o_owner o) (i_recipe_id r) (state r) (occurrences r + 1)
    (attempt_count r) (max_attempts r) (next_attempt_at r) (requires_ack r || o_requires_ack o) (last_error r)
    evidence (opened_at r) t (resolved_at r) (acknowledged_at r) (acknowledged_by r) (version r + 1).

Definition active_incident (key : string) (s : store) : option incident :=
  List.find (fun r => String.eqb (incident_key r) key && is_active r) (incidents s).

Definition observe_body (o : IncidentObservation) (new_id actor : string) (t : Z) : M store string := fun s =>
  match active_incident (o_incident_key o) s with
  | None =>
      (do! evidence := m_lift (stored_json (o_evidence o)) in
       do! _ := insert_incident (opened new_id o evidence t) in
       do! _ := _append_event new_id t "OBSERVED" actor "" (incident_state_value OPEN) "incident opened" (o_evidence o) in
       m_ret new_id) s
  | Some r =>
      (do! evidence := m_lift (stored_json (merged (i_evidence r) (o_evidence o))) in
       do! _ := update_incident (incident_id r) (set_reobserved o evidence t) in
       do! _ := _append_event (incident_id r) t "REOBSERVED" actor (incident_state_value (state r))
                  (incident_state_value (state r)) "active incident observed again" (o_evidence o) in
       m_ret (incident_id r)) s
  end.

(** [self.get(incident_id)] after a commit. *)
Definition fetch (missing : result incident) (id : string) : M store incident := fun s =>
  match get_incident id s with Some r => (Ok r, s) | None => (missing, s) end.

Definition observe (o : IncidentObservation) (new_id actor : string) (t : Z) : M store incident :=
  do! _ := m_lift (_validate_observation o) in
  do! id := transaction (observe_body o new_id actor t) in
  fetch (transition_error "incident vanished after commit") id.

(** ** The due incidents *)

Definition severity_rank (s : IncidentSeverity) : Z := match s with CRITICAL => 0 | WARNING => 1 | INFO => 2 end.

(** [ORDER BY CASE severity ..., opened_at, incident_id] *)
Definition due_leb (a b : incident) : bool :=
  let ra := severity_rank (severity a) in let rb := severity_rank (severity b) in
  (ra <? rb) || ((ra =? rb) && ((opened_at a <? opened_at b)
    || ((opened_at a =? opened_at b) && String.leb (incident_id a) (incident_id b)))).

Definition limited {A} (limit : Z) (l : list A) : list A := firstn (Z.to_nat (Z.max 1 limit)) l.

Definition is_due (now : Z) (r : incident) : bool :=
  bool_decide (state r ∈ [OPEN; WAITING]) && (attempt_count r <? max_attempts r)
  && match next_attempt_at r with None => true | Some t => t <=? now end.

Definition due (now limit : Z) (s : store) : list incident :=
  limited limit (sort_by due_leb (List.filter (is_due now) (incidents s))).

Definition list_active (limit : Z) (s : store) : list incident :=
  limited limit (sort_by due_leb (List.filter is_active (incidents s))).

(** ** An attempt *)

Definition set_claimed (now : Z) (r : incident) : incident :=
  Incident (incident_id r) (incident_key r) (category r) (scope_type r) (scope_value r) (severity r) (owner r)
    (i_recipe_id r) RECOVERING (occurrences r) (attempt_count r + 1) (max_attempts r) (next_attempt_at r)
    (requires_ack r) (last_error r) (i_evidence r) (opened_at r) now (resolved_at r) (acknowledged_at r)
    (acknowledged_by r) (version r + 1).

Definition _claim (id : string) (now : Z) : M store (option incident) := fun s =>
  match get_incident id s with
  | None => (Ok None, s)
  | Some r =>
      if negb (bool_decide (state r ∈ [OPEN; WAITING])) then (Ok None, s)
      else if max_attempts r <=? attempt_count r then (Ok None, s)
      else
        (do! _ := transaction (
           do! _ := update_incident id (set_claimed now) in
           _append_event id now "ATTEMPT_STARTED" "coordinator" (incident_state_value (state r))
             (incident_state_value RECOVERING) "bounded recovery attempt started"
             [("attempt", VInt (attempt_count r + 1))]) in
         fun s' => (Ok (get_incident id s'), s')) s
  end.

Definition backoff_delay (base ceiling : float) (attempts : Z) : result float :=
  let! factor := float_of_Z (2 ^ Z.max 0 (attempts - 1)) in
  Ok (fmin ceiling (fmul base factor)).

(** [(next_state, next_attempt_at, resolved_at)] of a finished attempt. *)
Definition attempt_outcome (current : incident) (outcome : RecoveryResult) (recipe : option RecoveryRecipe) (now : Z)
    : result (IncidentState * option Z * option Z) :=
  let needs_ack := requires_ack current || bool_decide (severity current = CRITICAL) in
  if success outcome && invariants_proven outcome then
    match recipe with
    | Some rc => if needs_ack || negb (auto_resolve_allowed rc) then Ok (ACK_REQUIRED, None, None)
                 else Ok (RESOLVED, None, Some now)
    | None => Ok (ACK_REQUIRED, None, None)
    end
  else if max_attempts current <=? attempt_count current then Ok (EXHAUSTED, None, None)
  else
    let base := match recipe with Some rc => base_backoff_seconds rc | None => flit "30.0" end in
    let ceiling := match recipe with Some rc => max_backoff_seconds rc | None => flit "1800.0" end in
    let! delay := backoff_delay base ceiling (attempt_count current) in
    let! us := timedelta_seconds delay in
    let! at_ := plus_delta now us in
    Ok (WAITING, Some at_, None).

Definition set_finished (st : IncidentState) (next resolved : option Z) (error : string) (evidence : dict pyval)
    (now : Z) (r : incident) : incident :=
  Incident (incident_id r) (incident_key r) (category r) (scope_type r) (scope_value r) (severity r) (owner r)
    (i_recipe_id r) st (occurrences r) (attempt_count r) (max_attempts r) next (requires_ack r) error evidence
    (opened_at r) now resolved (acknowledged_at r) (acknowledged_by r) (version r + 1).

(** The part after the claim: [current] is the row as it was read. *)
Definition finish_claimed (current : incident) (outcome : RecoveryResult) (recipe : option RecoveryRecipe) (now : Z)
    : M store incident :=
  let id := incident_id current in
  let evidence := dict_set (merged (i_evidence current) (r_evidence outcome)) "invariants_proven"
                    (VBool (invariants_proven outcome)) in
  do! next_row := m_lift (attempt_outcome current outcome recipe now) in
  let '(st, next, resolved) := next_row in
  do! _ := transaction (fun s =>
    match get_incident id s with
    | Some r =>
        if negb (bool_decide (state r = RECOVERING))
        then (transition_error "incident is not in a recoverable claimed state", s)
        else
          (do! evidence := m_lift (stored_json evidence) in
           do! _ := update_incident id (set_finished st next resolved
                      (if success outcome then "" else r_note outcome) evidence now) in
           _append_event id now (if success outcome then "ATTEMPT_SUCCEEDED" else "ATTEMPT_FAILED") "coordinator"
             (incident_state_value RECOVERING) (incident_state_value st) (r_note outcome)
             (merged [("invariants_proven", VBool (invariants_proven outcome))] (r_evidence outcome))) s
    | None => (transition_error "incident is not in a recoverable claimed state", s)
    end) in
  fetch (raise AssertionError "") id.

Definition _finish_attempt (id : string) (outcome : RecoveryResult) (recipe : option RecoveryRecipe) (now : Z)
    : M store incident := fun s =>
  match get_incident id s with
  | None => (transition_error "unknown incident", s)
  | Some current =>
      if bool_decide (state current = RECOVERING) then finish_claimed current outcome recipe now s
      else
        (do! claimed := _claim id now in
         match claimed with
         | None => m_ret current
         | Some current => finish_claimed current outcome recipe now
         end) s
  end.

Definition exn_name (k : exn_kind) : string :=
  match k with
  | ValueError => "ValueError" | TypeError => "TypeError" | KeyError => "KeyError" | RuntimeError => "RuntimeError"
  | OverflowError => "OverflowError" | OSError => "OSError" | AssertionError => "AssertionError" | AttributeError => "AttributeError"
  | IntegrityError => "IntegrityError" | ExecutionInvariantError => "ExecutionInvariantError"
  | IncidentTransitionError => "IncidentTransitionError"
  | LedgerValidationError => "LedgerValidationError" | LedgerIdempotencyConflict => "LedgerIdempotencyConflict"
  | ExchangeStatementValidationError => "ExchangeStatementValidationError"
  | ExchangeStatementIdempotencyConflict => "ExchangeStatementIdempotencyConflict"
  | ExecutionProtocolError => "ExecutionProtocolError" | TelemetryProtocolError => "TelemetryProtocolError"
  | TelemetryAcknowledgementError => "TelemetryAcknowledgementError" | LiveApprovalError => "LiveApprovalError"
  | ReservationError => "ReservationError" | IncompleteExchangeMetadata => "IncompleteExchangeMetadata"
  | InvalidOperation => "InvalidOperation" | DivisionByZero => "DivisionByZero" | Overflow => "Overflow"
  end.

Definition recipe_outcome (rc : RecoveryRecipe) (claimed : incident) : RecoveryResult :=
  match handler rc claimed with
  | Ok outcome => outcome
  | Err e => Recovery false false ("recipe raised " +:+ exn_name (exn_class e) +:+ ": " +:+ exn_message e) []
  end.

(** One iteration of [run_due]; a row that was taken meanwhile is skipped. *)
Definition run_one (recipes : dict RecoveryRecipe) (now : Z) (r : incident) : M store (option incident) :=
  let id := incident_id r in
  match dict_get recipes (i_recipe_id r) with
  | None =>
      do! x := _finish_attempt id (Recovery false false "recovery recipe is not registered" []) None now in
      m_ret (Some x)
  | Some rc =>
      do! claimed := _claim id now in
      match claimed with
      | None => m_ret None
      | Some c => do! x := _finish_attempt id (recipe_outcome rc c) (Some rc) now in m_ret (Some x)
      end
  end.

Fixpoint run_rows (recipes : dict RecoveryRecipe) (now : Z) (rows : list incident) : M store (list incident) :=
  match rows with
  | [] => m_ret []
  | r :: rows' =>
      do! x := run_one recipes now r in
      do! xs := run_rows recipes now rows' in
      m_ret (match x with Some i => i :: xs | None => xs end)
  end.

Definition run_due (recipes : dict RecoveryRecipe) (now limit : Z) : M store (list incident) := fun s =>
  run_rows recipes now (due now limit s) s.

(** ** Acknowledgement *)

Definition set_acknowledged (by_ : string) (t : Z) (r : incident) : incident :=
  Incident (incident_id r) (incident_key r) (category r) (scope_type r) (scope_value r) (severity r) (owner r)
    (i_recipe_id r) RESOLVED (occurrences r) (attempt_count r) (max_attempts r) (next_attempt_at r) (requires_ack r)
    (last_error r) (i_evidence r) (opened_at r) t (Some t) (Some t) by_ (version r + 1).

Definition acknowledge (id by_ note : string) (t : Z) : M store incident :=
  if negb (nonempty (strip by_)) then m_lift (transition_error "acknowledged_by is required")
  else
    do! _ := transaction (fun s =>
      match get_incident id s with
      | Some r =>
          if negb (bool_decide (state r = ACK_REQUIRED))
          then (transition_error "incident is not awaiting acknowledgement", s)
          else if negb (truthy (get (i_evidence r) "invariants_proven"))
          then (transition_error "cannot acknowledge without invariant proof", s)
          else
            (do! _ := update_incident id (set_acknowledged by_ t) in
             _append_event id t "ACKNOWLEDGED" by_ (incident_state_value ACK_REQUIRED)
               (incident_state_value RESOLVED) note []) s
      | None => (transition_error "incident is not awaiting acknowledgement", s)
      end) in
    fetch (raise AssertionError "") id.

(** ** Histories *)

(** The operations of a coordinator.  [OClaim] and [OFinish] are the two halves of an
    attempt, so a history may interleave other operations between them. *)
Inductive op :=
  | OObserve (o : IncidentObservation) (new_id actor : string) (t : Z)
  | OClaim (id : string) (now : Z)
  | OFinish (id : string) (outcome : RecoveryResult) (recipe : option RecoveryRecipe) (now : Z)
  | ORunDue (recipes : dict RecoveryRecipe) (now limit : Z)
  | OAcknowledge (id by_ note : string) (t : Z)
  | ORestart (now : Z).

Definition run_op (p : op) (s : store) : store :=
  match p with
  | OObserve o new_id actor t => snd (observe o new_id actor t s)
  | OClaim id now => snd (_claim id now s)
  | OFinish id outcome recipe now => snd (_finish_attempt id outcome recipe now s)
  | ORunDue recipes now limit => snd (run_due recipes now limit s)
  | OAcknowledge id by_ note t => snd (acknowledge id by_ note t s)
  | ORestart now => snd (_recover_interrupted_attempts now s)
  end.

Definition run (l : list op) (s : store) : store := fold_left (fun s p => run_op p s) l s.

Definition empty_store : store := Store [] [].
