(* ===== verification/IncidentsFacts.v ===== *)
(** * Properties of the incidents

    No incident is resolved without a successful recovery attempt that proved the
    invariants, nor a critical one without an acknowledgement; the attempts recorded
    in the audit trail are counted and bounded by the budget, across restarts. *)
From Stdlib Require Import ZArith Lia Ascii SpecFloat.
From stdpp Require Import base list strings sets.
From S2P Require Import Prelude PyDecimal PyFloat PyTime PyValue Incidents.
Open Scope Z_scope.

(** ** Reading back evidence *)

Lemma dict_get_insert_by {V} k (v : V) d k' :
  dict_get (insert_by key_leb (k, v) d) k' = if String.eqb k' k then Some v else dict_get d k'.
Proof.
  induction d as [|[k0 v0] d IH]; simpl; [done|]. destruct (key_leb (k, v) (k0, v0)) eqn:E; simpl; [done|].
  rewrite IH. destruct (String.eqb_spec k' k0) as [->|]; [|done].
  destruct (String.eqb_spec k0 k) as [->|]; [|done]. unfold key_leb in E. simpl in E. by rewrite string_leb_refl in E.
Qed.

Lemma dict_get_sort_by {V} (d : dict V) k : dict_get (sort_by key_leb d) k = dict_get d k.
Proof. induction d as [|[k0 v0] d IH]; simpl; [done|]. by rewrite dict_get_insert_by, IH. Qed.

Lemma dict_get_map {V W} (f : V -> W) (d : dict V) k :
  dict_get (map (fun kv => (fst kv, f (snd kv))) d) k = f <$> dict_get d k.
Proof. induction d as [|[k0 v0] d IH]; simpl; [done|]. by destruct (String.eqb k k0). Qed.

Lemma stored_json_get d d' k : stored_json d = Ok d' -> get d' k = reread (get d k).
Proof.
  unfold stored_json. intros H. res_inv H. unfold get, get_or. rewrite dict_get_sort_by, dict_get_map.
  by destruct (dict_get d k).
Qed.

(** ** The tables *)

Definition keeps_id (f : incident -> incident) : Prop := forall r, incident_id (f r) = incident_id r.

Lemma get_update id f s s' id' : keeps_id f -> update_incident id f s = (Ok tt, s') ->
  get_incident id' s' = (if String.eqb id' id then f <$> get_incident id s else get_incident id' s) /\ events s' = events s.
Proof.
  intros Hf [= <-]. split; [|done]. unfold get_incident. simpl.
  induction (incidents s) as [|r rows IH]; simpl; [by destruct (String.eqb id' id)|].
  destruct (String.eqb_spec (incident_id r) id) as [E|E]; simpl.
  - rewrite Hf, E. destruct (String.eqb_spec id id') as [->|]; [by rewrite !String.eqb_refl|].
    rewrite IH. destruct (String.eqb_spec id' id); [congruence|done].
  - destruct (String.eqb_spec (incident_id r) id') as [E'|]; [|done].
    destruct (String.eqb_spec id' id); [congruence|done].
Qed.

Lemma update_ids id f s s' : keeps_id f -> update_incident id f s = (Ok tt, s') ->
  map incident_id (incidents s') = map incident_id (incidents s).
Proof.
  intros Hf [= <-]. simpl. rewrite map_map. apply map_ext. intros r. by destruct (String.eqb (incident_id r) id).
Qed.

(** With distinct identifiers every row is the one found under its own. *)
Lemma get_own r s : NoDup (map incident_id (incidents s)) -> r ∈ incidents s -> get_incident (incident_id r) s = Some r.
Proof.
  unfold get_incident. induction (incidents s) as [|x rows IH]; simpl; intros Hn Hin; [set_solver|].
  apply NoDup_cons in Hn as [Hx Hn]. apply elem_of_cons in Hin as [<-|Hin]; [by rewrite String.eqb_refl|].
  destruct (String.eqb_spec (incident_id x) (incident_id r)) as [E|]; [|by apply IH].
  exfalso. apply Hx. rewrite E. apply list_elem_of_fmap. eauto.
Qed.

Lemma get_incident_id id s r : get_incident id s = Some r -> incident_id r = id.
Proof. intros [_ H]%find_some. by apply String.eqb_eq in H. Qed.

Lemma get_None_ids id s : get_incident id s = None -> id ∉ map incident_id (incidents s).
Proof.
  intros H (r & -> & Hin)%list_elem_of_fmap. apply list_elem_of_In in Hin.
  apply (find_none _ _ H) in Hin. by rewrite String.eqb_refl in Hin.
Qed.

Lemma get_insert r s s' id : insert_incident r s = (Ok tt, s') ->
  get_incident (incident_id r) s = None /\ events s' = events s /\
  get_incident id s' = if String.eqb id (incident_id r) then Some r else get_incident id s.
Proof.
  unfold insert_incident. destruct (existsb _ (incidents s)) eqn:E; [done|]. destruct (_ && _); [done|].
  intros [= <-]. split; [|split; [done|]]; unfold get_incident in *; simpl.
  - destruct (find _ _) as [x|] eqn:F; [|done]. apply find_some in F as [F1 F2].
    rewrite <- not_true_iff_false in E. exfalso. apply E, existsb_exists. eauto.
  - induction (incidents s) as [|x rows IH]; simpl in *.
    + rewrite (String.eqb_sym (incident_id r) id). by destruct (String.eqb id (incident_id r)).
    + apply orb_false_iff in E as [E1 E2]. destruct (String.eqb_spec (incident_id x) id) as [<-|]; [by rewrite E1|].
      by apply IH.
Qed.

Definition is_start (id : string) (e : event) : bool :=
  String.eqb (e_type e) "ATTEMPT_STARTED" && String.eqb (e_incident_id e) id.

(** The attempts of an incident that the audit trail records. *)
Definition started (id : string) (s : store) : Z := Z.of_nat (length (List.filter (is_start id) (events s))).

Lemma append_event_Ok id t ty actor prior next note details s s' :
  _append_event id t ty actor prior next note details s = (Ok tt, s') ->
  incidents s' = incidents s /\
  forall i, started i s' = started i s + if String.eqb ty "ATTEMPT_STARTED" && String.eqb id i then 1 else 0.
Proof.
  unfold _append_event. destruct (stored_json details); [|done]. intros [= <-]. split; [done|]. intros i.
  unfold started. simpl. rewrite List.filter_app, length_app. simpl. unfold is_start at 2. simpl.
  destruct (_ && _); simpl; lia.
Qed.

Lemma transaction_snd {A} (body : M store A) (P : store -> Prop) s :
  P s -> (forall a s', body s = (Ok a, s') -> P s') -> P (snd (transaction body s)).
Proof. unfold transaction. intros H Hb. destruct (body s) as [[a|e] s'] eqn:E; simpl; [by eapply Hb|done]. Qed.

(** ** The invariant *)

Definition good (outcome : RecoveryResult) : Prop := success outcome = true /\ invariants_proven outcome = true.

(** A recovery attempt of the history proved the invariants of the incident. *)
Definition proof_in (l : list op) (id : string) : Prop :=
  (exists outcome recipe t, OFinish id outcome recipe t ∈ l /\ good outcome) \/
  (exists recipes t limit k rc c outcome, ORunDue recipes t limit ∈ l /\ dict_get recipes k = Some rc /\
     incident_id c = id /\ handler rc c = Ok outcome /\ good outcome).

Definition acknowledged_in (l : list op) (r : incident) : Prop :=
  nonempty (strip (acknowledged_by r)) = true /\ exists note t, OAcknowledge (incident_id r) (acknowledged_by r) note t ∈ l.

Definition must_ack (r : incident) : Prop := severity r = CRITICAL \/ requires_ack r = true.

Record row_ok (l : list op) (r : incident) : Prop := {
  ro_attempts : 0 <= attempt_count r <= max_attempts r;
  ro_proof : state r = ACK_REQUIRED \/ state r = RESOLVED -> proof_in l (incident_id r);
  ro_evidence : state r = RESOLVED -> truthy (get (i_evidence r) "invariants_proven") = true;
  ro_ack : state r = RESOLVED -> must_ack r -> acknowledged_in l r
}.

Record inv (l : list op) (s : store) : Prop := {
  inv_ids : NoDup (map incident_id (incidents s));
  inv_rows : forall id r, get_incident id s = Some r -> row_ok l r;
  inv_started : forall id, started id s = match get_incident id s with Some r => attempt_count r | None => 0 end
}.

Lemma proof_in_mono l l' id : l ⊆ l' -> proof_in l id -> proof_in l' id.
Proof.
  intros Hl [(o & rc & t & H & G)|(rs & t & n & k & rc & c & o & H & G)]; [left|right].
  - exists o, rc, t. split; [by apply Hl|done].
  - exists rs, t, n, k, rc, c, o. split; [by apply Hl|done].
Qed.

Lemma row_ok_mono l l' r : l ⊆ l' -> row_ok l r -> row_ok l' r.
Proof.
  intros Hl [A B C D]. split; [done| |done|].
  - intros H. eapply proof_in_mono; eauto.
  - intros H1 H2. destruct (D H1 H2) as (N & note & t & Hin). split; [done|]. exists note, t. by apply Hl.
Qed.

Lemma inv_mono l l' s : l ⊆ l' -> inv l s -> inv l' s.
Proof. intros Hl [I A B]. split; [done| |done]. intros id r H. eapply row_ok_mono; eauto. Qed.

(** One row is replaced and at most one event is recorded. *)
Lemma inv_change l s s1 s2 id f t ty actor prior next note details r :
  inv l s -> get_incident id s = Some r -> keeps_id f -> row_ok l (f r) ->
  attempt_count (f r) = attempt_count r + (if String.eqb ty "ATTEMPT_STARTED" then 1 else 0) ->
  update_incident id f s = (Ok tt, s1) ->
  _append_event id t ty actor prior next note details s1 = (Ok tt, s2) -> inv l s2.
Proof.
  intros [I A B] Hg Hf Hr Hc Hu He. destruct (append_event_Ok _ _ _ _ _ _ _ _ _ _ He) as [Ei Es].
  assert (forall i, get_incident i s2 = if String.eqb i id then Some (f r) else get_incident i s) as Hget.
  { intros i. destruct (get_update _ _ _ _ i Hf Hu) as [Hi _]. rewrite Hg in Hi. unfold get_incident at 1. rewrite Ei. exact Hi. }
  split.
  - rewrite Ei. by rewrite (update_ids _ _ _ _ Hf Hu).
  - intros i x. rewrite Hget. destruct (String.eqb i id); [by intros [= <-]|apply A].
  - intros i. rewrite Es, Hget, (String.eqb_sym id i). destruct (get_update _ _ _ _ i Hf Hu) as [_ Hev].
    unfold started at 1. rewrite Hev. fold (started i s). rewrite B.
    destruct (String.eqb_spec i id) as [->|]; [rewrite Hg, Hc|]; destruct (String.eqb ty _); simpl; lia.
Qed.

Lemma snd_bind_reader {A B} (m : M store A) (f : A -> M store B) s :
  (forall a s', snd (f a s') = s') -> snd (m_bind m f s) = snd (m s).
Proof. intros H. unfold m_bind. destruct (m s) as [[a|e] s']; [apply H|done]. Qed.

Lemma fetch_snd e id s : snd (fetch e id s) = s.
Proof. unfold fetch. by destruct (get_incident id s). Qed.

Lemma keeps_claimed t : keeps_id (set_claimed t). Proof. done. Qed.
Lemma keeps_finished st n rs err ev t : keeps_id (set_finished st n rs err ev t). Proof. done. Qed.
Lemma keeps_acknowledged w t : keeps_id (set_acknowledged w t). Proof. done. Qed.
Lemma keeps_reobserved o ev t : keeps_id (set_reobserved o ev t). Proof. done. Qed.
Lemma keeps_interrupted t : keeps_id (set_interrupted t).
Proof. intros r. unfold set_interrupted. by case_bool_decide. Qed.
#[local] Hint Resolve keeps_claimed keeps_finished keeps_acknowledged keeps_reobserved keeps_interrupted : core.

(** Splits a successful body into its update and its event. *)
Ltac body_inv H :=
  repeat match type of H with
  | m_bind _ _ _ = (Ok _, _) =>
      let x := fresh "x" in let s := fresh "s" in let E := fresh "Hu" in
      apply m_bind_Ok in H; destruct H as (x & s & E & H);
      lazymatch type of x with unit => destruct x | _ => idtac end
  end.

Lemma claim_inv l id now s : inv l s -> inv l (snd (_claim id now s)).
Proof.
  intros H. unfold _claim. destruct (get_incident id s) as [r|] eqn:Eg; [|done].
  destruct (bool_decide (state r ∈ _)) eqn:Est; simpl; [|done].
  destruct (max_attempts r <=? attempt_count r) eqn:Em; [done|]. bool_props.
  rewrite snd_bind_reader by done. apply transaction_snd; [done|]. intros [] s' Hb. body_inv Hb.
  eapply inv_change; [exact H|exact Eg|apply keeps_claimed| | |exact Hu|exact Hb]; [|simpl; lia].
  pose proof (inv_rows _ _ H _ _ Eg) as [A B C D]. split; simpl; [lia|naive_solver..].
Qed.

Lemma claim_result id now s c s' : _claim id now s = (Ok (Some c), s') -> get_incident id s' = Some c.
Proof.
  unfold _claim. destruct (get_incident id s) as [r|]; [|done]. destruct (negb _); [done|].
  destruct (max_attempts r <=? attempt_count r); [done|]. rewrite m_bind_Ok. by intros ([] & s1 & _ & [= Hc <-]).
Qed.

Lemma attempt_outcome_cases cur out rc now st next res :
  attempt_outcome cur out rc now = Ok (st, next, res) ->
  (st = ACK_REQUIRED /\ good out) \/ (st = RESOLVED /\ good out /\ ~ must_ack cur) \/ st = EXHAUSTED \/ st = WAITING.
Proof.
  unfold attempt_outcome, good, must_ack. destruct (success out && invariants_proven out) eqn:E.
  - bool_props. destruct rc as [rc|]; [|intros [= <- <- <-]; auto].
    destruct (requires_ack cur); simpl; [intros [= <- <- <-]; auto|].
    case_bool_decide; simpl; [intros [= <- <- <-]; auto|].
    destruct (auto_resolve_allowed rc); simpl; intros [= <- <- <-]; naive_solver.
  - destruct (max_attempts cur <=? attempt_count cur); [intros [= <- <- <-]; auto|].
    intros Hr. res_inv Hr. auto.
Qed.

Lemma truthy_reread v : truthy (reread v) = truthy v.
Proof.
  destruct v; simpl; try done; [by destruct l|]. destruct d as [|kv d]; [done|]. simpl.
  destruct (sort_by key_leb (map _ d)) as [|y l]; simpl; [done|]. by destruct (key_leb _ y).
Qed.

Lemma finish_claimed_inv l cur out rc now s :
  inv l s -> get_incident (incident_id cur) s = Some cur -> (good out -> proof_in l (incident_id cur)) ->
  inv l (snd (finish_claimed cur out rc now s)).
Proof.
  intros H Hg Hp. unfold finish_claimed, m_bind at 1, m_lift at 1.
  destruct (attempt_outcome cur out rc now) as [[[st next] res]|e] eqn:Eo; [|done].
  rewrite snd_bind_reader by (intros; apply fetch_snd). apply transaction_snd; [done|]. intros [] s' Hb.
  rewrite Hg in Hb. destruct (negb _); [done|]. body_inv Hb. injection Hu as Hev ->.
  eapply inv_change; [exact H|exact Hg|apply keeps_finished| | |exact Hu0|exact Hb];
    [|simpl; destruct (success out); simpl; lia].
  pose proof (inv_rows _ _ H _ _ Hg) as [A B C D]. pose proof (attempt_outcome_cases _ _ _ _ _ _ _ Eo) as Hc.
  split; simpl; [done|naive_solver| |].
  - intros ->. rewrite (stored_json_get _ _ _ Hev), truthy_reread. unfold get, get_or.
    rewrite dict_get_set, String.eqb_refl. simpl. unfold good in Hc. destruct Hc as [[? ?]|[(_ & [_ E] & _)|[?|?]]]; done.
  - intros -> Hm. destruct Hc as [[? ?]|[(_ & _ & Hn)|[?|?]]]; done.
Qed.

Lemma finish_inv l id out rc now s :
  inv l s -> (good out -> proof_in l id) -> inv l (snd (_finish_attempt id out rc now s)).
Proof.
  intros H Hp. unfold _finish_attempt. destruct (get_incident id s) as [cur|] eqn:Eg; [|done].
  case_bool_decide.
  - apply finish_claimed_inv; [done|..]; by rewrite (get_incident_id _ _ _ Eg).
  - unfold m_bind. pose proof (claim_inv l id now s H) as Hi.
    destruct (_claim id now s) as [[[c|]|e] s1] eqn:Ec; [|done..]. simpl in Hi.
    pose proof (claim_result _ _ _ _ _ Ec) as Hc.
    apply finish_claimed_inv; [done|..]; by rewrite (get_incident_id _ _ _ Hc).
Qed.

Lemma observe_inv l o new_id actor t s : inv l s -> inv l (snd (observe o new_id actor t s)).
Proof.
  intros H. unfold observe, m_bind at 1, m_lift at 1. destruct (_validate_observation o) as [[]|e] eqn:Ev; [|done].
  rewrite snd_bind_reader by (intros; apply fetch_snd). apply transaction_snd; [done|]. intros id s' Hb.
  unfold observe_body in Hb. destruct (active_incident (o_incident_key o) s) as [r|] eqn:Ea; body_inv Hb.
  - apply find_some in Ea as [Hin Ha]. apply list_elem_of_In in Hin. injection Hu as _ <-. injection Hb as _ ->.
    pose proof (get_own r s (inv_ids _ _ H) Hin) as Hg.
    eapply inv_change; [exact H|exact Hg|apply keeps_reobserved| | |exact Hu0|exact Hu1]; [|simpl; lia].
    pose proof (inv_rows _ _ H _ _ Hg) as [A B C D]. unfold is_active in Ha. bool_props.
    split; simpl; [done|done|by intros E..].
  - injection Hu as _ <-. injection Hb as _ ->.
    assert (1 <= o_max_attempts o) as Hmax.
    { unfold _validate_observation in Ev. res_inv Ev; bool_props; lia. }
    destruct (append_event_Ok _ _ _ _ _ _ _ _ _ _ Hu1) as [Ei Es].
    pose proof (fun i => get_insert _ _ _ i Hu0) as Hi. simpl in Hi. destruct H as [I A B].
    assert (incidents s1 = incidents s ++ [opened new_id o x t]) as E2.
    { unfold insert_incident in Hu0. destruct (existsb _ (incidents s)); [done|]. destruct (_ && _); [done|]. by injection Hu0 as <-. }
    assert (forall i, get_incident i s' = if String.eqb i new_id then Some (opened new_id o x t) else get_incident i s) as Hget.
    { intros i. destruct (Hi i) as (_ & _ & <-). unfold get_incident. by rewrite Ei. }
    destruct (Hi new_id) as (Hnew & Hev & _). split.
    + rewrite Ei, E2, map_app. apply NoDup_app. split; [done|]. simpl. split; [|apply NoDup_singleton].
      intros y Hy. apply get_None_ids in Hnew. set_solver.
    + intros i r. rewrite Hget. destruct (String.eqb i new_id); [|apply A]. intros [= <-].
      split; simpl; [lia|naive_solver|done|done].
    + intros i. rewrite Es, Hget. unfold started. rewrite Hev. fold (started i s). rewrite B. simpl.
      destruct (String.eqb_spec i new_id) as [->|]; [by rewrite Hnew|]. lia.
Qed.

Lemma acknowledge_inv l id by_ note t s :
  inv l s -> OAcknowledge id by_ note t ∈ l -> inv l (snd (acknowledge id by_ note t s)).
Proof.
  intros H Hl. unfold acknowledge. destruct (nonempty (strip by_)) eqn:En; [|done]. simpl.
  rewrite snd_bind_reader by (intros; apply fetch_snd). apply transaction_snd; [done|]. intros [] s' Hb.
  destruct (get_incident id s) as [r|] eqn:Eg; [|done].
  destruct (bool_decide (state r = ACK_REQUIRED)) eqn:Est; simpl in Hb; [|done].
  destruct (truthy (get (i_evidence r) "invariants_proven")) eqn:Etr; simpl in Hb; [|done]. bool_props. body_inv Hb.
  eapply inv_change; [exact H|exact Eg|apply keeps_acknowledged| | |exact Hu|exact Hb]; [|simpl; lia].
  pose proof (inv_rows _ _ H _ _ Eg) as [A B C D]. split; simpl; [done|auto|done|].
  intros _ _. split; [done|]. exists note, t. simpl. by rewrite (get_incident_id _ _ _ Eg).
Qed.

Lemma interrupted_ok l now r : state r = RECOVERING -> row_ok l r -> row_ok l (set_interrupted now r).
Proof.
  intros E [A B C D]. unfold set_interrupted, interrupted_state. rewrite bool_decide_eq_true_2 by done.
  split; simpl; [done|..]; destruct (max_attempts r <=? attempt_count r); naive_solver.
Qed.

Lemma interrupt_rows_inv l now rows s a s' :
  inv l s -> NoDup (map incident_id rows) ->
  (forall r, r ∈ rows -> get_incident (incident_id r) s = Some r /\ state r = RECOVERING) ->
  interrupt_rows now rows s = (Ok a, s') -> inv l s'.
Proof.
  revert s; induction rows as [|r rows IH]; simpl; intros s H Hn Hr Hb; [by injection Hb as _ <-|].
  apply NoDup_cons in Hn as [Hid Hn]. destruct (Hr r) as [Hg Hs]; [set_solver|]. body_inv Hb.
  apply (IH s1); [|done| |exact Hb].
  - eapply inv_change; [exact H|exact Hg|apply keeps_interrupted| | |exact Hu|exact Hu0].
    + apply interrupted_ok; [done|]. by apply (inv_rows _ _ H _ _ Hg).
    + simpl. unfold set_interrupted. case_bool_decide; simpl; lia.
  - intros r' Hin. destruct (append_event_Ok _ _ _ _ _ _ _ _ _ _ Hu0) as [Ei _].
    assert (incident_id r' <> incident_id r) as Hne by (intros E; apply Hid; rewrite <- E; apply list_elem_of_fmap; eauto).
    destruct (get_update _ _ _ _ (incident_id r') (keeps_interrupted now) Hu) as [Hi _].
    unfold get_incident at 1. rewrite Ei. fold (get_incident (incident_id r') s0). rewrite Hi.
    destruct (String.eqb_spec (incident_id r') (incident_id r)); [done|]. apply Hr. set_solver.
Qed.

Lemma restart_inv l now s : inv l s -> inv l (snd (_recover_interrupted_attempts now s)).
Proof.
  intros H. unfold _recover_interrupted_attempts. apply transaction_snd; [done|]. intros a s' Hb.
  eapply (interrupt_rows_inv l now _ s); [done| | |exact Hb].
  - pose proof (inv_ids _ _ H) as Hn. revert Hn. clear. induction (incidents s) as [|r rows IH]; simpl; [done|].
    intros [Hr Hn]%NoDup_cons. case_bool_decide; simpl; [|auto]. constructor; [|auto].
    intros (x & E & Hx)%list_elem_of_fmap. apply elem_of_filter_bool in Hx as [Hx _]. apply Hr, list_elem_of_fmap. eauto.
  - intros r [Hin Hst]%elem_of_filter_bool. bool_props. split; [|done]. apply get_own; [apply H|done].
Qed.

Lemma run_one_inv l recipes now limit r s :
  ORunDue recipes now limit ∈ l -> inv l s -> inv l (snd (run_one recipes now r s)).
Proof.
  intros Hl H. unfold run_one. destruct (dict_get recipes (i_recipe_id r)) as [rc|] eqn:Erc.
  - unfold m_bind at 1. pose proof (claim_inv l (incident_id r) now s H) as Hi.
    destruct (_claim (incident_id r) now s) as [[[c|]|e] s1] eqn:Ec; [|done..]. simpl in Hi.
    rewrite snd_bind_reader by done. apply finish_inv; [done|]. intros Hgood. right.
    pose proof (get_incident_id _ _ _ (claim_result _ _ _ _ _ Ec)) as Hid.
    unfold recipe_outcome in Hgood. destruct (handler rc c) as [out|e] eqn:Eh; [|by destruct Hgood].
    by exists recipes, now, limit, (i_recipe_id r), rc, c, out.
  - rewrite snd_bind_reader by done. apply finish_inv; [done|]. intros [? _]. done.
Qed.

Lemma run_rows_inv l recipes now limit rows s :
  ORunDue recipes now limit ∈ l -> inv l s -> inv l (snd (run_rows recipes now rows s)).
Proof.
  intros Hl. revert s; induction rows as [|r rows IH]; intros s H; [done|]. simpl. unfold m_bind at 1.
  pose proof (run_one_inv l recipes now limit r s Hl H) as Hi.
  destruct (run_one recipes now r s) as [[x|e] s1]; [|done]. rewrite snd_bind_reader by done. by apply IH.
Qed.

Lemma op_inv l p s : inv l s -> p ∈ l -> inv l (run_op p s).
Proof.
  intros H Hl. destruct p as [o nid actor t|id now|id out rc now|rs now limit|id w note t|now]; simpl.
  - by apply observe_inv.
  - by apply claim_inv.
  - apply finish_inv; [done|]. intros Hg. left. by exists out, rc, now.
  - unfold run_due. by eapply run_rows_inv.
  - by apply acknowledge_inv.
  - by apply restart_inv.
Qed.

Lemma run_inv l : inv l (run l empty_store).
Proof.
  unfold run. induction l as [|p l IH] using rev_ind.
  - split; simpl; [constructor|done|]. intros id. done.
  - rewrite fold_left_app. simpl. apply op_inv; [|set_solver]. eapply inv_mono; [|exact IH]. set_solver.
Qed.

(** ** Theorems *)

(** C31: an incident is resolved only after an attempt that succeeded and
    proved the invariants, whatever operations are interleaved; a critical incident, or one that
    asks for it, also needs an acknowledgement by a named operator. *)
Theorem resolution_is_earned l id r :
  get_incident id (run l empty_store) = Some r -> state r = RESOLVED ->
  proof_in l id /\ truthy (get (i_evidence r) "invariants_proven") = true /\
  (must_ack r -> acknowledged_in l r).
Proof.
  intros Hg Hs. pose proof (inv_rows _ _ (run_inv l) _ _ Hg) as [_ B C D].
  rewrite <- (get_incident_id _ _ _ Hg). auto.
Qed.

(** The attempts of an incident that the audit trail records are exactly
    its attempt count, which never exceeds its budget: restarts, interruptions and repeated
    observations do not refill it. *)
Theorem retry_budget_bounded l id r :
  get_incident id (run l empty_store) = Some r ->
  started id (run l empty_store) = attempt_count r /\ 0 <= attempt_count r <= max_attempts r.
Proof.
  intros Hg. pose proof (run_inv l) as [_ A B]. rewrite B, Hg. split; [done|]. by apply (A _ _ Hg).
Qed.

(** ** A concrete history *)

Definition ex_seen : IncidentObservation :=
  Observation "hedge:BTCUSDT" "exposure" SYMBOL "BTCUSDT" CRITICAL "execution" "verify" 2 false [("delta", VStr "0.5")].

Definition ex_recipe : RecoveryRecipe :=
  Recipe "verify" (fun r => if attempt_count r =? 1 then raise RuntimeError "engine unreachable"
                            else Ok (Recovery true true "flat" [])) (flit "30.0") (flit "1800.0") true.

(** The first attempt fails, the restart finds nothing claimed, the second one proves the invariants. *)
Definition ex_history : list op :=
  [OObserve ex_seen "a1" "detector" 1000000; ORunDue [("verify", ex_recipe)] 2000000 25; ORestart 3000000;
   ORunDue [("verify", ex_recipe)] 4000000 25; ORunDue [("verify", ex_recipe)] 40000000 25;
   OAcknowledge "a1" "operator" "ok" 50000000].

Definition ex_row : incident :=
  match get_incident "a1" (run ex_history empty_store) with Some r => r | None => opened "" ex_seen [] 0 end.

Lemma ex_get : get_incident "a1" (run ex_history empty_store) = Some ex_row.
Proof. vm_compute. reflexivity. Qed.

Lemma resolution_is_earned_witness :
  proof_in ex_history "a1" /\ truthy (get (i_evidence ex_row) "invariants_proven") = true /\
  acknowledged_in ex_history ex_row.
Proof.
  destruct (resolution_is_earned ex_history "a1" ex_row ex_get) as (H1 & H2 & H3); [vm_compute; reflexivity|].
  split; [exact H1|]. split; [exact H2|]. apply H3. left. vm_compute. reflexivity.
Defined.

Lemma retry_budget_bounded_witness :
  started "a1" (run ex_history empty_store) = 2 /\ 0 <= attempt_count ex_row <= max_attempts ex_row.
Proof.
  destruct (retry_budget_bounded ex_history "a1" ex_row ex_get) as [H1 H2].
  split; [|exact H2]. rewrite H1. vm_compute. reflexivity.
Defined.

(** ** Observed limits *)

(** A proof given before a new observation of the incident still counts for the
    acknowledgement after it. *)
Lemma reobserved_is_acknowledgeable :
  let proven := Recipe "verify" (fun _ => Ok (Recovery true true "flat" [])) (flit "30.0") (flit "1800.0") true in
  let l := [OObserve ex_seen "a1" "detector" 1000000; ORunDue [("verify", proven)] 2000000 25;
            OObserve ex_seen "a2" "detector" 3000000; OAcknowledge "a1" "operator" "ok" 4000000] in
  option_map (fun r => (state r, occurrences r)) (get_incident "a1" (run l empty_store)) = Some (RESOLVED, 2).
Proof. vm_compute. reflexivity. Qed.

(** From the 1025th attempt on, the power of two of the backoff is no double: the attempt is not
    recorded as failed and the incident stays claimed. *)
Lemma backoff_overflows cur outcome now s :
  attempt_count cur = 1025 -> attempt_count cur < max_attempts cur -> success outcome = false ->
  finish_claimed cur outcome None now s = (raise OverflowError "int too large to convert to float", s).
Proof.
  intros Hc Hm Hs. unfold finish_claimed, m_bind, m_lift, attempt_outcome. rewrite Hs. simpl.
  destruct (max_attempts cur <=? attempt_count cur) eqn:E; [bool_props; lia|]. rewrite Hc. vm_compute. reflexivity.
Qed.
