(* ===== verification/FundingCalendar.v ===== *)
(** * Funding calendar

    Model of [src/bongus/market_data/funding_calendar.py]: the settlement metadata of
    each symbol, the next settlement by floating-point division of instants, and the
    settlements of a range.  A [datetime] is its UTC instant in microseconds ([_utc] is
    the identity on it) and the clock, where an argument is absent, is the argument
    [now] of the caller.  A rejected row raises after the fields read before it were
    stored, so the operations return the calendar they leave behind. *)
From Stdlib Require Import ZArith Lia Ascii SpecFloat.
From stdpp Require Import base list strings.
From S2P Require Import Prelude PyDecimal PyFloat PyTime PyValue PyCalendar.
Open Scope Z_scope.

Definition DEFAULT_FUNDING_INTERVAL_HOURS : Z := 8.

Record FundingSchedule := Schedule {
  f_symbol : string;
  f_interval_hours : Z;
  rate_cap : option float;
  rate_floor : option float;
  next_funding_time : option Z;
  f_updated_at : option Z
}.

Record FundingCalendar := Calendar {
  default_interval_hours : Z;
  schedules : dict FundingSchedule
}.

(** [FundingCalendar(default_interval_hours)] *)
Definition new_calendar (hours : Z) : result FundingCalendar :=
  if hours <=? 0 then raise ValueError "default funding interval must be positive"
  else Ok (Calendar hours []).

Definition new_schedule (c : FundingCalendar) (symbol : string) : FundingSchedule :=
  Schedule symbol (default_interval_hours c) None None None None.

(** [self._schedules[symbol] = schedule]: the objects of the dictionary are only
    reached through it, so an attribute assignment is a store. *)
Definition set_schedule (s : FundingSchedule) : M FundingCalendar unit := fun c =>
  (Ok tt, Calendar (default_interval_hours c) (dict_set (schedules c) (f_symbol s) s)).

Definition _schedule (symbol : string) : M FundingCalendar FundingSchedule := fun c =>
  let normalized := upper symbol in
  match dict_get (schedules c) normalized with
  | Some s => (Ok s, c)
  | None =>
      let s := new_schedule c normalized in
      (Ok s, Calendar (default_interval_hours c) (dict_set (schedules c) normalized s))
  end.

Definition with_interval (s : FundingSchedule) (h : Z) : FundingSchedule :=
  Schedule (f_symbol s) h (rate_cap s) (rate_floor s) (next_funding_time s) (f_updated_at s).
Definition with_cap (s : FundingSchedule) (x : float) : FundingSchedule :=
  Schedule (f_symbol s) (f_interval_hours s) (Some x) (rate_floor s) (next_funding_time s) (f_updated_at s).
Definition with_floor (s : FundingSchedule) (x : float) : FundingSchedule :=
  Schedule (f_symbol s) (f_interval_hours s) (rate_cap s) (Some x) (next_funding_time s) (f_updated_at s).
Definition with_next (s : FundingSchedule) (t : Z) : FundingSchedule :=
  Schedule (f_symbol s) (f_interval_hours s) (rate_cap s) (rate_floor s) (Some t) (f_updated_at s).
Definition with_updated (s : FundingSchedule) (t : Z) : FundingSchedule :=
  Schedule (f_symbol s) (f_interval_hours s) (rate_cap s) (rate_floor s) (next_funding_time s) (Some t).

(** [value in (None, "")] *)
Definition is_blank (v : pyval) : bool :=
  match v with VNone => true | VStr s => negb (nonempty s) | _ => false end.

(** [str(row.get("symbol") or "").upper()] *)
Definition row_symbol (row : dict pyval) : string := upper (py_str (py_or (get row "symbol") (VStr ""))).

(** The bounds of a funding rate contradict each other. *)
Definition band_inverted (s : FundingSchedule) : bool :=
  match rate_cap s, rate_floor s with
  | Some cap, Some floor => flt cap floor
  | _, _ => false
  end.

(** One row of the funding-info response. *)
Definition update_funding_row (observed_at : Z) (row : dict pyval) : M FundingCalendar unit :=
  let symbol := row_symbol row in
  if negb (nonempty symbol) then m_ret tt
  else
    do! s0 := _schedule symbol in
    let interval_raw := get row "fundingIntervalHours" in
    do! s1 := (if is_blank interval_raw then m_ret s0
               else do! interval := m_lift (py_int interval_raw) in
                    if (interval <=? 0) || (24 <? interval) then
                      m_raise ValueError ("invalid funding interval for " +:+ symbol +:+ ": " +:+ int_str interval)
                    else let s := with_interval s0 interval in do! _ := set_schedule s in m_ret s) in
    let cap_raw := get row "adjustedFundingRateCap" in
    let floor_raw := get row "adjustedFundingRateFloor" in
    do! s2 := (if is_blank cap_raw then m_ret s1
               else do! x := m_lift (py_float cap_raw) in
                    let s := with_cap s1 x in do! _ := set_schedule s in m_ret s) in
    do! s3 := (if is_blank floor_raw then m_ret s2
               else do! x := m_lift (py_float floor_raw) in
                    let s := with_floor s2 x in do! _ := set_schedule s in m_ret s) in
    if band_inverted s3 then m_raise ValueError ("funding floor exceeds cap for " +:+ symbol)
    else set_schedule (with_updated s3 observed_at).

Fixpoint update_funding_info (observed_at : Z) (rows : list (dict pyval)) : M FundingCalendar unit :=
  match rows with
  | [] => m_ret tt
  | row :: rest => do! _ := update_funding_row observed_at row in update_funding_info observed_at rest
  end.

Definition minute_us : Z := 60000000.

Definition update_premium_index (observed_at : Z) (row : dict pyval) : M FundingCalendar unit :=
  let symbol := row_symbol row in
  if negb (nonempty symbol) then m_ret tt
  else
    do! s0 := _schedule symbol in
    let next_time_raw := get row "nextFundingTime" in
    do! s1 := (if is_blank next_time_raw then m_ret s0
               else do! ms := m_lift (py_float next_time_raw) in
                    do! next_time := m_lift (fromtimestamp (fdiv_ieee ms (flit "1000.0"))) in
                    do! oldest := m_lift (plus_delta observed_at (- minute_us)) in
                    if oldest <=? next_time then
                      let s := with_next s0 next_time in do! _ := set_schedule s in m_ret s
                    else m_ret s0) in
    set_schedule (with_updated s1 observed_at).

Definition interval_hours (symbol : string) : M FundingCalendar Z :=
  do! s := _schedule symbol in m_ret (f_interval_hours s).

Definition hour_us : Z := 3600000000.

(** [timedelta(hours=h)] *)
Definition timedelta_hours (h : Z) : result Z := timedelta_us (h * hour_us).

(** The aligned instant after [after] when the exchange gave a settlement time. *)
Definition next_from_candidate (candidate interval after : Z) : result Z :=
  let! n := math_floor (fdiv_ieee (total_seconds (after - candidate)) (total_seconds interval)) in
  let steps := n + 1 in
  let! delta := timedelta_us (interval * steps) in
  let! candidate := plus_delta candidate delta in
  if candidate <=? after then plus_delta candidate interval else Ok candidate.

(** The fallback: alignment to the epoch. *)
Definition next_from_epoch (interval_seconds after : Z) : result Z :=
  let epoch_seconds := trunc_float (total_seconds after) in
  let next_epoch := (epoch_seconds / interval_seconds + 1) * interval_seconds in
  fromtimestamp_int next_epoch.

Definition next_settlement (symbol : string) (after : Z) : M FundingCalendar Z :=
  do! s := _schedule symbol in
  do! interval := m_lift (timedelta_hours (f_interval_hours s)) in
  match next_funding_time s with
  | Some candidate => m_lift (next_from_candidate candidate interval after)
  | None => m_lift (next_from_epoch (f_interval_hours s * 60 * 60) after)
  end.

Definition previous_settlement (symbol : string) (before : Z) : M FundingCalendar Z :=
  do! hours := interval_hours symbol in
  do! interval := m_lift (timedelta_hours hours) in
  do! next := next_settlement symbol before in
  m_lift (plus_delta next (- interval)).

Definition minutes_to_next (symbol : string) (now : Z) : M FundingCalendar float :=
  do! next := next_settlement symbol now in
  m_ret (fmax fzero (fdiv_ieee (total_seconds (next - now)) (flit "60.0"))).

(** The [while] loop; [None] when the fuel is used up. *)
Fixpoint settlements_loop (fuel : nat) (interval end_ max_settlements : Z) (current : Z) (acc : list Z)
  : option (result (list Z)) :=
  match fuel with
  | O => None
  | S fuel' =>
      if current <=? end_ then
        let acc := acc ++ [current] in
        if max_settlements <=? Z.of_nat (length acc) then
          Some (raise ValueError "settlement range exceeds safety limit")
        else
          match plus_delta current interval with
          | Err e => Some (Err e)
          | Ok next => settlements_loop fuel' interval end_ max_settlements next acc
          end
      else Some (Ok acc)
  end.

(** The settlements in [(start, end_]]; each pass of the loop adds one, and the limit
    stops it, so [max_settlements] passes are enough. *)
Definition settlements_between (symbol : string) (start end_ max_settlements : Z)
  : M FundingCalendar (option (list Z)) :=
  if end_ <=? start then m_ret (Some [])
  else if max_settlements <=? 0 then m_raise ValueError "max_settlements must be positive"
  else
    do! hours := interval_hours symbol in
    do! interval := m_lift (timedelta_hours hours) in
    do! current := next_settlement symbol start in
    match settlements_loop (Z.to_nat max_settlements) interval end_ max_settlements current [] with
    | None => m_ret None
    | Some r => m_lift (res_map Some r)
    end.

Definition clamp_rate (symbol : string) (rate : float) : M FundingCalendar float :=
  do! s := _schedule symbol in
  let rate := match rate_cap s with Some cap => fmin rate cap | None => rate end in
  m_ret (match rate_floor s with Some floor => fmax rate floor | None => rate end).

(** A schedule for the snapshot; the two instants as ISO texts. *)
Record ScheduleView := View {
  v_symbol : string;
  v_interval_hours : Z;
  v_rate_cap : option float;
  v_rate_floor : option float;
  v_next_funding_time : option string;
  v_updated_at : option string
}.

Definition snapshot (c : FundingCalendar) : dict ScheduleView :=
  map (fun kv => let s := snd kv in
    (fst kv, View (f_symbol s) (f_interval_hours s) (rate_cap s) (rate_floor s)
               (option_map isoformat (next_funding_time s)) (option_map isoformat (f_updated_at s))))
    (dict_sorted (schedules c)).

(** ** Examples *)

Definition run {A} (m : M FundingCalendar A) (c : FundingCalendar) : FundingCalendar := snd (m c).

(** 2026-07-18 12:00 UTC in milliseconds. *)
Definition ex_calendar : FundingCalendar :=
  run (update_premium_index 1784365200000000 [("symbol", VStr "btcusdt"); ("nextFundingTime", VInt 1784376000000)])
    (run (update_funding_info 1784365200000000
            [[("symbol", VStr "BTCUSDT"); ("fundingIntervalHours", VInt 4); ("adjustedFundingRateCap", VStr "0.003");
              ("adjustedFundingRateFloor", VStr "-0.002")]])
       (Calendar DEFAULT_FUNDING_INTERVAL_HOURS [])).

Example ex_next : fst (next_settlement "BTCUSDT" 1784365200000000 ex_calendar) = Ok 1784376000000000.
Proof. vm_compute. reflexivity. Qed.

Example ex_minutes : fst (minutes_to_next "BTCUSDT" 1784365200000000 ex_calendar) = Ok (flit "180.0").
Proof. vm_compute. reflexivity. Qed.

Example ex_between : fst (settlements_between "BTCUSDT" 1784361600000000 1784390400000000 1000 ex_calendar)
  = Ok (Some [1784376000000000; 1784390400000000]).
Proof. vm_compute. reflexivity. Qed.

Example ex_clamp : fst (clamp_rate "BTCUSDT" (flit "0.01") ex_calendar) = Ok (flit "0.003").
Proof. vm_compute. reflexivity. Qed.
