(* ===== verification/FundingCalendarFacts.v ===== *)
(** * Properties of the funding calendar

    Intervals stay between one hour and a day; the next settlement is the least aligned
    instant after the given one, although it is computed in floating point; a range
    yields exactly its settlements, in order, and its loop ends. *)
From Stdlib Require Import ZArith Lia Ascii SpecFloat Sorted.
From stdpp Require Import base list list_numbers strings.
From S2P Require Import Prelude PyDecimal PyFloat PyFloatFacts PyTime PyTimeFacts PyValue PyCalendar FundingCalendar.
Open Scope Z_scope.

(** ** The schedules *)

Definition schedule_ok (h : Z) (k : string) (s : FundingSchedule) : Prop :=
  f_symbol s = k /\ 1 <= f_interval_hours s <= Z.max h 24.

Definition calendar_ok (c : FundingCalendar) : Prop :=
  1 <= default_interval_hours c /\
  forall k s, dict_get (schedules c) k = Some s -> schedule_ok (default_interval_hours c) k s.

(** A Hoare triple: on calendars with default interval [h], also when it raises. *)
Definition safe {A} (h : Z) (m : M FundingCalendar A) (Q : A -> Prop) : Prop :=
  forall c, calendar_ok c -> default_interval_hours c = h ->
    let '(r, c') := m c in
    calendar_ok c' /\ default_interval_hours c' = h /\ match r with Ok a => Q a | Err _ => True end.

Lemma safe_ret {A} h (a : A) (Q : A -> Prop) : Q a -> safe h (m_ret a) Q.
Proof. by intros HQ c H. Qed.
Lemma safe_raise {A} h k msg (Q : A -> Prop) : safe h (m_raise k msg) Q.
Proof. by intros c H. Qed.
Lemma safe_lift {A} h (r : result A) : safe h (m_lift r) (fun a => r = Ok a).
Proof. intros c H Hd. cbn. by destruct r. Qed.

Lemma safe_bind {A B} h (m : M FundingCalendar A) (f : A -> M FundingCalendar B) P Q :
  safe h m P -> (forall a, P a -> safe h (f a) Q) -> safe h (m_bind m f) Q.
Proof.
  intros Hm Hf c Hc Hd. unfold m_bind. specialize (Hm c Hc Hd). destruct (m c) as [[a|e] c'].
  - destruct Hm as (H1 & H2 & H3). exact (Hf a H3 c' H1 H2).
  - done.
Qed.

Lemma safe_weaken {A} h (m : M FundingCalendar A) (P Q : A -> Prop) : safe h m P -> (forall a, P a -> Q a) -> safe h m Q.
Proof.
  intros Hm HPQ c Hc Hd. specialize (Hm c Hc Hd). destruct (m c) as [[a|e] c']; [|done].
  destruct Hm as (H1 & H2 & H3). auto.
Qed.

Lemma safe_set h s k : schedule_ok h k s -> safe h (set_schedule s) (fun _ => True).
Proof.
  intros Hs c (H1 & H2) <-. cbn. split; [|done]. split; [done|]. cbn. intros k' s'.
  destruct Hs as (Ek & Hs). rewrite dict_get_set. destruct (String.eqb_spec k' (f_symbol s)) as [E|E]; [|apply H2].
  intros [= <-]. by split.
Qed.

Lemma new_schedule_ok c k : 1 <= default_interval_hours c -> schedule_ok (default_interval_hours c) k (new_schedule c k).
Proof. intros H. split; [done|]. cbn. lia. Qed.

Lemma safe_schedule h symbol : safe h (_schedule symbol) (schedule_ok h (upper symbol)).
Proof.
  intros c (H1 & H2) <-. unfold _schedule. destruct (dict_get (schedules c) (upper symbol)) as [s|] eqn:E.
  - split; [done|]. split; [done|]. by apply H2.
  - pose proof (new_schedule_ok c (upper symbol) H1) as Hn. split; [|done]. split; [done|]. cbn. intros k s.
    rewrite dict_get_set. destruct (String.eqb_spec k (upper symbol)) as [->|Hne]; [by intros [= <-]|apply H2].
Qed.

(** One assignment of a row: what it stores is well formed. *)
Lemma safe_assign {A} h k s blank (r : result A) (set : FundingSchedule -> A -> FundingSchedule) :
  schedule_ok h k s -> (forall a, r = Ok a -> schedule_ok h k (set s a)) ->
  safe h (if blank : bool then m_ret s
          else do! x := m_lift r in let s' := set s x in do! _ := set_schedule s' in m_ret s') (schedule_ok h k).
Proof.
  intros Hs Hset. destruct blank; [by apply safe_ret|].
  eapply safe_bind; [apply safe_lift|]. intros a Ha. cbn zeta.
  eapply safe_bind; [eapply safe_set; eauto|]. intros _ _. apply safe_ret. eauto.
Qed.

Lemma safe_funding_row h t row : safe h (update_funding_row t row) (fun _ => True).
Proof.
  unfold update_funding_row. destruct (negb _); [by apply safe_ret|].
  eapply safe_bind; [apply safe_schedule|]. intros s0 H0. cbn zeta. set (k := upper (row_symbol row)) in *.
  eapply safe_bind with (P := schedule_ok h k).
  { destruct (is_blank _); [by apply safe_ret|]. eapply safe_bind; [apply safe_lift|]. intros i _.
    destruct ((i <=? 0) || (24 <? i)) eqn:E; [apply safe_raise|].
    apply orb_false_iff in E as (E1 & E2). apply Z.leb_gt in E1. apply Z.ltb_ge in E2.
    assert (schedule_ok h k (with_interval s0 i)) as H1 by (split; [apply H0|cbn; lia]).
    eapply safe_bind; [eapply safe_set; eauto|]. intros _ _. by apply safe_ret. }
  intros s1 H1. eapply safe_bind; [apply (safe_assign h k); [done|intros a _; exact H1]|].
  intros s2 H2. eapply safe_bind; [apply (safe_assign h k); [done|intros a _; exact H2]|].
  intros s3 H3. destruct (band_inverted s3); [apply safe_raise|]. apply (safe_set h _ k). exact H3.
Qed.

Lemma safe_funding_info h t rows : safe h (update_funding_info t rows) (fun _ => True).
Proof.
  induction rows as [|row rows IH]; cbn; [by apply safe_ret|].
  eapply safe_bind; [apply safe_funding_row|]. intros _ _. exact IH.
Qed.

Lemma safe_premium_index h t row : safe h (update_premium_index t row) (fun _ => True).
Proof.
  unfold update_premium_index. destruct (negb _); [by apply safe_ret|].
  eapply safe_bind; [apply safe_schedule|]. intros s0 H0. cbn zeta. set (k := upper (row_symbol row)) in *.
  eapply safe_bind with (P := schedule_ok h k).
  { destruct (is_blank _); [by apply safe_ret|].
    eapply safe_bind; [apply safe_lift|]. intros ms _. eapply safe_bind; [apply safe_lift|]. intros nt _.
    eapply safe_bind; [apply safe_lift|]. intros oldest _. destruct (oldest <=? nt); [|by apply safe_ret].
    eapply safe_bind; [apply (safe_set h _ k); exact H0|]. intros _ _. by apply safe_ret. }
  intros s1 H1. apply (safe_set h _ k). exact H1.
Qed.

(** ** Histories *)

Inductive operation :=
  | OpFundingInfo (t : Z) (rows : list (dict pyval))
  | OpPremiumIndex (t : Z) (row : dict pyval)
  | OpQuery (symbol : string).

(** Every query first looks its schedule up, which may create it. *)
Definition run_operation (c : FundingCalendar) (o : operation) : FundingCalendar :=
  match o with
  | OpFundingInfo t rows => snd (update_funding_info t rows c)
  | OpPremiumIndex t row => snd (update_premium_index t row c)
  | OpQuery symbol => snd (_schedule symbol c)
  end.

Lemma run_operations_ok ops c : calendar_ok c ->
  calendar_ok (fold_left run_operation ops c) /\
  default_interval_hours (fold_left run_operation ops c) = default_interval_hours c.
Proof.
  revert c. induction ops as [|o ops IH]; intros c Hc; [done|]. cbn.
  assert (calendar_ok (run_operation c o) /\ default_interval_hours (run_operation c o) = default_interval_hours c) as (H1 & H2).
  { destruct o as [t rows|t row|symbol]; cbn.
    - pose proof (safe_funding_info _ t rows c Hc eq_refl) as H. destruct (update_funding_info t rows c). tauto.
    - pose proof (safe_premium_index _ t row c Hc eq_refl) as H. destruct (update_premium_index t row c). tauto.
    - pose proof (safe_schedule _ symbol c Hc eq_refl) as H. destruct (_schedule symbol c). tauto. }
  destruct (IH _ H1) as (H3 & H4). split; [done|congruence].
Qed.

(** The calendar after a history of responses and queries. *)
Definition calendar_after (h : Z) (ops : list operation) : FundingCalendar :=
  fold_left run_operation ops (Calendar h []).

Lemma calendar_after_ok h ops : 1 <= h -> calendar_ok (calendar_after h ops) /\ default_interval_hours (calendar_after h ops) = h.
Proof. intros H. apply (run_operations_ok ops (Calendar h [])). by split. Qed.

(** ** The settlement grid of a symbol *)

Definition schedule_of (c : FundingCalendar) (symbol : string) : FundingSchedule :=
  match dict_get (schedules c) (upper symbol) with Some s => s | None => new_schedule c (upper symbol) end.

Definition interval_us (c : FundingCalendar) (symbol : string) : Z := f_interval_hours (schedule_of c symbol) * hour_us.
(** The exchange's settlement time, or the epoch. *)
Definition anchor (c : FundingCalendar) (symbol : string) : Z := default 0 (next_funding_time (schedule_of c symbol)).

Definition on_grid (c : FundingCalendar) (symbol : string) (t : Z) : Prop :=
  (t - anchor c symbol) mod interval_us c symbol = 0.

Lemma schedule_of_ok c symbol : calendar_ok c -> schedule_ok (default_interval_hours c) (upper symbol) (schedule_of c symbol).
Proof.
  intros (H1 & H2). unfold schedule_of. destruct (dict_get _ _) eqn:E; [by apply H2|by apply new_schedule_ok].
Qed.

Lemma _schedule_value c symbol : fst (_schedule symbol c) = Ok (schedule_of c symbol).
Proof. unfold _schedule, schedule_of. by destruct (dict_get _ _). Qed.

(** A lookup changes no schedule. *)
Lemma schedule_of_after c symbol s c' : _schedule symbol c = (Ok s, c') -> 
  s = schedule_of c symbol /\ schedule_of c' symbol = schedule_of c symbol.
Proof.
  unfold _schedule, schedule_of. destruct (dict_get _ _) as [s0|] eqn:E; intros [= <- <-]; rewrite ?E; [done|].
  cbn. rewrite dict_get_set, String.eqb_refl. done.
Qed.

(** The bounds of the floating-point division: 142 years around the known settlement. *)
Definition near (c : FundingCalendar) (symbol : string) (t : Z) : Prop :=
  Z.abs (t - anchor c symbol) + interval_us c symbol < 2 ^ 52 /\
  (next_funding_time (schedule_of c symbol) = None -> 0 <= t) /\
  in_range t = true /\ in_range (t + interval_us c symbol) = true.

Definition next_on_grid (a i t : Z) : Z := a + ((t - a) / i + 1) * i.

Lemma next_on_grid_spec a i t : 0 < i -> let n := next_on_grid a i t in t < n <= t + i /\ (n - a) mod i = 0.
Proof.
  intros Hi n. unfold n, next_on_grid. split.
  - pose proof (Z.div_mod (t - a) i ltac:(lia)). pose proof (Z.mod_pos_bound (t - a) i Hi). lia.
  - replace (a + ((t - a) / i + 1) * i - a) with (((t - a) / i + 1) * i) by lia. apply Z.mod_mul. lia.
Qed.

Lemma in_range_iff t : in_range t = true <-> instant_min <= t <= instant_max.
Proof. unfold in_range. rewrite andb_true_iff, !Z.leb_le. done. Qed.

Lemma plus_delta_in t us : in_range (t + us) = true -> plus_delta t us = Ok (t + us).
Proof. intros H. unfold plus_delta. unfold in_range, instant_min, instant_max in H. by rewrite H. Qed.

Lemma timedelta_us_in us : Z.abs us < 2 ^ 60 -> timedelta_us us = Ok us.
Proof.
  intros H. unfold timedelta_us. destruct (Z.leb_spec (Z.abs (us / 86400000000)) 999999999); [done|exfalso].
  assert (-999999999 <= us / 86400000000) by (apply Z.div_le_lower_bound; lia).
  assert (us / 86400000000 <= 999999999) by (apply Z.div_le_upper_bound; lia). lia.
Qed.

Lemma next_from_candidate_value a W t : 0 < W < 2 ^ 40 -> Z.abs (t - a) + W * 1000000 < 2 ^ 52 ->
  in_range t = true -> in_range (t + W * 1000000) = true ->
  next_from_candidate a (W * 1000000) t = Ok (next_on_grid a (W * 1000000) t).
Proof.
  intros HW Hb Ht Ht'. unfold next_from_candidate. rewrite floor_quotient by done. cbn [res_bind].
  destruct (next_on_grid_spec a (W * 1000000) t ltac:(lia)) as (Hn & _). unfold next_on_grid in *.
  set (n := (t - a) / (W * 1000000)) in *. rewrite in_range_iff in Ht, Ht'.
  rewrite timedelta_us_in by lia. cbn [res_bind].
  rewrite plus_delta_in by (rewrite in_range_iff; lia). cbn [res_bind].
  destruct (Z.leb_spec (a + W * 1000000 * (n + 1)) t); [lia|]. f_equal. lia.
Qed.

Lemma next_from_epoch_value W t : 0 < W < 2 ^ 40 -> 0 <= t < 2 ^ 52 ->
  in_range (t + W * 1000000) = true ->
  next_from_epoch W t = Ok (next_on_grid 0 (W * 1000000) t).
Proof.
  intros HW Ht Ht'. unfold next_from_epoch, fromtimestamp_int. rewrite trunc_seconds by done.
  destruct (next_on_grid_spec 0 (W * 1000000) t ltac:(lia)) as (Hn & _). unfold next_on_grid in *. rewrite Z.sub_0_r in *.
  rewrite Z.div_div by lia. rewrite (Z.mul_comm 1000000 W).
  set (n := t / (W * 1000000)) in *. rewrite in_range_iff in Ht'. unfold instant_max in Ht'.
  assert (0 <= n) by (apply Z.div_pos; lia). assert (0 <= (n + 1) * W) by nia.
  unfold timestamp_limits.
  replace ((-(2 ^ 63) <=? (n + 1) * W) && ((n + 1) * W <? 2 ^ 63)) with true
    by (symmetry; apply andb_true_iff; rewrite Z.leb_le, Z.ltb_lt; lia).
  replace ((-67768040609740800 <=? (n + 1) * W) && ((n + 1) * W <=? 67768036191676799)) with true
    by (symmetry; apply andb_true_iff; rewrite !Z.leb_le; lia).
  replace ((-62135596800 <=? (n + 1) * W) && ((n + 1) * W <=? 253402300799)) with true
    by (symmetry; apply andb_true_iff; rewrite !Z.leb_le; lia).
  cbn [negb res_bind]. f_equal. lia.
Qed.

(** The hours of a schedule, when the default is at most a day. *)
Lemma interval_hours_bounds c symbol : calendar_ok c -> default_interval_hours c <= 24 ->
  1 <= f_interval_hours (schedule_of c symbol) <= 24.
Proof. intros Hc Hd. destruct (schedule_of_ok c symbol Hc) as (_ & H). lia. Qed.

Lemma next_settlement_value c symbol t : calendar_ok c -> default_interval_hours c <= 24 -> near c symbol t ->
  fst (next_settlement symbol t c) = Ok (next_on_grid (anchor c symbol) (interval_us c symbol) t).
Proof.
  intros Hc Hd (Hn & Hnone & Ht & Ht'). pose proof (interval_hours_bounds c symbol Hc Hd) as Hh.
  unfold next_settlement, m_bind, m_lift.
  pose proof (_schedule_value c symbol) as Hs. destruct (_schedule symbol c) as [r c']. cbn in Hs. subst r.
  unfold timedelta_hours, interval_us, hour_us in *. set (h := f_interval_hours (schedule_of c symbol)) in *.
  rewrite timedelta_us_in by lia. unfold anchor in *.
  replace (h * 3600000000) with (h * 60 * 60 * 1000000) in * by lia.
  destruct (next_funding_time _) as [a|]; cbn [default fst] in *.
  - apply next_from_candidate_value; [lia|done..].
  - specialize (Hnone eq_refl). apply next_from_epoch_value; [lia| |done]. lia.
Qed.

(** ** The loop over a range *)

Fixpoint grid_points (n : nat) (current i : Z) : list Z :=
  match n with O => [] | S n' => current :: grid_points n' (current + i) i end.

Lemma grid_points_elem n current i t : t ∈ grid_points n current i <-> exists j, 0 <= j < Z.of_nat n /\ t = current + j * i.
Proof.
  revert current. induction n as [|n IH]; intros current; cbn [grid_points].
  - rewrite elem_of_nil. split; [done|]. intros (j & Hj & _). lia.
  - rewrite elem_of_cons, IH. split.
    + intros [->|(j & Hj & ->)]; [exists 0|exists (j + 1)]; lia.
    + intros (j & Hj & ->). destruct (Z.eq_dec j 0) as [->|Hne]; [left; lia|]. right. exists (j - 1). lia.
Qed.

Lemma grid_points_sorted n current i : 0 < i -> StronglySorted Z.lt (grid_points n current i).
Proof.
  intros Hi. revert current. induction n as [|n IH]; intros current; cbn [grid_points]; constructor; [apply IH|].
  apply Forall_forall. intros t Ht.
  apply grid_points_elem in Ht as (j & Hj & ->). nia.
Qed.

Lemma grid_points_length n current i : length (grid_points n current i) = n.
Proof. revert current. induction n as [|n IH]; intros current; cbn; [done|]. by rewrite IH. Qed.

(** The settlements that are left. *)
Definition remaining (current i end_ : Z) : nat := Z.to_nat ((end_ - current) / i + 1).

Lemma remaining_step current i end_ : 0 < i -> current <= end_ ->
  remaining current i end_ = S (remaining (current + i) i end_).
Proof.
  intros Hi H. unfold remaining. replace (end_ - (current + i)) with (end_ - current + (-1) * i) by lia.
  rewrite Z.div_add by lia. assert (0 <= (end_ - current) / i) by (apply Z.div_pos; lia). lia.
Qed.

Lemma remaining_done current i end_ : 0 < i -> end_ < current -> remaining current i end_ = O.
Proof.
  intros Hi H. unfold remaining. assert ((end_ - current) / i < 0) by (apply Z.div_lt_upper_bound; lia). lia.
Qed.

Lemma settlements_loop_value fuel i end_ mx current acc : 0 < i -> in_range (end_ + i) = true -> instant_min <= current ->
  (length acc + fuel)%nat = Z.to_nat mx -> (0 < fuel)%nat ->
  let r := remaining current i end_ in
  settlements_loop fuel i end_ mx current acc =
    Some (if mx <=? Z.of_nat (length acc + r) then raise ValueError "settlement range exceeds safety limit"
          else Ok (acc ++ grid_points r current i)).
Proof.
  intros Hi He. revert current acc. induction fuel as [|fuel IH]; intros current acc Hc Hf Hpos; [lia|].
  cbn [settlements_loop]. cbn zeta. rewrite in_range_iff in He.
  destruct (Z.leb_spec current end_) as [H|H].
  - rewrite remaining_step by done. rewrite length_app. cbn [length grid_points].
    destruct (Z.leb_spec mx (Z.of_nat (length acc + 1))) as [Hm|Hm].
    + destruct (Z.leb_spec mx (Z.of_nat (length acc + S (remaining (current + i) i end_)))); [done|lia].
    + rewrite plus_delta_in by (rewrite in_range_iff; lia). cbv beta iota.
      rewrite IH; [|lia|rewrite length_app; cbn; lia|lia]. rewrite length_app. cbn [length].
      replace (length acc + 1 + remaining (current + i) i end_)%nat with (length acc + S (remaining (current + i) i end_))%nat by lia.
      by rewrite <- app_assoc.
  - rewrite remaining_done by done. cbn [grid_points]. rewrite app_nil_r.
    destruct (Z.leb_spec mx (Z.of_nat (length acc + 0))); [lia|done].
Qed.

(** Whatever the interval and the end, [max_settlements] passes end the loop. *)
Lemma settlements_loop_ends fuel i end_ mx current acc : (0 < fuel)%nat -> (Z.to_nat mx <= length acc + fuel)%nat ->
  exists r, forall extra, settlements_loop (fuel + extra) i end_ mx current acc = Some r.
Proof.
  revert current acc. induction fuel as [|fuel IH]; intros current acc Hpos Hf; [lia|].
  cbn [settlements_loop Nat.add]. destruct (current <=? end_); [|eauto]. rewrite length_app. cbn [length].
  destruct (Z.leb_spec mx (Z.of_nat (length acc + 1))) as [Hm|Hm]; [eauto|].
  destruct (plus_delta current i) as [next|e]; [|eauto].
  apply IH; [|rewrite length_app; cbn]; lia.
Qed.

(** ** The properties *)

Lemma on_grid_iff c symbol t : 0 < interval_us c symbol ->
  on_grid c symbol t <-> exists k, t = anchor c symbol + k * interval_us c symbol.
Proof.
  intros Hi. unfold on_grid. split.
  - intros H. exists ((t - anchor c symbol) / interval_us c symbol).
    pose proof (Z.div_mod (t - anchor c symbol) (interval_us c symbol) ltac:(lia)). lia.
  - intros (k & ->). replace (anchor c symbol + k * interval_us c symbol - anchor c symbol)
      with (k * interval_us c symbol) by lia. apply Z.mod_mul. lia.
Qed.

Lemma next_on_grid_least a i t k : 0 < i -> t < a + k * i -> next_on_grid a i t <= a + k * i.
Proof.
  intros Hi H. unfold next_on_grid. assert ((t - a) / i < k) by (apply Z.div_lt_upper_bound; lia). nia.
Qed.

Lemma interval_us_pos c symbol : calendar_ok c -> 0 < interval_us c symbol.
Proof. intros Hc. destruct (schedule_of_ok c symbol Hc) as (_ & H). unfold interval_us, hour_us. lia. Qed.

(** The lookup that precedes the computation leaves the same schedule. *)
Lemma interval_hours_run c symbol : calendar_ok c -> exists c',
  interval_hours symbol c = (Ok (f_interval_hours (schedule_of c symbol)), c') /\ calendar_ok c' /\
  default_interval_hours c' = default_interval_hours c /\ schedule_of c' symbol = schedule_of c symbol.
Proof.
  intros Hc. unfold interval_hours, m_bind, m_ret.
  pose proof (safe_schedule _ symbol c Hc eq_refl) as H. pose proof (schedule_of_after c symbol) as Ha.
  pose proof (_schedule_value c symbol) as Hv. destruct (_schedule symbol c) as [r c']. cbn in Hv. subst r.
  exists c'. destruct H as (H1 & H2 & _). destruct (Ha _ _ eq_refl) as (_ & H3). done.
Qed.

Lemma next_after_lookup c c' symbol t : calendar_ok c' -> default_interval_hours c' <= 24 ->
  schedule_of c' symbol = schedule_of c symbol -> near c symbol t ->
  fst (next_settlement symbol t c') = Ok (next_on_grid (anchor c symbol) (interval_us c symbol) t).
Proof.
  intros Hc Hd Hs Hn. unfold near, anchor, interval_us in *. rewrite <- Hs in *.
  by rewrite (next_settlement_value c' symbol t Hc Hd).
Qed.

Lemma timedelta_hours_ok c symbol : calendar_ok c -> default_interval_hours c <= 24 ->
  timedelta_hours (f_interval_hours (schedule_of c symbol)) = Ok (interval_us c symbol).
Proof.
  intros Hc Hd. pose proof (interval_hours_bounds c symbol Hc Hd). apply timedelta_us_in. unfold interval_us, hour_us. lia.
Qed.

(** Whatever responses the calendar has seen, the next settlement, although
    computed with rounded floating-point seconds, is the least instant after the given one that is a
    whole number of intervals from the exchange's settlement time (from the epoch when none is known);
    the previous settlement is the greatest one not after it.  The bound is 142 years. *)
Theorem next_settlement_least h ops symbol t : 1 <= h <= 24 -> let c := calendar_after h ops in near c symbol t ->
  in_range (t - interval_us c symbol) = true ->
  (exists n, fst (next_settlement symbol t c) = Ok n /\ t < n /\ on_grid c symbol n /\
     forall u, on_grid c symbol u -> t < u -> n <= u) /\
  (exists p, fst (previous_settlement symbol t c) = Ok p /\ p <= t /\ on_grid c symbol p /\
     forall u, on_grid c symbol u -> u <= t -> u <= p).
Proof.
  intros Hh c Hn Hback. destruct (calendar_after_ok h ops ltac:(lia)) as (Hc & Hd). fold c in Hc, Hd.
  pose proof (interval_us_pos c symbol Hc) as Hi. set (a := anchor c symbol). set (i := interval_us c symbol) in *.
  destruct (next_on_grid_spec a i t Hi) as (H1 & H2).
  assert (forall u, on_grid c symbol u -> t < u -> next_on_grid a i t <= u) as Hleast.
  { intros u Hu Ht. apply on_grid_iff in Hu as (k & ->); [|done]. by apply next_on_grid_least. }
  split.
  - exists (next_on_grid a i t). rewrite next_settlement_value by (try done; lia). split_and!; try done; lia.
  - exists (next_on_grid a i t - i). destruct (interval_hours_run c symbol Hc) as (c' & E & Hc' & Hd' & Hs').
    assert (fst (previous_settlement symbol t c) = Ok (next_on_grid a i t - i)) as ->.
    { unfold previous_settlement, m_bind. rewrite E. unfold m_lift. rewrite timedelta_hours_ok by (try done; lia).
      pose proof (next_after_lookup c c' symbol t Hc' ltac:(lia) Hs' Hn) as Hv.
      destruct (next_settlement symbol t c') as [r c'']. cbn in Hv. subst r. fold a i. cbn [fst].
      apply plus_delta_in. destruct Hn as (_ & _ & Hr1 & Hr2). rewrite in_range_iff in *. fold i in Hr2, Hback. lia. }
    split_and!; [done|lia| |].
    + apply on_grid_iff; [done|]. exists ((t - a) / i). unfold next_on_grid. fold a i. lia.
    + intros u Hu Ht. assert (u < next_on_grid a i t) as Hu' by lia.
      apply on_grid_iff in Hu as (k & ->); [|done]. fold a i in Ht, Hu' |- *. unfold next_on_grid in Hu' |- *.
      assert (k < (t - a) / i + 1) by (apply (Z.mul_lt_mono_pos_r i); lia). nia.
Qed.

(** C27: a range request yields exactly the settlements [start < t <= end], once and in
    ascending order, when they are fewer than the safety limit, and raises ValueError otherwise; no
    settlement is skipped or repeated by the floating-point step at its start. *)
Theorem settlements_exact h ops symbol start end_ mx : 1 <= h <= 24 -> start < end_ -> 0 < mx ->
  let c := calendar_after h ops in near c symbol start -> in_range (end_ + interval_us c symbol) = true ->
  let count := (end_ - anchor c symbol) / interval_us c symbol - (start - anchor c symbol) / interval_us c symbol in
  match fst (settlements_between symbol start end_ mx c) with
  | Ok (Some l) => count < mx /\ Z.of_nat (length l) = count /\ StronglySorted Z.lt l /\
                   forall t, t ∈ l <-> start < t <= end_ /\ on_grid c symbol t
  | Ok None => False
  | Err e => mx <= count /\ exn_class e = ValueError
  end.
Proof.
  intros Hh Hse Hmx c Hn He count. destruct (calendar_after_ok h ops ltac:(lia)) as (Hc & Hd). fold c in Hc, Hd.
  pose proof (interval_us_pos c symbol Hc) as Hi.
  destruct (interval_hours_run c symbol Hc) as (c' & E & Hc' & Hd' & Hs').
  unfold settlements_between. destruct (Z.leb_spec end_ start); [lia|]. destruct (Z.leb_spec mx 0); [lia|].
  unfold m_bind at 1. rewrite E. unfold m_bind at 1, m_lift at 1. rewrite timedelta_hours_ok by (try done; lia).
  pose proof (next_after_lookup c c' symbol start Hc' ltac:(lia) Hs' Hn) as Hv. unfold m_bind.
  destruct (next_settlement symbol start c') as [r c'']. cbn in Hv. subst r.
  set (a := anchor c symbol) in *. set (i := interval_us c symbol) in *. set (n := next_on_grid a i start) in *.
  destruct (next_on_grid_spec a i start Hi) as (Hb & _). fold n in Hb.
  destruct Hn as (_ & _ & Hr1 & Hr2). fold i in Hr2. apply in_range_iff in Hr1, Hr2.
  rewrite settlements_loop_value by (try done; cbn; lia). cbn [length Nat.add app].
  assert (Z.of_nat (remaining n i end_) = count) as Hcount.
  { unfold remaining, n, next_on_grid, count. 
    replace (end_ - (a + ((start - a) / i + 1) * i)) with (end_ - a + (- ((start - a) / i + 1)) * i) by lia.
    rewrite Z.div_add by lia. assert ((start - a) / i <= (end_ - a) / i) by (apply Z.div_le_mono; lia). lia. }
  rewrite Hcount. destruct (Z.leb_spec mx count); cbn; [done|].
  split; [done|]. split; [|split; [by apply grid_points_sorted|]].
  - by rewrite grid_points_length.
  - intros t. rewrite grid_points_elem, on_grid_iff by done. fold a i. rewrite Hcount.
    pose proof (Z.div_mod (end_ - a) i ltac:(lia)) as D. pose proof (Z.mod_pos_bound (end_ - a) i Hi) as B.
    unfold n, next_on_grid, count in *. set (ke := (end_ - a) / i) in *. set (ks := (start - a) / i) in *. split.
    + intros (j & Hj & ->). split; [nia|]. exists (ks + 1 + j). lia.
    + intros (Ht & k & ->). exists (k - ks - 1). split; [|lia].
      assert (ks < k) by (unfold ks; apply Z.div_lt_upper_bound; lia).
      assert (k <= ke) by (unfold ke; apply Z.div_le_lower_bound; lia). lia.
Qed.

Lemma loop_has_result interval end_ mx current : 0 < mx -> exists r, forall extra,
  settlements_loop (Z.to_nat mx + extra) interval end_ mx current [] = Some r.
Proof. intros H. apply settlements_loop_ends; cbn; lia. Qed.

Lemma settlements_never_stuck symbol start end_ mx c : fst (settlements_between symbol start end_ mx c) <> Ok None.
Proof.
  unfold settlements_between. destruct (end_ <=? start); [done|]. destruct (Z.leb_spec mx 0); [done|].
  unfold m_bind, m_lift, m_ret. destruct (interval_hours symbol c) as [[hours|e] c1]; [|done].
  destruct (timedelta_hours hours) as [i|e]; [|done]. destruct (next_settlement symbol start c1) as [[t|e] c2]; [|done].
  destruct (loop_has_result i end_ mx t ltac:(done)) as (r & Hr). specialize (Hr O). rewrite Nat.add_0_r in Hr.
  rewrite Hr. by destruct r.
Qed.

(** C35: the range request always ends: for every calendar, range and limit, even
    with an interval that never reaches the end, the loop stops within [max_settlements] passes, and more
    passes change nothing. *)
Theorem settlements_between_ends symbol start end_ mx c :
  fst (settlements_between symbol start end_ mx c) <> Ok None /\
  forall interval current extra, 0 < mx ->
    settlements_loop (Z.to_nat mx + extra) interval end_ mx current [] =
    settlements_loop (Z.to_nat mx) interval end_ mx current [].
Proof.
  split; [apply settlements_never_stuck|]. intros interval current extra H.
  destruct (loop_has_result interval end_ mx current H) as (r & Hr). rewrite Hr.
  specialize (Hr O). by rewrite Nat.add_0_r in Hr.
Qed.

(** A clamped rate is inside the band, when the band is one. *)
Theorem clamp_in_band c symbol rate cap floor r :
  rate_cap (schedule_of c symbol) = Some cap -> rate_floor (schedule_of c symbol) = Some floor ->
  band_inverted (schedule_of c symbol) = false -> is_nan rate = false -> is_nan cap = false -> is_nan floor = false ->
  fst (clamp_rate symbol rate c) = Ok r -> fle floor r = true /\ fle r cap = true.
Proof.
  intros Hcap Hfloor Hb Hr Hc Hf. unfold clamp_rate, m_bind, m_ret.
  pose proof (_schedule_value c symbol) as Hs. destruct (_schedule symbol c) as [x c']. cbn in Hs. subst x.
  unfold band_inverted in Hb. rewrite Hcap, Hfloor in *. intros [= <-].
  rewrite flt_fle in Hb by done. apply negb_false_iff in Hb.
  unfold fmax, fmin. destruct (flt cap rate) eqn:E1.
  - rewrite (flt_fle cap floor) by done. rewrite Hb. cbn. split; [done|by apply fle_refl].
  - rewrite flt_fle in E1 by done. apply negb_false_iff in E1.
    destruct (flt rate floor) eqn:E2; [split; [by apply fle_refl|done]|].
    rewrite flt_fle in E2 by done. apply negb_false_iff in E2. done.
Qed.

(** ** Concrete inputs *)

Definition ex_ops : list operation :=
  [OpFundingInfo 1784365200000000 [[("symbol", VStr "BTCUSDT"); ("fundingIntervalHours", VInt 4)]];
   OpPremiumIndex 1784365200000000 [("symbol", VStr "btcusdt"); ("nextFundingTime", VInt 1784376000000)];
   OpQuery "ETHUSDT"].

Lemma next_settlement_least_witness :
  (exists n, fst (next_settlement "BTCUSDT" 1784365200000000 (calendar_after 8 ex_ops)) = Ok n /\ 1784365200000000 < n /\
     on_grid (calendar_after 8 ex_ops) "BTCUSDT" n /\
     forall u, on_grid (calendar_after 8 ex_ops) "BTCUSDT" u -> 1784365200000000 < u -> n <= u) /\
  (exists p, fst (previous_settlement "BTCUSDT" 1784365200000000 (calendar_after 8 ex_ops)) = Ok p /\ p <= 1784365200000000 /\
     on_grid (calendar_after 8 ex_ops) "BTCUSDT" p /\
     forall u, on_grid (calendar_after 8 ex_ops) "BTCUSDT" u -> u <= 1784365200000000 -> u <= p).
Proof.
  apply (next_settlement_least 8 ex_ops "BTCUSDT" 1784365200000000); [lia| |vm_compute; reflexivity].
  split; [vm_compute; reflexivity|]. split; [vm_compute; intros E; discriminate E|]. split; vm_compute; reflexivity.
Defined.

Lemma settlements_exact_witness :
  match fst (settlements_between "BTCUSDT" 1784361600000000 1784390400000000 1000 (calendar_after 8 ex_ops)) with
  | Ok (Some l) => 2 < 1000 /\ Z.of_nat (length l) = 2 /\ StronglySorted Z.lt l /\
      forall t, t ∈ l <-> 1784361600000000 < t <= 1784390400000000 /\ on_grid (calendar_after 8 ex_ops) "BTCUSDT" t
  | Ok None => False
  | Err e => 1000 <= 2 /\ exn_class e = ValueError
  end.
Proof.
  apply (settlements_exact 8 ex_ops "BTCUSDT" 1784361600000000 1784390400000000 1000); [lia..| |vm_compute; reflexivity].
  split; [vm_compute; reflexivity|]. split; [vm_compute; intros E; discriminate E|]. split; vm_compute; reflexivity.
Defined.

Lemma settlements_between_ends_witness :
  fst (settlements_between "BTCUSDT" 0 1784390400000000 5 (calendar_after 8 ex_ops)) <> Ok None /\
  settlements_loop (5 + 7) 0 1784390400000000 5 0 [] = settlements_loop 5 0 1784390400000000 5 0 [].
Proof.
  destruct (settlements_between_ends "BTCUSDT" 0 1784390400000000 5 (calendar_after 8 ex_ops)) as [H1 H2].
  split; [exact H1|exact (H2 0 0 7%nat eq_refl)].
Defined.

(** A row whose floor exceeds its cap raises, but both were stored before: later rates
    are clamped to the rejected floor, above the cap. *)
Definition rejected_row : dict pyval :=
  [("symbol", VStr "BADUSDT"); ("adjustedFundingRateCap", VStr "0.001"); ("adjustedFundingRateFloor", VStr "0.002")].

Lemma rejected_band_is_kept :
  let (r, c) := update_funding_info 0 [rejected_row] (Calendar 8 []) in
  is_ok r = false /\ fst (clamp_rate "BADUSDT" (flit "0.0005") c) = Ok (flit "0.002").
Proof. vm_compute. done. Qed.
