(* ===== verification/AccountTruth.v ===== *)
(** * Normalized account truth

    Model of [src/bongus/engine/account_truth.py]: one signed snapshot of the spot and
    the futures account becomes canonical decimal texts, and every absent or malformed
    field is appended to the list [missing] of its venue.  That list is the state: an
    operation [Miss A] returns a value, or an exception, and the list it leaves.  The
    clock is the argument [now]; instants are microseconds. *)
From Stdlib Require Import ZArith Lia Ascii.
From stdpp Require Import base list strings.
From S2P Require Import Prelude PyDecimal PyDecimalPlain PyTime PyValue PyCalendar.
Open Scope Z_scope.

Definition ACCOUNT_TRUTH_SCHEMA_VERSION : Z := 1.
Definition DEFAULT_ACCOUNT_TRUTH_MAX_AGE_SECONDS : Z := 120.

Definition Miss (A : Type) : Type := M (list string) A.

(** [missing.append(path)] *)
Definition note (path : string) : Miss unit := fun missing => (Ok tt, missing ++ [path]).
Definition absent {A} (path : string) (a : A) : Miss A := do! _ := note path in m_ret a.

(** ** Readers of one field *)

(** Only [fromisoformat] is inside the [try]. *)
Definition _parse_time (value : pyval) : result (option Z) :=
  match value with
  | VStr s =>
      if negb (nonempty (strip s)) then Ok None
      else
        match fromisoformat (replace_z (strip s)) with
        | Ok parsed => let! t := to_utc parsed in Ok (Some t)
        | Err _ => Ok None
        end
  | _ => Ok None
  end.

Definition _canonical_json (v : pyval) : result string := json_dumps true v.

(** [value is None or value == "" or isinstance(value, (bool, float))] *)
Definition no_decimal (value : pyval) : bool :=
  match value with
  | VNone | VBool _ | VFloat _ => true
  | VStr s => negb (nonempty s)
  | _ => false
  end.

(** [value if isinstance(value, Decimal) else Decimal(str(value))] *)
Definition as_decimal (value : pyval) : result dnum :=
  match value with VDec d => Ok (DFin d) | _ => Decimal_of value end.

(** [format(parsed.normalize(), "f")], the zeros as ["0"]. *)
Definition canonical_text (d : dec) : result string :=
  if (dcoeff d =? 0)%N then Ok "0" else let! n := dnormalize d in Ok (dec_plain n).

Definition _decimal_string (value : pyval) (path : string) : Miss (option string) :=
  if no_decimal value then absent path None
  else
    match as_decimal value with
    | Ok (DFin d) => do! s := m_lift (canonical_text d) in m_ret (Some s)
    | Ok _ => absent path None
    | Err e => if numeric_errors (exn_class e) then absent path None else m_lift (Err e)
    end.

Definition _text (value : pyval) (path : string) : Miss (option string) :=
  match value with
  | VNone => absent path None
  | _ => if nonempty (strip (py_str value)) then m_ret (Some (strip (py_str value))) else absent path None
  end.

Definition _integer (value : pyval) (path : string) : Miss (option Z) :=
  match value with
  | VNone | VBool _ => absent path None
  | _ => match parse_int (py_str value) with Some z => m_ret (Some z) | None => absent path None end
  end.

(** [f"{path}[{index}]"] *)
Definition at_index (path : string) (index : Z) : string := path +:+ "[" +:+ int_str index +:+ "]".

Fixpoint mapping_rows (path : string) (index : Z) (l : list pyval) : Miss (list (dict pyval)) :=
  match l with
  | [] => m_ret []
  | VDict row :: rest => do! rows := mapping_rows path (index + 1) rest in m_ret (row :: rows)
  | _ :: rest => do! _ := note (at_index path index) in mapping_rows path (index + 1) rest
  end.

(** The lists are the only sequences of a decoded payload that are not texts. *)
Definition _rows (value : pyval) (path : string) : Miss (list (dict pyval)) :=
  match value with
  | VList l => mapping_rows path 0 l
  | _ => absent path []
  end.

(** ** Rows of fields *)

Definition opt_str (s : option string) : pyval := match s with Some s => VStr s | None => VNone end.
Definition opt_int (z : option Z) : pyval := match z with Some z => VInt z | None => VNone end.

(** A field of a row display: the reader it applies and the value it reads. *)
Inductive field :=
  | FDec (value : pyval)
  | FText (value : pyval)
  | FInt (value : pyval)
  | FConst (value : pyval).

Definition read_field (f : field) (path : string) : Miss pyval :=
  match f with
  | FDec value => do! s := _decimal_string value path in m_ret (opt_str s)
  | FText value => do! s := _text value path in m_ret (opt_str s)
  | FInt value => do! z := _integer value path in m_ret (opt_int z)
  | FConst value => m_ret value
  end.

(** The display [{"name": reader(value, f"{path}.name"), ...}], evaluated in its order. *)
Fixpoint build (fields : list (string * field)) (path : string) : Miss (dict pyval) :=
  match fields with
  | [] => m_ret []
  | (name, f) :: rest =>
      do! v := read_field f (path +:+ "." +:+ name) in
      do! d := build rest path in
      m_ret ((name, v) :: d)
  end.

(** [for index, row in enumerate(rows): out.append(f(row, f"{path}[{index}]"))] *)
Fixpoint each_row (f : dict pyval -> string -> Miss (dict pyval)) (path : string) (index : Z) (rows : list (dict pyval))
  : Miss (list pyval) :=
  match rows with
  | [] => m_ret []
  | row :: rest =>
      do! d := f row (at_index path index) in
      do! out := each_row f path (index + 1) rest in
      m_ret (VDict d :: out)
  end.

Definition rows_field (f : dict pyval -> string -> Miss (dict pyval)) (value : pyval) (path : string) : Miss (list pyval) :=
  do! rows := _rows value path in each_row f path 0 rows.

(** ** Positions *)

Definition _position_key (row : dict pyval) (path : string) : Miss (option string) :=
  do! symbol := _text (get row "symbol") (path +:+ ".symbol") in
  do! side := _text (get_or row "positionSide" (VStr "BOTH")) (path +:+ ".positionSide") in
  m_ret (match symbol, side with
         | Some symbol, Some side => Some (upper symbol +:+ "|" +:+ upper side)
         | _, _ => None
         end).

(** [Decimal(text)] of a canonical text, which is finite. *)
Definition text_value (s : string) : result dec :=
  let! n := Decimal_of_str s in
  match n with DFin d => Ok d | _ => raise InvalidOperation "comparison involving NaN or infinity" end.

Fixpoint nonzero_rows (path : string) (index : Z) (rows : list (dict pyval)) (result : dict (dict pyval))
  : Miss (dict (dict pyval)) :=
  match rows with
  | [] => m_ret result
  | row :: rest =>
      let row_path := at_index path index in
      do! amount := _decimal_string (get row "positionAmt") (row_path +:+ ".positionAmt") in
      do! key := _position_key row row_path in
      match amount, key with
      | Some amount, Some key =>
          do! d := m_lift (text_value amount) in
          if (dcoeff d =? 0)%N then nonzero_rows path (index + 1) rest result
          else if dict_has result key then
            do! _ := note (path +:+ ".duplicate:" +:+ key) in nonzero_rows path (index + 1) rest result
          else nonzero_rows path (index + 1) rest (dict_set result key row)
      | _, _ => nonzero_rows path (index + 1) rest result
      end
  end.

Definition _nonzero_position_rows (rows : list (dict pyval)) (path : string) : Miss (dict (dict pyval)) :=
  nonzero_rows path 0 rows [].

(** ** The spot account *)

Definition as_mapping (v : pyval) (path : string) : Miss (dict pyval) :=
  match v with VDict d => m_ret d | _ => absent path [] end.

(** [str(snapshot.get(key) or default).lower()] *)
Definition status_text (snapshot : dict pyval) (key default : string) : string :=
  lower (py_str (py_or (get snapshot key) (VStr default))).

Definition bool_or_none (v : pyval) : pyval := match v with VBool b => VBool b | _ => VNone end.
Definition is_bool (v : pyval) : bool := match v with VBool _ => true | _ => false end.
Definition note_if (b : bool) (path : string) : Miss unit := if b then note path else m_ret tt.

Definition balance_fields (row : dict pyval) : list (string * field) :=
  [("asset", FText (get row "asset"));
   ("free", FDec (get row "free"));
   ("locked", FDec (get row "locked"))].

Definition balance_row (row : dict pyval) (path : string) : Miss (dict pyval) := build (balance_fields row) path.

Definition spot_order_fields (row : dict pyval) : list (string * field) :=
  [("symbol", FText (get row "symbol"));
   ("order_id", FInt (get row "orderId"));
   ("client_order_id", FText (get row "clientOrderId"));
   ("side", FText (get row "side"));
   ("type", FText (get row "type"));
   ("status", FText (get row "status"));
   ("price", FDec (get row "price"));
   ("orig_qty", FDec (get row "origQty"));
   ("executed_qty", FDec (get row "executedQty"));
   ("cumulative_quote_qty", FDec (get row "cummulativeQuoteQty"))].

Definition spot_order_row (row : dict pyval) (path : string) : Miss (dict pyval) := build (spot_order_fields row) path.

Definition spot_trade_fields (row : dict pyval) : list (string * field) :=
  [("symbol", FText (get row "symbol"));
   ("trade_id", FInt (get row "id"));
   ("order_id", FInt (get row "orderId"));
   ("price", FDec (get row "price"));
   ("qty", FDec (get row "qty"));
   ("quote_qty", FDec (get row "quoteQty"));
   ("commission", FDec (get row "commission"));
   ("commission_asset", FText (get row "commissionAsset"));
   ("time_ms", FInt (get row "time"));
   ("is_buyer", FConst (bool_or_none (get row "isBuyer")));
   ("is_maker", FConst (bool_or_none (get row "isMaker")))].

Definition spot_trade_row (row : dict pyval) (path : string) : Miss (dict pyval) :=
  do! d := build (spot_trade_fields row) path in
  do! _ := note_if (negb (is_bool (get row "isBuyer"))) (path +:+ ".is_buyer") in
  do! _ := note_if (negb (is_bool (get row "isMaker"))) (path +:+ ".is_maker") in
  m_ret d.

Definition borrow_fields (row : dict pyval) : list (string * field) :=
  [("scope", FConst (VStr "CROSS_MARGIN"));
   ("asset", FText (get row "asset"));
   ("borrowed", FDec (get row "borrowed"));
   ("interest", FDec (get row "interest"))].

Definition borrow_row (row : dict pyval) (path : string) : Miss (dict pyval) := build (borrow_fields row) path.

Definition interest_fields (row : dict pyval) : list (string * field) :=
  [("scope", FConst (VStr "CROSS_MARGIN"));
   ("transaction_id", FText (get row "txId"));
   ("asset", FText (get row "asset"));
   ("interest", FDec (get row "interest"));
   ("principal", FDec (get row "principal"));
   ("time_ms", FInt (py_or (get row "interestAccuredTime") (get row "interestAccruedTime")))].

Definition interest_row (row : dict pyval) (path : string) : Miss (dict pyval) := build (interest_fields row) path.

Definition borrow_interest (snapshot : dict pyval) (margin_status : string) : Miss (list pyval) :=
  if String.eqb margin_status "available" then
    do! margin_account := as_mapping (get snapshot "margin_account") "standard_spot.borrow_interest.account" in
    rows_field borrow_row (get margin_account "userAssets") "standard_spot.borrow_interest.rows"
  else if String.eqb margin_status "disabled" then m_ret []
  else absent "standard_spot.borrow_interest.availability" [].

(** [sorted({str(item).upper() for item in raw if str(item)})] *)
Definition symbols_set (l : list pyval) : list string :=
  sort_strings (dedupe (map upper (List.filter nonempty (map py_str l)))).

Definition trade_symbols (v : pyval) : Miss (list string) :=
  match v with
  | VList l => m_ret (symbols_set l)
  | _ => absent "standard_spot.trade_symbols" []
  end.

Definition _normalize_spot (snapshot : dict pyval) : Miss (dict pyval) :=
  do! account := as_mapping (get snapshot "spot_account") "standard_spot.account" in
  do! uid := _text (get account "uid") "standard_spot.uid" in
  let can_trade := get account "canTrade" in
  do! _ := note_if (negb (is_bool can_trade)) "standard_spot.can_trade" in
  do! balances := rows_field balance_row (get account "balances") "standard_spot.balances" in
  do! open_orders := rows_field spot_order_row (get snapshot "spot_open_orders") "standard_spot.open_orders" in
  let trades_status := status_text snapshot "spot_trades_status" "unknown" in
  do! _ := note_if (negb (String.eqb trades_status "available")) "standard_spot.trades.availability" in
  do! trade_scope := _text (get snapshot "spot_trade_scope") "standard_spot.trades.scope" in
  do! trades := rows_field spot_trade_row (get snapshot "spot_trades") "standard_spot.trades" in
  let margin_status := status_text snapshot "margin_account_status" "unknown" in
  do! borrow := borrow_interest snapshot margin_status in
  let interest_status := status_text snapshot "margin_interest_status" "unknown" in
  do! _ := note_if (negb (str_in interest_status ["available"; "disabled"])) "standard_spot.interest_events.availability" in
  do! interest_events := rows_field interest_row (get snapshot "margin_interest") "standard_spot.interest_events" in
  do! symbols := trade_symbols (get snapshot "spot_trade_symbols") in
  m_ret [("venue", VStr "BINANCE_STANDARD_SPOT");
         ("uid", opt_str uid);
         ("can_trade", bool_or_none can_trade);
         ("balances", VList balances);
         ("borrow_interest_status", VStr (upper margin_status));
         ("borrow_interest", VList borrow);
         ("interest_events_status", VStr (upper interest_status));
         ("interest_events", VList interest_events);
         ("trades_status", VStr (upper trades_status));
         ("trade_scope", opt_str trade_scope);
         ("trade_symbols", VList (map VStr symbols));
         ("trades", VList trades);
         ("open_orders", VList open_orders)].

(** ** The futures account *)

Definition margin_ratio (total_margin_balance total_maint_margin : option string) : Miss (option string) :=
  match total_margin_balance, total_maint_margin with
  | Some balance, Some maint =>
      do! denominator := m_lift (text_value balance) in
      if dgt denominator (Dec false 0 0) then
        do! numerator := m_lift (text_value maint) in
        do! ratio := m_lift (ddiv numerator denominator) in
        _decimal_string (VDec ratio) "usd_m_futures.margin_ratio"
      else absent "usd_m_futures.margin_ratio" None
  | _, _ => m_ret None
  end.

Definition asset_fields (row : dict pyval) : list (string * field) :=
  [("asset", FText (get row "asset"));
   ("wallet_balance", FDec (get row "walletBalance"));
   ("available_balance", FDec (get row "availableBalance"));
   ("margin_balance", FDec (get row "marginBalance"));
   ("unrealized_profit", FDec (get row "unrealizedProfit"))].

Definition asset_row (row : dict pyval) (path : string) : Miss (dict pyval) := build (asset_fields row) path.

(** [key.split("|", 1)] *)
Fixpoint split_bar (s : string) : string * string :=
  match s with
  | EmptyString => (EmptyString, EmptyString)
  | String c r => if Ascii.eqb c "|"%char then (EmptyString, r) else let (a, b) := split_bar r in (String c a, b)
  end.

Definition positions_path (key : string) : string := "usd_m_futures.positions[" +:+ key +:+ "]".

Definition position_fields (key : string) (account_row risk_row : dict pyval) : list (string * field) :=
  [("symbol", FConst (VStr (fst (split_bar key))));
   ("position_side", FConst (VStr (snd (split_bar key))));
   ("position_amount", FDec (get_or risk_row "positionAmt" (get account_row "positionAmt")));
   ("entry_price", FDec (get_or risk_row "entryPrice" (get account_row "entryPrice")));
   ("mark_price", FDec (get risk_row "markPrice"));
   ("unrealized_profit", FDec (get_or risk_row "unRealizedProfit" (get account_row "unrealizedProfit")));
   ("leverage", FDec (get_or risk_row "leverage" (get account_row "leverage")));
   ("maintenance_margin", FDec (get account_row "maintMargin"));
   ("margin_type", FText (get risk_row "marginType"));
   ("liquidation_price", FDec (get risk_row "liquidationPrice"))].

(** One position key: a row that one of the two projections lacks is noted and empty. *)
Definition projection_row (positions : dict (dict pyval)) (key path : string) : Miss (dict pyval) :=
  match dict_get positions key with Some row => m_ret row | None => absent path [] end.

Definition position_row (account_positions risk_positions : dict (dict pyval)) (key : string) : Miss (dict pyval) :=
  let path := positions_path key in
  do! account_row := projection_row account_positions key (path +:+ ".account_projection") in
  do! risk_row := projection_row risk_positions key (path +:+ ".risk_projection") in
  build (position_fields key account_row risk_row) path.

Fixpoint position_rows (account_positions risk_positions : dict (dict pyval)) (keys : list string) : Miss (list pyval) :=
  match keys with
  | [] => m_ret []
  | key :: rest =>
      do! d := position_row account_positions risk_positions key in
      do! out := position_rows account_positions risk_positions rest in
      m_ret (VDict d :: out)
  end.

(** [sorted(set(account_positions) | set(risk_positions))] *)
Definition position_keys (account_positions risk_positions : dict (dict pyval)) : list string :=
  sort_strings (dedupe (dict_keys account_positions ++ dict_keys risk_positions)).

Definition position_mode (payload : pyval) : Miss (option string) :=
  match payload with
  | VDict d => match get d "dualSidePosition" with
               | VBool b => m_ret (Some (if b then "HEDGE" else "ONE_WAY"))
               | _ => absent "usd_m_futures.position_mode" None
               end
  | _ => absent "usd_m_futures.position_mode" None
  end.

Definition futures_order_fields (row : dict pyval) : list (string * field) :=
  [("symbol", FText (get row "symbol"));
   ("order_id", FInt (get row "orderId"));
   ("client_order_id", FText (get row "clientOrderId"));
   ("position_side", FText (get_or row "positionSide" (VStr "BOTH")));
   ("side", FText (get row "side"));
   ("type", FText (get row "type"));
   ("status", FText (get row "status"));
   ("price", FDec (get row "price"));
   ("orig_qty", FDec (get row "origQty"));
   ("executed_qty", FDec (get row "executedQty"))].

Definition futures_order_row (row : dict pyval) (path : string) : Miss (dict pyval) := build (futures_order_fields row) path.

Definition _normalize_futures (snapshot : dict pyval) : Miss (dict pyval) :=
  do! account := as_mapping (get snapshot "futures_account") "usd_m_futures.account" in
  do! wallet_balance := _decimal_string (get account "totalWalletBalance") "usd_m_futures.wallet_balance" in
  do! available_balance := _decimal_string (get account "availableBalance") "usd_m_futures.available_balance" in
  do! total_margin_balance := _decimal_string (get account "totalMarginBalance") "usd_m_futures.total_margin_balance" in
  do! total_maint_margin := _decimal_string (get account "totalMaintMargin") "usd_m_futures.total_maint_margin" in
  do! ratio := margin_ratio total_margin_balance total_maint_margin in
  do! assets := rows_field asset_row (get account "assets") "usd_m_futures.assets" in
  do! account_rows := _rows (get account "positions") "usd_m_futures.account_positions" in
  do! account_positions := _nonzero_position_rows account_rows "usd_m_futures.account_positions" in
  do! risk_rows := _rows (get snapshot "position_risk") "usd_m_futures.position_risk" in
  do! risk_positions := _nonzero_position_rows risk_rows "usd_m_futures.position_risk" in
  do! positions := position_rows account_positions risk_positions (position_keys account_positions risk_positions) in
  do! _ := note_if (negb (String.eqb (status_text snapshot "futures_position_mode_status" "") "available"))
             "usd_m_futures.position_mode.availability" in
  do! mode := position_mode (get snapshot "futures_position_mode") in
  do! open_orders := rows_field futures_order_row (get snapshot "futures_open_orders") "usd_m_futures.open_orders" in
  m_ret [("venue", VStr "BINANCE_USD_M_FUTURES");
         ("wallet_balance", opt_str wallet_balance);
         ("available_balance", opt_str available_balance);
         ("total_margin_balance", opt_str total_margin_balance);
         ("total_maintenance_margin", opt_str total_maint_margin);
         ("margin_ratio", opt_str ratio);
         ("position_mode", opt_str mode);
         ("assets", VList assets);
         ("positions", VList positions);
         ("open_orders", VList open_orders)].

(** ** The truth *)

Inductive truth_status := UNKNOWN | STALE | COMPLETE.

#[export] Instance truth_status_eq_dec : EqDecision truth_status.
Proof. solve_decision. Defined.

Definition status_name (s : truth_status) : string :=
  match s with UNKNOWN => "UNKNOWN" | STALE => "STALE" | COMPLETE => "COMPLETE" end.

Record NormalizedAccountTruth := Truth {
  snapshot_id : string;
  account_id : string;
  environment : string;
  captured_at : option string;
  availability_time : option string;
  expires_at : option string;
  status : truth_status;
  standard_spot_status : truth_status;
  usd_m_futures_status : truth_status;
  missing_fields : list string;
  standard_spot : dict pyval;
  usd_m_futures : dict pyval;
  raw_snapshot : dict pyval;
  content_hash : string;
  schema_version : Z
}.

Definition ready (t : NormalizedAccountTruth) : bool := bool_decide (status t = COMPLETE).

(** [to_dict(include_raw=...)] *)
Definition truth_to_dict (include_raw : bool) (t : NormalizedAccountTruth) : dict pyval :=
  [("schema_version", VInt (schema_version t)); ("snapshot_id", VStr (snapshot_id t)); ("account_id", VStr (account_id t));
   ("environment", VStr (environment t)); ("captured_at", opt_str (captured_at t));
   ("availability_time", opt_str (availability_time t)); ("expires_at", opt_str (expires_at t));
   ("status", VStr (status_name (status t))); ("standard_spot_status", VStr (status_name (standard_spot_status t)));
   ("usd_m_futures_status", VStr (status_name (usd_m_futures_status t)));
   ("missing_fields", VList (map VStr (missing_fields t))); ("standard_spot", VDict (standard_spot t));
   ("usd_m_futures", VDict (usd_m_futures t)); ("content_hash", VStr (content_hash t))]
  ++ (if include_raw then [("raw_snapshot", VDict (raw_snapshot t))] else []).

(** A venue is unknown when a field of it, or the time of the snapshot, is missing. *)
Definition venue_status (venue_missing : list string) (availability : option Z) (stale : bool) : truth_status :=
  match venue_missing, availability with
  | [], Some _ => if stale then STALE else COMPLETE
  | _, _ => UNKNOWN
  end.

(** The expiry and whether the snapshot is too old or from the future. *)
Definition expiry (now max_age : Z) (availability : option Z) : result (option Z * bool) :=
  match availability with
  | None => Ok (None, false)
  | Some t =>
      let! age := timedelta_us (max_age * 1000000) in
      let! expires := plus_delta t age in
      let! stale := (if expires <? now then Ok true
                     else let! latest := plus_delta now 5000000 in Ok (latest <? t)) in
      Ok (Some expires, stale)
  end.

(** [str(datetime)] separates the date from the time by a blank. *)
Definition datetime_str (t : Z) : string :=
  str_map (fun c => if Ascii.eqb c "T"%char then " "%char else c) (isoformat t).

Definition hash_payload (t : NormalizedAccountTruth) : pyval :=
  VDict [("schema_version", VInt ACCOUNT_TRUTH_SCHEMA_VERSION); ("account_id", VStr (account_id t));
    ("environment", VStr (environment t)); ("captured_at", opt_str (captured_at t));
    ("availability_time", opt_str (availability_time t)); ("expires_at", opt_str (expires_at t));
    ("status", VStr (status_name (status t))); ("standard_spot_status", VStr (status_name (standard_spot_status t)));
    ("usd_m_futures_status", VStr (status_name (usd_m_futures_status t)));
    ("missing_fields", VList (map VStr (missing_fields t))); ("standard_spot", VDict (standard_spot t));
    ("usd_m_futures", VDict (usd_m_futures t)); ("raw_snapshot", VDict (raw_snapshot t))].

Definition normalize_binance_account_truth (snapshot : dict pyval) (account_id environment : string)
    (now max_age_seconds : Z) : result NormalizedAccountTruth :=
  let! availability := _parse_time (get snapshot "availability_time") in
  let! captured := _parse_time (get snapshot "captured_at") in
  let early := match availability with None => ["availability_time"] | Some _ => [] end
            ++ match get snapshot "captured_at", captured with VNone, _ | _, Some _ => [] | _, None => ["captured_at"] end in
  let (spot, spot_missing) := _normalize_spot snapshot [] in
  let! standard_spot := spot in
  let (futures, futures_missing) := _normalize_futures snapshot [] in
  let! usd_m_futures := futures in
  let missing := early ++ spot_missing ++ futures_missing in
  let! exp := expiry now (Z.max 1 max_age_seconds) availability in
  let stale := snd exp in
  let unsigned := Truth EmptyString account_id environment
    (option_map isoformat captured) (option_map isoformat availability) (option_map isoformat (fst exp))
    (match missing with [] => if stale then STALE else COMPLETE | _ => UNKNOWN end)
    (venue_status spot_missing availability stale) (venue_status futures_missing availability stale)
    (sort_strings (dedupe missing)) standard_spot usd_m_futures snapshot EmptyString ACCOUNT_TRUTH_SCHEMA_VERSION in
  let! canonical := _canonical_json (hash_payload unsigned) in
  let content_hash := sha256_hex canonical in
  let identity := sha256_hex (str_join "|" [account_id; environment;
                    match availability with Some t => datetime_str t | None => "None" end; content_hash]) in
  Ok (Truth ("account_truth_" +:+ str_take 32 identity) account_id environment (captured_at unsigned)
        (availability_time unsigned) (expires_at unsigned) (status unsigned) (standard_spot_status unsigned)
        (usd_m_futures_status unsigned) (missing_fields unsigned) standard_spot usd_m_futures snapshot
        content_hash ACCOUNT_TRUTH_SCHEMA_VERSION).

(** ** The signed snapshot of the shared fixture *)

Definition ex_snapshot : dict pyval :=
  [("captured_at", VStr "2026-08-15T11:59:58+00:00");
   ("availability_time", VStr "2026-08-15T12:00:00+00:00");
   ("spot_account", VDict [("uid", VInt 424242); ("canTrade", VBool true);
     ("balances", VList [VDict [("asset", VStr "USDT"); ("free", VStr "1234.5600"); ("locked", VStr "10.0000")];
     VDict [("asset", VStr "BTC"); ("free", VStr "0.12500000"); ("locked", VStr "0.00500000")]])]);
   ("spot_open_orders", VList [VDict [("symbol", VStr "BTCUSDT"); ("orderId", VInt 7001);
     ("clientOrderId", VStr "bngs_spot_fixture"); ("side", VStr "BUY"); ("type", VStr "LIMIT");
     ("status", VStr "NEW"); ("price", VStr "65000.2500"); ("origQty", VStr "0.01000000");
     ("executedQty", VStr "0.00200000"); ("cummulativeQuoteQty", VStr "130.00050000")]]);
   ("spot_trade_symbols", VList [VStr "BTCUSDT"]);
   ("spot_trades_status", VStr "available");
   ("spot_trade_scope", VStr "ACTIVE_ACCOUNT_UNIVERSE_LATEST_1000_PER_SYMBOL");
   ("spot_trades", VList [VDict [("symbol", VStr "BTCUSDT"); ("id", VInt 8001); ("orderId", VInt 7001);
     ("price", VStr "65000.2500"); ("qty", VStr "0.00200000"); ("quoteQty", VStr "130.00050000");
     ("commission", VStr "0.00000200"); ("commissionAsset", VStr "BTC"); ("time", VInt 1786795199000);
     ("isBuyer", VBool true); ("isMaker", VBool true)]]);
   ("margin_account_status", VStr "available");
   ("margin_account", VDict [("userAssets", VList [VDict [("asset", VStr "BTC"); ("borrowed", VStr "0.01500000");
     ("interest", VStr "0.00001000")]])]);
   ("margin_interest_status", VStr "available");
   ("margin_interest", VList [VDict [("txId", VStr "9001"); ("asset", VStr "BTC"); ("interest", VStr "0.00001000");
     ("principal", VStr "0.01500000"); ("interestAccuredTime", VInt 1786795100000)]]);
   ("futures_account", VDict [("totalWalletBalance", VStr "5000.00000000");
     ("availableBalance", VStr "4200.12500000"); ("totalMarginBalance", VStr "5000.00000000");
     ("totalMaintMargin", VStr "25.00000000"); ("assets", VList [VDict [("asset", VStr "USDT");
     ("walletBalance", VStr "5000.00000000"); ("availableBalance", VStr "4200.12500000");
     ("marginBalance", VStr "5000.00000000"); ("unrealizedProfit", VStr "12.50000000")]]);
     ("positions", VList [VDict [("symbol", VStr "BTCUSDT"); ("positionSide", VStr "BOTH");
     ("positionAmt", VStr "-0.13000000"); ("entryPrice", VStr "64990.5000");
     ("unrealizedProfit", VStr "12.50000000"); ("leverage", VStr "2"); ("maintMargin", VStr "25.00000000")]])]);
   ("position_risk", VList [VDict [("symbol", VStr "BTCUSDT"); ("positionSide", VStr "BOTH");
     ("positionAmt", VStr "-0.13000000"); ("entryPrice", VStr "64990.5000"); ("markPrice", VStr "64894.34615385");
     ("unRealizedProfit", VStr "12.50000000"); ("leverage", VStr "2"); ("marginType", VStr "cross");
     ("liquidationPrice", VStr "120000.0000")]]);
   ("futures_position_mode_status", VStr "available");
   ("futures_position_mode", VDict [("dualSidePosition", VBool false)]);
   ("futures_open_orders", VList [VDict [("symbol", VStr "BTCUSDT"); ("orderId", VInt 7101);
     ("clientOrderId", VStr "bngs_perp_fixture"); ("positionSide", VStr "BOTH"); ("side", VStr "BUY");
     ("type", VStr "LIMIT"); ("status", VStr "NEW"); ("price", VStr "64000.0000"); ("origQty", VStr "0.01000000");
     ("executedQty", VStr "0.00000000")]]);
   ("snapshot_errors", VDict [])].

(** 2026-08-15 12:01 UTC. *)
Definition ex_now : Z := 1786795260000000.

Definition ex_truth : result NormalizedAccountTruth :=
  normalize_binance_account_truth ex_snapshot "binance-fixture" "testnet" ex_now DEFAULT_ACCOUNT_TRUTH_MAX_AGE_SECONDS.

(** The truth of the shared fixture, up to the hash. *)
Example ex_truth_fixture :
  option_map (fun t => (standard_spot_status t, map fst (standard_spot t), get (usd_m_futures t) "margin_ratio",
      get (usd_m_futures t) "positions"))
    (match ex_truth with Ok t => Some t | Err _ => None end)
  = Some (COMPLETE,
      ["venue"; "uid"; "can_trade"; "balances"; "borrow_interest_status"; "borrow_interest"; "interest_events_status";
       "interest_events"; "trades_status"; "trade_scope"; "trade_symbols"; "trades"; "open_orders"],
      VStr "0.005",
      VList [VDict [("symbol", VStr "BTCUSDT"); ("position_side", VStr "BOTH"); ("position_amount", VStr "-0.13");
        ("entry_price", VStr "64990.5"); ("mark_price", VStr "64894.34615385"); ("unrealized_profit", VStr "12.5");
        ("leverage", VStr "2"); ("maintenance_margin", VStr "25"); ("margin_type", VStr "cross");
        ("liquidation_price", VStr "120000")]]).
Proof. vm_compute. reflexivity. Qed.
