(* ===== verification/AccountTruthFacts.v ===== *)
(** * Properties of the normalized account truth

    A complete truth is the payload: every field of every row was present, every number
    reads back as the payload's rounded to 28 digits, the two position projections name
    the same exposures, and the snapshot is fresh. *)
From Stdlib Require Import ZArith Lia QArith Qabs Ascii.
From stdpp Require Import base list strings sets.
From S2P Require Import Prelude PyDecimal PyDecimalFacts PyDecimalPlain PyTime PyValue PyCalendar AccountTruth.
Open Scope Z_scope.

(** ** What an operation notes *)

(** The operation only appends to the missing fields, and its value satisfies [Q] when it
    appends none. *)
Definition tracks {A} (m : Miss A) (Q : A -> Prop) : Prop :=
  forall missing a missing', m missing = (Ok a, missing') ->
    exists added, missing' = missing ++ added /\ (added = [] -> Q a).

Lemma tracks_ret {A} (a : A) (Q : A -> Prop) : Q a -> tracks (m_ret a) Q.
Proof. intros H missing x missing' [= <- <-]. exists []. by rewrite app_nil_r. Qed.

Lemma tracks_absent {A} path (a : A) (Q : A -> Prop) : tracks (absent path a) Q.
Proof. intros missing x missing' [= <- <-]. by exists [path]. Qed.

Lemma tracks_note_if b path : tracks (note_if b path) (fun _ => b = false).
Proof. destruct b; [|by apply tracks_ret]. intros missing x missing' [= <- <-]. by exists [path]. Qed.

Lemma tracks_note path (Q : unit -> Prop) : tracks (note path) Q.
Proof. intros missing x missing' [= <- <-]. by exists [path]. Qed.

Lemma tracks_lift {A} (r : result A) : tracks (m_lift r) (fun a => r = Ok a).
Proof. intros missing x missing' [= -> <-]. exists []. by rewrite app_nil_r. Qed.

Lemma tracks_bind {A B} (m : Miss A) (f : A -> Miss B) P Q :
  tracks m P -> (forall a, tracks (f a) (fun b => P a -> Q b)) -> tracks (m_bind m f) Q.
Proof.
  intros Hm Hf missing b missing'. unfold m_bind. destruct (m missing) as [[a|e] m1] eqn:E; [|done].
  intros H. destruct (Hm _ _ _ E) as (x & -> & Hx). destruct (Hf _ _ _ _ H) as (y & -> & Hy).
  exists (x ++ y). split; [by rewrite app_assoc|]. intros [-> ->]%app_nil. auto.
Qed.

Lemma tracks_weaken {A} (m : Miss A) (P Q : A -> Prop) : tracks m P -> (forall a, P a -> Q a) -> tracks m Q.
Proof. intros Hm H missing a missing' E. destruct (Hm _ _ _ E) as (x & -> & Hx). exists x. auto. Qed.

(** A value bound before: [Q] may assume what it satisfies. *)
Ltac track tac := eapply tracks_bind; [tac|intros ?].

(** ** Fields *)

(** The text is the payload's number, rounded to the 28 digits of the context. *)
Definition number_read (x : pyval) (t : string) : Prop :=
  exists d n r, as_decimal x = Ok (DFin d) /\ rounds (dval d) n /\ Decimal_of_str t = Ok (DFin r) /\ (dval r == dval n)%Q.

Lemma canonical_text_reads d t : canonical_text d = Ok t ->
  exists n r, rounds (dval d) n /\ Decimal_of_str t = Ok (DFin r) /\ (dval r == dval n)%Q.
Proof.
  unfold canonical_text. destruct (N.eqb_spec (dcoeff d) 0) as [E|E].
  - intros [= <-]. exists d0, d0. split_and!; [|done|done]. split; [done|]. intros r _.
    rewrite (proj2 (dval_zero d)), dval_0 by done. by split.
  - intros H. apply res_bind_Ok in H as (n & Hn & [= <-]). destruct (dnormalize_spec _ _ Hn) as ((Hf & _) & _ & Hr).
    exists n, (plain_value n). split; [done|]. split; [|by apply dval_plain_value].
    by apply Decimal_of_plain, plain_value_range.
Qed.

Lemma tracks_decimal x path : tracks (_decimal_string x path)
  (fun o => no_decimal x = false /\ exists t, o = Some t /\ number_read x t).
Proof.
  unfold _decimal_string. destruct (no_decimal x); [apply tracks_absent|].
  destruct (as_decimal x) as [[d|s|]|e] eqn:E; [|apply tracks_absent..|].
  - track ltac:(apply tracks_lift). apply tracks_ret. intros Ht. split; [done|]. eexists. split; [done|].
    destruct (canonical_text_reads _ _ Ht) as (n & r & H). by exists d, n, r.
  - destruct (numeric_errors _); [apply tracks_absent|]. eapply tracks_weaken; [apply tracks_lift|]. done.
Qed.

Lemma tracks_text x path : tracks (_text x path)
  (fun o => x <> VNone /\ o = Some (strip (py_str x)) /\ nonempty (strip (py_str x)) = true).
Proof.
  unfold _text. destruct x; try apply tracks_absent;
    (destruct (nonempty _) eqn:E; [by apply tracks_ret|apply tracks_absent]).
Qed.

Lemma tracks_integer x path : tracks (_integer x path) (fun o => exists z, parse_int (py_str x) = Some z /\ o = Some z).
Proof.
  unfold _integer. destruct x; try apply tracks_absent;
    (destruct (parse_int _); [apply tracks_ret; eauto|apply tracks_absent]).
Qed.

(** What the value of a field is when nothing was missing. *)
Definition reads (f : field) (v : pyval) : Prop :=
  match f with
  | FDec x => no_decimal x = false /\ exists t, v = VStr t /\ number_read x t
  | FText x => x <> VNone /\ v = VStr (strip (py_str x)) /\ nonempty (strip (py_str x)) = true
  | FInt x => exists z, parse_int (py_str x) = Some z /\ v = VInt z
  | FConst x => v = x
  end.

Lemma tracks_field f path : tracks (read_field f path) (reads f).
Proof.
  destruct f as [x|x|x|x]; cbn; [track ltac:(apply tracks_decimal)|track ltac:(apply tracks_text)
    |track ltac:(apply tracks_integer)|by apply tracks_ret]; apply tracks_ret; cbn; [|naive_solver..].
  intros (H & t & -> & Ht). split; [done|]. by exists t.
Qed.

(** A row display: the names in order, each with the value of its field. *)
Definition row_reads (fields : list (string * field)) (d : dict pyval) : Prop :=
  Forall2 (fun nf nv => fst nf = fst nv /\ reads (snd nf) (snd nv)) fields d.

Lemma tracks_build fields path : tracks (build fields path) (row_reads fields).
Proof.
  induction fields as [|[name f] fields IH]; cbn; [apply tracks_ret; constructor|].
  track ltac:(apply tracks_field). track ltac:(apply IH). apply tracks_ret.
  intros Hd Hv. constructor; [by split|done].
Qed.

(** ** Tables *)

Lemma tracks_mapping_rows path index l : tracks (mapping_rows path index l) (fun rows => l = map VDict rows).
Proof.
  revert index. induction l as [|x l IH]; intros index; cbn; [by apply tracks_ret|].
  destruct x; try (apply (tracks_bind _ _ (fun _ => False)); [apply tracks_note|]; intros _;
    eapply tracks_weaken; [apply IH|done]).
  track ltac:(apply IH). apply tracks_ret. by intros ->.
Qed.

Lemma tracks_rows x path : tracks (_rows x path) (fun rows => x = VList (map VDict rows)).
Proof.
  unfold _rows. destruct x; try apply tracks_absent. eapply tracks_weaken; [apply tracks_mapping_rows|]. by intros rows ->.
Qed.

Lemma tracks_each_row f path index rows (R : dict pyval -> dict pyval -> Prop) :
  (forall row path, tracks (f row path) (R row)) ->
  tracks (each_row f path index rows) (fun out => exists ds, out = map VDict ds /\ Forall2 R rows ds).
Proof.
  intros Hf. revert index. induction rows as [|row rows IH]; intros index; cbn; [apply tracks_ret; by exists []|].
  track ltac:(apply Hf). track ltac:(apply IH). apply tracks_ret. intros (ds & -> & H) Hr. eexists (_ :: ds). split; [done|by constructor].
Qed.

(** The rows of a table: the payload's, each read into the row at the same place. *)
Definition table_reads (R : dict pyval -> dict pyval -> Prop) (payload : pyval) (out : list pyval) : Prop :=
  exists rows ds, payload = VList (map VDict rows) /\ out = map VDict ds /\ Forall2 R rows ds.

Lemma tracks_rows_field f x path (R : dict pyval -> dict pyval -> Prop) :
  (forall row path, tracks (f row path) (R row)) -> tracks (rows_field f x path) (table_reads R x).
Proof.
  intros Hf. unfold rows_field. track ltac:(apply tracks_rows). eapply tracks_weaken; [by apply tracks_each_row|].
  intros out (ds & -> & H) Hx. exists a, ds. done.
Qed.

(** ** Positions *)

Definition key_of (row : dict pyval) : string :=
  upper (strip (py_str (get row "symbol"))) +:+ "|" +:+ upper (strip (py_str (get_or row "positionSide" (VStr "BOTH")))).

(** The position amount, as canonical text, is not zero. *)
Definition open_row (row : dict pyval) : bool :=
  match (let! n := as_decimal (get row "positionAmt") in
         match n with DFin d => let! t := canonical_text d in text_value t | _ => raise ValueError "" end) with
  | Ok r => negb (dcoeff r =? 0)%N
  | Err _ => false
  end.

Definition exposures (rows : list (dict pyval)) : dict (dict pyval) :=
  map (fun row => (key_of row, row)) (List.filter open_row rows).

Lemma tracks_position_key row path : tracks (_position_key row path) (fun o => o = Some (key_of row)).
Proof.
  unfold _position_key. track ltac:(apply tracks_text). track ltac:(apply tracks_text). apply tracks_ret.
  by intros (_ & -> & _) (_ & -> & _).
Qed.

Lemma tracks_amount row path : tracks (_decimal_string (get row "positionAmt") path)
  (fun o => exists d t, as_decimal (get row "positionAmt") = Ok (DFin d) /\ canonical_text d = Ok t /\ o = Some t).
Proof.
  unfold _decimal_string. destruct (no_decimal _); [apply tracks_absent|].
  destruct (as_decimal _) as [[d|s|]|e] eqn:E; [|apply tracks_absent..|].
  - track ltac:(apply tracks_lift). apply tracks_ret. intros Ht. eauto.
  - destruct (numeric_errors _); [apply tracks_absent|]. eapply tracks_weaken; [apply tracks_lift|]. done.
Qed.

Lemma tracks_nonzero_rows path index rows acc : 
  tracks (nonzero_rows path index rows acc)
    (fun out => out = acc ++ exposures rows /\ (NoDup (dict_keys acc) -> NoDup (dict_keys out))).
Proof.
  revert index acc. induction rows as [|row rows IH]; intros index acc; cbn [nonzero_rows].
  { apply tracks_ret. by rewrite app_nil_r. }
  cbn zeta. track ltac:(apply tracks_amount). rename a into amount. track ltac:(apply tracks_position_key). rename a into key.
  destruct amount as [t|], key as [key|]; [|eapply tracks_weaken; [apply IH|naive_solver]..].
  track ltac:(apply tracks_lift). rename a into r. unfold exposures. cbn [List.filter].
  assert (forall P : Prop,
    ((open_row row = negb (dcoeff r =? 0)%N -> key = key_of row -> P) ->
     text_value t = Ok r -> Some key = Some (key_of row) ->
     (exists d t', as_decimal (get row "positionAmt") = Ok (DFin d) /\ canonical_text d = Ok t' /\ Some t = Some t') -> P)) as Hopen.
  { intros P HP E3 [= Ek] (d & t' & E1 & E2 & [= <-]). apply HP; [|done]. unfold open_row. rewrite E1. cbn [res_bind].
    rewrite E2. cbn [res_bind]. by rewrite E3. }
  destruct (dcoeff r =? 0)%N eqn:Er; [|destruct (dict_has acc key) eqn:Eh].
  - eapply tracks_weaken; [apply IH|]. intros out H. apply Hopen. intros -> _. exact H.
  - apply (tracks_bind _ _ (fun _ => False)); [apply tracks_note|]. intros _. eapply tracks_weaken; [apply IH|done].
  - eapply tracks_weaken; [apply IH|]. intros out (H1 & H2). apply Hopen. intros -> ->. cbn [negb map].
    rewrite dict_set_new in * by done. split; [by rewrite H1, <- app_assoc|].
    intros Hn. apply H2. unfold dict_keys in *. rewrite map_app. apply NoDup_app. split; [done|]. split; [|repeat constructor; set_solver].
    intros k Hk Hk'. apply list_elem_of_singleton in Hk' as ->. unfold dict_has in Eh.
    destruct (dict_get acc _) eqn:E; [done|]. by apply dict_get_None in E.
Qed.

Lemma exposures_spec rows key row : (key, row) ∈ exposures rows <-> row ∈ rows /\ open_row row = true /\ key = key_of row.
Proof.
  unfold exposures. rewrite list_elem_of_fmap. split.
  - intros (x & [= -> ->] & H). apply list_elem_of_In, filter_In in H as (H1 & H2). by rewrite list_elem_of_In.
  - intros (H1 & H2 & ->). exists row. split; [done|]. apply list_elem_of_In, filter_In. by rewrite <- list_elem_of_In.
Qed.

Lemma tracks_projection_row positions key path :
  tracks (projection_row positions key path) (fun row => (key, row) ∈ positions).
Proof.
  unfold projection_row. destruct (dict_get positions key) eqn:E; [|apply tracks_absent].
  apply tracks_ret. by apply dict_get_elem.
Qed.

(** ** The columns

    What every column of a table is to hold, under the names the exchange gives its fields. *)

Definition balance_columns (row : dict pyval) : list (string * field) :=
  [("asset", FText (get row "asset"));
   ("free", FDec (get row "free"));
   ("locked", FDec (get row "locked"))].

Definition spot_order_columns (row : dict pyval) : list (string * field) :=
  [("symbol", FText (get row "symbol"));
   ("order_id", FInt (get row "orderId"));
   ("client_order_id", FText (get row "clientOrderId"));
   ("side", FText (get row "side"));
   ("type", FText (get row "type"));
   ("status", FText (get row "status"));
   ("price", FDec (get row "price"));
   ("orig_qty", FDec (get row "origQty"));
   ("executed_qty", FDec (get row "executedQty"));
   ("cumulative_quote_qty", FDec (get row "cummulativeQuoteQty"))].

Definition spot_trade_columns (row : dict pyval) : list (string * field) :=
  [("symbol", FText (get row "symbol"));
   ("trade_id", FInt (get row "id"));
   ("order_id", FInt (get row "orderId"));
   ("price", FDec (get row "price"));
   ("qty", FDec (get row "qty"));
   ("quote_qty", FDec (get row "quoteQty"));
   ("commission", FDec (get row "commission"));
   ("commission_asset", FText (get row "commissionAsset"));
   ("time_ms", FInt (get row "time"));
   ("is_buyer", FConst (bool_or_none (get row "isBuyer")));
   ("is_maker", FConst (bool_or_none (get row "isMaker")))].

Definition borrow_columns (row : dict pyval) : list (string * field) :=
  [("scope", FConst (VStr "CROSS_MARGIN"));
   ("asset", FText (get row "asset"));
   ("borrowed", FDec (get row "borrowed"));
   ("interest", FDec (get row "interest"))].

Definition interest_columns (row : dict pyval) : list (string * field) :=
  [("scope", FConst (VStr "CROSS_MARGIN"));
   ("transaction_id", FText (get row "txId"));
   ("asset", FText (get row "asset"));
   ("interest", FDec (get row "interest"));
   ("principal", FDec (get row "principal"));
   ("time_ms", FInt (py_or (get row "interestAccuredTime") (get row "interestAccruedTime")))].

Definition asset_columns (row : dict pyval) : list (string * field) :=
  [("asset", FText (get row "asset"));
   ("wallet_balance", FDec (get row "walletBalance"));
   ("available_balance", FDec (get row "availableBalance"));
   ("margin_balance", FDec (get row "marginBalance"));
   ("unrealized_profit", FDec (get row "unrealizedProfit"))].

Definition position_columns (key : string) (account_row risk_row : dict pyval) : list (string * field) :=
  [("symbol", FConst (VStr (fst (split_bar key))));
   ("position_side", FConst (VStr (snd (split_bar key))));
   ("position_amount", FDec (get_or risk_row "positionAmt" (get account_row "positionAmt")));
   ("entry_price", FDec (get_or risk_row "entryPrice" (get account_row "entryPrice")));
   ("mark_price", FDec (get risk_row "markPrice"));
   ("unrealized_profit", FDec (get_or risk_row "unRealizedProfit" (get account_row "unrealizedProfit")));
   ("leverage", FDec (get_or risk_row "leverage" (get account_row "leverage")));
   ("maintenance_margin", FDec (get account_row "maintMargin"));
   ("margin_type", FText (get risk_row "marginType"));
   ("liquidation_price", FDec (get risk_row "liquidationPrice"))].

Definition futures_order_columns (row : dict pyval) : list (string * field) :=
  [("symbol", FText (get row "symbol"));
   ("order_id", FInt (get row "orderId"));
   ("client_order_id", FText (get row "clientOrderId"));
   ("position_side", FText (get_or row "positionSide" (VStr "BOTH")));
   ("side", FText (get row "side"));
   ("type", FText (get row "type"));
   ("status", FText (get row "status"));
   ("price", FDec (get row "price"));
   ("orig_qty", FDec (get row "origQty"));
   ("executed_qty", FDec (get row "executedQty"))].

(** The row of an exposure: both projections have one, and its fields are read from them. *)
Definition position_reads (account_positions risk_positions : dict (dict pyval)) (key : string) (d : dict pyval) : Prop :=
  exists account_row risk_row, (key, account_row) ∈ account_positions /\ (key, risk_row) ∈ risk_positions /\
    row_reads (position_columns key account_row risk_row) d.

Lemma tracks_position_rows account_positions risk_positions keys :
  tracks (position_rows account_positions risk_positions keys)
    (fun out => exists ds, out = map VDict ds /\ Forall2 (position_reads account_positions risk_positions) keys ds).
Proof.
  induction keys as [|key keys IH]; cbn; [apply tracks_ret; by exists []|].
  eapply tracks_bind with (P := position_reads account_positions risk_positions key).
  - unfold position_row. cbn zeta. track ltac:(apply tracks_projection_row). track ltac:(apply tracks_projection_row).
    eapply tracks_weaken; [apply tracks_build|]. intros d Hd Hr Ha. by exists a, a0.
  - intros d. track ltac:(apply IH). apply tracks_ret. intros (ds & -> & H) Hd. exists (d :: ds). split; [done|by constructor].
Qed.

(** ** The two venues *)

Lemma tracks_mapping v path : tracks (as_mapping v path) (fun d => v = VDict d).
Proof. unfold as_mapping. destruct v; try apply tracks_absent. by apply tracks_ret. Qed.

(** The table under a name of the payload, in the list under a name of the result. *)
Definition table (fields : dict pyval -> list (string * field)) (payload : pyval) (v : pyval) : Prop :=
  exists out, v = VList out /\ table_reads (fun row => row_reads (fields row)) payload out.

Definition trade_reads (row d : dict pyval) : Prop :=
  row_reads (spot_trade_columns row) d /\ is_bool (get row "isBuyer") = true /\ is_bool (get row "isMaker") = true.

Lemma tracks_trade_row row path : tracks (spot_trade_row row path) (trade_reads row).
Proof.
  unfold spot_trade_row. track ltac:(apply tracks_build). track ltac:(apply tracks_note_if). track ltac:(apply tracks_note_if).
  apply tracks_ret. intros H1%negb_false_iff H2%negb_false_iff H. by split.
Qed.

(** Borrowed amounts are read when margin is available, and none is assumed when it is disabled. *)
Definition borrow_reads (snapshot : dict pyval) (v : pyval) : Prop :=
  let margin_status := status_text snapshot "margin_account_status" "unknown" in
  (margin_status = "available" /\
     exists account, get snapshot "margin_account" = VDict account /\ table borrow_columns (get account "userAssets") v) \/
  (margin_status = "disabled" /\ v = VList []).

Lemma tracks_borrow snapshot : tracks (borrow_interest snapshot (status_text snapshot "margin_account_status" "unknown"))
  (fun out => borrow_reads snapshot (VList out)).
Proof.
  unfold borrow_interest. destruct (String.eqb_spec (status_text snapshot "margin_account_status" "unknown") "available") as [E|_].
  - track ltac:(apply tracks_mapping). eapply tracks_weaken; [apply tracks_rows_field; intros; apply tracks_build|].
    intros out H Ha. left. split; [done|]. exists a. split; [done|]. by exists out.
  - destruct (String.eqb_spec (status_text snapshot "margin_account_status" "unknown") "disabled"); [|apply tracks_absent].
    apply tracks_ret. by right.
Qed.

Definition spot_reads (snapshot d : dict pyval) : Prop :=
  exists account, get snapshot "spot_account" = VDict account /\
    reads (FText (get account "uid")) (get d "uid") /\
    (exists b, get account "canTrade" = VBool b /\ get d "can_trade" = VBool b) /\
    table balance_columns (get account "balances") (get d "balances") /\
    table spot_order_columns (get snapshot "spot_open_orders") (get d "open_orders") /\
    status_text snapshot "spot_trades_status" "unknown" = "available" /\
    reads (FText (get snapshot "spot_trade_scope")) (get d "trade_scope") /\
    (exists out, get d "trades" = VList out /\ table_reads trade_reads (get snapshot "spot_trades") out) /\
    borrow_reads snapshot (get d "borrow_interest") /\
    table interest_columns (get snapshot "margin_interest") (get d "interest_events") /\
    (exists l, get snapshot "spot_trade_symbols" = VList l /\ get d "trade_symbols" =
       VList (map VStr (sort_strings (dedupe (map upper (List.filter nonempty (map py_str l))))))).

Lemma tracks_table f (fields : dict pyval -> list (string * field)) x path : (forall row p, f row p = build (fields row) p) ->
  tracks (rows_field f x path) (fun out => table fields x (VList out)).
Proof.
  intros Hf. eapply tracks_weaken.
  - apply (tracks_rows_field f x path (fun row => row_reads (fields row))). intros row p. rewrite Hf. apply tracks_build.
  - intros out H. by exists out.
Qed.

Lemma tracks_symbols v : tracks (trade_symbols v) (fun s => exists l, v = VList l /\ s = symbols_set l).
Proof. unfold trade_symbols. destruct v; try apply tracks_absent. apply tracks_ret. eauto. Qed.

Lemma tracks_spot snapshot : tracks (_normalize_spot snapshot) (spot_reads snapshot).
Proof.
  unfold _normalize_spot.
  track ltac:(apply tracks_mapping). track ltac:(apply tracks_text). cbn zeta. track ltac:(apply tracks_note_if).
  track ltac:(by apply tracks_table with (fields := balance_columns)).
  track ltac:(by apply tracks_table with (fields := spot_order_columns)).
  track ltac:(apply tracks_note_if). track ltac:(apply tracks_text).
  track ltac:(apply tracks_rows_field; intros; apply tracks_trade_row). track ltac:(apply tracks_borrow).
  track ltac:(apply tracks_note_if). track ltac:(by apply tracks_table with (fields := interest_columns)).
  track ltac:(apply tracks_symbols).
  apply tracks_ret. intros (l & El & ->) Hint _ Hborrow Htrades (Hs1 & -> & Hs2) Hts Horders Hbal Hct (Hu1 & -> & Hu2) Ha.
  exists a. split; [done|]. split; [done|]. split.
  { apply negb_false_iff in Hct. destruct (get a "canTrade"); try done. eauto. }
  split; [done|]. split; [done|]. split; [by apply negb_false_iff, String.eqb_eq in Hts|]. split; [done|].
  split; [eauto|]. split; [done|]. split; [done|]. exists l. split; [done|]. done.
Qed.

(** The ratio of the two totals, of which the balance is positive. *)
Definition ratio_reads (balance maint v : pyval) : Prop :=
  exists tb tm b m q t, balance = VStr tb /\ maint = VStr tm /\ text_value tb = Ok b /\ text_value tm = Ok m /\
    dgt b (Dec false 0 0) = true /\ ddiv m b = Ok q /\ v = VStr t /\ number_read (VDec q) t.

Lemma tracks_ratio tb tm : tracks (margin_ratio (Some tb) (Some tm)) (fun o => ratio_reads (VStr tb) (VStr tm) (opt_str o)).
Proof.
  unfold margin_ratio. track ltac:(apply tracks_lift). rename a into b. destruct (dgt b _) eqn:E; [|apply tracks_absent].
  track ltac:(apply tracks_lift). rename a into m. track ltac:(apply tracks_lift). rename a into q.
  eapply tracks_weaken; [apply tracks_decimal|]. intros o (_ & t & -> & H) Hq Hm Hb. by exists tb, tm, b, m, q, t.
Qed.

Lemma tracks_mode payload : tracks (position_mode payload)
  (fun o => exists d b, payload = VDict d /\ get d "dualSidePosition" = VBool b /\ o = Some (if b : bool then "HEDGE" else "ONE_WAY")).
Proof.
  unfold position_mode. destruct payload; try apply tracks_absent. destruct (get d "dualSidePosition") eqn:E; try apply tracks_absent.
  apply tracks_ret. eauto.
Qed.

Definition positions_read (account_payload risk_payload v : pyval) : Prop :=
  exists account_rows risk_rows ds,
    account_payload = VList (map VDict account_rows) /\ risk_payload = VList (map VDict risk_rows) /\ v = VList (map VDict ds) /\
    NoDup (dict_keys (exposures account_rows)) /\ NoDup (dict_keys (exposures risk_rows)) /\
    Forall2 (position_reads (exposures account_rows) (exposures risk_rows))
      (sort_strings (dedupe (dict_keys (exposures account_rows) ++ dict_keys (exposures risk_rows)))) ds.

Definition futures_reads (snapshot d : dict pyval) : Prop :=
  exists account, get snapshot "futures_account" = VDict account /\
    reads (FDec (get account "totalWalletBalance")) (get d "wallet_balance") /\
    reads (FDec (get account "availableBalance")) (get d "available_balance") /\
    reads (FDec (get account "totalMarginBalance")) (get d "total_margin_balance") /\
    reads (FDec (get account "totalMaintMargin")) (get d "total_maintenance_margin") /\
    ratio_reads (get d "total_margin_balance") (get d "total_maintenance_margin") (get d "margin_ratio") /\
    table asset_columns (get account "assets") (get d "assets") /\
    positions_read (get account "positions") (get snapshot "position_risk") (get d "positions") /\
    (exists m b, get snapshot "futures_position_mode" = VDict m /\ get m "dualSidePosition" = VBool b /\
       get d "position_mode" = VStr (if b : bool then "HEDGE" else "ONE_WAY")) /\
    table futures_order_columns (get snapshot "futures_open_orders") (get d "open_orders").

Lemma tracks_futures snapshot : tracks (_normalize_futures snapshot) (futures_reads snapshot).
Proof.
  unfold _normalize_futures. track ltac:(apply tracks_mapping).
  track ltac:(apply tracks_decimal). track ltac:(apply tracks_decimal). track ltac:(apply tracks_decimal). track ltac:(apply tracks_decimal).
  apply (tracks_bind _ _ (fun o => forall tb tm, a2 = Some tb -> a3 = Some tm -> ratio_reads (VStr tb) (VStr tm) (opt_str o))).
  { destruct a2 as [tb|], a3 as [tm|]; try by apply tracks_ret.
    eapply tracks_weaken; [apply tracks_ratio|]. by intros o H ? ? [= <-] [= <-]. }
  intros ratio. track ltac:(by apply tracks_table with (fields := asset_columns)).
  track ltac:(apply tracks_rows). rename a5 into arows. track ltac:(apply tracks_nonzero_rows).
  track ltac:(apply tracks_rows). rename a6 into rrows. track ltac:(apply tracks_nonzero_rows).
  track ltac:(apply tracks_position_rows). track ltac:(apply tracks_note_if). track ltac:(apply tracks_mode).
  track ltac:(by apply tracks_table with (fields := futures_order_columns)). apply tracks_ret.
  intros Horders (m & b & Hm & Hb & ->) _ (ds & -> & Hds) (-> & Hnr) Hrr (-> & Hna) Har Hassets Hratio
    (Hm1 & tm & -> & Hm2) (Hb1 & tb & -> & Hb2) (Hv1 & tv & -> & Hv2) (Hw1 & tw & -> & Hw2) Ha.
  exists a. split; [done|]. 
  split; [split; [done|by exists tw]|]. split; [split; [done|by exists tv]|].
  split; [split; [done|by exists tb]|]. split; [split; [done|by exists tm]|].
  split; [by apply Hratio|]. split; [done|]. split; [|split; [by exists m, b|done]].
  exists arows, rrows, ds. cbn [app] in *. split_and!; try done; [apply Hna|apply Hnr]; constructor.
Qed.

(** ** The truth *)

(** The snapshot is at most [max_age] old and not more than five seconds ahead of the clock. *)
Definition fresh (snapshot : dict pyval) (now max_age : Z) : Prop :=
  exists t, _parse_time (get snapshot "availability_time") = Ok (Some t) /\
    now <= t + Z.max 1 max_age * 1000000 /\ t <= now + 5000000.

Lemma plus_delta_value now us t : plus_delta now us = Ok t -> t = now + us.
Proof. unfold plus_delta. by destruct (_ && _); intros [= <-]. Qed.

Lemma expiry_fresh now age t e stale : expiry now age (Some t) = Ok (e, stale) ->
  stale = false <-> now <= t + age * 1000000 /\ t <= now + 5000000.
Proof.
  unfold expiry, timedelta_us. destruct (_ <=? _); [|done]. cbn [res_bind]. intros H.
  apply res_bind_Ok in H as (x & Hx & H). apply plus_delta_value in Hx as ->.
  apply res_bind_Ok in H as (st & Hst & [= _ ->]).
  destruct (Z.ltb_spec (t + age * 1000000) now) as [|Hle]; [injection Hst as <-; split; [done|lia]|].
  apply res_bind_Ok in Hst as (y & Hy & [= <-]). apply plus_delta_value in Hy as ->. rewrite Z.ltb_ge. lia.
Qed.

Lemma run_tracks {A} (m : Miss A) Q a missing : tracks m Q -> m [] = (Ok a, missing) -> missing = [] -> Q a.
Proof. intros Hm E ->. destruct (Hm _ _ _ E) as (x & Hx & HQ). apply HQ. by destruct x. Qed.

Lemma sort_dedupe_nil l : sort_strings (dedupe l) = [] <-> l = [].
Proof.
  split; [|by intros ->]. intros E. destruct l as [|x l]; [done|exfalso].
  assert (x ∈ sort_strings (dedupe (x :: l))) as H; [|rewrite E in H; by apply elem_of_nil in H].
  rewrite sort_strings_perm, elem_of_dedupe. apply elem_of_cons. by left.
Qed.

Lemma venue_complete vm availability stale : venue_status vm availability stale = COMPLETE ->
  vm = [] /\ stale = false /\ exists t, availability = Some t.
Proof. unfold venue_status. destruct vm, availability as [t|], stale; try done. intros _. eauto. Qed.

(** What a successful normalization computed. *)
Lemma normalize_inv snapshot account env now age truth :
  normalize_binance_account_truth snapshot account env now age = Ok truth ->
  exists availability spot_missing futures_missing e stale missing,
    _parse_time (get snapshot "availability_time") = Ok availability /\
    _normalize_spot snapshot [] = (Ok (standard_spot truth), spot_missing) /\
    _normalize_futures snapshot [] = (Ok (usd_m_futures truth), futures_missing) /\
    expiry now (Z.max 1 age) availability = Ok (e, stale) /\
    (missing = [] -> spot_missing = [] /\ futures_missing = [] /\ exists t, availability = Some t) /\
    missing_fields truth = sort_strings (dedupe missing) /\
    status truth = match missing with [] => if stale then STALE else COMPLETE | _ => UNKNOWN end /\
    standard_spot_status truth = venue_status spot_missing availability stale /\
    usd_m_futures_status truth = venue_status futures_missing availability stale.
Proof.
  unfold normalize_binance_account_truth. intros H.
  apply res_bind_Ok in H as (availability & Ha & H). apply res_bind_Ok in H as (captured & Hc & H).
  destruct (_normalize_spot snapshot []) as [spot sm] eqn:Es. apply res_bind_Ok in H as (ss & -> & H).
  destruct (_normalize_futures snapshot []) as [fut fm] eqn:Ef. apply res_bind_Ok in H as (ff & -> & H).
  cbn zeta in H. apply res_bind_Ok in H as ([e stale] & He & H). apply res_bind_Ok in H as (json & _ & [= <-]). cbn.
  eexists availability, sm, fm, e, stale, _. split_and!; try done.
  rewrite !app_nil. intros ((Ha' & _) & -> & ->). split_and!; try done. destruct availability; [eauto|done].
Qed.

(** C33: a venue reported complete is the signed payload, whatever the payload, and the snapshot is fresh.
    Balances, assets, orders, trades, borrowed amounts and interest are one result row per payload row, in
    order; positions are one row per exposure, merged from its rows in the two endpoints, and the rows
    whose amount is zero are dropped. Every column holds the payload field that the tables of columns
    name for it, present and well formed, and every number is the payload's rounded to 28 digits. The
    whole is ready exactly when no field is missing and the snapshot is fresh, and then both venues are
    complete. *)
Theorem complete_truth_is_payload snapshot account env now age truth :
  normalize_binance_account_truth snapshot account env now age = Ok truth ->
  (standard_spot_status truth = COMPLETE -> spot_reads snapshot (standard_spot truth) /\ fresh snapshot now age) /\
  (usd_m_futures_status truth = COMPLETE -> futures_reads snapshot (usd_m_futures truth) /\ fresh snapshot now age) /\
  (ready truth = true <-> missing_fields truth = [] /\ fresh snapshot now age) /\
  (ready truth = true -> standard_spot_status truth = COMPLETE /\ usd_m_futures_status truth = COMPLETE).
Proof.
  intros H. destruct (normalize_inv _ _ _ _ _ _ H) as (av & sm & fm & e & stale & missing & Ha & Hs & Hf & He & Hm & Hmf & Hst & Hss & Hfs).
  assert (forall t, av = Some t -> stale = false <-> fresh snapshot now age) as Hfresh.
  { intros t ->. rewrite (expiry_fresh _ _ _ _ _ He). unfold fresh. rewrite Ha. split; [eauto|].
    intros (t' & [= <-] & Ht). exact Ht. }
  assert (ready truth = true <-> missing = [] /\ stale = false) as Hready.
  { unfold ready. rewrite bool_decide_eq_true, Hst. destruct missing, stale; naive_solver. }
  split_and!.
  - rewrite Hss. intros (-> & Hstale & t & Ht)%venue_complete. split; [|by eapply Hfresh].
    exact (run_tracks _ _ _ _ (tracks_spot snapshot) Hs eq_refl).
  - rewrite Hfs. intros (-> & Hstale & t & Ht)%venue_complete. split; [|by eapply Hfresh].
    exact (run_tracks _ _ _ _ (tracks_futures snapshot) Hf eq_refl).
  - rewrite Hready, Hmf, sort_dedupe_nil. split; intros (Hnil & Hx); split; try done;
      destruct (Hm Hnil) as (_ & _ & t & Ht); by eapply Hfresh.
  - intros (Hnil & ->)%Hready. destruct (Hm Hnil) as (-> & -> & t & ->). by rewrite Hss, Hfs.
Qed.

(** In a complete futures account the account and the risk endpoint name the
    same exposures, each of them once; the positions have exactly one row per exposure, whose numbers are
    read from both rows.  An exposure that only one endpoint reports, or reports twice, makes it unknown. *)
Theorem complete_positions_agree snapshot account env now age truth :
  normalize_binance_account_truth snapshot account env now age = Ok truth -> usd_m_futures_status truth = COMPLETE ->
  exists futures account_rows risk_rows ds,
    get snapshot "futures_account" = VDict futures /\
    get futures "positions" = VList (map VDict account_rows) /\
    get snapshot "position_risk" = VList (map VDict risk_rows) /\
    get (usd_m_futures truth) "positions" = VList (map VDict ds) /\
    NoDup (dict_keys (exposures account_rows)) /\ NoDup (dict_keys (exposures risk_rows)) /\
    dict_keys (exposures account_rows) ≡ₚ dict_keys (exposures risk_rows) /\
    length ds = length (exposures account_rows) /\
    forall key account_row, (key, account_row) ∈ exposures account_rows ->
      exists risk_row d, (key, risk_row) ∈ exposures risk_rows /\ d ∈ ds /\ row_reads (position_columns key account_row risk_row) d.
Proof.
  intros H Hc. destruct (normalize_inv _ _ _ _ _ _ H) as (av & sm & fm & e & stale & missing & Ha & Hs & Hf & He & Hm & Hmf & Hst & Hss & Hfs).
  rewrite Hfs in Hc. apply venue_complete in Hc as (-> & _ & _).
  pose proof (run_tracks _ _ _ _ (tracks_futures snapshot) Hf eq_refl) as (acc & Hacc & _ & _ & _ & _ & _ & _ & Hp & _).
  destruct Hp as (arows & rrows & ds & Hpa & Hpr & Hpd & Hna & Hnr & Hds).
  exists acc, arows, rrows, ds. do 6 (split; [done|]).
  set (A := exposures arows) in *. set (R := exposures rrows) in *.
  assert (forall key, key ∈ position_keys A R <-> key ∈ dict_keys A \/ key ∈ dict_keys R) as Hkeys.
  { intros key. unfold position_keys. by rewrite sort_strings_perm, elem_of_dedupe, elem_of_app. }
  assert (forall key, key ∈ position_keys A R -> exists d, d ∈ ds /\ position_reads A R key d) as Hrow.
  { intros key (i & Hi)%list_elem_of_lookup. destruct (Forall2_lookup_l _ _ _ _ _ Hds Hi) as (d & Hd & Hr).
    exists d. split; [|done]. by eapply list_elem_of_lookup_2. }
  assert (forall key (row : dict pyval) X, (key, row) ∈ X -> key ∈ dict_keys X) as Hin
    by (intros key row X HX; apply list_elem_of_fmap; by exists (key, row)).
  assert (dict_keys A ≡ₚ dict_keys R) as Hperm.
  { apply NoDup_Permutation; [done..|]. intros key. split; intros Hk;
      (destruct (Hrow key ltac:(apply Hkeys; tauto)) as (d & _ & ra & rr & H1 & H2 & _)); eauto. }
  split; [done|]. split.
  - transitivity (length (position_keys A R)); [symmetry; exact (Forall2_length _ _ _ Hds)|].
    transitivity (length (dict_keys A)); [|apply length_map].
    apply Permutation_length, NoDup_Permutation; [|done|].
    { unfold position_keys. rewrite sort_strings_perm. apply dedupe_NoDup. }
    intros key. rewrite Hkeys. rewrite <- Hperm. tauto.
  - intros key ra Hra. destruct (Hrow key ltac:(apply Hkeys; left; eauto)) as (d & Hd & ra' & rr & H1 & H2 & Hr).
    apply dict_get_In in Hra, H1; [|done..]. assert (ra' = ra) as -> by congruence. by exists rr, d.
Qed.

(** ** The shared fixture *)

Definition ex_unknown : NormalizedAccountTruth :=
  Truth EmptyString EmptyString EmptyString None None None UNKNOWN UNKNOWN UNKNOWN [] [] [] [] EmptyString 0.
Definition fixture_truth : NormalizedAccountTruth := match ex_truth with Ok t => t | Err _ => ex_unknown end.

(** The hash of the fixture is not computed: that the normalization succeeds does not depend on it. *)
Lemma ex_truth_ok : ex_truth = Ok fixture_truth.
Proof.
  unfold fixture_truth. assert (is_ok ex_truth = true) as H by (vm_compute; reflexivity). by destruct ex_truth.
Qed.

Lemma ex_truth_complete : usd_m_futures_status fixture_truth = COMPLETE.
Proof. vm_compute. reflexivity. Qed.

Lemma complete_truth_is_payload_witness :
  (standard_spot_status fixture_truth = COMPLETE -> spot_reads ex_snapshot (standard_spot fixture_truth) /\ fresh ex_snapshot ex_now 120) /\
  (usd_m_futures_status fixture_truth = COMPLETE -> futures_reads ex_snapshot (usd_m_futures fixture_truth) /\ fresh ex_snapshot ex_now 120) /\
  (ready fixture_truth = true <-> missing_fields fixture_truth = [] /\ fresh ex_snapshot ex_now 120) /\
  (ready fixture_truth = true -> standard_spot_status fixture_truth = COMPLETE /\ usd_m_futures_status fixture_truth = COMPLETE).
Proof.
  exact (complete_truth_is_payload ex_snapshot "binance-fixture" "testnet" ex_now 120 fixture_truth ex_truth_ok).
Defined.

Lemma complete_positions_agree_witness :
  exists futures account_rows risk_rows ds,
    get ex_snapshot "futures_account" = VDict futures /\
    get futures "positions" = VList (map VDict account_rows) /\
    get ex_snapshot "position_risk" = VList (map VDict risk_rows) /\
    get (usd_m_futures fixture_truth) "positions" = VList (map VDict ds) /\
    NoDup (dict_keys (exposures account_rows)) /\ NoDup (dict_keys (exposures risk_rows)) /\
    dict_keys (exposures account_rows) ≡ₚ dict_keys (exposures risk_rows) /\
    length ds = length (exposures account_rows) /\
    forall key account_row, (key, account_row) ∈ exposures account_rows ->
      exists risk_row d, (key, risk_row) ∈ exposures risk_rows /\ d ∈ ds /\ row_reads (position_columns key account_row risk_row) d.
Proof.
  exact (complete_positions_agree ex_snapshot "binance-fixture" "testnet" ex_now 120 fixture_truth ex_truth_ok ex_truth_complete).
Defined.

(** A malformed amount beyond the exponents of the context is not noted as missing: the
    normalization of the snapshot raises. *)
Definition huge_snapshot : dict pyval :=
  dict_set ex_snapshot "spot_account"
    (VDict [("uid", VInt 1); ("canTrade", VBool true);
            ("balances", VList [VDict [("asset", VStr "BTC"); ("free", VStr "1E+1000000"); ("locked", VStr "0")]])]).

Lemma huge_amount_raises :
  match normalize_binance_account_truth huge_snapshot "a" "live" ex_now 120 with
  | Err e => exn_class e = Overflow
  | Ok _ => False
  end.
Proof. vm_compute. reflexivity. Qed.
