(* ===== verification/FeedRecovery.v ===== *)
(** * Feed cursors and API recovery

    Model of [src/bongus/market_data/feed_recovery.py]: the durable cursor of each
    venue/stream/symbol with its gap handling, the rate-limit budget, the classifier
    of exchange conditions and the clock check.  The table [feed_cursors] and the
    event table are the state.  With a separate event connection every event is
    committed when it is written, before the cursor; otherwise it belongs to the
    transaction.  Instants are microseconds and [now] is an argument; an integer that
    does not fit SQLite's 64 bits raises when it is bound. *)
From Stdlib Require Import ZArith Lia Ascii SpecFloat.
From stdpp Require Import base list list_numbers strings sets.
From S2P Require Import Prelude PyDecimal PyFloat PyTime PyValue.
Open Scope Z_scope.

(** ** Data *)

Inductive FeedState := COLD | READY | GAPPED | BACKFILLING | THROTTLED | MAINTENANCE | CLOCK_SKEW | FILTER_CHANGED.

#[export] Instance FeedState_eq_dec : EqDecision FeedState.
Proof. solve_decision. Defined.

Definition feed_state_value (s : FeedState) : string :=
  match s with
  | COLD => "COLD" | READY => "READY" | GAPPED => "GAPPED" | BACKFILLING => "BACKFILLING"
  | THROTTLED => "THROTTLED" | MAINTENANCE => "MAINTENANCE" | CLOCK_SKEW => "CLOCK_SKEW"
  | FILTER_CHANGED => "FILTER_CHANGED"
  end.

Record FeedSource := Source { venue : string; stream : string; symbol : string }.

(** [source.key] *)
Definition source_key (x : FeedSource) : result string :=
  let v := lower (strip (venue x)) in
  let st := lower (strip (stream x)) in
  if negb (nonempty v) || negb (nonempty st) then raise ValueError "feed source requires venue and stream"
  else Ok (str_join ":" [v; st; upper (strip (symbol x))]).

Record SequenceResult := SeqResult {
  q_source_key : string;
  accepted : bool;
  duplicate : bool;
  q_state : FeedState;
  prior_sequence : option Z;
  sequence : Z;
  missing_from : option Z;
  missing_to : option Z;
  q_reason : string
}.

Record ApiCondition := Condition {
  a_state : FeedState;
  retry_at : option Z;
  reason_code : string;
  symbol_scoped : bool;
  a_evidence : dict pyval
}.

(** A row of [feed_cursors]. *)
Record cursor := Cursor {
  c_key : string;
  c_venue : string;
  c_stream : string;
  c_symbol : string;
  last_sequence : option Z;
  c_state : FeedState;
  gap_from : option Z;
  gap_to : option Z;
  last_event_time : option Z;
  metadata_hash : string;
  updated_at : Z
}.

(** A row of [feed_recovery_events]; the key is its position. *)
Record event := Event {
  e_key : string;
  e_time : Z;
  e_type : string;
  e_prior : option Z;
  e_next : option Z;
  e_details : string
}.

Record store := Store { cursors : list cursor; events : list event }.

(** ** The tables *)

Definition sql_opt_int (z : option Z) : result unit := match z with Some z => sql_int z | None => Ok tt end.

Definition find_cursor (key : string) (s : store) : option cursor :=
  List.find (fun c => String.eqb (c_key c) key) (cursors s).

Definition update_cursor (key : string) (f : cursor -> cursor) : M store unit := fun s =>
  (Ok tt, Store (map (fun c => if String.eqb (c_key c) key then f c else c) (cursors s)) (events s)).

Definition insert_cursor (c : cursor) : M store unit := fun s => (Ok tt, Store (cursors s ++ [c]) (events s)).

(** [INSERT ... ON CONFLICT(source_key) DO UPDATE SET ...] *)
Definition upsert_cursor (c : cursor) (f : cursor -> cursor) : M store unit := fun s =>
  match find_cursor (c_key c) s with
  | Some _ => update_cursor (c_key c) f s
  | None => insert_cursor c s
  end.

Definition _event (key type : string) (prior next : option Z) (details : dict pyval) (now : Z) : M store unit := fun s =>
  match (let! d := json_dumps false (VDict details) in
         let! _ := sql_opt_int prior in let! _ := sql_opt_int next in Ok d) with
  | Err e => (Err e, s)
  | Ok d => (Ok tt, Store (cursors s) (events s ++ [Event key now type prior next d]))
  end.

(** [BEGIN IMMEDIATE ... commit()]: an exception restores the cursors, and the events
    too unless their connection has already committed them. *)
Definition transaction {A} (split : bool) (body : M store A) : M store A := fun s =>
  match body s with
  | (Ok a, s') => (Ok a, s')
  | (Err e, s') => (Err e, Store (cursors s) (if split then events s' else events s))
  end.

(** [_row(source)]: the key and its row, if any. *)
Definition _row (x : FeedSource) : M store (string * option cursor) := fun s =>
  match source_key x with Ok k => (Ok (k, find_cursor k s), s) | Err e => (Err e, s) end.

Definition blank_cursor (key : string) (x : FeedSource) (last : option Z) (st : FeedState) (event_time : option Z)
    (hash : string) (now : Z) : cursor :=
  Cursor key (lower (venue x)) (lower (stream x)) (upper (symbol x)) last st None None event_time hash now.

(** ** Scalar sequences *)

Definition set_accepted (seq event_time now : Z) (c : cursor) : cursor :=
  Cursor (c_key c) (c_venue c) (c_stream c) (c_symbol c) (Some seq) READY (gap_from c) (gap_to c) (Some event_time)
    (metadata_hash c) now.

Definition set_gap (from to now : Z) (c : cursor) : cursor :=
  Cursor (c_key c) (c_venue c) (c_stream c) (c_symbol c) (last_sequence c) GAPPED (Some from) (Some to)
    (last_event_time c) (metadata_hash c) now.

Definition follows (prior : option Z) (seq : Z) (st : FeedState) : bool :=
  match prior with Some p => (seq =? p + 1) && negb (bool_decide (st = GAPPED)) | None => false end.

Definition stale (prior : option Z) (seq : Z) : bool := match prior with Some p => seq <=? p | None => false end.

Definition ingest_row (key : string) (x : FeedSource) (row : option cursor) (seq event_time now : Z)
    : M store SequenceResult :=
  match row with
  | None =>
      do! _ := m_lift (sql_int seq) in
      do! _ := insert_cursor (blank_cursor key x (Some seq) READY (Some event_time) "" now) in
      do! _ := _event key "CURSOR_INITIALIZED" None (Some seq) [] now in
      m_ret (SeqResult key true false READY None seq None None "")
  | Some c =>
      let prior := last_sequence c in
      if stale prior seq then
        do! _ := _event key "DUPLICATE_OR_STALE" prior (Some seq) [("cursor_unchanged", VBool true)] now in
        m_ret (SeqResult key false true (c_state c) prior seq None None "duplicate_or_stale_sequence")
      else if follows prior seq (c_state c) then
        do! _ := m_lift (sql_int seq) in
        do! _ := update_cursor key (set_accepted seq event_time now) in
        m_ret (SeqResult key true false READY prior seq None None "")
      else
        let from := match prior with Some p => p + 1 | None => seq end in
        let to := seq - 1 in
        do! _ := m_lift (let! _ := sql_int from in sql_int to) in
        do! _ := update_cursor key (set_gap from to now) in
        do! _ := _event key "GAP_DETECTED" prior (Some seq) [("missing_from", VInt from); ("missing_to", VInt to)] now in
        m_ret (SeqResult key false false GAPPED prior seq (Some from) (Some to) "contiguous_backfill_required")
  end.

(** A sequence number of a feed: not a [bool], not negative. *)
Definition checked_sequence (v : pyval) (field : string) : result Z :=
  match v with
  | VBool _ => raise ValueError (field +:+ " must be a non-negative integer")
  | _ => let! z := py_int v in
         if z <? 0 then raise ValueError (field +:+ " must be a non-negative integer") else Ok z
  end.

Definition ingest (split : bool) (x : FeedSource) (seq : pyval) (event_time : option Z) (now : Z)
    : M store SequenceResult :=
  do! seq := m_lift (checked_sequence seq "sequence") in
  transaction split (
    do! kr := _row x in
    ingest_row (fst kr) x (snd kr) seq (match event_time with Some t => t | None => now end) now).

(** The missing numbers, in order. *)
Definition range (from to : Z) : list Z := seqZ from (to + 1 - from).

Definition set_backfilled (seq now : Z) (c : cursor) : cursor :=
  Cursor (c_key c) (c_venue c) (c_stream c) (c_symbol c) (Some seq) READY None None (last_event_time c)
    (metadata_hash c) now.

Definition ints (l : list Z) : pyval := VList (map VInt l).

Definition backfill_row (key : string) (row : option cursor) (values : list Z) (now : Z) : M store SequenceResult :=
  match row with
  | None => m_raise ValueError "cannot backfill an uninitialized source"
  | Some c =>
      match last_sequence c, gap_from c, gap_to c with
      | None, _, _ => m_raise ValueError "cannot backfill an uninitialized source"
      | Some prior, Some from, Some to =>
          if negb (bool_decide (c_state c = GAPPED)) then m_raise ValueError "source does not have a pending gap"
          else
            let expected := range from to in
            if negb (bool_decide (values = expected)) then
              do! _ := _event key "BACKFILL_REJECTED" (Some prior) (last values)
                         [("expected", ints expected); ("received", ints values)] now in
              m_ret (SeqResult key false false GAPPED (Some prior) (match last values with Some v => v | None => prior end)
                       (Some from) (Some to) "backfill_not_contiguous_or_complete")
            else
              do! _ := update_cursor key (set_backfilled to now) in
              do! _ := _event key "BACKFILL_APPLIED" (Some prior) (Some to)
                         [("event_count", VInt (Z.of_nat (length values)))] now in
              m_ret (SeqResult key true false READY (Some prior) to None None "gap_replayed_and_cursor_proven")
      | Some _, _, _ => m_raise ValueError "source does not have a pending gap"
      end
  end.

Definition apply_backfill (split : bool) (max_backfill_events : Z) (x : FeedSource) (sequences : list pyval) (now : Z)
    : M store SequenceResult :=
  do! values := m_lift (res_map_list py_int sequences) in
  if max_backfill_events <? Z.of_nat (length values) then m_raise ValueError "backfill exceeds configured safety bound"
  else
    transaction split (
      do! kr := _row x in
      backfill_row (fst kr) (snd kr) values now).

(** ** Ranged streams *)

Definition _optional_sequence (v : pyval) (field : string) : result (option Z) :=
  match v with
  | VNone => Ok None
  | _ => let! z := checked_sequence v field in Ok (Some z)
  end.

Record gap_evidence := GapEvidence {
  g_prior : option Z;
  g_first : option Z;
  g_final : option Z;
  g_previous_final : option Z;
  g_reason : string
}.

Definition set_ranged_gap (last : option Z) (now : Z) (c : cursor) : cursor :=
  Cursor (c_key c) (c_venue c) (c_stream c) (c_symbol c)
    (match last with Some _ => last | None => last_sequence c end) GAPPED None None (Some now) (metadata_hash c) now.

Definition opt_int (z : option Z) : pyval := match z with Some z => VInt z | None => VNone end.

Definition _record_gap_locked (x : FeedSource) (g : gap_evidence) (now : Z) : M store SequenceResult :=
  do! kr := _row x in
  let key := fst kr in
  let stored := match snd kr with Some c => last_sequence c | None => None end in
  let effective := match g_prior g with Some p => Some p | None => stored end in
  do! _ := m_lift (sql_opt_int effective) in
  do! _ := upsert_cursor (blank_cursor key x effective GAPPED (Some now) "" now) (set_ranged_gap effective now) in
  do! _ := _event key "RANGED_GAP_RECORDED" effective (g_final g)
             [("first_sequence", opt_int (g_first g)); ("final_sequence", opt_int (g_final g));
              ("previous_final_sequence", opt_int (g_previous_final g)); ("reason", VStr (g_reason g));
              ("sequence_model", VStr "ranged"); ("readiness_proof_required", VBool true)] now in
  m_ret (SeqResult key false false GAPPED effective
    (match g_final g with Some f => f | None => match effective with Some e => e | None => 0 end end)
    None None "fresh_snapshot_or_contiguous_range_proof_required").

Definition gap_of (prior first final previous_final : pyval) (why : string) : result gap_evidence :=
  let! p := _optional_sequence prior "prior_sequence" in
  let! f := _optional_sequence first "first_sequence" in
  let! l := _optional_sequence final "final_sequence" in
  let! q := _optional_sequence previous_final "previous_final_sequence" in
  Ok (GapEvidence p f l q why).

Definition record_gap (split : bool) (x : FeedSource) (prior first final previous_final : pyval) (why : string) (now : Z)
    : M store SequenceResult :=
  do! g := m_lift (gap_of prior first final previous_final why) in
  transaction split (_record_gap_locked x g now).

Fixpoint record_gaps (gaps : list (FeedSource * gap_evidence)) (now : Z) : M store (list SequenceResult) :=
  match gaps with
  | [] => m_ret []
  | (x, g) :: gaps' =>
      do! r := _record_gap_locked x g now in
      do! rs := record_gaps gaps' now in
      m_ret (r :: rs)
  end.

Definition evidence_gap (evidence : dict pyval) : result gap_evidence :=
  gap_of (get evidence "prior_sequence") (get evidence "first_sequence") (get evidence "final_sequence")
    (get evidence "previous_final_sequence") (py_str (py_or (get evidence "reason") (VStr "sequence_gap"))).

Definition record_gap_batch (split : bool) (gaps : list (FeedSource * dict pyval)) (now : Z)
    : M store (list SequenceResult) :=
  do! normalized := m_lift (res_map_list (fun xe => let! g := evidence_gap (snd xe) in Ok (fst xe, g)) gaps) in
  match normalized with
  | [] => m_raise ValueError "at least one ranged gap is required"
  | _ => transaction split (record_gaps normalized now)
  end.

Definition set_retired (now : Z) (c : cursor) : cursor :=
  Cursor (c_key c) (c_venue c) (c_stream c) (c_symbol c) None COLD None None None (metadata_hash c) now.

Definition retire_source (split : bool) (x : FeedSource) (why : string) (now : Z) : M store bool :=
  transaction split (
    do! kr := _row x in
    match snd kr with
    | None => m_ret false
    | Some c =>
        let already := bool_decide (c_state c = COLD) && negb (bool_decide (is_Some (last_sequence c))) in
        do! _ := update_cursor (fst kr) (set_retired now) in
        do! _ := (if already then m_ret tt
                  else _event (fst kr) "SOURCE_RETIRED" (last_sequence c) None
                         [("reason", VStr why); ("readiness_granted", VBool false)] now) in
        m_ret (negb already)
    end).

Definition set_proven (final now : Z) (c : cursor) : cursor :=
  Cursor (c_key c) (c_venue c) (c_stream c) (c_symbol c) (Some final) READY None None (Some now) (metadata_hash c) now.

Definition proof_row (key : string) (x : FeedSource) (row : option cursor) (final : Z) (first previous_final : option Z)
    (is_snapshot contiguous : bool) (now : Z) : M store SequenceResult :=
  let prior := match row with Some c => last_sequence c | None => None end in
  let prior_state := match row with Some c => c_state c | None => COLD end in
  let kind := if is_snapshot then "snapshot" else "contiguous_range" in
  let is_stale := stale prior final && negb is_snapshot in
  if negb (is_snapshot || contiguous) || is_stale then
    do! _ := match row with
             | None => insert_cursor (blank_cursor key x None COLD None "" now)
             | Some _ => m_ret tt
             end in
    do! _ := _event key "READINESS_PROOF_REJECTED" prior (Some final)
               [("is_snapshot", VBool is_snapshot); ("contiguous", VBool contiguous); ("stale", VBool is_stale)] now in
    m_ret (SeqResult key false is_stale prior_state prior final None None
             (if is_stale then "stale_readiness_proof" else "snapshot_or_contiguous_range_proof_required"))
  else
    do! _ := m_lift (sql_int final) in
    do! _ := upsert_cursor (blank_cursor key x (Some final) READY (Some now) "" now) (set_proven final now) in
    do! _ := _event key "RANGED_READINESS_PROVEN" prior (Some final)
               [("proof_kind", VStr kind); ("first_sequence", opt_int first);
                ("previous_final_sequence", opt_int previous_final);
                ("prior_state", VStr (feed_state_value prior_state))] now in
    m_ret (SeqResult key true false READY prior final None None ("fresh_" +:+ kind +:+ "_proven")).

(** [final] is required: [None] fails the assertion. *)
Definition record_readiness_proof (split : bool) (x : FeedSource) (final first previous_final : pyval)
    (is_snapshot contiguous : bool) (now : Z) : M store SequenceResult :=
  do! l := m_lift (_optional_sequence final "final_sequence") in
  match l with
  | None => m_raise AssertionError ""
  | Some l =>
      do! f := m_lift (_optional_sequence first "first_sequence") in
      do! q := m_lift (_optional_sequence previous_final "previous_final_sequence") in
      transaction split (
        do! kr := _row x in
        proof_row (fst kr) x (snd kr) l f q is_snapshot contiguous now)
  end.

(** ** Filter metadata *)

Definition set_metadata (digest : string) (now : Z) (c : cursor) : cursor :=
  Cursor (c_key c) (c_venue c) (c_stream c) (c_symbol c) (last_sequence c) FILTER_CHANGED (gap_from c) (gap_to c)
    (last_event_time c) digest now.

(** Not inside an explicit transaction: its statements cannot fail. *)
Definition classify_metadata (x : FeedSource) (metadata : dict pyval) (now : Z) : M store (option ApiCondition) :=
  do! text := m_lift (json_dumps false (VDict metadata)) in
  let digest := sha256_hex text in
  do! kr := _row x in
  let key := fst kr in
  match snd kr with
  | None =>
      do! _ := insert_cursor (blank_cursor key x None COLD None digest now) in m_ret None
  | Some c =>
      if String.eqb digest (metadata_hash c) then m_ret None
      else
        let evidence := [("prior_hash", VStr (metadata_hash c)); ("next_hash", VStr digest)] in
        do! _ := update_cursor key (set_metadata digest now) in
        do! _ := _event key "FILTER_METADATA_CHANGED" (last_sequence c) (last_sequence c) evidence now in
        m_ret (Some (Condition FILTER_CHANGED None "exchange_filter_metadata_changed" (nonempty (symbol x)) evidence))
  end.

Definition cursor_leb (a b : cursor) : bool := String.leb (c_key a) (c_key b).

Definition snapshot (x : option FeedSource) (s : store) : result (list cursor) :=
  match x with
  | None => Ok (sort_by cursor_leb (cursors s))
  | Some x => let! k := source_key x in Ok (List.filter (fun c => String.eqb (c_key c) k) (cursors s))
  end.

(** ** The rate-limit budget *)

Record budget := Budget {
  capacity : float;
  refill_per_second : float;
  tokens : float;
  last_refill : option Z;
  blocked_until : option Z
}.

Definition new_budget (cap refill : float) : result budget :=
  if fle cap fzero || fle refill fzero then raise ValueError "rate-limit capacity and refill rate must be positive"
  else Ok (Budget cap refill cap None None).

Definition _refill (now : Z) (b : budget) : budget :=
  match last_refill b with
  | None => Budget (capacity b) (refill_per_second b) (tokens b) (Some now) (blocked_until b)
  | Some t =>
      let elapsed := fmax fzero (total_seconds (now - t)) in
      Budget (capacity b) (refill_per_second b)
        (fmin (capacity b) (fadd (tokens b) (fmul elapsed (refill_per_second b)))) (Some now) (blocked_until b)
  end.

Definition acquire (weight : float) (now : Z) : M budget bool := fun b =>
  if negb (isfinite weight) || fle weight fzero then (raise ValueError "request weight must be positive and finite", b)
  else
    let b := _refill now b in
    if match blocked_until b with Some t => now <? t | None => false end then (Ok false, b)
    else if flt (fadd (tokens b) (flit "1e-12")) weight then (Ok false, b)
    else (Ok true, Budget (capacity b) (refill_per_second b) (fsub (tokens b) weight) (last_refill b) (blocked_until b)).

Definition impose_retry_after (seconds : float) (now : Z) : M budget Z := fun b =>
  if negb (isfinite seconds) || flt seconds fzero then (raise ValueError "retry-after must be finite and non-negative", b)
  else
    match (let! us := timedelta_seconds seconds in plus_delta now us) with
    | Err e => (Err e, b)
    | Ok candidate =>
        let until := match blocked_until b with
                     | Some t => if t <? candidate then candidate else t
                     | None => candidate
                     end in
        (Ok until, Budget (capacity b) (refill_per_second b) (tokens b) (last_refill b) (Some until))
    end.

(** ** Exchange conditions *)

Definition after_seconds (now : Z) (s : float) : result Z := let! us := timedelta_seconds s in plus_delta now us.

(** [retry_at or now + timedelta(seconds=n)] *)
Definition or_after (retry : option Z) (now : Z) (n : Z) : result Z :=
  match retry with Some t => Ok t | None => plus_delta now (n * 1000000) end.

Definition classify (status_code : Z) (exchange_code : option Z) (message : string) (retry_after_seconds : option float)
    (sym : string) (now : Z) : result ApiCondition :=
  let lowered := lower message in
  let codes := [("status_code", VInt status_code); ("exchange_code", opt_int exchange_code)] in
  let! retry := match retry_after_seconds with
                | Some s => let! t := after_seconds now (fmax fzero s) in Ok (Some t)
                | None => Ok None
                end in
  let named := str_contains "maintenance" lowered || str_contains "service unavailable" lowered in
  let ok := (200 <=? status_code) && (status_code <? 300) in
  if (status_code =? 418) || (status_code =? 429) then
    let! t := or_after retry now (if status_code =? 429 then 60 else 300) in
    Ok (Condition THROTTLED (Some t) (if status_code =? 429 then "rate_limited" else "ip_banned") false codes)
  else if ((500 <=? status_code) && (status_code <=? 599)) || named then
    let! t := or_after retry now 30 in
    Ok (Condition MAINTENANCE (Some t) (if named then "exchange_maintenance" else "exchange_server_error") false
          [("status_code", VInt status_code); ("message", VStr (str_take 200 message))])
  else if bool_decide (exchange_code = Some (-1021)) || str_contains "timestamp" lowered || str_contains "clock" lowered
  then Ok (Condition CLOCK_SKEW (Some now) "exchange_clock_skew" false codes)
  else if bool_decide (exchange_code = Some (-1013)) || bool_decide (exchange_code = Some (-1111))
          || str_contains "lot_size" lowered || str_contains "tick_size" lowered
  then Ok (Condition FILTER_CHANGED None "exchange_filter_rejection" (nonempty sym)
             [("symbol", VStr (upper sym)); ("exchange_code", opt_int exchange_code);
              ("message", VStr (str_take 200 message))])
  else Ok (Condition (if ok then READY else THROTTLED) retry (if ok then "ok" else "transient_api_error") (nonempty sym) codes).

(** ** Clock synchronisation *)

Record ClockSyncResult := ClockSync { safe : bool; offset_ms : float; round_trip_ms : float; s_reason : string }.

Definition evaluate_exchange_clock (local_send_ms local_receive_ms exchange_time_ms max_absolute_offset_ms
    max_round_trip_ms : float) : ClockSyncResult :=
  if existsb (fun v => negb (isfinite v)) [local_send_ms; local_receive_ms; exchange_time_ms]
     || flt local_receive_ms local_send_ms
  then ClockSync false finf finf "invalid_clock_sample"
  else
    let round_trip := fsub local_receive_ms local_send_ms in
    let midpoint := fdiv_ieee (fadd local_send_ms local_receive_ms) (flit "2.0") in
    let offset := fsub exchange_time_ms midpoint in
    if flt max_round_trip_ms round_trip then ClockSync false offset round_trip "clock_sample_latency_too_high"
    else if flt max_absolute_offset_ms (SFabs offset) then ClockSync false offset round_trip "clock_offset_exceeds_limit"
    else ClockSync true offset round_trip "clock_synchronized".

(** ** Histories of one store *)

Inductive op :=
  | OIngest (x : FeedSource) (seq : pyval) (event_time : option Z) (now : Z)
  | OBackfill (x : FeedSource) (sequences : list pyval) (now : Z)
  | OGaps (gaps : list (FeedSource * dict pyval)) (now : Z)
  | OGap (x : FeedSource) (prior first final previous_final : pyval) (why : string) (now : Z)
  | OProof (x : FeedSource) (final first previous_final : pyval) (is_snapshot contiguous : bool) (now : Z)
  | ORetire (x : FeedSource) (why : string) (now : Z)
  | OMetadata (x : FeedSource) (metadata : dict pyval) (now : Z).

Section Run.

(** Whether the events have a connection of their own, and the bound of a backfill. *)
Context (split : bool) (max_backfill_events : Z).

Definition run_op (o : op) (s : store) : store :=
  match o with
  | OIngest x q et now => snd (ingest split x q et now s)
  | OBackfill x qs now => snd (apply_backfill split max_backfill_events x qs now s)
  | OGaps gs now => snd (record_gap_batch split gs now s)
  | OGap x p f l q why now => snd (record_gap split x p f l q why now s)
  | OProof x l f q sn ct now => snd (record_readiness_proof split x l f q sn ct now s)
  | ORetire x why now => snd (retire_source split x why now s)
  | OMetadata x m now => snd (classify_metadata x m now s)
  end.

(** The sequence numbers an operation hands to the consumer of a source. *)
Definition consumed (key : string) (o : op) (s : store) : list Z :=
  match o with
  | OIngest x q et now =>
      match fst (ingest split x q et now s) with
      | Ok r => if accepted r && String.eqb (q_source_key r) key then [sequence r] else []
      | Err _ => []
      end
  | OBackfill x qs now =>
      match fst (apply_backfill split max_backfill_events x qs now s) with
      | Ok r => if accepted r && String.eqb (q_source_key r) key
                then match res_map_list py_int qs with Ok vs => vs | Err _ => [] end else []
      | Err _ => []
      end
  | _ => []
  end.

Fixpoint run (l : list op) (s : store) : store :=
  match l with [] => s | o :: l' => run l' (run_op o s) end.

Fixpoint all_consumed (key : string) (l : list op) (s : store) : list Z :=
  match l with [] => [] | o :: l' => consumed key o s ++ all_consumed key l' (run_op o s) end.

End Run.

Definition empty_store : store := Store [] [].
