(* ===== verification/FeedRecoveryFacts.v ===== *)
(** * Properties of the feed cursors

    The cursor refines an in-order receiver: on a scalar stream every number is consumed
    exactly once and in order; a gapped stream becomes ready only on proof and can always
    be recovered by the missing range; a retry-after is respected by the budget. *)
From Stdlib Require Import ZArith Lia Ascii SpecFloat.
From stdpp Require Import base list list_numbers strings sets relations.
From S2P Require Import Prelude PyDecimal PyFloat PyTime PyValue FeedRecovery.
Open Scope Z_scope.

(** ** The table *)

Definition keeps_key (f : cursor -> cursor) : Prop := forall c, c_key (f c) = c_key c.

Lemma find_cursor_key k s c : find_cursor k s = Some c -> c_key c = k.
Proof. intros [_ H]%find_some. by apply String.eqb_eq in H. Qed.

Lemma find_update_cursor k f s k' : keeps_key f ->
  find_cursor k' (snd (update_cursor k f s)) = if String.eqb k' k then f <$> find_cursor k s else find_cursor k' s.
Proof.
  intros Hf. unfold find_cursor. simpl. induction (cursors s) as [|c l IH]; simpl; [by destruct (String.eqb k' k)|].
  destruct (String.eqb_spec (c_key c) k) as [E|E]; simpl.
  - rewrite Hf, E. destruct (String.eqb_spec k k') as [->|]; [by rewrite !String.eqb_refl|].
    rewrite IH. destruct (String.eqb_spec k' k); [congruence|done].
  - destruct (String.eqb_spec (c_key c) k') as [<-|]; [|done]. destruct (String.eqb_spec (c_key c) k); [congruence|done].
Qed.

Lemma find_insert_cursor c s k : find_cursor (c_key c) s = None ->
  find_cursor k (snd (insert_cursor c s)) = if String.eqb k (c_key c) then Some c else find_cursor k s.
Proof.
  unfold find_cursor. simpl. intros H. induction (cursors s) as [|x l IH]; simpl in *.
  - rewrite (String.eqb_sym (c_key c) k). by destruct (String.eqb k (c_key c)).
  - destruct (String.eqb_spec (c_key x) (c_key c)) as [|Hne]; [done|].
    destruct (String.eqb_spec (c_key x) k) as [<-|]; [|by apply IH]. destruct (String.eqb_spec (c_key x) (c_key c)); done.
Qed.

Definition same_cursors (s s' : store) : Prop := cursors s' = cursors s.

Lemma event_cursors k ty p n d t s : same_cursors s (snd (_event k ty p n d t s)).
Proof. unfold _event, same_cursors. by destruct (res_bind _ _). Qed.

Lemma same_find k s s' : same_cursors s s' -> find_cursor k s' = find_cursor k s.
Proof. unfold same_cursors, find_cursor. by intros ->. Qed.

Lemma transaction_Ok {A} split (body : M store A) s a s' :
  transaction split body s = (Ok a, s') <-> body s = (Ok a, s').
Proof. unfold transaction. destruct (body s) as [[b|e] s1]; split; intros [=]; by subst. Qed.

Lemma transaction_Err {A} split (body : M store A) s e s' :
  transaction split body s = (Err e, s') -> same_cursors s s' /\ exists s1, body s = (Err e, s1).
Proof. unfold transaction. destruct (body s) as [[b|e'] s1]; intros [=]. subst. split; [done|eauto]. Qed.

Lemma bind_Ok {S A B} (m : M S A) (f : A -> M S B) s b s' :
  m_bind m f s = (Ok b, s') <-> exists a s1, m s = (Ok a, s1) /\ f a s1 = (Ok b, s').
Proof. unfold m_bind. destruct (m s) as [[a|e] s1]; naive_solver. Qed.

Lemma event_Ok k ty p n d t s s' : _event k ty p n d t s = (Ok tt, s') -> same_cursors s s' /\ sql_opt_int n = Ok tt /\ sql_opt_int p = Ok tt.
Proof.
  intros H. split; [|].
  - pose proof (event_cursors k ty p n d t s) as E. by rewrite H in E.
  - unfold _event in H. destruct (json_dumps _ _); simpl in H; [|done]. destruct (sql_opt_int p) as [[]|]; simpl in H; [|done].
    destruct (sql_opt_int n) as [[]|]; done.
Qed.

Lemma row_Ok x s k r s' : _row x s = (Ok (k, r), s') -> source_key x = Ok k /\ r = find_cursor k s /\ s' = s.
Proof. unfold _row. destruct (source_key x); [|done]. by intros [= -> <- <-]. Qed.

(** The row of [k] is now [c]; the other rows are as before. *)
Definition becomes (k : string) (c : cursor) (s s' : store) : Prop :=
  find_cursor k s' = Some c /\ forall k', k' <> k -> find_cursor k' s' = find_cursor k' s.

Lemma becomes_update k f c s s1 : keeps_key f -> find_cursor k s = Some c ->
  update_cursor k f s = (Ok tt, s1) -> becomes k (f c) s s1.
Proof.
  intros Hf Hc H. assert (s1 = snd (update_cursor k f s)) as -> by by rewrite H.
  split; [|intros k' Hk]; rewrite find_update_cursor by done.
  - by rewrite String.eqb_refl, Hc.
  - by destruct (String.eqb_spec k' k).
Qed.

Lemma becomes_insert k c s s1 : c_key c = k -> find_cursor k s = None ->
  insert_cursor c s = (Ok tt, s1) -> becomes k c s s1.
Proof.
  intros Hk Hc H. assert (s1 = snd (insert_cursor c s)) as -> by by rewrite H. subst k.
  split; [|intros k' Hk]; rewrite find_insert_cursor by done.
  - by rewrite String.eqb_refl.
  - by destruct (String.eqb_spec k' (c_key c)).
Qed.

Lemma becomes_same k c s s1 s2 : becomes k c s s1 -> same_cursors s1 s2 -> becomes k c s s2.
Proof. intros [H1 H2] E. split; [|intros k' Hk]; rewrite (same_find _ _ _ E); auto. Qed.

Lemma becomes_upsert k c f s s1 : c_key c = k -> keeps_key f -> upsert_cursor c f s = (Ok tt, s1) ->
  becomes k (match find_cursor k s with Some r => f r | None => c end) s s1.
Proof.
  intros Hk Hf. unfold upsert_cursor. rewrite Hk. destruct (find_cursor k s) as [r|] eqn:E; intros H.
  - by apply becomes_update.
  - by apply becomes_insert.
Qed.

(** Splits a successful body into its steps. *)
Ltac steps H :=
  repeat match type of H with
  | m_bind _ _ _ = (Ok _, _) =>
      let x := fresh "x" in let s := fresh "s" in let E := fresh "E" in
      apply bind_Ok in H; destruct H as (x & s & E & H);
      lazymatch type of x with unit => destruct x | _ => idtac end;
      lazymatch type of E with
      | m_lift _ _ = _ => let E2 := fresh "E" in unfold m_lift in E; injection E as E E2; subst s
      | _ => idtac
      end
  | m_ret _ _ = (Ok _, _) => let E1 := fresh "E" in let E2 := fresh "E" in injection H as E1 E2
  end.

Lemma keeps_accepted q et t : keeps_key (set_accepted q et t). Proof. done. Qed.
Lemma keeps_gap a b t : keeps_key (set_gap a b t). Proof. done. Qed.
Lemma keeps_backfilled q t : keeps_key (set_backfilled q t). Proof. done. Qed.
Lemma keeps_ranged_gap q t : keeps_key (set_ranged_gap q t). Proof. done. Qed.
Lemma keeps_retired t : keeps_key (set_retired t). Proof. done. Qed.
Lemma keeps_proven q t : keeps_key (set_proven q t). Proof. done. Qed.
Lemma keeps_metadata d t : keeps_key (set_metadata d t). Proof. done. Qed.
#[local] Hint Resolve keeps_accepted keeps_gap keeps_backfilled keeps_ranged_gap keeps_retired keeps_proven
  keeps_metadata : core.

(** ** What each operation does *)

Inductive ingest_outcome (k : string) (seq et now : Z) (s : store) : SequenceResult -> store -> Prop :=
  | io_first c r s' : find_cursor k s = None -> becomes k c s s' -> last_sequence c = Some seq -> c_state c = READY ->
      accepted r = true -> ingest_outcome k seq et now s r s'
  | io_stale c p r s' : find_cursor k s = Some c -> last_sequence c = Some p -> seq <= p -> same_cursors s s' ->
      accepted r = false -> ingest_outcome k seq et now s r s'
  | io_next c p r s' : find_cursor k s = Some c -> last_sequence c = Some p -> seq = p + 1 -> c_state c <> GAPPED ->
      becomes k (set_accepted seq et now c) s s' -> accepted r = true -> ingest_outcome k seq et now s r s'
  | io_gap c r s' : find_cursor k s = Some c -> seq < 2 ^ 63 ->
      (forall p, last_sequence c = Some p -> - 2 ^ 63 <= p < seq /\ (seq = p + 1 -> c_state c = GAPPED)) ->
      becomes k (set_gap (match last_sequence c with Some p => p + 1 | None => seq end) (seq - 1) now c) s s' ->
      accepted r = false -> ingest_outcome k seq et now s r s'.

Lemma checked_sequence_nonneg v f z : checked_sequence v f = Ok z -> 0 <= z.
Proof.
  unfold checked_sequence. intros H. destruct v; try discriminate H; apply res_bind_Ok in H as (y & _ & H);
    destruct (y <? 0) eqn:E; try discriminate H; injection H as ->; bool_props; lia.
Qed.

Lemma ingest_row_spec k x row seq et now s r s' :
  row = find_cursor k s -> ingest_row k x row seq et now s = (Ok r, s') ->
  q_source_key r = k /\ sequence r = seq /\ ingest_outcome k seq et now s r s'.
Proof.
  intros -> H. unfold ingest_row in H. destruct (find_cursor k s) as [c|] eqn:Ec.
  - destruct (stale (last_sequence c) seq) eqn:Es; [|destruct (follows _ _ _) eqn:Ef]; steps H; subst r s'.
    + destruct (last_sequence c) as [p|] eqn:Ep; [|done]. simpl in Es. bool_props.
      split; [done|]. split; [done|]. eapply io_stale; [done|done|done| |done]. by apply event_Ok in E as [? _].
    + destruct (last_sequence c) as [p|] eqn:Ep; [|done]. simpl in Ef. bool_props.
      split; [done|]. split; [done|]. eapply io_next; [done|done|done|done| |done]. by apply becomes_update.
    + split; [done|]. split; [done|]. apply event_Ok in E1 as (E1 & Eb & Epr).
      eapply io_gap; [done| | | |done].
      * apply sql_int_Ok in Eb. lia.
      * intros p Ep. rewrite Ep in *. simpl in *. apply sql_int_Ok in Epr. bool_props. split; [lia|]. intros ->.
        destruct (bool_decide (c_state c = GAPPED)) eqn:B; [by bool_props|]. rewrite Z.eqb_refl in Ef. done.
      * eapply becomes_same; [|exact E1]. by apply becomes_update.
  - steps H. subst r s'. split; [done|]. split; [done|]. apply event_Ok in E1 as [E1 _].
    eapply (io_first _ _ _ _ _ (blank_cursor k x (Some seq) READY (Some et) "" now)); try done. eapply becomes_same; [|exact E1]. by apply becomes_insert.
Qed.

(** An operation that raises leaves the cursors alone; one that returns is described by [P]. *)
Definition outcome {A} (s : store) (r : result A * store) (P : A -> store -> Prop) : Prop :=
  match r with (Ok a, s') => P a s' | (Err _, s') => same_cursors s s' end.

Lemma outcome_transaction {A} split (body : M store A) s P :
  (forall a s', body s = (Ok a, s') -> P a s') -> outcome s (transaction split body s) P.
Proof.
  intros H. unfold outcome. destruct (transaction split body s) as [[a|e] s'] eqn:E.
  - apply H. by apply transaction_Ok in E.
  - by apply transaction_Err in E as [E _].
Qed.

Lemma outcome_lift {A B} (r : result A) (f : A -> M store B) s P :
  (forall a, r = Ok a -> outcome s (f a s) P) -> outcome s (m_bind (m_lift r) f s) P.
Proof. unfold m_bind, m_lift. destruct r; [by auto|done]. Qed.

Lemma ingest_spec split x q et now s :
  outcome s (ingest split x q et now s) (fun r s' => exists k seq et',
    source_key x = Ok k /\ checked_sequence q "sequence" = Ok seq /\ q_source_key r = k /\ sequence r = seq /\
    ingest_outcome k seq et' now s r s').
Proof.
  apply outcome_lift. intros seq Hq. apply outcome_transaction. intros r s' H. steps H.
  destruct x0 as [k row]. apply row_Ok in E as (Hk & Hr & ->). simpl in H.
  pose proof (ingest_row_spec _ _ _ _ _ _ _ _ _ Hr H) as (H1 & H2 & H3). eauto 10.
Qed.

Inductive backfill_outcome (k : string) (values : list Z) (now : Z) (s : store) : SequenceResult -> store -> Prop :=
  | bo_rejected r s' : same_cursors s s' -> accepted r = false -> backfill_outcome k values now s r s'
  | bo_applied c p f t r s' : find_cursor k s = Some c -> c_state c = GAPPED -> last_sequence c = Some p ->
      gap_from c = Some f -> gap_to c = Some t -> values = range f t ->
      becomes k (set_backfilled t now c) s s' -> accepted r = true -> backfill_outcome k values now s r s'.

Lemma backfill_spec split bound x qs now s :
  outcome s (apply_backfill split bound x qs now s) (fun r s' => exists k values,
    source_key x = Ok k /\ res_map_list py_int qs = Ok values /\ q_source_key r = k /\
    backfill_outcome k values now s r s').
Proof.
  apply outcome_lift. intros values Hv. destruct (bound <? _); [done|]. apply outcome_transaction.
  intros r s' H. steps H. destruct x0 as [k row]. apply row_Ok in E as (Hk & -> & ->). simpl in H.
  exists k, values. unfold backfill_row in H. destruct (find_cursor k s) as [c|] eqn:Ec; [|done].
  destruct (last_sequence c) as [p|] eqn:Ep; [|done].
  destruct (gap_from c) as [f|] eqn:Ef; [|done]. destruct (gap_to c) as [t|] eqn:Et; [|done].
  destruct (bool_decide (c_state c = GAPPED)) eqn:Es; [|done]. simpl in H.
  destruct (bool_decide (values = range f t)) eqn:Er; simpl in H; steps H; subst r s'; bool_props.
  - split; [done|]. split; [done|]. split; [done|]. apply event_Ok in E0 as [E0 _].
    eapply bo_applied; [done..| |done]. eapply becomes_same; [|exact E0]. by apply becomes_update.
  - split; [done|]. split; [done|]. split; [done|]. apply bo_rejected; [|done]. by apply event_Ok in E as [? _].
Qed.

Lemma record_gap_spec x g now s r s' : _record_gap_locked x g now s = (Ok r, s') ->
  exists k last c, source_key x = Ok k /\ c = match find_cursor k s with
    | Some c => set_ranged_gap last now c | None => blank_cursor k x last GAPPED (Some now) "" now end /\ becomes k c s s'.
Proof.
  intros H. unfold _record_gap_locked in H. steps H. destruct x0 as [k row]. apply row_Ok in E as (Hk & -> & ->). simpl in *.
  subst r s'. apply event_Ok in E2 as [E2 _].
  exists k. eexists _, _. split; [done|]. split; [reflexivity|]. eapply becomes_same; [|exact E2].
  eapply (becomes_upsert k) in E1; [exact E1|reflexivity|apply keeps_ranged_gap].
Qed.

Inductive proof_outcome (k : string) (final now : Z) (snap contiguous : bool) (s s' : store) : Prop :=
  | po_rejected_known c : find_cursor k s = Some c -> same_cursors s s' -> proof_outcome k final now snap contiguous s s'
  | po_rejected_new c : find_cursor k s = None -> becomes k c s s' -> last_sequence c = None -> c_state c = COLD ->
      proof_outcome k final now snap contiguous s s'
  | po_proven c' : snap = true \/ contiguous = true /\
        match find_cursor k s with Some c => stale (last_sequence c) final = false | None => True end ->
      becomes k c' s s' -> last_sequence c' = Some final -> c_state c' = READY -> gap_from c' = None ->
      proof_outcome k final now snap contiguous s s'.

Lemma proof_spec split x l f q snap ct now s :
  outcome s (record_readiness_proof split x l f q snap ct now s) (fun r s' => exists k final,
    source_key x = Ok k /\ _optional_sequence l "final_sequence" = Ok (Some final) /\
    proof_outcome k final now snap ct s s').
Proof.
  apply outcome_lift. intros [final|] Hl; [|done]. apply outcome_lift. intros f' _. apply outcome_lift. intros q' _.
  apply outcome_transaction. intros r s' H. steps H. destruct x0 as [k row]. apply row_Ok in E as (Hk & -> & ->).
  simpl in H. exists k, final. split; [done|]. split; [done|]. unfold proof_row in H.
  destruct (negb (snap || ct) || _) eqn:B; steps H; subst r s'.
  - apply event_Ok in E0 as [E1 _]. destruct (find_cursor k s) as [c|] eqn:Ec.
    + injection E as <-. by apply (po_rejected_known _ _ _ _ _ _ _ c).
    + apply (po_rejected_new _ _ _ _ _ _ _ (blank_cursor k x None COLD None "" now)); try done.
      eapply becomes_same; [|exact E1]. by apply becomes_insert.
  - apply event_Ok in E1 as [E2 _]. rename E0 into E1. eapply (becomes_upsert k) in E1; [|reflexivity|apply keeps_proven].
    eapply po_proven; [|eapply becomes_same; [exact E1|exact E2]|..]; try (by destruct (find_cursor k s)).
    destruct snap; [by left|]. destruct ct; [|done]. right. split; [done|].
    destruct (find_cursor k s); [|done]. simpl in B. by rewrite andb_true_r in B.
Qed.

Lemma retire_spec split x why now s :
  outcome s (retire_source split x why now s) (fun _ s' => same_cursors s s' \/ exists k c,
    source_key x = Ok k /\ find_cursor k s = Some c /\ becomes k (set_retired now c) s s').
Proof.
  apply outcome_transaction. intros r s' H. steps H. destruct x0 as [k row]. apply row_Ok in E as (Hk & -> & ->).
  simpl in H. destruct (find_cursor k s) as [c|] eqn:Ec; [|injection H as <- <-; by left]. steps H.
  right. exists k, c. split; [done|]. split; [done|]. subst.
  assert (same_cursors s0 s') as Hs by (destruct (_ && _); [by injection E0 as <-|by apply event_Ok in E0 as [? _]]).
  eapply becomes_same; [|exact Hs]. by apply becomes_update.
Qed.

Lemma metadata_spec x m now s :
  same_cursors s (snd (classify_metadata x m now s)) \/ exists k digest, source_key x = Ok k /\
    becomes k (match find_cursor k s with Some c => set_metadata digest now c
               | None => blank_cursor k x None COLD None digest now end) s (snd (classify_metadata x m now s)).
Proof.
  remember (snd (classify_metadata x m now s)) as s' eqn:E.
  unfold classify_metadata, m_bind, m_lift, _row in E. destruct (json_dumps _ _) as [text|]; [|by subst; left].
  destruct (source_key x) as [k|] eqn:Hk; [|by subst; left]. simpl in E.
  destruct (find_cursor k s) as [c|] eqn:Ec.
  - destruct (String.eqb _ _); [by subst; left|]. right. exists k, (sha256_hex text). split; [done|]. rewrite Ec.
    eapply becomes_same; [by apply becomes_update|]. simpl in E.
    match type of E with context [_event ?a ?b ?c ?d ?e ?f ?g] => pose proof (event_cursors a b c d e f g) as Hc;
      destruct (_event a b c d e f g) as [[[]|] s1] end; by subst s'.
  - right. exists k, (sha256_hex text). split; [done|]. rewrite Ec. simpl in E. subst s'. by apply becomes_insert.
Qed.

(** ** Every operation leaves the rows of the sources it does not name *)

Definition names (o : op) (k : string) : Prop :=
  match o with
  | OIngest x _ _ _ | OBackfill x _ _ | OGap x _ _ _ _ _ _ | OProof x _ _ _ _ _ _ | ORetire x _ _ | OMetadata x _ _ =>
      source_key x = Ok k
  | OGaps gs _ => exists x e, (x, e) ∈ gs /\ source_key x = Ok k
  end.

Definition untouched (k : string) (s s' : store) : Prop := find_cursor k s' = find_cursor k s.

Lemma becomes_other k k' c s s' : becomes k c s s' -> k' <> k -> untouched k' s s'.
Proof. intros [_ H] Hk. by apply H. Qed.

Lemma outcome_snd {A} s (r : result A * store) (P : A -> store -> Prop) (Q : store -> Prop) :
  outcome s r P -> (forall s', same_cursors s s' -> Q s') -> (forall a s', P a s' -> Q s') -> Q (snd r).
Proof. destruct r as [[a|e] s']; simpl; intros H H1 H2; eauto. Qed.

Lemma record_gaps_ind (Q : store -> Prop) gs now s rs s' :
  (forall x g s r s', (x, g) ∈ gs -> Q s -> _record_gap_locked x g now s = (Ok r, s') -> Q s') ->
  Q s -> record_gaps gs now s = (Ok rs, s') -> Q s'.
Proof.
  revert s rs; induction gs as [|[x g] gs IH]; intros s rs Hq Hs H; simpl in H; steps H; [by subst|].
  subst. eapply (IH s0); [|eapply Hq; [|exact Hs|exact E]; set_solver|exact E0]. intros; eapply Hq; eauto; set_solver.
Qed.

Lemma res_map_list_elem {A B} (f : A -> result B) l ys y :
  res_map_list f l = Ok ys -> y ∈ ys -> exists x, x ∈ l /\ f x = Ok y.
Proof.
  revert ys; induction l as [|x l IH]; simpl; intros ys H Hy; res_inv H; [set_solver|].
  apply elem_of_cons in Hy as [->|Hy]; [exists x; split; [set_solver|done]|].
  destruct (IH _ Hb0 Hy) as (x' & ? & ?). exists x'. split; [set_solver|done].
Qed.

(** The sources of a batch of ranged gaps become gapped one after the other. *)
Lemma gaps_spec split gs now s (Q : store -> Prop) :
  Q s -> (forall s1 s2, same_cursors s1 s2 -> Q s1 -> Q s2) ->
  (forall x e g s r s', (x, e) ∈ gs -> Q s -> _record_gap_locked x g now s = (Ok r, s') -> Q s') ->
  Q (snd (record_gap_batch split gs now s)).
Proof.
  intros Hs Hsame Hstep. unfold record_gap_batch, m_bind, m_lift. destruct (res_map_list _ gs) as [l|e] eqn:El; [|done].
  assert (Q (snd (transaction split (record_gaps l now) s))) as Hq.
  { destruct (transaction split (record_gaps l now) s) as [[rs|e] s'] eqn:Et; simpl.
    - apply transaction_Ok in Et. eapply (record_gaps_ind Q); [|exact Hs|exact Et]. intros x g s1 r s2 Hin.
      destruct (res_map_list_elem _ _ _ _ El Hin) as ([x' e] & Hin' & Hg). simpl in Hg. res_inv Hg. by eapply Hstep.
    - apply transaction_Err in Et as [Et _]. eauto. }
  by destruct l.
Qed.

Lemma op_untouched split bound o k s : ~ names o k -> untouched k s (run_op split bound o s).
Proof.
  destruct o as [x q et t|x qs t|gs t|x p f l q w t|x l f q sn ct t|x w t|x m t]; simpl; intros Hk.
  - eapply outcome_snd; [apply ingest_spec| |]; [intros; by apply same_find|].
    intros r s' (k' & seq & et' & Hx & _ & _ & _ & Ho). assert (k <> k') by congruence.
    destruct Ho; [by eapply becomes_other|by apply same_find|by eapply becomes_other|by eapply becomes_other].
  - eapply outcome_snd; [apply backfill_spec| |]; [intros; by apply same_find|].
    intros r s' (k' & vs & Hx & _ & _ & Ho). assert (k <> k') by congruence.
    destruct Ho; [by apply same_find|by eapply becomes_other].
  - apply (gaps_spec split gs t s (untouched k s)); [done|intros s1 s2 E H; unfold untouched; by rewrite (same_find _ _ _ E)|].
    intros x e g s1 r s2 Hin H E. destruct (record_gap_spec _ _ _ _ _ _ E) as (k' & last & c & Hx & _ & Hb).
    unfold untouched in *. rewrite <- H. eapply becomes_other; [exact Hb|]. intros ->. apply Hk. eauto.
  - unfold record_gap. eapply (outcome_snd s _ (fun _ s' => untouched k s s')); [|intros; by apply same_find|done].
    apply outcome_lift. intros g _. apply outcome_transaction. intros r s' E.
    destruct (record_gap_spec _ _ _ _ _ _ E) as (k' & last & c & Hx & _ & Hb). eapply becomes_other; [exact Hb|congruence].
  - eapply outcome_snd; [apply proof_spec| |]; [intros; by apply same_find|].
    intros r s' (k' & fin & Hx & _ & Ho). assert (k <> k') by congruence.
    destruct Ho; [by apply same_find|by eapply becomes_other|by eapply becomes_other].
  - eapply outcome_snd; [apply retire_spec| |]; [intros; by apply same_find|].
    intros r s' [E|(k' & c & Hx & _ & Hb)]; [by apply same_find|]. eapply becomes_other; [exact Hb|congruence].
  - destruct (metadata_spec x m t s) as [E|(k' & d & Hx & Hb)]; [by apply same_find|].
    eapply becomes_other; [exact Hb|congruence].
Qed.

(** ** The pending gap *)

(** The gap of a gapped cursor starts right after it. *)
Definition gap_ok (c : cursor) : Prop :=
  forall f t, c_state c = GAPPED -> gap_from c = Some f -> gap_to c = Some t ->
    -1 <= t /\ t + 1 < 2 ^ 63 /\ forall p, last_sequence c = Some p -> f = p + 1 /\ - 2 ^ 63 <= p <= t.

Definition good (k : string) (s : store) : Prop := forall c, find_cursor k s = Some c -> gap_ok c.

Lemma good_same k s s' : same_cursors s s' -> good k s -> good k s'.
Proof. intros E H c. rewrite (same_find _ _ _ E). apply H. Qed.

Lemma good_becomes k k' c s s' : becomes k' c s s' -> (k' = k -> gap_ok c) -> good k s -> good k s'.
Proof.
  intros [H1 H2] Hc H x. destruct (decide (k = k')) as [->|Hk]; [rewrite H1; intros [= <-]; auto|].
  rewrite H2 by done. apply H.
Qed.

Lemma gap_ok_no_gap c : gap_from c = None \/ c_state c <> GAPPED -> gap_ok c.
Proof. intros [E|E] f t H1 H2; [by rewrite E in H2|done]. Qed.

Lemma op_good split bound o k s : good k s -> good k (run_op split bound o s).
Proof.
  intros H. destruct o as [x q et t|x qs t|gs t|x p f l q w t|x l f q sn ct t|x w t|x m t]; simpl.
  - eapply outcome_snd; [apply ingest_spec|intros; by eapply good_same|].
    intros r s' (k' & seq & et' & Hx & Hq & _ & _ & Ho). pose proof (checked_sequence_nonneg _ _ _ Hq) as Hpos.
    destruct Ho as [c r s' _ Hb _ Hst _|c p r s' _ _ _ Hs _|c p r s' _ _ _ _ Hb _|c r s' Hc Hlt Hp Hb _].
    + eapply good_becomes; [exact Hb| |done]. intros _. apply gap_ok_no_gap. right. by rewrite Hst.
    + by eapply good_same.
    + eapply good_becomes; [exact Hb| |done]. intros _. by apply gap_ok_no_gap; right.
    + eapply good_becomes; [exact Hb| |done]. intros _ f to _ [= Ef] [= Et]. subst. simpl.
      split; [lia|]. split; [lia|]. intros p Ep. destruct (Hp _ Ep). rewrite Ep. lia.
  - eapply outcome_snd; [apply backfill_spec|intros; by eapply good_same|].
    intros r s' (k' & vs & Hx & _ & _ & [? ? Hs _|c p f to ? ? _ _ _ _ _ _ Hb _]); [by eapply good_same|].
    eapply good_becomes; [exact Hb| |done]. intros _. by apply gap_ok_no_gap; left.
  - apply (gaps_spec split gs t s (good k)); [done|intros s1 s2; apply good_same|].
    intros x e g s1 r s2 _ Hg E. destruct (record_gap_spec _ _ _ _ _ _ E) as (k' & last & c & _ & -> & Hb).
    eapply good_becomes; [exact Hb| |done]. intros _. apply gap_ok_no_gap. left. by destruct (find_cursor k' s1).
  - unfold record_gap. eapply (outcome_snd s _ (fun _ s' => good k s')); [|intros; by eapply good_same|done].
    apply outcome_lift. intros g _. apply outcome_transaction. intros r s' E.
    destruct (record_gap_spec _ _ _ _ _ _ E) as (k' & last & c & _ & -> & Hb).
    eapply good_becomes; [exact Hb| |done]. intros _. apply gap_ok_no_gap. left. by destruct (find_cursor k' s).
  - eapply outcome_snd; [apply proof_spec|intros; by eapply good_same|].
    intros r s' (k' & fin & _ & _ & [c Hc Hs|c Hc Hb _ Hst|c _ Hb _ Hst _]); [by eapply good_same|..];
      (eapply good_becomes; [exact Hb| |done]); intros _; apply gap_ok_no_gap; right; by rewrite Hst.
  - eapply outcome_snd; [apply retire_spec|intros; by eapply good_same|].
    intros r s' [E|(k' & c & _ & _ & Hb)]; [by eapply good_same|]. eapply good_becomes; [exact Hb| |done].
    intros _. by apply gap_ok_no_gap; left.
  - destruct (metadata_spec x m t s) as [E|(k' & d & _ & Hb)]; [by eapply good_same|].
    eapply good_becomes; [exact Hb| |done]. intros _. apply gap_ok_no_gap. right. by destruct (find_cursor k' s).
Qed.

Lemma run_good split bound l k s : good k s -> good k (run split bound l s).
Proof. revert s; induction l as [|o l IH]; intros s H; [done|]. simpl. by apply IH, op_good. Qed.

Lemma empty_good k : good k empty_store.
Proof. done. Qed.

(** ** The abstract receiver: every number once and in order *)

Inductive receive : list Z -> list Z -> Prop :=
  | recv_first n : receive [] [n]
  | recv_next log p : last log = Some p -> receive log (log ++ [p + 1]).

Lemma seqZ_S_r m n : 0 <= n -> seqZ m (Z.succ n) = seqZ m n ++ [m + n].
Proof. intros H. rewrite <- (Z2Nat.id n) by done. rewrite <- Nat2Z.inj_succ. apply seqZ_S. Qed.

Lemma receive_range log p n : last log = Some p -> 0 <= n ->
  rtc receive log (log ++ seqZ (p + 1) n) /\ last (log ++ seqZ (p + 1) n) = Some (p + n).
Proof.
  intros Hp. revert n. apply natlike_ind.
  - simpl. rewrite app_nil_r, Z.add_0_r. split; [apply rtc_refl|done].
  - intros n Hn [IH1 IH2]. rewrite seqZ_S_r by done. rewrite app_assoc. split.
    + eapply rtc_r; [exact IH1|]. replace (p + 1 + n) with (p + n + 1) by lia. by constructor.
    + rewrite last_snoc. f_equal. lia.
Qed.

Lemma receive_contiguous log : rtc receive [] log -> exists n, log = seqZ n (Z.of_nat (length log)).
Proof.
  revert log. apply rtc_ind_r; [by exists 0|]. intros log log' _ Hr [n E].
  destruct Hr as [m|log p Hp]; [by exists m|]. exists n.
  rewrite length_app. simpl. replace (Z.of_nat (length log + 1)) with (Z.succ (Z.of_nat (length log))) by lia.
  rewrite seqZ_S_r by lia. rewrite <- E. f_equal. f_equal.
  destruct log as [|y log] using rev_ind; [done|]. rewrite last_snoc in Hp. injection Hp as ->.
  rewrite length_app in *. simpl in *. replace (Z.of_nat (length log + 1)) with (Z.succ (Z.of_nat (length log))) in * by lia.
  rewrite seqZ_S_r in E by lia. apply app_inj_tail in E as [_ E]. lia.
Qed.

(** An operation that treats the source [k], if at all, as a scalar stream. *)
Definition scalar (k : string) (o : op) : Prop :=
  match o with OIngest _ _ _ _ | OBackfill _ _ _ | OMetadata _ _ _ => True | _ => ~ names o k end.

(** The cursor stands on the last number received. *)
Definition follows_log (k : string) (log : list Z) (s : store) : Prop :=
  last log = match find_cursor k s with Some c => last_sequence c | None => None end.

Lemma follows_untouched k log s s' : untouched k s s' -> follows_log k log s -> follows_log k log s'.
Proof. unfold follows_log, untouched. by intros ->. Qed.

Definition refines (k : string) (log new : list Z) (s' : store) : Prop :=
  rtc receive log (log ++ new) /\ follows_log k (log ++ new) s'.

Lemma refines_nil k log s' : follows_log k log s' -> refines k log [] s'.
Proof. intros H. unfold refines. rewrite app_nil_r. split; [apply rtc_refl|done]. Qed.

Lemma ingest_refines split bound k log x q et now s :
  follows_log k log s -> refines k log (consumed split bound k (OIngest x q et now) s) (run_op split bound (OIngest x q et now) s).
Proof.
  intros H. simpl. pose proof (ingest_spec split x q et now s) as O.
  destruct (ingest split x q et now s) as [[r|e] s']; simpl in *;
    [|apply refines_nil; eapply follows_untouched; [by apply same_find|done]].
  destruct O as (k' & seq & et' & Hx & _ & -> & Hseq & Ho). rewrite Hseq. destruct (String.eqb_spec k' k) as [->|Hk].
  - destruct Ho as [c r s' Hc [Hb _] El _ Ha|c p r s' Hc Ep _ Hs Ha|c p r s' Hc Ep -> _ [Hb _] Ha|c r s' Hc _ _ [Hb _] Ha];
      rewrite Ha; simpl; unfold follows_log in H; rewrite Hc in H.
    + destruct log as [|y log]; [|by destruct (last_is_Some (y :: log)) as [_ []]; [done|rewrite H in *]].
      split; [apply rtc_once; constructor|]. unfold follows_log. by rewrite Hb, El.
    + apply refines_nil. eapply follows_untouched; [by apply same_find|]. unfold follows_log. by rewrite Hc.
    + rewrite Ep in H. split; [apply rtc_once; by constructor|]. unfold follows_log. by rewrite Hb, last_snoc.
    + apply refines_nil. unfold follows_log. by rewrite Hb.
  - rewrite andb_false_r. apply refines_nil. eapply follows_untouched; [|done].
    destruct Ho; [by eapply becomes_other|by apply same_find|by eapply becomes_other|by eapply becomes_other].
Qed.

Lemma backfill_refines split bound k log x qs now s : good k s ->
  follows_log k log s -> refines k log (consumed split bound k (OBackfill x qs now) s) (run_op split bound (OBackfill x qs now) s).
Proof.
  intros Hg H. simpl. pose proof (backfill_spec split bound x qs now s) as O.
  destruct (apply_backfill split bound x qs now s) as [[r|e] s']; simpl in *;
    [|apply refines_nil; eapply follows_untouched; [by apply same_find|done]].
  destruct O as (k' & vs & Hx & Hv & -> & Ho). rewrite Hv. destruct (String.eqb_spec k' k) as [->|Hk].
  - destruct Ho as [r s' Hs Ha|c p f t r s' Hc Hst Ep Ef Et -> [Hb _] Ha]; rewrite Ha; simpl.
    + apply refines_nil. eapply follows_untouched; [by apply same_find|done].
    + destruct (Hg c Hc f t Hst Ef Et) as (_ & _ & Hp). destruct (Hp p Ep) as [-> Hle].
      unfold follows_log in H. rewrite Hc, Ep in H. unfold range. replace (t + 1 - (p + 1)) with (t - p) by lia.
      destruct (receive_range log p (t - p) H) as [H1 H2]; [lia|]. split; [done|].
      unfold follows_log. rewrite H2, Hb. simpl. f_equal. lia.
  - rewrite andb_false_r. apply refines_nil. eapply follows_untouched; [|done].
    destruct Ho; [by apply same_find|by eapply becomes_other].
Qed.

Lemma metadata_refines split bound k log x m now s :
  follows_log k log s -> follows_log k log (run_op split bound (OMetadata x m now) s).
Proof.
  intros H. simpl. destruct (metadata_spec x m now s) as [E|(k' & d & _ & Hb)].
  - eapply follows_untouched; [by apply same_find|done].
  - destruct (decide (k = k')) as [->|Hk]; [|by eapply follows_untouched; [eapply becomes_other|]].
    destruct Hb as [Hb _]. unfold follows_log in *. rewrite Hb. by destruct (find_cursor k' s).
Qed.

Lemma op_refines split bound k log o s : good k s -> scalar k o -> follows_log k log s ->
  refines k log (consumed split bound k o s) (run_op split bound o s).
Proof.
  intros Hg Hsc H. destruct o; try (apply refines_nil; eapply follows_untouched; [by apply op_untouched|done]).
  - by apply ingest_refines.
  - by apply backfill_refines.
  - apply refines_nil. by apply metadata_refines.
Qed.

Lemma run_refines split bound k l log s : good k s -> Forall (scalar k) l -> follows_log k log s ->
  refines k log (all_consumed split bound k l s) (run split bound l s).
Proof.
  intros Hg Hl. revert log s Hg. induction Hl as [|o l Ho Hl IH]; intros log s Hg H; [by apply refines_nil|].
  simpl. destruct (op_refines split bound k log o s Hg Ho H) as [H1 H2].
  destruct (IH _ _ (op_good split bound o k s Hg) H2) as [H3 H4]. unfold refines. rewrite app_assoc.
  split; [by etrans|done].
Qed.

(** ** Theorems *)

(** C24: over any history that treats a source as a scalar stream, the
    numbers handed to its consumer are a run of the receiver that takes every number once and in
    order: consecutive, without loss or repetition, and the cursor stands on the last of them. *)
Theorem cursor_refines_receiver split bound k l :
  Forall (scalar k) l ->
  let log := all_consumed split bound k l empty_store in
  rtc receive [] log /\ (exists n, log = seqZ n (Z.of_nat (length log))) /\
  last log = match find_cursor k (run split bound l empty_store) with Some c => last_sequence c | None => None end.
Proof.
  intros Hl log. destruct (run_refines split bound k l [] empty_store (empty_good k) Hl) as [H1 H2]; [done|].
  simpl in *. split; [done|]. split; [by apply receive_contiguous|done].
Qed.

(** What may make a gapped source ready. *)
Definition gap_closed (k : string) (c : cursor) (o : op) : Prop :=
  match o with
  | OBackfill x qs _ => source_key x = Ok k /\ exists f t, gap_from c = Some f /\ gap_to c = Some t /\
      res_map_list py_int qs = Ok (range f t)
  | OProof x l _ _ snap contiguous _ => source_key x = Ok k /\
      (snap = true \/ contiguous = true /\ exists final, _optional_sequence l "final_sequence" = Ok (Some final) /\
         stale (last_sequence c) final = false)
  | _ => False
  end.

(** C34: no single operation turns a gapped source ready except the complete
    backfill of its gap, a snapshot, or a contiguous range beyond the cursor. *)
Theorem gapped_until_proven split bound o s k c c' :
  find_cursor k s = Some c -> c_state c = GAPPED ->
  find_cursor k (run_op split bound o s) = Some c' -> c_state c' = READY -> gap_closed k c o.
Proof.
  intros Hc Hg. revert c'.
  assert (forall s', same_cursors s s' -> forall c', find_cursor k s' = Some c' -> c_state c' = READY -> gap_closed k c o) as Hs.
  { intros s' E c'. rewrite (same_find _ _ _ E), Hc. intros [= <-]. by rewrite Hg. }
  assert (forall k' d s', becomes k' d s s' -> (k' = k -> c_state d = READY -> gap_closed k c o) ->
    forall c', find_cursor k s' = Some c' -> c_state c' = READY -> gap_closed k c o) as Hb.
  { intros k' d s' [H1 H2] Hd c'. destruct (decide (k = k')) as [->|Hk]; [rewrite H1; intros [= <-]; auto|].
    rewrite H2, Hc by done. intros [= <-]. by rewrite Hg. }
  destruct o as [x q et t|x qs t|gs t|x p f l q w t|x l f q sn ct t|x w t|x m t]; simpl.
  - eapply outcome_snd; [apply ingest_spec|exact Hs|]. intros r s' (k' & seq & et' & _ & _ & _ & _ & Ho).
    destruct Ho as [d r s' Hn B _ _ _|d p r s' _ _ _ E _|d p r s' Hd _ _ Hne B _|d r s' _ _ _ B _];
      [eapply Hb; [exact B|]|by apply Hs|eapply Hb; [exact B|]|eapply Hb; [exact B|]]; intros -> Hst; congruence || done.
  - eapply outcome_snd; [apply backfill_spec|exact Hs|].
    intros r s' (k' & vs & Hx & Hv & _ & [? ? E _|d p f to ? ? Hd _ _ Ef Et -> B _]); [by apply Hs|].
    eapply Hb; [exact B|]. intros -> _. split; [done|]. exists f, to. split; [congruence|]. split; [congruence|done].
  - apply (gaps_spec split gs t s (fun s' => forall c', find_cursor k s' = Some c' -> c_state c' = READY -> False)).
    + intros c'. rewrite Hc. intros [= <-]. by rewrite Hg.
    + intros s1 s2 E. by setoid_rewrite (same_find k s1 s2 E).
    + intros x e g s1 r s2 _ Hq E. destruct (record_gap_spec _ _ _ _ _ _ E) as (k' & last & d & _ & -> & [H1 H2]).
      intros c'. destruct (decide (k = k')) as [->|Hk]; [|rewrite H2 by done; apply Hq].
      rewrite H1. intros [= <-]. by destruct (find_cursor k' s1).
  - unfold record_gap. eapply (outcome_snd s _ (fun _ s' => forall c', find_cursor k s' = Some c' -> c_state c' = READY -> False));
      [|intros s' E c'; rewrite (same_find _ _ _ E), Hc; intros [= <-]; by rewrite Hg|done].
    apply outcome_lift. intros g _. apply outcome_transaction. intros r s' E.
    destruct (record_gap_spec _ _ _ _ _ _ E) as (k' & last & d & _ & -> & [H1 H2]).
    intros c'. destruct (decide (k = k')) as [->|Hk]; [|rewrite H2, Hc by done; intros [= <-]; by rewrite Hg].
    rewrite H1. intros [= <-]. by destruct (find_cursor k' s).
  - eapply outcome_snd; [apply proof_spec|exact Hs|].
    intros r s' (k' & fin & Hx & Hf & [d _ E|d _ B _ Hd|d Hp B _ _ _]); [by apply Hs|..];
      (eapply Hb; [exact B|]); intros -> Hst; [congruence|].
    split; [done|]. destruct Hp as [->|[-> Hp]]; [by left|]. right. split; [done|]. exists fin. by rewrite Hc in Hp.
  - eapply outcome_snd; [apply retire_spec|exact Hs|]. intros r s' [E|(k' & d & _ & _ & B)]; [by apply Hs|].
    eapply Hb; [exact B|]. by intros -> Hst.
  - destruct (metadata_spec x m t s) as [E|(k' & d & _ & B)]; [by apply Hs|].
    eapply Hb; [exact B|]. intros -> Hst. by destruct (find_cursor k s).
Qed.

Lemma res_map_list_ints l : res_map_list py_int (map VInt l) = Ok l.
Proof. induction l as [|z l IH]; simpl; [done|]. by rewrite IH. Qed.

Lemma event_count_Ok k ty p n m now s : - 2 ^ 63 <= p < 2 ^ 63 -> - 2 ^ 63 <= n < 2 ^ 63 ->
  exists s', _event k ty (Some p) (Some n) [("event_count", VInt m)] now s = (Ok tt, s') /\ same_cursors s s'.
Proof.
  intros Hp Hn. unfold _event, json_dumps. simpl.
  rewrite (proj2 (sql_int_Ok p)), (proj2 (sql_int_Ok n)) by done. simpl. by eexists.
Qed.

(** Whatever happened before, a pending gap of an initialised source within the
    backfill bound is recoverable: its missing range is accepted, the source is ready again, and
    it then accepts the number that revealed the gap. *)
Theorem gap_recovers split bound l x k c p f t now :
  find_cursor k (run split bound l empty_store) = Some c -> source_key x = Ok k ->
  c_state c = GAPPED -> last_sequence c = Some p -> gap_from c = Some f -> gap_to c = Some t -> t - p <= bound ->
  let s1 := run_op split bound (OBackfill x (map VInt (range f t)) now) (run split bound l empty_store) in
  let s2 := run_op split bound (OIngest x (VInt (t + 1)) None now) s1 in
  (exists c1, find_cursor k s1 = Some c1 /\ c_state c1 = READY /\ last_sequence c1 = Some t) /\
  (exists c2, find_cursor k s2 = Some c2 /\ c_state c2 = READY /\ last_sequence c2 = Some (t + 1)).
Proof.
  intros Hc Hx Hst Hp Hf Ht Hb. pose proof (run_good split bound l k empty_store (empty_good k) c Hc f t Hst Hf Ht) as (B1 & B2 & B3).
  destruct (B3 p Hp) as [-> Hle]. clear B3. set (s := run split bound l empty_store) in *. intros s1 s2.
  assert (find_cursor k s1 = Some (set_backfilled t now c)) as H1.
  { unfold s1. simpl. unfold apply_backfill, m_bind at 1, m_lift. rewrite res_map_list_ints.
    unfold range. rewrite length_seqZ. destruct (bound <? _) eqn:E; [bool_props; lia|]. unfold transaction, m_bind at 1, _row.
    rewrite Hx. simpl. rewrite Hc. unfold backfill_row. rewrite Hp, Hf, Ht, !bool_decide_eq_true_2 by done. simpl.
    unfold m_bind. simpl.
    match goal with |- context [_event ?a ?b ?c ?d [(_, VInt ?m)] ?e ?f] =>
      destruct (event_count_Ok a b p t m e f) as (s3 & -> & Hs); [lia..|] end.
    pose proof (find_update_cursor k (set_backfilled t now) s k (keeps_backfilled t now)) as Hu.
    rewrite String.eqb_refl, Hc in Hu. simpl in Hu.
    transitivity (find_cursor k (snd (update_cursor k (set_backfilled t now) s))); [by apply same_find|exact Hu]. }
  split; [by exists (set_backfilled t now c)|].
  exists (set_accepted (t + 1) now now (set_backfilled t now c)). split; [|done].
  unfold s2. simpl. unfold ingest, m_bind at 1, m_lift, checked_sequence. simpl.
  destruct (t + 1 <? 0) eqn:E; [bool_props; lia|]. unfold transaction, m_bind at 1, _row. rewrite Hx. simpl. rewrite H1.
  unfold ingest_row. simpl. destruct (t + 1 <=? t) eqn:E2; [bool_props; lia|]. rewrite Z.eqb_refl. simpl.
  unfold m_bind, m_lift. rewrite (proj2 (sql_int_Ok (t + 1))) by lia. simpl.
  pose proof (find_update_cursor k (set_accepted (t + 1) now now) s1 k (keeps_accepted _ _ _)) as Hu. simpl in Hu.
  rewrite String.eqb_refl, H1 in Hu. exact Hu.
Qed.

(** ** Observed limits *)

(** A source without a cursor value (retired, or first seen through its metadata) never gets one
    from sequence numbers and backfills: the first number opens a gap that no backfill closes. *)
Lemma blank_source_is_stuck split bound k l c s :
  Forall (fun o => match o with OIngest _ _ _ _ | OBackfill _ _ _ => True | _ => False end) l ->
  find_cursor k s = Some c -> last_sequence c = None -> c_state c <> READY ->
  exists c', find_cursor k (run split bound l s) = Some c' /\ last_sequence c' = None /\ c_state c' <> READY.
Proof.
  intros Hl. revert s c. induction Hl as [|o l Ho Hl IH]; intros s c Hc Hn Hs; [by exists c|]. simpl.
  assert (forall s', same_cursors s s' \/ (exists k' d, becomes k' d s s' /\ (k' = k -> last_sequence d = None /\ c_state d <> READY)) ->
    exists c', find_cursor k s' = Some c' /\ last_sequence c' = None /\ c_state c' <> READY) as Hstep.
  { intros s' [E|(k' & d & [H1 H2] & Hd)]; [exists c; by rewrite (same_find _ _ _ E)|].
    destruct (decide (k = k')) as [->|Hk]; [exists d; split; [done|auto]|exists c; by rewrite H2]. }
  assert (exists c', find_cursor k (run_op split bound o s) = Some c' /\ last_sequence c' = None /\ c_state c' <> READY)
    as (c' & H1 & H2 & H3); [|by eapply IH].
  destruct o as [x q et t|x qs t| | | | |]; try done; simpl.
  - eapply outcome_snd; [apply ingest_spec|auto|]. intros r s' (k' & seq & et' & _ & _ & _ & _ & Hout). apply Hstep.
    destruct Hout as [d r s' Hd B _ _ _|d p r s' _ _ _ E _|d p r s' Hd Ep _ _ B _|d r s' Hd _ _ B _]; [|by left|..];
      right; eexists _, _; (split; [exact B|]); intros ->; simpl; split; congruence.
  - eapply outcome_snd; [apply backfill_spec|auto|]. intros r s' (k' & vs & _ & _ & _ & Hout). apply Hstep.
    destruct Hout as [|d p f t' r s' Hd _ Ep _ _ _ B _]; [by left|].
    right. eexists _, _. split; [exact B|]. intros ->. simpl. split; congruence.
Qed.

Definition ex_source : FeedSource := Source "binance" "trades" "BTCUSDT".
Definition ex_key : string := "binance:trades:BTCUSDT".
Definition ex_ingest (q : Z) : op := OIngest ex_source (VInt q) None 1000.
Definition ex_state (l : list op) : option (FeedState * option Z) :=
  option_map (fun c => (c_state c, last_sequence c)) (find_cursor ex_key (run false 100 l empty_store)).

(** A number inside a pending gap shortens the gap to what precedes it: here to nothing, and an
    empty backfill then makes the source ready. *)
Lemma shortened_gap_is_ready :
  ex_state [ex_ingest 10; ex_ingest 15; ex_ingest 11] = Some (GAPPED, Some 10) /\
  ex_state [ex_ingest 10; ex_ingest 15; ex_ingest 11; OBackfill ex_source [] 1000] = Some (READY, Some 10).
Proof. split; vm_compute; reflexivity. Qed.

(** A change of the filter metadata takes the place of the gap, so the next number makes the
    source ready without a backfill. *)
Lemma metadata_clears_gap :
  ex_state [ex_ingest 10; ex_ingest 15; OMetadata ex_source [("tickSize", VStr "0.1")] 1000; ex_ingest 11]
  = Some (READY, Some 11).
Proof. vm_compute. reflexivity. Qed.

(** ** The server's backoff *)

Inductive request := Acquire (weight : float) (now : Z) | Impose (seconds : float) (now : Z).

Definition after_request (q : request) (b : budget) : budget :=
  match q with Acquire w t => snd (acquire w t b) | Impose x t => snd (impose_retry_after x t b) end.

Definition blocked_at_least (t : Z) (b : budget) : Prop := exists u, blocked_until b = Some u /\ t <= u.

Lemma refill_blocked now b : blocked_until (_refill now b) = blocked_until b.
Proof. unfold _refill. by destruct (last_refill b). Qed.

Lemma request_blocked t q b : blocked_at_least t b -> blocked_at_least t (after_request q b).
Proof.
  intros (u & Hu & Ht). destruct q as [w now|x now]; simpl.
  - exists u. split; [|done]. unfold acquire. destruct (_ || _); [done|]. rewrite refill_blocked, Hu.
    destruct (now <? u); [simpl; by rewrite refill_blocked|]. destruct (flt _ _); simpl; by rewrite ?refill_blocked.
  - unfold impose_retry_after. destruct (_ || _); [by exists u|]. destruct (res_bind _ _) as [c|]; [|by exists u].
    simpl. rewrite Hu. exists (if u <? c then c else u). simpl. split; [done|]. destruct (u <? c) eqn:E; bool_props; lia.
Qed.

(** Once the exchange has imposed a retry-after, no request is granted
    before its instant, whatever other requests and retry-afters come in between. *)
Theorem retry_after_respected seconds now until b b1 l w t :
  impose_retry_after seconds now b = (Ok until, b1) -> t < until ->
  fst (acquire w t (fold_left (fun b q => after_request q b) l b1)) <> Ok true.
Proof.
  intros Hi Ht. assert (blocked_at_least until b1) as Hb.
  { unfold impose_retry_after in Hi. destruct (_ || _); [done|]. destruct (res_bind _ _) as [c|]; [|done].
    injection Hi as <- <-. eexists. split; [reflexivity|]. done. }
  assert (blocked_at_least until (fold_left (fun b q => after_request q b) l b1)) as (u & Hu & Hle).
  { clear Hi. revert b1 Hb. induction l as [|q l IH]; intros b1 Hb; [done|]. simpl. by apply IH, request_blocked. }
  unfold acquire. destruct (_ || _); [done|]. rewrite refill_blocked, Hu.
  destruct (t <? u) eqn:E; [done|]. bool_props. lia.
Qed.

(** ** Concrete histories *)

Definition ex_history : list op := [ex_ingest 10; ex_ingest 11; ex_ingest 15; OBackfill ex_source [VInt 12; VInt 13; VInt 14] 2000; ex_ingest 15].

Lemma cursor_refines_receiver_witness :
  rtc receive [] (all_consumed false 100 ex_key ex_history empty_store) /\
  all_consumed false 100 ex_key ex_history empty_store = [10; 11; 12; 13; 14; 15].
Proof.
  split; [|vm_compute; reflexivity].
  destruct (cursor_refines_receiver false 100 ex_key ex_history) as [H _]; [repeat constructor|exact H].
Defined.

Definition ex_gapped : store := run false 100 [ex_ingest 10; ex_ingest 13] empty_store.
Definition ex_row : cursor :=
  Cursor ex_key "binance" "trades" "BTCUSDT" (Some 10) GAPPED (Some 11) (Some 12) (Some 1000) "" 1000.

Lemma ex_gapped_row : find_cursor ex_key ex_gapped = Some ex_row.
Proof. vm_compute. reflexivity. Qed.

Lemma gapped_until_proven_witness :
  gap_closed ex_key ex_row (OProof ex_source (VInt 20) VNone VNone true false 3000).
Proof.
  apply (gapped_until_proven false 100 _ ex_gapped ex_key ex_row
    (Cursor ex_key "binance" "trades" "BTCUSDT" (Some 20) READY None None (Some 3000) "" 3000) ex_gapped_row);
    vm_compute; reflexivity.
Defined.

Lemma gap_recovers_witness :
  exists c2, find_cursor ex_key (run_op false 100 (OIngest ex_source (VInt 13) None 3000)
    (run_op false 100 (OBackfill ex_source [VInt 11; VInt 12] 3000) ex_gapped)) = Some c2 /\
    c_state c2 = READY /\ last_sequence c2 = Some 13.
Proof.
  destruct (gap_recovers false 100 [ex_ingest 10; ex_ingest 13] ex_source ex_key ex_row 10 11 12 3000 ex_gapped_row)
    as [_ H]; [reflexivity..|lia|exact H].
Defined.

Definition ex_budget : budget := Budget (flit "10.0") (flit "1.0") (flit "10.0") None None.

Lemma retry_after_respected_witness :
  fst (acquire (flit "1.0") 20000000 (after_request (Impose (flit "1.0") 10000000)
    (snd (impose_retry_after (flit "30.0") 0 ex_budget)))) <> Ok true.
Proof.
  apply (retry_after_respected (flit "30.0") 0 30000000 ex_budget _ [Impose (flit "1.0") 10000000] (flit "1.0") 20000000);
    [apply pair_snd; vm_compute; reflexivity|lia].
Defined.
