(* ===== verification/EconomicLedger.v ===== *)
(** * The economic ledger

    Model of [src/bongus/engine/economic_ledger.py]: normalization of one exchange
    effect, idempotent append-only ingestion, the builders of fill, commission and
    cash-flow events, the queries, the projection and the reconciliation with an
    exchange snapshot.  The table [economic_ledger_events] is the list of its rows in
    the order of their ids; its triggers forbid updates and deletions.  Text fields are
    strings as annotated, amounts are untyped values. *)
From Stdlib Require Import ZArith Lia Ascii.
From stdpp Require Import base list strings.
From S2P Require Import Prelude PyDecimal PyDecimalPlain PyTime PyValue PyCalendar.
Open Scope Z_scope.

Definition ECONOMIC_LEDGER_SCHEMA_VERSION : Z := 1.

(** ** Event types *)

Definition ECONOMIC_EVENT_TYPES : list string :=
  ["FILL"; "COMMISSION"; "REALIZED_PNL"; "FUNDING"; "BORROW_INTEREST"; "BALANCE_ADJUSTMENT"; "DEPOSIT"; "WITHDRAWAL";
   "INTERNAL_TRANSFER"; "STABLECOIN_CONVERSION"; "RECONCILIATION_ADJUSTMENT"].
Definition CASHFLOW_EVENT_TYPES : list string :=
  ["COMMISSION"; "REALIZED_PNL"; "FUNDING"; "BORROW_INTEREST"; "BALANCE_ADJUSTMENT"; "DEPOSIT"; "WITHDRAWAL";
   "INTERNAL_TRANSFER"; "STABLECOIN_CONVERSION"; "RECONCILIATION_ADJUSTMENT"].
Definition ECONOMIC_EFFECT_TYPES : list string := ["COMMISSION"; "REALIZED_PNL"; "FUNDING"; "BORROW_INTEREST"].
Definition STABLE_QUOTE_ASSETS : list string := ["USDT"; "USDC"; "FDUSD"; "BUSD"; "USD"].

(** ** Data *)

(** The fields every event of one batch shares ([common] of the builders). *)
Record envelope := Envelope {
  e_event_time : string;
  e_account_id : string;
  e_trading_mode : string;
  e_venue : string;
  e_strategy_id : string;
  e_source_event_id : string;
  e_symbol : string;
  e_cycle_id : string;
  e_intent_id : string;
  e_order_id : string;
  e_client_order_id : string;
  e_exchange_event_id : string;
  e_exchange_fill_id : string;
  e_availability_time : string;
  e_code_hash : string;
  e_config_hash : string;
  e_schema_hash : string;
  e_runtime_mode : string;
  e_session_id : string;
  e_metadata : dict pyval;
  e_raw_payload : option (dict pyval)
}.

Record EconomicLedgerEvent := Event {
  e_common : envelope;
  e_event_type : string;
  e_instrument_type : string;
  e_side : string;
  e_quantity : pyval;
  e_quantity_asset : string;
  e_price : pyval;
  e_amount : pyval;
  e_amount_asset : string;
  e_amount_usd : pyval;
  e_schema_version : Z
}.

(** The normalized fields of an event. *)
Record fields := Fields {
  ledger_schema_version : Z;
  account_id : string;
  trading_mode : string;
  runtime_mode : string;
  session_id : string;
  venue : string;
  strategy_id : string;
  cycle_id : string;
  intent_id : string;
  order_id : string;
  client_order_id : string;
  exchange_event_id : string;
  exchange_fill_id : string;
  source_event_id : string;
  event_type : string;
  event_time : string;
  availability_time : option string;
  code_hash : string;
  config_hash : string;
  schema_hash : string;
  symbol : string;
  instrument_type : string;
  side : string;
  quantity : option string;
  quantity_asset : string;
  price : option string;
  amount : option string;
  amount_asset : string;
  amount_usd : option string;
  metadata_json : string;
  raw_payload_json : option string
}.

(** A row of [economic_ledger_events]; the id is its position. *)
Record row := Row {
  r_fields : fields;
  event_key : string;
  content_hash : string;
  recorded_at : string
}.

Definition table := list row.

Record LedgerIngestionResult := Ingestion {
  requested : Z;
  inserted : Z;
  duplicates : Z;
  event_keys : list string
}.

(** ** Canonical values *)

Definition ledger_error {A} (msg : string) : result A := raise LedgerValidationError msg.

Definition _canonical_decimal (value : pyval) (field_name : string) (required : bool) : result (option string) :=
  match value with
  | VNone => if required then ledger_error (field_name +:+ " is required") else Ok None
  | _ =>
      let! parsed := finite_decimal LedgerValidationError false value field_name in
      if (dcoeff parsed =? 0)%N then Ok (Some "0")
      else let! n := dnormalize parsed in Ok (Some (dec_plain n))
  end.

(** [Decimal(text)] of a canonical text, which is finite. *)
Definition text_decimal (s : string) : result dec :=
  let! n := Decimal_of_str s in
  match n with DFin d => Ok d | _ => raise InvalidOperation "comparison involving NaN or infinity" end.

Definition _decimal (value : pyval) (field_name : string) : result dec :=
  let! normalized := _canonical_decimal value field_name true in
  match normalized with Some s => text_decimal s | None => raise AssertionError "" end.

Definition json_errors (k : exn_kind) : bool := match k with TypeError | ValueError => true | _ => false end.

Definition _canonical_json (value : option (dict pyval)) : result (option string) :=
  match value with
  | None => Ok None
  | Some d =>
      let! s := res_catch (json_dumps_strict (VDict d)) json_errors
                  (ledger_error "ledger metadata/raw payload must be JSON serializable") in
      Ok (Some s)
  end.

Definition _canonical_time (value field_name : string) : result string :=
  let! parsed := res_catch (fromisoformat (replace_z value)) json_errors
                   (ledger_error (field_name +:+ " must be an ISO-8601 timestamp")) in
  let! t := to_utc parsed in
  Ok (isoformat t).

Definition same (s : string) : string := s.

(** [transform] is [same], [lower] or [upper]. *)
Definition _require_text (transform : string -> string) (value field_name : string) : result string :=
  let text := strip value in
  if nonempty text then Ok (transform text) else ledger_error (field_name +:+ " is required").

Definition _optional_text (transform : string -> string) (value : string) : string := transform (strip value).

(** ** Normalization *)

Definition checked_type (e : EconomicLedgerEvent) : result string :=
  if negb (e_schema_version e =? ECONOMIC_LEDGER_SCHEMA_VERSION) then
    ledger_error ("unsupported economic ledger schema version " +:+ int_str (e_schema_version e))
  else
    let! t := _require_text upper (e_event_type e) "event_type" in
    if str_in t ECONOMIC_EVENT_TYPES then Ok t else ledger_error ("unsupported economic event type " +:+ repr_str t).

Definition normalized_fields (e : EconomicLedgerEvent) (event_type : string) : result fields :=
  let c := e_common e in
  let! account_id := _require_text same (e_account_id c) "account_id" in
  let! trading_mode := _require_text lower (e_trading_mode c) "trading_mode" in
  let! venue := _require_text upper (e_venue c) "venue" in
  let! strategy_id := _require_text same (e_strategy_id c) "strategy_id" in
  let! event_time := _canonical_time (e_event_time c) "event_time" in
  let! availability_time := if nonempty (strip (e_availability_time c))
                            then let! t := _canonical_time (e_availability_time c) "availability_time" in Ok (Some t)
                            else Ok None in
  let! quantity := _canonical_decimal (e_quantity e) "quantity" false in
  let! price := _canonical_decimal (e_price e) "price" false in
  let! amount := _canonical_decimal (e_amount e) "amount" false in
  let! amount_usd := _canonical_decimal (e_amount_usd e) "amount_usd" false in
  let! metadata := _canonical_json (Some (e_metadata c)) in
  let! raw_payload := _canonical_json (e_raw_payload c) in
  Ok {| ledger_schema_version := e_schema_version e;
        account_id := account_id;
        trading_mode := trading_mode;
        runtime_mode := _optional_text upper (e_runtime_mode c);
        session_id := _optional_text same (e_session_id c);
        venue := venue;
        strategy_id := strategy_id;
        cycle_id := _optional_text same (e_cycle_id c);
        intent_id := _optional_text same (e_intent_id c);
        order_id := _optional_text same (e_order_id c);
        client_order_id := _optional_text same (e_client_order_id c);
        exchange_event_id := _optional_text same (e_exchange_event_id c);
        exchange_fill_id := _optional_text same (e_exchange_fill_id c);
        source_event_id := _optional_text same (e_source_event_id c);
        event_type := event_type;
        event_time := event_time;
        availability_time := availability_time;
        code_hash := _optional_text same (e_code_hash c);
        config_hash := _optional_text same (e_config_hash c);
        schema_hash := _optional_text same (e_schema_hash c);
        symbol := _optional_text upper (e_symbol c);
        instrument_type := _optional_text upper (e_instrument_type e);
        side := _optional_text upper (e_side e);
        quantity := quantity;
        quantity_asset := _optional_text upper (e_quantity_asset e);
        price := price;
        amount := amount;
        amount_asset := _optional_text upper (e_amount_asset e);
        amount_usd := amount_usd;
        metadata_json := str_or (default "" metadata) "{}";
        raw_payload_json := raw_payload |}.

(** [if condition: raise LedgerValidationError(msg)] *)
Definition reject_if (condition : bool) (msg : string) : result unit :=
  if condition then ledger_error msg else Ok tt.

(** The instant of an aware text. *)
Definition instant (s : string) : result Z :=
  let! x := fromisoformat s in Ok (fst x - default 0 (snd x)).

Definition check_identity (f : fields) : result unit :=
  let t := event_type f in
  let! _ := reject_if (negb (nonempty (exchange_fill_id f) || nonempty (exchange_event_id f) || nonempty (source_event_id f)))
              "exchange_fill_id, exchange_event_id or source_event_id is required" in
  let! _ := match availability_time f with
            | None => Ok tt
            | Some a =>
                let! ta := instant a in let! te := instant (event_time f) in
                reject_if (ta <? te) "availability_time must not precede event_time"
            end in
  reject_if (str_in t ["FILL"; "COMMISSION"] && negb (nonempty (exchange_fill_id f) || nonempty (source_event_id f)))
    (lower t +:+ " requires exchange_fill_id or source_event_id").

Definition check_instrument (f : fields) : result unit :=
  let t := event_type f in
  let! _ := reject_if (String.eqb t "COMMISSION" && negb (nonempty (symbol f))) "commission symbol is required" in
  let! _ := reject_if (String.eqb t "COMMISSION" && negb (str_in (instrument_type f) ["SPOT"; "PERPETUAL"]))
              "commission instrument_type must be SPOT or PERPETUAL" in
  let! _ := reject_if (str_in t ["FUNDING"; "REALIZED_PNL"] && negb (nonempty (symbol f))) (lower t +:+ " symbol is required") in
  reject_if (str_in t ["FUNDING"; "REALIZED_PNL"] && negb (String.eqb (instrument_type f) "PERPETUAL"))
    (lower t +:+ " instrument_type must be PERPETUAL").

(** [Decimal(text or "0")] *)
Definition text_or_0 (s : option string) : result dec :=
  text_decimal (match s with Some s => str_or s "0" | None => "0" end).

Definition positive (d : dec) : bool := dgt d d0.
Definition is_zero (d : dec) : bool := deqb d d0.

Definition check_fill_amount (f : fields) (q p : dec) : result unit :=
  if String.eqb (instrument_type f) "SPOT" then
    match amount f with
    | None => ledger_error "spot fill amount must equal the signed quote balance change"
    | Some text =>
        let! a := text_decimal text in
        let! product := dmul q p in
        let! expected := dopp product in
        reject_if (negb (deqb a expected)) "spot fill amount must equal the signed quote balance change"
    end
  else
    match amount f with
    | None => Ok tt
    | Some text =>
        let! a := text_decimal text in
        reject_if (negb (is_zero a)) "perpetual fill must not embed a wallet balance change"
    end.

Definition check_fill (f : fields) : result unit :=
  let! _ := reject_if (negb (nonempty (symbol f))) "fill symbol is required" in
  let! _ := reject_if (negb (str_in (instrument_type f) ["SPOT"; "PERPETUAL"])) "fill instrument_type must be SPOT or PERPETUAL" in
  let! _ := reject_if (negb (str_in (side f) ["BUY"; "SELL"])) "fill side must be BUY or SELL" in
  let! _ := reject_if (negb (nonempty (quantity_asset f))) "fill quantity_asset is required" in
  let! q := text_or_0 (quantity f) in
  let! p := text_or_0 (price f) in
  let! _ := reject_if (is_zero q || dle p d0) "fill quantity must be non-zero and price must be positive" in
  let! _ := reject_if (negb (Bool.eqb (positive q) (String.eqb (side f) "BUY"))) "fill quantity sign must agree with side" in
  let! _ := reject_if (negb (nonempty (amount_asset f))) "fill quote amount_asset is required" in
  check_fill_amount f q p.

Definition is_charge (t : string) : bool := str_in t ["COMMISSION"; "BORROW_INTEREST"].

(** The sign rules of a cash flow in dollars. *)
Definition check_usd (t : string) (a usd : dec) : result unit :=
  let! _ := reject_if (is_charge t && dge usd d0) (lower t +:+ " amount_usd must be a negative charge") in
  reject_if (negb (is_charge t) && (is_zero usd || negb (Bool.eqb (positive usd) (positive a))))
    (lower t +:+ " amount_usd sign must agree with amount").

Definition check_cashflow (f : fields) : result unit :=
  let t := event_type f in
  let! _ := reject_if (negb (nonempty (amount_asset f))) (lower t +:+ " amount_asset is required") in
  let! a := text_or_0 (amount f) in
  let! _ := reject_if (is_zero a) (lower t +:+ " amount must be non-zero") in
  let! _ := reject_if (is_charge t && dge a d0) (lower t +:+ " amount must be a negative charge") in
  let! _ := match amount_usd f with
            | None => Ok tt
            | Some text => let! usd := text_decimal text in check_usd t a usd
            end in
  let! _ := reject_if (String.eqb t "DEPOSIT" && dle a d0) "deposit amount must be positive" in
  reject_if (String.eqb t "WITHDRAWAL" && dge a d0) "withdrawal amount must be negative".

Definition check_event (f : fields) : result unit :=
  let! _ := check_identity f in
  let! _ := check_instrument f in
  if String.eqb (event_type f) "FILL" then check_fill f else check_cashflow f.

(** ** Identity and content *)

(** The identity of an event: its kind and value. *)
Definition identity (f : fields) : string * string :=
  if nonempty (exchange_fill_id f) then ("exchange_fill", exchange_fill_id f)
  else if nonempty (exchange_event_id f) then ("exchange_event", exchange_event_id f)
  else ("source_event", source_event_id f).

Definition identity_payload (f : fields) : pyval :=
  let '(kind, value) := identity f in
  let source := String.eqb kind "source_event" in
  VDict [("schema", VInt (ledger_schema_version f));
         ("account_id", VStr (account_id f));
         ("trading_mode", VStr (trading_mode f));
         ("venue", VStr (venue f));
         ("strategy_id", VStr (strategy_id f));
         ("event_type", VStr (event_type f));
         ("symbol", VStr (symbol f));
         ("instrument_type", VStr (instrument_type f));
         ("amount_asset", VStr (amount_asset f));
         ("identity_kind", VStr kind);
         ("identity_value", VStr value);
         ("order_id", VStr (if String.eqb kind "exchange_fill" then order_id f else ""));
         ("cycle_id", VStr (if source then cycle_id f else ""));
         ("intent_id", VStr (if source then intent_id f else ""))].

Definition opt_text (s : option string) : pyval := match s with Some s => VStr s | None => VNone end.

(** The normalized fields without the payload, the session and the provenance. *)
Definition economic_content (f : fields) : pyval :=
  VDict [("ledger_schema_version", VInt (ledger_schema_version f));
         ("account_id", VStr (account_id f));
         ("trading_mode", VStr (trading_mode f));
         ("venue", VStr (venue f));
         ("strategy_id", VStr (strategy_id f));
         ("cycle_id", VStr (cycle_id f));
         ("intent_id", VStr (intent_id f));
         ("order_id", VStr (order_id f));
         ("client_order_id", VStr (client_order_id f));
         ("exchange_event_id", VStr (exchange_event_id f));
         ("exchange_fill_id", VStr (exchange_fill_id f));
         ("source_event_id", VStr (source_event_id f));
         ("event_type", VStr (event_type f));
         ("event_time", VStr (event_time f));
         ("symbol", VStr (symbol f));
         ("instrument_type", VStr (instrument_type f));
         ("side", VStr (side f));
         ("quantity", opt_text (quantity f));
         ("quantity_asset", VStr (quantity_asset f));
         ("price", opt_text (price f));
         ("amount", opt_text (amount f));
         ("amount_asset", VStr (amount_asset f));
         ("amount_usd", opt_text (amount_usd f));
         ("metadata_json", VStr (metadata_json f))].

(** [now] is the reading of the clock. *)
Definition _normalize_event (e : EconomicLedgerEvent) (now : Z) : result row :=
  let! t := checked_type e in
  let! f := normalized_fields e t in
  let! _ := check_event f in
  let! key := json_sha256 false (identity_payload f) in
  let! hash := json_sha256 false (economic_content f) in
  Ok (Row f key hash (isoformat now)).

(** ** Ingestion *)

Definition find_key (key : string) (s : table) : option row := List.find (fun r => String.eqb (event_key r) key) s.

(** [INSERT OR IGNORE]: the count of inserted rows. *)
Definition insert_or_ignore (item : row) : M table Z := fun s =>
  match find_key (event_key item) s with
  | Some _ => (Ok 0, s)
  | None => (Ok 1, s ++ [item])
  end.

Fixpoint ingest_rows (items : list row) (ins dup : Z) (keys : list string) : M table (Z * Z * list string) :=
  match items with
  | [] => m_ret (ins, dup, keys)
  | item :: items' =>
      let keys := keys ++ [event_key item] in
      do! count := insert_or_ignore item in
      if count =? 1 then ingest_rows items' (ins + 1) dup keys
      else
        do! s := m_get in
        match find_key (event_key item) s with
        | Some existing =>
            if String.eqb (content_hash existing) (content_hash item) then ingest_rows items' ins (dup + 1) keys
            else m_raise LedgerIdempotencyConflict ("economic event identity collision for key " +:+ event_key item)
        | None => m_raise LedgerIdempotencyConflict ("economic event identity collision for key " +:+ event_key item)
        end
  end.

(** [SAVEPOINT ... ROLLBACK TO SAVEPOINT] *)
Definition savepoint {A} (body : M table A) : M table A := fun s =>
  match body s with
  | (Ok a, s') => (Ok a, s')
  | (Err e, _) => (Err e, s)
  end.

(** Each event comes with the clock reading of its normalization. *)
Definition ingest_economic_events (events : list (EconomicLedgerEvent * Z)) : M table LedgerIngestionResult :=
  do! items := m_lift (res_map_list (fun en => _normalize_event (fst en) (snd en)) events) in
  match items with
  | [] => m_ret (Ingestion 0 0 0 [])
  | _ =>
      do! r := savepoint (ingest_rows items 0 0 []) in
      m_ret (Ingestion (Z.of_nat (length items)) (fst (fst r)) (snd (fst r)) (snd r))
  end.

(** ** Builders *)

Definition is_none (v : pyval) : bool := match v with VNone => true | _ => false end.

(** A dollar amount of a charge: supplied as a positive number, or implied by a stable asset. *)
Definition charge_usd (supplied : pyval) (field asset : string) (charge : dec) (msg : string) : result pyval :=
  if negb (is_none supplied) then
    let! s := _decimal supplied field in
    if dle s d0 then ledger_error msg else let! n := dopp s in Ok (VDec n)
  else if str_in asset STABLE_QUOTE_ASSETS then let! n := dopp charge in Ok (VDec n)
  else Ok VNone.

(** A signed dollar amount: supplied with the sign of the amount, or implied by a stable asset. *)
Definition signed_usd (supplied : pyval) (field asset : string) (signed : dec) (msg : string) : result pyval :=
  if negb (is_none supplied) then
    let! s := _decimal supplied field in
    if is_zero s || negb (Bool.eqb (positive s) (positive signed)) then ledger_error msg else Ok (VDec s)
  else if str_in asset STABLE_QUOTE_ASSETS then Ok (VDec signed)
  else Ok VNone.

Definition commission_leg (c : envelope) (instrument : string) (amount : pyval) (asset : string) (usd : pyval)
    : result (list EconomicLedgerEvent) :=
  if is_none amount then Ok []
  else
    let! d := _decimal amount "commission_amount" in
    if dlt d d0 then ledger_error "commission_amount must be a non-negative charge"
    else if negb (positive d) then Ok []
    else
      let! asset := _require_text upper asset "commission_asset" in
      let! u := charge_usd usd "commission_amount_usd" asset d "commission_amount_usd must be a positive charge" in
      let! n := dopp d in
      Ok [Event c "COMMISSION" instrument "" VNone "" VNone (VDec n) asset u ECONOMIC_LEDGER_SCHEMA_VERSION].

Definition realized_leg (c : envelope) (instrument quote : string) (amount : pyval) (asset : string) (usd : pyval)
    : result (list EconomicLedgerEvent) :=
  if is_none amount then Ok []
  else
    let! d := _decimal amount "realized_pnl_amount" in
    if is_zero d then Ok []
    else if negb (String.eqb instrument "PERPETUAL") then ledger_error "realized_pnl_amount is only valid for PERPETUAL fills"
    else
      let! asset := _require_text upper (str_or asset quote) "realized_pnl_asset" in
      let! u := signed_usd usd "realized_pnl_amount_usd" asset d "realized_pnl_amount_usd sign must agree with realized_pnl_amount" in
      Ok [Event c "REALIZED_PNL" instrument "" VNone "" VNone (VDec d) asset u ECONOMIC_LEDGER_SCHEMA_VERSION].

(** The fill itself; [None] is the amount of a perpetual fill. *)
Definition fill_leg (c : envelope) (instrument_type side : string) (quantity price : pyval) (quantity_asset quote_asset : string)
    : result EconomicLedgerEvent :=
  let! side := _require_text upper side "side" in
  if negb (str_in side ["BUY"; "SELL"]) then ledger_error "side must be BUY or SELL"
  else
    let! instrument := _require_text upper instrument_type "instrument_type" in
    if negb (str_in instrument ["SPOT"; "PERPETUAL"]) then ledger_error "instrument_type must be SPOT or PERPETUAL"
    else
      let! q := _decimal quantity "quantity" in
      let! p := _decimal price "price" in
      if dle q d0 || dle p d0 then ledger_error "fill quantity and price must be positive inputs"
      else
        let! signed := if String.eqb side "BUY" then Ok q else dopp q in
        let! quote := _require_text upper quote_asset "quote_asset" in
        let! delta := if String.eqb instrument "SPOT" then
                        let! product := dmul signed p in let! n := dopp product in Ok (VDec n)
                      else Ok VNone in
        Ok (Event c "FILL" instrument side (VDec signed) quantity_asset (VDec p) delta quote VNone
              ECONOMIC_LEDGER_SCHEMA_VERSION).

Definition build_fill_events (c : envelope) (instrument_type side : string) (quantity price : pyval)
    (quantity_asset quote_asset : string) (commission_amount : pyval) (commission_asset : string)
    (commission_amount_usd realized_pnl_amount : pyval) (realized_pnl_asset : string) (realized_pnl_amount_usd : pyval)
    : result (list EconomicLedgerEvent) :=
  let! fill := fill_leg c instrument_type side quantity price quantity_asset quote_asset in
  let! commission := commission_leg c (e_instrument_type fill) commission_amount commission_asset commission_amount_usd in
  let! realized := realized_leg c (e_instrument_type fill) (e_amount_asset fill) realized_pnl_amount realized_pnl_asset
                     realized_pnl_amount_usd in
  Ok (fill :: commission ++ realized).

Definition build_commission_event (c : envelope) (instrument_type : string) (commission_amount : pyval)
    (commission_asset : string) (commission_amount_usd : pyval) : result EconomicLedgerEvent :=
  let! d := _decimal commission_amount "commission_amount" in
  if dle d d0 then ledger_error "commission_amount must be a positive charge"
  else
    let! asset := _require_text upper commission_asset "commission_asset" in
    let! u := charge_usd commission_amount_usd "commission_amount_usd" asset d "commission_amount_usd must be a positive charge" in
    let! n := dopp d in
    Ok (Event c "COMMISSION" instrument_type "" VNone "" VNone (VDec n) asset u ECONOMIC_LEDGER_SCHEMA_VERSION).

(** A cash flow has no fill identity. *)
Definition without_fill_id (c : envelope) : envelope :=
  Envelope (e_event_time c) (e_account_id c) (e_trading_mode c) (e_venue c) (e_strategy_id c) (e_source_event_id c)
    (e_symbol c) (e_cycle_id c) (e_intent_id c) (e_order_id c) (e_client_order_id c) (e_exchange_event_id c) ""
    (e_availability_time c) (e_code_hash c) (e_config_hash c) (e_schema_hash c) (e_runtime_mode c) (e_session_id c)
    (e_metadata c) (e_raw_payload c).

Definition build_cashflow_event (c : envelope) (event_type instrument_type asset : string) (amount amount_usd : pyval)
    : result EconomicLedgerEvent :=
  let! t := _require_text upper event_type "event_type" in
  if negb (str_in t CASHFLOW_EVENT_TYPES) || String.eqb t "COMMISSION" then ledger_error "cashflow event_type is not supported"
  else
    let! asset := _require_text upper asset "asset" in
    let! d := _decimal amount "amount" in
    if is_zero d then ledger_error "cashflow amount must be non-zero"
    else
      let borrow := String.eqb t "BORROW_INTEREST" in
      let! signed := if borrow then if dlt d d0 then ledger_error "borrow/interest amount must be a positive charge" else dopp d
                     else Ok d in
      let! u := if borrow then
                  if negb (is_none amount_usd) then
                    charge_usd amount_usd "amount_usd" asset d "borrow/interest amount_usd must be a positive charge"
                  else if str_in asset STABLE_QUOTE_ASSETS then Ok (VDec signed) else Ok VNone
                else signed_usd amount_usd "amount_usd" asset signed "amount_usd sign must agree with the signed cashflow amount" in
      Ok (Event (without_fill_id c) t instrument_type "" VNone "" VNone (VDec signed) asset u ECONOMIC_LEDGER_SCHEMA_VERSION).

(** ** Queries *)

Record query := Query {
  q_account_id : option string;
  q_trading_mode : option string;
  q_venue : option string;
  q_strategy_id : option string;
  q_cycle_id : option string;
  q_symbol : option string;
  q_instrument_type : option string;
  q_start_time : option string;
  q_end_time : option string
}.

Definition no_filter : query := Query None None None None None None None None None.

(** [column = ?] *)
Definition column_is (transform : string -> string) (filter : option string) (value : string) : bool :=
  match filter with Some v => String.eqb value (transform (strip v)) | None => true end.

Definition opt_time (t : option string) : result (option string) :=
  match t with Some t => let! t := _canonical_time t "event_time" in Ok (Some t) | None => Ok None end.

(** The condition on a row; the times are compared as texts. *)
Definition _where_clause (q : query) : result (row -> bool) :=
  let! start := opt_time (q_start_time q) in
  let! stop := opt_time (q_end_time q) in
  Ok (fun r =>
    let f := r_fields r in
    column_is same (q_account_id q) (account_id f)
    && column_is lower (q_trading_mode q) (trading_mode f)
    && column_is upper (q_venue q) (venue f)
    && column_is same (q_strategy_id q) (strategy_id f)
    && column_is same (q_cycle_id q) (cycle_id f)
    && column_is upper (q_symbol q) (symbol f)
    && column_is upper (q_instrument_type q) (instrument_type f)
    && match start with Some t => String.leb t (event_time f) | None => true end
    && match stop with Some t => String.leb (event_time f) t | None => true end).

(** [ORDER BY event_time ASC, id ASC]: a stable sort of the rows in the order of their ids. *)
Definition time_leb (a b : row) : bool := String.leb (event_time (r_fields a)) (event_time (r_fields b)).

Definition read_economic_events (s : table) (q : query) (limit : option Z) : result (list row) :=
  let! cond := _where_clause q in
  let rows := sort_by time_leb (List.filter cond s) in
  match limit with
  | None => Ok rows
  | Some n => if n <? 0 then ledger_error "limit must be non-negative or None"
              else let! _ := sql_int n in Ok (firstn (Z.to_nat n) rows)
  end.

Record LedgerAvailabilityGap := Gap {
  gap_event_key : string;
  gap_event_type : string;
  gap_symbol : string;
  gap_source_event_id : string;
  gap_event_time : string;
  gap_availability_time : option string;
  gap_seconds : option dec
}.

Definition int_dec (z : Z) : dec := Dec (z <? 0) (Z.abs_N z) 0.

(** [Decimal(delta.days * 86_400 + delta.seconds) + Decimal(delta.microseconds) / Decimal("1000000")] *)
Definition exact_seconds (us : Z) : result dec :=
  let! micros := ddiv (int_dec (us mod 1000000)) (dlit "1000000") in
  dadd (int_dec (us / 1000000)) micros.

Definition row_gap (r : row) : result LedgerAvailabilityGap :=
  let f := r_fields r in
  let! gap := match availability_time f with
              | Some a => if nonempty a then
                            let! te := instant (event_time f) in let! ta := instant a in
                            let! d := exact_seconds (ta - te) in Ok (Some d)
                          else Ok None
              | None => Ok None
              end in
  Ok (Gap (event_key r) (upper (event_type f)) (symbol f) (source_event_id f) (event_time f) (availability_time f) gap).

Definition read_economic_availability_gaps (s : table) (event_type_filter : option string) (account_id trading_mode strategy_id
    start_time end_time : option string) : result (list LedgerAvailabilityGap) :=
  let! rows := read_economic_events s (Query account_id trading_mode None strategy_id None None None start_time end_time) None in
  let wanted := upper (strip (default "" event_type_filter)) in
  res_map_list row_gap
    (List.filter (fun r => negb (nonempty wanted && negb (String.eqb (upper (event_type (r_fields r))) wanted))) rows).

(** ** Projection *)

Record EconomicLedgerProjection := Projection {
  event_count : Z;
  fill_count : Z;
  balance_deltas : dict dec;
  spot_inventory_deltas : dict dec;
  perpetual_position_deltas : dict dec;
  amounts_by_type_and_asset : dict (dict dec);
  economic_effect_usd_by_type : dict dec;
  cashflow_usd_by_type : dict dec;
  total_economic_effect_usd : dec;
  gross_fill_notional_usd : dec;
  unvalued_economic_event_count : Z;
  unvalued_cashflow_event_count : Z;
  incomplete_envelope_event_count : Z
}.

(** The helper [add]. *)
Definition add (target : dict dec) (key : string) (value : dec) : result (dict dec) :=
  if nonempty key then
    let! d := dadd (default d0 (dict_get target key)) value in Ok (dict_set target key d)
  else Ok target.

Definition opt_decimal (s : option string) : result (option dec) :=
  match s with Some s => let! d := text_decimal s in Ok (Some d) | None => Ok None end.

(** [by_type_asset.setdefault(event_type, {})] and [add]. *)
Definition add_nested (target : dict (dict dec)) (kind asset : string) (value : dec) : result (dict (dict dec)) :=
  let! inner := add (default [] (dict_get target kind)) asset value in
  Ok (dict_set target kind inner).

Definition incomplete (f : fields) : bool :=
  negb (forallb (fun v => nonempty (strip v)) [default "" (availability_time f); code_hash f; config_hash f; schema_hash f]).

Definition count_if (b : bool) (n : Z) : Z := if b then n + 1 else n.

(** The balances and amounts of one row. *)
Definition project_amount (f : fields) (a : option dec) (p : EconomicLedgerProjection) : result EconomicLedgerProjection :=
  match a with
  | Some a =>
      if nonempty (amount_asset f) then
        let! b := add (balance_deltas p) (amount_asset f) a in
        let! n := add_nested (amounts_by_type_and_asset p) (event_type f) (amount_asset f) a in
        Ok (Projection (event_count p) (fill_count p) b (spot_inventory_deltas p) (perpetual_position_deltas p) n
              (economic_effect_usd_by_type p) (cashflow_usd_by_type p) (total_economic_effect_usd p)
              (gross_fill_notional_usd p) (unvalued_economic_event_count p) (unvalued_cashflow_event_count p)
              (incomplete_envelope_event_count p))
      else Ok p
  | None => Ok p
  end.

(** The inventory, position and notional of a fill. *)
Definition project_fill (f : fields) (p : EconomicLedgerProjection) : result EconomicLedgerProjection :=
  let! q := opt_decimal (quantity f) in
  match q with
  | Some q =>
      if String.eqb (event_type f) "FILL" then
        let spot := String.eqb (instrument_type f) "SPOT" in
        let perp := String.eqb (instrument_type f) "PERPETUAL" in
        let! inv := if spot then add (spot_inventory_deltas p) (quantity_asset f) q else Ok (spot_inventory_deltas p) in
        let! bal := if spot then add (balance_deltas p) (quantity_asset f) q else Ok (balance_deltas p) in
        let! pos := if perp then add (perpetual_position_deltas p) (symbol f) q else Ok (perpetual_position_deltas p) in
        let! gross := match price f with
                      | Some text =>
                          if str_in (amount_asset f) STABLE_QUOTE_ASSETS then
                            let! pr := text_decimal text in let! n := dmul q pr in let! n := dabs n in
                            dadd (gross_fill_notional_usd p) n
                          else Ok (gross_fill_notional_usd p)
                      | None => Ok (gross_fill_notional_usd p)
                      end in
        Ok (Projection (event_count p) (fill_count p + 1) bal inv pos (amounts_by_type_and_asset p)
              (economic_effect_usd_by_type p) (cashflow_usd_by_type p) (total_economic_effect_usd p) gross
              (unvalued_economic_event_count p) (unvalued_cashflow_event_count p) (incomplete_envelope_event_count p))
      else Ok p
  | None => Ok p
  end.

(** The dollar effect of a cash flow, or the count of those without one. *)
Definition project_usd (f : fields) (a : option dec) (p : EconomicLedgerProjection) : result EconomicLedgerProjection :=
  let t := event_type f in
  let effect := str_in t ECONOMIC_EFFECT_TYPES in
  let cashflow := str_in t CASHFLOW_EVENT_TYPES in
  match amount_usd f, cashflow with
  | Some text, true =>
      let! u := text_decimal text in
      let! c := add (cashflow_usd_by_type p) t u in
      let! e := if effect then add (economic_effect_usd_by_type p) t u else Ok (economic_effect_usd_by_type p) in
      Ok (Projection (event_count p) (fill_count p) (balance_deltas p) (spot_inventory_deltas p) (perpetual_position_deltas p)
            (amounts_by_type_and_asset p) e c (total_economic_effect_usd p) (gross_fill_notional_usd p)
            (unvalued_economic_event_count p) (unvalued_cashflow_event_count p) (incomplete_envelope_event_count p))
  | _, _ =>
      let unvalued := cashflow && match a with Some a => negb (is_zero a) | None => false end in
      Ok (Projection (event_count p) (fill_count p) (balance_deltas p) (spot_inventory_deltas p) (perpetual_position_deltas p)
            (amounts_by_type_and_asset p) (economic_effect_usd_by_type p) (cashflow_usd_by_type p) (total_economic_effect_usd p)
            (gross_fill_notional_usd p) (count_if (unvalued && effect) (unvalued_economic_event_count p))
            (count_if unvalued (unvalued_cashflow_event_count p)) (incomplete_envelope_event_count p))
  end.

Definition project_row (p : EconomicLedgerProjection) (r : row) : result EconomicLedgerProjection :=
  let f := r_fields r in
  let p := Projection (event_count p) (fill_count p) (balance_deltas p) (spot_inventory_deltas p) (perpetual_position_deltas p)
             (amounts_by_type_and_asset p) (economic_effect_usd_by_type p) (cashflow_usd_by_type p)
             (total_economic_effect_usd p) (gross_fill_notional_usd p) (unvalued_economic_event_count p)
             (unvalued_cashflow_event_count p) (count_if (incomplete f) (incomplete_envelope_event_count p)) in
  let! a := opt_decimal (amount f) in
  let! p := project_amount f a p in
  let! p := project_fill f p in
  project_usd f a p.

Definition empty_projection (n : Z) : EconomicLedgerProjection := Projection n 0 [] [] [] [] [] [] d0 d0 0 0 0.

(** [sum(values, Decimal("0"))] *)
Definition dec_sum (l : list dec) : result dec := res_fold dadd d0 l.

Definition project_economic_ledger (s : table) (q : query) : result EconomicLedgerProjection :=
  let! rows := read_economic_events s q None in
  let! p := res_fold project_row (empty_projection (Z.of_nat (length rows))) rows in
  let! total := dec_sum (map snd (economic_effect_usd_by_type p)) in
  Ok (Projection (event_count p) (fill_count p) (balance_deltas p) (spot_inventory_deltas p) (perpetual_position_deltas p)
        (amounts_by_type_and_asset p) (economic_effect_usd_by_type p) (cashflow_usd_by_type p) total
        (gross_fill_notional_usd p) (unvalued_economic_event_count p) (unvalued_cashflow_event_count p)
        (incomplete_envelope_event_count p)).

(** ** Reconciliation *)

Record LedgerReconciliation := Reconciliation {
  matched : bool;
  expected_balances : dict (option dec);
  exchange_balances : dict (option dec);
  differences : dict (option dec);
  tolerances : dict (option dec);
  unexplained_assets : list string;
  unknown_assets : list string;
  unknown_components : dict (list string);
  projection : EconomicLedgerProjection
}.

(** [{str(asset).upper(): _decimal(value, ...)}] *)
Definition decimal_map (label : string) (d : dict pyval) : result (dict dec) :=
  let! pairs := res_map_list (fun kv => let! v := _decimal (snd kv) (label +:+ " " +:+ fst kv) in Ok (upper (fst kv), v)) d in
  Ok (dict_of pairs).

(** [tolerance_map]: the absolute values, in the order of the mapping. *)
Definition tolerance_map (d : dict pyval) : result (dict dec) :=
  let! pairs := res_map_list (fun kv => let! v := _decimal (snd kv) ("tolerance " +:+ fst kv) in
                                        let! a := dabs v in Ok (upper (fst kv), a)) d in
  Ok (dict_of pairs).

(** What the loop finds for one asset. *)
Record asset_line := Line {
  l_asset : string;
  l_expected : option dec;
  l_actual : option dec;
  l_difference : option dec;
  l_tolerance : option dec;
  l_missing : list string;
  l_unexplained : bool
}.

Definition opt_dec2 (op : dec -> dec -> result dec) (a b : option dec) : result (option dec) :=
  match a, b with Some a, Some b => let! d := op a b in Ok (Some d) | _, _ => Ok None end.

Definition none_of {A} (o : option A) : bool := match o with None => true | _ => false end.

Definition reconcile_asset (empty_anchored : bool) (opening actual tol deltas : dict dec) (asset : string) : result asset_line :=
  let o := dict_get opening asset in
  let delta := match dict_get deltas asset with
               | None => if empty_anchored then Some d0 else None
               | Some d => Some d
               end in
  let x := dict_get actual asset in
  let t := dict_get tol asset in
  let missing := reason_if (none_of o) "opening_balance"
                 ++ reason_if (none_of (dict_get deltas asset) && negb empty_anchored) "projected_delta"
                 ++ reason_if (none_of x) "exchange_balance"
                 ++ reason_if (none_of t) "tolerance" in
  let! e := opt_dec2 dadd o delta in
  let! d := opt_dec2 dsub x e in
  let! u := match missing, d, t with
            | [], Some d, Some t => let! a := dabs d in Ok (dgt a t)
            | _, _, _ => Ok false
            end in
  Ok (Line asset e x d t missing u).

Definition has_missing (l : asset_line) : bool := match l_missing l with [] => false | _ => true end.

Definition reconcile_economic_ledger (s : table) (exchange_balances opening_balances tolerances : dict pyval) (q : query)
    : result LedgerReconciliation :=
  let! p := project_economic_ledger s q in
  let! opening := decimal_map "opening balance" opening_balances in
  let! actual := decimal_map "exchange balance" exchange_balances in
  let! tol := tolerance_map tolerances in
  let assets := sort_strings (dedupe (dict_keys opening ++ dict_keys actual ++ dict_keys (balance_deltas p))) in
  let empty_anchored := (event_count p =? 0) && negb (none_of (q_start_time q)) in
  let! lines := res_map_list (reconcile_asset empty_anchored opening actual tol (balance_deltas p)) assets in
  let unexplained := map l_asset (List.filter l_unexplained lines) in
  let unknown := List.filter has_missing lines in
  Ok (Reconciliation
        (match assets with [] => false | _ => match unexplained, unknown with [], [] => true | _, _ => false end end)
        (map (fun l => (l_asset l, l_expected l)) lines)
        (map (fun l => (l_asset l, l_actual l)) lines)
        (map (fun l => (l_asset l, l_difference l)) lines)
        (map (fun l => (l_asset l, l_tolerance l)) lines)
        unexplained
        (map l_asset unknown)
        (map (fun l => (l_asset l, l_missing l)) unknown)
        p).

(** ** A small run *)

Definition ex_envelope : envelope :=
  Envelope "2024-01-01T00:00:00Z" "acct" "Live" "binance" "carry" "" "btcusdt" "c1" "i1" "o1" "" "" "f1"
    "2024-01-01T00:00:01Z" "a" "b" "c" "" "" [] None.

Definition ex_fill : result (list EconomicLedgerEvent) :=
  build_fill_events ex_envelope "spot" "buy" (VStr "0.50") (VStr "42000.0") "BTC" "USDT" (VStr "10.5") "USDT" VNone VNone "" VNone.

Definition ex_batch : list (EconomicLedgerEvent * Z) := map (fun e => (e, 0)) (match ex_fill with Ok l => l | Err _ => [] end).

Definition ex_table : table := snd (ingest_economic_events ex_batch []).

Example ex_ingest : fst (ingest_economic_events ex_batch []) = Ok (Ingestion 2 2 0 (map event_key ex_table)).
Proof. vm_compute. reflexivity. Qed.

Example ex_reingest : res_map duplicates (fst (ingest_economic_events ex_batch ex_table)) = Ok 2.
Proof. vm_compute. reflexivity. Qed.

Example ex_balances : res_map balance_deltas (project_economic_ledger ex_table no_filter)
  = Ok [("USDT", Dec true 210105 (-1)); ("BTC", Dec false 5 (-1))].
Proof. vm_compute. reflexivity. Qed.
