(* ===== verification/EconomicLedgerFacts.v ===== *)
(** * Facts on the economic ledger

    Canonical amounts, idempotent append-only ingestion, the validity of every stored
    row, queries by instant, the exact projection, what a matched reconciliation means
    and the acceptance of what the builders build. *)
From Stdlib Require Import ZArith Lia QArith Qabs Lqa Ascii.
From stdpp Require Import base list strings sets.
From S2P Require Import Prelude PyDecimal PyDecimalFacts PyDecimalPlain PyTime PyValue PyCalendar PyCalendarFacts.
From S2P Require Import EconomicLedger.
Open Scope Z_scope.

(** ** Canonical amounts *)

Lemma canonical_inv v name req s : _canonical_decimal v name req = Ok (Some s) ->
  exists p n, finite_decimal LedgerValidationError false v name = Ok p /\ normal n /\ s = dec_plain n /\
    (dcoeff p = 0%N -> n = d0) /\ (dcoeff p <> 0%N -> dnormalize p = Ok n).
Proof.
  intros H. assert ((let! parsed := finite_decimal LedgerValidationError false v name in
    if (dcoeff parsed =? 0)%N then Ok (Some "0") else let! n := dnormalize parsed in Ok (Some (dec_plain n))) = Ok (Some s)) as H'.
  { destruct v; try exact H. destruct req; discriminate H. }
  apply res_bind_Ok in H' as (p & Hp & H'). exists p. destruct (N.eqb_spec (dcoeff p) 0) as [Hz|Hz].
  - injection H' as <-. exists d0. split; [done|]. split; [by repeat split|]. done.
  - apply res_bind_Ok in H' as (n & Hn & H'). injection H' as <-. exists n.
    split; [done|]. split; [exact (proj1 (dnormalize_spec _ _ Hn))|]. done.
Qed.

Lemma canonical_eq v name req p : finite_decimal LedgerValidationError false v name = Ok p ->
  _canonical_decimal v name req =
    if (dcoeff p =? 0)%N then Ok (Some "0") else let! n := dnormalize p in Ok (Some (dec_plain n)).
Proof. intros H. destruct v; cbn [_canonical_decimal]; try (by rewrite H). by vm_compute in H. Qed.

Lemma text_decimal_plain n : fits n -> text_decimal (dec_plain n) = Ok (plain_value n).
Proof. intros H. unfold text_decimal. by rewrite Decimal_of_plain by auto with py. Qed.

Lemma finite_decimal_text s name d : text_decimal s = Ok d -> finite_decimal LedgerValidationError false (VStr s) name = Ok d.
Proof.
  unfold text_decimal, finite_decimal, Decimal_of. simpl. intros H.
  apply res_bind_Ok in H as (x & -> & H). destruct x; simplify_eq; done.
Qed.

Lemma text_decimal_range s d : text_decimal s = Ok d -> dec_in_range d = true.
Proof. intros H. eapply finite_decimal_range, (finite_decimal_text s ""), H. Qed.

(** An amount that is not rounded away. *)
Definition keeps (p d : dec) : Prop := (dval d == 0)%Q -> (dval p == 0)%Q.

Lemma canonical_of_value v name req p n : finite_decimal LedgerValidationError false v name = Ok p ->
  normal n -> dcoeff n <> 0%N -> (dval p == dval n)%Q -> _canonical_decimal v name req = Ok (Some (dec_plain n)).
Proof.
  intros Hp Hn Hc E. rewrite (canonical_eq _ _ _ _ Hp).
  destruct (N.eqb_spec (dcoeff p) 0) as [Hz|_].
  - exfalso. apply Hc, dval_zero. rewrite <- E. by apply dval_zero.
  - by rewrite (dnormalize_value p n).
Qed.

(** A decimal that rounds a number at least as large as the smallest positive one is not zero. *)
Lemma rounds_kept x n : rounds x n -> (mkval 1 Etiny <= Qabs x)%Q -> ~ (dval n == 0)%Q.
Proof.
  intros [_ H] Hx E. assert (0 < mkval 1 Etiny)%Q as Hp by (unfold mkval; rewrite Qmult_1_l; apply ten_pos).
  assert (fits (Dec false 1 Etiny) /\ fits (Dec true 1 Etiny)) as [F1 F2].
  { unfold fits, adjusted. cbn [dcoeff dexp]. change (ndigits 1) with 1. cbn [N.eqb]. unfold prec, Etiny, Emin, Emax, prec. lia. }
  assert (dval (Dec false 1 Etiny) == mkval 1 Etiny)%Q as V1 by (unfold dval, zsigned; reflexivity).
  assert (dval (Dec true 1 Etiny) == - mkval 1 Etiny)%Q as V2 by (unfold dval, zsigned; symmetry; apply (mkval_opp 1)).
  destruct (H _ F1) as [A _], (H _ F2) as [_ B]. rewrite V1, E in A. rewrite V2, E in B.
  destruct (Qlt_le_dec x 0) as [Hneg|Hpos].
  - rewrite Qabs_neg in Hx by lra. specialize (B ltac:(lra)). lra.
  - rewrite Qabs_pos in Hx by done. specialize (A Hx). lra.
Qed.

(** C37: the text stored for an amount reads back as that amount rounded to the 28 digits of the
    decimal context: exactly as that amount when it has 28 significant digits or fewer and exponents of the
    context, and not always with more digits. Unless the amount vanishes by rounding, which needs an amount
    nearer to zero than the smallest positive decimal of the context, 10^-1000026, the text is canonical again and is the one text
    of every amount of equal value, whatever its type or notation. *)
Theorem canonical_amount_roundtrip v name req p s :
  finite_decimal LedgerValidationError false v name = Ok p -> _canonical_decimal v name req = Ok (Some s) ->
  exists d n, text_decimal s = Ok d /\ rounds (dval p) n /\ (dval d == dval n)%Q /\
    (forall m, fits m -> (dval p == dval m)%Q -> (dval d == dval p)%Q) /\
    ((mkval 1 Etiny <= Qabs (dval p))%Q -> keeps p d) /\
    (keeps p d ->
      _canonical_decimal (VStr s) name req = Ok (Some s) /\ _canonical_decimal (VDec d) name req = Ok (Some s) /\
      forall v' p', finite_decimal LedgerValidationError false v' name = Ok p' -> (dval p' == dval p)%Q ->
        _canonical_decimal v' name req = Ok (Some s)).
Proof.
  intros Hp H. destruct (canonical_inv _ _ _ _ H) as (p0 & n & Hp0 & Hn & -> & Hz & Hnz).
  assert (p0 = p) as -> by congruence. clear Hp0.
  pose proof (text_decimal_plain n (proj1 Hn)) as Ht. pose proof (dval_plain_value n) as Hv.
  assert (rounds (dval p) n) as Hr.
  { destruct (N.eq_dec (dcoeff p) 0%N) as [E|E]; [|by eapply dnormalize_spec; auto].
    rewrite Hz by done. split; [done|]. intros r _. rewrite (proj2 (dval_zero p)) by done. rewrite dval_0. by split. }
  exists (plain_value n), n. do 3 (split; [done|]). split; [intros m Hm E; rewrite Hv; by eapply rounds_exact|].
  split; [intros Hk E; exfalso; rewrite Hv in E; by apply (rounds_kept _ _ Hr)|].
  intros Hk. pose proof (finite_decimal_text _ name _ Ht) as Hs.
  pose proof (finite_decimal_VDec LedgerValidationError false _ name (plain_value_range n (proj1 Hn))) as Hd.
  destruct (N.eq_dec (dcoeff n) 0%N) as [Ec|Ec].
  - assert (dcoeff p = 0%N) as Ep by (apply dval_zero, Hk; rewrite Hv; by apply dval_zero).
    assert (n = d0) as -> by auto. clear Hz Hnz. split; [exact (canonical_eq _ _ req _ Hs)|]. split; [exact (canonical_eq _ _ req _ Hd)|].
    intros v' p' Hp' E. rewrite (canonical_eq _ _ _ _ Hp').
    assert (dcoeff p' = 0%N) as -> by (apply dval_zero; rewrite E; by apply dval_zero). done.
  - split; [by apply (canonical_of_value _ _ _ (plain_value n) n)|].
    split; [by apply (canonical_of_value _ _ _ (plain_value n) n)|].
    intros v' p' Hp' E. assert (dcoeff p <> 0%N) as Hp0 by (intros Ez; apply Ec; by rewrite (Hz Ez)).
    rewrite (canonical_eq _ _ _ _ Hp'), (dnormalize_same p' p) by
      (done || intros Ez; apply Hp0, dval_zero; rewrite <- E; by apply dval_zero).
    rewrite Hnz by done. destruct (N.eqb_spec (dcoeff p') 0) as [Ez|]; [|done].
    exfalso. apply Hp0, dval_zero. rewrite <- E. by apply dval_zero.
Qed.

(** An amount of more than 28 digits is stored rounded. *)
Lemma long_amount_is_rounded :
  _canonical_decimal (VStr "1.00000000000000000000000000001") "amount" true = Ok (Some "1").
Proof. vm_compute. reflexivity. Qed.

(** ** The table *)

Definition keys (s : table) : list string := map event_key s.

Lemma find_key_Some k s r : find_key k s = Some r -> r ∈ s /\ event_key r = k.
Proof. intros H. apply find_some in H as [H1 H2]. apply String.eqb_eq in H2. by rewrite list_elem_of_In. Qed.

Lemma find_key_None k s : find_key k s = None <-> k ∉ keys s.
Proof.
  unfold keys. induction s as [|r s IH]; simpl; [set_solver|].
  destruct (String.eqb_spec (event_key r) k) as [<-|Hk]; [set_solver|]. rewrite IH. set_solver.
Qed.

Lemma find_key_app k s t : find_key k (s ++ t) = match find_key k s with Some r => Some r | None => find_key k t end.
Proof. induction s as [|r s IH]; simpl; [done|]. by destruct (String.eqb _ _). Qed.

(** A row of the same identity and content is stored. *)
Definition represented (s : table) (item : row) : Prop :=
  exists r, find_key (event_key item) s = Some r /\ content_hash r = content_hash item.

Lemma represented_app s t item : represented s item -> represented (s ++ t) item.
Proof. intros (r & Hr & E). exists r. by rewrite find_key_app, Hr. Qed.

Lemma ingest_rows_step item items i d ks s :
  ingest_rows (item :: items) i d ks s =
    match find_key (event_key item) s with
    | None => ingest_rows items (i + 1) d (ks ++ [event_key item]) (s ++ [item])
    | Some r => if String.eqb (content_hash r) (content_hash item) then ingest_rows items i (d + 1) (ks ++ [event_key item]) s
                else m_raise LedgerIdempotencyConflict ("economic event identity collision for key " +:+ event_key item) s
    end.
Proof.
  cbn [ingest_rows]. unfold m_bind at 1, insert_or_ignore. destruct (find_key (event_key item) s) as [r|] eqn:E; [|done].
  simpl. unfold m_bind, m_get. rewrite E. by destruct (String.eqb _ _).
Qed.

Lemma ingest_rows_Ok items : forall i d ks s res s', ingest_rows items i d ks s = (Ok res, s') ->
  exists new, s' = s ++ new /\ fst (fst res) = i + Z.of_nat (length new) /\
    snd (fst res) = d + Z.of_nat (length items) - Z.of_nat (length new) /\ snd res = ks ++ keys items /\
    Forall (represented s') items /\ Forall (fun r => r ∈ items) new /\ (NoDup (keys s) -> NoDup (keys s')).
Proof.
  induction items as [|item items IH]; intros i d ks s res s'.
  { intros [= <- <-]. exists []. rewrite !app_nil_r. simpl. repeat split; (lia || done || constructor). }
  rewrite ingest_rows_step. destruct (find_key (event_key item) s) as [r|] eqn:E.
  - destruct (String.eqb_spec (content_hash r) (content_hash item)) as [Hh|]; [|done]. intros H.
    destruct (IH _ _ _ _ _ _ H) as (new & -> & H1 & H2 & H3 & H4 & H5 & H6). exists new.
    split; [done|]. split; [done|]. split; [simpl length; lia|]. split; [by rewrite H3, <- app_assoc|].
    split; [|split; [|done]].
    + constructor; [|done]. apply represented_app. by exists r.
    + eapply Forall_impl; [exact H5|]. set_solver.
  - intros H. destruct (IH _ _ _ _ _ _ H) as (new & -> & H1 & H2 & H3 & H4 & H5 & H6). exists (item :: new).
    assert ((s ++ [item]) ++ new = s ++ item :: new) as E2 by (by rewrite <- app_assoc). rewrite E2 in *.
    split; [done|]. split; [simpl length; lia|]. split; [simpl length; lia|].
    split; [by rewrite H3, <- app_assoc|]. split; [|split].
    + constructor; [|done]. exists item. rewrite find_key_app, E. simpl. by rewrite String.eqb_refl.
    + constructor; [set_solver|]. eapply Forall_impl; [exact H5|]. set_solver.
    + intros Hn. apply H6. unfold keys. rewrite map_app. apply NoDup_app.
      split; [done|]. split; [|apply NoDup_singleton]. apply find_key_None in E. set_solver.
Qed.

Lemma ingest_rows_noop items : forall i d ks s, Forall (represented s) items ->
  ingest_rows items i d ks s = (Ok (i, d + Z.of_nat (length items), ks ++ keys items), s).
Proof.
  induction items as [|item items IH]; intros i d ks s; [intros _; simpl; by rewrite app_nil_r, Z.add_0_r|].
  intros [(r & Hr & E) H]%Forall_cons. rewrite ingest_rows_step, Hr, E, String.eqb_refl, IH by done.
  simpl keys. rewrite <- app_assoc. simpl length. do 4 f_equal. lia.
Qed.

Lemma ingest_rows_Err items : forall i d ks s e s', ingest_rows items i d ks s = (Err e, s') ->
  exn_class e = LedgerIdempotencyConflict.
Proof.
  induction items as [|item items IH]; intros i d ks s e s'; [done|]. rewrite ingest_rows_step.
  destruct (find_key _ s) as [r|]; [|apply IH]. destruct (String.eqb _ _); [apply IH|]. by intros [= <- _].
Qed.

(** ** Ingestion *)

Definition normalize_all (evs : list (EconomicLedgerEvent * Z)) : result (list row) :=
  res_map_list (fun en => _normalize_event (fst en) (snd en)) evs.

Lemma ingest_cases evs s :
  match normalize_all evs with
  | Err e => ingest_economic_events evs s = (Err e, s)
  | Ok items =>
      match ingest_rows items 0 0 [] s with
      | (Ok res, s') => ingest_economic_events evs s
                        = (Ok (Ingestion (Z.of_nat (length items)) (fst (fst res)) (snd (fst res)) (snd res)), s')
      | (Err e, _) => ingest_economic_events evs s = (Err e, s)
      end
  end.
Proof.
  unfold ingest_economic_events, normalize_all, m_bind, m_lift.
  destruct (res_map_list _ evs) as [items|e]; [|done]. destruct items as [|item items]; [done|].
  unfold savepoint. by destruct (ingest_rows (item :: items) 0 0 [] s) as [[res|e] s'].
Qed.

Lemma normalize_clock e t t' r : _normalize_event e t = Ok r ->
  _normalize_event e t' = Ok (Row (r_fields r) (event_key r) (content_hash r) (isoformat t')).
Proof.
  unfold _normalize_event. destruct (checked_type e) as [ty|]; [|done]. simpl.
  destruct (normalized_fields e ty) as [f|]; [|done]. simpl. destruct (check_event f) as [[]|]; [|done]. simpl.
  destruct (json_sha256 _ _) as [k|]; [|done]. simpl. destruct (json_sha256 _ _) as [h|]; [|done]. simpl. by intros [= <-].
Qed.

(** The same batch normalized at other times has the same identities and contents. *)
Lemma normalize_all_clock evs evs' items : map fst evs' = map fst evs -> normalize_all evs = Ok items ->
  exists items', normalize_all evs' = Ok items' /\ length items' = length items /\ keys items' = keys items /\
    forall s, Forall (represented s) items -> Forall (represented s) items'.
Proof.
  unfold normalize_all. revert evs' items; induction evs as [|[e t] evs IH]; intros [|[e' t'] evs'] items; try done.
  - intros _ [= <-]. by exists [].
  - simpl. intros [= -> E] H. res_inv H.
    match goal with Hn : _normalize_event e t = Ok ?r, Hl : res_map_list _ evs = Ok ?rs |- _ =>
      rewrite (normalize_clock e t t' r Hn); destruct (IH evs' rs E Hl) as (items' & -> & H1 & H2 & H3) end.
    simpl. eexists. split; [done|]. split; [simpl; congruence|]. split; [simpl; congruence|].
    intros s [Hr Hs]%Forall_cons. constructor; [done|by apply H3].
Qed.

(** What a batch does to the table. *)
Definition ingested (evs : list (EconomicLedgerEvent * Z)) (r : LedgerIngestionResult) (s s' : table) : Prop :=
  exists items new, normalize_all evs = Ok items /\ s' = s ++ new /\
    Forall (represented s') items /\ Forall (fun x => x ∈ items) new /\
    r = Ingestion (Z.of_nat (length items)) (Z.of_nat (length new)) (Z.of_nat (length items) - Z.of_nat (length new)) (keys items).

(** Ingestion is atomic and append-only.  A raising batch leaves the table as it was:
    an event did not normalize, or an identity is stored with another content.  A successful one
    only appends, once per new identity, afterwards every event of the batch is represented by a
    row of its identity and content, and the counts add up. *)
Theorem ingest_append_only evs s : NoDup (keys s) ->
  match ingest_economic_events evs s with
  | (Err e, s') => s' = s /\ (normalize_all evs = Err e \/ exn_class e = LedgerIdempotencyConflict)
  | (Ok r, s') => ingested evs r s s' /\ NoDup (keys s')
  end.
Proof.
  intros Hn. pose proof (ingest_cases evs s) as H. destruct (normalize_all evs) as [items|e] eqn:En; [|rewrite H; auto].
  destruct (ingest_rows items 0 0 [] s) as [[res|e] s'] eqn:Ei; rewrite H.
  - destruct (ingest_rows_Ok _ _ _ _ _ _ _ Ei) as (new & Hs & H1 & H2 & H3 & H4 & H5 & H6). split; [|by apply H6].
    exists items, new. rewrite H1, H2, H3. repeat split; try done.
  - split; [done|]. right. by eapply ingest_rows_Err.
Qed.

(** Batches ingested one after the other; the failing ones leave no trace. *)
Fixpoint ingest_batches (batches : list (list (EconomicLedgerEvent * Z))) (s : table) : table :=
  match batches with
  | [] => s
  | evs :: l => ingest_batches l (snd (ingest_economic_events evs s))
  end.

Lemma ingest_grows evs s : exists new, snd (ingest_economic_events evs s) = s ++ new /\
  forall r, r ∈ new -> exists e t, _normalize_event e t = Ok r.
Proof.
  pose proof (ingest_cases evs s) as H. destruct (normalize_all evs) as [items|e] eqn:En.
  2:{ rewrite H. exists []. rewrite app_nil_r. split; [done|]. set_solver. }
  destruct (ingest_rows items 0 0 [] s) as [[res|e] s'] eqn:Ei; rewrite H.
  2:{ exists []. rewrite app_nil_r. split; [done|]. set_solver. }
  destruct (ingest_rows_Ok _ _ _ _ _ _ _ Ei) as (new & -> & _ & _ & _ & _ & Hin & _).
  exists new. split; [done|]. intros r Hr. rewrite Forall_forall in Hin. specialize (Hin r Hr). clear -En Hin.
  unfold normalize_all in En. revert items En Hin. induction evs as [|[e t] evs IH]; simpl; intros items En Hin.
  - injection En as <-. set_solver.
  - res_inv En. apply elem_of_cons in Hin as [->|Hin]; [by eexists _, _|]. by eapply IH.
Qed.

Lemma batches_grow batches s : exists new, ingest_batches batches s = s ++ new.
Proof.
  revert s; induction batches as [|evs l IH]; intros s; [exists []; by rewrite app_nil_r|]. simpl.
  destruct (ingest_grows evs s) as (new & -> & _). destruct (IH (s ++ new)) as [new' ->].
  exists (new ++ new'). by rewrite app_assoc.
Qed.

(** A batch that was ingested once can be ingested again at any later time, after
    any other batches: every event counts as a duplicate, the same identities are returned and
    nothing is written. *)
Theorem reingest_is_noop evs evs' s r s1 batches :
  ingest_economic_events evs s = (Ok r, s1) -> map fst evs' = map fst evs ->
  let s2 := ingest_batches batches s1 in
  ingest_economic_events evs' s2 = (Ok (Ingestion (requested r) 0 (requested r) (event_keys r)), s2).
Proof.
  intros H E s2. pose proof (ingest_cases evs s) as Hc. destruct (normalize_all evs) as [items|e] eqn:En; [|congruence].
  destruct (ingest_rows items 0 0 [] s) as [[res|e] s'] eqn:Ei; [|congruence].
  rewrite Hc in H. injection H as <- <-.
  destruct (ingest_rows_Ok _ _ _ _ _ _ _ Ei) as (new & _ & _ & _ & Hk & Hrep & _).
  destruct (normalize_all_clock evs evs' items E En) as (items' & En' & Hl & Hkeys & Hr').
  assert (Forall (represented s2) items') as Hrep2.
  { apply Hr'. eapply Forall_impl; [exact Hrep|]. intros x Hx. unfold s2.
    destruct (batches_grow batches s') as [new' ->]. by apply represented_app. }
  pose proof (ingest_cases evs' s2) as Hc2. rewrite En', (ingest_rows_noop items' 0 0 [] s2 Hrep2) in Hc2.
  rewrite Hc2. simpl. by rewrite Hl, Hkeys, Hk.
Qed.

(** An event whose identity is stored with another economic content makes its whole
    batch fail, and nothing is written. *)
Theorem conflict_is_rejected evs items s item r : normalize_all evs = Ok items -> item ∈ items ->
  find_key (event_key item) s = Some r -> content_hash r <> content_hash item ->
  exists e, ingest_economic_events evs s = (Err e, s) /\ exn_class e = LedgerIdempotencyConflict.
Proof.
  intros En Hi Hf Hh. pose proof (ingest_cases evs s) as H. rewrite En in H.
  destruct (ingest_rows items 0 0 [] s) as [[res|e] s'] eqn:Ei.
  - destruct (ingest_rows_Ok _ _ _ _ _ _ _ Ei) as (new & -> & _ & _ & _ & Hrep & _).
    rewrite Forall_forall in Hrep. destruct (Hrep item Hi) as (r' & Hr' & E). rewrite find_key_app, Hf in Hr'. congruence.
  - exists e. split; [done|]. by eapply ingest_rows_Err.
Qed.

(** ** Stored rows *)

(** The number a text column holds. *)
Definition holds (o : option string) (d : dec) : Prop := exists s, o = Some s /\ text_decimal s = Ok d.

(** When the effect happened and when it became known. *)
Definition times_ok (f : fields) : Prop :=
  exists te, in_range te = true /\ event_time f = isoformat te /\
    match availability_time f with
    | None => True
    | Some a => exists ta, in_range ta = true /\ a = isoformat ta /\ te <= ta
    end.

(** A fill: a signed quantity at a positive price; a spot fill pays the product, a perpetual
    one moves no cash. *)
Definition fill_ok (f : fields) : Prop :=
  exists q p, holds (quantity f) q /\ holds (price f) p /\ (0 < dval p)%Q /\ ~ (dval q == 0)%Q /\
    ((0 < dval q)%Q <-> side f = "BUY") /\ (side f = "BUY" \/ side f = "SELL") /\
    (instrument_type f = "SPOT" /\
       (exists a x, holds (amount f) a /\ rounds (dval q * dval p) x /\ (dval a == - dval x)%Q)
     \/ instrument_type f = "PERPETUAL" /\ (forall s, amount f = Some s -> exists a, text_decimal s = Ok a /\ (dval a == 0)%Q)).

(** A cash flow: charges are negative and the dollar effect has the sign of the amount. *)
Definition cashflow_ok (f : fields) : Prop :=
  exists a, holds (amount f) a /\ ~ (dval a == 0)%Q /\
    (is_charge (event_type f) = true -> (dval a < 0)%Q) /\
    (event_type f = "DEPOSIT" -> (0 < dval a)%Q) /\ (event_type f = "WITHDRAWAL" -> (dval a < 0)%Q) /\
    forall s, amount_usd f = Some s -> exists u, text_decimal s = Ok u /\ ~ (dval u == 0)%Q /\
      ((0 < dval u)%Q <-> (0 < dval a)%Q).

Definition row_ok (f : fields) : Prop :=
  event_type f ∈ ECONOMIC_EVENT_TYPES /\ times_ok f /\ snd (identity f) <> "" /\ amount_asset f <> "" /\
  (if String.eqb (event_type f) "FILL" then fill_ok f else cashflow_ok f).

Lemma reject_if_Ok b m u : reject_if b m = Ok u -> b = false.
Proof. by destruct b. Qed.

(** Opens a successful sequence of checks. *)
Ltac open_checks H :=
  repeat match type of H with
  | res_bind ?m _ = Ok _ =>
      let a := fresh "x" in let E := fresh "Hk" in
      apply res_bind_Ok in H; destruct H as (a & E & H);
      try apply reject_if_Ok in E
  end;
  try apply reject_if_Ok in H.

Lemma canonical_time_inv v name s : _canonical_time v name = Ok s -> exists t, in_range t = true /\ s = isoformat t.
Proof.
  unfold _canonical_time. intros H. res_inv H. eexists. split; [|done]. by eapply to_utc_range.
Qed.

Lemma instant_isoformat t : in_range t = true -> instant (isoformat t) = Ok t.
Proof. intros H. unfold instant. rewrite fromisoformat_isoformat by done. simpl. f_equal. lia. Qed.

Lemma text_or_0_holds o d : text_or_0 o = Ok d -> is_zero d = false -> holds o d.
Proof.
  unfold text_or_0, is_zero. intros H Hz. destruct o as [s|].
  - destruct s as [|c s]; [|by exists (String c s)]. simpl in H. vm_compute in H. injection H as <-. by vm_compute in Hz.
  - vm_compute in H. injection H as <-. by vm_compute in Hz.
Qed.

Lemma is_zero_false d : is_zero d = false <-> ~ (dval d == 0)%Q.
Proof. unfold is_zero. rewrite deqb_false. by rewrite dval_0. Qed.

Lemma is_zero_true d : is_zero d = true <-> (dval d == 0)%Q.
Proof. unfold is_zero. rewrite deqb_spec. by rewrite dval_0. Qed.

Lemma positive_true d : positive d = true <-> (0 < dval d)%Q.
Proof. unfold positive, dgt. rewrite dlt_spec. by rewrite dval_0. Qed.

Lemma dle_0_false d : dle d d0 = false <-> (0 < dval d)%Q.
Proof. rewrite dle_false. by rewrite dval_0. Qed.

Lemma dge_0_false d : dge d d0 = false <-> (dval d < 0)%Q.
Proof. unfold dge. rewrite dle_false. by rewrite dval_0. Qed.

Lemma nonempty_true s : nonempty s = true <-> s <> "".
Proof. by destruct s. Qed.

Lemma same_sign a b : negb (Bool.eqb (positive a) (positive b)) = false -> ((0 < dval a)%Q <-> (0 < dval b)%Q).
Proof. intros H. apply negb_false_iff, eqb_prop in H. by rewrite <- !positive_true, H. Qed.

Lemma str_in_2 x a b : str_in x [a; b] = true <-> x = a \/ x = b.
Proof. rewrite str_in_spec. set_solver. Qed.

Lemma check_fill_sound f u : check_fill f = Ok u -> amount_asset f <> "" /\ fill_ok f.
Proof.
  unfold check_fill. intros H. open_checks H. bool_props.
  match goal with Hq : text_or_0 (quantity f) = Ok ?a, Hp : text_or_0 (price f) = Ok ?b |- _ => rename a into q, b into p end.
  assert (is_zero p = false) as Hpz.
  { apply is_zero_false. assert (0 < dval p)%Q by (by apply dle_0_false). lra. }
  split; [by apply nonempty_true|]. exists q, p.
  split; [by apply text_or_0_holds|]. split; [by apply text_or_0_holds|]. split; [by apply dle_0_false|].
  split; [by apply is_zero_false|].
  assert (side f = "BUY" \/ side f = "SELL") as Hside by (by apply str_in_2).
  split.
  { match goal with He : Bool.eqb _ _ = true |- _ => apply eqb_prop in He; rewrite <- positive_true, He end.
    apply String.eqb_eq. }
  split; [done|]. assert (instrument_type f = "SPOT" \/ instrument_type f = "PERPETUAL") as [Hi|Hi] by (by apply str_in_2).
  - left. split; [done|]. unfold check_fill_amount in H. rewrite Hi in H. simpl in H.
    destruct (amount f) as [s|]; [|done]. open_checks H. bool_props.
    match goal with Ha : text_decimal s = Ok ?a, Hm : dmul q p = Ok ?m, Hn : dopp ?m = Ok ?n |- _ =>
      exists a, m; split; [by exists s|]; split; [by apply dmul_rounds|];
      pose proof (dmul_rounds _ _ _ Hm) as Hr; destruct (dopp_fits m (rounds_fits _ _ Hr)) as (n' & Hn' & Hv & _) end.
    match goal with Hd : deqb _ _ = true |- _ => apply deqb_spec in Hd; rewrite Hd end.
    match goal with Hn : dopp _ = Ok ?n |- _ => rewrite Hn' in Hn; injection Hn as <- end. done.
  - right. split; [done|]. unfold check_fill_amount in H. rewrite Hi in H. simpl in H. intros s Hs. rewrite Hs in H.
    open_checks H. bool_props. eexists. split; [done|]. by apply is_zero_true.
Qed.

Lemma check_usd_sound t a usd u : check_usd t a usd = Ok u -> ~ (dval a == 0)%Q ->
  (is_charge t = true -> (dval a < 0)%Q) -> ~ (dval usd == 0)%Q /\ ((0 < dval usd)%Q <-> (0 < dval a)%Q).
Proof.
  unfold check_usd. intros H Ha Hc. open_checks H. destruct (is_charge t).
  - simpl in *. match goal with Hu : dge usd d0 = false |- _ => apply dge_0_false in Hu end. specialize (Hc eq_refl).
    split; [lra|]. split; intros; lra.
  - simpl in *. bool_props. split; [by apply is_zero_false|]. apply same_sign. by apply negb_false_iff.
Qed.

Lemma check_cashflow_sound f u : check_cashflow f = Ok u -> amount_asset f <> "" /\ cashflow_ok f.
Proof.
  unfold check_cashflow. intros H. open_checks H. bool_props.
  match goal with Hq : text_or_0 (amount f) = Ok ?x |- _ => rename x into a end.
  split; [by apply nonempty_true|]. exists a. split; [by apply text_or_0_holds|].
  assert (~ (dval a == 0)%Q) as Ha by (by apply is_zero_false). split; [done|].
  assert (is_charge (event_type f) = true -> (dval a < 0)%Q) as Hc.
  { intros E. match goal with Hk : is_charge _ && dge a d0 = false |- _ => rewrite E in Hk; by apply dge_0_false in Hk end. }
  split; [done|]. split; [|split].
  - intros E. match goal with Hk : String.eqb _ "DEPOSIT" && _ = false |- _ => rewrite E in Hk; by apply dle_0_false in Hk end.
  - intros E. rewrite E in H. by apply dge_0_false in H.
  - intros s Hs. rewrite Hs in *.
    match goal with Hu : res_bind (text_decimal s) _ = Ok _ |- _ => apply res_bind_Ok in Hu; destruct Hu as (usd & Hs' & Hu) end.
    exists usd. split; [done|]. by eapply check_usd_sound.
Qed.

Lemma identity_nonempty f : nonempty (exchange_fill_id f) || nonempty (exchange_event_id f) || nonempty (source_event_id f) = true ->
  snd (identity f) <> "".
Proof.
  unfold identity. intros H. apply nonempty_true.
  destruct (nonempty (exchange_fill_id f)) eqn:E1; [done|]. destruct (nonempty (exchange_event_id f)) eqn:E2; [done|]. done.
Qed.

Lemma normalized_row_ok e now r : _normalize_event e now = Ok r -> row_ok (r_fields r).
Proof.
  unfold _normalize_event. intros H. apply res_bind_Ok in H as (t & Ht & H). apply res_bind_Ok in H as (f & Hf & H).
  apply res_bind_Ok in H as (u & Hc & H). apply res_bind_Ok in H as (k & _ & H). apply res_bind_Ok in H as (h & _ & H).
  injection H as <-. cbn [r_fields].
  assert (t ∈ ECONOMIC_EVENT_TYPES) as Hty.
  { unfold checked_type in Ht. destruct (negb _); [done|]. res_inv Ht. by apply str_in_spec. }
  assert (event_type f = t /\ (exists te, in_range te = true /\ event_time f = isoformat te) /\
    (forall a, availability_time f = Some a -> exists ta, in_range ta = true /\ a = isoformat ta)) as (Et & (te & Rte & Ete) & Ha).
  { unfold normalized_fields in Hf. do 5 (apply res_bind_Ok in Hf as (? & ? & Hf)).
    apply res_bind_Ok in Hf as (av & Hav & Hf). do 6 (apply res_bind_Ok in Hf as (? & ? & Hf)). injection Hf as <-.
    split; [done|]. split; [by eapply canonical_time_inv|]. simpl. intros a ->.
    destruct (nonempty _); [|done]. res_inv Hav. by eapply canonical_time_inv. }
  unfold check_event in Hc. apply res_bind_Ok in Hc as (? & Hid & Hc). apply res_bind_Ok in Hc as (? & _ & Hc).
  unfold check_identity in Hid. apply res_bind_Ok in Hid as (? & Hid & Hid2). apply res_bind_Ok in Hid2 as (? & Hav & _).
  apply reject_if_Ok, negb_false_iff in Hid.
  assert (amount_asset f <> "" /\ (if String.eqb (event_type f) "FILL" then fill_ok f else cashflow_ok f)) as [Has Hok].
  { destruct (String.eqb _ _); [by eapply check_fill_sound|by eapply check_cashflow_sound]. }
  split; [by rewrite Et|]. split; [|split; [by apply identity_nonempty|by split]].
  exists te. split; [done|]. split; [done|]. destruct (availability_time f) as [a|]; [|done].
  destruct (Ha a eq_refl) as (ta & Rta & ->). exists ta. split; [done|]. split; [done|].
  rewrite Ete, !instant_isoformat in Hav by done. simpl in Hav. apply reject_if_Ok in Hav. bool_props. done.
Qed.

Lemma batches_valid batches :
  let s := ingest_batches batches [] in NoDup (keys s) /\ forall r, r ∈ s -> row_ok (r_fields r).
Proof.
  assert (forall l s, NoDup (keys s) -> (forall r, r ∈ s -> row_ok (r_fields r)) ->
    NoDup (keys (ingest_batches l s)) /\ forall r, r ∈ ingest_batches l s -> row_ok (r_fields r)) as H.
  2:{ apply H; [constructor|set_solver]. }
  induction l as [|evs l IH]; intros s Hn Hs; [done|]. simpl. apply IH.
  - pose proof (ingest_cases evs s) as H. destruct (normalize_all evs) as [items|e]; [|by rewrite H].
    destruct (ingest_rows items 0 0 [] s) as [[res|e] s'] eqn:Ei; rewrite H; [|done]. simpl.
    destruct (ingest_rows_Ok _ _ _ _ _ _ _ Ei) as (new & _ & _ & _ & _ & _ & _ & Hnd). by apply Hnd.
  - destruct (ingest_grows evs s) as (new & -> & Hnew). intros r [Hr|Hr]%elem_of_app; [by apply Hs|].
    destruct (Hnew r Hr) as (e & t & He). by eapply normalized_row_ok.
Qed.

(** Every row the ledger ever holds has a unique identity and is economically
    unambiguous: the availability does not precede the event, a spot fill pays exactly the
    (28-digit) product of its signed quantity and price, a perpetual fill moves no cash, charges
    are negative and a dollar effect has the sign of its amount. *)
Theorem stored_rows_valid batches :
  let s := ingest_batches batches [] in NoDup (keys s) /\ forall r, r ∈ s -> row_ok (r_fields r).
Proof. exact (batches_valid batches). Qed.

(** ** Queries by instant *)

Definition instant_of (r : row) : Z := match instant (event_time (r_fields r)) with Ok t => t | Err _ => 0 end.

(** The instant a bound of a query stands for. *)
Definition query_instant (x : string) : result Z := let! p := fromisoformat (replace_z x) in to_utc p.

Definition columns_match (q : query) (r : row) : bool :=
  let f := r_fields r in
  column_is same (q_account_id q) (account_id f) && column_is lower (q_trading_mode q) (trading_mode f)
  && column_is upper (q_venue q) (venue f) && column_is same (q_strategy_id q) (strategy_id f)
  && column_is same (q_cycle_id q) (cycle_id f) && column_is upper (q_symbol q) (symbol f)
  && column_is upper (q_instrument_type q) (instrument_type f).

Definition after (bound : option string) (t : Z) : bool :=
  match bound with Some x => match query_instant x with Ok a => a <=? t | Err _ => false end | None => true end.
Definition before (bound : option string) (t : Z) : bool :=
  match bound with Some x => match query_instant x with Ok b => t <=? b | Err _ => false end | None => true end.

(** The query with times as instants: the rows of the window, ordered by instant and then by id. *)
Definition read_by_instant (s : table) (q : query) : list row :=
  sort_by (fun a b => instant_of a <=? instant_of b)
    (List.filter (fun r => columns_match q r && after (q_start_time q) (instant_of r) && before (q_end_time q) (instant_of r)) s).

Lemma insert_by_ext {A} (f g : A -> A -> bool) x l : (forall y, y ∈ l -> f x y = g x y) -> insert_by f x l = insert_by g x l.
Proof. induction l as [|y l IH]; intros H; simpl; [done|]. rewrite H, IH by set_solver. done. Qed.

Lemma sort_by_ext {A} (f g : A -> A -> bool) l : (forall x y, x ∈ l -> y ∈ l -> f x y = g x y) -> sort_by f l = sort_by g l.
Proof.
  induction l as [|x l IH]; intros H; simpl; [done|]. rewrite IH by set_solver.
  apply insert_by_ext. intros y Hy. rewrite elem_of_sort_by in Hy. set_solver.
Qed.

Lemma filter_ext_elem {A} (f g : A -> bool) l : (forall x, x ∈ l -> f x = g x) -> List.filter f l = List.filter g l.
Proof. induction l as [|x l IH]; intros H; simpl; [done|]. rewrite H, IH by set_solver. done. Qed.

Lemma times_ok_instant r : times_ok (r_fields r) -> in_range (instant_of r) = true /\ event_time (r_fields r) = isoformat (instant_of r).
Proof. intros (t & Ht & E & _). unfold instant_of. by rewrite E, instant_isoformat. Qed.

Lemma canonical_time_query x name s : _canonical_time x name = Ok s ->
  exists t, query_instant x = Ok t /\ in_range t = true /\ s = isoformat t.
Proof.
  unfold _canonical_time, query_instant. intros H. apply res_bind_Ok in H as (p & Hp & H).
  destruct (fromisoformat (replace_z x)) as [p'|e]; simpl in Hp; [|by destruct (json_errors _)].
  injection Hp as ->. simpl. apply res_bind_Ok in H as (t & Ht & H). injection H as <-.
  exists t. split; [done|]. split; [by eapply to_utc_range|done].
Qed.

Lemma opt_time_inv b o : opt_time b = Ok o ->
  match b with
  | None => o = None
  | Some x => exists t, query_instant x = Ok t /\ in_range t = true /\ o = Some (isoformat t)
  end.
Proof.
  destruct b as [x|]; simpl; [|congruence]. intros H. apply res_bind_Ok in H as (s & Hs & H). injection H as <-.
  destruct (canonical_time_query _ _ _ Hs) as (t & H1 & H2 & ->). by exists t.
Qed.

(** The query that compares and sorts the stored texts is the query by
    instants: on the rows the ledger stores it selects the same window and returns the same order,
    ties in the order of ingestion. *)
Theorem reads_by_instant s q rows : (forall r, r ∈ s -> row_ok (r_fields r)) ->
  read_economic_events s q None = Ok rows -> rows = read_by_instant s q.
Proof.
  intros Hs H. unfold read_economic_events in H. apply res_bind_Ok in H as (cond & Hc & H). injection H as <-.
  unfold _where_clause in Hc. apply res_bind_Ok in Hc as (a & Ha & Hc). apply res_bind_Ok in Hc as (b & Hb & Hc).
  injection Hc as <-. apply opt_time_inv in Ha, Hb. unfold read_by_instant.
  rewrite (filter_ext_elem _ (fun r => columns_match q r && after (q_start_time q) (instant_of r) && before (q_end_time q) (instant_of r))).
  - apply sort_by_ext. intros x y [Hx _]%elem_of_filter_bool [Hy _]%elem_of_filter_bool.
    destruct (times_ok_instant x) as [Rx Ex]; [apply (Hs x Hx)|]. destruct (times_ok_instant y) as [Ry Ey]; [apply (Hs y Hy)|].
    unfold time_leb. rewrite Ex, Ey. by rewrite isoformat_leb.
  - intros r Hr. destruct (times_ok_instant r) as [Rr Er]; [apply (Hs r Hr)|]. unfold columns_match, after, before.
    rewrite Er. destruct (q_start_time q) as [x|], (q_end_time q) as [y|];
      repeat match goal with
      | E : exists t, _ /\ _ /\ _ |- _ => let Hq := fresh in destruct E as (? & Hq & ? & ->); rewrite Hq, isoformat_leb by done
      | E : _ = None |- _ => rewrite E
      end; by rewrite ?andb_true_r.
Qed.

(** ** Concrete runs *)

Lemma canonical_amount_roundtrip_witness : exists d n,
  text_decimal "0.5" = Ok d /\ rounds (dval (Dec false 500 (-3))) n /\ (dval d == dval n)%Q /\
  (forall m, fits m -> (dval (Dec false 500 (-3)) == dval m)%Q -> (dval d == dval (Dec false 500 (-3)))%Q) /\
  ((mkval 1 Etiny <= Qabs (dval (Dec false 500 (-3))))%Q -> keeps (Dec false 500 (-3)) d) /\
  (keeps (Dec false 500 (-3)) d ->
    _canonical_decimal (VStr "0.5") "q" true = Ok (Some "0.5") /\ _canonical_decimal (VDec d) "q" true = Ok (Some "0.5") /\
    forall v' p', finite_decimal LedgerValidationError false v' "q" = Ok p' -> (dval p' == dval (Dec false 500 (-3)))%Q ->
      _canonical_decimal v' "q" true = Ok (Some "0.5")).
Proof. exact (canonical_amount_roundtrip (VStr "0.500") "q" true _ _ eq_refl eq_refl). Defined.

Lemma ingest_append_only_witness :
  match ingest_economic_events ex_batch ex_table with
  | (Err e, s') => s' = ex_table /\ (normalize_all ex_batch = Err e \/ exn_class e = LedgerIdempotencyConflict)
  | (Ok r, s') => ingested ex_batch r ex_table s' /\ NoDup (keys s')
  end.
Proof.
  apply (ingest_append_only ex_batch ex_table). apply (bool_decide_eq_true_1 (NoDup (keys ex_table))). vm_compute. reflexivity.
Defined.

Definition ex_report : LedgerIngestionResult := Ingestion 2 2 0 (keys ex_table).

(** The batch again at another time. *)
Definition ex_batch_later : list (EconomicLedgerEvent * Z) := map (fun en => (fst en, 1000000)) ex_batch.

Lemma reingest_is_noop_witness :
  ingest_economic_events ex_batch_later (ingest_batches [ex_batch] ex_table)
  = (Ok (Ingestion 2 0 2 (keys ex_table)), ingest_batches [ex_batch] ex_table).
Proof.
  exact (reingest_is_noop ex_batch ex_batch_later [] ex_report ex_table [ex_batch] ltac:(vm_compute; reflexivity) ltac:(vm_compute; reflexivity)).
Defined.

(** The same exchange fill with another price. *)
Definition ex_conflict : list (EconomicLedgerEvent * Z) :=
  match build_fill_events ex_envelope "spot" "buy" (VStr "0.50") (VStr "41999") "BTC" "USDT" VNone "" VNone VNone "" VNone with
  | Ok l => map (fun e => (e, 0)) l | Err _ => [] end.

Example conflict_example :
  match ingest_economic_events ex_conflict ex_table with
  | (Err e, t) => match exn_class e with LedgerIdempotencyConflict => length t | _ => 0%nat end
  | _ => 0%nat
  end = length ex_table.
Proof. vm_compute. reflexivity. Qed.

Definition ex_read : list row := match read_economic_events ex_table no_filter None with Ok rows => rows | Err _ => [] end.

Lemma ex_read_ok : read_economic_events ex_table no_filter None = Ok ex_read.
Proof.
  unfold ex_read. assert (is_ok (read_economic_events ex_table no_filter None) = true) as H by (vm_compute; reflexivity).
  by destruct (read_economic_events ex_table no_filter None).
Qed.

Lemma reads_by_instant_witness : ex_read = read_by_instant ex_table no_filter.
Proof.
  apply (reads_by_instant ex_table no_filter ex_read); [|exact ex_read_ok].
  intros r Hr. exact (proj2 (batches_valid [ex_batch]) r Hr).
Defined.
