(* ===== verification/EconomicProjectionFacts.v ===== *)
(** * Facts on the projection and the reconciliation of the economic ledger

    For amounts on the grid of 10^-12 the projection is the exact sum of the rows, its counters
    and its rounded gross notional are those of the rows, and a matched reconciliation explains
    every asset. *)
From Stdlib Require Import ZArith Lia QArith Qabs Lqa Ascii.
From stdpp Require Import base list strings sets.
From S2P Require Import Prelude PyDecimal PyDecimalFacts PyDecimalPlain PyTime PyValue PyCalendar PyCalendarFacts.
From S2P Require Import EconomicLedger EconomicLedgerFacts.
Open Scope Z_scope.

(** ** Sums of rationals *)

Definition qsum (l : list Q) : Q := fold_right Qplus 0%Q l.

Lemma qsum_app a b : (qsum (a ++ b) == qsum a + qsum b)%Q.
Proof. induction a as [|x a IH]; simpl; [ring|]. unfold qsum in *. simpl. rewrite IH. ring. Qed.

Definition when (b : bool) (x : Q) : Q := if b then x else 0%Q.

(** ** Dictionaries of amounts *)

Definition amount_at (d : dict dec) (k : string) : dec := default d0 (dict_get d k).

(** Every entry lies on the grid within [B], and the values are those of [f]. *)
Definition tracks (B : Z) (d : dict dec) (f : string -> Q) : Prop :=
  forall k, on_grid B (amount_at d k) /\ (dval (amount_at d k) == f k)%Q.

Lemma tracks_mono B C d f g : tracks B d f -> B <= C -> (forall k, (f k == g k)%Q) -> tracks C d g.
Proof. intros H HB E k. destruct (H k) as [H1 H2]. split; [by eapply on_grid_mono|]. by rewrite H2. Qed.

Lemma tracks_empty : tracks 0 [] (fun _ => 0%Q).
Proof. intros k. split; [apply on_grid_0|reflexivity]. Qed.

(** The contribution of one value to the entry [k]. *)
Definition at_key (key : string) (v : Q) (k : string) : Q := when (nonempty key && String.eqb k key) v.

Lemma add_tracks B V d f key v : tracks B d f -> on_grid V v -> 0 <= B -> 0 <= V -> B + V < 10 ^ 28 ->
  exists d', add d key v = Ok d' /\ tracks (B + V) d' (fun k => f k + at_key key (dval v) k)%Q.
Proof.
  intros Hd Hv HB HV Hlt. unfold add, at_key. destruct (nonempty key) eqn:Hk.
  - destruct (Hd key) as [H1 H2]. destruct (dadd_grid B V (amount_at d key) v H1 Hv Hlt) as (r & Hr & Hg & E).
    fold (amount_at d key). rewrite Hr. simpl. eexists. split; [done|]. intros k. unfold amount_at. rewrite dict_get_set.
    destruct (String.eqb k key) eqn:Ek; simpl.
    + apply String.eqb_eq in Ek as ->. split; [done|]. by rewrite E, H2.
    + fold (amount_at d k). destruct (Hd k) as [H3 H4]. split; [eapply on_grid_mono; [exact H3|lia]|]. rewrite H4. ring.
  - exists d. split; [done|]. eapply tracks_mono; [exact Hd|lia|]. intros k. simpl. ring.
Qed.

Lemma qsum_dict_set d k v :
  (qsum (map (fun kv => dval (snd kv)) (dict_set d k v)) + dval (amount_at d k)
   == qsum (map (fun kv => dval (snd kv)) d) + dval v)%Q.
Proof.
  unfold amount_at. induction d as [|[k' v'] d IH]; simpl.
  - change (dval d0) with (dval d0). rewrite dval_0. unfold qsum. simpl. ring.
  - destruct (String.eqb k k'); simpl; [|]; unfold qsum in *; simpl in *; [ring|].
    rewrite <- Qplus_assoc, IH. ring.
Qed.

Definition dict_total (d : dict dec) : Q := qsum (map (fun kv => dval (snd kv)) d).

Lemma add_total d key v d' B V f : tracks B d f -> on_grid V v -> B + V < 10 ^ 28 -> add d key v = Ok d' -> key <> "" ->
  (dict_total d' == dict_total d + dval v)%Q.
Proof.
  intros Hd Hv Hlt H Hk. unfold add in H. rewrite (proj2 (nonempty_true key) Hk) in H.
  destruct (Hd key) as [H1 H2]. destruct (dadd_grid B V (amount_at d key) v H1 Hv Hlt) as (r & Hr & Hg & E).
  fold (amount_at d key) in H. rewrite Hr in H. simpl in H. injection H as <-.
  pose proof (qsum_dict_set d key r) as Hs. unfold dict_total. rewrite E in Hs. lra.
Qed.

(** ** Amounts of a row *)

(** The value of a text column; nothing counts as zero. *)
Definition column_value (o : option string) : Q :=
  match o with Some s => match text_decimal s with Ok d => dval d | Err _ => 0%Q end | None => 0%Q end.

(** The amounts of a row are multiples of 10^-12 up to 10^10. *)
Definition grid_amount : Z := 10 ^ 22.
Definition grid_row (f : fields) : Prop :=
  forall o s, o ∈ [quantity f; price f; amount f; amount_usd f] -> o = Some s ->
    exists d, text_decimal s = Ok d /\ on_grid grid_amount d.

Definition is_fill (f : fields) : bool := String.eqb (event_type f) "FILL" && negb (none_of (quantity f)).
Definition is_cash (f : fields) : bool := str_in (event_type f) CASHFLOW_EVENT_TYPES && negb (none_of (amount_usd f)).

(** What one row contributes to each part of the projection. *)
Definition spot_change (f : fields) (k : string) : Q :=
  when (is_fill f && String.eqb (instrument_type f) "SPOT") (at_key (quantity_asset f) (column_value (quantity f)) k).
Definition position_change (f : fields) (k : string) : Q :=
  when (is_fill f && String.eqb (instrument_type f) "PERPETUAL") (at_key (symbol f) (column_value (quantity f)) k).
Definition balance_change (f : fields) (k : string) : Q :=
  (at_key (amount_asset f) (column_value (amount f)) k + spot_change f k)%Q.
Definition cash_change (f : fields) (k : string) : Q := when (is_cash f) (at_key (event_type f) (column_value (amount_usd f)) k).
Definition effect_usd (f : fields) : Q :=
  when (is_cash f && str_in (event_type f) ECONOMIC_EFFECT_TYPES) (column_value (amount_usd f)).

Lemma opt_decimal_grid f o : grid_row f -> o ∈ [quantity f; price f; amount f; amount_usd f] ->
  (o = None /\ opt_decimal o = Ok None /\ column_value o = 0%Q) \/
  exists s d, o = Some s /\ text_decimal s = Ok d /\ opt_decimal o = Ok (Some d) /\ on_grid grid_amount d /\ column_value o = dval d.
Proof.
  intros H Ho. destruct o as [s|]; [|by left]. right. destruct (H _ s Ho eq_refl) as (d & Hd & Hg).
  exists s, d. unfold opt_decimal, column_value. rewrite Hd. done.
Qed.

(** ** The invariant of the loop *)

(** The sums a projection stands for. *)
Record sums := Sums {
  s_balance : string -> Q;
  s_spot : string -> Q;
  s_position : string -> Q;
  s_nested : string -> string -> Q;
  s_cash : string -> Q;
  s_effect : Q
}.

Definition sums_eq (a b : sums) : Prop :=
  (forall k, (s_balance a k == s_balance b k)%Q) /\ (forall k, (s_spot a k == s_spot b k)%Q) /\
  (forall k, (s_position a k == s_position b k)%Q) /\ (forall t k, (s_nested a t k == s_nested b t k)%Q) /\
  (forall k, (s_cash a k == s_cash b k)%Q) /\ (s_effect a == s_effect b)%Q.

Definition nested_at (d : dict (dict dec)) (t : string) : dict dec := default [] (dict_get d t).

(** After [g] additions: every dictionary holds its sums exactly, and the rounded notional is bounded. *)
Record holds_sums (g : Z) (x : sums) (p : EconomicLedgerProjection) : Prop := HoldsSums {
  hs_balance : tracks (g * grid_amount) (balance_deltas p) (s_balance x);
  hs_spot : tracks (g * grid_amount) (spot_inventory_deltas p) (s_spot x);
  hs_position : tracks (g * grid_amount) (perpetual_position_deltas p) (s_position x);
  hs_nested : forall t, tracks (g * grid_amount) (nested_at (amounts_by_type_and_asset p) t) (s_nested x t);
  hs_cash : tracks (g * grid_amount) (cashflow_usd_by_type p) (s_cash x);
  hs_effect : exists f, tracks (g * grid_amount) (economic_effect_usd_by_type p) f;
  hs_total : (dict_total (economic_effect_usd_by_type p) == s_effect x)%Q;
  hs_kinds : NoDup (dict_keys (economic_effect_usd_by_type p)) /\
             forall t, t ∈ dict_keys (economic_effect_usd_by_type p) -> t ∈ ECONOMIC_EFFECT_TYPES;
  hs_gross : fits (gross_fill_notional_usd p) /\ (Qabs (dval (gross_fill_notional_usd p)) <= mkval g 50)%Q
}.

Lemma grid_amount_pos : 0 < grid_amount.
Proof. done. Qed.

Lemma holds_sums_ext g g' x y p : holds_sums g x p -> g <= g' -> sums_eq x y -> holds_sums g' y p.
Proof.
  intros [H1 H2 H3 H4 H5 [f6 H6] H7 H8 [H9 H10]] Hg (E1 & E2 & E3 & E4 & E5 & E6).
  pose proof grid_amount_pos. assert (g * grid_amount <= g' * grid_amount) by nia.
  constructor; try (eapply tracks_mono; eassumption); try done.
  - intros t. eapply tracks_mono; [apply H4|done|apply E4].
  - exists f6. by eapply tracks_mono.
  - by rewrite H7.
  - split; [done|]. eapply Qle_trans; [exact H10|]. by apply mkval_le.
Qed.

Definition max_additions : Z := 240000.

Lemma room g : 0 <= g < max_additions -> g * grid_amount + grid_amount < 10 ^ 28.
Proof. unfold max_additions. intros H. change grid_amount with (10 ^ 22). change (10 ^ 28) with (1000000 * 10 ^ 22). lia. Qed.

Lemma add_room g d f key v : 0 <= g < max_additions -> tracks (g * grid_amount) d f -> on_grid grid_amount v ->
  exists d', add d key v = Ok d' /\ tracks ((g + 1) * grid_amount) d' (fun k => f k + at_key key (dval v) k)%Q.
Proof.
  intros Hg Hd Hv. pose proof grid_amount_pos. replace ((g + 1) * grid_amount) with (g * grid_amount + grid_amount) by lia.
  apply add_tracks; [done|done|nia|lia|by apply room].
Qed.

Lemma tracks_up g d f : 0 <= g -> tracks (g * grid_amount) d f -> tracks ((g + 1) * grid_amount) d f.
Proof. intros Hg H. pose proof grid_amount_pos. eapply tracks_mono; [exact H|nia|]. reflexivity. Qed.

(** *** The three phases of a row *)

Lemma project_amount_spec g x p f a : 0 <= g < max_additions -> holds_sums g x p ->
  (a = None /\ column_value (amount f) = 0%Q \/
   exists d, a = Some d /\ on_grid grid_amount d /\ column_value (amount f) = dval d) ->
  exists p', project_amount f a p = Ok p' /\
    holds_sums (g + 1) (Sums (fun k => s_balance x k + at_key (amount_asset f) (column_value (amount f)) k)%Q (s_spot x)
      (s_position x) (fun t k => s_nested x t k + when (String.eqb t (event_type f)) (at_key (amount_asset f) (column_value (amount f)) k))%Q
      (s_cash x) (s_effect x)) p'.
Proof.
  intros Hg H Ha. assert (forall key k, (at_key key 0 k == 0)%Q) as Hz0 by (intros; unfold at_key, when; by destruct (_ && _)).
  assert (column_value (amount f) = 0%Q \/ amount_asset f = "" ->
    holds_sums (g + 1) (Sums (fun k => s_balance x k + at_key (amount_asset f) (column_value (amount f)) k)%Q (s_spot x)
      (s_position x) (fun t k => s_nested x t k + when (String.eqb t (event_type f)) (at_key (amount_asset f) (column_value (amount f)) k))%Q
      (s_cash x) (s_effect x)) p) as Hskip.
  { intros Hs. assert (forall k, (at_key (amount_asset f) (column_value (amount f)) k == 0)%Q) as Hat.
    { intros k. destruct Hs as [-> | ->]; [apply Hz0|]. reflexivity. }
    eapply holds_sums_ext; [exact H|lia|]. repeat split; simpl; intros; try reflexivity.
    - rewrite Hat. ring.
    - destruct (String.eqb t (event_type f)); simpl; [rewrite Hat|]; ring. }
  destruct Ha as [[-> Hz]|(d & -> & Hd & Hv)]; [exists p; auto|]. unfold project_amount.
  destruct (nonempty (amount_asset f)) eqn:Hne; [|exists p; split; [done|]; apply Hskip; right; by apply nonempty_false].
  destruct H as [H1 H2 H3 H4 H5 [f6 H6] H7 H8 [H9 H10]].
  destruct (add_room g _ _ (amount_asset f) d Hg H1 Hd) as (b & -> & Hb). simpl.
  unfold add_nested. destruct (add_room g _ _ (amount_asset f) d Hg (H4 (event_type f)) Hd) as (n & Hn & Htn).
  fold (nested_at (amounts_by_type_and_asset p) (event_type f)). rewrite Hn. simpl.
  eexists. split; [done|]. constructor; simpl; try (apply tracks_up; [lia|done]); try done.
  - by rewrite Hv.
  - intros t. unfold nested_at. rewrite dict_get_set. destruct (String.eqb_spec t (event_type f)) as [->|]; simpl.
    + eapply tracks_mono; [exact Htn|done|]. intros k. rewrite Hv. reflexivity.
    + fold (nested_at (amounts_by_type_and_asset p) t). apply tracks_up; [lia|]. eapply tracks_mono; [apply H4|done|].
      intros k. ring.
  - exists f6. apply tracks_up; [lia|done].
  - split; [done|]. eapply Qle_trans; [exact H10|]. apply mkval_le. lia.
Qed.

Lemma grid_value_bound d : on_grid grid_amount d -> (Qabs (dval d) <= mkval (10 ^ 22) grid_exp)%Q.
Proof.
  intros [H1 H2]. assert (dval d == mkval (zscaled d grid_exp) grid_exp)%Q as -> by (apply dval_scaled; lia).
  unfold mkval at 1. rewrite Qabs_Qmult, (Qabs_pos (10 ^ grid_exp)) by apply Qlt_le_weak, ten_pos.
  apply (mkval_le (Z.abs (zscaled d grid_exp))). done.
Qed.

(** The notional of a fill and its running sum never overflow. *)
Lemma notional_spec g gross q p : 0 <= g < max_additions -> fits gross -> (Qabs (dval gross) <= mkval g 50)%Q ->
  on_grid grid_amount q -> on_grid grid_amount p ->
  exists n a r, dmul q p = Ok n /\ dabs n = Ok a /\ dadd gross a = Ok r /\ fits r /\ (Qabs (dval r) <= mkval (g + 1) 50)%Q.
Proof.
  intros Hg Hf Hb Hq Hp. pose proof (grid_value_bound q Hq) as Bq. pose proof (grid_value_bound p Hp) as Bp.
  assert (mkval (10 ^ 22) grid_exp * mkval (10 ^ 22) grid_exp == mkval 1 20)%Q as E20 by (vm_compute; reflexivity).
  assert (Qabs (dval q) * Qabs (dval p) <= mkval 1 20)%Q as Bm.
  { rewrite <- E20. apply Qmult_le_compat_nonneg; split; apply Qabs_nonneg || assumption. }
  assert (mkval 1 20 < mkval 1 21)%Q as H21 by (vm_compute; reflexivity).
  destruct (dmul_total q p 21) as [n Hn]; [exact (Qle_lt_trans _ _ _ Bm H21)|by vm_compute|].
  pose proof (dmul_rounds _ _ _ Hn) as Rn. assert (Qabs (dval n) <= mkval 1 20)%Q as Bn.
  { assert (fits (Dec false 1 20)) as F1 by (repeat split; vm_compute; discriminate).
    pose proof (rounds_abs_le _ n 1 20 Rn F1) as Hle. change (Z.of_N 1) with 1 in Hle. apply Hle.
    rewrite Qabs_Qmult. exact Bm. }
  assert (dabs n = Ok (Dec false (dcoeff n) (dexp n))) as Ha by (apply dabs_fits, (rounds_fits _ _ Rn)).
  assert (Qabs (dval (Dec false (dcoeff n) (dexp n))) == Qabs (dval n))%Q as Ea by (by rewrite !Qabs_dval).
  set (a := Dec false (dcoeff n) (dexp n)) in *.
  assert (mkval 1 20 <= mkval 1 50)%Q as H50 by (vm_compute; discriminate).
  assert (Qabs (dval gross) + Qabs (dval a) <= mkval (g + 1) 50)%Q as Bs.
  { rewrite <- mkval_add. apply Qplus_le_compat; [done|]. rewrite Ea. lra. }
  destruct (dadd_total gross a 56) as [r Hr]; [|by vm_compute|].
  { eapply Qle_lt_trans; [exact Bs|]. rewrite <- (mkval_shift 1 50 6) by done. apply mkval_lt.
    unfold max_additions in Hg. lia. }
  exists n, a, r. split; [done|]. split; [done|]. split; [done|].
  pose proof (dadd_rounds _ _ _ Hr) as Rr. split; [exact (rounds_fits _ _ Rr)|].
  replace (g + 1) with (Z.of_N (Z.to_N (g + 1))) by lia. apply (rounds_abs_le _ _ _ _ Rr).
  - assert (ndigits (Z.to_N (g + 1)) <= 6) as Hd by (apply ndigits_le; [done|unfold max_additions in Hg; lia]).
    split; [simpl; unfold prec; lia|]. split; [done|]. simpl. destruct (_ =? _)%N; [done|].
    unfold adjusted, Emax. simpl. lia.
  - rewrite Z2N.id by lia. eapply Qle_trans; [apply Qabs_triangle|exact Bs].
Qed.

Lemma at_key_0 key k : (at_key key 0 k == 0)%Q.
Proof. unfold at_key, when. by destruct (_ && _). Qed.

Lemma when_0 b : (when b 0 == 0)%Q.
Proof. by destruct b. Qed.

Lemma add_if_room (b : bool) g d f key v : 0 <= g < max_additions -> tracks (g * grid_amount) d f -> on_grid grid_amount v ->
  exists d', (if b then add d key v else Ok d) = Ok d' /\
    tracks ((g + 1) * grid_amount) d' (fun k => f k + when b (at_key key (dval v) k))%Q.
Proof.
  intros Hg Hd Hv. destruct b; [by apply add_room|]. exists d. split; [done|].
  eapply tracks_mono; [exact Hd|pose proof grid_amount_pos; nia|]. intros k. simpl. ring.
Qed.

Definition with_fill (f : fields) (x : sums) : sums :=
  Sums (fun k => s_balance x k + spot_change f k)%Q (fun k => s_spot x k + spot_change f k)%Q
    (fun k => s_position x k + position_change f k)%Q (s_nested x) (s_cash x) (s_effect x).

Lemma project_fill_spec g x p f : 0 <= g < max_additions -> holds_sums g x p -> grid_row f ->
  exists p', project_fill f p = Ok p' /\ holds_sums (g + 1) (with_fill f x) p'.
Proof.
  intros Hg H Hf. assert (is_fill f = false -> holds_sums (g + 1) (with_fill f x) p) as Hskip.
  { intros E. eapply holds_sums_ext; [exact H|lia|]. unfold with_fill, spot_change, position_change. rewrite E.
    repeat split; simpl; intros; ring. }
  unfold project_fill. destruct (opt_decimal_grid f (quantity f) Hf ltac:(set_solver))
    as [(Eq & -> & _)|(s & q & Eq & _ & -> & Hq & Hv)]; simpl.
  { exists p. split; [done|]. apply Hskip. unfold is_fill. rewrite Eq. by rewrite andb_false_r. }
  destruct (String.eqb (event_type f) "FILL") eqn:Et; [|exists p; split; [done|]; apply Hskip; unfold is_fill; by rewrite Et].
  assert (is_fill f = true) as Ef by (unfold is_fill; by rewrite Et, Eq).
  destruct H as [H1 H2 H3 H4 H5 [f6 H6] H7 H8 [H9 H10]].
  destruct (add_if_room (String.eqb (instrument_type f) "SPOT") g _ _ (quantity_asset f) q Hg H2 Hq) as (inv & -> & Hinv). simpl.
  destruct (add_if_room (String.eqb (instrument_type f) "SPOT") g _ _ (quantity_asset f) q Hg H1 Hq) as (bal & -> & Hbal). simpl.
  destruct (add_if_room (String.eqb (instrument_type f) "PERPETUAL") g _ _ (symbol f) q Hg H3 Hq) as (pos & -> & Hpos). simpl.
  assert (exists gr, match price f with
    | Some text => if str_in (amount_asset f) STABLE_QUOTE_ASSETS then
        let! pr := text_decimal text in let! n := dmul q pr in let! n := dabs n in dadd (gross_fill_notional_usd p) n
        else Ok (gross_fill_notional_usd p)
    | None => Ok (gross_fill_notional_usd p) end = Ok gr /\ fits gr /\ (Qabs (dval gr) <= mkval (g + 1) 50)%Q) as (gr & -> & Hgr).
  { assert (Qabs (dval (gross_fill_notional_usd p)) <= mkval (g + 1) 50)%Q as Hup by
      (eapply Qle_trans; [exact H10|]; apply mkval_le; lia).
    destruct (opt_decimal_grid f (price f) Hf ltac:(set_solver)) as [(-> & _)|(s2 & pr & -> & Ht & _ & Hp & _)]; [by eexists|].
    destruct (str_in _ _); [|by eexists]. rewrite Ht. simpl.
    destruct (notional_spec g _ q pr Hg H9 H10 Hq Hp) as (n & a & r & -> & Ha & Hr & Hfr). simpl. rewrite Ha. simpl.
    by exists r. }
  simpl. eexists. split; [done|]. unfold with_fill. constructor; simpl; try (apply tracks_up; [lia|done]); try done.
  - eapply tracks_mono; [exact Hbal|done|]. intros k. unfold spot_change. rewrite Ef, Hv. reflexivity.
  - eapply tracks_mono; [exact Hinv|done|]. intros k. unfold spot_change. rewrite Ef, Hv. reflexivity.
  - eapply tracks_mono; [exact Hpos|done|]. intros k. unfold position_change. rewrite Ef, Hv. reflexivity.
  - intros t. apply tracks_up; [lia|done].
  - exists f6. apply tracks_up; [lia|done].
Qed.

Definition with_usd (f : fields) (x : sums) : sums :=
  Sums (s_balance x) (s_spot x) (s_position x) (s_nested x) (fun k => s_cash x k + cash_change f k)%Q (s_effect x + effect_usd f)%Q.

Lemma effect_type_nonempty t : str_in t ECONOMIC_EFFECT_TYPES = true -> t <> "".
Proof. intros H ->. by vm_compute in H. Qed.

Lemma project_usd_spec g x p f a : 0 <= g < max_additions -> holds_sums g x p -> grid_row f ->
  exists p', project_usd f a p = Ok p' /\ holds_sums (g + 1) (with_usd f x) p'.
Proof.
  intros Hg H Hf. unfold project_usd.
  assert (is_cash f = false -> forall n m, holds_sums (g + 1) (with_usd f x)
    (Projection (event_count p) (fill_count p) (balance_deltas p) (spot_inventory_deltas p) (perpetual_position_deltas p)
       (amounts_by_type_and_asset p) (economic_effect_usd_by_type p) (cashflow_usd_by_type p) (total_economic_effect_usd p)
       (gross_fill_notional_usd p) n m (incomplete_envelope_event_count p))) as Hskip.
  { intros E n m. assert (holds_sums (g + 1) (with_usd f x) p) as [K1 K2 K3 K4 K5 K6 K7 K8 K9]; [|by constructor].
    eapply holds_sums_ext; [exact H|lia|]. unfold with_usd, cash_change, effect_usd. rewrite E.
    repeat split; simpl; intros; ring. }
  destruct (opt_decimal_grid f (amount_usd f) Hf ltac:(set_solver)) as [(Eu & _)|(s & u & Eu & Ht & _ & Hu & Hv)].
  { rewrite Eu. eexists. split; [done|]. apply Hskip. unfold is_cash. by rewrite Eu, andb_false_r. }
  rewrite Eu. destruct (str_in (event_type f) CASHFLOW_EVENT_TYPES) eqn:Ec.
  2:{ eexists. split; [done|]. apply Hskip. unfold is_cash. by rewrite Ec. }
  assert (is_cash f = true) as Ecash by (unfold is_cash; by rewrite Ec, Eu).
  rewrite Ht. simpl. destruct H as [H1 H2 H3 H4 H5 [f6 H6] H7 [H8 H8'] [H9 H10]].
  destruct (add_room g _ _ (event_type f) u Hg H5 Hu) as (c & -> & Hc). simpl.
  destruct (add_if_room (str_in (event_type f) ECONOMIC_EFFECT_TYPES) g _ _ (event_type f) u Hg H6 Hu) as (e & He & Hte).
  rewrite He. simpl. eexists. split; [done|]. unfold with_usd.
  constructor; simpl; try (apply tracks_up; [lia|done]); try (intros t; apply tracks_up; [lia|done]).
  - eapply tracks_mono; [exact Hc|done|]. intros k. unfold cash_change. rewrite Ecash, Hv. reflexivity.
  - by eexists.
  - unfold effect_usd. rewrite Ecash. simpl. destruct (str_in (event_type f) ECONOMIC_EFFECT_TYPES) eqn:Ee; simpl in *.
    + rewrite (add_total _ _ _ _ _ _ _ H6 Hu (room g Hg) He (effect_type_nonempty _ Ee)), H7, Hv. reflexivity.
    + injection He as <-. rewrite H7. ring.
  - destruct (str_in (event_type f) ECONOMIC_EFFECT_TYPES) eqn:Ee; [|by injection He as <-].
    unfold add in He. rewrite (proj2 (nonempty_true _) (effect_type_nonempty _ Ee)) in He.
    apply res_bind_Ok in He as (v & _ & He). injection He as <-. split; [by apply dict_set_NoDup|].
    intros t Hin. apply dict_keys_set in Hin as [->|Hin]; [by apply str_in_spec|by apply H8'].
  - split; [done|]. eapply Qle_trans; [exact H10|]. apply mkval_le. lia.
Qed.

(** What one row adds to the sums. *)
Definition with_row (f : fields) (x : sums) : sums :=
  Sums (fun k => s_balance x k + balance_change f k)%Q (fun k => s_spot x k + spot_change f k)%Q
    (fun k => s_position x k + position_change f k)%Q
    (fun t k => s_nested x t k + when (String.eqb t (event_type f)) (at_key (amount_asset f) (column_value (amount f)) k))%Q
    (fun k => s_cash x k + cash_change f k)%Q (s_effect x + effect_usd f)%Q.

Lemma project_row_spec g x p r : 0 <= g -> g + 3 <= max_additions -> holds_sums g x p -> grid_row (r_fields r) ->
  exists p', project_row p r = Ok p' /\ holds_sums (g + 3) (with_row (r_fields r) x) p'.
Proof.
  intros Hg0 Hg H Hf. unfold project_row. set (f := r_fields r) in *.
  assert (exists a, opt_decimal (amount f) = Ok a /\ (a = None /\ column_value (amount f) = 0%Q \/
    exists d, a = Some d /\ on_grid grid_amount d /\ column_value (amount f) = dval d)) as (a & -> & Ha).
  { destruct (opt_decimal_grid f (amount f) Hf ltac:(set_solver)) as [(_ & -> & Hv)|(s & d & _ & _ & -> & Hd & Hv)];
      eexists; (split; [done|]); [by left|right; by exists d]. }
  cbn [res_bind]. set (p0 := Projection _ _ _ _ _ _ _ _ _ _ _ _ _).
  assert (holds_sums g x p0) as H0 by (destruct H; by constructor).
  destruct (project_amount_spec g x p0 f a ltac:(lia) H0 Ha) as (p1 & -> & H1). cbn [res_bind].
  destruct (project_fill_spec (g + 1) _ p1 f ltac:(lia) H1 Hf) as (p2 & -> & H2). cbn [res_bind].
  destruct (project_usd_spec (g + 1 + 1) _ p2 f a ltac:(lia) H2 Hf) as (p3 & -> & H3).
  exists p3. split; [done|]. eapply holds_sums_ext; [exact H3|lia|].
  unfold with_usd, with_fill, with_row, balance_change. repeat split; simpl; intros; ring.
Qed.

(** The sums over a list of rows. *)
Definition row_sums (rows : list row) : sums :=
  let over (g : fields -> Q) := qsum (map (fun r => g (r_fields r)) rows) in
  Sums (fun k => over (fun f => balance_change f k)) (fun k => over (fun f => spot_change f k))
    (fun k => over (fun f => position_change f k))
    (fun t k => over (fun f => when (String.eqb t (event_type f)) (at_key (amount_asset f) (column_value (amount f)) k)))
    (fun k => over (fun f => cash_change f k)) (over effect_usd).

Lemma sums_eq_trans a b c : sums_eq a b -> sums_eq b c -> sums_eq a c.
Proof.
  intros (A1 & A2 & A3 & A4 & A5 & A6) (B1 & B2 & B3 & B4 & B5 & B6).
  repeat split; intros; etransitivity; eauto.
Qed.

Definition plus_sums (a b : sums) : sums :=
  Sums (fun k => s_balance a k + s_balance b k)%Q (fun k => s_spot a k + s_spot b k)%Q
    (fun k => s_position a k + s_position b k)%Q (fun t k => s_nested a t k + s_nested b t k)%Q
    (fun k => s_cash a k + s_cash b k)%Q (s_effect a + s_effect b)%Q.

Lemma project_rows_spec rows : forall g x p, 0 <= g -> g + 3 * Z.of_nat (length rows) <= max_additions -> holds_sums g x p ->
  (forall r, r ∈ rows -> grid_row (r_fields r)) ->
  exists p', res_fold project_row p rows = Ok p' /\
    holds_sums (g + 3 * Z.of_nat (length rows)) (plus_sums x (row_sums rows)) p'.
Proof.
  induction rows as [|r rows IH]; intros g x p Hg Hn H Hr.
  - exists p. split; [done|]. eapply holds_sums_ext; [exact H|simpl; lia|].
    repeat split; simpl; intros; unfold qsum; simpl; ring.
  - simpl length in *. simpl res_fold.
    destruct (project_row_spec g x p r Hg ltac:(lia) H (Hr r ltac:(set_solver))) as (p1 & -> & H1). simpl.
    destruct (IH (g + 3) _ p1 ltac:(lia) ltac:(lia) H1 ltac:(set_solver)) as (p' & -> & H2).
    exists p'. split; [done|]. eapply holds_sums_ext; [exact H2|lia|].
    unfold plus_sums, with_row. repeat split; simpl; intros; unfold qsum; simpl; ring.
Qed.

(** The sum of the dollar effects: at most four entries. *)
Lemma dec_sum_spec l : forall acc B C, on_grid B acc -> 0 <= C -> Forall (on_grid C) l -> 0 <= B ->
  B + C * Z.of_nat (length l) < 10 ^ 28 ->
  exists d, res_fold dadd acc l = Ok d /\ (dval d == dval acc + qsum (map dval l))%Q.
Proof.
  induction l as [|x l IH]; intros acc B C Ha HC Hl HB Hb.
  - exists acc. split; [done|]. unfold qsum. simpl. ring.
  - apply Forall_cons in Hl as [Hx Hl]. simpl length in Hb. simpl.
    destruct (dadd_grid B C acc x Ha Hx ltac:(nia)) as (d & -> & Hd & Hv). simpl.
    destruct (IH d (B + C) C Hd HC Hl ltac:(lia) ltac:(nia)) as (d' & -> & Hv'). exists d'. split; [done|].
    rewrite Hv', Hv. unfold qsum. simpl. ring.
Qed.

Lemma effect_total g x p : 0 <= g <= max_additions -> holds_sums g x p ->
  exists d, dec_sum (map snd (economic_effect_usd_by_type p)) = Ok d /\ (dval d == s_effect x)%Q.
Proof.
  intros Hg [_ _ _ _ _ [f6 H6] H7 [H8 H8'] _]. set (d := economic_effect_usd_by_type p) in *.
  pose proof grid_amount_pos.
  assert (length d <= 4)%nat as Hl.
  { rewrite <- (length_fmap fst d). apply (submseteq_length _ ECONOMIC_EFFECT_TYPES).
    by apply NoDup_submseteq. }
  destruct (dec_sum_spec (map snd d) d0 0 (g * grid_amount)) as (t & Ht & Hv).
  - apply on_grid_0.
  - nia.
  - apply Forall_forall. intros v ([k v'] & -> & Hin)%list_elem_of_fmap. simpl.
    destruct (H6 k) as [Hk _]. unfold amount_at in Hk. by rewrite (dict_get_In d k v' H8 Hin) in Hk.
  - lia.
  - rewrite length_fmap. change grid_amount with (10 ^ 22). change (10 ^ 28) with (1000000 * 10 ^ 22). unfold max_additions in Hg.
    assert (0 <= Z.of_nat (length d) <= 4) as Hd by lia. assert (g * Z.of_nat (length d) <= 960000) by nia. lia.
  - exists t. split; [done|]. rewrite Hv, <- H7, dval_0. unfold dict_total. rewrite map_map. ring.
Qed.

(** ** The counters and the gross notional *)

(** A cash flow without a dollar amount whose own amount is not zero. *)
Definition unvalued (f : fields) : bool :=
  str_in (event_type f) CASHFLOW_EVENT_TYPES &&
  none_of (amount_usd f) && negb (Qeq_bool (column_value (amount f)) 0).
Definition economic (f : fields) : bool := str_in (event_type f) ECONOMIC_EFFECT_TYPES.
(** A row that lacks its availability time or one of the hashes of its provenance. *)
Definition unproven (f : fields) : bool :=
  existsb (fun v => negb (nonempty (strip v))) [default "" (availability_time f); code_hash f; config_hash f; schema_hash f].
(** A fill with a price in a stable quote asset. *)
Definition priced_fill (f : fields) : bool :=
  is_fill f && negb (none_of (price f)) && str_in (amount_asset f) ["USDT"; "USDC"; "FDUSD"; "BUSD"; "USD"].

(** One row of the running notional: the product and the sum are each rounded to 28 digits. *)
Definition gross_step (f : fields) (g g' : dec) : Prop :=
  if priced_fill f then exists n, rounds (column_value (quantity f) * column_value (price f)) n /\ rounds (dval g + Qabs (dval n)) g'
  else g' = g.

Inductive gross_run : list row -> dec -> dec -> Prop :=
  | gross_none g : gross_run [] g g
  | gross_next r rows g g1 g' : gross_step (r_fields r) g g1 -> gross_run rows g1 g' -> gross_run (r :: rows) g g'.

(** What one row does to the counters, the notional and the dollar effects. *)
Record counts (f : fields) (p p' : EconomicLedgerProjection) : Prop := Counts {
  ct_events : event_count p' = event_count p;
  ct_fills : fill_count p' = fill_count p + Z.b2z (is_fill f);
  ct_gross : gross_step f (gross_fill_notional_usd p) (gross_fill_notional_usd p');
  ct_unvalued : unvalued_economic_event_count p' = unvalued_economic_event_count p + Z.b2z (unvalued f && economic f);
  ct_cashflow : unvalued_cashflow_event_count p' = unvalued_cashflow_event_count p + Z.b2z (unvalued f);
  ct_incomplete : incomplete_envelope_event_count p' = incomplete_envelope_event_count p + Z.b2z (unproven f);
  ct_effects : (forall t, dict_get (economic_effect_usd_by_type p) t = if str_in t ECONOMIC_EFFECT_TYPES then dict_get (cashflow_usd_by_type p) t else None) ->
    forall t, dict_get (economic_effect_usd_by_type p') t = if str_in t ECONOMIC_EFFECT_TYPES then dict_get (cashflow_usd_by_type p') t else None
}.

Lemma count_if_b2z b n : count_if b n = n + Z.b2z b.
Proof. destruct b; simpl; lia. Qed.

Lemma rounds_ext x y d : (x == y)%Q -> rounds x d -> rounds y d.
Proof. intros E [H1 H2]. split; [done|]. intros r Hr. rewrite <- E. by apply H2. Qed.

Lemma opt_decimal_column o a : opt_decimal o = Ok a -> match a with
  | Some d => exists s, o = Some s /\ text_decimal s = Ok d /\ column_value o = dval d
  | None => o = None end.
Proof.
  unfold opt_decimal, column_value. destruct o as [s|]; [|by intros [= <-]]. intros H. apply res_bind_Ok in H as (d & Hd & H).
  injection H as <-. exists s. by rewrite Hd.
Qed.

Lemma project_amount_same f a p p' : project_amount f a p = Ok p' -> exists b n,
  p' = Projection (event_count p) (fill_count p) b (spot_inventory_deltas p) (perpetual_position_deltas p) n
         (economic_effect_usd_by_type p) (cashflow_usd_by_type p) (total_economic_effect_usd p)
         (gross_fill_notional_usd p) (unvalued_economic_event_count p) (unvalued_cashflow_event_count p)
         (incomplete_envelope_event_count p).
Proof.
  unfold project_amount. destruct a as [a|]; [destruct (nonempty _)|]; intros H; [|destruct p; injection H as <-; by do 2 eexists..].
  apply res_bind_Ok in H as (b & _ & H). apply res_bind_Ok in H as (n & _ & H). injection H as <-. by do 2 eexists.
Qed.

Lemma notional_step q pr g g' : (let! n := dmul q pr in let! n := dabs n in dadd g n) = Ok g' ->
  exists n, rounds (dval q * dval pr) n /\ rounds (dval g + Qabs (dval n)) g'.
Proof.
  intros H. apply res_bind_Ok in H as (n & Hn & H). apply res_bind_Ok in H as (a & Ha & H). pose proof (dmul_rounds _ _ _ Hn) as Rn.
  rewrite (dabs_fits n (rounds_fits _ _ Rn)) in Ha. injection Ha as <-. exists n. split; [done|].
  eapply rounds_ext; [|by apply dadd_rounds]. assert (dval (Dec false (dcoeff n) (dexp n)) == Qabs (dval n))%Q as ->; [|reflexivity].
  by rewrite !Qabs_dval.
Qed.

Lemma project_fill_counts f p p' : project_fill f p = Ok p' ->
  (event_count p' = event_count p /\ fill_count p' = fill_count p + Z.b2z (is_fill f) /\
   gross_step f (gross_fill_notional_usd p) (gross_fill_notional_usd p') /\
   unvalued_economic_event_count p' = unvalued_economic_event_count p /\
   unvalued_cashflow_event_count p' = unvalued_cashflow_event_count p /\
   incomplete_envelope_event_count p' = incomplete_envelope_event_count p) /\
  economic_effect_usd_by_type p' = economic_effect_usd_by_type p /\ cashflow_usd_by_type p' = cashflow_usd_by_type p.
Proof.
  unfold project_fill, gross_step, priced_fill, is_fill. intros H. apply res_bind_Ok in H as (q & Hq & H). apply opt_decimal_column in Hq.
  destruct q as [q|]; [destruct Hq as (s & Es & Ht & _)|]; [|rewrite Hq, andb_false_r; injection H as <-; simpl; rewrite Z.add_0_r; done].
  rewrite Es in *. destruct (String.eqb (event_type f) "FILL"); [|injection H as <-; simpl; rewrite Z.add_0_r; done].
  do 3 (apply res_bind_Ok in H as (? & _ & H)). apply res_bind_Ok in H as (g & Hg & H). injection H as <-. simpl.
  split; [|done]. split; [done|]. split; [done|]. split; [|done]. rewrite Ht. change (str_in (amount_asset f) ["USDT"; "USDC"; "FDUSD"; "BUSD"; "USD"]) with (str_in (amount_asset f) STABLE_QUOTE_ASSETS).
  destruct (price f) as [text|]; simpl; [|by injection Hg as <-]. destruct (str_in _ _); [|by injection Hg as <-].
  apply res_bind_Ok in Hg as (pr & Hpr & Hg). rewrite Hpr. by apply notional_step.
Qed.

Lemma add_get d k v d' : add d k v = Ok d' -> k <> "" -> exists r, dadd (default d0 (dict_get d k)) v = Ok r /\ d' = dict_set d k r.
Proof.
  unfold add. intros H Hk. rewrite (proj2 (nonempty_true k) Hk) in H. apply res_bind_Ok in H as (r & Hr & H). injection H as <-. by exists r.
Qed.

Lemma project_usd_counts f a p p' : opt_decimal (amount f) = Ok a -> project_usd f a p = Ok p' ->
  event_count p' = event_count p /\ fill_count p' = fill_count p /\ gross_fill_notional_usd p' = gross_fill_notional_usd p /\
  unvalued_economic_event_count p' = unvalued_economic_event_count p + Z.b2z (unvalued f && economic f) /\
  unvalued_cashflow_event_count p' = unvalued_cashflow_event_count p + Z.b2z (unvalued f) /\
  incomplete_envelope_event_count p' = incomplete_envelope_event_count p /\
  ((forall t, dict_get (economic_effect_usd_by_type p) t = if str_in t ECONOMIC_EFFECT_TYPES then dict_get (cashflow_usd_by_type p) t else None) ->
    forall t, dict_get (economic_effect_usd_by_type p') t = if str_in t ECONOMIC_EFFECT_TYPES then dict_get (cashflow_usd_by_type p') t else None).
Proof.
  intros Ha%opt_decimal_column H.
  assert ((match a with Some a => negb (is_zero a) | None => false end) = negb (Qeq_bool (column_value (amount f)) 0)) as Ez.
  { destruct a as [a|]; [|by rewrite Ha]. destruct Ha as (s & _ & _ & ->). f_equal. apply eq_true_iff_eq.
    by rewrite is_zero_true, Qeq_bool_iff. }
  unfold project_usd in H. unfold unvalued, economic. rewrite <- Ez.
  set (c := str_in (event_type f) CASHFLOW_EVENT_TYPES) in *. set (e := str_in (event_type f) ECONOMIC_EFFECT_TYPES) in *.
  destruct (amount_usd f) as [text|]; [destruct c|].
  - apply res_bind_Ok in H as (u & _ & H). apply res_bind_Ok in H as (cd & Hc & H). apply res_bind_Ok in H as (ed & He & H).
    injection H as <-. simpl. rewrite !Z.add_0_r. do 6 (split; [done|]). intros Hinv t. subst e.
    destruct (str_in (event_type f) ECONOMIC_EFFECT_TYPES) eqn:Ee; [|injection He as <-].
    + destruct (add_get _ _ _ _ Hc (effect_type_nonempty _ Ee)) as (r1 & Hr1 & ->).
      destruct (add_get _ _ _ _ He (effect_type_nonempty _ Ee)) as (r2 & Hr2 & ->).
      rewrite (Hinv (event_type f)), Ee in Hr2. assert (r2 = r1) as -> by congruence. rewrite !dict_get_set.
      destruct (String.eqb_spec t (event_type f)) as [->|]; [by rewrite Ee|apply Hinv].
    + rewrite Hinv. destruct (str_in t ECONOMIC_EFFECT_TYPES) eqn:Et; [|done]. unfold add in Hc.
      destruct (nonempty (event_type f)); [|by injection Hc as <-]. apply res_bind_Ok in Hc as (r & _ & Hc). injection Hc as <-.
      rewrite dict_get_set. destruct (String.eqb_spec t (event_type f)) as [->|]; [congruence|done].
  - injection H as <-. simpl. rewrite !Z.add_0_r. done.
  - injection H as <-. simpl. rewrite !count_if_b2z, andb_true_r. done.
Qed.

Lemma incomplete_unproven f : incomplete f = unproven f.
Proof.
  unfold incomplete, unproven. generalize [default "" (availability_time f); code_hash f; config_hash f; schema_hash f].
  induction l as [|v l IH]; [done|]. simpl. rewrite negb_andb. by rewrite IH.
Qed.

Lemma project_row_counts p r p' : project_row p r = Ok p' -> counts (r_fields r) p p'.
Proof.
  unfold project_row. set (f := r_fields r). intros H. apply res_bind_Ok in H as (a & Ha & H).
  apply res_bind_Ok in H as (p1 & H1 & H). apply res_bind_Ok in H as (p2 & H2 & H3).
  apply project_amount_same in H1 as (b & n & ->). cbn in H2. apply project_fill_counts in H2 as ((F1 & F2 & F3 & F4 & F5 & F6) & F7 & F8).
  apply (project_usd_counts f a p2 p' Ha) in H3 as (U1 & U2 & U3 & U4 & U5 & U6 & U7). cbn in F1, F2, F3, F4, F5, F6, F7, F8.
  rewrite count_if_b2z, incomplete_unproven in F6. rewrite F7, F8 in U7.
  constructor; [congruence|congruence|by rewrite U3|congruence|congruence|congruence|done].
Qed.

Definition count (g : fields -> bool) (rows : list row) : Z := Z.of_nat (length (List.filter (fun r => g (r_fields r)) rows)).

Lemma count_cons g r rows : count g (r :: rows) = Z.b2z (g (r_fields r)) + count g rows.
Proof. unfold count. simpl. destruct (g (r_fields r)); simpl; lia. Qed.

(** The counters and the gross notional of a projection of these rows. *)
Definition counted_projection (rows : list row) (p : EconomicLedgerProjection) : Prop :=
  event_count p = Z.of_nat (length rows) /\
  fill_count p = count is_fill rows /\
  gross_run rows d0 (gross_fill_notional_usd p) /\
  unvalued_economic_event_count p = count (fun f => unvalued f && economic f) rows /\
  unvalued_cashflow_event_count p = count unvalued rows /\
  incomplete_envelope_event_count p = count unproven rows.

Lemma project_rows_counts rows : forall p p', res_fold project_row p rows = Ok p' ->
  (event_count p' = event_count p /\ fill_count p' = fill_count p + count is_fill rows /\
   gross_run rows (gross_fill_notional_usd p) (gross_fill_notional_usd p') /\
   unvalued_economic_event_count p' = unvalued_economic_event_count p + count (fun f => unvalued f && economic f) rows /\
   unvalued_cashflow_event_count p' = unvalued_cashflow_event_count p + count unvalued rows /\
   incomplete_envelope_event_count p' = incomplete_envelope_event_count p + count unproven rows) /\
  ((forall t, dict_get (economic_effect_usd_by_type p) t = if str_in t ECONOMIC_EFFECT_TYPES then dict_get (cashflow_usd_by_type p) t else None) ->
    forall t, dict_get (economic_effect_usd_by_type p') t = if str_in t ECONOMIC_EFFECT_TYPES then dict_get (cashflow_usd_by_type p') t else None).
Proof.
  induction rows as [|r rows IH]; simpl; intros p p' H.
  - injection H as <-. unfold count. simpl. rewrite !Z.add_0_r. split; [|done]. do 2 (split; [done|]). split; [constructor|done].
  - apply res_bind_Ok in H as (p1 & H1 & H). apply project_row_counts in H1 as [C1 C2 C3 C4 C5 C6 C7].
    destruct (IH _ _ H) as ((I1 & I2 & I3 & I4 & I5 & I6) & I7). rewrite !count_cons.
    split; [|auto]. split; [congruence|]. split; [lia|]. split; [by eapply gross_next|]. lia.
Qed.

(** What a projection of these rows must hold, in exact arithmetic. *)
Definition exact_projection (rows : list row) (p : EconomicLedgerProjection) : Prop :=
  let over (g : fields -> Q) := qsum (map (fun r => g (r_fields r)) rows) in
  counted_projection rows p /\
  (forall k, dval (amount_at (balance_deltas p) k) == over (fun f => balance_change f k))%Q /\
  (forall k, dval (amount_at (spot_inventory_deltas p) k) == over (fun f => spot_change f k))%Q /\
  (forall k, dval (amount_at (perpetual_position_deltas p) k) == over (fun f => position_change f k))%Q /\
  (forall t k, dval (amount_at (nested_at (amounts_by_type_and_asset p) t) k)
     == over (fun f => when (String.eqb t (event_type f)) (at_key (amount_asset f) (column_value (amount f)) k)))%Q /\
  (forall t, dval (amount_at (cashflow_usd_by_type p) t) == over (fun f => cash_change f t))%Q /\
  (forall t, dval (amount_at (economic_effect_usd_by_type p) t) == when (str_in t ECONOMIC_EFFECT_TYPES) (over (fun f => cash_change f t)))%Q /\
  (dval (total_economic_effect_usd p) == over effect_usd)%Q.

Lemma project_spec s q rows :
  read_economic_events s q None = Ok rows -> (forall r, r ∈ rows -> grid_row (r_fields r)) -> Z.of_nat (length rows) <= 80000 ->
  exists p, project_economic_ledger s q = Ok p /\ exact_projection rows p /\
    forall k, on_grid (max_additions * grid_amount) (amount_at (balance_deltas p) k).
Proof.
  intros Hread Hgrid Hn. unfold project_economic_ledger. rewrite Hread. cbn [res_bind].
  set (zero := Sums (fun _ => 0%Q) (fun _ => 0%Q) (fun _ => 0%Q) (fun _ _ => 0%Q) (fun _ => 0%Q) 0%Q).
  assert (holds_sums 0 zero (empty_projection (Z.of_nat (length rows)))) as H0.
  { constructor; simpl; try apply tracks_empty; try done.
    - eexists. apply tracks_empty.
    - split; [constructor|set_solver]. }
  destruct (project_rows_spec rows 0 zero _ ltac:(lia) ltac:(unfold max_additions; lia) H0 Hgrid) as (p & Hp & H).
  rewrite Hp. cbn [res_bind]. destruct (project_rows_counts _ _ _ Hp) as [Hc Hef]. simpl in Hc, Hef.
  specialize (Hef ltac:(intros u; by destruct (str_in u _))).
  destruct (effect_total (0 + 3 * Z.of_nat (length rows)) _ p ltac:(unfold max_additions; lia) H) as (t & Ht & Hv). rewrite Ht. cbn [res_bind].
  eexists. split; [done|]. destruct H as [H1 H2 H3 H4 H5 _ _ _ _]. simpl in *.
  split; [|intros k; eapply on_grid_mono; [apply H1|]; pose proof grid_amount_pos; unfold max_additions; nia].
  split; [exact Hc|]. split; [intros k; rewrite (proj2 (H1 k)); simpl; ring|].
  split; [intros k; rewrite (proj2 (H2 k)); simpl; ring|]. split; [intros k; rewrite (proj2 (H3 k)); simpl; ring|].
  split; [intros u k; rewrite (proj2 (H4 u k)); simpl; ring|]. split; [intros k; rewrite (proj2 (H5 k)); simpl; ring|]. split.
  { intros u. unfold amount_at. rewrite Hef. destruct (str_in u _); [|by rewrite dval_0].
    fold (amount_at (cashflow_usd_by_type p) u). rewrite (proj2 (H5 u)). simpl. ring. }
  simpl. rewrite Hv. simpl. ring.
Qed.

(** C36: replaying up to 80,000 rows whose quantities, prices and amounts are multiples of 10^-12 up to
    10^10 in size (what [grid_row] says) succeeds. Every balance, inventory, position, amount by type, cash flow and
    income figure is the exact sum over the rows of the query; every counter counts the rows it
    names; and the gross notional is the running sum of |quantity times price| over the fills priced in a
    stable asset, each product and each partial sum rounded to 28 digits. *)
Theorem projection_is_exact s q rows :
  read_economic_events s q None = Ok rows -> (forall r, r ∈ rows -> grid_row (r_fields r)) -> Z.of_nat (length rows) <= 80000 ->
  exists p, project_economic_ledger s q = Ok p /\ exact_projection rows p.
Proof. intros H1 H2 H3. destruct (project_spec s q rows H1 H2 H3) as (p & Hp & He & _). by exists p. Qed.

(** ** Reconciliation *)

Lemma on_grid_fits b d : on_grid b d -> b < 10 ^ 28 -> fits d.
Proof.
  intros [H1 H2] Hb. unfold zscaled, grid_exp in *. assert (1 <= 10 ^ (dexp d - -12)) as Hp by
    (change 1 with (10 ^ 0); apply Z.pow_le_mono_r; lia).
  assert (Z.of_N (dcoeff d) <= b) as Hc.
  { replace (Z.of_N (dcoeff d)) with (Z.abs (zsigned d)) by (unfold zsigned; destruct (dneg d); lia). rewrite Z.abs_mul in H2. nia. }
  assert (ndigits (dcoeff d) <= 28) as Hn by (apply ndigits_le; lia).
  split; [done|]. split; [unfold Etiny, Emin, prec; lia|]. destruct (_ =? _)%N; [unfold Emax; lia|]. unfold adjusted, Emax. lia.
Qed.

(** The assets the loop goes through. *)
Definition all_assets (opening actual deltas : dict dec) : list string :=
  sort_strings (dedupe (dict_keys opening ++ dict_keys actual ++ dict_keys deltas)).

Lemma elem_of_all_assets o a d x : x ∈ all_assets o a d <-> x ∈ dict_keys o \/ x ∈ dict_keys a \/ x ∈ dict_keys d.
Proof. unfold all_assets. rewrite sort_strings_perm, elem_of_dedupe. set_solver. Qed.

(** The projected change of an asset, when it is known. *)
Definition known_delta (p : EconomicLedgerProjection) (q : query) (asset : string) : bool :=
  negb (none_of (dict_get (balance_deltas p) asset)) || (event_count p =? 0) && negb (none_of (q_start_time q)).

(** An asset is explained: every component is known, and the exchange balance differs from the
    opening balance plus the projected change by at most the tolerance. *)
Definition explained (p : EconomicLedgerProjection) (q : query) (opening actual tol : dict dec) (asset : string) : Prop :=
  exists o x t, dict_get opening asset = Some o /\ dict_get actual asset = Some x /\ dict_get tol asset = Some t /\
    known_delta p q asset = true /\
    (Qabs (dval x - (dval o + dval (amount_at (balance_deltas p) asset))) <= dval t)%Q.

Definition grid_dict (G : Z) (d : dict dec) : Prop := forall k v, (k, v) ∈ d -> on_grid G v.

Lemma missing_nil p q (opening actual tol : dict dec) asset :
  reason_if (none_of (dict_get opening asset)) "opening_balance"
    ++ reason_if (none_of (dict_get (balance_deltas p) asset) && negb ((event_count p =? 0) && negb (none_of (q_start_time q)))) "projected_delta"
    ++ reason_if (none_of (dict_get actual asset)) "exchange_balance"
    ++ reason_if (none_of (dict_get tol asset)) "tolerance" = [] <->
  (is_Some (dict_get opening asset) /\ is_Some (dict_get actual asset) /\ is_Some (dict_get tol asset) /\ known_delta p q asset = true).
Proof.
  unfold known_delta. destruct (dict_get opening asset), (dict_get actual asset), (dict_get tol asset),
    (dict_get (balance_deltas p) asset); simpl; try destruct ((event_count p =? 0) && _); simpl;
    split; intros H; try discriminate H; try (destruct H as ([? ?] & [? ?] & [? ?] & ?); discriminate); eauto 10.
Qed.

(** One asset on the grid: the line is complete and flags exactly the unexplained difference. *)
Lemma reconcile_asset_spec B G p q opening actual tol asset : B + G < 10 ^ 28 -> G + (G + B) < 10 ^ 28 ->
  (forall k, on_grid B (amount_at (balance_deltas p) k)) -> grid_dict G opening -> grid_dict G actual ->
  exists l, reconcile_asset ((event_count p =? 0) && negb (none_of (q_start_time q))) opening actual tol (balance_deltas p) asset = Ok l /\
    l_asset l = asset /\ (has_missing l = false /\ l_unexplained l = false <-> explained p q opening actual tol asset).
Proof.
  intros B1 B2 Hd Ho Ha. unfold reconcile_asset. set (anch := (event_count p =? 0) && _).
  pose proof (missing_nil p q opening actual tol asset) as Hm. fold anch in Hm.
  set (delta := match dict_get (balance_deltas p) asset with None => if anch then Some d0 else None | Some d => Some d end).
  assert (forall v, delta = Some v -> on_grid B v /\ dval v = dval (amount_at (balance_deltas p) asset)) as Hv.
  { unfold delta. intros v. specialize (Hd asset). unfold amount_at in *. destruct (dict_get (balance_deltas p) asset);
      [intros [= <-]; split; [exact Hd|reflexivity]|].
    destruct anch; [|discriminate]. intros [= <-]. split; [exact Hd|reflexivity]. }
  assert (known_delta p q asset = true <-> is_Some delta) as Hk.
  { clear. unfold delta, known_delta. fold anch. destruct (dict_get (balance_deltas p) asset), anch; simpl; split; intros H;
      first [discriminate | reflexivity | by eexists | by destruct H]. }
  clearbody delta. assert (exists e, opt_dec2 dadd (dict_get opening asset) delta = Ok e /\
    (forall ev, e = Some ev -> on_grid (G + B) ev) /\
    forall o v, dict_get opening asset = Some o -> delta = Some v -> exists ev, e = Some ev /\ (dval ev == dval o + dval v)%Q)
    as (e & -> & Ge & He).
  { destruct (dict_get opening asset) as [o|] eqn:Eo, delta as [v|]; try (by exists None).
    destruct (Hv v eq_refl) as [Gv _].
    destruct (dadd_grid G B o v (Ho _ _ (dict_get_elem _ _ _ Eo)) Gv ltac:(lia)) as (ev & Hev & Ge & E).
    simpl. rewrite Hev. exists (Some ev). split; [done|]. split; [by intros ? [= <-]|].
    intros o' v' [= <-] [= <-]. by exists ev. }
  cbn [res_bind]. assert (exists d, opt_dec2 dsub (dict_get actual asset) e = Ok d /\ (forall dv, d = Some dv -> fits dv) /\
    forall x ev, dict_get actual asset = Some x -> e = Some ev -> exists dv, d = Some dv /\ (dval dv == dval x - dval ev)%Q)
    as (d & -> & Fd & Hdv).
  { destruct (dict_get actual asset) as [x|] eqn:Ea, e as [ev|]; try (by exists None).
    destruct (dsub_grid G (G + B) x ev (Ha _ _ (dict_get_elem _ _ _ Ea)) (Ge ev eq_refl) B2) as (dv & Hdv & Gd & E).
    simpl. rewrite Hdv. exists (Some dv). split; [done|]. split; [intros ? [= <-]; by eapply on_grid_fits|].
    intros x' ev' [= <-] [= <-]. by exists dv. }
  cbn [res_bind]. set (missing := reason_if (none_of (dict_get opening asset)) _ ++ _) in *. clearbody missing.
  assert (exists u, match missing, d, dict_get tol asset with
    | [], Some d, Some t => let! a := dabs d in Ok (dgt a t) | _, _, _ => Ok false end = Ok u /\
    forall dv t, missing = [] -> d = Some dv -> dict_get tol asset = Some t -> (u = false <-> (Qabs (dval dv) <= dval t)%Q))
    as (u & -> & Hu).
  { destruct missing as [|]; [|by exists false]. destruct d as [dv|], (dict_get tol asset) as [t|]; try (by exists false).
    rewrite (dabs_fits dv (Fd dv eq_refl)). simpl. eexists. split; [done|]. intros ? ? _ [= <-] [= <-].
    assert (dval (Dec false (dcoeff dv) (dexp dv)) == Qabs (dval dv))%Q as E by (rewrite Qabs_dval; reflexivity).
    unfold dgt. by rewrite dlt_false, E. }
  cbn [res_bind]. eexists. split; [done|]. split; [done|]. cbn [l_unexplained]. unfold has_missing. cbn [l_missing].
  assert ((match missing with [] => false | _ => true end) = false <-> missing = []) as Hmi by (by destruct missing).
  rewrite Hmi. split.
  - intros [Hmn Hun]. pose proof (proj1 Hm Hmn) as ([o Eo] & [x Ex] & [t Et] & Hkn). pose proof (proj1 Hk Hkn) as [v Edl].
    destruct (He o v Eo Edl) as (ev & -> & E1). destruct (Hdv x ev Ex eq_refl) as (dv & -> & E2).
    exists o, x, t. split; [done|]. split; [done|]. split; [done|]. split; [done|].
    apply (Hu dv t Hmn eq_refl Et) in Hun. rewrite <- (proj2 (Hv v Edl)), <- E1, <- E2. done.
  - intros (o & x & t & Eo & Ex & Et & Hkn & Hle). assert (missing = []) as Hmn by (apply Hm; eauto 10).
    split; [done|]. pose proof (proj1 Hk Hkn) as [v Edl].
    destruct (He o v Eo Edl) as (ev & -> & E1). destruct (Hdv x ev Ex eq_refl) as (dv & -> & E2).
    apply (Hu dv t Hmn eq_refl Et). by rewrite E2, E1, (proj2 (Hv v Edl)).
Qed.

Lemma lines_spec p q o a t assets : (forall k, on_grid (max_additions * grid_amount) (amount_at (balance_deltas p) k)) ->
  grid_dict grid_amount o -> grid_dict grid_amount a ->
  exists lines, res_map_list (reconcile_asset ((event_count p =? 0) && negb (none_of (q_start_time q))) o a t (balance_deltas p)) assets
    = Ok lines /\
  (map l_asset (List.filter l_unexplained lines) = [] /\ List.filter has_missing lines = [] <->
   forall x, x ∈ assets -> explained p q o a t x).
Proof.
  intros Hd Ho Ha. assert (max_additions * grid_amount + grid_amount < 10 ^ 28) as B1 by (apply Z.ltb_lt; vm_compute; reflexivity).
  assert (grid_amount + (grid_amount + max_additions * grid_amount) < 10 ^ 28) as B2 by (apply Z.ltb_lt; vm_compute; reflexivity).
  pose proof (fun x => reconcile_asset_spec _ grid_amount p q o a t x B1 B2 Hd Ho Ha) as Hl. clear B1 B2 Hd Ho Ha.
  induction assets as [|x assets (lines & IH1 & IH2)]; [exists []; split; [done|]; split; [set_solver|done]|].
  destruct (Hl x) as (l & Hx & _ & He). exists (l :: lines). cbn [res_map_list]. rewrite Hx. cbn [res_bind]. rewrite IH1. split; [done|].
  cbn [List.filter]. split.
  - intros [H1 H2]. destruct (l_unexplained l) eqn:E1; [done|]. destruct (has_missing l) eqn:E2; [done|].
    intros y [->|Hy]%elem_of_cons; [by apply He|by apply IH2].
  - intros H. destruct (proj2 He (H x ltac:(set_solver))) as [-> ->]. apply IH2. set_solver.
Qed.

(** C25: for up to 80,000 rows whose amounts, and for opening and exchange balances that, are multiples of
    10^-12 up to 10^10 in size ([grid_row], [grid_dict]), the reconciliation succeeds, and it is matched
    exactly when there is an asset and for every asset of the opening balances, the exchange
    snapshot or the ledger all components are known and the exchange balance differs from the
    opening balance plus the exact sum of the ledger by at most the tolerance. Outside these bounds the sums may be rounded. *)
Theorem matched_means_explained s exchange opening tolerances q rows o a t :
  read_economic_events s q None = Ok rows -> (forall r, r ∈ rows -> grid_row (r_fields r)) -> Z.of_nat (length rows) <= 80000 ->
  decimal_map "opening balance" opening = Ok o -> decimal_map "exchange balance" exchange = Ok a -> tolerance_map tolerances = Ok t ->
  grid_dict grid_amount o -> grid_dict grid_amount a ->
  exists r, reconcile_economic_ledger s exchange opening tolerances q = Ok r /\ exact_projection rows (projection r) /\
    (matched r = true <->
       all_assets o a (balance_deltas (projection r)) <> [] /\
       forall x, x ∈ all_assets o a (balance_deltas (projection r)) -> explained (projection r) q o a t x).
Proof.
  intros Hread Hgrid Hn Ho Ha Ht Go Ga. destruct (project_spec s q rows Hread Hgrid Hn) as (p & Hp & He & Hg).
  unfold reconcile_economic_ledger. rewrite Hp, Ho, Ha, Ht. cbn [res_bind]. fold (all_assets o a (balance_deltas p)).
  destruct (lines_spec p q o a t (all_assets o a (balance_deltas p)) Hg Go Ga) as (lines & Hl & Hiff).
  rewrite Hl. cbn [res_bind]. eexists. split; [done|]. cbn [projection matched]. split; [done|]. rewrite <- Hiff.
  destruct (all_assets o a (balance_deltas p)); [split; [done|by intros []]|].
  destruct (map l_asset (List.filter l_unexplained lines)), (List.filter has_missing lines); split; intros H;
    try done; by destruct H as (_ & H1 & H2).
Qed.

Lemma read_subset s q rows r : read_economic_events s q None = Ok rows -> r ∈ rows -> r ∈ s.
Proof.
  unfold read_economic_events. intros H Hr. apply res_bind_Ok in H as (cond & _ & H). injection H as <-.
  by apply elem_of_sort_by, elem_of_filter_bool in Hr as [Hr _].
Qed.

(** ** Concrete runs *)

Lemma ex_projection_grid : forall r, r ∈ ex_table -> grid_row (r_fields r).
Proof.
  assert (forallb (fun r => forallb (fun o => match o with
    | Some s => match text_decimal s with
                | Ok d => (grid_exp <=? dexp d) && (dexp d <=? 2) && (Z.abs (zscaled d grid_exp) <=? grid_amount)
                | Err _ => false end
    | None => true end) [quantity (r_fields r); price (r_fields r); amount (r_fields r); amount_usd (r_fields r)]) ex_table = true)
    as H by (vm_compute; reflexivity).
  intros r Hr o s Ho ->. rewrite forallb_forall in H. specialize (H r (proj1 (list_elem_of_In _ _) Hr)).
  rewrite forallb_forall in H. specialize (H _ (proj1 (list_elem_of_In _ _) Ho)). simpl in H.
  destruct (text_decimal s) as [d|]; [|done]. exists d. split; [done|]. bool_props. by repeat split.
Qed.

Definition ex_rows : list row := match read_economic_events ex_table no_filter None with Ok l => l | Err _ => [] end.

Lemma ex_rows_grid : forall r, r ∈ ex_rows -> grid_row (r_fields r).
Proof.
  intros r Hr. apply ex_projection_grid. unfold ex_rows in Hr.
  destruct (read_economic_events ex_table no_filter None) as [rows|] eqn:E; [|set_solver].
  by eapply read_subset.
Qed.

Lemma projection_is_exact_witness : exists p, project_economic_ledger ex_table no_filter = Ok p /\ exact_projection ex_rows p.
Proof.
  apply (projection_is_exact ex_table no_filter ex_rows); [vm_compute; reflexivity|exact ex_rows_grid|vm_compute; discriminate].
Defined.

Lemma matched_means_explained_witness : exists r,
  reconcile_economic_ledger ex_table [("usdt", VStr "78989.5"); ("btc", VStr "0.5")] [("USDT", VInt 100000); ("BTC", VInt 0)]
    [("USDT", VStr "0.01"); ("BTC", VInt 0)] no_filter = Ok r /\ exact_projection ex_rows (projection r) /\
  (matched r = true <->
     all_assets [("USDT", Dec false 100000 0); ("BTC", d0)] [("USDT", Dec false 789895 (-1)); ("BTC", Dec false 5 (-1))]
       (balance_deltas (projection r)) <> [] /\
     forall x, x ∈ all_assets [("USDT", Dec false 100000 0); ("BTC", d0)] [("USDT", Dec false 789895 (-1)); ("BTC", Dec false 5 (-1))]
       (balance_deltas (projection r)) ->
       explained (projection r) no_filter [("USDT", Dec false 100000 0); ("BTC", d0)]
         [("USDT", Dec false 789895 (-1)); ("BTC", Dec false 5 (-1))] [("USDT", Dec false 1 (-2)); ("BTC", d0)] x).
Proof.
  apply (matched_means_explained ex_table _ _ _ no_filter ex_rows);
    [vm_compute; reflexivity|exact ex_rows_grid|vm_compute; discriminate|vm_compute; reflexivity..| |];
    (intros k v [E|[E|E]%elem_of_cons]%elem_of_cons; [injection E as -> ->|injection E as -> ->|set_solver]);
    split; vm_compute; (split; discriminate) || discriminate.
Defined.
