(* ===== verification/EconomicBuilderFacts.v ===== *)
(** * What the builders of the economic ledger build is accepted

    The events of [build_fill_events] pass the normalization of the ledger, whatever the
    notation and the size of the amounts. *)
From Stdlib Require Import ZArith Lia QArith Qabs Lqa Ascii.
From stdpp Require Import base list strings sets.
From S2P Require Import Prelude PyDecimal PyDecimalFacts PyDecimalPlain PyTime PyValue PyCalendar PyCalendarFacts.
From S2P Require Import EconomicLedger EconomicLedgerFacts.
Open Scope Z_scope.

(** ** Texts *)

Lemma require_text_upper v name s : _require_text upper v name = Ok s -> s = upper (strip v) /\ nonempty s = true.
Proof. unfold _require_text. destruct (nonempty (strip v)) eqn:E; [|done]. intros [= <-]. by rewrite upper_nonempty. Qed.

(** A required upper-case text is its own normal form. *)
Lemma optional_of_required v name s : _require_text upper v name = Ok s -> _optional_text upper s = s.
Proof.
  intros [-> _]%require_text_upper. unfold _optional_text. by rewrite strip_upper, strip_idem, upper_idem.
Qed.

(** ** Hashes of flat dictionaries *)

Definition plain_json (v : pyval) : bool := match v with VInt _ | VStr _ | VNone => true | _ => false end.

Lemma json_dict enc nan item key dflt d :
  json_dumps_with enc nan item key dflt (VDict d) =
    let! parts := res_map_list (fun kv => let! s := snd kv in Ok (json_quote enc (fst kv) +:+ key +:+ s))
      (sort_by key_leb (map (fun kv => (fst kv, json_dumps_with enc nan item key dflt (snd kv))) d)) in
    Ok ("{" +:+ str_join item parts +:+ "}").
Proof. reflexivity. Qed.

Lemma json_flat_total d : forallb (fun kv => plain_json (snd kv)) d = true -> exists s, json_sha256 false (VDict d) = Ok s.
Proof.
  intros H. unfold json_sha256, json_dumps. rewrite json_dict.
  match goal with |- context [res_map_list ?f ?l] => destruct (res_map_list_total f l) as [ys ->]; [|by eexists] end.
  intros [k r] Hin. rewrite elem_of_sort_by in Hin. apply list_elem_of_fmap in Hin as ([k' v] & [= -> ->] & Hin).
  rewrite forallb_forall in H. specialize (H _ (proj1 (list_elem_of_In _ _) Hin)). simpl in *. destruct v; try done; by eexists.
Qed.

Lemma identity_hash_total f : exists s, json_sha256 false (identity_payload f) = Ok s.
Proof. unfold identity_payload. destruct (identity f). by apply json_flat_total. Qed.

Lemma content_hash_total f : exists s, json_sha256 false (economic_content f) = Ok s.
Proof.
  apply json_flat_total. simpl. by destruct (quantity f), (price f), (amount f), (amount_usd f).
Qed.

(** ** Amounts *)

(** A number whose value is representable. *)
Definition representable (x : dec) : Prop := dec_in_range x = true /\ exists m, fits m /\ (dval x == dval m)%Q.

Lemma fits_representable x : fits x -> representable x.
Proof. intros H. split; [by apply fits_in_range|]. by exists x. Qed.

Lemma decimal_representable v name d : _decimal v name = Ok d -> representable d.
Proof.
  unfold _decimal. intros H. apply res_bind_Ok in H as ([s|] & Hs & H); [|done].
  destruct (canonical_inv _ _ _ _ Hs) as (p & n & _ & Hn & -> & _). pose proof Hn as (Hf & _).
  rewrite text_decimal_plain in H by done. injection H as <-. split; [by apply plain_value_range|].
  exists n. split; [done|]. apply dval_plain_value.
Qed.

Lemma representable_opp x y : representable x -> dopp x = Ok y -> representable y /\ (dval y == - dval x)%Q.
Proof.
  intros [_ (m & Hm & E)] H. destruct (dopp_representable x m Hm E) as (r & Hr & Hv & Hf).
  rewrite Hr in H. injection H as <-. split; [by apply fits_representable|done].
Qed.

Lemma representable_opp_total x : representable x -> exists y, dopp x = Ok y.
Proof. intros [_ (m & Hm & E)]. destruct (dopp_representable x m Hm E) as (r & Hr & _). by exists r. Qed.

(** A representable amount is stored without loss. *)
Lemma canonical_representable x name req : representable x -> exists s d,
  _canonical_decimal (VDec x) name req = Ok (Some s) /\ text_decimal s = Ok d /\ (dval d == dval x)%Q /\ text_or_0 (Some s) = Ok d.
Proof.
  intros [Hr (m & Hm & E)]. pose proof (finite_decimal_VDec LedgerValidationError false x name Hr) as Hp.
  rewrite (canonical_eq _ _ _ _ Hp). destruct (N.eqb_spec (dcoeff x) 0) as [Hz|Hz].
  - exists "0", d0. split; [done|]. split; [by vm_compute|]. split; [|by vm_compute].
    rewrite dval_0. symmetry. by apply dval_zero.
  - assert (dcoeff m <> 0%N) as Hm0 by (intros Ez; apply Hz, dval_zero; rewrite E; by apply dval_zero).
    destruct (dfix_representable x m Hm Hm0 E) as (r & Hr' & Hv).
    assert (exists n, dnormalize x = Ok n) as [n Hn].
    { unfold dnormalize. rewrite Hr'. simpl. destruct (_ =? _)%N; [by eexists|]. destruct (strip_zeros _ _ _ _). by eexists. }
    rewrite Hn. destruct (dnormalize_spec x n Hn) as ((Hf & _) & _ & Hround).
    pose proof (text_decimal_plain n Hf) as Ht. exists (dec_plain n), (plain_value n).
    split; [done|]. split; [done|]. split.
    + rewrite dval_plain_value. eapply rounds_exact; [exact Hround|exact Hm|done].
    + unfold text_or_0. destruct (dec_plain n) as [|c s] eqn:Es; [by vm_compute in Ht|]. exact Ht.
Qed.

(** ** Envelopes *)

Definition given (s : string) : bool := nonempty (strip s).

(** What the shared fields of a batch need: the scope, a time not after the availability, an
    identity and serializable evidence. *)
Record envelope_ok (c : envelope) : Prop := EnvelopeOk {
  eo_account : given (e_account_id c) = true;
  eo_mode : given (e_trading_mode c) = true;
  eo_venue : given (e_venue c) = true;
  eo_strategy : given (e_strategy_id c) = true;
  eo_identity : given (e_exchange_fill_id c) || given (e_source_event_id c) = true;
  eo_times : exists te, query_instant (e_event_time c) = Ok te /\
    (given (e_availability_time c) = true -> exists ta, query_instant (e_availability_time c) = Ok ta /\ te <= ta);
  eo_metadata : is_ok (json_dumps_strict (VDict (e_metadata c))) = true;
  eo_payload : match e_raw_payload c with Some d => is_ok (json_dumps_strict (VDict d)) = true | None => True end
}.

Lemma query_canonical x name t : query_instant x = Ok t -> _canonical_time x name = Ok (isoformat t) /\ in_range t = true.
Proof.
  unfold query_instant, _canonical_time. intros H. apply res_bind_Ok in H as (p & -> & H). simpl. rewrite H.
  split; [done|]. by eapply to_utc_range.
Qed.

Lemma canonical_json_Ok (d : dict pyval) : is_ok (json_dumps_strict (VDict d)) = true -> exists s, _canonical_json (Some d) = Ok (Some s).
Proof. intros [s Hs]%is_ok_spec. unfold _canonical_json. rewrite Hs. by exists s. Qed.

Lemma require_Ok f v name : given v = true -> _require_text f v name = Ok (f (strip v)).
Proof. unfold given, _require_text. by intros ->. Qed.

Lemma lower_nonempty s : nonempty (lower s) = nonempty s.
Proof. by destruct s. Qed.

(** The fields of an accepted event that the checks read. *)
Record fields_of (e : EconomicLedgerEvent) (t : string) (q p a u : option string) (f : fields) : Prop := FieldsOf {
  fo_type : event_type f = t;
  fo_quantity : quantity f = q;
  fo_price : price f = p;
  fo_amount : amount f = a;
  fo_usd : amount_usd f = u;
  fo_symbol : nonempty (symbol f) = given (e_symbol (e_common e));
  fo_instrument : instrument_type f = _optional_text upper (e_instrument_type e);
  fo_side : side f = _optional_text upper (e_side e);
  fo_quantity_asset : quantity_asset f = _optional_text upper (e_quantity_asset e);
  fo_amount_asset : amount_asset f = _optional_text upper (e_amount_asset e);
  fo_identity : check_identity f = Ok tt
}.

Lemma normalized_fields_Ok e t q p a u : envelope_ok (e_common e) ->
  _canonical_decimal (e_quantity e) "quantity" false = Ok q -> _canonical_decimal (e_price e) "price" false = Ok p ->
  _canonical_decimal (e_amount e) "amount" false = Ok a -> _canonical_decimal (e_amount_usd e) "amount_usd" false = Ok u ->
  exists f, normalized_fields e t = Ok f /\ fields_of e t q p a u f.
Proof.
  intros [H1 H2 H3 H4 H6 (te & Hte & Hta) H7 H8] Hq Hp Ha Hu. set (c := e_common e) in *.
  destruct (query_canonical _ "event_time" _ Hte) as [Hct Rte].
  destruct (canonical_json_Ok _ H7) as [md Hmd].
  assert (exists rp, _canonical_json (e_raw_payload c) = Ok rp) as [rp Hrp].
  { destruct (e_raw_payload c) as [d|]; [|by eexists]. destruct (canonical_json_Ok _ H8) as [s Hs]. by exists (Some s). }
  assert (exists av, (if nonempty (strip (e_availability_time c))
                      then let! t := _canonical_time (e_availability_time c) "availability_time" in Ok (Some t)
                      else Ok None) = Ok av /\
    match av with None => True | Some s => exists ta, in_range ta = true /\ s = isoformat ta /\ te <= ta end) as (av & Hav & Hle).
  { unfold given in Hta. destruct (nonempty (strip (e_availability_time c))); [|by exists None].
    destruct (Hta eq_refl) as (ta & Hq' & Hle). destruct (query_canonical _ "availability_time" _ Hq') as [-> Rta].
    eexists. split; [done|]. by exists ta. }
  unfold normalized_fields. cbv zeta. fold c. rewrite !require_Ok by done. cbn [res_bind]. rewrite Hct. cbn [res_bind].
  rewrite Hav. cbn [res_bind]. 
  rewrite Hq; cbn [res_bind]; rewrite Hp; cbn [res_bind]; rewrite Ha; cbn [res_bind]; rewrite Hu; cbn [res_bind];
    rewrite Hmd; cbn [res_bind]; rewrite Hrp; cbn [res_bind].
  eexists. split; [done|]. constructor; simpl; try done.
  - unfold _optional_text, given. by rewrite upper_nonempty.
  - unfold check_identity. simpl. unfold _optional_text, same, given in *.
    assert (nonempty (strip (e_exchange_fill_id c)) || nonempty (strip (e_exchange_event_id c)) || nonempty (strip (e_source_event_id c)) = true)
      as -> by (destruct (nonempty (strip (e_exchange_fill_id c))), (nonempty (strip (e_exchange_event_id c))); done).
    rewrite H6, andb_false_r. simpl. destruct av as [s|]; [|done]. destruct Hle as (ta & Rta & -> & Hle).
    rewrite !instant_isoformat by done. simpl. by rewrite (proj2 (Z.ltb_ge ta te)) by done.
Qed.

Lemma normalize_Ok e t f now : checked_type e = Ok t -> normalized_fields e t = Ok f -> check_event f = Ok tt ->
  exists r, _normalize_event e now = Ok r.
Proof.
  intros Ht Hf Hc. unfold _normalize_event. rewrite Ht. cbn [res_bind]. rewrite Hf. cbn [res_bind]. rewrite Hc. cbn [res_bind].
  destruct (identity_hash_total f) as [k ->]. cbn [res_bind]. destruct (content_hash_total f) as [h ->]. by eexists.
Qed.

(** ** The legs of a fill *)

Lemma positive_neq0 d : (0 < dval d)%Q -> is_zero d = false.
Proof. intros H. apply is_zero_false. lra. Qed.

Lemma is_zero_coeff d : is_zero d = false -> dcoeff d <> 0%N.
Proof. rewrite is_zero_false. intros H E. by apply H, dval_zero. Qed.

Lemma positive_iff d b : ((0 < dval d)%Q <-> b = true) -> positive d = b.
Proof. rewrite <- positive_true. destruct (positive d), b; intros [H1 H2]; auto. by symmetry; apply H1. Qed.

Lemma reject_false m : reject_if false m = Ok tt.
Proof. done. Qed.

(** A fill whose stored amounts have the right values passes its checks. *)
Lemma check_fill_complete e q p a u f sq sp dq dp : fields_of e "FILL" (Some q) (Some p) a u f -> given (e_symbol (e_common e)) = true ->
  instrument_type f = "SPOT" \/ instrument_type f = "PERPETUAL" -> side f = "BUY" \/ side f = "SELL" ->
  nonempty (quantity_asset f) = true -> nonempty (amount_asset f) = true ->
  text_or_0 (Some q) = Ok dq -> text_or_0 (Some p) = Ok dp -> (dval dq == dval sq)%Q -> (dval dp == dval sp)%Q ->
  (0 < dval sp)%Q -> ~ (dval sq == 0)%Q -> ((0 < dval sq)%Q <-> side f = "BUY") ->
  (if String.eqb (instrument_type f) "SPOT" then
     exists s d m, a = Some s /\ text_decimal s = Ok d /\ dmul sq sp = Ok m /\ (dval d == - dval m)%Q
   else a = None) ->
  check_fill f = Ok tt.
Proof.
  intros [Ft Fq Fp Fa Fu Fs Fi Fsd Fqa Faa Fid] Hsym Hi Hs Hqa Haa Hdq Hdp Eq Ep Hp0 Hq0 Hsign Hamt.
  unfold check_fill. rewrite Fs, Hsym, Hqa, Haa. cbn [negb].
  rewrite (proj2 (str_in_2 _ _ _) Hi), (proj2 (str_in_2 _ _ _) Hs). cbn [negb]. rewrite !reject_false. cbn [res_bind].
  rewrite Fq, Fp, Hdq, Hdp. cbn [res_bind].
  assert (is_zero dq = false) as Zq by (apply is_zero_false; by rewrite Eq).
  assert (dle dp d0 = false) as Zp by (apply dle_0_false; by rewrite Ep).
  rewrite Zq, Zp. cbn [orb]. rewrite reject_false. cbn [res_bind].
  assert (positive dq = String.eqb (side f) "BUY") as ->.
  { apply positive_iff. rewrite Eq, Hsign. symmetry. apply String.eqb_eq. }
  rewrite eqb_reflx. cbn [negb]. rewrite reject_false. cbn [res_bind].
  unfold check_fill_amount. rewrite Fa. destruct (String.eqb (instrument_type f) "SPOT"); [|by rewrite Hamt].
  destruct Hamt as (s & d & m & -> & Hd & Hm & Ed). rewrite Hd. cbn [res_bind].
  assert (dcoeff sq <> 0%N) as Cq by (by apply is_zero_coeff, is_zero_false).
  assert (dcoeff sp <> 0%N) as Cp by (by apply is_zero_coeff, positive_neq0).
  pose proof (dmul_same sq sp dq dp ltac:(by symmetry) ltac:(by symmetry) Cq Cp) as Hsame. rewrite Hm in Hsame.
  destruct (dmul dq dp) as [m'|] eqn:Hm'; [|done]. destruct Hsame as [Em _]. cbn [res_bind].
  destruct (dopp_fits m' (rounds_fits _ _ (dmul_rounds _ _ _ Hm'))) as (x & -> & Ex & _). cbn [res_bind].
  assert (deqb d x = true) as ->; [|done]. apply deqb_spec. by rewrite Ed, Ex, Em.
Qed.

Lemma event_fill_Ok c instrument sd sq qa sp dl quote now : envelope_ok c -> given (e_symbol c) = true ->
  instrument = "SPOT" \/ instrument = "PERPETUAL" -> sd = "BUY" \/ sd = "SELL" -> given qa = true ->
  _optional_text upper quote = quote -> nonempty quote = true -> representable sq -> representable sp ->
  (0 < dval sp)%Q -> ~ (dval sq == 0)%Q -> ((0 < dval sq)%Q <-> sd = "BUY") ->
  (if String.eqb instrument "SPOT" then exists m d, dmul sq sp = Ok m /\ dopp m = Ok d /\ dl = VDec d else dl = VNone) ->
  exists r, _normalize_event (Event c "FILL" instrument sd (VDec sq) qa (VDec sp) dl quote VNone 1) now = Ok r.
Proof.
  intros Hc Hsym Hi Hs Hqa Hq1 Hq2 Rq Rp Hp0 Hq0 Hsign Hdl.
  destruct (canonical_representable sq "quantity" false Rq) as (tq & dq & Hcq & _ & Eq & Htq).
  destruct (canonical_representable sp "price" false Rp) as (tp & dp & Hcp & _ & Ep & Htp).
  assert (exists a, _canonical_decimal dl "amount" false = Ok a /\
    (if String.eqb instrument "SPOT" then
       exists s d m, a = Some s /\ text_decimal s = Ok d /\ dmul sq sp = Ok m /\ (dval d == - dval m)%Q
     else a = None)) as (a & Hca & Ha).
  { destruct (String.eqb instrument "SPOT"); [|subst dl; by exists None].
    destruct Hdl as (m & d & Hm & Hd & ->). pose proof (rounds_fits _ _ (dmul_rounds _ _ _ Hm)) as Fm.
    destruct (representable_opp m d (fits_representable m Fm) Hd) as [Rd Ed].
    destruct (canonical_representable d "amount" false Rd) as (s & x & Hx & Htx & Ex & _).
    exists (Some s). split; [done|]. exists s, x, m. split; [done|]. split; [done|]. split; [done|]. by rewrite Ex. }
  destruct (normalized_fields_Ok (Event c "FILL" instrument sd (VDec sq) qa (VDec sp) dl quote VNone 1) "FILL"
    (Some tq) (Some tp) a None Hc Hcq Hcp Hca eq_refl) as (f & Hf & Hfo).
  apply (normalize_Ok _ "FILL" f now); [by vm_compute|done|].
  pose proof Hfo as [Ft Fq Fp Fa Fu Fs Fi Fsd Fqa Faa Fid]. cbn [e_instrument_type e_side e_quantity_asset e_amount_asset] in *.
  assert (instrument_type f = instrument) as Ei by (rewrite Fi; by destruct Hi as [-> | ->]).
  assert (side f = sd) as Es by (rewrite Fsd; by destruct Hs as [-> | ->]).
  unfold check_event. rewrite Fid. cbn [res_bind]. unfold check_instrument. rewrite Ft. simpl String.eqb. cbn [andb].
  change (str_in "FILL" ["FUNDING"; "REALIZED_PNL"]) with false. cbn [andb]. rewrite !reject_false. cbn [res_bind].
  apply (check_fill_complete _ tq tp a None f sq sp dq dp Hfo Hsym); rewrite ?Ei, ?Es; try done.
  - rewrite Fqa. unfold _optional_text. by rewrite upper_nonempty.
  - by rewrite Faa, Hq1.
Qed.

(** The dollar amount a builder attaches: none, or one of the sign of the amount. *)
Definition usd_ok (a : dec) (u : pyval) : Prop :=
  u = VNone \/ exists x, u = VDec x /\ representable x /\ ~ (dval x == 0)%Q /\ ((0 < dval x)%Q <-> (0 < dval a)%Q).

Lemma check_cashflow_complete e t q p sa a ou f : fields_of e t q p (Some sa) ou f -> nonempty (amount_asset f) = true ->
  text_or_0 (Some sa) = Ok a -> ~ (dval a == 0)%Q -> (is_charge t = true -> (dval a < 0)%Q) ->
  str_in t ["DEPOSIT"; "WITHDRAWAL"] = false ->
  (ou = None \/ exists s x, ou = Some s /\ text_decimal s = Ok x /\ ~ (dval x == 0)%Q /\ ((0 < dval x)%Q <-> (0 < dval a)%Q)) ->
  check_cashflow f = Ok tt.
Proof.
  intros [Ft Fq Fp Fa Fu Fs Fi Fsd Fqa Faa Fid] Hasset Ha Hz Hc Hdw Hou. unfold check_cashflow. rewrite Hasset. cbn [negb].
  rewrite reject_false. cbn [res_bind]. rewrite Ft, Fa, Ha. cbn [res_bind].
  rewrite (proj2 (is_zero_false a) Hz), reject_false. cbn [res_bind].
  assert (is_charge t && dge a d0 = false) as ->.
  { destruct (is_charge t); [|done]. apply dge_0_false. by apply Hc. }
  rewrite reject_false. cbn [res_bind]. rewrite Fu.
  assert (match ou with None => Ok tt | Some text => let! usd := text_decimal text in check_usd t a usd end = Ok tt) as ->.
  { destruct Hou as [->|(s & x & -> & -> & Hx0 & Hs)]; [done|]. cbn [res_bind]. unfold check_usd.
    assert (is_charge t && dge x d0 = false) as ->.
    { destruct (is_charge t); [|done]. apply dge_0_false. specialize (Hc eq_refl).
      destruct (Qlt_le_dec (dval x) 0) as [|Hx]; [done|]. exfalso.
      assert (0 < dval a)%Q by (apply Hs; apply Qle_lteq in Hx as [Hx|Hx]; [done|exfalso; apply Hx0; by symmetry]). lra. }
    rewrite reject_false. cbn [res_bind]. rewrite (proj2 (is_zero_false x) Hx0). cbn [orb].
    assert (positive x = positive a) as -> by (apply positive_iff; by rewrite Hs, positive_true).
    by rewrite eqb_reflx, andb_false_r. }
  cbn [res_bind]. unfold str_in in Hdw. apply bool_decide_eq_false in Hdw.
  destruct (String.eqb_spec t "DEPOSIT") as [->|_]; [set_solver|].
  destruct (String.eqb_spec t "WITHDRAWAL") as [->|_]; [set_solver|]. done.
Qed.

(** The cash flows that are built: their symbol, instrument and sign. *)
Definition cash_ok (t instrument : string) (symbol_given : bool) (a : dec) : Prop :=
  t = "COMMISSION" /\ symbol_given = true /\ (instrument = "SPOT" \/ instrument = "PERPETUAL") /\ (dval a < 0)%Q \/
  (t = "REALIZED_PNL" \/ t = "FUNDING") /\ symbol_given = true /\ instrument = "PERPETUAL" \/
  t = "BORROW_INTEREST" /\ instrument = "MARGIN" /\ (dval a < 0)%Q \/
  t = "BALANCE_ADJUSTMENT" /\ instrument = "".

(** A cash flow with a representable amount is accepted. *)
Lemma event_cash_Ok c t instrument a asset u now : envelope_ok c ->
  cash_ok t instrument (given (e_symbol c)) a ->
  _optional_text upper asset = asset -> nonempty asset = true -> representable a -> ~ (dval a == 0)%Q -> usd_ok a u ->
  exists r, _normalize_event (Event c t instrument "" VNone "" VNone (VDec a) asset u 1) now = Ok r.
Proof.
  intros Hc Ht Hq1 Hq2 Ra Ha Hu.
  destruct (canonical_representable a "amount" false Ra) as (sa & da & Hca & _ & Ea & Hta).
  assert (exists ou, _canonical_decimal u "amount_usd" false = Ok ou /\
    (ou = None \/ exists s x, ou = Some s /\ text_decimal s = Ok x /\ ~ (dval x == 0)%Q /\ ((0 < dval x)%Q <-> (0 < dval da)%Q)))
    as (ou & Hcu & Hou).
  { destruct Hu as [->|(x & -> & Rx & Hx0 & Hs)]; [exists None; auto|].
    destruct (canonical_representable x "amount_usd" false Rx) as (s & d & Hcx & Hd & Ed & _).
    exists (Some s). split; [done|]. right. exists s, d. split; [done|]. split; [done|]. by rewrite Ed, Ea. }
  destruct (normalized_fields_Ok (Event c t instrument "" VNone "" VNone (VDec a) asset u 1) t
    None None (Some sa) ou Hc eq_refl eq_refl Hca Hcu) as (f & Hf & Hfo).
  assert (str_in t ECONOMIC_EVENT_TYPES = true /\ upper t = t /\ strip t = t) as (Ht1 & Ht2 & Ht3).
  { destruct Ht as [(-> & _)|[([-> | ->] & _)|[(-> & _)|(-> & _)]]]; by vm_compute. }
  apply (normalize_Ok _ t f now); [|done|].
  { unfold checked_type, EconomicLedger._require_text. cbn [e_schema_version e_event_type]. rewrite Ht3. destruct t as [|ch t']; [done|].
    cbn [nonempty negb res_bind]. change (1 =? ECONOMIC_LEDGER_SCHEMA_VERSION) with true. cbn [negb]. by rewrite Ht2, Ht1. }
  pose proof Hfo as [Ft Fq Fp Fa Fu Fs Fi Fsd Fqa Faa Fid]. cbn [e_instrument_type e_side e_quantity_asset e_amount_asset e_common] in *.
  assert (instrument_type f = instrument) as Ei.
  { rewrite Fi. destruct Ht as [(_ & _ & [-> | ->] & _)|[(_ & _ & ->)|[(_ & -> & _)|(_ & ->)]]]; by vm_compute. }
  assert (check_instrument f = Ok tt) as Hci.
  { unfold check_instrument. rewrite Ft, Fs, Ei.
    destruct Ht as [(-> & -> & [-> | ->] & _)|[([-> | ->] & -> & ->)|[(-> & -> & _)|(-> & ->)]]]; by vm_compute. }
  unfold check_event. rewrite Fid. cbn [res_bind]. rewrite Hci, Ft. cbn [res_bind].
  assert (String.eqb t "FILL" = false /\ str_in t ["DEPOSIT"; "WITHDRAWAL"] = false) as [-> Hdw].
  { destruct Ht as [(-> & _)|[([-> | ->] & _)|[(-> & _)|(-> & _)]]]; by vm_compute. }
  apply (check_cashflow_complete _ t None None sa da ou f Hfo); try done.
  - by rewrite Faa, Hq1.
  - by rewrite Ea.
  - intros Hch. rewrite Ea. destruct Ht as [(_ & _ & _ & H)|[([-> | ->] & _)|[(_ & _ & H)|(-> & _)]]]; try done; by vm_compute in Hch.
Qed.

Lemma charge_usd_ok supplied field asset d msg u a : charge_usd supplied field asset d msg = Ok u ->
  representable d -> (0 < dval d)%Q -> (dval a == - dval d)%Q -> usd_ok a u.
Proof.
  unfold charge_usd. intros H Rd Hd Ea. destruct (is_none supplied); cbn [negb] in H.
  - destruct (str_in _ _); [|left; congruence]. apply res_bind_Ok in H as (n & Hn & H). injection H as <-.
    destruct (representable_opp d n Rd Hn) as [Rn En]. right. exists n. split; [done|]. split; [done|].
    split; [rewrite En; lra|]. split; intros; lra.
  - apply res_bind_Ok in H as (x & Hx & H). destruct (dle x d0) eqn:Hp; [done|]. apply dle_0_false in Hp.
    apply res_bind_Ok in H as (n & Hn & H). injection H as <-.
    destruct (representable_opp x n (decimal_representable _ _ _ Hx) Hn) as [Rn En]. right. exists n. split; [done|]. split; [done|].
    split; [rewrite En; lra|]. split; intros; lra.
Qed.

Lemma signed_usd_ok supplied field asset d msg u : signed_usd supplied field asset d msg = Ok u ->
  representable d -> ~ (dval d == 0)%Q -> usd_ok d u.
Proof.
  unfold signed_usd. intros H Rd Hd. destruct (is_none supplied); cbn [negb] in H.
  - destruct (str_in _ _); [|left; congruence]. injection H as <-. right. by exists d.
  - apply res_bind_Ok in H as (x & Hx & H). destruct (_ || _) eqn:E; [done|]. injection H as <-. bool_props.
    right. exists x. split; [done|]. split; [by eapply decimal_representable|]. split; [by apply is_zero_false|].
    apply same_sign. by apply negb_false_iff.
Qed.

Lemma commission_leg_Ok c instrument amount asset usd evs : commission_leg c instrument amount asset usd = Ok evs ->
  envelope_ok c -> given (e_symbol c) = true -> instrument = "SPOT" \/ instrument = "PERPETUAL" ->
  forall e now, e ∈ evs -> exists r, _normalize_event e now = Ok r.
Proof.
  unfold commission_leg. intros H Hc Hsym Hi. destruct (is_none amount); [injection H as <-; set_solver|].
  apply res_bind_Ok in H as (d & Hd & H). destruct (dlt d d0) eqn:E1; [done|].
  destruct (positive d) eqn:E2; cbn [negb] in H; [|injection H as <-; set_solver].
  apply res_bind_Ok in H as (as' & Has & H). apply res_bind_Ok in H as (u & Hu & H). apply res_bind_Ok in H as (n & Hn & H).
  injection H as <-. intros e now ->%list_elem_of_singleton. apply positive_true in E2.
  pose proof (decimal_representable _ _ _ Hd) as Rd. destruct (representable_opp d n Rd Hn) as [Rn En].
  apply event_cash_Ok; try done.
  - left. split; [done|]. split; [done|]. split; [done|]. rewrite En. lra.
  - by eapply optional_of_required.
  - by apply require_text_upper in Has as [_ ?].
  - rewrite En. lra.
  - by eapply charge_usd_ok.
Qed.

Lemma realized_leg_Ok c instrument quote amount asset usd evs : realized_leg c instrument quote amount asset usd = Ok evs ->
  envelope_ok c -> given (e_symbol c) = true -> forall e now, e ∈ evs -> exists r, _normalize_event e now = Ok r.
Proof.
  unfold realized_leg. intros H Hc Hsym. destruct (is_none amount); [injection H as <-; set_solver|].
  apply res_bind_Ok in H as (d & Hd & H). destruct (is_zero d) eqn:E1; [injection H as <-; set_solver|].
  destruct (String.eqb_spec instrument "PERPETUAL") as [->|]; [|done]. cbn [negb] in H.
  apply res_bind_Ok in H as (as' & Has & H). apply res_bind_Ok in H as (u & Hu & H).
  injection H as <-. intros e now ->%list_elem_of_singleton. apply is_zero_false in E1.
  pose proof (decimal_representable _ _ _ Hd) as Rd.
  apply event_cash_Ok; try done.
  - right. left. auto.
  - by eapply optional_of_required.
  - by apply require_text_upper in Has as [_ ?].
  - by eapply signed_usd_ok.
Qed.

Lemma fill_leg_Ok c instrument_type side quantity price qa quote e now :
  fill_leg c instrument_type side quantity price qa quote = Ok e -> envelope_ok c -> given (e_symbol c) = true -> given qa = true ->
  (e_instrument_type e = "SPOT" \/ e_instrument_type e = "PERPETUAL") /\ exists r, _normalize_event e now = Ok r.
Proof.
  unfold fill_leg. intros H Hc Hsym Hqa. apply res_bind_Ok in H as (sd & Hsd & H). destruct (str_in sd _) eqn:Es; [|done].
  cbn [negb] in H. apply res_bind_Ok in H as (ins & Hins & H). destruct (str_in ins _) eqn:Ei; [|done]. cbn [negb] in H.
  apply res_bind_Ok in H as (q & Hq & H). apply res_bind_Ok in H as (p & Hp & H). destruct (dle q d0 || dle p d0) eqn:E0; [done|].
  apply orb_false_iff in E0 as [Hq0%dle_0_false Hp0%dle_0_false].
  apply res_bind_Ok in H as (sq & Hsq & H). apply res_bind_Ok in H as (qt & Hqt & H). apply res_bind_Ok in H as (dl & Hdl & H).
  injection H as <-. cbn [e_instrument_type].
  assert (ins = "SPOT" \/ ins = "PERPETUAL") as Hi by (by apply str_in_2).
  assert (sd = "BUY" \/ sd = "SELL") as Hs by (by apply str_in_2). split; [done|].
  pose proof (decimal_representable _ _ _ Hq) as Rq. pose proof (decimal_representable _ _ _ Hp) as Rp.
  assert (representable sq /\ ~ (dval sq == 0)%Q /\ ((0 < dval sq)%Q <-> sd = "BUY")) as (Rs & Hs0 & Hsg).
  { destruct (String.eqb_spec sd "BUY") as [->|Hne].
    - injection Hsq as <-. split; [done|]. split; [lra|done].
    - destruct (representable_opp q sq Rq Hsq) as [Rsq Esq]. split; [done|]. split; [rewrite Esq; lra|].
      split; [intros; lra|done]. }
  apply event_fill_Ok; try done.
  - by eapply optional_of_required.
  - by apply require_text_upper in Hqt as [_ ?].
  - destruct (String.eqb ins "SPOT"); [|congruence]. apply res_bind_Ok in Hdl as (m & Hm & Hdl).
    apply res_bind_Ok in Hdl as (d & Hd & Hdl). injection Hdl as <-. by exists m, d.
Qed.

(** Every event that [build_fill_events] builds (the fill, its commission and
    its realized profit) passes the normalization of the ledger, whatever the size and notation of the
    amounts: the recomputed quote change is the built one, and the signs are the required ones. *)
Theorem built_fills_are_accepted c instrument_type side quantity price qa quote ca casset cusd ra rasset rusd evs :
  envelope_ok c -> given (e_symbol c) = true -> given qa = true ->
  build_fill_events c instrument_type side quantity price qa quote ca casset cusd ra rasset rusd = Ok evs ->
  evs <> [] /\ forall e now, e ∈ evs -> exists r, _normalize_event e now = Ok r.
Proof.
  intros Hc Hsym Hqa H. unfold build_fill_events in H. apply res_bind_Ok in H as (fill & Hf & H).
  apply res_bind_Ok in H as (com & Hcom & H). apply res_bind_Ok in H as (rea & Hrea & H). injection H as <-.
  split; [done|]. intros e now [->|[He|He]%elem_of_app]%elem_of_cons.
  - by eapply fill_leg_Ok.
  - destruct (fill_leg_Ok _ _ _ _ _ _ _ _ now Hf Hc Hsym Hqa) as [Hi _]. by eapply commission_leg_Ok.
  - by eapply realized_leg_Ok.
Qed.

(** A large spot sale with a commission in another asset. *)
Lemma built_fills_are_accepted_witness :
  match build_fill_events ex_envelope "spot" "sell" (VStr "3e30") (VStr "42000.0") "BTC" "USDT" (VStr "10.5") "bnb" VNone VNone "" VNone with
  | Ok evs => evs <> [] /\ forall e now, e ∈ evs -> exists r, _normalize_event e now = Ok r
  | Err _ => False
  end.
Proof.
  destruct (build_fill_events _ _ _ _ _ _ _ _ _ _ _ _ _) as [evs|e] eqn:E; [|vm_compute in E; discriminate E].
  refine (built_fills_are_accepted _ _ _ _ _ _ _ _ _ _ _ _ _ evs _ _ _ E); [|vm_compute; reflexivity|vm_compute; reflexivity].
  constructor; try (vm_compute; reflexivity).
  eexists. split; [vm_compute; reflexivity|]. intros _. eexists. split; [vm_compute; reflexivity|]. vm_compute. discriminate.
Defined.
