(* ===== verification/PyJson.v ===== *)
(** * [json.loads] and the [repr] of a float

    The decoder of the standard library on ASCII texts, with [parse_constant] raising
    as the code passes it: the values it builds, the duplicate keys it folds, and what
    it rejects.  A number with a fraction or an exponent is a float and is kept as its
    [repr], the shortest text that reads back as it. *)
From Stdlib Require Import ZArith Lia Ascii SpecFloat.
From stdpp Require Import base list strings.
From S2P Require Import Prelude PyDecimal PyFloat PyFormat PyValue.
Open Scope Z_scope.

(** ** [repr(float)] *)

(** The decimals of [n] digits next to [d], the nearest first. *)
Definition neighbours (d : dec) (n : Z) : list dec :=
  let k := ndigits (dcoeff d) - n in
  if k <=? 0 then [d]
  else
    let p := pow10 k in
    let q := (dcoeff d / p)%N in let r := (dcoeff d mod p)%N in
    let lo := Dec false q (dexp d + k) in let hi := Dec false (q + 1) (dexp d + k) in
    if (2 * r <? p)%N || ((2 * r =? p)%N && N.even q) then [lo; hi] else [hi; lo].

(** The shortest decimal that rounds to [x]; 17 digits always do. *)
Fixpoint shortest (fuel : nat) (n : Z) (x : float) (d : dec) : dec :=
  match fuel with
  | O => d
  | S f =>
      match List.find (fun c => feq (float_of_dec c) x) (neighbours d n) with
      | Some c => c
      | None => shortest f (n + 1) x d
      end
  end.

Fixpoint drop_zeros (l : list N) : list N := match l with 0%N :: l' => drop_zeros l' | _ => l end.

(** The digits of [ds] with the decimal point after the first [point] of them. *)
Definition repr_digits (ds : list N) (point : Z) : list ascii :=
  let cs := map digit_char ds in
  let len := Z.of_nat (length ds) in
  if (-4 <? point) && (point <=? 16) then
    if point <=? 0 then "0"%char :: "."%char :: zeros (- point) ++ cs
    else if len <=? point then cs ++ zeros (point - len) ++ ["."%char; "0"%char]
    else firstn (Z.to_nat point) cs ++ "."%char :: skipn (Z.to_nat point) cs
  else
    let e := point - 1 in
    firstn 1 cs ++ (match skipn 1 cs with [] => [] | l => "."%char :: l end)
    ++ "e"%char :: (if e <? 0 then "-"%char else "+"%char)
    :: (if Z.abs e <? 10 then ["0"%char] else []) ++ digit_chars (Z.abs_N e).

Definition float_repr (x : float) : string :=
  match x with
  | S754_zero s => if s then "-0.0" else "0.0"
  | S754_infinity s => if s then "-inf" else "inf"
  | S754_nan => "nan"
  | S754_finite s m e =>
      let a := S754_finite false m e in
      match dec_of_float a with
      | None => EmptyString
      | Some d =>
          let c := shortest 17 1 a d in
          let ds := digits (dcoeff c) in
          String.string_of_list_ascii ((if s then ["-"%char] else [])
            ++ repr_digits (rev (drop_zeros (rev ds))) (Z.of_nat (length ds) + dexp c))
      end
  end.

Definition repr_of (s : string) : string := match float_of_str s with Ok x => float_repr x | Err _ => EmptyString end.

(** A [VFloat] stands for a float when its text is the [repr] of a double. *)
Definition float_value (v : pyval) : Prop :=
  match v with VFloat r => exists x, valid_float x = true /\ r = float_repr x | _ => True end.

Definition float_values (d : dict pyval) : Prop := Forall (fun kv => float_value (snd kv)) d.

Example repr_examples : map repr_of ["0.1"; "0.00001"; "-1234.50"; "2"] = ["0.1"; "1e-05"; "-1234.5"; "2.0"].
Proof. vm_compute. reflexivity. Qed.

(** ** The scanner *)

Definition is_ws (c : ascii) : bool :=
  Ascii.eqb c " "%char || (let n := N_of_ascii c in (n =? 9)%N || (n =? 10)%N || (n =? 13)%N).

Fixpoint skip_ws (l : list ascii) : list ascii :=
  match l with c :: l' => if is_ws c then skip_ws l' else l | [] => [] end.

(** The value of a hexadecimal digit. *)
Definition hex_of (c : ascii) : option N :=
  let n := N_of_ascii c in
  if (48 <=? n)%N && (n <=? 57)%N then Some (n - 48)%N
  else if (97 <=? n)%N && (n <=? 102)%N then Some (n - 87)%N
  else if (65 <=? n)%N && (n <=? 70)%N then Some (n - 55)%N else None.

(** The character after a backslash; [u] is followed by four hexadecimal digits, of
    which an ASCII code has two zeros in front. *)
Definition scan_escape (l : list ascii) : option (ascii * list ascii) :=
  match l with
  | c :: l' =>
      let n := N_of_ascii c in
      if (n =? 34)%N || (n =? 92)%N || (n =? 47)%N then Some (c, l')
      else if Ascii.eqb c "b"%char then Some (ascii_of_N 8, l')
      else if Ascii.eqb c "f"%char then Some (ascii_of_N 12, l')
      else if Ascii.eqb c "n"%char then Some (ascii_of_N 10, l')
      else if Ascii.eqb c "r"%char then Some (ascii_of_N 13, l')
      else if Ascii.eqb c "t"%char then Some (ascii_of_N 9, l')
      else if Ascii.eqb c "u"%char then
        match l' with
        | a :: b :: x :: y :: l'' =>
            match hex_of a, hex_of b, hex_of x, hex_of y with
            | Some 0%N, Some 0%N, Some h, Some k => Some (ascii_of_N (16 * h + k), l'')
            | _, _, _, _ => None
            end
        | _ => None
        end
      else None
  | [] => None
  end.

(** The characters up to the closing quote; control characters are rejected. *)
Fixpoint scan_string (fuel : nat) (l : list ascii) : option (string * list ascii) :=
  match fuel with
  | O => None
  | S f =>
      match l with
      | [] => None
      | c :: l' =>
          let n := N_of_ascii c in
          if (n =? 34)%N then Some (EmptyString, l')
          else if (n =? 92)%N then
            match scan_escape l' with
            | Some (x, l'') => match scan_string f l'' with Some (s, r) => Some (String x s, r) | None => None end
            | None => None
            end
          else if (n <? 32)%N then None
          else match scan_string f l' with Some (s, r) => Some (String c s, r) | None => None end
      end
  end.

(** [0|[1-9]\d*] *)
Definition scan_int (l : list ascii) : option (list N * list ascii) :=
  match l with
  | c :: l' =>
      match digit_of c with
      | Some 0%N => Some ([0%N], l')
      | Some d => let '(ds, r) := span_digits l' in Some (d :: ds, r)
      | None => None
      end
  | [] => None
  end.

(** [(\.\d+)?] *)
Definition scan_frac (l : list ascii) : list N * list ascii :=
  match l with
  | c :: l' =>
      if Ascii.eqb c "."%char then match span_digits l' with ((_ :: _) as ds, r) => (ds, r) | _ => ([], l) end
      else ([], l)
  | [] => ([], l)
  end.

(** [([eE][-+]?\d+)?] *)
Definition scan_exp (l : list ascii) : option Z * list ascii :=
  match l with
  | c :: l' =>
      if Ascii.eqb (upper_ascii c) "E"%char then
        let '(neg, l'') := span_sign l' in
        match span_digits l'' with
        | ((_ :: _) as ds, r) => (Some (if neg then - Z.of_N (of_digits ds) else Z.of_N (of_digits ds)), r)
        | _ => (None, l)
        end
      else (None, l)
  | [] => (None, l)
  end.

(** [-?] *)
Definition scan_minus (l : list ascii) : bool * list ascii :=
  match l with c :: l' => if Ascii.eqb c "-"%char then (true, l') else (false, l) | [] => (false, l) end.

Definition scan_number (l : list ascii) : option (pyval * list ascii) :=
  let '(neg, l1) := scan_minus l in
  match scan_int l1 with
  | None => None
  | Some (ints, l2) =>
      let '(fracs, l3) := scan_frac l2 in
      let '(e, l4) := scan_exp l3 in
      match fracs, e with
      | [], None => let z := Z.of_N (of_digits ints) in Some (VInt (if neg then - z else z), l4)
      | _, _ =>
          let d := Dec neg (of_digits (ints ++ fracs)) (default 0 e - Z.of_nat (length fracs)) in
          Some (VFloat (float_repr (float_of_dec d)), l4)
      end
  end.

(** The text after the word [p]. *)
Fixpoint after_word (p : string) (l : list ascii) : option (list ascii) :=
  match p, l with
  | EmptyString, _ => Some l
  | String a p', c :: l' => if Ascii.eqb a c then after_word p' l' else None
  | _, [] => None
  end.

(** The head of the text, white space skipped. *)
Definition next_char (l : list ascii) : option (ascii * list ascii) :=
  match skip_ws l with c :: l' => Some (c, l') | [] => None end.

Section Loops.
(** One value, and the fuel of a string. *)
Context (scan : list ascii -> option (pyval * list ascii)) (f : nat).

(** The loop of [_parse_array] after the bracket, with the values read so far. *)
Fixpoint scan_items (k : nat) (acc : list pyval) (l : list ascii) : option (pyval * list ascii) :=
  match k with
  | O => None
  | S k' =>
      match scan l with
      | None => None
      | Some (v, r) =>
          match next_char r with
          | Some (c, r') =>
              if Ascii.eqb c ","%char then scan_items k' (acc ++ [v]) (skip_ws r')
              else if Ascii.eqb c "]"%char then Some (VList (acc ++ [v]), r') else None
          | None => None
          end
      end
  end.

(** A key and its value. *)
Definition scan_member (l : list ascii) : option (string * pyval * list ascii) :=
  match l with
  | c :: l' =>
      if char_eq c 34 then
        match scan_string f l' with
        | None => None
        | Some (key, r) =>
            match next_char r with
            | Some (c, r') =>
                if Ascii.eqb c ":"%char then
                  match scan (skip_ws r') with Some (v, r2) => Some (key, v, r2) | None => None end
                else None
            | None => None
            end
        end
      else None
  | [] => None
  end.

(** The loop of [_parse_object] after the brace. *)
Fixpoint scan_members (k : nat) (acc : dict pyval) (l : list ascii) : option (pyval * list ascii) :=
  match k with
  | O => None
  | S k' =>
      match scan_member l with
      | None => None
      | Some (key, v, r) =>
          match next_char r with
          | Some (c, r') =>
              if Ascii.eqb c ","%char then scan_members k' (dict_set acc key v) (skip_ws r')
              else if Ascii.eqb c "}"%char then Some (VDict (dict_set acc key v), r') else None
          | None => None
          end
      end
  end.

End Loops.

Definition scan_object (scan : list ascii -> option (pyval * list ascii)) (f : nat) (l : list ascii) : option (pyval * list ascii) :=
  match next_char l with
  | Some (c, r) => if Ascii.eqb c "}"%char then Some (VDict [], r) else scan_members scan f f [] (skip_ws l)
  | None => None
  end.

Definition scan_array (scan : list ascii -> option (pyval * list ascii)) (f : nat) (l : list ascii) : option (pyval * list ascii) :=
  match next_char l with
  | Some (c, r) => if Ascii.eqb c "]"%char then Some (VList [], r) else scan_items scan f [] (skip_ws l)
  | None => None
  end.

Definition scan_word_or_number (l : list ascii) : option (pyval * list ascii) :=
  match after_word "null" l, after_word "true" l, after_word "false" l with
  | Some r, _, _ => Some (VNone, r)
  | _, Some r, _ => Some (VBool true, r)
  | _, _, Some r => Some (VBool false, r)
  | _, _, _ => scan_number l
  end.

(** [scan_once]: one value.  The loops call it on a shorter text, so the length of the
    text is enough fuel. *)
Fixpoint scan_value (fuel : nat) (l : list ascii) : option (pyval * list ascii) :=
  match fuel, l with
  | S f, c :: l' =>
      if char_eq c 34 then match scan_string f l' with Some (s, r) => Some (VStr s, r) | None => None end
      else if Ascii.eqb c "{"%char then scan_object (scan_value f) f l'
      else if Ascii.eqb c "["%char then scan_array (scan_value f) f l'
      else scan_word_or_number l
  | _, _ => None
  end.

(** [json.loads(s, parse_constant=reject)]: a constant such as [NaN] and any other error is a
    [ValueError] ([JSONDecodeError] is one). *)
Definition json_loads (s : string) : result pyval :=
  let l := String.list_ascii_of_string s in
  match scan_value (S (length l)) (skip_ws l) with
  | Some (v, r) => match skip_ws r with [] => Ok v | _ => raise ValueError "Extra data" end
  | None => raise ValueError "Expecting value"
  end.

(** [json.dumps(v, sort_keys=True, separators=(",", ":"), ensure_ascii=False, allow_nan=False)] *)
Definition json_dumps_raw : pyval -> result string := json_dumps_with json_char_raw false "," ":" false.
#[global] Arguments json_dumps_raw : simpl never.

(** [json.dumps(v)]: the members in the order of the dictionary. *)
Fixpoint json_dumps_ordered (v : pyval) : result string :=
  match v with
  | VNone => Ok "null"
  | VBool b => Ok (if b then "true" else "false")
  | VInt z => Ok (int_str z)
  | VFloat r => Ok (json_float r)
  | VStr s => Ok (json_str s)
  | VDec d => raise TypeError "Object of type Decimal is not JSON serializable"
  | VList l =>
      let! parts := res_map_list (fun r => r) (map json_dumps_ordered l) in
      Ok ("[" +:+ str_join ", " parts +:+ "]")
  | VDict d =>
      let! parts := res_map_list (fun r => r)
        (map (fun kv => let! s := json_dumps_ordered (snd kv) in Ok (json_str (fst kv) +:+ ": " +:+ s)) d) in
      Ok ("{" +:+ str_join ", " parts +:+ "}")
  end.

(** The same value with the keys of its dictionaries in order. *)
Fixpoint canon (v : pyval) : pyval :=
  match v with
  | VList l => VList (map canon l)
  | VDict d => VDict (sort_by key_leb (map (fun kv => (fst kv, canon (snd kv))) d))
  | _ => v
  end.

(** ** [a == b] on decoded values *)

(** Numbers by value, sequences in order, dictionaries whatever the order of their keys. *)
Fixpoint py_eq (a b : pyval) {struct a} : bool :=
  match a, b with
  | VList l, VList m =>
      (fix go (l m : list pyval) : bool :=
         match l, m with
         | [], [] => true
         | x :: l', y :: m' => py_eq x y && go l' m'
         | _, _ => false
         end) l m
  | VDict d, VDict e =>
      (length d =? length e)%nat &&
      (fix go (d : list (string * pyval)) : bool :=
         match d with
         | [] => true
         | (k, x) :: d' => match dict_get e k with Some y => py_eq x y | None => false end && go d'
         end) d
  | _, _ => scalar_eq a b
  end.

(** [{"a" : [1, -2.50e0, null] , "b":{}, "a":"x\u0041\n"} ] with quotes as [chr 34]. *)
Definition quoted (s : string) : string := chr 34 +:+ s +:+ chr 34.

Example loads_example :
  json_loads (" {" +:+ quoted "a" +:+ " : [1, -2.50e0, null] , " +:+ quoted "b" +:+ ":{}, "
    +:+ quoted "a" +:+ ":" +:+ quoted "x\u0041\n" +:+ "} ")
  = Ok (VDict [("a", VStr ("xA" +:+ chr 10)); ("b", VDict [])]).
Proof. vm_compute. reflexivity. Qed.

Example loads_rejects :
  map (fun s => is_ok (json_loads s)) ["01"; "1."; "[1,]"; "NaN"; "{1:2}"; "1 2"; ""] = repeat false 7.
Proof. vm_compute. reflexivity. Qed.
