(* ===== verification/PyJsonFacts.v ===== *)
(** * Canonical JSON reads back

    [json.loads] of the text [json.dumps] writes for a value is that value with the keys
    of its dictionaries in order: the canonical texts are decoded without loss, and two
    values with one text are equal. *)
From Stdlib Require Import ZArith Lia Ascii SpecFloat.
From stdpp Require Import base list strings sets sorting.
From S2P Require Import Prelude PyDecimal PyDecimalFacts PyDecimalPlain PyFloat PyValue PyCalendarFacts PyJson.
Open Scope Z_scope.

(** ** Induction on nested values *)

Section PyvalInd.
Context (P : pyval -> Prop).
Context (PNone : P VNone) (PBool : forall b, P (VBool b)) (PInt : forall z, P (VInt z)) (PFloat : forall r, P (VFloat r)).
Context (PStr : forall s, P (VStr s)) (PDec : forall d, P (VDec d)).
Context (PList : forall l, Forall P l -> P (VList l)).
Context (PDict : forall d : list (string * pyval), Forall (fun kv => P (snd kv)) d -> P (VDict d)).

Fixpoint pyval_nested_ind (v : pyval) : P v :=
  match v with
  | VNone => PNone
  | VBool b => PBool b
  | VInt z => PInt z
  | VFloat r => PFloat r
  | VStr s => PStr s
  | VDec d => PDec d
  | VList l => PList l ((fix go (l : list pyval) : Forall P l :=
      match l with [] => Forall_nil_2 P | x :: l' => Forall_cons_2 P x l' (pyval_nested_ind x) (go l') end) l)
  | VDict d => PDict d ((fix go (d : list (string * pyval)) : Forall (fun kv => P (snd kv)) d :=
      match d with
      | [] => Forall_nil_2 (fun kv : string * pyval => P (snd kv))
      | kv :: d' => Forall_cons_2 (fun kv : string * pyval => P (snd kv)) kv d' (pyval_nested_ind (snd kv)) (go d')
      end) d)
  end.
End PyvalInd.

(** ** Characters and strings *)

Lemma chars_cons c s : chars (String c s) = c :: chars s.
Proof. done. Qed.

(** One encoded character is read back, whatever follows it. *)
Definition reads_char (enc : ascii -> string) (c : ascii) : Prop :=
  forall f rest, scan_string (S f) (chars (enc c) ++ rest) =
    match scan_string f rest with Some (s, r) => Some (String c s, r) | None => None end.

Lemma json_char_raw_reads c : reads_char json_char_raw c.
Proof. destruct c as [[] [] [] [] [] [] [] []]; intros f rest; reflexivity. Qed.

Lemma json_char_reads c : reads_char json_char c.
Proof. destruct c as [[] [] [] [] [] [] [] []]; intros f rest; reflexivity. Qed.

Lemma str_flat_map_length enc s : (forall c, 1 <= String.length (enc c))%nat ->
  (String.length s <= String.length (str_flat_map enc s))%nat.
Proof. intros H. induction s as [|c s IH]; simpl; [lia|]. rewrite str_length_app. specialize (H c). lia. Qed.

Lemma json_char_raw_length c : (1 <= String.length (json_char_raw c))%nat.
Proof. destruct c as [[] [] [] [] [] [] [] []]; vm_compute; lia. Qed.

(** A quoted string after its opening quote. *)
Lemma scan_string_encoded enc s : (forall c, reads_char enc c) -> forall f rest, (String.length s < f)%nat ->
  scan_string f (chars (str_flat_map enc s) ++ chars (chr 34) ++ rest) = Some (s, rest).
Proof.
  intros Henc. induction s as [|c s IH]; intros f rest Hf; (destruct f as [|f]; [simpl in *; lia|]).
  - reflexivity.
  - simpl str_flat_map. rewrite chars_app, <- app_assoc, Henc, IH by (simpl in *; lia). done.
Qed.

(** ** Numbers *)

(** What follows a value in a canonical text. *)
Definition stops (rest : list ascii) : Prop :=
  match rest with [] => True | c :: _ => c = ","%char \/ c = "]"%char \/ c = "}"%char end.

Lemma stops_nondigit rest : stops rest -> starts_nondigit rest.
Proof. by destruct rest as [|c r]; [|intros [-> | [-> | ->]]]. Qed.

Lemma span_digits_ext l rest : starts_nondigit rest ->
  span_digits (l ++ rest) = let '(ds, r) := span_digits l in (ds, r ++ rest).
Proof.
  intros H. induction l as [|c l IH]; simpl.
  - destruct rest as [|c r]; [done|]. simpl in *. by rewrite H.
  - destruct (digit_of c); [|done]. rewrite IH. by destruct (span_digits l).
Qed.

Lemma scan_int_ext l ds r rest : stops rest -> scan_int l = Some (ds, r) -> scan_int (l ++ rest) = Some (ds, r ++ rest).
Proof.
  intros H. destruct l as [|c l]; [done|]. simpl. destruct (digit_of c) as [[|p]|]; [by intros [= <- <-]| |done].
  rewrite span_digits_ext by (by apply stops_nondigit). destruct (span_digits l). by intros [= <- <-].
Qed.

Lemma scan_frac_ext l rest : stops rest -> scan_frac (l ++ rest) = let '(ds, r) := scan_frac l in (ds, r ++ rest).
Proof.
  intros H. destruct l as [|c l]; simpl.
  - destruct rest as [|c r]; [done|]. simpl. by destruct H as [-> | [-> | ->]].
  - destruct (Ascii.eqb c "."%char); [|done]. rewrite span_digits_ext by (by apply stops_nondigit).
    by destruct (span_digits l) as [[|d ds] r].
Qed.

Lemma span_sign_ext l rest : stops rest -> span_sign (l ++ rest) = let '(b, r) := span_sign l in (b, r ++ rest).
Proof.
  intros H. destruct l as [|c l].
  - destruct rest as [|c r]; [done|]. by destruct H as [-> | [-> | ->]].
  - destruct c as [[] [] [] [] [] [] [] []]; done.
Qed.

Lemma scan_exp_ext l rest : stops rest -> scan_exp (l ++ rest) = let '(e, r) := scan_exp l in (e, r ++ rest).
Proof.
  intros H. destruct l as [|c l]; simpl.
  - destruct rest as [|c r]; [done|]. simpl. by destruct H as [-> | [-> | ->]].
  - destruct (Ascii.eqb _ _); [|done].
    rewrite span_sign_ext by done.
    destruct (span_sign l) as [neg r]. rewrite span_digits_ext by (by apply stops_nondigit).
    by destruct (span_digits r) as [[|d ds] r'].
Qed.

Lemma scan_number_ext l v rest : stops rest -> scan_number l = Some (v, []) -> scan_number (l ++ rest) = Some (v, rest).
Proof.
  intros H. unfold scan_number.
  assert (scan_int (snd (scan_minus l)) = None \/ scan_minus (l ++ rest) = let '(b, r) := scan_minus l in (b, r ++ rest)) as [E|E].
  { destruct l as [|c l]; [by left|right]. simpl. by destruct (Ascii.eqb _ _). }
  { destruct (scan_minus l). simpl in E. by rewrite E. }
  rewrite E. destruct (scan_minus l) as [neg l1]. destruct (scan_int l1) as [[ints l2]|] eqn:E2; [|done].
  rewrite (scan_int_ext _ _ _ _ H E2), scan_frac_ext by done. destruct (scan_frac l2) as [fracs l3].
  rewrite scan_exp_ext by done. destruct (scan_exp l3) as [e l4]. destruct fracs, e; intros [= <- ->]; done.
Qed.

Lemma of_digits_lt ds : small ds -> Z.of_N (of_digits ds) < 10 ^ Z.of_nat (length ds).
Proof.
  induction ds as [|d ds IH] using rev_ind; intros Hs; [done|]. apply Forall_app in Hs as [Hs Hd]. apply (Forall_inv (P := fun d => (d < 10)%N)) in Hd.
  rewrite of_digits_app, length_app. specialize (IH Hs). simpl length.
  replace (Z.of_nat (length ds + 1)) with (Z.of_nat (length ds) + 1) by lia. rewrite Z.pow_add_r by lia.
  assert (of_digits [d] = d) as -> by done. rewrite N2Z.inj_add, N2Z.inj_mul. change (Z.of_N (10 ^ N.of_nat 1)) with 10. change (10 ^ 1) with 10. lia.
Qed.

(** The decimal digits of a positive number do not start with a zero. *)
Lemma digits_head n : n <> 0%N -> exists d ds, digits n = d :: ds /\ d <> 0%N.
Proof.
  intros Hn. pose proof (proj2 (ndigits_bounds n) Hn) as Hb. pose proof (of_digits_digits n) as Hv. pose proof (digits_small n) as Hs.
  unfold ndigits in Hb. destruct (digits n) as [|d ds] eqn:E; [by destruct (digits_nonnil n)|]. exists d, ds. split; [done|]. intros ->.
  apply Forall_cons in Hs as [_ Hs]. pose proof (of_digits_lt ds Hs) as Hlt.
  change (of_digits (0%N :: ds)) with (of_digits ds) in Hv. rewrite Hv in Hlt. simpl length in Hb.
  replace (Z.of_nat (S (length ds)) - 1) with (Z.of_nat (length ds)) in Hb by lia. lia.
Qed.

Lemma scan_digits n r : starts_nondigit r -> scan_int (digit_chars n ++ r) = Some (digits n, r).
Proof.
  intros Hr. unfold digit_chars. pose proof (digits_small n) as Hs. destruct (N.eq_dec n 0%N) as [->|Hn]; [done|].
  destruct (digits_head n Hn) as (d & ds & E & Hd). rewrite E in *. apply Forall_cons in Hs as [Hd' Hs].
  simpl. rewrite digit_of_char by done. destruct d as [|p]; [done|]. by rewrite span_digits_app.
Qed.

Lemma digit_char_not d c : (d < 10)%N -> digit_of c = None -> Ascii.eqb (digit_char d) c = false.
Proof. intros Hd Hc. destruct (Ascii.eqb_spec (digit_char d) c) as [<-|]; [|done]. by rewrite digit_of_char in Hc. Qed.

Lemma chars_of_list l : chars (String.string_of_list_ascii l) = l.
Proof. apply String.list_ascii_of_string_of_list_ascii. Qed.

Lemma scan_minus_int z rest : scan_minus (chars (int_str z) ++ rest) = (z <? 0, digit_chars (Z.abs_N z) ++ rest).
Proof.
  unfold int_str. rewrite chars_of_list. destruct (z <? 0); [done|]. unfold digit_chars. pose proof (digits_small (Z.abs_N z)) as Hs.
  destruct (digits (Z.abs_N z)) as [|d ds] eqn:Ed; [by destruct (digits_nonnil (Z.abs_N z))|].
  apply Forall_cons in Hs as [Hd _]. simpl. by rewrite digit_char_not.
Qed.

Lemma signed_abs z : (if z <? 0 then - Z.of_N (Z.abs_N z) else Z.of_N (Z.abs_N z)) = z.
Proof. destruct (Z.ltb_spec z 0); lia. Qed.

Lemma scan_number_int z rest : stops rest -> scan_number (chars (int_str z) ++ rest) = Some (VInt z, rest).
Proof.
  intros H. rewrite <- (app_nil_l rest) at 2.
  unfold scan_number. rewrite scan_minus_int, scan_digits by (by apply stops_nondigit).
  rewrite <- (app_nil_l rest), (scan_frac_ext [] rest H). simpl. rewrite (scan_exp_ext [] rest H : scan_exp rest = _). simpl.
  rewrite of_digits_digits. repeat f_equal. apply signed_abs.
Qed.

(** A float is written as its [repr], which reads back as it. *)
Definition float_text (r : string) : bool :=
  match scan_number (chars r) with Some (VFloat s, []) => String.eqb r s | _ => false end.

Lemma scan_number_float r rest : float_text r = true -> stops rest -> scan_number (chars r ++ rest) = Some (VFloat r, rest).
Proof.
  unfold float_text. destruct (scan_number (chars r)) as [[[] [|]]|] eqn:E; try done. intros ->%String.eqb_eq H. by apply scan_number_ext.
Qed.

(** ** Values *)

(** What [json.loads] builds, other than its key order: no decimals, floats as their
    [repr], and distinct keys. *)
Fixpoint decoded (v : pyval) : bool :=
  match v with
  | VFloat r => float_text r
  | VDec _ => false
  | VList l => forallb decoded l
  | VDict d => bool_decide (NoDup (map fst d)) && forallb (fun kv => decoded (snd kv)) d
  | _ => true
  end.

(** A text that starts with neither white space nor a closing bracket. *)
Definition head_ok (l : list ascii) : Prop :=
  match l with c :: _ => is_ws c = false /\ c <> "]"%char | [] => False end.

Lemma skip_head l rest : head_ok l -> skip_ws (l ++ rest) = l ++ rest.
Proof. destruct l as [|c l]; [done|]. simpl. by intros [-> _]. Qed.

Lemma next_stop c r : c = ","%char \/ c = "]"%char \/ c = "}"%char \/ c = ":"%char -> next_char (c :: r) = Some (c, r).
Proof. by intros [-> | [-> | [-> | ->]]]. Qed.

(** The text [s] is read as [v], whatever follows. *)
Definition reads_as (s : string) (v : pyval) : Prop :=
  head_ok (chars s) /\
  forall fuel rest, (String.length s < fuel)%nat -> stops rest -> scan_value fuel (chars s ++ rest) = Some (v, rest).

Lemma number_scan l v f rest : scan_number (l ++ rest) = Some (v, rest) -> l <> [] -> head_ok l /\ scan_value (S f) (l ++ rest) = Some (v, rest).
Proof.
  destruct l as [|c l]; [done|]. intros H _. simpl app in *.
  assert (Ascii.eqb c "-"%char || bool_decide (is_Some (digit_of c)) = true) as Hc.
  { unfold scan_number in H. simpl in H. destruct (Ascii.eqb c "-"%char); [done|]. simpl in *.
    destruct (digit_of c); [done|discriminate H]. }
  rewrite <- H. destruct c as [[] [] [] [] [] [] [] []]; first [discriminate Hc | by repeat split].
Qed.

Lemma reads_number s v : (forall rest, stops rest -> scan_number (chars s ++ rest) = Some (v, rest)) -> s <> "" -> reads_as s v.
Proof.
  intros H Hs. assert (chars s <> []) as Hc by (by destruct s).
  split; [by destruct (number_scan (chars s) v 0 [] (H [] I) Hc)|]. intros [|f] rest Hf Hr; [lia|].
  by destruct (number_scan (chars s) v f rest (H rest Hr) Hc).
Qed.

Lemma reads_quoted s : reads_as (json_quote json_char_raw s) (VStr s).
Proof.
  split; [by split|]. intros [|f] rest Hf _; [lia|]. unfold json_quote in *.
  assert (chars (chr 34 +:+ str_flat_map json_char_raw s +:+ chr 34) ++ rest =
    ascii_of_N 34 :: chars (str_flat_map json_char_raw s) ++ chars (chr 34) ++ rest) as ->.
  { rewrite !chars_app, <- !app_assoc. done. }
  cbn [scan_value]. change (char_eq (ascii_of_N 34) 34) with true. cbn match.
  rewrite scan_string_encoded; [done|apply json_char_raw_reads|].
  rewrite !str_length_app in Hf. pose proof (str_flat_map_length json_char_raw s json_char_raw_length). simpl in Hf. lia.
Qed.

Lemma reads_length s v : reads_as s v -> (1 <= String.length s)%nat.
Proof. intros [H _]. destruct s; simpl in *; [done|lia]. Qed.

Lemma stops_comma l : stops (","%char :: l).
Proof. by left. Qed.
Lemma stops_bracket l : stops ("]"%char :: l).
Proof. by right; left. Qed.
Lemma stops_brace l : stops ("}"%char :: l).
Proof. by right; right. Qed.

Lemma str_join_cons sep x y ss : str_join sep (x :: y :: ss) = x +:+ sep +:+ str_join sep (y :: ss).
Proof. done. Qed.

Lemma str_join_length sep ss s : s ∈ ss -> (String.length s <= String.length (str_join sep ss))%nat.
Proof.
  induction ss as [|x ss IH]; [set_solver|]. intros [->|H]%elem_of_cons; destruct ss as [|y ss]; rewrite ?str_join_cons, ?str_length_app.
  - simpl. lia.
  - lia.
  - set_solver.
  - specialize (IH H). lia.
Qed.

Lemma str_join_count ss : (forall s, s ∈ ss -> (1 <= String.length s)%nat) -> (length ss <= String.length (str_join "," ss))%nat.
Proof.
  induction ss as [|x ss IH]; intros H; [simpl; lia|]. destruct ss as [|y ss]; [apply H; set_solver|].
  rewrite str_join_cons, !str_length_app. assert (1 <= String.length x)%nat by (apply H; set_solver).
  assert (length (y :: ss) <= String.length (str_join "," (y :: ss)))%nat by (apply IH; set_solver). simpl length in *. simpl (String.length ","). lia.
Qed.

Lemma chars_join_cons x y ss : chars (str_join "," (x :: y :: ss)) = chars x ++ ","%char :: chars (str_join "," (y :: ss)).
Proof. by rewrite str_join_cons, !chars_app. Qed.

(** The elements of an array. *)
Lemma scan_items_reads f ss vs : Forall2 reads_as ss vs -> ss <> [] -> (forall s, s ∈ ss -> (String.length s < f)%nat) ->
  forall k acc rest, (length ss <= k)%nat ->
  scan_items (scan_value f) k acc (chars (str_join "," ss) ++ "]"%char :: rest) = Some (VList (acc ++ vs), rest).
Proof.
  intros H. induction H as [|s v ss vs [Hh Hs] Hss IH]; [done|]. intros _ Hf [|k] acc rest Hk; [simpl in Hk; lia|].
  destruct ss as [|s' ss].
  - inversion Hss; subst. simpl str_join. cbn [scan_items]. rewrite Hs by (apply stops_bracket || apply Hf; set_solver).
    cbn match. by rewrite next_stop by auto.
  - rewrite chars_join_cons, <- app_assoc. cbn [scan_items app]. rewrite Hs by (apply stops_comma || apply Hf; set_solver).
    cbn match. rewrite next_stop by auto. cbn match. change (Ascii.eqb "," ",") with true. cbn match.
    inversion Hss as [|? v' ? vs' [Hh' _] _]; subst. rewrite skip_head.
    + rewrite IH; [by rewrite <- app_assoc|done| |simpl in *; lia]. set_solver.
    + destruct ss; [exact Hh'|]. rewrite chars_join_cons. by destruct (chars s').
Qed.

(** A member as it is written. *)
Definition member_text (key s : string) : string := json_quote json_char_raw key +:+ ":" +:+ s.

Lemma scan_member_reads f key s v rest : reads_as s v -> (String.length (member_text key s) < f)%nat -> stops rest ->
  scan_member (scan_value f) f (chars (member_text key s) ++ rest) = Some (key, v, rest).
Proof.
  intros [Hh Hs] Hf Hr. unfold member_text, json_quote in *. rewrite !str_length_app in Hf.
  assert (chars ((chr 34 +:+ str_flat_map json_char_raw key +:+ chr 34) +:+ ":" +:+ s) ++ rest =
    ascii_of_N 34 :: chars (str_flat_map json_char_raw key) ++ chars (chr 34) ++ ":"%char :: chars s ++ rest) as ->.
  { rewrite !chars_app, <- !app_assoc. done. }
  cbn [scan_member]. change (char_eq (ascii_of_N 34) 34) with true. cbn match.
  rewrite scan_string_encoded; [|apply json_char_raw_reads|
    pose proof (str_flat_map_length json_char_raw key json_char_raw_length); simpl in Hf; lia].
  rewrite next_stop by auto. change (Ascii.eqb ":" ":") with true. cbn match. rewrite skip_head by done.
  rewrite Hs by (done || simpl in Hf; lia). done.
Qed.

Lemma scan_members_reads f kvs ss vs : Forall2 reads_as ss vs -> length kvs = length ss -> ss <> [] ->
  let texts := zip_with member_text kvs ss in (forall t, t ∈ texts -> (String.length t < f)%nat) ->
  forall k acc rest, (length ss <= k)%nat -> NoDup (dict_keys acc ++ kvs) ->
  scan_members (scan_value f) f k acc (chars (str_join "," texts) ++ "}"%char :: rest) = Some (VDict (acc ++ zip kvs vs), rest).
Proof.
  intros H. revert kvs. induction H as [|s v ss vs Hs Hss IH]; [done|]. intros [|key kvs] Hl _ texts Hf [|k] acc rest Hk Hn; try (simpl in *; lia).
  subst texts. cbn [zip_with] in *.
  assert (dict_set acc key v = acc ++ [(key, v)]) as Hset.
  { apply dict_set_new. unfold dict_has. destruct (dict_get acc key) eqn:E; [|done]. apply dict_get_elem in E. exfalso.
    apply NoDup_app in Hn as (_ & Hn & _). apply (Hn key); [apply list_elem_of_fmap; by exists (key, p)|set_solver]. }
  destruct ss as [|s' ss]; destruct kvs as [|key' kvs]; try done.
  - inversion Hss; subst. cbn [zip_with] in *. simpl str_join. cbn [scan_members].
    rewrite (scan_member_reads f key s v) by (done || apply stops_brace || apply Hf; set_solver).
    cbn match. rewrite next_stop by auto. change (Ascii.eqb "}" ",") with false. change (Ascii.eqb "}" "}") with true. cbn match. by rewrite Hset.
  - cbn [zip_with] in *. rewrite chars_join_cons, <- app_assoc. cbn [scan_members app].
    rewrite (scan_member_reads f key s v) by (done || apply stops_comma || apply Hf; set_solver).
    cbn match. rewrite next_stop by auto. change (Ascii.eqb "," ",") with true. cbn match.
    rewrite skip_head by (destruct ss; destruct kvs; simpl; by split).
    specialize (IH (key' :: kvs) ltac:(simpl in *; lia) ltac:(done)). cbv zeta in IH. cbn [zip_with] in IH.
    rewrite Hset, IH; [by rewrite <- app_assoc| |simpl in *; lia|].
    + intros t Ht. apply Hf. by apply elem_of_cons; right.
    + unfold dict_keys in *. rewrite map_app, <- app_assoc. done.
Qed.

(** ** The round trip *)

Lemma sort_by_key_map {A B} (g : A -> B) (d : list (string * A)) :
  sort_by key_leb (map (fun kv => (fst kv, g (snd kv))) d) = map (fun kv => (fst kv, g (snd kv))) (sort_by key_leb d).
Proof.
  induction d as [|[k a] d IH]; [done|]. simpl. rewrite IH. generalize (sort_by key_leb d). intros l.
  induction l as [|[k' a'] l IHl]; [done|]. simpl. unfold key_leb at 1 3. simpl. destruct (String.leb k k'); [done|]. simpl. by rewrite IHl.
Qed.

(** The members in the order they are written. *)
Definition members (d : list (string * pyval)) : list (string * pyval) := sort_by key_leb d.

Lemma dumps_list l ss : Forall2 (fun v s => json_dumps_raw v = Ok s) l ss -> json_dumps_raw (VList l) = Ok ("[" +:+ str_join "," ss +:+ "]").
Proof.
  intros H. change (json_dumps_raw (VList l)) with
    (let! parts := res_map_list (fun r => r) (map json_dumps_raw l) in Ok ("[" +:+ str_join "," parts +:+ "]")).
  assert (res_map_list (fun r => r) (map json_dumps_raw l) = Ok ss) as ->; [|done].
  induction H as [|v s l ss Hv _ IH]; [done|]. simpl. by rewrite Hv, IH.
Qed.

Lemma dumps_dict d ss : Forall2 (fun kv s => json_dumps_raw (snd kv) = Ok s) (members d) ss ->
  json_dumps_raw (VDict d) = Ok ("{" +:+ str_join "," (zip_with member_text (map fst (members d)) ss) +:+ "}").
Proof.
  intros H. change (json_dumps_raw (VDict d)) with
    (let! parts := res_map_list (fun kv => let! s := snd kv in Ok (json_quote json_char_raw (fst kv) +:+ ":" +:+ s))
       (sort_by key_leb (map (fun kv => (fst kv, json_dumps_raw (snd kv))) d)) in Ok ("{" +:+ str_join "," parts +:+ "}")).
  rewrite (sort_by_key_map json_dumps_raw d). fold (members d).
  match goal with |- (let! parts := ?m in _) = _ => assert (m = Ok (zip_with member_text (map fst (members d)) ss)) as ->; [|done] end.
  induction H as [|[k v] s l ss Hv _ IH]; [done|]. simpl in *. by rewrite Hv; simpl; rewrite IH.
Qed.

(** A value that is written, and whose text is read back as its canonical form. *)
Definition reads_back (v : pyval) : Prop := exists s, json_dumps_raw v = Ok s /\ reads_as s (canon v).

Lemma reads_back_list l : Forall reads_back l -> exists ss, Forall2 (fun v s => json_dumps_raw v = Ok s) l ss /\ Forall2 reads_as ss (map canon l).
Proof.
  induction 1 as [|v l (s & Hs & Hr) _ (ss & H1 & H2)]; [by exists []|]. exists (s :: ss). by split; constructor.
Qed.

Lemma reads_array ss vs : Forall2 reads_as ss vs -> reads_as ("[" +:+ str_join "," ss +:+ "]") (VList vs).
Proof.
  intros H. split; [by split|]. intros [|f] rest Hf Hr; [lia|]. rewrite !str_length_app in Hf. simpl String.length in Hf.
  assert (chars ("[" +:+ str_join "," ss +:+ "]") ++ rest = "["%char :: chars (str_join "," ss) ++ "]"%char :: rest) as ->.
  { rewrite !chars_app, <- !app_assoc. done. }
  cbn [scan_value]. change (scan_array (scan_value f) f (chars (str_join "," ss) ++ "]"%char :: rest) = Some (VList vs, rest)).
  unfold scan_array, next_char. destruct H as [|s v ss vs Hs Hss]; [done|].
  assert (head_ok (chars (str_join "," (s :: ss)))) as Hh.
  { destruct Hs as [Hh _]. destruct ss; [exact Hh|]. rewrite chars_join_cons. by destruct (chars s). }
  rewrite (skip_head _ _ Hh). rewrite <- (app_nil_l (v :: vs)).
  assert (forall k, (length (s :: ss) <= k)%nat -> scan_items (scan_value f) k [] (chars (str_join "," (s :: ss)) ++ "]"%char :: rest) =
    Some (VList ([] ++ v :: vs), rest)) as Hi.
  { intros k Hk. apply scan_items_reads; [by constructor|done| |done]. intros t Ht.
    pose proof (str_join_length "," _ _ Ht). lia. }
  rewrite Hi.
  - destruct (chars (str_join "," (s :: ss))) as [|c r]; [done|]. simpl. destruct Hh as [_ Hc].
    by destruct (Ascii.eqb_spec c "]"%char).
  - etransitivity; [apply str_join_count|lia]. intros t Ht. assert (Forall2 reads_as (s :: ss) (v :: vs)) as HF by (by constructor).
    apply list_elem_of_lookup in Ht as [i Hi']. destruct (Forall2_lookup_l _ _ _ _ _ HF Hi') as (w & _ & Hw). by eapply reads_length.
Qed.

Lemma reads_object kvs ss vs : Forall2 reads_as ss vs -> length kvs = length ss -> NoDup kvs ->
  reads_as ("{" +:+ str_join "," (zip_with member_text kvs ss) +:+ "}") (VDict (zip kvs vs)).
Proof.
  intros H Hl Hn. split; [by split|]. intros [|f] rest Hf Hr; [lia|]. rewrite !str_length_app in Hf. simpl String.length in Hf.
  set (texts := zip_with member_text kvs ss) in *.
  assert (chars ("{" +:+ str_join "," texts +:+ "}") ++ rest = "{"%char :: chars (str_join "," texts) ++ "}"%char :: rest) as ->.
  { rewrite !chars_app, <- !app_assoc. done. }
  cbn [scan_value]. change (scan_object (scan_value f) f (chars (str_join "," texts) ++ "}"%char :: rest) = Some (VDict (zip kvs vs), rest)).
  unfold scan_object, next_char. destruct kvs as [|key kvs], H as [|s v ss vs Hs Hss]; try done.
  assert (exists l, chars (str_join "," texts) = ascii_of_N 34 :: l) as [l El].
  { subst texts. cbn [zip_with]. destruct (zip_with member_text kvs ss); [by eexists|]. rewrite chars_join_cons. by eexists. }
  assert (head_ok (chars (str_join "," texts))) as Hh by (by rewrite El; split).
  rewrite (skip_head _ _ Hh).
  assert (forall k, (length (s :: ss) <= k)%nat -> scan_members (scan_value f) f k [] (chars (str_join "," texts) ++ "}"%char :: rest) =
    Some (VDict (zip (key :: kvs) (v :: vs)), rest)) as Hi.
  { intros k Hk. rewrite <- (app_nil_l (zip _ _)). apply (scan_members_reads f _ (s :: ss)); [by constructor|done|done| |done|done].
    intros t Ht. pose proof (str_join_length "," _ _ Ht). subst texts. lia. }
  rewrite Hi; [by rewrite El|].
  assert (length texts = length (s :: ss)) as <- by (subst texts; rewrite length_zip_with_l; simpl in *; lia).
  etransitivity; [apply str_join_count|lia]. intros t Ht. subst texts. apply elem_of_zip_with in Ht as (k & x & -> & _).
  unfold member_text, json_quote. rewrite !str_length_app. simpl. lia.
Qed.

Lemma float_text_finite r : float_text r = true -> str_in r ["nan"; "inf"; "-inf"] = false /\ json_float r = r /\ r <> "".
Proof.
  intros H. unfold json_float, str_in. rewrite bool_decide_eq_false.
  assert (r <> "nan" /\ r <> "inf" /\ r <> "-inf" /\ r <> "") as (H1 & H2 & H3 & H4) by (repeat split; intros ->; vm_compute in H; discriminate H).
  split; [set_solver|]. by rewrite !(proj2 (String.eqb_neq _ _)).
Qed.

Lemma members_decoded d : decoded (VDict d) = true -> Forall reads_back (map snd (members d)) -> reads_back (VDict d).
Proof.
  intros Hd H. apply reads_back_list in H as (ss & H1 & H2). simpl in Hd. apply andb_true_iff in Hd as [Hn%bool_decide_eq_true _].
  exists ("{" +:+ str_join "," (zip_with member_text (map fst (members d)) ss) +:+ "}"). split.
  - apply dumps_dict. clear -H1. revert ss H1. induction (members d) as [|kv l IH]; intros ss H1; inversion H1; subst; constructor; auto.
  - simpl canon. rewrite (sort_by_key_map canon d). fold (members d).
    assert (map (fun kv => (fst kv, canon (snd kv))) (members d) = zip (map fst (members d)) (map canon (map snd (members d)))) as ->.
    { clear. generalize (members d). intros l. induction l as [|kv l IH]; [done|]. simpl. by rewrite IH. }
    apply reads_object; [done| |].
    + apply Forall2_length in H1. rewrite length_map in H1. by rewrite length_map.
    + assert (map fst (members d) ≡ₚ map fst d) as -> by (by apply Permutation_map, sort_by_perm). done.
Qed.

Lemma decoded_reads_back v : decoded v = true -> reads_back v.
Proof.
  induction v as [|b|z|r|s|d|l IH|d IH] using pyval_nested_ind; intros Hd.
  - exists "null". split; [done|]. split; [by split|]. by intros [|f] rest Hf Hr; [lia|].
  - exists (if b then "true" else "false"). split; [done|]. split; [by destruct b|]. intros [|f] rest Hf Hr; [lia|]. by destruct b.
  - exists (int_str z). split; [done|]. apply reads_number; [apply scan_number_int|]. unfold int_str, digit_chars.
    pose proof (digits_nonnil (Z.abs_N z)). destruct (z <? 0); [done|]. by destruct (digits (Z.abs_N z)).
  - destruct (float_text_finite r Hd) as (H1 & H2 & H3). exists r. split.
    + unfold json_dumps_raw. simpl. unfold json_dumps_with. simpl negb. by rewrite H1, H2.
    + apply reads_number; [|done]. intros rest. by apply scan_number_float.
  - exists (json_quote json_char_raw s). split; [done|]. apply reads_quoted.
  - done.
  - assert (Forall reads_back l) as Hl.
    { rewrite Forall_forall in IH |- *. simpl in Hd. rewrite forallb_forall in Hd. intros v Hv. apply IH; [done|]. apply Hd. by apply list_elem_of_In. }
    apply reads_back_list in Hl as (ss & H1 & H2). exists ("[" +:+ str_join "," ss +:+ "]"). split; [by apply dumps_list|]. by apply reads_array.
  - apply members_decoded; [done|]. simpl in Hd. apply andb_true_iff in Hd as [_ Hd]. rewrite forallb_forall in Hd.
    pose proof (proj1 (Forall_forall (fun kv : string * pyval => decoded (snd kv) = true -> reads_back (snd kv)) d) IH) as IH'.
    apply Forall_forall. intros v Hv. apply list_elem_of_fmap in Hv as (kv & -> & Hkv). unfold members in Hkv.
    rewrite elem_of_sort_by in Hkv. apply IH'; [done|]. apply (Hd kv). by apply list_elem_of_In.
Qed.

(** Canonical JSON round trip: every value that decoding can build is
    serialized, and the text decodes to it with the keys of its dictionaries in order. *)
Theorem canonical_json_roundtrip v : decoded v = true ->
  exists s, json_dumps_raw v = Ok s /\ json_loads s = Ok (canon v).
Proof.
  intros Hd. destruct (decoded_reads_back v Hd) as (s & Hs & Hh & Hr). exists s. split; [done|].
  unfold json_loads. fold (chars s). rewrite <- (app_nil_r (chars s)), skip_head, Hr; [done| |done|done].
  rewrite app_nil_r, chars_length. lia.
Qed.

(** ** Canonical values *)

Lemma key_leb_total {V} (x y : string * V) : key_leb x y = false -> key_leb y x = true.
Proof. apply string_leb_total. Qed.

Lemma key_leb_trans {V} (x y z : string * V) : key_leb x y = true -> key_leb y z = true -> key_leb x z = true.
Proof. apply string_leb_trans. Qed.

Lemma sort_sorted {A} (leb : A -> A -> bool) l : StronglySorted (fun a b => leb a b = true) l -> sort_by leb l = l.
Proof.
  induction 1 as [|x l Hl IH Hx]; [done|]. simpl. rewrite IH. destruct Hx as [|y l Hxy _]; [done|]. simpl. by rewrite Hxy.
Qed.

Lemma members_sorted d : sort_by key_leb (members d) = members d.
Proof. apply sort_sorted, sort_by_sorted; [apply key_leb_total|apply key_leb_trans]. Qed.

Lemma dumps_list_eq l : json_dumps_raw (VList l) =
  (let! parts := res_map_list (fun r => r) (map json_dumps_raw l) in Ok ("[" +:+ str_join "," parts +:+ "]")).
Proof. done. Qed.

Lemma dumps_dict_eq d : json_dumps_raw (VDict d) =
  (let! parts := res_map_list (fun kv => let! s := json_dumps_raw (snd kv) in Ok (member_text (fst kv) s)) (members d) in
   Ok ("{" +:+ str_join "," parts +:+ "}")).
Proof.
  change (json_dumps_raw (VDict d)) with
    (let! parts := res_map_list (fun kv => let! s := snd kv in Ok (member_text (fst kv) s))
       (sort_by key_leb (map (fun kv => (fst kv, json_dumps_raw (snd kv))) d)) in Ok ("{" +:+ str_join "," parts +:+ "}")).
  rewrite (sort_by_key_map json_dumps_raw d). fold (members d). f_equal. generalize (members d). intros l.
  induction l as [|kv l IH]; [done|]. cbn [map res_map_list fst snd]. by rewrite IH.
Qed.

Lemma res_map_list_ext {A B C} (f : A -> result C) (g : B -> result C) (h : A -> B) l :
  (forall x, x ∈ l -> f x = g (h x)) -> res_map_list g (map h l) = res_map_list f l.
Proof.
  induction l as [|x l IH]; intros H; [done|]. simpl. rewrite <- H by set_solver. rewrite IH by set_solver. done.
Qed.

(** The text of the canonical value is the text of the value. *)
Lemma dumps_canon v : json_dumps_raw (canon v) = json_dumps_raw v.
Proof.
  induction v as [|b|z|r|s|d|l IH|d IH] using pyval_nested_ind; try done.
  - simpl canon. rewrite !dumps_list_eq.
    assert (map json_dumps_raw (map canon l) = map json_dumps_raw l) as ->; [|done].
    induction IH as [|v l Hv _ IHl]; [done|]. simpl. by rewrite Hv, IHl.
  - simpl canon. rewrite !dumps_dict_eq, (sort_by_key_map canon d). fold (members d).
    assert (members (map (fun kv => (fst kv, canon (snd kv))) (members d)) = map (fun kv => (fst kv, canon (snd kv))) (members d)) as ->.
    { unfold members at 1. by rewrite (sort_by_key_map canon (members d)), members_sorted. }
    f_equal. apply res_map_list_ext. intros kv Hkv. unfold members in Hkv. rewrite elem_of_sort_by in Hkv. simpl.
    pose proof (proj1 (Forall_forall (fun kv : string * pyval => json_dumps_raw (canon (snd kv)) = json_dumps_raw (snd kv)) d) IH) as IH'.
    by rewrite IH'.
Qed.

(** Two decoded values with one text are equal up to the order of their keys. *)
Lemma dumps_inj v w s : decoded v = true -> decoded w = true -> json_dumps_raw v = Ok s -> json_dumps_raw w = Ok s -> canon v = canon w.
Proof.
  intros Hv Hw Ev Ew. destruct (decoded_reads_back v Hv) as (s1 & E1 & _ & R1). destruct (decoded_reads_back w Hw) as (s2 & E2 & _ & R2).
  assert (s1 = s) as -> by congruence. assert (s2 = s) as -> by congruence.
  specialize (R1 (S (String.length s)) [] ltac:(lia) I). specialize (R2 (S (String.length s)) [] ltac:(lia) I). congruence.
Qed.

(** ** Flat dictionaries *)

Definition plain (v : pyval) : bool := match v with VInt _ | VStr _ | VNone | VBool _ => true | _ => false end.

Definition flat (d : list (string * pyval)) : Prop := NoDup (map fst d) /\ forallb (fun kv => plain (snd kv)) d = true.

Lemma flat_decoded d : flat d -> decoded (VDict d) = true.
Proof.
  intros [Hn Hp]. simpl. rewrite bool_decide_eq_true_2 by done. simpl. rewrite forallb_forall in Hp |- *.
  intros kv Hkv. specialize (Hp kv Hkv). by destruct (snd kv).
Qed.

Lemma flat_canon d : flat d -> canon (VDict d) = VDict (members d).
Proof.
  intros [_ Hp]. simpl. rewrite (sort_by_key_map canon d). fold (members d). f_equal. rewrite <- (map_id (members d)) at 2.
  apply map_ext_in. intros [k v] Hkv. simpl. apply list_elem_of_In in Hkv. unfold members in Hkv. rewrite elem_of_sort_by in Hkv.
  rewrite forallb_forall in Hp. specialize (Hp _ (proj1 (list_elem_of_In _ _) Hkv)). by destruct v.
Qed.

Lemma scalar_eq_refl v : plain v = true -> py_eq v v = true.
Proof.
  destruct v; try done; intros _; simpl; unfold scalar_eq; simpl.
  - by destruct b.
  - apply deqb_spec. reflexivity.
  - apply String.eqb_refl.
Qed.

(** The order of the keys does not matter. *)
Lemma py_eq_members d e : flat d -> e ≡ₚ d -> py_eq (VDict d) (VDict e) = true.
Proof.
  intros [Hn Hp] He. simpl. rewrite He, Nat.eqb_refl. simpl.
  assert (forall kv, In kv d -> dict_get e (fst kv) = Some (snd kv)) as Hget.
  { intros [k v] Hkv. apply dict_get_In.
    - unfold dict_keys. assert (map fst e ≡ₚ map fst d) as -> by (by apply Permutation_map). done.
    - rewrite He. by apply list_elem_of_In. }
  rewrite forallb_forall in Hp. clear Hn He. induction d as [|[k v] d IH]; [done|].
  pose proof (Hget (k, v) (or_introl eq_refl)) as Hg. simpl in Hg. rewrite Hg.
  rewrite (scalar_eq_refl v) by (apply (Hp (k, v)); by left). simpl. apply IH; intros kv Hkv; [apply Hp|apply Hget]; by right.
Qed.

(** ** Decoded dictionaries *)

Lemma scan_members_keys scan f k : forall acc l v r, scan_members scan f k acc l = Some (v, r) -> NoDup (dict_keys acc) ->
  exists d, v = VDict d /\ NoDup (dict_keys d).
Proof.
  induction k as [|k IH]; [done|]. intros acc l v r H Hn. cbn [scan_members] in H.
  destruct (scan_member scan f l) as [[[key x] r']|]; [|done]. destruct (next_char r') as [[c r2]|]; [|done].
  pose proof (dict_set_NoDup acc key x Hn) as Hn'. destruct (Ascii.eqb c ","%char); [by eapply IH|].
  destruct (Ascii.eqb c "}"%char); [|done]. injection H as <- <-. by eexists.
Qed.

Lemma scan_items_list scan k : forall acc l v r, scan_items scan k acc l = Some (v, r) -> exists l', v = VList l'.
Proof.
  induction k as [|k IH]; [done|]. intros acc l v r H. cbn [scan_items] in H.
  destruct (scan l) as [[x r']|]; [|done]. destruct (next_char r') as [[c r2]|]; [|done].
  destruct (Ascii.eqb c ","%char); [by eapply IH|]. destruct (Ascii.eqb c "]"%char); [|done]. injection H as <- <-. by eexists.
Qed.

Lemma scan_number_kind l v r : scan_number l = Some (v, r) -> (exists z, v = VInt z) \/ exists t, v = VFloat t.
Proof.
  unfold scan_number. destruct (scan_minus l) as [neg l1]. destruct (scan_int l1) as [[ints l2]|]; [|done].
  destruct (scan_frac l2) as [fracs l3]. destruct (scan_exp l3) as [e l4]. destruct fracs, e; intros [= <- _]; eauto.
Qed.

(** The keys of a decoded object are distinct. *)
Lemma loads_keys s d : json_loads s = Ok (VDict d) -> NoDup (dict_keys d).
Proof.
  unfold json_loads. destruct (scan_value _ _) as [[v r]|] eqn:H; [|done]. destruct (skip_ws r); [|done]. intros [= ->].
  revert H. generalize (S (length (String.list_ascii_of_string s))) as fuel, (skip_ws (String.list_ascii_of_string s)) as l.
  intros [|f] l H; [done|]. destruct l as [|c l]; [done|]. cbn [scan_value] in H.
  destruct (char_eq c 34); [by destruct (scan_string f l) as [[x y]|]; simplify_eq|].
  destruct (Ascii.eqb c "{"%char).
  { unfold scan_object in H. destruct (next_char l) as [[c' r']|]; [|done].
    destruct (Ascii.eqb c' "}"%char); [injection H as <- _; constructor|].
    destruct (scan_members_keys _ _ _ _ _ _ _ H) as (d' & [= <-] & Hn); [constructor|done]. }
  destruct (Ascii.eqb c "["%char).
  { unfold scan_array in H. destruct (next_char l) as [[c' r']|]; [|done]. destruct (Ascii.eqb c' "]"%char); [done|].
    by destruct (scan_items_list _ _ _ _ _ _ H) as [l' [=]]. }
  unfold scan_word_or_number in H. destruct (after_word "null" (c :: l)); [done|]. destruct (after_word "true" (c :: l)); [done|].
  destruct (after_word "false" (c :: l)); [done|]. by destruct (scan_number_kind _ _ _ H) as [[z [=]]|[t [=]]].
Qed.

(** ** Equality with a flat dictionary *)

Definition text_or_int (v : pyval) : Prop := (exists s, v = VStr s) \/ exists z, v = VInt z.

Lemma py_eq_scalar x y : text_or_int y -> py_eq x y = scalar_eq x y.
Proof. by intros [[s ->]|[z ->]]; destruct x. Qed.

Lemma scalar_eq_unique x y1 y2 : text_or_int y1 -> text_or_int y2 -> scalar_eq x y1 = true -> scalar_eq x y2 = true -> y1 = y2.
Proof.
  assert (forall z1 z2 d, deqb d (Dec (z1 <? 0) (Z.abs_N z1) 0) = true -> deqb d (Dec (z2 <? 0) (Z.abs_N z2) 0) = true -> z1 = z2) as Hz.
  { intros z1 z2 d H1%deqb_spec H2%deqb_spec. rewrite H1 in H2. rewrite !dval_mkval in H2. apply mkval_eq in H2.
    unfold zsigned in H2. simpl in H2. destruct (Z.ltb_spec z1 0), (Z.ltb_spec z2 0); lia. }
  intros [[s1 ->]|[z1 ->]] [[s2 ->]|[z2 ->]] H1 H2; unfold scalar_eq in *.
  - destruct x; simpl in *; try done; try (destruct (float_of_str _) as [[| | |]|]; done).
    apply String.eqb_eq in H1, H2. congruence.
  - exfalso. destruct x; simpl in *; try done; try (destruct (float_of_str _) as [[| | |]|]; done).
  - exfalso. destruct x; simpl in *; try done; try (destruct (float_of_str _) as [[| | |]|]; done).
  - f_equal. destruct x; simpl in *; try done; try (by eapply Hz).
    destruct (float_of_str repr) as [fl|]; [|done]. destruct fl; simpl in *; try done; try (by eapply Hz).
Qed.

Lemma py_eq_dict_get (d e : list (string * pyval)) k x : py_eq (VDict d) (VDict e) = true -> (k, x) ∈ d ->
  exists y, dict_get e k = Some y /\ py_eq x y = true.
Proof.
  simpl. intros [_ H]%andb_true_iff. revert H. induction d as [|[k' x'] d IH]; [set_solver|]. intros [H1 H2]%andb_true_iff [[= -> ->]|Hin]%elem_of_cons.
  - destruct (dict_get e k') as [y|]; [by exists y|done].
  - by apply IH.
Qed.

Lemma py_eq_keys (d e : list (string * pyval)) : NoDup (dict_keys d) -> py_eq (VDict d) (VDict e) = true -> dict_keys d ≡ₚ dict_keys e.
Proof.
  intros Hn H. apply submseteq_length_Permutation.
  - apply NoDup_submseteq; [done|]. intros k ([k' x] & -> & Hin)%list_elem_of_fmap. destruct (py_eq_dict_get _ _ _ _ H Hin) as (y & Hy & _).
    apply dict_get_elem in Hy. apply list_elem_of_fmap. by exists (k', y).
  - unfold dict_keys. rewrite !length_map. simpl in H. apply andb_true_iff in H as [H _]. apply Nat.eqb_eq in H. simpl in *. lia.
Qed.

Lemma py_eq_get (d e : list (string * pyval)) k v : NoDup (dict_keys d) -> py_eq (VDict d) (VDict e) = true -> dict_get e k = Some v ->
  exists x, dict_get d k = Some x /\ py_eq x v = true.
Proof.
  intros Hn H Hv. assert (k ∈ dict_keys d) as Hk.
  { rewrite (py_eq_keys d e) by done. apply dict_get_elem in Hv. apply list_elem_of_fmap. by exists (k, v). }
  apply list_elem_of_fmap in Hk as ([k' x] & -> & Hin). cbn [fst] in *. exists x. split; [by apply dict_get_In|].
  destruct (py_eq_dict_get _ _ _ _ H Hin) as (y & Hy & Hq). by simplify_eq.
Qed.

(** Two flat dictionaries equal to one decoded dictionary have the same values. *)
Lemma flat_determined d e1 e2 k y1 y2 : NoDup (dict_keys d) -> py_eq (VDict d) (VDict e1) = true -> py_eq (VDict d) (VDict e2) = true ->
  dict_get e1 k = Some y1 -> dict_get e2 k = Some y2 -> text_or_int y1 -> text_or_int y2 -> y1 = y2.
Proof.
  intros Hn H1 H2 G1 G2 T1 T2. destruct (py_eq_get d e1 k y1 Hn H1 G1) as (x1 & E1 & Q1). destruct (py_eq_get d e2 k y2 Hn H2 G2) as (x2 & E2 & Q2).
  simplify_eq. rewrite py_eq_scalar in Q1, Q2 by done. by eapply scalar_eq_unique.
Qed.
