(* ===== verification/ExchangeStatements.v ===== *)
(** * Exchange statements: normalization and validation

    Model of the first half of [src/bongus/engine/exchange_statements.py]: the
    normalizers of Binance futures income and margin interest, and the validation that
    ingestion repeats on a normalized row.  A payload is an untyped value; the context
    (account, mode, strategy, venue) is text as annotated. *)
From Stdlib Require Import ZArith Lia Ascii.
From stdpp Require Import base list strings.
From S2P Require Import Prelude PyDecimal PyDecimalPlain PyTime PyValue PyCalendar PyJson EconomicLedger.
Open Scope Z_scope.

Definition EXCHANGE_STATEMENT_SCHEMA_VERSION : Z := 1.

Definition BINANCE_FUTURES_INCOME : string := "BINANCE_FUTURES_INCOME".
Definition BINANCE_MARGIN_INTEREST : string := "BINANCE_MARGIN_INTEREST".
Definition MARGIN_INTEREST : string := "MARGIN_INTEREST".

Definition LEDGERED : string := "LEDGERED".
Definition MATCH_REQUIRED : string := "MATCH_REQUIRED".
Definition UNMAPPED : string := "UNMAPPED".

Definition STATEMENT_RECONCILIATION_STATUSES : list string := [LEDGERED; MATCH_REQUIRED; UNMAPPED].
Definition FUTURES_INCOME_MATCH_REQUIRED_TYPES : list string := ["COMMISSION"; "REALIZED_PNL"].

(** ** Data *)

(** The fields of a statement that the journal stores. *)
Record statement_fields := StatementFields {
  statement_schema_version : Z;
  statement_key : string;
  st_content_hash : string;
  canonical_content_json : string;
  st_venue : string;
  st_account_id : string;
  st_trading_mode : string;
  statement_source : string;
  statement_type : string;
  exchange_transaction_id : string;
  st_event_time : string;
  event_time_ms : Z;
  st_symbol : string;
  st_asset : string;
  st_amount : string;
  st_order_id : string;
  st_trade_id : string;
  reconciliation_status : string;
  st_raw_payload_json : string
}.

Record NormalizedExchangeStatement := Statement {
  st_fields : statement_fields;
  economic_event : option EconomicLedgerEvent
}.

Definition statement_error {A} (msg : string) : result A := raise ExchangeStatementValidationError msg.

(** [if not condition: raise ExchangeStatementValidationError(msg)] *)
Definition require (condition : bool) (msg : string) : result unit :=
  if condition then Ok tt else statement_error msg.

(** ** Field normalization *)

Definition _require_text (transform : string -> string) (value : pyval) (field_name : string) : result string :=
  match value with
  | VNone => statement_error (field_name +:+ " is required")
  | _ =>
      let text := strip (py_str value) in
      if negb (nonempty text) then statement_error (field_name +:+ " is required")
      else if 256 <? Z.of_nat (String.length text) then statement_error (field_name +:+ " is too long")
      else Ok (transform text)
  end.

Definition _optional_text (transform : string -> string) (value : pyval) : result string :=
  match value with
  | VNone => Ok ""
  | _ =>
      let text := strip (py_str value) in
      if 256 <? Z.of_nat (String.length text) then statement_error "statement text field is too long"
      else Ok (transform text)
  end.

Definition _transaction_id (value : pyval) (field_name : string) : result string :=
  match value with
  | VStr _ | VInt _ => _require_text same value field_name
  | _ => statement_error (field_name +:+ " must be a string or integer exchange identifier")
  end.

(** The guard [value is None or isinstance(value, bool)]. *)
Definition absent_or_bool (value : pyval) : bool := match value with VNone | VBool _ => true | _ => false end.

Definition _canonical_decimal (value : pyval) (field_name : string) : result string :=
  if absent_or_bool value then statement_error (field_name +:+ " is required")
  else
    let! parsed := finite_decimal ExchangeStatementValidationError false value field_name in
    if is_zero parsed then Ok "0" else let! n := dnormalize parsed in Ok (dec_plain n).

(** [datetime.fromtimestamp(seconds, tz=utc) + timedelta(milliseconds=remainder_ms)] *)
Definition datetime_from_ms (milliseconds : Z) : result Z :=
  let! t := fromtimestamp_int (milliseconds / 1000) in plus_delta t (milliseconds mod 1000 * 1000).

Definition time_errors (k : exn_kind) : bool := match k with OverflowError | OSError | ValueError => true | _ => false end.

Definition _timestamp_ms (value : pyval) (field_name : string) : result Z :=
  if absent_or_bool value then statement_error (field_name +:+ " is required")
  else
    let! n := res_catch (Decimal_of value) numeric_errors
                (statement_error (field_name +:+ " must be an integer Unix timestamp in milliseconds")) in
    match n with
    | DFin d =>
        if negb (deqb d (to_integral rnd_half_even d)) || dlt d d0 then
          statement_error (field_name +:+ " must be a non-negative integer Unix timestamp in milliseconds")
        else
          let milliseconds := dec_trunc d in
          let! _ := res_catch (datetime_from_ms milliseconds) time_errors (statement_error (field_name +:+ " is out of range")) in
          Ok milliseconds
    | _ => statement_error (field_name +:+ " must be a non-negative integer Unix timestamp in milliseconds")
    end.

Definition _iso_from_timestamp_ms (milliseconds : Z) : result string :=
  let! t := datetime_from_ms milliseconds in Ok (isoformat t).

Definition _canonical_json (value : dict pyval) (field_name : string) : result string :=
  res_catch (json_dumps_raw (VDict value)) json_errors (statement_error (field_name +:+ " must be a JSON-serializable object")).

(** ** Identities *)

Definition statement_identity (venue account_id source type transaction_id : string) : pyval :=
  VDict [("venue", VStr venue); ("account_id", VStr account_id); ("statement_source", VStr source);
         ("statement_type", VStr type); ("exchange_transaction_id", VStr transaction_id)].

Definition _statement_identity_key (venue account_id source type transaction_id : string) : result string :=
  json_sha256 false (statement_identity venue account_id source type transaction_id).

Definition cursor_identity (venue account_id source : string) : pyval :=
  VDict [("venue", VStr venue); ("account_id", VStr account_id); ("statement_source", VStr source)].

Definition statement_cursor_key (venue account_id source : string) : result string :=
  let! venue := _require_text upper (VStr venue) "venue" in
  let! account_id := _require_text same (VStr account_id) "account_id" in
  let! source := _require_text upper (VStr source) "statement_source" in
  json_sha256 false (cursor_identity venue account_id source).

(** ** Building a statement *)

(** The content that is hashed, from the extra fields as text. *)
Definition content_of (version : Z) (venue account_id mode source type tx time : string) (ms : Z)
    (symbol asset amount order_id trade_id status extras : string) : list (string * pyval) :=
  [("statement_schema_version", VInt version); ("venue", VStr venue); ("account_id", VStr account_id); ("trading_mode", VStr mode);
   ("statement_source", VStr source); ("statement_type", VStr type); ("exchange_transaction_id", VStr tx);
   ("event_time", VStr time); ("event_time_ms", VInt ms); ("symbol", VStr symbol); ("asset", VStr asset); ("amount", VStr amount);
   ("order_id", VStr order_id); ("trade_id", VStr trade_id); ("reconciliation_status", VStr status);
   ("canonical_source_extras_json", VStr extras)].

(** [json.dumps(..., sort_keys=True, separators=(",", ":"), ensure_ascii=False)] *)
Definition content_json : pyval -> result string := json_dumps_with json_char_raw true "," ":" false.
#[global] Arguments content_json : simpl never.

Definition has_event {A} (o : option A) : bool := match o with Some _ => true | None => false end.

(** The arguments of [_build_statement]. *)
Record draft := Draft {
  d_venue : string;
  d_account_id : string;
  d_trading_mode : string;
  d_source : string;
  d_type : string;
  d_transaction_id : string;
  d_time_ms : Z;
  d_symbol : string;
  d_asset : string;
  d_amount : string;
  d_order_id : string;
  d_trade_id : string;
  d_status : string;
  d_raw_payload : dict pyval;
  d_extras : dict pyval;
  d_event : option EconomicLedgerEvent
}.

Definition _build_statement (d : draft) : result NormalizedExchangeStatement :=
  let! venue := _require_text upper (VStr (d_venue d)) "venue" in
  let! account := _require_text same (VStr (d_account_id d)) "account_id" in
  let! mode := _require_text lower (VStr (d_trading_mode d)) "trading_mode" in
  let! source := _require_text upper (VStr (d_source d)) "statement_source" in
  let! type := _require_text upper (VStr (d_type d)) "statement_type" in
  let! tx := _transaction_id (VStr (d_transaction_id d)) "exchange_transaction_id" in
  let! symbol := _optional_text upper (VStr (d_symbol d)) in
  let! asset := _require_text upper (VStr (d_asset d)) "asset" in
  let! amount := _canonical_decimal (VStr (d_amount d)) "amount" in
  let! order_id := _optional_text same (VStr (d_order_id d)) in
  let! trade_id := _optional_text same (VStr (d_trade_id d)) in
  let! status := _require_text upper (VStr (d_status d)) "reconciliation_status" in
  let! _ := require (str_in status STATEMENT_RECONCILIATION_STATUSES) ("unsupported reconciliation_status " +:+ repr_str status) in
  let! _ := require (Bool.eqb (String.eqb status LEDGERED) (has_event (d_event d)))
              "LEDGERED statements require exactly one economic event; evidence-only statements must not carry one" in
  let! event_time := _iso_from_timestamp_ms (d_time_ms d) in
  let! raw := _canonical_json (d_raw_payload d) "raw_payload" in
  let! extras := _canonical_json (d_extras d) "canonical_source_extras" in
  let! key := _statement_identity_key venue account source type tx in
  let! content := content_json (VDict (content_of EXCHANGE_STATEMENT_SCHEMA_VERSION venue account mode source type tx event_time
                    (d_time_ms d) symbol asset amount order_id trade_id status extras)) in
  Ok (Statement
        (StatementFields EXCHANGE_STATEMENT_SCHEMA_VERSION key (sha256_hex content) content venue account mode source type tx
           event_time (d_time_ms d) symbol asset amount order_id trade_id status raw)
        (d_event d)).

(** ** The normalizers *)

(** The context of a row. *)
Record context := Context_of {
  c_account_id : string;
  c_trading_mode : string;
  c_strategy_id : string;
  c_venue : string;
  c_runtime_mode : string;
  c_session_id : string
}.

(** [except LedgerValidationError as exc: raise ExchangeStatementValidationError(str(exc))] *)
Definition as_statement_error {A} (m : result A) : result A :=
  match m with
  | Ok a => Ok a
  | Err e => match exn_class e with LedgerValidationError => statement_error (exn_message e) | _ => Err e end
  end.

(** The call of [build_cashflow_event]. *)
Definition cashflow_event (c : context) (event_type : string) (ms : Z) (asset amount source_id symbol instrument_type : string)
    (metadata raw_payload : dict pyval) : result EconomicLedgerEvent :=
  as_statement_error
    (let! event_time := _iso_from_timestamp_ms ms in
     build_cashflow_event
       (Envelope event_time (c_account_id c) (c_trading_mode c) (c_venue c) (c_strategy_id c) source_id symbol "" "" "" ""
          source_id "" "" "" "" "" (c_runtime_mode c) (c_session_id c) metadata (Some raw_payload))
       event_type instrument_type asset (VStr amount) VNone).

(** [f"binance:{account}:{kind}:{transaction_id}"] *)
Definition source_identity (c : context) (kind tx : string) : result string :=
  let! account := _require_text same (VStr (c_account_id c)) "account_id" in
  Ok ("binance:" +:+ account +:+ ":" +:+ kind +:+ ":" +:+ tx).

(** [{str(key): value for key, value in payload.items() if key not in standard_fields}] *)
Definition extras_of (standard : list string) (payload : dict pyval) : dict pyval :=
  List.filter (fun kv => negb (str_in (fst kv) standard)) payload.

Definition INCOME_STANDARD_FIELDS : list string :=
  ["incomeType"; "tranId"; "time"; "income"; "asset"; "symbol"; "tradeId"; "orderId"].
Definition INTEREST_STANDARD_FIELDS : list string :=
  ["txId"; "interestAccuredTime"; "interestAccruedTime"; "interest"; "asset"; "isolatedSymbol"; "symbol"].

(** ["" if value in (None, "") else _transaction_id(value, name)] *)
Definition optional_id (value : pyval) (name : string) : result string :=
  match value with VNone | VStr EmptyString => Ok "" | _ => _transaction_id value name end.

(** The event and status of an income row, by its type. *)
Definition income_event (c : context) (type tx : string) (ms : Z) (asset amount symbol : string) (raw : dict pyval)
    : result (option EconomicLedgerEvent * string) :=
  if String.eqb type "FUNDING_FEE" then
    let! _ := require (nonempty symbol) "FUNDING_FEE symbol is required" in
    let! source_id := source_identity c "funding" tx in
    let! e := cashflow_event c "FUNDING" ms asset amount source_id symbol "PERPETUAL" [("income_type", VStr "FUNDING_FEE")] raw in
    Ok (Some e, LEDGERED)
  else if String.eqb type "TRANSFER" then
    let! source_id := source_identity c "futures_transfer" tx in
    let! e := cashflow_event c "BALANCE_ADJUSTMENT" ms asset amount source_id symbol "" [("income_type", VStr "TRANSFER")] raw in
    Ok (Some e, LEDGERED)
  else if str_in type FUTURES_INCOME_MATCH_REQUIRED_TYPES then
    let! _ := require (nonempty symbol) (type +:+ " symbol is required") in
    Ok (None, MATCH_REQUIRED)
  else Ok (None, UNMAPPED).

Definition payload_object (payload : pyval) : result (dict pyval) :=
  match as_dict payload with Some d => Ok d | None => statement_error "payload must be an object" end.

Definition normalize_binance_futures_income (payload : pyval) (c : context) : result NormalizedExchangeStatement :=
  let! p := payload_object payload in
  let! income_type := _require_text upper (get p "incomeType") "incomeType" in
  let! transaction_id := _transaction_id (get p "tranId") "tranId" in
  let! timestamp := _timestamp_ms (get p "time") "time" in
  let! amount := _canonical_decimal (get p "income") "income" in
  let! asset := _require_text upper (get p "asset") "asset" in
  let! symbol := _optional_text upper (get p "symbol") in
  let! trade_id := optional_id (get p "tradeId") "tradeId" in
  let! order_id := optional_id (get p "orderId") "orderId" in
  let! ev := income_event c income_type transaction_id timestamp asset amount symbol p in
  _build_statement (Draft (c_venue c) (c_account_id c) (c_trading_mode c) BINANCE_FUTURES_INCOME income_type transaction_id
    timestamp symbol asset amount order_id trade_id (snd ev) p (extras_of INCOME_STANDARD_FIELDS p) (fst ev)).

(** [payload.get("interestAccuredTime")], or its other spelling. *)
Definition interest_time (p : dict pyval) : pyval :=
  if is_none (get p "interestAccuredTime") then get p "interestAccruedTime" else get p "interestAccuredTime".

Definition normalize_binance_margin_interest (payload : pyval) (c : context) : result NormalizedExchangeStatement :=
  let! p := payload_object payload in
  let! transaction_id := _transaction_id (get p "txId") "txId" in
  let! timestamp := _timestamp_ms (interest_time p) "interestAccuredTime" in
  let! interest := _canonical_decimal (get p "interest") "interest" in
  let! d := text_decimal interest in
  let! _ := require (negb (dle d d0)) "interest must be a positive charge" in
  let! asset := _require_text upper (get p "asset") "asset" in
  let! symbol := _optional_text upper (py_or (get p "isolatedSymbol") (get p "symbol")) in
  let! source_id := source_identity c "margin_interest" transaction_id in
  let! interest_type := _optional_text upper (get p "type") in
  let! e := cashflow_event c "BORROW_INTEREST" timestamp asset interest source_id symbol "MARGIN"
              [("interest_type", VStr interest_type); ("isolated_symbol", VStr symbol)] p in
  _build_statement (Draft (c_venue c) (c_account_id c) (c_trading_mode c) BINANCE_MARGIN_INTEREST MARGIN_INTEREST transaction_id
    timestamp symbol asset interest "" "" LEDGERED p (extras_of INTEREST_STANDARD_FIELDS p) (Some e)).

(** ** Validation *)

(** The text decodes to an object and is its canonical text. *)
Definition _load_canonical_object (value field_name : string) : result (dict pyval) :=
  let! parsed := res_catch (json_loads value) json_errors (statement_error (field_name +:+ " must contain canonical JSON")) in
  match parsed with
  | VDict d =>
      let! canonical := json_dumps_raw parsed in
      let! _ := require (String.eqb canonical value) (field_name +:+ " is not canonical JSON") in Ok d
  | _ => statement_error (field_name +:+ " must contain a JSON object")
  end.

(** [if value != normalized: raise] *)
Definition require_same (value : string) (normalized : result string) (name : string) : result unit :=
  let! n := normalized in require (String.eqb value n) (name +:+ " is not canonical").

Definition validate_fields (f : statement_fields) : result unit :=
  let! _ := require (statement_schema_version f =? EXCHANGE_STATEMENT_SCHEMA_VERSION)
              ("unsupported statement schema version " +:+ int_str (statement_schema_version f)) in
  let! _ := require_same (st_venue f) (_require_text upper (VStr (st_venue f)) "venue") "venue" in
  let! _ := require_same (st_account_id f) (_require_text same (VStr (st_account_id f)) "account_id") "account_id" in
  let! _ := require_same (st_trading_mode f) (_require_text lower (VStr (st_trading_mode f)) "trading_mode") "trading_mode" in
  let! _ := require_same (statement_source f) (_require_text upper (VStr (statement_source f)) "statement_source") "statement_source" in
  let! _ := require_same (statement_type f) (_require_text upper (VStr (statement_type f)) "statement_type") "statement_type" in
  let! _ := require_same (exchange_transaction_id f) (_transaction_id (VStr (exchange_transaction_id f)) "exchange_transaction_id")
              "exchange_transaction_id" in
  let! time := _iso_from_timestamp_ms (event_time_ms f) in
  let! _ := require (String.eqb (st_event_time f) time) "event_time does not match event_time_ms" in
  let! _ := require_same (st_symbol f) (_optional_text upper (VStr (st_symbol f))) "symbol" in
  let! _ := require_same (st_asset f) (_require_text upper (VStr (st_asset f)) "asset") "asset" in
  let! _ := require_same (st_amount f) (_canonical_decimal (VStr (st_amount f)) "amount") "amount" in
  let! _ := require_same (st_order_id f) (_optional_text same (VStr (st_order_id f))) "order_id" in
  let! _ := require_same (st_trade_id f) (_optional_text same (VStr (st_trade_id f))) "trade_id" in
  require (str_in (reconciliation_status f) STATEMENT_RECONCILIATION_STATUSES) "reconciliation_status is not supported".

(** The content of the fields of a statement. *)
Definition content_of_fields (f : statement_fields) (extras : string) : list (string * pyval) :=
  content_of (statement_schema_version f) (st_venue f) (st_account_id f) (st_trading_mode f) (statement_source f) (statement_type f)
    (exchange_transaction_id f) (st_event_time f) (event_time_ms f) (st_symbol f) (st_asset f) (st_amount f) (st_order_id f)
    (st_trade_id f) (reconciliation_status f) extras.

Definition validate_content (f : statement_fields) : result unit :=
  let! key := _statement_identity_key (st_venue f) (st_account_id f) (statement_source f) (statement_type f) (exchange_transaction_id f) in
  let! _ := require (String.eqb (statement_key f) key) "statement_key does not match identity" in
  let! content := _load_canonical_object (canonical_content_json f) "canonical_content_json" in
  match get content "canonical_source_extras_json" with
  | VStr extras_json =>
      let! _ := _load_canonical_object extras_json "canonical_source_extras_json" in
      let! _ := require (py_eq (VDict content) (VDict (content_of_fields f extras_json)))
                  "canonical content does not match normalized statement fields" in
      let! _ := require (String.eqb (st_content_hash f) (sha256_hex (canonical_content_json f)))
                  "content_hash does not match canonical content" in
      let! _ := _load_canonical_object (st_raw_payload_json f) "raw_payload_json" in Ok tt
  | _ => statement_error "canonical content is missing canonical_source_extras_json"
  end.

Definition _validate_normalized_statement (s : NormalizedExchangeStatement) : result unit :=
  let f := st_fields s in
  let! _ := validate_fields f in
  let! _ := require (Bool.eqb (String.eqb (reconciliation_status f) LEDGERED) (has_event (economic_event s)))
              "statement reconciliation status does not match its ledger event" in
  validate_content f.

(** ** Small runs *)

Definition ex_context : context := Context_of "acct-1" "Live" "carry" "binance" "LIVE" "s1".

Definition ex_funding_payload : pyval :=
  VDict [("symbol", VStr "btcusdt"); ("incomeType", VStr "FUNDING_FEE"); ("income", VStr "-0.03750000"); ("asset", VStr "USDT");
         ("info", VStr "FUNDING_FEE"); ("time", VInt 1570636800000); ("tranId", VInt 9689322392); ("tradeId", VStr "")].

Definition summary (r : result NormalizedExchangeStatement) : result (list string) :=
  let! s := r in let f := st_fields s in
  Ok [st_venue f; st_event_time f; st_symbol f; st_amount f; exchange_transaction_id f; reconciliation_status f;
      match economic_event s with Some e => e_event_type e | None => "" end].

Example ex_funding : summary (normalize_binance_futures_income ex_funding_payload ex_context)
  = Ok ["BINANCE"; "2019-10-09T16:00:00+00:00"; "BTCUSDT"; "-0.0375"; "9689322392"; "LEDGERED"; "FUNDING"].
Proof. vm_compute. reflexivity. Qed.

Example ex_negative_interest :
  normalize_binance_margin_interest (VDict [("txId", VInt 1); ("interestAccuredTime", VStr "1570636800000");
    ("interest", VStr "-0.01"); ("asset", VStr "BNB")]) ex_context
  = raise ExchangeStatementValidationError "interest must be a positive charge".
Proof. vm_compute. reflexivity. Qed.
