(* ===== verification/StatementStore.v ===== *)
(** * Exchange statements: the journal, the cursors and their transactions

    Model of the second half of [src/bongus/engine/exchange_statements.py] and of the
    writers of [state_store.py] and [split_state_store.py] that call it: the append of a
    statement with its ledger event and its cursor, on one connection or with the cursors
    in a second file, the reads, and what a process that is killed leaves behind.

    A connection holds the tables it sees ([work]) and the tables of its file
    ([durable]); a savepoint opened outside a transaction commits when it is released. *)
From Stdlib Require Import ZArith Lia Ascii.
From stdpp Require Import base list strings.
From S2P Require Import Prelude PyDecimal PyTime PyValue PyCalendar PyJson EconomicLedger ExchangeStatements.
Open Scope Z_scope.

(** ** Tables *)

(** A row of [exchange_statement_entries]; its id is its position. *)
Record entry := Entry {
  en_fields : statement_fields;
  en_recorded_at : string;
  ledger_event_key : string
}.

(** A row of [exchange_statement_cursors]. *)
Record cursor_row := Cursor {
  source_key : string;
  cu_venue : string;
  cu_account_id : string;
  cu_source : string;
  cu_time_ms : Z;
  cu_transaction_id : string;
  cu_updated_at : string
}.

Record tables := Tables {
  entries : list entry;
  ledger : table;
  cursors : list cursor_row
}.

Record ExchangeStatementIngestionResult := StatementIngestion {
  r_statement_key : string;
  r_content_hash : string;
  r_inserted : bool;
  r_duplicate : bool;
  r_status : string;
  ledger_result : LedgerIngestionResult;
  cursor_advanced : bool
}.

(** What the surroundings give one call: the readings of the clock, and the error with which
    the database refuses to write the cursor, if it does. *)
Record surroundings := Surroundings { t_ledger : Z; t_entry : Z; t_cursor : Z; cursor_error : option exn }.

(** ** The journal *)

Definition find_entry (key : string) (l : list entry) : option entry :=
  List.find (fun e => String.eqb (statement_key (en_fields e)) key) l.

(** The tuple of the UNIQUE constraint. *)
Definition identity_of (f : statement_fields) : string * string * string * string * string :=
  (st_venue f, st_account_id f, statement_source f, statement_type f, exchange_transaction_id f).

Definition same_identity (f : statement_fields) (e : entry) : bool := bool_decide (identity_of (en_fields e) = identity_of f).

Definition find_identity (f : statement_fields) (l : list entry) : option entry := List.find (same_identity f) l.

Definition set_ledger (t : tables) (l : table) : tables := Tables (entries t) l (cursors t).
Definition set_entries (t : tables) (l : list entry) : tables := Tables l (ledger t) (cursors t).
Definition set_cursors (t : tables) (l : list cursor_row) : tables := Tables (entries t) (ledger t) l.

Definition on_ledger {A} (m : M table A) : M tables A := fun t => let '(r, l) := m (ledger t) in (r, set_ledger t l).

(** The [INSERT] of a row: the two UNIQUE constraints. *)
Definition insert_entry (e : entry) : M tables unit := fun t =>
  match find_entry (statement_key (en_fields e)) (entries t), find_identity (en_fields e) (entries t) with
  | None, None => (Ok tt, set_entries t (entries t ++ [e]))
  | _, _ => (raise IntegrityError "UNIQUE constraint failed", t)
  end.

(** The [INSERT] with its handler of [IntegrityError]. *)
Definition insert_checked (e : entry) : M tables unit := fun t =>
  match insert_entry e t with
  | (Err x, t') =>
      match exn_class x, find_identity (en_fields e) (entries t') with
      | IntegrityError, Some _ => (raise ExchangeStatementIdempotencyConflict "exchange statement composite identity collision", t')
      | _, _ => (Err x, t')
      end
  | r => r
  end.

(** The optional ledger event, and the key it is filed under. *)
Definition ledger_effect (ev : option EconomicLedgerEvent) (now : Z) : M tables (LedgerIngestionResult * string) :=
  match ev with
  | None => m_ret (Ingestion 0 0 0 [], "")
  | Some e =>
      do! res := on_ledger (ingest_economic_events [(e, now)]) in
      match event_keys res with
      | [key] => m_ret (res, key)
      | _ => m_raise ExchangeStatementValidationError "ledgered statement did not produce exactly one ledger identity"
      end
  end.

(** Up to the cursor: the ledger result and whether the row is new. *)
Definition append_evidence (s : NormalizedExchangeStatement) (now : surroundings) : M tables (LedgerIngestionResult * bool) :=
  do! t := m_get in
  let existing := find_entry (statement_key (st_fields s)) (entries t) in
  if match existing with Some e => negb (String.eqb (st_content_hash (en_fields e)) (st_content_hash (st_fields s))) | None => false end
  then m_raise ExchangeStatementIdempotencyConflict ("exchange statement identity collision for key " +:+ statement_key (st_fields s))
  else
    do! led := ledger_effect (economic_event s) (t_ledger now) in
    match existing with
    | Some _ => m_ret (fst led, false)
    | None =>
        do! _ := insert_checked (Entry (st_fields s) (isoformat (t_entry now)) (snd led)) in
        m_ret (fst led, true)
    end.

(** ** The cursors *)

Definition isdecimal (s : string) : bool := nonempty s && str_forallb (fun c => bool_decide (is_Some (digit_of c))) s.

(** [int(s)] of a decimal text; identifiers have at most 256 characters. *)
Definition int_of (s : string) : Z := Z.of_N (of_digits (fst (span_digits (String.list_ascii_of_string s)))).

Definition _cursor_follows (candidate_time_ms : Z) (candidate : string) (current_time_ms : Z) (current : string) : bool :=
  if negb (candidate_time_ms =? current_time_ms) then current_time_ms <? candidate_time_ms
  else if isdecimal candidate && isdecimal current then int_of current <? int_of candidate
  else negb (String.leb candidate current).

Definition find_cursor (key : string) (l : list cursor_row) : option cursor_row :=
  List.find (fun c => String.eqb (source_key c) key) l.

Definition same_scope (a b : cursor_row) : bool :=
  String.eqb (cu_venue a) (cu_venue b) && String.eqb (cu_account_id a) (cu_account_id b) && String.eqb (cu_source a) (cu_source b).

(** [INSERT ... ON CONFLICT(source_key) DO UPDATE]; the scope is UNIQUE too. *)
Definition upsert_cursor (c : cursor_row) : M tables unit := fun t =>
  match find_cursor (source_key c) (cursors t) with
  | Some _ =>
      (Ok tt, set_cursors t (map (fun r =>
        if String.eqb (source_key r) (source_key c)
        then Cursor (source_key r) (cu_venue r) (cu_account_id r) (cu_source r) (cu_time_ms c) (cu_transaction_id c) (cu_updated_at c)
        else r) (cursors t)))
  | None =>
      if existsb (same_scope c) (cursors t) then (raise IntegrityError "UNIQUE constraint failed", t)
      else (Ok tt, set_cursors t (cursors t ++ [c]))
  end.

(** The function [advance_cursor] on the connection that holds the cursors. *)
Definition advance_cursor (f : statement_fields) (now : Z) : M tables bool :=
  do! key := m_lift (statement_cursor_key (st_venue f) (st_account_id f) (statement_source f)) in
  do! t := m_get in
  let advanced := match find_cursor key (cursors t) with
                  | None => true
                  | Some c => _cursor_follows (event_time_ms f) (exchange_transaction_id f) (cu_time_ms c) (cu_transaction_id c)
                  end in
  if advanced then
    do! _ := upsert_cursor (Cursor key (st_venue f) (st_account_id f) (statement_source f) (event_time_ms f)
                              (exchange_transaction_id f) (isoformat now)) in
    m_ret true
  else m_ret false.

(** Its use: the database may raise in any of its statements. *)
Definition write_cursor (f : statement_fields) (now : surroundings) : M tables bool :=
  match cursor_error now with
  | Some e => m_lift (Err e)
  | None => advance_cursor f (t_cursor now)
  end.

(** ** Connections *)

Record connection := Connection {
  work : tables;
  durable : tables;
  in_transaction : bool
}.

Definition commit (c : connection) : connection := Connection (work c) (work c) false.

(** [SAVEPOINT; body; RELEASE], or [ROLLBACK TO; RELEASE] and the exception again. *)
Definition in_savepoint {A} (body : M tables A) : M connection A := fun c =>
  match body (work c) with
  | (Ok a, t) => (Ok a, if in_transaction c then Connection t (durable c) true else Connection t t false)
  | (Err e, _) => (Err e, c)
  end.

(** The connection of the journal, the one of the cursors when it is another one, and
    the durable states their files went through during the current call. *)
Record stores := Stores {
  conn : connection;
  cursor_conn : option connection;
  history : list (tables * option tables)
}.

Definition files (w : stores) : tables * option tables := (durable (conn w), option_map durable (cursor_conn w)).

Definition logged (w : stores) : stores := Stores (conn w) (cursor_conn w) (history w ++ [files w]).

Definition on_conn {A} (m : M connection A) : M stores A := fun w =>
  let '(r, c) := m (conn w) in (r, logged (Stores c (cursor_conn w) (history w))).

Definition on_cursor_conn {A} (m : M connection A) : M stores A := fun w =>
  match cursor_conn w with
  | Some c => let '(r, c') := m c in (r, logged (Stores (conn w) (Some c') (history w)))
  | None => (raise AssertionError "", w)
  end.

Definition m_commit : M connection unit := fun c => (Ok tt, commit c).

(** ** Ingestion *)

Definition ingestion_report (s : NormalizedExchangeStatement) (led : LedgerIngestionResult) (inserted advanced : bool)
    : ExchangeStatementIngestionResult :=
  let f := st_fields s in
  StatementIngestion (statement_key f) (st_content_hash f) inserted (negb inserted) (reconciliation_status f) led advanced.

(** With one connection the three records share the savepoint. *)
Definition ingest_together (s : NormalizedExchangeStatement) (now : surroundings) : M tables ExchangeStatementIngestionResult :=
  do! ev := append_evidence s now in
  do! advanced := write_cursor (st_fields s) now in
  m_ret (ingestion_report s (fst ev) (snd ev) advanced).

(** With two connections the evidence is committed before the cursor is written, and stays
    when that fails. *)
Definition ingest_exchange_statement (s : NormalizedExchangeStatement) (now : surroundings) : M stores ExchangeStatementIngestionResult :=
  do! _ := m_lift (_validate_normalized_statement s) in
  do! w := m_get in
  match cursor_conn w with
  | None => on_conn (in_savepoint (ingest_together s now))
  | Some _ =>
      do! ev := on_conn (in_savepoint (append_evidence s now)) in
      do! _ := on_conn m_commit in
      do! advanced := on_cursor_conn (in_savepoint (write_cursor (st_fields s) now)) in
      do! _ := on_cursor_conn m_commit in
      m_ret (ingestion_report s (fst ev) (snd ev) advanced)
  end.

(** ** The writers *)

(** [StateWriter.record_exchange_statement], and the one of the split writer. *)
Definition record_exchange_statement (s : NormalizedExchangeStatement) (now : surroundings) : M stores ExchangeStatementIngestionResult :=
  do! r := ingest_exchange_statement s now in
  do! w := m_get in
  match cursor_conn w with
  | None => do! _ := on_conn m_commit in m_ret r
  | Some _ => m_ret r
  end.

(** The provenance the trader attaches. *)
Record lineage := Lineage {
  ln_availability_time : string;
  ln_code_hash : string;
  ln_config_hash : string;
  ln_schema_hash : string;
  ln_cycle_id : string;
  ln_intent_id : string
}.

(** [dataclasses.replace] of the event. *)
Definition with_lineage (e : EconomicLedgerEvent) (n : lineage) : EconomicLedgerEvent :=
  let c := e_common e in
  Event (Envelope (e_event_time c) (e_account_id c) (e_trading_mode c) (e_venue c) (e_strategy_id c) (e_source_event_id c)
           (e_symbol c) (ln_cycle_id n) (ln_intent_id n) (e_order_id c) (e_client_order_id c) (e_exchange_event_id c)
           (e_exchange_fill_id c) (ln_availability_time n) (ln_code_hash n) (ln_config_hash n) (ln_schema_hash n)
           (e_runtime_mode c) (e_session_id c) (e_metadata c) (e_raw_payload c))
    (e_event_type e) (e_instrument_type e) (e_side e) (e_quantity e) (e_quantity_asset e) (e_price e) (e_amount e)
    (e_amount_asset e) (e_amount_usd e) (e_schema_version e).

(** The lineage recorded with a statement: [LEFT JOIN] gives [None] without an event. *)
Definition existing_lineage (key : string) (t : tables) : option (string * string) :=
  match find_entry key (entries t) with
  | Some e =>
      match find_key (ledger_event_key e) (ledger t) with
      | Some r => Some (cycle_id (r_fields r), intent_id (r_fields r))
      | None => Some ("", "")
      end
  | None => None
  end.

Definition _prepare_binance_futures_income_statement (t : tables) (s : NormalizedExchangeStatement) (n : lineage)
    : result NormalizedExchangeStatement :=
  let cycle := strip (ln_cycle_id n) in let intent := strip (ln_intent_id n) in
  if negb (Bool.eqb (nonempty cycle) (nonempty intent)) then raise ValueError "funding attribution requires both cycle_id and intent_id"
  else if nonempty cycle && negb (String.eqb (statement_type (st_fields s)) "FUNDING_FEE") then
    raise ValueError "cycle funding attribution is valid only for FUNDING_FEE"
  else
    let '(cycle, intent) := default (cycle, intent) (existing_lineage (statement_key (st_fields s)) t) in
    match economic_event s with
    | None => Ok s
    | Some e => Ok (Statement (st_fields s) (Some (with_lineage e
                  (Lineage (ln_availability_time n) (ln_code_hash n) (ln_config_hash n) (ln_schema_hash n) cycle intent))))
    end.

Definition record_binance_futures_income_statement (payload : pyval) (c : context) (n : lineage) (now : surroundings)
    : M stores ExchangeStatementIngestionResult :=
  do! s := m_lift (normalize_binance_futures_income payload c) in
  do! w := m_get in
  do! s := m_lift (_prepare_binance_futures_income_statement (work (conn w)) s n) in
  record_exchange_statement s now.

(** Interest carries no cycle. *)
Definition with_provenance (e : EconomicLedgerEvent) (n : lineage) : EconomicLedgerEvent :=
  with_lineage e (Lineage (ln_availability_time n) (ln_code_hash n) (ln_config_hash n) (ln_schema_hash n)
                    (e_cycle_id (e_common e)) (e_intent_id (e_common e))).

Definition record_binance_margin_interest_statement (payload : pyval) (c : context) (n : lineage) (now : surroundings)
    : M stores ExchangeStatementIngestionResult :=
  do! s := m_lift (normalize_binance_margin_interest payload c) in
  record_exchange_statement (Statement (st_fields s) (option_map (fun e => with_provenance e n) (economic_event s))) now.

(** ** Reads *)

Record statement_query := StatementQuery {
  sq_venue : option string;
  sq_account_id : option string;
  sq_source : option string;
  sq_type : option string;
  sq_status : option string
}.

Definition text_filter (transform : string -> string) (value : option string) (column : string) : result (option string) :=
  match value with
  | None => Ok None
  | Some v => let! t := _require_text transform (VStr v) column in Ok (Some t)
  end.

Definition matches (filter : option string) (value : string) : bool :=
  match filter with Some v => String.eqb value v | None => true end.

(** A row as it is returned, with its id and its decoded columns. *)
Record read_row := ReadRow {
  rr_id : Z;
  rr_entry : entry;
  rr_raw_payload : pyval;
  rr_canonical_content : pyval
}.

Definition with_ids (l : list entry) : list (Z * entry) := zip (map (fun i => Z.of_nat i + 1) (seq 0 (length l))) l.

(** [ORDER BY event_time_ms ASC, id ASC]: a stable sort; [DESC] for both is its reverse. *)
Definition ms_leb (a b : Z * entry) : bool := event_time_ms (en_fields (snd a)) <=? event_time_ms (en_fields (snd b)).

Definition read_exchange_statement_entries (t : tables) (q : statement_query) (limit : option Z) (descending : bool)
    : result (list read_row) :=
  let! venue := text_filter upper (sq_venue q) "venue" in
  let! account := text_filter same (sq_account_id q) "account_id" in
  let! source := text_filter upper (sq_source q) "statement_source" in
  let! type := text_filter upper (sq_type q) "statement_type" in
  let! status := text_filter upper (sq_status q) "reconciliation_status" in
  let keep := fun ie : Z * entry => let f := en_fields (snd ie) in
    matches venue (st_venue f) && matches account (st_account_id f) && matches source (statement_source f)
    && matches type (statement_type f) && matches status (reconciliation_status f) in
  let rows := sort_by ms_leb (List.filter keep (with_ids (entries t))) in
  let rows := if descending then rev rows else rows in
  let! rows := match limit with
               | None => Ok rows
               | Some n => if n <? 0 then statement_error "limit must be non-negative or None"
                           else let! _ := sql_int n in Ok (firstn (Z.to_nat n) rows)
               end in
  res_map_list (fun ie =>
    let! raw := json_loads (st_raw_payload_json (en_fields (snd ie))) in
    let! content := json_loads (canonical_content_json (en_fields (snd ie))) in
    Ok (ReadRow (fst ie) (snd ie) raw content)) rows.

Definition read_exchange_statement_cursor (t : tables) (venue account_id source : string) : result (option cursor_row) :=
  let! key := statement_cursor_key venue account_id source in
  Ok (find_cursor key (cursors t)).

(** ** The life of the files *)

Definition no_tables : tables := Tables [] [] [].

(** A process that opens the files. *)
Definition opened (t : tables) : connection := Connection t t false.
Definition reopened (d : tables * option tables) : stores := Stores (opened (fst d)) (option_map opened (snd d)) [d].

(** A new call: the history starts with the files as they are. *)
Definition new_call (w : stores) : stores := Stores (conn w) (cursor_conn w) [files w].

(** Another writer of an embedded store has opened a transaction on the connection. *)
Definition begin_transaction (w : stores) : stores :=
  Stores (Connection (work (conn w)) (durable (conn w)) true) (cursor_conn w) (history w).

Definition record_call (s : NormalizedExchangeStatement) (now : surroundings) (w : stores) : result ExchangeStatementIngestionResult * stores :=
  record_exchange_statement s now (new_call w).

(** What can be reached from empty files, with a second file for the cursors or not, by
    calls with statements that satisfy [admitted]: the stores between calls, and what a
    process killed during a call leaves, at any of the durable states of the call. *)
Inductive reachable (admitted : NormalizedExchangeStatement -> Prop) (split : bool) : stores -> Prop :=
  | reach_start : reachable admitted split (reopened (no_tables, if split then Some no_tables else None))
  | reach_begin w : reachable admitted split w -> reachable admitted split (begin_transaction w)
  | reach_call w s now : reachable admitted split w -> admitted s -> reachable admitted split (snd (record_call s now w))
  | reach_killed w s now d : reachable admitted split w -> admitted s -> d ∈ history (snd (record_call s now w)) ->
      reachable admitted split (reopened d).

(** The tables that hold the cursors. *)
Definition cursor_tables (d : tables * option tables) : tables := default (fst d) (snd d).

(** ** A small run *)

Definition ex_clock (z : Z) : surroundings := Surroundings z z z None.
Definition ex_lineage (c : string) : lineage := Lineage "" "code" "config" "schema" c c.

Definition ex_start : stores := reopened (no_tables, Some no_tables).

Definition ex_recorded : result ExchangeStatementIngestionResult * stores :=
  record_binance_futures_income_statement ex_funding_payload ex_context (ex_lineage "c1") (ex_clock 0) ex_start.

(** A funding row is journalled and ledgered. *)
Example ex_recorded_ok : res_map (fun r => (r_inserted r, inserted (ledger_result r), cursor_advanced r)) (fst ex_recorded) = Ok (true, 1, true).
Proof. vm_compute. reflexivity. Qed.

(** The same row as a call, on one file or two. *)
Definition ex_admitted (s : NormalizedExchangeStatement) : Prop := normalize_binance_futures_income ex_funding_payload ex_context = Ok s.

Definition ex_empty (split : bool) : stores := reopened (no_tables, if split then Some no_tables else None).

Definition ex_call (split : bool) : result ExchangeStatementIngestionResult * stores :=
  match normalize_binance_futures_income ex_funding_payload ex_context with
  | Ok s => record_call s (ex_clock 0) (ex_empty split)
  | Err e => (Err e, ex_empty split)
  end.

(** One row of each table, and a durable state between the journal and the cursor. *)
Definition ex_sizes (r : result ExchangeStatementIngestionResult * stores) : bool * nat * nat * nat * list (nat * nat) :=
  let size := fun d : tables * option tables => (length (entries (fst d)), length (cursors (cursor_tables d))) in
  (is_ok (fst r), length (entries (fst (files (snd r)))), length (ledger (fst (files (snd r)))),
   length (cursors (cursor_tables (files (snd r)))), map size (history (snd r))).

Definition ex_expected (split : bool) : bool * nat * nat * nat * list (nat * nat) :=
  (true, 1, 1, 1, if split then [(0, 0); (1, 0); (1, 0); (1, 1); (1, 1)] else [(0, 0); (1, 1); (1, 1)])%nat.

Example ex_call_sizes split : ex_sizes (ex_call split) = ex_expected split.
Proof. destruct split; vm_compute; reflexivity. Qed.

Example ex_decimal : res_map (fun s => isdecimal (exchange_transaction_id (st_fields s)))
    (normalize_binance_futures_income ex_funding_payload ex_context) = Ok true.
Proof. vm_compute. reflexivity. Qed.
