(* ===== verification/StatementStoreFacts.v ===== *)
(** * Exchange statements: what the journal and the cursors guarantee

    The cursors never get ahead of the journal, whatever process is killed and when; a
    retry repairs what a kill left; a call that raises changes nothing; the ledger holds
    the effects of the journalled statements and nothing else. *)
From Stdlib Require Import ZArith Lia Ascii.
From stdpp Require Import base list strings sets.
From S2P Require Import Prelude PyDecimal PyDecimalFacts PyTime PyValue PyCalendar PyCalendarFacts PyJson PyJsonFacts.
From S2P Require Import EconomicLedger EconomicLedgerFacts EconomicBuilderFacts ExchangeStatements StatementStore.
Open Scope Z_scope.

(** ** Validated fields *)

Lemma require_Ok_inv b m u : require b m = Ok u -> b = true.
Proof. by destruct b. Qed.

Lemma require_same_inv v m name u : require_same v m name = Ok u -> m = Ok v.
Proof.
  unfold require_same. intros H. apply res_bind_Ok in H as (n & Hn & H). apply require_Ok_inv in H. bool_props. by subst n.
Qed.

(** What validation establishes on the fields. *)
Record valid_fields (f : statement_fields) : Prop := ValidFields {
  vf_version : statement_schema_version f = EXCHANGE_STATEMENT_SCHEMA_VERSION;
  vf_venue : _require_text upper (VStr (st_venue f)) "venue" = Ok (st_venue f);
  vf_account : _require_text same (VStr (st_account_id f)) "account_id" = Ok (st_account_id f);
  vf_mode : _require_text lower (VStr (st_trading_mode f)) "trading_mode" = Ok (st_trading_mode f);
  vf_source : _require_text upper (VStr (statement_source f)) "statement_source" = Ok (statement_source f);
  vf_type : _require_text upper (VStr (statement_type f)) "statement_type" = Ok (statement_type f);
  vf_transaction : _transaction_id (VStr (exchange_transaction_id f)) "exchange_transaction_id" = Ok (exchange_transaction_id f);
  vf_time : _iso_from_timestamp_ms (event_time_ms f) = Ok (st_event_time f);
  vf_symbol : _optional_text upper (VStr (st_symbol f)) = Ok (st_symbol f);
  vf_asset : _require_text upper (VStr (st_asset f)) "asset" = Ok (st_asset f);
  vf_amount : _canonical_decimal (VStr (st_amount f)) "amount" = Ok (st_amount f);
  vf_order : _optional_text same (VStr (st_order_id f)) = Ok (st_order_id f);
  vf_trade : _optional_text same (VStr (st_trade_id f)) = Ok (st_trade_id f);
  vf_status : reconciliation_status f ∈ STATEMENT_RECONCILIATION_STATUSES
}.

Lemma validate_fields_inv f u : validate_fields f = Ok u -> valid_fields f.
Proof.
  unfold validate_fields. intros H.
  repeat (let x := fresh "x" in let E := fresh "E" in apply res_bind_Ok in H as (x & E & H)).
  repeat match goal with E : require_same _ _ _ = Ok _ |- _ => apply require_same_inv in E end.
  repeat match goal with E : require _ _ = Ok _ |- _ => apply require_Ok_inv in E end. bool_props. subst.
  by constructor; try (done || congruence); apply str_in_spec.
Qed.

(** What it establishes on the content: the canonical text decodes to the fields, and the
    hashes are those of the identity and of the content. *)
Record valid_content (f : statement_fields) : Prop := ValidContent {
  vc_key : _statement_identity_key (st_venue f) (st_account_id f) (statement_source f) (statement_type f)
             (exchange_transaction_id f) = Ok (statement_key f);
  vc_content : exists content extras, json_loads (canonical_content_json f) = Ok (VDict content) /\
    json_dumps_raw (VDict content) = Ok (canonical_content_json f) /\
    get content "canonical_source_extras_json" = VStr extras /\ is_ok (_load_canonical_object extras "") = true /\
    py_eq (VDict content) (VDict (content_of_fields f extras)) = true;
  vc_hash : st_content_hash f = sha256_hex (canonical_content_json f);
  vc_payload : exists payload, json_loads (st_raw_payload_json f) = Ok (VDict payload) /\ json_dumps_raw (VDict payload) = Ok (st_raw_payload_json f)
}.

Lemma load_canonical_inv s name d : _load_canonical_object s name = Ok d ->
  json_loads s = Ok (VDict d) /\ json_dumps_raw (VDict d) = Ok s.
Proof.
  unfold _load_canonical_object. intros H. apply res_bind_Ok in H as (v & Hv & H).
  assert (json_loads s = Ok v) as ->.
  { destruct (json_loads s); simpl in Hv; [done|]. by destruct (json_errors _). }
  destruct v; try done. apply res_bind_Ok in H as (c & Hc & H). apply res_bind_Ok in H as (u & Hu & H).
  apply require_Ok_inv in Hu. bool_props. by simplify_eq.
Qed.

Lemma load_canonical_name s n1 n2 d : _load_canonical_object s n1 = Ok d -> is_ok (_load_canonical_object s n2) = true.
Proof.
  intros H. apply load_canonical_inv in H as [H1 H2]. unfold _load_canonical_object. rewrite H1. cbn [res_catch res_bind].
  rewrite H2. cbn [res_bind]. by rewrite String.eqb_refl.
Qed.

Lemma validate_content_inv f u : validate_content f = Ok u -> valid_content f.
Proof.
  unfold validate_content. intros H. apply res_bind_Ok in H as (key & Hk & H). apply res_bind_Ok in H as (x & Ek & H).
  apply res_bind_Ok in H as (content & Hc & H). apply load_canonical_inv in Hc as [Hl Hd].
  destruct (get content _) as [| | | |extras| | |] eqn:Hg; try done.
  apply res_bind_Ok in H as (d & Hx & H). apply res_bind_Ok in H as (y & Hp & H). apply res_bind_Ok in H as (z & Hh & H).
  apply res_bind_Ok in H as (payload & Hr & _). apply load_canonical_inv in Hr as [Hr Hr'].
  apply require_Ok_inv in Ek, Hp, Hh. bool_props. subst key. constructor; [done| |done|by exists payload].
  exists content, extras. repeat split; try done. by eapply load_canonical_name.
Qed.

(** A statement that passes validation. *)
Definition valid (s : NormalizedExchangeStatement) : Prop := _validate_normalized_statement s = Ok tt.

Lemma valid_inv s : valid s -> valid_fields (st_fields s) /\ valid_content (st_fields s) /\
  (reconciliation_status (st_fields s) = LEDGERED <-> economic_event s <> None).
Proof.
  unfold valid, _validate_normalized_statement. intros H. apply res_bind_Ok in H as (x & H1 & H). apply res_bind_Ok in H as (y & H2 & H3).
  split; [by eapply validate_fields_inv|]. split; [by eapply validate_content_inv|].
  apply require_Ok_inv in H2. apply eqb_prop in H2. rewrite <- String.eqb_eq, H2. by destruct (economic_event s).
Qed.

(** ** One event in the ledger *)

(** What one event does to the ledger: nothing, a new row, or a row of the same content. *)
Inductive ledgered (l : table) : option EconomicLedgerEvent -> Z -> string -> list row -> Prop :=
  | ledgered_none now : ledgered l None now "" []
  | ledgered_new e now item : _normalize_event e now = Ok item -> find_key (event_key item) l = None ->
      ledgered l (Some e) now (event_key item) [item]
  | ledgered_dup e now item r : _normalize_event e now = Ok item -> find_key (event_key item) l = Some r ->
      content_hash r = content_hash item -> ledgered l (Some e) now (event_key item) [].

Lemma ingest_one e now l :
  ingest_economic_events [(e, now)] l =
    match _normalize_event e now with
    | Err x => (Err x, l)
    | Ok item =>
        match find_key (event_key item) l with
        | None => (Ok (Ingestion 1 1 0 [event_key item]), l ++ [item])
        | Some r => if String.eqb (content_hash r) (content_hash item) then (Ok (Ingestion 1 0 1 [event_key item]), l)
                    else (raise LedgerIdempotencyConflict ("economic event identity collision for key " +:+ event_key item), l)
        end
    end.
Proof.
  unfold ingest_economic_events. cbn [res_map_list fst snd]. destruct (_normalize_event e now) as [item|x]; [|done].
  unfold m_bind at 1, m_lift, savepoint, m_bind. cbn [res_bind]. rewrite ingest_rows_step.
  destruct (find_key (event_key item) l) as [r|]; [|done]. by destruct (String.eqb _ _).
Qed.

Lemma ledger_effect_Ok ev now t res t' : ledger_effect ev now t = (Ok res, t') ->
  exists new, t' = set_ledger t (ledger t ++ new) /\ ledgered (ledger t) ev now (snd res) new.
Proof.
  destruct ev as [e|]; cbn [ledger_effect].
  - unfold m_bind, on_ledger. rewrite ingest_one. destruct (_normalize_event e now) as [item|] eqn:Hn; [|done].
    destruct (find_key (event_key item) (ledger t)) as [r|] eqn:Hf; cbn.
    + destruct (String.eqb_spec (content_hash r) (content_hash item)) as [Hh|]; [|done]. intros [= <- <-].
      exists []. rewrite app_nil_r. split; [done|]. by apply (ledgered_dup _ e now item r).
    + intros [= <- <-]. exists [item]. split; [done|]. by apply ledgered_new.
  - intros [= <- <-]. exists []. rewrite app_nil_r. split; [by destruct t|]. constructor.
Qed.

Lemma ledger_effect_total ev now t key new : ledgered (ledger t) ev now key new ->
  exists res, ledger_effect ev now t = (Ok (res, key), set_ledger t (ledger t ++ new)) /\ EconomicLedger.inserted res = Z.of_nat (length new).
Proof.
  intros H. destruct H as [now|e now item Hn Hf|e now item r Hn Hf Hh]; cbn [ledger_effect].
  - exists (Ingestion 0 0 0 []). rewrite app_nil_r. split; [by destruct t|done].
  - unfold m_bind, on_ledger. rewrite ingest_one, Hn, Hf. by eexists.
  - unfold m_bind, on_ledger. rewrite ingest_one, Hn, Hf, Hh, String.eqb_refl, app_nil_r. by eexists.
Qed.

Lemma ledgered_key l ev now key new : ledgered l ev now key new -> ev <> None -> key ∈ keys (l ++ new).
Proof.
  intros H Hev. unfold keys. rewrite map_app. destruct H as [|e now item Hn Hf|e now item r Hn Hf Hh]; [done| |].
  - set_solver.
  - apply find_key_Some in Hf as [Hr <-]. apply elem_of_app. left. apply list_elem_of_fmap. by exists r.
Qed.

Lemma ledgered_new_rows l ev now key new r : ledgered l ev now key new -> r ∈ new -> event_key r = key /\ ev <> None.
Proof. intros [] Hr; try (by inversion Hr). by apply list_elem_of_singleton in Hr as ->. Qed.

Lemma ledgered_NoDup l ev now key new : ledgered l ev now key new -> NoDup (keys l) -> NoDup (keys (l ++ new)).
Proof.
  intros H Hn. unfold keys. rewrite map_app. destruct H as [|e now item _ Hf|]; [by rewrite app_nil_r| |by rewrite app_nil_r].
  apply NoDup_app. split; [done|]. split; [|apply NoDup_singleton]. apply find_key_None in Hf. set_solver.
Qed.

(** ** Lookups *)

Lemma find_entry_Some k l e : find_entry k l = Some e -> e ∈ l /\ statement_key (en_fields e) = k.
Proof. intros H. apply find_some in H as [H1 H2]. apply String.eqb_eq in H2. by rewrite list_elem_of_In. Qed.

Lemma find_entry_None k l : find_entry k l = None -> forall e, e ∈ l -> statement_key (en_fields e) <> k.
Proof. intros H e He E. apply list_elem_of_In in He. pose proof (find_none _ _ H e He) as Hb. simpl in Hb. rewrite E in Hb. by rewrite String.eqb_refl in Hb. Qed.

Lemma find_entry_app k l l' : find_entry k (l ++ l') = match find_entry k l with Some e => Some e | None => find_entry k l' end.
Proof. induction l as [|e l IH]; simpl; [done|]. by destruct (String.eqb _ _). Qed.

Lemma find_identity_Some f l e : find_identity f l = Some e -> e ∈ l /\ identity_of (en_fields e) = identity_of f.
Proof. intros H. apply find_some in H as [H1 H2]. apply bool_decide_eq_true in H2. by rewrite list_elem_of_In. Qed.

Lemma find_identity_None f l : find_identity f l = None -> forall e, e ∈ l -> identity_of (en_fields e) <> identity_of f.
Proof. intros H e He E. apply list_elem_of_In in He. pose proof (find_none _ _ H e He) as Hb. unfold same_identity in Hb. by rewrite bool_decide_eq_true_2 in Hb. Qed.

(** ** The evidence of a statement *)

(** What [append_evidence] adds: nothing when the statement is known with its content. *)
Definition appended (s : NormalizedExchangeStatement) (now : surroundings) (t : tables) (key : string) (new : list row) (added : list entry) : Prop :=
  ledgered (ledger t) (economic_event s) (t_ledger now) key new /\
  match find_entry (statement_key (st_fields s)) (entries t) with
  | Some e => st_content_hash (en_fields e) = st_content_hash (st_fields s) /\ added = []
  | None => find_identity (st_fields s) (entries t) = None /\ added = [Entry (st_fields s) (isoformat (t_entry now)) key]
  end.

Definition grown (t : tables) (new : list row) (added : list entry) : tables := Tables (entries t ++ added) (ledger t ++ new) (cursors t).

Lemma insert_checked_eq e t : insert_checked e t =
  match find_entry (statement_key (en_fields e)) (entries t), find_identity (en_fields e) (entries t) with
  | None, None => (Ok tt, set_entries t (entries t ++ [e]))
  | _, Some _ => (raise ExchangeStatementIdempotencyConflict "exchange statement composite identity collision", t)
  | _, None => (raise IntegrityError "UNIQUE constraint failed", t)
  end.
Proof. unfold insert_checked, insert_entry. destruct (find_entry _ _), (find_identity _ _) eqn:E; simpl; by rewrite ?E. Qed.

Lemma append_evidence_Ok s now t r t' : append_evidence s now t = (Ok r, t') ->
  exists key new added, appended s now t key new added /\ t' = grown t new added /\ snd r = match added with [] => false | _ => true end.
Proof.
  unfold append_evidence, m_bind at 1, m_get. cbv beta iota zeta. set (k := statement_key (st_fields s)).
  destruct (find_entry k (entries t)) as [e|] eqn:Hf.
  - destruct (String.eqb_spec (st_content_hash (en_fields e)) (st_content_hash (st_fields s))) as [Hh|]; [|done]. cbn [negb].
    unfold m_bind. destruct (ledger_effect _ _ t) as [[led|] t1] eqn:El; [|done]. intros [= <- <-].
    destruct (ledger_effect_Ok _ _ _ _ _ El) as (new & -> & Hl). exists (snd led), new, []. split; [|split; [|done]].
    + split; [done|]. fold k. by rewrite Hf.
    + unfold grown. by rewrite app_nil_r.
  - unfold m_bind at 1. destruct (ledger_effect _ _ t) as [[led|] t1] eqn:El; [|done].
    destruct (ledger_effect_Ok _ _ _ _ _ El) as (new & -> & Hl). unfold m_bind. rewrite insert_checked_eq. cbn [en_fields set_ledger entries].
    fold k. rewrite Hf. destruct (find_identity (st_fields s) (entries t)) eqn:Hi; [done|]. intros [= <- <-].
    eexists _, new, _. split; [|split; [done|done]]. split; [exact Hl|]. fold k. by rewrite Hf.
Qed.

Lemma append_evidence_total s now t key new added : appended s now t key new added ->
  exists led, append_evidence s now t = (Ok (led, match added with [] => false | _ => true end), grown t new added) /\
    EconomicLedger.inserted led = Z.of_nat (length new).
Proof.
  intros [Hl H]. unfold append_evidence, m_bind at 1, m_get. cbv beta iota zeta.
  destruct (ledger_effect_total _ _ _ _ _ Hl) as (led & El & Hi).
  destruct (find_entry _ (entries t)) as [e|] eqn:Hf; destruct H as [H ->].
  - rewrite H, String.eqb_refl. cbn [negb]. unfold m_bind. rewrite El. exists led. split; [|done]. unfold grown, m_ret. by rewrite app_nil_r.
  - unfold m_bind at 1. rewrite El. unfold m_bind. rewrite insert_checked_eq. cbn [en_fields set_ledger entries]. rewrite Hf, H.
    by exists led.
Qed.

Lemma appended_det s now t key new added key' new' added' : appended s now t key new added -> appended s now t key' new' added' ->
  new' = new /\ added' = added.
Proof.
  intros H1 H2. destruct (append_evidence_total _ _ _ _ _ _ H1) as (l1 & T1 & _). destruct (append_evidence_total _ _ _ _ _ _ H2) as (l2 & T2 & _).
  rewrite T1 in T2. injection T2 as _ _ E1 E2. apply app_inv_head in E1, E2. by subst.
Qed.

(** ** The cursors *)

(** The key of the scope of a statement. *)
Definition scope_key (f : statement_fields) : string :=
  match json_sha256 false (cursor_identity (st_venue f) (st_account_id f) (statement_source f)) with Ok k => k | Err _ => "" end.

Lemma cursor_key_valid f : valid_fields f -> statement_cursor_key (st_venue f) (st_account_id f) (statement_source f) = Ok (scope_key f).
Proof.
  intros H. unfold statement_cursor_key, scope_key. rewrite (vf_venue f H). cbn [res_bind]. rewrite (vf_account f H). cbn [res_bind].
  rewrite (vf_source f H). cbn [res_bind]. unfold cursor_identity.
  match goal with |- json_sha256 false (VDict ?d) = _ => destruct (json_flat_total d eq_refl) as [k ->] end. done.
Qed.

(** The same scope has the same key. *)
Definition keyed (c : cursor_row) : Prop := statement_cursor_key (cu_venue c) (cu_account_id c) (cu_source c) = Ok (source_key c).

Definition cursor_of (f : statement_fields) (now : Z) : cursor_row :=
  Cursor (scope_key f) (st_venue f) (st_account_id f) (statement_source f) (event_time_ms f) (exchange_transaction_id f) (isoformat now).

Definition moves (f : statement_fields) (c : cursor_row) : bool :=
  _cursor_follows (event_time_ms f) (exchange_transaction_id f) (cu_time_ms c) (cu_transaction_id c).

(** The update of a row by [ON CONFLICT]. *)
Definition moved_to (n c : cursor_row) : cursor_row :=
  if String.eqb (source_key c) (source_key n)
  then Cursor (source_key c) (cu_venue c) (cu_account_id c) (cu_source c) (cu_time_ms n) (cu_transaction_id n) (cu_updated_at n)
  else c.

(** The table after a statement, as a function of the table before. *)
Definition moved (f : statement_fields) (now : Z) (l : list cursor_row) : bool * list cursor_row :=
  match find_cursor (scope_key f) l with
  | None => (true, l ++ [cursor_of f now])
  | Some c => if moves f c then (true, map (moved_to (cursor_of f now)) l) else (false, l)
  end.

Lemma find_cursor_Some k l c : find_cursor k l = Some c -> c ∈ l /\ source_key c = k.
Proof. intros H. apply find_some in H as [H1 H2]. apply String.eqb_eq in H2. by rewrite list_elem_of_In. Qed.

Lemma find_cursor_None k l : find_cursor k l = None -> forall c, c ∈ l -> source_key c <> k.
Proof. intros H c Hc E. apply list_elem_of_In in Hc. pose proof (find_none _ _ H c Hc) as Hb. simpl in Hb. by rewrite E, String.eqb_refl in Hb. Qed.

Lemma advance_cursor_eq f now t : valid_fields f -> (forall c, c ∈ cursors t -> keyed c) ->
  advance_cursor f now t = (Ok (fst (moved f now (cursors t))), set_cursors t (snd (moved f now (cursors t)))).
Proof.
  intros Hf Hk. unfold advance_cursor, m_bind at 1, m_lift. rewrite (cursor_key_valid f Hf). unfold m_bind at 1, m_get. cbv zeta.
  unfold moved, moves, upsert_cursor, m_bind. cbn [source_key].
  destruct (find_cursor (scope_key f) (cursors t)) as [c|] eqn:Hc.
  - destruct (_cursor_follows _ _ _ _); [by cbv beta; rewrite Hc|by destruct t].
  - cbv beta iota. rewrite Hc. assert (existsb (same_scope (Cursor (scope_key f) (st_venue f) (st_account_id f) (statement_source f) (event_time_ms f)
      (exchange_transaction_id f) (isoformat now))) (cursors t) = false) as ->; [|done].
    apply not_true_iff_false. intros H. apply existsb_exists in H as (c & Hin & Hs). apply list_elem_of_In in Hin.
    unfold same_scope in Hs. bool_props. simpl in *. pose proof (Hk c Hin) as Hkc. unfold keyed in Hkc.
    pose proof (cursor_key_valid f Hf) as Hkf. apply (find_cursor_None _ _ Hc c Hin). congruence.
Qed.

Lemma follows_irrefl t x : _cursor_follows t x t x = false.
Proof.
  unfold _cursor_follows. rewrite Z.eqb_refl. cbn [negb]. destruct (isdecimal x); simpl; [apply Z.ltb_irrefl|]. by rewrite string_leb_refl.
Qed.

Lemma moved_to_key n c : source_key (moved_to n c) = source_key c.
Proof. unfold moved_to. by destruct (String.eqb _ _). Qed.

Lemma map_moved_keys n l : map source_key (map (moved_to n) l) = map source_key l.
Proof. rewrite map_map. apply map_ext. intros c. apply moved_to_key. Qed.

Lemma find_moved k n l : find_cursor k (map (moved_to n) l) = option_map (moved_to n) (find_cursor k l).
Proof.
  unfold find_cursor. induction l as [|c l IH]; simpl; [done|]. rewrite moved_to_key. by destruct (String.eqb (source_key c) k).
Qed.

Lemma find_cursor_app k l l' : find_cursor k (l ++ l') = match find_cursor k l with Some c => Some c | None => find_cursor k l' end.
Proof. induction l as [|c l IH]; simpl; [done|]. by destruct (String.eqb _ _). Qed.

(** Afterwards the cursor of the scope is not behind the statement. *)
Lemma moved_reaches f now l : exists c, find_cursor (scope_key f) (snd (moved f now l)) = Some c /\ moves f c = false.
Proof.
  unfold moved. destruct (find_cursor (scope_key f) l) as [c|] eqn:Hc.
  - destruct (moves f c) eqn:Hm; simpl; [|by exists c]. rewrite find_moved, Hc. eexists. split; [done|].
    apply find_cursor_Some in Hc as [_ Hk]. unfold moved_to. simpl. rewrite Hk, String.eqb_refl. apply follows_irrefl.
  - cbn [snd]. rewrite find_cursor_app, Hc. simpl. rewrite String.eqb_refl. eexists. split; [done|]. apply follows_irrefl.
Qed.

(** A second pass changes nothing. *)
Lemma moved_again f now now' l : moved f now' (snd (moved f now l)) = (false, snd (moved f now l)).
Proof. destruct (moved_reaches f now l) as (c & Hc & Hm). unfold moved at 1. by rewrite Hc, Hm. Qed.

(** A row of the new table: an old one of another scope, or one at the statement. *)
Lemma elem_of_moved f now l c : c ∈ snd (moved f now l) ->
  c ∈ l \/ source_key c = scope_key f /\ cu_time_ms c = event_time_ms f /\ cu_transaction_id c = exchange_transaction_id f.
Proof.
  unfold moved. destruct (find_cursor (scope_key f) l) as [c'|] eqn:Hc.
  - destruct (moves f c'); [|by left]. simpl. intros (x & -> & Hx)%list_elem_of_fmap. unfold moved_to. simpl.
    destruct (String.eqb_spec (source_key x) (scope_key f)); [by right|by left].
  - simpl. intros [H|H]%elem_of_app; [by left|]. apply list_elem_of_singleton in H as ->. by right.
Qed.

Lemma moved_keyed f now l : valid_fields f -> (forall c, c ∈ l -> keyed c) -> forall c, c ∈ snd (moved f now l) -> keyed c.
Proof.
  intros Hf Hl c. unfold moved. destruct (find_cursor (scope_key f) l) as [c'|] eqn:Hc.
  - destruct (moves f c'); [|apply Hl]. simpl. intros (x & -> & Hx)%list_elem_of_fmap. specialize (Hl x Hx).
    unfold moved_to, keyed in *. by destruct (String.eqb _ _).
  - simpl. intros [H|H]%elem_of_app; [by apply Hl|]. apply list_elem_of_singleton in H as ->. by apply cursor_key_valid.
Qed.

Lemma moved_NoDup f now l : NoDup (map source_key l) -> NoDup (map source_key (snd (moved f now l))).
Proof.
  intros Hn. unfold moved. destruct (find_cursor (scope_key f) l) as [c'|] eqn:Hc.
  - destruct (moves f c'); [|done]. simpl. by rewrite map_moved_keys.
  - simpl. rewrite map_app. apply NoDup_app. split; [done|]. split; [|apply NoDup_singleton].
    intros k (c & -> & Hin)%list_elem_of_fmap. intros Hk%list_elem_of_singleton. by apply (find_cursor_None _ _ Hc c Hin).
Qed.

(** ** One call *)

(** Nothing is pending. *)
Definition synced (w : stores) : Prop :=
  work (conn w) = durable (conn w) /\ forall c, cursor_conn w = Some c -> work c = durable c.

Definition advanced_tables (f : statement_fields) (now : Z) (t : tables) : tables := set_cursors t (snd (moved f now (cursors t))).

(** The files after the call, and, with two of them, between the two commits. *)
Definition final_files (d : tables * option tables) (f : statement_fields) (now : Z) (new : list row) (added : list entry)
    : tables * option tables :=
  match snd d with
  | None => (advanced_tables f now (grown (fst d) new added), None)
  | Some h => (grown (fst d) new added, Some (advanced_tables f now h))
  end.

Definition middle_files (d : tables * option tables) (new : list row) (added : list entry) : tables * option tables :=
  match snd d with None => d | Some h => (grown (fst d) new added, Some h) end.

(** A call that succeeds. *)
Record succeeded (s : NormalizedExchangeStatement) (now : surroundings) (w : stores) (r : ExchangeStatementIngestionResult) (w' : stores)
    (new : list row) (added : list entry) : Prop := Succeeded {
  su_synced : synced w';
  su_files : files w' = final_files (files w) (st_fields s) (t_cursor now) new added;
  su_history : forall d, d ∈ history w' -> d = files w \/ d = middle_files (files w) new added \/ d = files w';
  su_inserted : r_inserted r = (match added with [] => false | _ => true end);
  su_ledger : EconomicLedger.inserted (ledger_result r) = Z.of_nat (length new);
  su_advanced : cursor_advanced r = fst (moved (st_fields s) (t_cursor now) (cursors (cursor_tables (files w))))
}.

(** A call whose cursor could not be written. *)
Record halted (w w' : stores) (new : list row) (added : list entry) : Prop := Halted {
  ha_synced : synced w';
  ha_files : files w' = middle_files (files w) new added;
  ha_history : forall d, d ∈ history w' -> d = files w \/ d = files w'
}.

(** A call that raises and leaves nothing. *)
Record unchanged (w w' : stores) : Prop := Unchanged {
  un_synced : synced w';
  un_files : files w' = files w;
  un_history : forall d, d ∈ history w' -> d = files w
}.

Lemma in_savepoint_Ok {A} (body : M tables A) c a t : body (work c) = (Ok a, t) ->
  in_savepoint body c = (Ok a, Connection t (if in_transaction c then durable c else t) (in_transaction c)).
Proof. unfold in_savepoint. intros ->. by destruct (in_transaction c). Qed.

Lemma in_savepoint_Err {A} (body : M tables A) c e t : body (work c) = (Err e, t) -> in_savepoint body c = (Err e, c).
Proof. unfold in_savepoint. by intros ->. Qed.

Lemma append_evidence_cases s now t :
  (exists key new added, appended s now t key new added) \/ (exists e t', append_evidence s now t = (Err e, t') /\
    forall key new added, ~ appended s now t key new added).
Proof.
  destruct (append_evidence s now t) as [[r|e] t'] eqn:E.
  - left. destruct (append_evidence_Ok _ _ _ _ _ E) as (key & new & added & H & _). by exists key, new, added.
  - right. exists e, t'. split; [done|]. intros key new added H. destruct (append_evidence_total _ _ _ _ _ _ H) as (led & E' & _). congruence.
Qed.

(** A call with one file, step by step. *)
Lemma record_one_file s now w key new added : valid s -> synced w -> cursor_conn w = None -> (forall c, c ∈ cursors (durable (conn w)) -> keyed c) ->
  appended s now (durable (conn w)) key new added ->
  match cursor_error now with
  | None => exists r, fst (record_call s now w) = Ok r /\ succeeded s now w r (snd (record_call s now w)) new added
  | Some e => fst (record_call s now w) = Err e /\ halted w (snd (record_call s now w)) new added
  end.
Proof.
  intros Hv [Hw _] Hc Hk Ha. destruct (valid_inv s Hv) as (Hf & _ & _). destruct w as [[wk du tx] cc hs]. simpl in *. subst wk cc.
  destruct (append_evidence_total _ _ _ _ _ _ Ha) as (led & E & Hi).
  set (f := st_fields s) in *.
  unfold record_call, record_exchange_statement, ingest_exchange_statement, m_bind, m_lift, m_get, new_call, on_conn.
  rewrite (Hv : _validate_normalized_statement s = Ok tt). cbn [cursor_conn conn].
  destruct (cursor_error now) as [e|] eqn:He.
  - assert (exists t, ingest_together s now du = (Err e, t)) as [t Ei].
    { unfold ingest_together, m_bind, write_cursor. rewrite E, He. by eexists. }
    rewrite (in_savepoint_Err (ingest_together s now) (Connection du du tx) _ _ Ei). split; [done|].
    constructor; cbn; try done. intros d. rewrite !elem_of_cons, elem_of_nil. unfold files. cbn. naive_solver.
  - set (t' := advanced_tables f (t_cursor now) (grown du new added)).
    assert (ingest_together s now du = (Ok (ingestion_report s led (match added with [] => false | _ => true end)
      (fst (moved f (t_cursor now) (cursors du)))), t')) as Ei.
    { unfold ingest_together, m_bind, write_cursor. rewrite E, He. fold f. by rewrite advance_cursor_eq. }
    rewrite (in_savepoint_Ok (ingest_together s now) (Connection du du tx) _ _ Ei).
    eexists. split; [done|]. unfold m_commit, commit, logged, files. cbn. constructor; cbn; try done.
    intros d. rewrite !elem_of_cons, elem_of_nil. unfold files. cbn. destruct tx; naive_solver.
Qed.

Lemma record_two_files s now w h key new added : valid s -> synced w -> cursor_conn w = Some h -> (forall c, c ∈ cursors (durable h) -> keyed c) ->
  appended s now (durable (conn w)) key new added ->
  match cursor_error now with
  | None => exists r, fst (record_call s now w) = Ok r /\ succeeded s now w r (snd (record_call s now w)) new added
  | Some e => fst (record_call s now w) = Err e /\ halted w (snd (record_call s now w)) new added
  end.
Proof.
  intros Hv [Hw Hh] Hc Hk Ha. destruct (valid_inv s Hv) as (Hf & _ & _). specialize (Hh h Hc). destruct w as [[wk du tx] cc hs]. simpl in *. subst wk cc.
  destruct h as [wk dh txh]. simpl in *. subst wk.
  destruct (append_evidence_total _ _ _ _ _ _ Ha) as (led & E & Hi).
  set (f := st_fields s) in *.
  unfold record_call, record_exchange_statement, ingest_exchange_statement, m_bind, m_lift, m_get, new_call, on_conn, on_cursor_conn.
  rewrite (Hv : _validate_normalized_statement s = Ok tt). cbn [cursor_conn conn].
  rewrite (in_savepoint_Ok (append_evidence s now) (Connection du du tx) _ _ E). cbn [m_commit commit logged cursor_conn conn history].
  fold f. destruct (cursor_error now) as [e|] eqn:He.
  - assert (write_cursor f now dh = (Err e, dh)) as Ec by (unfold write_cursor; by rewrite He).
    rewrite (in_savepoint_Err (write_cursor f now) (Connection dh dh txh) _ _ Ec). cbn. split; [done|]. constructor; cbn.
    + split; [done|]. by intros c [= <-].
    + done.
    + intros d. rewrite !elem_of_cons, elem_of_nil. unfold files. cbn. destruct tx; naive_solver.
  - pose proof (advance_cursor_eq f (t_cursor now) dh Hf Hk) as Ec.
    assert (write_cursor f now dh = advance_cursor f (t_cursor now) dh) as Ew by (unfold write_cursor; by rewrite He). rewrite <- Ew in Ec.
    rewrite (in_savepoint_Ok (write_cursor f now) (Connection dh dh txh) _ _ Ec). cbn.
    eexists. split; [done|]. constructor; cbn; try done.
    + split; [done|]. by intros c [= <-].
    + intros d. rewrite !elem_of_cons, elem_of_nil. unfold files, middle_files, final_files, advanced_tables. cbn. destruct tx, txh; naive_solver.
Qed.

(** Every call on synchronized connections succeeds with the evidence of its statement, or
    raises and changes nothing, or fails at the cursor, after the evidence. *)
Lemma record_call_cases s now w : synced w -> (forall c, c ∈ cursors (cursor_tables (files w)) -> keyed c) ->
  (exists key new added r, valid s /\ appended s now (fst (files w)) key new added /\ cursor_error now = None /\
     fst (record_call s now w) = Ok r /\ succeeded s now w r (snd (record_call s now w)) new added) \/
  (exists e, fst (record_call s now w) = Err e /\ unchanged w (snd (record_call s now w)) /\
     forall key new added, valid s -> ~ appended s now (fst (files w)) key new added) \/
  (exists key new added e, valid s /\ appended s now (fst (files w)) key new added /\ cursor_error now = Some e /\
     fst (record_call s now w) = Err e /\ halted w (snd (record_call s now w)) new added).
Proof.
  intros Hs Hk. destruct (_validate_normalized_statement s) as [[]|e] eqn:Hv.
  - destruct (append_evidence_cases s now (fst (files w))) as [(key & new & added & Ha)|(e & t' & E & Hn)].
    + destruct w as [c [h|] hs].
      * pose proof (record_two_files s now (Stores c (Some h) hs) h key new added Hv Hs eq_refl Hk Ha) as H.
        destruct (cursor_error now) as [e|] eqn:He; [right; right; by exists key, new, added, e|].
        destruct H as (r & H1 & H2). left. by exists key, new, added, r.
      * pose proof (record_one_file s now (Stores c None hs) key new added Hv Hs eq_refl Hk Ha) as H.
        destruct (cursor_error now) as [e|] eqn:He; [right; right; by exists key, new, added, e|].
        destruct H as (r & H1 & H2). left. by exists key, new, added, r.
    + right. left. exists e. destruct Hs as [Hw Hh]. destruct w as [[wk du tx] cc hs]. simpl in Hw, Hh, E, Hn. subst wk.
      unfold record_call, record_exchange_statement, ingest_exchange_statement, m_bind, m_lift, m_get, new_call, on_conn.
      rewrite Hv. cbn [cursor_conn conn]. destruct cc as [h|].
      * cbn [conn]. rewrite (in_savepoint_Err (append_evidence s now) (Connection du du tx) _ _ E). split; [done|]. split; [|by intros].
        constructor; cbn; try done. intros d. rewrite !elem_of_cons, elem_of_nil. unfold files. cbn. naive_solver.
      * assert (ingest_together s now du = (Err e, t')) as Ei by (unfold ingest_together, m_bind; by rewrite E).
        cbn [conn]. rewrite (in_savepoint_Err (ingest_together s now) (Connection du du tx) _ _ Ei). split; [done|]. split; [|by intros].
        constructor; cbn; try done. intros d. rewrite !elem_of_cons, elem_of_nil. unfold files. cbn. naive_solver.
  - right. left. exists e. unfold record_call, record_exchange_statement, ingest_exchange_statement, m_bind, m_lift. rewrite Hv.
    split; [done|]. split; [|intros ? ? ? Hv'; unfold valid in Hv'; congruence].
    constructor; [done|done|]. intros d. cbn. rewrite elem_of_cons, elem_of_nil. naive_solver.
Qed.

(** What each outcome leaves: every state is the one before, the one between the commits or
    the one after. *)
Lemma record_call_states s now w : synced w -> (forall c, c ∈ cursors (cursor_tables (files w)) -> keyed c) ->
  let w' := snd (record_call s now w) in synced w' /\
  ((files w' = files w /\ forall d, d ∈ history w' -> d = files w) \/
   exists key new added, valid s /\ appended s now (fst (files w)) key new added /\
     forall d, d = files w' \/ d ∈ history w' ->
       d = files w \/ d = middle_files (files w) new added \/ d = final_files (files w) (st_fields s) (t_cursor now) new added).
Proof.
  intros Hs Hk. cbv zeta. destruct (record_call_cases s now w Hs Hk)
    as [(key & new & added & r & Hv & Ha & _ & _ & [H1 H2 H3 _ _ _])|[(e & _ & [H1 H2 H3] & _)|(key & new & added & e & Hv & Ha & _ & _ & [H1 H2 H3])]].
  - split; [done|]. right. exists key, new, added. do 2 (split; [done|]). rewrite H2 in *. intros d [->|Hd]; [auto|]. exact (H3 d Hd).
  - split; [done|]. by left.
  - split; [done|]. right. exists key, new, added. do 2 (split; [done|]). rewrite H2 in *. intros d [->|Hd]; [auto|].
    destruct (H3 d Hd); auto.
Qed.

(** ** Invariants of the files *)

(** The statement at which a cursor stands. *)
Definition stands_at (c : cursor_row) (e : entry) : Prop :=
  scope_key (en_fields e) = source_key c /\ event_time_ms (en_fields e) = cu_time_ms c /\
  exchange_transaction_id (en_fields e) = cu_transaction_id c.

(** Every cursor stands at a journalled statement of its scope. *)
Definition evidenced (d : tables * option tables) : Prop :=
  forall c, c ∈ cursors (cursor_tables d) -> keyed c /\ exists e, e ∈ entries (fst d) /\ stands_at c e.

(** What the tables of the journal satisfy. *)
Record journal_ok (t : tables) : Prop := JournalOk {
  jo_keys : NoDup (map (fun e => statement_key (en_fields e)) (entries t));
  jo_identities : NoDup (map (fun e => identity_of (en_fields e)) (entries t));
  jo_valid : forall e, e ∈ entries t -> valid_fields (en_fields e) /\ valid_content (en_fields e);
  jo_ledgered : forall e, e ∈ entries t -> reconciliation_status (en_fields e) = LEDGERED -> ledger_event_key e ∈ keys (ledger t);
  jo_ledger_keys : NoDup (keys (ledger t))
}.

Definition good (d : tables * option tables) : Prop := journal_ok (fst d) /\ evidenced d.

Lemma journal_ok_cursors t l : journal_ok t -> journal_ok (set_cursors t l).
Proof. intros [H1 H2 H3 H4 H5]. by constructor. Qed.

Lemma journal_ok_grown s now t key new added : valid s -> journal_ok t -> appended s now t key new added -> journal_ok (grown t new added).
Proof.
  intros Hv [H1 H2 H3 H4 H5] [Hl Ha]. destruct (valid_inv s Hv) as (Hf & Hc & Hs).
  assert (forall e, e ∈ added -> en_fields e = st_fields s /\ ledger_event_key e = key /\
    find_entry (statement_key (st_fields s)) (entries t) = None /\ find_identity (st_fields s) (entries t) = None) as Hadd.
  { intros e He. destruct (find_entry _ _) as [x|]; destruct Ha as [Hi ->]; [by inversion He|]. by apply list_elem_of_singleton in He as ->. }
  assert (added = [] \/ exists e, added = [e]) as Hone by (destruct (find_entry _ _); destruct Ha as [_ ->]; eauto).
  constructor; simpl.
  - rewrite map_app. apply NoDup_app. split; [done|]. split.
    + intros k (x & -> & Hx)%list_elem_of_fmap. intros (e & Ee & He)%list_elem_of_fmap. destruct (Hadd e He) as (E & _ & Hn & _).
      rewrite E in Ee. by apply (find_entry_None _ _ Hn x Hx).
    + destruct Hone as [->|[e ->]]; [constructor|apply NoDup_singleton].
  - rewrite map_app. apply NoDup_app. split; [done|]. split.
    + intros k (x & -> & Hx)%list_elem_of_fmap. intros (e & Ee & He)%list_elem_of_fmap. destruct (Hadd e He) as (E & _ & _ & Hn).
      rewrite E in Ee. by apply (find_identity_None _ _ Hn x Hx).
    + destruct Hone as [->|[e ->]]; [constructor|apply NoDup_singleton].
  - intros e [He|He]%elem_of_app; [by apply H3|]. destruct (Hadd e He) as (-> & _). done.
  - intros e [He|He]%elem_of_app.
    + intros Hr. specialize (H4 e He Hr). unfold keys in *. rewrite map_app. apply elem_of_app. by left.
    + destruct (Hadd e He) as (-> & -> & _). intros Hr. eapply ledgered_key; [exact Hl|]. by apply Hs.
  - by eapply ledgered_NoDup.
Qed.

Lemma appended_entry s now t key new added : appended s now t key new added -> valid s -> journal_ok t ->
  exists e, e ∈ entries t ++ added /\ statement_key (en_fields e) = statement_key (st_fields s) /\
    st_content_hash (en_fields e) = st_content_hash (st_fields s) /\ (added <> [] -> en_fields e = st_fields s).
Proof.
  intros [_ Ha] _ _. destruct (find_entry _ _) as [x|] eqn:Hx; destruct Ha as [H ->].
  - apply find_entry_Some in Hx as [Hin Hk]. exists x. rewrite app_nil_r. by repeat split.
  - eexists. split; [apply elem_of_app; right; by apply list_elem_of_singleton|]. by repeat split.
Qed.

(** ** The canonical text determines the fields *)

Record same_fields (f g : statement_fields) : Prop := SameFields {
  sf_venue : st_venue f = st_venue g;
  sf_account : st_account_id f = st_account_id g;
  sf_mode : st_trading_mode f = st_trading_mode g;
  sf_source : statement_source f = statement_source g;
  sf_type : statement_type f = statement_type g;
  sf_transaction : exchange_transaction_id f = exchange_transaction_id g;
  sf_ms : event_time_ms f = event_time_ms g;
  sf_symbol : st_symbol f = st_symbol g;
  sf_asset : st_asset f = st_asset g;
  sf_amount : st_amount f = st_amount g;
  sf_status : reconciliation_status f = reconciliation_status g
}.

Lemma content_determines f g : valid_content f -> valid_content g -> canonical_content_json f = canonical_content_json g -> same_fields f g.
Proof.
  intros [_ (d & x & Hl & _ & _ & _ & Hd) _ _] [_ (d' & y & Hl' & _ & _ & _ & Hd') _ _] E. rewrite <- E, Hl in Hl'. injection Hl' as <-.
  pose proof (loads_keys _ _ Hl) as Hn.
  pose proof (fun k y1 y2 => flat_determined d (content_of_fields f x) (content_of_fields g y) k y1 y2 Hn Hd Hd') as Hdet.
  assert (forall k s1 s2, dict_get (content_of_fields f x) k = Some (VStr s1) -> dict_get (content_of_fields g y) k = Some (VStr s2) -> s1 = s2) as Hs.
  { intros k s1 s2 H1 H2. assert (VStr s1 = VStr s2) as [=] by (apply (Hdet k); try done; left; by eexists). done. }
  constructor.
  - by apply (Hs "venue").
  - by apply (Hs "account_id").
  - by apply (Hs "trading_mode").
  - by apply (Hs "statement_source").
  - by apply (Hs "statement_type").
  - by apply (Hs "exchange_transaction_id").
  - assert (VInt (event_time_ms f) = VInt (event_time_ms g)) as [=] by (apply (Hdet "event_time_ms"); try done; right; by eexists). done.
  - by apply (Hs "symbol").
  - by apply (Hs "asset").
  - by apply (Hs "amount").
  - by apply (Hs "reconciliation_status").
Qed.

Lemma same_scope_key f g : same_fields f g -> scope_key f = scope_key g.
Proof. intros [E1 E2 _ E3 _ _ _ _ _ _ _]. unfold scope_key. by rewrite E1, E2, E3. Qed.

(** ** The invariant that needs nothing of the hashes *)

Definition base (d : tables * option tables) : Prop :=
  journal_ok (fst d) /\ forall c, c ∈ cursors (cursor_tables d) -> keyed c.

Lemma base_middle s now d key new added : valid s -> base d -> appended s now (fst d) key new added -> base (middle_files d new added).
Proof.
  intros Hv [Hj Hk] Ha. destruct d as [t [h|]]; [|by split]. simpl in *. split; [|done]. by eapply journal_ok_grown.
Qed.

Lemma base_final s now d key new added : valid s -> base d -> appended s now (fst d) key new added ->
  base (final_files d (st_fields s) (t_cursor now) new added).
Proof.
  intros Hv [Hj Hk] Ha. destruct (valid_inv s Hv) as (Hf & _ & _).
  pose proof (journal_ok_grown s now (fst d) key new added Hv Hj Ha) as Hj'.
  destruct d as [t [h|]]; unfold final_files; simpl in *; split; simpl; try done.
  - by apply moved_keyed.
  - by apply journal_ok_cursors.
  - by apply moved_keyed.
Qed.

(** The stores between two calls, and every durable state of the last call. *)
Definition base_ok (w : stores) : Prop := synced w /\ base (files w) /\ forall d, d ∈ history w -> base d.

Lemma reopened_synced d : synced (reopened d) /\ files (reopened d) = d.
Proof.
  destruct d as [t h]. split; [|by destruct h]. split; [done|]. simpl. destruct h; simpl; intros c; [by intros [= <-]|done].
Qed.

Lemma begin_synced w : synced w -> synced (begin_transaction w).
Proof. by intros [H1 H2]. Qed.

(** A property of the files that calls preserve holds of everything reachable. *)
Lemma reachable_files (P : tables * option tables -> Prop) (admitted : NormalizedExchangeStatement -> Prop) (split : bool) :
  P (no_tables, if split then Some no_tables else None) ->
  (forall s now w, admitted s -> synced w -> P (files w) ->
    let w' := snd (record_call s now w) in synced w' /\ P (files w') /\ forall d, d ∈ history w' -> P d) ->
  forall w, reachable admitted split w -> synced w /\ P (files w) /\ forall d, d ∈ history w -> P d.
Proof.
  intros H0 Hstep. assert (forall d, P d -> synced (reopened d) /\ P (files (reopened d)) /\ forall d', d' ∈ history (reopened d) -> P d') as Hre.
  { intros d Hd. destruct (reopened_synced d) as [H1 H2]. split; [done|]. split; [by rewrite H2|]. by intros d' ->%list_elem_of_singleton. }
  induction 1 as [|w _ (H1 & H2 & H3)|w s now _ (H1 & H2 & _) Hs|w s now d _ (H1 & H2 & _) Hs Hd].
  - by apply Hre.
  - split; [by apply begin_synced|]. by split.
  - by apply Hstep.
  - apply Hre. by apply (Hstep s now w Hs H1 H2).
Qed.

Lemma record_call_base s now w : synced w -> base (files w) ->
  let w' := snd (record_call s now w) in synced w' /\ base (files w') /\ forall d, d ∈ history w' -> base d.
Proof.
  intros Hsy Hb. destruct (record_call_states s now w Hsy (proj2 Hb)) as [H1 [[H2 H3]|(key & new & added & Hv & Ha & H)]].
  - split; [done|]. split; [by rewrite H2|]. intros d Hd. by rewrite (H3 d Hd).
  - pose proof (base_middle s now (files w) key new added Hv Hb Ha). pose proof (base_final s now (files w) key new added Hv Hb Ha).
    assert (forall d, d = files (snd (record_call s now w)) \/ d ∈ history (snd (record_call s now w)) -> base d) as Hall.
    { intros d Hd. by destruct (H d Hd) as [->|[->| ->]]. }
    split; [done|]. split; [apply Hall; by left|]. intros d Hd. apply Hall. by right.
Qed.

Lemma no_tables_base (split : bool) : base (no_tables, if split then Some no_tables else None).
Proof.
  split; [constructor; simpl; try (by intros e He; inversion He); constructor|]. intros c Hc. destruct split; by inversion Hc.
Qed.

Lemma reachable_base admitted split w : reachable admitted split w -> base_ok w.
Proof.
  apply (reachable_files base); [apply no_tables_base|]. intros s now w' _. apply record_call_base.
Qed.

Section Sound.
(** The statements that are recorded; no two of their contents collide in SHA-256. *)
Context (admitted : NormalizedExchangeStatement -> Prop).
Context (no_collision : forall s s', admitted s -> admitted s' -> st_content_hash (st_fields s) = st_content_hash (st_fields s') ->
  canonical_content_json (st_fields s) = canonical_content_json (st_fields s')).

(** The journalled statements were admitted. *)
Definition from_admitted (t : tables) : Prop := forall e, e ∈ entries t -> exists s, admitted s /\ en_fields e = st_fields s.

Definition sound (d : tables * option tables) : Prop := good d /\ from_admitted (fst d).

(** The journal has the statement after its call, new or known. *)
Lemma appended_evidence s now t key new added : admitted s -> valid s -> journal_ok t -> from_admitted t -> appended s now t key new added ->
  exists e, e ∈ entries (grown t new added) /\ same_fields (en_fields e) (st_fields s).
Proof.
  intros Hs Hv Hj Hd Ha. destruct (appended_entry _ _ _ _ _ _ Ha Hv Hj) as (e & He & _ & Hh & Hadd). exists e. split; [done|].
  destruct (valid_inv s Hv) as (_ & Hc & _).
  destruct added as [|e' added].
  - rewrite app_nil_r in He. destruct (Hd e He) as (s' & Hs' & E). destruct (jo_valid t Hj e He) as [_ Hc'].
    apply content_determines; [done|done|]. rewrite E in Hh |- *. by apply no_collision.
  - rewrite Hadd by done. by constructor.
Qed.

Lemma from_admitted_grown s now t key new added : admitted s -> from_admitted t -> appended s now t key new added -> from_admitted (grown t new added).
Proof.
  intros Hs Hd [_ Ha] e [He|He]%elem_of_app; [by apply Hd|]. destruct (find_entry _ _); destruct Ha as [_ ->]; [by inversion He|].
  apply list_elem_of_singleton in He as ->. by exists s.
Qed.

Lemma stands_grown c t new added : (exists e, e ∈ entries t /\ stands_at c e) -> exists e, e ∈ entries (grown t new added) /\ stands_at c e.
Proof. intros (x & Hx & Hs). exists x. split; [|done]. apply elem_of_app. by left. Qed.

Lemma sound_middle s now d key new added : admitted s -> valid s -> sound d -> appended s now (fst d) key new added -> sound (middle_files d new added).
Proof.
  intros Hs Hv [[Hj He] Hd] Ha. destruct d as [t [h|]]; [|by split]. simpl in *. split; [split|].
  - by eapply journal_ok_grown.
  - intros c Hc. destruct (He c Hc) as [Hk Hst]. split; [done|]. by apply stands_grown.
  - by eapply from_admitted_grown.
Qed.

Lemma sound_final s now d key new added : admitted s -> valid s -> sound d -> appended s now (fst d) key new added ->
  sound (final_files d (st_fields s) (t_cursor now) new added).
Proof.
  intros Hs Hv [[Hj He] Hd] Ha. destruct (valid_inv s Hv) as (Hf & _ & _).
  destruct (appended_evidence s now (fst d) key new added Hs Hv Hj Hd Ha) as (x & Hx & Hsame).
  assert (forall l, (forall c, c ∈ l -> keyed c /\ exists e, e ∈ entries (fst d) /\ stands_at c e) ->
    forall c, c ∈ snd (moved (st_fields s) (t_cursor now) l) -> keyed c /\ exists e, e ∈ entries (grown (fst d) new added) /\ stands_at c e) as Hmv.
  { intros l Hl c Hc. split; [eapply moved_keyed; [exact Hf| |exact Hc]; intros y Hy; by apply Hl|].
    destruct (elem_of_moved _ _ _ _ Hc) as [Hin|(E1 & E2 & E3)].
    - destruct (Hl c Hin) as [_ Hst]. by apply stands_grown.
    - exists x. split; [done|]. split; [by rewrite E1; apply same_scope_key|]. rewrite E2, E3. by destruct Hsame. }
  pose proof (journal_ok_grown s now (fst d) key new added Hv Hj Ha) as Hj'.
  pose proof (from_admitted_grown s now (fst d) key new added Hs Hd Ha) as Hd'.
  destruct d as [t [h|]]; unfold final_files; simpl in *.
  - split; [|done]. split; [done|]. intros c Hc. by eapply Hmv.
  - split; [|done]. split; [by apply journal_ok_cursors|]. intros c Hc. by apply (Hmv (cursors t)).
Qed.

Lemma record_call_sound s now w : admitted s -> synced w -> sound (files w) ->
  let w' := snd (record_call s now w) in synced w' /\ sound (files w') /\ forall d, d ∈ history w' -> sound d.
Proof.
  intros Hs Hsy Hso. assert (forall c, c ∈ cursors (cursor_tables (files w)) -> keyed c) as Hk.
  { destruct Hso as [[_ He] _]. intros c Hc. by destruct (He c Hc). }
  destruct (record_call_states s now w Hsy Hk) as [H1 [[H2 H3]|(key & new & added & Hv & Ha & H)]].
  - split; [done|]. split; [by rewrite H2|]. intros d Hd. by rewrite (H3 d Hd).
  - pose proof (sound_middle s now (files w) key new added Hs Hv Hso Ha). pose proof (sound_final s now (files w) key new added Hs Hv Hso Ha).
    assert (forall d, d = files (snd (record_call s now w)) \/ d ∈ history (snd (record_call s now w)) -> sound d) as Hall.
    { intros d Hd. by destruct (H d Hd) as [->|[->| ->]]. }
    split; [done|]. split; [apply Hall; by left|]. intros d Hd. apply Hall. by right.
Qed.

Lemma reachable_sound split w : reachable admitted split w -> synced w /\ sound (files w) /\ forall d, d ∈ history w -> sound d.
Proof.
  apply reachable_files; [|intros; by apply record_call_sound]. split; [split|by intros e He; inversion He].
  - apply (no_tables_base split).
  - intros c Hc. destruct split; by inversion Hc.
Qed.

End Sound.
