(* ===== verification/StatementStoreProps.v ===== *)
(** * Exchange statements: the guarantees of the store

    Crash safety, retries, what an error leaves (nothing, or the evidence of a statement whose
    cursor could not be written) and the order of the cursors, from the cases of one call. *)
From Stdlib Require Import ZArith Lia Ascii Sorted.
From stdpp Require Import base list strings sets.
From S2P Require Import Prelude PyDecimal PyDecimalFacts PyTime PyValue PyCalendar PyCalendarFacts PyJson PyJsonFacts.
From S2P Require Import EconomicLedger EconomicLedgerFacts EconomicBuilderFacts ExchangeStatements StatementStore StatementStoreFacts.
Open Scope Z_scope.

(** ** No cursor without evidence *)

(** C18: the cursors never get ahead of the journal. On
    one connection or two, whatever calls were made and whenever processes were killed, in
    every durable state every cursor stands at a journalled statement of its scope: the
    documented guarantee that a cursor without evidence cannot occur.  Only two statements whose
    different contents have the same SHA-256 could break it. *)
Theorem cursor_has_evidence admitted split w :
  (forall s s', admitted s -> admitted s' -> st_content_hash (st_fields s) = st_content_hash (st_fields s') ->
    canonical_content_json (st_fields s) = canonical_content_json (st_fields s')) ->
  reachable admitted split w ->
  forall d c, d = files w \/ d ∈ history w -> c ∈ cursors (cursor_tables d) ->
  exists e, e ∈ entries (fst d) /\ scope_key (en_fields e) = source_key c /\
    event_time_ms (en_fields e) = cu_time_ms c /\ exchange_transaction_id (en_fields e) = cu_transaction_id c.
Proof.
  intros Hnc Hr d c Hd Hc. destruct (reachable_sound admitted Hnc split w Hr) as (_ & Hf & Hh).
  assert (sound admitted d) as [[_ He] _] by (destruct Hd as [->|Hd]; [done|by apply Hh]).
  destruct (He c Hc) as [_ Hst]. exact Hst.
Qed.

(** C26: the journal and the ledger agree. In every durable
    state no two rows have the same key or the same identity, every row passed validation, no two
    ledger rows have the same identity, and the effect of every ledgered statement is in the ledger. *)
Theorem journal_invariant admitted split w : reachable admitted split w ->
  forall d, d = files w \/ d ∈ history w ->
  NoDup (map (fun e => statement_key (en_fields e)) (entries (fst d))) /\
  NoDup (map (fun e => identity_of (en_fields e)) (entries (fst d))) /\
  NoDup (keys (ledger (fst d))) /\
  forall e, e ∈ entries (fst d) -> valid_fields (en_fields e) /\
    (reconciliation_status (en_fields e) = LEDGERED -> exists r, r ∈ ledger (fst d) /\ event_key r = ledger_event_key e).
Proof.
  intros Hr d Hd. destruct (reachable_base admitted split w Hr) as (_ & Hf & Hh).
  assert (base d) as [[H1 H2 H3 H4 H5] _] by (destruct Hd as [->|Hd]; [done|by apply Hh]).
  split; [done|]. split; [done|]. split; [done|]. intros e He. split; [by apply H3|]. intros Hs.
  specialize (H4 e He Hs). apply list_elem_of_fmap in H4 as (r & Hk & Hin). by exists r.
Qed.

(** What the journal stores is what it hashes: the
    content of every row decodes to the dictionary of its fields, with integers and texts where they
    belong, and the stored hash and key are those of the content and of the identity. *)
Theorem stored_content_is_typed admitted split w e : reachable admitted split w -> e ∈ entries (fst (files w)) ->
  let f := en_fields e in
  st_content_hash f = sha256_hex (canonical_content_json f) /\
  _statement_identity_key (st_venue f) (st_account_id f) (statement_source f) (statement_type f) (exchange_transaction_id f)
    = Ok (statement_key f) /\
  exists content extras, json_loads (canonical_content_json f) = Ok (VDict content) /\
    dict_keys content ≡ₚ dict_keys (content_of_fields f extras) /\
    forall k v, dict_get (content_of_fields f extras) k = Some v -> exists x, dict_get content k = Some x /\ scalar_eq x v = true.
Proof.
  intros Hr He f. destruct (reachable_base admitted split w Hr) as (_ & [Hj _] & _).
  destruct (jo_valid _ Hj e He) as [_ [Hk (d & x & Hl & _ & _ & _ & Hd) Hh _]]. fold f in Hk, Hl, Hd, Hh.
  split; [done|]. split; [done|]. pose proof (loads_keys _ _ Hl) as Hn. pose proof (py_eq_keys _ _ Hn Hd) as Hp.
  exists d, x. split; [done|]. split; [done|]. intros k v Hv.
  destruct (py_eq_get d _ k v Hn Hd Hv) as (y & Hy & Hq). exists y. split; [done|].
  rewrite py_eq_scalar in Hq; [done|]. clear -Hv. unfold content_of_fields, content_of in Hv. apply dict_get_elem in Hv.
  rewrite !elem_of_cons, elem_of_nil in Hv. unfold text_or_int. naive_solver.
Qed.

(** ** Errors *)

(** What a statement needs to be accepted: validity, no other content under its key, and an
    event the ledger accepts. *)
Definition acceptable (s : NormalizedExchangeStatement) (now : Z) (t : tables) : Prop :=
  valid s /\
  match find_entry (statement_key (st_fields s)) (entries t) with
  | Some e => st_content_hash (en_fields e) = st_content_hash (st_fields s)
  | None => True
  end /\
  match economic_event s with
  | None => True
  | Some ev => exists item, _normalize_event ev now = Ok item /\
      match find_key (event_key item) (ledger t) with Some r => content_hash r = content_hash item | None => True end
  end.

Lemma acceptable_appended s now t : journal_ok t -> acceptable s (t_ledger now) t <-> valid s /\ exists key new added, appended s now t key new added.
Proof.
  intros Hj. split.
  - intros (Hv & He & Hl). split; [done|]. destruct (valid_inv s Hv) as (_ & Hc & _).
    assert (exists key new, ledgered (ledger t) (economic_event s) (t_ledger now) key new) as (key & new & Hled).
    { destruct (economic_event s) as [ev|]; [|eexists "", []; constructor]. destruct Hl as (item & Hn & Hf).
      destruct (find_key (event_key item) (ledger t)) as [r|] eqn:E; eexists _, _; [by eapply ledgered_dup|by eapply ledgered_new]. }
    exists key, new. destruct (find_entry _ (entries t)) as [e|] eqn:E.
    + exists []. split; [done|]. by rewrite E.
    + eexists. split; [done|]. rewrite E. split; [|done]. destruct (find_identity (st_fields s) (entries t)) as [x|] eqn:Ei; [|done].
      exfalso. apply find_identity_Some in Ei as [Hin Hid]. apply (find_entry_None _ _ E x Hin).
      destruct (jo_valid t Hj x Hin) as [_ Hcx]. unfold identity_of in Hid. injection Hid as E1 E2 E3 E4 E5.
      pose proof (vc_key _ Hc) as K1. pose proof (vc_key _ Hcx) as K2. rewrite E1, E2, E3, E4, E5 in K2. congruence.
  - intros (Hv & key & new & added & Hl & Ha). split; [done|]. split.
    + destruct (find_entry _ (entries t)); [by destruct Ha|done].
    + destruct Hl as [|ev n item Hn Hf|ev n item r Hn Hf Hh]; [done| |]; exists item; by rewrite Hf.
Qed.

(** What a statement leaves in the journal of two files when its cursor cannot be written:
    its evidence, and the cursors as they were. *)
Record evidence_only (s : NormalizedExchangeStatement) (d d' : tables * option tables) : Prop := {
  eo_cursors : snd d' = snd d /\ cursors (fst d') = cursors (fst d);
  eo_entry : exists e, find_entry (statement_key (st_fields s)) (entries (fst d')) = Some e /\
    st_content_hash (en_fields e) = st_content_hash (st_fields s);
  eo_kept : (exists l, entries (fst d') = entries (fst d) ++ l) /\ exists l, ledger (fst d') = ledger (fst d) ++ l;
  eo_ledger : forall ev, economic_event s = Some ev -> forall now item, _normalize_event ev now = Ok item ->
    exists r, find_key (event_key item) (ledger (fst d')) = Some r /\ content_hash r = content_hash item
}.

Lemma ledgered_found l ev now key new : ledgered l (Some ev) now key new -> forall now' item, _normalize_event ev now' = Ok item ->
  exists r, find_key (event_key item) (l ++ new) = Some r /\ content_hash r = content_hash item.
Proof.
  intros H now' item Hi. inversion H as [|e n x Hn Hf|e n x r Hn Hf Hh]; subst;
    pose proof (normalize_clock _ _ now' _ Hn) as Hn'; rewrite Hi in Hn'; injection Hn' as ->; cbn [event_key content_hash].
  - eexists. rewrite find_key_app, Hf. simpl. by rewrite String.eqb_refl.
  - exists r. by rewrite app_nil_r.
Qed.

Lemma middle_evidence s now t h key new added : appended s now t key new added ->
  evidence_only s (t, Some h) (middle_files (t, Some h) new added).
Proof.
  intros [Hl Ha]. cbn [middle_files snd fst]. constructor; cbn [fst snd grown entries ledger cursors].
  - done.
  - rewrite find_entry_app. destruct (find_entry _ (entries t)) as [e|] eqn:E; destruct Ha as [H1 ->]; [by exists e|].
    simpl. rewrite String.eqb_refl. by eexists.
  - split; by eexists.
  - intros ev E. rewrite E in Hl. by eapply ledgered_found.
Qed.

(** C21: a recording raises exactly when its statement is not acceptable (it is malformed,
    its key has another content, or the ledger rejects its event) or the database refuses to
    write the cursor.  A recording that raises leaves every table of every file as it was,
    at all times, but for one case: with the cursors in a file of their own, an acceptable
    statement whose cursor cannot be written leaves its evidence and no cursor. *)
Theorem failed_record_moves_no_cursor admitted split w s now : reachable admitted split w ->
  let '(r, w') := record_call s now w in
  (is_ok r = true <-> acceptable s (t_ledger now) (fst (files w)) /\ cursor_error now = None) /\
  (is_ok r = false -> synced w' /\
     (snd (files w) = None \/ ~ acceptable s (t_ledger now) (fst (files w)) ->
        files w' = files w /\ forall d, d ∈ history w' -> d = files w) /\
     (snd (files w) <> None -> acceptable s (t_ledger now) (fst (files w)) ->
        evidence_only s (files w) (files w') /\ forall d, d ∈ history w' -> d = files w \/ d = files w')).
Proof.
  intros Hr. destruct (reachable_base admitted split w Hr) as (Hsy & [Hj Hk] & _). pose proof (acceptable_appended s now _ Hj) as Hacc.
  pose proof (record_call_cases s now w Hsy Hk) as Hc. destruct (record_call s now w) as [r w']. cbn [fst snd] in Hc.
  rewrite Hacc. clear Hacc.
  destruct Hc as [(key & new & added & r' & Hv & Ha & He & -> & _)|[(e & -> & [H1 H2 H3] & Hn)|(key & new & added & e & Hv & Ha & He & -> & [H1 H2 H3])]].
  - cbn [is_ok]. rewrite He. naive_solver.
  - cbn [is_ok]. split; [split; [done|]; intros [(Hv & key & new & added & Ha) _]; by destruct (Hn key new added)|].
    intros _. split; [done|]. split; [done|]. intros _ (Hv & key & new & added & Ha). by destruct (Hn key new added).
  - cbn [is_ok]. rewrite He. split; [split; [done|by intros [_ [=]]]|]. intros _. split; [done|]. split.
    + intros [Hone|Hn]; [|destruct Hn; split; [done|]; by exists key, new, added].
      assert (middle_files (files w) new added = files w) as Em by (unfold middle_files; by rewrite Hone).
      rewrite Em in H2. rewrite H2 in *. split; [done|]. intros d Hd. by destruct (H3 d Hd).
    + intros Htwo _. split; [|done]. rewrite H2. destruct (files w) as [t [h|]] eqn:Ef; [|done]. by eapply middle_evidence.
Qed.

(** ** Retries *)

(** The tables without the clock readings. *)
Definition erase_row (r : row) : row := Row (r_fields r) (event_key r) (content_hash r) "".
Definition erase_entry (e : entry) : entry := Entry (en_fields e) "" (ledger_event_key e).
Definition erase_cursor (c : cursor_row) : cursor_row :=
  Cursor (source_key c) (cu_venue c) (cu_account_id c) (cu_source c) (cu_time_ms c) (cu_transaction_id c) "".
Definition erase (t : tables) : tables := Tables (map erase_entry (entries t)) (map erase_row (ledger t)) (map erase_cursor (cursors t)).
Definition erase_files (d : tables * option tables) : tables * option tables := (erase (fst d), option_map erase (snd d)).

Lemma ledgered_later l ev now key new now' : ledgered l ev now key new -> exists new', ledgered l ev now' key new' /\ map erase_row new' = map erase_row new.
Proof.
  intros [|e n item Hn Hf|e n item r Hn Hf Hh].
  - exists []. split; [constructor|done].
  - pose proof (normalize_clock e n now' item Hn) as Hn'. eexists. split; [by apply (ledgered_new l e now' _ Hn')|done].
  - pose proof (normalize_clock e n now' item Hn) as Hn'. exists []. split; [|done]. by apply (ledgered_dup l e now' _ r Hn').
Qed.

Lemma ledgered_again l ev now key new now' : ledgered l ev now key new -> ledgered (l ++ new) ev now' key [].
Proof.
  intros [|e n item Hn Hf|e n item r Hn Hf Hh]; [constructor| |].
  - pose proof (normalize_clock e n now' item Hn) as Hn'. apply (ledgered_dup _ e now' _ item Hn'); [|done].
    cbn [event_key]. rewrite find_key_app, Hf. simpl. by rewrite String.eqb_refl.
  - pose proof (normalize_clock e n now' item Hn) as Hn'. rewrite app_nil_r. by apply (ledgered_dup _ e now' _ r Hn').
Qed.

(** The same evidence at another time, and again. *)
Lemma appended_later s now t key new added now' : appended s now t key new added ->
  exists new' added', appended s now' t key new' added' /\ map erase_row new' = map erase_row new /\ map erase_entry added' = map erase_entry added.
Proof.
  intros [Hl Ha]. destruct (ledgered_later _ _ _ _ _ (t_ledger now') Hl) as (new' & Hl' & En). exists new'.
  destruct (find_entry _ (entries t)) as [e|] eqn:E; destruct Ha as [H1 ->]; eexists; (split; [split; [done|rewrite E; by split]|done]).
Qed.

Lemma appended_again s now t key new added now' l : appended s now t key new added ->
  appended s now' (set_cursors (grown t new added) l) key [] [].
Proof.
  intros [Hl Ha]. split; [by eapply ledgered_again|]. cbn [set_cursors grown entries]. rewrite find_entry_app.
  destruct (find_entry _ (entries t)) as [e|] eqn:E; destruct Ha as [H1 ->]; [by split|]. simpl. by rewrite String.eqb_refl.
Qed.

Lemma moved_erase f now now' l : map erase_cursor (snd (moved f now l)) = map erase_cursor (snd (moved f now' l)).
Proof.
  unfold moved. destruct (find_cursor (scope_key f) l) as [c|]; [|cbn [snd]; by rewrite !map_app].
  destruct (moves f c); [|done]. cbn [snd]. rewrite !map_map. apply map_ext. intros x. unfold moved_to. cbn [source_key].
  by destruct (String.eqb _ _).
Qed.

Lemma grown_nil t : grown t [] [] = t.
Proof. unfold grown. rewrite !app_nil_r. by destruct t. Qed.

Lemma erase_grown t new added new' added' : map erase_row new' = map erase_row new -> map erase_entry added' = map erase_entry added ->
  erase (grown t new' added') = erase (grown t new added).
Proof. intros E1 E2. unfold erase, grown. simpl. by rewrite !map_app, E1, E2. Qed.

Lemma erase_advanced f now now' t u : erase t = erase u -> cursors t = cursors u ->
  erase (advanced_tables f now t) = erase (advanced_tables f now' u).
Proof. intros E Ec. unfold erase, advanced_tables in *. simpl. rewrite Ec. injection E as E1 E2 _. by rewrite E1, E2, (moved_erase f now now'). Qed.

Lemma advanced_again f now now' t : advanced_tables f now' (advanced_tables f now t) = advanced_tables f now t.
Proof. unfold advanced_tables. simpl. by rewrite moved_again. Qed.

(** From any state of the call the retry finds its evidence, and ends like the call. *)
Lemma retry_evidence s now now' d new added key d' : appended s now (fst d) key new added ->
  d' = d \/ d' = middle_files d new added \/ d' = final_files d (st_fields s) (t_cursor now) new added ->
  exists new' added', appended s now' (fst d') key new' added' /\
    erase_files (final_files d' (st_fields s) (t_cursor now') new' added') = erase_files (final_files d (st_fields s) (t_cursor now) new added).
Proof.
  intros Ha Hd'. destruct (appended_later s now (fst d) key new added now' Ha) as (new1 & added1 & Ha1 & E1 & E2).
  set (f := st_fields s) in *. destruct d as [t [h|]]; destruct Hd' as [->|[->| ->]]; unfold middle_files, final_files in *; cbn [fst snd] in *.
  - exists new1, added1. split; [done|]. unfold erase_files. cbn [fst snd option_map]. f_equal; [by apply erase_grown|f_equal; by apply erase_advanced].
  - exists [], []. split; [exact (appended_again s now t key new added now' (cursors t) Ha)|].
    unfold erase_files. cbn [fst snd option_map]. rewrite grown_nil. do 2 f_equal. by apply erase_advanced.
  - exists [], []. split; [exact (appended_again s now t key new added now' (cursors t) Ha)|].
    unfold erase_files. cbn [fst snd option_map]. by rewrite grown_nil, advanced_again.
  - exists new1, added1. split; [done|]. unfold erase_files. cbn [fst snd option_map]. f_equal. apply erase_advanced; [by apply erase_grown|done].
  - exists new1, added1. split; [done|]. unfold erase_files. cbn [fst snd option_map]. f_equal. apply erase_advanced; [by apply erase_grown|done].
  - exists [], []. split; [exact (appended_again s now t key new added now' _ Ha)|].
    unfold erase_files. cbn [fst snd option_map]. by rewrite grown_nil, advanced_again.
Qed.

(** The same call with a database that writes the cursor. *)
Definition undisturbed (now : surroundings) : surroundings := Surroundings (t_ledger now) (t_entry now) (t_cursor now) None.

(** C22: a recording that was killed or could not write its cursor can be retried.  From any
    durable state of the recording of a statement that an undisturbed call accepts (nothing
    written, the evidence committed before the cursor, or all of it), recording the
    statement again, with a database that writes the cursor, succeeds, and the files end as
    those of the undisturbed call, apart from the recorded times. *)
Theorem retry_completes_the_call admitted split w s now now' d : reachable admitted split w -> admitted s ->
  is_ok (fst (record_call s (undisturbed now) w)) = true -> d ∈ history (snd (record_call s now w)) -> cursor_error now' = None ->
  is_ok (fst (record_call s now' (reopened d))) = true /\
  erase_files (files (snd (record_call s now' (reopened d)))) = erase_files (files (snd (record_call s (undisturbed now) w))).
Proof.
  intros Hr Hs Hok Hd Hnow'. destruct (reachable_base admitted split w Hr) as (Hsy & Hb & _).
  destruct (record_call_base s now w Hsy Hb) as (_ & _ & Hhist). pose proof (Hhist d Hd) as Hbd.
  destruct (record_call_cases s (undisturbed now) w Hsy (proj2 Hb))
    as [(key & new & added & r & Hv & Ha & _ & E & [_ Hfin _ _ _ _])|[(e & E & _)|(key & new & added & e & _ & _ & [=] & _)]];
    rewrite E in Hok; [|done].
  change (appended s now (fst (files w)) key new added) in Ha. rewrite Hfin.
  assert (d = files w \/ d = middle_files (files w) new added \/ d = final_files (files w) (st_fields s) (t_cursor now) new added) as Hcase.
  { destruct (record_call_states s now w Hsy (proj2 Hb)) as [_ [[_ H]|(key1 & new1 & added1 & _ & Ha1 & H)]]; [left; by apply H|].
    destruct (appended_det _ _ _ _ _ _ _ _ _ Ha Ha1) as [-> ->]. apply H. by right. }
  destruct (reopened_synced d) as [Hsy' Hf'].
  destruct (retry_evidence s now now' (files w) new added key d Ha Hcase) as (new' & added' & Ha' & Ee).
  rewrite <- Hf' in Hbd, Ha'.
  destruct (record_call_cases s now' (reopened d) Hsy' (proj2 Hbd))
    as [(key2 & new2 & added2 & r2 & _ & Ha2 & _ & E2 & Hsu2)|[(e2 & _ & _ & Hn2)|(? & ? & ? & e2 & _ & _ & He2 & _)]]; [| |congruence].
  - rewrite E2. split; [done|]. destruct Hsu2 as [_ -> _ _ _ _]. rewrite Hf' in *. cbn [undisturbed t_cursor]. rewrite <- Ee.
    by destruct (appended_det _ _ _ _ _ _ _ _ _ Ha' Ha2) as [-> ->].
  - by destruct (Hn2 key new' added' Hv).
Qed.

(** ** The order of the cursors *)

(** The position of a statement or cursor with a decimal transaction id. *)
Definition at_most (t1 : Z) (x1 : string) (t2 : Z) (x2 : string) : Prop := t1 < t2 \/ t1 = t2 /\ int_of x1 <= int_of x2.

Lemma follows_decimal t1 x1 t2 x2 : isdecimal x1 = true -> isdecimal x2 = true ->
  _cursor_follows t1 x1 t2 x2 = false <-> at_most t1 x1 t2 x2.
Proof.
  intros H1 H2. unfold _cursor_follows, at_most. rewrite H1, H2. simpl. destruct (Z.eqb_spec t1 t2); simpl; [rewrite Z.ltb_ge|rewrite Z.ltb_ge]; lia.
Qed.

(** Transaction ids of both kinds at one instant make a cycle: the cursor is then not monotone. *)
Example mixed_ids_cycle :
  _cursor_follows 5 "10" 5 "9" && _cursor_follows 5 "1a" 5 "10" && _cursor_follows 5 "9" 5 "1a" = true.
Proof. reflexivity. Qed.

(** Every journalled statement of the file is covered by the cursor of its scope. *)
Definition covered (t : tables) : Prop :=
  (forall c, c ∈ cursors t -> isdecimal (cu_transaction_id c) = true) /\
  forall e, e ∈ entries t -> isdecimal (exchange_transaction_id (en_fields e)) = true /\
    exists c, find_cursor (scope_key (en_fields e)) (cursors t) = Some c /\
      at_most (event_time_ms (en_fields e)) (exchange_transaction_id (en_fields e)) (cu_time_ms c) (cu_transaction_id c).

Lemma find_moved_cursor f now l k c : find_cursor k l = Some c -> exists c', find_cursor k (snd (moved f now l)) = Some c' /\
  (c' = c \/ c' = moved_to (cursor_of f now) c /\ k = scope_key f /\ moves f c = true).
Proof.
  intros Hc. unfold moved. destruct (find_cursor (scope_key f) l) as [x|] eqn:Hx.
  - destruct (moves f x) eqn:Hm; cbn [snd]; [|exists c; auto]. rewrite find_moved, Hc. eexists. split; [done|].
    destruct (find_cursor_Some _ _ _ Hc) as [_ Hk]. destruct (decide (k = scope_key f)) as [Ek|Hne].
    + right. subst k. rewrite <- Ek in Hx. rewrite Hc in Hx. injection Hx as ->. rewrite Ek. by repeat split.
    + left. unfold moved_to. cbn [source_key cursor_of]. destruct (String.eqb_spec (source_key c) (scope_key f)); [congruence|done].
  - cbn [snd]. rewrite find_cursor_app, Hc. eauto.
Qed.

Lemma covered_final f now t new added : covered t -> isdecimal (exchange_transaction_id f) = true ->
  (forall e, e ∈ added -> en_fields e = f) -> covered (advanced_tables f now (grown t new added)).
Proof.
  intros [Hc He] Hf Hadd.
  assert (forall c, c ∈ snd (moved f now (cursors t)) -> isdecimal (cu_transaction_id c) = true) as Hdec.
  { intros c Hin. destruct (elem_of_moved _ _ _ _ Hin) as [Hin'|(_ & _ & ->)]; [by apply Hc|done]. }
  split; [exact Hdec|]. cbn [advanced_tables set_cursors grown entries cursors]. intros e [Hin|Hin]%elem_of_app.
  - destruct (He e Hin) as (Hd & c & Hfc & Hle). split; [done|]. destruct (find_moved_cursor f now _ _ _ Hfc) as (c' & Hc' & Hcase).
    exists c'. split; [done|]. destruct Hcase as [->|(-> & Hk & Hm)]; [done|]. destruct (find_cursor_Some _ _ _ Hfc) as [Hinc Hkc].
    unfold moved_to. cbn [cursor_of source_key]. rewrite Hkc, Hk, String.eqb_refl. cbn [cursor_of cu_time_ms cu_transaction_id].
    unfold moves in Hm. assert (~ at_most (event_time_ms f) (exchange_transaction_id f) (cu_time_ms c) (cu_transaction_id c)) as Hn.
    { rewrite <- follows_decimal by (done || by apply Hc). by rewrite Hm. }
    unfold at_most in *. lia.
  - rewrite (Hadd e Hin). split; [done|]. destruct (moved_reaches f now (cursors t)) as (c & Hfc & Hm). exists c. split; [done|].
    apply follows_decimal; [done| |exact Hm]. apply Hdec. by apply find_cursor_Some in Hfc as [? _].
Qed.

(** On one connection the cursor of a scope is the greatest position
    of its journal. When transaction ids are decimal, every journalled statement is at or before the
    cursor of its scope, by time and then by numeric id, after any calls and any kills. *)
Theorem cursor_is_greatest admitted w e :
  (forall s, admitted s -> isdecimal (exchange_transaction_id (st_fields s)) = true) ->
  reachable admitted false w -> e ∈ entries (fst (files w)) ->
  exists c, find_cursor (scope_key (en_fields e)) (cursors (fst (files w))) = Some c /\
    at_most (event_time_ms (en_fields e)) (exchange_transaction_id (en_fields e)) (cu_time_ms c) (cu_transaction_id c).
Proof.
  intros Hdec Hr He.
  destruct (reachable_files (fun d => base d /\ snd d = None /\ covered (fst d)) admitted false) with (w := w) as (_ & (_ & _ & _ & Hc) & _); [| |done|].
  - split; [apply (no_tables_base false)|]. split; [done|]. split; intros x Hx; inversion Hx.
  - intros s now w0 Hs Hsy (Hb & Hone & Hcov). destruct (record_call_base s now w0 Hsy Hb) as (H1 & H2 & H3).
    assert (forall d, d = files (snd (record_call s now w0)) \/ d ∈ history (snd (record_call s now w0)) -> snd d = None /\ covered (fst d)) as Hcase.
    { destruct (record_call_states s now w0 Hsy (proj2 Hb)) as [_ [[E1 E2]|(key & new & added & Hv & [_ Ha] & H)]].
      - intros d [->|Hd]; [by rewrite E1|by rewrite (E2 d Hd)].
      - intros d Hd. specialize (H d Hd). destruct (files w0) as [t h]. simpl in Hone, Hcov. subst h. cbn in H, Ha.
        destruct H as [->|[->| ->]]; [done|done|]. split; [done|]. apply covered_final; [done|by apply Hdec|]. intros y Hy.
        destruct (find_entry _ (entries t)); destruct Ha as [_ ->]; [by inversion Hy|by apply list_elem_of_singleton in Hy as ->]. }
    split; [done|]. split; [split; [done|apply Hcase; by left]|]. intros d Hd. split; [by apply H3|]. apply Hcase. by right.
  - destruct (Hc e He) as (_ & c & H1 & H2). by exists c.
Qed.

(** ** The guarantees on a recorded row *)

Lemma ex_reached split : reachable ex_admitted split (snd (ex_call split)).
Proof.
  unfold ex_call. destruct (normalize_binance_futures_income _ _) as [s|] eqn:E; [|apply reach_start]. by apply reach_call; [apply reach_start|].
Qed.

Lemma one_row {A} (l : list A) : length l = 1%nat -> exists x, x ∈ l.
Proof. destruct l as [|x l]; [done|]. intros _. exists x. set_solver. Qed.

(** The call recorded one row, and its second durable state has it. *)
Record sized (r : result ExchangeStatementIngestionResult * stores) : Prop := Sized {
  sz_ok : is_ok (fst r) = true;
  sz_length : length (entries (fst (files (snd r)))) = 1%nat;
  sz_entry : exists e, e ∈ entries (fst (files (snd r)));
  sz_cursor : exists c, c ∈ cursors (cursor_tables (files (snd r)));
  sz_killed : exists d, d ∈ history (snd r) /\ length (entries (fst d)) = 1%nat
}.

Lemma sizes_sized split r : ex_sizes r = ex_expected split -> sized r.
Proof.
  unfold ex_sizes, ex_expected. intros [= H1 H2 _ H3 H4]. constructor; [done|done|by apply one_row..|].
  destruct (history (snd r)) as [|d0 [|d1 l]]; [by destruct split..|]. exists d1. split; [set_solver|]. by destruct split; injection H4.
Qed.

Lemma ex_sized split : sized (ex_call split).
Proof. eapply sizes_sized, ex_call_sizes. Qed.

Lemma ex_admits : exists s, ex_admitted s.
Proof. pose proof ex_decimal as H. unfold ex_admitted. destruct (normalize_binance_futures_income _ _) as [s|]; [by exists s|done]. Qed.

Lemma ex_call_eq split s : ex_admitted s -> ex_call split = record_call s (ex_clock 0) (ex_empty split).
Proof. unfold ex_call, ex_admitted. by intros ->. Qed.

Lemma cursor_has_evidence_witness : exists c e, c ∈ cursors (cursor_tables (files (snd (ex_call true)))) /\
  e ∈ entries (fst (files (snd (ex_call true)))) /\ exchange_transaction_id (en_fields e) = cu_transaction_id c.
Proof.
  destruct (sz_cursor _ (ex_sized true)) as [c Hc]. exists c.
  destruct (cursor_has_evidence ex_admitted true (snd (ex_call true))) with (d := files (snd (ex_call true))) (c := c) as (e & He & _ & _ & Ht).
  - unfold ex_admitted. intros s s' Hs Hs' _. congruence.
  - apply ex_reached.
  - by left.
  - done.
  - by exists e.
Defined.

Lemma journal_invariant_witness : exists e, e ∈ entries (fst (files (snd (ex_call true)))) /\ valid_fields (en_fields e).
Proof.
  destruct (sz_entry _ (ex_sized true)) as [e He]. exists e. split; [done|].
  destruct (journal_invariant ex_admitted true _ (ex_reached true) _ (or_introl eq_refl)) as (_ & _ & _ & H). by apply H.
Defined.

Lemma stored_content_is_typed_witness : exists e, e ∈ entries (fst (files (snd (ex_call false)))) /\
  st_content_hash (en_fields e) = sha256_hex (canonical_content_json (en_fields e)).
Proof.
  destruct (sz_entry _ (ex_sized false)) as [e He]. exists e. split; [done|].
  by destruct (stored_content_is_typed ex_admitted false _ e (ex_reached false) He) as (H & _).
Defined.

(** A statement of an unknown schema. *)
Definition ex_bad : NormalizedExchangeStatement := Statement (StatementFields 0 "" "" "" "" "" "" "" "" "" "" 0 "" "" "" "" "" "" "") None.

Lemma failed_record_moves_no_cursor_witness :
  is_ok (fst (record_call ex_bad (ex_clock 1) (snd (ex_call false)))) = false /\
  files (snd (record_call ex_bad (ex_clock 1) (snd (ex_call false)))) = files (snd (ex_call false)).
Proof.
  assert (is_ok (fst (record_call ex_bad (ex_clock 1) (snd (ex_call false)))) = false) as Hb by reflexivity.
  split; [exact Hb|]. assert (snd (files (snd (ex_call false))) = None) as Hone by (vm_compute; reflexivity).
  pose proof (failed_record_moves_no_cursor ex_admitted false _ ex_bad (ex_clock 1) (ex_reached false)) as H.
  destruct (record_call ex_bad (ex_clock 1) (snd (ex_call false))) as [r w']. cbn [fst snd] in *.
  destruct (proj2 H Hb) as (_ & Hsame & _). exact (proj1 (Hsame (or_introl Hone))).
Defined.

(** A cursor that cannot be written, in a file of its own: the row is journalled and
    ledgered, and the retry moves the cursor. *)
Definition ex_full_disk : surroundings := Surroundings 0 0 0 (Some (Exn IntegrityError "forced statement cursor failure")).

Example failed_cursor_is_retried :
  match normalize_binance_futures_income ex_funding_payload ex_context with
  | Ok s =>
      let '(r1, w1) := record_call s ex_full_disk (ex_empty true) in
      let '(r2, w2) := record_call s (ex_clock 1) w1 in
      let size := fun w => (length (entries (fst (files w))), length (ledger (fst (files w))), length (cursors (cursor_tables (files w)))) in
      (is_ok r1, size w1, res_map (fun r => (r_inserted r, r_duplicate r, cursor_advanced r)) r2, size w2)
      = (false, (1, 1, 0)%nat, Ok (false, true, true), (1, 1, 1)%nat)
  | Err _ => False
  end.
Proof. vm_compute. reflexivity. Qed.

Lemma retry_completes_the_call_witness : exists s d, ex_admitted s /\ length (entries (fst d)) = 1%nat /\
  is_ok (fst (record_call s (ex_clock 1) (reopened d))) = true.
Proof.
  destruct ex_admits as [s Hs]. pose proof (ex_sized true) as H. rewrite (ex_call_eq true s Hs) in H.
  destruct H as [Hok _ _ _ (d & Hd & Hl)]. exists s, d. split; [exact Hs|]. split; [exact Hl|].
  apply (retry_completes_the_call ex_admitted true (ex_empty true) s (ex_clock 0)); [apply reach_start|exact Hs|exact Hok|exact Hd|reflexivity].
Defined.

Lemma ex_admitted_decimal s : ex_admitted s -> isdecimal (exchange_transaction_id (st_fields s)) = true.
Proof. unfold ex_admitted. intros H. pose proof ex_decimal as E. rewrite H in E. by injection E. Qed.

Lemma cursor_is_greatest_witness : exists e c, e ∈ entries (fst (files (snd (ex_call false)))) /\
  find_cursor (scope_key (en_fields e)) (cursors (fst (files (snd (ex_call false))))) = Some c.
Proof.
  destruct (sz_entry _ (ex_sized false)) as [e He]. exists e.
  destruct (cursor_is_greatest ex_admitted (snd (ex_call false)) e ex_admitted_decimal (ex_reached false) He) as (c & Hc & _).
  exists c. split; [exact He|exact Hc].
Defined.

(** ** Reads *)

Lemma filter_true {A} (l : list A) : List.filter (fun _ => true) l = l.
Proof. induction l as [|x l IH]; simpl; [done|by rewrite IH]. Qed.

Lemma res_map_list_firstn {A B} (f : A -> result B) l ys n : res_map_list f l = Ok ys -> res_map_list f (firstn n l) = Ok (firstn n ys).
Proof.
  revert ys n. induction l as [|x l IH]; intros ys [|n]; simpl; try done; intros H; [by injection H as <-|].
  apply res_bind_Ok in H as (y & Hy & H). apply res_bind_Ok in H as (r & Hr & H). injection H as <-. rewrite Hy. cbn [res_bind]. by rewrite (IH _ n Hr).
Qed.

(** What a row decodes to. *)
Definition reads_row (e : entry) (r : read_row) : Prop :=
  rr_entry r = e /\ json_dumps_raw (rr_raw_payload r) = Ok (st_raw_payload_json (en_fields e)) /\
  json_dumps_raw (rr_canonical_content r) = Ok (canonical_content_json (en_fields e)).

Definition everything : statement_query := StatementQuery None None None None None.

Lemma with_ids_snd l : map snd (with_ids l) = l.
Proof. unfold with_ids. apply snd_zip. rewrite length_map, length_seq. lia. Qed.

Lemma ms_leb_total x y : ms_leb x y = false -> ms_leb y x = true.
Proof. unfold ms_leb. rewrite Z.leb_gt, Z.leb_le. lia. Qed.

Lemma ms_leb_trans x y z : ms_leb x y = true -> ms_leb y z = true -> ms_leb x z = true.
Proof. unfold ms_leb. rewrite !Z.leb_le. lia. Qed.

Lemma entries_sorted l : StronglySorted (fun a b => ms_leb a b = true) l ->
  StronglySorted (fun a b => event_time_ms (en_fields a) <= event_time_ms (en_fields b)) (map snd l).
Proof.
  induction 1 as [|x l Hl IH Hx]; simpl; constructor; [done|]. apply Forall_map. eapply Forall_impl; [exact Hx|]. intros y Hy. by apply Z.leb_le.
Qed.

(** The decoding of the rows of a valid journal never raises. *)
Lemma decode_rows l : (forall ie, ie ∈ l -> valid_content (en_fields (snd ie))) ->
  exists rows, res_map_list (fun ie : Z * entry =>
    let! raw := json_loads (st_raw_payload_json (en_fields (snd ie))) in
    let! content := json_loads (canonical_content_json (en_fields (snd ie))) in
    Ok (ReadRow (fst ie) (snd ie) raw content)) l = Ok rows /\ Forall2 reads_row (map snd l) rows.
Proof.
  induction l as [|[i e] l IH]; intros Hv; simpl; [by exists []|].
  destruct (Hv (i, e)) as [_ (d & x & Hl & Hd & _) _ (p & Hp & Hp')]; [set_solver|]. simpl in *.
  rewrite Hp. cbn [res_bind]. rewrite Hl. cbn [res_bind]. destruct IH as (rows & -> & HF); [intros; apply Hv; set_solver|].
  eexists. split; [reflexivity|]. constructor; [|done]. by split.
Qed.

(** Reading the journal never fails and returns what was stored.
    On a reachable store the rows come in the order of their times, one for each journalled statement,
    with payload and content decoded, and encoding them again gives the stored texts; a descending
    read is the reverse, a limited one its first rows. *)
Theorem journal_reads_back admitted split w (descending : bool) n : reachable admitted split w -> 0 <= n < 2 ^ 63 ->
  let t := fst (files w) in
  exists order rows, order ≡ₚ entries t /\
    StronglySorted (fun a b => event_time_ms (en_fields a) <= event_time_ms (en_fields b)) (if descending then rev order else order) /\
    Forall2 reads_row order rows /\
    read_exchange_statement_entries t everything None descending = Ok rows /\
    read_exchange_statement_entries t everything (Some n) descending = Ok (firstn (Z.to_nat n) rows).
Proof.
  intros Hr Hn t. destruct (reachable_base admitted split w Hr) as (_ & [Hj _] & _). fold t in Hj.
  set (rows0 := sort_by ms_leb (List.filter (fun _ => true) (with_ids (entries t)))).
  set (rows := if descending then rev rows0 else rows0).
  assert (rows ≡ₚ with_ids (entries t)) as Hp.
  { assert (rows0 ≡ₚ with_ids (entries t)) as E by (unfold rows0; rewrite sort_by_perm; by rewrite filter_true).
    unfold rows. destruct descending; [by rewrite <- Permutation_rev|done]. }
  assert (forall l : list (Z * entry), (forall ie, ie ∈ l -> ie ∈ rows) -> forall ie, ie ∈ l -> valid_content (en_fields (snd ie))) as Hv.
  { intros l Hl ie Hie. apply (jo_valid t Hj). rewrite <- (with_ids_snd (entries t)). apply list_elem_of_fmap. exists ie. split; [done|].
    rewrite <- Hp. by apply Hl. }
  destruct (decode_rows rows (Hv rows (fun _ H => H))) as (out & Hout & HF).
  exists (map snd rows), out. split; [by rewrite <- (with_ids_snd (entries t)), Hp|]. split; [|split; [exact HF|split; [exact Hout|]]].
  - assert ((if descending then rev (map snd rows) else map snd rows) = map snd rows0) as ->.
    { unfold rows. destruct descending; [by rewrite <- map_rev, rev_involutive|done]. }
    apply entries_sorted, sort_by_sorted; [exact ms_leb_total|exact ms_leb_trans].
  - unfold read_exchange_statement_entries. cbn [everything sq_venue sq_account_id sq_source sq_type sq_status text_filter res_bind matches andb].
    fold rows0 rows. rewrite (proj2 (Z.ltb_ge n 0)) by lia. rewrite (proj2 (sql_int_Ok n)) by lia. cbn [res_bind].
    apply res_map_list_firstn, Hout.
Qed.

Lemma journal_reads_back_witness : exists rows, length rows = 1%nat /\
  read_exchange_statement_entries (fst (files (snd (ex_call true)))) everything None true = Ok rows.
Proof.
  destruct (journal_reads_back ex_admitted true (snd (ex_call true)) true 1 (ex_reached true) ltac:(lia)) as (order & rows & Hp & _ & HF & Hr & _).
  exists rows. split; [|exact Hr]. rewrite <- (Forall2_length _ _ _ HF), Hp. exact (sz_length _ (ex_sized true)).
Defined.
