(* ===== verification/ExchangeStatementsFacts.v ===== *)
(** * Exchange statements: what the normalizers build

    A normalized row passes the validation of ingestion and its event passes the ledger;
    the ledger books exactly the amount of the exchange, and rows that repeat the
    economics of fills book nothing. *)
From Stdlib Require Import ZArith Lia QArith Qabs Lqa Ascii.
From stdpp Require Import base list strings sets.
From S2P Require Import Prelude PyDecimal PyDecimalFacts PyDecimalPlain PyTime PyValue PyCalendar PyCalendarFacts PyJson PyJsonFacts.
From S2P Require Import EconomicLedger EconomicLedgerFacts EconomicBuilderFacts ExchangeStatements StatementStore StatementStoreFacts.
Open Scope Z_scope.

(** ** Normal forms of texts *)

(** A transformation of characters that keeps the white space and is idempotent. *)
Definition char_wise (transform : string -> string) : Prop :=
  exists g, (forall s, transform s = str_map g s) /\ (forall c, is_py_space (g c) = is_py_space c) /\ (forall c, g (g c) = g c).

Lemma str_map_id s : str_map (fun c => c) s = s.
Proof. induction s as [|c s IH]; simpl; [done|]. by rewrite IH. Qed.

Lemma char_wise_same : char_wise same.
Proof. exists (fun c => c). split; [|done]. intros s. by rewrite str_map_id. Qed.

Lemma char_wise_upper : char_wise upper.
Proof. exists upper_ascii. split; [done|]. split; intros [[] [] [] [] [] [] [] []]; reflexivity. Qed.

Lemma char_wise_lower : char_wise lower.
Proof. exists lower_ascii. split; [done|]. split; intros [[] [] [] [] [] [] [] []]; reflexivity. Qed.

#[local] Hint Resolve char_wise_same char_wise_upper char_wise_lower : core.

Lemma char_wise_facts tr s : char_wise tr ->
  strip (tr (strip s)) = tr (strip s) /\ tr (tr (strip s)) = tr (strip s) /\
  nonempty (tr (strip s)) = nonempty (strip s) /\ String.length (tr (strip s)) = String.length (strip s).
Proof.
  intros (g & Hg & Hs & Hi). rewrite !Hg. split; [by rewrite strip_map, strip_idem|]. split; [by apply str_map_idem|].
  split; [apply nonempty_map|apply str_length_map].
Qed.

(** A required text is its own normal form. *)
Lemma require_text_value tr v name s : ExchangeStatements._require_text tr v name = Ok s ->
  s = tr (strip (py_str v)) /\ nonempty (strip (py_str v)) = true /\ Z.of_nat (String.length (strip (py_str v))) <= 256.
Proof.
  unfold ExchangeStatements._require_text. intros H.
  assert ((if negb (nonempty (strip (py_str v))) then statement_error (name +:+ " is required")
           else if 256 <? Z.of_nat (String.length (strip (py_str v))) then statement_error (name +:+ " is too long")
           else Ok (tr (strip (py_str v)))) = Ok s) as H' by (destruct v; try exact H; discriminate H).
  destruct (nonempty _); [|done]. simpl in H'. destruct (Z.ltb_spec 256 (Z.of_nat (String.length (strip (py_str v))))); [done|].
  by injection H' as <-.
Qed.

Lemma require_text_again tr v name name' s : char_wise tr -> ExchangeStatements._require_text tr v name = Ok s ->
  ExchangeStatements._require_text tr (VStr s) name' = Ok s.
Proof.
  intros Htr H. destruct (require_text_value _ _ _ _ H) as (-> & Hn & Hl). destruct (char_wise_facts tr (py_str v) Htr) as (E1 & E2 & E3 & E4).
  unfold ExchangeStatements._require_text. cbn [py_str]. rewrite E1, E3, Hn, E4. simpl. by rewrite (proj2 (Z.ltb_ge 256 _)), E2.
Qed.

Lemma optional_text_again tr v s : char_wise tr -> tr "" = "" -> ExchangeStatements._optional_text tr v = Ok s ->
  ExchangeStatements._optional_text tr (VStr s) = Ok s.
Proof.
  intros Htr H0 H. unfold ExchangeStatements._optional_text in H.
  assert (s = "" \/ s = tr (strip (py_str v)) /\ Z.of_nat (String.length (strip (py_str v))) <= 256) as [->|[-> Hl]].
  { assert (forall text, (if 256 <? Z.of_nat (String.length text) then statement_error "statement text field is too long" else Ok (tr text)) = Ok s ->
      s = tr text /\ Z.of_nat (String.length text) <= 256) as Hif.
    { intros text. destruct (Z.ltb_spec 256 (Z.of_nat (String.length text))); [done|]. by intros [= <-]. }
    destruct v; try (right; apply Hif; exact H). injection H as <-. by left. }
  - unfold ExchangeStatements._optional_text. cbn [py_str]. change (strip "") with "". by rewrite H0.
  - destruct (char_wise_facts tr (py_str v) Htr) as (E1 & E2 & E3 & E4). unfold ExchangeStatements._optional_text. cbn [py_str].
    rewrite E1, E4, (proj2 (Z.ltb_ge 256 _)) by done. by rewrite E2.
Qed.

Lemma transaction_id_again v name name' s : _transaction_id v name = Ok s -> _transaction_id (VStr s) name' = Ok s.
Proof.
  intros H. assert (ExchangeStatements._require_text same v name = Ok s) as H' by (destruct v; try exact H; discriminate H).
  simpl. by eapply require_text_again.
Qed.

(** ** Normal forms of amounts *)

Lemma statement_decimal_inv v name s : ExchangeStatements._canonical_decimal v name = Ok s ->
  exists p n, finite_decimal ExchangeStatementValidationError false v name = Ok p /\ normal n /\ s = dec_plain n /\
    (is_zero p = true -> n = d0) /\ (is_zero p = false -> dnormalize p = Ok n).
Proof.
  unfold ExchangeStatements._canonical_decimal. intros H. destruct (absent_or_bool v); [done|].
  apply res_bind_Ok in H as (p & Hp & H). exists p. destruct (is_zero p).
  - injection H as <-. exists d0. by repeat split.
  - apply res_bind_Ok in H as (n & Hn & H). injection H as <-. exists n. split; [done|]. split; [exact (proj1 (dnormalize_spec _ _ Hn))|]. done.
Qed.

Lemma finite_plain k b n name : fits n -> finite_decimal k b (VStr (dec_plain n)) name = Ok (plain_value n).
Proof.
  intros Hn. unfold finite_decimal, Decimal_of. cbn [py_str]. rewrite Decimal_of_plain by auto using plain_value_range. by destruct b.
Qed.

(** The canonical text of a number that is not zero is its own normal form; zero has one text. *)
Lemma canonical_of_plain n name : normal n -> ExchangeStatements._canonical_decimal (VStr (dec_plain n)) name =
  Ok (if (dcoeff n =? 0)%N then "0" else dec_plain n).
Proof.
  intros Hn. unfold ExchangeStatements._canonical_decimal. cbn [absent_or_bool]. rewrite finite_plain by apply Hn. cbn [res_bind].
  pose proof (dval_plain_value n) as Hv. destruct (N.eqb_spec (dcoeff n) 0) as [Hz|Hz].
  - assert (is_zero (plain_value n) = true) as ->; [|done]. apply is_zero_true. rewrite Hv. by apply dval_zero.
  - assert (is_zero (plain_value n) = false) as ->.
    { apply is_zero_false. rewrite Hv. intros E. by apply Hz, dval_zero. }
    by rewrite (dnormalize_value _ n).
Qed.

(** The second pass of a builder reaches the normal form. *)
Lemma canonical_twice v name name' s : ExchangeStatements._canonical_decimal v name = Ok s ->
  exists s', ExchangeStatements._canonical_decimal (VStr s) name' = Ok s' /\ ExchangeStatements._canonical_decimal (VStr s') name' = Ok s' /\
    (exists n, normal n /\ s = dec_plain n /\ s' = if (dcoeff n =? 0)%N then "0" else dec_plain n).
Proof.
  intros H. destruct (statement_decimal_inv _ _ _ H) as (p & n & _ & Hn & -> & _). rewrite (canonical_of_plain n name' Hn). eexists. split; [done|]. split.
  - destruct (dcoeff n =? 0)%N eqn:E; [reflexivity|]. rewrite (canonical_of_plain n name' Hn). by rewrite E.
  - by exists n.
Qed.

(** ** Canonical texts *)

Lemma load_canonical_of_dumps d s name : decoded (VDict d) = true -> json_dumps_raw (VDict d) = Ok s ->
  exists d', _load_canonical_object s name = Ok d' /\ canon (VDict d) = VDict d'.
Proof.
  intros Hd Hs. destruct (decoded_reads_back _ Hd) as (s' & E & Hh & Hr). assert (s' = s) as -> by congruence.
  assert (json_loads s = Ok (canon (VDict d))) as Hl.
  { unfold json_loads. fold (chars s). rewrite <- (app_nil_r (chars s)), skip_head, Hr; [done| |done|done].
    rewrite app_nil_r, chars_length. lia. }
  pose proof (dumps_canon (VDict d)) as Hc. rewrite Hs in Hc. eexists. split; [|reflexivity].
  unfold _load_canonical_object. rewrite Hl. cbn [res_catch res_bind]. simpl canon in Hc |- *. rewrite Hc. cbn [res_bind].
  by rewrite String.eqb_refl.
Qed.

Lemma canonical_json_inv d name s : ExchangeStatements._canonical_json d name = Ok s -> json_dumps_raw (VDict d) = Ok s.
Proof. unfold ExchangeStatements._canonical_json. destruct (json_dumps_raw _) as [x|e]; simpl; [done|]. by destruct (json_errors _). Qed.

(** Allowing non-finite floats makes no difference on flat values. *)
Lemma content_json_raw d : flat d -> content_json (VDict d) = json_dumps_raw (VDict d).
Proof.
  intros [_ Hp]. unfold content_json, json_dumps_raw. rewrite !json_dict. f_equal. f_equal. f_equal. apply map_ext_in. intros [k v] Hkv. f_equal. simpl.
  rewrite forallb_forall in Hp. specialize (Hp _ Hkv). by destruct v.
Qed.

Lemma content_flat v a b c d e f g m h i j k l n x : flat (content_of v a b c d e f g m h i j k l n x).
Proof. split; [|done]. simpl. repeat (constructor; [set_solver|]). constructor. Qed.

Lemma flat_members d : flat d -> flat (members d).
Proof.
  intros [Hn Hp]. split.
  - assert (map fst (members d) ≡ₚ map fst d) as -> by (by apply Permutation_map, sort_by_perm). done.
  - rewrite forallb_forall in Hp |- *. intros kv Hkv. apply Hp. apply list_elem_of_In. apply list_elem_of_In in Hkv. unfold members in Hkv. by rewrite elem_of_sort_by in Hkv.
Qed.

Lemma members_get d k v : flat d -> dict_get d k = Some v -> dict_get (members d) k = Some v.
Proof.
  intros Hf Hv. apply dict_get_In; [by apply flat_members|]. unfold members. rewrite elem_of_sort_by. by apply dict_get_elem.
Qed.

(** A comparison with the normal form that succeeds. *)
Tactic Notation "same_ok" uconstr(lem) := rewrite lem; cbn [res_bind]; rewrite String.eqb_refl; cbn [require res_bind].

(** What a builder needs so that validation accepts: decodable payloads and an amount in
    normal form. *)
Lemma build_statement_valid d s : _build_statement d = Ok s -> decoded (VDict (d_raw_payload d)) = true -> decoded (VDict (d_extras d)) = true ->
  ExchangeStatements._canonical_decimal (VStr (st_amount (st_fields s))) "amount" = Ok (st_amount (st_fields s)) ->
  valid s /\ economic_event s = d_event d.
Proof.
  unfold _build_statement. intros H Hraw Hext Ham.
  repeat (let x := fresh "x" in let E := fresh "E" in apply res_bind_Ok in H as (x & E & H)). injection H as <-. cbn [st_fields st_amount] in *.
  split; [|done]. unfold valid, _validate_normalized_statement, validate_fields. cbn [st_fields economic_event statement_schema_version
    st_venue st_account_id st_trading_mode statement_source statement_type exchange_transaction_id st_event_time event_time_ms st_symbol st_asset
    st_amount st_order_id st_trade_id reconciliation_status].
  unfold require_same.
  same_ok (require_text_again upper _ "venue" _ _ ltac:(auto) E).
  same_ok (require_text_again same _ _ "account_id" _ ltac:(auto) E0).
  same_ok (require_text_again lower _ _ "trading_mode" _ ltac:(auto) E1).
  same_ok (require_text_again upper _ _ "statement_source" _ ltac:(auto) E2).
  same_ok (require_text_again upper _ _ "statement_type" _ ltac:(auto) E3).
  same_ok (transaction_id_again _ _ "exchange_transaction_id" _ E4).
  same_ok E13.
  same_ok (optional_text_again upper _ _ ltac:(auto) eq_refl E5).
  same_ok (require_text_again upper _ _ "asset" _ ltac:(auto) E6).
  same_ok Ham.
  same_ok (optional_text_again same _ _ ltac:(auto) eq_refl E8).
  same_ok (optional_text_again same _ _ ltac:(auto) eq_refl E9).
  apply require_Ok_inv in E11, E12. rewrite E11. cbn [require res_bind]. rewrite E12. cbn [require res_bind].
  unfold validate_content. cbn [st_venue st_account_id statement_source statement_type exchange_transaction_id statement_key
    canonical_content_json st_raw_payload_json st_content_hash].
  same_ok E16.
  match type of E17 with content_json (VDict ?c) = _ => set (content := c) in *; assert (flat content) as Hfl by apply content_flat end.
  rewrite (content_json_raw _ Hfl) in E17.
  destruct (load_canonical_of_dumps content _ "canonical_content_json" (flat_decoded _ Hfl) E17) as (d' & -> & Ed). cbn [res_bind].
  rewrite (flat_canon _ Hfl) in Ed. injection Ed as <-.
  apply canonical_json_inv in E14, E15.
  assert (get (members content) "canonical_source_extras_json" = VStr x15) as ->.
  { unfold get, get_or. by rewrite (members_get content _ (VStr x15) Hfl). }
  destruct (load_canonical_of_dumps _ _ "canonical_source_extras_json" Hext E15) as (d2 & -> & _). cbn [res_bind].
  assert (py_eq (VDict (members content)) (VDict content) = true) as Hq.
  { apply py_eq_members; [by apply flat_members|]. symmetry. apply sort_by_perm. }
  unfold content_of_fields. cbn [statement_schema_version st_venue st_account_id st_trading_mode statement_source statement_type
    exchange_transaction_id st_event_time event_time_ms st_symbol st_asset st_amount st_order_id st_trade_id reconciliation_status].
  fold content. rewrite Hq. cbn [require res_bind]. rewrite String.eqb_refl. cbn [require res_bind].
  destruct (load_canonical_of_dumps _ _ "raw_payload_json" Hraw E14) as (d3 & -> & _). done.
Qed.

(** ** The event of a row *)

Lemma datetime_ms_eq ms t : datetime_from_ms ms = Ok t -> t = ms * 1000 /\ in_range t = true.
Proof.
  unfold datetime_from_ms, fromtimestamp_int, plus_delta. intros H. res_inv H. res_inv Hb. split; [|done].
  pose proof (Z_div_mod_eq_full ms 1000). lia.
Qed.

Lemma iso_query ms s : _iso_from_timestamp_ms ms = Ok s -> query_instant s = Ok (ms * 1000).
Proof.
  unfold _iso_from_timestamp_ms. intros H. apply res_bind_Ok in H as (t & Ht & H). injection H as <-.
  destruct (datetime_ms_eq ms t Ht) as [-> Hr]. unfold query_instant.
  rewrite replace_z_isoformat, fromisoformat_isoformat by done. cbn [res_bind]. by apply to_utc_utc.
Qed.

(** Without decimals [default=str] makes no difference. *)
Lemma dumps_strict_raw v : decoded v = true -> json_dumps_strict v = json_dumps_raw v.
Proof.
  induction v as [|b|z|r|s|d|l IH|d IH] using pyval_nested_ind; intros Hd; try done.
  - change (json_dumps_strict (VList l)) with
      (let! parts := res_map_list (fun r => r) (map json_dumps_strict l) in Ok ("[" +:+ str_join "," parts +:+ "]")).
    rewrite dumps_list_eq. assert (map json_dumps_strict l = map json_dumps_raw l) as ->; [|done].
    simpl in Hd. induction IH as [|v l Hv _ IHl]; [done|]. simpl in *. bool_props. by rewrite Hv, IHl.
  - unfold json_dumps_strict, json_dumps_raw. rewrite !json_dict. do 3 f_equal. apply map_ext_in. intros kv Hkv. f_equal.
    simpl in Hd. bool_props. rewrite forallb_forall in *.
    pose proof (proj1 (Forall_forall (fun kv : string * pyval => decoded (snd kv) = true -> json_dumps_strict (snd kv) = json_dumps_raw (snd kv)) d) IH) as IH'.
    apply IH'; [by apply list_elem_of_In|]. match goal with H : forall x, In x d -> _ |- _ => by apply (H kv) end.
Qed.

Lemma decoded_strict d : decoded (VDict d) = true -> is_ok (json_dumps_strict (VDict d)) = true.
Proof. intros H. rewrite dumps_strict_raw by done. destruct (decoded_reads_back _ H) as (s & -> & _). done. Qed.

(** The types of the cash flows and the instruments they are booked on. *)
Definition booked (t instrument symbol : string) : Prop :=
  t = "FUNDING" /\ instrument = "PERPETUAL" /\ given symbol = true \/ t = "BALANCE_ADJUSTMENT" /\ instrument = "" \/
  t = "BORROW_INTEREST" /\ instrument = "MARGIN".

(** The provenance leaves the availability blank or not before the event. *)
Definition lineage_ok (n : lineage) (ms : Z) : Prop :=
  given (ln_availability_time n) = true -> exists ta, query_instant (ln_availability_time n) = Ok ta /\ ms * 1000 <= ta.

(** The context is given, and what the payloads need to be serialized. *)
Definition context_ok (c : context) : Prop :=
  given (c_account_id c) = true /\ given (c_trading_mode c) = true /\ given (c_venue c) = true /\ given (c_strategy_id c) = true.

Lemma as_statement_error_Ok {A} (m : result A) a : as_statement_error m = Ok a -> m = Ok a.
Proof. destruct m as [x|e]; simpl; [done|]. by destruct (exn_class e). Qed.

(** The event a builder returns, and the number it books. *)
Lemma cashflow_event_inv c t ms asset amount source_id symbol instrument meta raw e :
  cashflow_event c t ms asset amount source_id symbol instrument meta raw = Ok e -> booked t instrument symbol ->
  exists time d signed u asset', _iso_from_timestamp_ms ms = Ok time /\ EconomicLedger._decimal (VStr amount) "amount" = Ok d /\
    EconomicLedger._require_text upper asset "asset" = Ok asset' /\ is_zero d = false /\
    (if String.eqb t "BORROW_INTEREST" then dlt d d0 = false /\ dopp d = Ok signed else signed = d) /\ usd_ok signed u /\
    e = Event (Envelope time (c_account_id c) (c_trading_mode c) (c_venue c) (c_strategy_id c) source_id symbol "" "" "" ""
                 source_id "" "" "" "" "" (c_runtime_mode c) (c_session_id c) meta (Some raw))
          t instrument "" VNone "" VNone (VDec signed) asset' u ECONOMIC_LEDGER_SCHEMA_VERSION.
Proof.
  unfold cashflow_event. intros H Hb. apply as_statement_error_Ok in H. apply res_bind_Ok in H as (time & Ht & H).
  unfold build_cashflow_event in H. apply res_bind_Ok in H as (t' & Et & H).
  assert (t' = t) as -> by (destruct Hb as [(-> & _)|[(-> & _)|(-> & _)]]; vm_compute in Et; congruence).
  destruct (negb _ || _); [done|]. apply res_bind_Ok in H as (a & Ha & H). apply res_bind_Ok in H as (d & Hd & H).
  destruct (is_zero d) eqn:Hz; [done|]. apply res_bind_Ok in H as (signed & Hs & H). apply res_bind_Ok in H as (u & Hu & H). injection H as <-.
  pose proof (decimal_representable _ _ _ Hd) as Rd. pose proof (proj1 (is_zero_false d) Hz) as Hnz.
  exists time, d, signed, u, a. do 4 (split; [done|]).
  destruct (String.eqb t "BORROW_INTEREST").
  - destruct (dlt d d0) eqn:Hlt; [done|]. split; [by split|]. split; [|done]. cbn [is_none negb] in Hu.
    destruct (representable_opp d signed Rd Hs) as [Rs Es]. destruct (str_in a STABLE_QUOTE_ASSETS); injection Hu as <-; [|by left].
    right. exists signed. split; [done|]. split; [done|]. split; [rewrite Es; intros E; apply Hnz; lra|done].
  - injection Hs as <-. split; [done|]. split; [|done]. by eapply signed_usd_ok.
Qed.

(** The ledger accepts the event with any consistent provenance. *)
Lemma cashflow_event_accepted c t ms asset amount source_id symbol instrument meta raw e n now :
  cashflow_event c t ms asset amount source_id symbol instrument meta raw = Ok e -> booked t instrument symbol ->
  context_ok c -> given source_id = true -> is_ok (json_dumps_strict (VDict meta)) = true -> is_ok (json_dumps_strict (VDict raw)) = true ->
  lineage_ok n ms -> exists r, _normalize_event (with_lineage e n) now = Ok r.
Proof.
  intros H Hb (Hc1 & Hc2 & Hc3 & Hc4) Hsrc Hmeta Hraw Hn.
  destruct (cashflow_event_inv _ _ _ _ _ _ _ _ _ _ _ H Hb) as (time & d & signed & u & a & Ht & Hd & Ha & Hz & Hs & Hu & ->).
  pose proof (decimal_representable _ _ _ Hd) as Rd. apply is_zero_false in Hz.
  assert (representable signed /\ ~ (dval signed == 0)%Q /\ (t = "BORROW_INTEREST" -> (dval signed < 0)%Q)) as (Rs & Hs0 & Hneg).
  { destruct (String.eqb_spec t "BORROW_INTEREST") as [->|Hne].
    - destruct Hs as [Hlt Hs]. destruct (representable_opp d signed Rd Hs) as [Rs Es]. split; [done|].
      assert (0 <= dval d)%Q by (by apply dlt_false in Hlt; rewrite <- dval_0).
      split; [rewrite Es; intros E; apply Hz; lra|]. intros _. rewrite Es. destruct (Qlt_le_dec 0 (dval d)); [lra|].
      exfalso. apply Hz. lra.
    - subst signed. split; [done|]. by split. }
  unfold with_lineage. cbn [e_common e_event_time e_account_id e_trading_mode e_venue e_strategy_id e_source_event_id e_symbol e_order_id
    e_client_order_id e_exchange_event_id e_exchange_fill_id e_runtime_mode e_session_id e_metadata e_raw_payload e_event_type e_instrument_type
    e_side e_quantity e_quantity_asset e_price e_amount e_amount_asset e_amount_usd e_schema_version].
  apply event_cash_Ok; try done.
  - constructor; cbn; try done.
    + exists (ms * 1000). split; [by apply iso_query|]. exact Hn.
  - unfold cash_ok. cbn [e_symbol]. destruct Hb as [(-> & -> & Hg)|[(-> & ->)|(-> & ->)]]; [right; left|right; right; right|right; right; left]; auto.
  - by eapply optional_of_required.
  - by apply require_text_upper in Ha as [_ ?].
Qed.

(** ** Normalized rows *)

(** What a built statement takes from its draft. *)
Record drawn (d : draft) (s : NormalizedExchangeStatement) : Prop := Drawn {
  dr_ms : event_time_ms (st_fields s) = d_time_ms d;
  dr_time : _iso_from_timestamp_ms (d_time_ms d) = Ok (st_event_time (st_fields s));
  dr_amount : ExchangeStatements._canonical_decimal (VStr (d_amount d)) "amount" = Ok (st_amount (st_fields s));
  dr_event : economic_event s = d_event d;
  dr_status : ExchangeStatements._require_text upper (VStr (d_status d)) "reconciliation_status" = Ok (reconciliation_status (st_fields s));
  dr_type : ExchangeStatements._require_text upper (VStr (d_type d)) "statement_type" = Ok (statement_type (st_fields s));
  dr_asset : ExchangeStatements._require_text upper (VStr (d_asset d)) "asset" = Ok (st_asset (st_fields s));
  dr_account : given (d_account_id d) = true;
  dr_mode : given (d_trading_mode d) = true;
  dr_venue : given (d_venue d) = true;
  dr_id : _transaction_id (VStr (d_transaction_id d)) "exchange_transaction_id" = Ok (exchange_transaction_id (st_fields s))
}.

Lemma build_drawn d s : _build_statement d = Ok s -> drawn d s.
Proof.
  unfold _build_statement. intros H.
  repeat (let x := fresh "x" in let E := fresh "E" in apply res_bind_Ok in H as (x & E & H)). injection H as <-.
  by constructor; try done; unfold given; eapply (require_text_value _ (VStr _)).
Qed.

Lemma build_ledgered d s : _build_statement d = Ok s -> reconciliation_status (st_fields s) = LEDGERED <-> economic_event s <> None.
Proof.
  unfold _build_statement. intros H.
  repeat (let x := fresh "x" in let E := fresh "E" in apply res_bind_Ok in H as (x & E & H)). injection H as <-.
  apply require_Ok_inv in E12. apply eqb_prop in E12. cbn [st_fields reconciliation_status economic_event].
  rewrite <- String.eqb_eq, E12. by destruct (d_event d).
Qed.

Lemma decoded_filter f d : decoded (VDict d) = true -> decoded (VDict (List.filter f d)) = true.
Proof.
  simpl. intros H. bool_props. apply andb_true_iff. split.
  - apply bool_decide_eq_true. induction d as [|kv d IH]; [constructor|]. simpl in *. apply NoDup_cons in H as [Hk Hn]. bool_props.
    destruct (f kv); [|auto]. constructor; [|auto]. intros (y & Ey & Hy)%list_elem_of_fmap. apply Hk, list_elem_of_fmap. exists y. split; [done|].
    by apply elem_of_filter_bool in Hy as [? _].
  - match goal with H : forallb _ d = true |- _ => rewrite forallb_forall in H |- *; intros kv Hkv; apply H end.
    by apply filter_In in Hkv as [? _].
Qed.

Lemma given_head c s : is_py_space c = false -> given (String c s) = true.
Proof. intros H. unfold given, strip. simpl lstrip. rewrite H. rewrite rstrip_cons, H. by destruct (nonempty (rstrip s)). Qed.

Lemma source_given c kind tx s : source_identity c kind tx = Ok s -> given s = true.
Proof. unfold source_identity. intros H. apply res_bind_Ok in H as (a & _ & H). injection H as <-. by apply given_head. Qed.

(** The event of a row, its call and its status. *)
Definition row_event (c : context) (s : NormalizedExchangeStatement) (p : dict pyval) : Prop :=
  forall e, economic_event s = Some e -> exists t instrument symbol asset amount source_id meta,
    cashflow_event c t (event_time_ms (st_fields s)) asset amount source_id symbol instrument meta p = Ok e /\
    booked t instrument symbol /\ given source_id = true /\ is_ok (json_dumps_strict (VDict meta)) = true /\
    (t = "FUNDING" /\ statement_type (st_fields s) = "FUNDING_FEE" \/ t = "BALANCE_ADJUSTMENT" /\ statement_type (st_fields s) = "TRANSFER" \/
     t = "BORROW_INTEREST" /\ statement_type (st_fields s) = "MARGIN_INTEREST") /\
    ExchangeStatements._canonical_decimal (VStr amount) "amount" = Ok (st_amount (st_fields s)) /\
    (exists n, normal n /\ amount = dec_plain n) /\
    ExchangeStatements._require_text upper (VStr asset) "asset" = Ok (st_asset (st_fields s)).

Lemma optional_text_strip tr v s : char_wise tr -> ExchangeStatements._optional_text tr v = Ok s -> strip s = s.
Proof.
  intros Htr H. unfold ExchangeStatements._optional_text in H.
  assert (forall text, (if 256 <? Z.of_nat (String.length text) then statement_error "statement text field is too long" else Ok (tr text)) = Ok s ->
    s = tr text) as Hif.
  { intros text. destruct (Z.ltb_spec 256 (Z.of_nat (String.length text))); [done|]. by intros [= <-]. }
  destruct (char_wise_facts tr (py_str v) Htr) as (E & _).
  destruct v; try (rewrite (Hif _ H); exact E). by injection H as <-.
Qed.

Lemma income_event_inv c type tx ms asset amount symbol p ev : strip symbol = symbol ->
  income_event c type tx ms asset amount symbol p = Ok ev ->
  fst ev = None \/
  exists e source_id meta t instrument, fst ev = Some e /\ cashflow_event c t ms asset amount source_id symbol instrument meta p = Ok e /\
    booked t instrument symbol /\ given source_id = true /\ is_ok (json_dumps_strict (VDict meta)) = true /\
    (t = "FUNDING" /\ type = "FUNDING_FEE" \/ t = "BALANCE_ADJUSTMENT" /\ type = "TRANSFER").
Proof.
  intros Hsym. unfold income_event. destruct (String.eqb_spec type "FUNDING_FEE") as [->|]; [|destruct (String.eqb_spec type "TRANSFER") as [->|]].
  - intros H. apply res_bind_Ok in H as (u & Hu & H). apply res_bind_Ok in H as (id & Hid & H). apply res_bind_Ok in H as (e & He & H).
    injection H as <-. right. exists e, id. do 3 eexists. split; [done|]. split; [exact He|]. split; [|split; [by eapply source_given|split; [done|auto]]].
    left. split; [done|]. split; [done|]. unfold given. rewrite Hsym. by apply require_Ok_inv in Hu.
  - intros H. apply res_bind_Ok in H as (id & Hid & H). apply res_bind_Ok in H as (e & He & H).
    injection H as <-. right. exists e, id. do 3 eexists. split; [done|]. split; [exact He|]. split; [|split; [by eapply source_given|split; [done|auto]]].
    right. by left.
  - intros H. left. destruct (str_in type _); [|by injection H as <-]. apply res_bind_Ok in H as (u & _ & H). by injection H as <-.
Qed.

Lemma canonical_plain v name s : ExchangeStatements._canonical_decimal v name = Ok s -> exists n, normal n /\ s = dec_plain n.
Proof. intros H. destruct (statement_decimal_inv _ _ _ H) as (p & n & _ & Hn & -> & _). by exists n. Qed.

(** The shape of a normalized row. *)
Record row_shape (c : context) (p : dict pyval) (s : NormalizedExchangeStatement) : Prop := RowShape {
  rs_built : exists d, _build_statement d = Ok s /\ d_raw_payload d = p /\ (exists std, d_extras d = extras_of std p) /\
    (exists n, normal n /\ d_amount d = dec_plain n) /\
    d_account_id d = c_account_id c /\ d_trading_mode d = c_trading_mode c /\ d_venue d = c_venue c;
  rs_event : row_event c s p
}.

Lemma upper_type_again v name type s : ExchangeStatements._require_text upper v name = Ok type ->
  ExchangeStatements._require_text upper (VStr type) "statement_type" = Ok s -> s = type.
Proof. intros H1 H2. rewrite (require_text_again upper _ _ "statement_type" _ ltac:(auto) H1) in H2. congruence. Qed.

Lemma income_shape p c s : normalize_binance_futures_income (VDict p) c = Ok s -> row_shape c p s.
Proof.
  unfold normalize_binance_futures_income. cbn [payload_object as_dict res_bind]. intros H.
  do 9 (let x := fresh "x" in let E := fresh "E" in apply res_bind_Ok in H as (x & E & H)).
  destruct (canonical_plain _ _ _ E2) as (n & Hn & ->). constructor.
  - eexists. split; [exact H|]. cbn. do 2 (split; [eauto|]). split; [by exists n|done].
  - destruct (build_drawn _ _ H) as [D1 D2 D3 D4 D5 D6 D7 _ _ _ _]. cbn [d_venue d_account_id d_trading_mode d_source d_type d_transaction_id d_time_ms d_symbol d_asset d_amount d_order_id d_trade_id d_status
      d_raw_payload d_extras d_event] in *. intros e He. rewrite D4 in He.
    destruct (income_event_inv _ _ _ _ _ _ _ _ _ (optional_text_strip upper _ _ char_wise_upper E4) E7) as [Hnone|(e' & id & meta & t & ins & Hev & Hcf & Hb & Hg & Hm & Ht)]; [congruence|].
    assert (e' = e) as -> by congruence. rewrite (upper_type_again _ _ _ _ E D6), D1.
    exists t, ins, x4, x3, (dec_plain n), id, meta. split; [done|]. split; [done|]. split; [done|]. split; [done|].
    split; [tauto|]. split; [done|]. split; [by exists n|done].
Qed.

Lemma interest_shape p c s : normalize_binance_margin_interest (VDict p) c = Ok s -> row_shape c p s.
Proof.
  unfold normalize_binance_margin_interest. cbn [payload_object as_dict res_bind]. intros H.
  do 10 (let x := fresh "x" in let E := fresh "E" in apply res_bind_Ok in H as (x & E & H)).
  destruct (canonical_plain _ _ _ E1) as (n & Hn & ->). constructor.
  - eexists. split; [exact H|]. cbn. do 2 (split; [eauto|]). split; [by exists n|done].
  - destruct (build_drawn _ _ H) as [D1 D2 D3 D4 D5 D6 D7 _ _ _ _]. cbn [d_venue d_account_id d_trading_mode d_source d_type d_transaction_id d_time_ms d_symbol d_asset d_amount d_order_id d_trade_id d_status
      d_raw_payload d_extras d_event] in *. intros e He. rewrite D4 in He. injection He as ->.
    assert (Ok (statement_type (st_fields s)) = Ok MARGIN_INTEREST) as [= Et] by (rewrite <- D6; by vm_compute). rewrite Et, D1.
    eexists _, _, _, _, _, _, _. split; [exact E8|]. split; [right; by right|]. split; [by eapply source_given|]. split; [done|].
    split; [by right; right|]. split; [done|]. split; [by exists n|done].
Qed.

Lemma normalized_shape payload c s :
  normalize_binance_futures_income payload c = Ok s \/ normalize_binance_margin_interest payload c = Ok s ->
  exists p, payload = VDict p /\ row_shape c p s.
Proof.
  intros H. destruct payload as [| | | | | | |p]; try (by destruct H). exists p. split; [done|].
  destruct H; [by apply income_shape|by apply interest_shape].
Qed.

(** What the normalizers build is accepted: for a
    decodable payload and a strategy, every normalized row passes the validation of ingestion, and with
    any provenance whose availability does not precede it the ledger accepts its event. *)
Theorem normalized_rows_are_accepted payload c s n now :
  decoded payload = true -> given (c_strategy_id c) = true ->
  normalize_binance_futures_income payload c = Ok s \/ normalize_binance_margin_interest payload c = Ok s ->
  lineage_ok n (event_time_ms (st_fields s)) ->
  _validate_normalized_statement s = Ok tt /\
  forall e, economic_event s = Some e -> exists r, _normalize_event (with_lineage e n) now = Ok r.
Proof.
  intros Hd Hst H Hn. destruct (normalized_shape _ _ _ H) as (p & -> & [(d & Hb & Hraw & (std & Hex) & (m & Hm & Ham) & Ha & Hmo & Hv) Hev]).
  pose proof (build_drawn _ _ Hb) as [D1 D2 D3 D4 D5 D6 D7 G1 G2 G3 _]. rewrite Ha in G1. rewrite Hmo in G2. rewrite Hv in G3. split.
  - apply (build_statement_valid d s Hb); [by rewrite Hraw|rewrite Hex; by apply decoded_filter|].
    rewrite Ham, (canonical_of_plain m "amount" Hm) in D3. injection D3 as <-.
    destruct (dcoeff m =? 0)%N eqn:E; [reflexivity|]. rewrite (canonical_of_plain m "amount" Hm). by rewrite E.
  - intros e He. destruct (Hev e He) as (t & ins & sym & asset & amount & id & meta & Hc & Hbk & Hg & Hmt & _).
    eapply cashflow_event_accepted; [exact Hc|exact Hbk|done|done|done|by apply decoded_strict|done].
Qed.

(** ** What the ledger books *)

(** The normalized fields of an accepted event, one by one. *)
Lemma normalized_event_inv e now r : _normalize_event e now = Ok r ->
  checked_type e = Ok (event_type (r_fields r)) /\
  EconomicLedger._canonical_decimal (e_amount e) "amount" false = Ok (amount (r_fields r)) /\
  amount_asset (r_fields r) = EconomicLedger._optional_text upper (e_amount_asset e) /\
  EconomicLedger._canonical_time (e_event_time (e_common e)) "event_time" = Ok (event_time (r_fields r)).
Proof.
  unfold _normalize_event. intros H. apply res_bind_Ok in H as (t & Ht & H). apply res_bind_Ok in H as (f & Hf & H).
  apply res_bind_Ok in H as (u & _ & H). apply res_bind_Ok in H as (k & _ & H). apply res_bind_Ok in H as (h & _ & H). injection H as <-.
  cbn [r_fields]. unfold normalized_fields in Hf.
  repeat (let x := fresh "x" in let E := fresh "E" in apply res_bind_Ok in Hf as (x & E & Hf)). injection Hf as <-. cbn. by repeat split.
Qed.

Definition negated (n : dec) : dec := Dec (negb (dneg n)) (dcoeff n) (dexp n).

Lemma normal_negated n : normal n -> normal (negated n).
Proof. intros (Hf & H1 & H2). split; [|by split]. destruct n as [s c e]. by apply (fits_sign s). Qed.

Lemma plain_negated n : dneg n = false -> dec_plain (negated n) = "-" +:+ dec_plain n.
Proof. destruct n as [s c e]. simpl. intros ->. unfold dec_plain, plain_chars, negated. simpl. by destruct (_ && _). Qed.

(** The text the ledger stores for the number a builder books. *)
Lemma booked_text n d : normal n -> EconomicLedger._decimal (VStr (dec_plain n)) "amount" = Ok d -> is_zero d = false ->
  dcoeff n <> 0%N /\ EconomicLedger._canonical_decimal (VDec d) "amount" false = Ok (Some (dec_plain n)) /\
  (forall m, dlt d d0 = false -> dopp d = Ok m ->
    EconomicLedger._canonical_decimal (VDec m) "amount" false = Ok (Some ("-" +:+ dec_plain n)) /\
    text_decimal ("-" +:+ dec_plain n) = Ok (plain_value (negated n))).
Proof.
  intros Hn Hd Hz. pose proof (finite_plain LedgerValidationError false n "amount" (proj1 Hn)) as Hp.
  pose proof (dval_plain_value n) as Hv. unfold EconomicLedger._decimal in Hd. rewrite (canonical_eq _ _ _ _ Hp) in Hd.
  destruct (N.eqb_spec (dcoeff (plain_value n)) 0) as [Ez|Ez].
  { exfalso. vm_compute in Hd. injection Hd as <-. by vm_compute in Hz. }
  assert (dcoeff n <> 0%N) as Hc.
  { intros E. apply Ez. apply dval_zero. rewrite Hv. by apply dval_zero. }
  rewrite (dnormalize_value _ n Hn Hc Hv) in Hd. cbn [res_bind] in Hd. rewrite text_decimal_plain in Hd by apply Hn. injection Hd as <-.
  split; [done|]. split.
  - apply (canonical_of_value _ _ _ (plain_value n) n); [|done|done|done]. apply finite_decimal_VDec. by apply plain_value_range, Hn.
  - intros m Hlt Hm. assert (representable (plain_value n)) as Rp.
    { split; [by apply plain_value_range, Hn|]. exists n. split; [apply Hn|done]. }
    destruct (representable_opp _ _ Rp Hm) as [[Rm _] Em].
    assert (dneg n = false) as Hs.
    { apply dlt_false in Hlt. rewrite dval_0, Hv in Hlt. destruct n as [[] c e]; [|done]. exfalso. simpl in Hc.
      rewrite dval_mkval in Hlt. change (zsigned (Dec true c e)) with (- Z.of_N c) in Hlt. simpl dexp in Hlt.
      rewrite <- (mkval_0 e), mkval_le in Hlt. lia. }
    rewrite <- (plain_negated n Hs). split; [|by apply text_decimal_plain, normal_negated].
    apply (canonical_of_value _ _ _ m (negated n)); [by apply finite_decimal_VDec|by apply normal_negated|done|].
    rewrite Em, Hv. destruct n as [s c e]. simpl in Hs. subst s. rewrite !dval_mkval, mkval_opp. reflexivity.
Qed.

(** Funding fees and transfers carry an event, the other income types none. *)
Lemma income_types c type tx ms asset amount symbol p ev : income_event c type tx ms asset amount symbol p = Ok ev ->
  fst ev <> None <-> type = "FUNDING_FEE" \/ type = "TRANSFER".
Proof.
  unfold income_event. intros H. destruct (String.eqb_spec type "FUNDING_FEE") as [|N1]; [|destruct (String.eqb_spec type "TRANSFER") as [|N2]].
  - apply res_bind_Ok in H as (u & _ & H). apply res_bind_Ok in H as (id & _ & H). apply res_bind_Ok in H as (e' & _ & H).
    injection H as <-. split; [by left|done].
  - apply res_bind_Ok in H as (id & _ & H). apply res_bind_Ok in H as (e' & _ & H). injection H as <-. split; [by right|done].
  - assert (fst ev = None) as ->; [|split; [done|by intros []]].
    destruct (str_in type _); [|by injection H as <-]. apply res_bind_Ok in H as (u & _ & H). by injection H as <-.
Qed.

(** The normalizer of a row: of futures income or of margin interest. *)
Definition normalizer (interest : bool) : pyval -> context -> result NormalizedExchangeStatement :=
  if interest then normalize_binance_margin_interest else normalize_binance_futures_income.

Lemma normalizer_either interest payload c s : normalizer interest payload c = Ok s ->
  normalize_binance_futures_income payload c = Ok s \/ normalize_binance_margin_interest payload c = Ok s.
Proof. destruct interest; auto. Qed.

Lemma no_event_types interest payload c s : normalizer interest payload c = Ok s ->
  if interest then statement_type (st_fields s) = "MARGIN_INTEREST" /\ economic_event s <> None
  else economic_event s <> None <-> statement_type (st_fields s) = "FUNDING_FEE" \/ statement_type (st_fields s) = "TRANSFER".
Proof.
  intros H. destruct payload as [| | | | | | |p]; try by destruct interest. destruct interest; unfold normalizer in H.
  - destruct (interest_shape p c s H) as [_ _]. unfold normalize_binance_margin_interest in H. cbn [payload_object as_dict res_bind] in H.
    do 10 (let x := fresh "x" in let E := fresh "E" in apply res_bind_Ok in H as (x & E & H)).
    destruct (build_drawn _ _ H) as [_ _ _ D4 _ D6 _ _ _ _ _]. cbn [d_event d_type] in D4, D6.
    split; [|by rewrite D4]. assert (Ok (statement_type (st_fields s)) = Ok MARGIN_INTEREST) as [= Et] by (rewrite <- D6; by vm_compute). exact Et.
  - unfold normalize_binance_futures_income in H. cbn [payload_object as_dict res_bind] in H.
    do 9 (let x := fresh "x" in let E := fresh "E" in apply res_bind_Ok in H as (x & E & H)).
    destruct (build_drawn _ _ H) as [_ _ _ D4 _ D6 _ _ _ _ _]. cbn [d_event d_type] in D4, D6.
    rewrite (upper_type_again _ _ _ _ E D6), D4. apply (income_types _ _ _ _ _ _ _ _ _ E7).
Qed.

(** What the row of the exchange states, under the exchange's own field names: its amount
    (a charge, for interest), asset, identifier and time. *)
Record stated (interest : bool) (p : dict pyval) (amount : dec) (asset id : string) (ms : Z) : Prop := {
  sd_amount : Decimal_of (get p (if interest then "interest" else "income")) = Ok (DFin amount);
  sd_asset : asset = upper (strip (py_str (get p "asset")));
  sd_id : id = strip (py_str (get p (if interest then "txId" else "tranId")));
  sd_time : exists t, dec_trunc t = ms /\
    Decimal_of (if interest then match get p "interestAccuredTime" with VNone => get p "interestAccruedTime" | v => v end
                else get p "time") = Ok (DFin t)
}.

Lemma finite_decimal_of k b v name d : finite_decimal k b v name = Ok d -> Decimal_of v = Ok (DFin d).
Proof.
  unfold finite_decimal. intros H. assert ((let! n := res_catch (Decimal_of v) numeric_errors (raise k (name +:+ " must be a finite decimal")) in
    match n with DFin d => Ok d | _ => raise k (name +:+ " must be a finite decimal") end) = Ok d) as H'.
  { destruct b, v; try exact H; discriminate H. }
  destruct (Decimal_of v) as [n|e]; cbn [res_catch res_bind] in H'; [destruct n as [d'| |]; [|discriminate H'..]; by injection H' as ->|]. by destruct (numeric_errors _).
Qed.

Lemma timestamp_of v name ms : _timestamp_ms v name = Ok ms -> exists t, dec_trunc t = ms /\ Decimal_of v = Ok (DFin t).
Proof.
  unfold _timestamp_ms. intros H. destruct (absent_or_bool v); [done|]. apply res_bind_Ok in H as (n & Hn & H). destruct n as [d| | ]; [|done..].
  destruct (_ || _); [done|]. apply res_bind_Ok in H as (t & _ & H). injection H as <-. exists d. split; [done|].
  destruct (Decimal_of v) as [n|e]; cbn [res_catch] in Hn; [by injection Hn as ->|]. by destruct (numeric_errors _).
Qed.

(** The text of an amount after both passes of the builders: its value is the amount rounded to 28 digits. *)
Lemma amount_text v name a b : ExchangeStatements._canonical_decimal v name = Ok a -> ExchangeStatements._canonical_decimal (VStr a) "amount" = Ok b ->
  exists x n d, Decimal_of v = Ok (DFin x) /\ rounds (dval x) n /\ text_decimal b = Ok d /\ (dval d == dval n)%Q.
Proof.
  intros H1 H2. destruct (statement_decimal_inv _ _ _ H1) as (x & n & Hx & Hn & -> & Hz & Hnz).
  rewrite (canonical_of_plain n "amount" Hn) in H2. injection H2 as <-. apply finite_decimal_of in Hx.
  assert (rounds (dval x) n) as Hr.
  { destruct (is_zero x) eqn:Ez; [|by eapply dnormalize_spec; auto]. rewrite Hz by done. apply is_zero_true in Ez.
    split; [done|]. intros r _. rewrite Ez, dval_0. by split. }
  destruct (N.eqb_spec (dcoeff n) 0) as [Ec|_].
  - exists x, n, d0. split; [done|]. split; [done|]. split; [by vm_compute|]. rewrite dval_0. symmetry. by apply dval_zero.
  - exists x, n, (plain_value n). split; [done|]. split; [done|]. split; [by apply text_decimal_plain, Hn|]. apply dval_plain_value.
Qed.

Lemma transaction_id_value v name tx : _transaction_id v name = Ok tx -> tx = strip (py_str v).
Proof.
  intros H. assert (ExchangeStatements._require_text same v name = Ok tx) as H' by (destruct v; try exact H; discriminate H).
  by apply require_text_value in H' as [-> _].
Qed.

Lemma asset_stated v name a b : ExchangeStatements._require_text upper v name = Ok a ->
  ExchangeStatements._require_text upper (VStr a) "asset" = Ok b -> b = upper (strip (py_str v)).
Proof. intros H1 H2. rewrite (require_text_again upper _ _ "asset" _ ltac:(auto) H1) in H2. injection H2 as <-. by apply require_text_value in H1 as [-> _]. Qed.

Lemma strip_py v name tx : _transaction_id v name = Ok tx -> _transaction_id (VStr tx) "exchange_transaction_id" = Ok tx.
Proof. apply transaction_id_again. Qed.

Lemma row_stated interest payload c s : normalizer interest payload c = Ok s -> exists p x n d, payload = VDict p /\
  stated interest p x (st_asset (st_fields s)) (exchange_transaction_id (st_fields s)) (event_time_ms (st_fields s)) /\
  rounds (dval x) n /\ text_decimal (st_amount (st_fields s)) = Ok d /\ (dval d == dval n)%Q.
Proof.
  intros H. destruct payload as [| | | | | | |p]; try by destruct interest. exists p. destruct interest; unfold normalizer in H.
  - unfold normalize_binance_margin_interest in H. cbn [payload_object as_dict res_bind] in H.
    do 10 (let x := fresh "x" in let E := fresh "E" in apply res_bind_Ok in H as (x & E & H)).
    destruct (build_drawn _ _ H) as [D1 _ D3 _ _ _ D7 _ _ _ D11]. cbn [d_amount d_asset d_time_ms d_transaction_id] in *.
    destruct (amount_text _ _ _ _ E1 D3) as (a & n & d & Ha & Hr & Ht & Hd). exists a, n, d. split; [done|]. split; [|done].
    rewrite (strip_py _ _ _ E) in D11. injection D11 as <-. rewrite D1.
    constructor; [done|by eapply asset_stated|by eapply transaction_id_value|]. apply timestamp_of in E0 as (t & Ht1 & Ht2).
    exists t. split; [done|]. rewrite <- Ht2. unfold interest_time. by destruct (get p "interestAccuredTime").
  - unfold normalize_binance_futures_income in H. cbn [payload_object as_dict res_bind] in H.
    do 9 (let x := fresh "x" in let E := fresh "E" in apply res_bind_Ok in H as (x & E & H)).
    destruct (build_drawn _ _ H) as [D1 _ D3 _ _ _ D7 _ _ _ D11]. cbn [d_amount d_asset d_time_ms d_transaction_id] in *.
    destruct (amount_text _ _ _ _ E2 D3) as (a & n & d & Ha & Hr & Ht & Hd). exists a, n, d. split; [done|]. split; [|done].
    rewrite (strip_py _ _ _ E0) in D11. injection D11 as <-. rewrite D1.
    constructor; [done|by eapply asset_stated|by eapply transaction_id_value|]. by apply timestamp_of in E1.
Qed.

(** The event types a row of each kind may book. *)
Definition event_types (interest : bool) : list (string * string) :=
  if interest then [("MARGIN_INTEREST", "BORROW_INTEREST")] else [("FUNDING_FEE", "FUNDING"); ("TRANSFER", "BALANCE_ADJUSTMENT")].

(** C20: what a row of the exchange books. The normalized row carries the asset, the identifier
    and the time that the payload states in the exchange's own fields ([income], [asset], [tranId],
    [time]; [interest], [asset], [txId], [interestAccuredTime]), and an amount that is the payload's
    amount rounded to 28 digits. If it has an event, it is a funding fee, a transfer or interest, and
    whatever its provenance the ledger books exactly that amount (for interest the negated charge), in
    that asset, at that time, under the matching event type. A row without an event is not a funding fee, a transfer
    or interest and is not marked as ledgered: commissions and realized profits, whose economics
    the fills carry, never book anything. *)
Theorem rows_book_what_they_state interest payload c s : normalizer interest payload c = Ok s ->
  exists p x n d, payload = VDict p /\
  stated interest p x (st_asset (st_fields s)) (exchange_transaction_id (st_fields s)) (event_time_ms (st_fields s)) /\
  rounds (dval x) n /\ text_decimal (st_amount (st_fields s)) = Ok d /\ (dval d == dval n)%Q /\
  match economic_event s with
  | None => interest = false /\ statement_type (st_fields s) <> "FUNDING_FEE" /\ statement_type (st_fields s) <> "TRANSFER" /\
      reconciliation_status (st_fields s) <> LEDGERED
  | Some e => forall l now r, _normalize_event (with_lineage e l) now = Ok r ->
      let f := r_fields r in
      (statement_type (st_fields s), event_type f) ∈ event_types interest /\
      amount f = Some ((if interest then "-" else "") +:+ st_amount (st_fields s)) /\
      (exists b, text_decimal ((if interest then "-" else "") +:+ st_amount (st_fields s)) = Ok b /\
         (dval b == if interest then - dval n else dval n)%Q) /\
      amount_asset f = st_asset (st_fields s) /\ event_time f = isoformat (event_time_ms (st_fields s) * 1000)
  end.
Proof.
  intros H. pose proof (no_event_types _ payload c s H) as Hno. destruct (row_stated _ _ _ _ H) as (p & x & k & d & -> & Hst & Hk & Hdx & Hdk).
  exists p, x, k, d. do 5 (split; [done|]). apply normalizer_either in H.
  destruct (normalized_shape _ _ _ H) as (p' & [= <-] & [(dr & Hb & _) Hev]).
  pose proof (build_ledgered dr s Hb) as Hled. destruct (economic_event s) as [e|] eqn:He.
  2:{ destruct interest; [by destruct Hno as [_ []]|]. split; [done|].
      split; [intros Hx; by apply Hno; [left|]|]. split; [intros Hx; by apply Hno; [right|]|]. intros Hx. by apply Hled in Hx. }
  intros m now r Hr.
  destruct (Hev e He) as (t & ins & sym & asset & amt & id & meta & Hc & Hbk & _ & _ & Ht & Ha & (n & Hn & ->) & Has).
  destruct (cashflow_event_inv _ _ _ _ _ _ _ _ _ _ _ Hc Hbk) as (time & d0' & signed & u & a & Htm & Hd & Hasset & Hz & Hs & _ & ->).
  destruct (booked_text n d0' Hn Hd Hz) as (Hcoeff & Hpos & Hneg). destruct (normalized_event_inv _ _ _ Hr) as (N1 & N2 & N3 & N4).
  cbn [with_lineage e_amount e_amount_asset e_common e_event_time] in N2, N3, N4.
  cbv zeta. assert (event_type (r_fields r) = t) as ->.
  { generalize dependent (event_type (r_fields r)). intros et N1. unfold checked_type in N1. cbn [with_lineage e_schema_version e_event_type] in N1. change (negb (ECONOMIC_LEDGER_SCHEMA_VERSION =? ECONOMIC_LEDGER_SCHEMA_VERSION)) with false in N1.
    destruct Ht as [(-> & _)|[(-> & _)|(-> & _)]]; vm_compute in N1; congruence. }
  rewrite (canonical_of_plain n "amount" Hn), (proj2 (N.eqb_neq _ _) Hcoeff) in Ha. injection Ha as Ea. rewrite <- Ea in Hdx |- *.
  rewrite text_decimal_plain in Hdx by apply Hn. injection Hdx as <-. rewrite dval_plain_value in Hdk.
  assert (String.eqb t "BORROW_INTEREST" = interest /\ (statement_type (st_fields s), t) ∈ event_types interest) as [Eb Hin].
  { destruct interest.
    - destruct Hno as [Hty _]. rewrite Hty in *. destruct Ht as [(_ & Et)|[(_ & Et)|(-> & _)]]; [discriminate Et..|]. split; [done|set_solver].
    - destruct (proj1 Hno ltac:(done)) as [Hty|Hty]; rewrite Hty in *; destruct Ht as [(-> & Et)|[(-> & Et)|(-> & Et)]]; try discriminate Et; (split; [done|set_solver]). }
  split; [done|]. apply and_assoc. split; [|split].
  - rewrite Eb in Hs. destruct interest.
    + destruct Hs as [Hlt Hs]. destruct (Hneg signed Hlt Hs) as [Hc1 Hc2]. rewrite Hc1 in N2. injection N2 as <-. split; [done|].
      exists (plain_value (negated n)). split; [done|]. rewrite dval_plain_value, <- Hdk. destruct n as [sg cf ex].
      unfold dval, negated, zsigned. cbn [dneg dcoeff dexp]. symmetry. destruct sg; simpl negb; cbv iota;
        (etransitivity; [apply mkval_opp|]); by rewrite ?Z.opp_involutive.
    + subst signed. rewrite Hpos in N2. injection N2 as <-. split; [done|]. exists (plain_value n). split; [by apply text_decimal_plain, Hn|].
      by rewrite dval_plain_value.
  - rewrite N3. rewrite (optional_of_required _ _ _ Hasset). apply require_text_upper in Hasset as [-> _].
    by destruct (require_text_value _ _ _ _ Has) as (-> & _).
  - destruct (build_drawn _ _ Hb) as [D1 D2 _ _ _ _ _ _ _ _ _]. rewrite D1 in Htm |- *. assert (time = st_event_time (st_fields s)) as -> by congruence.
    destruct (query_canonical _ "event_time" _ (iso_query _ _ D2)) as [Hq _]. rewrite Hq in N4. by injection N4 as <-.
Qed.

(** ** The row of the example *)

Definition row_summary (s : NormalizedExchangeStatement) : string * string * bool :=
  (statement_type (st_fields s), reconciliation_status (st_fields s),
   match economic_event s with Some e => is_ok (_normalize_event (with_lineage e (ex_lineage "c1")) 0) | None => false end).

Example ex_row : res_map row_summary (normalize_binance_futures_income ex_funding_payload ex_context) = Ok ("FUNDING_FEE", LEDGERED, true).
Proof. vm_compute. reflexivity. Qed.

Record booked_row (s : NormalizedExchangeStatement) : Prop := BookedRow {
  br_normalized : normalize_binance_futures_income ex_funding_payload ex_context = Ok s;
  br_type : statement_type (st_fields s) = "FUNDING_FEE";
  br_status : reconciliation_status (st_fields s) = LEDGERED;
  br_event : exists e r, economic_event s = Some e /\ _normalize_event (with_lineage e (ex_lineage "c1")) 0 = Ok r
}.

Lemma summary_booked s : normalize_binance_futures_income ex_funding_payload ex_context = Ok s ->
  row_summary s = ("FUNDING_FEE", LEDGERED, true) -> booked_row s.
Proof.
  intros Hs. unfold row_summary. destruct (economic_event s) as [e|] eqn:He; [|discriminate].
  destruct (_normalize_event (with_lineage e (ex_lineage "c1")) 0) as [r|] eqn:Hr; [|discriminate]. intros [= H1 H2].
  constructor; [exact Hs|exact H1|exact H2|]. exists e, r. split; [exact He|exact Hr].
Qed.

Lemma ex_booked : exists s, booked_row s.
Proof.
  pose proof ex_row as H. destruct (normalize_binance_futures_income ex_funding_payload ex_context) as [s|] eqn:E; [|discriminate H]. exists s.
  apply summary_booked; [exact E|]. exact (f_equal (fun r => match r with Ok x => x | Err _ => row_summary s end) H).
Qed.

Lemma ex_lineage_ok c ms : lineage_ok (ex_lineage c) ms.
Proof. by intros H. Qed.

Lemma normalized_rows_are_accepted_witness : exists s, normalize_binance_futures_income ex_funding_payload ex_context = Ok s /\
  reconciliation_status (st_fields s) = LEDGERED /\ _validate_normalized_statement s = Ok tt.
Proof.
  destruct ex_booked as (s & [Hs _ Hl _]). exists s. split; [exact Hs|]. split; [exact Hl|].
  apply (normalized_rows_are_accepted ex_funding_payload ex_context s (ex_lineage "c1") 0);
    [reflexivity|reflexivity|by left|apply ex_lineage_ok].
Defined.

Lemma funding_booked t : ("FUNDING_FEE", t) ∈ event_types false -> t = "FUNDING".
Proof. unfold event_types. rewrite !elem_of_cons, elem_of_nil. naive_solver. Qed.

Lemma rows_book_what_they_state_witness : exists s e r n, normalizer false ex_funding_payload ex_context = Ok s /\
  economic_event s = Some e /\ _normalize_event (with_lineage e (ex_lineage "c1")) 0 = Ok r /\ event_type (r_fields r) = "FUNDING" /\
  amount (r_fields r) = Some (st_amount (st_fields s)) /\
  rounds (dval (Dec true 3750000 (-8))) n /\ (exists b, text_decimal (st_amount (st_fields s)) = Ok b /\ (dval b == dval n)%Q) /\
  st_asset (st_fields s) = "USDT" /\ exchange_transaction_id (st_fields s) = "9689322392".
Proof.
  destruct ex_booked as (s & [Hs Ht _ (e & r & He & Hr)]).
  destruct (rows_book_what_they_state false ex_funding_payload ex_context s Hs) as (p & x & n & d & Hp & [S1 S2 S3 _] & Hn & _ & _ & H).
  injection Hp as <-. rewrite He in H. destruct (H (ex_lineage "c1") 0 r Hr) as (Hin & Ham & Hb & _).
  exists s, e, r, n. split; [exact Hs|]. split; [exact He|]. split; [exact Hr|]. rewrite Ht in Hin.
  split; [exact (funding_booked _ Hin)|]. split; [exact Ham|]. split; [|split; [exact Hb|split; [exact S2|exact S3]]].
  assert (Dec true 3750000 (-8) = x) as Ex; [|rewrite Ex; exact Hn]. vm_compute in S1. injection S1 as <-. reflexivity.
Defined.
