(* ===== verification/StatementLineage.v ===== *)
(** * Exchange statements: replays keep the recorded lineage

    The trader records every income row again at each start, with the strategy cycle it
    knows then; the writer replays the lineage recorded first, so that the replay is a
    no-op. *)
From Stdlib Require Import ZArith Lia Ascii.
From stdpp Require Import base list strings sets.
From S2P Require Import Prelude PyDecimal PyDecimalFacts PyDecimalPlain PyTime PyValue PyCalendar PyCalendarFacts PyJson PyJsonFacts.
From S2P Require Import EconomicLedger EconomicLedgerFacts EconomicBuilderFacts ExchangeStatements ExchangeStatementsFacts.
From S2P Require Import StatementStore StatementStoreFacts.
Open Scope Z_scope.

(** ** The provenance of an event *)

(** The same fields with another availability and other hashes. *)
Definition relabel (f : fields) (availability : option string) (n : lineage) : fields :=
  Fields (ledger_schema_version f) (account_id f) (trading_mode f) (runtime_mode f) (session_id f) (venue f) (strategy_id f)
    (cycle_id f) (intent_id f) (order_id f) (client_order_id f) (exchange_event_id f) (exchange_fill_id f) (source_event_id f)
    (event_type f) (event_time f) availability (strip (ln_code_hash n)) (strip (ln_config_hash n)) (strip (ln_schema_hash n))
    (symbol f) (instrument_type f) (side f) (quantity f) (quantity_asset f) (price f) (amount f) (amount_asset f) (amount_usd f)
    (metadata_json f) (raw_payload_json f).

Lemma relabel_identity f a n : identity_payload (relabel f a n) = identity_payload f /\ economic_content (relabel f a n) = economic_content f.
Proof. done. Qed.

(** Two lineages of the same cycle and intent. *)
Definition same_cycle (n m : lineage) : Prop := strip (ln_cycle_id n) = strip (ln_cycle_id m) /\ strip (ln_intent_id n) = strip (ln_intent_id m).

Lemma relabelled_fields e n m t f a : normalized_fields (with_lineage e n) t = Ok f -> same_cycle n m ->
  (if nonempty (strip (ln_availability_time m)) then let! x := EconomicLedger._canonical_time (ln_availability_time m) "availability_time" in Ok (Some x)
   else Ok None) = Ok a ->
  normalized_fields (with_lineage e m) t = Ok (relabel f a m).
Proof.
  intros H [E1 E2] Ha. unfold normalized_fields in *. cbn [with_lineage e_common e_account_id e_trading_mode e_venue e_strategy_id e_event_time
    e_availability_time e_quantity e_price e_amount e_amount_usd e_metadata e_raw_payload] in *.
  repeat (let x := fresh "x" in let E := fresh "E" in apply res_bind_Ok in H as (x & E & H)). injection H as <-.
  repeat match goal with E : ?m = Ok _ |- res_bind ?m _ = _ => rewrite E; cbn [res_bind] | _ => rewrite Ha; cbn [res_bind] end.
  unfold relabel, EconomicLedger._optional_text, same. cbn. unfold EconomicLedger._optional_text, same. cbn. by rewrite E1, E2.
Qed.

Lemma check_relabel f a n te : check_event f = Ok tt -> instant (event_time f) = Ok te ->
  match a with None => True | Some x => exists ta, instant x = Ok ta /\ te <= ta end -> check_event (relabel f a n) = Ok tt.
Proof.
  intros H Ht Ha. unfold check_event in *. apply res_bind_Ok in H as ([] & Hid & H).
  assert (check_identity (relabel f a n) = Ok tt) as ->; [|exact H].
  unfold check_identity in *. apply res_bind_Ok in Hid as ([] & H1 & Hid). apply res_bind_Ok in Hid as (x & _ & H3).
  change (exchange_fill_id (relabel f a n)) with (exchange_fill_id f). change (exchange_event_id (relabel f a n)) with (exchange_event_id f).
  change (source_event_id (relabel f a n)) with (source_event_id f). change (event_type (relabel f a n)) with (event_type f).
  rewrite H1. cbn [res_bind relabel availability_time event_time].
  destruct a as [s|]; [|exact H3]. destruct Ha as (ta & -> & Hle). cbn [res_bind]. rewrite Ht. cbn [res_bind].
  rewrite (proj2 (Z.ltb_ge ta te) Hle). exact H3.
Qed.

(** Another provenance of the same cycle gives a row of the same identity and content. *)
Lemma relabelled_row e n m now now' r ms : _normalize_event (with_lineage e n) now = Ok r -> same_cycle n m ->
  event_time (r_fields r) = isoformat (ms * 1000) -> in_range (ms * 1000) = true -> lineage_ok m ms ->
  exists r', _normalize_event (with_lineage e m) now' = Ok r' /\ event_key r' = event_key r /\ content_hash r' = content_hash r.
Proof.
  intros H Hc Ht Hr Hm. unfold _normalize_event in H. apply res_bind_Ok in H as (t & Hty & H). apply res_bind_Ok in H as (f & Hf & H).
  apply res_bind_Ok in H as ([] & Hck & H). apply res_bind_Ok in H as (k & Hk & H). apply res_bind_Ok in H as (h & Hh & H). injection H as <-.
  cbn [r_fields event_key content_hash] in *.
  assert (exists a, (if nonempty (strip (ln_availability_time m)) then let! x := EconomicLedger._canonical_time (ln_availability_time m) "availability_time" in Ok (Some x)
     else Ok None) = Ok a /\ match a with None => True | Some x => exists ta, instant x = Ok ta /\ ms * 1000 <= ta end) as (a & Ha & Hav).
  { destruct (nonempty (strip (ln_availability_time m))) eqn:E; [|by exists None]. destruct (Hm E) as (ta & Hq & Hle).
    destruct (query_canonical _ "availability_time" _ Hq) as [-> Rta]. eexists. split; [done|]. exists ta. split; [by apply instant_isoformat|done]. }
  pose proof (relabelled_fields e n m t f a Hf Hc Ha) as Hf'.
  assert (check_event (relabel f a m) = Ok tt) as Hck'.
  { eapply check_relabel; [done| |exact Hav]. rewrite Ht. by apply instant_isoformat. }
  unfold _normalize_event. change (checked_type (with_lineage e m)) with (checked_type (with_lineage e n)).
  rewrite Hty. cbn [res_bind]. rewrite Hf'. cbn [res_bind]. rewrite Hck'. cbn [res_bind].
  destruct (relabel_identity f a m) as [-> ->]. rewrite Hk. cbn [res_bind]. rewrite Hh. cbn [res_bind]. by eexists.
Qed.

Lemma normalized_lineage e n now r : _normalize_event (with_lineage e n) now = Ok r ->
  cycle_id (r_fields r) = strip (ln_cycle_id n) /\ intent_id (r_fields r) = strip (ln_intent_id n).
Proof.
  unfold _normalize_event. intros H. apply res_bind_Ok in H as (t & _ & H). apply res_bind_Ok in H as (f & Hf & H).
  apply res_bind_Ok in H as (u & _ & H). apply res_bind_Ok in H as (k & _ & H). apply res_bind_Ok in H as (h & _ & H). injection H as <-.
  unfold normalized_fields in Hf.
  repeat (let x := fresh "x" in let E := fresh "E" in apply res_bind_Ok in Hf as (x & E & Hf)). by injection Hf as <-.
Qed.

(** The ledger stamps a row with the time of its statement. *)
Lemma row_event_time c s p e n now r : row_event c s p -> economic_event s = Some e -> _normalize_event (with_lineage e n) now = Ok r ->
  event_time (r_fields r) = isoformat (event_time_ms (st_fields s) * 1000) /\ in_range (event_time_ms (st_fields s) * 1000) = true.
Proof.
  intros Hev He Hr. destruct (Hev e He) as (t & ins & sym & asset & amt & id & meta & Hc & Hbk & _).
  destruct (cashflow_event_inv _ _ _ _ _ _ _ _ _ _ _ Hc Hbk) as (time & d & signed & u & a & Htm & _ & _ & _ & _ & _ & ->).
  destruct (normalized_event_inv _ _ _ Hr) as (_ & _ & _ & N). cbn [with_lineage e_common e_event_time] in N.
  destruct (query_canonical _ "event_time" _ (iso_query _ _ Htm)) as [Hq _]. rewrite Hq in N. injection N as <-. split; [done|].
  unfold _iso_from_timestamp_ms in Htm. apply res_bind_Ok in Htm as (x & Hx & _). by destruct (datetime_ms_eq _ _ Hx) as [-> ?].
Qed.

(** ** Preparation and recording *)

(** The attribution the writer accepts for a statement. *)
Definition attributable (n : lineage) (s : NormalizedExchangeStatement) : Prop :=
  nonempty (strip (ln_cycle_id n)) = nonempty (strip (ln_intent_id n)) /\
  (nonempty (strip (ln_cycle_id n)) = true -> statement_type (st_fields s) = "FUNDING_FEE").

(** The provenance with which a statement is recorded. *)
Definition kept (t : tables) (key : string) (n : lineage) : lineage :=
  let '(cycle, intent) := default (strip (ln_cycle_id n), strip (ln_intent_id n)) (existing_lineage key t) in
  Lineage (ln_availability_time n) (ln_code_hash n) (ln_config_hash n) (ln_schema_hash n) cycle intent.

Definition relabelled (s : NormalizedExchangeStatement) (n : lineage) : NormalizedExchangeStatement :=
  Statement (st_fields s) (option_map (fun e => with_lineage e n) (economic_event s)).

Lemma prepare_eq t s n : attributable n s ->
  _prepare_binance_futures_income_statement t s n = Ok (relabelled s (kept t (statement_key (st_fields s)) n)).
Proof.
  intros [H1 H2]. unfold _prepare_binance_futures_income_statement, kept, relabelled. rewrite H1, eqb_reflx. cbn [negb]. rewrite <- H1.
  destruct (nonempty (strip (ln_cycle_id n))); cbn [andb]; [rewrite H2, String.eqb_refl by done; cbn [negb]|];
    destruct (default _ _) as [cy it]; destruct s as [f [e|]]; done.
Qed.

Lemma prepare_attributable t s n s' : _prepare_binance_futures_income_statement t s n = Ok s' -> attributable n s.
Proof.
  unfold _prepare_binance_futures_income_statement, attributable. intros H.
  destruct (nonempty (strip (ln_cycle_id n))), (nonempty (strip (ln_intent_id n))); cbn in H; try done.
  destruct (String.eqb_spec (statement_type (st_fields s)) "FUNDING_FEE"); [done|discriminate H].
Qed.

Lemma valid_relabelled s n m : valid (relabelled s n) -> valid (relabelled s m).
Proof. unfold valid, _validate_normalized_statement, relabelled. simpl. by destruct (economic_event s). Qed.

(** Recording a payload is a call with the prepared statement. *)
Lemma record_income_eq payload c n now w s : synced w -> normalize_binance_futures_income payload c = Ok s -> attributable n s ->
  record_binance_futures_income_statement payload c n now (new_call w)
  = record_call (relabelled s (kept (fst (files w)) (statement_key (st_fields s)) n)) now w.
Proof.
  intros [Hw _] Hs Ha. unfold record_binance_futures_income_statement, record_call, m_bind at 1, m_lift. rewrite Hs.
  unfold m_bind at 1, m_get. unfold m_bind at 1. cbn [new_call conn]. rewrite Hw. by rewrite prepare_eq.
Qed.

Lemma record_income_inv payload c n now w r w1 : synced w ->
  record_binance_futures_income_statement payload c n now (new_call w) = (Ok r, w1) ->
  exists s, normalize_binance_futures_income payload c = Ok s /\ attributable n s /\
    record_call (relabelled s (kept (fst (files w)) (statement_key (st_fields s)) n)) now w = (Ok r, w1).
Proof.
  intros Hsy H. destruct (normalize_binance_futures_income payload c) as [s|e] eqn:Hs.
  - assert (attributable n s) as Ha.
    { unfold record_binance_futures_income_statement, m_bind at 1, m_lift in H. rewrite Hs in H. unfold m_bind at 1, m_get in H.
      unfold m_bind at 1 in H. destruct (_prepare_binance_futures_income_statement _ s n) eqn:Hp; [|done]. by eapply prepare_attributable. }
    exists s. split; [done|]. split; [done|]. by rewrite <- (record_income_eq payload c).
  - unfold record_binance_futures_income_statement, m_bind at 1, m_lift in H. by rewrite Hs in H.
Qed.

(** ** Replays *)

(** Later tables of the journal and of the ledger: rows are only appended. *)
Definition extends (t t' : tables) : Prop :=
  (exists l, entries t' = entries t ++ l) /\ (exists l, ledger t' = ledger t ++ l).

Lemma extends_entry t new e t' : extends (grown t new [e]) t' -> find_entry (statement_key (en_fields e)) (entries t) = None ->
  find_entry (statement_key (en_fields e)) (entries t') = Some e.
Proof.
  intros [[l E] _] Hn. rewrite E. cbn [grown entries]. rewrite !find_entry_app, Hn. cbn [find_entry List.find]. by rewrite String.eqb_refl.
Qed.

Lemma extends_row t r added t' : extends (grown t [r] added) t' -> find_key (event_key r) (ledger t) = None ->
  find_key (event_key r) (ledger t') = Some r.
Proof.
  intros [_ [l E]] Hn. rewrite E. cbn [grown ledger]. rewrite !find_key_app, Hn. cbn [find_key List.find]. by rewrite String.eqb_refl.
Qed.

(** The first recording keeps the caller's lineage. *)
Lemma kept_first t key n : find_entry key (entries t) = None ->
  kept t key n = Lineage (ln_availability_time n) (ln_code_hash n) (ln_config_hash n) (ln_schema_hash n) (strip (ln_cycle_id n)) (strip (ln_intent_id n)).
Proof. intros H. unfold kept, existing_lineage. by rewrite H. Qed.

(** A later one takes the recorded lineage. *)
Lemma kept_later t key n e r : find_entry key (entries t) = Some e -> find_key (ledger_event_key e) (ledger t) = Some r ->
  kept t key n = Lineage (ln_availability_time n) (ln_code_hash n) (ln_config_hash n) (ln_schema_hash n) (cycle_id (r_fields r)) (intent_id (r_fields r)).
Proof. intros H1 H2. unfold kept, existing_lineage. by rewrite H1, H2. Qed.

Lemma record_call_duplicate s now w r : fst (record_call s now w) = Ok r -> r_duplicate r = negb (r_inserted r).
Proof.
  unfold record_call. destruct (record_exchange_statement s now (new_call w)) as [x w'] eqn:E. cbn. intros ->.
  apply m_bind_Ok in E as (r' & w1 & E & Er). assert (r' = r) as ->.
  { apply m_bind_Ok in Er as (w2 & w3 & _ & Er). destruct (cursor_conn w2); [by injection Er|].
    apply m_bind_Ok in Er as (u & w4 & _ & Er). by injection Er. }
  clear Er. apply m_bind_Ok in E as (u & w2 & _ & E). apply m_bind_Ok in E as (w3 & w4 & _ & E). destruct (cursor_conn w3).
  - apply m_bind_Ok in E as (ev & w5 & _ & E). apply m_bind_Ok in E as (u1 & w6 & _ & E). apply m_bind_Ok in E as (adv & w7 & _ & E).
    apply m_bind_Ok in E as (u2 & w8 & _ & E). by injection E as <- _.
  - unfold on_conn in E. destruct (in_savepoint _ (conn w4)) as [y k] eqn:Ei. injection E as -> _.
    unfold in_savepoint in Ei. destruct (ingest_together s now (work (conn w4))) as [[z|e] t] eqn:Eg; [|done]. injection Ei as -> _.
    apply m_bind_Ok in Eg as (ev & t1 & _ & Eg). apply m_bind_Ok in Eg as (adv & t2 & _ & Eg). by injection Eg as <- _.
Qed.

(** The evidence of a replay is there already. *)
Lemma evidence_again c p s n n2 now now2 t t2 key new added : row_event c s p ->
  appended (relabelled s (kept t (statement_key (st_fields s)) n)) now t key new added -> added <> [] ->
  (economic_event s <> None -> new <> []) -> lineage_ok n2 (event_time_ms (st_fields s)) -> extends (grown t new added) t2 ->
  appended (relabelled s (kept t2 (statement_key (st_fields s)) n2)) now2 t2 key [] [].
Proof.
  intros Hev [Hl Ha] Hadd Hnew Hn2 Hx. cbn [relabelled st_fields] in Ha.
  destruct (find_entry (statement_key (st_fields s)) (entries t)) as [x|] eqn:Hf; destruct Ha as [_ ->]; [done|].
  rewrite (kept_first _ _ _ Hf) in Hl.
  pose proof (extends_entry _ _ _ _ Hx Hf) as Hf2. cbn [en_fields] in Hf2. unfold appended. cbn [relabelled st_fields]. rewrite Hf2. split; [|by split].
  cbn [relabelled economic_event] in Hl |- *. destruct (economic_event s) as [e|] eqn:He; cbn [option_map] in Hl |- *.
  2:{ inversion Hl; subst. constructor. }
  inversion Hl as [|e' nw item Hitem Hnone|e' nw item y Hitem Hdup]; subst; [|by destruct (Hnew ltac:(done))].
  pose proof (extends_row _ _ _ _ Hx Hnone) as Hrow. rewrite (kept_later _ _ n2 _ _ Hf2 Hrow).
  destruct (row_event_time c s p e _ _ _ Hev He Hitem) as [Ht Hr].
  destruct (normalized_lineage _ _ _ _ Hitem) as [Ec Ei]. cbn [ln_cycle_id ln_intent_id] in Ec, Ei.
  match goal with |- ledgered _ (Some (with_lineage e ?m)) ?z _ _ =>
    assert (exists r', _normalize_event (with_lineage e m) z = Ok r' /\ event_key r' = event_key item /\ content_hash r' = content_hash item)
      as (item' & Hi & Ek & Eh) end.
  { eapply relabelled_row; [exact Hitem| |exact Ht|exact Hr|exact Hn2]. split; cbn [ln_cycle_id ln_intent_id]; by rewrite ?Ec, ?Ei, !strip_idem. }
  rewrite <- Ek. eapply (ledgered_dup _ _ _ item' item); [exact Hi| |congruence]. by rewrite Ek.
Qed.

(** C19: a replay of an income row keeps the lineage recorded
    first. Suppose a recording inserted the payload's row and, for a funding fee or a transfer, its event was
    new in the ledger. Recording the payload again later, after any further
    calls and after any crash, succeeds, inserts nothing in the journal and nothing in the ledger, so an
    event attributed to a cycle is never booked a second time for another one. This holds for every lineage
    the code accepts for the row, and for a database that writes the cursor: the cycle and the intent are given
    together or not at all, only funding fees have them (otherwise the code raises ValueError), and an availability time
    does not precede the row. *)
Theorem replay_keeps_lineage admitted split payload c n now w r w1 n2 now2 w2 s :
  reachable admitted split w -> reachable admitted split w2 ->
  record_binance_futures_income_statement payload c n now (new_call w) = (Ok r, w1) ->
  r_inserted r = true -> (reconciliation_status (st_fields s) = LEDGERED -> inserted (ledger_result r) = 1) ->
  extends (fst (files w1)) (fst (files w2)) ->
  normalize_binance_futures_income payload c = Ok s -> attributable n2 s -> lineage_ok n2 (event_time_ms (st_fields s)) ->
  cursor_error now2 = None ->
  exists r2 w3, record_binance_futures_income_statement payload c n2 now2 (new_call w2) = (Ok r2, w3) /\
    r_inserted r2 = false /\ r_duplicate r2 = true /\ inserted (ledger_result r2) = 0 /\
    entries (fst (files w3)) = entries (fst (files w2)) /\ ledger (fst (files w3)) = ledger (fst (files w2)).
Proof.
  intros Hr Hr2 Hrec Hins Hled Hx Hs Hatt Hn2 Hnow2.
  destruct (reachable_base admitted split w Hr) as (Hsy & Hb & _). destruct (reachable_base admitted split w2 Hr2) as (Hsy2 & Hb2 & _).
  destruct (record_income_inv _ _ _ _ _ _ _ Hsy Hrec) as (s' & Hs' & _ & E). assert (s' = s) as -> by congruence.
  destruct (normalized_shape payload c s (or_introl Hs)) as (p & -> & [(d & Hd & _) Hev]). pose proof (build_ledgered d s Hd) as Hst.
  match type of E with record_call ?q _ _ = _ =>
    destruct (record_call_cases q now w Hsy (proj2 Hb)) as [(key & new & added & r' & Hv & Ha & _ & E1 & Hsu)|[(e & E1 & _)|(? & ? & ? & e & _ & _ & _ & E1 & _)]]; rewrite E in *; [|done..] end.
  cbn [fst snd] in *. injection E1 as <-. pose proof (su_files _ _ _ _ _ _ _ Hsu) as Hf1. pose proof (su_inserted _ _ _ _ _ _ _ Hsu) as Hi1.
  pose proof (su_ledger _ _ _ _ _ _ _ Hsu) as Hl1.
  assert (extends (grown (fst (files w)) new added) (fst (files w2))) as Hx'.
  { rewrite Hf1 in Hx. unfold final_files in Hx. destruct (files w) as [t [h|]]; exact Hx. }
  assert (appended (relabelled s (kept (fst (files w2)) (statement_key (st_fields s)) n2)) now2 (fst (files w2)) key [] []) as Ha2.
  { eapply evidence_again; [done|done| | |done|done]; [by destruct added; congruence|].
    intros Hne ->. apply Hst, Hled in Hne. rewrite Hl1 in Hne. done. }
  rewrite (record_income_eq (VDict p) c n2 now2 w2 s Hsy2 Hs Hatt).
  match goal with |- context [record_call ?q now2 w2] =>
    destruct (record_call_cases q now2 w2 Hsy2 (proj2 Hb2)) as [(key2 & new2 & added2 & r2 & _ & Ha2' & _ & E2 & Hsu2)|[(e & _ & _ & Hno)|(? & ? & ? & e & _ & _ & He & _)]] end; [| |congruence].
  2:{ exfalso. apply (Hno key [] [] (valid_relabelled _ _ _ Hv)), Ha2. }
  destruct (appended_det _ _ _ _ _ _ _ _ _ Ha2 Ha2') as [-> ->].
  eexists r2, _. split; [by rewrite (surjective_pairing (record_call _ now2 w2)), E2|].
  destruct Hsu2 as [_ Hf2 _ Hi2 Hl2 _]. split; [done|]. split; [|split; [done|]].
  - by rewrite (record_call_duplicate _ _ _ _ E2), Hi2.
  - rewrite Hf2. unfold final_files. destruct (files w2) as [t [h|]]; cbn; by rewrite !app_nil_r.
Qed.

Lemma ex_recorded_eq : ex_recorded =
  record_binance_futures_income_statement ex_funding_payload ex_context (ex_lineage "c1") (ex_clock 0) (new_call (ex_empty true)).
Proof. reflexivity. Qed.

Lemma recorded_reached split payload c n now r w1 :
  record_binance_futures_income_statement payload c n now (new_call (ex_empty split)) = (Ok r, w1) -> reachable (fun _ => True) split w1.
Proof.
  intros E. destruct (record_income_inv _ _ _ _ _ _ _ (proj1 (reopened_synced _)) E) as (s & _ & _ & Hs).
  change w1 with (snd (Ok r, w1)). rewrite <- Hs. by apply reach_call; [apply reach_start|].
Qed.

Lemma replay_keeps_lineage_witness : exists r w1 r2 w2,
  record_binance_futures_income_statement ex_funding_payload ex_context (ex_lineage "c1") (ex_clock 0) (new_call (ex_empty true)) = (Ok r, w1) /\
  r_inserted r = true /\
  record_binance_futures_income_statement ex_funding_payload ex_context (ex_lineage "c2") (ex_clock 5) (new_call w1) = (Ok r2, w2) /\
  r_inserted r2 = false /\ ledger (fst (files w2)) = ledger (fst (files w1)).
Proof.
  pose proof ex_recorded_ok as Hok. rewrite ex_recorded_eq in Hok.
  destruct (record_binance_futures_income_statement ex_funding_payload ex_context (ex_lineage "c1") (ex_clock 0) (new_call (ex_empty true)))
    as [[r|] w1] eqn:E; [|discriminate Hok]. injection Hok as H1 H2 _.
  assert (reachable (fun _ => True) true w1) as Hw1.
  { exact (recorded_reached _ _ _ _ _ _ _ E). }
  destruct ex_booked as (s & [Hs Ht _ _]).
  destruct (replay_keeps_lineage (fun _ => True) true ex_funding_payload ex_context (ex_lineage "c1") (ex_clock 0) (ex_empty true) r w1
    (ex_lineage "c2") (ex_clock 5) w1 s (reach_start _ _) Hw1 E H1 (fun _ => H2)) as (r2 & w2 & H & Hi & _ & _ & _ & Hl).
  - split; exists []; by rewrite app_nil_r.
  - exact Hs.
  - split; [reflexivity|]. intros _. exact Ht.
  - apply ex_lineage_ok.
  - reflexivity.
  - exists r, w1, r2, w2. split; [reflexivity|]. split; [exact H1|]. split; [exact H|]. split; [exact Hi|exact Hl].
Defined.
