(* ===== verification/CoreConfig.v ===== *)
(** * The constants of the configuration

    The values of [src/bongus/core/config.py] that the configuration manager uses as
    defaults and as safety limits; a float is its [repr]. *)
From Stdlib Require Import ZArith.
From stdpp Require Import base list strings.
From S2P Require Import Prelude PyValue.
Open Scope Z_scope.

Definition ACCOUNT_EQUITY_USD : pyval := VFloat "10000.0".
Definition MAX_LEVERAGE : pyval := VFloat "2.0".
Definition TARGET_CONCURRENT_POSITIONS : pyval := VInt 4.
Definition MIN_TOP_N : pyval := VInt 3.
Definition MAX_TOP_N : pyval := VInt 5.
Definition NOTIONAL_PER_TRADE : pyval := VFloat "2500.0".
Definition MAX_NOTIONAL_PER_TRADE : pyval := VFloat "2500.0".
Definition MAX_GROSS_EXPOSURE_USD : pyval := VFloat "10000.0".
Definition PER_SYMBOL_NOTIONAL_CAP_USD : pyval := VFloat "2500.0".
Definition PER_CLUSTER_NOTIONAL_CAP_USD : pyval := VFloat "10000.0".
Definition HISTORICAL_VAR_CONFIDENCE : pyval := VFloat "0.95".
Definition HISTORICAL_VAR_WINDOW : pyval := VInt 120.
Definition HISTORICAL_VAR_MIN_OBSERVATIONS : pyval := VInt 24.
Definition HISTORICAL_VAR_RISK_BUDGET_PCT : pyval := VFloat "0.02".
Definition CORRELATION_FILTER_THRESHOLD : pyval := VFloat "0.8".
Definition CORRELATION_FILTER_MIN_OBSERVATIONS : pyval := VInt 24.
Definition STRESS_TEST_SPOT_CRASH_PCT : pyval := VFloat "0.3".
Definition MAKER_FILL_PROBABILITY : pyval := VFloat "0.7".
Definition ROTATION_MAX_PAYBACK_DAYS : pyval := VFloat "0.333".
Definition MIN_EXPECTED_EDGE_BPS : pyval := VFloat "6.0".
Definition MIN_INCREMENTAL_PORTFOLIO_EDGE_BPS : pyval := VFloat "4.0".
Definition ENTRY_ANN_FUNDING_THRESHOLD : pyval := VFloat "0.12".
Definition ENTRY_PREMIUM_THRESHOLD : pyval := VFloat "0.0002".
Definition EXIT_ANN_FUNDING_THRESHOLD : pyval := VFloat "0.02".
Definition EXIT_DISCOUNT_THRESHOLD : pyval := VFloat "-0.0003".
Definition BASIS_DEVIATION_STOP : pyval := VFloat "0.003".
Definition SNIPE_ANN_FUNDING_THRESHOLD : pyval := VFloat "0.3".
Definition RUNTIME_HEARTBEAT_INTERVAL_SECONDS : pyval := VInt 5.
Definition TRADER_CYCLE_INTERVAL_SECONDS : pyval := VInt 15.
Definition MAX_RUNTIME_STALENESS_SECONDS : pyval := VInt 45.
Definition MAX_VENUE_LATENCY_MS : pyval := VInt 400.
Definition RUNTIME_SETTLING_SECONDS : pyval := VFloat "90.0".
Definition AUTONOMOUS_STARTUP_RECOVERY : pyval := VBool false.
Definition SOFT_DRAWDOWN_PCT : pyval := VFloat "0.04".
Definition MAX_DRAWDOWN_PCT : pyval := VFloat "0.1".
Definition MAX_DRAWDOWN_RELEASE_PCT : pyval := VFloat "0.08".
Definition SCANNER_MIN_DEPTH_USD : pyval := VFloat "150000.0".
Definition SCANNER_MIN_DEPTH_MULTIPLIER : pyval := VFloat "5.0".
Definition SCANNER_MAX_SPREAD_BPS : pyval := VFloat "12.0".
Definition SCANNER_MAX_TOXIC_SPREAD_BPS : pyval := VFloat "35.0".
Definition SCANNER_MIN_LISTING_AGE_DAYS : pyval := VInt 30.
Definition SCANNER_MAX_DATA_STALE_SECONDS : pyval := VInt 45.
Definition SCANNER_MIN_BOOK_DEPTH_LEVELS : pyval := VInt 2.
Definition SCANNER_REQUIRE_SPOT_AND_PERP : pyval := VBool true.
Definition SCANNER_ALLOWLIST : pyval := VList [].
Definition SCANNER_BLOCKLIST : pyval := VList [].
Definition SCANNER_MAX_CANDIDATES : pyval := VInt 15.
Definition RANKER_WINSORIZE_LOWER_PCT : pyval := VFloat "0.05".
Definition RANKER_WINSORIZE_UPPER_PCT : pyval := VFloat "0.95".
Definition RANKER_WEIGHTS : pyval :=
  VDict [("net_edge", VFloat "0.35"); ("depth", VFloat "0.2"); ("spread", VFloat "0.15");
    ("volatility", VFloat "0.1"); ("basis_stability", VFloat "0.1"); ("regime_health", VFloat "0.1")].
Definition EXECUTION_SEND_TIMEOUT_MS : pyval := VInt 500.
Definition EXECUTION_SLICE_MAX_NOTIONAL_USD : pyval := VFloat "2500.0".
Definition EXECUTION_DEFAULT_MAX_SLIPPAGE_BPS : pyval := VFloat "10.0".
Definition EXECUTION_MAX_PASSIVE_OFFSET_BPS : pyval := VFloat "2.0".
Definition EXECUTION_MIN_MAKER_FILL_PROBABILITY : pyval := VFloat "0.55".
Definition EXECUTION_QUALITY_TARGET_SLIPPAGE_BPS : pyval := VFloat "4.0".
Definition EMERGENCY_EXIT_MAX_RETRIES : pyval := VInt 2.
Definition EMERGENCY_EXIT_READBACK_ATTEMPTS : pyval := VInt 3.
Definition EMERGENCY_EXIT_MAX_SLIPPAGE_BPS : pyval := VFloat "50.0".
Definition WF_MIN_AVG_OOS_EDGE : pyval := VFloat "0.0".
Definition WF_MIN_WINDOWS_PASSING : pyval := VInt 2.
Definition WF_MIN_TRADES_PER_WINDOW : pyval := VInt 10.
Definition WF_MIN_SIGNAL_TO_NOISE : pyval := VFloat "0.1".
Definition WF_MAX_DRAWDOWN_PCT : pyval := VFloat "0.12".
Definition WF_MIN_UTILIZATION : pyval := VFloat "0.4".
Definition WF_PROMOTION_ENABLED : pyval := VBool true.
Definition SHADOW_EXIT_ENABLED : pyval := VBool true.
Definition SHADOW_EXIT_MODEL_PATH : pyval := VStr "data/models/shadow_exit_model.json".
Definition SHADOW_EXIT_MIN_INCREMENTAL_VALUE_USD : pyval := VFloat "0.0".
Definition RATCHETING_ENABLED : pyval := VBool false.
Definition RATCHETING_AGE_MINUTES : pyval := VInt 120.
Definition RATCHETING_BREAKEVEN_BPS : pyval := VFloat "10.0".
Definition PORTFOLIO_CLUSTER_MAP : pyval :=
  VDict [("BTCUSDT", VStr "MAJORS"); ("ETHUSDT", VStr "MAJORS"); ("BNBUSDT", VStr "MAJORS");
    ("SOLUSDT", VStr "L1"); ("ADAUSDT", VStr "L1"); ("AVAXUSDT", VStr "L1"); ("ATOMUSDT", VStr "L1");
    ("APTUSDT", VStr "L1"); ("NEARUSDT", VStr "L1"); ("DOGEUSDT", VStr "MEME"); ("SHIBUSDT", VStr "MEME");
    ("PEPEUSDT", VStr "MEME"); ("XRPUSDT", VStr "PAYMENTS"); ("XLMUSDT", VStr "PAYMENTS");
    ("TRXUSDT", VStr "PAYMENTS"); ("LINKUSDT", VStr "INFRA"); ("ARBUSDT", VStr "L2"); ("OPUSDT", VStr "L2");
    ("SUIUSDT", VStr "L1"); ("DOTUSDT", VStr "L1"); ("LTCUSDT", VStr "MAJORS")].
Definition DEFAULT_CLUSTER : pyval := VStr "OTHER".
Definition PAUSE_NEW_ENTRIES : pyval := VBool false.
Definition SENTIMENT_ENABLED : pyval := VBool false.
Definition DECISION_ENGINE_STAGE : pyval := VStr "shadow".
Definition ALLOW_REVERSE_SPOT_ENTRY : pyval := VBool false.
Definition LIVE_APPROVAL_REQUIRED : pyval := VBool true.
Definition LIVE_APPROVAL_ARTIFACT_PATH : pyval := VStr "".
Definition REGIME_FILTER_ENABLED : pyval := VBool true.
Definition REGIME_FILTER_MIN_SAMPLES : pyval := VInt 20.
Definition REGIME_FILTER_BASIS_ZSCORE_MAX : pyval := VFloat "2.5".
Definition REGIME_FILTER_BASIS_ABS_FLOOR : pyval := VFloat "0.0008".
Definition REGIME_FILTER_PRICE_SHOCK_PCT : pyval := VFloat "0.015".
Definition REGIME_FILTER_DEPTH_RATIO_MIN : pyval := VFloat "0.5".
Definition REGIME_FILTER_FUNDING_DISPERSION_MAX : pyval := VFloat "3.0".
Definition REGIME_FILTER_BASIS_WIDENING_MAX : pyval := VFloat "3.0".
Definition REGIME_FILTER_VOLUME_SPIKE_MAX : pyval := VFloat "5.0".
Definition COOLDOWN_ENABLED : pyval := VBool true.
Definition COOLDOWN_HALTED_MINUTES : pyval := VInt 30.
Definition COOLDOWN_PARTIAL_EXIT_MINUTES : pyval := VInt 60.
Definition COOLDOWN_EMERGENCY_MINUTES : pyval := VInt 240.
Definition COOLDOWN_SYMBOL_MINUTES : pyval := VInt 120.
Definition STALE_INTENT_COOLDOWN_BASE_SECONDS : pyval := VInt 900.
Definition VENUE_LATENCY_SMOOTHING_FACTOR : pyval := VFloat "0.2".
Definition VENUE_LATENCY_DEBOUNCE_S : pyval := VFloat "30.0".
Definition ALLOW_AUTONOMOUS_INVERSE_LIQUIDATION : pyval := VBool false.
Definition HEARTBEAT_INTERVAL_SECONDS : pyval := VInt 2.
Definition HEARTBEAT_MISS_THRESHOLD : pyval := VInt 5.
Definition PENDING_INTENT_MAX_AGE_SECONDS : pyval := VInt 300.
Definition DATA_RETENTION_DAYS : pyval := VInt 30.
Definition SNAPSHOT_RETENTION_DAYS : pyval := VInt 1.
Definition FEATURE_RETENTION_DAYS : pyval := VInt 3.
Definition MARKET_SAMPLE_RETENTION_DAYS : pyval := VInt 7.
Definition HEALTH_SAMPLE_RETENTION_DAYS : pyval := VInt 7.
Definition RESEARCH_EVIDENCE_MIN_INTERVAL_SECONDS : pyval := VInt 60.
Definition STORAGE_VOLUME_BUDGET_BYTES : pyval := VInt 60000000000.
Definition STORAGE_COMPONENT_BUDGETS_BYTES : pyval :=
  VDict [("application", VInt 200000000); ("python_runtime", VInt 600000000); ("state_db", VInt 6500000000);
    ("sqlite_scratch", VInt 1000000000); ("audit", VInt 1500000000); ("backup", VInt 20500000000);
    ("research", VInt 4000000000); ("logs", VInt 500000000); ("rust_journals", VInt 600000000);
    ("models_caches", VInt 250000000); ("owned_temp", VInt 200000000)].
Definition STORAGE_HEALTHY_FREE_BYTES : pyval := VInt 20000000000.
Definition STORAGE_WARNING_FREE_BYTES : pyval := VInt 20000000000.
Definition STORAGE_DEGRADED_FREE_BYTES : pyval := VInt 15000000000.
Definition STORAGE_EMERGENCY_FREE_BYTES : pyval := VInt 10000000000.
Definition STORAGE_CRITICAL_FREE_BYTES : pyval := VInt 5000000000.
Definition STORAGE_WARNING_FREE_FRACTION : pyval := VFloat "0.3333333333333333".
Definition STORAGE_DEGRADED_FREE_FRACTION : pyval := VFloat "0.25".
Definition STORAGE_EMERGENCY_FREE_FRACTION : pyval := VFloat "0.16666666666666666".
Definition STORAGE_CRITICAL_FREE_FRACTION : pyval := VFloat "0.08333333333333333".
Definition STORAGE_WARNING_TTF_HOURS : pyval := VFloat "72.0".
Definition STORAGE_DEGRADED_TTF_HOURS : pyval := VFloat "24.0".
Definition STORAGE_EMERGENCY_TTF_HOURS : pyval := VFloat "6.0".
Definition STORAGE_CRITICAL_TTF_HOURS : pyval := VFloat "1.0".
Definition STORAGE_RECOVERY_HYSTERESIS_BYTES : pyval := VInt 512000000.
Definition STORAGE_RECOVERY_HEALTHY_SAMPLES : pyval := VInt 3.
Definition STORAGE_RESERVE_BYTES : pyval := VInt 1000000000.
Definition STORAGE_MONITOR_INTERVAL_SECONDS : pyval := VFloat "15.0".
Definition STORAGE_CONTROL_GENERATION : pyval := VInt 0.
Definition STORAGE_EMERGENCY_LATCHED : pyval := VBool false.
Definition STORAGE_RECOVERY_ACKNOWLEDGED : pyval := VBool false.
Definition STORAGE_RECOVERY_REQUEST_ID : pyval := VStr "".
Definition STORAGE_RECOVERY_REQUESTED_AT : pyval := VStr "".
Definition STORAGE_RECOVERY_REQUESTED_BY : pyval := VStr "".
Definition ADAPTIVE_THRESHOLDS_ENABLED : pyval := VBool false.
Definition HEALTH_MONITOR_ENABLED : pyval := VBool false.
Definition AI_REPORT_AGENT_ENABLED : pyval := VBool false.
Definition ADAPTIVE_RULES_PAPER_ONLY : pyval := VBool true.
Definition HEALTH_ALERT_ZSCORE : pyval := VFloat "3.0".
Definition HEALTH_SAFE_MODE_ZSCORE : pyval := VFloat "5.0".
Definition LOSS_STREAK_TRIGGER : pyval := VInt 3.
Definition WIN_STREAK_RESET : pyval := VInt 5.
Definition LOSS_STREAK_NOTIONAL_SCALE : pyval := VFloat "0.5".
Definition LOSS_STREAK_ENTRY_MULTIPLIER : pyval := VFloat "1.5".
Definition LOSS_STREAK_MIN_HOLD_HOURS : pyval := VFloat "0.25".
Definition DAILY_PNL_SUMMARY_HOUR_UTC : pyval := VInt 0.
Definition DAILY_PNL_SUMMARY_MINUTE_UTC : pyval := VInt 5.
Definition VALIDATION_GO_SHARPE_MIN : pyval := VFloat "2.0".
Definition VALIDATION_ADJUST_SHARPE_MIN : pyval := VFloat "0.0".
Definition VALIDATION_GO_MAX_DRAWDOWN_PCT : pyval := VFloat "0.1".
Definition VALIDATION_NO_GO_MAX_DRAWDOWN_PCT : pyval := VFloat "0.15".
Definition VALIDATION_ADJUST_NOTIONAL_SCALE : pyval := VFloat "0.5".
Definition VALIDATION_GO_MIN_INTERVENTION_FREE_DAYS : pyval := VFloat "30.0".
Definition VALIDATION_TARGET_MONTHLY_RETURN_MIN_PCT : pyval := VFloat "0.01".
Definition VALIDATION_TARGET_MONTHLY_RETURN_MAX_PCT : pyval := VFloat "0.03".
Definition VALIDATION_TARGET_WIN_RATE_MIN : pyval := VFloat "0.65".
Definition VALIDATION_TARGET_COST_MODEL_ERROR_MAX_PCT : pyval := VFloat "15.0".
Definition VALIDATION_TARGET_UPTIME_MIN_PCT : pyval := VFloat "99.5".
Definition VALIDATION_SNAPSHOT_INTERVAL_MINUTES : pyval := VInt 60.
Definition OPERATOR_FLATTEN_ALL_REQUEST_ID : pyval := VStr "".
Definition OPERATOR_FLATTEN_ALL_REQUESTED_AT : pyval := VStr "".
Definition OPERATOR_FLATTEN_ALL_REQUESTED_BY : pyval := VStr "".
Definition KILL_RECOVERY_REQUEST_ID : pyval := VStr "".
Definition KILL_RECOVERY_REQUESTED_AT : pyval := VStr "".
Definition KILL_RECOVERY_REQUESTED_BY : pyval := VStr "".
Definition STARTUP_RECOVERY_ACKNOWLEDGE_SYMBOLS : pyval := VList [].
Definition STARTUP_RECOVERY_AUTO_EXIT_MANUAL_REVIEW : pyval := VBool false.
Definition RESET_EQUITY_HIGH_WATERMARK : pyval := VBool false.
Definition HWM_AUTO_DECAY_AFTER_HOURS : pyval := VFloat "0.0".
Definition HWM_AUTO_DECAY_FRACTION : pyval := VFloat "0.25".
