(* ===== verification/ConfigManager.v ===== *)
(** * The configuration manager

    Model of [src/bongus/core/config_manager.py]: the validation of overrides against the
    effective configuration, the limits of live mode, the canonical text and hash, and the
    manager that reloads and rewrites its file.  The content of the file is what
    [json.load] makes of it; its modification times are integers.  Comparisons of floats
    are those of binary64, where every comparison with a nan is false. *)
From Stdlib Require Import ZArith Lia Ascii.
From stdpp Require Import base list strings.
From S2P Require Import Prelude PyDecimal PyFloat PyTime PyValue PyJson CoreConfig.
Open Scope Z_scope.

(** ** The keys and their defaults *)

Definition _DEFAULTS : dict pyval :=
  [ ("account_equity_usd", ACCOUNT_EQUITY_USD); ("max_leverage", MAX_LEVERAGE);
    ("entry_ann_funding_threshold", ENTRY_ANN_FUNDING_THRESHOLD);
    ("entry_premium_threshold", ENTRY_PREMIUM_THRESHOLD);
    ("exit_ann_funding_threshold", EXIT_ANN_FUNDING_THRESHOLD);
    ("exit_discount_threshold", EXIT_DISCOUNT_THRESHOLD); ("basis_deviation_stop", BASIS_DEVIATION_STOP);
    ("notional_per_trade", NOTIONAL_PER_TRADE); ("max_notional_per_trade", MAX_NOTIONAL_PER_TRADE);
    ("max_gross_exposure_usd", MAX_GROSS_EXPOSURE_USD); ("soft_drawdown_pct", SOFT_DRAWDOWN_PCT);
    ("max_drawdown_pct", MAX_DRAWDOWN_PCT); ("max_drawdown_release_pct", MAX_DRAWDOWN_RELEASE_PCT);
    ("max_venue_latency_ms", MAX_VENUE_LATENCY_MS); ("runtime_settling_seconds", RUNTIME_SETTLING_SECONDS);
    ("maker_fill_probability", MAKER_FILL_PROBABILITY);
    ("snipe_ann_funding_threshold", SNIPE_ANN_FUNDING_THRESHOLD);
    ("runtime_heartbeat_interval_seconds", RUNTIME_HEARTBEAT_INTERVAL_SECONDS);
    ("trader_cycle_interval_seconds", TRADER_CYCLE_INTERVAL_SECONDS);
    ("max_runtime_staleness_seconds", MAX_RUNTIME_STALENESS_SECONDS);
    ("scanner_min_depth_usd", SCANNER_MIN_DEPTH_USD);
    ("scanner_min_depth_multiplier", SCANNER_MIN_DEPTH_MULTIPLIER);
    ("scanner_max_spread_bps", SCANNER_MAX_SPREAD_BPS);
    ("scanner_max_toxic_spread_bps", SCANNER_MAX_TOXIC_SPREAD_BPS);
    ("scanner_min_listing_age_days", SCANNER_MIN_LISTING_AGE_DAYS);
    ("scanner_max_data_stale_seconds", SCANNER_MAX_DATA_STALE_SECONDS);
    ("scanner_min_book_depth_levels", SCANNER_MIN_BOOK_DEPTH_LEVELS);
    ("scanner_require_spot_and_perp", SCANNER_REQUIRE_SPOT_AND_PERP); ("scanner_allowlist", SCANNER_ALLOWLIST);
    ("scanner_blocklist", SCANNER_BLOCKLIST); ("scanner_max_candidates", SCANNER_MAX_CANDIDATES);
    ("ranker_weights", RANKER_WEIGHTS); ("ranker_winsorize_lower_pct", RANKER_WINSORIZE_LOWER_PCT);
    ("ranker_winsorize_upper_pct", RANKER_WINSORIZE_UPPER_PCT);
    ("historical_var_confidence", HISTORICAL_VAR_CONFIDENCE); ("historical_var_window", HISTORICAL_VAR_WINDOW);
    ("historical_var_min_observations", HISTORICAL_VAR_MIN_OBSERVATIONS);
    ("historical_var_risk_budget_pct", HISTORICAL_VAR_RISK_BUDGET_PCT);
    ("correlation_filter_threshold", CORRELATION_FILTER_THRESHOLD);
    ("correlation_filter_min_observations", CORRELATION_FILTER_MIN_OBSERVATIONS);
    ("stress_test_spot_crash_pct", STRESS_TEST_SPOT_CRASH_PCT); ("min_expected_edge_bps", MIN_EXPECTED_EDGE_BPS);
    ("min_incremental_portfolio_edge_bps", MIN_INCREMENTAL_PORTFOLIO_EDGE_BPS);
    ("rotation_max_payback_days", ROTATION_MAX_PAYBACK_DAYS);
    ("target_concurrent_positions", TARGET_CONCURRENT_POSITIONS); ("min_top_n", MIN_TOP_N);
    ("max_top_n", MAX_TOP_N); ("per_symbol_notional_cap_usd", PER_SYMBOL_NOTIONAL_CAP_USD);
    ("per_cluster_notional_cap_usd", PER_CLUSTER_NOTIONAL_CAP_USD);
    ("portfolio_cluster_map", PORTFOLIO_CLUSTER_MAP); ("default_cluster", DEFAULT_CLUSTER);
    ("execution_send_timeout_ms", EXECUTION_SEND_TIMEOUT_MS);
    ("execution_slice_max_notional_usd", EXECUTION_SLICE_MAX_NOTIONAL_USD);
    ("execution_default_max_slippage_bps", EXECUTION_DEFAULT_MAX_SLIPPAGE_BPS);
    ("execution_max_passive_offset_bps", EXECUTION_MAX_PASSIVE_OFFSET_BPS);
    ("execution_min_maker_fill_probability", EXECUTION_MIN_MAKER_FILL_PROBABILITY);
    ("execution_quality_target_slippage_bps", EXECUTION_QUALITY_TARGET_SLIPPAGE_BPS);
    ("emergency_exit_max_retries", EMERGENCY_EXIT_MAX_RETRIES);
    ("emergency_exit_readback_attempts", EMERGENCY_EXIT_READBACK_ATTEMPTS);
    ("emergency_exit_max_slippage_bps", EMERGENCY_EXIT_MAX_SLIPPAGE_BPS);
    ("wf_min_avg_oos_edge", WF_MIN_AVG_OOS_EDGE); ("wf_min_windows_passing", WF_MIN_WINDOWS_PASSING);
    ("wf_min_trades_per_window", WF_MIN_TRADES_PER_WINDOW); ("wf_min_signal_to_noise", WF_MIN_SIGNAL_TO_NOISE);
    ("wf_max_drawdown_pct", WF_MAX_DRAWDOWN_PCT); ("wf_min_utilization", WF_MIN_UTILIZATION);
    ("wf_promotion_enabled", WF_PROMOTION_ENABLED); ("shadow_exit_enabled", SHADOW_EXIT_ENABLED);
    ("shadow_exit_model_path", SHADOW_EXIT_MODEL_PATH);
    ("shadow_exit_min_incremental_value_usd", SHADOW_EXIT_MIN_INCREMENTAL_VALUE_USD);
    ("ratcheting_enabled", RATCHETING_ENABLED); ("ratcheting_age_minutes", RATCHETING_AGE_MINUTES);
    ("ratcheting_breakeven_bps", RATCHETING_BREAKEVEN_BPS); ("regime_filter_enabled", REGIME_FILTER_ENABLED);
    ("regime_filter_min_samples", REGIME_FILTER_MIN_SAMPLES);
    ("regime_filter_basis_zscore_max", REGIME_FILTER_BASIS_ZSCORE_MAX);
    ("regime_filter_basis_abs_floor", REGIME_FILTER_BASIS_ABS_FLOOR);
    ("regime_filter_price_shock_pct", REGIME_FILTER_PRICE_SHOCK_PCT);
    ("regime_filter_depth_ratio_min", REGIME_FILTER_DEPTH_RATIO_MIN);
    ("regime_filter_funding_dispersion_max", REGIME_FILTER_FUNDING_DISPERSION_MAX);
    ("regime_filter_basis_widening_max", REGIME_FILTER_BASIS_WIDENING_MAX);
    ("regime_filter_volume_spike_max", REGIME_FILTER_VOLUME_SPIKE_MAX); ("cooldown_enabled", COOLDOWN_ENABLED);
    ("cooldown_halted_minutes", COOLDOWN_HALTED_MINUTES);
    ("cooldown_partial_exit_minutes", COOLDOWN_PARTIAL_EXIT_MINUTES);
    ("cooldown_emergency_minutes", COOLDOWN_EMERGENCY_MINUTES);
    ("cooldown_symbol_minutes", COOLDOWN_SYMBOL_MINUTES); ("sentiment_enabled", SENTIMENT_ENABLED);
    ("heartbeat_interval_seconds", HEARTBEAT_INTERVAL_SECONDS);
    ("heartbeat_miss_threshold", HEARTBEAT_MISS_THRESHOLD);
    ("pending_intent_max_age_seconds", PENDING_INTENT_MAX_AGE_SECONDS);
    ("data_retention_days", DATA_RETENTION_DAYS); ("feature_retention_days", FEATURE_RETENTION_DAYS);
    ("snapshot_retention_days", SNAPSHOT_RETENTION_DAYS);
    ("market_sample_retention_days", MARKET_SAMPLE_RETENTION_DAYS);
    ("health_sample_retention_days", HEALTH_SAMPLE_RETENTION_DAYS);
    ("research_evidence_min_interval_seconds", RESEARCH_EVIDENCE_MIN_INTERVAL_SECONDS);
    ("storage_volume_budget_bytes", STORAGE_VOLUME_BUDGET_BYTES);
    ("storage_component_budgets_bytes", STORAGE_COMPONENT_BUDGETS_BYTES);
    ("storage_healthy_free_bytes", STORAGE_HEALTHY_FREE_BYTES);
    ("storage_warning_free_bytes", STORAGE_WARNING_FREE_BYTES);
    ("storage_degraded_free_bytes", STORAGE_DEGRADED_FREE_BYTES);
    ("storage_emergency_free_bytes", STORAGE_EMERGENCY_FREE_BYTES);
    ("storage_critical_free_bytes", STORAGE_CRITICAL_FREE_BYTES);
    ("storage_warning_free_fraction", STORAGE_WARNING_FREE_FRACTION);
    ("storage_degraded_free_fraction", STORAGE_DEGRADED_FREE_FRACTION);
    ("storage_emergency_free_fraction", STORAGE_EMERGENCY_FREE_FRACTION);
    ("storage_critical_free_fraction", STORAGE_CRITICAL_FREE_FRACTION);
    ("storage_warning_ttf_hours", STORAGE_WARNING_TTF_HOURS);
    ("storage_degraded_ttf_hours", STORAGE_DEGRADED_TTF_HOURS);
    ("storage_emergency_ttf_hours", STORAGE_EMERGENCY_TTF_HOURS);
    ("storage_critical_ttf_hours", STORAGE_CRITICAL_TTF_HOURS);
    ("storage_recovery_hysteresis_bytes", STORAGE_RECOVERY_HYSTERESIS_BYTES);
    ("storage_recovery_healthy_samples", STORAGE_RECOVERY_HEALTHY_SAMPLES);
    ("storage_reserve_bytes", STORAGE_RESERVE_BYTES);
    ("storage_monitor_interval_seconds", STORAGE_MONITOR_INTERVAL_SECONDS);
    ("storage_control_generation", STORAGE_CONTROL_GENERATION);
    ("storage_emergency_latched", STORAGE_EMERGENCY_LATCHED);
    ("storage_recovery_acknowledged", STORAGE_RECOVERY_ACKNOWLEDGED);
    ("storage_recovery_request_id", STORAGE_RECOVERY_REQUEST_ID);
    ("storage_recovery_requested_at", STORAGE_RECOVERY_REQUESTED_AT);
    ("storage_recovery_requested_by", STORAGE_RECOVERY_REQUESTED_BY);
    ("adaptive_thresholds_enabled", ADAPTIVE_THRESHOLDS_ENABLED);
    ("health_monitor_enabled", HEALTH_MONITOR_ENABLED); ("ai_report_agent_enabled", AI_REPORT_AGENT_ENABLED);
    ("adaptive_rules_paper_only", ADAPTIVE_RULES_PAPER_ONLY); ("health_alert_zscore", HEALTH_ALERT_ZSCORE);
    ("health_safe_mode_zscore", HEALTH_SAFE_MODE_ZSCORE); ("loss_streak_trigger", LOSS_STREAK_TRIGGER);
    ("win_streak_reset", WIN_STREAK_RESET); ("loss_streak_notional_scale", LOSS_STREAK_NOTIONAL_SCALE);
    ("loss_streak_entry_multiplier", LOSS_STREAK_ENTRY_MULTIPLIER);
    ("loss_streak_min_hold_hours", LOSS_STREAK_MIN_HOLD_HOURS);
    ("daily_pnl_summary_hour_utc", DAILY_PNL_SUMMARY_HOUR_UTC);
    ("daily_pnl_summary_minute_utc", DAILY_PNL_SUMMARY_MINUTE_UTC); ("pause_new_entries", PAUSE_NEW_ENTRIES);
    ("operator_flatten_all_request_id", OPERATOR_FLATTEN_ALL_REQUEST_ID);
    ("operator_flatten_all_requested_at", OPERATOR_FLATTEN_ALL_REQUESTED_AT);
    ("operator_flatten_all_requested_by", OPERATOR_FLATTEN_ALL_REQUESTED_BY);
    ("kill_recovery_request_id", KILL_RECOVERY_REQUEST_ID);
    ("kill_recovery_requested_at", KILL_RECOVERY_REQUESTED_AT);
    ("kill_recovery_requested_by", KILL_RECOVERY_REQUESTED_BY);
    ("startup_recovery_acknowledge_symbols", STARTUP_RECOVERY_ACKNOWLEDGE_SYMBOLS);
    ("startup_recovery_auto_exit_manual_review", STARTUP_RECOVERY_AUTO_EXIT_MANUAL_REVIEW);
    ("reset_equity_high_watermark", RESET_EQUITY_HIGH_WATERMARK);
    ("hwm_auto_decay_after_hours", HWM_AUTO_DECAY_AFTER_HOURS);
    ("hwm_auto_decay_fraction", HWM_AUTO_DECAY_FRACTION);
    ("validation_snapshot_interval_minutes", VALIDATION_SNAPSHOT_INTERVAL_MINUTES);
    ("validation_go_sharpe_min", VALIDATION_GO_SHARPE_MIN);
    ("validation_adjust_sharpe_min", VALIDATION_ADJUST_SHARPE_MIN);
    ("validation_go_max_drawdown_pct", VALIDATION_GO_MAX_DRAWDOWN_PCT);
    ("validation_no_go_max_drawdown_pct", VALIDATION_NO_GO_MAX_DRAWDOWN_PCT);
    ("validation_adjust_notional_scale", VALIDATION_ADJUST_NOTIONAL_SCALE);
    ("validation_go_min_intervention_free_days", VALIDATION_GO_MIN_INTERVENTION_FREE_DAYS);
    ("validation_target_monthly_return_min_pct", VALIDATION_TARGET_MONTHLY_RETURN_MIN_PCT);
    ("validation_target_monthly_return_max_pct", VALIDATION_TARGET_MONTHLY_RETURN_MAX_PCT);
    ("validation_target_win_rate_min", VALIDATION_TARGET_WIN_RATE_MIN);
    ("validation_target_cost_model_error_max_pct", VALIDATION_TARGET_COST_MODEL_ERROR_MAX_PCT);
    ("validation_target_uptime_min_pct", VALIDATION_TARGET_UPTIME_MIN_PCT);
    ("stale_intent_cooldown_base_seconds", STALE_INTENT_COOLDOWN_BASE_SECONDS);
    ("venue_latency_smoothing_factor", VENUE_LATENCY_SMOOTHING_FACTOR);
    ("venue_latency_debounce_s", VENUE_LATENCY_DEBOUNCE_S);
    ("allow_autonomous_inverse_liquidation", ALLOW_AUTONOMOUS_INVERSE_LIQUIDATION);
    ("autonomous_startup_recovery", AUTONOMOUS_STARTUP_RECOVERY); ("decision_engine_stage", DECISION_ENGINE_STAGE);
    ("allow_reverse_spot_entry", ALLOW_REVERSE_SPOT_ENTRY); ("live_approval_required", LIVE_APPROVAL_REQUIRED);
    ("live_approval_artifact_path", LIVE_APPROVAL_ARTIFACT_PATH) ].

Definition _LIVE_REQUIRED_KEYS : list string :=
  [ "account_equity_usd"; "allow_reverse_spot_entry"; "allow_autonomous_inverse_liquidation";
    "autonomous_startup_recovery"; "entry_ann_funding_threshold"; "entry_premium_threshold";
    "execution_default_max_slippage_bps"; "emergency_exit_max_retries"; "emergency_exit_readback_attempts";
    "emergency_exit_max_slippage_bps"; "live_approval_artifact_path"; "live_approval_required"; "max_drawdown_pct";
    "max_drawdown_release_pct"; "max_gross_exposure_usd"; "min_expected_edge_bps"; "notional_per_trade";
    "pause_new_entries"; "per_symbol_notional_cap_usd"; "reset_equity_high_watermark";
    "scanner_max_data_stale_seconds"; "scanner_max_spread_bps"; "scanner_max_toxic_spread_bps";
    "scanner_min_depth_multiplier"; "scanner_min_depth_usd"; "soft_drawdown_pct";
    "storage_component_budgets_bytes"; "storage_critical_free_bytes"; "storage_degraded_free_bytes";
    "storage_emergency_free_bytes"; "storage_reserve_bytes"; "storage_warning_free_bytes" ].

Definition _DECISION_ENGINE_STAGES : list string := ["shadow"; "paper_candidate"; "testnet_candidate"; "live_approved"].

Definition _INTERNAL_STORAGE_CONTROL_KEYS : list string :=
  [ "storage_control_generation"; "storage_emergency_latched"; "storage_recovery_acknowledged" ].

(** ** Readers *)

Definition value_error {A} (msg : string) : result A := raise ValueError msg.

(** [values[key]] *)
Definition item (values : dict pyval) (key : string) : result pyval :=
  match dict_get values key with Some v => Ok v | None => raise KeyError key end.

(** [if cond: raise ValueError(msg)] *)
Definition reject (cond : bool) (msg : string) : result unit := if cond then value_error msg else Ok tt.

Fixpoint each {A} (check : A -> result unit) (l : list A) : result unit :=
  match l with [] => Ok tt | x :: l' => let! _ := check x in each check l' end.

Definition is_scalar (v : pyval) : bool := match v with VStr _ | VInt _ | VFloat _ | VBool _ => true | _ => false end.

Definition _config_float (value : pyval) (key : string) : result float :=
  if is_scalar value then py_float value else value_error (key +:+ " must be numeric").

Definition _config_int (value : pyval) (key : string) : result Z :=
  if is_scalar value then py_int value else value_error (key +:+ " must be an integer").

Definition float_of (v : pyval) : float := match py_float v with Ok x => x | Err _ => fzero end.

(** ** The limits of live mode *)

Definition minimums : dict pyval :=
  [ ("validation_go_sharpe_min", VALIDATION_GO_SHARPE_MIN);
    ("validation_go_min_intervention_free_days", VALIDATION_GO_MIN_INTERVENTION_FREE_DAYS);
    ("validation_target_win_rate_min", VALIDATION_TARGET_WIN_RATE_MIN);
    ("validation_target_uptime_min_pct", VALIDATION_TARGET_UPTIME_MIN_PCT);
    ("storage_warning_free_bytes", STORAGE_WARNING_FREE_BYTES);
    ("storage_degraded_free_bytes", STORAGE_DEGRADED_FREE_BYTES);
    ("storage_emergency_free_bytes", STORAGE_EMERGENCY_FREE_BYTES);
    ("storage_critical_free_bytes", STORAGE_CRITICAL_FREE_BYTES); ("storage_reserve_bytes", STORAGE_RESERVE_BYTES);
    ("storage_recovery_hysteresis_bytes", STORAGE_RECOVERY_HYSTERESIS_BYTES);
    ("storage_recovery_healthy_samples", STORAGE_RECOVERY_HEALTHY_SAMPLES) ].

Definition maximums : dict pyval :=
  [ ("validation_go_max_drawdown_pct", VALIDATION_GO_MAX_DRAWDOWN_PCT);
    ("validation_no_go_max_drawdown_pct", VALIDATION_NO_GO_MAX_DRAWDOWN_PCT);
    ("validation_target_cost_model_error_max_pct", VALIDATION_TARGET_COST_MODEL_ERROR_MAX_PCT);
    ("max_leverage", MAX_LEVERAGE); ("max_notional_per_trade", MAX_NOTIONAL_PER_TRADE);
    ("notional_per_trade", NOTIONAL_PER_TRADE); ("max_gross_exposure_usd", MAX_GROSS_EXPOSURE_USD);
    ("per_symbol_notional_cap_usd", PER_SYMBOL_NOTIONAL_CAP_USD);
    ("target_concurrent_positions", TARGET_CONCURRENT_POSITIONS);
    ("snapshot_retention_days", SNAPSHOT_RETENTION_DAYS); ("feature_retention_days", FEATURE_RETENTION_DAYS);
    ("market_sample_retention_days", MARKET_SAMPLE_RETENTION_DAYS);
    ("storage_volume_budget_bytes", STORAGE_VOLUME_BUDGET_BYTES) ].

(** [str(values.get(key) or "").strip().lower()] *)
Definition stage_of (values : dict pyval) : string := lower (strip (py_str (py_or (get values "decision_engine_stage") (VStr "")))).

Definition check_floor (values : dict pyval) (kf : string * pyval) : result unit :=
  let! v := item values (fst kf) in
  let! x := _config_float v (fst kf) in
  reject (flt x (float_of (snd kf))) (fst kf +:+ " cannot be below immutable live floor " +:+ py_str (snd kf)).

Definition check_ceiling (values : dict pyval) (kc : string * pyval) : result unit :=
  let! v := item values (fst kc) in
  let! x := _config_float v (fst kc) in
  reject (flt (float_of (snd kc)) x) (fst kc +:+ " cannot exceed immutable live ceiling " +:+ py_str (snd kc)).

Definition reviewed_budgets : dict pyval := match STORAGE_COMPONENT_BUDGETS_BYTES with VDict d => d | _ => [] end.

Definition check_budget (configured : dict pyval) (kc : string * pyval) : result unit :=
  match get configured (fst kc) with
  | VNone => value_error ("storage_component_budgets_bytes missing " +:+ repr_str (fst kc))
  | v =>
      let! cap := py_int v in
      let! reviewed := py_int (snd kc) in
      reject (reviewed <? cap) ("storage budget for " +:+ fst kc +:+ " exceeds immutable live cap " +:+ py_str (snd kc))
  end.

Definition _enforce_live_safety_floors (values : dict pyval) : result unit :=
  let! _ := each (check_floor values) minimums in
  let! _ := each (check_ceiling values) maximums in
  let! _ := reject (truthy (get values "allow_reverse_spot_entry")) "reverse short-spot entry is not approved for live mode" in
  let! _ := reject (negb (truthy (get values "live_approval_required"))) "live_approval_required cannot be disabled in live mode" in
  let! _ := reject (negb (String.eqb (stage_of values) "live_approved")) "live mode requires the live_approved decision stage" in
  match get values "storage_component_budgets_bytes" with
  | VDict configured => each (check_budget configured) reviewed_budgets
  | _ => value_error "storage_component_budgets_bytes must be an object"
  end.

(** ** The ranges *)

Definition _coerce_bool (key : string) (value : pyval) : result bool :=
  match value with
  | VBool b => Ok b
  | VStr s =>
      let lowered := lower (strip s) in
      if str_in lowered ["true"; "1"; "yes"; "on"] then Ok true
      else if str_in lowered ["false"; "0"; "no"; "off"] then Ok false
      else value_error (key +:+ " must be a boolean")
  | VInt 0 => Ok false
  | VInt 1 => Ok true
  | _ => value_error (key +:+ " must be a boolean")
  end.

Definition _validate_finite_number (key : string) (value : float) : result unit :=
  reject (negb (isfinite value)) (key +:+ " must be finite").

Definition number (normalized : dict pyval) (key : string) : result (option float) :=
  match dict_get normalized key with
  | None => Ok None
  | Some ((VInt _ | VFloat _) as value) =>
      let! x := py_float value in
      let! _ := _validate_finite_number key x in
      Ok (Some x)
  | Some _ => value_error (key +:+ " must be numeric")
  end.

(** [value is not None and cond] *)
Definition holds (value : option float) (cond : float -> bool) : bool := match value with Some x => cond x | None => false end.

Definition positive_keys : list string :=
  [ "account_equity_usd"; "max_gross_exposure_usd"; "max_notional_per_trade"; "notional_per_trade";
    "per_cluster_notional_cap_usd"; "per_symbol_notional_cap_usd"; "scanner_min_depth_usd" ].

Definition non_negative_keys : list string :=
  [ "execution_default_max_slippage_bps"; "execution_max_passive_offset_bps"; "emergency_exit_max_slippage_bps";
    "min_expected_edge_bps"; "min_incremental_portfolio_edge_bps"; "scanner_max_data_stale_seconds";
    "scanner_max_spread_bps"; "scanner_max_toxic_spread_bps"; "scanner_min_depth_multiplier" ].

Definition check_positive (normalized : dict pyval) (key : string) : result unit :=
  let! value := number normalized key in
  reject (holds value (fun x => fle x fzero)) (key +:+ " must be positive").

Definition check_non_negative (normalized : dict pyval) (key : string) : result unit :=
  let! value := number normalized key in
  reject (holds value (fun x => flt x fzero)) (key +:+ " must be non-negative").

Definition int_of (v : pyval) : Z := match v with VInt z => z | _ => 0 end.

Definition check_retry_ceiling (normalized : dict pyval) (kc : string * pyval) : result unit :=
  match dict_get normalized (fst kc) with
  | None => Ok tt
  | Some (VInt raw) => reject ((raw <? 1) || (int_of (snd kc) <? raw))
      (fst kc +:+ " must be an integer between 1 and compiled ceiling " +:+ py_str (snd kc))
  | Some _ => value_error (fst kc +:+ " must be an integer between 1 and compiled ceiling " +:+ py_str (snd kc))
  end.

Definition emergency_integer_ceilings : dict pyval :=
  [("emergency_exit_max_retries", EMERGENCY_EXIT_MAX_RETRIES); ("emergency_exit_readback_attempts", EMERGENCY_EXIT_READBACK_ATTEMPTS)].

Definition check_emergency (normalized : dict pyval) : result unit :=
  let! slippage := number normalized "emergency_exit_max_slippage_bps" in
  let! _ := reject (holds slippage (fun x => flt (float_of EMERGENCY_EXIT_MAX_SLIPPAGE_BPS) x))
              "emergency_exit_max_slippage_bps cannot exceed the compiled safety ceiling" in
  each (check_retry_ceiling normalized) emergency_integer_ceilings.

Definition check_drawdowns (normalized : dict pyval) : result unit :=
  let! max_drawdown := number normalized "max_drawdown_pct" in
  let! _ := reject (holds max_drawdown (fun x => negb (flt fzero x && fle x (flit "0.25"))))
              "max_drawdown_pct must be > 0 and <= 0.25 for live safety" in
  let! soft_drawdown := number normalized "soft_drawdown_pct" in
  let! _ := reject (holds soft_drawdown (fun x => flt x fzero)) "soft_drawdown_pct must be non-negative" in
  let! _ := reject (holds soft_drawdown (fun x => holds max_drawdown (fun m => fle m x)))
              "soft_drawdown_pct must be below max_drawdown_pct" in
  let! release_drawdown := number normalized "max_drawdown_release_pct" in
  let! _ := reject (holds release_drawdown (fun x => flt x fzero || flt (flit "0.20") x))
              "max_drawdown_release_pct must be between 0 and 0.20" in
  reject (holds release_drawdown (fun x => holds max_drawdown (fun m => fle m x)))
    "max_drawdown_release_pct must be below max_drawdown_pct".

(** [lo <= value <= hi] *)
Definition between (lo hi : string) (x : float) : bool := fle (flit lo) x && fle x (flit hi).

Definition check_trading (normalized : dict pyval) : result unit :=
  let! premium := number normalized "entry_premium_threshold" in
  let! _ := reject (holds premium (fun x => negb (between "-0.001" "0.002" x)))
              "entry_premium_threshold must be between -10bps and 20bps" in
  let! spread := number normalized "scanner_max_spread_bps" in
  let! toxic := number normalized "scanner_max_toxic_spread_bps" in
  let! _ := reject (holds spread (fun x => holds toxic (fun y => flt y x)))
              "scanner_max_spread_bps must not exceed scanner_max_toxic_spread_bps" in
  let! maker := number normalized "maker_fill_probability" in
  let! _ := reject (holds maker (fun x => negb (between "0.0" "1.0" x))) "maker_fill_probability must be between 0 and 1" in
  let! scale := number normalized "validation_adjust_notional_scale" in
  let! _ := reject (holds scale (fun x => negb (between "0.10" "1.0" x)))
              "validation_adjust_notional_scale must be between 0.10 and 1.0" in
  reject (negb (str_in (stage_of normalized) _DECISION_ENGINE_STAGES))
    ("decision_engine_stage must be one of " +:+ str_join ", " (sort_strings _DECISION_ENGINE_STAGES)).

(** [l == sorted(l, reverse=True)]: no element is below its successor. *)
Fixpoint descending {A} (lt : A -> A -> bool) (l : list A) : bool :=
  match l with
  | x :: (y :: _) as l' => negb (lt x y) && descending lt l'
  | _ => true
  end.

Definition config_floats (normalized : dict pyval) (keys : list string) : result (list float) :=
  res_map_list (fun key => let! v := item normalized key in _config_float v key) keys.

Definition config_ints (normalized : dict pyval) (keys : list string) : result (list Z) :=
  res_map_list (fun key => let! v := item normalized key in _config_int v key) keys.

Definition check_free_space (normalized : dict pyval) : result Z :=
  let! thresholds := config_ints normalized
    ["storage_warning_free_bytes"; "storage_degraded_free_bytes"; "storage_emergency_free_bytes"; "storage_critical_free_bytes"] in
  let! _ := reject (existsb (fun v => v <=? 0) thresholds) "storage free-byte thresholds must be positive" in
  let! _ := reject (negb (descending Z.ltb thresholds)) "storage free-byte thresholds must descend warning -> critical" in
  let! fractions := config_floats normalized
    ["storage_warning_free_fraction"; "storage_degraded_free_fraction"; "storage_emergency_free_fraction"; "storage_critical_free_fraction"] in
  let! _ := reject (existsb (fun x => negb (flt fzero x && flt x (flit "1.0"))) fractions)
              "storage free fractions must be between zero and one" in
  let! _ := reject (negb (descending flt fractions)) "storage free fractions must descend warning -> critical" in
  let! ttf := config_floats normalized
    ["storage_warning_ttf_hours"; "storage_degraded_ttf_hours"; "storage_emergency_ttf_hours"; "storage_critical_ttf_hours"] in
  let! _ := reject (existsb (fun x => fle x fzero) ttf) "storage TTF thresholds must be positive" in
  let! _ := reject (negb (descending flt ttf)) "storage TTF thresholds must descend warning -> critical" in
  Ok (hd 0 thresholds).

Definition check_component_budgets (normalized : dict pyval) : result unit :=
  match get normalized "storage_component_budgets_bytes" with
  | VDict ((_ :: _) as budgets) =>
      each (fun kv => let! cap := py_int (snd kv) in reject (cap <=? 0) "every storage component budget must be positive") budgets
  | _ => value_error "storage_component_budgets_bytes must be a non-empty object"
  end.

Definition check_storage (normalized : dict pyval) : result unit :=
  let! headroom := check_free_space normalized in
  let! _ := check_component_budgets normalized in
  let! v := item normalized "storage_volume_budget_bytes" in
  let! volume_budget := _config_int v "storage_volume_budget_bytes" in
  let! _ := reject (volume_budget <=? headroom) "storage_volume_budget_bytes must exceed normal free-space headroom" in
  let! v := item normalized "storage_reserve_bytes" in
  let! reserve := _config_int v "storage_reserve_bytes" in
  let! _ := reject (reserve <=? 0) "storage_reserve_bytes must be positive" in
  let! v := item normalized "storage_monitor_interval_seconds" in
  let! interval := _config_float v "storage_monitor_interval_seconds" in
  reject (fle interval fzero) "storage_monitor_interval_seconds must be positive".

Definition check_control (normalized : dict pyval) : result unit :=
  let! v := item normalized "storage_control_generation" in
  let! generation := _config_int v "storage_control_generation" in
  let! _ := reject (generation <? 0) "storage_control_generation must not be negative" in
  let! latched := item normalized "storage_emergency_latched" in
  let! acknowledged := item normalized "storage_recovery_acknowledged" in
  let! _ := reject ((generation =? 0) && (truthy latched || truthy acknowledged))
              "generation-zero storage control must be unlatched and unacknowledged" in
  let! _ := reject (truthy latched && truthy acknowledged)
              "storage emergency cannot be latched and recovery-acknowledged together" in
  let! v := item normalized "research_evidence_min_interval_seconds" in
  let! interval := _config_float v "research_evidence_min_interval_seconds" in
  reject (flt interval (flit "1.0")) "research_evidence_min_interval_seconds must be at least 1".

Definition _validate_live_ranges (normalized : dict pyval) : result unit :=
  let! _ := each (check_positive normalized) positive_keys in
  let! _ := each (check_non_negative normalized) non_negative_keys in
  let! _ := check_emergency normalized in
  let! _ := check_drawdowns normalized in
  let! _ := check_trading normalized in
  let! _ := check_storage normalized in
  check_control normalized.

(** ** Validation of overrides *)

(** A value as the type of its default; [float(value)] keeps its [repr]. *)
Definition normalize_value (dflt : pyval) (key : string) (value : pyval) : result pyval :=
  match dflt with
  | VBool _ => let! b := _coerce_bool key value in Ok (VBool b)
  | VInt _ => let! z := py_int value in Ok (VInt z)
  | VFloat _ => match value with VFloat r => Ok (VFloat r) | _ => let! x := py_float value in Ok (VFloat (float_repr x)) end
  | VList _ => let! l := py_iter value in Ok (VList l)
  | VDict _ => let! d := py_dict value in Ok (VDict d)
  | _ => Ok (VStr (py_str value))
  end.

Definition _normalize (key : string) (value : pyval) : result pyval :=
  let! dflt := item _DEFAULTS key in normalize_value dflt key value.

(** [d.update(e)] *)
Definition dict_update {V} (d e : dict V) : dict V := fold_left (fun acc kv => dict_set acc (fst kv) (snd kv)) e d.

Definition unknown_keys (keys : list string) : list string := sort_strings (List.filter (fun k => negb (dict_has _DEFAULTS k)) keys).

Definition forbidden_keys (keys : list string) : list string :=
  sort_strings (List.filter (fun k => str_in k keys) _INTERNAL_STORAGE_CONTROL_KEYS).

Definition check_keys (keys : list string) : result unit :=
  let! _ := match unknown_keys keys with
            | [] => Ok tt
            | unknown => value_error ("unexpected_key(s): " +:+ str_join ", " unknown)
            end in
  match forbidden_keys keys with
  | [] => Ok tt
  | forbidden => value_error ("storage control fields are internal and cannot be configured: " +:+ str_join ", " forbidden)
  end.

Fixpoint normalize_all (values : dict pyval) : result (dict pyval) :=
  match values with
  | [] => Ok []
  | (key, value) :: rest =>
      let! v := _normalize key value in
      let! vs := normalize_all rest in
      Ok ((key, v) :: vs)
  end.

Definition is_live (trading_mode : string) : bool := String.eqb (lower (strip trading_mode)) "live".

Definition validate_live_config (values : dict pyval) (trading_mode : string) : result (dict pyval) :=
  let! _ := check_keys (dict_keys values) in
  let! normalized := normalize_all values in
  let effective := dict_update _DEFAULTS normalized in
  let! _ := _validate_live_ranges effective in
  let! _ := if is_live trading_mode then _enforce_live_safety_floors effective else Ok tt in
  Ok normalized.

(** What becomes of a file that holds no object: its elements are looked up as keys. *)
Definition hashable (v : pyval) : bool := match v with VList _ | VDict _ => false | _ => true end.
Definition known_key (v : pyval) : bool := match v with VStr s => dict_has _DEFAULTS s | _ => false end.
Definition key_text (v : pyval) : string := match v with VStr s => s | _ => "" end.

Definition validate_payload (payload : pyval) (trading_mode : string) : result (dict pyval) :=
  match payload with
  | VDict values => validate_live_config values trading_mode
  | VList _ | VStr _ =>
      let! elements := py_iter payload in
      if negb (forallb hashable elements) then raise TypeError "unhashable type"
      else
        let unknown := List.filter (fun v => negb (known_key v)) elements in
        if negb (forallb (fun v => match v with VStr _ => true | _ => false end) unknown) then
          raise TypeError "sequence item: expected str instance"
        else
          let! _ := check_keys (map key_text elements) in
          raise AttributeError "object has no attribute 'items'"
  | _ => raise TypeError "object is not iterable"
  end.

(** ** The canonical text *)

(** [sort_keys=True, separators=(",", ":"), ensure_ascii=True, allow_nan=False] *)
Definition canonical_effective_config_json (values : dict pyval) : result string :=
  json_dumps_with json_char false "," ":" false (VDict values).

Definition effective_config_hash (values : dict pyval) : result string :=
  let! text := canonical_effective_config_json values in Ok (sha256_hex text).

Record CanonicalConfigSnapshot := Snapshot {
  snap_values : dict pyval;
  canonical_json : string;
  sha256 : string
}.

(** ** The manager *)

Record manager := Manager {
  trading_mode : string;
  values : dict pyval;
  last_mtime : Z;
  last_error : string;
  loaded_keys : list string;
  version_hash : string;
  file : option (Z * result pyval)
}.

Definition set_values (m : manager) (v : dict pyval) : manager :=
  Manager (trading_mode m) v (last_mtime m) (last_error m) (loaded_keys m) (version_hash m) (file m).
Definition set_loaded (m : manager) (mtime : Z) (keys : list string) : manager :=
  Manager (trading_mode m) (values m) mtime "" keys (version_hash m) (file m).
Definition set_error (m : manager) (error : string) : manager :=
  Manager (trading_mode m) (values m) (last_mtime m) error (loaded_keys m) (version_hash m) (file m).
Definition set_hash (m : manager) (h : string) : manager :=
  Manager (trading_mode m) (values m) (last_mtime m) (last_error m) (loaded_keys m) h (file m).
Definition set_file (m : manager) (f : option (Z * result pyval)) : manager :=
  Manager (trading_mode m) (values m) (last_mtime m) (last_error m) (loaded_keys m) (version_hash m) f.

(** The values are replaced one by one; the result counts the changes. *)
Fixpoint apply_values (effective : dict pyval) : M manager Z :=
  match effective with
  | [] => m_ret 0
  | (key, value) :: rest =>
      do! normalized := m_lift (_normalize key value) in
      do! m := m_get in
      let same := match dict_get (values m) key with Some old => py_eq old normalized | None => false end in
      do! _ := m_put (if same then m else set_values m (dict_set (values m) key normalized)) in
      do! n := apply_values rest in
      m_ret (if same then n else n + 1)
  end.

Definition rehash : M manager unit :=
  do! m := m_get in
  do! h := m_lift (effective_config_hash (values m)) in
  m_put (set_hash m h).

(** The body of the [try]. *)
Definition load_file (mtime : Z) (content : result pyval) : M manager bool :=
  do! payload := m_lift content in
  do! m := m_get in
  do! raw := m_lift (validate_payload payload (trading_mode m)) in
  do! changed := apply_values (dict_update _DEFAULTS raw) in
  do! m := m_get in
  do! _ := m_put (set_loaded m mtime (match payload with VDict d => dict_keys d | _ => [] end)) in
  do! _ := rehash in
  m_ret (negb (changed =? 0)).

Definition load_errors (k : exn_kind) : bool := match k with OSError | ValueError | TypeError => true | _ => false end.

Definition _try_load : M manager bool := fun m =>
  match file m with
  | None => (Ok false, m)
  | Some (mtime, content) =>
      if mtime <=? last_mtime m then (Ok false, m)
      else
        match load_file mtime content m with
        | (Err e, m') => if load_errors (exn_class e) then (Ok false, set_error m' (exn_message e)) else (Err e, m')
        | r => r
        end
  end.

Definition reload_now : M manager bool := _try_load.

Definition initial_mode (mode : string) : string :=
  let mode := lower (strip mode) in if str_in mode ["paper"; "testnet"; "live"] then mode else "paper".

Definition new_manager (mode : string) (f : option (Z * result pyval)) : result manager :=
  let! h := effective_config_hash _DEFAULTS in
  let '(r, m) := _try_load (Manager (initial_mode mode) _DEFAULTS 0 "" [] h f) in
  let! _ := r in Ok m.

(** The entries of the file with known keys; a value that cannot be read drops them all. *)
Fixpoint keep_known (existing : dict pyval) (payload : dict pyval) : result (dict pyval) :=
  match existing with
  | [] => Ok payload
  | (key, value) :: rest =>
      if dict_has _DEFAULTS key then let! v := _normalize key value in keep_known rest (dict_set payload key v)
      else keep_known rest payload
  end.

Definition existing_overrides (f : option (Z * result pyval)) : result (dict pyval) :=
  match f with
  | None => Ok []
  | Some (_, content) =>
      res_catch (let! existing := content in
                 match existing with VDict d => keep_known d [] | _ => raise AttributeError "object has no attribute 'items'" end)
        load_errors (Ok [])
  end.

(** What [json.load] reads after [json.dump(payload, handle, sort_keys=True)]. *)
Definition _atomic_write_json (payload : dict pyval) : result pyval :=
  let! _ := json_dumps false (VDict payload) in Ok (canon (VDict payload)).

(** [now] is the time the replaced file gets. *)
Definition write_overrides (overrides : dict pyval) (now : Z) : M manager (dict pyval) :=
  do! m := m_get in
  do! payload := m_lift (existing_overrides (file m)) in
  do! payload := m_lift (keep_known overrides payload) in
  do! payload := m_lift (validate_live_config payload (trading_mode m)) in
  do! content := m_lift (_atomic_write_json payload) in
  do! _ := m_put (set_loaded (set_values (set_file m (Some (now, Ok content))) (dict_update _DEFAULTS payload)) now (dict_keys payload)) in
  do! _ := rehash in
  do! m := m_get in
  m_ret (values m).

Definition apply_updates : dict pyval -> Z -> M manager (dict pyval) := write_overrides.

(** ** Reads *)

Definition config_get (m : manager) (key : string) (dflt : pyval) : pyval := get_or (values m) key dflt.
Definition get_bool (m : manager) (key : string) : bool := truthy (config_get m key (VBool false)).
Definition get_float (m : manager) (key : string) : result float := py_float (config_get m key (VFloat "0.0")).
Definition get_int (m : manager) (key : string) : result Z := py_int (config_get m key (VInt 0)).

Definition canonical_snapshot (m : manager) : result CanonicalConfigSnapshot :=
  let! text := canonical_effective_config_json (values m) in
  Ok (Snapshot (values m) text (sha256_hex text)).

Definition allowed_keys : list string := dict_keys _DEFAULTS.
Definition required_live_keys : list string := _LIVE_REQUIRED_KEYS.

Definition missing_required_live_keys (m : manager) : list string :=
  sort_strings (List.filter (fun k => negb (str_in k (loaded_keys m))) _LIVE_REQUIRED_KEYS).

(** ** Small runs *)

(** The defaults themselves pass the ranges, and with the live stage the limits of live mode. *)
Example ex_defaults_valid : is_ok (_validate_live_ranges _DEFAULTS) = true.
Proof. vm_compute. reflexivity. Qed.

Definition ex_live : dict pyval := [("decision_engine_stage", VStr "live_approved"); ("max_leverage", VInt 1)].

Example ex_live_valid : validate_live_config ex_live "Live" = Ok [("decision_engine_stage", VStr "live_approved"); ("max_leverage", VFloat "1.0")].
Proof. vm_compute. reflexivity. Qed.

Example ex_live_rejected : validate_live_config [("decision_engine_stage", VStr "live_approved"); ("max_leverage", VInt 3)] "live"
  = value_error "max_leverage cannot exceed immutable live ceiling 2.0".
Proof. vm_compute. reflexivity. Qed.
