(* ===== verification/IpcProtocol.v ===== *)
(** * The execution protocol

    Model of [src/bongus/ipc/protocol.py]: the canonical body of a command, the bytes its
    hash covers, the envelopes, and the validation of acknowledgements and of terminal
    summaries.  Payloads are dictionaries with text keys and ASCII texts; byte strings
    are texts; a float is its [repr]. *)
From Stdlib Require Import ZArith Lia Ascii SpecFloat.
From stdpp Require Import base list strings.
From S2P Require Import Prelude PyDecimal PyDecimalPlain PyFloat PyTime PyValue PyJson ConfigManager.
Open Scope Z_scope.

(** ** Constants *)

Definition EXECUTION_PROTOCOL_VERSION : Z := 3.
Definition TERMINAL_SUMMARY_VERSION : Z := 3.
Definition MAX_EXACT_DECIMAL_SCALE : Z := 28.
Definition CONFIG_SYNC_INTENT : string := "CONFIG_SYNC".
Definition RISK_CHANGING_INTENTS : list string := ["ENTER_LONG"; "ENTER_SHORT"; "EXIT_LONG"; "EXIT_SHORT"].
Definition DURABLE_COMMAND_INTENTS : list string := RISK_CHANGING_INTENTS ++ [CONFIG_SYNC_INTENT].
Definition LEGACY_SAFE_INTENTS : list string := ["HEARTBEAT"; "RESTORE_POSITION"; "SUBSCRIBE_MARKET_DATA"].
Definition ACK_STATES : list string := ["RECEIVED"; "VALIDATED"; "SUBMITTED"; "TERMINAL"; "REJECTED"].
Definition ROUTE_POLICIES : list string :=
  [ "legacy_dual_maker"; "post_only_dual"; "maker_lead_ioc"; "simultaneous_ioc"; "sliced_ioc";
    "emergency_reduce_only" ].
Definition ACTIVE_ROUTE_POLICIES : list string := ["legacy_dual_maker"; "emergency_reduce_only"].
Definition DEFAULT_MAX_UNHEDGED_NOTIONAL_MS : pyval := VFloat "5000000.0".
Definition MAX_COMMAND_TTL_MS : Z := 300000.

Definition _TRANSPORT_FIELDS : list string := ["producer_id"; "sequence"; "created_at_ms"; "deadline_at_ms"].
Definition _DERIVED_FIELDS : list string :=
  [ "schema_version"; "command_hash"; "spot_client_order_id"; "perp_client_order_id"; "spot_leg_id"; "perp_leg_id" ].
Definition _RISK_PAYLOAD_FIELDS : list string :=
  [ "account_id"; "environment"; "strategy_id"; "cycle_id"; "config_version_hash"; "symbol"; "intent"; "quantity";
    "urgency"; "max_slippage_bps"; "route_policy"; "route_model_version"; "max_unhedged_notional_ms";
    "route_slice_count"; "exposure_scale"; "intent_id"; "direction"; "skip_spot_leg"; "skip_perp_leg";
    "spot_quantity"; "perp_quantity"; "requested_quantity_decimal"; "actual_spot_inventory_decimal";
    "actual_futures_inventory_decimal"; "exit_spot_quantity_decimal"; "exit_futures_quantity_decimal" ].
Definition _RISK_ENVELOPE_FIELDS : list string := _RISK_PAYLOAD_FIELDS ++ _TRANSPORT_FIELDS ++ _DERIVED_FIELDS.
Definition _CONFIG_SYNC_PAYLOAD_FIELDS : list string :=
  [ "account_id"; "environment"; "strategy_id"; "cycle_id"; "config_version_hash"; "config_canonical_json";
    "intent"; "intent_id" ].
Definition _CONFIG_SYNC_DERIVED_FIELDS : list string := ["schema_version"; "command_hash"].
Definition _CONFIG_SYNC_ENVELOPE_FIELDS : list string := _CONFIG_SYNC_PAYLOAD_FIELDS ++ _TRANSPORT_FIELDS ++ _CONFIG_SYNC_DERIVED_FIELDS.
Definition _ACK_FIELDS : list string :=
  [ "event"; "schema_version"; "intent_id"; "producer_id"; "sequence"; "account_id"; "environment"; "strategy_id";
    "cycle_id"; "config_version_hash"; "spot_leg_id"; "perp_leg_id"; "spot_client_order_id";
    "perp_client_order_id"; "command_hash"; "ack_status"; "reason"; "event_time_ms"; "replay";
    "declared_config_hash"; "applied_config_hash"; "config_status" ].

(** Field order and field kind, as hashed. *)
Definition _CANONICAL_FIELD_TYPES : list (string * string) :=
  [ ("schema_version", "int"); ("account_id", "string"); ("environment", "string"); ("strategy_id", "string");
    ("cycle_id", "string"); ("config_version_hash", "string"); ("symbol", "string"); ("intent", "string");
    ("quantity", "float"); ("urgency", "float"); ("max_slippage_bps", "float"); ("route_policy", "string");
    ("route_model_version", "string"); ("max_unhedged_notional_ms", "float"); ("route_slice_count", "int");
    ("exposure_scale", "float"); ("intent_id", "string"); ("direction", "optional_string");
    ("skip_spot_leg", "bool"); ("skip_perp_leg", "bool"); ("spot_quantity", "optional_float");
    ("perp_quantity", "optional_float"); ("requested_quantity_decimal", "string");
    ("actual_spot_inventory_decimal", "optional_string"); ("actual_futures_inventory_decimal", "optional_string");
    ("exit_spot_quantity_decimal", "optional_string"); ("exit_futures_quantity_decimal", "optional_string");
    ("spot_client_order_id", "string"); ("perp_client_order_id", "string"); ("spot_leg_id", "string");
    ("perp_leg_id", "string") ].

Definition newline : string := chr 10.

Definition _CANONICAL_MAGIC : string := "bongus-execution-command-v3" +:+ newline.

Definition _CONFIG_SYNC_CANONICAL_FIELD_TYPES : list (string * string) :=
  [ ("schema_version", "int"); ("account_id", "string"); ("environment", "string"); ("strategy_id", "string");
    ("cycle_id", "string"); ("config_version_hash", "string"); ("intent", "string"); ("intent_id", "string");
    ("config_canonical_json", "string") ].

Definition _CONFIG_SYNC_CANONICAL_MAGIC : string := "bongus-config-sync-command-v3" +:+ newline.

Definition _TERMINAL_REQUIRED_FIELDS : list string :=
  [ "event"; "terminal_summary_version"; "schema_version"; "symbol"; "status"; "execution_type"; "client_order_id";
    "requested_quantity_decimal"; "normalized_common_entry_quantity_decimal"; "actual_spot_inventory_decimal";
    "actual_futures_inventory_decimal"; "exit_spot_quantity_decimal"; "exit_futures_quantity_decimal";
    "spot_cumulative_filled_quantity_decimal"; "futures_cumulative_filled_quantity_decimal"; "spot_vwap_decimal";
    "futures_vwap_decimal"; "spot_generations"; "futures_generations"; "spot_final_status"; "futures_final_status";
    "commissions"; "commission_assets"; "commission_status"; "unvalued_commission_assets";
    "exchange_event_time_ms"; "receive_time_ms"; "persist_time_ms"; "terminal_sequence"; "terminal_watermark";
    "telemetry_schema_version"; "telemetry_sequence"; "telemetry_ack_required"; "telemetry_replay" ].
Definition _TERMINAL_OPTIONAL_FIELDS : list string :=
  [ "account_id"; "environment"; "strategy_id"; "cycle_id"; "intent_id"; "leg_id"; "config_version_hash";
    "filled_qty"; "filled_qty_decimal"; "cumulative_filled_qty"; "avg_fill_price"; "last_fill_price";
    "cumulative_quote_qty"; "commission"; "commission_asset"; "realized_pnl"; "maker"; "event_time_ms";
    "process_time_ms"; "market"; "side"; "order_id"; "trade_id"; "spot_fill_price"; "perp_fill_price";
    "risk_adjusted_requested_quantity_decimal"; "spot_target_quantity_decimal"; "futures_target_quantity_decimal";
    "deadline_classification" ].
Definition _TERMINAL_FIELDS : list string := _TERMINAL_REQUIRED_FIELDS ++ _TERMINAL_OPTIONAL_FIELDS.

(** ** Readers *)

Definition protocol_error {A} (msg : string) : result A := raise ExecutionProtocolError msg.

(** [if cond: raise ExecutionProtocolError(msg)] *)
Definition refuse (cond : bool) (msg : string) : result unit := if cond then protocol_error msg else Ok tt.

Fixpoint for_each {A} (check : A -> result unit) (l : list A) : result unit :=
  match l with [] => Ok tt | x :: l' => let! _ := check x in for_each check l' end.

Definition deterministic_client_order_id (intent_id leg : string) : string :=
  let normalized_leg := if String.eqb (lower leg) "spot" then "s" else "p" in
  let digest := String.substring 0 24 (sha256_hex (intent_id +:+ ":" +:+ normalized_leg)) in
  "bngs_" +:+ normalized_leg +:+ "_" +:+ digest.

(** [math.isfinite] on the [repr] of a float. *)
Definition finite_repr (r : string) : bool := negb (str_in r ["nan"; "inf"; "-inf"]).

Definition _float (value : pyval) (field : string) : result string :=
  let! result := match value with
                 | VNone => Ok "0.0"
                 | VInt z => let! x := float_of_Z z in Ok (float_repr x)
                 | VFloat r => Ok r
                 | _ => protocol_error (field +:+ " must be numeric")
                 end in
  if finite_repr result then Ok result else protocol_error (field +:+ " must be finite").

Definition _optional_float (value : pyval) (field : string) : result pyval :=
  match value with VNone => Ok VNone | _ => let! r := _float value field in Ok (VFloat r) end.

Definition _bool (value : pyval) (field : string) : result bool :=
  match value with VNone => Ok false | VBool b => Ok b | _ => protocol_error (field +:+ " must be boolean") end.

Definition _integer (value : pyval) (field : string) (default : Z) : result Z :=
  match value with VNone => Ok default | VInt z => Ok z | _ => protocol_error (field +:+ " must be an integer") end.

Definition _string (value : pyval) (field default : string) : result string :=
  match value with VNone => Ok default | VStr s => Ok s | _ => protocol_error (field +:+ " must be a string") end.

(** [(?:0|[1-9][0-9]* )(?:\.[0-9]*[1-9])?\Z] *)
Definition _CANONICAL_DECIMAL_RE (l : list ascii) : bool :=
  let '(ints, rest) := span_digits l in
  match ints with
  | [] => false
  | d :: ds => (match ds with [] => true | _ => negb (d =? 0)%N end)
  end &&
  match rest with
  | [] => true
  | "."%char :: rest' =>
      let '(fracs, rest'') := span_digits rest' in
      match rest'', rev fracs with [], d :: _ => negb (d =? 0)%N | _, _ => false end
  | _ => false
  end.

Definition no_decimal (k : exn_kind) : bool := match k with InvalidOperation => true | _ => false end.

Definition canonical_decimal_string (value : pyval) (field : string) (optional : bool) : result pyval :=
  match value, optional with
  | VNone, true => Ok VNone
  | VStr text, _ =>
      if negb (_CANONICAL_DECIMAL_RE (String.list_ascii_of_string text)) then
        protocol_error (field +:+ " must be a canonical decimal string")
      else
        let! decimal := res_catch (Decimal_of value) no_decimal (protocol_error (field +:+ " is not a supported decimal")) in
        match decimal with
        | DFin d =>
            let! _ := refuse (dlt d d0) (field +:+ " must be finite and non-negative") in
            let! _ := refuse (MAX_EXACT_DECIMAL_SCALE <? Z.max 0 (- dexp d))
                        (field +:+ " exceeds supported scale " +:+ int_str MAX_EXACT_DECIMAL_SCALE) in
            let! _ := refuse (38 <? ndigits (dcoeff d)) (field +:+ " exceeds supported precision") in
            Ok value
        | _ => protocol_error (field +:+ " must be finite and non-negative")
        end
  | _, _ => protocol_error (field +:+ " must be a canonical decimal string")
  end.

(** [s.rstrip(c)] for one character. *)
Definition rstrip_char (c : ascii) (s : string) : string :=
  String.string_of_list_ascii (rev ((fix drop (l : list ascii) : list ascii :=
    match l with x :: l' => if Ascii.eqb x c then drop l' else l | [] => [] end) (rev (String.list_ascii_of_string s)))).

Definition decimal_value (v : pyval) : result dec :=
  let! n := Decimal_of v in
  match n with DFin d => Ok d | _ => raise InvalidOperation "comparison involving a special value" end.

Definition decimal_string_from_number (value : pyval) (field : string) : result string :=
  let! number := _float value field in
  let! _ := refuse (flt (flit number) fzero) (field +:+ " must be non-negative") in
  let! d := decimal_value (VStr number) in
  let raw := dec_plain d in
  let raw := if str_has 46 raw then rstrip_char "." (rstrip_char "0" raw) else raw in
  let raw := if String.eqb raw "-0" then "0" else raw in
  let! _ := canonical_decimal_string (VStr raw) field false in
  Ok raw.

Definition _redundant_float_matches (decimal_text : string) (value : pyval) (field : string) : result string :=
  let! redundant := _float value field in
  let! _ := refuse (flt (flit redundant) fzero) (field +:+ " must be non-negative") in
  let! text := decimal_string_from_number (VFloat redundant) field in
  let! _ := refuse (negb (String.eqb text decimal_text)) (field +:+ " does not exactly match its authoritative decimal field") in
  Ok redundant.

(** ** The bodies *)

(** [", ".join(sorted(set(payload) - fields))] *)
Definition unknown_fields (payload : dict pyval) (fields : list string) : list string :=
  sort_strings (List.filter (fun k => negb (str_in k fields)) (dict_keys payload)).

Definition check_fields (payload : dict pyval) (fields : list string) (what : string) : result unit :=
  match unknown_fields payload fields with
  | [] => Ok tt
  | names => protocol_error ("unknown " +:+ what +:+ " field(s): " +:+ str_join ", " names)
  end.

Definition lowercase_hex (c : ascii) : bool := str_has (N_of_ascii c) "0123456789abcdef".

(** [len(s) == 64 and all(ch in "0123456789abcdef" for ch in s)] *)
Definition is_sha256 (s : string) : bool := (String.length s =? 64)%nat && str_forallb lowercase_hex s.

Definition json_errors (k : exn_kind) : bool := match k with TypeError | ValueError => true | _ => false end.

Definition REQUIRED_CONFIG_KEYS : list string :=
  [ "pause_new_entries"; "per_symbol_notional_cap_usd"; "max_gross_exposure_usd"; "emergency_exit_max_retries";
    "emergency_exit_readback_attempts"; "emergency_exit_max_slippage_bps" ].

Definition check_config_number (document : dict pyval) (field : string) : result unit :=
  match get document field with
  | (VInt _ | VFloat _) as value =>
      let! x := py_float value in
      refuse (negb (isfinite x) || fle x fzero) (field +:+ " must be positive and finite")
  | _ => protocol_error (field +:+ " must be numeric")
  end.

Definition check_config_values (document : dict pyval) : result unit :=
  let! _ := check_fields document allowed_keys "effective-config" in
  let! _ := match sort_strings (List.filter (fun k => negb (dict_has document k)) REQUIRED_CONFIG_KEYS) with
            | [] => Ok tt
            | missing => protocol_error ("missing consensus config key(s): " +:+ str_join ", " missing)
            end in
  let! _ := match get document "pause_new_entries" with
            | VBool _ => Ok tt
            | _ => protocol_error "pause_new_entries must be boolean"
            end in
  for_each (check_config_number document) ["per_symbol_notional_cap_usd"; "max_gross_exposure_usd"].

Definition _validate_config_document (canonical_json declared_hash : string) : result unit :=
  let! _ := refuse (negb (nonempty canonical_json)) "config_canonical_json is required" in
  let! _ := refuse (negb (is_sha256 declared_hash)) "config_version_hash must be a lowercase SHA-256" in
  let! _ := refuse (negb (String.eqb (sha256_hex canonical_json) declared_hash)) "config snapshot SHA-256 does not match its declaration" in
  let! document := res_catch (json_loads canonical_json) json_errors (protocol_error "config_canonical_json is malformed") in
  match document with
  | VDict d =>
      let! reconstructed := res_catch (canonical_effective_config_json d) json_errors (protocol_error "config_canonical_json is malformed") in
      let! _ := refuse (negb (String.eqb reconstructed canonical_json)) "config_canonical_json is not canonical" in
      check_config_values d
  | _ => protocol_error "config_canonical_json must contain an object"
  end.

(** [_string(payload.get(key), key, default=default).strip()] *)
Definition stripped (payload : dict pyval) (key default : string) : result string :=
  let! s := _string (get payload key) key default in Ok (strip s).

Definition canonical_config_sync_body (payload : dict pyval) : result (dict pyval) :=
  let! _ := check_fields payload _CONFIG_SYNC_ENVELOPE_FIELDS "config-sync" in
  let! schema_version := _integer (get payload "schema_version") "schema_version" EXECUTION_PROTOCOL_VERSION in
  let! account_id := stripped payload "account_id" "" in
  let! environment := stripped payload "environment" "" in
  let! strategy_id := stripped payload "strategy_id" "" in
  let! cycle_id := stripped payload "cycle_id" "" in
  let! config_version_hash := stripped payload "config_version_hash" "" in
  let! intent := stripped payload "intent" "" in
  let! intent_id := stripped payload "intent_id" "" in
  let! config_canonical_json := _string (get payload "config_canonical_json") "config_canonical_json" "" in
  let! _ := refuse (negb (String.eqb (upper intent) CONFIG_SYNC_INTENT)) "config sync must use CONFIG_SYNC intent" in
  let! _ := refuse (negb (schema_version =? EXECUTION_PROTOCOL_VERSION)) "unsupported config-sync schema_version" in
  let! _ := _validate_config_document config_canonical_json config_version_hash in
  Ok [ ("schema_version", VInt schema_version); ("account_id", VStr account_id); ("environment", VStr environment);
       ("strategy_id", VStr strategy_id); ("cycle_id", VStr cycle_id); ("config_version_hash", VStr config_version_hash);
       ("intent", VStr (upper intent)); ("intent_id", VStr intent_id); ("config_canonical_json", VStr config_canonical_json) ].

(** [None] or the text, stripped and in lower case. *)
Definition direction_of (payload : dict pyval) : result pyval :=
  match get payload "direction" with
  | VNone => Ok VNone
  | v => let! s := _string v "direction" "" in Ok (VStr (lower (strip s)))
  end.

Definition text_of (v : pyval) : string := match v with VStr s => s | _ => "" end.

Definition canonical_command_body (payload : dict pyval) : result (dict pyval) :=
  let! _ := check_fields payload _RISK_ENVELOPE_FIELDS "risk-command" in
  let! intent_id := stripped payload "intent_id" "" in
  let! direction := direction_of payload in
  let! schema_version := _integer (get payload "schema_version") "schema_version" EXECUTION_PROTOCOL_VERSION in
  let! route_slice_count := _integer (get payload "route_slice_count") "route_slice_count" 1 in
  let decimal := fun key optional => canonical_decimal_string (get payload key) key optional in
  let! requested_quantity := decimal "requested_quantity_decimal" false in
  let! actual_spot := decimal "actual_spot_inventory_decimal" true in
  let! actual_futures := decimal "actual_futures_inventory_decimal" true in
  let! exit_spot := decimal "exit_spot_quantity_decimal" true in
  let! exit_futures := decimal "exit_futures_quantity_decimal" true in
  let! account_id := stripped payload "account_id" "" in
  let! environment := stripped payload "environment" "" in
  let! strategy_id := stripped payload "strategy_id" "" in
  let! cycle_id := stripped payload "cycle_id" "" in
  let! config_version_hash := stripped payload "config_version_hash" "" in
  let! symbol := stripped payload "symbol" "" in
  let! intent := stripped payload "intent" "" in
  let! quantity := _redundant_float_matches (text_of requested_quantity) (get payload "quantity") "quantity" in
  let! urgency := _float (get payload "urgency") "urgency" in
  let! max_slippage_bps := _float (get payload "max_slippage_bps") "max_slippage_bps" in
  let! route_policy := stripped payload "route_policy" "legacy_dual_maker" in
  let! route_model_version := stripped payload "route_model_version" "legacy-v1" in
  let! max_unhedged := _float (get_or payload "max_unhedged_notional_ms" DEFAULT_MAX_UNHEDGED_NOTIONAL_MS) "max_unhedged_notional_ms" in
  let! exposure_scale := _float (get payload "exposure_scale") "exposure_scale" in
  let! skip_spot_leg := _bool (get payload "skip_spot_leg") "skip_spot_leg" in
  let! skip_perp_leg := _bool (get payload "skip_perp_leg") "skip_perp_leg" in
  let! spot_quantity := _optional_float (get payload "spot_quantity") "spot_quantity" in
  let! perp_quantity := _optional_float (get payload "perp_quantity") "perp_quantity" in
  let! spot_client := stripped payload "spot_client_order_id" (deterministic_client_order_id intent_id "spot") in
  let! perp_client := stripped payload "perp_client_order_id" (deterministic_client_order_id intent_id "perp") in
  let! spot_leg := stripped payload "spot_leg_id" (intent_id +:+ ":spot") in
  let! perp_leg := stripped payload "perp_leg_id" (intent_id +:+ ":perp") in
  let! _ := refuse (negb (schema_version =? EXECUTION_PROTOCOL_VERSION)) "unsupported risk-command schema_version" in
  Ok [ ("schema_version", VInt schema_version); ("account_id", VStr account_id); ("environment", VStr environment);
       ("strategy_id", VStr strategy_id); ("cycle_id", VStr cycle_id); ("config_version_hash", VStr config_version_hash);
       ("symbol", VStr (upper symbol)); ("intent", VStr (upper intent)); ("quantity", VFloat quantity); ("urgency", VFloat urgency);
       ("max_slippage_bps", VFloat max_slippage_bps); ("route_policy", VStr (lower route_policy));
       ("route_model_version", VStr route_model_version); ("max_unhedged_notional_ms", VFloat max_unhedged);
       ("route_slice_count", VInt route_slice_count); ("exposure_scale", VFloat exposure_scale); ("intent_id", VStr intent_id);
       ("direction", direction); ("skip_spot_leg", VBool skip_spot_leg); ("skip_perp_leg", VBool skip_perp_leg);
       ("spot_quantity", spot_quantity); ("perp_quantity", perp_quantity); ("requested_quantity_decimal", requested_quantity);
       ("actual_spot_inventory_decimal", actual_spot); ("actual_futures_inventory_decimal", actual_futures);
       ("exit_spot_quantity_decimal", exit_spot); ("exit_futures_quantity_decimal", exit_futures);
       ("spot_client_order_id", VStr spot_client); ("perp_client_order_id", VStr perp_client);
       ("spot_leg_id", VStr spot_leg); ("perp_leg_id", VStr perp_leg) ].

(** ** The hashed bytes *)

(** [f"{bits:016x}"] *)
Fixpoint hex_digits (n : nat) (z : Z) : string :=
  match n with O => EmptyString | S k => hex_digits k (z / 16) +:+ String (hex_char (Z.to_N (z mod 16))) EmptyString end.

Definition canonical_string (s : string) : string := "s" +:+ int_str (Z.of_nat (String.length s)) +:+ ":" +:+ s.
Definition canonical_float (x : float) : string := "f" +:+ hex_digits 16 (float_bits x).

Definition _canonical_scalar (kind : string) (value : pyval) : result string :=
  let string_scalar := Ok (canonical_string (py_str value)) in
  let float_scalar := let! x := py_float value in Ok (canonical_float x) in
  let optional := fun m : result string => match value with VNone => Ok "n" | _ => m end in
  if String.eqb kind "string" then string_scalar
  else if String.eqb kind "optional_string" then optional string_scalar
  else if String.eqb kind "int" then let! z := py_int value in Ok ("i" +:+ int_str z)
  else if String.eqb kind "float" then float_scalar
  else if String.eqb kind "optional_float" then optional float_scalar
  else if String.eqb kind "bool" then Ok (if truthy value then "b1" else "b0")
  else raise AssertionError ("unsupported canonical field type " +:+ repr_str kind).

(** [field=scalar] and a line feed, for each field of the body in order. *)
Fixpoint canonical_lines (fields : list (string * string)) (body : dict pyval) : result string :=
  match fields with
  | [] => Ok EmptyString
  | (field, kind) :: fields' =>
      let! scalar := _canonical_scalar kind (get body field) in
      let! rest := canonical_lines fields' body in
      Ok (field +:+ "=" +:+ scalar +:+ newline +:+ rest)
  end.

Definition canonical_config_sync_command_bytes (payload : dict pyval) : result string :=
  let! body := canonical_config_sync_body payload in
  let! lines := canonical_lines _CONFIG_SYNC_CANONICAL_FIELD_TYPES body in
  Ok (_CONFIG_SYNC_CANONICAL_MAGIC +:+ lines).

(** [str(payload.get("intent") or "").strip().upper() == CONFIG_SYNC_INTENT] *)
Definition is_config_sync (payload : dict pyval) : bool :=
  String.eqb (upper (strip (py_str (py_or (get payload "intent") (VStr ""))))) CONFIG_SYNC_INTENT.

Definition canonical_command_bytes (payload : dict pyval) : result string :=
  if is_config_sync payload then canonical_config_sync_command_bytes payload
  else
    let! body := canonical_command_body payload in
    let! lines := canonical_lines _CANONICAL_FIELD_TYPES body in
    Ok (_CANONICAL_MAGIC +:+ lines).

Definition command_hash (payload : dict pyval) : result string :=
  let! bytes := canonical_command_bytes payload in Ok (sha256_hex bytes).

(** ** The envelopes *)

(** The producer, the sequence and the time to live of an envelope. *)
Definition check_transport (producer_id sequence ttl_ms : pyval) : result (string * Z * Z) :=
  let! producer := match producer_id with VStr s => Ok (strip s) | _ => protocol_error "producer_id is required" end in
  let! _ := refuse (negb (nonempty producer)) "producer_id is required" in
  let! sequence := match sequence with VInt z => Ok z | _ => protocol_error "sequence must be positive" end in
  let! _ := refuse (sequence <=? 0) "sequence must be positive" in
  let bounds := "ttl_ms must be between 1 and " +:+ int_str MAX_COMMAND_TTL_MS in
  let! ttl := match ttl_ms with VInt z => Ok z | _ => protocol_error bounds end in
  let! _ := refuse (negb ((0 <? ttl) && (ttl <=? MAX_COMMAND_TTL_MS))) bounds in
  Ok (producer, sequence, ttl).

(** [now] is [int(time.time() * 1000)]. *)
Definition creation_time (created_at_ms : pyval) (now : Z) : result Z :=
  let! created := match created_at_ms with
                  | VNone => Ok now
                  | VInt z => Ok z
                  | _ => protocol_error "created_at_ms must be an integer"
                  end in
  let! _ := refuse (created <=? 0) "created_at_ms must be positive" in
  Ok created.

Definition check_context (body : dict pyval) (fields : list string) : result unit :=
  for_each (fun field => refuse (negb (truthy (get body field))) (field +:+ " is required")) fields.

(** [dict(body)] with the transport fields and the hash. *)
Definition seal (body : dict pyval) (producer : string) (sequence created ttl : Z) : result (dict pyval) :=
  let envelope := dict_set body "producer_id" (VStr producer) in
  let envelope := dict_set envelope "sequence" (VInt sequence) in
  let envelope := dict_set envelope "created_at_ms" (VInt created) in
  let envelope := dict_set envelope "deadline_at_ms" (VInt (created + ttl)) in
  let! hash := command_hash envelope in
  Ok (dict_set envelope "command_hash" (VStr hash)).

Definition build_config_sync_envelope (payload : dict pyval) (producer_id sequence ttl_ms created_at_ms : pyval) (now : Z)
  : result (dict pyval) :=
  let! _ := check_fields payload _CONFIG_SYNC_PAYLOAD_FIELDS "config-sync" in
  let! body := canonical_config_sync_body payload in
  let! _ := refuse (negb (truthy (get body "intent_id"))) "CONFIG_SYNC requires intent_id" in
  let! _ := check_context body ["account_id"; "environment"; "strategy_id"; "cycle_id"] in
  let! '(producer, sequence, ttl) := check_transport producer_id sequence ttl_ms in
  let! created := creation_time created_at_ms now in
  seal body producer sequence created ttl.

(** The route of a command: its policy, its model, its budget and its slices. *)
Definition check_route (body : dict pyval) (intent : string) : result unit :=
  let route_policy := text_of (get body "route_policy") in
  let! _ := refuse (negb (str_in route_policy ROUTE_POLICIES)) ("unsupported route_policy " +:+ repr_str route_policy) in
  let! _ := refuse (String.eqb route_policy "emergency_reduce_only" && negb (startswith "EXIT_" intent))
              "emergency_reduce_only is exit-only" in
  let! _ := refuse (negb (str_in route_policy ACTIVE_ROUTE_POLICIES))
              ("route_policy " +:+ repr_str route_policy +:+ " has not passed promotion gates") in
  let! _ := refuse (negb (truthy (get body "route_model_version"))) "route_model_version is required" in
  let! hedge_budget := py_float (get body "max_unhedged_notional_ms") in
  let! _ := refuse (fle hedge_budget fzero) "max_unhedged_notional_ms must be positive and finite" in
  let! route_slice_count := py_int (get body "route_slice_count") in
  let! _ := refuse (negb ((1 <=? route_slice_count) && (route_slice_count <=? 16))) "route_slice_count must be between 1 and 16" in
  refuse (negb (String.eqb route_policy "sliced_ioc") && negb (route_slice_count =? 1))
    "route_slice_count > 1 requires sliced_ioc".

Definition check_amount (body : dict pyval) (field : string) : result unit :=
  match get body field with
  | VNone => Ok tt
  | value => let! x := py_float value in refuse (flt x fzero) (field +:+ " must be non-negative")
  end.

Definition check_scales (body : dict pyval) : result unit :=
  let! _ := for_each (check_amount body) ["quantity"; "max_slippage_bps"; "spot_quantity"; "perp_quantity"] in
  let! urgency := py_float (get body "urgency") in
  let! _ := refuse (negb (fle fzero urgency && fle urgency (flit "1.0"))) "urgency must be between 0 and 1" in
  let! scale := py_float (get body "exposure_scale") in
  let! _ := refuse (negb (flt fzero scale && fle scale (flit "1.0"))) "exposure_scale must be between 0 and 1" in
  let! _ := match get body "direction" with
            | VNone => Ok tt
            | v => refuse (negb (str_in (text_of v) ["long"; "short"])) "direction must be long, short, or absent"
            end in
  let! requested := decimal_value (get body "requested_quantity_decimal") in
  refuse (dle requested d0) "requested_quantity_decimal must be positive".

Definition exact_exit_fields : list string :=
  [ "actual_spot_inventory_decimal"; "actual_futures_inventory_decimal"; "exit_spot_quantity_decimal";
    "exit_futures_quantity_decimal" ].

Definition present (v : pyval) : bool := match v with VNone => false | _ => true end.

Definition check_enter (body : dict pyval) : result unit :=
  let! _ := refuse (existsb (fun name => present (get body name)) exact_exit_fields)
              "ENTER cannot carry exit inventory or quantity semantics" in
  let! _ := refuse (present (get body "spot_quantity") || present (get body "perp_quantity"))
              "ENTER cannot carry legacy per-leg exit quantities" in
  refuse (truthy (get body "skip_spot_leg") || truthy (get body "skip_perp_leg")) "ENTER cannot skip an exposure leg".

(** The redundant float of an exit quantity. *)
Definition check_redundant (body : dict pyval) (names : string * string) : result unit :=
  let '(decimal_name, float_name) := names in
  match get body float_name with
  | VNone => protocol_error (float_name +:+ " redundancy is required for protocol v3")
  | float_value =>
      let! _ := _redundant_float_matches (text_of (get body decimal_name)) float_value float_name in Ok tt
  end.

Definition check_exit (body : dict pyval) : result unit :=
  let! _ := match List.filter (fun name => negb (present (get body name))) exact_exit_fields with
            | [] => Ok tt
            | missing => protocol_error ("EXIT requires exact actual inventory and per-leg exit quantities: " +:+ str_join ", " missing)
            end in
  let! actual_spot := decimal_value (get body "actual_spot_inventory_decimal") in
  let! actual_futures := decimal_value (get body "actual_futures_inventory_decimal") in
  let! exit_spot := decimal_value (get body "exit_spot_quantity_decimal") in
  let! exit_futures := decimal_value (get body "exit_futures_quantity_decimal") in
  let! _ := refuse (dgt exit_spot actual_spot || dgt exit_futures actual_futures) "EXIT quantity cannot exceed actual inventory" in
  let! _ := refuse (negb (Bool.eqb (truthy (get body "skip_spot_leg")) (deqb exit_spot d0)))
              "skip_spot_leg must exactly match zero exit_spot_quantity_decimal" in
  let! _ := refuse (negb (Bool.eqb (truthy (get body "skip_perp_leg")) (deqb exit_futures d0)))
              "skip_perp_leg must exactly match zero exit_futures_quantity_decimal" in
  let! _ := refuse (deqb exit_spot d0 && deqb exit_futures d0) "EXIT must contain at least one positive leg" in
  for_each (check_redundant body)
    [("exit_spot_quantity_decimal", "spot_quantity"); ("exit_futures_quantity_decimal", "perp_quantity")].

Definition build_command_envelope (payload : dict pyval) (producer_id sequence ttl_ms created_at_ms : pyval) (now : Z)
  : result (dict pyval) :=
  if is_config_sync payload then build_config_sync_envelope payload producer_id sequence ttl_ms created_at_ms now
  else
    let! _ := check_fields payload _RISK_PAYLOAD_FIELDS "risk-command" in
    let! body := canonical_command_body payload in
    let intent := text_of (get body "intent") in
    let! _ := refuse (negb (str_in intent RISK_CHANGING_INTENTS)) (str_or intent "<missing>" +:+ " is not a risk-changing intent") in
    let! _ := refuse (negb (truthy (get body "intent_id"))) "risk-changing commands require intent_id" in
    let! '(producer, sequence, ttl) := check_transport producer_id sequence ttl_ms in
    let! _ := refuse (negb (truthy (get body "symbol"))) "symbol is required" in
    let! _ := check_route body intent in
    let! _ := check_scales body in
    let! _ := if startswith "ENTER_" intent then check_enter body else check_exit body in
    let! _ := check_context body ["account_id"; "environment"; "strategy_id"; "cycle_id"; "config_version_hash"] in
    let! created := creation_time created_at_ms now in
    seal body producer sequence created ttl.

(** ** Acknowledgements *)

(** A [ConfigAck]: the declared and the applied hash against its status. *)
Definition check_config_ack (event : dict pyval) (status : string) : result unit :=
  let! declared_hash := _string (get event "declared_config_hash") "declared_config_hash" "" in
  let! applied_hash := _string (get event "applied_config_hash") "applied_config_hash" "" in
  let! config_status := _string (get event "config_status") "config_status" "" in
  let! _ := refuse (negb (is_sha256 declared_hash)) "ConfigAck has an invalid declared_config_hash" in
  let! version := _string (get event "config_version_hash") "config_version_hash" "" in
  let! _ := refuse (negb (String.eqb declared_hash version)) "ConfigAck declared hash conflicts with command context" in
  let state := upper config_status in
  if String.eqb state "APPLIED" then
    refuse (negb (String.eqb status "TERMINAL") || negb (String.eqb applied_hash declared_hash))
      "applied ConfigAck has inconsistent status or hash"
  else if String.eqb state "VOLATILE_LATCHED" then
    let! _ := refuse (negb (str_in status ["VALIDATED"; "TERMINAL"]) || negb (String.eqb applied_hash declared_hash))
                "volatile-latched ConfigAck has inconsistent status or hash" in
    refuse (negb (nonempty (strip (py_str (py_or (get event "reason") (VStr ""))))))
      "volatile-latched ConfigAck must explain its durability failure"
  else if String.eqb state "REJECTED" then
    let! _ := refuse (negb (String.eqb status "REJECTED")) "rejected ConfigAck must use REJECTED ACK state" in
    refuse (nonempty applied_hash && negb (is_sha256 applied_hash)) "ConfigAck has an invalid applied_config_hash"
  else protocol_error ("unsupported config ACK state " +:+ repr_str state).

Definition validate_ack (event : dict pyval) : result (string * string) :=
  let! _ := check_fields event _ACK_FIELDS "ACK" in
  let! _ := match get event "schema_version" with
            | VInt z => refuse (negb (z =? EXECUTION_PROTOCOL_VERSION)) "unsupported ACK schema_version"
            | _ => protocol_error "unsupported ACK schema_version"
            end in
  let! intent_id := _string (get event "intent_id") "ACK intent_id" "" in
  let! _ := refuse (negb (nonempty (strip intent_id))) "ACK is missing intent_id" in
  let! ack_status := _string (get event "ack_status") "ACK ack_status" "" in
  let status := upper ack_status in
  let! _ := refuse (negb (str_in status ACK_STATES)) ("unsupported ACK state " +:+ repr_str status) in
  let! ack_hash := _string (get event "command_hash") "ACK command_hash" "" in
  let! _ := refuse (negb (is_sha256 ack_hash)) "ACK has an invalid command_hash" in
  let! event_name := _string (get event "event") "ACK event" "" in
  let! _ := if String.eqb event_name "ConfigAck" then check_config_ack event status else Ok tt in
  Ok (strip intent_id, status).

(** ** Terminal summaries *)

Definition check_text (event : dict pyval) (field : string) : result unit :=
  match get event field with
  | VStr s => refuse (negb (nonempty (strip s))) ("terminal " +:+ field +:+ " is required")
  | _ => protocol_error ("terminal " +:+ field +:+ " is required")
  end.

Definition check_decimal (optional : bool) (event : dict pyval) (field : string) : result unit :=
  let! _ := canonical_decimal_string (get event field) field optional in Ok tt.

Definition exact_required : list string :=
  [ "requested_quantity_decimal"; "actual_spot_inventory_decimal"; "actual_futures_inventory_decimal";
    "exit_spot_quantity_decimal"; "exit_futures_quantity_decimal"; "spot_cumulative_filled_quantity_decimal";
    "futures_cumulative_filled_quantity_decimal" ].

Definition exact_optional : list string :=
  [ "normalized_common_entry_quantity_decimal"; "spot_vwap_decimal"; "futures_vwap_decimal";
    "risk_adjusted_requested_quantity_decimal"; "spot_target_quantity_decimal"; "futures_target_quantity_decimal";
    "filled_qty_decimal" ].

(** A decimal and its float, when both are there. *)
Definition check_pair (event : dict pyval) (names : string * string) : result unit :=
  let '(decimal_field, float_field) := names in
  match get event decimal_field, get event float_field with
  | VNone, _ | _, VNone => Ok tt
  | d, f => let! _ := _redundant_float_matches (text_of d) f float_field in Ok tt
  end.

(** [set(row) == set(names)] *)
Definition same_keys (row : dict pyval) (names : list string) : bool :=
  forallb (fun k => str_in k names) (dict_keys row) && forallb (fun k => str_in k (dict_keys row)) names.

Definition is_text (v : pyval) : bool := match v with VStr s => nonempty s | _ => false end.

Fixpoint check_generations (field : string) (seen : list string) (rows : list pyval) : result unit :=
  match rows with
  | [] => Ok tt
  | row :: rows' =>
      let! fields := match row with
                     | VDict d => if same_keys d ["client_order_id"; "status"] then Ok d
                                  else protocol_error (field +:+ " rows must contain only client_order_id and status")
                     | _ => protocol_error (field +:+ " rows must contain only client_order_id and status")
                     end in
      let client_id := text_of (get fields "client_order_id") in
      let! _ := refuse (negb (is_text (get fields "client_order_id")) || str_in client_id seen || negb (is_text (get fields "status")))
                  (field +:+ " has invalid generation lineage") in
      check_generations field (client_id :: seen) rows'
  end.

Definition check_lineage (event : dict pyval) (field : string) : result unit :=
  match get event field with
  | VList rows => check_generations field [] rows
  | _ => protocol_error (field +:+ " must be a list")
  end.

Definition check_final (event : dict pyval) (field : string) : result unit :=
  refuse (negb (is_text (get event field))) (field +:+ " is required").

Definition check_commission (row : pyval) : result unit :=
  let! fields := match row with
                 | VDict d => if same_keys d ["identity"; "asset"; "amount"] then Ok d
                              else protocol_error "commission rows have an unknown semantic field"
                 | _ => protocol_error "commission rows have an unknown semantic field"
                 end in
  let! _ := refuse (negb (is_text (get fields "identity"))) "commission identity is required" in
  let! _ := refuse (negb (is_text (get fields "asset"))) "commission asset is required" in
  let! _ := canonical_decimal_string (get fields "amount") "commission amount" false in Ok tt.

(** The asset lists are texts, and the unvalued ones are among the assets. *)
Definition asset_lists (assets unvalued : pyval) : bool :=
  match assets, unvalued with
  | VList l, VList u => forallb is_text l && forallb is_text u && forallb (fun a => str_in (text_of a) (map text_of l)) u
  | _, _ => false
  end.

Definition check_commissions (event : dict pyval) : result unit :=
  let! rows := match get event "commissions" with VList rows => Ok rows | _ => protocol_error "commissions must be a list" end in
  let! _ := for_each check_commission rows in
  let! _ := refuse (negb (asset_lists (get event "commission_assets") (get event "unvalued_commission_assets")))
              "terminal commission asset semantics are invalid" in
  let status := get event "commission_status" in
  if negb (hashable status) then raise TypeError "unhashable type"
  else refuse (negb (is_text status && str_in (text_of status) ["VALUED_OR_ZERO"; "UNKNOWN"])) "terminal commission_status is invalid".

Definition check_positive_integer (event : dict pyval) (field : string) : result unit :=
  match get event field with
  | VInt z => refuse (z <=? 0) ("terminal " +:+ field +:+ " must be a positive integer")
  | _ => protocol_error ("terminal " +:+ field +:+ " must be a positive integer")
  end.

Definition check_sequences (event : dict pyval) : result unit :=
  let! _ := for_each (check_positive_integer event)
              [ "exchange_event_time_ms"; "receive_time_ms"; "persist_time_ms"; "terminal_sequence"; "terminal_watermark";
                "telemetry_sequence"; "telemetry_schema_version" ] in
  let! sequence := py_int (get event "telemetry_sequence") in
  let! terminal_sequence := py_int (get event "terminal_sequence") in
  let! watermark := py_int (get event "terminal_watermark") in
  refuse (negb (terminal_sequence =? sequence) || negb (watermark =? sequence)
          || negb (match get event "telemetry_ack_required" with VBool b => b | _ => false end)
          || negb (match get event "telemetry_replay" with VBool _ => true | _ => false end))
    "terminal sequence/watermark metadata is inconsistent".

(** A leg has a volume-weighted price exactly when it has fills. *)
Definition check_vwap (event : dict pyval) (filled : dec) (field message : string) : result unit :=
  refuse (negb (Bool.eqb (dgt filled d0) (present (get event field)))) message.

Definition check_header (event : dict pyval) : result unit :=
  let! _ := check_fields event _TERMINAL_FIELDS "terminal exposure" in
  let! _ := match sort_strings (List.filter (fun k => negb (dict_has event k)) _TERMINAL_REQUIRED_FIELDS) with
            | [] => Ok tt
            | missing => protocol_error ("terminal exposure summary is missing field(s): " +:+ str_join ", " missing)
            end in
  let! _ := refuse (negb (py_eq (get event "event") (VStr "OrderUpdate"))) "terminal exposure summary must be OrderUpdate" in
  let! _ := refuse (negb (py_eq (get event "terminal_summary_version") (VInt TERMINAL_SUMMARY_VERSION)))
              "unsupported terminal_summary_version" in
  let! _ := refuse (negb (py_eq (get event "schema_version") (VInt EXECUTION_PROTOCOL_VERSION))) "unsupported terminal schema_version" in
  let! _ := match get event "symbol" with
            | VStr s => refuse (negb (nonempty s && String.eqb s (upper s))) "terminal symbol must be non-empty uppercase"
            | _ => protocol_error "terminal symbol must be non-empty uppercase"
            end in
  for_each (check_text event) ["status"; "execution_type"; "client_order_id"].

Definition check_quantities (event : dict pyval) : result unit :=
  let! _ := for_each (check_decimal false event) exact_required in
  let! _ := for_each (check_decimal true event) exact_optional in
  let! _ := for_each (check_pair event)
              [ ("filled_qty_decimal", "filled_qty"); ("spot_vwap_decimal", "spot_fill_price");
                ("futures_vwap_decimal", "perp_fill_price") ] in
  let! spot_filled := decimal_value (get event "spot_cumulative_filled_quantity_decimal") in
  let! futures_filled := decimal_value (get event "futures_cumulative_filled_quantity_decimal") in
  let! _ := check_vwap event spot_filled "spot_vwap_decimal" "spot VWAP presence conflicts with cumulative fills" in
  check_vwap event futures_filled "futures_vwap_decimal" "futures VWAP presence conflicts with cumulative fills".

Definition validate_terminal_order_event (event : dict pyval) : result unit :=
  match get event "terminal_summary_version" with
  | VNone => Ok tt
  | _ =>
      let! _ := check_header event in
      let! _ := check_quantities event in
      let! _ := for_each (check_lineage event) ["spot_generations"; "futures_generations"] in
      let! _ := for_each (check_final event) ["spot_final_status"; "futures_final_status"] in
      let! _ := check_commissions event in
      check_sequences event
  end.
