(* ===== verification/IpcProtocolFacts.v ===== *)
(** * Facts on the execution protocol

    The hashed bytes determine the command, the hash of an envelope is the hash of its
    payload, and an accepted command satisfies the rules of its intent. *)
From Stdlib Require Import ZArith QArith Lia Ascii SpecFloat.
From stdpp Require Import base list strings.
From S2P Require Import Prelude PyDecimal PyDecimalFacts PyFloat PyFormat PyFloatOrder PyTime PyValue PyCalendarFacts PyJson PyJsonFacts ConfigManager IpcProtocol.
Open Scope Z_scope.

(** ** Encodings that end before a line feed *)

(** Equal texts that start with encoded values followed by a line feed start with
    values that are the same, and go on alike. *)
Class Delimited {A} (same : A -> A -> Prop) (enc : A -> string) : Prop :=
  delimited : forall a b s t, enc a +:+ newline +:+ s = enc b +:+ newline +:+ t -> same a b /\ s = t.

(** An encoding that starts with its own letter. *)
Class Tagged {A} (tag : ascii) (enc : A -> string) : Prop := tagged : forall a, exists s, enc a = String tag s.

Lemma chars_inj s t : chars s = chars t -> s = t.
Proof. intros H. rewrite <- (String.string_of_list_ascii_of_string s), <- (String.string_of_list_ascii_of_string t). unfold chars in H. by rewrite H. Qed.

Lemma str_app_assoc a b c : (a +:+ b) +:+ c = a +:+ b +:+ c.
Proof. induction a as [|x a IH]; [done|]. exact (f_equal (String x) IH). Qed.

Lemma str_app_inj_l a b s t : String.length a = String.length b -> a +:+ s = b +:+ t -> a = b /\ s = t.
Proof.
  revert b. induction a as [|x a IH]; intros [|y b]; simpl; try discriminate; [done|].
  intros [= Hl] [= -> H]. destruct (IH _ Hl H). naive_solver.
Qed.

Lemma str_app_inv_head a s t : a +:+ s = a +:+ t -> s = t.
Proof. intros H. by apply str_app_inj_l in H as [_ ?]. Qed.

(** A decimal integer followed by something else than a digit. *)
Lemma int_str_delimited a b s t : starts_nondigit (chars s) -> starts_nondigit (chars t) ->
  int_str a +:+ s = int_str b +:+ t -> a = b /\ s = t.
Proof.
  intros Hs Ht H. apply (f_equal chars) in H. rewrite !chars_app in H. pose proof (scan_minus_int a (chars s)) as Ea.
  rewrite H, scan_minus_int in Ea. injection Ea as Esign E. apply (f_equal span_digits) in E. unfold digit_chars in E.
  rewrite !span_digits_app in E by (apply digits_small || done). injection E as Ed Er.
  split; [|symmetry; by apply chars_inj]. apply (f_equal of_digits) in Ed. rewrite !of_digits_digits in Ed.
  by rewrite <- (signed_abs a), <- (signed_abs b), Esign, Ed.
Qed.

Lemma starts_newline s : starts_nondigit (chars (newline +:+ s)).
Proof. done. Qed.
Lemma starts_colon s : starts_nondigit (chars (":" +:+ s)).
Proof. done. Qed.

#[export] Instance int_delimited : Delimited eq (fun z => "i" +:+ int_str z).
Proof.
  intros a b s t. rewrite !str_app_assoc. intros H%(str_app_inv_head "i").
  destruct (int_str_delimited _ _ _ _ (starts_newline _) (starts_newline _) H) as [-> E]. split; [done|]. by apply str_app_inv_head in E.
Qed.

#[export] Instance string_delimited : Delimited eq canonical_string.
Proof.
  intros a b s t. unfold canonical_string. rewrite !str_app_assoc. intros H%(str_app_inv_head "s").
  destruct (int_str_delimited _ _ _ _ (starts_colon _) (starts_colon _) H) as [El%Nat2Z.inj E]. apply str_app_inv_head in E.
  destruct (str_app_inj_l _ _ _ _ El E) as [-> Ht]. split; [done|]. by apply str_app_inv_head in Ht.
Qed.

(** The 64 bits of a float, as [struct.pack(">d", x)] writes them. *)
Definition bits64 (x : float) : Z := float_bits x mod 2 ^ 64.

Lemma hex_digits_length n z : String.length (hex_digits n z) = n.
Proof. revert z. induction n as [|n IH]; intros z; simpl; [done|]. rewrite str_length_app, IH. simpl. lia. Qed.

Lemma hex_char_inj a b : (a < 16)%N -> (b < 16)%N -> hex_char a = hex_char b -> a = b.
Proof.
  intros Ha Hb H.
  assert (forall n, (n < 16)%N -> In n [0;1;2;3;4;5;6;7;8;9;10;11;12;13;14;15]%N) as Hin by (intros n Hn; simpl; lia).
  apply Hin in Ha, Hb. simpl in Ha, Hb. repeat (destruct Ha as [<-|Ha]; [repeat (destruct Hb as [<-|Hb]; [first [reflexivity|discriminate H]|]); destruct Hb|]). destruct Ha.
Qed.

Lemma hex_digits_inj n : forall a b, hex_digits n a = hex_digits n b -> a mod 16 ^ Z.of_nat n = b mod 16 ^ Z.of_nat n.
Proof.
  induction n as [|n IH]; intros a b H; [by rewrite !Z.mod_1_r|]. cbn [hex_digits] in H.
  apply str_app_inj_l in H as [H Hc]; [|by rewrite !hex_digits_length]. apply IH in H.
  injection Hc as Hc. pose proof (Z.mod_pos_bound a 16 ltac:(lia)). pose proof (Z.mod_pos_bound b 16 ltac:(lia)).
  apply hex_char_inj in Hc; [|lia..]. rewrite Nat2Z.inj_succ, Z.pow_succ_r by lia.
  assert (0 < 16 ^ Z.of_nat n) by (apply Z.pow_pos_nonneg; lia).
  rewrite !Z.rem_mul_r by lia. lia.
Qed.

#[export] Instance float_delimited : Delimited (fun x y => bits64 x = bits64 y) canonical_float.
Proof.
  intros x y s t. unfold canonical_float. rewrite !str_app_assoc. intros H%(str_app_inv_head "f").
  apply str_app_inj_l in H as [H E]; [|by rewrite !hex_digits_length]. split; [by apply (hex_digits_inj 16)|by apply str_app_inv_head in E].
Qed.

#[export] Instance bool_delimited : Delimited eq (fun b : bool => if b then "b1" else "b0").
Proof. intros [] [] s t H; try discriminate H; (split; [done|]); by injection H. Qed.

#[export] Instance string_tagged : Tagged "s" canonical_string.
Proof. intros s. by eexists. Qed.
#[export] Instance float_tagged : Tagged "f" canonical_float.
Proof. intros s. by eexists. Qed.

(** [n] for nothing, which no tagged encoding starts with. *)
Definition optional {A} (enc : A -> string) (o : option A) : string := match o with Some a => enc a | None => "n" end.

#[export] Instance optional_delimited {A} same (enc : A -> string) c `{!Delimited same enc} `{!Tagged c enc} :
  TCEq (Ascii.eqb c "n") false -> Delimited (option_relation same (fun _ => False) (fun _ => False)) (optional enc).
Proof.
  rewrite TCEq_eq. intros Hc [a|] [b|] s t; cbn [optional]; intros H.
  - by apply delimited in H.
  - destruct (tagged (enc := enc) a) as [x Ex]. rewrite Ex in H. injection H as -> _. done.
  - destruct (tagged (enc := enc) b) as [x Ex]. rewrite Ex in H. injection H as <- _. done.
  - split; [done|]. by injection H.
Qed.

(** ** The bytes determine the body *)

(** The value of a field of each kind, as the bodies hold it. *)
Inductive typed : string -> pyval -> Prop :=
  | typed_string s : typed "string" (VStr s)
  | typed_no_string : typed "optional_string" VNone
  | typed_some_string s : typed "optional_string" (VStr s)
  | typed_int z : typed "int" (VInt z)
  | typed_float r : typed "float" (VFloat r)
  | typed_no_float : typed "optional_float" VNone
  | typed_some_float r : typed "optional_float" (VFloat r)
  | typed_bool b : typed "bool" (VBool b).

(** Equality of fields: floats count by their bits. *)
Definition same_field (v w : pyval) : Prop :=
  match v, w with VFloat r, VFloat q => bits64 (flit r) = bits64 (flit q) | _, _ => v = w end.

Lemma flit_Ok r x : float_of_str r = Ok x -> flit r = x.
Proof. unfold flit. by intros ->. Qed.

Lemma optional_string_delimited : Delimited (option_relation eq (fun _ => False) (fun _ => False)) (optional canonical_string).
Proof. exact (optional_delimited eq canonical_string "s" _). Qed.

Lemma optional_float_delimited :
  Delimited (option_relation (fun x y => bits64 x = bits64 y) (fun _ => False) (fun _ => False)) (optional canonical_float).
Proof. exact (optional_delimited _ canonical_float "f" _). Qed.

Lemma scalar_delimited kind v w ev ew s t : typed kind v -> typed kind w ->
  _canonical_scalar kind v = Ok ev -> _canonical_scalar kind w = Ok ew ->
  ev +:+ newline +:+ s = ew +:+ newline +:+ t -> same_field v w /\ s = t.
Proof.
  intros Hv Hw. unfold _canonical_scalar.
  destruct Hv; inversion Hw; subst; clear Hw; cbn [String.eqb Ascii.eqb Bool.eqb py_str py_int py_float truthy res_bind];
    intros Ev Ew; res_inv Ev; res_inv Ew; intros Heq; unfold same_field;
    repeat match goal with H : float_of_str _ = Ok _ |- _ => rewrite (flit_Ok _ _ H); clear H end.
  - apply (delimited (enc := canonical_string)) in Heq. naive_solver.
  - done || (apply (optional_string_delimited None None) in Heq; naive_solver).
  - apply (optional_string_delimited None (Some _)) in Heq. naive_solver.
  - apply (optional_string_delimited (Some _) None) in Heq. naive_solver.
  - apply (optional_string_delimited (Some _) (Some _)) in Heq. naive_solver.
  - apply (delimited (enc := fun z => "i" +:+ int_str z)) in Heq. naive_solver.
  - apply (delimited (enc := canonical_float)) in Heq. naive_solver.
  - apply (optional_float_delimited None None) in Heq. naive_solver.
  - apply (optional_float_delimited None (Some _)) in Heq. naive_solver.
  - apply (optional_float_delimited (Some _) None) in Heq. naive_solver.
  - apply (optional_float_delimited (Some _) (Some _)) in Heq. naive_solver.
  - apply (delimited (enc := fun b : bool => if b then "b1" else "b0")) in Heq. naive_solver.
Qed.

(** A body holds the fields in order, each of its kind. *)
Definition body_of (fields : list (string * string)) (body : dict pyval) : Prop :=
  Forall2 (fun f kv => fst kv = fst f /\ typed (snd f) (snd kv)) fields body.

Lemma body_keys fields body : body_of fields body -> dict_keys body = map fst fields.
Proof. induction 1 as [|f kv fs d [E _] _ IH]; [done|]. unfold dict_keys in *. simpl. by rewrite E, IH. Qed.

Lemma canonical_lines_inj fields a b : forall l m s t,
  (forall k kind, (k, kind) ∈ fields -> typed kind (get a k) /\ typed kind (get b k)) ->
  canonical_lines fields a = Ok l -> canonical_lines fields b = Ok m -> l +:+ s = m +:+ t ->
  forall k kind, (k, kind) ∈ fields -> same_field (get a k) (get b k).
Proof.
  induction fields as [|[f kf] fs IH]; intros l m s t Ht Hl Hm Heq k kind Hin; [by apply elem_of_nil in Hin|].
  cbn [canonical_lines] in Hl, Hm. apply res_bind_Ok in Hl as (x & Ex & (l' & El & [= <-])%res_bind_Ok).
  apply res_bind_Ok in Hm as (y & Ey & (m' & Em & [= <-])%res_bind_Ok). rewrite !str_app_assoc in Heq.
  apply str_app_inv_head, (str_app_inv_head "=") in Heq.
  destruct (Ht f kf) as [Hta Htb]; [by left|]. destruct (scalar_delimited _ _ _ _ _ _ _ Hta Htb Ex Ey Heq) as [Hs Heq'].
  apply elem_of_cons in Hin as [[= -> ->]|Hin]; [done|]. refine (IH _ _ s t _ El Em Heq' _ _ Hin).
  intros k' kind' Hin'. apply Ht. by right.
Qed.

Lemma body_get fields body k kind : NoDup (map fst fields) -> body_of fields body -> (k, kind) ∈ fields -> typed kind (get body k).
Proof.
  intros Hnd Hb (i & Hi)%list_elem_of_lookup_1. pose proof (body_keys _ _ Hb) as Hk.
  destruct (Forall2_lookup_l _ _ _ _ _ Hb Hi) as ([k' v] & Hv & Ek & Hty). simpl in Ek, Hty. subst k'.
  unfold get, get_or. rewrite (dict_get_In body k v); [done|by rewrite Hk|]. by eapply list_elem_of_lookup_2.
Qed.

Ltac bind H := apply res_bind_Ok in H; let x := fresh "r" in let E := fresh "B" in destruct H as (x & E & H).

Lemma config_sync_body_of payload body : canonical_config_sync_body payload = Ok body -> body_of _CONFIG_SYNC_CANONICAL_FIELD_TYPES body.
Proof. unfold canonical_config_sync_body. intros H. do 13 bind H. apply Ok_inj in H. subst. repeat constructor. Qed.

Lemma refuse_Ok cond msg u : refuse cond msg = Ok u -> cond = false.
Proof. by destruct cond. Qed.

Lemma decimal_string_typed v f opt w : canonical_decimal_string v f opt = Ok w ->
  w = v /\ (if opt then typed "optional_string" w else typed "string" w).
Proof.
  unfold canonical_decimal_string. intros H.
  destruct v, opt; try discriminate H; try (apply Ok_inj in H; subst; by repeat constructor);
    destruct (_CANONICAL_DECIMAL_RE _); try discriminate H; cbn [negb] in H; bind H; destruct r as [d| |]; try discriminate H;
    do 3 bind H; apply Ok_inj in H; subst; by repeat constructor.
Qed.

Lemma direction_typed p d : direction_of p = Ok d -> typed "optional_string" d.
Proof.
  unfold direction_of. destruct (get p "direction"); intros H; try bind H; apply Ok_inj in H; subst; constructor.
Qed.

Lemma optional_float_typed v f w : _optional_float v f = Ok w -> typed "optional_float" w.
Proof. unfold _optional_float. destruct v; intros H; try bind H; apply Ok_inj in H; subst; constructor. Qed.

Lemma command_body_of payload body : canonical_command_body payload = Ok body -> body_of _CANONICAL_FIELD_TYPES body.
Proof.
  unfold canonical_command_body. intros H. do 33 bind H. apply Ok_inj in H. subst.
  repeat match goal with
  | B : canonical_decimal_string _ _ _ = Ok _ |- _ => apply decimal_string_typed in B as [_ B]
  | B : direction_of _ = Ok _ |- _ => apply direction_typed in B
  | B : _optional_float _ _ = Ok _ |- _ => apply optional_float_typed in B
  end.

  repeat (constructor; [split; [reflexivity|first [assumption|constructor]]|]). constructor.
Qed.

(** Two bodies with the same fields. *)
Definition same_body (a b : dict pyval) : Prop := dict_keys a = dict_keys b /\ forall k, same_field (get a k) (get b k).

Lemma same_field_refl v : same_field v v.
Proof. by destruct v. Qed.

Lemma get_absent (d : dict pyval) k : k ∉ dict_keys d -> get d k = VNone.
Proof. intros H%dict_get_None. unfold get, get_or. by rewrite H. Qed.

Lemma lines_same_body fields a b l : NoDup (map fst fields) -> body_of fields a -> body_of fields b ->
  canonical_lines fields a = Ok l -> canonical_lines fields b = Ok l -> same_body a b.
Proof.
  intros Hnd Ha Hb La Lb. pose proof (body_keys _ _ Ha) as Ka. pose proof (body_keys _ _ Hb) as Kb. split; [by rewrite Ka, Kb|].
  intros k. destruct (decide (k ∈ map fst fields)) as [Hin|Hout].
  - apply list_elem_of_fmap in Hin as ([k' kind] & -> & Hin). refine (canonical_lines_inj fields a b l l "" "" _ La Lb eq_refl _ kind Hin).
    intros k kd Hk. split; by eapply body_get.
  - rewrite !get_absent; [apply same_field_refl|by rewrite Kb|by rewrite Ka].
Qed.

Lemma command_fields_NoDup : NoDup (map fst _CANONICAL_FIELD_TYPES).
Proof. apply (bool_decide_unpack _). vm_compute. exact I. Qed.

Lemma config_sync_fields_NoDup : NoDup (map fst _CONFIG_SYNC_CANONICAL_FIELD_TYPES).
Proof. apply (bool_decide_unpack _). vm_compute. exact I. Qed.

Lemma magics_differ s t : _CANONICAL_MAGIC +:+ s <> _CONFIG_SYNC_CANONICAL_MAGIC +:+ t.
Proof. discriminate. Qed.

Lemma command_bytes_inv p s : canonical_command_bytes p = Ok s ->
  exists body l, if is_config_sync p
    then canonical_config_sync_body p = Ok body /\ canonical_lines _CONFIG_SYNC_CANONICAL_FIELD_TYPES body = Ok l /\ s = _CONFIG_SYNC_CANONICAL_MAGIC +:+ l
    else canonical_command_body p = Ok body /\ canonical_lines _CANONICAL_FIELD_TYPES body = Ok l /\ s = _CANONICAL_MAGIC +:+ l.
Proof.
  unfold canonical_command_bytes, canonical_config_sync_command_bytes.
  destruct (is_config_sync p); intros (body & Hb & (l & Hl & [= <-])%res_bind_Ok)%res_bind_Ok; by exists body, l.
Qed.

(** C15: two payloads with one canonical text are both synchronizations or both commands,
    and every field of their bodies is the same, floats bit by bit: the bytes under the
    hash cannot be read as two commands. *)
Theorem command_bytes_unambiguous p q s : canonical_command_bytes p = Ok s -> canonical_command_bytes q = Ok s ->
  is_config_sync p = is_config_sync q /\
  exists a b, same_body a b /\
    if is_config_sync p then canonical_config_sync_body p = Ok a /\ canonical_config_sync_body q = Ok b
    else canonical_command_body p = Ok a /\ canonical_command_body q = Ok b.
Proof.
  intros (a & l & Ha)%command_bytes_inv (b & m & Hb)%command_bytes_inv.
  destruct (is_config_sync p), (is_config_sync q); destruct Ha as (Ea & La & Hs), Hb as (Eb & Lb & ->).
  - apply str_app_inv_head in Hs as ->. split; [done|]. exists a, b. split; [|done].
    eapply lines_same_body; eauto using config_sync_fields_NoDup, config_sync_body_of.
  - by apply magics_differ in Hs.
  - symmetry in Hs. by apply magics_differ in Hs.
  - apply str_app_inv_head in Hs as ->. split; [done|]. exists a, b. split; [|done].
    eapply lines_same_body; eauto using command_fields_NoDup, command_body_of.
Qed.

(** ** Normalization keeps a normalized body *)

Lemma stripped_strip p k d s : stripped p k d = Ok s -> (get p k = VNone -> strip d = s) /\ strip s = s.
Proof.
  unfold stripped. intros H. bind H. apply Ok_inj in H as <-. split; [|apply strip_idem].
  intros E. rewrite E in B. by apply Ok_inj in B as ->.
Qed.

Lemma stripped_again e k d s : get e k = VStr s -> strip s = s -> stripped e k d = Ok s.
Proof. intros E Hs. unfold stripped. rewrite E. simpl. by rewrite Hs. Qed.

Lemma stripped_upper e k d s : get e k = VStr (upper s) -> strip s = s -> stripped e k d = Ok (upper s).
Proof. intros E Hs. apply stripped_again; [done|]. by rewrite strip_upper, Hs. Qed.
Lemma stripped_lower e k d s : get e k = VStr (lower s) -> strip s = s -> stripped e k d = Ok (lower s).
Proof. intros E Hs. apply stripped_again; [done|]. by rewrite strip_lower, Hs. Qed.

Lemma float_finite v f r : _float v f = Ok r -> finite_repr r = true.
Proof. unfold _float. intros H. bind H. destruct (finite_repr r0) eqn:E; [|discriminate H]. by apply Ok_inj in H as <-. Qed.

Lemma float_of_float v f r g : _float v f = Ok r -> _float (VFloat r) g = Ok r.
Proof. intros H%float_finite. unfold _float. simpl. by rewrite H. Qed.

Lemma optional_float_again v f w : _optional_float v f = Ok w -> _optional_float w f = Ok w.
Proof.
  unfold _optional_float. destruct v; intros H; try (bind H; apply Ok_inj in H; subst; simpl; by rewrite (float_of_float _ _ _ f B)).
  by apply Ok_inj in H as <-.
Qed.

Lemma redundant_again text v f r : _redundant_float_matches text v f = Ok r -> _redundant_float_matches text (VFloat r) f = Ok r.
Proof.
  unfold _redundant_float_matches. intros H. bind H. rename r0 into x. bind H. bind H. bind H. apply Ok_inj in H as <-.
  rewrite (float_of_float _ _ _ f B). simpl. rewrite B0. simpl. rewrite B1. simpl. by rewrite B2.
Qed.

Lemma direction_again p e d : direction_of p = Ok d -> get e "direction" = d -> direction_of e = Ok d.
Proof.
  unfold direction_of. intros H ->. destruct (get p "direction"); try (bind H; apply Ok_inj in H as <-; simpl);
    try (apply Ok_inj in H as <-; done); by rewrite strip_lower, strip_idem, lower_idem.
Qed.

Lemma decimal_again v f opt w : canonical_decimal_string v f opt = Ok w -> canonical_decimal_string w f opt = Ok w.
Proof. intros H. pose proof (decimal_string_typed _ _ _ _ H) as [-> _]. done. Qed.

(** A dictionary with the fields of a body, and no field an envelope cannot have, has that body. *)
Definition carries (e body : dict pyval) : Prop := Forall (fun kv => get e (fst kv) = snd kv) body.

Lemma get_or_present e k v d : get e k = v -> v <> VNone -> get_or e k d = v.
Proof. unfold get, get_or. destruct (dict_get e k); [done|]. by intros <-. Qed.

Lemma check_fields_nil e fields what : unknown_fields e fields = [] -> check_fields e fields what = Ok tt.
Proof. unfold check_fields. by intros ->. Qed.

Lemma float_or_again e k d v f r g : get e k = VFloat r -> _float v f = Ok r -> _float (get_or e k d) g = Ok r.
Proof. intros G H. rewrite (get_or_present _ _ _ _ G) by done. by eapply float_of_float. Qed.

(** One reader of a body on the value the dictionary carries. *)
Ltac read_again := first
  [ eapply stripped_again; eassumption
  | eapply stripped_upper; eassumption
  | eapply stripped_lower; eassumption
  | eapply direction_again; eassumption
  | eapply float_or_again; eassumption
  | match goal with G : get ?e ?k = _ |- context [get ?e ?k] => rewrite G end;
    first [ reflexivity | eapply decimal_again; eassumption | eapply redundant_again; eassumption
          | eapply float_of_float; eassumption | eapply optional_float_again; eassumption ] ].

Lemma body_again payload body e : canonical_command_body payload = Ok body -> unknown_fields e _RISK_ENVELOPE_FIELDS = [] ->
  carries e body -> canonical_command_body e = Ok body.
Proof.
  intros H Hu Hg. unfold canonical_command_body in H. do 33 bind H. apply Ok_inj in H. subst body.
  repeat match goal with B : stripped _ _ _ = Ok _ |- _ => apply stripped_strip in B as [_ B] end.
  unfold carries in Hg. repeat (apply Forall_cons in Hg; destruct Hg as [? Hg]; cbn [fst snd] in *).
  unfold canonical_command_body. rewrite (check_fields_nil _ _ _ Hu). cbn [res_bind].
  do 31 (apply res_bind_Ok; eexists; split; [read_again|]).
  apply res_bind_Ok. eexists. split; [eassumption|]. by rewrite !upper_idem, lower_idem.
Qed.

Lemma config_sync_body_again payload body e : canonical_config_sync_body payload = Ok body ->
  unknown_fields e _CONFIG_SYNC_ENVELOPE_FIELDS = [] -> carries e body -> canonical_config_sync_body e = Ok body.
Proof.
  intros H Hu Hg. unfold canonical_config_sync_body in H. do 13 bind H. apply Ok_inj in H. subst body.
  repeat match goal with B : stripped _ _ _ = Ok _ |- _ => apply stripped_strip in B as [_ B] end.
  unfold carries in Hg. repeat (apply Forall_cons in Hg; destruct Hg as [? Hg]; cbn [fst snd] in *).
  unfold canonical_config_sync_body. rewrite (check_fields_nil _ _ _ Hu). cbn [res_bind].
  do 9 (apply res_bind_Ok; eexists; split; [read_again|]).
  rewrite !upper_idem. do 3 (apply res_bind_Ok; eexists; split; [eassumption|]). done.
Qed.

(** ** The hash of an envelope *)

Lemma is_config_sync_stripped p i : stripped p "intent" "" = Ok i -> is_config_sync p = String.eqb (upper i) CONFIG_SYNC_INTENT.
Proof.
  unfold stripped, is_config_sync. intros H. bind H. apply Ok_inj in H as <-. destruct (get p "intent"); try discriminate B;
    apply Ok_inj in B as <-; [done|]. unfold py_or. simpl. by destruct s.
Qed.

Lemma is_config_sync_upper e i : get e "intent" = VStr (upper i) -> strip i = i -> is_config_sync e = String.eqb (upper i) CONFIG_SYNC_INTENT.
Proof. intros G Hi. rewrite (is_config_sync_stripped e (upper i)) by (by apply stripped_upper). by rewrite upper_idem. Qed.

Lemma command_sync_carried p body e : canonical_command_body p = Ok body -> get e "intent" = get body "intent" ->
  is_config_sync e = is_config_sync p.
Proof.
  unfold canonical_command_body. intros H G. do 33 bind H. apply Ok_inj in H. subst body. pose proof (stripped_strip _ _ _ _ B15) as [_ Hs].
  rewrite (is_config_sync_stripped _ _ B15). apply is_config_sync_upper; [exact G|done].
Qed.

Lemma config_sync_carried p body e : canonical_config_sync_body p = Ok body -> get e "intent" = get body "intent" ->
  is_config_sync e = is_config_sync p.
Proof.
  unfold canonical_config_sync_body. intros H G. do 13 bind H. apply Ok_inj in H. subst body. pose proof (stripped_strip _ _ _ _ B6) as [_ Hs].
  rewrite (is_config_sync_stripped _ _ B6). apply is_config_sync_upper; [exact G|done].
Qed.

Lemma unknown_fields_nil (d : dict pyval) fields : (forall k, k ∈ dict_keys d -> k ∈ fields) -> unknown_fields d fields = [].
Proof.
  intros H. destruct (unknown_fields d fields) as [|x l] eqn:E; [done|].
  assert (x ∈ unknown_fields d fields) as Hx by (rewrite E; by left). unfold unknown_fields, sort_strings in Hx.
  rewrite elem_of_sort_by, elem_of_filter_bool, negb_true_iff in Hx. destruct Hx as [Hx Hn].
  apply H, str_in_spec in Hx. by rewrite Hx in Hn.
Qed.

(** The envelope extends the body with fields outside it. *)
Definition extends_body (fields : list string) (body e : dict pyval) : Prop :=
  (forall k, k ∈ dict_keys e -> k ∈ fields) /\ forall k, k ∈ dict_keys body -> get e k = get body k.

Lemma extends_body_refl fields body : (forall k, k ∈ dict_keys body -> k ∈ fields) -> extends_body fields body body.
Proof. by split. Qed.

Lemma extends_body_set fields body e k v : extends_body fields body e -> k ∈ fields -> k ∉ dict_keys body -> extends_body fields body (dict_set e k v).
Proof.
  intros [Hf Hg] Hk Hn. split.
  - intros x [->|Hx]%dict_keys_set; [done|by apply Hf].
  - intros x Hx. unfold get, get_or. rewrite dict_get_set. destruct (String.eqb_spec x k) as [->|]; [done|]. by apply Hg.
Qed.

Lemma extends_carries fields body e : NoDup (dict_keys body) -> extends_body fields body e -> carries e body.
Proof.
  intros Hnd [_ Hg]. unfold carries. apply Forall_forall. intros [k v] Hin. simpl. rewrite Hg.
  - unfold get, get_or. by rewrite (dict_get_In body k v Hnd Hin).
  - apply list_elem_of_fmap. by exists (k, v).
Qed.

Lemma extends_command_hash p body e : canonical_command_body p = Ok body -> is_config_sync p = false ->
  extends_body _RISK_ENVELOPE_FIELDS body e -> command_hash e = command_hash p.
Proof.
  intros Hb Hp He. pose proof (command_body_of _ _ Hb) as Hbo. pose proof (body_keys _ _ Hbo) as Hk.
  unfold command_hash, canonical_command_bytes.
  rewrite (command_sync_carried _ _ e Hb) by (apply He; rewrite Hk; apply str_in_spec; reflexivity).
  rewrite Hp, Hb, (body_again _ _ e Hb); [done|..].
  - apply unknown_fields_nil, He.
  - eapply extends_carries; [rewrite Hk; apply command_fields_NoDup|exact He].
Qed.

Lemma extends_config_sync_hash p body e : canonical_config_sync_body p = Ok body -> is_config_sync p = true ->
  extends_body _CONFIG_SYNC_ENVELOPE_FIELDS body e -> command_hash e = command_hash p.
Proof.
  intros Hb Hp He. pose proof (config_sync_body_of _ _ Hb) as Hbo. pose proof (body_keys _ _ Hbo) as Hk.
  unfold command_hash, canonical_command_bytes, canonical_config_sync_command_bytes.
  rewrite (config_sync_carried _ _ e Hb) by (apply He; rewrite Hk; apply str_in_spec; reflexivity).
  rewrite Hp, Hb, (config_sync_body_again _ _ e Hb); [done|..].
  - apply unknown_fields_nil, He.
  - eapply extends_carries; [rewrite Hk; apply config_sync_fields_NoDup|exact He].
Qed.

(** The fields an envelope adds to its body. *)
Definition envelope_fields : list string := _TRANSPORT_FIELDS ++ ["command_hash"].

Lemma seal_extends fields body pid sequence created ttl env : (forall k, k ∈ dict_keys body -> k ∈ fields) ->
  (forall k, k ∈ envelope_fields -> k ∈ fields /\ k ∉ dict_keys body) ->
  seal body pid sequence created ttl = Ok env ->
  exists e0 h, extends_body fields body e0 /\ command_hash e0 = Ok h /\ env = dict_set e0 "command_hash" (VStr h) /\
    get env "producer_id" = VStr pid /\ get env "sequence" = VInt sequence /\ get env "created_at_ms" = VInt created /\
    get env "deadline_at_ms" = VInt (created + ttl).
Proof.
  intros Hb Hf H. unfold seal in H. bind H. apply Ok_inj in H as <-. eexists _, r. split; [|split; [exact B|split; [done|]]].
  - repeat (apply extends_body_set; [|apply Hf, str_in_spec; reflexivity|apply Hf, str_in_spec; reflexivity]). by apply extends_body_refl.
  - unfold get, get_or. by rewrite !dict_get_set.
Qed.

Lemma build_command_inv payload pid sequence ttl at_ms now env : is_config_sync payload = false ->
  build_command_envelope payload pid sequence ttl at_ms now = Ok env ->
  exists body producer seqno ttl_ms created, canonical_command_body payload = Ok body /\
    text_of (get body "intent") ∈ RISK_CHANGING_INTENTS /\ check_transport pid sequence ttl = Ok (producer, seqno, ttl_ms) /\
    check_route body (text_of (get body "intent")) = Ok tt /\ check_scales body = Ok tt /\
    (if startswith "ENTER_" (text_of (get body "intent")) then check_enter body else check_exit body) = Ok tt /\
    creation_time at_ms now = Ok created /\ seal body producer seqno created ttl_ms = Ok env.
Proof.
  unfold build_command_envelope. intros -> H. do 4 bind H. bind H. destruct r3 as [[producer seqno] ttl_ms]. do 6 bind H.
  exists r0, producer, seqno, ttl_ms, r8. repeat match goal with u : unit |- _ => destruct u end.
  repeat (split; [first [assumption|idtac]|]); try assumption. apply str_in_spec. apply refuse_Ok in B1. by apply negb_false_iff in B1.
Qed.

Lemma build_config_sync_inv payload pid sequence ttl at_ms now env :
  build_config_sync_envelope payload pid sequence ttl at_ms now = Ok env ->
  exists body producer seqno ttl_ms created, canonical_config_sync_body payload = Ok body /\
    check_transport pid sequence ttl = Ok (producer, seqno, ttl_ms) /\ creation_time at_ms now = Ok created /\
    seal body producer seqno created ttl_ms = Ok env.
Proof.
  unfold build_config_sync_envelope. intros H. do 5 bind H. destruct r3 as [[producer seqno] ttl_ms]. bind H. by exists r0, producer, seqno, ttl_ms, r3.
Qed.

(** The fields of a body are fields of an envelope, and no transport field is one of them. *)
Definition envelope_of (types : list (string * string)) (fields : list string) : bool :=
  forallb (fun k => str_in k fields) (map fst types) &&
  forallb (fun k => str_in k fields && negb (str_in k (map fst types))) envelope_fields.

Lemma envelope_of_spec types fields body : envelope_of types fields = true -> body_of types body ->
  (forall k, k ∈ dict_keys body -> k ∈ fields) /\ (forall k, k ∈ envelope_fields -> k ∈ fields /\ k ∉ dict_keys body).
Proof.
  unfold envelope_of. intros [Ha Hb]%andb_true_iff Hbody. rewrite forallb_forall in Ha, Hb. rewrite (body_keys _ _ Hbody). split.
  - intros k Hk%list_elem_of_In. by apply str_in_spec, Ha.
  - intros k [Hk Hn]%list_elem_of_In%Hb%andb_true_iff. split; [by apply str_in_spec|].
    intros Hin%str_in_spec. by rewrite Hin in Hn.
Qed.

Lemma command_envelope_of : envelope_of _CANONICAL_FIELD_TYPES _RISK_ENVELOPE_FIELDS = true.
Proof. vm_compute. reflexivity. Qed.
Lemma config_sync_envelope_of : envelope_of _CONFIG_SYNC_CANONICAL_FIELD_TYPES _CONFIG_SYNC_ENVELOPE_FIELDS = true.
Proof. vm_compute. reflexivity. Qed.

(** The hash an envelope carries, from what its builder did. *)
Lemma sealed_hash payload body types fields env pid sequence created ttl :
  envelope_of types fields = true -> body_of types body -> seal body pid sequence created ttl = Ok env ->
  (forall e, extends_body fields body e -> command_hash e = command_hash payload) ->
  exists h, command_hash payload = Ok h /\ get env "command_hash" = VStr h /\ command_hash env = Ok h /\
    forall k v, k ∈ envelope_fields -> command_hash (dict_set env k v) = Ok h.
Proof.
  intros He Hb Hs Hh. destruct (envelope_of_spec _ _ _ He Hb) as [Hin Hf].
  destruct (seal_extends _ _ _ _ _ _ _ Hin Hf Hs) as (e0 & h & Hx & Hhash & -> & _).
  assert (extends_body fields body (dict_set e0 "command_hash" (VStr h))) as Hx'.
  { apply extends_body_set; [done|apply Hf, str_in_spec; reflexivity..]. }
  rewrite (Hh _ Hx) in Hhash. exists h. split; [done|]. split; [unfold get, get_or; by rewrite dict_get_set|].
  split; [by rewrite (Hh _ Hx')|]. intros k v Hk. rewrite (Hh _); [done|]. by apply extends_body_set; [|apply Hf..].
Qed.

(** The hash in an envelope is the hash of the payload it was built from and of the
    envelope itself; no producer, sequence, time stamp or declared hash changes it. *)
Theorem envelope_hash_stable payload pid sequence ttl at_ms now env :
  build_command_envelope payload pid sequence ttl at_ms now = Ok env ->
  exists h, command_hash payload = Ok h /\ get env "command_hash" = VStr h /\ command_hash env = Ok h /\
    forall k v, k ∈ envelope_fields -> command_hash (dict_set env k v) = Ok h.
Proof.
  intros H. destruct (is_config_sync payload) eqn:Hp.
  - unfold build_command_envelope in H. rewrite Hp in H.
    destruct (build_config_sync_inv _ _ _ _ _ _ _ H) as (body & p & s & t & c & Hb & _ & _ & Hs).
    refine (sealed_hash payload body _ _ _ _ _ _ _ config_sync_envelope_of (config_sync_body_of _ _ Hb) Hs _).
    intros e. by apply extends_config_sync_hash.
  - destruct (build_command_inv _ _ _ _ _ _ _ Hp H) as (body & p & s & t & c & Hb & _ & _ & _ & _ & _ & _ & Hs).
    refine (sealed_hash payload body _ _ _ _ _ _ _ command_envelope_of (command_body_of _ _ Hb) Hs _).
    intros e. by apply extends_command_hash.
Qed.

(** ** What an envelope holds

    JSON texts keep every value of an envelope: it has no other values than texts,
    integers, booleans, [None] and finite floats. *)

Definition json_scalar (v : pyval) : Prop :=
  match v with
  | VNone | VBool _ | VInt _ | VStr _ => True
  | VFloat r => float_value v /\ finite_repr r = true
  | _ => False
  end.

Definition json_record (d : dict pyval) : Prop := NoDup (dict_keys d) /\ Forall (fun kv => json_scalar (snd kv)) d.

Lemma record_set d k v : json_record d -> json_scalar v -> json_record (dict_set d k v).
Proof.
  intros [Hn Hs] Hv. split; [by apply dict_set_NoDup|]. rewrite Forall_forall in *.
  intros [k' v'] [[-> ->]|H]%elem_of_dict_set; [done|by apply (Hs _ H)].
Qed.

Lemma float_values_get d k : float_values d -> float_value (get d k).
Proof.
  intros H. unfold get, get_or. destruct (dict_get d k) as [v|] eqn:E; [|done].
  apply dict_get_elem in E. unfold float_values in H. rewrite Forall_forall in H. exact (H _ E).
Qed.

Lemma float_values_set d k v : float_values d -> float_value v -> float_values (dict_set d k v).
Proof.
  unfold float_values. rewrite !Forall_forall. intros Hd Hv [k' v'] [[-> ->]|H]%elem_of_dict_set; [done|by apply (Hd _ H)].
Qed.

Lemma float_scalar v f r : float_value v -> _float v f = Ok r -> json_scalar (VFloat r).
Proof.
  unfold _float. intros Hv H. bind H. destruct (finite_repr r0) eqn:Hf; [|discriminate H]. apply Ok_inj in H as <-. split; [|done].
  destruct v; try discriminate B.
  - apply Ok_inj in B as <-. by exists fzero.
  - bind B. apply Ok_inj in B as <-. eexists. split; [by eapply float_of_Z_valid|done].
  - apply Ok_inj in B as <-. exact Hv.
Qed.

Lemma redundant_scalar text v f r : float_value v -> _redundant_float_matches text v f = Ok r -> json_scalar (VFloat r).
Proof. unfold _redundant_float_matches. intros Hv H. do 4 bind H. apply Ok_inj in H as <-. by eapply float_scalar. Qed.

Lemma optional_scalar v f w : float_value v -> _optional_float v f = Ok w -> json_scalar w.
Proof.
  intros Hv H. unfold _optional_float in H. destruct v; [by apply Ok_inj in H as <-|..]; bind H; apply Ok_inj in H as <-;
    by eapply float_scalar.
Qed.

Lemma typed_scalar kind v : typed kind v -> kind <> "float" -> kind <> "optional_float" -> json_scalar v.
Proof. by intros []. Qed.

Lemma default_budget : float_value DEFAULT_MAX_UNHEDGED_NOTIONAL_MS.
Proof. exists (flit "5000000.0"). split; vm_compute; reflexivity. Qed.

Lemma command_body_record payload body : float_values payload -> canonical_command_body payload = Ok body -> json_record body.
Proof.
  intros Hp H. pose proof (command_body_of _ _ H) as Hb. split; [rewrite (body_keys _ _ Hb); exact command_fields_NoDup|].
  assert (float_value (get_or payload "max_unhedged_notional_ms" DEFAULT_MAX_UNHEDGED_NOTIONAL_MS)) as Hu.
  { pose proof (float_values_get payload "max_unhedged_notional_ms" Hp) as Hg. unfold get, get_or in *.
    destruct (dict_get payload _); [done|apply default_budget]. }
  pose proof (fun k => float_values_get payload k Hp) as Hg. unfold canonical_command_body in H. do 33 bind H. apply Ok_inj in H. subst.
  repeat match goal with
  | B : canonical_decimal_string _ _ _ = Ok _ |- _ => apply decimal_string_typed in B as [_ B]; apply typed_scalar in B; [|done..]
  | B : direction_of _ = Ok _ |- _ => apply direction_typed, typed_scalar in B; [|done..]
  | B : _redundant_float_matches _ _ _ = Ok _ |- _ => apply redundant_scalar in B; [|done]
  | B : _optional_float _ _ = Ok _ |- _ => apply optional_scalar in B; [|done]
  | B : _float _ _ = Ok _ |- _ => apply float_scalar in B; [|done]
  end.
  repeat (constructor; [done|]). constructor.
Qed.

Lemma config_sync_body_record payload body : canonical_config_sync_body payload = Ok body -> json_record body.
Proof.
  intros H. split; [rewrite (body_keys _ _ (config_sync_body_of _ _ H)); exact config_sync_fields_NoDup|].
  unfold canonical_config_sync_body in H. do 13 bind H. apply Ok_inj in H. subst. repeat (constructor; [done|]). constructor.
Qed.

Lemma seal_record body producer sequence created ttl env : json_record body -> seal body producer sequence created ttl = Ok env -> json_record env.
Proof. unfold seal. intros Hb H. bind H. apply Ok_inj in H as <-. by repeat apply record_set. Qed.

Lemma envelope_record payload pid sequence ttl at_ms now env : float_values payload ->
  build_command_envelope payload pid sequence ttl at_ms now = Ok env -> json_record env.
Proof.
  intros Hp H. destruct (is_config_sync payload) eqn:E.
  - unfold build_command_envelope in H. rewrite E in H.
    destruct (build_config_sync_inv _ _ _ _ _ _ _ H) as (body & p & s & t & c & Hb & _ & _ & Hs).
    eapply seal_record; [by eapply config_sync_body_record|exact Hs].
  - destruct (build_command_inv _ _ _ _ _ _ _ E H) as (body & p & s & t & c & Hb & _ & _ & _ & _ & _ & _ & Hs).
    eapply seal_record; [by eapply command_body_record|exact Hs].
Qed.

(** ** What an accepted command says *)

Lemma seal_env types fields body pid sequence created ttl env :
  envelope_of types fields = true -> body_of types body -> seal body pid sequence created ttl = Ok env ->
  (forall k, k ∈ dict_keys body -> get env k = get body k) /\ get env "producer_id" = VStr pid /\ get env "sequence" = VInt sequence /\
  get env "created_at_ms" = VInt created /\ get env "deadline_at_ms" = VInt (created + ttl).
Proof.
  intros He Hb Hs. destruct (envelope_of_spec _ _ _ He Hb) as [Hin Hf].
  destruct (seal_extends _ _ _ _ _ _ _ Hin Hf Hs) as (e0 & h & Hx & _ & -> & Hfields). split; [|exact Hfields].
  apply (extends_body_set fields); [done|apply Hf, str_in_spec; reflexivity..].
Qed.

Lemma check_transport_Ok pid sequence ttl producer seqno ttl_ms : check_transport pid sequence ttl = Ok (producer, seqno, ttl_ms) ->
  (exists name, pid = VStr name /\ producer = strip name) /\ nonempty producer = true /\
  sequence = VInt seqno /\ 0 < seqno /\ ttl = VInt ttl_ms /\ 0 < ttl_ms <= MAX_COMMAND_TTL_MS.
Proof.
  unfold check_transport. intros H. do 6 bind H. apply Ok_inj in H. injection H as -> -> ->.
  apply refuse_Ok in B0, B2, B4. destruct pid as [| | | |name| | |]; try done. destruct sequence as [| |n| | | | |]; try done.
  destruct ttl as [| |t| | | | |]; try done. apply Ok_inj in B, B1, B3. subst. bool_props. repeat split; try done; try lia. by exists name.
Qed.

Lemma creation_time_Ok at_ms now created : creation_time at_ms now = Ok created ->
  0 < created /\ (at_ms = VNone /\ created = now \/ at_ms = VInt created).
Proof.
  unfold creation_time. intros H. do 2 bind H. apply Ok_inj in H as <-. apply refuse_Ok in B0. apply Z.leb_gt in B0. split; [done|].
  destruct at_ms; try done; apply Ok_inj in B as ->; [by left|by right].
Qed.

(** What a canonical decimal text promises: a value of at least zero, at most 28 places
    and 38 digits. *)
Lemma canonical_decimal_bounds v f opt w d : canonical_decimal_string v f opt = Ok w -> decimal_value w = Ok d ->
  (0 <= dval d)%Q /\ - MAX_EXACT_DECIMAL_SCALE <= dexp d /\ Z.of_N (dcoeff d) < 10 ^ 38.
Proof.
  intros H Hd. pose proof (decimal_string_typed _ _ _ _ H) as [-> Hty]. unfold decimal_value in Hd. bind Hd.
  assert (r = DFin d) as -> by (destruct r; try discriminate Hd; by apply Ok_inj in Hd as ->). clear Hd.
  assert (exists s, v = VStr s) as [s ->] by (destruct opt; inversion Hty; subst; try discriminate B; by eexists).
  unfold canonical_decimal_string in H. destruct (negb _); [destruct opt; discriminate H|].
  assert ((let! _ := refuse (dlt d d0) (f +:+ " must be finite and non-negative") in
           let! _ := refuse (MAX_EXACT_DECIMAL_SCALE <? Z.max 0 (- dexp d)) (f +:+ " exceeds supported scale " +:+ int_str MAX_EXACT_DECIMAL_SCALE) in
           let! _ := refuse (38 <? ndigits (dcoeff d)) (f +:+ " exceeds supported precision") in Ok (VStr s)) = Ok (VStr s)) as H'.
  { rewrite B in H. destruct opt; exact H. }
  clear H. do 3 bind H'. apply refuse_Ok in B0, B1, B2. apply Z.ltb_ge in B1, B2.
  split; [apply dlt_false in B0; by rewrite dval_0 in B0|]. split; [lia|].
  pose proof (ndigits_bounds (dcoeff d)) as Hn. eapply Z.lt_le_trans; [apply Hn|]. apply Z.pow_le_mono_r; lia.
Qed.

Lemma body_decimal payload body : canonical_command_body payload = Ok body ->
  canonical_decimal_string (get body "requested_quantity_decimal") "requested_quantity_decimal" false = Ok (get body "requested_quantity_decimal") /\
  Forall (fun k => canonical_decimal_string (get body k) k true = Ok (get body k)) exact_exit_fields.
Proof.
  unfold canonical_command_body. intros H. do 33 bind H. apply Ok_inj in H. subst body.
  split; [exact (decimal_again _ _ _ _ B4)|]. repeat constructor; cbn -[canonical_decimal_string]; by eapply decimal_again.
Qed.

(** A leg of an exit: what it sells is at least zero and within what is held, and the
    leg is skipped exactly when it sells nothing. *)
Definition exit_leg_ok (d : dict pyval) (inventory quantity skip : string) (sold : dec) : Prop :=
  exists held, decimal_value (get d inventory) = Ok held /\ decimal_value (get d quantity) = Ok sold /\
    (0 <= dval sold)%Q /\ (dval sold <= dval held)%Q /\ exists b, get d skip = VBool b /\ (b = true <-> (dval sold == 0)%Q).

(** The quantities of a command, by the kind of its intent. *)
Definition quantities_ok (d : dict pyval) : Prop :=
  if startswith "ENTER_" (text_of (get d "intent")) then
    Forall (fun k => get d k = VNone) (exact_exit_fields ++ ["spot_quantity"; "perp_quantity"]) /\
    get d "skip_spot_leg" = VBool false /\ get d "skip_perp_leg" = VBool false
  else
    exists spot futures, exit_leg_ok d "actual_spot_inventory_decimal" "exit_spot_quantity_decimal" "skip_spot_leg" spot /\
      exit_leg_ok d "actual_futures_inventory_decimal" "exit_futures_quantity_decimal" "skip_perp_leg" futures /\
      (0 < dval spot \/ 0 < dval futures)%Q.

Lemma present_false v : present v = false <-> v = VNone.
Proof. by destruct v. Qed.

Lemma body_bool types body k : NoDup (map fst types) -> body_of types body -> (k, "bool") ∈ types -> exists b, get body k = VBool b.
Proof. intros Hn Hb Hk. pose proof (body_get _ _ _ _ Hn Hb Hk) as H. inversion H. by eexists. Qed.

Lemma body_skip payload body k : canonical_command_body payload = Ok body -> k = "skip_spot_leg" \/ k = "skip_perp_leg" ->
  exists b, get body k = VBool b.
Proof.
  intros H%command_body_of Hk. eapply body_bool; [apply command_fields_NoDup|exact H|].
  apply (bool_decide_unpack _). by destruct Hk as [-> | ->]; vm_compute.
Qed.

Lemma enter_quantities payload body : canonical_command_body payload = Ok body -> check_enter body = Ok tt ->
  startswith "ENTER_" (text_of (get body "intent")) = true -> quantities_ok body.
Proof.
  intros Hb H Hi. unfold quantities_ok. rewrite Hi. unfold check_enter in H. do 2 bind H. apply refuse_Ok in B, B0, H.
  destruct (body_skip _ _ "skip_spot_leg" Hb) as [x Hx]; [by left|]. destruct (body_skip _ _ "skip_perp_leg" Hb) as [y Hy]; [by right|].
  rewrite Hx, Hy in *. cbn [truthy] in H. apply orb_false_iff in H as [-> ->]. split; [|done].
  apply orb_false_iff in B0 as [Hs Hp]. apply present_false in Hs, Hp. apply Forall_app. split; [|by repeat constructor].
  apply Forall_forall. intros k Hk. apply present_false. destruct (present (get body k)) eqn:E; [|done].
  assert (existsb (fun name => present (get body name)) exact_exit_fields = true) as Ht; [|by rewrite Ht in B].
  apply existsb_exists. exists k. by rewrite <- list_elem_of_In.
Qed.

Lemma exit_leg payload body inventory quantity skip held sold :
  canonical_command_body payload = Ok body -> inventory ∈ exact_exit_fields -> quantity ∈ exact_exit_fields ->
  skip = "skip_spot_leg" \/ skip = "skip_perp_leg" ->
  decimal_value (get body inventory) = Ok held -> decimal_value (get body quantity) = Ok sold -> dgt sold held = false ->
  negb (Bool.eqb (truthy (get body skip)) (deqb sold d0)) = false -> exit_leg_ok body inventory quantity skip sold.
Proof.
  intros Hb Hi Hq Hk Eh Es Hle Hs. destruct (body_decimal _ _ Hb) as [_ Hd]. rewrite Forall_forall in Hd.
  destruct (canonical_decimal_bounds _ _ _ _ _ (Hd _ Hq) Es) as [Hpos _]. exists held. do 3 (split; [done|]).
  split; [by apply dlt_false|]. destruct (body_skip _ _ skip Hb Hk) as [b Eb]. exists b. split; [done|].
  rewrite Eb in Hs. cbn [truthy] in Hs. apply negb_false_iff, Bool.eqb_prop in Hs as ->. rewrite deqb_spec, dval_0. done.
Qed.

Lemma exit_quantities payload body : canonical_command_body payload = Ok body -> check_exit body = Ok tt ->
  startswith "ENTER_" (text_of (get body "intent")) = false -> quantities_ok body.
Proof.
  intros Hb H Hi. unfold quantities_ok. rewrite Hi. unfold check_exit in H. do 5 bind H. do 4 bind H.
  apply refuse_Ok in B4, B5, B6, B7. apply orb_false_iff in B4 as [Hs Hf]. exists r2, r3.
  assert (exit_leg_ok body "actual_spot_inventory_decimal" "exit_spot_quantity_decimal" "skip_spot_leg" r2) as L1.
  { eapply exit_leg; eauto; apply str_in_spec; reflexivity. }
  assert (exit_leg_ok body "actual_futures_inventory_decimal" "exit_futures_quantity_decimal" "skip_perp_leg" r3) as L2.
  { eapply exit_leg; eauto; apply str_in_spec; reflexivity. }
  split; [done|]. split; [done|]. destruct L1 as (_ & _ & _ & P1 & _), L2 as (_ & _ & _ & P2 & _).
  apply andb_false_iff in B7 as [E|E]; apply deqb_false in E; rewrite dval_0 in E; [left|right]; apply Qle_lteq in P1, P2; 
    [destruct P1 as [?|P]|destruct P2 as [?|P]]; try done; by rewrite P in E.
Qed.

(** C11: an accepted command is a risk intent of a positive quantity, sealed for its
    producer with the positive sequence it was given and a deadline exactly its time to
    live after its creation (the given instant, or now), and that time is at most five
    minutes.  An entry carries no exit data and skips no leg; an exit never sells more than
    it holds, skips exactly the legs that sell nothing, and sells on one leg at least. *)
Theorem accepted_commands_are_safe payload pid sequence ttl at_ms now env : is_config_sync payload = false ->
  build_command_envelope payload pid sequence ttl at_ms now = Ok env ->
  text_of (get env "intent") ∈ RISK_CHANGING_INTENTS /\ quantities_ok env /\
  (exists requested, decimal_value (get env "requested_quantity_decimal") = Ok requested /\ (0 < dval requested)%Q) /\
  (exists producer, pid = VStr producer /\ strip producer <> "" /\ get env "producer_id" = VStr (strip producer)) /\
  (exists seqno, sequence = VInt seqno /\ 0 < seqno /\ get env "sequence" = VInt seqno) /\
  exists lifetime created, ttl = VInt lifetime /\ 0 < lifetime <= MAX_COMMAND_TTL_MS /\
    (at_ms = VNone /\ created = now \/ at_ms = VInt created) /\ 0 < created /\
    get env "created_at_ms" = VInt created /\ get env "deadline_at_ms" = VInt (created + lifetime).
Proof.
  intros Hp H. destruct (build_command_inv _ _ _ _ _ _ _ Hp H) as (body & p & s & t & c & Hb & Hi & Ht & _ & Hsc & Hq & Hc & Hs).
  destruct (seal_env _ _ _ _ _ _ _ _ command_envelope_of (command_body_of _ _ Hb) Hs) as (Hg & Ep & Es & Ec & Ed).
  pose proof (body_keys _ _ (command_body_of _ _ Hb)) as Hk.
  assert (forall k, str_in k (map fst _CANONICAL_FIELD_TYPES) = true -> get env k = get body k) as Hget.
  { intros k Hin. apply Hg. rewrite Hk. by apply str_in_spec. }
  assert (quantities_ok body) as Hqb.
  { destruct (startswith "ENTER_" _) eqn:E in Hq; [by eapply enter_quantities|by eapply exit_quantities]. }
  split; [by rewrite Hget|]. split; [|split].
  - revert Hqb. unfold quantities_ok, exit_leg_ok. rewrite (Hget "intent") by done. destruct (startswith "ENTER_" _); [|by rewrite !Hget].
    intros [Hf Hskip]. rewrite !Hget by done. split; [|done]. rewrite Forall_forall in *. intros k Hin. rewrite Hget; [by apply Hf|].
    repeat (apply elem_of_cons in Hin as [->|Hin]; [done|]). by apply elem_of_nil in Hin.
  - unfold check_scales in Hsc. do 7 bind Hsc. apply refuse_Ok in Hsc. exists r5. rewrite Hget by done. split; [done|].
    apply dle_false in Hsc. by rewrite dval_0 in Hsc.
  - apply check_transport_Ok in Ht as ((name & -> & ->) & Hne & -> & Hs0 & -> & Httl). apply creation_time_Ok in Hc as [Hc0 Hc].
    split; [exists name; by destruct (strip name)|]. split; [by exists s|]. by exists t, c.
Qed.

(** ** Concrete commands *)

Definition ex_context : dict pyval :=
  [ ("account_id", VStr "main"); ("environment", VStr "testnet"); ("strategy_id", VStr "carry"); ("cycle_id", VStr " c1 ");
    ("config_version_hash", VStr "abc"); ("symbol", VStr "btcusdt"); ("urgency", VFloat "0.5"); ("max_slippage_bps", VInt 5);
    ("exposure_scale", VFloat "1.0"); ("intent_id", VStr "i-1") ].

Definition ex_entry : dict pyval :=
  ex_context ++ [("intent", VStr "enter_long"); ("quantity", VFloat "0.5"); ("requested_quantity_decimal", VStr "0.5")].

(** An exit of the spot leg only. *)
Definition ex_exit : dict pyval :=
  ex_context ++
  [ ("intent", VStr "EXIT_LONG"); ("quantity", VFloat "0.25"); ("requested_quantity_decimal", VStr "0.25");
    ("actual_spot_inventory_decimal", VStr "0.5"); ("actual_futures_inventory_decimal", VStr "0.5");
    ("exit_spot_quantity_decimal", VStr "0.25"); ("exit_futures_quantity_decimal", VStr "0"); ("skip_perp_leg", VBool true);
    ("spot_quantity", VFloat "0.25"); ("perp_quantity", VInt 0) ].

Definition ex_sealed (payload : dict pyval) : result (dict pyval) :=
  build_command_envelope payload (VStr "trader") (VInt 7) (VInt 5000) VNone 1700000000000.

Lemma ex_entry_sealed : is_ok (ex_sealed ex_entry) = true.
Proof. vm_compute. reflexivity. Qed.

Lemma ex_exit_sealed : is_ok (ex_sealed ex_exit) = true.
Proof. vm_compute. reflexivity. Qed.

Example ex_oversold : ex_sealed (dict_set (dict_set ex_exit "exit_spot_quantity_decimal" (VStr "0.75")) "spot_quantity" (VFloat "0.75"))
  = protocol_error "EXIT quantity cannot exceed actual inventory".
Proof. vm_compute. reflexivity. Qed.

Lemma ex_entry_bytes : is_ok (canonical_command_bytes ex_entry) = true.
Proof. vm_compute. reflexivity. Qed.

(** The spelling of an identifier does not change the bytes. *)
Lemma ex_entry_spelled : canonical_command_bytes (dict_set ex_entry "cycle_id" (VStr "c1")) = canonical_command_bytes ex_entry.
Proof. vm_compute. reflexivity. Qed.

Lemma command_bytes_unambiguous_witness :
  exists s a b, canonical_command_bytes ex_entry = Ok s /\ same_body a b /\
    canonical_command_body ex_entry = Ok a /\ canonical_command_body (dict_set ex_entry "cycle_id" (VStr "c1")) = Ok b.
Proof.
  destruct (proj1 (is_ok_spec _) ex_entry_bytes) as [s E].
  destruct (command_bytes_unambiguous ex_entry (dict_set ex_entry "cycle_id" (VStr "c1")) s E (eq_trans ex_entry_spelled E))
    as (_ & a & b & H & Ha & Hb).
  exists s, a, b. exact (conj E (conj H (conj Ha Hb))).
Defined.

Lemma envelope_hash_stable_witness :
  exists env h, ex_sealed ex_entry = Ok env /\ command_hash ex_entry = Ok h /\ command_hash (dict_set env "sequence" (VInt 8)) = Ok h.
Proof.
  destruct (proj1 (is_ok_spec _) ex_entry_sealed) as [env E].
  destruct (envelope_hash_stable ex_entry (VStr "trader") (VInt 7) (VInt 5000) VNone 1700000000000 env E) as (h & Hp & _ & _ & Hk).
  exists env, h. split; [exact E|]. split; [exact Hp|]. apply Hk. apply str_in_spec. reflexivity.
Defined.

Lemma accepted_commands_are_safe_witness :
  exists env, ex_sealed ex_exit = Ok env /\ quantities_ok env /\ text_of (get env "intent") ∈ RISK_CHANGING_INTENTS /\
    get env "deadline_at_ms" = VInt 1700000005000.
Proof.
  destruct (proj1 (is_ok_spec _) ex_exit_sealed) as [env E]. exists env.
  destruct (accepted_commands_are_safe ex_exit (VStr "trader") (VInt 7) (VInt 5000) VNone 1700000000000 env eq_refl E)
    as (Hi & Hq & _ & _ & _ & t & c & [= <-] & _ & Hc & _ & _ & Hd).
  destruct Hc as [[_ ->]|Hc]; [|discriminate Hc]. exact (conj E (conj Hq (conj Hi Hd))).
Defined.
