(* ===== verification/CommandOutbox.v ===== *)
(** * The durable outbox of the execution commands

    Model of the command tables of [StateWriter] in src/bongus/engine/state_store.py
    ([reserve_execution_command] to [get_replayable_execution_commands]) and of
    [ExecutionClient] in src/bongus/ipc/execution.py.  The two serializers are third-party
    code and are parameters; the socket answers from a list of outcomes, which may also
    kill the process before or after a message has left. *)
From Stdlib Require Import ZArith Lia Ascii.
From stdpp Require Import base list strings.
From S2P Require Import Prelude PyDecimal PyFloat PyTime PyValue PyJson IpcProtocol.
Open Scope Z_scope.

(** ** The tables *)

(** A row of [execution_command_outbox]. *)
Record command := Command {
  c_intent_id : string;
  c_schema_version : Z;
  c_producer_id : string;
  c_sequence : Z;
  c_intent_type : string;
  c_symbol : string;
  c_command_hash : string;
  c_envelope_json : string;
  c_state : string;
  c_ack_reason : string;
  c_send_attempts : Z;
  c_created_at_ms : Z;
  c_deadline_at_ms : Z;
  c_first_sent_at : option string;
  c_last_sent_at : option string;
  c_last_ack_at : option string;
  c_updated_at : string
}.

(** [execution_command_sequences] by producer, and the outbox in order of insertion. *)
Record outbox := Outbox { sequences : dict (Z * string); commands : list command }.

Definition find_command (b : outbox) (intent_id : string) : option command :=
  List.find (fun c => String.eqb (c_intent_id c) intent_id) (commands b).

(** [UPDATE execution_command_outbox SET ... WHERE intent_id=?] *)
Definition update_command (intent_id : string) (f : command -> command) (b : outbox) : outbox :=
  Outbox (sequences b) (map (fun c => if String.eqb (c_intent_id c) intent_id then f c else c) (commands b)).

Definition set_sent (now : string) (c : command) : command :=
  Command (c_intent_id c) (c_schema_version c) (c_producer_id c) (c_sequence c) (c_intent_type c) (c_symbol c)
    (c_command_hash c) (c_envelope_json c)
    (if str_in (c_state c) ["READY"; "SEND_FAILED"] then "SENT" else c_state c) (c_ack_reason c) (c_send_attempts c + 1)
    (c_created_at_ms c) (c_deadline_at_ms c) (match c_first_sent_at c with None => Some now | t => t end) (Some now)
    (c_last_ack_at c) now.

Definition set_send_failed (reason now : string) (c : command) : command :=
  Command (c_intent_id c) (c_schema_version c) (c_producer_id c) (c_sequence c) (c_intent_type c) (c_symbol c)
    (c_command_hash c) (c_envelope_json c)
    (if str_in (c_state c) ["READY"; "SENT"; "SEND_FAILED"] then "SEND_FAILED" else c_state c) reason (c_send_attempts c + 1)
    (c_created_at_ms c) (c_deadline_at_ms c) (c_first_sent_at c) (Some now) (c_last_ack_at c) now.

Definition set_ack (status reason now : string) (c : command) : command :=
  Command (c_intent_id c) (c_schema_version c) (c_producer_id c) (c_sequence c) (c_intent_type c) (c_symbol c)
    (c_command_hash c) (c_envelope_json c) status reason (c_send_attempts c) (c_created_at_ms c) (c_deadline_at_ms c)
    (c_first_sent_at c) (c_last_sent_at c) (Some now) now.

(** [BEGIN IMMEDIATE], and a rollback when the body raises. *)
Definition transaction {A} (body : M outbox A) : M outbox A := fun b =>
  match body b with (Ok a, b') => (Ok a, b') | (Err e, _) => (Err e, b) end.

(** The upsert of [execution_command_sequences] and its [RETURNING last_sequence]. *)
Definition next_sequence (producer_id now : string) : M outbox Z := fun b =>
  let n := match dict_get (sequences b) producer_id with Some (last, _) => last + 1 | None => 1 end in
  (Ok n, Outbox (dict_set (sequences b) producer_id (n, now)) (commands b)).

(** [INSERT INTO execution_command_outbox] under its primary key and its unique pair. *)
Definition insert_command (c : command) : M outbox unit := fun b =>
  if existsb (fun x => String.eqb (c_intent_id x) (c_intent_id c)) (commands b) then
    (raise IntegrityError "UNIQUE constraint failed: execution_command_outbox.intent_id", b)
  else if existsb (fun x => String.eqb (c_producer_id x) (c_producer_id c) && (c_sequence x =? c_sequence c)) (commands b) then
    (raise IntegrityError "UNIQUE constraint failed: execution_command_outbox.producer_id, execution_command_outbox.sequence", b)
  else (Ok tt, Outbox (sequences b) (commands b ++ [c])).

(** [str(value or "")] *)
Definition text_or_empty (v : pyval) : string := py_str (py_or v (VStr "")).

(** [dict(json.loads(text))] *)
Definition loads_dict (text : string) : result (dict pyval) :=
  let! v := json_loads text in
  match v with VDict d => Ok d | _ => raise TypeError "cannot convert to a dictionary" end.

Definition ranks (state : string) : option Z :=
  dict_get [ ("READY", 0); ("SEND_FAILED", 0); ("SENT", 1); ("RECEIVED", 2); ("VALIDATED", 3); ("SUBMITTED", 4);
             ("TERMINAL", 5); ("REJECTED", 5) ] state.

Definition rank_of (state : string) : Z := match ranks state with Some n => n | None => -1 end.

Definition final (state : string) : bool := str_in state ["TERMINAL"; "REJECTED"].

(** [orjson.dumps(value).decode()] when [orjson] is installed, or [json.dumps(value)]. *)
Definition _json_dump (orjson_dumps : option (pyval -> result string)) (value : pyval) : result string :=
  match orjson_dumps with Some dumps => dumps value | None => json_dumps_ordered value end.

Section Outbox.

(** [orjson.dumps], if there is one, and [msgpack.packb]. *)
Variable orjson_dumps : option (pyval -> result string).
Variable packb : pyval -> result string.

(** ** The writer *)

Definition new_command (intent_id producer_id : string) (sequence : Z) (envelope : dict pyval) (now : string) : result command :=
  let! schema_version := py_int (get envelope "schema_version") in
  let! text := _json_dump orjson_dumps (VDict envelope) in
  let! created := py_int (get envelope "created_at_ms") in
  let! deadline := py_int (get envelope "deadline_at_ms") in
  let! _ := sql_int schema_version in
  let! _ := sql_int sequence in
  let! _ := sql_int created in
  let! _ := sql_int deadline in
  Ok (Command intent_id schema_version producer_id sequence (py_str (get envelope "intent"))
        (upper (text_or_empty (get envelope "symbol"))) (py_str (get envelope "command_hash")) text "READY" "" 0
        created deadline None None None now).

(** The body of the transaction: the recorded envelope, or a new one. *)
Definition reserve_body (payload : dict pyval) (intent_id requested_hash producer_id : string) (ttl_ms created_at_ms : pyval)
    (now : string) (now_ms : Z) : M outbox (dict pyval) :=
  do! b := m_get in
  match find_command b intent_id with
  | Some existing =>
      if negb (String.eqb (c_command_hash existing) requested_hash) then
        m_raise ValueError ("intent_id " +:+ repr_str intent_id +:+ " conflicts with its durable command")
      else m_lift (loads_dict (c_envelope_json existing))
  | None =>
      do! sequence := next_sequence producer_id now in
      do! envelope := m_lift (build_command_envelope payload (VStr producer_id) (VInt sequence) ttl_ms created_at_ms now_ms) in
      do! row := m_lift (new_command intent_id producer_id sequence envelope now) in
      do! _ := insert_command row in
      m_ret envelope
  end.

Definition reserve_execution_command (payload : dict pyval) (producer_id : string) (ttl_ms created_at_ms : pyval)
    (now : string) (now_ms : Z) : M outbox (dict pyval) :=
  let intent_id := strip (text_or_empty (get payload "intent_id")) in
  if negb (nonempty intent_id) then m_raise ValueError "execution command requires intent_id"
  else
    do! requested_hash := m_lift (command_hash payload) in
    transaction (reserve_body payload intent_id requested_hash producer_id ttl_ms created_at_ms now now_ms).

Definition next_execution_intent_id (producer_id symbol intent_type now : string) : M outbox string :=
  do! sequence := next_sequence (producer_id +:+ ":intent-ids") now in
  m_ret (producer_id +:+ ":" +:+ int_str sequence +:+ ":" +:+ lower intent_type +:+ ":" +:+ lower symbol).

Definition mark_execution_command_sent (intent_id now : string) : M outbox unit := fun b =>
  (Ok tt, update_command intent_id (set_sent now) b).

Definition mark_execution_command_send_failed (intent_id reason now : string) : M outbox unit := fun b =>
  (Ok tt, update_command intent_id (set_send_failed reason now) b).

Definition apply_execution_command_ack (event : dict pyval) (now : string) : M outbox bool :=
  do! ack := m_lift (validate_ack event) in
  let '(intent_id, ack_status) := ack in
  let ack_hash := text_or_empty (get event "command_hash") in
  let reason := text_or_empty (get event "reason") in
  do! b := m_get in
  match find_command b intent_id with
  | None => m_ret false
  | Some row =>
      if nonempty ack_hash && negb (String.eqb ack_hash (c_command_hash row)) then
        m_raise ValueError ("ACK hash conflict for intent_id " +:+ repr_str intent_id)
      else
        let current := upper (c_state row) in
        if final current then
          if final ack_status && negb (String.eqb current ack_status) then
            m_raise ValueError ("terminal ACK conflict for " +:+ repr_str intent_id +:+ ": " +:+ current +:+ " -> " +:+ ack_status)
          else m_ret true
        else if rank_of ack_status <? rank_of current then m_ret true
        else
          do! _ := m_put (update_command intent_id (set_ack ack_status reason now) b) in
          m_ret true
  end.

(** [ORDER BY producer_id, sequence] *)
Definition command_leb (a b : command) : bool :=
  if String.eqb (c_producer_id a) (c_producer_id b) then c_sequence a <=? c_sequence b
  else String.leb (c_producer_id a) (c_producer_id b).

Definition pending (b : outbox) : list command :=
  sort_by command_leb (List.filter (fun c => negb (final (c_state c))) (commands b)).

(** The rows, each with its decoded envelope. *)
Definition get_replayable_execution_commands (b : outbox) : result (list (command * dict pyval)) :=
  res_map_list (fun c => let! envelope := loads_dict (c_envelope_json c) in Ok (c, envelope)) (pending b).

(** ** The client *)

(** What the next [send] of the socket does: the message leaves, or [zmq.ZMQError] is
    raised, or the process is killed before or after the message has left. *)
Inductive outcome := Sent | Refused (error : string) | KilledBefore | KilledAfter.

Record client := Client { box : outbox; wire : list (dict pyval); outcomes : list outcome }.

Definition set_box (b : outbox) (s : client) : client := Client b (wire s) (outcomes s).

Definition on_box {A} (m : M outbox A) : M client A := fun s => let '(r, b) := m (box s) in (r, set_box b s).

(** [socket.send(msgpack.packb(payload), zmq.NOBLOCK)]; the result is the text of the error. *)
Definition socket_send (payload : dict pyval) : M client (option string) := fun s =>
  match packb (VDict payload), outcomes s with
  | Err e, _ => (Err e, s)
  | Ok _, [] => (Ok (Some "Resource temporarily unavailable"), s)
  | Ok _, Sent :: os => (Ok None, Client (box s) (wire s ++ [payload]) os)
  | Ok _, Refused error :: os => (Ok (Some error), Client (box s) (wire s) os)
  | Ok _, KilledBefore :: os => (raise RuntimeError "killed", Client (box s) (wire s) os)
  | Ok _, KilledAfter :: os => (raise RuntimeError "killed", Client (box s) (wire s ++ [payload]) os)
  end.

(** The settings of an [ExecutionClient]; the context may be computed and fail. *)
Record settings := Settings {
  has_writer : bool;
  client_producer_id : string;
  client_ttl_ms : Z;
  command_context : result (dict pyval)
}.

Definition new_settings (has_writer : bool) (producer_id : string) (command_ttl_ms : Z) (context : result (dict pyval)) : settings :=
  Settings has_writer producer_id (Z.max 1 command_ttl_ms) context.

Definition _send_raw (payload : dict pyval) : M client bool :=
  do! error := socket_send payload in
  m_ret (match error with None => true | Some _ => false end).

Definition _send_envelope (cfg : settings) (envelope : dict pyval) (now : string) : M client bool :=
  let intent_id := text_or_empty (get envelope "intent_id") in
  do! error := socket_send envelope in
  match error with
  | Some text =>
      do! _ := (if has_writer cfg then on_box (mark_execution_command_send_failed intent_id text now) else m_ret tt) in
      m_ret false
  | None =>
      do! _ := (if has_writer cfg then on_box (mark_execution_command_sent intent_id now) else m_ret tt) in
      m_ret true
  end.

(** [except (ExecutionProtocolError, ValueError): return False] around a reservation. *)
Definition refusals (k : exn_kind) : bool := match k with ExecutionProtocolError | ValueError => true | _ => false end.

Definition or_refused {A} (m : M client A) : M client (option A) := fun s =>
  match m s with
  | (Ok a, s') => (Ok (Some a), s')
  | (Err e, s') => if refusals (exn_class e) then (Ok None, s') else (Err e, s')
  end.

(** The payload with the context under it; [setdefault("cycle_id", ...)]. *)
Definition command_payload (context payload : dict pyval) : dict pyval :=
  let merged := fold_left (fun acc kv => dict_set acc (fst kv) (snd kv)) payload (dict_of context) in
  if dict_has merged "cycle_id" then merged
  else dict_set merged "cycle_id" (VStr (text_or_empty (get payload "intent_id"))).

Definition reserve_for (cfg : settings) (payload : dict pyval) (now : string) (now_ms : Z) : M client (dict pyval) :=
  do! context := m_lift (command_context cfg) in
  on_box (reserve_execution_command (command_payload context payload) (client_producer_id cfg) (VInt (client_ttl_ms cfg)) VNone now now_ms).

Definition is_durable (payload : dict pyval) : bool := str_in (upper (text_or_empty (get payload "intent"))) DURABLE_COMMAND_INTENTS.

Definition send_order_intent (cfg : settings) (payload : dict pyval) (now : string) (now_ms : Z) : M client bool :=
  if is_durable payload then
    if negb (has_writer cfg) then m_ret false
    else
      do! reserved := or_refused (reserve_for cfg payload now now_ms) in
      match reserved with
      | None => m_ret false
      | Some envelope => _send_envelope cfg envelope now
      end
  else _send_raw payload.

Definition send_config_sync (cfg : settings) (intent_id canonical_json config_version_hash : string) (cycle_id : option string)
    (now : string) (now_ms : Z) : M client bool :=
  send_order_intent cfg
    [ ("intent", VStr CONFIG_SYNC_INTENT); ("intent_id", VStr intent_id);
      ("cycle_id", VStr (str_or (default "" cycle_id) intent_id)); ("config_version_hash", VStr config_version_hash);
      ("config_canonical_json", VStr canonical_json) ] now now_ms.

Definition _TELEMETRY_TRANSPORT_FIELDS : list string :=
  ["telemetry_ack_required"; "telemetry_replay"; "telemetry_schema_version"; "telemetry_sequence"].

Definition handle_ack (cfg : settings) (event : dict pyval) (now : string) : M client bool :=
  if negb (has_writer cfg) then m_ret false
  else
    let protocol_event := List.filter (fun kv => negb (str_in (fst kv) _TELEMETRY_TRANSPORT_FIELDS)) event in
    on_box (apply_execution_command_ack protocol_event now).

Record replayed := Replayed { r_sent : Z; r_expired : Z; r_failed : Z; r_blocked : Z }.

(** One row of the replay. *)
Definition replay_row (cfg : settings) (current_ms : Z) (allow_risk_increase : bool) (now : string) (envelope : dict pyval)
    (r : replayed) : M client replayed :=
  let intent_id := text_or_empty (get envelope "intent_id") in
  do! deadline := m_lift (py_int (py_or (get envelope "deadline_at_ms") (VInt 0))) in
  if deadline <=? current_ms then
    do! _ := on_box (mark_execution_command_send_failed intent_id "expired_before_replay" now) in
    m_ret (Replayed (r_sent r) (r_expired r + 1) (r_failed r) (r_blocked r))
  else if negb allow_risk_increase && str_in (upper (text_or_empty (get envelope "intent"))) ["ENTER_LONG"; "ENTER_SHORT"] then
    m_ret (Replayed (r_sent r) (r_expired r) (r_failed r) (r_blocked r + 1))
  else
    do! ok := _send_envelope cfg envelope now in
    m_ret (if ok : bool then Replayed (r_sent r + 1) (r_expired r) (r_failed r) (r_blocked r)
           else Replayed (r_sent r) (r_expired r) (r_failed r + 1) (r_blocked r)).

Fixpoint replay_rows (cfg : settings) (current_ms : Z) (allow_risk_increase : bool) (now : string) (rows : list (command * dict pyval))
    (r : replayed) : M client replayed :=
  match rows with
  | [] => m_ret r
  | (_, envelope) :: rows' =>
      do! r' := replay_row cfg current_ms allow_risk_increase now envelope r in
      replay_rows cfg current_ms allow_risk_increase now rows' r'
  end.

Definition replay_pending (cfg : settings) (now_ms : Z) (allow_risk_increase : bool) (now : string) : M client replayed :=
  let nothing := Replayed 0 0 0 0 in
  if negb (has_writer cfg) then m_ret nothing
  else
    do! s := m_get in
    do! rows := m_lift (get_replayable_execution_commands (box s)) in
    replay_rows cfg now_ms allow_risk_increase now rows nothing.

(** ** Payloads without an exposure *)

Definition send_heartbeat (cfg : settings) (heartbeat_id now : string) (now_ms : Z) : M client bool :=
  send_order_intent cfg [("intent", VStr "HEARTBEAT"); ("heartbeat_id", VStr heartbeat_id)] now now_ms.

Definition subscribe_market_data (cfg : settings) (symbol now : string) (now_ms : Z) : M client bool :=
  send_order_intent cfg [("intent", VStr "SUBSCRIBE_MARKET_DATA"); ("symbol", VStr (upper symbol))] now now_ms.

Definition restore_position_tracking (cfg : settings) (symbol direction : string)
    (qty spot_entry perp_entry spot_mark perp_mark : pyval) (spot_quantity perp_quantity : pyval) (now : string) (now_ms : Z) : M client bool :=
  let payload := [ ("intent", VStr "RESTORE_POSITION"); ("symbol", VStr symbol); ("direction", VStr direction); ("quantity", qty);
                   ("spot_entry_price", spot_entry); ("perp_entry_price", perp_entry); ("spot_mark_price", spot_mark);
                   ("perp_mark_price", perp_mark) ] in
  let payload := if present spot_quantity then dict_set payload "spot_quantity" spot_quantity else payload in
  let payload := if present perp_quantity then dict_set payload "perp_quantity" perp_quantity else payload in
  send_order_intent cfg payload now now_ms.

(** ** Histories *)

(** One call of the process, with floats that are floats, or a change of what the socket
    will do. *)
Inductive step (cfg : settings) : client -> client -> Prop :=
  | step_send payload now now_ms s : float_values payload ->
      (forall context, command_context cfg = Ok context -> float_values context) ->
      step cfg s (snd (send_order_intent cfg payload now now_ms s))
  | step_ack event now s : step cfg s (snd (handle_ack cfg event now s))
  | step_replay now_ms allow now s : step cfg s (snd (replay_pending cfg now_ms allow now s))
  | step_intent_id symbol intent_type now s :
      step cfg s (snd (on_box (next_execution_intent_id (client_producer_id cfg) symbol intent_type now) s))
  | step_socket os s : step cfg s (Client (box s) (wire s) os).

Definition new_client : client := Client (Outbox [] []) [] [].

(** Restarts keep the tables, and the settings may change with each of them. *)
Inductive reachable : client -> Prop :=
  | reach_new : reachable new_client
  | reach_step cfg s s' : reachable s -> step cfg s s' -> reachable s'.
End Outbox.
