(* ===== verification/CommandOutboxFacts.v ===== *)
(** * Facts on the command outbox

    Whatever calls are made and whenever the process is killed, only recorded commands
    are transmitted, an intent has one content, acknowledged commands never go back, and
    a replay sends exactly the pending commands that may still be sent. *)
From Stdlib Require Import ZArith QArith Lia Ascii Sorted.
From stdpp Require Import base list strings relations.
From S2P Require Import Prelude PyDecimal PyFloat PyFormat PyTime PyValue PyJson PyJsonFacts IpcProtocol IpcProtocolFacts CommandOutbox.
Open Scope Z_scope.

(** ** Dictionaries up to the order of their keys *)

Definition same_dict (d e : dict pyval) : Prop := forall k, dict_get d k = dict_get e k.

#[export] Instance same_dict_equivalence : Equivalence same_dict.
Proof.
  split; [by intros d k|by intros d e H k; rewrite H|].
  intros d e f H1 H2 k. by rewrite H1.
Qed.

#[export] Instance get_proper : Proper (same_dict ==> eq ==> eq) get.
Proof. intros d e H k _ <-. unfold get, get_or. by rewrite H. Qed.

#[export] Instance is_durable_proper : Proper (same_dict ==> eq) is_durable.
Proof. intros d e H. unfold is_durable. by rewrite H. Qed.

(** ** How a command evolves *)

(** What identifies a command and what it orders never changes; its state goes forward
    once it has been acknowledged, and its counters only grow. *)
Record evolves (c d : command) : Prop := {
  ev_intent_id : c_intent_id d = c_intent_id c;
  ev_producer : c_producer_id d = c_producer_id c;
  ev_sequence : c_sequence d = c_sequence c;
  ev_hash : c_command_hash d = c_command_hash c;
  ev_json : c_envelope_json d = c_envelope_json c;
  ev_created : c_created_at_ms d = c_created_at_ms c;
  ev_deadline : c_deadline_at_ms d = c_deadline_at_ms c;
  ev_attempts : c_send_attempts c <= c_send_attempts d;
  ev_rank : 2 <= rank_of (c_state c) -> rank_of (c_state c) <= rank_of (c_state d);
  ev_final : final (c_state c) = true -> c_state d = c_state c
}.

#[export] Instance evolves_preorder : PreOrder evolves.
Proof.
  split.
  - intros c. split; done || lia.
  - intros c d e [] []. split; try congruence; try lia.
    intros H. specialize (ev_final0 H). rewrite ev_final0 in *. by apply ev_final1.
Qed.

Definition STATES : list string := ["READY"; "SEND_FAILED"; "SENT"] ++ ACK_STATES.

Lemma states_cases s : s ∈ STATES -> s = "READY" \/ s = "SEND_FAILED" \/ s = "SENT" \/ s = "RECEIVED" \/ s = "VALIDATED" \/ s = "SUBMITTED" \/ s = "TERMINAL" \/ s = "REJECTED".
Proof. unfold STATES, ACK_STATES. simpl. intros H. repeat (apply elem_of_cons in H as [->|H]; [tauto|]). by apply elem_of_nil in H. Qed.

(** Each of the eight states, by computation. *)
Ltac by_state H := apply states_cases in H; destruct H as [H|[H|[H|[H|[H|[H|[H|H]]]]]]]; rewrite H in *; try done; try reflexivity.

Lemma set_sent_evolves now c : c_state c ∈ STATES -> evolves c (set_sent now c) /\ c_state (set_sent now c) ∈ STATES.
Proof.
  intros H. split; [split; cbn; try done; try lia; by_state H|cbn; by_state H]; by apply str_in_spec.
Qed.

Lemma set_failed_evolves reason now c : c_state c ∈ STATES ->
  evolves c (set_send_failed reason now c) /\ c_state (set_send_failed reason now c) ∈ STATES.
Proof.
  intros H. split; [split; cbn; try done; try lia; by_state H|cbn; by_state H]; by apply str_in_spec.
Qed.

Lemma state_upper s : s ∈ STATES -> upper s = s.
Proof. intros H. by_state H. Qed.

Lemma set_ack_evolves status reason now c : status ∈ ACK_STATES -> final (c_state c) = false -> rank_of (c_state c) <= rank_of status ->
  evolves c (set_ack status reason now c) /\ c_state (set_ack status reason now c) ∈ STATES.
Proof.
  intros Hs Hf Hr. split; [split; cbn; try done; try lia; by rewrite Hf|]. cbn. by do 3 (apply elem_of_cons; right).
Qed.

(** ** The invariant of the tables *)

Lemma NoDup_map_inj {A B} (f : A -> B) l x y : NoDup (map f l) -> x ∈ l -> y ∈ l -> f x = f y -> x = y.
Proof.
  induction l as [|a l IH]; cbn; [intros _ Hx; by apply elem_of_nil in Hx|]. intros [Hn Hd]%NoDup_cons Hx Hy E.
  assert (forall z, z ∈ l -> f z <> f a) as Ha.
  { intros z Hz Ez. apply Hn. rewrite <- Ez. by apply list_elem_of_In, in_map, list_elem_of_In. }
  apply elem_of_cons in Hx as [->|Hx], Hy as [->|Hy]; [done|..|by apply IH].
  - by destruct (Ha y Hy).
  - by destruct (Ha x Hx).
Qed.

(** Every command of one box is in the next one, further on. *)
Definition extends_box (b b' : outbox) : Prop := forall c, c ∈ commands b -> exists d, d ∈ commands b' /\ evolves c d.

#[export] Instance extends_box_preorder : PreOrder extends_box.
Proof.
  split; [intros b c Hc; by exists c|]. intros b1 b2 b3 H1 H2 c Hc. destruct (H1 c Hc) as (d & Hd & E1). destruct (H2 d Hd) as (e & He & E2).
  exists e. split; [done|by etransitivity].
Qed.

Section Facts.
Context (orjson_dumps : option (pyval -> result string)) (packb : pyval -> result string).

#[local] Notation dump := (_json_dump orjson_dumps).

(** What the serializer promises of texts, integers, booleans, [None] and finite floats
    under distinct keys: if it writes them at all, [json.loads] reads them back. *)
Context (dump_reads : forall d s, json_record d -> dump (VDict d) = Ok s ->
  exists d', json_loads s = Ok (VDict d') /\ same_dict d' d).

(** The envelope a row was made from: accepted by the protocol under the sequence of the row. *)
Definition recorded (c : command) (env : dict pyval) : Prop :=
  (exists payload ttl at_ms now_ms,
     build_command_envelope payload (VStr (c_producer_id c)) (VInt (c_sequence c)) ttl at_ms now_ms = Ok env /\
     command_hash payload = Ok (c_command_hash c)) /\
  get env "intent_id" = VStr (c_intent_id c) /\ get env "command_hash" = VStr (c_command_hash c) /\
  get env "deadline_at_ms" = VInt (c_deadline_at_ms c) /\ json_record env /\ dump (VDict env) = Ok (c_envelope_json c).

Lemma recorded_evolves c d env : evolves c d -> recorded c env -> recorded d env.
Proof. intros [] Hr. unfold recorded in *. by rewrite ev_intent_id0, ev_producer0, ev_sequence0, ev_hash0, ev_json0, ev_deadline0. Qed.

(** Intents are unique, the sequences of a producer are unique and at most its counter,
    and every row holds an envelope of its own. *)
Record wf (b : outbox) : Prop := {
  wf_intents : NoDup (map c_intent_id (commands b));
  wf_sequences : NoDup (map (fun c => (c_producer_id c, c_sequence c)) (commands b));
  wf_counter : forall c, c ∈ commands b -> exists last t, dict_get (sequences b) (c_producer_id c) = Some (last, t) /\ 1 <= c_sequence c <= last;
  wf_positive : forall p last t, dict_get (sequences b) p = Some (last, t) -> 1 <= last;
  wf_recorded : forall c, c ∈ commands b -> exists env, recorded c env;
  wf_state : forall c, c ∈ commands b -> c_state c ∈ STATES
}.

Lemma wf_empty : wf (Outbox [] []).
Proof. split; cbn; try apply NoDup_nil_2; try (intros c Hc; by apply elem_of_nil in Hc); done. Qed.

Lemma find_command_Some b i c : find_command b i = Some c -> c ∈ commands b /\ c_intent_id c = i.
Proof. intros [H E]%List.find_some. apply String.eqb_eq in E. by rewrite list_elem_of_In. Qed.

Lemma find_command_None b i : find_command b i = None -> i ∉ map c_intent_id (commands b).
Proof.
  intros H (c & -> & Hc)%list_elem_of_fmap. apply list_elem_of_In in Hc. pose proof (List.find_none _ _ H c Hc) as E.
  simpl in E. by rewrite String.eqb_refl in E.
Qed.

(** An update of one row that moves it forward. *)
Lemma update_forward b i f : wf b ->
  (forall c, c ∈ commands b -> c_intent_id c = i -> evolves c (f c) /\ c_state (f c) ∈ STATES) ->
  wf (update_command i f b) /\ extends_box b (update_command i f b).
Proof.
  intros Hwf Hf. set (g := fun c => if String.eqb (c_intent_id c) i then f c else c).
  assert (forall c, c ∈ commands b -> evolves c (g c) /\ c_state (g c) ∈ STATES) as Hg.
  { intros c Hc. unfold g. destruct (String.eqb_spec (c_intent_id c) i) as [E|]; [by apply Hf|]. split; [done|by apply (wf_state b)]. }
  assert (forall A (h : command -> A), (forall c, c ∈ commands b -> h (g c) = h c) -> map h (map g (commands b)) = map h (commands b)) as Hmap.
  { intros A h Hh. rewrite map_map. apply map_ext_in. intros c Hc. by apply Hh, list_elem_of_In. }
  split; [split; cbn [sequences commands update_command]; fold g|].
  - rewrite Hmap; [apply Hwf|]. intros c Hc. apply Hg, Hc.
  - rewrite Hmap; [apply Hwf|]. intros c Hc. destruct (Hg c Hc) as [[] _]. congruence.
  - intros c' (c & -> & Hc)%list_elem_of_fmap. destruct (Hg c Hc) as [[] _]. destruct (wf_counter _ Hwf c Hc) as (l & t & E & Hl).
    exists l, t. by rewrite ev_producer0, ev_sequence0.
  - apply Hwf.
  - intros c' (c & -> & Hc)%list_elem_of_fmap. destruct (wf_recorded _ Hwf c Hc) as [env He]. exists env.
    eapply recorded_evolves; [apply Hg, Hc|done].
  - intros c' (c & -> & Hc)%list_elem_of_fmap. apply Hg, Hc.
  - intros c Hc. exists (g c). split; [by apply list_elem_of_In, in_map, list_elem_of_In|apply Hg, Hc].
Qed.

(** An operation on the tables keeps the invariant and only moves commands forward,
    whether it raises or not. *)
Definition keeps {A} (m : M outbox A) : Prop := forall b, wf b -> wf (snd (m b)) /\ extends_box b (snd (m b)).

Lemma mark_sent_keeps i now : keeps (mark_execution_command_sent i now).
Proof. intros b Hwf. apply update_forward; [done|]. intros c Hc _. by apply set_sent_evolves, (wf_state b). Qed.

Lemma mark_failed_keeps i reason now : keeps (mark_execution_command_send_failed i reason now).
Proof. intros b Hwf. apply update_forward; [done|]. intros c Hc _. by apply set_failed_evolves, (wf_state b). Qed.

Lemma validate_ack_status event i status : validate_ack event = Ok (i, status) -> status ∈ ACK_STATES.
Proof.
  unfold validate_ack. intros H. do 10 bind H. apply Ok_inj in H. injection H as _ <-.
  apply refuse_Ok, negb_false_iff in B4. by apply str_in_spec.
Qed.

Lemma ack_keeps event now : keeps (apply_execution_command_ack event now).
Proof.
  intros b Hwf. unfold apply_execution_command_ack. unfold m_bind, m_lift, m_get, m_put.
  destruct (validate_ack event) as [[i status]|] eqn:Hv; [|done]. apply validate_ack_status in Hv.
  destruct (find_command b i) as [c|] eqn:Hc; [|done]. apply find_command_Some in Hc as [Hc Hi]. pose proof (wf_state _ Hwf c Hc) as Hst.
  destruct (_ && _); [done|]. rewrite (state_upper _ Hst). destruct (final (c_state c)) eqn:Hf; [by destruct (_ && _)|].
  destruct (Z.ltb_spec (rank_of status) (rank_of (c_state c))) as [|Hr]; [done|]. apply update_forward; [done|].
  intros d Hd Ed. assert (d = c) as ->; [|by apply set_ack_evolves].
  apply (NoDup_map_inj c_intent_id (commands b)); [apply Hwf|done..|by rewrite Hi].
Qed.

(** ** Reservations *)

Lemma transaction_keeps {A} (m : M outbox A) :
  (forall b a b', wf b -> m b = (Ok a, b') -> wf b' /\ extends_box b b') -> keeps (transaction m).
Proof.
  intros H b Hwf. unfold transaction. specialize (H b). destruct (m b) as [[a|e] b'] eqn:E; [by eapply H|done].
Qed.

(** What is in an envelope for the row that records it. *)
Lemma text_or_empty_stripped p k s : stripped p k "" = Ok s -> s = strip (text_or_empty (get p k)).
Proof.
  unfold stripped, text_or_empty. intros H. bind H. apply Ok_inj in H as <-. destruct (get p k); try discriminate B;
    apply Ok_inj in B as <-; [done|]. unfold py_or. simpl. by destruct s.
Qed.

Lemma command_body_intent p body : canonical_command_body p = Ok body -> get body "intent_id" = VStr (strip (text_or_empty (get p "intent_id"))).
Proof.
  unfold canonical_command_body. intros H. do 33 bind H. apply Ok_inj in H. subst body. rewrite <- (text_or_empty_stripped _ _ _ B0). done.
Qed.

Lemma config_sync_body_intent p body : canonical_config_sync_body p = Ok body -> get body "intent_id" = VStr (strip (text_or_empty (get p "intent_id"))).
Proof.
  unfold canonical_config_sync_body. intros H. do 13 bind H. apply Ok_inj in H. subst body. rewrite <- (text_or_empty_stripped _ _ _ B7). done.
Qed.

Lemma built_fields payload pid sequence ttl at_ms now env :
  build_command_envelope payload pid (VInt sequence) ttl at_ms now = Ok env ->
  get env "intent_id" = VStr (strip (text_or_empty (get payload "intent_id"))) /\
  exists created deadline, get env "created_at_ms" = VInt created /\ get env "deadline_at_ms" = VInt deadline.
Proof.
  intros H. destruct (is_config_sync payload) eqn:Hp.
  - unfold build_command_envelope in H. rewrite Hp in H.
    destruct (build_config_sync_inv _ _ _ _ _ _ _ H) as (body & p & s & t & c & Hb & _ & _ & Hs). pose proof (config_sync_body_of _ _ Hb) as Hbo.
    destruct (seal_env _ _ _ _ _ _ _ _ config_sync_envelope_of Hbo Hs) as (Hg & _ & _ & Ec & Ed).
    rewrite Hg, (config_sync_body_intent _ _ Hb); [eauto|]. rewrite (body_keys _ _ Hbo). by apply str_in_spec.
  - destruct (build_command_inv _ _ _ _ _ _ _ Hp H) as (body & p & s & t & c & Hb & _ & _ & _ & _ & _ & _ & Hs). pose proof (command_body_of _ _ Hb) as Hbo.
    destruct (seal_env _ _ _ _ _ _ _ _ command_envelope_of Hbo Hs) as (Hg & _ & _ & Ec & Ed).
    rewrite Hg, (command_body_intent _ _ Hb); [eauto|]. rewrite (body_keys _ _ Hbo). by apply str_in_spec.
Qed.

(** A reservation that succeeds: the row of the intent is there, or it is the last row
    and its sequence is the next one of its producer. *)
Lemma reserve_body_Ok payload i h pid ttl at_ms now now_ms b env b' :
  reserve_body orjson_dumps payload i h pid ttl at_ms now now_ms b = (Ok env, b') ->
  (exists c, find_command b i = Some c /\ c_command_hash c = h /\ loads_dict (c_envelope_json c) = Ok env /\ b' = b) \/
  (find_command b i = None /\ exists n row,
    n = match dict_get (sequences b) pid with Some (last, _) => last + 1 | None => 1 end /\
    build_command_envelope payload (VStr pid) (VInt n) ttl at_ms now_ms = Ok env /\ new_command orjson_dumps i pid n env now = Ok row /\
    b' = Outbox (dict_set (sequences b) pid (n, now)) (commands b ++ [row]) /\
    (forall c, c ∈ commands b -> ~ (c_producer_id c = c_producer_id row /\ c_sequence c = c_sequence row))).
Proof.
  unfold reserve_body. intros (b0 & b1 & [= <- <-] & H)%m_bind_Ok. destruct (find_command b i) as [c|] eqn:Hf.
  - left. destruct (String.eqb_spec (c_command_hash c) h) as [Eh|]; [|discriminate H]. cbn [negb] in H. injection H as H <-. by exists c.
  - right. split; [done|]. apply m_bind_Ok in H as (n & b2 & [= <- <-] & H). apply m_bind_Ok in H as (e & b3 & [= Hb <-] & H).
    apply m_bind_Ok in H as (row & b4 & [= Hr <-] & H). apply m_bind_Ok in H as ([] & b5 & Hi & [= <- <-]).
    unfold insert_command in Hi. cbn [commands sequences] in Hi. destruct (existsb _ (commands b)); [discriminate Hi|].
    destruct (existsb (fun x => _ && _) (commands b)) eqn:Es; [discriminate Hi|]. injection Hi as <-.
    eexists _, row. split; [done|]. split; [exact Hb|]. split; [exact Hr|]. split; [done|].
    intros c Hc [E1 E2]. apply not_true_iff_false in Es. apply Es, existsb_exists. exists c. split; [by apply list_elem_of_In|].
    by rewrite E1, E2, String.eqb_refl, Z.eqb_refl.
Qed.

Lemma new_command_Ok i pid n env now row : new_command orjson_dumps i pid n env now = Ok row ->
  c_intent_id row = i /\ c_producer_id row = pid /\ c_sequence row = n /\ c_command_hash row = py_str (get env "command_hash") /\
  c_state row = "READY" /\ py_int (get env "deadline_at_ms") = Ok (c_deadline_at_ms row) /\ dump (VDict env) = Ok (c_envelope_json row) /\
  c_send_attempts row = 0.
Proof. unfold new_command. intros H. do 8 bind H. apply Ok_inj in H as <-. cbn. by rewrite B0, B2. Qed.

Lemma NoDup_snoc {A} (l : list A) x : NoDup l -> x ∉ l -> NoDup (l ++ [x]).
Proof. intros Hl Hx. apply NoDup_app. split; [done|]. split; [|apply NoDup_singleton]. intros y Hy ->%list_elem_of_singleton. done. Qed.

(** The new row is recorded, and the tables with it satisfy the invariant. *)
Lemma insert_keeps payload i h pid ttl at_ms now now_ms b env row n :
  float_values payload -> wf b -> find_command b i = None -> n = match dict_get (sequences b) pid with Some (last, _) => last + 1 | None => 1 end ->
  build_command_envelope payload (VStr pid) (VInt n) ttl at_ms now_ms = Ok env -> new_command orjson_dumps i pid n env now = Ok row ->
  command_hash payload = Ok h -> i = strip (text_or_empty (get payload "intent_id")) ->
  (forall c, c ∈ commands b -> ~ (c_producer_id c = c_producer_id row /\ c_sequence c = c_sequence row)) ->
  recorded row env /\ wf (Outbox (dict_set (sequences b) pid (n, now)) (commands b ++ [row])).
Proof.
  intros Hp Hwf Hf Hn Hb Hr Hh Hi Hu. destruct (new_command_Ok _ _ _ _ _ _ Hr) as (Ri & Rp & Rs & Rh & Rst & Rd & Rj & _).
  assert (recorded row env) as Hrec.
  { destruct (built_fields _ _ _ _ _ _ _ Hb) as (Ei & c & d & _ & Ed). destruct (envelope_hash_stable _ _ _ _ _ _ _ Hb) as (h' & Hh' & Eh & _).
    rewrite Ed in Rd. cbn [py_int] in Rd. apply Ok_inj in Rd. rewrite Eh in Rh. cbn [py_str] in Rh.
    split; [exists payload, ttl, at_ms, now_ms; rewrite Rp, Rs, Rh; done|].
    pose proof (envelope_record _ _ _ _ _ _ _ Hp Hb). by rewrite Ri, Rh, <- Rd, Hi. }
  split; [done|]. assert (1 <= n) as Hpos.
  { rewrite Hn. destruct (dict_get (sequences b) pid) as [[l t]|] eqn:E; [|lia]. pose proof (wf_positive _ Hwf _ _ _ E). lia. }
  split; cbn [commands sequences].
  - rewrite map_app. apply NoDup_snoc; [apply Hwf|]. rewrite Ri. by apply find_command_None.
  - rewrite map_app. apply NoDup_snoc; [apply Hwf|]. intros (c & [= E1 E2] & Hc)%list_elem_of_fmap. by destruct (Hu c Hc).
  - intros c [Hc|Hc%list_elem_of_singleton]%elem_of_app; rewrite dict_get_set.
    + destruct (wf_counter _ Hwf c Hc) as (l & t & E & Hl). destruct (String.eqb_spec (c_producer_id c) pid) as [Ep|]; [|by exists l, t].
      exists n, now. split; [done|]. rewrite Ep in E. rewrite E in Hn. lia.
    + subst c. rewrite Rp, String.eqb_refl. exists n, now. split; [done|]. lia.
  - intros p l t. rewrite dict_get_set. destruct (String.eqb_spec p pid); [by intros [= <- _]|]. by apply Hwf.
  - intros c [Hc|Hc%list_elem_of_singleton]%elem_of_app; [by apply Hwf|]. subst c. by exists env.
  - intros c [Hc|Hc%list_elem_of_singleton]%elem_of_app; [by apply Hwf|]. subst c. rewrite Rst. by apply str_in_spec.
Qed.

Lemma snoc_extends b s c : extends_box b (Outbox s (commands b ++ [c])).
Proof. intros d Hd. exists d. split; [|done]. cbn. apply elem_of_app. by left. Qed.

Lemma reserve_keeps payload pid ttl at_ms now now_ms : float_values payload ->
  keeps (reserve_execution_command orjson_dumps payload pid ttl at_ms now now_ms).
Proof.
  intros Hp b Hwf. unfold reserve_execution_command. destruct (negb _); [done|]. unfold m_bind, m_lift at 1.
  destruct (command_hash payload) as [h|] eqn:Hh; [|done]. revert b Hwf. apply transaction_keeps.
  intros b env b' Hwf [(c & _ & _ & _ & ->)|(Hf & n & row & Hn & Hb & Hr & -> & Hu)]%reserve_body_Ok; [done|].
  split; [by eapply insert_keeps|apply snoc_extends].
Qed.

Lemma intent_id_keeps pid symbol type now : keeps (next_execution_intent_id pid symbol type now).
Proof.
  intros b Hwf. unfold next_execution_intent_id, m_bind, next_sequence, m_ret. cbn [snd]. split; [|intros c Hc; by exists c].
  set (p := pid +:+ ":intent-ids"). assert (match dict_get (sequences b) p with Some (last, _) => last | None => 0 end + 1 = 
    match dict_get (sequences b) p with Some (last, _) => last + 1 | None => 1 end) as E by (destruct (dict_get _ _) as [[]|]; lia).
  rewrite <- E. split; cbn [commands sequences]; try apply Hwf.
  - intros c Hc. destruct (wf_counter _ Hwf c Hc) as (l & t & El & Hl). rewrite dict_get_set.
    destruct (String.eqb_spec (c_producer_id c) p) as [Ep|]; [|by exists l, t]. rewrite Ep in El. rewrite El. eexists _, _. split; [done|lia].
  - intros q l t. rewrite dict_get_set. destruct (String.eqb_spec q p) as [->|]; [|by apply Hwf]. intros [= <- _].
    destruct (dict_get (sequences b) p) as [[l' t']|] eqn:El; [|lia]. pose proof (wf_positive _ Hwf _ _ _ El). lia.
Qed.

(** ** The client *)

(** A message that is the envelope of a command of the outbox. *)
Definition backed (s : client) (m : dict pyval) : Prop :=
  exists c env, c ∈ commands (box s) /\ recorded c env /\ same_dict m env.

Definition may_send (s : client) (m : dict pyval) : Prop := is_durable m = false \/ backed s m.

(** The invariant of a client: its tables, and whatever has ever been on the wire. *)
Definition ok (s : client) : Prop := wf (box s) /\ forall m, m ∈ wire s -> may_send s m.

(** The commands move forward and the wire is only extended. *)
Definition advances (s s' : client) : Prop := extends_box (box s) (box s') /\ exists l, wire s' = wire s ++ l.

#[local] Instance advances_preorder : PreOrder advances.
Proof.
  split; [intros s; split; [done|exists []; by rewrite app_nil_r]|]. intros s1 s2 s3 [B1 [l1 W1]] [B2 [l2 W2]].
  split; [by etransitivity|]. exists (l1 ++ l2). by rewrite W2, W1, app_assoc.
Qed.

Lemma backed_advances s s' m : advances s s' -> backed s m -> backed s' m.
Proof.
  intros [Hb _] (c & env & Hc & Hr & Hm). destruct (Hb c Hc) as (d & Hd & He). exists d, env.
  split; [done|]. split; [by eapply recorded_evolves|done].
Qed.

Lemma may_send_advances s s' m : advances s s' -> may_send s m -> may_send s' m.
Proof. intros Ha [H|H]; [by left|right]. by eapply backed_advances. Qed.

(** A call keeps the invariant and advances, whatever it returns or raises. *)
Definition safe {A} (P : client -> Prop) (m : M client A) (Q : A -> client -> Prop) : Prop := forall s, ok s -> P s ->
  ok (snd (m s)) /\ advances s (snd (m s)) /\ forall a, fst (m s) = Ok a -> Q a (snd (m s)).

Lemma call_bind {A B} P (m : M client A) Q (f : A -> M client B) R :
  safe P m Q -> (forall a, safe (Q a) (f a) R) -> safe P (m_bind m f) R.
Proof.
  intros Hm Hf s Hs HP. destruct (Hm s Hs HP) as (O1 & A1 & Q1). unfold m_bind. destruct (m s) as [[a|e] s1]; [|done].
  destruct (Hf a s1 O1 (Q1 a eq_refl)) as (O2 & A2 & R2). split; [done|]. split; [by etransitivity|done].
Qed.

Lemma call_weaken {A} (P P' : client -> Prop) (m : M client A) (Q Q' : A -> client -> Prop) :
  (forall s, P' s -> P s) -> (forall a s, Q a s -> Q' a s) -> safe P m Q -> safe P' m Q'.
Proof. intros HP HQ H s Hs Hp. destruct (H s Hs (HP s Hp)) as (O & A0 & R). split; [done|]. split; [done|]. intros a Ha. by apply HQ, R. Qed.

Lemma call_ret {A} (P : client -> Prop) (a : A) : safe P (m_ret a) (fun _ => P).
Proof. intros s Hs HP. done. Qed.

Lemma call_lift {A} (P : client -> Prop) (r : result A) : safe P (m_lift r) (fun a s => r = Ok a /\ P s).
Proof. intros s Hs HP. done. Qed.

Lemma call_get (P : client -> Prop) : safe P m_get (fun a s => a = s /\ P s).
Proof. intros s Hs HP. split; [done|]. split; [done|]. by intros a [= <-]. Qed.

(** A stable assertion survives a call on the tables. *)
Definition stable (P : client -> Prop) : Prop := forall s s', advances s s' -> P s -> P s'.

Lemma stable_may_send m : stable (fun s => may_send s m).
Proof. intros s s' H. by apply may_send_advances. Qed.

Lemma safe_on_box {A} P (m : M outbox A) : stable P -> keeps m -> safe P (on_box m) (fun _ => P).
Proof.
  intros HP Hm s [Hwf Hw] Hp. unfold on_box. destruct (Hm _ Hwf) as [W E]. destruct (m (box s)) as [r b]. cbn [fst snd] in *.
  assert (advances s (set_box b s)) as Ha by (split; [done|exists []; by rewrite app_nil_r]).
  split; [split; [done|]|split; [done|]].
  - intros msg Hmsg. eapply may_send_advances; [exact Ha|]. by apply Hw.
  - intros a _. by eapply HP.
Qed.

Lemma safe_socket P m : stable P -> safe (fun s => may_send s m /\ P s) (socket_send packb m) (fun _ => P).
Proof.
  intros HP s [Hwf Hw] [Hm Hp]. unfold socket_send.
  assert (forall os, advances s (Client (box s) (wire s) os)) as A0 by (intros os; split; [done|exists []; by rewrite app_nil_r]).
  assert (forall os, advances s (Client (box s) (wire s ++ [m]) os)) as A1 by (intros os; split; [done|by exists [m]]).
  assert (forall os, ok (Client (box s) (wire s) os)) as O0 by done.
  assert (forall os, ok (Client (box s) (wire s ++ [m]) os)) as O1.
  { intros os. split; [done|]. cbn [wire]. intros x [Hx|Hx%list_elem_of_singleton]%elem_of_app; [by apply Hw|by subst x]. }
  destruct (packb (VDict m)); [|done]. destruct (outcomes s) as [|[] os]; cbn [fst snd].
  all: split; [first [done|apply O0|apply O1]|split; [first [apply A0|apply A1|reflexivity]|intros x _; eapply HP; [|exact Hp]]].
  all: first [apply A0|apply A1|reflexivity].
Qed.

Lemma safe_send_envelope cfg m now P : stable P -> safe (fun s => may_send s m /\ P s) (_send_envelope packb cfg m now) (fun _ => P).
Proof.
  intros HP. unfold _send_envelope. eapply call_bind; [by apply safe_socket|]. intros [text|].
  all: apply (call_bind P _ (fun _ => P)); [|intros _; apply call_ret]; destruct (has_writer cfg); [|apply call_ret];
    apply safe_on_box; [done|apply mark_failed_keeps || apply mark_sent_keeps].
Qed.

Definition any (s : client) : Prop := True.
Lemma stable_any : stable any.
Proof. done. Qed.

(** What a reservation returns may be sent. *)
Lemma loads_recorded c env m : recorded c env -> loads_dict (c_envelope_json c) = Ok m -> same_dict m env.
Proof.
  intros (_ & _ & _ & _ & Hj & Hd) Hl. unfold loads_dict in Hl. bind Hl. destruct (dump_reads _ _ Hj Hd) as (d' & Hd' & Hs). rewrite Hd' in B.
  apply Ok_inj in B as <-. by apply Ok_inj in Hl as <-.
Qed.

Lemma reserve_row payload pid ttl at_ms now now_ms b env b' : float_values payload -> wf b ->
  reserve_execution_command orjson_dumps payload pid ttl at_ms now now_ms b = (Ok env, b') ->
  nonempty (strip (text_or_empty (get payload "intent_id"))) = true /\
  exists c e, command_hash payload = Ok (c_command_hash c) /\ c ∈ commands b' /\
    c_intent_id c = strip (text_or_empty (get payload "intent_id")) /\ recorded c e /\ same_dict env e.
Proof.
  intros Hp Hwf H. unfold reserve_execution_command in H. set (i := strip (text_or_empty (get payload "intent_id"))) in *.
  destruct (nonempty i) eqn:Hn; [|discriminate H]. split; [done|]. cbn [negb] in H. unfold m_bind, m_lift at 1 in H.
  destruct (command_hash payload) as [h|] eqn:Hh; [|discriminate H]. unfold transaction in H.
  destruct (reserve_body _ _ _ _ _ _ _ _ _ b) as [[e0|] b1] eqn:E; [|discriminate H]. injection H as -> ->.
  apply reserve_body_Ok in E as [(c & Hf & Hhc & Hl & ->)|(Hf & n & row & Hn' & Hb & Hr & -> & Hu)].
  - apply find_command_Some in Hf as [Hc Hi]. destruct (wf_recorded _ Hwf c Hc) as [e He]. exists c, e. rewrite Hhc.
    do 4 (split; [done|]). by eapply loads_recorded.
  - destruct (insert_keeps _ _ _ _ _ _ _ _ _ _ _ _ Hp Hwf Hf Hn' Hb Hr Hh eq_refl Hu) as [Hrec _].
    destruct (new_command_Ok _ _ _ _ _ _ Hr) as (Ri & _ & _ & Rh & _). exists row, env. split.
    + rewrite Rh. destruct (envelope_hash_stable _ _ _ _ _ _ _ Hb) as (h' & Hh2 & Eh & _). rewrite Eh. cbn [py_str]. by rewrite <- Hh2, Hh.
    + split; [cbn; apply elem_of_app; right; by left|]. by split.
Qed.

Lemma command_payload_floats context payload : float_values context -> float_values payload -> float_values (command_payload context payload).
Proof.
  intros Hc Hp. unfold command_payload.
  assert (forall l acc, float_values l -> float_values acc -> float_values (fold_left (fun a kv => dict_set a (fst kv) (snd kv)) l acc)) as Hf.
  { induction l as [|[k v] l IH]; intros acc Hl Ha; [done|]. apply Forall_cons in Hl as [Hv Hl]. cbn [fold_left]. apply IH; [done|].
    by apply float_values_set. }
  assert (float_values (fold_left (fun a kv => dict_set a (fst kv) (snd kv)) payload (dict_of context))) as Hm.
  { apply Hf; [done|]. apply Hf; [done|constructor]. }
  destruct (dict_has _ _); [done|]. by apply float_values_set.
Qed.

(** The floats of a call. *)
Definition call_floats (cfg : settings) (payload : dict pyval) : Prop :=
  float_values payload /\ forall context, command_context cfg = Ok context -> float_values context.

Lemma safe_reserve cfg payload now now_ms : call_floats cfg payload ->
  safe any (or_refused (reserve_for orjson_dumps cfg payload now now_ms)) (fun o s => forall env, o = Some env -> may_send s env).
Proof.
  intros [Hp Hc] s Hs _. unfold or_refused, reserve_for, m_bind, m_lift. destruct (command_context cfg) as [context|e].
  2: { destruct (refusals _); cbn; split; try done; split; try done; by intros o [= <-]. }
  pose proof (command_payload_floats _ _ (Hc context eq_refl) Hp) as Hf.
  set (p := command_payload context payload) in *. destruct Hs as [Hwf Hw].
  pose proof (safe_on_box any _ stable_any (reserve_keeps p (client_producer_id cfg) (VInt (client_ttl_ms cfg)) VNone now now_ms Hf) s (conj Hwf Hw) I) as (O & A0 & _).
  unfold on_box in *. destruct (reserve_execution_command _ _ _ _ _ _ _ (box s)) as [[env|e] b'] eqn:E; cbn [fst snd] in *.
  - split; [done|]. split; [done|]. intros o [= <-] env' [= <-]. right.
    apply reserve_row in E as (_ & c & e & _ & Hin & _ & He); [by exists c, e|done..].
  - destruct (refusals _); cbn; split; try done; split; try done; by intros o [= <-].
Qed.

Lemma safe_send_order cfg payload now now_ms : call_floats cfg payload -> safe any (send_order_intent orjson_dumps packb cfg payload now now_ms) (fun _ => any).
Proof.
  intros Hp. unfold send_order_intent. destruct (is_durable payload) eqn:Hd.
  - destruct (negb _); [apply call_ret|]. eapply call_bind; [by apply safe_reserve|]. intros [env|]; [|apply (call_weaken any _ _ (fun _ => any)); [done|done|apply call_ret]].
    eapply call_weaken; [| |apply (safe_send_envelope cfg env now any stable_any)]; [|done]. intros s H. split; [by apply H|done].
  - unfold _send_raw. apply (call_bind _ _ (fun _ => any)); [|intros o; apply call_ret].
    eapply call_weaken; [| |apply (safe_socket any payload stable_any)]; [|done]. intros s _. split; [by left|done].
Qed.

(** The rows of a replay, in the state they were read from and in every later one. *)
Definition rows_of (rows : list (command * dict pyval)) (s : client) : Prop := Forall (fun r => may_send s (snd r)) rows.

Lemma stable_rows rows : stable (rows_of rows).
Proof. intros s s' Ha. intros H. eapply Forall_impl; [exact H|]. intros r. by apply may_send_advances. Qed.

Lemma safe_replay_row cfg now_ms allow now env r P : stable P ->
  safe (fun s => may_send s env /\ P s) (replay_row packb cfg now_ms allow now env r) (fun _ => P).
Proof.
  intros HP. unfold replay_row. eapply call_bind; [apply call_lift|]. intros d. destruct (d <=? now_ms).
  - eapply call_weaken with (P := P) (Q := fun _ => P); [tauto|done|].
    apply (call_bind P _ (fun _ => P)); [apply safe_on_box; [done|apply mark_failed_keeps]|]. intros _. apply call_ret.
  - destruct (_ && _); [eapply call_weaken with (P := P) (Q := fun _ => P); [tauto|done|apply call_ret]|].
    apply (call_bind _ _ (fun _ => P)); [eapply call_weaken; [| |by apply (safe_send_envelope cfg env now P)]; [tauto|done]|]. intros sent. apply call_ret.
Qed.

Lemma safe_replay_rows cfg now_ms allow now rows : forall r,
  safe (rows_of rows) (replay_rows packb cfg now_ms allow now rows r) (fun _ => any).
Proof.
  induction rows as [|[c env] rows IH]; intros r; cbn [replay_rows]; [apply (call_weaken any _ _ (fun _ => any)); [done|done|apply call_ret]|].
  apply (call_bind _ _ (fun _ => rows_of rows)); [|apply IH]. eapply call_weaken; [| |by apply (safe_replay_row cfg now_ms allow now env r (rows_of rows)), stable_rows]; [|done].
  intros s H. apply Forall_cons in H. exact H.
Qed.

Lemma replayable_backed s rows : ok s -> get_replayable_execution_commands (box s) = Ok rows -> rows_of rows s.
Proof.
  intros [Hwf _] H. unfold get_replayable_execution_commands in H. assert (forall c, c ∈ pending (box s) -> c ∈ commands (box s)) as Hin.
  { intros c. unfold pending. rewrite elem_of_sort_by, elem_of_filter_bool. by intros [? _]. }
  revert rows H Hin. generalize (pending (box s)) as l. induction l as [|c l IH]; intros rows H Hin; cbn in H; [by apply Ok_inj in H as <-; constructor|].
  bind H. bind H. apply Ok_inj in H as <-. apply res_bind_Ok in B as (env & Hl & [= <-]). apply Forall_cons. split.
  - right. destruct (wf_recorded _ Hwf c) as [e He]; [apply Hin; by left|]. exists c, e. split; [apply Hin; by left|]. split; [done|].
    cbn [snd]. by eapply loads_recorded.
  - apply IH; [done|]. intros c' Hc'. apply Hin. by right.
Qed.

Lemma safe_replay cfg now_ms allow now : safe any (replay_pending packb cfg now_ms allow now) (fun _ => any).
Proof.
  unfold replay_pending. destruct (negb _); [apply call_ret|]. intros s Hs _. unfold m_bind, m_get, m_lift.
  destruct (get_replayable_execution_commands (box s)) as [rows|e] eqn:E; [|done].
  by apply safe_replay_rows, replayable_backed.
Qed.

Lemma step_ok cfg s s' : ok s -> step orjson_dumps packb cfg s s' -> ok s' /\ advances s s'.
Proof.
  intros Hs. destruct 1 as [payload now now_ms s Hp Hc|event now s|now_ms allow now s|symbol ty now s|os s].
  - destruct (safe_send_order cfg payload now now_ms (conj Hp Hc) s Hs I) as (? & ? & _). done.
  - unfold handle_ack. destruct (negb _); [done|].
    destruct (safe_on_box any _ stable_any (ack_keeps (List.filter (fun kv => negb (str_in (fst kv) _TELEMETRY_TRANSPORT_FIELDS)) event) now) s Hs I) as (? & ? & _). done.
  - destruct (safe_replay cfg now_ms allow now s Hs I) as (? & ? & _). done.
  - destruct (safe_on_box any _ stable_any (intent_id_keeps (client_producer_id cfg) symbol ty now) s Hs I) as (? & ? & _). done.
  - split; [done|]. split; [done|]. exists []. by rewrite app_nil_r.
Qed.

Lemma reachable_ok s : reachable orjson_dumps packb s -> ok s.
Proof.
  induction 1 as [|cfg s s' _ IH Hst]; [|by eapply step_ok]. split; [apply wf_empty|]. intros m Hm. by apply elem_of_nil in Hm.
Qed.

(** ** The guarantees *)

(** C14: in every state a client reaches, restarts and kills included, intents are unique,
    the sequences of a producer are unique and at most its counter, and every row holds
    an envelope the protocol accepted under the sequence of the row. *)
Theorem outbox_invariant s : reachable orjson_dumps packb s -> wf (box s).
Proof. intros H. by apply reachable_ok in H as [? _]. Qed.

(** C9: whatever is on the wire with a durable intent is the envelope of a committed row:
    no risk-changing command is transmitted that the outbox does not know. *)
Theorem only_recorded_commands_are_sent s m : reachable orjson_dumps packb s -> m ∈ wire s -> is_durable m = true ->
  exists c env, c ∈ commands (box s) /\ recorded c env /\ same_dict m env.
Proof. intros [_ Hw]%reachable_ok Hm Hd. by destruct (Hw m Hm) as [H|H]; [rewrite H in Hd|]. Qed.

Lemma recorded_unique c e1 e2 : recorded c e1 -> recorded c e2 -> same_dict e1 e2.
Proof.
  intros (_ & _ & _ & _ & J1 & D1) (_ & _ & _ & _ & J2 & D2).
  destruct (dump_reads _ _ J1 D1) as (x & L1 & S1). destruct (dump_reads _ _ J2 D2) as (y & L2 & S2).
  rewrite L1 in L2. injection L2 as <-. etransitivity; [symmetry; exact S1|exact S2].
Qed.

(** C10: an intent has one content: two durable messages with one intent id are the same
    command, however often and by whichever process they were sent. *)
Theorem intent_has_one_content s m1 m2 : reachable orjson_dumps packb s -> m1 ∈ wire s -> m2 ∈ wire s ->
  is_durable m1 = true -> is_durable m2 = true -> get m1 "intent_id" = get m2 "intent_id" -> same_dict m1 m2.
Proof.
  intros Hr H1 H2 D1 D2 E. pose proof (reachable_ok s Hr) as [Hwf Hw].
  destruct (Hw m1 H1) as [F|(c1 & e1 & C1 & R1 & S1)]; [by rewrite F in D1|].
  destruct (Hw m2 H2) as [F|(c2 & e2 & C2 & R2 & S2)]; [by rewrite F in D2|].
  assert (c1 = c2) as <-.
  { apply (NoDup_map_inj c_intent_id (commands (box s))); [apply Hwf|done..|]. rewrite S1, S2 in E.
    destruct R1 as (_ & I1 & _), R2 as (_ & I2 & _). rewrite I1, I2 in E. by injection E. }
  rewrite S1, S2. by eapply recorded_unique.
Qed.

(** C13: whatever happens afterwards, a command keeps its identity, its sequence and its
    envelope; once acknowledged it never goes back, and a final one never changes its state. *)
Theorem commands_only_advance s s' c : reachable orjson_dumps packb s ->
  rtc (fun x y => exists cfg, step orjson_dumps packb cfg x y) s s' -> c ∈ commands (box s) ->
  exists d, d ∈ commands (box s') /\ evolves c d.
Proof.
  intros Hr Hs Hc. apply reachable_ok in Hr. revert c Hc. induction Hs as [x|x y z [cfg Hxy] _ IH]; intros c Hc; [by exists c|].
  destruct (step_ok cfg x y Hr Hxy) as [Hy [He _]]. destruct (He c Hc) as (d & Hd & E1). destruct (IH Hy d Hd) as (e & Hin & E2).
  exists e. split; [done|by etransitivity].
Qed.

(** *** Reservations *)

(** A reservation that returned an envelope returns it again in every later state, for
    every payload with the same hash, and changes nothing; another command under its
    intent is refused and changes nothing. *)
Theorem reserve_is_idempotent payload pid ttl at_ms now now_ms b env b' : float_values payload -> wf b ->
  reserve_execution_command orjson_dumps payload pid ttl at_ms now now_ms b = (Ok env, b') ->
  forall b'' payload' pid' ttl' at_ms' now' now_ms', wf b'' -> extends_box b' b'' ->
  strip (text_or_empty (get payload' "intent_id")) = strip (text_or_empty (get payload "intent_id")) ->
  (command_hash payload' = command_hash payload ->
   exists env', reserve_execution_command orjson_dumps payload' pid' ttl' at_ms' now' now_ms' b'' = (Ok env', b'') /\ same_dict env' env) /\
  (forall h, command_hash payload' = Ok h -> command_hash payload <> Ok h ->
   exists msg, reserve_execution_command orjson_dumps payload' pid' ttl' at_ms' now' now_ms' b'' = (Err (Exn ValueError msg), b'')).
Proof.
  intros Hp Hwf H b'' payload' pid' ttl' at_ms' now' now_ms' Hwf'' Hext Hid. set (i := strip (text_or_empty (get payload "intent_id"))) in *.
  destruct (reserve_row _ _ _ _ _ _ _ _ _ Hp Hwf H) as (Hne & c & e & Hh & Hc & Hi & Hrec & Hsame). fold i in Hne, Hi.
  destruct (Hext c Hc) as (d & Hd & Hev). pose proof (recorded_evolves _ _ _ Hev Hrec) as Hrd. destruct Hev.
  assert (find_command b'' i = Some d) as Hfd.
  { destruct (find_command b'' i) as [x|] eqn:Hf; [f_equal|by apply find_command_None in Hf; destruct Hf; apply list_elem_of_fmap; exists d; rewrite ev_intent_id0].
    apply find_command_Some in Hf as [Hx Ex]. apply (NoDup_map_inj c_intent_id (commands b'')); [apply Hwf''|done..|by rewrite Ex, ev_intent_id0]. }
  assert (exists m, loads_dict (c_envelope_json d) = Ok m /\ same_dict m e) as (m & Hm & Hme).
  { destruct Hrd as (_ & _ & _ & _ & Hj & Hdump). destruct (dump_reads _ _ Hj Hdump) as (m & Hl & Hs). exists m. unfold loads_dict. by rewrite Hl. }
  unfold reserve_execution_command. rewrite Hid. fold i. rewrite Hne. cbn [negb].
  unfold m_bind, m_lift, transaction, reserve_body, m_get, m_bind. split.
  - intros Eh. rewrite Eh, Hh. rewrite Hfd, ev_hash0, String.eqb_refl. cbn. rewrite Hm. exists m. split; [done|]. by rewrite Hme, Hsame.
  - intros h Eh Hne'. rewrite Eh. rewrite Hfd, ev_hash0. destruct (String.eqb_spec (c_command_hash c) h) as [<-|]; [done|]. by eexists.
Qed.

(** *** Replays *)

(** The row is still in time, and it is allowed to raise the exposure or does not. *)
Definition sendable (now_ms : Z) (allow_risk_increase : bool) (r : command * dict pyval) : bool :=
  (now_ms <? c_deadline_at_ms (fst r)) &&
  (allow_risk_increase || negb (str_in (upper (text_or_empty (get (snd r) "intent"))) ["ENTER_LONG"; "ENTER_SHORT"])).

Definition sendables (now_ms : Z) (allow : bool) (rows : list (command * dict pyval)) : list (dict pyval) :=
  map snd (List.filter (sendable now_ms allow) rows).

Lemma replay_deadline r : (exists e, recorded (fst r) e /\ same_dict (snd r) e) ->
  py_int (py_or (get (snd r) "deadline_at_ms") (VInt 0)) = Ok (c_deadline_at_ms (fst r)).
Proof.
  intros (e & (_ & _ & _ & Hd & _) & Hs). rewrite Hs, Hd. unfold py_or. cbn. by destruct (Z.eqb_spec (c_deadline_at_ms (fst r)) 0) as [->|].
Qed.

(** What a transmission puts on the wire: nothing or the message, and the message when
    the socket takes it. *)
Lemma send_envelope_wire cfg m now s : let '(r, s') := _send_envelope packb cfg m now s in
  (wire s' = wire s \/ wire s' = wire s ++ [m]) /\
  (is_ok (packb (VDict m)) = true -> forall os, outcomes s = Sent :: os -> r = Ok true /\ wire s' = wire s ++ [m] /\ outcomes s' = os).
Proof.
  unfold _send_envelope, m_bind, socket_send. destruct (packb (VDict m)); [|split; [by left|done]].
  destruct (outcomes s) as [|[] os]; destruct (has_writer cfg); cbn; (split; [first [by left|by right]|]); try done; by intros _ os' [= <-].
Qed.

(** The messages [msgpack] encodes. *)
Definition packs (m : dict pyval) : Prop := is_ok (packb (VDict m)) = true.

Definition row_backed (r : command * dict pyval) : Prop := exists e, recorded (fst r) e /\ same_dict (snd r) e.

Lemma replay_row_wire cfg now_ms allow now c m r s : row_backed (c, m) ->
  let '(res, s') := replay_row packb cfg now_ms allow now m r s in
  if sendable now_ms allow (c, m) then
    (wire s' = wire s \/ wire s' = wire s ++ [m]) /\
    (is_ok (packb (VDict m)) = true -> forall os, outcomes s = Sent :: os ->
     exists r', res = Ok r' /\ r_sent r' = r_sent r + 1 /\ wire s' = wire s ++ [m] /\ outcomes s' = os)
  else wire s' = wire s /\ outcomes s' = outcomes s /\ exists r', res = Ok r' /\ r_sent r' = r_sent r.
Proof.
  intros Hb. pose proof (replay_deadline _ Hb) as Hd. cbn [fst snd] in Hd. unfold replay_row, sendable. cbn [fst snd].
  unfold m_bind at 1, m_lift. rewrite Hd. rewrite Z.ltb_antisym. destruct (c_deadline_at_ms c <=? now_ms); cbn [negb andb].
  { cbn. split; [done|]. split; [done|]. by eexists. }
  destruct allow; cbn [negb andb orb]; [|destruct (str_in _ _); cbn [negb]; [cbn; split; [done|]; split; [done|]; by eexists|]].
  all: pose proof (send_envelope_wire cfg m now s) as H; unfold m_bind at 1; destruct (_send_envelope packb cfg m now s) as [[b|e] s'];
    destruct H as [Hw Hs]; (split; [exact Hw|]); intros Hp os Ho; destruct (Hs Hp os Ho) as ([= ->] & ? & ?); cbn; by eexists.
Qed.

Lemma replay_rows_wire cfg now_ms allow now rows : forall r s, Forall row_backed rows ->
  let '(res, s') := replay_rows packb cfg now_ms allow now rows r s in
  (exists l, wire s' = wire s ++ l /\ sublist l (sendables now_ms allow rows)) /\
  (Forall packs (sendables now_ms allow rows) -> forall os, outcomes s = replicate (length (sendables now_ms allow rows)) Sent ++ os ->
   exists r', res = Ok r' /\ r_sent r' = r_sent r + Z.of_nat (length (sendables now_ms allow rows)) /\
     wire s' = wire s ++ sendables now_ms allow rows).
Proof.
  induction rows as [|[c m] rows IH]; intros r s Hb; cbn [replay_rows].
  { split; [exists []; by rewrite app_nil_r|]. intros _ os _. exists r. cbn. rewrite app_nil_r. split; [done|]. by split; [lia|]. }
  apply Forall_cons in Hb as [Hb Hbs]. pose proof (replay_row_wire cfg now_ms allow now c m r s Hb) as H1. unfold m_bind.
  unfold sendables. cbn [List.filter]. fold (sendables now_ms allow rows).
  destruct (replay_row packb cfg now_ms allow now m r s) as [[r1|e] s1].
  - specialize (IH r1 s1 Hbs). destruct (replay_rows _ _ _ _ _ _ r1 s1) as [res s2]. destruct IH as [(l & Hl & Hsub) Hall].
    destruct (sendable now_ms allow (c, m)); cbn [map snd length replicate app]; fold (sendables now_ms allow rows).
    + destruct H1 as [Hw Hsent]. split.
      * destruct Hw as [Hw|Hw]; rewrite Hw in Hl; [exists l|exists (m :: l); rewrite <- app_assoc in Hl]; (split; [exact Hl|]); by constructor.
      * intros [Hm Hp]%Forall_cons os Ho. destruct (Hsent Hm _ Ho) as (r' & [= <-] & Hn & Hw1 & Ho1). destruct (Hall Hp os Ho1) as (r2 & -> & Hn2 & Hw2).
        exists r2. split; [done|]. split; [lia|]. by rewrite Hw2, Hw1, <- app_assoc.
    + destruct H1 as (Hw & Ho1 & r' & [= <-] & Hn). rewrite Hw in *. split; [by exists l|].
      intros Hp os Ho. rewrite Ho1 in Hall. destruct (Hall Hp os Ho) as (r2 & -> & Hn2 & Hw2). exists r2. split; [done|]. by rewrite <- Hn.
  - destruct (sendable now_ms allow (c, m)); cbn [map snd length replicate app]; fold (sendables now_ms allow rows).
    + destruct H1 as [Hw Hsent]. split; [|by intros [Hm Hp]%Forall_cons os Ho; destruct (Hsent Hm _ Ho) as (? & [=] & _)].
      destruct Hw as [Hw|Hw]; [exists []|exists [m]]; rewrite Hw; (split; [by rewrite ?app_nil_r|]); [apply sublist_nil_l|].
      constructor. apply sublist_nil_l.
    + by destruct H1 as (_ & _ & ? & [=] & _).
Qed.

Lemma replayable_rows b : wf b -> exists rows, get_replayable_execution_commands b = Ok rows /\ map fst rows = pending b /\ Forall row_backed rows.
Proof.
  intros Hwf. unfold get_replayable_execution_commands. assert (forall c, c ∈ pending b -> exists e, recorded c e) as Hin.
  { intros c. unfold pending. rewrite elem_of_sort_by, elem_of_filter_bool. intros [Hc _]. by apply (wf_recorded _ Hwf). }
  induction (pending b) as [|c l IH]; [by exists []|]. destruct IH as (rows & Hr & Hm & Hb); [intros c' Hc'; apply Hin; by right|].
  destruct (Hin c) as [e He]; [by left|]. pose proof He as (_ & _ & _ & _ & Hj & Hd).
  destruct (dump_reads _ _ Hj Hd) as (d & Hl & Hs).
  exists ((c, d) :: rows). cbn [res_map_list]. unfold loads_dict at 1. rewrite Hl. cbn [res_bind]. rewrite Hr. cbn [res_bind].
  split; [done|]. split; [cbn; by rewrite Hm|]. constructor; [by exists e|done].
Qed.

Lemma command_leb_total a b : command_leb a b = false -> command_leb b a = true.
Proof.
  unfold command_leb. rewrite (String.eqb_sym (c_producer_id b)). destruct (String.eqb _ _); [|apply string_leb_total].
  rewrite Z.leb_gt, Z.leb_le. lia.
Qed.

Lemma command_leb_trans a b c : command_leb a b = true -> command_leb b c = true -> command_leb a c = true.
Proof.
  unfold command_leb. destruct (String.eqb_spec (c_producer_id a) (c_producer_id b)) as [E1|N1], (String.eqb_spec (c_producer_id b) (c_producer_id c)) as [E2|N2].
  - rewrite E1, E2, String.eqb_refl, !Z.leb_le. lia.
  - rewrite E1. intros _ H. by destruct (String.eqb_spec (c_producer_id b) (c_producer_id c)).
  - rewrite <- E2. intros H _. by destruct (String.eqb_spec (c_producer_id a) (c_producer_id b)).
  - intros H1 H2. destruct (String.eqb_spec (c_producer_id a) (c_producer_id c)) as [E|]; [|by eapply string_leb_trans].
    rewrite E in H1. by destruct (string_leb_antisym _ _ H1 H2).
Qed.

(** C12: a replay reads the commands that are not final, in the order of their sequences, and
    sends no other message than their envelopes, in that order, leaving out those that
    are past their deadline and, when exposure may not grow, every entry; if [msgpack]
    encodes the others and the socket takes them, it sends them all. *)
Theorem replay_sends_exactly cfg now_ms allow now s : reachable orjson_dumps packb s -> has_writer cfg = true ->
  exists rows, get_replayable_execution_commands (box s) = Ok rows /\ map fst rows = pending (box s) /\
  StronglySorted (fun a b => command_leb a b = true) (pending (box s)) /\
  let '(res, s') := replay_pending packb cfg now_ms allow now s in
  (exists l, wire s' = wire s ++ l /\ sublist l (sendables now_ms allow rows)) /\
  (Forall packs (sendables now_ms allow rows) -> forall os, outcomes s = replicate (length (sendables now_ms allow rows)) Sent ++ os ->
   exists r, res = Ok r /\ r_sent r = Z.of_nat (length (sendables now_ms allow rows)) /\ wire s' = wire s ++ sendables now_ms allow rows).
Proof.
  intros [Hwf _]%reachable_ok Hc. destruct (replayable_rows _ Hwf) as (rows & Hr & Hm & Hb). exists rows. split; [done|]. split; [done|].
  split; [apply sort_by_sorted; [apply command_leb_total|apply command_leb_trans]|]. unfold replay_pending. rewrite Hc. cbn [negb]. unfold m_bind, m_get, m_lift. rewrite Hr.
  exact (replay_rows_wire cfg now_ms allow now rows (Replayed 0 0 0 0) s Hb).
Qed.
End Facts.

(** ** A concrete outbox *)

Definition scalar (v : pyval) : bool := match v with VList _ | VDict _ => false | _ => true end.

(** Compact JSON of a dictionary without nested containers. *)
Definition ex_dump (v : pyval) : result string :=
  match v with
  | VDict d => if decoded v && forallb (fun kv => scalar (snd kv)) d then json_dumps_raw v else raise TypeError "not serializable"
  | _ => raise TypeError "not serializable"
  end.

Definition ex_orjson : option (pyval -> result string) := Some ex_dump.

Lemma dict_get_perm (d e : dict pyval) : NoDup (dict_keys d) -> e ≡ₚ d -> same_dict e d.
Proof.
  intros Hn Hp k. destruct (dict_get d k) as [v|] eqn:E.
  - apply dict_get_In; [|rewrite Hp; by apply dict_get_elem]. unfold dict_keys in *. by rewrite (Permutation_map fst Hp).
  - apply dict_get_None in E. apply dict_get_None. intros H. apply E. unfold dict_keys in *. by rewrite <- (Permutation_map fst Hp).
Qed.

Lemma canon_scalars d : forallb (fun kv => scalar (snd kv)) d = true -> canon (VDict d) = VDict (sort_by key_leb d).
Proof.
  intros H. cbn [canon]. do 2 f_equal. rewrite <- (map_id d) at 2. apply map_ext_in. intros [k v] Hin.
  rewrite forallb_forall in H. specialize (H _ Hin). by destruct v.
Qed.

Lemma ex_dump_reads d s : json_record d -> _json_dump ex_orjson (VDict d) = Ok s -> exists d', json_loads s = Ok (VDict d') /\ same_dict d' d.
Proof.
  intros _. unfold ex_orjson, _json_dump, ex_dump. destruct (decoded (VDict d)) eqn:Hd; [|done]. destruct (forallb _ d) eqn:Hs; [|done]. cbn [andb]. intros H.
  destruct (canonical_json_roundtrip _ Hd) as (s' & Hs' & Hl). rewrite H in Hs'. injection Hs' as <-. rewrite (canon_scalars d Hs) in Hl.
  exists (sort_by key_leb d). split; [done|]. apply dict_get_perm; [|apply sort_by_perm].
  cbn [decoded] in Hd. apply andb_true_iff in Hd as [Hd _]. by apply bool_decide_eq_true in Hd.
Qed.

(** Without [orjson] the envelope of an entry reads back too. *)
Example fallback_reads_back :
  (let! env := ex_sealed ex_entry in let! text := _json_dump None (VDict env) in json_loads text)
  = (let! env := ex_sealed ex_entry in Ok (VDict env)).
Proof. vm_compute. reflexivity. Qed.

Definition ex_packb (v : pyval) : result string := Ok "".

Definition ex_cfg : settings := Settings true "trader" 5000 (Ok []).

Definition ex_start : client := Client (Outbox [] []) [] [Sent; Sent].

(** An entry is sent, and the trader is killed; its successor replays the outbox. *)
Definition ex_sent : client := snd (send_order_intent ex_orjson ex_packb ex_cfg ex_entry "t0" 1700000000000 ex_start).
Definition ex_restarted (now_ms : Z) : client := snd (replay_pending ex_packb ex_cfg now_ms true "t1" ex_sent).

(** The floats of the entry, in its context, are doubles. *)
Lemma float_text_value r : repr_of r = r -> is_ok (float_of_str r) = true -> valid_float (flit r) = true -> float_value (VFloat r).
Proof.
  unfold repr_of, flit. destruct (float_of_str r) as [x|]; [|done]. intros E _ Hv. by exists x.
Qed.

Lemma ex_entry_floats : float_values ex_entry.
Proof.
  unfold ex_entry, ex_context. cbn [app].
  repeat (apply Forall_cons; split; [first [exact I|apply float_text_value; vm_compute; reflexivity]|]). apply Forall_nil_2.
Qed.

Lemma ex_sent_reachable : reachable ex_orjson ex_packb ex_sent.
Proof.
  apply (reach_step _ _ ex_cfg ex_start); [|apply step_send; [exact ex_entry_floats|intros context [= <-]; apply Forall_nil_2]]. apply (reach_step _ _ ex_cfg new_client); [constructor|].
  exact (step_socket ex_orjson ex_packb ex_cfg [Sent; Sent] new_client).
Qed.

Lemma ex_restarted_reachable now_ms : reachable ex_orjson ex_packb (ex_restarted now_ms).
Proof. apply (reach_step _ _ ex_cfg ex_sent); [apply ex_sent_reachable|apply step_replay]. Qed.

(** One durable message on the wire, one pending row in time, and the socket takes another. *)
Lemma ex_sent_check :
  match wire ex_sent, commands (box ex_sent), outcomes ex_sent with
  | [m], [c], [Sent] => is_durable m && (1700000001000 <? c_deadline_at_ms c) && String.eqb (c_state c) "SENT"
  | _, _, _ => false
  end = true.
Proof. vm_compute. reflexivity. Qed.

Lemma one_sent (w : list (dict pyval)) (cs : list command) (os : list outcome) :
  match w, cs, os with
  | [m], [c], [Sent] => is_durable m && (1700000001000 <? c_deadline_at_ms c) && String.eqb (c_state c) "SENT"
  | _, _, _ => false
  end = true ->
  exists m c, w = [m] /\ cs = [c] /\ os = [Sent] /\ is_durable m = true /\ 1700000001000 < c_deadline_at_ms c /\ c_state c = "SENT".
Proof.
  intros H. destruct w as [|m []]; try discriminate H. destruct cs as [|c []]; try discriminate H.
  destruct os as [|[] []]; try discriminate H. apply andb_true_iff in H as [[Hm Hd]%andb_true_iff Hs].
  exists m, c. apply Z.ltb_lt in Hd. apply String.eqb_eq in Hs. done.
Qed.

(** The replay sends the message a second time. *)
Lemma replay_again s m c : reachable ex_orjson ex_packb s -> wire s = [m] -> commands (box s) = [c] -> outcomes s = [Sent] ->
  is_durable m = true -> 1700000001000 < c_deadline_at_ms c -> c_state c = "SENT" ->
  exists m', wire (snd (replay_pending ex_packb ex_cfg 1700000001000 true "t1" s)) = [m; m'] /\ is_durable m' = true /\
    get m "intent_id" = get m' "intent_id".
Proof.
  intros Hreach Hw Hc Ho Hd Hdl Hst. destruct (reachable_ok ex_orjson ex_packb ex_dump_reads _ Hreach) as [Hwf Hall].
  destruct (replayable_rows ex_orjson ex_dump_reads _ Hwf) as (rows & Hr & Hm & Hb).
  assert (pending (box s) = [c]) as Hp by (unfold pending; rewrite Hc; cbn [List.filter]; by rewrite Hst). rewrite Hp in Hm.
  destruct rows as [|[c' m'] []]; try discriminate Hm. injection Hm as ->. apply Forall_inv in Hb.
  pose proof (replay_rows_wire ex_orjson ex_packb ex_cfg 1700000001000 true "t1" [(c, m')] (Replayed 0 0 0 0) s (Forall_cons_2 _ _ _ Hb (Forall_nil_2 _))) as H.
  assert (sendables 1700000001000 true [(c, m')] = [m']) as Hs.
  { unfold sendables, sendable. cbn [List.filter fst]. by rewrite (proj2 (Z.ltb_lt _ _) Hdl). }
  rewrite Hs in H. unfold replay_pending, m_bind, m_get, m_lift. cbn [has_writer ex_cfg negb]. rewrite Hr.
  destruct (replay_rows _ _ _ _ _ _ _ s) as [res s'] eqn:E. destruct H as [_ H].
  destruct (H (Forall_cons_2 (packs ex_packb) m' [] eq_refl (Forall_nil_2 _)) [] Ho) as (r & _ & _ & Hw'). exists m'. cbn [snd]. rewrite Hw', Hw. split; [done|].
  destruct Hb as (e & He & Hse). cbn [fst snd] in *.
  assert (same_dict m e) as Hme.
  { destruct (Hall m) as [F|(d & e' & Hin & He' & Hs')]; [rewrite Hw; by left|by rewrite F in Hd|].
    rewrite Hc in Hin. apply list_elem_of_singleton in Hin as ->. rewrite Hs'. by eapply recorded_unique; [apply ex_dump_reads|..]. }
  rewrite Hse, <- Hme. done.
Qed.

Lemma ex_replayed : exists m1 m2, wire (ex_restarted 1700000001000) = [m1; m2] /\ is_durable m1 = true /\ is_durable m2 = true /\
  get m1 "intent_id" = get m2 "intent_id".
Proof.
  destruct (one_sent (wire ex_sent) (commands (box ex_sent)) (outcomes ex_sent) ex_sent_check) as (m & c & Hw & Hc & Ho & Hd & Hdl & Hst).
  destruct (replay_again ex_sent m c ex_sent_reachable Hw Hc Ho Hd Hdl Hst) as (m' & Hw' & Hd' & Hi).
  exists m, m'. exact (conj Hw' (conj Hd (conj Hd' Hi))).
Qed.

Lemma outbox_invariant_witness : wf ex_orjson (box (ex_restarted 1700000001000)).
Proof. exact (outbox_invariant ex_orjson ex_packb ex_dump_reads _ (ex_restarted_reachable 1700000001000)). Defined.

Lemma only_recorded_commands_are_sent_witness : exists m c env, m ∈ wire (ex_restarted 1700000001000) /\
  c ∈ commands (box (ex_restarted 1700000001000)) /\ recorded ex_orjson c env /\ same_dict m env.
Proof.
  destruct ex_replayed as (m1 & m2 & Hw & _ & Hd & _).
  assert (m2 ∈ wire (ex_restarted 1700000001000)) as Hin by (rewrite Hw; right; by left).
  destruct (only_recorded_commands_are_sent ex_orjson ex_packb ex_dump_reads _ m2 (ex_restarted_reachable 1700000001000) Hin Hd) as (c & env & H).
  exists m2, c, env. exact (conj Hin H).
Defined.

Lemma intent_has_one_content_witness : exists m1 m2, wire (ex_restarted 1700000001000) = [m1; m2] /\ same_dict m1 m2.
Proof.
  destruct ex_replayed as (m1 & m2 & Hw & Hd1 & Hd2 & Hi). exists m1, m2. split; [exact Hw|].
  assert (m1 ∈ wire (ex_restarted 1700000001000)) as H1 by (rewrite Hw; by left).
  assert (m2 ∈ wire (ex_restarted 1700000001000)) as H2 by (rewrite Hw; right; by left).
  exact (intent_has_one_content ex_orjson ex_packb ex_dump_reads _ m1 m2 (ex_restarted_reachable 1700000001000) H1 H2 Hd1 Hd2 Hi).
Defined.

(** The replay after the deadline marks the command and sends nothing. *)
Lemma commands_only_advance_witness : exists c d, c ∈ commands (box ex_sent) /\ d ∈ commands (box (ex_restarted 1700000009000)) /\ evolves c d.
Proof.
  destruct (one_sent (wire ex_sent) (commands (box ex_sent)) (outcomes ex_sent) ex_sent_check) as (m & c & _ & Hc & _).
  assert (c ∈ commands (box ex_sent)) as Hin by (rewrite Hc; by left).
  destruct (commands_only_advance ex_orjson ex_packb ex_dump_reads ex_sent (ex_restarted 1700000009000) c ex_sent_reachable
    (rtc_once _ _ (ex_intro _ ex_cfg (step_replay ex_orjson ex_packb ex_cfg 1700000009000 true "t1" ex_sent))) Hin) as (d & Hd & He).
  exists c, d. exact (conj Hin (conj Hd He)).
Defined.

Definition ex_reserve (payload : dict pyval) : M outbox (dict pyval) :=
  reserve_execution_command ex_orjson payload "trader" (VInt 5000) VNone "t0" 1700000000000.

Lemma ex_reserved : is_ok (fst (ex_reserve ex_entry (Outbox [] []))) = true.
Proof. vm_compute. reflexivity. Qed.

Lemma ok_pair {S A} (x : result A * S) : is_ok (fst x) = true -> exists a s, x = (Ok a, s).
Proof. destruct x as [[a|] s]; [by exists a, s|done]. Qed.

(** The same command under another spelling of its cycle, after the first reservation. *)
Lemma reserve_is_idempotent_witness : exists env env' b, ex_reserve ex_entry (Outbox [] []) = (Ok env, b) /\
  ex_reserve (dict_set ex_entry "cycle_id" (VStr "c1")) b = (Ok env', b) /\ same_dict env' env.
Proof.
  destruct (ok_pair _ ex_reserved) as (env & b & E).
  pose proof (reserve_keeps ex_orjson ex_entry "trader" (VInt 5000) VNone "t0" 1700000000000 ex_entry_floats (Outbox [] []) (wf_empty ex_orjson)) as [Hwf _].
  unfold ex_reserve in E. rewrite E in Hwf.
  destruct (reserve_is_idempotent ex_orjson ex_dump_reads ex_entry "trader" (VInt 5000) VNone "t0" 1700000000000 (Outbox [] []) env b ex_entry_floats (wf_empty ex_orjson) E
    b (dict_set ex_entry "cycle_id" (VStr "c1")) "trader" (VInt 5000) VNone "t0" 1700000000000 Hwf (reflexivity b) eq_refl) as [H _].
  destruct (H ltac:(unfold command_hash; by rewrite ex_entry_spelled)) as (env' & E' & Hs).
  exists env, env', b. exact (conj E (conj E' Hs)).
Defined.

Lemma replay_sends_exactly_witness : exists rows, get_replayable_execution_commands (box ex_sent) = Ok rows /\ map fst rows = pending (box ex_sent) /\
  exists l, wire (ex_restarted 1700000001000) = wire ex_sent ++ l /\ sublist l (sendables 1700000001000 true rows).
Proof.
  destruct (replay_sends_exactly ex_orjson ex_packb ex_dump_reads ex_cfg 1700000001000 true "t1" ex_sent ex_sent_reachable eq_refl) as (rows & Hr & Hm & _ & H).
  exists rows. split; [exact Hr|]. split; [exact Hm|]. unfold ex_restarted. destruct (replay_pending _ _ _ _ _ ex_sent) as [res s']. exact (proj1 H).
Defined.
