(* ===== verification/ConfigManagerFacts.v ===== *)
(** * Facts on the configuration manager

    Whatever files appear and whatever overrides are written, the values keep the keys
    and the types of the defaults, a live manager never exceeds the reviewed limits, and
    a reload takes a whole validated file or nothing. *)
From Stdlib Require Import ZArith Lia Ascii.
From stdpp Require Import base list strings.
From S2P Require Import Prelude PyDecimal PyFloat PyTime PyValue PyJson CoreConfig ConfigManager.
Open Scope Z_scope.

(** ** Dictionaries *)

Lemma dict_set_keys_same {V} (d : dict V) k v : k ∈ dict_keys d -> dict_keys (dict_set d k v) = dict_keys d.
Proof.
  induction d as [|[k0 v0] d IH]; cbn; [intros H; by apply elem_of_nil in H|]. intros H.
  destruct (String.eqb_spec k k0) as [->|N]; [done|]. cbn. f_equal. apply IH. by apply elem_of_cons in H as [->|H].
Qed.

Lemma dict_update_cons {V} (d : dict V) k v e : dict_update d ((k, v) :: e) = dict_update (dict_set d k v) e.
Proof. done. Qed.

Lemma dict_update_keys_same {V} (e : dict V) : forall d, (forall k, k ∈ dict_keys e -> k ∈ dict_keys d) -> dict_keys (dict_update d e) = dict_keys d.
Proof.
  induction e as [|[k v] e IH]; intros d H; [done|]. rewrite dict_update_cons, IH.
  - apply dict_set_keys_same, H. by left.
  - intros k' Hk'. apply dict_keys_set. right. apply H. by right.
Qed.

Lemma dict_update_elem {V} (e : dict V) : forall d k v, (k, v) ∈ dict_update d e -> (k, v) ∈ d \/ (k, v) ∈ e.
Proof.
  induction e as [|[k0 v0] e IH]; intros d k v H; [by left|]. rewrite dict_update_cons in H. apply IH in H as [H|H]; [|right; by right].
  apply elem_of_dict_set in H as [[-> ->]|H]; [right; by left|by left].
Qed.

Lemma dict_get_present {V} (d : dict V) k : k ∈ dict_keys d -> exists v, dict_get d k = Some v.
Proof. intros H. destruct (dict_get d k) as [v|] eqn:E; [by exists v|]. by apply dict_get_None in E. Qed.

Lemma defaults_NoDup : NoDup (dict_keys _DEFAULTS).
Proof. apply (bool_decide_unpack _). vm_compute. exact I. Qed.

Opaque _DEFAULTS.

(** ** Normalized values *)

(** A value of the type of a default. *)
Definition same_type (dflt v : pyval) : bool :=
  match dflt, v with
  | VBool _, VBool _ | VInt _, VInt _ | VFloat _, VFloat _ | VList _, VList _ | VDict _, VDict _ | VStr _, VStr _ => true
  | _, _ => false
  end.

Lemma normalize_value_type dflt k v w : (same_type dflt dflt = true) -> normalize_value dflt k v = Ok w -> same_type dflt w = true.
Proof.
  intros Hd H. destruct dflt; try discriminate Hd; cbn in H.
  all: first [ by injection H as <- | apply res_bind_Ok in H as (x & _ & [= <-]); done
             | destruct v; first [by injection H as <- | apply res_bind_Ok in H as (x & _ & [= <-]); done] ].
Qed.

Lemma normalize_value_typed dflt k v : same_type dflt v = true -> normalize_value dflt k v = Ok v.
Proof. by destruct dflt, v. Qed.

Transparent _DEFAULTS.
Lemma defaults_typed : forallb (fun kv => same_type (snd kv) (snd kv)) _DEFAULTS = true.
Proof. vm_compute. reflexivity. Qed.
Opaque _DEFAULTS.

Lemma default_typed k d : dict_get _DEFAULTS k = Some d -> same_type d d = true.
Proof. intros H%dict_get_elem. pose proof defaults_typed as Ht. rewrite forallb_forall in Ht. by apply list_elem_of_In, Ht in H. Qed.

(** A value that fits its key: the type of its default, hence its own normal form. *)
Definition fits (k : string) (v : pyval) : Prop := exists d, dict_get _DEFAULTS k = Some d /\ same_type d v = true.

Lemma fits_normal k v : fits k v -> _normalize k v = Ok v.
Proof. intros (d & E & Ht). unfold _normalize, item. rewrite E. cbn. by apply normalize_value_typed. Qed.

Lemma normalize_fits k v w : _normalize k v = Ok w -> fits k w.
Proof.
  unfold _normalize, item. intros H. apply res_bind_Ok in H as (d & Hd & H). destruct (dict_get _DEFAULTS k) as [d'|] eqn:E; [|discriminate Hd].
  injection Hd as ->. exists d. split; [done|]. eapply normalize_value_type; [by eapply default_typed|exact H].
Qed.

Lemma default_fits k v : (k, v) ∈ _DEFAULTS -> fits k v.
Proof. intros H. apply (dict_get_In _ _ _ defaults_NoDup) in H. exists v. split; [done|by eapply default_typed]. Qed.

Lemma normalize_all_fits vs : forall raw, normalize_all vs = Ok raw -> dict_keys raw = dict_keys vs /\ forall k v, (k, v) ∈ raw -> fits k v.
Proof.
  induction vs as [|[k v] vs IH]; intros raw H; cbn in H; [injection H as <-; split; [done|]; intros k v Hn; by apply elem_of_nil in Hn|].
  apply res_bind_Ok in H as (w & Hw & (ws & Hws & [= <-])%res_bind_Ok). destruct (IH _ Hws) as [Hk Hf]. split; [cbn; unfold dict_keys in Hk; by rewrite Hk|].
  intros k' v' [[= -> ->]|Hin]%elem_of_cons; [by eapply normalize_fits|by apply Hf].
Qed.

(** What validation accepts: overrides of known keys, each of its type, whose effective
    configuration passes the ranges and, in live mode, the limits. *)
Lemma validate_inv vs mode raw : validate_live_config vs mode = Ok raw ->
  dict_keys raw = dict_keys vs /\ (forall k v, (k, v) ∈ raw -> fits k v) /\
  _validate_live_ranges (dict_update _DEFAULTS raw) = Ok tt /\
  (is_live mode = true -> _enforce_live_safety_floors (dict_update _DEFAULTS raw) = Ok tt).
Proof.
  unfold validate_live_config. intros H. apply res_bind_Ok in H as (u0 & _ & H). apply res_bind_Ok in H as (ws & Hw & H).
  apply res_bind_Ok in H as ([] & Hr & H). apply res_bind_Ok in H as ([] & Hl & H). injection H as <-.
  destruct (normalize_all_fits _ _ Hw) as [Hk Hf]. split; [done|]. split; [done|]. split; [done|]. intros Hm. by rewrite Hm in Hl.
Qed.

Lemma fits_key k v : fits k v -> k ∈ dict_keys _DEFAULTS.
Proof. intros (d & E & _). apply dict_get_elem in E. apply list_elem_of_fmap. by exists (k, d). Qed.

Lemma effective_keys raw : (forall k v, (k, v) ∈ raw -> fits k v) -> dict_keys (dict_update _DEFAULTS raw) = dict_keys _DEFAULTS.
Proof. intros H. apply dict_update_keys_same. intros k ([k' v] & -> & Hin)%list_elem_of_fmap. by eapply fits_key, H. Qed.

Lemma effective_fits raw k v : (forall k v, (k, v) ∈ raw -> fits k v) -> (k, v) ∈ dict_update _DEFAULTS raw -> fits k v.
Proof. intros H [Hd|Hr]%dict_update_elem; [by apply default_fits|by apply H]. Qed.

(** ** Loading and writing *)

(** The new value of a key is the normalized one, or the old value where the two are equal. *)
Definition takes (old new : dict pyval) (eff : dict pyval) : Prop := dict_keys new = dict_keys old /\
  forall k, match dict_get eff k with
            | None => dict_get new k = dict_get old k
            | Some v => dict_get new k = Some v \/ (dict_get new k = dict_get old k /\ exists o, dict_get old k = Some o /\ py_eq o v = true)
            end.

Lemma set_values_id m : set_values m (values m) = m.
Proof. by destruct m. Qed.

Lemma set_values_twice m a b : set_values (set_values m a) b = set_values m b.
Proof. by destruct m. Qed.

Lemma apply_values_takes eff : forall m, NoDup (dict_keys eff) -> (forall k v, (k, v) ∈ eff -> fits k v) ->
  (forall k, k ∈ dict_keys eff -> k ∈ dict_keys (values m)) ->
  exists n new, apply_values eff m = (Ok n, set_values m new) /\ takes (values m) new eff.
Proof.
  induction eff as [|[k v] eff IH]; intros m Hn Hf Hk.
  { exists 0, (values m). cbn. rewrite set_values_id. split; [done|]. by split. }
  cbn [apply_values]. unfold m_bind, m_lift, m_get, m_put. rewrite (fits_normal k v) by (apply Hf; by left).
  set (same := match dict_get (values m) k with Some old => py_eq old v | None => false end).
  set (m1 := if same then m else set_values m (dict_set (values m) k v)). cbn in Hn. apply NoDup_cons in Hn as [Hkn Hn].
  assert (k ∈ dict_keys (values m)) as Hkm by (apply Hk; by left).
  assert (dict_keys (values m1) = dict_keys (values m)) as Hk1.
  { unfold m1. destruct same; [done|]. by apply dict_set_keys_same. }
  destruct (IH m1 Hn) as (n & new & E & Hnew & Hget).
  { intros k' v' H. apply Hf. by right. }
  { intros k' H. rewrite Hk1. apply Hk. by right. }
  rewrite E. exists (if same then n else n + 1), new.
  split; [unfold m1, m_ret; destruct same; by rewrite ?set_values_twice|]. split; [by rewrite Hnew|].
  intros k'. cbn [dict_get]. specialize (Hget k'). destruct (String.eqb_spec k' k) as [->|Hne].
  - apply dict_get_None in Hkn. unfold dict_keys in Hkn. rewrite Hkn in Hget. rewrite Hget. unfold m1, same.
    destruct (dict_get (values m) k) as [o|] eqn:Eo; [destruct (py_eq o v) eqn:Eq|]; [right; split; [done|by exists o]|left..];
      cbn [values set_values]; by rewrite dict_get_set, String.eqb_refl.
  - assert (dict_get (values m1) k' = dict_get (values m) k') as Hsame.
    { unfold m1. destruct same; [done|]. cbn [values set_values]. rewrite dict_get_set. by destruct (String.eqb_spec k' k). }
    by rewrite Hsame in Hget.
Qed.

(** The values of a manager: the keys of the defaults, each with a value that fits. *)
Definition well_typed (m : manager) : Prop := dict_keys (values m) = dict_keys _DEFAULTS /\ forall k v, dict_get (values m) k = Some v -> fits k v.

(** The outcome of a load that went through validation. *)
Lemma loaded mtime content m : well_typed m -> 
  (exists e, load_file mtime content m = (Err e, m)) \/
  exists d raw new, content = Ok (VDict d) /\ validate_live_config d (trading_mode m) = Ok raw /\
    takes (values m) new (dict_update _DEFAULTS raw) /\
    let m1 := set_loaded (set_values m new) mtime (dict_keys d) in
    match effective_config_hash new with
    | Ok h => exists b, load_file mtime content m = (Ok b, set_hash m1 h)
    | Err e => load_file mtime content m = (Err e, m1)
    end.
Proof.
  intros [Hk Hf]. unfold load_file. unfold m_bind at 1, m_lift at 1. destruct content as [payload|e]; [|left; by exists e].
  unfold m_bind at 1, m_get at 1. unfold m_bind at 1, m_lift at 1.
  destruct (validate_payload payload (trading_mode m)) as [raw|e] eqn:Hv; [|left; by exists e]. right.
  assert (exists d, payload = VDict d /\ validate_live_config d (trading_mode m) = Ok raw) as (d & -> & Hd).
  { destruct payload as [| | | | | |l|d]; try discriminate Hv; [..|by exists d]; cbn in Hv; exfalso.
    all: repeat (apply res_bind_Ok in Hv as (? & _ & Hv)); repeat (destruct (negb _); [discriminate Hv|]);
      repeat (apply res_bind_Ok in Hv as (? & _ & Hv)); discriminate Hv. }
  destruct (validate_inv _ _ _ Hd) as (_ & Hfr & _ & _). pose proof (effective_keys _ Hfr) as He.
  destruct (apply_values_takes (dict_update _DEFAULTS raw) m) as (n & new & Ha & Ht).
  { rewrite He. apply defaults_NoDup. }
  { intros k v. by apply effective_fits. }
  { intros k. by rewrite He, Hk. }
  assert (load_file mtime (Ok (VDict d)) m = let m1 := set_loaded (set_values m new) mtime (dict_keys d) in
    match effective_config_hash new with Ok h => (Ok (negb (n =? 0)), set_hash m1 h) | Err e => (Err e, m1) end) as E.
  { unfold load_file, rehash, m_bind, m_lift, m_get, m_put, m_ret. cbn [validate_payload] in *. rewrite Hd, Ha. cbn [values set_loaded set_values].
    by destruct (effective_config_hash new). }
  exists d, raw, new. do 3 (split; [done|]). cbv zeta. unfold load_file in E. rewrite E. destruct (effective_config_hash new); [by eexists|done].
Qed.

(** What a write does: nothing, or a validated configuration in the file and in memory. *)
Lemma written overrides now m :
  (exists e, write_overrides overrides now m = (Err e, m)) \/
  exists p raw content, validate_live_config p (trading_mode m) = Ok raw /\
    let new := dict_update _DEFAULTS raw in
    let m1 := set_loaded (set_values (set_file m (Some (now, Ok content))) new) now (dict_keys raw) in
    match effective_config_hash new with
    | Ok h => write_overrides overrides now m = (Ok new, set_hash m1 h)
    | Err e => write_overrides overrides now m = (Err e, m1)
    end.
Proof.
  unfold write_overrides, rehash, m_bind, m_get, m_lift, m_put, m_ret. destruct (existing_overrides (file m)) as [ex|e]; [|left; by exists e].
  destruct (keep_known overrides ex) as [p|e]; [|left; by exists e].
  destruct (validate_live_config p (trading_mode m)) as [raw|e] eqn:Hv; [|left; by exists e].
  destruct (_atomic_write_json raw) as [content|e]; [|left; by exists e]. right. exists p, raw, content. split; [done|].
  cbv zeta. cbn [values set_loaded set_values set_hash]. by destruct (effective_config_hash _).
Qed.

(** ** Histories *)

(** A reload, a write, or another process that replaces the file. *)
Inductive step : manager -> manager -> Prop :=
  | step_reload m : step m (snd (reload_now m))
  | step_write overrides now m : step m (snd (write_overrides overrides now m))
  | step_file f m : step m (set_file m f).

Inductive reachable (mode : string) : manager -> Prop :=
  | reach_new f m : new_manager mode f = Ok m -> reachable mode m
  | reach_step m m' : reachable mode m -> step m m' -> reachable mode m'.

(** A property of single values that the defaults and every validated configuration have
    holds in every state: a load replaces values one by one, and keeps only old ones. *)
Section Pointwise.
Context (mode : string) (P : string -> pyval -> Prop).
Context (Pdefault : forall k v, (k, v) ∈ _DEFAULTS -> P k v).
Context (Pvalid : forall d raw k v, validate_live_config d mode = Ok raw -> (k, v) ∈ dict_update _DEFAULTS raw -> P k v).

Definition holding (m : manager) : Prop :=
  well_typed m /\ trading_mode m = mode /\ forall k v, dict_get (values m) k = Some v -> P k v.

Definition same_values (m m' : manager) : Prop := values m' = values m /\ trading_mode m' = trading_mode m.

Lemma holding_same m m' : same_values m m' -> holding m -> holding m'.
Proof. unfold same_values, holding, well_typed. intros [-> ->]. done. Qed.

Lemma holding_takes m m' d raw : holding m -> validate_live_config d mode = Ok raw -> trading_mode m' = mode ->
  takes (values m) (values m') (dict_update _DEFAULTS raw) -> holding m'.
Proof.
  intros (Ht & Hm & HP) Hv Hm' [Hk Hget]. destruct Ht as [Hk0 Hf]. destruct (validate_inv _ _ _ Hv) as (_ & Hfr & _).
  assert (forall k v, dict_get (values m') k = Some v -> fits k v /\ P k v) as H.
  { intros k v E. specialize (Hget k). destruct (dict_get (dict_update _DEFAULTS raw) k) as [w|] eqn:Ew.
    - apply dict_get_elem in Ew. destruct Hget as [Hg|[Hg _]]; rewrite Hg in E; [injection E as <-|by split; [apply Hf|apply HP]].
      split; [by eapply effective_fits|by eapply Pvalid].
    - rewrite Hget in E. by split; [apply Hf|apply HP]. }
  split; [split; [by rewrite Hk|]|split; [done|]]; intros k v E; by apply H.
Qed.

Lemma holding_load mtime content m : holding m -> holding (snd (load_file mtime content m)).
Proof.
  intros H. destruct (loaded mtime content m) as [[e E]|(d & raw & new & -> & Hv & Ht & E)]; [apply H|by rewrite E|].
  assert (exists m', snd (load_file mtime (Ok (VDict d)) m) = m' /\ values m' = new /\ trading_mode m' = trading_mode m) as (m' & -> & Hn & Hm).
  { cbv zeta in E. destruct (effective_config_hash new); [destruct E as [b E]|]; rewrite E; by eexists. }
  destruct H as (Hw & Hmode & HP). rewrite Hmode in *. eapply (holding_takes m); [done|exact Hv|done|by rewrite Hn].
Qed.

Lemma holding_reload m : holding m -> holding (snd (reload_now m)).
Proof.
  intros H. unfold reload_now, _try_load. destruct (file m) as [[mtime content]|]; [|done]. destruct (mtime <=? last_mtime m); [done|].
  pose proof (holding_load mtime content m H) as Hl. destruct (load_file mtime content m) as [[b|e] m']; [done|]. cbn [snd] in *.
  destruct (load_errors _); [|done]. by eapply holding_same.
Qed.

Lemma holding_write overrides now m : holding m -> holding (snd (write_overrides overrides now m)).
Proof.
  intros H. destruct (written overrides now m) as [[e E]|(p & raw & content & Hv & E)]; [by rewrite E|].
  assert (exists m', snd (write_overrides overrides now m) = m' /\ values m' = dict_update _DEFAULTS raw /\ trading_mode m' = trading_mode m)
    as (m' & -> & Hn & Hm).
  { cbv zeta in E. destruct (effective_config_hash _); rewrite E; by eexists. }
  destruct H as (Hw & Hmode & _). rewrite Hmode in *. destruct (validate_inv _ _ _ Hv) as (_ & Hfr & _).
  assert (forall k v, dict_get (values m') k = Some v -> (k, v) ∈ dict_update _DEFAULTS raw) as Hin.
  { intros k v. rewrite Hn. apply dict_get_elem. }
  split; [split; [rewrite Hn; by apply effective_keys|]|split; [done|]]; intros k v E'; apply Hin in E'.
  - by eapply effective_fits.
  - by eapply Pvalid.
Qed.

Lemma holding_defaults m : values m = _DEFAULTS -> trading_mode m = mode -> holding m.
Proof.
  intros Hv Hm. split; [split; [by rewrite Hv|]|split; [done|]]; intros k v; rewrite Hv; intros E%dict_get_elem; [by apply default_fits|by apply Pdefault].
Qed.

Lemma step_holding m m' : holding m -> step m m' -> holding m'.
Proof. intros H Hs. destruct Hs as [x|o n x|f x]; [by apply holding_reload|by apply holding_write|by apply (holding_same x)]. Qed.
End Pointwise.

Lemma reachable_holding mode P : (forall k v, (k, v) ∈ _DEFAULTS -> P k v) ->
  (forall d raw k v, validate_live_config d (initial_mode mode) = Ok raw -> (k, v) ∈ dict_update _DEFAULTS raw -> P k v) ->
  forall m, reachable mode m -> holding (initial_mode mode) P m.
Proof.
  intros Hd Hv m. induction 1 as [f m H|m m' _ IH Hs]; [|by eapply step_holding]. unfold new_manager in H.
  apply res_bind_Ok in H as (h & _ & H). destruct (_try_load _) as [r m1] eqn:E. apply res_bind_Ok in H as (b & _ & [= <-]).
  assert (m1 = snd (reload_now (Manager (initial_mode mode) _DEFAULTS 0 "" [] h f))) as -> by (unfold reload_now; by rewrite E).
  apply holding_reload; [done|]. by apply holding_defaults.
Qed.

(** ** The guarantees *)

(** C32: whatever files appear and whatever is written, the manager keeps the keys of the
    defaults, in their order, and every value the type of its default. *)
Theorem values_keep_their_types mode m : reachable mode m ->
  dict_keys (values m) = dict_keys _DEFAULTS /\
  forall k d, dict_get _DEFAULTS k = Some d -> exists v, dict_get (values m) k = Some v /\ same_type d v = true.
Proof.
  intros H. destruct (reachable_holding mode (fun _ _ => True) ltac:(done) ltac:(done) m H) as ([Hk Hf] & _ & _).
  split; [done|]. intros k d Hd. destruct (dict_get_present (values m) k) as [v Hv].
  { rewrite Hk. apply dict_get_elem in Hd. apply list_elem_of_fmap. by exists (k, d). }
  exists v. split; [done|]. destruct (Hf k v Hv) as (d' & Hd' & Ht). by rewrite Hd in Hd'; injection Hd' as ->.
Qed.

Lemma each_Ok {A} (check : A -> result unit) l : each check l = Ok tt -> forall x, x ∈ l -> check x = Ok tt.
Proof.
  induction l as [|a l IH]; cbn; intros H x Hx; [by apply elem_of_nil in Hx|]. apply res_bind_Ok in H as ([] & Ha & H).
  apply elem_of_cons in Hx as [->|Hx]; [done|by apply IH].
Qed.

Lemma reject_Ok cond msg u : reject cond msg = Ok u -> cond = false.
Proof. by destruct cond. Qed.

(** A value within the limits of its key. *)
Definition within (k : string) (v : pyval) : Prop :=
  (forall c, (k, c) ∈ maximums -> exists x, py_float v = Ok x /\ flt (float_of c) x = false) /\
  (forall f, (k, f) ∈ minimums -> exists x, py_float v = Ok x /\ flt x (float_of f) = false) /\
  (k = "allow_reverse_spot_entry" -> truthy v = false) /\ (k = "live_approval_required" -> truthy v = true) /\
  (k = "storage_component_budgets_bytes" -> exists b, v = VDict b /\
     forall component cap, (component, cap) ∈ reviewed_budgets ->
       exists z r, py_int (get b component) = Ok z /\ py_int cap = Ok r /\ z <= r).

(** The checks of [_enforce_live_safety_floors], without the stage. *)
Definition limited (eff : dict pyval) : Prop :=
  each (check_floor eff) minimums = Ok tt /\ each (check_ceiling eff) maximums = Ok tt /\
  truthy (get eff "allow_reverse_spot_entry") = false /\ truthy (get eff "live_approval_required") = true /\
  exists b, get eff "storage_component_budgets_bytes" = VDict b /\ each (check_budget b) reviewed_budgets = Ok tt.

Lemma config_float_Ok v k x : _config_float v k = Ok x -> py_float v = Ok x.
Proof. unfold _config_float. by destruct (is_scalar v). Qed.

Lemma budget_within b component cap : check_budget b (component, cap) = Ok tt ->
  exists z r, py_int (get b component) = Ok z /\ py_int cap = Ok r /\ z <= r.
Proof.
  unfold check_budget. cbn [fst snd]. intros H.
  assert (exists z r, py_int (get b component) = Ok z /\ py_int cap = Ok r /\ (r <? z) = false) as (z & r & Hz & Hr & Hl).
  { destruct (get b component); try discriminate H; apply res_bind_Ok in H as (n & Hn & (r & Hr & H)%res_bind_Ok); exists n, r;
      (split; [exact Hn|]); (split; [exact Hr|]); by eapply reject_Ok. }
  exists z, r. split; [done|]. split; [done|]. by apply Z.ltb_ge in Hl.
Qed.

Lemma limited_within eff k v : NoDup (dict_keys eff) -> limited eff -> (k, v) ∈ eff -> within k v.
Proof.
  intros Hn (Hf & Hc & Hr & Ha & b & Hb & Hbs) Hin. apply (dict_get_In _ _ _ Hn) in Hin.
  assert (get eff k = v) as Hg by (unfold get, get_or; by rewrite Hin).
  split; [|split; [|split; [|split]]].
  - intros c Hkc. pose proof (each_Ok _ _ Hc _ Hkc) as H. unfold check_ceiling, item in H. cbn [fst snd] in H. rewrite Hin in H. cbn [res_bind] in H.
    apply res_bind_Ok in H as (x & Hx & H%reject_Ok). exists x. split; [by eapply config_float_Ok|done].
  - intros f Hkf. pose proof (each_Ok _ _ Hf _ Hkf) as H. unfold check_floor, item in H. cbn [fst snd] in H. rewrite Hin in H. cbn [res_bind] in H.
    apply res_bind_Ok in H as (x & Hx & H%reject_Ok). exists x. split; [by eapply config_float_Ok|done].
  - intros ->. by rewrite <- Hg.
  - intros ->. by rewrite <- Hg.
  - intros ->. exists b. split; [by rewrite <- Hg|]. intros component cap H. by apply budget_within, (each_Ok _ _ Hbs).
Qed.

Lemma enforced_limited eff : _enforce_live_safety_floors eff = Ok tt -> limited eff.
Proof.
  unfold _enforce_live_safety_floors. intros H. apply res_bind_Ok in H as ([] & Hf & H). apply res_bind_Ok in H as ([] & Hc & H).
  apply res_bind_Ok in H as (u & Hr%reject_Ok & H). apply res_bind_Ok in H as (u' & Ha%reject_Ok & H). apply res_bind_Ok in H as (u'' & _ & H).
  destruct (get eff "storage_component_budgets_bytes") as [| | | | | | |b] eqn:Eb; try discriminate H.
  do 2 (split; [done|]). split; [done|]. split; [by apply negb_false_iff|]. by exists b.
Qed.

Transparent _DEFAULTS.
Lemma defaults_limited : limited _DEFAULTS.
Proof. split; [vm_compute; reflexivity|]. split; [vm_compute; reflexivity|]. split; [reflexivity|]. split; [reflexivity|]. eexists. split; [reflexivity|]. vm_compute. reflexivity. Qed.

Definition limit_keys : list string :=
  map fst maximums ++ map fst minimums ++ ["allow_reverse_spot_entry"; "live_approval_required"; "storage_component_budgets_bytes"].

Lemma limit_keys_known : forallb (fun k => str_in k (dict_keys _DEFAULTS)) limit_keys = true.
Proof. vm_compute. reflexivity. Qed.
Opaque _DEFAULTS.

(** C16: in live mode no history of files and writes gets a value above its reviewed ceiling
    or below its reviewed floor, approves reverse entries, disables the approval or raises
    a storage budget: every limited key has a value, and it is within the limits. *)
Theorem live_limits_always_hold mode m k : reachable mode m -> is_live (initial_mode mode) = true -> k ∈ limit_keys ->
  exists v, dict_get (values m) k = Some v /\ within k v.
Proof.
  intros H Hlive Hk. destruct (reachable_holding mode within) with (m := m) as ([Hkeys _] & _ & HP); [..|done|].
  - intros k' v. apply limited_within; [apply defaults_NoDup|apply defaults_limited].
  - intros d raw k' v Hv. destruct (validate_inv _ _ _ Hv) as (_ & Hfr & _ & Hl). apply limited_within; [|by apply enforced_limited, Hl].
    rewrite effective_keys by done. apply defaults_NoDup.
  - destruct (dict_get_present (values m) k) as [v Hv]; [|exists v; split; [done|by apply HP]].
    rewrite Hkeys. pose proof limit_keys_known as Hn. rewrite forallb_forall in Hn. apply str_in_spec, Hn. by apply list_elem_of_In.
Qed.

(** C17: a reload changes nothing but the error it reports, or it takes the whole validated
    file: every key gets the value of the file or of the default (or keeps a value equal to
    it), and the version hash is the hash of the values, unless they cannot be serialized. *)
Theorem reload_all_or_nothing mode m : reachable mode m ->
  let m' := snd (reload_now m) in
  (values m' = values m /\ version_hash m' = version_hash m /\ loaded_keys m' = loaded_keys m /\ last_mtime m' = last_mtime m) \/
  exists mtime d raw, file m = Some (mtime, Ok (VDict d)) /\ last_mtime m < mtime /\
    validate_live_config d (initial_mode mode) = Ok raw /\ takes (values m) (values m') (dict_update _DEFAULTS raw) /\
    loaded_keys m' = dict_keys d /\ last_mtime m' = mtime /\
    match effective_config_hash (values m') with
    | Ok h => version_hash m' = h /\ exists b, fst (reload_now m) = Ok b
    | Err _ => version_hash m' = version_hash m
    end.
Proof.
  intros H. destruct (reachable_holding mode (fun _ _ => True) ltac:(done) ltac:(done) m H) as (Ht & Hm & _).
  unfold reload_now, _try_load. destruct (file m) as [[mtime content]|]; [|by left]. destruct (Z.leb_spec mtime (last_mtime m)) as [|Hlt]; [by left|].
  destruct (loaded mtime content m Ht) as [[e ->]|(d & raw & new & -> & Hv & Htk & E)]; [left; by destruct (load_errors _)|].
  right. exists mtime, d, raw. rewrite Hm in Hv. split; [done|]. split; [done|]. split; [done|]. cbv zeta in E.
  destruct (effective_config_hash new) as [h|e] eqn:Eh; [destruct E as [b ->]|rewrite E; destruct (load_errors _)];
    cbn [snd fst values loaded_keys last_mtime version_hash set_hash set_error set_loaded set_values]; rewrite Eh;
    (split; [exact Htk|]); split; try done; split; try done; split; try done; by exists b.
Qed.

(** ** A concrete manager *)

Transparent _DEFAULTS.

Definition ex_started : result manager := new_manager " Live" (Some (1, Ok (VDict ex_live))).

Lemma ex_started_ok : is_ok ex_started = true.
Proof. vm_compute. reflexivity. Qed.

Lemma ex_started_reachable m : ex_started = Ok m -> reachable " Live" m.
Proof. exact (reach_new " Live" (Some (1, Ok (VDict ex_live))) m). Qed.

(** The file named the leverage, and it was loaded. *)
Example ex_started_leverage :
  match ex_started with Ok m => (get (values m) "max_leverage", loaded_keys m) | Err _ => (VNone, []) end
  = (VFloat "1.0", ["decision_engine_stage"; "max_leverage"]).
Proof. vm_compute. reflexivity. Qed.

(** A nan passes every limit, and is in force although the reload reports an error. *)
Example ex_nan_in_force :
  match ex_started with
  | Ok m => let m' := snd (reload_now (set_file m (Some (2, Ok (VDict (dict_set ex_live "max_leverage" (VFloat "nan")))))))
            in (get (values m') "max_leverage", nonempty (last_error m'))
  | Err _ => (VNone, false)
  end = (VFloat "nan", true).
Proof. vm_compute. reflexivity. Qed.

Lemma values_keep_their_types_witness : exists m, ex_started = Ok m /\ dict_keys (values m) = dict_keys _DEFAULTS.
Proof.
  destruct (proj1 (is_ok_spec _) ex_started_ok) as [m E]. exists m. split; [exact E|].
  exact (proj1 (values_keep_their_types " Live" m (ex_started_reachable m E))).
Defined.

Lemma live_limits_always_hold_witness : exists m v, ex_started = Ok m /\ dict_get (values m) "max_leverage" = Some v /\ within "max_leverage" v.
Proof.
  destruct (proj1 (is_ok_spec _) ex_started_ok) as [m E]. exists m.
  destruct (live_limits_always_hold " Live" m "max_leverage" (ex_started_reachable m E) eq_refl) as (v & H).
  - apply str_in_spec. reflexivity.
  - exists v. exact (conj E H).
Defined.

Lemma reload_all_or_nothing_witness : exists m m', ex_started = Ok m /\
  m' = set_file m (Some (2, Ok (VDict []))) /\
  (values (snd (reload_now m')) = values m' \/ takes (values m') (values (snd (reload_now m'))) _DEFAULTS).
Proof.
  destruct (proj1 (is_ok_spec _) ex_started_ok) as [m E]. exists m, (set_file m (Some (2, Ok (VDict [])))). split; [exact E|]. split; [reflexivity|].
  destruct (reload_all_or_nothing " Live" _ (reach_step " Live" m _ (ex_started_reachable m E) (step_file (Some (2, Ok (VDict []))) m)))
    as [(Hv & _)|(mtime & d & raw & Hf & _ & Hv & Ht & _)]; [left; exact Hv|right].
  injection Hf as _ <-. assert (raw = []) as ->; [|exact Ht].
  destruct (validate_inv _ _ _ Hv) as (Hk & _). clear - Hk. destruct raw as [|x raw]; [reflexivity|discriminate Hk].
Defined.
