(* ===== verification/RotationPolicy.v ===== *)
(** * Rotation policy

    Model of [src/bongus/portfolio/rotation_policy.py]: whether an open pair is kept or
    moved, in part or in full, to a better candidate.  The numbers are binary64, so the
    decision is defined on infinities and nans as well. *)
From Stdlib Require Import ZArith Lia Ascii SpecFloat.
From stdpp Require Import base list strings.
From S2P Require Import Prelude PyDecimal PyFloat PyFormat.
Open Scope Z_scope.

Inductive RotationAction := KEEP | PARTIAL_ROTATE | FULL_ROTATE | BLOCKED.

#[global] Instance RotationAction_eq_dec : EqDecision RotationAction.
Proof. solve_decision. Defined.

(** [action.value] *)
Definition action_value (a : RotationAction) : string :=
  match a with
  | KEEP => "keep"
  | PARTIAL_ROTATE => "partial_rotate"
  | FULL_ROTATE => "full_rotate"
  | BLOCKED => "blocked"
  end.

Record RotationInputs := Inputs {
  current_symbol : string;
  candidate_symbol : string;
  current_notional_usd : float;
  current_remaining_lcb_usd : float;
  candidate_lcb_usd_at_current_size : float;
  current_close_cost_usd : float;
  candidate_open_cost_usd : float;
  transition_loss_usd : float;
  candidate_executable_capacity_usd : float;
  candidate_confidence : float;
  held_hours : float;
  minimum_hold_hours : float;
  minimum_incremental_value_usd : float;
  hysteresis_usd : float;
  max_payback_hours : float;
  candidate_net_earning_rate_usd_per_hour : float;
  seconds_to_current_settlement : float;
  current_settlement_lower_payment_usd : float;
  cooldown_active : bool;
  pending_transition : bool;
  previous_recommendation : RotationAction;
  max_partial_fraction : float
}.

Record RotationDecision := Decision_ {
  action : RotationAction;
  rotate_notional_usd : float;
  incremental_value_usd : float;
  payback_hours : float;
  reason_codes : list string;
  explanation : string
}.

Section decide.
Context (inputs : RotationInputs).

Definition numeric_nonnegative : list (string * float) :=
  [("current_notional", current_notional_usd inputs);
   ("current_close_cost", current_close_cost_usd inputs);
   ("candidate_open_cost", candidate_open_cost_usd inputs);
   ("transition_loss", transition_loss_usd inputs);
   ("candidate_capacity", candidate_executable_capacity_usd inputs);
   ("candidate_confidence", candidate_confidence inputs);
   ("held_hours", held_hours inputs);
   ("minimum_hold_hours", minimum_hold_hours inputs);
   ("minimum_incremental_value", minimum_incremental_value_usd inputs);
   ("hysteresis", hysteresis_usd inputs);
   ("max_payback_hours", max_payback_hours inputs)].

(** [not math.isfinite(value) or value < 0.0] *)
Definition unusable (value : float) : bool := negb (isfinite value) || flt value fzero.

Definition input_reasons : list string :=
  flat_map (fun nv => reason_if (unusable (snd nv)) ("invalid_" +:+ fst nv)) numeric_nonnegative
  ++ reason_if (negb (nonempty (strip (current_symbol inputs)))
                || negb (nonempty (strip (candidate_symbol inputs)))) "missing_symbol"
  ++ reason_if (String.eqb (upper (current_symbol inputs)) (upper (candidate_symbol inputs))) "same_symbol"
  ++ reason_if (negb (fle fzero (candidate_confidence inputs) && fle (candidate_confidence inputs) (flit "1.0")))
       "invalid_candidate_confidence"
  ++ reason_if (negb (flt fzero (max_partial_fraction inputs) && fle (max_partial_fraction inputs) (flit "1.0")))
       "invalid_partial_fraction"
  ++ reason_if (cooldown_active inputs) "cooldown_active"
  ++ reason_if (pending_transition inputs) "transition_already_pending".

Definition transition_cost : float :=
  fadd (fadd (fmax fzero (current_close_cost_usd inputs)) (fmax fzero (candidate_open_cost_usd inputs)))
    (fmax fzero (transition_loss_usd inputs)).

Definition near_settlement : bool :=
  isfinite (seconds_to_current_settlement inputs)
  && fle (seconds_to_current_settlement inputs) (flit "900")
  && flt fzero (current_settlement_lower_payment_usd inputs).

Definition incremental : float :=
  let value := fsub (fsub (candidate_lcb_usd_at_current_size inputs) (current_remaining_lcb_usd inputs))
                 transition_cost in
  if near_settlement then fsub value (current_settlement_lower_payment_usd inputs) else value.

Definition payback : float :=
  let earning_rate := fmax fzero (candidate_net_earning_rate_usd_per_hour inputs) in
  if flt fzero earning_rate then fdiv_ieee transition_cost earning_rate else finf.

(** A switch that was recommended must fall below the lower edge of the band. *)
Definition required_value : float :=
  if bool_decide (previous_recommendation inputs = KEEP) then
    fadd (minimum_incremental_value_usd inputs) (hysteresis_usd inputs)
  else fmax fzero (fsub (minimum_incremental_value_usd inputs) (hysteresis_usd inputs)).

Definition reasons : list string :=
  input_reasons
  ++ reason_if near_settlement "protect_imminent_current_settlement"
  ++ reason_if (flt (held_hours inputs) (minimum_hold_hours inputs)) "minimum_hold_not_met"
  ++ reason_if (flt (max_payback_hours inputs) payback) "payback_too_slow"
  ++ reason_if (flt incremental required_value) "incremental_value_below_hysteresis".

Definition blocker_codes : list string :=
  ["missing_symbol"; "same_symbol"; "invalid_current_notional"; "invalid_candidate_capacity";
   "invalid_candidate_confidence"; "invalid_partial_fraction"; "cooldown_active";
   "transition_already_pending"; "minimum_hold_not_met"; "payback_too_slow";
   "protect_imminent_current_settlement"; "incremental_value_below_hysteresis"].

Definition blockers : list string :=
  List.filter (fun reason => str_in reason blocker_codes || startswith "invalid_" reason) reasons.

(** A reason that stops the pair, where the others only keep it. *)
Definition hard (reason : string) : bool :=
  startswith "invalid_" reason || str_in reason ["missing_symbol"; "transition_already_pending"].

Definition maximum : float :=
  fmin (current_notional_usd inputs) (candidate_executable_capacity_usd inputs).

Definition fraction : float :=
  fmin (flit "1.0")
    (fmax fzero
       (fdiv_ieee (fsub incremental (minimum_incremental_value_usd inputs))
          (fmax (fmax (SFabs (current_remaining_lcb_usd inputs)) transition_cost) (flit "1.0")))).

Definition partly : bool :=
  flt (fadd maximum (flit "1e-9")) (current_notional_usd inputs) || flt fraction (flit "0.90").

Definition rotate_notional : float :=
  if partly then fmul maximum (fmin (max_partial_fraction inputs) (fmax (flit "0.10") fraction))
  else maximum.

Definition decide : RotationDecision :=
  if negb (bool_decide (blockers = [])) then
    let codes := dedupe reasons in
    Decision_ (if existsb hard blockers then BLOCKED else KEEP) fzero incremental payback codes
      ("keep " +:+ current_symbol inputs +:+ ": incremental $" +:+ fmt_2f incremental
       +:+ ", payback " +:+ fmt_2f payback +:+ "h; " +:+ str_join "," codes)
  else if fle maximum fzero then
    Decision_ BLOCKED fzero incremental payback ["no_executable_capacity"]
      "candidate has no executable capacity"
  else
    let a := if partly then PARTIAL_ROTATE else FULL_ROTATE in
    Decision_ a rotate_notional incremental payback ["positive_incremental_net_ev"]
      (action_value a +:+ " $" +:+ fmt_2f rotate_notional +:+ " from " +:+ current_symbol inputs
       +:+ " to " +:+ candidate_symbol inputs +:+ ": incremental $" +:+ fmt_2f incremental
       +:+ ", payback " +:+ fmt_2f payback +:+ "h").
End decide.

(** A pair moved to a candidate that earns more, and the same pair while its candidate
    has no forecast. *)
Definition example_inputs (candidate_lcb : float) (previous : RotationAction) : RotationInputs :=
  Inputs "BTCUSDT" "ETHUSDT" (flit "1000") (flit "3") candidate_lcb (flit "1") (flit "1") fzero
    (flit "5000") (flit "0.9") (flit "12") (flit "8") (flit "2") (flit "1") (flit "8") (flit "0.5")
    finf fzero false false previous (flit "0.5").

Example rotation_examples :
  map (fun x => let d := decide (example_inputs (flit x) KEEP) in (action d, rotate_notional_usd d, reason_codes d))
    ["20"; "6"] =
  [(FULL_ROTATE, flit "1000", ["positive_incremental_net_ev"]);
   (KEEP, fzero, ["incremental_value_below_hysteresis"])].
Proof. vm_compute. reflexivity. Qed.

Example rotation_explained :
  explanation (decide (example_inputs (flit "20") KEEP)) =
  "full_rotate $1000.00 from BTCUSDT to ETHUSDT: incremental $15.00, payback 4.00h".
Proof. vm_compute. reflexivity. Qed.
