(* ===== verification/RotationPolicyFacts.v ===== *)
(** * Properties of the rotation policy

    A pair is moved exactly when every condition holds, for no more than the position
    and the capacity of the candidate, and a recommended move persists inside the
    hysteresis band.  A candidate without a forecast passes every gate. *)
From Stdlib Require Import ZArith Lia Ascii SpecFloat.
From stdpp Require Import base list strings sets.
From S2P Require Import Prelude PyDecimal PyFloat PyFloatFacts PyFormat PyFloatOrder RotationPolicy.
Open Scope Z_scope.

Definition rotates (a : RotationAction) : Prop := a = PARTIAL_ROTATE \/ a = FULL_ROTATE.

(** A finite number that is not negative. *)
Definition usable (x : float) : Prop := isfinite x = true /\ fle fzero x = true.

(** When the policy may move a pair. *)
Record may_rotate (i : RotationInputs) : Prop := {
  numbers_usable : forall nv, nv ∈ numeric_nonnegative i -> usable (snd nv);
  current_named : strip (current_symbol i) <> EmptyString;
  candidate_named : strip (candidate_symbol i) <> EmptyString;
  symbols_differ : upper (current_symbol i) <> upper (candidate_symbol i);
  confidence_in_range : fle (candidate_confidence i) (flit "1.0") = true;
  partial_in_range : flt fzero (max_partial_fraction i) = true /\ fle (max_partial_fraction i) (flit "1.0") = true;
  no_cooldown : cooldown_active i = false;
  no_transition : pending_transition i = false;
  no_payment_due : near_settlement i = false;
  held_long_enough : fle (minimum_hold_hours i) (held_hours i) = true;
  pays_back : flt (max_payback_hours i) (payback i) = false;
  worth_it : flt (incremental i) (required_value i) = false;
  position_open : flt fzero (current_notional_usd i) = true;
  candidate_has_room : flt fzero (candidate_executable_capacity_usd i) = true
}.

(** ** Reasons *)

Lemma unusable_usable x : unusable x = false <-> usable x.
Proof.
  unfold unusable, usable. rewrite orb_false_iff, negb_false_iff. split; intros [H1 H2]; (split; [done|]).
  - rewrite flt_fle in H2 by (done || by apply finite_not_nan). by apply negb_false_iff in H2.
  - rewrite flt_fle by (done || by apply finite_not_nan). by rewrite H2.
Qed.

Lemma filter_reason_if (f : string -> bool) b r : f r = true -> List.filter f (reason_if b r) = reason_if b r.
Proof. intros H. destruct b; simpl; [by rewrite H|done]. Qed.

(** Every reason blocks. *)
Lemma blockers_reasons i : blockers i = reasons i.
Proof.
  unfold blockers, reasons, input_reasons, numeric_nonnegative. cbn [flat_map fst snd].
  rewrite ?List.filter_app, !filter_reason_if by (by vm_compute). done.
Qed.

Lemma not_nonempty s : negb (nonempty s) = false <-> s <> EmptyString.
Proof. by destruct s. Qed.

Lemma fmin_positive x y : isfinite x = true -> isfinite y = true ->
  fle (fmin x y) fzero = false <-> flt fzero x = true /\ flt fzero y = true.
Proof.
  intros Hx%finite_not_nan Hy%finite_not_nan. unfold fmin.
  destruct (flt y x) eqn:E.
  - rewrite (flt_fle fzero y), (flt_fle fzero x), !negb_true_iff by done. split; [|tauto]. intros H. split; [|done].
    apply not_true_iff_false. intros H'. rewrite flt_key in E by done. rewrite fle_key in H' by done.
    apply not_true_iff_false in H. rewrite fle_key in H by done.
    destruct (fkey x) as [[]], (fkey y) as [[]]. simpl in *. lia.
  - rewrite (flt_fle fzero y), (flt_fle fzero x), !negb_true_iff by done. split; [|tauto]. intros H. split; [done|].
    apply not_true_iff_false. intros H'. rewrite flt_fle in E by done. apply negb_false_iff in E.
    apply not_true_iff_false in H. apply H. eapply fle_trans; eauto.
Qed.

Lemma numeric_usable i : flat_map (fun nv => reason_if (unusable (snd nv)) ("invalid_" +:+ fst nv)) (numeric_nonnegative i) = []
  <-> forall nv, nv ∈ numeric_nonnegative i -> usable (snd nv).
Proof. rewrite reasons_per_item. by setoid_rewrite unusable_usable. Qed.

Lemma input_reasons_nil i : input_reasons i = [] <->
  (forall nv, nv ∈ numeric_nonnegative i -> usable (snd nv)) /\
  strip (current_symbol i) <> EmptyString /\ strip (candidate_symbol i) <> EmptyString /\
  upper (current_symbol i) <> upper (candidate_symbol i) /\
  (fle fzero (candidate_confidence i) = true /\ fle (candidate_confidence i) (flit "1.0") = true) /\
  (flt fzero (max_partial_fraction i) = true /\ fle (max_partial_fraction i) (flit "1.0") = true) /\
  cooldown_active i = false /\ pending_transition i = false.
Proof.
  unfold input_reasons. rewrite !app_nil, !reason_if_nil, numeric_usable, orb_false_iff, !not_nonempty.
  rewrite !negb_false_iff, !andb_true_iff, String.eqb_neq. tauto.
Qed.

Lemma reasons_nil i : reasons i = [] <->
  input_reasons i = [] /\ near_settlement i = false /\ flt (held_hours i) (minimum_hold_hours i) = false /\
  flt (max_payback_hours i) (payback i) = false /\ flt (incremental i) (required_value i) = false.
Proof. unfold reasons. by rewrite !app_nil, !reason_if_nil. Qed.

Lemma rotates_reasons i : rotates (action (decide i)) <-> reasons i = [] /\ fle (maximum i) fzero = false.
Proof.
  unfold decide, rotates. rewrite blockers_reasons. case_bool_decide as E; simpl.
  - destruct (fle (maximum i) fzero); simpl; [naive_solver|]. destruct (partly i); naive_solver.
  - destruct (existsb hard (reasons i)); naive_solver.
Qed.

Ltac listed := unfold numeric_nonnegative; repeat (apply elem_of_cons; (left; reflexivity) || right).

Lemma sizes_usable i : (forall nv, nv ∈ numeric_nonnegative i -> usable (snd nv)) ->
  usable (current_notional_usd i) /\ usable (candidate_executable_capacity_usd i).
Proof.
  intros Hn. split; [apply (Hn ("current_notional", _))|apply (Hn ("candidate_capacity", _))]; listed.
Qed.

Lemma times_usable i : (forall nv, nv ∈ numeric_nonnegative i -> usable (snd nv)) ->
  usable (held_hours i) /\ usable (minimum_hold_hours i) /\ usable (candidate_confidence i).
Proof.
  intros Hn. split_and!; [apply (Hn ("held_hours", _))|apply (Hn ("minimum_hold_hours", _))|
    apply (Hn ("candidate_confidence", _))]; listed.
Qed.

Lemma reasons_may_rotate i : reasons i = [] /\ fle (maximum i) fzero = false <-> may_rotate i.
Proof.
  rewrite reasons_nil, input_reasons_nil.
  split; [intros (((Hn & H) & Hr) & Hm)|intros [Hn ? ? ? ? ? ? ? ? Hh ? ? ? ?]];
    destruct (sizes_usable i Hn) as [[Fn _] [Fc _]], (times_usable i Hn) as ([Fh _] & [Fm _] & [_ Fp]).
  - destruct Hr as (? & Hh & ?). apply finite_order in Hh; [|done..]. apply fmin_positive in Hm; [|done..].
    constructor; tauto.
  - apply finite_order in Hh; [|done..]. split; [tauto|]. apply fmin_positive; tauto.
Qed.

(** The policy recommends a move exactly when every condition holds. *)
Theorem rotates_exactly_when_allowed i : rotates (action (decide i)) <-> may_rotate i.
Proof. by rewrite rotates_reasons, reasons_may_rotate. Qed.

(** ** The size of a move *)

Definition doubles (i : RotationInputs) : Prop :=
  (forall nv, nv ∈ numeric_nonnegative i -> valid_float (snd nv) = true) /\
  valid_float (max_partial_fraction i) = true.

Lemma usable_amount x : valid_float x = true -> usable x -> amount x.
Proof. intros Hv H. split; [done|]. destruct H as [Hf H]. split; [done|]. by apply finite_order. Qed.

Lemma number_amount i name x : (name, x) ∈ numeric_nonnegative i ->
  (forall nv, nv ∈ numeric_nonnegative i -> usable (snd nv)) -> doubles i -> amount x.
Proof. intros Hin Hn [Hv _]. apply usable_amount; [exact (Hv _ Hin)|exact (Hn _ Hin)]. Qed.

Lemma fraction_amount i : amount (fraction i) /\ fle (fraction i) (flit "1.0") = true.
Proof.
  unfold fraction. set (q := fdiv_ieee _ _). assert (valid_float q = true) as Hq by apply fdiv_valid.
  clearbody q. unfold fmin, fmax.
  destruct (flt fzero q) eqn:E1; [|by vm_compute].
  destruct (flt q (flit "1.0")) eqn:E2; [|by vm_compute].
  destruct (flt_not_nan _ _ E1) as [_ Hn].
  assert (isfinite q = true) as Hf by (destruct q as [|[]| |]; done).
  split; [apply usable_amount; [done|split; [done|]]|]; by apply flt_le.
Qed.

Lemma part_amount i : may_rotate i -> doubles i ->
  let f := fmin (max_partial_fraction i) (fmax (flit "0.10") (fraction i)) in amount f /\ fle f (flit "1.0") = true.
Proof.
  intros [Hn _ _ _ _ [Hp1 Hp2] _ _ _ _ _ _ _ _] [_ Hv] f. destruct (fraction_amount i) as [Hf1 Hf2].
  unfold f. destruct (fmin_either (max_partial_fraction i) (fmax (flit "0.10") (fraction i))) as [->| ->].
  - split; [|done]. apply usable_amount; [done|]. split; [|by apply flt_le].
    by destruct (max_partial_fraction i) as [|[]| |].
  - destruct (fmax_either (flit "0.10") (fraction i)) as [->| ->]; [by vm_compute|done].
Qed.

(** C6: a move takes no more than the position and no more than the candidate can execute. *)
Theorem rotation_is_bounded i : doubles i -> rotates (action (decide i)) ->
  let moved := rotate_notional_usd (decide i) in
  fle fzero moved = true /\ fle moved (current_notional_usd i) = true /\
  fle moved (candidate_executable_capacity_usd i) = true.
Proof.
  intros Hd Hr. pose proof (proj1 (rotates_reasons i) Hr) as [Hrs Hm].
  assert (may_rotate i) as Hmay by (by apply reasons_may_rotate).
  assert (rotate_notional_usd (decide i) = rotate_notional i) as ->.
  { unfold decide. by rewrite blockers_reasons, Hrs, Hm. }
  destruct (sizes_usable i (numbers_usable _ Hmay)) as [Un Uc].
  assert (amount (maximum i)) as Ha.
  { unfold maximum.
    destruct (fmin_either (current_notional_usd i) (candidate_executable_capacity_usd i)) as [->| ->];
      [eapply (number_amount i "current_notional")|eapply (number_amount i "candidate_capacity")];
      try done; try apply Hmay; listed. }
  destruct (fmin_le (current_notional_usd i) (candidate_executable_capacity_usd i)) as [L1 L2];
    [by apply finite_not_nan, Un|by apply finite_not_nan, Uc|]. fold (maximum i) in L1, L2.
  destruct (part_amount i Hmay Hd) as [Hf Hf1]. unfold rotate_notional. cbn zeta in *.
  pose proof (fmul_le _ _ Ha Hf Hf1) as Hle. pose proof (fmul_nonneg _ _ Ha Hf) as Hge.
  destruct (partly i).
  - destruct (fle_not_nan _ _ Hle) as [N1 N2]. destruct (fle_not_nan _ _ L1), (fle_not_nan _ _ L2).
    split_and!; [done|by apply (fle_trans _ (maximum i))..].
  - split_and!; try done. destruct Ha as (_ & Hfin & Hz). by apply finite_order in Hz.
Qed.

(** ** The hysteresis band *)

Definition with_previous (p : RotationAction) (i : RotationInputs) : RotationInputs :=
  Inputs (current_symbol i) (candidate_symbol i) (current_notional_usd i) (current_remaining_lcb_usd i)
    (candidate_lcb_usd_at_current_size i) (current_close_cost_usd i) (candidate_open_cost_usd i)
    (transition_loss_usd i) (candidate_executable_capacity_usd i) (candidate_confidence i) (held_hours i)
    (minimum_hold_hours i) (minimum_incremental_value_usd i) (hysteresis_usd i) (max_payback_hours i)
    (candidate_net_earning_rate_usd_per_hour i) (seconds_to_current_settlement i)
    (current_settlement_lower_payment_usd i) (cooldown_active i) (pending_transition i) p (max_partial_fraction i).

Lemma band_order m h : amount m -> amount h -> fle (fmax fzero (fsub m h)) (fadd m h) = true.
Proof.
  intros Hm Hh. pose proof (fsub_le _ _ Hm Hh) as H1. pose proof (fadd_ge _ _ Hm Hh) as H2.
  destruct (fle_not_nan _ _ H1), (fle_not_nan _ _ H2). apply (fle_trans _ m); try done.
  - by destruct (fmax_either fzero (fsub m h)) as [->| ->].
  - destruct (fmax_either fzero (fsub m h)) as [->| ->]; [|done].
    destruct Hm as (_ & Hf & Hz). by apply finite_order in Hz.
Qed.

Lemma below_band x r r' : fle r' r = true -> flt x r = false -> flt x r' = false.
Proof.
  intros Hr Hx. destruct (flt x r') eqn:E; [|done].
  by rewrite (flt_fle_trans _ _ _ E Hr) in Hx.
Qed.

(** A move recommended against the full hurdle is recommended again, with the same
    size, when a move was the previous recommendation: the lower edge of the band is
    never above the hurdle, in binary64 as well. *)
Theorem recommendation_persists i p : doubles i -> previous_recommendation i = KEEP ->
  rotates (action (decide i)) -> decide (with_previous p i) = decide i.
Proof.
  intros Hd Hk Hr. apply rotates_reasons in Hr as [Hr Hm]. unfold decide. rewrite !blockers_reasons.
  assert (reasons (with_previous p i) = []) as ->; [|by rewrite Hr].
  apply reasons_nil in Hr as (Hi & Hs & Hh & Hp & Hw). apply reasons_nil. split_and!; try done.
  change (incremental (with_previous p i)) with (incremental i).
  revert Hw. unfold required_value. rewrite Hk. cbn [bool_decide]. rewrite bool_decide_eq_true_2 by done.
  cbn [with_previous previous_recommendation minimum_incremental_value_usd hysteresis_usd].
  case_bool_decide; [done|]. apply below_band. apply input_reasons_nil in Hi as [Hn _].
  apply band_order; [eapply (number_amount i "minimum_incremental_value")|eapply (number_amount i "hysteresis")];
    try done; listed.
Qed.

Lemma all_doubles i :
  forallb (fun nv => valid_float (snd nv)) (numeric_nonnegative i) && valid_float (max_partial_fraction i) = true ->
  doubles i.
Proof.
  intros [H Hp]%andb_true_iff. split; [|done]. intros nv Hin. rewrite forallb_forall in H.
  by apply H, list_elem_of_In.
Qed.

Lemma rotation_is_bounded_witness :
  let d := decide (example_inputs (flit "20") KEEP) in
  fle fzero (rotate_notional_usd d) = true /\ fle (rotate_notional_usd d) (flit "1000") = true /\
  fle (rotate_notional_usd d) (flit "5000") = true.
Proof.
  apply (rotation_is_bounded (example_inputs (flit "20") KEEP)).
  - apply all_doubles. vm_compute. reflexivity.
  - right. vm_compute. reflexivity.
Defined.

Lemma recommendation_persists_witness :
  decide (with_previous PARTIAL_ROTATE (example_inputs (flit "20") KEEP)) = decide (example_inputs (flit "20") KEEP).
Proof.
  apply recommendation_persists.
  - apply all_doubles. vm_compute. reflexivity.
  - reflexivity.
  - right. vm_compute. reflexivity.
Defined.

(** ** A candidate without a forecast

    The two value bounds are not among the checked numbers: with a nan for the
    candidate's bound every comparison with the incremental value is false. *)
Lemma no_forecast_no_value i : is_nan (candidate_lcb_usd_at_current_size i) = true -> incremental i = S754_nan.
Proof.
  intros H. unfold incremental. destruct (candidate_lcb_usd_at_current_size i); try done.
  by destruct (near_settlement i).
Qed.

Example nan_candidate_rotates :
  let d := decide (example_inputs S754_nan KEEP) in
  (action d, rotate_notional_usd d, reason_codes d)
  = (PARTIAL_ROTATE, flit "100", ["positive_incremental_net_ev"]).
Proof. vm_compute. reflexivity. Qed.
