(* ===== verification/HoldExitPolicy.v ===== *)
(** * Hold or exit

    Model of [src/bongus/strategies/hold_exit_policy.py]: the value of holding an open
    pair against that of closing it, in the direction of the pair, and the action taken
    from it.  A direction is any text, as in the interpreter. *)
From Stdlib Require Import ZArith Lia Ascii SpecFloat.
From stdpp Require Import base list strings.
From S2P Require Import Prelude PyDecimal PyFloat PyFormat.
Open Scope Z_scope.

Inductive HoldExitAction := HOLD | CONTROLLED_EXIT | EMERGENCY_EXIT | MANUAL_REVIEW.

#[global] Instance HoldExitAction_eq_dec : EqDecision HoldExitAction.
Proof. solve_decision. Defined.

(** [action.value] *)
Definition action_value (a : HoldExitAction) : string :=
  match a with
  | HOLD => "hold"
  | CONTROLLED_EXIT => "controlled_exit"
  | EMERGENCY_EXIT => "emergency_exit"
  | MANUAL_REVIEW => "manual_review"
  end.

Record HoldExitInputs := Inputs {
  symbol : string;
  direction : string;
  notional_usd : float;
  expected_future_funding_usd : float;
  lower_future_funding_usd : float;
  current_basis_pct : float;
  expected_exit_basis_pct : float;
  exit_cost_usd : float;
  borrow_cost_usd : float;
  basis_tail_risk_usd : float;
  seconds_to_settlement : float;
  settlement_survival_probability : float;
  imminent_settlement_payment_usd : float;
  forecast_favourable_probability : float;
  risk_urgency : float;
  hedge_mismatch_usd : float;
  maximum_hedge_mismatch_usd : float;
  data_fresh : bool;
  exit_executable : bool;
  entry_blocked : bool;
  minimum_hold_advantage_usd : float
}.

Record HoldExitDecision := Decision_ {
  action : HoldExitAction;
  hold_value_usd : float;
  exit_value_usd : float;
  incremental_hold_value_usd : float;
  urgency : float;
  reason_codes : list string;
  explanation : string
}.

Definition directions : list string := ["long_spot_short_perp"; "short_spot_long_perp"].

(** [0.0 <= p <= 1.0] *)
Definition probability (p : float) : bool := fle fzero p && fle p (flit "1.0").

Section decide.
Context (inputs : HoldExitInputs).

Definition amounts : list (string * float) :=
  [("notional", notional_usd inputs);
   ("exit_cost", exit_cost_usd inputs);
   ("borrow_cost", borrow_cost_usd inputs);
   ("basis_tail_risk", basis_tail_risk_usd inputs);
   ("hedge_mismatch", hedge_mismatch_usd inputs);
   ("maximum_hedge_mismatch", maximum_hedge_mismatch_usd inputs)].

(** [not math.isfinite(value) or value < 0.0] *)
Definition unusable (value : float) : bool := negb (isfinite value) || flt value fzero.

Definition input_reasons : list string :=
  reason_if (negb (nonempty (strip (symbol inputs)))) "missing_symbol"
  ++ reason_if (negb (str_in (direction inputs) directions)) "unknown_direction"
  ++ flat_map (fun nv => reason_if (unusable (snd nv)) ("invalid_" +:+ fst nv)) amounts
  ++ reason_if (negb (probability (settlement_survival_probability inputs)))
       "invalid_settlement_survival_probability"
  ++ reason_if (negb (probability (forecast_favourable_probability inputs))) "invalid_forecast_probability".

Definition direction_sign : float :=
  if String.eqb (direction inputs) "long_spot_short_perp" then flit "1.0" else flit "-1.0".

(** The pair with the short perpetual gains when the basis falls, the other one when
    it rises. *)
Definition basis_convergence_usd : float :=
  fmul (fmul direction_sign (fsub (current_basis_pct inputs) (expected_exit_basis_pct inputs)))
    (notional_usd inputs).

Definition survival_payment : float :=
  fmul (imminent_settlement_payment_usd inputs) (settlement_survival_probability inputs).

Definition hold_value : float :=
  fsub (fsub (fsub (fadd (fadd (lower_future_funding_usd inputs) basis_convergence_usd) survival_payment)
                (borrow_cost_usd inputs))
          (basis_tail_risk_usd inputs))
    (exit_cost_usd inputs).

Definition exit_value : float := SFopp (exit_cost_usd inputs).
Definition incremental : float := fsub hold_value exit_value.

Definition likely_reversal : bool := flt (forecast_favourable_probability inputs) (flit "0.35").

Definition urgency_of : float :=
  let u := fmin (flit "1.0") (fmax fzero (risk_urgency inputs)) in
  let u := if flt fzero (maximum_hedge_mismatch_usd inputs) then
             fmax u (fmin (flit "1.0")
                       (fdiv_ieee (hedge_mismatch_usd inputs) (maximum_hedge_mismatch_usd inputs)))
           else u in
  if likely_reversal then fmax u (flit "0.60") else u.

(** An entry lock is recorded, and never looked at. *)
Definition observed_reasons : list string :=
  input_reasons
  ++ reason_if likely_reversal "funding_reversal_likely"
  ++ reason_if (negb (data_fresh inputs)) "stale_decision_inputs"
  ++ reason_if (entry_blocked inputs) "entry_lock_ignored_for_exit".

Definition invalid : bool :=
  existsb (fun reason => startswith "invalid_" reason || str_in reason ["missing_symbol"; "unknown_direction"])
    observed_reasons.

Definition choose : HoldExitAction * list string :=
  if invalid then (MANUAL_REVIEW, [])
  else if fle (flit "0.95") urgency_of then (EMERGENCY_EXIT, ["risk_urgency_emergency"])
  else if negb (data_fresh inputs) then (HOLD, ["stale_data_blocks_economic_exit"])
  else if negb (exit_executable inputs) then (MANUAL_REVIEW, ["exit_not_executable"])
  else if flt incremental (minimum_hold_advantage_usd inputs) || fle (flit "0.60") urgency_of then
    (CONTROLLED_EXIT, ["exit_lcb_dominates_hold"])
  else (HOLD, ["hold_lcb_dominates_exit"]).

Definition decide : HoldExitDecision :=
  let '(a, more) := choose in
  Decision_ a hold_value exit_value incremental urgency_of (dedupe (observed_reasons ++ more))
    (symbol inputs +:+ " " +:+ action_value a +:+ ": hold $" +:+ fmt_2f hold_value
     +:+ ", exit $" +:+ fmt_2f exit_value +:+ ", delta $" +:+ fmt_2f incremental
     +:+ ", urgency " +:+ fmt_2f urgency_of).
End decide.

(** A pair of 1000 dollars with the funding, urgency and freshness given. *)
Definition example_inputs (funding urgency : float) (fresh : bool) : HoldExitInputs :=
  Inputs "BTCUSDT" "long_spot_short_perp" (flit "1000") funding funding fzero fzero (flit "1") fzero
    fzero finf (flit "1.0") fzero (flit "0.5") urgency fzero (flit "10") fresh true false fzero.

Example hold_exit_examples :
  map (fun x => action (decide x))
    [example_inputs (flit "5") fzero true; example_inputs (flit "-5") fzero true;
     example_inputs (flit "-5") fzero false; example_inputs (flit "5") (flit "1") false]
  = [HOLD; CONTROLLED_EXIT; HOLD; EMERGENCY_EXIT].
Proof. vm_compute. reflexivity. Qed.

Example hold_exit_explained :
  explanation (decide (example_inputs (flit "5") fzero true)) =
  "BTCUSDT hold: hold $4.00, exit $-1.00, delta $5.00, urgency 0.00".
Proof. vm_compute. reflexivity. Qed.
