(* ===== verification/HoldExitPolicyFacts.v ===== *)
(** * Properties of the hold or exit policy

    Which action is taken, exactly; an entry lock takes no part in it; the urgency is
    a number of [0, 1] whatever the inputs.  A funding forecast that is not a number
    keeps the pair. *)
From Stdlib Require Import ZArith Lia Ascii SpecFloat.
From stdpp Require Import base list strings sets.
From S2P Require Import Prelude PyDecimal PyFloat PyFormat PyFloatOrder HoldExitPolicy.
Open Scope Z_scope.

(** Inputs the policy decides on. *)
Record sound (i : HoldExitInputs) : Prop := {
  symbol_named : strip (symbol i) <> EmptyString;
  direction_known : direction i = "long_spot_short_perp" \/ direction i = "short_spot_long_perp";
  amounts_usable : forall nv, nv ∈ amounts i -> isfinite (snd nv) = true /\ flt (snd nv) fzero = false;
  survival_in_range : probability (settlement_survival_probability i) = true;
  forecast_in_range : probability (forecast_favourable_probability i) = true
}.

(** ** Reasons *)

(** The reasons that make the inputs unusable. *)
Definition fatal (reason : string) : bool :=
  startswith "invalid_" reason || str_in reason ["missing_symbol"; "unknown_direction"].

Lemma existsb_reason_if (f : string -> bool) b r : existsb f (reason_if b r) = b && f r.
Proof. destruct b; simpl; [by rewrite orb_false_r|done]. Qed.

Lemma existsb_flat_map {A B} (f : B -> bool) (g : A -> list B) l :
  existsb f (flat_map g l) = existsb (fun x => existsb f (g x)) l.
Proof. induction l as [|x l IH]; simpl; [done|]. by rewrite existsb_app, IH. Qed.

Lemma existsb_ext' {A} (f g : A -> bool) l : (forall x, f x = g x) -> existsb f l = existsb g l.
Proof. intros H. induction l as [|x l IH]; simpl; [done|]. by rewrite H, IH. Qed.

Lemma invalid_prefix name : fatal ("invalid_" +:+ name) = true.
Proof. done. Qed.

(** The inputs are invalid for one of the five checks only. *)
Lemma invalid_checks i : invalid i =
  negb (nonempty (strip (symbol i))) || (negb (str_in (direction i) directions)
  || (existsb (fun nv => unusable (snd nv)) (amounts i)
      || (negb (probability (settlement_survival_probability i))
          || negb (probability (forecast_favourable_probability i))))).
Proof.
  unfold invalid, observed_reasons, input_reasons. fold fatal.
  rewrite !existsb_app, existsb_flat_map, !existsb_reason_if.
  rewrite (existsb_ext' _ (fun nv : string * float => unusable (snd nv)))
    by (intros nv; by rewrite existsb_reason_if, invalid_prefix, andb_true_r).
  change (fatal "missing_symbol") with true. change (fatal "unknown_direction") with true.
  change (fatal "invalid_settlement_survival_probability") with true.
  change (fatal "invalid_forecast_probability") with true.
  change (fatal "funding_reversal_likely") with false. change (fatal "stale_decision_inputs") with false.
  change (fatal "entry_lock_ignored_for_exit") with false.
  by rewrite !andb_true_r, !andb_false_r, !orb_false_r, ?orb_assoc.
Qed.

Lemma invalid_sound i : invalid i = false <-> sound i.
Proof.
  rewrite invalid_checks, !orb_false_iff, !negb_false_iff, existsb_false, str_in_spec.
  unfold directions. setoid_rewrite orb_false_iff. setoid_rewrite negb_false_iff.
  split.
  - intros (Hs & Hd & Ha & ? & ?). constructor; try done; [by destruct (strip (symbol i))|set_solver].
  - intros [Hs Hd Ha ? ?]. split_and!; try done; [by destruct (strip (symbol i))|set_solver].
Qed.

(** ** The action *)

(** C5: each action is taken in exactly one situation: an unsound description of the pair
    comes before an emergency, an emergency before stale data and an exit that cannot
    be executed, and only then is the value of holding looked at. *)
Theorem action_taken_exactly_when i :
  let emergency := fle (flit "0.95") (urgency_of i) = true in
  let exit_is_better := flt (incremental i) (minimum_hold_advantage_usd i) = true \/ fle (flit "0.60") (urgency_of i) = true in
  (action (decide i) = EMERGENCY_EXIT <-> sound i /\ emergency) /\
  (action (decide i) = CONTROLLED_EXIT <->
     sound i /\ ~ emergency /\ data_fresh i = true /\ exit_executable i = true /\ exit_is_better) /\
  (action (decide i) = HOLD <->
     sound i /\ ~ emergency /\ (data_fresh i = false \/ exit_executable i = true /\ ~ exit_is_better)) /\
  (action (decide i) = MANUAL_REVIEW <->
     ~ sound i \/ ~ emergency /\ data_fresh i = true /\ exit_executable i = false).
Proof.
  intros emergency better.
  assert (action (decide i) = fst (choose i)) as -> by (unfold decide; by destruct (choose i)).
  unfold choose. pose proof (invalid_sound i) as Hs. unfold emergency, better.
  destruct (invalid i); [split_and!; simpl; naive_solver|].
  destruct (fle (flit "0.95") (urgency_of i)); [split_and!; simpl; naive_solver|].
  destruct (data_fresh i); [|split_and!; simpl; naive_solver].
  destruct (exit_executable i); [|split_and!; simpl; naive_solver].
  destruct (flt (incremental i) (minimum_hold_advantage_usd i)), (fle (flit "0.60") (urgency_of i));
    split_and!; simpl; naive_solver.
Qed.

(** ** Entry locks *)

Definition with_entry_blocked (b : bool) (i : HoldExitInputs) : HoldExitInputs :=
  Inputs (symbol i) (direction i) (notional_usd i) (expected_future_funding_usd i) (lower_future_funding_usd i)
    (current_basis_pct i) (expected_exit_basis_pct i) (exit_cost_usd i) (borrow_cost_usd i) (basis_tail_risk_usd i)
    (seconds_to_settlement i) (settlement_survival_probability i) (imminent_settlement_payment_usd i)
    (forecast_favourable_probability i) (risk_urgency i) (hedge_mismatch_usd i) (maximum_hedge_mismatch_usd i)
    (data_fresh i) (exit_executable i) b (minimum_hold_advantage_usd i).

(** C8: a lock on entries changes nothing of an exit decision but the reason that records
    the lock. *)
Theorem entry_lock_never_blocks_exit b i :
  let d := decide i in let d' := decide (with_entry_blocked b i) in
  action d' = action d /\ hold_value_usd d' = hold_value_usd d /\ exit_value_usd d' = exit_value_usd d /\
  incremental_hold_value_usd d' = incremental_hold_value_usd d /\ urgency d' = urgency d /\
  explanation d' = explanation d /\
  forall r, r <> "entry_lock_ignored_for_exit" -> r ∈ reason_codes d' <-> r ∈ reason_codes d.
Proof.
  assert (choose (with_entry_blocked b i) = choose i) as E
    by (unfold choose; rewrite !invalid_checks; reflexivity).
  unfold decide. rewrite E. destruct (choose i) as [a more]. cbn.
  split_and!; try reflexivity. intros r Hr. rewrite !elem_of_dedupe, !elem_of_app.
  unfold observed_reasons. rewrite !elem_of_app.
  change (input_reasons (with_entry_blocked b i)) with (input_reasons i).
  change (likely_reversal (with_entry_blocked b i)) with (likely_reversal i). cbn [with_entry_blocked data_fresh entry_blocked].
  assert (forall c, r ∉ reason_if c "entry_lock_ignored_for_exit") as Hn by (intros [|]; simpl; set_solver).
  pose proof (Hn b). pose proof (Hn (entry_blocked i)). tauto.
Qed.

(** ** Urgency *)

Definition unit_number (x : float) : Prop := is_nan x = false /\ fle fzero x = true /\ fle x (flit "1.0") = true.

Lemma unit_clamp x : unit_number (fmin (flit "1.0") (fmax fzero x)).
Proof.
  unfold fmin, fmax. destruct (flt fzero x) eqn:E1; [|by vm_compute].
  destruct (flt x (flit "1.0")) eqn:E2; [|by vm_compute]. destruct (flt_not_nan _ _ E1) as [_ Hn].
  split_and!; [done|by apply flt_le..].
Qed.

Lemma unit_fmax u x : unit_number u -> fle x (flit "1.0") = true -> unit_number (fmax u x).
Proof.
  intros (Hn & H0 & H1) Hx. unfold fmax. destruct (flt u x) eqn:E; [|done].
  destruct (flt_not_nan _ _ E) as [_ Nx]. split_and!; [done|by apply (fle_flt_trans_le _ u)|done].
Qed.

Lemma fmin_one x : fle (fmin (flit "1.0") x) (flit "1.0") = true.
Proof. unfold fmin. destruct (flt x (flit "1.0")) eqn:E; [by apply flt_le|by vm_compute]. Qed.

(** The urgency is a number between zero and one for all inputs, nans and infinities
    included. *)
Theorem urgency_is_bounded i : unit_number (urgency (decide i)).
Proof.
  assert (urgency (decide i) = urgency_of i) as -> by (unfold decide; by destruct (choose i)).
  unfold urgency_of. cbn zeta. pose proof (unit_clamp (risk_urgency i)) as H.
  set (u := fmin (flit "1.0") _) in *. clearbody u.
  assert (forall b : bool, unit_number (if b then fmax u (fmin (flit "1.0")
    (fdiv_ieee (hedge_mismatch_usd i) (maximum_hedge_mismatch_usd i))) else u)) as H'.
  { intros []; [apply unit_fmax; [done|apply fmin_one]|done]. }
  specialize (H' (flt fzero (maximum_hedge_mismatch_usd i))).
  destruct (likely_reversal i); [|done]. apply unit_fmax; [done|]. by vm_compute.
Qed.

(** ** A forecast that is not a number

    The forecast is not among the checked amounts: when it is a nan no comparison with
    the value of holding is true, and the pair is held as the better choice. *)
Example nan_forecast_is_held :
  let d := decide (example_inputs S754_nan fzero true) in
  (action d, reason_codes d) = (HOLD, ["hold_lcb_dominates_exit"]).
Proof. vm_compute. reflexivity. Qed.

(** So is a risk urgency: it counts as none. *)
Example nan_urgency_is_none : urgency_of (example_inputs (flit "5") S754_nan true) = fzero.
Proof. vm_compute. reflexivity. Qed.
