(* ===== verification/OpportunityKernel.v ===== *)
(** * Opportunity kernel

    Model of [src/bongus/strategies/opportunity_kernel.py]: the economics of one entry
    from the settlements it will meet, with every reason why its inputs cannot be used.
    An instant is [Some] of its UTC microseconds, or [None] when the [datetime] carries
    no offset and [_utc] raises. *)
From Stdlib Require Import ZArith Lia Ascii SpecFloat.
From stdpp Require Import base list strings.
From S2P Require Import Prelude PyDecimal PyFloat PyTime.
Open Scope Z_scope.

Definition OPPORTUNITY_KERNEL_VERSION : string := "opportunity-economics-v1".

(** A [datetime] argument; [None] stands for one without an offset. *)
Notation datetime := (option Z).

Definition _utc (value : datetime) : result Z :=
  match value with
  | Some t => Ok t
  | None => raise ValueError "kernel timestamps must be timezone-aware"
  end.

(** [datetime.min] *)
Definition datetime_min : Z := -62135596800000000.

Record SettlementExpectation := Settlement {
  settlement_time : datetime;
  expected_rate : float;
  eligibility_probability : float;
  source_event_id : string
}.

Record OpportunityEvaluationInput := Input {
  symbol : string;
  direction : string;
  decision_time : datetime;
  horizon_end : datetime;
  pair_gross_notional_usd : float;
  funding_liable_notional_usd : float;
  settlement_interval_hours : float;
  settlements : list SettlementExpectation;
  entry_execution_cost_pct : float;
  exit_execution_cost_pct : float;
  minimum_net_edge_bps : float;
  basis_expected_pnl_usd : float;
  borrow_and_financing_usd : float;
  capital_cost_usd : float;
  repair_and_failure_allowance_usd : float;
  calendar_authoritative : bool;
  calendar_observed_at : option datetime;
  funding_rate_observed_at : option datetime;
  max_calendar_age_seconds : float;
  max_funding_rate_age_seconds : float
}.

Record OpportunityEvaluation := Evaluation {
  kernel_version : string;
  o_symbol : string;
  o_direction : string;
  valid : bool;
  eligible : bool;
  reason_codes : list string;
  settlement_count : Z;
  first_settlement_time : option Z;
  last_settlement_time : option Z;
  gross_funding_usd : float;
  gross_funding_edge_bps : float;
  entry_execution_cost_usd : float;
  exit_execution_cost_usd : float;
  total_cost_usd : float;
  net_ev_usd : float;
  net_edge_bps : float;
  net_edge_pair_gross_bps : float;
  o_pair_gross_notional_usd : float;
  o_funding_liable_notional_usd : float;
  evaluation_horizon_hours : float
}.

Definition _finite (value : float) : bool := isfinite value.

Definition directions : list string := ["long_spot_short_perp"; "short_spot_long_perp"].

(** [max(0.0, value) if _finite(value) else 0.0] *)
Definition charge (value : float) : float := if _finite value then fmax fzero value else fzero.

(** The [ValueError] of either instant replaces both. *)
Definition instants (inputs : OpportunityEvaluationInput) : option (Z * Z) :=
  match _utc (decision_time inputs), _utc (horizon_end inputs) with
  | Ok d, Ok h => Some (d, h)
  | _, _ => None
  end.

(** What the settlement loop carries: the sum, the last time seen, the times and the
    reasons. *)
Record scan := Scan {
  s_gross : float;
  s_previous : option Z;
  s_times : list Z;
  s_reasons : list string
}.

Section evaluate.
Context (inputs : OpportunityEvaluationInput).

Definition symbol_of : string := upper (strip (symbol inputs)).

Definition decision_at : Z := match instants inputs with Some (d, _) => d | None => datetime_min end.
Definition horizon_at : Z := match instants inputs with Some (_, h) => h | None => datetime_min end.

Definition header_reasons : list string :=
  reason_if (negb (nonempty symbol_of)) "missing_symbol"
  ++ reason_if (negb (str_in (direction inputs) directions)) "unknown_direction"
  ++ reason_if (bool_decide (instants inputs = None)) "invalid_decision_timestamps"
  ++ reason_if (horizon_at <=? decision_at) "invalid_horizon".

Definition scalar_values : list (string * float) :=
  [("pair_gross_notional", pair_gross_notional_usd inputs);
   ("funding_liable_notional", funding_liable_notional_usd inputs);
   ("settlement_interval_hours", settlement_interval_hours inputs);
   ("entry_execution_cost", entry_execution_cost_pct inputs);
   ("exit_execution_cost", exit_execution_cost_pct inputs);
   ("minimum_net_edge", minimum_net_edge_bps inputs);
   ("basis_expected_pnl", basis_expected_pnl_usd inputs);
   ("borrow_and_financing", borrow_and_financing_usd inputs);
   ("capital_cost", capital_cost_usd inputs);
   ("repair_and_failure_allowance", repair_and_failure_allowance_usd inputs);
   ("max_calendar_age", max_calendar_age_seconds inputs);
   ("max_funding_rate_age", max_funding_rate_age_seconds inputs)].

Definition costs : list (string * float) :=
  [("entry_execution_cost", entry_execution_cost_pct inputs);
   ("exit_execution_cost", exit_execution_cost_pct inputs);
   ("borrow_and_financing", borrow_and_financing_usd inputs);
   ("capital_cost", capital_cost_usd inputs);
   ("repair_and_failure_allowance", repair_and_failure_allowance_usd inputs)].

Definition pair_gross : float := charge (pair_gross_notional_usd inputs).
Definition liable_notional : float := charge (funding_liable_notional_usd inputs).

Definition scalar_reasons : list string :=
  flat_map (fun nv => reason_if (negb (_finite (snd nv))) ("invalid_" +:+ fst nv)) scalar_values
  ++ reason_if (fle pair_gross fzero) "non_positive_pair_gross_notional"
  ++ reason_if (fle liable_notional fzero) "non_positive_funding_liable_notional"
  ++ reason_if (flt pair_gross liable_notional) "funding_notional_exceeds_pair_gross"
  ++ reason_if (negb (_finite (settlement_interval_hours inputs))
                || negb (flt fzero (settlement_interval_hours inputs)
                         && fle (settlement_interval_hours inputs) (flit "24.0")))
       "invalid_settlement_interval"
  ++ flat_map (fun nv => reason_if (_finite (snd nv) && flt (snd nv) fzero) ("negative_" +:+ fst nv)) costs
  ++ reason_if (negb (calendar_authoritative inputs)) "missing_authoritative_settlement_metadata".

Definition validate_observation (value : option datetime) (maximum_age_seconds : float)
    (missing_code stale_code future_code : string) : list string :=
  match value with
  | None => [missing_code]
  | Some t =>
      match _utc t with
      | Err _ => [missing_code]
      | Ok observed_at =>
          let age_seconds := total_seconds (decision_at - observed_at) in
          reason_if (flt age_seconds (flit "-1e-6")) future_code
          ++ reason_if (negb (_finite maximum_age_seconds) || fle maximum_age_seconds fzero
                        || flt maximum_age_seconds age_seconds) stale_code
      end
  end.

Definition observation_reasons : list string :=
  validate_observation (calendar_observed_at inputs) (max_calendar_age_seconds inputs)
    "missing_settlement_metadata_timestamp" "stale_settlement_metadata" "future_settlement_metadata"
  ++ validate_observation (funding_rate_observed_at inputs) (max_funding_rate_age_seconds inputs)
       "missing_funding_rate_timestamp" "stale_funding_rate" "future_funding_rate".

Definition direction_sign : float :=
  if String.eqb (direction inputs) "long_spot_short_perp" then flit "1.0" else flit "-1.0".

(** One pass of the loop over the settlements. *)
Definition scan_settlement (acc : scan) (x : SettlementExpectation) : scan :=
  match _utc (settlement_time x) with
  | Err _ => Scan (s_gross acc) (s_previous acc) (s_times acc) (s_reasons acc ++ ["invalid_settlement_timestamp"])
  | Ok t =>
      let reasons :=
        s_reasons acc
        ++ reason_if ((t <=? decision_at) || (horizon_at <? t)) "settlement_outside_horizon"
        ++ reason_if (match s_previous acc with Some p => t <=? p | None => false end)
             "unordered_or_duplicate_settlement" in
      let times := s_times acc ++ [t] in
      let rate := expected_rate x in
      let probability := eligibility_probability x in
      if negb (_finite rate) then
        Scan (s_gross acc) (Some t) times (reasons ++ ["invalid_settlement_rate"])
      else if negb (_finite probability) || negb (fle fzero probability && fle probability (flit "1.0")) then
        Scan (s_gross acc) (Some t) times (reasons ++ ["invalid_settlement_eligibility"])
      else
        Scan (fadd (s_gross acc) (fmul (fmul (fmul direction_sign rate) probability) liable_notional))
          (Some t) times reasons
  end.

Definition scanned : scan := fold_left scan_settlement (settlements inputs) (Scan fzero None [] []).

(** Everything that makes the inputs unusable. *)
Definition invalid_reasons : list string :=
  header_reasons ++ scalar_reasons ++ observation_reasons ++ s_reasons scanned
  ++ reason_if (bool_decide (length (settlements inputs) = 0%nat)) "no_settlement_in_horizon".

Definition cost_usd (pct : float) : float :=
  if _finite pct then fmul liable_notional (fmax fzero pct) else fzero.

Definition entry_cost_usd : float := cost_usd (entry_execution_cost_pct inputs).
Definition exit_cost_usd : float := cost_usd (exit_execution_cost_pct inputs).

(** [sum] of floats, from the left. *)
Definition other_cost_usd : float :=
  fold_left (fun acc v => fadd acc (charge v))
    [borrow_and_financing_usd inputs; capital_cost_usd inputs; repair_and_failure_allowance_usd inputs] fzero.

Definition total_cost : float := fadd (fadd entry_cost_usd exit_cost_usd) other_cost_usd.

Definition basis_pnl : float :=
  if _finite (basis_expected_pnl_usd inputs) then basis_expected_pnl_usd inputs else fzero.

Definition gross_funding : float := s_gross scanned.
Definition net_ev : float := fsub (fadd gross_funding basis_pnl) total_cost.

(** [value / notional * 10_000.0 if notional > 0.0 else -math.inf] *)
Definition edge_bps (value notional : float) : float :=
  if flt fzero notional then fmul (fdiv_ieee value notional) (flit "10000.0") else S754_infinity true.

Definition net_edge : float := edge_bps net_ev liable_notional.

Definition minimum_edge : float :=
  if _finite (minimum_net_edge_bps inputs) then minimum_net_edge_bps inputs else finf.

Definition is_valid : bool := bool_decide (dedupe invalid_reasons = []).

Definition all_reasons : list string :=
  invalid_reasons
  ++ reason_if (is_valid && flt net_edge minimum_edge) "net_edge_below_minimum"
  ++ reason_if (is_valid && fle gross_funding fzero) "non_positive_directional_funding".

Definition is_eligible : bool := is_valid && fle minimum_edge net_edge && flt fzero gross_funding.

Definition evaluate_opportunity : OpportunityEvaluation :=
  Evaluation OPPORTUNITY_KERNEL_VERSION symbol_of (direction inputs) is_valid is_eligible
    (dedupe all_reasons) (Z.of_nat (length (s_times scanned)))
    (head (s_times scanned)) (last (s_times scanned))
    gross_funding (edge_bps gross_funding liable_notional) entry_cost_usd exit_cost_usd total_cost
    net_ev net_edge (edge_bps net_ev pair_gross) pair_gross liable_notional
    (fmax fzero (fdiv_ieee (total_seconds (horizon_at - decision_at)) (flit "3600.0"))).
End evaluate.
