(* ===== verification/OpportunityKernelFacts.v ===== *)
(** * Properties of the opportunity kernel

    An evaluation is valid exactly when every input is complete, ordered, fresh and
    authoritative; a valid one accounts for every settlement, and only a valid one with
    enough edge and a favourable payment is eligible. *)
From Stdlib Require Import ZArith Lia Ascii SpecFloat Sorting.
From stdpp Require Import base list strings sets.
From S2P Require Import Prelude PyDecimal PyFloat PyFormat PyFloatOrder PyTime OpportunityKernel.
Open Scope Z_scope.

(** An observation that is neither of the future nor older than allowed. *)
Definition fresh (d : Z) (observed : option datetime) (max_age : float) : Prop :=
  exists t, observed = Some (Some t) /\ isfinite max_age = true /\ flt fzero max_age = true /\
    flt (total_seconds (d - t)) (flit "-1e-6") = false /\ flt max_age (total_seconds (d - t)) = false.

(** A settlement that can be evaluated at [t]. *)
Definition expected_at (d h : Z) (x : SettlementExpectation) (t : Z) : Prop :=
  settlement_time x = Some t /\ d < t <= h /\ isfinite (expected_rate x) = true /\
  fle fzero (eligibility_probability x) = true /\ fle (eligibility_probability x) (flit "1.0") = true.

(** Inputs that can be evaluated, with the decision at [d], the end of the horizon at
    [h] and the settlements at [ts]. *)
Record complete (i : OpportunityEvaluationInput) (d h : Z) (ts : list Z) : Prop := {
  symbol_named : strip (symbol i) <> EmptyString;
  direction_known : direction i = "long_spot_short_perp" \/ direction i = "short_spot_long_perp";
  decided_at : decision_time i = Some d;
  ends_at : horizon_end i = Some h;
  horizon_ahead : d < h;
  numbers_finite : forall nv, nv ∈ scalar_values i -> isfinite (snd nv) = true;
  notional_positive : flt fzero (funding_liable_notional_usd i) = true;
  notional_within_pair : fle (funding_liable_notional_usd i) (pair_gross_notional_usd i) = true;
  interval_in_range : flt fzero (settlement_interval_hours i) = true /\ fle (settlement_interval_hours i) (flit "24.0") = true;
  costs_not_negative : forall nv, nv ∈ costs i -> fle fzero (snd nv) = true;
  calendar_authority : calendar_authoritative i = true;
  calendar_fresh : fresh d (calendar_observed_at i) (max_calendar_age_seconds i);
  rate_fresh : fresh d (funding_rate_observed_at i) (max_funding_rate_age_seconds i);
  settlements_expected : Forall2 (expected_at d h) (settlements i) ts;
  settlements_ordered : StronglySorted Z.lt ts;
  some_settlement : ts <> []
}.

(** ** The scan of the settlements *)

Lemma in_unit_finite p : fle fzero p = true -> fle p (flit "1.0") = true -> isfinite p = true.
Proof. by destruct p as [|[]| |]. Qed.

(** Whether the settlements from [prev] on raise no objection. *)
Fixpoint accepted (d h : Z) (prev : option Z) (l : list SettlementExpectation) (ts : list Z) : Prop :=
  match l, ts with
  | [], [] => True
  | x :: l, t :: ts => expected_at d h x t /\ (forall p, prev = Some p -> p < t) /\ accepted d h (Some t) l ts
  | _, _ => False
  end.

Lemma accepted_spec d h l : forall prev ts, accepted d h prev l ts <->
  Forall2 (expected_at d h) l ts /\ StronglySorted Z.lt ts /\ (forall p, prev = Some p -> Forall (Z.lt p) ts).
Proof.
  induction l as [|x l IH]; intros prev [|t ts]; simpl.
  - split; [intros _; split_and!; constructor|done].
  - split; [done|]. intros (H & _). inversion H.
  - split; [done|]. intros (H & _). inversion H.
  - rewrite IH. split.
    + intros (Hx & Hp & Hl & Hs & Ht). specialize (Ht t eq_refl). split_and!; [by constructor|by constructor|].
      intros p E. specialize (Hp p E). constructor; [done|]. eapply Forall_impl; [exact Ht|]. simpl. lia.
    + intros (Hl & Hs & Hp). inversion Hl; subst. inversion Hs; subst. split_and!; try done.
      * intros p E. specialize (Hp p E). by inversion Hp.
      * by intros p [= <-].
Qed.

Section scan.
Context (i : OpportunityEvaluationInput).

Definition payment (x : SettlementExpectation) : float :=
  fmul (fmul (fmul (direction_sign i) (expected_rate x)) (eligibility_probability x)) (liable_notional i).

Lemma scan_ok acc x t : s_reasons acc = [] -> expected_at (decision_at i) (horizon_at i) x t ->
  (forall p, s_previous acc = Some p -> p < t) ->
  scan_settlement i acc x = Scan (fadd (s_gross acc) (payment x)) (Some t) (s_times acc ++ [t]) [].
Proof.
  intros Hr (Ht & [H1 H2] & Hf & P1 & P2) Hp. unfold scan_settlement, _utc, _finite.
  rewrite Ht, Hr, Hf, P1, P2, (in_unit_finite _ P1 P2). simpl.
  rewrite (proj2 (Z.leb_gt _ _) H1), (proj2 (Z.ltb_ge _ _) H2). simpl.
  destruct (s_previous acc) as [p|]; [|done]. by rewrite (proj2 (Z.leb_gt _ _) (Hp p eq_refl)).
Qed.

Lemma scan_step acc x : s_reasons (scan_settlement i acc x) = [] -> s_reasons acc = [] /\
  exists t, expected_at (decision_at i) (horizon_at i) x t /\ (forall p, s_previous acc = Some p -> p < t).
Proof.
  unfold scan_settlement, expected_at, _utc, _finite. destruct (settlement_time x) as [t|]; simpl.
  2: { rewrite app_nil. by intros []. }
  destruct (isfinite (expected_rate x)); simpl; [|rewrite !app_nil; naive_solver].
  destruct (fle fzero (eligibility_probability x) && fle (eligibility_probability x) (flit "1.0")) eqn:Ep; simpl.
  2: { rewrite orb_true_r. simpl. rewrite !app_nil. naive_solver. }
  apply andb_true_iff in Ep as [P1 P2]. rewrite (in_unit_finite _ P1 P2). simpl.
  rewrite !app_nil, !reason_if_nil, orb_false_iff, Z.leb_gt, Z.ltb_ge.
  intros (-> & (H1 & H2) & H3). split; [done|]. exists t. split_and!; try done.
  intros p E. rewrite E in H3. by apply Z.leb_gt in H3.
Qed.

(** A scan without objections has seen every settlement. *)
Lemma scan_all l : forall acc ts, s_reasons acc = [] ->
  accepted (decision_at i) (horizon_at i) (s_previous acc) l ts ->
  let r := fold_left (scan_settlement i) l acc in
  s_reasons r = [] /\ s_times r = s_times acc ++ ts /\
  s_gross r = fold_left (fun g x => fadd g (payment x)) l (s_gross acc).
Proof.
  induction l as [|x l IH]; intros acc [|t ts] Hr Ha; simpl; try done; [by rewrite app_nil_r|].
  destruct Ha as (He & Hp & Ha). rewrite (scan_ok _ _ _ Hr He Hp).
  destruct (IH (Scan (fadd (s_gross acc) (payment x)) (Some t) (s_times acc ++ [t]) []) ts eq_refl Ha) as (-> & -> & ->).
  simpl. by rewrite <- app_assoc.
Qed.

Lemma scan_inv l : forall acc, s_reasons (fold_left (scan_settlement i) l acc) = [] ->
  s_reasons acc = [] /\ exists ts, accepted (decision_at i) (horizon_at i) (s_previous acc) l ts.
Proof.
  induction l as [|x l IH]; intros acc Hr; simpl in *; [by split; [|exists []]|].
  apply IH in Hr as (Hx & ts & Ha). apply scan_step in Hx as (Hacc & t & He & Hp).
  rewrite (scan_ok _ _ _ Hacc He Hp) in Ha. split; [done|]. by exists (t :: ts).
Qed.
End scan.

(** ** Validity *)

Lemma observation_fresh i value age a b c : validate_observation i value age a b c = [] <-> fresh (decision_at i) value age.
Proof.
  unfold validate_observation, fresh, _utc, _finite. destruct value as [[t|]|]; simpl.
  - rewrite app_nil, !reason_if_nil, !orb_false_iff, negb_false_iff. split.
    + intros (H1 & (H2 & H3) & H4). exists t. split_and!; try done.
      rewrite flt_fle by (done || by apply finite_not_nan). by rewrite H3.
    + intros (t' & [= <-] & H2 & H3 & H1 & H4). split_and!; try done.
      rewrite flt_fle in H3 by (done || by apply finite_not_nan). by apply negb_true_iff in H3.
  - split; [done|]. by intros (t & [=] & _).
  - split; [done|]. by intros (t & [=] & _).
Qed.

Lemma upper_empty s : upper s = EmptyString <-> s = EmptyString.
Proof. by destruct s. Qed.

Lemma named_symbol i : negb (nonempty (symbol_of i)) = false <-> strip (symbol i) <> EmptyString.
Proof. unfold symbol_of. rewrite <- (upper_empty (strip _)). by destruct (upper _). Qed.

Lemma header_nil i : header_reasons i = [] <->
  strip (symbol i) <> EmptyString /\
  (direction i = "long_spot_short_perp" \/ direction i = "short_spot_long_perp") /\
  exists d h, decision_time i = Some d /\ horizon_end i = Some h /\ d < h.
Proof.
  unfold header_reasons. rewrite !app_nil, !reason_if_nil, named_symbol, negb_false_iff, str_in_spec.
  unfold directions, decision_at, horizon_at, instants, _utc.
  assert (forall P Q R R', (R <-> R') -> (P /\ Q /\ R <-> P /\ Q /\ R')) as Hc by tauto.
  rewrite elem_of_cons, list_elem_of_singleton. apply Hc.
  clear Hc. rewrite bool_decide_eq_false. destruct (decision_time i) as [d|], (horizon_end i) as [h|]; split;
    try (by intros [[] _]); try (by intros (? & ? & [=] & _)); try (by intros (? & ? & _ & [=] & _)).
  - intros (_ & H%Z.leb_gt). by exists d, h.
  - intros (d' & h' & [= <-] & [= <-] & H). split; [done|]. by apply Z.leb_gt.
Qed.

Lemma times_of i d h : decision_time i = Some d -> horizon_end i = Some h -> decision_at i = d /\ horizon_at i = h.
Proof. intros Hd Hh. unfold decision_at, horizon_at, instants, _utc. by rewrite Hd, Hh. Qed.

(** A finite notional is read as it is when it is positive. *)
Lemma charge_positive x : isfinite x = true -> fle (charge x) fzero = false <-> flt fzero x = true.
Proof.
  intros Hf. unfold charge, _finite, fmax. rewrite Hf. destruct (flt fzero x) eqn:E; [|by split].
  split; [done|]. intros _. rewrite flt_fle in E by (done || by apply finite_not_nan). by apply negb_true_iff in E.
Qed.

Lemma charge_same x : isfinite x = true -> flt fzero x = true -> charge x = x.
Proof. intros Hf H. unfold charge, _finite, fmax. by rewrite Hf, H. Qed.

Lemma notional_order x y : isfinite x = true -> isfinite y = true ->
  fle (charge y) fzero = false /\ fle (charge x) fzero = false /\ flt (charge y) (charge x) = false <->
  flt fzero x = true /\ fle x y = true.
Proof.
  intros Hx Hy. rewrite !charge_positive by done. split.
  - intros (Py & Px & H). split; [done|]. rewrite !charge_same in H by done. by apply finite_order.
  - intros (Px & H). assert (flt fzero y = true) as Py by (by apply (flt_fle_trans _ x)).
    split_and!; try done. rewrite !charge_same by done. by apply finite_order.
Qed.

Lemma listed_finite i name x : (name, x) ∈ scalar_values i ->
  (forall nv, nv ∈ scalar_values i -> isfinite (snd nv) = true) -> isfinite x = true.
Proof. intros Hin H. exact (H _ Hin). Qed.

Ltac listed := unfold scalar_values, costs; repeat (apply elem_of_cons; (left; reflexivity) || right).

(** The costs are among the numbers that must be finite. *)
Lemma costs_listed i nv : nv ∈ costs i -> nv ∈ scalar_values i.
Proof. unfold costs. intros H. repeat (apply elem_of_cons in H as [->|H]; [listed|]). by apply elem_of_nil in H. Qed.

Lemma scalar_nil i : scalar_reasons i = [] <->
  (forall nv, nv ∈ scalar_values i -> isfinite (snd nv) = true) /\
  (flt fzero (funding_liable_notional_usd i) = true /\
   fle (funding_liable_notional_usd i) (pair_gross_notional_usd i) = true) /\
  (flt fzero (settlement_interval_hours i) = true /\ fle (settlement_interval_hours i) (flit "24.0") = true) /\
  (forall nv, nv ∈ costs i -> fle fzero (snd nv) = true) /\ calendar_authoritative i = true.
Proof.
  unfold scalar_reasons, _finite. rewrite !app_nil, !reasons_per_item, !reason_if_nil, orb_false_iff, !negb_false_iff, andb_true_iff.
  setoid_rewrite negb_false_iff. setoid_rewrite andb_false_iff.
  assert (forall P Q R : Prop, (P -> (Q <-> R)) -> (P /\ Q <-> P /\ R)) as Hc by tauto. apply Hc. clear Hc. intros Hf.
  assert (isfinite (settlement_interval_hours i) = true /\ isfinite (pair_gross_notional_usd i) = true /\
    isfinite (funding_liable_notional_usd i) = true) as (F1 & F2 & F3)
    by (split_and!; [apply (Hf ("settlement_interval_hours", _))|apply (Hf ("pair_gross_notional", _))|
                     apply (Hf ("funding_liable_notional", _))]; listed).
  assert ((forall x, x ∈ costs i -> isfinite (snd x) = false \/ flt (snd x) fzero = false) <->
          (forall nv, nv ∈ costs i -> fle fzero (snd nv) = true)) as ->.
  { split; intros H nv Hin; specialize (H nv Hin); pose proof (Hf nv (costs_listed _ _ Hin)) as Hx.
    - destruct H as [H|H]; [by rewrite H in Hx|]. by apply (finite_order (snd nv) fzero Hx eq_refl).
    - right. by apply (finite_order (snd nv) fzero Hx eq_refl). }
  unfold pair_gross, liable_notional. rewrite <- (notional_order _ _ F3 F2). tauto.
Qed.

Lemma invalid_nil i : is_valid i = true <-> header_reasons i = [] /\ scalar_reasons i = [] /\
  observation_reasons i = [] /\ s_reasons (scanned i) = [] /\ settlements i <> [].
Proof.
  unfold is_valid. rewrite bool_decide_eq_true, dedupe_from_nil_iff. unfold invalid_reasons.
  by rewrite !app_nil, reason_if_nil, bool_decide_eq_false, length_zero_iff_nil.
Qed.

(** C4: an evaluation is valid exactly when its inputs are complete: named, directed and
    timed, with finite numbers, a positive notional that the pair covers, a settlement
    interval of a day at most, no negative cost, authoritative and fresh metadata, and
    a strictly increasing, non-empty list of settlements inside the horizon. *)
Theorem valid_exactly_when_complete i :
  valid (evaluate_opportunity i) = true <-> exists d h ts, complete i d h ts.
Proof.
  change (valid (evaluate_opportunity i)) with (is_valid i).
  rewrite invalid_nil, header_nil, scalar_nil. unfold observation_reasons, scanned.
  rewrite app_nil, !observation_fresh. split.
  - intros ((Hs & Hd & d & h & Et & Eh & Hlt) & (Hf & (Hp & Hq) & Hi & Hc & Ha) & (Ho1 & Ho2) & Hr & Hn).
    destruct (times_of _ _ _ Et Eh) as [Ed Eh']. rewrite Ed in Ho1, Ho2.
    apply scan_inv in Hr as (_ & ts & Hts). simpl in Hts. rewrite Ed, Eh' in Hts.
    apply accepted_spec in Hts as (Hall & Hsort & _).
    exists d, h, ts. constructor; try done. intros ->. by inversion Hall as [E|]; rewrite <- E in Hn.
  - intros (d & h & ts & [Hs Hd Et Eh Hlt Hf Hp Hq Hi Hc Ha Ho1 Ho2 Hall Hsort Hn]).
    destruct (times_of _ _ _ Et Eh) as [Ed Eh']. rewrite Ed. split_and!; try done; try apply Hi.
    + by exists d, h.
    + apply (scan_all i (settlements i) (Scan fzero None [] []) ts eq_refl).
      simpl. rewrite Ed, Eh'. by apply accepted_spec.
    + intros E. rewrite E in Hall. by inversion Hall; subst.
Qed.

(** ** What a valid evaluation says *)

(** Every settlement of a valid evaluation is counted and paid, in order. *)
Theorem valid_counts_every_settlement i d h ts : complete i d h ts ->
  let e := evaluate_opportunity i in
  gross_funding_usd e = fold_left (fun g x => fadd g (payment i x)) (settlements i) fzero /\
  settlement_count e = Z.of_nat (length (settlements i)) /\
  first_settlement_time e = head ts /\ last_settlement_time e = last ts /\
  funding_liable_notional_usd i = o_funding_liable_notional_usd e /\
  pair_gross_notional_usd i = o_pair_gross_notional_usd e.
Proof.
  intros [Hs Hd Et Eh Hlt Hf Hp Hq Hi Hc Ha Ho1 Ho2 Hall Hsort Hn] e.
  destruct (times_of _ _ _ Et Eh) as [Ed Eh'].
  destruct (scan_all i (settlements i) (Scan fzero None [] []) ts eq_refl) as (_ & Ht & Hg).
  { simpl. rewrite Ed, Eh'. by apply accepted_spec. }
  cbn [e evaluate_opportunity gross_funding_usd settlement_count first_settlement_time last_settlement_time
    o_funding_liable_notional_usd o_pair_gross_notional_usd].
  unfold gross_funding. unfold scanned. rewrite Ht, Hg. rewrite (Forall2_length _ _ _ Hall).
  assert (isfinite (pair_gross_notional_usd i) = true /\ isfinite (funding_liable_notional_usd i) = true) as (F2 & F3)
    by (split; [apply (Hf ("pair_gross_notional", _))|apply (Hf ("funding_liable_notional", _))]; listed).
  unfold liable_notional, pair_gross. rewrite !charge_same; try done. by apply (flt_fle_trans _ _ _ Hp).
Qed.

(** An opportunity is eligible exactly when its evaluation is valid, its net edge
    reaches the minimum and its funding is positive; then no reason is given. *)
Theorem eligible_exactly_when i :
  let e := evaluate_opportunity i in
  (eligible e = true <->
     valid e = true /\ fle (minimum_net_edge_bps i) (net_edge_bps e) = true /\ flt fzero (gross_funding_usd e) = true) /\
  (eligible e = true -> reason_codes e = []).
Proof.
  cbn [evaluate_opportunity eligible valid net_edge_bps gross_funding_usd reason_codes]. unfold is_eligible, all_reasons.
  destruct (is_valid i) eqn:Ev; [|by split; [split; [|intros []]|]].
  assert (minimum_edge i = minimum_net_edge_bps i) as Em.
  { apply invalid_nil in Ev as (_ & Hs & _). apply scalar_nil in Hs as [Hf _]. unfold minimum_edge, _finite.
    rewrite (listed_finite i "minimum_net_edge" (minimum_net_edge_bps i)); [done|listed|done]. }
  rewrite Em. simpl. rewrite andb_true_iff. split; [tauto|]. intros [H1 H2].
  rewrite (fle_not_gt _ _ H1), (flt_not_ge _ _ H2). unfold is_valid in Ev. apply bool_decide_eq_true in Ev.
  apply (proj1 (dedupe_from_nil_iff _)) in Ev. by rewrite Ev.
Qed.

(** ** An evaluation *)

(** Two settlements eight hours apart on a pair of 2000 dollars, decided a minute before
    the first one. *)
Definition example_input (rate : float) : OpportunityEvaluationInput :=
  Input " btcusdt " "long_spot_short_perp" (Some 1700000000000000) (Some 1700030000000000)
    (flit "2000") (flit "1000") (flit "8")
    [Settlement (Some 1700000060000000) rate (flit "1.0") "a"; Settlement (Some 1700028860000000) rate (flit "0.5") "b"]
    (flit "0.0004") (flit "0.0004") (flit "5") fzero fzero fzero fzero true
    (Some (Some 1699999990000000)) (Some (Some 1699999999000000)) (flit "60") (flit "60").

Example evaluation_examples :
  map (fun r => let e := evaluate_opportunity (example_input (flit r)) in
                (valid e, eligible e, reason_codes e, settlement_count e))
    ["0.002"; "0.0001"; "nan"] =
  [(true, true, [], 2); (true, false, ["net_edge_below_minimum"], 2); (false, false, ["invalid_settlement_rate"], 2)].
Proof. vm_compute. reflexivity. Qed.

(** A settlement at the decision, twice. *)
Example ordering_examples :
  let i := example_input (flit "0.002") in
  let again := Settlement (Some 1700000000000000) (flit "0.002") (flit "1.0") "a" in
  reason_codes (evaluate_opportunity
    (Input (symbol i) (direction i) (decision_time i) (horizon_end i) (flit "2000") (flit "1000") (flit "8") [again; again]
       (flit "0.0004") (flit "0.0004") (flit "5") fzero fzero fzero fzero true
       (calendar_observed_at i) (Some None) (flit "60") (flit "60")))
  = ["missing_funding_rate_timestamp"; "settlement_outside_horizon"; "unordered_or_duplicate_settlement"].
Proof. vm_compute. reflexivity. Qed.

Lemma valid_counts_every_settlement_witness :
  let e := evaluate_opportunity (example_input (flit "0.002")) in
  first_settlement_time e = Some 1700000060000000 /\ last_settlement_time e = Some 1700028860000000.
Proof.
  assert (complete (example_input (flit "0.002")) 1700000000000000 1700030000000000
    [1700000060000000; 1700028860000000]) as H.
  { constructor; try done; try (by left).
    - intros nv Hin. unfold scalar_values in Hin. repeat (apply elem_of_cons in Hin as [->|Hin]; [by vm_compute|]).
      by apply elem_of_nil in Hin.
    - intros nv Hin. unfold costs in Hin. repeat (apply elem_of_cons in Hin as [->|Hin]; [by vm_compute|]).
      by apply elem_of_nil in Hin.
    - by exists 1699999990000000.
    - by exists 1699999999000000.
    - repeat constructor; done.
    - repeat constructor; done. }
  destruct (valid_counts_every_settlement _ _ _ _ H) as (_ & _ & Hf & Hl & _).
  split; [exact Hf|exact Hl].
Defined.
