(* ===== verification/FundingForecast.v ===== *)
(** * Funding forecasts

    Model of [src/bongus/market_data/settlement_model.py]: the funding observations kept
    for each symbol, the history a decision may look at, and the forecast of every
    settlement in a horizon.  An instant is its UTC microseconds ([_as_utc] reads a
    [datetime] without offset as UTC).  [x ** n] and [math.erf] are those of the C
    library, which no document specifies to the last bit: they are parameters. *)
From Stdlib Require Import ZArith Lia Ascii SpecFloat.
From stdpp Require Import base list strings.
From S2P Require Import Prelude PyDecimal PyFloat PyTime PyValue PyCalendar FundingCalendar.
From S2P Require DomainUnits.
Open Scope Z_scope.

Record FundingObservation := Observation {
  symbol : string;
  available_at : Z;
  annualized_rate : float;
  event_time : option Z;
  premium_index : option float;
  basis_pct : option float;
  imbalance : option float;
  realized_volatility : option float;
  source_event_id : string
}.

Record SettlementPaymentForecast := PaymentForecast {
  p_symbol : string;
  settlement_time : Z;
  mean_rate : float;
  standard_deviation : float;
  lower_rate : float;
  upper_rate : float;
  favourable_sign_probability : float;
  p_expected_payment_usd : float;
  p_lower_payment_usd : float
}.

Inductive metadata := NoMetadata | Periods (annual_periods : float)
  | Rates (annual_periods latest_raw_rate robust_centre_raw_rate next_mean_raw_rate : float).

Record SettlementForecast := Forecast {
  f_symbol : string;
  decision_time : Z;
  direction : string;
  f_interval_hours : Z;
  sample_count : Z;
  latest_input_time : option Z;
  payments : list SettlementPaymentForecast;
  valid : bool;
  reason_codes : list string;
  f_metadata : metadata
}.

(** [sum] of floats, from the left. *)
Definition fsum (l : list float) : float := fold_left fadd l fzero.

Definition expected_payment_usd (f : SettlementForecast) : float := fsum (map p_expected_payment_usd (payments f)).
Definition lower_payment_usd (f : SettlementForecast) : float := fsum (map p_lower_payment_usd (payments f)).

(** ** The observations *)

(** [_observation_key]: the identifier the exchange gave, or the values. *)
Inductive observation_key :=
  | SourceKey (source : string)
  | ValueKey (event : option Z) (available : Z) (rate : float) (details : list (option float)).

Definition opt_feq (a b : option float) : bool :=
  match a, b with
  | Some x, Some y => feq x y
  | None, None => true
  | _, _ => false
  end.

Fixpoint all_eq (l m : list (option float)) : bool :=
  match l, m with
  | [], [] => true
  | a :: l, b :: m => opt_feq a b && all_eq l m
  | _, _ => false
  end.

(** Equality of the tuples; their floats are equal as numbers. *)
Definition key_eqb (a b : observation_key) : bool :=
  match a, b with
  | SourceKey s, SourceKey t => String.eqb s t
  | ValueKey e x r d, ValueKey e' x' r' d' => bool_decide (e = e') && (x =? x') && feq r r' && all_eq d d'
  | _, _ => false
  end.

Definition _observation_key (o : FundingObservation) : observation_key :=
  let source := strip (source_event_id o) in
  if nonempty source then SourceKey source
  else ValueKey (event_time o) (available_at o) (annualized_rate o)
         [premium_index o; basis_pct o; imbalance o; realized_volatility o].

(** A missing entry of the two default dictionaries reads as an empty one. *)
Record SettlementFundingModel := Model {
  _history : dict (list FundingObservation);
  _observation_keys : dict (list observation_key);
  _max_observations_per_symbol : Z;
  lookback_hours : float;
  decay_per_settlement : float;
  uncertainty_floor_rate : float;
  confidence_z : float
}.

Definition history_of (m : SettlementFundingModel) (s : string) : list FundingObservation :=
  default [] (dict_get (_history m) s).
Definition keys_of (m : SettlementFundingModel) (s : string) : list observation_key :=
  default [] (dict_get (_observation_keys m) s).

Definition new_model (max_observations : Z) (lookback decay floor z : float) : result SettlementFundingModel :=
  if max_observations <? 2 then raise ValueError "max_observations_per_symbol must be at least two"
  else if fle lookback fzero then raise ValueError "lookback_hours must be positive"
  else if negb (fle fzero decay && fle decay (flit "1.0")) then
    raise ValueError "decay_per_settlement must be between zero and one"
  else if fle floor fzero then raise ValueError "uncertainty_floor_rate must be positive"
  else Ok (Model [] [] max_observations lookback decay floor z).

(** The arguments left out at the only call. *)
Definition default_model : result SettlementFundingModel :=
  new_model 20000 (flit "336") (flit "0.82") (flit "1e-6") (flit "1.6448536269514722").

Definition check_finite (nv : string * option float) : result unit :=
  match snd nv with
  | Some x => if isfinite x then Ok tt else raise ValueError (fst nv +:+ " must be finite when supplied")
  | None => Ok tt
  end.

Definition _validate_observation (o : FundingObservation) : result FundingObservation :=
  let symbol := upper (strip (symbol o)) in
  if negb (nonempty symbol) then raise ValueError "funding observation requires a symbol"
  else if negb (isfinite (annualized_rate o)) then raise ValueError "annualized_rate must be finite"
  else
    let! _ := res_map_list check_finite
                [("premium_index", premium_index o); ("basis_pct", basis_pct o); ("imbalance", imbalance o);
                 ("realized_volatility", realized_volatility o)] in
    let event := default (available_at o) (event_time o) in
    if available_at o <? event then raise ValueError "funding event_time cannot follow available_at"
    else Ok (Observation symbol (available_at o) (annualized_rate o) (Some event) (premium_index o) (basis_pct o)
               (imbalance o) (realized_volatility o) (source_event_id o)).

Definition has_key (k : observation_key) (l : list observation_key) : bool := existsb (key_eqb k) l.
Definition discard (k : observation_key) (l : list observation_key) : list observation_key :=
  List.filter (fun k' => negb (key_eqb k k')) l.

Definition is_source (k : observation_key) : bool := match k with SourceKey _ => true | _ => false end.

(** A known source identifier must come with the rate it came with. *)
Definition collides (k : observation_key) (o : FundingObservation) (history : list FundingObservation) : bool :=
  is_source k &&
  match List.find (fun item => key_eqb (_observation_key item) k) history with
  | Some existing => negb (String.eqb (symbol existing) (symbol o)) || negb (feq (annualized_rate existing) (annualized_rate o))
  | None => false
  end.

Definition with_symbol (m : SettlementFundingModel) (s : string) (h : list FundingObservation) (ks : list observation_key)
    : SettlementFundingModel :=
  Model (dict_set (_history m) s h) (dict_set (_observation_keys m) s ks) (_max_observations_per_symbol m)
    (lookback_hours m) (decay_per_settlement m) (uncertainty_floor_rate m) (confidence_z m).

(** Appending to a full [deque] drops its first item, whose key is discarded before. *)
Definition observe (o : FundingObservation) : M SettlementFundingModel bool := fun m =>
  match _validate_observation o with
  | Err e => (Err e, m)
  | Ok o =>
      let s := symbol o in let k := _observation_key o in
      let history := history_of m s in let keys := keys_of m s in
      if has_key k keys then
        if collides k o history then (raise ValueError "funding source_event_id collision", m) else (Ok false, m)
      else
        let full := _max_observations_per_symbol m <=? Z.of_nat (length history) in
        let keys := match history with
                    | evicted :: _ => if full then discard (_observation_key evicted) keys else keys
                    | [] => keys
                    end in
        let history := if full then tl history ++ [o] else history ++ [o] in
        (Ok true, with_symbol m s history (keys ++ [k]))
  end.

Fixpoint observe_many (l : list FundingObservation) : M SettlementFundingModel unit :=
  match l with
  | [] => m_ret tt
  | o :: l => do! _ := observe o in observe_many l
  end.

(** ** The history of a decision *)

(** [timedelta(hours=x)] of a float. *)
Definition timedelta_of_hours (x : float) : result Z :=
  match x with
  | S754_nan => raise ValueError "cannot convert float NaN to integer"
  | S754_infinity _ => raise OverflowError "cannot convert float infinity to integer"
  | _ => timedelta_us (trunc_float x * 3600000000 + round_float (fmul (frac_float x) (flit "3600000000")))
  end.

Definition event_of (o : FundingObservation) : Z := default (available_at o) (event_time o).

(** The sort key [(event, available_at, source_event_id)]. *)
Definition earlier (a b : FundingObservation) : bool :=
  if event_of a =? event_of b then
    if available_at a =? available_at b then String.leb (source_event_id a) (source_event_id b)
    else available_at a <? available_at b
  else event_of a <? event_of b.

Definition _causal_history (m : SettlementFundingModel) (s : string) (decision : Z) : result (list FundingObservation) :=
  let! lookback := timedelta_of_hours (lookback_hours m) in
  let! cutoff := plus_delta decision (- lookback) in
  Ok (sort_by earlier
        (List.filter (fun o => (cutoff <=? available_at o) && (available_at o <=? decision)) (history_of m (upper s)))).

Definition history_snapshot (m : SettlementFundingModel) (s : string) : list FundingObservation :=
  history_of m (upper (strip s)).

(** [max] of the event times. *)
Definition latest_input (h : list FundingObservation) : option Z :=
  match map event_of h with
  | [] => None
  | t :: ts => Some (fold_left Z.max ts t)
  end.

(** ** Statistics *)

Definition float_of_int (z : Z) : float := match float_of_Z z with Ok x => x | Err _ => finf end.

(** [statistics.median] of a list that is not empty. *)
Definition median (l : list float) : float :=
  let s := sort_by (fun a b => negb (flt b a)) l in
  let n := length s in
  let at_ i := nth i s fzero in
  if Nat.odd n then at_ (n / 2)%nat else fdiv_ieee (fadd (at_ (n / 2 - 1)%nat) (at_ (n / 2)%nat)) (flit "2").

Definition math_sqrt (x : float) : result float :=
  if flt x fzero then raise ValueError "math domain error" else Ok (SFsqrt 53 1024 x).

Section forecast.
Context (pow : float -> Z -> result float) (erf : float -> float).

(** The last weight is [decay ** 0], so the divisor is not zero. *)
Definition _weighted_mean (values : list float) : result float :=
  let n := Z.of_nat (length values) in
  let! weights := res_map_list (fun index => pow (flit "0.94") (n - Z.of_nat index - 1)) (seq 0 (length values)) in
  Ok (fdiv_ieee (fsum (map (fun vw => fmul (fst vw) (snd vw)) (combine values weights))) (fsum weights)).

Definition _robust_standard_deviation (values : list float) (centre : float) : result float :=
  if (length values <? 2)%nat then Ok fzero
  else
    let mad_sigma := fmul (flit "1.4826") (median (map (fun v => SFabs (fsub v centre)) values)) in
    let! squares := res_map_list (fun v => pow (fsub v centre) 2) values in
    let! sample_sigma := math_sqrt (fdiv_ieee (fsum squares)
                           (float_of_int (Z.max 1 (Z.of_nat (length values) - 1)))) in
    Ok (fmax mad_sigma sample_sigma).

Definition micro_adjustment (latest : float) (o : FundingObservation) : float :=
  let a := match imbalance o with
           | Some x => fadd fzero (fmul (fmul (fmax (flit "-0.10") (fmin (flit "0.10") x)) (SFabs latest)) (flit "0.05"))
           | None => fzero
           end in
  match basis_pct o with
  | Some x => fadd a (fmul (fmax (flit "-0.001") (fmin (flit "0.001") x)) (flit "0.01"))
  | None => a
  end.

(** What the rates of the history say: the latest, the robust centre, the next mean and
    its standard deviation. *)
Record outlook := Outlook { latest : float; robust_centre : float; next_mean : float; sigma : float }.

Definition outlook_of (m : SettlementFundingModel) (history : list FundingObservation) : result outlook :=
  let! raw_rates := res_map_list (fun o => DomainUnits.raw_settlement_rate (DomainUnits.ReportingFloat (annualized_rate o))) history in
  let latest := List.last raw_rates fzero in
  let! weighted := _weighted_mean raw_rates in
  let robust_centre := median raw_rates in
  let micro := match last history with Some o => micro_adjustment latest o | None => fzero end in
  let next_mean := fadd (fadd (fadd (fmul (flit "0.60") latest) (fmul (flit "0.30") weighted))
                           (fmul (flit "0.10") robust_centre)) micro in
  let! robust := _robust_standard_deviation raw_rates weighted in
  let! root := math_sqrt (float_of_int (Z.max 1 (Z.of_nat (length raw_rates)))) in
  Ok (Outlook latest robust_centre next_mean
        (fmax (fmax (uncertainty_floor_rate m) robust) (fmul (SFabs next_mean) (fdiv_ieee (flit "0.50") root)))).

(** [NormalDist().cdf(x)] *)
Definition cdf (x : float) : float :=
  fmul (flit "0.5") (fadd (flit "1.0") (erf (fdiv_ieee (fsub x fzero) (fmul (flit "1.0") (SFsqrt 53 1024 (flit "2.0")))))).

(** The settlement number [index] of the horizon; the floor is positive, so the divisor
    of the probability is not zero. *)
Definition payment (m : SettlementFundingModel) (s : string) (notional sign : float) (o : outlook) (index : nat) (t : Z)
    : M FundingCalendar SettlementPaymentForecast :=
  do! persistence := m_lift (pow (decay_per_settlement m) (Z.of_nat index)) in
  do! mean := clamp_rate s (fadd (robust_centre o) (fmul (fsub (next_mean o) (robust_centre o)) persistence)) in
  do! root := m_lift (math_sqrt (float_of_int (Z.of_nat index + 1))) in
  let deviation := fmul (sigma o) root in
  do! lower := clamp_rate s (fsub mean (fmul (confidence_z m) deviation)) in
  do! upper_ := clamp_rate s (fadd mean (fmul (confidence_z m) deviation)) in
  let favourable := fmul sign mean in
  m_ret (PaymentForecast s t mean deviation lower upper_
           (cdf (fdiv_ieee favourable (fmax deviation (uncertainty_floor_rate m))))
           (fmul (fmul sign mean) notional)
           (fmul (if flt fzero sign then lower else SFopp upper_) notional)).

Fixpoint payments_from (m : SettlementFundingModel) (s : string) (notional sign : float) (o : outlook) (index : nat)
    (times : list Z) : M FundingCalendar (list SettlementPaymentForecast) :=
  match times with
  | [] => m_ret []
  | t :: times =>
      do! p := payment m s notional sign o index t in
      do! ps := payments_from m s notional sign o (S index) times in
      m_ret (p :: ps)
  end.

Definition directions : list string := ["long_spot_short_perp"; "short_spot_long_perp"].

Definition request_reasons (s : string) (horizon_hours notional : float) (direction : string) : list string :=
  reason_if (negb (nonempty s)) "missing_symbol"
  ++ reason_if (negb (str_in direction directions)) "unknown_direction"
  ++ reason_if (negb (isfinite horizon_hours) || fle horizon_hours fzero) "invalid_horizon"
  ++ reason_if (negb (isfinite notional) || fle notional fzero) "invalid_notional".

(** [annual_periods] *)
Definition annual_periods : float := DomainUnits.FUNDING_REPORTING_PERIODS_PER_YEAR.

(** The forecast from a history that is not empty; [None] would be a range request that
    does not end. *)
Definition forecast_from (m : SettlementFundingModel) (s : string) (decision : Z) (horizon_hours notional : float)
    (direction : string) (hours : Z) (history : list FundingObservation)
    : M FundingCalendar (option SettlementForecast) :=
  let count := Z.of_nat (length history) in
  do! o := m_lift (outlook_of m history) in
  do! horizon := m_lift (timedelta_of_hours horizon_hours) in
  do! horizon_end := m_lift (plus_delta decision horizon) in
  do! settlements := settlements_between s decision horizon_end 1000 in
  match settlements with
  | None => m_ret None
  | Some [] =>
      m_ret (Some (Forecast s decision direction hours count (latest_input history) [] true
                     ["no_settlement_in_horizon"] (Periods annual_periods)))
  | Some times =>
      let sign := if String.eqb direction "long_spot_short_perp" then flit "1.0" else flit "-1.0" in
      do! ps := payments_from m s notional sign o 0 times in
      m_ret (Some (Forecast s decision direction hours count (latest_input history) ps true []
                     (Rates annual_periods (latest o) (robust_centre o) (next_mean o))))
  end.

Definition forecast (m : SettlementFundingModel) (symbol : string) (decision : Z) (horizon_hours notional : float)
    (direction : string) : M FundingCalendar (option SettlementForecast) :=
  let s := upper (strip symbol) in
  do! history := m_lift (if nonempty s then _causal_history m s decision else Ok []) in
  let reasons := request_reasons s horizon_hours notional direction
                 ++ reason_if (bool_decide (length history = 0%nat)) "missing_point_in_time_history" in
  do! hours := (if nonempty s then interval_hours s else m_ret 8) in
  if negb (bool_decide (reasons = [])) then
    m_ret (Some (Forecast s decision direction hours (Z.of_nat (length history)) (latest_input history) [] false
                   (dedupe reasons) NoMetadata))
  else forecast_from m s decision horizon_hours notional direction hours history.

(** ** Calibration *)

Record ForecastCalibration := Calibration {
  c_sample_count : Z;
  mean_absolute_error : float;
  sign_brier_score : float;
  interval_coverage : float
}.

Definition calibration_row (row : SettlementPaymentForecast * float) : result (float * float * bool) :=
  let '(f, actual) := row in
  if negb (isfinite actual) then raise ValueError "actual funding rate must be finite"
  else
    let favourable := if fle fzero actual then flit "1.0" else fzero in
    let! brier := pow (fsub (favourable_sign_probability f) favourable) 2 in
    Ok (SFabs (fsub (mean_rate f) actual), brier, fle (lower_rate f) actual && fle actual (upper_rate f)).

Definition calibration_report (rows : list (SettlementPaymentForecast * float)) : result ForecastCalibration :=
  match rows with
  | [] => Ok (Calibration 0 S754_nan S754_nan S754_nan)
  | _ =>
      let! scored := res_map_list calibration_row rows in
      let n := float_of_int (Z.of_nat (length rows)) in
      let covered := Z.of_nat (length (List.filter snd scored)) in
      Ok (Calibration (Z.of_nat (length rows)) (fdiv_ieee (fsum (map (fun r => fst (fst r)) scored)) n)
            (fdiv_ieee (fsum (map (fun r => snd (fst r)) scored)) n)
            (fdiv_ieee (float_of_int covered) n))
  end.
End forecast.
