(* ===== verification/FundingForecastFacts.v ===== *)
(** * Properties of the funding forecasts

    What the model keeps of the observations; that an observation of after a decision
    does not change its forecast while the history has room, and that it does once an
    earlier observation is dropped for it; that a forecast ends and pays each settlement
    of its horizon once. *)
From Stdlib Require Import ZArith Lia Ascii SpecFloat.
From stdpp Require Import base list strings sets.
From S2P Require Import Prelude PyDecimal PyFloat PyFormat PyFloatOrder PyTime PyValue PyCalendar FundingCalendar.
From S2P Require Import FundingCalendarFacts FundingForecast.
Open Scope Z_scope.

(** ** Keys *)

Lemma all_eq_sym l : forall m, all_eq l m = all_eq m l.
Proof.
  induction l as [|a l IH]; intros [|b m]; simpl; try done. rewrite IH. f_equal.
  destruct a, b; simpl; try done. apply feq_sym.
Qed.

Lemma key_eqb_sym a b : key_eqb a b = key_eqb b a.
Proof.
  destruct a as [s|e x r d], b as [s'|e' x' r' d']; simpl; try done; [apply String.eqb_sym|].
  rewrite (feq_sym r), (all_eq_sym d), (Z.eqb_sym x). do 3 f_equal. apply bool_decide_ext. split; intros ->; done.
Qed.

(** Numbers that are there are finite. *)
Definition present_finite (d : option float) : Prop := forall x, d = Some x -> isfinite x = true.

(** An observation the model accepted, filed under [s]. *)
Record accepted (s : string) (o : FundingObservation) : Prop := {
  filed_under : symbol o = s;
  symbol_clean : s <> EmptyString /\ upper s = s;
  rate_finite : isfinite (annualized_rate o) = true;
  details_finite : Forall present_finite [premium_index o; basis_pct o; imbalance o; realized_volatility o];
  event_known : exists e, event_time o = Some e /\ e <= available_at o
}.

Lemma all_eq_refl l : Forall present_finite l -> all_eq l l = true.
Proof.
  induction 1 as [|[x|] l Hx _ IH]; simpl; [done| |done].
  rewrite feq_refl; [done|]. by apply finite_not_nan, Hx.
Qed.

Lemma key_eqb_refl s o : accepted s o -> key_eqb (_observation_key o) (_observation_key o) = true.
Proof.
  intros [_ _ Hr Hd _]. unfold _observation_key. destruct (nonempty _); simpl; [apply String.eqb_refl|].
  rewrite bool_decide_eq_true_2, Z.eqb_refl, feq_refl by (done || by apply finite_not_nan). simpl.
  exact (all_eq_refl _ Hd).
Qed.

Lemma check_finite_Ok name x : check_finite (name, x) = Ok tt <-> present_finite x.
Proof.
  unfold check_finite, present_finite. simpl. destruct x as [y|]; [|naive_solver].
  destruct (isfinite y) eqn:E; split; try done; [by intros _ z [= <-]|]. intros H. by rewrite (H y eq_refl) in E.
Qed.

Lemma validated o o' : _validate_observation o = Ok o' ->
  accepted (upper (strip (symbol o))) o' /\ available_at o' = available_at o.
Proof.
  unfold _validate_observation. intros H. destruct (nonempty (upper (strip (symbol o)))) eqn:En; [|done].
  destruct (isfinite (annualized_rate o)) eqn:Er; [|done]. cbn [negb] in H.
  apply res_bind_Ok in H as (us & Hc & H). cbn [res_map_list] in Hc.
  destruct (Z.ltb_spec (available_at o) (default (available_at o) (event_time o))) as [|He]; [done|].
  injection H as <-. split; [|done].
  repeat match goal with
  | H : context [check_finite (?n, ?x)] |- _ =>
      let E := fresh "F" in destruct (check_finite (n, x)) as [[]|] eqn:E; [|done]; apply check_finite_Ok in E; cbn in H
  end.
  constructor; simpl; try done.
  - split; [by destruct (upper _)|apply upper_idem].
  - by repeat constructor.
  - by eexists.
Qed.

(** ** The invariant *)

(** No two observations of a symbol have the same key. *)
Definition distinct_keys (ks : list observation_key) : Prop :=
  forall i j a b, ks !! i = Some a -> ks !! j = Some b -> i <> j -> key_eqb a b = false.

Record wf (m : SettlementFundingModel) : Prop := {
  bounded : forall s, Z.of_nat (length (history_of m s)) <= Z.max 0 (_max_observations_per_symbol m);
  all_accepted : forall s o, o ∈ history_of m s -> accepted s o;
  keys_follow : forall s, keys_of m s = map _observation_key (history_of m s);
  keys_distinct : forall s, distinct_keys (keys_of m s)
}.

Lemma history_with m s h ks s' : history_of (with_symbol m s h ks) s' = if String.eqb s' s then h else history_of m s'.
Proof. unfold history_of, with_symbol. simpl. rewrite dict_get_set. by destruct (String.eqb s' s). Qed.

Lemma keys_with m s h ks s' : keys_of (with_symbol m s h ks) s' = if String.eqb s' s then ks else keys_of m s'.
Proof. unfold keys_of, with_symbol. simpl. rewrite dict_get_set. by destruct (String.eqb s' s). Qed.

Lemma distinct_cons k ks : distinct_keys (k :: ks) <-> (forall k', k' ∈ ks -> key_eqb k k' = false) /\ distinct_keys ks.
Proof.
  split.
  - intros H. split.
    + intros k' (j & Hj)%list_elem_of_lookup_1. exact (H 0%nat (S j) _ _ eq_refl Hj ltac:(done)).
    + intros i j a b Hi Hj Hij. apply (H (S i) (S j)); try done. lia.
  - intros [H1 H2] [|i] [|j] a b Hi Hj Hij; simpl in *; try done.
    + injection Hi as <-. apply H1, (list_elem_of_lookup_2 _ _ _ Hj).
    + injection Hj as <-. rewrite key_eqb_sym. apply H1, (list_elem_of_lookup_2 _ _ _ Hi).
    + apply (H2 i j); try done. lia.
Qed.

Lemma distinct_snoc k ks : distinct_keys ks -> has_key k ks = false -> distinct_keys (ks ++ [k]).
Proof.
  induction ks as [|k0 ks IH]; simpl; intros Hd Hk.
  - apply distinct_cons. split; [intros k' H; by apply elem_of_nil in H|]. intros i j a b Hi. by destruct i.
  - apply distinct_cons in Hd as [H1 H2]. apply orb_false_iff in Hk as [Hk0 Hk]. apply distinct_cons. split; [|by apply IH].
    intros k' [H| ->%list_elem_of_singleton]%elem_of_app; [by apply H1|]. by rewrite key_eqb_sym.
Qed.

(** Dropping the key of the first observation drops that key alone. *)
Lemma discard_first s o h : accepted s o -> distinct_keys (map _observation_key (o :: h)) ->
  discard (_observation_key o) (map _observation_key (o :: h)) = map _observation_key h.
Proof.
  intros Ho. rewrite map_cons. intros [H1 _]%distinct_cons. revert H1. generalize (map _observation_key h). intros ks H1.
  unfold discard. simpl. rewrite (key_eqb_refl s o Ho). simpl. induction ks as [|k ks IH]; simpl; [done|].
  rewrite (H1 k) by (apply elem_of_cons; by left). simpl. f_equal. apply IH.
  intros k' H. apply H1, elem_of_cons. by right.
Qed.

Lemma has_key_tail k k0 ks : has_key k (k0 :: ks) = false -> has_key k ks = false.
Proof. simpl. by intros [_ H]%orb_false_iff. Qed.

Lemma observe_cases o m r m' : observe o m = (r, m') ->
  m' = m \/ exists o', _validate_observation o = Ok o' /\ r = Ok true /\
    let s := symbol o' in let h := history_of m s in
    has_key (_observation_key o') (keys_of m s) = false /\
    if _max_observations_per_symbol m <=? Z.of_nat (length h) then
      m' = with_symbol m s (tl h ++ [o'])
             (match h with e :: _ => discard (_observation_key e) (keys_of m s) | [] => keys_of m s end ++ [_observation_key o'])
    else m' = with_symbol m s (h ++ [o']) (keys_of m s ++ [_observation_key o']).
Proof.
  unfold observe. destruct (_validate_observation o) as [o'|e]; [|intros [= <- <-]; by left].
  destruct (has_key _ _) eqn:Ek; [destruct (collides _ _ _); intros [= <- <-]; by left|].
  intros [= <- <-]. right. exists o'. split; [done|]. split; [done|]. split; [done|].
  destruct (_ <=? _); [done|]. by destruct (history_of m (symbol o')).
Qed.

Lemma wf_store m s o h ks : wf m -> accepted s o ->
  ks = map _observation_key h -> distinct_keys ks -> has_key (_observation_key o) ks = false ->
  (forall o', o' ∈ h -> o' ∈ history_of m s) -> Z.of_nat (length h) < _max_observations_per_symbol m ->
  wf (with_symbol m s (h ++ [o]) (ks ++ [_observation_key o])).
Proof.
  intros [Hb Ha Hk Hd] Ho -> Hds Hn Hin Hl. constructor; intros s'; rewrite ?history_with, ?keys_with;
    destruct (String.eqb_spec s' s) as [->|Hne]; try done; try apply Ha; try apply Hb.
  - rewrite length_app. simpl. cbn [with_symbol _max_observations_per_symbol]. lia.
  - intros o' [H| ->%list_elem_of_singleton]%elem_of_app; [by apply Ha, Hin|done].
  - by rewrite map_app.
  - by apply distinct_snoc.
Qed.

(** Observing preserves the invariant. *)
Lemma observe_keeps_wf o m r m' : 2 <= _max_observations_per_symbol m -> wf m -> observe o m = (r, m') -> wf m'.
Proof.
  intros Hmax Hw E. destruct (observe_cases _ _ _ _ E) as [->|(o' & Hv & -> & Hn & Hm)]; [done|].
  apply validated in Hv as [Ho _]. pose proof (filed_under _ _ Ho) as Hs. rewrite Hs in *.
  set (s := upper (strip (symbol o))) in *. pose proof (keys_follow m Hw s) as Hk.
  destruct (Z.leb_spec (_max_observations_per_symbol m) (Z.of_nat (length (history_of m s)))) as [Hf|Hf].
  - destruct (history_of m s) as [|e h] eqn:Eh; [simpl in Hf; lia|]. rewrite Hk in Hm, Hn.
    pose proof (keys_distinct m Hw s) as Hd. rewrite Hk in Hd.
    rewrite (discard_first s) in Hm; [|apply (all_accepted m Hw); rewrite Eh; set_solver|done]. subst m'.
    pose proof (bounded m Hw s) as Hb. rewrite Eh in Hb. simpl in Hb.
    rewrite map_cons in Hd, Hn. apply distinct_cons in Hd as [_ Hd]. apply has_key_tail in Hn.
    apply (wf_store m s o' h); try done; [|lia]. intros x Hx. rewrite Eh. apply elem_of_cons. by right.
  - subst m'. apply wf_store; try done. apply (keys_distinct m Hw).
Qed.

Lemma observe_params o m r m' : observe o m = (r, m') ->
  _max_observations_per_symbol m' = _max_observations_per_symbol m /\ lookback_hours m' = lookback_hours m /\
  decay_per_settlement m' = decay_per_settlement m /\ uncertainty_floor_rate m' = uncertainty_floor_rate m /\
  confidence_z m' = confidence_z m.
Proof.
  intros E. destruct (observe_cases _ _ _ _ E) as [->|(o' & _ & _ & _ & Hm)]; [done|].
  destruct (_ <=? _); by subst.
Qed.

(** The models that a new one becomes by any calls of [observe], failed ones included. *)
Inductive reachable (m0 : SettlementFundingModel) : SettlementFundingModel -> Prop :=
  | reachable_new : reachable m0 m0
  | reachable_observe m o r m' : reachable m0 m -> observe o m = (r, m') -> reachable m0 m'.

(** Whatever is observed, each symbol keeps at most the configured number of
    observations, all of them checked, with exactly their keys remembered and no key
    twice. *)
Theorem observations_invariant n lookback decay floor z m0 m :
  new_model n lookback decay floor z = Ok m0 -> reachable m0 m -> wf m /\ _max_observations_per_symbol m = n.
Proof.
  intros Hnew. assert (2 <= n /\ _max_observations_per_symbol m0 = n /\ wf m0) as (Hn & Em & Hw).
  { unfold new_model in Hnew. destruct (Z.ltb_spec n 2); [done|]. res_inv Hnew. split; [lia|]. split; [done|].
    constructor; intros s; unfold history_of, keys_of; simpl; try done; [lia|intros o Ho; by apply elem_of_nil in Ho]. }
  induction 1 as [|m o r m' _ [IH En] E]; [done|].
  destruct (observe_params _ _ _ _ E) as [-> _]. split; [|done]. eapply observe_keeps_wf; eauto. lia.
Qed.

Definition ex_observation (t : Z) (rate source : string) : FundingObservation :=
  Observation "btcusdt" t (flit rate) None None None None None source.

Definition ex_model : SettlementFundingModel :=
  match new_model 2 (flit "336") (flit "0.82") (flit "1e-6") (flit "1.6448536269514722") with
  | Ok m => m
  | Err _ => Model [] [] 0 fzero fzero fzero fzero
  end.

Lemma observations_invariant_witness :
  wf (snd (observe (ex_observation 1784365200000000 "0.1" "a") ex_model)) /\
  _max_observations_per_symbol (snd (observe (ex_observation 1784365200000000 "0.1" "a") ex_model)) = 2.
Proof.
  apply (observations_invariant 2 (flit "336") (flit "0.82") (flit "1e-6") (flit "1.6448536269514722") ex_model).
  - reflexivity.
  - eapply reachable_observe; [apply reachable_new|]. apply surjective_pairing.
Defined.

(** ** No look ahead *)

(** Two models that a decision cannot tell apart. *)
Definition same_past (s : string) (decision : Z) (m m' : SettlementFundingModel) : Prop :=
  _causal_history m' s decision = _causal_history m s decision /\
  decay_per_settlement m' = decay_per_settlement m /\ uncertainty_floor_rate m' = uncertainty_floor_rate m /\
  confidence_z m' = confidence_z m.

Section look_ahead.
Context (pow : float -> Z -> result float) (erf : float -> float).

Lemma payments_same m m' s notional sign o times : decay_per_settlement m' = decay_per_settlement m ->
  uncertainty_floor_rate m' = uncertainty_floor_rate m -> confidence_z m' = confidence_z m ->
  forall index, payments_from pow erf m' s notional sign o index times = payments_from pow erf m s notional sign o index times.
Proof.
  intros Ed Ef Ez. induction times as [|t times IH]; intros index; simpl; [done|].
  rewrite IH. unfold payment. by rewrite Ed, Ef, Ez.
Qed.

(** The forecast reads nothing else. *)
Lemma forecast_same symbol decision horizon notional direction m m' c :
  same_past (upper (strip symbol)) decision m m' ->
  forecast pow erf m' symbol decision horizon notional direction c = forecast pow erf m symbol decision horizon notional direction c.
Proof.
  intros (Eh & Ed & Ef & Ez). unfold forecast, forecast_from, m_bind, m_lift. rewrite Eh.
  destruct (if nonempty _ then _ else _) as [h|]; [|done].
  destruct ((if nonempty (upper (strip symbol)) then interval_hours (upper (strip symbol)) else m_ret 8) c) as [[hours|] c'];
    [|done]. destruct (negb _); [done|].
  assert (outlook_of pow m' h = outlook_of pow m h) as -> by (unfold outlook_of; by rewrite Ef).
  destruct (outlook_of pow m h) as [o|]; [|done].
  destruct (timedelta_of_hours horizon) as [d|]; [|done]. destruct (plus_delta decision d) as [e|]; [|done].
  destruct (settlements_between _ _ _ _ c') as [[[[|t ts]|]|] c2]; try done. by rewrite (payments_same m m').
Qed.

(** C7: an observation that became available after a decision changes nothing of the
    forecast made for that decision, while its symbol has room for it. *)
Theorem later_observation_changes_nothing o m r m' symbol decision horizon notional direction c :
  observe o m = (r, m') -> decision < available_at o ->
  Z.of_nat (length (history_of m (upper (strip (FundingForecast.symbol o))))) < _max_observations_per_symbol m ->
  forecast pow erf m' symbol decision horizon notional direction c = forecast pow erf m symbol decision horizon notional direction c.
Proof.
  intros E Hlate Hroom. apply forecast_same. destruct (observe_params _ _ _ _ E) as (_ & El & Ed & Ef & Ez).
  split; [|done]. unfold _causal_history. rewrite El.
  destruct (timedelta_of_hours (lookback_hours m)) as [l|]; [|done]. simpl.
  destruct (plus_delta decision (- l)) as [cutoff|]; [|done]. simpl. do 2 f_equal.
  destruct (observe_cases _ _ _ _ E) as [->|(o' & Hv & _ & _ & Hm)]; [done|].
  apply validated in Hv as [Ho Ht]. rewrite (filed_under _ _ Ho) in Hm.
  destruct (Z.leb_spec (_max_observations_per_symbol m) (Z.of_nat (length (history_of m (upper (strip (FundingForecast.symbol o))))))); [lia|].
  subst m'. rewrite history_with. destruct (String.eqb_spec (upper (upper (strip symbol))) (upper (strip (FundingForecast.symbol o)))) as [->|]; [|done].
  rewrite List.filter_app. simpl. rewrite Ht. destruct (Z.leb_spec (available_at o) decision); [lia|].
  by rewrite andb_false_r, app_nil_r.
Qed.

(** ** What a forecast pays *)

Lemma payments_times m s notional sign o times : forall index c ps c',
  payments_from pow erf m s notional sign o index times c = (Ok ps, c') -> map settlement_time ps = times /\ Forall (fun p => p_symbol p = s) ps.
Proof.
  induction times as [|t times IH]; intros index c ps c' H; simpl in H; [by injection H as <- _|].
  unfold m_bind in H. destruct (payment _ _ _ _ _ _ _ _ _ c) as [[p|] c1] eqn:Ep; [|done].
  destruct (payments_from _ _ _ _ _ _ _ _ _ c1) as [[ps'|] c2] eqn:Eps; [|done].
  injection H as <- _. apply IH in Eps as [<- Hs].
  assert (settlement_time p = t /\ p_symbol p = s) as [Et Hp]; [|by rewrite map_cons, Et; split; [|constructor]].
  unfold payment, m_bind, m_lift, m_ret in Ep. by repeat (case_match; simplify_eq; try done).
Qed.

(** A forecast always ends.  A valid one has a history and pays each settlement of its
    horizon once, in order; an invalid one pays nothing and says why. *)
Theorem forecast_pays_each_settlement m symbol decision horizon notional direction c :
  match fst (forecast pow erf m symbol decision horizon notional direction c) with
  | Err _ => True
  | Ok None => False
  | Ok (Some f) =>
      if valid f then
        exists delta c1 times c2, 0 < sample_count f /\ timedelta_of_hours horizon = Ok delta /\
          settlements_between (f_symbol f) decision (decision + delta) 1000 c1 = (Ok (Some times), c2) /\
          map settlement_time (payments f) = times /\
          (reason_codes f = [] \/ times = [] /\ reason_codes f = ["no_settlement_in_horizon"])
      else payments f = [] /\ reason_codes f <> []
  end.
Proof.
  unfold forecast, forecast_from, m_bind, m_lift. set (s := upper (strip symbol)).
  destruct (if nonempty s then _ else _) as [h|]; [|done].
  destruct ((if nonempty s then interval_hours s else m_ret 8) c) as [[hours|] c1]; [|done].
  case_bool_decide as Er; cbn [negb].
  - apply app_nil in Er as [_ Er]. apply reason_if_nil, bool_decide_eq_false in Er.
    destruct (outlook_of pow m h) as [o|]; [|done].
    destruct (timedelta_of_hours horizon) as [d|] eqn:Ed; [|done]. destruct (plus_delta decision d) as [e|] eqn:Ee; [|done].
    assert (e = decision + d) as -> by (unfold plus_delta in Ee; by destruct (_ && _); [injection Ee|]).
    destruct (settlements_between s decision (decision + d) 1000 c1) as [[[times|]|] c2] eqn:Es; try done;
      [|by pose proof (settlements_never_stuck s decision (decision + d) 1000 c1) as Hn; rewrite Es in Hn].
    destruct times as [|t times]; [cbn; exists d, c1, [], c2; split_and!; try done; [lia|by right]|].
    destruct (payments_from _ _ _ _ _ _ _ _ _ c2) as [[ps|] c3] eqn:Ep; [|done].
    apply payments_times in Ep as [Ht _]. cbn. exists d, c1, (t :: times), c2. split_and!; try done; [lia|by left].
  - cbn. split; [done|]. by rewrite dedupe_from_nil_iff.
Qed.
End look_ahead.

(** ** Examples *)

(** Repeated multiplication for [**], and the identity for [math.erf]. *)
Definition ex_pow (x : float) (n : Z) : result float := Ok (Nat.iter (Z.to_nat n) (fmul x) (flit "1.0")).
Definition ex_erf (x : float) : float := x.

(** The model after two observations, at noon and an hour later. *)
Definition ex_noon : Z := 1784376000000000.
Definition ex_observed : SettlementFundingModel :=
  snd (observe_many [ex_observation ex_noon "0.1095" "a"; ex_observation (ex_noon + 3600000000) "0.219" "b"] ex_model).

Example forecast_example :
  match fst (forecast ex_pow ex_erf ex_observed " btcusdt" (ex_noon + 7200000000) (flit "16") (flit "1000")
               "long_spot_short_perp" (Calendar 8 [])) with
  | Ok (Some f) => (valid f, sample_count f, map settlement_time (payments f))
  | _ => (false, 0, [])
  end = (true, 2, [ex_noon + 4 * 3600000000; ex_noon + 12 * 3600000000]).
Proof. vm_compute. reflexivity. Qed.

Lemma later_observation_changes_nothing_witness :
  forecast ex_pow ex_erf (snd (observe (ex_observation (ex_noon + 1) "0.5" "z") ex_model)) "btcusdt" ex_noon (flit "16")
    (flit "1000") "long_spot_short_perp" (Calendar 8 [])
  = forecast ex_pow ex_erf ex_model "btcusdt" ex_noon (flit "16") (flit "1000") "long_spot_short_perp" (Calendar 8 []).
Proof.
  apply (later_observation_changes_nothing ex_pow ex_erf (ex_observation (ex_noon + 1) "0.5" "z") ex_model
           (fst (observe (ex_observation (ex_noon + 1) "0.5" "z") ex_model))); [apply surjective_pairing|done|done].
Defined.

(** A full history drops its first observation for the new one, whatever the time of
    either: a decision of before the new observation then sees one sample less. *)
Example later_observation_evicts :
  let seen m := res_map (map source_event_id) (_causal_history m "BTCUSDT" (ex_noon + 7200000000)) in
  let m' := snd (observe (ex_observation (ex_noon + 9000000000) "0.5" "c") ex_observed) in
  (seen ex_observed, seen m') = (Ok ["a"; "b"], Ok ["b"]).
Proof. vm_compute. reflexivity. Qed.

(** A source identifier first seen with a later time hides the observation of the
    earlier time. *)
Example later_observation_hides :
  let m := snd (observe_many [ex_observation (ex_noon + 9000000000) "0.1" "a"; ex_observation ex_noon "0.1" "a"] ex_model) in
  _causal_history m "BTCUSDT" (ex_noon + 7200000000) = Ok [].
Proof. vm_compute. reflexivity. Qed.
