(* ===== verification/LiveApproval.v ===== *)
(** * Live approval

    Model of [src/bongus/core/live_approval.py] and of the part of
    [src/scripts/live_trader_v2.py] that keeps a verified approval: the signed artifact,
    its verification, the binding to the account the exchange reports and the check made
    before every entry.  HMAC-SHA-256 is defined here from SHA-256.

    What the file system holds at a call is an argument, as is [json.loads], which
    also reads [NaN] and [Infinity], and the resolution of a path; texts are ASCII, so the
    bytes of a file are a string. *)
From Stdlib Require Import ZArith Lia Ascii SpecFloat.
From stdpp Require Import base list strings.
From S2P Require Import Prelude PyDecimal PyFloat PyTime PyValue PyCalendar.
Open Scope Z_scope.

(** ** HMAC (RFC 2104) with SHA-256 *)

Definition word_bytes (w : N) : list N := map (fun k => N.land (N.shiftr w k) 255) [24; 16; 8; 0]%N.
Definition sha256_bytes (l : list N) : list N := flat_map word_bytes (Sha256.digest l).

Definition bytes_of (s : string) : list N := map N_of_ascii (String.list_ascii_of_string s).

Definition hex_byte (n : N) : string := String (hex_char (N.shiftr n 4)) (String (hex_char (N.land n 15)) EmptyString).
Definition hex (l : list N) : string := fold_right (fun n acc => hex_byte n +:+ acc) EmptyString l.

(** [hmac.new(key, message, hashlib.sha256).hexdigest()] *)
Definition hmac_sha256_hex (key message : string) : string :=
  let k := bytes_of key in
  let k := if (64 <? length k)%nat then sha256_bytes k else k in
  let k := k ++ repeat 0%N (64 - length k) in
  hex (sha256_bytes (map (N.lxor 92) k ++ sha256_bytes (map (N.lxor 54) k ++ bytes_of message))).

(** RFC 4231, test cases 2 and 6. *)
Example hmac_short_key :
  hmac_sha256_hex "Jefe" "what do ya want for nothing?" = "5bdcc146bf60754e6a042426089575c75a003f089d2739839dec58b964ec3843".
Proof. vm_compute. reflexivity. Qed.

Example hmac_long_key :
  hmac_sha256_hex (String.string_of_list_ascii (repeat (ascii_of_N 170) 131)) "Test Using Larger Than Block-Size Key - Hash Key First"
  = "60e431591ee0b67f0d8a26aacbf5b77f8e0bc6213728c5140546040f0ee37f54".
Proof. vm_compute. reflexivity. Qed.

(** ** The artifact *)

Record VerifiedLiveApproval := Verified {
  path : string;
  approved_by : string;
  approved_at : string;
  expires_at : string;
  config_sha256 : string;
  release_manifest_sha256 : string;
  rust_binary_sha256 : string;
  decision_artifact_path : string;
  decision_artifact_sha256 : string;
  account_id : string;
  artifact_sha256 : string
}.

(** A path holds no regular file, one that cannot be read, or one with a content. *)
Inductive file := Missing | Unreadable | Content (bytes : string).

Definition refused {A} (message : string) : result A := raise LiveApprovalError message.

Definition require (ok : bool) (message : string) : result unit := if ok then Ok tt else refused message.

Definition encoding_errors (k : exn_kind) : bool := match k with TypeError | ValueError => true | _ => false end.

Definition canonical_approval_bytes (payload : dict pyval) : result string :=
  res_catch (json_dumps_with json_char false "," ":" false (VDict (dict_del payload "signature_hmac_sha256")))
    encoding_errors (refused "approval artifact is not canonical JSON").

(** [len(key) < 32]: the key is too short. *)
Definition short_key (key : string) : bool := (String.length key <? 32)%nat.

Definition sign_live_approval (payload : dict pyval) (key : string) : result string :=
  let! _ := require (negb (short_key key)) "live approval key must contain at least 32 bytes" in
  let! bytes := canonical_approval_bytes payload in
  Ok (hmac_sha256_hex key bytes).

(** [str(payload.get(key) or "").strip()] *)
Definition text_of (payload : dict pyval) (key : string) : string := strip (py_str (py_or (get payload key) (VStr ""))).

Definition _required_text (payload : dict pyval) (key : string) : result string :=
  let value := text_of payload key in
  let! _ := require (nonempty value) ("approval artifact missing " +:+ key) in Ok value.

Definition hex_digits : string := "0123456789abcdef".

Definition is_digest (value : string) : bool :=
  (String.length value =? 64)%nat && str_forallb (fun c => str_has (N_of_ascii c) hex_digits) value.

Definition _sha256_text (payload : dict pyval) (key : string) : result string :=
  let! value := _required_text payload key in
  let value := lower value in
  let! _ := require (is_digest value) ("approval artifact " +:+ key +:+ " is not a SHA-256 digest") in Ok value.

(** Only [fromisoformat] is inside the [try]. *)
Definition value_errors (k : exn_kind) : bool := match k with ValueError => true | _ => false end.

Definition _utc_timestamp (payload : dict pyval) (key : string) : result Z :=
  let! raw := _required_text payload key in
  let! parsed := res_catch (fromisoformat (replace_z raw)) value_errors
                   (refused ("approval artifact " +:+ key +:+ " is not ISO-8601")) in
  match snd parsed with
  | None => refused ("approval artifact " +:+ key +:+ " must include a timezone")
  | Some _ => to_utc parsed
  end.

(** ** Paths *)

(** The text before the last [/] of an absolute path. *)
Fixpoint parent_of (l : list ascii) : list ascii :=
  match l with
  | [] => []
  | c :: l' => if existsb (Ascii.eqb "/"%char) l' then c :: parent_of l' else []
  end.

Definition parent (p : string) : string := String.string_of_list_ascii (parent_of (String.list_ascii_of_string p)).

(** [p if p.is_absolute() else base.parent / p] *)
Definition beside (base p : string) : string :=
  if startswith "/" p then p else parent base +:+ "/" +:+ p.

Section verify.
(** The files of the moment, [Path.resolve] and [json.loads]. *)
Context (fs : string -> file) (resolve : string -> string) (loads : string -> result pyval).

Definition sha256_file (p : string) : result string :=
  match fs (resolve p) with
  | Content bytes => Ok (sha256_hex bytes)
  | _ => refused ("cannot hash approved file " +:+ resolve p)
  end.

Definition read_payload (p : string) : result (string * dict pyval) :=
  match fs p with
  | Missing => refused ("live approval artifact does not exist: " +:+ p)
  | Unreadable => refused "cannot read live approval artifact"
  | Content raw =>
      let! document := res_catch (loads raw) value_errors (refused "cannot read live approval artifact") in
      match document with
      | VDict payload => Ok (raw, payload)
      | _ => refused "live approval artifact root must be an object"
      end
  end.

Definition check_scope (payload : dict pyval) (key : string) : result unit :=
  let! version := py_int (py_or (get payload "schema_version") (VInt 0)) in
  let! _ := require (version =? 3) "unsupported live approval artifact schema" in
  let! _ := require (match get payload "approved" with VBool true => true | _ => false end)
              "live approval artifact is not approved" in
  let! _ := require (String.eqb (lower (text_of payload "trading_mode")) "live")
              "approval artifact does not authorize live mode" in
  require (negb (short_key key)) "live approval key must contain at least 32 bytes".

Definition check_signature (payload : dict pyval) (key : string) : result unit :=
  let! supplied := _sha256_text payload "signature_hmac_sha256" in
  let! expected := sign_live_approval payload key in
  require (String.eqb supplied expected) "live approval signature mismatch".

(** The window of the approval: (approved, expires). *)
Definition check_window (payload : dict pyval) (now : Z) : result (Z * Z) :=
  let! approved := _utc_timestamp payload "approved_at" in
  let! expires := _utc_timestamp payload "expires_at" in
  let! _ := require (approved <=? now) "live approval is future-dated" in
  let! _ := require (negb ((expires <=? approved) || (expires <=? now))) "live approval has expired" in
  let! _ := require (negb (flt (flit "86400") (total_seconds (expires - approved))))
              "live approval validity may not exceed 24 hours" in
  Ok (approved, expires).

(** The digest the artifact states under [key] must be [actual]. *)
Definition check_digest (payload : dict pyval) (key : string) (actual : result string) (message : string) : result string :=
  let! stated := _sha256_text payload key in
  let! actual := actual in
  let! _ := require (String.eqb stated actual) message in Ok stated.

Definition check_account (payload : dict pyval) (expected : option string) : result string :=
  let! account := _required_text payload "account_id" in
  let! _ := require (match expected with Some e => String.eqb account (strip e) | None => true end)
              "live approval account mismatch" in
  Ok account.

Definition check_decision (payload : dict pyval) (p : string) : result (string * string) :=
  let! stated := _sha256_text payload "decision_artifact_sha256" in
  let! text := _required_text payload "decision_artifact_path" in
  let decision := resolve (beside p text) in
  let! actual := sha256_file decision in
  let! _ := require (String.eqb stated actual) "live approval decision artifact hash mismatch" in
  Ok (decision, stated).

Definition verify_live_approval (artifact_path key expected_config_sha256 release_manifest_path rust_binary_path : string)
    (expected_account_id : option string) (now : Z) : result VerifiedLiveApproval :=
  let p := resolve artifact_path in
  let! read := read_payload p in
  let '(raw, payload) := read in
  let! _ := check_scope payload key in
  let! _ := check_signature payload key in
  let! window := check_window payload now in
  let '(approved, expires) := window in
  let! config := check_digest payload "config_sha256" (Ok (lower expected_config_sha256)) "live approval config hash mismatch" in
  let! release := check_digest payload "release_manifest_sha256" (sha256_file release_manifest_path)
                    "live approval release manifest hash mismatch" in
  let! rust := check_digest payload "rust_binary_sha256" (sha256_file rust_binary_path)
                 "live approval Rust binary hash mismatch" in
  let! account := check_account payload expected_account_id in
  let! decision := check_decision payload p in
  let! by_ := _required_text payload "approved_by" in
  let! _ := _required_text payload "nonce" in
  Ok (Verified p by_ (isoformat approved) (isoformat expires) config release rust (fst decision) (snd decision)
        account (sha256_hex raw)).
End verify.

(** ** The trader's approval *)

(** What the trader keeps of its approval, and what it published to the risk snapshot. *)
Record trader := Trader {
  _trading_mode : string;
  _verified_live_approval : option VerifiedLiveApproval;
  _verified_exchange_account_uid : string;
  risk_snapshots : list (dict pyval)
}.

(** What a start reads of the configuration, the environment and the release;
    [inventory] is false when [verify_runtime_inventory] refuses the release. *)
Record startup := Startup {
  last_error : string;
  missing_keys : list string;
  dangerous_enabled : list string;
  live_approval_required : bool;
  live_approval_artifact_path : pyval;
  version_hash : string;
  inventory : bool;
  approval_key : string;
  release_manifest : string;
  rust_binary : string;
  expected_account_uid : string
}.

Definition set_risk_snapshot (d : dict pyval) : M trader unit := fun t =>
  (Ok tt, Trader (_trading_mode t) (_verified_live_approval t) (_verified_exchange_account_uid t) (risk_snapshots t ++ [d])).

Definition set_approval (v : VerifiedLiveApproval) : M trader unit := fun t =>
  (Ok tt, Trader (_trading_mode t) (Some v) (_verified_exchange_account_uid t) (risk_snapshots t)).

Definition set_account_uid (uid : string) : M trader unit := fun t =>
  (Ok tt, Trader (_trading_mode t) (_verified_live_approval t) uid (risk_snapshots t)).

Definition approval_snapshot (v : VerifiedLiveApproval) : dict pyval :=
  [("live_approval_verified", VBool true);
   ("live_approval_artifact_sha256", VStr (artifact_sha256 v));
   ("live_approval_release_manifest_sha256", VStr (release_manifest_sha256 v));
   ("live_approval_approved_by", VStr (approved_by v));
   ("live_approval_expires_at", VStr (expires_at v));
   ("live_approval_decision_artifact_sha256", VStr (decision_artifact_sha256 v));
   ("live_approval_decision_artifact_path", VStr (decision_artifact_path v));
   ("live_approval_account_id", VStr (account_id v))].

Definition stop_if (b : bool) (message : string) : M trader unit :=
  if b then m_raise RuntimeError message else m_ret tt.

Section trader.
Context (fs : string -> file) (resolve : string -> string) (loads : string -> result pyval).

Definition artifact_path_of (s : startup) : string := strip (py_str (py_or (live_approval_artifact_path s) (VStr ""))).

Definition approve (s : startup) (now : Z) : result VerifiedLiveApproval :=
  verify_live_approval fs resolve loads (artifact_path_of s) (approval_key s) (version_hash s) (release_manifest s) (rust_binary s)
    (let uid := strip (expected_account_uid s) in if nonempty uid then Some uid else None) now.

Definition approval_errors (k : exn_kind) : bool := match k with LiveApprovalError => true | _ => false end.

Definition _validate_live_config_for_startup (s : startup) (now : Z) : M trader unit := fun t =>
  (if String.eqb (_trading_mode t) "paper" then m_ret tt
   else
     do! _ := stop_if (nonempty (last_error s)) ("live_config validation failed: " +:+ last_error s) in
     do! _ := stop_if (negb (bool_decide (missing_keys s = [])))
                ("live_config missing required live risk key(s): " +:+ str_join ", " (missing_keys s)) in
     do! _ := stop_if (negb (bool_decide (dangerous_enabled s = [])))
                ("live_config dangerous flag(s) must be disabled for startup: " +:+ str_join ", " (dangerous_enabled s)) in
     if negb (String.eqb (_trading_mode t) "live") then m_ret tt
     else
       do! _ := stop_if (negb (live_approval_required s)) "live approval cannot be disabled" in
       do! _ := stop_if (negb (nonempty (artifact_path_of s))) "live approval artifact path is required" in
       do! _ := stop_if (negb (inventory s)) "live approval verification failed" in
       do! v := m_lift (res_catch (approve s now) approval_errors (raise RuntimeError "live approval verification failed")) in
       do! _ := set_approval v in
       set_risk_snapshot (approval_snapshot v)) t.

(** [str(spot_account.get("uid") or "").strip()] of the account the exchange returned. *)
Definition observed_uid (snapshot : dict pyval) : string :=
  match get snapshot "spot_account" with VDict account => text_of account "uid" | _ => EmptyString end.

(** [StartupBlockedError] is a [RuntimeError]. *)
Definition _bind_live_approval_to_exchange_account (snapshot : dict pyval) : M trader unit := fun t =>
  (if negb (String.eqb (_trading_mode t) "live") then m_ret tt
   else
     match _verified_live_approval t with
     | None => m_raise RuntimeError "verified live approval is unavailable"
     | Some approval =>
         let uid := observed_uid snapshot in
         do! _ := stop_if (negb (nonempty uid)) "signed exchange account response did not contain a UID for live approval" in
         do! _ := stop_if (negb (String.eqb uid (account_id approval)))
                    "live approval account does not match signed exchange account UID" in
         do! _ := set_account_uid uid in
         set_risk_snapshot [("live_approval_exchange_account_verified", VBool true);
                            ("live_approval_exchange_account_uid", VStr uid)]
     end) t.

(** [None] lets an entry pass.  [config_hash] is the hash of the configuration in force
    and [manifest] the path of the release manifest.  The [astimezone] of the expiry reads
    an instant the artifact already gave. *)
Definition _live_approval_entry_block_reason (t : trader) (config_hash manifest : string) (now : Z) : result (option string) :=
  if negb (String.eqb (_trading_mode t) "live") then Ok None
  else
    match _verified_live_approval t with
    | None => Ok (Some "live approval unavailable")
    | Some v =>
        match (let! parsed := fromisoformat (replace_z (expires_at v)) in to_utc parsed) with
        | Err e => if value_errors (exn_class e) then Ok (Some "live approval expiry is invalid") else Err e
        | Ok expires =>
            if expires <=? now then Ok (Some "live approval expired")
            else if negb (String.eqb (config_sha256 v) config_hash) then Ok (Some "live approval config hash mismatch")
            else
              match sha256_file fs resolve manifest with
              | Err e => Ok (Some ("live approval release manifest unavailable: " +:+ exn_message e))
              | Ok actual =>
                  if negb (String.eqb actual (release_manifest_sha256 v)) then
                    Ok (Some "live approval release manifest hash mismatch")
                  else if negb (String.eqb (_verified_exchange_account_uid t) (account_id v)) then
                    Ok (Some "live approval exchange account binding unavailable")
                  else
                    match sha256_file fs resolve (decision_artifact_path v) with
                    | Err e => Ok (Some ("live approval decision artifact unavailable: " +:+ exn_message e))
                    | Ok actual =>
                        if negb (String.eqb actual (decision_artifact_sha256 v)) then
                          Ok (Some "live approval decision artifact hash mismatch")
                        else Ok None
                    end
              end
        end
    end.
End trader.
