(* ===== verification/LiveApprovalFacts.v ===== *)
(** * Properties of the live approval

    A verified approval was signed with the operator's key over exactly the fields it
    grants, for at most a day, and its digests are those of the files of that moment; after
    any history of starts and bindings an entry passes in live mode only under an approval
    that one of those starts verified, not expired, for the configuration, release and
    decision in force and the account a binding saw. *)
From Stdlib Require Import ZArith Lia Ascii SpecFloat.
From stdpp Require Import base list strings sets.
From S2P Require Import Prelude PyDecimal PyFloat PyTime PyTimeFacts PyValue PyCalendar PyCalendarFacts PyJson LiveApproval.
Open Scope Z_scope.

(** What the operator signed: the fields of an artifact and the window they are for. *)
Record granted (key : string) (payload : dict pyval) (from until : Z) : Prop := {
  key_long : (32 <= String.length key)%nat;
  approved_true : get payload "approved" = VBool true;
  for_live : lower (text_of payload "trading_mode") = "live";
  signed : exists bytes, canonical_approval_bytes payload = Ok bytes /\
             lower (text_of payload "signature_hmac_sha256") = hmac_sha256_hex key bytes;
  window : _utc_timestamp payload "approved_at" = Ok from /\ _utc_timestamp payload "expires_at" = Ok until;
  window_short : from < until <= from + 24 * 60 * 60 * 1000000;
  attributed : text_of payload "approved_by" <> EmptyString /\ text_of payload "nonce" <> EmptyString
}.

(** ** The checks *)

Lemma check_passed b msg u : require b msg = Ok u -> b = true.
Proof. by destruct b. Qed.

(** Opens the binds and the tests of a check that passed. *)
Ltac passed H :=
  repeat (apply res_bind_Ok in H; let x := fresh "x" in let E := fresh "E" in destruct H as (x & E & H);
          try (apply check_passed in E)).

Lemma required_text payload key v : _required_text payload key = Ok v -> v = text_of payload key /\ v <> EmptyString.
Proof. unfold _required_text. intros H. passed H. injection H as <-. split; [done|]. by destruct (text_of payload key). Qed.

Lemma sha256_text payload key v : _sha256_text payload key = Ok v -> v = lower (text_of payload key) /\ is_digest v = true.
Proof.
  unfold _sha256_text. intros H. passed H. injection H as <-. apply required_text in E as [-> _]. done.
Qed.

Lemma scope_checked payload key u : check_scope payload key = Ok u ->
  (32 <= String.length key)%nat /\ get payload "approved" = VBool true /\ lower (text_of payload "trading_mode") = "live".
Proof.
  unfold check_scope. intros H. passed H. apply check_passed in H. unfold short_key in H. apply negb_true_iff, Nat.ltb_ge in H.
  split; [done|]. split; [|by apply String.eqb_eq]. destruct (get payload "approved") as [|[]| | | | | |]; done.
Qed.

Lemma signature_checked payload key u : check_signature payload key = Ok u ->
  exists bytes, canonical_approval_bytes payload = Ok bytes /\
    lower (text_of payload "signature_hmac_sha256") = hmac_sha256_hex key bytes.
Proof.
  unfold check_signature, sign_live_approval. intros H. apply res_bind_Ok in H as (s & Es & H).
  apply res_bind_Ok in H as (e & Ee & H). apply check_passed, String.eqb_eq in H. subst e.
  apply sha256_text in Es as [-> _]. apply res_bind_Ok in Ee as (u1 & _ & Ee). apply res_bind_Ok in Ee as (bytes & Eb & Ee).
  injection Ee as Ee. by exists bytes.
Qed.

Lemma timestamp_in_range payload key t : _utc_timestamp payload key = Ok t -> in_range t = true.
Proof.
  unfold _utc_timestamp. intros H. apply res_bind_Ok in H as (raw & _ & H). apply res_bind_Ok in H as (p & _ & H).
  destruct (snd p) as [off|] eqn:Ep; [|done]. unfold to_utc, plus_delta in H.
  set (x := fst p + _) in H. unfold in_range, instant_min, instant_max. destruct (_ && _) eqn:E; [|done]. by injection H as <-.
Qed.

Lemma window_checked payload now from until : check_window payload now = Ok (from, until) ->
  _utc_timestamp payload "approved_at" = Ok from /\ _utc_timestamp payload "expires_at" = Ok until /\
  from <= now < until /\ from < until <= from + 24 * 60 * 60 * 1000000.
Proof.
  unfold check_window. intros H. apply res_bind_Ok in H as (a & Ea & H). apply res_bind_Ok in H as (e & Ee & H).
  apply res_bind_Ok in H as (u1 & E1%check_passed & H). apply res_bind_Ok in H as (u2 & E2%check_passed & H).
  apply res_bind_Ok in H as (u3 & E3%check_passed & H). injection H as <- <-. bool_props.
  pose proof (timestamp_in_range _ _ _ Ea) as Ra. pose proof (timestamp_in_range _ _ _ Ee) as Re.
  unfold in_range, instant_min, instant_max in *. bool_props.
  assert (e - a <= 86400 * 1000000); [|split_and!; try done; lia].
  apply seconds_not_more; [lia|lia|]. done.
Qed.

Section verified.
Context (fs : string -> file) (resolve : string -> string) (loads : string -> result pyval).

Lemma digest_checked payload key actual msg v : check_digest payload key actual msg = Ok v ->
  v = lower (text_of payload key) /\ actual = Ok v.
Proof.
  unfold check_digest. intros H. apply res_bind_Ok in H as (s & Es & H). apply res_bind_Ok in H as (a & Ea & H).
  apply res_bind_Ok in H as (u & Eu%check_passed & H). injection H as <-. apply String.eqb_eq in Eu. subst a.
  by apply sha256_text in Es as [-> _].
Qed.

Lemma decision_checked payload p d v : check_decision fs resolve payload p = Ok (d, v) ->
  v = lower (text_of payload "decision_artifact_sha256") /\ sha256_file fs resolve d = Ok v /\
  d = resolve (beside p (text_of payload "decision_artifact_path")).
Proof.
  unfold check_decision. intros H. apply res_bind_Ok in H as (s & Es & H). apply res_bind_Ok in H as (x & [-> _]%required_text & H).
  apply res_bind_Ok in H as (a & Ea & H). apply res_bind_Ok in H as (u & Eu%check_passed & H). injection H as <- <-.
  apply String.eqb_eq in Eu. subst a. by apply sha256_text in Es as [-> _].
Qed.

(** What a verified approval says of its artifact and of the files. *)
Record authentic (p key config manifest rust : string) (account : option string) (now : Z) (v : VerifiedLiveApproval)
    (raw : string) (payload : dict pyval) (from until : Z) : Prop := {
  artifact_read : fs (resolve p) = Content raw /\ loads raw = Ok (VDict payload);
  artifact_hash : artifact_sha256 v = sha256_hex raw;
  grant : granted key payload from until;
  in_window : from <= now < until;
  expiry_kept : expires_at v = isoformat until;
  config_granted : config_sha256 v = lower (text_of payload "config_sha256") /\ config_sha256 v = lower config;
  release_granted : release_manifest_sha256 v = lower (text_of payload "release_manifest_sha256") /\
    sha256_file fs resolve manifest = Ok (release_manifest_sha256 v);
  rust_granted : rust_binary_sha256 v = lower (text_of payload "rust_binary_sha256") /\
    sha256_file fs resolve rust = Ok (rust_binary_sha256 v);
  decision_granted : decision_artifact_sha256 v = lower (text_of payload "decision_artifact_sha256") /\
    sha256_file fs resolve (decision_artifact_path v) = Ok (decision_artifact_sha256 v) /\
    decision_artifact_path v = resolve (beside (resolve p) (text_of payload "decision_artifact_path"));
  account_granted : account_id v = text_of payload "account_id" /\ account_id v <> EmptyString /\ forall a, account = Some a -> account_id v = strip a
}.

(** An approval is verified only when the artifact is signed with the key over its
    own fields, its window holds now and is of a day at most, and every digest it states
    is that of the configuration and of the files at this moment. *)
Theorem verified_is_authentic p key config manifest rust account now v :
  verify_live_approval fs resolve loads p key config manifest rust account now = Ok v ->
  exists raw payload from until, authentic p key config manifest rust account now v raw payload from until.
Proof.
  unfold verify_live_approval. intros H. apply res_bind_Ok in H as ([raw payload] & Eread & H).
  apply res_bind_Ok in H as (u1 & Escope%scope_checked & H). apply res_bind_Ok in H as (u2 & Esig%signature_checked & H).
  apply res_bind_Ok in H as ([from until] & Ewin%window_checked & H).
  apply res_bind_Ok in H as (c & Ec%digest_checked & H). apply res_bind_Ok in H as (m & Em%digest_checked & H).
  apply res_bind_Ok in H as (r & Er%digest_checked & H). apply res_bind_Ok in H as (a & Ea & H).
  apply res_bind_Ok in H as ([d dh] & Ed%decision_checked & H). apply res_bind_Ok in H as (b & Eb%required_text & H).
  apply res_bind_Ok in H as (n & En%required_text & H). injection H as <-.
  exists raw, payload, from, until. destruct Ewin as (Ef & Eu & Hw & Hs).
  destruct Eb as [-> Hb], En as [-> Hn]. constructor; cbn; try tauto.
  - unfold read_payload in Eread. destruct (fs (resolve p)) as [| |bytes]; try done.
    apply res_bind_Ok in Eread as (doc & Eload & Edoc). destruct doc; try done. injection Edoc as <- <-. split; [done|].
    destruct (loads bytes) as [w|e]; [by injection Eload as ->|]. simpl in Eload. by destruct (value_errors _).
  - destruct Escope as (? & ? & ?). by constructor.
  - destruct Ec as [-> Ec]. split; [done|]. by injection Ec.
  - unfold check_account in Ea. apply res_bind_Ok in Ea as (t & Et%required_text & Ea).
    apply res_bind_Ok in Ea as (u & Eu'%check_passed & Ea). injection Ea as <-. destruct Et as [-> Hne]. split; [done|]. split; [done|].
    intros x ->. by apply String.eqb_eq.
Qed.
End verified.

(** ** The trader *)

(** A start with what it reads, or the binding to the account the exchange returned. *)
Inductive event :=
  | Start (fs : string -> file) (resolve : string -> string) (loads : string -> result pyval) (s : startup) (now : Z)
  | Bind (snapshot : dict pyval).

Definition after (t : trader) (e : event) : trader :=
  match e with
  | Start fs resolve loads s now => snd (_validate_live_config_for_startup fs resolve loads s now t)
  | Bind snapshot => snd (_bind_live_approval_to_exchange_account snapshot t)
  end.

(** The trader that a history leads to. *)
Definition trader_of (mode : string) (events : list event) : trader := fold_left after events (Trader mode None EmptyString []).

(** An approval was verified by a start whose configuration and release were sound, from
    the file it read and with the key it had. *)
Definition verified_by (v : VerifiedLiveApproval) (e : event) : Prop :=
  match e with
  | Start fs resolve loads s now => exists account raw payload from until,
      missing_keys s = [] /\ dangerous_enabled s = [] /\ live_approval_required s = true /\ inventory s = true /\
      authentic fs resolve loads (artifact_path_of s) (approval_key s) (version_hash s) (release_manifest s) (rust_binary s)
        account now v raw payload from until
  | Bind _ => False
  end.

Record trusted (events : list event) (mode : string) (t : trader) : Prop := {
  mode_kept : _trading_mode t = mode;
  approval_verified : forall v, _verified_live_approval t = Some v -> exists e, e ∈ events /\ verified_by v e;
  account_observed : _verified_exchange_account_uid t <> EmptyString ->
    exists snapshot, Bind snapshot ∈ events /\ observed_uid snapshot = _verified_exchange_account_uid t
}.

Lemma trusted_later events e mode t : trusted events mode t -> trusted (events ++ [e]) mode t.
Proof.
  intros [Hm Hv Hu]. constructor; [done|..].
  - intros v (x & Hx & Hxv)%Hv. exists x. split; [|done]. apply elem_of_app. by left.
  - intros (x & Hx & Hxu)%Hu. exists x. split; [|done]. apply elem_of_app. by left.
Qed.

Lemma last_event (events : list event) e : e ∈ events ++ [e].
Proof. apply elem_of_app. right. by apply list_elem_of_singleton. Qed.

Lemma start_trusted fs resolve loads s now events mode t : trusted events mode t ->
  trusted (events ++ [Start fs resolve loads s now]) mode (after t (Start fs resolve loads s now)).
Proof.
  intros Ht%(trusted_later _ (Start fs resolve loads s now)). cbn [after].
  unfold _validate_live_config_for_startup, stop_if, m_bind, m_ret, m_raise, m_lift.
  destruct (String.eqb (_trading_mode t) "paper"); [done|]. destruct (nonempty (last_error s)); [done|].
  case_bool_decide as E1; simpl; [|done]. case_bool_decide as E2; simpl; [|done].
  destruct (negb (String.eqb (_trading_mode t) "live")); [done|].
  destruct (live_approval_required s) eqn:E3; simpl; [|done]. destruct (negb (nonempty _)); [done|].
  destruct (inventory s) eqn:E4; simpl; [|done].
  destruct (approve fs resolve loads s now) as [v|e] eqn:Ea; simpl; [|by destruct (approval_errors _)].
  destruct Ht as [Hm _ Hu]. constructor; cbn; [done| |done]. intros w [= <-].
  apply verified_is_authentic in Ea as (raw & payload & from & until & Ha).
  exists (Start fs resolve loads s now). split; [apply last_event|]. cbn. eauto 12.
Qed.

Lemma bind_trusted snapshot events mode t : trusted events mode t -> trusted (events ++ [Bind snapshot]) mode (after t (Bind snapshot)).
Proof.
  intros Ht%(trusted_later _ (Bind snapshot)). cbn [after].
  unfold _bind_live_approval_to_exchange_account, stop_if, m_bind, m_ret, m_raise.
  destruct (negb (String.eqb _ _)); [done|]. destruct (_verified_live_approval t) as [v|] eqn:Ev; [|done].
  destruct (negb (nonempty _)); [done|]. destruct (negb (String.eqb _ _)); [done|].
  destruct Ht as [Hm Hv _]. constructor; cbn; [done|by rewrite Ev in *|]. intros _. exists snapshot. split; [apply last_event|done].
Qed.

Lemma trader_trusted mode events : trusted events mode (trader_of mode events).
Proof.
  induction events as [|e events IH] using rev_ind; [by constructor|]. unfold trader_of. rewrite fold_left_app. cbn [fold_left].
  destruct e; [by apply start_trusted|by apply bind_trusted].
Qed.

Lemma file_Ok fs resolve p h : sha256_file fs resolve p = Ok h -> exists bytes, fs (resolve p) = Content bytes /\ h = sha256_hex bytes.
Proof. unfold sha256_file. destruct (fs (resolve p)) as [| |bytes]; intros H; try done. exists bytes. by injection H as <-. Qed.

Lemma entry_allowed fs resolve t config manifest now : _trading_mode t = "live" ->
  _live_approval_entry_block_reason fs resolve t config manifest now = Ok None ->
  exists v, _verified_live_approval t = Some v /\
    (exists until, (let! parsed := fromisoformat (replace_z (expires_at v)) in to_utc parsed) = Ok until /\ now < until) /\
    config_sha256 v = config /\ sha256_file fs resolve manifest = Ok (release_manifest_sha256 v) /\
    _verified_exchange_account_uid t = account_id v /\
    sha256_file fs resolve (decision_artifact_path v) = Ok (decision_artifact_sha256 v).
Proof.
  intros Hm. unfold _live_approval_entry_block_reason. rewrite Hm. simpl.
  destruct (_verified_live_approval t) as [v|]; [|done]. intros H. exists v. split; [done|]. revert H.
  destruct (res_bind _ _) as [until|e]; [|by destruct (value_errors _)].
  destruct (Z.leb_spec until now) as [|Hlt]; [done|]. destruct (String.eqb_spec (config_sha256 v) config); simpl; [|done].
  destruct (sha256_file fs resolve manifest) as [h|]; [|done]. destruct (String.eqb_spec h (release_manifest_sha256 v)) as [->|]; simpl; [|done].
  destruct (String.eqb_spec (_verified_exchange_account_uid t) (account_id v)); simpl; [|done].
  destruct (sha256_file fs resolve (decision_artifact_path v)) as [d|]; [|done].
  destruct (String.eqb_spec d (decision_artifact_sha256 v)) as [->|]; simpl; [|done]. intros _. split_and!; try done. by exists until.
Qed.

(** C3: in live mode, whatever starts and bindings came before, an entry passes the approval
    check only if one of the starts read an artifact that is signed with the key that start
    was given, grants live trading in a window of a day at most that held then and has not
    ended now, and states the digests of the release manifest, the Rust binary and the
    decision of that moment; the configuration in force, the release manifest and the
    decision on disk still have the digests that were signed; and one of the bindings saw the
    account it names. *)
Theorem live_entries_are_authorized fs resolve events config manifest now :
  _live_approval_entry_block_reason fs resolve (trader_of "live" events) config manifest now = Ok None ->
  exists fs0 resolve0 loads0 s now0 raw payload from until snapshot,
    Start fs0 resolve0 loads0 s now0 ∈ events /\ live_approval_required s = true /\ inventory s = true /\
    missing_keys s = [] /\ dangerous_enabled s = [] /\
    (fs0 (resolve0 (artifact_path_of s)) = Content raw /\ loads0 raw = Ok (VDict payload)) /\
    granted (approval_key s) payload from until /\ from <= now0 < until /\ now < until /\
    (lower (text_of payload "config_sha256") = lower (version_hash s) /\ lower (text_of payload "config_sha256") = config) /\
    (let release := lower (text_of payload "release_manifest_sha256") in
     sha256_file fs0 resolve0 (release_manifest s) = Ok release /\ sha256_file fs resolve manifest = Ok release) /\
    sha256_file fs0 resolve0 (rust_binary s) = Ok (lower (text_of payload "rust_binary_sha256")) /\
    (let decision := lower (text_of payload "decision_artifact_sha256") in
     let path := resolve0 (beside (resolve0 (artifact_path_of s)) (text_of payload "decision_artifact_path")) in
     sha256_file fs0 resolve0 path = Ok decision /\ sha256_file fs resolve path = Ok decision) /\
    (Bind snapshot ∈ events /\ observed_uid snapshot = text_of payload "account_id" /\ text_of payload "account_id" <> EmptyString).
Proof.
  destruct (trader_trusted "live" events) as [Hm Hap Hobs]. intros Hg.
  destruct (entry_allowed _ _ _ _ _ _ Hm Hg) as (v & Hv & (u & Hu & Hlt) & Hc & Hman & Hacc & Hdec).
  destruct (Hap v Hv) as ([fs0 resolve0 loads0 s now0|] & Hin & Hby); [|done].
  destruct Hby as (account & raw & payload & from & until & H1 & H2 & H3 & H4 & Ha).
  destruct Ha as [Hread _ Hgr Hwin Hexp [Ec1 Ec2] [Em1 Em2] [Er1 Er2] (Ed1 & Ed2 & Ed3) (Ea & Hne & _)].
  rewrite Hacc in Hobs. destruct (Hobs Hne) as (snapshot & Hsn & Hobs').
  assert (u = until) as ->.
  { pose proof (timestamp_in_range _ _ _ (proj2 (window _ _ _ _ Hgr))) as Hr.
    rewrite Hexp, replace_z_isoformat, fromisoformat_isoformat in Hu by done. cbn [res_bind] in Hu.
    rewrite to_utc_utc in Hu by done. by injection Hu. }
  rewrite Ec1 in *. rewrite Em1 in *. rewrite Er1 in *. rewrite Ed1, Ed3 in *. rewrite Ea in *.
  destruct Hread, Hwin. exists fs0, resolve0, loads0, s, now0, raw, payload, from, until, snapshot. by split_and!.
Qed.

(** ** A live start *)

Definition ex_key : string := "operator-held-live-approval-key-32-bytes-minimum".
Definition ex_config : string := Eval vm_compute in sha256_hex "config".
Definition ex_noon : Z := 1786276800000000.

Definition ex_fields : dict pyval := Eval vm_compute in
  [("schema_version", VInt 3); ("approved", VBool true); ("trading_mode", VStr "live");
   ("approved_by", VStr "risk-owner@example.test"); ("approved_at", VStr (isoformat ex_noon));
   ("expires_at", VStr (isoformat (ex_noon + 4 * 60 * 60 * 1000000))); ("config_sha256", VStr ex_config);
   ("release_manifest_sha256", VStr (sha256_hex "manifest")); ("rust_binary_sha256", VStr (sha256_hex "packaged-rust-binary"));
   ("decision_artifact_path", VStr "gate-d-decision.json"); ("decision_artifact_sha256", VStr (sha256_hex "GO"));
   ("account_id", VStr "account-1"); ("nonce", VStr "review-001")].

Definition ex_signature : string := Eval vm_compute in
  match sign_live_approval ex_fields ex_key with Ok s => s | Err _ => EmptyString end.

Definition artifact_of (fields : dict pyval) : string :=
  match json_dumps_spaced (VDict (fields ++ [("signature_hmac_sha256", VStr ex_signature)])) with Ok s => s | Err _ => EmptyString end.

Definition ex_files (artifact : string) (p : string) : file :=
  match dict_get [("/approvals/approval.json", artifact); ("/release-manifest.json", "manifest");
                  ("/execution_engine", "packaged-rust-binary"); ("/approvals/gate-d-decision.json", "GO")] p with
  | Some s => Content s
  | None => Missing
  end.

Definition ex_startup : startup :=
  Startup EmptyString [] [] true (VStr "/approvals/approval.json") ex_config true ex_key "/release-manifest.json"
    "/execution_engine" EmptyString.

Definition ex_started (artifact : string) : trader :=
  snd (_validate_live_config_for_startup (ex_files artifact) (fun p => p) json_loads ex_startup (ex_noon + 60000000)
         (Trader "live" None EmptyString [])).

Definition ex_account (uid : string) : dict pyval := [("spot_account", VDict [("uid", VStr uid)])].

Definition ex_trader : trader := snd (_bind_live_approval_to_exchange_account (ex_account "account-1") (ex_started (artifact_of ex_fields))).

Definition ex_gate (t : trader) (now : Z) : result (option string) :=
  _live_approval_entry_block_reason (ex_files (artifact_of ex_fields)) (fun p => p) t ex_config "/release-manifest.json" now.

Example gate_examples :
  (ex_gate ex_trader (ex_noon + 120000000), ex_gate ex_trader (ex_noon + 4 * 60 * 60 * 1000000),
   ex_gate (ex_started (artifact_of ex_fields)) (ex_noon + 120000000))
  = (Ok None, Ok (Some "live approval expired"), Ok (Some "live approval exchange account binding unavailable")).
Proof. vm_compute. reflexivity. Qed.

(** Changing a signed field leaves the start without an approval. *)
Example tampered_artifact :
  _verified_live_approval (ex_started (artifact_of (dict_set ex_fields "account_id" (VStr "account-2")))) = None.
Proof. vm_compute. reflexivity. Qed.

(** The check before an entry reads the release manifest and the decision again, and not
    the Rust binary, whose digest is signed as well: an entry passes after it was replaced. *)
Definition replaced_binary (p : string) : file :=
  if String.eqb p "/execution_engine" then Content "another binary" else ex_files (artifact_of ex_fields) p.

Example replaced_binary_passes :
  _live_approval_entry_block_reason replaced_binary (fun p => p) ex_trader ex_config "/release-manifest.json" (ex_noon + 120000000)
  = Ok None.
Proof. vm_compute. reflexivity. Qed.

Definition ex_events : list event :=
  [Start (ex_files (artifact_of ex_fields)) (fun p => p) json_loads ex_startup (ex_noon + 60000000); Bind (ex_account "account-1")].

Lemma live_entries_are_authorized_witness :
  exists fs0 resolve0 loads0 s now0 payload from until, Start fs0 resolve0 loads0 s now0 ∈ ex_events /\
    granted (approval_key s) payload from until /\ ex_noon + 120000000 < until.
Proof.
  destruct (live_entries_are_authorized (ex_files (artifact_of ex_fields)) (fun p => p) ex_events ex_config "/release-manifest.json"
    (ex_noon + 120000000)) as (fs0 & resolve0 & loads0 & s & now0 & raw & payload & from & until & snapshot & Hin & _ & _ & _ & _ & _ & Hg & _ & Hu & _).
  - vm_compute. reflexivity.
  - exists fs0, resolve0, loads0, s, now0, payload, from, until. split; [exact Hin|]. split; [exact Hg|exact Hu].
Defined.
